(* ===== verification/_CoqProject ===== *)
-Q . S2P
Prelude.v
Ring.v
Cmem.v
KString.v
Kstate.v
Spinlock.v
SpinlockConc.v
Sleep.v
SleepConc.v
Sleeplock.v
Kalloc.v
Vm.v
VmSpec.v
UserMem.v
VmCopy.v
Printf.v
Bio.v
BioSpec.v
Log.v
LogSpec.v
BioProps.v
LogCrash.v
LogSafe.v
Tx.v
Fs.v
FsSpec.v
FsView.v
FsTable.v
FsFile.v
FsWrite.v
FsUser.v
FsDir.v
FsPath.v
FsTrunc.v
Mkfs.v
MkfsSpec.v
MkfsBoot.v
Console.v
ConsoleSpec.v
Pipe.v
PipeSpec.v
File.v
Proc.v
Exec.v
Syscall.v
SbrkSpec.v
Sysfile.v
Virtio.v
VirtioSpec.v
LogConc.v
Start.v
Trap.v
Grep.v
Ulib.v
Sh.v
ShSpec.v
ShRun.v
UserSys.v
FileSpec.v
UserProgs.v
Filters.v
ShMain.v
Stress.v
Umalloc.v
