(* ===== verification/Prelude.v ===== *)
(** xv6-riscv: a verification development of the teaching kernel and of the
    user programs around it.

    * The program

    src/kernel holds a small Unix kernel for RISC-V multiprocessors: locks,
    processes, page tables, a console, a disk driver, and a file system built
    in layers (driver, buffer cache, redo log, inodes, directories, file
    descriptors).  src/user holds the C library and the programs of the first
    user space, the shell among them; src/mkfs holds the program that builds
    the first disk image on the host.  This development translates the C code
    function by function and proves what the parts promise each other.

    * How the code is represented

    - Integers are [Z] with the wrap-around of their C type written out
      ([u8], [u16], [u32], [u64], [s16], [s32], [s64] of this file).
    - Kernel code is written in the resumption monad [M] of this file: a
      computation returns ([Done]), panics ([Panicked], with the message),
      waits for the rest of the system ([Waiting], with its continuation) or
      runs out of fuel.  Spinning on a held lock and [swtch] to the scheduler
      are the waits; [run] resumes them with the changes other threads make.
    - [Kstate] is one record [kstate] of all the globals of the kernel.
      Pointers into static tables are indexes, pages of the allocator are
      addresses of the byte memory [pmem] of [Cmem].
    - User programs that do more than compute are interaction trees over
      their system calls ([UserSys]).  They run on any system whose calls meet
      [UserSys.sys_spec], an interface that says what the programs rely on; a
      program that ends or returns is one whose interpretation is equivalent to
      that result, so that non-termination is excluded.
    - What lies outside src/ is a parameter: the registers of devices
      ([Printf.Device]), the virtio disk that serves the driver's rings
      ([Virtio.VirtioBlk], whose documented behaviour is
      [Virtio.VirtioBlkSpec]), the end of the kernel's image and the top of memory
      ([Kalloc.Layout]), addresses of symbols of the assembly files
      ([Proc.Symbols]), the time register ([Trap.Clock]), sbrk for the user
      allocator, the byte order of mkfs's host ([Mkfs.HostOrder]) and the
      files it has ([Mkfs.host]).  The disk driver is an interface,
      [Bio.BlockDev], whose contract [BioSpec.BlockDevSpec] the virtio driver is proved to meet.
    - Loops without a structural bound take fuel.  Loops over tables, pages
      and bytes are given their exact bound; loops that wait for another
      thread take the parameter [Fuel], one unit per wake-up, and theorems
      about them hold for every positive fuel in the states they describe.
      The loops of the user programs are given a bound computed from their
      input, and the theorems show that it is enough.

    * Files, and the code they model

    Foundations: Prelude (integers, the monad, tactics), Ring (ring buffers
    with 32-bit counters), Cmem (byte memory, little-endian layout), Kstate
    (constants and structures of the headers).

    Locks and scheduling: KString is string.c.  Spinlock and Sleeplock are
    spinlock.c and sleeplock.c; Sleep is the scheduling half of proc.c.
    SpinlockConc and SleepConc model acquire/release and sleep/wakeup one
    memory access at a time, for any number of harts and of wakers.

    Memory: Kalloc is kalloc.c, Vm is vm.c; VmSpec gives page tables their
    meaning and UserMem the bytes a user program sees through one; VmCopy is
    about the copy of an address space for fork.

    Devices: Printf is printf.c and the output half of uart.c and console.c,
    Console is console.c, Virtio is virtio_disk.c.

    File system: Bio is bio.c, Log is log.c, Fs is fs.c, File is file.c, Pipe
    is pipe.c.  BioSpec and BioProps describe the cache by maps from block
    numbers to contents, counts and locks; LogSpec, LogCrash and LogSafe
    follow commit and recovery write by write; LogConc follows concurrent
    operations.  Tx is about one transaction: the blocks it may still log and
    the buffers it may still use, and the steps (read, change, log, release)
    code inside a transaction is made of.  On it, FsSpec describes blocks and
    inodes.  FsView is what files are, without the code: which blocks a file
    has, through the indirect block too, its bytes, how both change when a
    block is added or written, and tables of files that share no block.  FsFile
    shows what bmap and readi do in those terms, FsWrite what writei does to
    one file and to the others, FsUser the same for buffers of a user program,
    FsDir directories as lists of entries.  FsTable describes the inode table
    by the references held to each inode, FsPath path names by walks through a
    tree of directories, FsTrunc what itrunc and the last iput of a file free.
    FileSpec relates fileread to the read of UserSys.
    Mkfs is mkfs.c; MkfsSpec describes the image it builds
    as files of FsView, MkfsBoot what the kernel does on it.

    Processes and system calls: Proc is the rest of proc.c, Exec is exec.c,
    Syscall is syscall.c and sysproc.c, Sysfile is sysfile.c, Trap is trap.c,
    plic.c and main.c, Start is start.c.

    User space: Ulib is ulib.c and user/printf.c, Umalloc is umalloc.c.  UserSys
    has the calls of user.h, the functions of the library that make them, the
    interface [sys_spec] and a system that meets it.  Sh, ShSpec and ShRun are
    the parser of sh.c and the calls of a parsed command, ShMain its main loop.
    Grep is the matcher of grep.c, Filters the rest of it and wc.c.  UserProgs
    is cat.c, echo.c, init.c, kill.c, ln.c, ls.c, mkdir.c, rm.c, zombie.c,
    forktest.c, forphan.c and dorphan.c; Stress is grind.c, logstress.c and
    stressfs.c.

    * What the theorems show

    Concurrency.  Two harts never hold a spin lock at once, under every
    interleaving of their memory accesses, no check of acquire, release or
    pop_off panics, and interrupts are off while the lock is held and as
    before after it (SpinlockConc).  A wakeup is never
    lost between the test of a condition and going to sleep (SleepConc).
    However file system operations interleave, begin_op has reserved enough
    log space that log_write never overflows the log, and the disk is written
    only by a commit, which runs while no operation is open and holds off all
    others until it is done (LogConc); the operations are resumptions scheduled
    in any order.

    Crash safety.  A crash between any two disk writes of a commit leaves a
    disk from which recovery produces the state before the transaction or the
    state after it, and nothing else (LogSafe).  log_write absorbs repeated
    writes of a block.

    Refinement.  The page allocator implements a stack of free pages
    (Kalloc).  The buffer cache serves the latest contents, replaces the
    least recently used free buffer and writes through (BioProps).  The
    virtio driver, interrupt handler and scheduler, with any device that
    behaves as the virtio specification says, meet the cache's contract of a
    block device (VirtioSpec).  A pipe is a bounded
    queue (PipeSpec), the console ring a queue of lines being edited
    (ConsoleSpec), malloc and free a set of free cells (Umalloc).

    Page tables.  mappages and uvmunmap add and remove exactly the
    translations they name (VmSpec); copyout and copyin move bytes between
    the kernel and what the page table maps (UserMem).  uvmcopy gives a child
    the parent's pages, in frames of its own, or, only where free pages run
    short, gives up and leaves nothing behind; no page in use is written either
    way (VmCopy).

    File system.  balloc hands out a free block zeroed, bfree clears its bit
    and panics on a free block, iupdate and ilock are inverse (FsSpec).
    writei, growing the file by direct and indirect blocks as it needs,
    leaves a table of files that share no block such a table, each with its
    blocks marked in the bitmap; the file has the bytes written, and no other
    byte of any file changes.  readi delivers what the file has from an
    offset, on every branch (FsWrite), and what a user program writes it reads
    back through its page table (FsUser).  A name dirlink enters is what
    dirlookup finds, in a directory of any length, and no other lookup changes
    (FsDir).  namex follows every path to the inode the directories lead to,
    and takes exactly one reference, or none when there is no such inode
    (FsPath, on the lemmas about iget, ilock, iunlock and iput of FsTable).
    The last iput of a file without names frees exactly its blocks and its
    inode, and leaves the other files as they were (FsTrunc).
    fileread, from the open file through the inode and the cache to the page
    table of the process, is the read user programs rely on: the open file is
    a stream with the rest of the file as its input (FileSpec).
    mkfs, given files that fit, ends with an image that has the superblock, an
    empty log, a root directory with the names it was given and the bytes of
    each file, on blocks no two files share and the bitmap marks; and from any
    state at rest on that image namei finds each name and readi delivers the
    bytes (MkfsBoot).  The kernel's theorems are about operations with room left in the log, the cache
    and the bitmap; for the log, LogConc shows that begin_op reserves it.

    Kernel services on every branch: sleep, wakeup, the scheduler, kkill,
    sleep locks, string routines, printing of integers.

    User programs.  The shell's parser terminates on every line and parses
    back every command written out (Sh, ShSpec); running a command makes the
    processes it means, which start programs and wait with the right files on
    descriptors 0 and 1 and no pipe left open, and report the calls that fail
    (ShRun).  Its main loop serves the lines of its input in order, changing
    directory itself, and the child it forks for a line makes the calls of the
    command typed there (ShMain).  grep's
    matcher decides the language of its pattern (Grep), and grep prints the
    matching lines of its files however reads cut them; wc and cat likewise
    (Filters, UserProgs).  init starts a shell again each time it exits, its
    child being the one that executes sh; ls
    prints the entries of a directory, echo, rm, mkdir and forktest do what
    their names say (UserProgs).  grind's generator is the one of Park and
    Miller (Stress).

    Defects.  SbrkSpec shows that lazy sbrk lets a user process panic the
    kernel; Umalloc shows a request for which malloc returns memory that the
    process does not have.

    * Limits

    - One kernel thread runs between two waits: data races are the subject of
      the two instruction-level models only, where memory is sequentially
      consistent: what the fences of acquire and release are for is assumed.
    - Theorems about the cache, the log and the inode layer describe one
      thread in the kernel ([Sleeplock.quiet]); LogConc is about many.
    - A commit is proved crash-safe for at most 29 logged blocks: with 30 the
      cache has no buffer left for the log block (NBUF = LOGBLOCKS).
    - The image of mkfs is described for a little-endian host and fewer than
      199 files, whose directory entries do not end at a block boundary: the
      code goes wrong there (MkfsSpec.fix_root_hole).
    - A disk write is atomic; a crash loses memory and nothing else.
    - [UserSys.sys_spec] is derived from the model of the kernel for the read
      of a file only (FileSpec), below the table of descriptors of the process.
      It treats every descriptor as a stream that accepts every byte and has a
      stat structure, where the kernel refuses writes to what is not open for
      writing or has no reader, and fstat of a pipe.  It says nothing of calls
      such as unlink and chdir but that they were made.
    - The processes of a shell command (ShRun) form a tree: what each of them
      does is in order, but when one process runs relative to another, and when
      a wait returns, is not represented.

    * Not modelled

    - Assembly (entry.S, kernelvec.S, swtch.S, trampoline.S): register
      saving; the C code around it is modelled, swtch being a wait.
    - Messages of mkfs.c, and failing seeks and writes of its image file.
    - The allocation of the nodes of a parsed command by the shell.
    - memdump, an exercise whose function is empty, and usertests, which tests
      the system from outside and is no part of it.
    - Build files, link scripts and the generator of system call stubs. *)

From stdpp Require Export base gmap strings list list_numbers fin_maps.
From Stdlib Require Export ZArith Lia.
#[export] Set Default Goal Selector "!".
Declare Scope xv6_scope.
Delimit Scope xv6_scope with xv6.
Local Open Scope Z_scope.

(** ** Machine integers: [Z] with the wrap-around of each width written out. *)
Definition u8 (x : Z) : Z := x mod 256.
Definition u16 (x : Z) : Z := x mod 65536.
Definition u32 (x : Z) : Z := x mod 4294967296.
Definition u64 (x : Z) : Z := x mod 18446744073709551616.

(** Two's complement reading of the low 16 and 32 bits. *)
Definition s16 (x : Z) : Z := (x + 32768) mod 65536 - 32768.
Definition s32 (x : Z) : Z := (x + 2147483648) mod 4294967296 - 2147483648.
Definition s64 (x : Z) : Z :=
  (x + 9223372036854775808) mod 18446744073709551616 - 9223372036854775808.

(** ** Outcomes of kernel code.

    [Done a s]: the function returned [a] in state [s].
    [Panicked msg]: it called [panic(msg)], which never returns.
    [Waiting s k]: the running thread gave up the processor in state [s]
    (it switched to the scheduler, or spins on a held lock); when the rest of
    the system has moved the state to [s'], it goes on as [k s'].
    [OutOfFuel]: a retry loop was cut after [fuel] rounds. *)
Inductive outcome (S A : Type) : Type :=
| Done (a : A) (s : S)
| Panicked (msg : string)
| Waiting (s : S) (k : S → outcome S A)
| OutOfFuel.
Arguments Done {S A} a s.
Arguments Panicked {S A} msg.
Arguments Waiting {S A} s k.
Arguments OutOfFuel {S A}.

Definition M (S A : Type) : Type := S → outcome S A.

Fixpoint obind {S A B} (o : outcome S A) (f : A → S → outcome S B) : outcome S B :=
  match o with
  | Done a s => f a s
  | Panicked msg => Panicked msg
  | Waiting s k => Waiting s (λ s', obind (k s') f)
  | OutOfFuel => OutOfFuel
  end.

#[global] Instance M_ret {S} : MRet (M S) := λ A a s, Done a s.
#[global] Instance M_bind {S} : MBind (M S) := λ A B f m s, obind (m s) f.

Definition get {S} : M S S := λ s, Done s s.
Definition gets {S A} (f : S → A) : M S A := λ s, Done (f s) s.
Definition modify {S} (f : S → S) : M S unit := λ s, Done () (f s).
Definition panic {S A} (msg : string) : M S A := λ _, Panicked msg.
Definition out_of_fuel {S A} : M S A := λ _, OutOfFuel.
(** Give up the processor; continue from whatever state the system reaches. *)
Definition yield_cpu {S} : M S unit := λ s, Waiting s (λ s', Done () s').
Definition when {S} (b : bool) (m : M S unit) : M S unit :=
  if b then m else mret ().

(** [for] loops over a known range, without and with an early exit. *)
Fixpoint mfor {S A} (l : list A) (body : A → M S unit) : M S unit :=
  match l with
  | [] => mret ()
  | x :: l => body x ;; mfor l body
  end.

Fixpoint mfor_ret {S A R} (l : list A) (body : A → M S (option R)) : M S (option R) :=
  match l with
  | [] => mret None
  | x :: l =>
      r ← body x;
      match r with
      | Some v => mret (Some v)
      | None => mfor_ret l body
      end
  end.

(** How many rounds a retry loop (a sleep or spin loop) is followed for. *)
Class Fuel := fuel : nat.

(** ** Reasoning about outcomes *)

(** [wp I Q o]: no run of [o] panics; whenever the thread waits it leaves a
    state in [I], and from every state of [I] it is resumed in it goes on to
    meet [Q]. Running out of rounds is allowed. *)
Fixpoint wp {S A} (I : S → Prop) (Q : A → S → Prop) (o : outcome S A) : Prop :=
  match o with
  | Done a s => Q a s
  | Panicked _ => False
  | Waiting s k => I s ∧ ∀ s', I s' → wp I Q (k s')
  | OutOfFuel => True
  end.

(** [run envs o]: the thread is resumed after each wait by the next state
    transformer of [envs], which is what the rest of the system did. *)
Fixpoint run {S A} (envs : list (S → S)) (o : outcome S A) : outcome S A :=
  match envs, o with
  | e :: envs, Waiting s k => run envs (k (e s))
  | _, _ => o
  end.

Section monad.
Context {S : Type}.
Implicit Types s : S.

Lemma bind_done {A B} (m : M S A) (f : A → M S B) s a s' :
  m s = Done a s' → (m ≫= f) s = f a s'.
Proof. intros H. unfold mbind, M_bind. by rewrite H. Qed.
Lemma bind_nested {A B C} (m : M S A) (f : A → M S B) (g : B → M S C) s b s' :
  (m ≫= f) s = Done b s' → (m ≫= λ a, f a ≫= g) s = g b s'.
Proof. unfold mbind, M_bind. destruct (m s) as [a s1| | |]; cbn; try done. by intros ->. Qed.

Lemma bind_panicked {A B} (m : M S A) (f : A → M S B) s msg :
  m s = Panicked msg → (m ≫= f) s = Panicked msg.
Proof. intros H. unfold mbind, M_bind. by rewrite H. Qed.

Lemma bind_waiting {A B} (m : M S A) (f : A → M S B) s s' k :
  m s = Waiting s' k → (m ≫= f) s = Waiting s' (λ s'', obind (k s'') f).
Proof. intros H. unfold mbind, M_bind. by rewrite H. Qed.

Lemma bind_unfold {A B} (m : M S A) (f : A → M S B) s :
  (m ≫= f) s = obind (m s) f.
Proof. done. Qed.

Lemma bind_Done_inv {A B} (m : M S A) (f : A → M S B) s b s' :
  (∀ s1 k, m s ≠ Waiting s1 k) →
  (m ≫= f) s = Done b s' → ∃ a s1, m s = Done a s1 ∧ f a s1 = Done b s'.
Proof.
  intros Hw. unfold mbind, M_bind.
  destruct (m s) as [a s1| |s1 k|] eqn:E; simpl; try done; eauto.
Qed.

Lemma wp_mono {A} (I : S → Prop) (Q1 Q2 : A → S → Prop) (o : outcome S A) :
  (∀ a s, Q1 a s → Q2 a s) → wp I Q1 o → wp I Q2 o.
Proof.
  intros HQ. induction o as [| |s k IH|]; simpl; auto.
  intros [HI Hk]. split; auto.
Qed.

Lemma wp_obind {A B} (I : S → Prop) (Q : B → S → Prop) (o : outcome S A)
    (f : A → S → outcome S B) :
  wp I (λ a s, wp I Q (f a s)) o → wp I Q (obind o f).
Proof.
  induction o as [| |s k IH|]; simpl; auto.
  intros [HI Hk]. split; auto.
Qed.

Lemma wp_bind {A B} (I : S → Prop) (Q : B → S → Prop) (m : M S A)
    (f : A → M S B) s :
  wp I (λ a s, wp I Q (f a s)) (m s) → wp I Q ((m ≫= f) s).
Proof. apply wp_obind. Qed.

Lemma run_Done {A} (envs : list (S → S)) (a : A) s : run envs (Done a s) = Done a s.
Proof. by destruct envs. Qed.
End monad.

(** ** Arithmetic on widths *)
Create HintDb width.
Create Rewrite HintDb width.

Lemma u8_range x : 0 ≤ u8 x < 256.
Proof. apply Z.mod_pos_bound. lia. Qed.
Lemma u16_range x : 0 ≤ u16 x < 65536.
Proof. apply Z.mod_pos_bound. lia. Qed.
Lemma u32_range x : 0 ≤ u32 x < 4294967296.
Proof. apply Z.mod_pos_bound. lia. Qed.
Lemma u64_range x : 0 ≤ u64 x < 18446744073709551616.
Proof. apply Z.mod_pos_bound. lia. Qed.
Lemma u8_small x : 0 ≤ x < 256 → u8 x = x.
Proof. apply Z.mod_small. Qed.
Lemma u16_small x : 0 ≤ x < 65536 → u16 x = x.
Proof. apply Z.mod_small. Qed.
Lemma u32_small x : 0 ≤ x < 4294967296 → u32 x = x.
Proof. apply Z.mod_small. Qed.
Lemma u64_small x : 0 ≤ x < 18446744073709551616 → u64 x = x.
Proof. apply Z.mod_small. Qed.
Lemma s16_small x : -32768 ≤ x < 32768 → s16 x = x.
Proof. intros. unfold s16. rewrite Z.mod_small; lia. Qed.
Lemma s32_small x : -2147483648 ≤ x < 2147483648 → s32 x = x.
Proof. intros. unfold s32. rewrite Z.mod_small; lia. Qed.
#[export] Hint Rewrite u8_small u16_small u32_small u64_small s16_small s32_small
  using lia : width.
#[export] Hint Resolve u8_range u16_range u32_range u64_range : width.

(** ** Tactics *)

(** Linear arithmetic with division and remainder by constants. *)
Ltac mlia := Z.to_euclidean_division_equations; lia.

(** Turn boolean tests of the code into propositions. *)
Ltac bool_hyps :=
  repeat match goal with
  | H : (_ && _)%bool = true |- _ => apply andb_prop in H as [??]
  | H : (_ || _)%bool = false |- _ => apply orb_false_elim in H as [??]
  | H : (_ =? _) = true |- _ => apply Z.eqb_eq in H
  | H : (_ =? _) = false |- _ => apply Z.eqb_neq in H
  | H : (_ <? _) = true |- _ => apply Z.ltb_lt in H
  | H : (_ <? _) = false |- _ => apply Z.ltb_ge in H
  | H : (_ <=? _) = true |- _ => apply Z.leb_le in H
  | H : (_ <=? _) = false |- _ => apply Z.leb_gt in H
  | H : negb _ = true |- _ => apply negb_true_iff in H
  | H : negb _ = false |- _ => apply negb_false_iff in H
  | H : bool_decide _ = true |- _ => apply bool_decide_eq_true in H
  | H : bool_decide _ = false |- _ => apply bool_decide_eq_false in H
  end.

(** Case analysis on the next test of the goal, keeping its equation. *)
Ltac case_test :=
  match goal with
  | |- context [if ?b then _ else _] => destruct b eqn:?
  | |- context [match ?o with Some _ => _ | None => _ end] => destruct o eqn:?
  end; bool_hyps.

(** Reduce the head of a monadic computation whose first step is known. *)
Ltac mstep H := rewrite (bind_done _ _ _ _ _ H); cbv beta iota.
(** The same when the first step evaluates. *)
Ltac mnext := erewrite bind_done by reflexivity; cbv beta iota.
