(* ===== verification/Ring.v ===== *)
(** Ring buffers indexed by 32-bit counters, as the pipe and the console have
    them: the counters wrap at 2^32 and the buffer has [N] slots, [N] dividing
    2^32, so a byte's slot does not depend on the wrap. *)

From S2P Require Import Prelude.
Local Open Scope Z_scope.

Definition ring_slot (N i : Z) : nat := Z.to_nat (u32 i mod N).

(** The [n] bytes from counter [r] on. *)
Definition ring (N : Z) (l : list Z) (r : Z) (n : nat) : list Z :=
  (λ i, l !!! ring_slot N (r + Z.of_nat i)) <$> seq 0 n.

Section ring.
Context (N : Z) (HN : 0 < N) (Hdiv : (N | 4294967296)).

Lemma ring_slot_mod i : ring_slot N i = Z.to_nat (i mod N).
Proof. unfold ring_slot, u32. by rewrite Z.mod_mod_divide. Qed.

Lemma ring_slot_lt (l : list Z) i : Z.of_nat (length l) = N → (ring_slot N i < length l)%nat.
Proof. intros Hl. rewrite ring_slot_mod. pose proof (Z.mod_pos_bound i N HN). lia. Qed.

Lemma ring_slot_ne i j : i ≠ j → - N < i - j < N → ring_slot N i ≠ ring_slot N j.
Proof.
  intros Hne Hd. rewrite !ring_slot_mod. pose proof (Z.mod_pos_bound i N HN). pose proof (Z.mod_pos_bound j N HN).
  intros E. assert (E' : i mod N = j mod N) by lia.
  pose proof (Z.div_mod i N ltac:(lia)). pose proof (Z.div_mod j N ltac:(lia)).
  assert (i / N = j / N ∨ i / N < j / N ∨ j / N < i / N) as [|[]] by lia; nia.
Qed.

Lemma ring_slot_u32 i j : u32 i = u32 j → ring_slot N i = ring_slot N j.
Proof. unfold ring_slot. by intros ->. Qed.

Lemma length_ring l r n : length (ring N l r n) = n.
Proof. unfold ring. by rewrite length_fmap, length_seq. Qed.

Lemma ring_ext l l' r r' n :
  (∀ i, (i < n)%nat → l !!! ring_slot N (r + Z.of_nat i) = l' !!! ring_slot N (r' + Z.of_nat i)) →
  ring N l r n = ring N l' r' n.
Proof.
  intros H. unfold ring. apply list_fmap_ext. intros i x Hx. apply lookup_seq in Hx as [-> Hi]. by apply H.
Qed.

Lemma ring_u32 l r r' n : u32 r = u32 r' → ring N l r n = ring N l r' n.
Proof.
  intros E. apply ring_ext. intros i _. f_equal. apply ring_slot_u32. unfold u32 in *.
  by rewrite <- (Z.add_mod_idemp_l r), <- (Z.add_mod_idemp_l r'), E by lia.
Qed.

Lemma ring_app l r n m : ring N l r (n + m) = ring N l r n ++ ring N l (r + Z.of_nat n) m.
Proof.
  unfold ring. rewrite seq_app, fmap_app. f_equal.
  replace (0 + n)%nat with (n + 0)%nat by lia. rewrite <- (fmap_add_seq n 0 m), <- list_fmap_compose. apply list_fmap_ext. intros i x _. cbn. do 2 f_equal. lia.
Qed.

Lemma ring_cons l r n : ring N l r (S n) = l !!! ring_slot N r :: ring N l (r + 1) n.
Proof. change (S n) with (1 + n)%nat. rewrite ring_app. unfold ring at 1. cbn. by rewrite Z.add_0_r. Qed.

Lemma ring_snoc l r n : ring N l r (S n) = ring N l r n ++ [l !!! ring_slot N (r + Z.of_nat n)].
Proof. rewrite <- Nat.add_1_r, ring_app. unfold ring at 2. cbn. by rewrite Z.add_0_r. Qed.

(** Storing behind the last byte of a ring that is not full. *)
Lemma ring_put l r n c :
  Z.of_nat (length l) = N → Z.of_nat n < N →
  ring N (<[ring_slot N (r + Z.of_nat n) := c]> l) r (S n) = ring N l r n ++ [c].
Proof.
  intros Hl Hn. rewrite ring_snoc. f_equal.
  - apply ring_ext. intros i Hi. apply list_lookup_total_insert_ne. apply ring_slot_ne; lia.
  - by rewrite list_lookup_total_insert_eq by (by apply ring_slot_lt).
Qed.
End ring.
