(* ===== verification/Cmem.v ===== *)
(** Byte-addressed memory and the little-endian layout of C integers.

    A memory is a finite map from addresses to bytes; an address the map does
    not mention reads as zero.  Loads and stores of 2, 4 and 8 bytes are the
    little-endian accesses of the RISC-V target.  [mem_eq] identifies memories
    with the same contents. *)

From S2P Require Import Prelude.
Local Open Scope Z_scope.

Abbreviation mem := (gmap Z Z).

Definition ld8 (m : mem) (a : Z) : Z := u8 (default 0 (m !! a)).
Definition st8 (m : mem) (a v : Z) : mem := <[a := u8 v]> m.

(** [rd m a n]: the [n] bytes from [a] on; [wr m a bs]: store [bs] from [a] on. *)
Fixpoint rd (m : mem) (a : Z) (n : nat) : list Z :=
  match n with
  | O => []
  | S n => ld8 m a :: rd m (a + 1) n
  end.

Fixpoint wr (m : mem) (a : Z) (bs : list Z) : mem :=
  match bs with
  | [] => m
  | b :: bs => wr (st8 m a b) (a + 1) bs
  end.

(** Little-endian bytes of an integer and back. *)
Fixpoint to_le (n : nat) (v : Z) : list Z :=
  match n with
  | O => []
  | S n => u8 v :: to_le n (v / 256)
  end.

Fixpoint of_le (bs : list Z) : Z :=
  match bs with
  | [] => 0
  | b :: bs => u8 b + 256 * of_le bs
  end.

Definition ld32 (m : mem) (a : Z) : Z := of_le (rd m a 4).
Definition st32 (m : mem) (a v : Z) : mem := wr m a (to_le 4 v).
Definition ld64 (m : mem) (a : Z) : Z := of_le (rd m a 8).
Definition st64 (m : mem) (a v : Z) : mem := wr m a (to_le 8 v).

#[global] Arguments ld8 : simpl never.
#[global] Arguments st8 : simpl never.
#[global] Arguments ld32 : simpl never.
#[global] Arguments st32 : simpl never.
#[global] Arguments ld64 : simpl never.
#[global] Arguments st64 : simpl never.

(** Integers inside a block of bytes (a disk block or a C struct image). *)
Definition get_le (l : list Z) (off n : nat) : Z := of_le (take n (drop off l)).
Definition splice (l : list Z) (off : nat) (bs : list Z) : list Z :=
  take off l ++ bs ++ drop (off + length bs) l.
Definition put_le (l : list Z) (off n : nat) (v : Z) : list Z := splice l off (to_le n v).

Definition mem_eq (m1 m2 : mem) : Prop := ∀ a, ld8 m1 a = ld8 m2 a.
Infix "≈" := mem_eq (at level 70) : xv6_scope.
Local Open Scope xv6_scope.

(** ** Loads and stores *)

Lemma u8_u8 x : u8 (u8 x) = u8 x.
Proof. apply u8_small, u8_range. Qed.

Lemma ld8_range m a : 0 ≤ ld8 m a < 256.
Proof. apply u8_range. Qed.

Lemma u8_ld8 m a : u8 (ld8 m a) = ld8 m a.
Proof. apply u8_u8. Qed.

Lemma ld8_st8 m a v x : ld8 (st8 m a v) x = if decide (a = x) then u8 v else ld8 m x.
Proof.
  unfold ld8, st8. rewrite lookup_insert.
  case_decide; simpl; [apply u8_u8 | done].
Qed.

Lemma ld8_st8_eq m a v : ld8 (st8 m a v) a = u8 v.
Proof. rewrite ld8_st8. by case_decide. Qed.

Lemma ld8_st8_ne m a v x : a ≠ x → ld8 (st8 m a v) x = ld8 m x.
Proof. intros. rewrite ld8_st8. by case_decide. Qed.

Lemma length_rd m a n : length (rd m a n) = n.
Proof. revert a. induction n as [|n IH]; intros a; simpl; auto. Qed.

Lemma lookup_rd m a n i :
  (i < n)%nat → rd m a n !! i = Some (ld8 m (a + Z.of_nat i)).
Proof.
  revert a i. induction n as [|n IH]; intros a i Hi; [lia|].
  destruct i as [|i]; simpl.
  - do 2 f_equal. lia.
  - rewrite IH by lia. do 2 f_equal. lia.
Qed.

Lemma rd_ext m1 m2 a1 a2 n :
  (∀ i, 0 ≤ i < Z.of_nat n → ld8 m1 (a1 + i) = ld8 m2 (a2 + i)) →
  rd m1 a1 n = rd m2 a2 n.
Proof.
  intros H. apply list_eq_same_length with n; rewrite ?length_rd; auto.
  intros i x y Hi. rewrite !lookup_rd by done. intros [= <-] [= <-].
  apply H. lia.
Qed.

Lemma ld8_wr_out m a bs x :
  x < a ∨ a + Z.of_nat (length bs) ≤ x → ld8 (wr m a bs) x = ld8 m x.
Proof.
  revert m a. induction bs as [|b bs IH]; intros m a Hx; simpl in *; auto.
  rewrite IH by lia. apply ld8_st8_ne. lia.
Qed.

Lemma ld8_wr_in m a bs i b :
  bs !! i = Some b → ld8 (wr m a bs) (a + Z.of_nat i) = u8 b.
Proof.
  revert m a i. induction bs as [|c bs IH]; intros m a i Hi; simpl in *; [done|].
  destruct i as [|i]; simpl in Hi.
  - injection Hi as ->. rewrite ld8_wr_out by lia.
    replace (a + Z.of_nat 0) with a by lia. apply ld8_st8_eq.
  - rewrite <- (IH (st8 m a c) (a + 1) i Hi). f_equal. lia.
Qed.

Lemma rd_wr_same m a bs n :
  n = length bs → rd (wr m a bs) a n = u8 <$> bs.
Proof.
  intros ->. apply list_eq_same_length with (length bs);
    rewrite ?length_rd, ?length_fmap; auto.
  intros i x y Hi Hx Hy. rewrite lookup_rd in Hx by done.
  rewrite list_lookup_fmap in Hy. destruct (bs !! i) as [b|] eqn:E; [|done].
  simpl in Hy. rewrite (ld8_wr_in _ _ _ _ _ E) in Hx. congruence.
Qed.

Lemma rd_wr_disj m a bs x n :
  x + Z.of_nat n ≤ a ∨ a + Z.of_nat (length bs) ≤ x →
  rd (wr m a bs) x n = rd m x n.
Proof. intros H. apply rd_ext. intros i Hi. apply ld8_wr_out. lia. Qed.

Lemma rd_app m a n1 n2 :
  rd m a (n1 + n2) = rd m a n1 ++ rd m (a + Z.of_nat n1) n2.
Proof.
  revert a. induction n1 as [|n1 IH]; intros a; simpl.
  - f_equal. lia.
  - f_equal. rewrite IH. do 2 f_equal. lia.
Qed.

Lemma wr_app m a l1 l2 :
  wr m a (l1 ++ l2) = wr (wr m a l1) (a + Z.of_nat (length l1)) l2.
Proof.
  revert m a. induction l1 as [|b l1 IH]; intros m a; simpl.
  - f_equal. lia.
  - rewrite IH. f_equal. lia.
Qed.

Lemma rd_u8 m a n : u8 <$> rd m a n = rd m a n.
Proof.
  revert a. induction n as [|n IH]; intros a; simpl; [done|].
  by rewrite IH, u8_ld8.
Qed.

(** ** Little-endian round trips *)

Lemma length_to_le n v : length (to_le n v) = n.
Proof. revert v. induction n; intros; simpl; auto. Qed.

Lemma to_le_u8 n v : u8 <$> to_le n v = to_le n v.
Proof.
  revert v. induction n as [|n IH]; intros v; simpl; [done|]. by rewrite IH, u8_u8.
Qed.

Lemma to_le_range n v : Forall (λ b, 0 ≤ b < 256) (to_le n v).
Proof. revert v. induction n; intros; simpl; constructor; auto using u8_range. Qed.

Lemma of_le_range bs : 0 ≤ of_le bs < 256 ^ Z.of_nat (length bs).
Proof.
  induction bs as [|b bs IH]; [simpl; lia|].
  cbn [of_le length]. rewrite Nat2Z.inj_succ, Z.pow_succ_r by lia.
  pose proof (u8_range b). lia.
Qed.

Lemma of_le_to_le n v : of_le (to_le n v) = v mod 256 ^ Z.of_nat n.
Proof.
  revert v. induction n as [|n IH]; intros v.
  - simpl. by rewrite Z.mod_1_r.
  - cbn [to_le of_le]. rewrite IH, u8_u8, Nat2Z.inj_succ, Z.pow_succ_r by lia.
    unfold u8. rewrite Z.rem_mul_r by lia. lia.
Qed.

Lemma to_le_of_le bs :
  Forall (λ b, 0 ≤ b < 256) bs → to_le (length bs) (of_le bs) = bs.
Proof.
  induction bs as [|b bs IH]; intros Hb; [done|].
  apply Forall_cons in Hb as [Hb Hbs]. cbn [to_le of_le length].
  rewrite (u8_small b) by lia. unfold u8 at 1.
  rewrite (Z.mul_comm 256), Z.mod_add, Z.div_add by lia.
  rewrite (Z.div_small b), (Z.mod_small b), Z.add_0_l by lia. by rewrite IH.
Qed.

Lemma ld64_range m a : 0 ≤ ld64 m a < 18446744073709551616.
Proof. pose proof (of_le_range (rd m a 8)) as H. by rewrite length_rd in H. Qed.

Lemma ld64_st64_eq m a v : ld64 (st64 m a v) a = u64 v.
Proof.
  unfold ld64, st64. rewrite rd_wr_same by (by rewrite length_to_le).
  by rewrite to_le_u8, of_le_to_le.
Qed.

Lemma ld64_st64_ne m a v x :
  x + 8 ≤ a ∨ a + 8 ≤ x → ld64 (st64 m a v) x = ld64 m x.
Proof.
  intros. unfold ld64, st64. rewrite rd_wr_disj; [done|].
  rewrite length_to_le. lia.
Qed.

Lemma ld8_st64_ne m a v x : x < a ∨ a + 8 ≤ x → ld8 (st64 m a v) x = ld8 m x.
Proof. intros. apply ld8_wr_out. rewrite length_to_le. lia. Qed.

Lemma ld64_ext m1 m2 a1 a2 :
  (∀ i, 0 ≤ i < 8 → ld8 m1 (a1 + i) = ld8 m2 (a2 + i)) → ld64 m1 a1 = ld64 m2 a2.
Proof. intros H. unfold ld64. f_equal. by apply rd_ext. Qed.

Lemma ld32_st32_eq m a v : ld32 (st32 m a v) a = u32 v.
Proof.
  unfold ld32, st32. rewrite rd_wr_same by (by rewrite length_to_le).
  by rewrite to_le_u8, of_le_to_le.
Qed.

Lemma ld32_st32_ne m a v x :
  x + 4 ≤ a ∨ a + 4 ≤ x → ld32 (st32 m a v) x = ld32 m x.
Proof.
  intros. unfold ld32, st32. rewrite rd_wr_disj; [done|].
  rewrite length_to_le. lia.
Qed.

(** ** Blocks of bytes *)

Lemma length_splice l off bs :
  (off + length bs ≤ length l)%nat → length (splice l off bs) = length l.
Proof.
  intros. unfold splice. rewrite !length_app, length_take, length_drop. lia.
Qed.

Lemma lookup_splice_out l off bs i :
  (off + length bs ≤ length l)%nat → (i < off ∨ off + length bs ≤ i)%nat →
  splice l off bs !! i = l !! i.
Proof.
  intros Hl Hi. unfold splice. destruct (decide (i < off)%nat).
  - rewrite lookup_app_l by (rewrite length_take; lia). by rewrite lookup_take_lt.
  - rewrite lookup_app_r, length_take by (rewrite length_take; lia).
    rewrite lookup_app_r by lia. rewrite lookup_drop. f_equal. lia.
Qed.

Lemma take_drop_splice_same l off bs :
  (off + length bs ≤ length l)%nat →
  take (length bs) (drop off (splice l off bs)) = bs.
Proof.
  intros. unfold splice. rewrite drop_app_ge by (rewrite length_take; lia).
  rewrite length_take. replace (off - off `min` length l)%nat with O by lia.
  rewrite drop_0. by rewrite take_app_length.
Qed.

Lemma take_drop_splice_disj l off bs x n :
  (off + length bs ≤ length l)%nat →
  (x + n ≤ off ∨ off + length bs ≤ x)%nat →
  take n (drop x (splice l off bs)) = take n (drop x l).
Proof.
  intros Hl Hx. apply list_eq. intros i.
  destruct (decide (i < n)%nat).
  - rewrite !lookup_take_lt, !lookup_drop by done. apply lookup_splice_out; lia.
  - rewrite !lookup_take_ge by lia. done.
Qed.

Lemma get_put_le_same l off n v :
  (off + n ≤ length l)%nat →
  get_le (put_le l off n v) off n = v mod 256 ^ Z.of_nat n.
Proof.
  intros. unfold get_le, put_le.
  replace n with (length (to_le n v)) at 1 by apply length_to_le.
  rewrite take_drop_splice_same by (rewrite length_to_le; lia).
  apply of_le_to_le.
Qed.

Lemma get_put_le_disj l off n v x k :
  (off + n ≤ length l)%nat → (x + k ≤ off ∨ off + n ≤ x)%nat →
  get_le (put_le l off n v) x k = get_le l x k.
Proof.
  intros. unfold get_le, put_le. f_equal.
  apply take_drop_splice_disj; rewrite length_to_le; lia.
Qed.

Lemma length_put_le l off n v :
  (off + n ≤ length l)%nat → length (put_le l off n v) = length l.
Proof. intros. unfold put_le. apply length_splice. rewrite length_to_le. lia. Qed.

(** ** Memories with the same contents *)

#[global] Instance mem_eq_equivalence : Equivalence mem_eq.
Proof.
  split.
  - by intros m a.
  - intros m1 m2 H a. by rewrite H.
  - intros m1 m2 m3 H1 H2 a. by rewrite H1.
Qed.

#[global] Instance ld8_proper : Proper (mem_eq ==> eq ==> eq) ld8.
Proof. intros m1 m2 H a ? <-. apply H. Qed.

#[global] Instance st8_proper : Proper (mem_eq ==> eq ==> eq ==> mem_eq) st8.
Proof.
  intros m1 m2 H a ? <- v ? <- x. rewrite !ld8_st8. case_decide; [done|apply H].
Qed.

#[global] Instance rd_proper : Proper (mem_eq ==> eq ==> eq ==> eq) rd.
Proof. intros m1 m2 H a ? <- n ? <-. apply rd_ext. intros. apply H. Qed.

#[global] Instance wr_proper : Proper (mem_eq ==> eq ==> eq ==> mem_eq) wr.
Proof.
  intros m1 m2 H a ? <- bs ? <-. revert m1 m2 a H.
  induction bs as [|b bs IH]; intros m1 m2 a H; simpl; [done|].
  apply IH. by rewrite H.
Qed.

#[global] Instance ld64_proper : Proper (mem_eq ==> eq ==> eq) ld64.
Proof. intros m1 m2 H a ? <-. unfold ld64. by rewrite H. Qed.

Lemma wr_rd_id m a n : wr m a (rd m a n) ≈ m.
Proof.
  intros x. destruct (decide (a ≤ x < a + Z.of_nat n)).
  - replace x with (a + Z.of_nat (Z.to_nat (x - a))) by lia.
    erewrite ld8_wr_in by (apply lookup_rd; lia). apply u8_ld8.
  - apply ld8_wr_out. rewrite length_rd. lia.
Qed.
