(* ===== verification/KString.v ===== *)
(** kernel/string.c: the byte and string routines of the kernel.

    Each function takes the memory it runs in and returns the new memory (the
    returned pointer of the C function is its first argument).  Counts that
    are [uint] in C are non-negative [Z]; loops count down in [nat]. *)

From S2P Require Import Prelude Cmem.
Local Open Scope Z_scope.

Fixpoint memset_loop (m : mem) (cdst c i : Z) (n : nat) : mem :=
  match n with
  | O => m
  | S n => memset_loop (st8 m (cdst + i) c) cdst c (i + 1) n
  end.

Definition memset (m : mem) (dst c n : Z) : mem := memset_loop m dst c 0 (Z.to_nat n).

Fixpoint memcmp_loop (m : mem) (s1 s2 : Z) (n : nat) : Z :=
  match n with
  | O => 0
  | S n =>
      if ld8 m s1 =? ld8 m s2 then memcmp_loop m (s1 + 1) (s2 + 1) n
      else ld8 m s1 - ld8 m s2
  end.

Definition memcmp (m : mem) (v1 v2 n : Z) : Z := memcmp_loop m v1 v2 (Z.to_nat n).

(** [*d++ = *s++], [n] times. *)
Fixpoint copy_fwd (m : mem) (d s : Z) (n : nat) : mem :=
  match n with
  | O => m
  | S n => copy_fwd (st8 m d (ld8 m s)) (d + 1) (s + 1) n
  end.

(** [*--d = *--s], [n] times. *)
Fixpoint copy_bwd (m : mem) (d s : Z) (n : nat) : mem :=
  match n with
  | O => m
  | S n => copy_bwd (st8 m (d - 1) (ld8 m (s - 1))) (d - 1) (s - 1) n
  end.

Definition memmove (m : mem) (dst src n : Z) : mem :=
  if n =? 0 then m
  else if (src <? dst) && (dst <? src + n)
  then copy_bwd m (dst + n) (src + n) (Z.to_nat n)
  else copy_fwd m dst src (Z.to_nat n).

Definition memcpy (m : mem) (dst src n : Z) : mem := memmove m dst src n.

Fixpoint strncmp_loop (m : mem) (p q : Z) (n : nat) : Z :=
  match n with
  | O => 0
  | S n =>
      if negb (ld8 m p =? 0) && (ld8 m p =? ld8 m q)
      then strncmp_loop m (p + 1) (q + 1) n
      else ld8 m p - ld8 m q
  end.

Definition strncmp (m : mem) (p q n : Z) : Z := strncmp_loop m p q (Z.to_nat n).

(** The second loop of [strncpy]: [while(n-- > 0) *s++ = 0]. *)
Fixpoint zero_loop (m : mem) (s : Z) (n : nat) : mem :=
  match n with
  | O => m
  | S n => zero_loop (st8 m s 0) (s + 1) n
  end.

Fixpoint strncpy_loop (m : mem) (s t : Z) (n : nat) : mem :=
  match n with
  | O => m
  | S n =>
      let c := ld8 m t in
      let m := st8 m s c in
      if c =? 0 then zero_loop m (s + 1) n else strncpy_loop m (s + 1) (t + 1) n
  end.

Definition strncpy (m : mem) (s t n : Z) : mem := strncpy_loop m s t (Z.to_nat n).

Fixpoint safestrcpy_loop (m : mem) (s t : Z) (n : nat) : mem :=
  match n with
  | O => st8 m s 0
  | S n =>
      let c := ld8 m t in
      let m := st8 m s c in
      if c =? 0 then st8 m (s + 1) 0 else safestrcpy_loop m (s + 1) (t + 1) n
  end.

(** [--n > 0] lets the copy loop run [n - 1] times. *)
Definition safestrcpy (m : mem) (s t n : Z) : mem :=
  if n <=? 0 then m else safestrcpy_loop m s t (Z.to_nat (n - 1)).

Fixpoint strlen_loop (m : mem) (s n : Z) (fuel : nat) : Z :=
  match fuel with
  | O => n
  | S f => if ld8 m (s + n) =? 0 then n else strlen_loop m s (n + 1) f
  end.

(** A finite memory has a zero byte among any [size m + 1] addresses, so that
    many rounds always reach the terminator ([strlen_spec]). *)
Definition strlen (m : mem) (s : Z) : Z := strlen_loop m s 0 (S (size m)).

(** The C string at [a], cut after [n] bytes. *)
Fixpoint cstr_n (m : mem) (a : Z) (n : nat) : list Z :=
  match n with
  | O => []
  | S n => if ld8 m a =? 0 then [] else ld8 m a :: cstr_n m (a + 1) n
  end.

(** ** Loops *)

Lemma ld8_memset_loop m cdst c i n x :
  ld8 (memset_loop m cdst c i n) x =
    if decide (cdst + i ≤ x < cdst + i + Z.of_nat n) then u8 c else ld8 m x.
Proof.
  revert m i. induction n as [|n IH]; intros m i; cbn [memset_loop].
  - case_decide; [lia|done].
  - rewrite IH, ld8_st8. repeat case_decide; try lia; done.
Qed.

Lemma ld8_memset m dst c n x :
  ld8 (memset m dst c n) x = if decide (dst ≤ x < dst + n) then u8 c else ld8 m x.
Proof.
  unfold memset. rewrite ld8_memset_loop. repeat case_decide; try lia; done.
Qed.

Lemma ld8_copy_fwd m d s n x :
  d ≤ s ∨ s + Z.of_nat n ≤ d →
  ld8 (copy_fwd m d s n) x =
    if decide (d ≤ x < d + Z.of_nat n) then ld8 m (s + (x - d)) else ld8 m x.
Proof.
  revert m d s. induction n as [|n IH]; intros m d s Hd; cbn [copy_fwd].
  - case_decide; [lia|done].
  - rewrite IH, !ld8_st8, u8_ld8 by lia.
    repeat case_decide; try lia; try done; f_equal; lia.
Qed.

Lemma ld8_copy_bwd m d s n x :
  s ≤ d →
  ld8 (copy_bwd m d s n) x =
    if decide (d - Z.of_nat n ≤ x < d) then ld8 m (s + (x - d)) else ld8 m x.
Proof.
  revert m d s. induction n as [|n IH]; intros m d s Hd; cbn [copy_bwd].
  - case_decide; [lia|done].
  - rewrite IH, !ld8_st8, u8_ld8 by lia.
    repeat case_decide; try lia; try done; f_equal; lia.
Qed.

Lemma ld8_memmove m dst src n x :
  ld8 (memmove m dst src n) x =
    if decide (dst ≤ x < dst + n) then ld8 m (src + (x - dst)) else ld8 m x.
Proof.
  unfold memmove. destruct (n =? 0) eqn:En; bool_hyps.
  { case_decide; [lia|done]. }
  destruct ((src <? dst) && (dst <? src + n)) eqn:E.
  - bool_hyps. rewrite ld8_copy_bwd by lia.
    repeat case_decide; try lia; try done; f_equal; lia.
  - apply andb_false_iff in E. rewrite ld8_copy_fwd by (destruct E; bool_hyps; lia).
    repeat case_decide; try lia; done.
Qed.

Lemma rd_memmove m dst src n :
  rd (memmove m dst src (Z.of_nat n)) dst n = rd m src n.
Proof.
  apply rd_ext. intros i Hi. rewrite ld8_memmove.
  case_decide; [f_equal|]; lia.
Qed.

Lemma strlen_loop_spec m s n f :
  (∃ i, n ≤ i < n + Z.of_nat f ∧ ld8 m (s + i) = 0) →
  let r := strlen_loop m s n f in
  n ≤ r ∧ ld8 m (s + r) = 0 ∧ ∀ i, n ≤ i < r → ld8 m (s + i) ≠ 0.
Proof.
  revert n. induction f as [|f IH]; intros n [i [Hi Hz]]; [lia|].
  cbn [strlen_loop]. destruct (Z.eqb_spec (ld8 m (s + n)) 0) as [E|E].
  - split; [lia|]. split; [done|lia].
  - destruct (IH (n + 1)) as (H1 & H2 & H3).
    { exists i. split; [|done]. assert (i ≠ n) by congruence. lia. }
    split; [lia|]. split; [done|]. intros j Hj.
    destruct (decide (j = n)) as [->|]; [done|apply H3; lia].
Qed.

Lemma zero_in_range (m : mem) s :
  ∃ i, 0 ≤ i < Z.of_nat (S (size m)) ∧ ld8 m (s + i) = 0.
Proof.
  destruct (decide (Exists (λ i, ld8 m (s + i) = 0) (seqZ 0 (Z.of_nat (S (size m))))))
    as [Hex|Hno].
  { apply Exists_exists in Hex as (i & Hi & Hz). apply elem_of_seqZ in Hi.
    exists i. split; [lia|done]. }
  exfalso. set (l := (λ i, s + i) <$> seqZ 0 (Z.of_nat (S (size m)))).
  assert (Hsub : (list_to_set l : gset Z) ⊆ dom m).
  { intros x Hx. apply elem_of_list_to_set, list_elem_of_fmap in Hx as (i & -> & Hi).
    destruct (m !! (s + i)) as [v|] eqn:E; [by apply elem_of_dom; eauto|].
    destruct Hno. apply Exists_exists. exists i. split; [done|]. unfold ld8. by rewrite E. }
  apply subseteq_size in Hsub. rewrite size_dom, size_list_to_set in Hsub.
  - unfold l in Hsub. rewrite length_fmap, length_seqZ in Hsub. lia.
  - unfold l. apply NoDup_fmap_2; [intros ?? ?; lia|apply NoDup_seqZ].
Qed.

Lemma length_cstr_n m a n : (length (cstr_n m a n) ≤ n)%nat.
Proof.
  revert a. induction n as [|n IH]; intros a; simpl; [lia|].
  case_test; simpl; [lia|]. specialize (IH (a + 1)). lia.
Qed.

Lemma cstr_n_ext m1 m2 a1 a2 n :
  (∀ i, 0 ≤ i < Z.of_nat n → ld8 m1 (a1 + i) = ld8 m2 (a2 + i)) →
  cstr_n m1 a1 n = cstr_n m2 a2 n.
Proof.
  revert a1 a2. induction n as [|n IH]; intros a1 a2 H; simpl; [done|].
  assert (E : ld8 m1 a1 = ld8 m2 a2).
  { rewrite <- (Z.add_0_r a1), <- (Z.add_0_r a2). apply H. lia. }
  rewrite E. case_test; [done|]. f_equal. apply IH. intros i Hi.
  replace (a1 + 1 + i) with (a1 + (1 + i)) by lia.
  replace (a2 + 1 + i) with (a2 + (1 + i)) by lia. apply H. lia.
Qed.

Lemma cstr_n_nonzero m a n : Forall (λ b, b ≠ 0) (cstr_n m a n).
Proof.
  revert a. induction n as [|n IH]; intros a; simpl; [done|].
  case_test; constructor; auto.
Qed.

Lemma strncmp_loop_zero m p q n :
  strncmp_loop m p q n = 0 ↔ cstr_n m p n = cstr_n m q n.
Proof.
  revert p q. induction n as [|n IH]; intros p q; simpl; [done|].
  destruct (Z.eqb_spec (ld8 m p) 0) as [Ep|Ep], (Z.eqb_spec (ld8 m q) 0) as [Eq|Eq],
    (Z.eqb_spec (ld8 m p) (ld8 m q)) as [E|E]; simpl; try lia.
  - split; [done|lia].
  - split; [lia|done].
  - split; [lia|done].
  - rewrite IH, E. split; congruence.
  - split; [lia|congruence].
Qed.

Lemma ld8_zero_loop m s n x :
  ld8 (zero_loop m s n) x = if decide (s ≤ x < s + Z.of_nat n) then 0 else ld8 m x.
Proof.
  revert m s. induction n as [|n IH]; intros m s; cbn [zero_loop].
  - case_decide; [lia|done].
  - rewrite IH, ld8_st8. repeat case_decide; try lia; done.
Qed.

Lemma rd_zero_loop m s n : rd (zero_loop m s n) s n = replicate n 0.
Proof.
  apply list_eq_same_length with n; rewrite ?length_rd, ?length_replicate; auto.
  intros i x y Hi. rewrite lookup_rd, lookup_replicate_2, ld8_zero_loop by lia.
  case_decide; [congruence|lia].
Qed.

Lemma strncpy_loop_out m s t n x :
  x < s ∨ s + Z.of_nat n ≤ x → ld8 (strncpy_loop m s t n) x = ld8 m x.
Proof.
  revert m s t. induction n as [|n IH]; intros m s t Hx; cbn [strncpy_loop]; [done|].
  case_test.
  - rewrite ld8_zero_loop, ld8_st8_ne by lia. case_decide; [lia|done].
  - rewrite IH by lia. apply ld8_st8_ne. lia.
Qed.

Lemma rd_strncpy_loop m s t n :
  s + Z.of_nat n ≤ t ∨ t + Z.of_nat n ≤ s →
  rd (strncpy_loop m s t n) s n =
    cstr_n m t n ++ replicate (n - length (cstr_n m t n)) 0.
Proof.
  revert m s t. induction n as [|n IH]; intros m s t Hd; [done|].
  cbn [strncpy_loop cstr_n rd]. case_test; cbn [length app Nat.sub replicate].
  - rewrite rd_zero_loop, ld8_zero_loop. case_decide; [lia|].
    by rewrite ld8_st8_eq, u8_ld8, Heqb.
  - rewrite strncpy_loop_out, ld8_st8_eq, u8_ld8, IH by lia. f_equal.
    rewrite (cstr_n_ext (st8 m s (ld8 m t)) m (t + 1) (t + 1) n); [done|].
    intros i Hi. apply ld8_st8_ne. lia.
Qed.

Lemma safestrcpy_loop_out m s t n x :
  x < s ∨ s + Z.of_nat n < x → ld8 (safestrcpy_loop m s t n) x = ld8 m x.
Proof.
  revert m s t. induction n as [|n IH]; intros m s t Hx; cbn [safestrcpy_loop].
  - apply ld8_st8_ne. lia.
  - case_test; rewrite ?ld8_st8_ne by lia; [done|].
    rewrite IH by lia. apply ld8_st8_ne. lia.
Qed.

Lemma cstr_safestrcpy_loop m s t n :
  s + Z.of_nat n < t ∨ t + Z.of_nat n ≤ s →
  cstr_n (safestrcpy_loop m s t n) s (S n) = cstr_n m t n.
Proof.
  revert m s t. induction n as [|n IH]; intros m s t Hd.
  - cbn. by rewrite ld8_st8_eq.
  - cbn [safestrcpy_loop cstr_n]. destruct (Z.eqb_spec (ld8 m t) 0) as [E|E].
    + rewrite ld8_st8_ne, ld8_st8_eq, u8_ld8, E by lia. done.
    + rewrite safestrcpy_loop_out, ld8_st8_eq, u8_ld8 by lia.
      destruct (Z.eqb_spec (ld8 m t) 0); [done|]. f_equal.
      transitivity (cstr_n (st8 m s (ld8 m t)) (t + 1) n).
      * apply (IH _ (s + 1)). lia.
      * apply cstr_n_ext. intros i Hi. apply ld8_st8_ne. lia.
Qed.

(** ** What the routines promise *)

(** [memmove] copies the [n] bytes at [src] to [dst] as they were before
    the call, however the two areas overlap, and changes nothing else. *)
Lemma memmove_overlap_safe m dst src n x :
  ld8 (memmove m dst src n) x =
    if decide (dst ≤ x < dst + n) then ld8 m (src + (x - dst)) else ld8 m x.
Proof. apply ld8_memmove. Qed.

(** [strlen] always terminates and returns the offset of the first zero
    byte of the string. *)
Lemma strlen_spec m s :
  0 ≤ strlen m s ∧ ld8 m (s + strlen m s) = 0 ∧
  ∀ i, 0 ≤ i < strlen m s → ld8 m (s + i) ≠ 0.
Proof. apply strlen_loop_spec, zero_in_range. Qed.

(** [strncmp] returns zero exactly when the two strings, cut after [n]
    bytes, are equal. *)
Lemma strncmp_zero_iff m p q n :
  strncmp m p q n = 0 ↔ cstr_n m p (Z.to_nat n) = cstr_n m q (Z.to_nat n).
Proof. apply strncmp_loop_zero. Qed.

(** [strncpy] fills exactly [n] bytes: the source string cut after [n]
    bytes, padded with zeros; every other byte is unchanged. *)
Lemma strncpy_spec m s t n :
  0 ≤ n → s + n ≤ t ∨ t + n ≤ s →
  let str := cstr_n m t (Z.to_nat n) in
  rd (strncpy m s t n) s (Z.to_nat n) = str ++ replicate (Z.to_nat n - length str) 0 ∧
  ∀ x, x < s ∨ s + n ≤ x → ld8 (strncpy m s t n) x = ld8 m x.
Proof.
  intros Hn Hd. split.
  - apply rd_strncpy_loop. lia.
  - intros x Hx. apply strncpy_loop_out. lia.
Qed.

Lemma strncpy_spec_witness :
  let m := wr ∅ 100 [97; 98; 0; 120] in
  rd (strncpy m 0 100 4) 0 4 = [97; 98; 0; 0].
Proof.
  destruct (strncpy_spec (wr ∅ 100 [97; 98; 0; 120]) 0 100 4) as [H _]; [lia..|].
  exact H.
Defined.

(** [safestrcpy] always leaves a NUL-terminated string of at most [n - 1]
    bytes in the destination, a prefix of the source, and writes nowhere
    outside the [n] destination bytes. *)
Lemma safestrcpy_spec m s t n :
  0 < n → s + n ≤ t ∨ t + n ≤ s + 1 →
  cstr_n (safestrcpy m s t n) s (Z.to_nat n) = cstr_n m t (Z.to_nat (n - 1)) ∧
  (length (cstr_n (safestrcpy m s t n) s (Z.to_nat n)) < Z.to_nat n)%nat ∧
  ∀ x, x < s ∨ s + n ≤ x → ld8 (safestrcpy m s t n) x = ld8 m x.
Proof.
  intros Hn Hd. unfold safestrcpy. destruct (Z.leb_spec n 0); [lia|].
  replace (Z.to_nat n) with (S (Z.to_nat (n - 1))) by lia.
  rewrite cstr_safestrcpy_loop by lia.
  pose proof (length_cstr_n m t (Z.to_nat (n - 1))). split; [done|].
  split; [lia|]. intros x Hx. apply safestrcpy_loop_out. lia.
Qed.

Lemma safestrcpy_spec_witness :
  let m := wr ∅ 100 [97; 98; 99; 100; 0] in
  cstr_n (safestrcpy m 0 100 3) 0 3 = [97; 98].
Proof.
  destruct (safestrcpy_spec (wr ∅ 100 [97; 98; 99; 100; 0]) 0 100 3)
    as [H _]; [lia..|]. exact H.
Defined.

(** These run for thousands of steps: never by conversion, only by their
    lemmas or [vm_compute]. *)
#[global] Opaque memset memmove.
