(* ===== verification/Kstate.v ===== *)
(** The kernel's data: constants of kernel/param.h, riscv.h, memlayout.h and
    fs.h, the structures of proc.h, spinlock.h, sleeplock.h, file.h, fs.h,
    buf.h, virtio.h, and one record [kstate] for all the kernel's globals.

    Pointers into the kernel's static tables are indexes ([proc[i]], [buf[i]],
    ...; a null pointer is [None]); pages handed out by the allocator are
    physical addresses into [pmem].  A spinlock is found under its [lockid],
    its address in C; a sleep channel is a [chan].  For every field [f] of a
    record, [set_f g] replaces its value [v] by [g v]. *)

From S2P Require Import Prelude Cmem.
Local Open Scope Z_scope.
#[local] Set Primitive Projections.

(** Unfolding the field updates of all records. *)
Create HintDb kset.
Ltac ksimpl := autounfold with kset; cbn.

(** ** Constants *)
Definition NPROC : nat := 64.
Definition NCPU : nat := 8.
Definition NOFILE : nat := 16.
Definition NFILE : nat := 100.
Definition NINODE : nat := 50.
Definition NDEV : Z := 10.
Definition ROOTDEV : Z := 1.
Definition MAXARG : nat := 32.
Definition MAXOPBLOCKS : Z := 10.
Definition LOGBLOCKS : Z := MAXOPBLOCKS * 3.
Definition NBUF : nat := 30.
Definition FSSIZE : Z := 2000.
Definition MAXPATH : Z := 128.
Definition USERSTACK : Z := 2.

Definition PGSIZE : Z := 4096.
Definition PGROUNDUP (sz : Z) : Z := Z.land (u64 (sz + PGSIZE - 1)) (Z.lnot (PGSIZE - 1)).
Definition PGROUNDDOWN (a : Z) : Z := Z.land a (Z.lnot (PGSIZE - 1)).
Definition PTE_V : Z := 1.
Definition PTE_R : Z := 2.
Definition PTE_W : Z := 4.
Definition PTE_X : Z := 8.
Definition PTE_U : Z := 16.
Definition PA2PTE (pa : Z) : Z := u64 (Z.shiftl (Z.shiftr pa 12) 10).
Definition PTE2PA (pte : Z) : Z := u64 (Z.shiftl (Z.shiftr pte 10) 12).
Definition PTE_FLAGS (pte : Z) : Z := Z.land pte 0x3FF.
Definition PXSHIFT (level : Z) : Z := 12 + 9 * level.
Definition PX (level va : Z) : Z := Z.land (Z.shiftr va (PXSHIFT level)) 0x1FF.
Definition MAXVA : Z := Z.shiftl 1 38.
Definition SATP_SV39 : Z := Z.shiftl 8 60.
Definition MAKE_SATP (pagetable : Z) : Z := Z.lor SATP_SV39 (Z.shiftr pagetable 12).
Definition SSTATUS_SPP : Z := 256.
Definition SSTATUS_SPIE : Z := 32.
Definition SSTATUS_SIE : Z := 2.

Definition UART0 : Z := 0x10000000.
Definition UART0_IRQ : Z := 10.
Definition VIRTIO0 : Z := 0x10001000.
Definition VIRTIO0_IRQ : Z := 1.
Definition PLIC : Z := 0x0c000000.
Definition KERNBASE : Z := 0x80000000.
Definition PHYSTOP : Z := KERNBASE + 128 * 1024 * 1024.
Definition TRAMPOLINE : Z := MAXVA - PGSIZE.
Definition KSTACK (p : Z) : Z := TRAMPOLINE - (p + 1) * 2 * PGSIZE.
Definition TRAPFRAME : Z := TRAMPOLINE - PGSIZE.

Definition ROOTINO : Z := 1.
Definition BSIZE : Z := 1024.
Definition FSMAGIC : Z := 0x10203040.
Definition NDIRECT : Z := 12.
Definition NINDIRECT : Z := BSIZE / 4.
Definition MAXFILE : Z := NDIRECT + NINDIRECT.
Definition IPB : Z := BSIZE / 64.
Definition BPB : Z := BSIZE * 8.
Definition DIRSIZ : Z := 14.
Definition T_DIR : Z := 1.
Definition T_FILE : Z := 2.
Definition T_DEVICE : Z := 3.
Definition O_RDONLY : Z := 0.
Definition O_WRONLY : Z := 1.
Definition O_RDWR : Z := 2.
Definition O_CREATE : Z := 0x200.
Definition O_TRUNC : Z := 0x400.
Definition SBRK_EAGER : Z := 1.
Definition SBRK_LAZY : Z := 2.
Definition CONSOLE : nat := 1.
Definition PIPESIZE : Z := 512.
Definition NUM : nat := 8.

(** ** Names of locks and sleep channels *)
Inductive lockid : Type :=
| LkKmem | LkPid | LkWait | LkFtable | LkItable | LkBcache | LkLog | LkCons
| LkTicks | LkTx | LkPr | LkVdisk
| LkProc (i : nat)
| LkBuf (i : nat)
| LkInode (i : nat)
| LkPipe (pi : Z).

#[global] Instance lockid_eq_dec : EqDecision lockid.
Proof. solve_decision. Defined.

Definition lockid_enc (l : lockid) : Z * (nat + Z) :=
  match l with
  | LkKmem => (0, inl O) | LkPid => (1, inl O) | LkWait => (2, inl O)
  | LkFtable => (3, inl O) | LkItable => (4, inl O) | LkBcache => (5, inl O)
  | LkLog => (6, inl O) | LkCons => (7, inl O) | LkTicks => (8, inl O)
  | LkTx => (9, inl O) | LkPr => (10, inl O) | LkVdisk => (11, inl O)
  | LkProc i => (12, inl i) | LkBuf i => (13, inl i) | LkInode i => (14, inl i)
  | LkPipe pi => (15, inr pi)
  end.

Definition lockid_dec (c : Z * (nat + Z)) : option lockid :=
  match c with
  | (0, _) => Some LkKmem | (1, _) => Some LkPid | (2, _) => Some LkWait
  | (3, _) => Some LkFtable | (4, _) => Some LkItable | (5, _) => Some LkBcache
  | (6, _) => Some LkLog | (7, _) => Some LkCons | (8, _) => Some LkTicks
  | (9, _) => Some LkTx | (10, _) => Some LkPr | (11, _) => Some LkVdisk
  | (12, inl i) => Some (LkProc i) | (13, inl i) => Some (LkBuf i)
  | (14, inl i) => Some (LkInode i) | (15, inr pi) => Some (LkPipe pi)
  | _ => None
  end.

#[global] Instance lockid_countable : Countable lockid.
Proof. apply (inj_countable lockid_enc lockid_dec). by intros []. Defined.

Inductive chan : Type :=
| ChTicks | ChLog | ChDiskFree | ChCons | ChTx
| ChProc (i : nat)
| ChBuf (i : nat)
| ChBufLock (i : nat)
| ChInodeLock (i : nat)
| ChPipeR (pi : Z)
| ChPipeW (pi : Z).

#[global] Instance chan_eq_dec : EqDecision chan.
Proof. solve_decision. Defined.

(** ** Structures *)

(** struct spinlock; the holder is the index of a [cpu], or [None]. *)
Record spinlock : Type := mk_spinlock {
  locked : Z;
  lk_cpu : option nat }.

(** struct sleeplock, without the spinlock inside it, which has a [lockid]. *)
Record sleeplock : Type := mk_sleeplock {
  sl_locked : Z;
  sl_pid : Z }.

(** struct cpu, together with the hart's own control registers. *)
Record cpu : Type := mk_cpu {
  c_proc : option nat;
  noff : Z;
  intena : bool;
  sstatus : Z;
  stvec : Z;
  sepc : Z;
  scause : Z;
  stval : Z;
  satp : Z;
  stimecmp : Z }.

Definition set_c_proc (g : option nat → option nat) (s : cpu) : cpu :=
  mk_cpu (g (s.(c_proc))) s.(noff) s.(intena) s.(sstatus) s.(stvec) s.(sepc)
    s.(scause) s.(stval) s.(satp) s.(stimecmp).
Definition set_noff (g : Z → Z) (s : cpu) : cpu :=
  mk_cpu s.(c_proc) (g (s.(noff))) s.(intena) s.(sstatus) s.(stvec) s.(sepc)
    s.(scause) s.(stval) s.(satp) s.(stimecmp).
Definition set_intena (g : bool → bool) (s : cpu) : cpu :=
  mk_cpu s.(c_proc) s.(noff) (g (s.(intena))) s.(sstatus) s.(stvec) s.(sepc)
    s.(scause) s.(stval) s.(satp) s.(stimecmp).
Definition set_sstatus (g : Z → Z) (s : cpu) : cpu :=
  mk_cpu s.(c_proc) s.(noff) s.(intena) (g (s.(sstatus))) s.(stvec) s.(sepc)
    s.(scause) s.(stval) s.(satp) s.(stimecmp).
Definition set_stvec (g : Z → Z) (s : cpu) : cpu :=
  mk_cpu s.(c_proc) s.(noff) s.(intena) s.(sstatus) (g (s.(stvec))) s.(sepc)
    s.(scause) s.(stval) s.(satp) s.(stimecmp).
Definition set_sepc (g : Z → Z) (s : cpu) : cpu :=
  mk_cpu s.(c_proc) s.(noff) s.(intena) s.(sstatus) s.(stvec) (g (s.(sepc)))
    s.(scause) s.(stval) s.(satp) s.(stimecmp).
Definition set_scause (g : Z → Z) (s : cpu) : cpu :=
  mk_cpu s.(c_proc) s.(noff) s.(intena) s.(sstatus) s.(stvec) s.(sepc) (g
    (s.(scause))) s.(stval) s.(satp) s.(stimecmp).
Definition set_stval (g : Z → Z) (s : cpu) : cpu :=
  mk_cpu s.(c_proc) s.(noff) s.(intena) s.(sstatus) s.(stvec) s.(sepc) s.(scause) (g
    (s.(stval))) s.(satp) s.(stimecmp).
Definition set_satp (g : Z → Z) (s : cpu) : cpu :=
  mk_cpu s.(c_proc) s.(noff) s.(intena) s.(sstatus) s.(stvec) s.(sepc) s.(scause)
    s.(stval) (g (s.(satp))) s.(stimecmp).
Definition set_stimecmp (g : Z → Z) (s : cpu) : cpu :=
  mk_cpu s.(c_proc) s.(noff) s.(intena) s.(sstatus) s.(stvec) s.(sepc) s.(scause)
    s.(stval) s.(satp) (g (s.(stimecmp))).
#[export] Hint Unfold set_c_proc set_noff set_intena set_sstatus set_stvec set_sepc
  set_scause set_stval set_satp set_stimecmp : kset.

Inductive procstate : Type := UNUSED | USED | SLEEPING | RUNNABLE | RUNNING | ZOMBIE.

#[global] Instance procstate_eq_dec : EqDecision procstate.
Proof. solve_decision. Defined.

(** struct context: ra, sp and s0..s11. *)
Record context : Type := mk_context {
  cx_ra : Z;
  cx_sp : Z;
  cx_s : list Z }.

(** struct proc, without its lock.  The trapframe is a page of [pmem]. *)
Record proc : Type := mk_proc {
  p_state : procstate;
  p_chan : option chan;
  p_killed : Z;
  p_xstate : Z;
  p_pid : Z;
  p_parent : option nat;
  p_kstack : Z;
  p_sz : Z;
  p_pagetable : Z;
  p_trapframe : Z;
  p_context : context;
  p_ofile : list (option nat);
  p_cwd : option nat;
  p_name : list Z }.

Definition set_p_state (g : procstate → procstate) (s : proc) : proc :=
  mk_proc (g (s.(p_state))) s.(p_chan) s.(p_killed) s.(p_xstate) s.(p_pid)
    s.(p_parent) s.(p_kstack) s.(p_sz) s.(p_pagetable) s.(p_trapframe) s.(p_context)
    s.(p_ofile) s.(p_cwd) s.(p_name).
Definition set_p_chan (g : option chan → option chan) (s : proc) : proc :=
  mk_proc s.(p_state) (g (s.(p_chan))) s.(p_killed) s.(p_xstate) s.(p_pid)
    s.(p_parent) s.(p_kstack) s.(p_sz) s.(p_pagetable) s.(p_trapframe) s.(p_context)
    s.(p_ofile) s.(p_cwd) s.(p_name).
Definition set_p_killed (g : Z → Z) (s : proc) : proc :=
  mk_proc s.(p_state) s.(p_chan) (g (s.(p_killed))) s.(p_xstate) s.(p_pid)
    s.(p_parent) s.(p_kstack) s.(p_sz) s.(p_pagetable) s.(p_trapframe) s.(p_context)
    s.(p_ofile) s.(p_cwd) s.(p_name).
Definition set_p_xstate (g : Z → Z) (s : proc) : proc :=
  mk_proc s.(p_state) s.(p_chan) s.(p_killed) (g (s.(p_xstate))) s.(p_pid)
    s.(p_parent) s.(p_kstack) s.(p_sz) s.(p_pagetable) s.(p_trapframe) s.(p_context)
    s.(p_ofile) s.(p_cwd) s.(p_name).
Definition set_p_pid (g : Z → Z) (s : proc) : proc :=
  mk_proc s.(p_state) s.(p_chan) s.(p_killed) s.(p_xstate) (g (s.(p_pid)))
    s.(p_parent) s.(p_kstack) s.(p_sz) s.(p_pagetable) s.(p_trapframe) s.(p_context)
    s.(p_ofile) s.(p_cwd) s.(p_name).
Definition set_p_parent (g : option nat → option nat) (s : proc) : proc :=
  mk_proc s.(p_state) s.(p_chan) s.(p_killed) s.(p_xstate) s.(p_pid) (g
    (s.(p_parent))) s.(p_kstack) s.(p_sz) s.(p_pagetable) s.(p_trapframe)
    s.(p_context) s.(p_ofile) s.(p_cwd) s.(p_name).
Definition set_p_kstack (g : Z → Z) (s : proc) : proc :=
  mk_proc s.(p_state) s.(p_chan) s.(p_killed) s.(p_xstate) s.(p_pid) s.(p_parent) (g
    (s.(p_kstack))) s.(p_sz) s.(p_pagetable) s.(p_trapframe) s.(p_context)
    s.(p_ofile) s.(p_cwd) s.(p_name).
Definition set_p_sz (g : Z → Z) (s : proc) : proc :=
  mk_proc s.(p_state) s.(p_chan) s.(p_killed) s.(p_xstate) s.(p_pid) s.(p_parent)
    s.(p_kstack) (g (s.(p_sz))) s.(p_pagetable) s.(p_trapframe) s.(p_context)
    s.(p_ofile) s.(p_cwd) s.(p_name).
Definition set_p_pagetable (g : Z → Z) (s : proc) : proc :=
  mk_proc s.(p_state) s.(p_chan) s.(p_killed) s.(p_xstate) s.(p_pid) s.(p_parent)
    s.(p_kstack) s.(p_sz) (g (s.(p_pagetable))) s.(p_trapframe) s.(p_context)
    s.(p_ofile) s.(p_cwd) s.(p_name).
Definition set_p_trapframe (g : Z → Z) (s : proc) : proc :=
  mk_proc s.(p_state) s.(p_chan) s.(p_killed) s.(p_xstate) s.(p_pid) s.(p_parent)
    s.(p_kstack) s.(p_sz) s.(p_pagetable) (g (s.(p_trapframe))) s.(p_context)
    s.(p_ofile) s.(p_cwd) s.(p_name).
Definition set_p_context (g : context → context) (s : proc) : proc :=
  mk_proc s.(p_state) s.(p_chan) s.(p_killed) s.(p_xstate) s.(p_pid) s.(p_parent)
    s.(p_kstack) s.(p_sz) s.(p_pagetable) s.(p_trapframe) (g (s.(p_context)))
    s.(p_ofile) s.(p_cwd) s.(p_name).
Definition set_p_ofile (g : list (option nat) → list (option nat)) (s : proc) : proc :=
  mk_proc s.(p_state) s.(p_chan) s.(p_killed) s.(p_xstate) s.(p_pid) s.(p_parent)
    s.(p_kstack) s.(p_sz) s.(p_pagetable) s.(p_trapframe) s.(p_context) (g
    (s.(p_ofile))) s.(p_cwd) s.(p_name).
Definition set_p_cwd (g : option nat → option nat) (s : proc) : proc :=
  mk_proc s.(p_state) s.(p_chan) s.(p_killed) s.(p_xstate) s.(p_pid) s.(p_parent)
    s.(p_kstack) s.(p_sz) s.(p_pagetable) s.(p_trapframe) s.(p_context) s.(p_ofile)
    (g (s.(p_cwd))) s.(p_name).
Definition set_p_name (g : list Z → list Z) (s : proc) : proc :=
  mk_proc s.(p_state) s.(p_chan) s.(p_killed) s.(p_xstate) s.(p_pid) s.(p_parent)
    s.(p_kstack) s.(p_sz) s.(p_pagetable) s.(p_trapframe) s.(p_context) s.(p_ofile)
    s.(p_cwd) (g (s.(p_name))).
#[export] Hint Unfold set_p_state set_p_chan set_p_killed set_p_xstate set_p_pid
  set_p_parent set_p_kstack set_p_sz set_p_pagetable set_p_trapframe set_p_context
  set_p_ofile set_p_cwd set_p_name : kset.

Inductive ftype : Type := FD_NONE | FD_PIPE | FD_INODE | FD_DEVICE.

#[global] Instance ftype_eq_dec : EqDecision ftype.
Proof. solve_decision. Defined.

(** struct file *)
Record file : Type := mk_file {
  f_type : ftype;
  f_ref : Z;
  f_readable : Z;
  f_writable : Z;
  f_pipe : Z;
  f_ip : option nat;
  f_off : Z;
  f_major : Z }.

Definition set_f_type (g : ftype → ftype) (s : file) : file :=
  mk_file (g (s.(f_type))) s.(f_ref) s.(f_readable) s.(f_writable) s.(f_pipe)
    s.(f_ip) s.(f_off) s.(f_major).
Definition set_f_ref (g : Z → Z) (s : file) : file :=
  mk_file s.(f_type) (g (s.(f_ref))) s.(f_readable) s.(f_writable) s.(f_pipe)
    s.(f_ip) s.(f_off) s.(f_major).
Definition set_f_readable (g : Z → Z) (s : file) : file :=
  mk_file s.(f_type) s.(f_ref) (g (s.(f_readable))) s.(f_writable) s.(f_pipe)
    s.(f_ip) s.(f_off) s.(f_major).
Definition set_f_writable (g : Z → Z) (s : file) : file :=
  mk_file s.(f_type) s.(f_ref) s.(f_readable) (g (s.(f_writable))) s.(f_pipe)
    s.(f_ip) s.(f_off) s.(f_major).
Definition set_f_pipe (g : Z → Z) (s : file) : file :=
  mk_file s.(f_type) s.(f_ref) s.(f_readable) s.(f_writable) (g (s.(f_pipe)))
    s.(f_ip) s.(f_off) s.(f_major).
Definition set_f_ip (g : option nat → option nat) (s : file) : file :=
  mk_file s.(f_type) s.(f_ref) s.(f_readable) s.(f_writable) s.(f_pipe) (g
    (s.(f_ip))) s.(f_off) s.(f_major).
Definition set_f_off (g : Z → Z) (s : file) : file :=
  mk_file s.(f_type) s.(f_ref) s.(f_readable) s.(f_writable) s.(f_pipe) s.(f_ip) (g
    (s.(f_off))) s.(f_major).
Definition set_f_major (g : Z → Z) (s : file) : file :=
  mk_file s.(f_type) s.(f_ref) s.(f_readable) s.(f_writable) s.(f_pipe) s.(f_ip)
    s.(f_off) (g (s.(f_major))).
#[export] Hint Unfold set_f_type set_f_ref set_f_readable set_f_writable set_f_pipe
  set_f_ip set_f_off set_f_major : kset.

(** struct inode, the in-memory copy *)
Record inode : Type := mk_inode {
  i_dev : Z;
  i_inum : Z;
  i_ref : Z;
  i_lock : sleeplock;
  i_valid : Z;
  i_type : Z;
  i_major : Z;
  i_minor : Z;
  i_nlink : Z;
  i_size : Z;
  i_addrs : list Z }.

Definition set_i_dev (g : Z → Z) (s : inode) : inode :=
  mk_inode (g (s.(i_dev))) s.(i_inum) s.(i_ref) s.(i_lock) s.(i_valid) s.(i_type)
    s.(i_major) s.(i_minor) s.(i_nlink) s.(i_size) s.(i_addrs).
Definition set_i_inum (g : Z → Z) (s : inode) : inode :=
  mk_inode s.(i_dev) (g (s.(i_inum))) s.(i_ref) s.(i_lock) s.(i_valid) s.(i_type)
    s.(i_major) s.(i_minor) s.(i_nlink) s.(i_size) s.(i_addrs).
Definition set_i_ref (g : Z → Z) (s : inode) : inode :=
  mk_inode s.(i_dev) s.(i_inum) (g (s.(i_ref))) s.(i_lock) s.(i_valid) s.(i_type)
    s.(i_major) s.(i_minor) s.(i_nlink) s.(i_size) s.(i_addrs).
Definition set_i_lock (g : sleeplock → sleeplock) (s : inode) : inode :=
  mk_inode s.(i_dev) s.(i_inum) s.(i_ref) (g (s.(i_lock))) s.(i_valid) s.(i_type)
    s.(i_major) s.(i_minor) s.(i_nlink) s.(i_size) s.(i_addrs).
Definition set_i_valid (g : Z → Z) (s : inode) : inode :=
  mk_inode s.(i_dev) s.(i_inum) s.(i_ref) s.(i_lock) (g (s.(i_valid))) s.(i_type)
    s.(i_major) s.(i_minor) s.(i_nlink) s.(i_size) s.(i_addrs).
Definition set_i_type (g : Z → Z) (s : inode) : inode :=
  mk_inode s.(i_dev) s.(i_inum) s.(i_ref) s.(i_lock) s.(i_valid) (g (s.(i_type)))
    s.(i_major) s.(i_minor) s.(i_nlink) s.(i_size) s.(i_addrs).
Definition set_i_major (g : Z → Z) (s : inode) : inode :=
  mk_inode s.(i_dev) s.(i_inum) s.(i_ref) s.(i_lock) s.(i_valid) s.(i_type) (g
    (s.(i_major))) s.(i_minor) s.(i_nlink) s.(i_size) s.(i_addrs).
Definition set_i_minor (g : Z → Z) (s : inode) : inode :=
  mk_inode s.(i_dev) s.(i_inum) s.(i_ref) s.(i_lock) s.(i_valid) s.(i_type)
    s.(i_major) (g (s.(i_minor))) s.(i_nlink) s.(i_size) s.(i_addrs).
Definition set_i_nlink (g : Z → Z) (s : inode) : inode :=
  mk_inode s.(i_dev) s.(i_inum) s.(i_ref) s.(i_lock) s.(i_valid) s.(i_type)
    s.(i_major) s.(i_minor) (g (s.(i_nlink))) s.(i_size) s.(i_addrs).
Definition set_i_size (g : Z → Z) (s : inode) : inode :=
  mk_inode s.(i_dev) s.(i_inum) s.(i_ref) s.(i_lock) s.(i_valid) s.(i_type)
    s.(i_major) s.(i_minor) s.(i_nlink) (g (s.(i_size))) s.(i_addrs).
Definition set_i_addrs (g : list Z → list Z) (s : inode) : inode :=
  mk_inode s.(i_dev) s.(i_inum) s.(i_ref) s.(i_lock) s.(i_valid) s.(i_type)
    s.(i_major) s.(i_minor) s.(i_nlink) s.(i_size) (g (s.(i_addrs))).
#[export] Hint Unfold set_i_dev set_i_inum set_i_ref set_i_lock set_i_valid
  set_i_type set_i_major set_i_minor set_i_nlink set_i_size set_i_addrs : kset.

(** struct buf; [b_prev] and [b_next] index [bufs], whose last entry is the
    list head of the cache. *)
Record buf : Type := mk_buf {
  b_valid : Z;
  b_disk : Z;
  b_dev : Z;
  b_blockno : Z;
  b_lock : sleeplock;
  b_refcnt : Z;
  b_prev : nat;
  b_next : nat;
  b_data : list Z }.

Definition set_b_valid (g : Z → Z) (s : buf) : buf :=
  mk_buf (g (s.(b_valid))) s.(b_disk) s.(b_dev) s.(b_blockno) s.(b_lock)
    s.(b_refcnt) s.(b_prev) s.(b_next) s.(b_data).
Definition set_b_disk (g : Z → Z) (s : buf) : buf :=
  mk_buf s.(b_valid) (g (s.(b_disk))) s.(b_dev) s.(b_blockno) s.(b_lock)
    s.(b_refcnt) s.(b_prev) s.(b_next) s.(b_data).
Definition set_b_dev (g : Z → Z) (s : buf) : buf :=
  mk_buf s.(b_valid) s.(b_disk) (g (s.(b_dev))) s.(b_blockno) s.(b_lock)
    s.(b_refcnt) s.(b_prev) s.(b_next) s.(b_data).
Definition set_b_blockno (g : Z → Z) (s : buf) : buf :=
  mk_buf s.(b_valid) s.(b_disk) s.(b_dev) (g (s.(b_blockno))) s.(b_lock)
    s.(b_refcnt) s.(b_prev) s.(b_next) s.(b_data).
Definition set_b_lock (g : sleeplock → sleeplock) (s : buf) : buf :=
  mk_buf s.(b_valid) s.(b_disk) s.(b_dev) s.(b_blockno) (g (s.(b_lock)))
    s.(b_refcnt) s.(b_prev) s.(b_next) s.(b_data).
Definition set_b_refcnt (g : Z → Z) (s : buf) : buf :=
  mk_buf s.(b_valid) s.(b_disk) s.(b_dev) s.(b_blockno) s.(b_lock) (g
    (s.(b_refcnt))) s.(b_prev) s.(b_next) s.(b_data).
Definition set_b_prev (g : nat → nat) (s : buf) : buf :=
  mk_buf s.(b_valid) s.(b_disk) s.(b_dev) s.(b_blockno) s.(b_lock) s.(b_refcnt) (g
    (s.(b_prev))) s.(b_next) s.(b_data).
Definition set_b_next (g : nat → nat) (s : buf) : buf :=
  mk_buf s.(b_valid) s.(b_disk) s.(b_dev) s.(b_blockno) s.(b_lock) s.(b_refcnt)
    s.(b_prev) (g (s.(b_next))) s.(b_data).
Definition set_b_data (g : list Z → list Z) (s : buf) : buf :=
  mk_buf s.(b_valid) s.(b_disk) s.(b_dev) s.(b_blockno) s.(b_lock) s.(b_refcnt)
    s.(b_prev) s.(b_next) (g (s.(b_data))).
#[export] Hint Unfold set_b_valid set_b_disk set_b_dev set_b_blockno set_b_lock
  set_b_refcnt set_b_prev set_b_next set_b_data : kset.

(** struct log with its in-memory struct logheader *)
Record log : Type := mk_log {
  l_start : Z;
  l_outstanding : Z;
  l_committing : Z;
  l_dev : Z;
  lh_n : Z;
  lh_block : list Z }.

Definition set_l_start (g : Z → Z) (s : log) : log :=
  mk_log (g (s.(l_start))) s.(l_outstanding) s.(l_committing) s.(l_dev) s.(lh_n)
    s.(lh_block).
Definition set_l_outstanding (g : Z → Z) (s : log) : log :=
  mk_log s.(l_start) (g (s.(l_outstanding))) s.(l_committing) s.(l_dev) s.(lh_n)
    s.(lh_block).
Definition set_l_committing (g : Z → Z) (s : log) : log :=
  mk_log s.(l_start) s.(l_outstanding) (g (s.(l_committing))) s.(l_dev) s.(lh_n)
    s.(lh_block).
Definition set_l_dev (g : Z → Z) (s : log) : log :=
  mk_log s.(l_start) s.(l_outstanding) s.(l_committing) (g (s.(l_dev))) s.(lh_n)
    s.(lh_block).
Definition set_lh_n (g : Z → Z) (s : log) : log :=
  mk_log s.(l_start) s.(l_outstanding) s.(l_committing) s.(l_dev) (g (s.(lh_n)))
    s.(lh_block).
Definition set_lh_block (g : list Z → list Z) (s : log) : log :=
  mk_log s.(l_start) s.(l_outstanding) s.(l_committing) s.(l_dev) s.(lh_n) (g
    (s.(lh_block))).
#[export] Hint Unfold set_l_start set_l_outstanding set_l_committing set_l_dev
  set_lh_n set_lh_block : kset.

(** struct superblock *)
Record superblock : Type := mk_sb {
  sb_magic : Z;
  sb_size : Z;
  sb_nblocks : Z;
  sb_ninodes : Z;
  sb_nlog : Z;
  sb_logstart : Z;
  sb_inodestart : Z;
  sb_bmapstart : Z }.

(** struct pipe, without its lock *)
Record pipe : Type := mk_pipe {
  pi_data : list Z;
  nread : Z;
  nwrite : Z;
  readopen : Z;
  writeopen : Z }.

Definition set_pi_data (g : list Z → list Z) (s : pipe) : pipe :=
  mk_pipe (g (s.(pi_data))) s.(nread) s.(nwrite) s.(readopen) s.(writeopen).
Definition set_nread (g : Z → Z) (s : pipe) : pipe :=
  mk_pipe s.(pi_data) (g (s.(nread))) s.(nwrite) s.(readopen) s.(writeopen).
Definition set_nwrite (g : Z → Z) (s : pipe) : pipe :=
  mk_pipe s.(pi_data) s.(nread) (g (s.(nwrite))) s.(readopen) s.(writeopen).
Definition set_readopen (g : Z → Z) (s : pipe) : pipe :=
  mk_pipe s.(pi_data) s.(nread) s.(nwrite) (g (s.(readopen))) s.(writeopen).
Definition set_writeopen (g : Z → Z) (s : pipe) : pipe :=
  mk_pipe s.(pi_data) s.(nread) s.(nwrite) s.(readopen) (g (s.(writeopen))).
#[export] Hint Unfold set_pi_data set_nread set_nwrite set_readopen set_writeopen :
  kset.

(** the console input buffer *)
Record consbuf : Type := mk_consbuf {
  c_buf : list Z;
  c_r : Z;
  c_w : Z;
  c_e : Z }.

Definition set_c_buf (g : list Z → list Z) (s : consbuf) : consbuf :=
  mk_consbuf (g (s.(c_buf))) s.(c_r) s.(c_w) s.(c_e).
Definition set_c_r (g : Z → Z) (s : consbuf) : consbuf :=
  mk_consbuf s.(c_buf) (g (s.(c_r))) s.(c_w) s.(c_e).
Definition set_c_w (g : Z → Z) (s : consbuf) : consbuf :=
  mk_consbuf s.(c_buf) s.(c_r) (g (s.(c_w))) s.(c_e).
Definition set_c_e (g : Z → Z) (s : consbuf) : consbuf :=
  mk_consbuf s.(c_buf) s.(c_r) s.(c_w) (g (s.(c_e))).
#[export] Hint Unfold set_c_buf set_c_r set_c_w set_c_e : kset.

(** struct virtq_desc *)
Record virtq_desc : Type := mk_desc {
  d_addr : Z;
  d_len : Z;
  d_flags : Z;
  d_next : Z }.

(** struct virtio_blk_req *)
Record virtio_blk_req : Type := mk_req {
  r_type : Z;
  r_reserved : Z;
  r_sector : Z }.

(** static struct disk of virtio_disk.c: the rings shared with the device and
    the driver's own book-keeping *)
Record vdisk : Type := mk_vdisk {
  vd_desc : list virtq_desc;
  avail_idx : Z;
  avail_ring : list Z;
  used_idx_dev : Z;
  used_ring : list Z;
  vd_free : list Z;
  vd_used_idx : Z;
  info_b : list (option nat);
  info_status : list Z;
  vd_ops : list virtio_blk_req }.

Definition set_vd_desc (g : list virtq_desc → list virtq_desc) (s : vdisk) : vdisk :=
  mk_vdisk (g (s.(vd_desc))) s.(avail_idx) s.(avail_ring) s.(used_idx_dev)
    s.(used_ring) s.(vd_free) s.(vd_used_idx) s.(info_b) s.(info_status) s.(vd_ops).
Definition set_avail_idx (g : Z → Z) (s : vdisk) : vdisk :=
  mk_vdisk s.(vd_desc) (g (s.(avail_idx))) s.(avail_ring) s.(used_idx_dev)
    s.(used_ring) s.(vd_free) s.(vd_used_idx) s.(info_b) s.(info_status) s.(vd_ops).
Definition set_avail_ring (g : list Z → list Z) (s : vdisk) : vdisk :=
  mk_vdisk s.(vd_desc) s.(avail_idx) (g (s.(avail_ring))) s.(used_idx_dev)
    s.(used_ring) s.(vd_free) s.(vd_used_idx) s.(info_b) s.(info_status) s.(vd_ops).
Definition set_used_idx_dev (g : Z → Z) (s : vdisk) : vdisk :=
  mk_vdisk s.(vd_desc) s.(avail_idx) s.(avail_ring) (g (s.(used_idx_dev)))
    s.(used_ring) s.(vd_free) s.(vd_used_idx) s.(info_b) s.(info_status) s.(vd_ops).
Definition set_used_ring (g : list Z → list Z) (s : vdisk) : vdisk :=
  mk_vdisk s.(vd_desc) s.(avail_idx) s.(avail_ring) s.(used_idx_dev) (g
    (s.(used_ring))) s.(vd_free) s.(vd_used_idx) s.(info_b) s.(info_status)
    s.(vd_ops).
Definition set_vd_free (g : list Z → list Z) (s : vdisk) : vdisk :=
  mk_vdisk s.(vd_desc) s.(avail_idx) s.(avail_ring) s.(used_idx_dev) s.(used_ring)
    (g (s.(vd_free))) s.(vd_used_idx) s.(info_b) s.(info_status) s.(vd_ops).
Definition set_vd_used_idx (g : Z → Z) (s : vdisk) : vdisk :=
  mk_vdisk s.(vd_desc) s.(avail_idx) s.(avail_ring) s.(used_idx_dev) s.(used_ring)
    s.(vd_free) (g (s.(vd_used_idx))) s.(info_b) s.(info_status) s.(vd_ops).
Definition set_info_b (g : list (option nat) → list (option nat)) (s : vdisk) : vdisk :=
  mk_vdisk s.(vd_desc) s.(avail_idx) s.(avail_ring) s.(used_idx_dev) s.(used_ring)
    s.(vd_free) s.(vd_used_idx) (g (s.(info_b))) s.(info_status) s.(vd_ops).
Definition set_info_status (g : list Z → list Z) (s : vdisk) : vdisk :=
  mk_vdisk s.(vd_desc) s.(avail_idx) s.(avail_ring) s.(used_idx_dev) s.(used_ring)
    s.(vd_free) s.(vd_used_idx) s.(info_b) (g (s.(info_status))) s.(vd_ops).
Definition set_vd_ops (g : list virtio_blk_req → list virtio_blk_req)
    (s : vdisk) : vdisk :=
  mk_vdisk s.(vd_desc) s.(avail_idx) s.(avail_ring) s.(used_idx_dev) s.(used_ring)
    s.(vd_free) s.(vd_used_idx) s.(info_b) s.(info_status) (g (s.(vd_ops))).
#[export] Hint Unfold set_vd_desc set_avail_idx set_avail_ring set_used_idx_dev
  set_used_ring set_vd_free set_vd_used_idx set_info_b set_info_status set_vd_ops :
  kset.

(** the functions a [devsw] entry can point to *)
Inductive devfn : Type := Fconsoleread | Fconsolewrite.

(** All kernel globals, with the physical memory, the disk image and the list
    of disk writes done so far (newest last).  [hart] is the processor the
    modelled thread runs on, its [tp] register; [uart_out] are the bytes sent
    to the UART and [uart_in] those waiting in it; [mmio] are the other writes
    to device registers, newest last; [fork_first] is the static [first] of
    forkret and [started] that of main. *)
Record kstate : Type := mk_kstate {
  hart : nat;
  cpus : list cpu;
  locks : gmap lockid spinlock;
  procs : list proc;
  initproc : option nat;
  nextpid : Z;
  ticks : Z;
  pmem : mem;
  freelist : Z;
  kernel_pagetable : Z;
  ftable : list file;
  devsw : list (option devfn * option devfn);
  pipes : gmap Z pipe;
  itable : list inode;
  sb : superblock;
  bufs : list buf;
  klog : log;
  disk : gmap Z (list Z);
  disk_writes : list (Z * list Z);
  kvdisk : vdisk;
  kcons : consbuf;
  tx_busy : Z;
  uart_out : list Z;
  uart_in : list Z;
  mmio : list (Z * Z);
  panicking : Z;
  panicked : Z;
  fork_first : Z;
  started : Z }.

Definition set_hart (g : nat → nat) (s : kstate) : kstate :=
  mk_kstate (g (s.(hart))) s.(cpus) s.(locks) s.(procs) s.(initproc) s.(nextpid)
    s.(ticks) s.(pmem) s.(freelist) s.(kernel_pagetable) s.(ftable) s.(devsw)
    s.(pipes) s.(itable) s.(sb) s.(bufs) s.(klog) s.(disk) s.(disk_writes)
    s.(kvdisk) s.(kcons) s.(tx_busy) s.(uart_out) s.(uart_in) s.(mmio) s.(panicking)
    s.(panicked) s.(fork_first) s.(started).
Definition set_cpus (g : list cpu → list cpu) (s : kstate) : kstate :=
  mk_kstate s.(hart) (g (s.(cpus))) s.(locks) s.(procs) s.(initproc) s.(nextpid)
    s.(ticks) s.(pmem) s.(freelist) s.(kernel_pagetable) s.(ftable) s.(devsw)
    s.(pipes) s.(itable) s.(sb) s.(bufs) s.(klog) s.(disk) s.(disk_writes)
    s.(kvdisk) s.(kcons) s.(tx_busy) s.(uart_out) s.(uart_in) s.(mmio) s.(panicking)
    s.(panicked) s.(fork_first) s.(started).
Definition set_locks (g : gmap lockid spinlock → gmap lockid spinlock)
    (s : kstate) : kstate :=
  mk_kstate s.(hart) s.(cpus) (g (s.(locks))) s.(procs) s.(initproc) s.(nextpid)
    s.(ticks) s.(pmem) s.(freelist) s.(kernel_pagetable) s.(ftable) s.(devsw)
    s.(pipes) s.(itable) s.(sb) s.(bufs) s.(klog) s.(disk) s.(disk_writes)
    s.(kvdisk) s.(kcons) s.(tx_busy) s.(uart_out) s.(uart_in) s.(mmio) s.(panicking)
    s.(panicked) s.(fork_first) s.(started).
Definition set_procs (g : list proc → list proc) (s : kstate) : kstate :=
  mk_kstate s.(hart) s.(cpus) s.(locks) (g (s.(procs))) s.(initproc) s.(nextpid)
    s.(ticks) s.(pmem) s.(freelist) s.(kernel_pagetable) s.(ftable) s.(devsw)
    s.(pipes) s.(itable) s.(sb) s.(bufs) s.(klog) s.(disk) s.(disk_writes)
    s.(kvdisk) s.(kcons) s.(tx_busy) s.(uart_out) s.(uart_in) s.(mmio) s.(panicking)
    s.(panicked) s.(fork_first) s.(started).
Definition set_initproc (g : option nat → option nat) (s : kstate) : kstate :=
  mk_kstate s.(hart) s.(cpus) s.(locks) s.(procs) (g (s.(initproc))) s.(nextpid)
    s.(ticks) s.(pmem) s.(freelist) s.(kernel_pagetable) s.(ftable) s.(devsw)
    s.(pipes) s.(itable) s.(sb) s.(bufs) s.(klog) s.(disk) s.(disk_writes)
    s.(kvdisk) s.(kcons) s.(tx_busy) s.(uart_out) s.(uart_in) s.(mmio) s.(panicking)
    s.(panicked) s.(fork_first) s.(started).
Definition set_nextpid (g : Z → Z) (s : kstate) : kstate :=
  mk_kstate s.(hart) s.(cpus) s.(locks) s.(procs) s.(initproc) (g (s.(nextpid)))
    s.(ticks) s.(pmem) s.(freelist) s.(kernel_pagetable) s.(ftable) s.(devsw)
    s.(pipes) s.(itable) s.(sb) s.(bufs) s.(klog) s.(disk) s.(disk_writes)
    s.(kvdisk) s.(kcons) s.(tx_busy) s.(uart_out) s.(uart_in) s.(mmio) s.(panicking)
    s.(panicked) s.(fork_first) s.(started).
Definition set_ticks (g : Z → Z) (s : kstate) : kstate :=
  mk_kstate s.(hart) s.(cpus) s.(locks) s.(procs) s.(initproc) s.(nextpid) (g
    (s.(ticks))) s.(pmem) s.(freelist) s.(kernel_pagetable) s.(ftable) s.(devsw)
    s.(pipes) s.(itable) s.(sb) s.(bufs) s.(klog) s.(disk) s.(disk_writes)
    s.(kvdisk) s.(kcons) s.(tx_busy) s.(uart_out) s.(uart_in) s.(mmio) s.(panicking)
    s.(panicked) s.(fork_first) s.(started).
Definition set_pmem (g : mem → mem) (s : kstate) : kstate :=
  mk_kstate s.(hart) s.(cpus) s.(locks) s.(procs) s.(initproc) s.(nextpid) s.(ticks)
    (g (s.(pmem))) s.(freelist) s.(kernel_pagetable) s.(ftable) s.(devsw) s.(pipes)
    s.(itable) s.(sb) s.(bufs) s.(klog) s.(disk) s.(disk_writes) s.(kvdisk)
    s.(kcons) s.(tx_busy) s.(uart_out) s.(uart_in) s.(mmio) s.(panicking)
    s.(panicked) s.(fork_first) s.(started).
Definition set_freelist (g : Z → Z) (s : kstate) : kstate :=
  mk_kstate s.(hart) s.(cpus) s.(locks) s.(procs) s.(initproc) s.(nextpid) s.(ticks)
    s.(pmem) (g (s.(freelist))) s.(kernel_pagetable) s.(ftable) s.(devsw) s.(pipes)
    s.(itable) s.(sb) s.(bufs) s.(klog) s.(disk) s.(disk_writes) s.(kvdisk)
    s.(kcons) s.(tx_busy) s.(uart_out) s.(uart_in) s.(mmio) s.(panicking)
    s.(panicked) s.(fork_first) s.(started).
Definition set_kernel_pagetable (g : Z → Z) (s : kstate) : kstate :=
  mk_kstate s.(hart) s.(cpus) s.(locks) s.(procs) s.(initproc) s.(nextpid) s.(ticks)
    s.(pmem) s.(freelist) (g (s.(kernel_pagetable))) s.(ftable) s.(devsw) s.(pipes)
    s.(itable) s.(sb) s.(bufs) s.(klog) s.(disk) s.(disk_writes) s.(kvdisk)
    s.(kcons) s.(tx_busy) s.(uart_out) s.(uart_in) s.(mmio) s.(panicking)
    s.(panicked) s.(fork_first) s.(started).
Definition set_ftable (g : list file → list file) (s : kstate) : kstate :=
  mk_kstate s.(hart) s.(cpus) s.(locks) s.(procs) s.(initproc) s.(nextpid) s.(ticks)
    s.(pmem) s.(freelist) s.(kernel_pagetable) (g (s.(ftable))) s.(devsw) s.(pipes)
    s.(itable) s.(sb) s.(bufs) s.(klog) s.(disk) s.(disk_writes) s.(kvdisk)
    s.(kcons) s.(tx_busy) s.(uart_out) s.(uart_in) s.(mmio) s.(panicking)
    s.(panicked) s.(fork_first) s.(started).
Definition set_devsw (g : list (option devfn * option devfn) → list (option devfn * option devfn))
    (s : kstate) : kstate :=
  mk_kstate s.(hart) s.(cpus) s.(locks) s.(procs) s.(initproc) s.(nextpid) s.(ticks)
    s.(pmem) s.(freelist) s.(kernel_pagetable) s.(ftable) (g (s.(devsw))) s.(pipes)
    s.(itable) s.(sb) s.(bufs) s.(klog) s.(disk) s.(disk_writes) s.(kvdisk)
    s.(kcons) s.(tx_busy) s.(uart_out) s.(uart_in) s.(mmio) s.(panicking)
    s.(panicked) s.(fork_first) s.(started).
Definition set_pipes (g : gmap Z pipe → gmap Z pipe) (s : kstate) : kstate :=
  mk_kstate s.(hart) s.(cpus) s.(locks) s.(procs) s.(initproc) s.(nextpid) s.(ticks)
    s.(pmem) s.(freelist) s.(kernel_pagetable) s.(ftable) s.(devsw) (g (s.(pipes)))
    s.(itable) s.(sb) s.(bufs) s.(klog) s.(disk) s.(disk_writes) s.(kvdisk)
    s.(kcons) s.(tx_busy) s.(uart_out) s.(uart_in) s.(mmio) s.(panicking)
    s.(panicked) s.(fork_first) s.(started).
Definition set_itable (g : list inode → list inode) (s : kstate) : kstate :=
  mk_kstate s.(hart) s.(cpus) s.(locks) s.(procs) s.(initproc) s.(nextpid) s.(ticks)
    s.(pmem) s.(freelist) s.(kernel_pagetable) s.(ftable) s.(devsw) s.(pipes) (g
    (s.(itable))) s.(sb) s.(bufs) s.(klog) s.(disk) s.(disk_writes) s.(kvdisk)
    s.(kcons) s.(tx_busy) s.(uart_out) s.(uart_in) s.(mmio) s.(panicking)
    s.(panicked) s.(fork_first) s.(started).
Definition set_sb (g : superblock → superblock) (s : kstate) : kstate :=
  mk_kstate s.(hart) s.(cpus) s.(locks) s.(procs) s.(initproc) s.(nextpid) s.(ticks)
    s.(pmem) s.(freelist) s.(kernel_pagetable) s.(ftable) s.(devsw) s.(pipes)
    s.(itable) (g (s.(sb))) s.(bufs) s.(klog) s.(disk) s.(disk_writes) s.(kvdisk)
    s.(kcons) s.(tx_busy) s.(uart_out) s.(uart_in) s.(mmio) s.(panicking)
    s.(panicked) s.(fork_first) s.(started).
Definition set_bufs (g : list buf → list buf) (s : kstate) : kstate :=
  mk_kstate s.(hart) s.(cpus) s.(locks) s.(procs) s.(initproc) s.(nextpid) s.(ticks)
    s.(pmem) s.(freelist) s.(kernel_pagetable) s.(ftable) s.(devsw) s.(pipes)
    s.(itable) s.(sb) (g (s.(bufs))) s.(klog) s.(disk) s.(disk_writes) s.(kvdisk)
    s.(kcons) s.(tx_busy) s.(uart_out) s.(uart_in) s.(mmio) s.(panicking)
    s.(panicked) s.(fork_first) s.(started).
Definition set_klog (g : log → log) (s : kstate) : kstate :=
  mk_kstate s.(hart) s.(cpus) s.(locks) s.(procs) s.(initproc) s.(nextpid) s.(ticks)
    s.(pmem) s.(freelist) s.(kernel_pagetable) s.(ftable) s.(devsw) s.(pipes)
    s.(itable) s.(sb) s.(bufs) (g (s.(klog))) s.(disk) s.(disk_writes) s.(kvdisk)
    s.(kcons) s.(tx_busy) s.(uart_out) s.(uart_in) s.(mmio) s.(panicking)
    s.(panicked) s.(fork_first) s.(started).
Definition set_disk (g : gmap Z (list Z) → gmap Z (list Z)) (s : kstate) : kstate :=
  mk_kstate s.(hart) s.(cpus) s.(locks) s.(procs) s.(initproc) s.(nextpid) s.(ticks)
    s.(pmem) s.(freelist) s.(kernel_pagetable) s.(ftable) s.(devsw) s.(pipes)
    s.(itable) s.(sb) s.(bufs) s.(klog) (g (s.(disk))) s.(disk_writes) s.(kvdisk)
    s.(kcons) s.(tx_busy) s.(uart_out) s.(uart_in) s.(mmio) s.(panicking)
    s.(panicked) s.(fork_first) s.(started).
Definition set_disk_writes (g : list (Z * list Z) → list (Z * list Z))
    (s : kstate) : kstate :=
  mk_kstate s.(hart) s.(cpus) s.(locks) s.(procs) s.(initproc) s.(nextpid) s.(ticks)
    s.(pmem) s.(freelist) s.(kernel_pagetable) s.(ftable) s.(devsw) s.(pipes)
    s.(itable) s.(sb) s.(bufs) s.(klog) s.(disk) (g (s.(disk_writes))) s.(kvdisk)
    s.(kcons) s.(tx_busy) s.(uart_out) s.(uart_in) s.(mmio) s.(panicking)
    s.(panicked) s.(fork_first) s.(started).
Definition set_kvdisk (g : vdisk → vdisk) (s : kstate) : kstate :=
  mk_kstate s.(hart) s.(cpus) s.(locks) s.(procs) s.(initproc) s.(nextpid) s.(ticks)
    s.(pmem) s.(freelist) s.(kernel_pagetable) s.(ftable) s.(devsw) s.(pipes)
    s.(itable) s.(sb) s.(bufs) s.(klog) s.(disk) s.(disk_writes) (g (s.(kvdisk)))
    s.(kcons) s.(tx_busy) s.(uart_out) s.(uart_in) s.(mmio) s.(panicking)
    s.(panicked) s.(fork_first) s.(started).
Definition set_kcons (g : consbuf → consbuf) (s : kstate) : kstate :=
  mk_kstate s.(hart) s.(cpus) s.(locks) s.(procs) s.(initproc) s.(nextpid) s.(ticks)
    s.(pmem) s.(freelist) s.(kernel_pagetable) s.(ftable) s.(devsw) s.(pipes)
    s.(itable) s.(sb) s.(bufs) s.(klog) s.(disk) s.(disk_writes) s.(kvdisk) (g
    (s.(kcons))) s.(tx_busy) s.(uart_out) s.(uart_in) s.(mmio) s.(panicking)
    s.(panicked) s.(fork_first) s.(started).
Definition set_tx_busy (g : Z → Z) (s : kstate) : kstate :=
  mk_kstate s.(hart) s.(cpus) s.(locks) s.(procs) s.(initproc) s.(nextpid) s.(ticks)
    s.(pmem) s.(freelist) s.(kernel_pagetable) s.(ftable) s.(devsw) s.(pipes)
    s.(itable) s.(sb) s.(bufs) s.(klog) s.(disk) s.(disk_writes) s.(kvdisk)
    s.(kcons) (g (s.(tx_busy))) s.(uart_out) s.(uart_in) s.(mmio) s.(panicking)
    s.(panicked) s.(fork_first) s.(started).
Definition set_uart_out (g : list Z → list Z) (s : kstate) : kstate :=
  mk_kstate s.(hart) s.(cpus) s.(locks) s.(procs) s.(initproc) s.(nextpid) s.(ticks)
    s.(pmem) s.(freelist) s.(kernel_pagetable) s.(ftable) s.(devsw) s.(pipes)
    s.(itable) s.(sb) s.(bufs) s.(klog) s.(disk) s.(disk_writes) s.(kvdisk)
    s.(kcons) s.(tx_busy) (g (s.(uart_out))) s.(uart_in) s.(mmio) s.(panicking)
    s.(panicked) s.(fork_first) s.(started).
Definition set_uart_in (g : list Z → list Z) (s : kstate) : kstate :=
  mk_kstate s.(hart) s.(cpus) s.(locks) s.(procs) s.(initproc) s.(nextpid) s.(ticks)
    s.(pmem) s.(freelist) s.(kernel_pagetable) s.(ftable) s.(devsw) s.(pipes)
    s.(itable) s.(sb) s.(bufs) s.(klog) s.(disk) s.(disk_writes) s.(kvdisk)
    s.(kcons) s.(tx_busy) s.(uart_out) (g (s.(uart_in))) s.(mmio) s.(panicking)
    s.(panicked) s.(fork_first) s.(started).
Definition set_mmio (g : list (Z * Z) → list (Z * Z)) (s : kstate) : kstate :=
  mk_kstate s.(hart) s.(cpus) s.(locks) s.(procs) s.(initproc) s.(nextpid) s.(ticks)
    s.(pmem) s.(freelist) s.(kernel_pagetable) s.(ftable) s.(devsw) s.(pipes)
    s.(itable) s.(sb) s.(bufs) s.(klog) s.(disk) s.(disk_writes) s.(kvdisk)
    s.(kcons) s.(tx_busy) s.(uart_out) s.(uart_in) (g (s.(mmio))) s.(panicking)
    s.(panicked) s.(fork_first) s.(started).
Definition set_panicking (g : Z → Z) (s : kstate) : kstate :=
  mk_kstate s.(hart) s.(cpus) s.(locks) s.(procs) s.(initproc) s.(nextpid) s.(ticks)
    s.(pmem) s.(freelist) s.(kernel_pagetable) s.(ftable) s.(devsw) s.(pipes)
    s.(itable) s.(sb) s.(bufs) s.(klog) s.(disk) s.(disk_writes) s.(kvdisk)
    s.(kcons) s.(tx_busy) s.(uart_out) s.(uart_in) s.(mmio) (g (s.(panicking)))
    s.(panicked) s.(fork_first) s.(started).
Definition set_panicked (g : Z → Z) (s : kstate) : kstate :=
  mk_kstate s.(hart) s.(cpus) s.(locks) s.(procs) s.(initproc) s.(nextpid) s.(ticks)
    s.(pmem) s.(freelist) s.(kernel_pagetable) s.(ftable) s.(devsw) s.(pipes)
    s.(itable) s.(sb) s.(bufs) s.(klog) s.(disk) s.(disk_writes) s.(kvdisk)
    s.(kcons) s.(tx_busy) s.(uart_out) s.(uart_in) s.(mmio) s.(panicking) (g
    (s.(panicked))) s.(fork_first) s.(started).
Definition set_fork_first (g : Z → Z) (s : kstate) : kstate :=
  mk_kstate s.(hart) s.(cpus) s.(locks) s.(procs) s.(initproc) s.(nextpid) s.(ticks)
    s.(pmem) s.(freelist) s.(kernel_pagetable) s.(ftable) s.(devsw) s.(pipes)
    s.(itable) s.(sb) s.(bufs) s.(klog) s.(disk) s.(disk_writes) s.(kvdisk)
    s.(kcons) s.(tx_busy) s.(uart_out) s.(uart_in) s.(mmio) s.(panicking)
    s.(panicked) (g (s.(fork_first))) s.(started).
Definition set_started (g : Z → Z) (s : kstate) : kstate :=
  mk_kstate s.(hart) s.(cpus) s.(locks) s.(procs) s.(initproc) s.(nextpid) s.(ticks)
    s.(pmem) s.(freelist) s.(kernel_pagetable) s.(ftable) s.(devsw) s.(pipes)
    s.(itable) s.(sb) s.(bufs) s.(klog) s.(disk) s.(disk_writes) s.(kvdisk)
    s.(kcons) s.(tx_busy) s.(uart_out) s.(uart_in) s.(mmio) s.(panicking)
    s.(panicked) s.(fork_first) (g (s.(started))).
#[export] Hint Unfold set_hart set_cpus set_locks set_procs set_initproc set_nextpid
  set_ticks set_pmem set_freelist set_kernel_pagetable set_ftable set_devsw
  set_pipes set_itable set_sb set_bufs set_klog set_disk set_disk_writes set_kvdisk
  set_kcons set_tx_busy set_uart_out set_uart_in set_mmio set_panicking set_panicked
  set_fork_first set_started : kset.

Abbreviation K := (M kstate).

(** ** Defaults, for total lookups *)
#[global] Instance spinlock_inhabited : Inhabited spinlock := populate (mk_spinlock 0 None).
#[global] Instance sleeplock_inhabited : Inhabited sleeplock := populate (mk_sleeplock 0 0).
#[global] Instance cpu_inhabited : Inhabited cpu :=
  populate (mk_cpu None 0 false 0 0 0 0 0 0 0).
Definition context0 : context := mk_context 0 0 (replicate 12 0).
Definition proc0 : proc :=
  mk_proc UNUSED None 0 0 0 None 0 0 0 0 context0 (replicate NOFILE None) None
    (replicate 16 0).
#[global] Instance proc_inhabited : Inhabited proc := populate proc0.
Definition file0 : file := mk_file FD_NONE 0 0 0 0 None 0 0.
#[global] Instance file_inhabited : Inhabited file := populate file0.
Definition inode0 : inode := mk_inode 0 0 0 (mk_sleeplock 0 0) 0 0 0 0 0 0 (replicate 13 0).
#[global] Instance inode_inhabited : Inhabited inode := populate inode0.
Definition zero_block : list Z := replicate 1024 0.
Definition buf0 : buf := mk_buf 0 0 0 0 (mk_sleeplock 0 0) 0 0 0 zero_block.
#[global] Instance buf_inhabited : Inhabited buf := populate buf0.
#[global] Instance pipe_inhabited : Inhabited pipe := populate (mk_pipe (replicate 512 0) 0 0 0 0).
#[global] Instance desc_inhabited : Inhabited virtq_desc := populate (mk_desc 0 0 0 0).
#[global] Instance req_inhabited : Inhabited virtio_blk_req := populate (mk_req 0 0 0).

(** The state before any initialisation runs on processor 0: static data is
    zero, no lock exists yet. *)
Definition boot_state : kstate :=
  mk_kstate 0 (replicate NCPU inhabitant) ∅ (replicate NPROC proc0) None 1 0
    ∅ 0 0
    (replicate NFILE file0) (replicate 10 (None, None)) ∅
    (replicate NINODE inode0) (mk_sb 0 0 0 0 0 0 0 0) (replicate (S NBUF) buf0)
    (mk_log 0 0 0 0 0 (replicate 30 0)) ∅ []
    (mk_vdisk (replicate NUM inhabitant) 0 (replicate NUM 0) 0 (replicate NUM 0)
       (replicate NUM 0) 0 (replicate NUM None) (replicate NUM 0)
       (replicate NUM inhabitant))
    (mk_consbuf (replicate 128 0) 0 0 0) 0 [] [] [] 0 0 1 0.

(** ** Access to the tables *)

(** Following a null pointer faults in the kernel. *)
Definition deref {A} (p : option A) : K A :=
  match p with
  | Some x => mret x
  | None => panic "kerneltrap"
  end.

Definition cur_cpu (s : kstate) : cpu := s.(cpus) !!! s.(hart).
Definition upd_cpu (g : cpu → cpu) (s : kstate) : kstate :=
  set_cpus (alter g s.(hart)) s.
Definition get_proc (i : nat) (s : kstate) : proc := s.(procs) !!! i.
Definition upd_proc (i : nat) (g : proc → proc) (s : kstate) : kstate :=
  set_procs (alter g i) s.
Definition get_file (i : nat) (s : kstate) : file := s.(ftable) !!! i.
Definition upd_file (i : nat) (g : file → file) (s : kstate) : kstate :=
  set_ftable (alter g i) s.
Definition get_inode (i : nat) (s : kstate) : inode := s.(itable) !!! i.
Definition upd_inode (i : nat) (g : inode → inode) (s : kstate) : kstate :=
  set_itable (alter g i) s.
Definition get_buf (i : nat) (s : kstate) : buf := s.(bufs) !!! i.
Definition upd_buf (i : nat) (g : buf → buf) (s : kstate) : kstate :=
  set_bufs (alter g i) s.
Definition disk_block (s : kstate) (b : Z) : list Z := default zero_block (s.(disk) !! b).

(** ** Updates of a table entry *)

Lemma alter_id_list {A} (g : A → A) (l : list A) i :
  (∀ x, l !! i = Some x → g x = x) → alter g i l = l.
Proof.
  revert i. induction l as [|x l IH]; intros [|i] H; simpl; auto.
  - f_equal. by apply H.
  - f_equal. apply IH. auto.
Qed.

Lemma alter_alter_list {A} (g h : A → A) (l : list A) i :
  alter g i (alter h i l) = alter (g ∘ h) i l.
Proof.
  revert i. induction l as [|x l IH]; intros [|i]; [done..|].
  exact (f_equal (cons x) (IH i)).
Qed.

Lemma alter_comm_list {A} (g h : A → A) (l : list A) i j :
  i ≠ j → alter g i (alter h j l) = alter h j (alter g i l).
Proof.
  revert i j. induction l as [|x l IH]; intros [|i] [|j] H; [done..|].
  apply (f_equal (cons x)), IH. congruence.
Qed.

Lemma lookup_total_alter_list {A} `{!Inhabited A} (g : A → A) (l : list A) i j :
  (i < length l)%nat →
  alter g i l !!! j = if decide (i = j) then g (l !!! j) else l !!! j.
Proof.
  intros Hi. rewrite !list_lookup_total_alt. case_decide as E.
  - subst. rewrite list_lookup_alter_eq. destruct (l !! j) eqn:Ej; [done|].
    apply lookup_ge_None in Ej. lia.
  - by rewrite list_lookup_alter_ne.
Qed.

Lemma lookup_total_alter_list_eq {A} `{!Inhabited A} (g : A → A) (l : list A) i :
  (i < length l)%nat → alter g i l !!! i = g (l !!! i).
Proof. intros. rewrite lookup_total_alter_list by done. by case_decide. Qed.

Lemma lookup_total_alter_list_ne {A} `{!Inhabited A} (g : A → A) (l : list A) i j :
  i ≠ j → alter g i l !!! j = l !!! j.
Proof. intros. rewrite !list_lookup_total_alt. by rewrite list_lookup_alter_ne. Qed.
