(* ===== verification/Spinlock.v ===== *)
(** kernel/spinlock.c: spin locks and the nesting of interrupt disabling,
    with [intr_on], [intr_off] and [intr_get] of riscv.h.

    A lock that is held elsewhere makes [acquire] spin: each failed swap is a
    [Waiting] point, followed for [fuel] rounds.  [SpinlockConc.v] models the
    same code one instruction at a time on several harts. *)

From S2P Require Import Prelude Cmem Kstate.
Local Open Scope Z_scope.

Section spinlock.
Context {Fl : Fuel}.

Definition cpuid : K nat := gets hart.
Definition mycpu : K cpu := gets cur_cpu.

Definition sie (c : cpu) : bool := negb (Z.land c.(sstatus) SSTATUS_SIE =? 0).
Definition intr_get : K bool := gets (λ s, sie (cur_cpu s)).
Definition intr_on : K unit :=
  modify (upd_cpu (set_sstatus (λ x, Z.lor x SSTATUS_SIE))).
Definition intr_off : K unit :=
  modify (upd_cpu (set_sstatus (λ x, Z.land x (Z.lnot SSTATUS_SIE)))).

Definition push_off : K unit :=
  old ← intr_get;
  intr_off ;;
  c ← mycpu;
  when (c.(noff) =? 0) (modify (upd_cpu (set_intena (λ _, old)))) ;;
  modify (upd_cpu (set_noff (λ n, n + 1))).

Definition pop_off : K unit :=
  i ← intr_get;
  if i : bool then panic "pop_off - interruptible" else
  c ← mycpu;
  if c.(noff) <? 1 then panic "pop_off" else
  modify (upd_cpu (set_noff (λ n, n - 1))) ;;
  c ← mycpu;
  when ((c.(noff) =? 0) && c.(intena)) intr_on.

Definition initlock (lk : lockid) : K unit :=
  modify (set_locks <[lk := mk_spinlock 0 None]>).

Definition get_lock (lk : lockid) (s : kstate) : spinlock := s.(locks) !!! lk.

Definition holding (lk : lockid) : K bool :=
  l ← gets (get_lock lk);
  id ← cpuid;
  mret (negb (l.(locked) =? 0) && bool_decide (l.(lk_cpu) = Some id)).

(** [__sync_lock_test_and_set(&lk->locked, 1)]: store 1, return the old value. *)
Definition test_and_set (lk : lockid) : K Z :=
  l ← gets (get_lock lk);
  modify (set_locks <[lk := mk_spinlock 1 l.(lk_cpu)]>) ;;
  mret l.(locked).

Fixpoint acquire_spin (n : nat) (lk : lockid) : K unit :=
  match n with
  | O => out_of_fuel
  | S n =>
      old ← test_and_set lk;
      if old =? 0 then mret () else yield_cpu ;; acquire_spin n lk
  end.

Definition acquire (lk : lockid) : K unit :=
  push_off ;;
  h ← holding lk;
  if h : bool then panic "acquire" else
  acquire_spin (S fuel) lk ;;
  id ← cpuid;
  l ← gets (get_lock lk);
  modify (set_locks <[lk := mk_spinlock l.(locked) (Some id)]>).

Definition release (lk : lockid) : K unit :=
  h ← holding lk;
  if negb h then panic "release" else
  l ← gets (get_lock lk);
  modify (set_locks <[lk := mk_spinlock l.(locked) None]>) ;;
  modify (set_locks <[lk := mk_spinlock 0 None]>) ;;
  pop_off.

#[local] Arguments Z.lnot : simpl never.

(** ** The state inside a critical section *)

(** What [push_off] does to the running processor. *)
Definition push_cpu (c : cpu) : cpu :=
  set_noff (λ n, n + 1)
    (set_intena (λ i, if c.(noff) =? 0 then sie c else i)
       (set_sstatus (λ x, Z.land x (Z.lnot SSTATUS_SIE)) c)).

(** The state after taking the free lock [lk]. *)
Definition acq (lk : lockid) (s : kstate) : kstate :=
  set_locks <[lk := mk_spinlock 1 (Some s.(hart))]> (upd_cpu push_cpu s).

(** A processor between nested sections: outside all of them [intena] is the
    present interrupt flag, inside one interrupts are off. *)
Definition settled (c : cpu) : Prop :=
  (c.(noff) = 0 ∧ c.(intena) = sie c) ∨ (0 < c.(noff) ∧ sie c = false).

Definition cpu_ok (s : kstate) : Prop :=
  (s.(hart) < length s.(cpus))%nat ∧ settled (cur_cpu s).

Definition lock_free (lk : lockid) (s : kstate) : Prop :=
  s.(locks) !! lk = Some (mk_spinlock 0 None).

Lemma sie_off c : sie (set_sstatus (λ x, Z.land x (Z.lnot SSTATUS_SIE)) c) = false.
Proof.
  unfold sie. cbn. rewrite <- Z.land_assoc. cbn. by rewrite Z.land_0_r.
Qed.

Lemma sie_push c : sie (push_cpu c) = false.
Proof. apply sie_off. Qed.

Lemma lor_land_sie x :
  Z.land x SSTATUS_SIE ≠ 0 →
  Z.lor (Z.land x (Z.lnot SSTATUS_SIE)) SSTATUS_SIE = x.
Proof.
  intros H. rewrite Z.lor_comm. apply Z.bits_inj'. intros n Hn.
  rewrite Z.lor_spec, Z.land_spec, Z.lnot_spec by done.
  unfold SSTATUS_SIE in *. change 2 with (2 ^ 1) in *.
  rewrite Z.pow2_bits_eqb by lia. destruct (Z.eqb_spec 1 n) as [<-|]; simpl.
  - destruct (Z.testbit x 1) eqn:E; [done|]. exfalso. apply H.
    apply Z.bits_inj'. intros k Hk. rewrite Z.land_spec, Z.pow2_bits_eqb, Z.bits_0 by lia.
    destruct (Z.eqb_spec 1 k) as [<-|]; [by rewrite E|by rewrite andb_false_r].
  - by rewrite andb_true_r.
Qed.

Lemma land_lnot_id x :
  Z.land x SSTATUS_SIE = 0 → Z.land x (Z.lnot SSTATUS_SIE) = x.
Proof.
  intros H. rewrite <- Z.ldiff_land. apply Z.bits_inj'. intros n Hn.
  rewrite Z.ldiff_spec. apply (f_equal (λ y, Z.testbit y n)) in H.
  rewrite Z.land_spec, Z.bits_0 in H.
  destruct (Z.testbit x n), (Z.testbit SSTATUS_SIE n); done.
Qed.

(** What [pop_off] does to the running processor. *)
Definition pop_cpu (c : cpu) : cpu :=
  let c := set_noff (λ n, n - 1) c in
  if (c.(noff) =? 0) && c.(intena)
  then set_sstatus (λ x, Z.lor x SSTATUS_SIE) c else c.

Lemma cpu_eta (c : cpu) x :
  c.(sstatus) = x → set_sstatus (λ _, x) c = c.
Proof. by intros <-. Qed.

Lemma pop_push_cpu c : settled c → pop_cpu (push_cpu c) = c.
Proof.
  intros Hs. destruct c as [pr n ie ss tv ep ca tl sa tc].
  unfold settled, push_cpu, pop_cpu, sie in *. cbn in *.
  replace (n + 1 - 1) with n by lia.
  destruct Hs as [[-> ->]|[Hn Hf]].
  - cbn. destruct (Z.eqb_spec (Z.land ss SSTATUS_SIE) 0) as [E|E]; cbn.
    + ksimpl. by rewrite land_lnot_id.
    + ksimpl. by rewrite lor_land_sie.
  - destruct (Z.eqb_spec n 0) as [->|_]; [lia|]. cbn.
    apply negb_false_iff, Z.eqb_eq in Hf. ksimpl. rewrite land_lnot_id by done. f_equal. lia.
Qed.

Lemma settled_push c : settled c → settled (push_cpu c).
Proof.
  intros Hs. right. split; [|apply sie_push].
  destruct Hs as [[Hn _]|[Hn _]]; cbn; lia.
Qed.

(** ** Nested updates of the locks and of the running processor *)

Lemma set_locks_set_locks g h s : set_locks g (set_locks h s) = set_locks (λ x, g (h x)) s.
Proof. done. Qed.

Lemma set_locks_id g s : g s.(locks) = s.(locks) → set_locks g s = s.
Proof. intros E. unfold set_locks. by rewrite E. Qed.

Lemma upd_cpu_set_locks g h s : upd_cpu g (set_locks h s) = set_locks h (upd_cpu g s).
Proof. done. Qed.

Lemma upd_cpu_upd_cpu g h s : upd_cpu g (upd_cpu h s) = upd_cpu (g ∘ h) s.
Proof.
  unfold upd_cpu, set_cpus. cbn. by rewrite alter_alter_list.
Qed.

Lemma cur_upd_cpu g s :
  (s.(hart) < length s.(cpus))%nat → cur_cpu (upd_cpu g s) = g (cur_cpu s).
Proof. intros. unfold cur_cpu, upd_cpu. cbn. by apply lookup_total_alter_list_eq. Qed.

Lemma upd_cpu_ext g h s :
  (s.(hart) < length s.(cpus))%nat → g (cur_cpu s) = h (cur_cpu s) →
  upd_cpu g s = upd_cpu h s.
Proof.
  intros Hh E. unfold upd_cpu, set_cpus. f_equal. apply list_alter_ext; [|done].
  intros c Hc. unfold cur_cpu in E. by rewrite (list_lookup_total_correct _ _ _ Hc) in E.
Qed.

Lemma upd_cpu_id g s :
  (s.(hart) < length s.(cpus))%nat → g (cur_cpu s) = cur_cpu s → upd_cpu g s = s.
Proof.
  intros Hh E. unfold upd_cpu, set_cpus. rewrite alter_id_list; [done|].
  intros c Hc. unfold cur_cpu in E. by rewrite (list_lookup_total_correct _ _ _ Hc) in E.
Qed.

Lemma length_cpus_upd g s : length (upd_cpu g s).(cpus) = length s.(cpus).
Proof. apply length_alter. Qed.

(** ** Behaviour of the operations *)

Lemma push_off_done s :
  (s.(hart) < length s.(cpus))%nat → push_off s = Done () (upd_cpu push_cpu s).
Proof.
  intros Hh. unfold push_off.
  do 2 mnext.
  mnext.
  rewrite cur_upd_cpu by done.
  destruct (Z.eqb_spec (noff (cur_cpu s)) 0) as [E|E]; cbn -[upd_cpu];
    rewrite (proj2 (Z.eqb_eq _ _) E) || rewrite (proj2 (Z.eqb_neq _ _) E);
    cbn -[upd_cpu]; unfold mbind, M_bind, modify; cbn -[upd_cpu]; f_equal;
    rewrite !upd_cpu_upd_cpu; apply upd_cpu_ext; try done; unfold push_cpu; cbn;
    rewrite (proj2 (Z.eqb_eq _ _) E) || rewrite (proj2 (Z.eqb_neq _ _) E); done.
Qed.

Lemma pop_off_done s :
  (s.(hart) < length s.(cpus))%nat → sie (cur_cpu s) = false →
  0 < (cur_cpu s).(noff) → pop_off s = Done () (upd_cpu pop_cpu s).
Proof.
  intros Hh Hi Hn. unfold pop_off.
  mnext. rewrite Hi.
  mnext.
  destruct (Z.ltb_spec (cur_cpu s).(noff) 1); [lia|].
  erewrite bind_done by reflexivity. mnext.
  rewrite cur_upd_cpu by done. unfold when.
  destruct ((noff (set_noff (λ n, n - 1) (cur_cpu s)) =? 0) &&
            intena (set_noff (λ n, n - 1) (cur_cpu s))) eqn:E;
    unfold mret, M_ret, intr_on, modify; f_equal;
    rewrite ?upd_cpu_upd_cpu; apply upd_cpu_ext; try done;
    unfold pop_cpu; by rewrite E.
Qed.

Lemma holding_free lk s : lock_free lk s → holding lk s = Done false s.
Proof.
  intros Hl. unfold holding. erewrite bind_done by reflexivity.
  mnext. unfold get_lock.
  by rewrite (lookup_total_correct _ _ _ Hl).
Qed.

(** Taking a free lock does not wait. *)
Lemma acquire_free lk s :
  (s.(hart) < length s.(cpus))%nat → lock_free lk s →
  acquire lk s = Done () (acq lk s).
Proof.
  intros Hh Hl. unfold acquire. mstep (push_off_done _ Hh).
  assert (Hl' : lock_free lk (upd_cpu push_cpu s)) by done.
  mstep (holding_free _ _ Hl'). cbn [acquire_spin].
  unfold test_and_set, mbind, M_bind. cbn. unfold get_lock. cbn.
  rewrite (lookup_total_correct _ _ _ Hl). cbn.
  unfold modify, acq. f_equal. cbn. rewrite lookup_total_insert_eq. cbn.
  unfold set_locks. cbn. by rewrite insert_insert_eq.
Qed.

(** The lock is held by the running processor. *)
Definition held (lk : lockid) (s : kstate) : Prop :=
  s.(locks) !! lk = Some (mk_spinlock 1 (Some s.(hart))).

Lemma holding_held lk s : held lk s → holding lk s = Done true s.
Proof.
  intros Hl. unfold holding, mbind, M_bind, gets, cpuid, get_lock. cbn.
  rewrite (lookup_total_correct _ _ _ Hl). cbn. by rewrite bool_decide_eq_true_2.
Qed.

Lemma release_done lk s :
  (s.(hart) < length s.(cpus))%nat → sie (cur_cpu s) = false →
  0 < (cur_cpu s).(noff) → held lk s →
  release lk s =
    Done () (set_locks <[lk := mk_spinlock 0 None]> (upd_cpu pop_cpu s)).
Proof.
  intros Hh Hi Hn Hl. unfold release. mstep (holding_held _ _ Hl). cbn [negb].
  do 3 mnext.
  rewrite !set_locks_set_locks. cbv beta. rewrite pop_off_done by done.
  rewrite upd_cpu_set_locks. f_equal. unfold set_locks. f_equal.
  by rewrite insert_insert_eq.
Qed.

Lemma held_acq lk s : held lk (acq lk s).
Proof. unfold held, acq. cbn. by rewrite lookup_insert_eq. Qed.

Lemma noff_acq lk s :
  (s.(hart) < length s.(cpus))%nat →
  (cur_cpu (acq lk s)).(noff) = (cur_cpu s).(noff) + 1.
Proof.
  intros Hh. unfold acq, cur_cpu. cbn. by rewrite lookup_total_alter_list_eq.
Qed.

Lemma sie_acq lk s :
  (s.(hart) < length s.(cpus))%nat → sie (cur_cpu (acq lk s)) = false.
Proof.
  intros Hh. unfold acq, cur_cpu. cbn. rewrite lookup_total_alter_list_eq by done.
  apply sie_push.
Qed.

Lemma length_cpus_acq lk s : length (acq lk s).(cpus) = length s.(cpus).
Proof. apply length_alter. Qed.

(** Releasing the lock taken by [acq] restores the state outside it. *)
Lemma release_acq lk s :
  cpu_ok s → lock_free lk s → release lk (acq lk s) = Done () s.
Proof.
  intros [Hh Hs] Hl.
  rewrite release_done.
  - unfold acq. rewrite upd_cpu_set_locks, upd_cpu_upd_cpu.
    rewrite (upd_cpu_id (pop_cpu ∘ push_cpu) s Hh) by (by apply pop_push_cpu).
    rewrite set_locks_set_locks, set_locks_id; [done|].
    by rewrite insert_insert_eq, insert_id.
  - by rewrite length_cpus_acq.
  - by apply sie_acq.
  - rewrite noff_acq by done. destruct Hs as [[Hn _]|[Hn _]]; lia.
  - apply held_acq.
Qed.

Lemma cpu_ok_acq lk s : cpu_ok s → cpu_ok (acq lk s).
Proof.
  intros [Hh Hs]. split.
  - unfold acq. cbn. by rewrite length_alter.
  - unfold acq, cur_cpu. cbn. rewrite lookup_total_alter_list_eq by done.
    by apply settled_push.
Qed.

Lemma lock_free_acq lk lk' s :
  lk ≠ lk' → lock_free lk' s → lock_free lk' (acq lk s).
Proof. intros Hne Hl. unfold lock_free, acq. cbn. by rewrite lookup_insert_ne. Qed.
Fixpoint times (n : nat) (m : K unit) : K unit :=
  match n with
  | O => mret ()
  | S n => m ;; times n m
  end.

Lemma times_push_off n s :
  cpu_ok s → times n push_off s = Done () (Nat.iter n (upd_cpu push_cpu) s).
Proof.
  revert s. induction n as [|n IH]; intros s [Hh Hs]; cbn [times]; [done|].
  mstep (push_off_done _ Hh). rewrite IH.
  - by rewrite <- Nat.iter_succ_r.
  - split; [by rewrite length_cpus_upd|]. rewrite cur_upd_cpu by done.
    by apply settled_push.
Qed.

Lemma cpu_ok_iter_push n s : cpu_ok s → cpu_ok (Nat.iter n (upd_cpu push_cpu) s).
Proof.
  intros Hs. induction n as [|n IH]; [done|]. cbn. destruct IH as [Hh Hc].
  split; [by rewrite length_cpus_upd|]. rewrite cur_upd_cpu by done.
  by apply settled_push.
Qed.

Lemma pop_off_push s : cpu_ok s → pop_off (upd_cpu push_cpu s) = Done () s.
Proof.
  intros [Hh Hs]. rewrite pop_off_done.
  - rewrite upd_cpu_upd_cpu, (upd_cpu_id (pop_cpu ∘ push_cpu)); [done..|].
    by apply pop_push_cpu.
  - by rewrite length_cpus_upd.
  - rewrite cur_upd_cpu by done. apply sie_push.
  - rewrite cur_upd_cpu by done. destruct Hs as [[Hn _]|[Hn _]]; cbn; lia.
Qed.

Lemma times_pop_off n s :
  cpu_ok s → times n pop_off (Nat.iter n (upd_cpu push_cpu) s) = Done () s.
Proof.
  intros Hs. induction n as [|n IH]; cbn [times Nat.iter]; [done|].
  mstep (pop_off_push _ (cpu_ok_iter_push n s Hs)). apply IH.
Qed.

(** [push_off] and [pop_off] nest: [n] of the first leave interrupts
    disabled, and [n] of the second then restore the whole state, interrupt
    flag included. *)
Lemma push_pop_nest n s :
  cpu_ok s →
  (times n push_off ;; times n pop_off) s = Done () s ∧
  ∃ s1, times (S n) push_off s = Done () s1 ∧ sie (cur_cpu s1) = false.
Proof.
  intros Hs. split.
  - mstep (times_push_off n s Hs). by apply times_pop_off.
  - eexists. split; [by apply times_push_off|]. cbn.
    destruct (cpu_ok_iter_push n s Hs) as [Hh _].
    rewrite cur_upd_cpu by done. apply sie_push.
Qed.

(** A critical section leaves no trace: after [acquire] of a free lock the
    lock is held by this processor with interrupts off, and [release] gives
    back the state before. *)
Lemma acquire_release_restores lk s :
  cpu_ok s → lock_free lk s →
  (∃ s1, acquire lk s = Done () s1 ∧ holding lk s1 = Done true s1 ∧
         sie (cur_cpu s1) = false) ∧
  (acquire lk ;; release lk) s = Done () s.
Proof.
  intros Hs Hl. pose proof Hs as [Hh _]. split.
  - exists (acq lk s). rewrite acquire_free by done. split; [done|]. split.
    + apply holding_held, held_acq.
    + by apply sie_acq.
  - mstep (acquire_free _ _ Hh Hl). by apply release_acq.
Qed.

(** Taking a lock this processor already holds panics instead of
    deadlocking, and so does releasing one it does not hold. *)
Lemma lock_misuse_panics lk s :
  cpu_ok s → lock_free lk s →
  acquire lk (acq lk s) = Panicked "acquire" ∧ release lk s = Panicked "release".
Proof.
  intros Hs Hl. split.
  - unfold acquire. pose proof (cpu_ok_acq lk s Hs) as [Hh _].
    mstep (push_off_done _ Hh).
    unfold holding, mbind, M_bind, gets, cpuid, get_lock. cbn.
    rewrite lookup_total_insert_eq. cbn. by rewrite bool_decide_eq_true_2.
  - unfold release. by mstep (holding_free _ _ Hl).
Qed.
End spinlock.

(** A concrete processor state for the witnesses: hart 0 of [boot_state] with
    interrupts enabled and all fixed locks initialised. *)
Definition ready_locks : gmap lockid spinlock :=
  list_to_map ((λ l, (l, mk_spinlock 0 None)) <$>
    ([LkKmem; LkPid; LkWait; LkFtable; LkItable; LkBcache; LkLog; LkCons; LkTicks;
      LkTx; LkPr; LkVdisk] ++ (LkProc <$> seq 0 NPROC) ++ (LkBuf <$> seq 0 NBUF) ++
     (LkInode <$> seq 0 NINODE))).

Definition ready_state : kstate :=
  set_locks (λ _, ready_locks)
    (upd_cpu (set_sstatus (λ _, SSTATUS_SIE))
       (upd_cpu (set_intena (λ _, true)) boot_state)).

Lemma ready_cpu_ok : cpu_ok ready_state.
Proof. split; [vm_compute; lia|]. left. by vm_compute. Defined.

Lemma push_pop_nest_witness :
  @cpu_ok ready_state ∧
  (times 2 (push_off) ;; times 2 pop_off) ready_state = Done () ready_state.
Proof.
  split; [exact ready_cpu_ok|].
  exact (proj1 (push_pop_nest 2 ready_state ready_cpu_ok)).
Defined.

Lemma acquire_release_restores_witness :
  let F : Fuel := 1%nat in
  (acquire LkKmem ;; release LkKmem) ready_state = Done () ready_state.
Proof.
  exact (proj2 (@acquire_release_restores 1%nat LkKmem ready_state ready_cpu_ok eq_refl)).
Defined.

Lemma lock_misuse_panics_witness :
  release LkKmem ready_state = Panicked "release".
Proof.
  exact (proj2 (@lock_misuse_panics 1%nat LkKmem ready_state ready_cpu_ok eq_refl)).
Defined.
