(* ===== verification/SpinlockConc.v ===== *)
(** Spin locks on several harts: kernel/spinlock.c one memory access at a time.

    [SpinlockConc] follows every hart through [acquire] and [release] of one
    lock with a program counter per hart.  A step of hart [i] is one access to
    the shared lock: a load of [lk->locked] or of [lk->cpu] in [holding], the
    atomic swap, the stores to [lk->cpu], the store of 0 to [lk->locked]; or it
    is push_off or pop_off, which touch only what belongs to the hart.  The
    theorem is mutual exclusion over all interleavings of these steps. *)

From S2P Require Import Prelude.
Local Open Scope Z_scope.

Module SpinlockConc.

(** Where a hart is: outside; in [acquire], before each load of [holding];
    spinning on the swap; after the winning swap, before [lk->cpu = mycpu()];
    in the critical section, before the first load of [release]; before its
    second load; before [lk->cpu = 0]; before the unlocking store; before
    pop_off; stopped by a panic. *)
Inductive pc : Type :=
| Out | AcqLocked | AcqCpu | Spin | Got
| Crit | RelCpu | Clear | Unlock | Pop
| PanicAcquire | PanicRelease | PanicPop.

(** A hart: its position, its part of struct cpu, and whether interrupts are
    enabled on it. *)
Record hstate : Type := mk_hstate { h_pc : pc; h_noff : Z; h_intena : bool; h_sie : bool }.

Record lstate : Type := mk_lstate {
  llocked : Z;
  lholder : option nat;
  harts : list hstate }.

Definition goto (p : pc) (h : hstate) : hstate := mk_hstate p h.(h_noff) h.(h_intena) h.(h_sie).

(** push_off and pop_off of the hart, which then goes on at [p]. *)
Definition hart_push_off (p : pc) (h : hstate) : hstate :=
  mk_hstate p (h.(h_noff) + 1) (if h.(h_noff) =? 0 then h.(h_sie) else h.(h_intena)) false.
Definition hart_pop_off (p : pc) (h : hstate) : hstate :=
  if h.(h_sie) then goto PanicPop h else
  if h.(h_noff) <? 1 then goto PanicPop h else
  mk_hstate p (h.(h_noff) - 1) h.(h_intena) ((h.(h_noff) - 1 =? 0) && h.(h_intena)).

(** One step of hart [i]; [None] when it cannot move. *)
Definition cpu_step (i : nat) (s : lstate) : option lstate :=
  h ← harts s !! i;
  let step l o h' := Some (mk_lstate l o (<[i := h']> (harts s))) in
  let l := llocked s in
  let o := lholder s in
  match h.(h_pc) with
  | Out => step l o (hart_push_off AcqLocked h)
  | AcqLocked => step l o (goto (if l =? 0 then Spin else AcqCpu) h)
  | AcqCpu => step l o (goto (if decide (o = Some i) then PanicAcquire else Spin) h)
  | Spin => step 1 o (goto (if l =? 0 then Got else Spin) h)
  | Got => step l (Some i) (goto Crit h)
  | Crit => step l o (goto (if l =? 0 then PanicRelease else RelCpu) h)
  | RelCpu => step l o (goto (if decide (o = Some i) then Clear else PanicRelease) h)
  | Clear => step l None (goto Unlock h)
  | Unlock => step 0 o (goto Pop h)
  | Pop => step l o (hart_pop_off Out h)
  | PanicAcquire | PanicRelease | PanicPop => None
  end.

(** The lock free and every hart outside, some with interrupts enabled. *)
Definition init (sies : list bool) : lstate := mk_lstate 0 None (mk_hstate Out 0 false <$> sies).

Inductive reachable (sies : list bool) : lstate → Prop :=
| reach_init : reachable sies (init sies)
| reach_step i s s' : reachable sies s → cpu_step i s = Some s' → reachable sies s'.

(** The interleaving that schedules the harts in the order of [ord]. *)
Fixpoint schedule (ord : list nat) (s : lstate) : option lstate :=
  match ord with
  | [] => Some s
  | i :: ord => s' ← cpu_step i s; schedule ord s'
  end.

(** From the winning swap to the unlocking store; between the two stores to
    [lk->cpu]; between push_off and pop_off. *)
Definition owner (p : pc) : bool :=
  match p with Got | Crit | RelCpu | Clear | Unlock => true | _ => false end.
Definition named (p : pc) : bool :=
  match p with Crit | RelCpu | Clear => true | _ => false end.
Definition pushed (p : pc) : bool :=
  match p with Out => false | _ => true end.
Definition panicked (p : pc) : bool :=
  match p with PanicAcquire | PanicRelease | PanicPop => true | _ => false end.

(** A hart that had interrupts as [sie] says before it came. *)
Record hart_ok (sie : bool) (h : hstate) : Prop := {
  ho_panic : panicked h.(h_pc) = false;
  ho_noff : h.(h_noff) = if pushed h.(h_pc) then 1 else 0;
  ho_sie : h.(h_sie) = if pushed h.(h_pc) then false else sie;
  ho_intena : pushed h.(h_pc) = true → h.(h_intena) = sie }.

Record inv (sies : list bool) (s : lstate) : Prop := {
  inv_unique i j h h' : harts s !! i = Some h → harts s !! j = Some h' → owner h.(h_pc) → owner h'.(h_pc) → i = j;
  inv_locked i h : harts s !! i = Some h → owner h.(h_pc) → llocked s = 1;
  inv_holder i : lholder s = Some i ↔ ∃ h, harts s !! i = Some h ∧ named h.(h_pc);
  inv_values : llocked s = 0 ∨ llocked s = 1;
  inv_harts : Forall2 hart_ok sies (harts s) }.

Lemma lock_inv_init sies : inv sies (init sies).
Proof.
  assert (Ho : ∀ i h, harts (init sies) !! i = Some h → h.(h_pc) = Out).
  { intros i h. cbn. rewrite list_lookup_fmap. by intros (b & _ & ->)%fmap_Some. }
  split.
  - intros i j h h' Hi _. by rewrite (Ho _ _ Hi).
  - intros i h Hi. by rewrite (Ho _ _ Hi).
  - intros i. split; [done|]. intros (h & Hi & Hn). by rewrite (Ho _ _ Hi) in Hn.
  - by left.
  - cbn. rewrite Forall2_fmap_r. by apply Forall_Forall2_diag, Forall_true.
Qed.

(** A hart that does not own the lock, and does not win it, moves and leaves
    the lock alone; or the owner goes on as the owner. *)
Lemma inv_move sies s i h h' l o :
  inv sies s → harts s !! i = Some h →
  (owner h'.(h_pc) → ∀ j g, harts s !! j = Some g → owner g.(h_pc) → j = i) →
  (owner h'.(h_pc) → l = 1) → (∀ j g, j ≠ i → harts s !! j = Some g → owner g.(h_pc) → l = 1) →
  (o = Some i ↔ named h'.(h_pc)) → (∀ j, j ≠ i → o = Some j ↔ lholder s = Some j) →
  (l = 0 ∨ l = 1) → (∀ sie, hart_ok sie h → hart_ok sie h') →
  inv sies (mk_lstate l o (<[i := h']> (harts s))).
Proof.
  intros I Hi Hu Hl Hl' Hn Hn' Hv Hok.
  assert (Hg : ∀ j g, <[i := h']> (harts s) !! j = Some g → (j = i ∧ g = h') ∨ (j ≠ i ∧ harts s !! j = Some g)).
  { intros j g. rewrite list_lookup_insert. case_decide as E; [naive_solver|].
    intros Hj. right. split; [|done]. intros ->. apply E. split; [done|]. by eapply lookup_lt_Some. }
  split; cbn.
  - intros a b g g' [[-> ->]|[Ha Hga]]%Hg [[-> ->]|[Hb Hgb]]%Hg Ho Ho'; [done| | |].
    + symmetry. by eapply Hu.
    + by eapply Hu.
    + by eapply (inv_unique _ _ I).
  - intros a g [[-> ->]|[Ha Hga]]%Hg Ho; [by apply Hl|by eapply Hl'].
  - intros a. destruct (decide (a = i)) as [->|Ha].
    + rewrite list_lookup_insert_eq by (by eapply lookup_lt_Some). rewrite Hn. naive_solver.
    + rewrite list_lookup_insert_ne by done. rewrite Hn' by done. apply (inv_holder _ _ I).
  - done.
  - destruct (Forall2_lookup_r _ _ _ _ _ (inv_harts _ _ I) Hi) as (sie & Hs & Hh).
    rewrite <- (list_insert_id sies i sie Hs). apply Forall2_insert; [apply (inv_harts _ _ I)|by apply Hok].
Qed.

(** Moves along the code: no change of ownership and of [lk->cpu]. *)
Lemma inv_goto sies s i h h' :
  inv sies s → harts s !! i = Some h → owner h'.(h_pc) = owner h.(h_pc) → named h'.(h_pc) = named h.(h_pc) →
  (∀ sie, hart_ok sie h → hart_ok sie h') → inv sies (mk_lstate (llocked s) (lholder s) (<[i := h']> (harts s))).
Proof.
  intros I Hi Ho Hn Hok. apply (inv_move sies s i h h'); try done; rewrite ?Ho, ?Hn.
  - intros Hh j g Hj Hg. by apply (inv_unique _ _ I _ _ g h).
  - intros Hh. by apply (inv_locked _ _ I i h).
  - intros j g _ Hj Hg. by apply (inv_locked _ _ I j g).
  - rewrite (inv_holder _ _ I). naive_solver.
  - apply (inv_values _ _ I).
Qed.

Lemma hart_goto sie h p : pushed p = pushed h.(h_pc) → panicked p = false → hart_ok sie h → hart_ok sie (goto p h).
Proof. intros Hp Hq []. by split; cbn; rewrite ?Hp. Qed.
Lemma hart_push sie h : h.(h_pc) = Out → hart_ok sie h → hart_ok sie (hart_push_off AcqLocked h).
Proof. intros E [_ Hn Hs _]. rewrite E in *. unfold hart_push_off. rewrite Hn, Hs. by split. Qed.
Lemma hart_pop sie h : h.(h_pc) = Pop → hart_ok sie h → hart_ok sie (hart_pop_off Out h).
Proof.
  intros E [_ Hn Hs Hi]. rewrite E in *. specialize (Hi eq_refl). cbn in Hn, Hs. unfold hart_pop_off. rewrite Hn, Hs, Hi. by split.
Qed.

Lemma hart_pop_pc h : owner (hart_pop_off Out h).(h_pc) = false ∧ named (hart_pop_off Out h).(h_pc) = false.
Proof. unfold hart_pop_off. by repeat case_match. Qed.

Lemma inv_step sies i s s' : inv sies s → cpu_step i s = Some s' → inv sies s'.
Proof.
  intros I. unfold cpu_step. destruct (harts s !! i) as [h|] eqn:Hi; [|done]. cbn [mbind option_bind].
  assert (Hn : lholder s = Some i ↔ named h.(h_pc)) by (rewrite (inv_holder _ _ I); naive_solver).
  pose proof (inv_locked _ _ I i h Hi) as Hl.
  assert (Hu : owner h.(h_pc) → ∀ j g, harts s !! j = Some g → owner g.(h_pc) → j = i).
  { intros Ho j g Hj Hg. by apply (inv_unique _ _ I _ _ g h). }
  destruct (h_pc h) eqn:E; intros [= <-]; cbn in Hn, Hl, Hu.
  - apply (inv_goto _ _ _ h); rewrite ?E; try done. intros sie. by apply hart_push.
  - destruct (llocked s =? 0); (apply (inv_goto _ _ _ h); rewrite ?E; try done; intros sie; by (apply hart_goto; rewrite ?E)).
  - rewrite decide_False by (rewrite Hn; auto). apply (inv_goto _ _ _ h); rewrite ?E; try done. intros sie. by (apply hart_goto; rewrite ?E).
  - destruct (Z.eqb_spec (llocked s) 0) as [E0|E0].
    + assert (Hno : ∀ j g, harts s !! j = Some g → ¬ owner g.(h_pc)).
      { intros j g Hj Hg. pose proof (inv_locked _ _ I j g Hj Hg). lia. }
      apply (inv_move _ _ _ h); try done; [|by right|intros sie; by (apply hart_goto; rewrite ?E)].
      intros _ j g Hj Hg. by destruct (Hno j g).
    + assert (llocked s = 1) as <- by (destruct (inv_values _ _ I); lia).
      apply (inv_goto _ _ _ h); rewrite ?E; try done. intros sie. by (apply hart_goto; rewrite ?E).
  - apply (inv_move _ _ _ h); try done.
    + intros j g Hj Hg Ho. destruct Hj. by apply (Hu Logic.I j g).
    + intros j Hj. split; [naive_solver|]. intros (g & Hg & Hng)%(inv_holder _ _ I). destruct Hj.
      apply (Hu Logic.I j g Hg). by destruct (h_pc g).
    + apply (inv_values _ _ I).
    + intros sie. by (apply hart_goto; rewrite ?E).
  - rewrite (proj2 (Z.eqb_neq _ 0)) by (rewrite Hl; done). apply (inv_goto _ _ _ h); rewrite ?E; try done.
    intros sie. by (apply hart_goto; rewrite ?E).
  - rewrite decide_True by (by apply Hn). apply (inv_goto _ _ _ h); rewrite ?E; try done. intros sie. by (apply hart_goto; rewrite ?E).
  - apply (inv_move _ _ _ h); try done.
    + intros j g Hj Hg Ho. by apply (inv_locked _ _ I j g).
    + intros j Hj. split; [done|]. rewrite (proj2 Hn Logic.I). naive_solver.
    + apply (inv_values _ _ I).
    + intros sie. by (apply hart_goto; rewrite ?E).
  - apply (inv_move _ _ _ h); try done.
    + intros j g Hj Hg Ho. destruct Hj. by apply (Hu Logic.I j g).
    + by left.
    + intros sie. by (apply hart_goto; rewrite ?E).
  - destruct (hart_pop_pc h) as [Ho Hm]. apply (inv_goto _ _ _ h); rewrite ?E, ?Ho, ?Hm; try done. intros sie. by apply hart_pop.
Qed.

Lemma lock_reachable_inv sies s : reachable sies s → inv sies s.
Proof. induction 1; eauto using lock_inv_init, inv_step. Qed.

(** C3. Mutual exclusion: in every interleaving of the memory accesses of any
    number of harts that acquire and release the lock, at most one hart is
    between the winning swap and the unlocking store, the lock word is then 1,
    and none of the checks of acquire, release and pop_off panics.  Interrupts
    are off on a hart from push_off in acquire to pop_off in release, and
    outside they are as they were at first. *)
Theorem spinlock_mutual_exclusion sies s i j h h' sie :
  reachable sies s → harts s !! i = Some h → harts s !! j = Some h' → sies !! i = Some sie →
  (owner h.(h_pc) → owner h'.(h_pc) → i = j ∧ llocked s = 1) ∧
  panicked h.(h_pc) = false ∧
  h.(h_sie) = if pushed h.(h_pc) then false else sie.
Proof.
  intros Hr%lock_reachable_inv Hi Hj Hs. split.
  - intros Hp Hq. split; [by eapply (inv_unique _ _ Hr)|by eapply (inv_locked _ _ Hr)].
  - pose proof (Forall2_lookup_lr _ _ _ _ _ _ (inv_harts _ _ Hr) Hs Hi) as []. by split.
Qed.

Lemma reachable_schedule sies ord s s' :
  reachable sies s → schedule ord s = Some s' → reachable sies s'.
Proof.
  revert s. induction ord as [|i ord IH]; intros s Hr; cbn; [naive_solver|].
  destruct (cpu_step i s) as [s1|] eqn:E; cbn; [|done].
  apply IH. by eapply reach_step.
Qed.

(** Two harts race for the lock.  Hart 0 has read [lk->locked] as set, and
    reads [lk->cpu] after hart 1 has unlocked; hart 1 releases and comes back. *)
Lemma spinlock_mutual_exclusion_witness :
  let s := mk_lstate 1 (Some 0%nat) [mk_hstate Crit 1 true false; mk_hstate Spin 1 false false] in
  reachable [true; false] s ∧ llocked s = 1 ∧ panicked Crit = false.
Proof.
  intros s.
  assert (Hr : reachable [true; false] s).
  { apply (reachable_schedule _ [1; 1; 1; 1; 0; 0; 1; 1; 1; 1; 1; 0; 0; 1; 1; 1; 0; 1]%nat (init [true; false])).
    - apply reach_init.
    - vm_compute. reflexivity. }
  destruct (spinlock_mutual_exclusion [true; false] s 0 0 _ _ true Hr eq_refl eq_refl eq_refl) as (Hx & Hp & _).
  exact (conj Hr (conj (proj2 (Hx I I)) Hp)).
Defined.
End SpinlockConc.
