(* ===== verification/Sleep.v ===== *)
(** kernel/proc.c, the scheduling half: [myproc], [sched], [yield],
    [scheduler], [sleep], [wakeup], [kkill], [setkilled], [killed].

    [swtch] to the scheduler is a [Waiting] point: the thread's registers are
    its continuation, and it goes on when some processor's scheduler switches
    back to it, in whatever state the kernel has reached by then (possibly on
    another [hart]). *)

From S2P Require Import Prelude Cmem Kstate Spinlock.
Local Open Scope Z_scope.

Section sleep.
Context {Fl : Fuel}.

Definition myproc : K (option nat) :=
  push_off ;;
  c ← mycpu;
  let p := c.(c_proc) in
  pop_off ;;
  mret p.

(** [myproc()] where the code goes on to follow the pointer. *)
Definition myproc_ptr : K nat := p ← myproc; deref p.

Definition sched : K unit :=
  p ← myproc_ptr;
  h ← holding (LkProc p);
  if negb h then panic "sched p->lock" else
  c ← mycpu;
  if negb (c.(noff) =? 1) then panic "sched locks" else
  q ← gets (get_proc p);
  if bool_decide (q.(p_state) = RUNNING) then panic "sched RUNNING" else
  i ← intr_get;
  if i : bool then panic "sched interruptible" else
  c ← mycpu;
  let ie := c.(intena) in
  yield_cpu ;;
  modify (upd_cpu (set_intena (λ _, ie))).

Definition yield : K unit :=
  p ← myproc_ptr;
  acquire (LkProc p) ;;
  modify (upd_proc p (set_p_state (λ _, RUNNABLE))) ;;
  sched ;;
  release (LkProc p).

Definition sleep (ch : chan) (lk : lockid) : K unit :=
  p ← myproc_ptr;
  acquire (LkProc p) ;;
  release lk ;;
  modify (upd_proc p (set_p_chan (λ _, Some ch))) ;;
  modify (upd_proc p (set_p_state (λ _, SLEEPING))) ;;
  sched ;;
  modify (upd_proc p (set_p_chan (λ _, None))) ;;
  release (LkProc p) ;;
  acquire lk.

Definition sleeping_on (ch : chan) (p : proc) : bool :=
  bool_decide (p.(p_state) = SLEEPING) && bool_decide (p.(p_chan) = Some ch).

Definition wakeup (ch : chan) : K unit :=
  mfor (seq 0 NPROC) (λ p,
    me ← myproc;
    if bool_decide (me = Some p) then mret () else
    acquire (LkProc p) ;;
    q ← gets (get_proc p);
    when (sleeping_on ch q) (modify (upd_proc p (set_p_state (λ _, RUNNABLE)))) ;;
    release (LkProc p)).

Definition kkill (pid : Z) : K Z :=
  r ← mfor_ret (seq 0 NPROC) (λ p,
    acquire (LkProc p) ;;
    q ← gets (get_proc p);
    if q.(p_pid) =? pid then
      modify (upd_proc p (set_p_killed (λ _, 1))) ;;
      q ← gets (get_proc p);
      when (bool_decide (q.(p_state) = SLEEPING))
        (modify (upd_proc p (set_p_state (λ _, RUNNABLE)))) ;;
      release (LkProc p) ;;
      mret (Some 0)
    else
      release (LkProc p) ;;
      mret None);
  mret (default (-1) r).

Definition setkilled (p : nat) : K unit :=
  acquire (LkProc p) ;;
  modify (upd_proc p (set_p_killed (λ _, 1))) ;;
  release (LkProc p).

Definition killed (p : nat) : K Z :=
  acquire (LkProc p) ;;
  q ← gets (get_proc p);
  let k := q.(p_killed) in
  release (LkProc p) ;;
  mret k.

(** The inner loop of [scheduler] on processor [id], over the processes still
    to look at; returns the final value of [found]. *)
Fixpoint scheduler_scan (id : nat) (ps : list nat) (found : bool) : K bool :=
  match ps with
  | [] => mret found
  | p :: ps =>
      acquire (LkProc p) ;;
      q ← gets (get_proc p);
      if bool_decide (q.(p_state) = RUNNABLE) then
        modify (upd_proc p (set_p_state (λ _, RUNNING))) ;;
        modify (set_cpus (alter (set_c_proc (λ _, Some p)) id)) ;;
        yield_cpu ;;
        modify (set_cpus (alter (set_c_proc (λ _, None)) id)) ;;
        release (LkProc p) ;;
        scheduler_scan id ps true
      else
        release (LkProc p) ;;
        scheduler_scan id ps found
  end.

Fixpoint scheduler_loop (n : nat) (id : nat) : K unit :=
  match n with
  | O => out_of_fuel
  | S n =>
      intr_on ;;
      intr_off ;;
      found ← scheduler_scan id (seq 0 NPROC) false;
      when (negb found) yield_cpu ;;
      scheduler_loop n id
  end.

Definition scheduler : K unit :=
  id ← cpuid;
  modify (set_cpus (alter (set_c_proc (λ _, None)) id)) ;;
  scheduler_loop fuel id.

(** ** Loops whose body cannot wait *)

Lemma mfor_pure {A} (P : kstate → Prop) (f : A → kstate → kstate)
    (body : A → K unit) (l : list A) s :
  (∀ x s, x ∈ l → P s → body x s = Done () (f x s) ∧ P (f x s)) → P s →
  mfor l body s = Done () (foldl (λ s x, f x s) s l) ∧ P (foldl (λ s x, f x s) s l).
Proof.
  revert s. induction l as [|x l IH]; intros s Hb HP; cbn [mfor foldl]; [done|].
  destruct (Hb x s) as [Hx HP']; [by left|done|].
  mstep Hx. apply IH; [|done]. intros y s' Hy. apply Hb. by right.
Qed.

(** The process table as the loops over it see it: its locks are free. *)
Definition procs_free (s : kstate) : Prop :=
  ∀ i, (i < NPROC)%nat → lock_free (LkProc i) s.

Lemma myproc_done s : cpu_ok s → myproc s = Done (cur_cpu s).(c_proc) s.
Proof.
  intros Hs. pose proof Hs as [Hh _]. unfold myproc.
  mstep (push_off_done _ Hh).
  mnext.
  mstep (pop_off_push _ Hs). rewrite cur_upd_cpu by done. done.
Qed.

Lemma myproc_ptr_done s p :
  cpu_ok s → (cur_cpu s).(c_proc) = Some p → myproc_ptr s = Done p s.
Proof.
  intros Hs Hp. unfold myproc_ptr. mstep (myproc_done _ Hs). by rewrite Hp.
Qed.

(** An update of process [p] made under its lock. *)
Lemma locked_update p g s :
  cpu_ok s → lock_free (LkProc p) s →
  (acquire (LkProc p) ;; modify (upd_proc p g) ;; release (LkProc p)) s =
    Done () (upd_proc p g s).
Proof.
  intros Hs Hl. mstep (acquire_free _ _ (proj1 Hs) Hl).
  mnext.
  exact (release_acq (LkProc p) (upd_proc p g s) Hs Hl).
Qed.

Lemma setkilled_done p s :
  cpu_ok s → lock_free (LkProc p) s →
  setkilled p s = Done () (upd_proc p (set_p_killed (λ _, 1)) s).
Proof. intros Hs Hl. exact (locked_update p (set_p_killed (λ _, 1)) s Hs Hl). Qed.

Lemma killed_done p s :
  cpu_ok s → lock_free (LkProc p) s → killed p s = Done (get_proc p s).(p_killed) s.
Proof.
  intros Hs Hl. unfold killed. mstep (acquire_free _ _ (proj1 Hs) Hl).
  mnext.
  mstep (release_acq (LkProc p) s Hs Hl). done.
Qed.

(** The effect of [wakeup] on one process, seen from process [me]. *)
Definition woken (me : option nat) (ch : chan) (i : nat) (p : proc) : proc :=
  if negb (bool_decide (me = Some i)) && sleeping_on ch p
  then set_p_state (λ _, RUNNABLE) p else p.

Lemma upd_proc_id p g s :
  (∀ q, s.(procs) !! p = Some q → g q = q) → upd_proc p g s = s.
Proof. intros Hg. unfold upd_proc, set_procs. by rewrite alter_id_list. Qed.

Lemma upd_proc_ext p g h s :
  (∀ q, s.(procs) !! p = Some q → g q = h q) → upd_proc p g s = upd_proc p h s.
Proof. intros Hg. unfold upd_proc, set_procs. f_equal. by apply list_alter_ext. Qed.

Lemma get_proc_lookup p q s : s.(procs) !! p = Some q → get_proc p s = q.
Proof. apply list_lookup_total_correct. Qed.

Lemma wakeup_one me ch p s :
  cpu_ok s → lock_free (LkProc p) s → (cur_cpu s).(c_proc) = me →
  (me' ← myproc;
    if bool_decide (me' = Some p) then mret () else
    acquire (LkProc p) ;;
    q ← gets (get_proc p);
    when (sleeping_on ch q) (modify (upd_proc p (set_p_state (λ _, RUNNABLE)))) ;;
    release (LkProc p)) s = Done () (upd_proc p (woken me ch p) s).
Proof.
  intros Hs Hl Hme. mstep (myproc_done _ Hs). rewrite Hme.
  destruct (bool_decide (me = Some p)) eqn:E.
  { rewrite upd_proc_id; [done|]. intros q _. unfold woken. by rewrite E. }
  mstep (acquire_free _ _ (proj1 Hs) Hl). mnext.
  change (get_proc p (acq (LkProc p) s)) with (get_proc p s).
  destruct (sleeping_on ch (get_proc p s)) eqn:Ew;
    mnext.
  - rewrite (upd_proc_ext p (woken me ch p) (set_p_state (λ _, RUNNABLE)) s).
    + exact (release_acq (LkProc p) (upd_proc p _ s) Hs Hl).
    + intros q Hq. unfold woken. rewrite E, <- (get_proc_lookup _ _ _ Hq), Ew. done.
  - rewrite upd_proc_id; [exact (release_acq (LkProc p) s Hs Hl)|].
    intros q Hq. unfold woken. rewrite <- (get_proc_lookup _ _ _ Hq), Ew.
    by rewrite andb_false_r.
Qed.

Lemma foldl_alter_imap {A} (f : nat → A → A) (l : list A) k n :
  (length l ≤ k + n)%nat →
  foldl (λ l i, alter (f i) i l) l (seq k n) =
    imap (λ i x, if decide (k ≤ i)%nat then f i x else x) l.
Proof.
  revert l k. induction n as [|n IH]; intros l k Hl; cbn [seq foldl].
  - apply list_eq. intros i. rewrite list_lookup_imap.
    destruct (l !! i) eqn:E; [|done]. apply lookup_lt_Some in E. cbn.
    case_decide; [lia|done].
  - rewrite IH by (rewrite length_alter; lia).
    apply list_eq. intros i. rewrite !list_lookup_imap.
    destruct (decide (k = i)) as [->|Hne].
    + rewrite list_lookup_alter_eq. destruct (l !! i); [|done]. cbn.
      repeat case_decide; try lia; done.
    + rewrite list_lookup_alter_ne by done. destruct (l !! i); [|done]. cbn.
      repeat case_decide; try lia; done.
Qed.

Lemma foldl_upd_procs (f : nat → proc → proc) s l :
  foldl (λ s i, upd_proc i (f i) s) s l =
    set_procs (λ ps, foldl (λ ps i, alter (f i) i ps) ps l) s.
Proof. revert s. induction l as [|i l IH]; intros s; cbn [foldl]; [done|]. by rewrite IH. Qed.

Lemma wakeup_done ch s :
  cpu_ok s → procs_free s → length s.(procs) = NPROC →
  wakeup ch s = Done () (set_procs (imap (woken (cur_cpu s).(c_proc) ch)) s).
Proof.
  intros Hs Hl Hlen. unfold wakeup.
  match goal with |- mfor _ ?body _ = _ => destruct (mfor_pure
    (λ s', cpu_ok s' ∧ procs_free s' ∧ (cur_cpu s').(c_proc) = (cur_cpu s).(c_proc))
    (λ i, upd_proc i (woken (cur_cpu s).(c_proc) ch i)) body (seq 0 NPROC) s)
    as [-> _] end.
  - intros p s' Hp (Hs' & Hl' & Hme). split; [|done].
    apply wakeup_one; [done| |done]. apply Hl'. apply elem_of_seq in Hp. lia.
  - done.
  - f_equal. rewrite (foldl_upd_procs (woken _ ch)). unfold set_procs. f_equal.
    rewrite foldl_alter_imap by lia. apply imap_ext. intros i x _. cbn.
    destruct (decide (0 ≤ i)%nat); [done|lia].
Qed.
(** ** Searching the table: [kkill] *)

Lemma kkill_one pid p s :
  cpu_ok s → lock_free (LkProc p) s →
  (acquire (LkProc p) ;;
    q ← gets (get_proc p);
    if q.(p_pid) =? pid then
      modify (upd_proc p (set_p_killed (λ _, 1))) ;;
      q ← gets (get_proc p);
      when (bool_decide (q.(p_state) = SLEEPING))
        (modify (upd_proc p (set_p_state (λ _, RUNNABLE)))) ;;
      release (LkProc p) ;;
      mret (Some 0)
    else
      release (LkProc p) ;;
      mret None) s =
  if (get_proc p s).(p_pid) =? pid
  then Done (Some 0) (upd_proc p (λ q,
         set_p_state (λ st, if decide (st = SLEEPING) then RUNNABLE else st)
           (set_p_killed (λ _, 1) q)) s)
  else Done None s.
Proof.
  intros Hs Hl. mstep (acquire_free _ _ (proj1 Hs) Hl).
  mnext.
  change (get_proc p (acq (LkProc p) s)) with (get_proc p s).
  destruct (p_pid (get_proc p s) =? pid).
  2: { by mstep (release_acq (LkProc p) s Hs Hl). }
  do 2 mnext.
  set (s1 := upd_proc p (set_p_killed (λ _, 1)) s).
  change (get_proc p (upd_proc p _ (acq (LkProc p) s))) with (get_proc p s1).
  change (upd_proc p _ (acq (LkProc p) s)) with (acq (LkProc p) s1).
  assert (Hs1 : cpu_ok s1) by exact Hs. assert (Hl1 : lock_free (LkProc p) s1) by exact Hl.
  set (g := λ q, set_p_state (λ st, if decide (st = SLEEPING) then RUNNABLE else st)
                   (set_p_killed (λ _, 1) q)).
  destruct (bool_decide (p_state (get_proc p s1) = SLEEPING)) eqn:E; bool_hyps;
    mnext.
  - change (upd_proc p _ (acq (LkProc p) s1))
      with (acq (LkProc p) (upd_proc p (set_p_state (λ _, RUNNABLE)) s1)).
    mstep (release_acq (LkProc p) (upd_proc p (set_p_state (λ _, RUNNABLE)) s1) Hs1 Hl1).
    unfold mret, M_ret. f_equal. unfold s1, upd_proc, set_procs. cbn. f_equal.
    rewrite alter_alter_list. apply list_alter_ext; [|done]. intros q Hq.
    unfold g, compose, set_p_state. cbn. case_decide; [done|]. exfalso.
    unfold s1, get_proc, upd_proc in E. cbn in E.
    rewrite lookup_total_alter_list_eq in E by (by eapply lookup_lt_Some).
    rewrite (list_lookup_total_correct _ _ _ Hq) in E. done.
  - mstep (release_acq (LkProc p) s1 Hs1 Hl1). unfold mret, M_ret. f_equal.
    apply upd_proc_ext. intros q Hq. unfold g, set_p_state. cbn.
    case_decide as Hst; [|done].
    destruct E. unfold s1, get_proc, upd_proc. cbn.
    rewrite lookup_total_alter_list_eq by (by eapply lookup_lt_Some).
    by rewrite (list_lookup_total_correct _ _ _ Hq).
Qed.

Lemma mfor_ret_find {A R} (test : A → bool) (r : R) (f : A → kstate → kstate)
    (body : A → K (option R)) (l : list A) s :
  (∀ x, x ∈ l → body x s = if test x then Done (Some r) (f x s) else Done None s) →
  mfor_ret l body s =
    match List.find test l with
    | Some x => Done (Some r) (f x s)
    | None => Done None s
    end.
Proof.
  induction l as [|x l IH]; intros Hb; cbn [mfor_ret List.find]; [done|].
  specialize (Hb x) as Hx. destruct (test x).
  - by mstep (Hx ltac:(by left)).
  - mstep (Hx ltac:(by left)). apply IH. intros y Hy. apply Hb. by right.
Qed.

(** ** The handover points *)

(** The state in which a switch into process [p] finds the running processor:
    [p]'s lock is held here, once, with interrupts off. *)
Definition switched (p : nat) (s : kstate) : Prop :=
  (s.(hart) < length s.(cpus))%nat ∧ held (LkProc p) s ∧
  (cur_cpu s).(noff) = 1 ∧ sie (cur_cpu s) = false.

Lemma sched_waits p s :
  switched p s → (cur_cpu s).(c_proc) = Some p →
  (get_proc p s).(p_state) ≠ RUNNING →
  sched s = Waiting s (λ s', Done () (upd_cpu (set_intena (λ _, (cur_cpu s).(intena))) s')).
Proof.
  intros (Hh & Hl & Hn & Hi) Hp Hst. unfold sched.
  assert (Hok : cpu_ok s) by (split; [done|right; split; [lia|done]]).
  mstep (myproc_ptr_done _ _ Hok Hp). mstep (holding_held _ _ Hl). cbn [negb].
  mnext. rewrite Hn, Z.eqb_refl. cbn [negb].
  mnext. rewrite bool_decide_eq_false_2 by done. cbv iota.
  mnext. rewrite Hi. cbv iota.
  by erewrite bind_done by reflexivity.
Qed.

(** The state in which [sleep] hands the processor over. *)
Definition asleep (ch : chan) (lk : lockid) (p : nat) (s : kstate) : kstate :=
  upd_proc p (set_p_state (λ _, SLEEPING)) (upd_proc p (set_p_chan (λ _, Some ch))
    (set_locks (λ L, <[lk := mk_spinlock 0 None]>
                       (<[LkProc p := mk_spinlock 1 (Some s.(hart))]> L)) s)).

(** The state [sleep] returns in when it is resumed in [s] by a thread that
    had interrupts enabled as [ie] says. *)
Definition awoken (lk : lockid) (p : nat) (ie : bool) (s : kstate) : kstate :=
  acq lk (set_locks <[LkProc p := mk_spinlock 0 None]>
            (upd_cpu (pop_cpu ∘ set_intena (λ _, ie))
               (upd_proc p (set_p_chan (λ _, None)) s))).

Lemma sleep_waits ch lk p s :
  (s.(hart) < length s.(cpus))%nat → (p < length s.(procs))%nat → lk ≠ LkProc p →
  held lk s → lock_free (LkProc p) s → (cur_cpu s).(noff) = 1 →
  sie (cur_cpu s) = false → (cur_cpu s).(c_proc) = Some p →
  ∃ k, sleep ch lk s = Waiting (asleep ch lk p s) k ∧
    ∀ s', switched p s' → lock_free lk s' →
      k s' = Done () (awoken lk p (cur_cpu s).(intena) s').
Proof.
  intros Hh Hp Hne Hlk Hf Hn Hi Hc.
  assert (Hok : cpu_ok s) by (split; [done|right; split; [lia|done]]).
  unfold sleep. mstep (myproc_ptr_done _ _ Hok Hc). mstep (acquire_free _ _ Hh Hf).
  assert (Hrel : release lk (acq (LkProc p) s) =
    Done () (set_locks (λ L, <[lk := mk_spinlock 0 None]>
                       (<[LkProc p := mk_spinlock 1 (Some s.(hart))]> L)) s)).
  { rewrite release_done.
    - unfold acq. rewrite upd_cpu_set_locks, upd_cpu_upd_cpu.
      rewrite (upd_cpu_id (pop_cpu ∘ push_cpu) s Hh); [done|].
      apply pop_push_cpu, Hok.
    - by rewrite length_cpus_acq.
    - by apply sie_acq.
    - rewrite noff_acq by done. lia.
    - unfold held, acq. cbn. by rewrite lookup_insert_ne. }
  mstep Hrel. do 2 mnext.
  fold (asleep ch lk p s).
  assert (Hsw : switched p (asleep ch lk p s)).
  { split; [done|]. split; [|done]. unfold held, asleep. cbn.
    by rewrite lookup_insert_ne, lookup_insert_eq. }
  eexists. split.
  { apply bind_waiting, (sched_waits p); [done..|].
    unfold asleep, get_proc, upd_proc. cbn.
    by rewrite lookup_total_alter_list_eq by (by rewrite length_alter). }
  cbv beta. intros s' (Hh' & Hl' & Hn' & Hi') Hlk'. cbn [obind].
  mnext.
  set (s1 := upd_proc p _ _).
  assert (Hcur : cur_cpu s1 = set_intena (λ _, intena (cur_cpu (asleep ch lk p s))) (cur_cpu s')).
  { exact (cur_upd_cpu _ _ Hh'). }
  assert (Hh1 : (hart s1 < length (cpus s1))%nat) by (cbn; by rewrite length_alter).
  assert (Hr : release (LkProc p) s1 = Done () (set_locks <[LkProc p := mk_spinlock 0 None]>
                                                  (upd_cpu pop_cpu s1))).
  { apply release_done; [done|by rewrite Hcur|rewrite Hcur; cbn; lia|done]. }
  mstep Hr. rewrite acquire_free.
  - f_equal. unfold awoken. do 2 f_equal. unfold s1.
    change (upd_proc p ?g (upd_cpu ?h s')) with (upd_cpu h (upd_proc p g s')).
    by rewrite upd_cpu_upd_cpu.
  - cbn. by rewrite !length_alter.
  - unfold lock_free. cbn. by rewrite lookup_insert_ne.
Qed.

(** The state in which [scheduler] on processor [id] switches to process [p]. *)
Definition dispatched (id p : nat) (s : kstate) : kstate :=
  set_cpus (alter (set_c_proc (λ _, Some p)) id)
    (upd_proc p (set_p_state (λ _, RUNNING)) (acq (LkProc p) s)).

Definition runnable (s : kstate) (p : nat) : bool :=
  bool_decide ((get_proc p s).(p_state) = RUNNABLE).

Lemma scheduler_scan_run id ps found s :
  cpu_ok s → (∀ p, p ∈ ps → lock_free (LkProc p) s) →
  match List.find (runnable s) ps with
  | None => scheduler_scan id ps found s = Done found s
  | Some p => ∃ k, scheduler_scan id ps found s = Waiting (dispatched id p s) k
  end.
Proof.
  intros Hs. induction ps as [|p ps IH]; intros Hl; cbn [List.find scheduler_scan]; [done|].
  assert (Hp : lock_free (LkProc p) s) by (apply Hl; by left).
  unfold runnable at 1. rewrite (bind_done _ _ _ _ _ (acquire_free _ _ (proj1 Hs) Hp)).
  mnext. change (get_proc p (acq (LkProc p) s)) with (get_proc p s).
  destruct (bool_decide (p_state (get_proc p s) = RUNNABLE)).
  - do 2 mnext. eexists. by apply bind_waiting.
  - mstep (release_acq (LkProc p) s Hs Hp). apply IH. intros q Hq. apply Hl. by right.
Qed.

Lemma find_Some_elem {A} (f : A → bool) l x :
  List.find f l = Some x → x ∈ l ∧ f x = true.
Proof. intros [? ?]%find_some. split; [by apply list_elem_of_In|done]. Qed.

Lemma switched_dispatched p s :
  cpu_ok s → (cur_cpu s).(noff) = 0 → switched p (dispatched s.(hart) p s).
Proof.
  intros [Hh _] Hn. unfold dispatched, switched, cur_cpu. cbn.
  rewrite !length_alter, !lookup_total_alter_list_eq by (by rewrite ?length_alter).
  split; [done|]. split; [apply (held_acq (LkProc p) s)|]. split.
  - unfold cur_cpu in Hn. cbn. lia.
  - apply sie_push.
Qed.

(** [wakeup] makes runnable exactly the processes, other than the caller,
    that sleep on the channel, and changes nothing else. *)
Lemma wakeup_exact ch s :
  cpu_ok s → procs_free s → length s.(procs) = NPROC →
  wakeup ch s = Done () (set_procs (imap (woken (cur_cpu s).(c_proc) ch)) s).
Proof. apply wakeup_done. Qed.

(** The mark [kkill] leaves on its victim. *)
Definition kill_mark (q : proc) : proc :=
  set_p_state (λ st, if decide (st = SLEEPING) then RUNNABLE else st)
    (set_p_killed (λ _, 1) q).

Lemma kkill_done pid s :
  cpu_ok s → procs_free s →
  kkill pid s =
    match List.find (λ p, (get_proc p s).(p_pid) =? pid) (seq 0 NPROC) with
    | Some p => Done 0 (upd_proc p kill_mark s)
    | None => Done (-1) s
    end.
Proof.
  intros Hs Hl. unfold kkill. rewrite bind_unfold.
  match goal with |- context [mfor_ret _ ?body s] =>
    rewrite (mfor_ret_find (λ p, (get_proc p s).(p_pid) =? pid) 0
               (λ p, upd_proc p kill_mark) body) end.
  - by destruct (List.find _ _).
  - intros p Hp. apply kkill_one; [done|]. apply Hl. apply elem_of_seq in Hp. lia.
Qed.

(** [kkill] marks the first process with the given pid as killed and, if
    it sleeps, makes it runnable; without such a process it returns -1 and
    changes nothing. *)
Lemma kkill_marks_first pid s :
  cpu_ok s → procs_free s →
  kkill pid s =
    match List.find (λ p, (get_proc p s).(p_pid) =? pid) (seq 0 NPROC) with
    | Some p => Done 0 (upd_proc p kill_mark s)
    | None => Done (-1) s
    end.
Proof. apply kkill_done. Qed.

(** [sleep] gives up the processor only after the process is marked
    SLEEPING on the channel with its own lock held, so no wakeup can pass
    between the release of [lk] and the switch; when it is switched back to it
    returns with [lk] held again, its own lock free and the channel cleared. *)
Lemma sleep_hands_over ch lk p s :
  (s.(hart) < length s.(cpus))%nat → (p < length s.(procs))%nat → lk ≠ LkProc p →
  held lk s → lock_free (LkProc p) s → (cur_cpu s).(noff) = 1 →
  sie (cur_cpu s) = false → (cur_cpu s).(c_proc) = Some p →
  ∃ sw k, sleep ch lk s = Waiting sw k ∧
    lock_free lk sw ∧ held (LkProc p) sw ∧ sleeping_on ch (get_proc p sw) ∧
    ∀ s', switched p s' → lock_free lk s' → (p < length s'.(procs))%nat →
      ∃ s'', k s' = Done () s'' ∧ held lk s'' ∧ lock_free (LkProc p) s'' ∧
        (get_proc p s'').(p_chan) = None ∧ (cur_cpu s'').(noff) = 1.
Proof.
  intros Hh Hp Hne Hlk Hf Hn Hi Hc.
  destruct (sleep_waits ch lk p s) as (k & Hk & Hres); [done..|].
  exists (asleep ch lk p s), k. split; [done|]. split.
  { unfold lock_free, asleep. cbn. by rewrite lookup_insert_eq. }
  split.
  { unfold held, asleep. cbn. by rewrite lookup_insert_ne, lookup_insert_eq. }
  split.
  { unfold asleep, get_proc, upd_proc. cbn.
    rewrite !lookup_total_alter_list_eq by (by rewrite ?length_alter).
    unfold sleeping_on. rewrite !bool_decide_eq_true_2 by done. done. }
  intros s' Hs' Hlk' Hp'. exists (awoken lk p (cur_cpu s).(intena) s').
  split; [by apply Hres|]. pose proof Hs' as (Hh' & _ & Hn' & _).
  split; [apply held_acq|]. split.
  { unfold lock_free, awoken, acq. cbn. by rewrite lookup_insert_ne, lookup_insert_eq. }
  split.
  { unfold awoken, get_proc. cbn. by rewrite lookup_total_alter_list_eq. }
  unfold awoken. rewrite noff_acq by (cbn; by rewrite length_alter).
  unfold cur_cpu. cbn. rewrite lookup_total_alter_list_eq by done. cbn.
  unfold pop_cpu. cbn. unfold cur_cpu in Hn'. rewrite Hn'. case_match; cbn; by rewrite Hn'.
Qed.

(** C38. A scheduler pass runs the first RUNNABLE process of the table: it
    switches to it in state RUNNING, as this processor's process, with its
    lock held, which is the state [sleep] and [yield] expect to be resumed
    in; if none is RUNNABLE it finds nothing and changes nothing. *)
Theorem scheduler_dispatches id s :
  cpu_ok s → procs_free s → s.(hart) = id → (cur_cpu s).(noff) = 0 →
  length s.(procs) = NPROC →
  match List.find (runnable s) (seq 0 NPROC) with
  | None => scheduler_scan id (seq 0 NPROC) false s = Done false s
  | Some p =>
      ∃ sw k, scheduler_scan id (seq 0 NPROC) false s = Waiting sw k ∧
        switched p sw ∧ (cur_cpu sw).(c_proc) = Some p ∧
        (get_proc p sw).(p_state) = RUNNING
  end.
Proof.
  intros Hs Hl <- Hn Hlen.
  assert (Hl' : ∀ p, p ∈ seq 0 NPROC → lock_free (LkProc p) s).
  { intros p Hp. apply Hl. apply elem_of_seq in Hp. lia. }
  pose proof (scheduler_scan_run s.(hart) (seq 0 NPROC) false s Hs Hl') as H.
  destruct (List.find _ _) as [p|] eqn:E; [|done]. destruct H as [k Hk].
  apply find_Some_elem in E as [Hp _]. apply elem_of_seq in Hp.
  exists (dispatched s.(hart) p s), k. split; [done|].
  split; [by apply switched_dispatched|]. destruct Hs as [Hh _].
  unfold dispatched, cur_cpu, get_proc. cbn.
  rewrite !lookup_total_alter_list_eq by (rewrite ?length_alter; unfold NPROC in *; lia).
  done.
Qed.
End sleep.

(** Process 3 of the witnesses' state runs on hart 0; processes 4 and 5 sleep. *)
Definition sleepy_state : kstate :=
  upd_proc 3 (λ q, set_p_state (λ _, RUNNING) (set_p_pid (λ _, 7) q))
    (upd_proc 4 (λ q, set_p_state (λ _, SLEEPING) (set_p_chan (λ _, Some ChTicks) q))
      (upd_proc 5 (λ q, set_p_state (λ _, RUNNABLE) (set_p_pid (λ _, 9) q))
        (upd_cpu (set_c_proc (λ _, Some 3%nat)) ready_state))).

Lemma sleepy_cpu_ok : cpu_ok sleepy_state.
Proof. split; [vm_compute; lia|]. left. by vm_compute. Defined.

Lemma ready_procs_free i : (i < NPROC)%nat → lock_free (LkProc i) sleepy_state.
Proof.
  intros Hi. unfold lock_free. change (locks sleepy_state) with ready_locks.
  apply elem_of_list_to_map_1.
  - apply (bool_decide_unpack _). vm_compute. done.
  - apply list_elem_of_fmap. exists (LkProc i). split; [done|].
    apply elem_of_app; right. apply elem_of_app; left.
    apply list_elem_of_fmap. exists i. split; [done|]. apply elem_of_seq. lia.
Defined.

Lemma wakeup_exact_witness :
  let F : Fuel := 1%nat in
  wakeup ChTicks sleepy_state =
    Done () (set_procs (imap (woken (Some 3%nat) ChTicks)) sleepy_state).
Proof.
  exact (@wakeup_exact 1%nat ChTicks sleepy_state sleepy_cpu_ok ready_procs_free eq_refl).
Defined.

Lemma kkill_marks_first_witness :
  let F : Fuel := 1%nat in
  kkill 9 sleepy_state = Done 0 (upd_proc 5 kill_mark sleepy_state).
Proof.
  exact (@kkill_marks_first 1%nat 9 sleepy_state sleepy_cpu_ok ready_procs_free).
Defined.

Lemma sleep_hands_over_witness :
  let F : Fuel := 1%nat in
  ∃ sw k, sleep ChLog LkLog (acq LkLog sleepy_state) = Waiting sw k ∧ held (LkProc 3) sw.
Proof.
  destruct (@sleep_hands_over 1%nat ChLog LkLog 3 (acq LkLog sleepy_state))
    as (sw & k & H1 & _ & H2 & _).
  1-8: first [vm_compute; lia | by vm_compute | by apply lock_free_acq].
  exists sw, k. exact (conj H1 H2).
Defined.

Lemma scheduler_dispatches_witness :
  let F : Fuel := 1%nat in
  ∃ sw k, scheduler_scan 0 (seq 0 NPROC) false sleepy_state = Waiting sw k ∧ switched 5 sw.
Proof.
  destruct (@scheduler_dispatches 1%nat 0 sleepy_state sleepy_cpu_ok ready_procs_free
    eq_refl eq_refl eq_refl) as (sw & k & H1 & H2 & _).
  exists sw, k. exact (conj H1 H2).
Defined.
