(* ===== verification/SleepConc.v ===== *)
(** The sleep/wakeup protocol of kernel/proc.c under all interleavings.

    One process waits for a condition the way every sleep loop of the kernel
    does ([acquire(lk); while(!cond) sleep(chan, lk); ...; release(lk)]); any
    number of other threads make the condition true under [lk] and call
    [wakeup(chan)].  A step is one lock operation or one access made under a
    lock; the scheduler's release and re-acquisition of [p->lock] around the
    switch are steps of the sleeper.  Locks here are owned by a thread or free,
    which [SpinlockConc] justifies. *)

From S2P Require Import Prelude.

Module SleepConc.

Inductive tid : Type := Sleeper | Waker (i : nat).

#[global] Instance tid_eq_dec : EqDecision tid.
Proof. solve_decision. Defined.

(** The sleeper: before [acquire(lk)]; holding [lk] before the test; in
    [sleep] before [acquire(&p->lock)]; before [release(lk)]; before setting
    chan and SLEEPING; in [sched], before the scheduler releases [p->lock];
    switched out; switched in, [p->lock] held; before [acquire(lk)] again. *)
Inductive spc : Type :=
| S_acq | S_test | S_plock | S_unlk | S_mark | S_sched | S_off | S_tidy | S_reacq.

(** A waker: outside; holding [lk] before it sets the condition; in [wakeup]
    before [acquire(&p->lock)]; holding [p->lock] before the test; after
    [wakeup], before [release(lk)]. *)
Inductive wpc : Type := W_out | W_set | W_plock | W_test | W_unlk.

Record pstate : Type := mk_pstate {
  lk_owner : option tid;
  plock_owner : option tid;
  cond : bool;
  sleeping : bool;     (* p->state == SLEEPING && p->chan == chan *)
  sp : spc;
  wps : list wpc }.

Definition sleeper_step (s : pstate) : option pstate :=
  let '(mk_pstate l pl c sl p w) := s in
  match p with
  | S_acq => if l is None then Some (mk_pstate (Some Sleeper) pl c sl S_test w) else None
  | S_test =>
      if c then Some (mk_pstate None pl false sl S_acq w)
      else Some (mk_pstate l pl c sl S_plock w)
  | S_plock =>
      if pl is None then Some (mk_pstate l (Some Sleeper) c sl S_unlk w) else None
  | S_unlk => Some (mk_pstate None pl c sl S_mark w)
  | S_mark => Some (mk_pstate l pl c true S_sched w)
  | S_sched => Some (mk_pstate l None c sl S_off w)
  | S_off =>
      if sl then None
      else if pl is None then Some (mk_pstate l (Some Sleeper) c sl S_tidy w) else None
  | S_tidy => Some (mk_pstate l None c false S_reacq w)
  | S_reacq => if l is None then Some (mk_pstate (Some Sleeper) pl c sl S_test w) else None
  end.

Definition waker_step (i : nat) (s : pstate) : option pstate :=
  let '(mk_pstate l pl c sl p w) := s in
  match w !! i with
  | Some W_out =>
      if l is None then Some (mk_pstate (Some (Waker i)) pl c sl p (<[i := W_set]> w)) else None
  | Some W_set => Some (mk_pstate l pl true sl p (<[i := W_plock]> w))
  | Some W_plock =>
      if pl is None then Some (mk_pstate l (Some (Waker i)) c sl p (<[i := W_test]> w)) else None
  | Some W_test => Some (mk_pstate l None c false p (<[i := W_unlk]> w))
  | Some W_unlk => Some (mk_pstate None pl c sl p (<[i := W_out]> w))
  | None => None
  end.

Definition init (n : nat) (c : bool) : pstate :=
  mk_pstate None None c false S_acq (replicate n W_out).

Inductive reachable (n : nat) : pstate → Prop :=
| reach_init c : reachable n (init n c)
| reach_sleeper s s' : reachable n s → sleeper_step s = Some s' → reachable n s'
| reach_waker i s s' : reachable n s → waker_step i s = Some s' → reachable n s'.

(** A waker that has made the condition true and has yet to wake the sleeper. *)
Definition pending (s : pstate) : Prop :=
  ∃ i, wps s !! i = Some W_plock ∨ wps s !! i = Some W_test.

(** Which lock each program point holds. *)
Definition s_lk (p : spc) : bool :=
  match p with S_test | S_plock | S_unlk => true | _ => false end.
Definition s_pl (p : spc) : bool :=
  match p with S_unlk | S_mark | S_sched | S_tidy => true | _ => false end.
Definition w_lk (p : wpc) : bool := match p with W_out => false | _ => true end.
Definition w_pl (p : wpc) : bool := match p with W_test => true | _ => false end.

Record inv (s : pstate) : Prop := {
  inv_s_lk : lk_owner s = Some Sleeper ↔ s_lk (sp s);
  inv_w_lk i p : wps s !! i = Some p → lk_owner s = Some (Waker i) ↔ w_lk p;
  inv_s_pl : plock_owner s = Some Sleeper ↔ s_pl (sp s);
  inv_w_pl i p : wps s !! i = Some p → plock_owner s = Some (Waker i) ↔ w_pl p;
  inv_tested : sp s = S_plock ∨ sp s = S_unlk → cond s = false;
  inv_mark : sp s = S_mark ∨ sp s = S_sched ∨ (sp s = S_off ∧ sleeping s) →
    cond s → pending s }.

Lemma sleep_inv_init n c : inv (init n c).
Proof.
  split; cbn; try naive_solver.
  - intros i p [-> _]%lookup_replicate_1. cbn. naive_solver.
  - intros i p [-> _]%lookup_replicate_1. cbn. naive_solver.
Qed.

Lemma inv_sleeper_step s s' : inv s → sleeper_step s = Some s' → inv s'.
Proof.
  intros [Hsl Hwl Hsp Hwp Ht Hm] Hs.
  destruct s as [l pl c sl p w], s'; cbn in *.
  destruct p; repeat case_match; simplify_eq/=; split; cbn;
    try first [ intros i q Hq; specialize (Hwl i q Hq); specialize (Hwp i q Hq);
            clear Ht Hm; destruct q; cbn in *; intuition congruence
          | clear Hwl Hwp; unfold pending in *; cbn in *; intuition congruence ].
  intros _ Hc. by rewrite Ht in Hc by auto.
Qed.

Lemma lookup_wps_insert (w : list wpc) i j p p0 q :
  w !! i = Some p0 → <[i := p]> w !! j = Some q →
  (i = j ∧ q = p) ∨ (i ≠ j ∧ w !! j = Some q).
Proof.
  intros Hi. destruct (decide (i = j)) as [->|Hne].
  - rewrite list_lookup_insert_eq by (by eapply lookup_lt_Some). naive_solver.
  - rewrite list_lookup_insert_ne by done. auto.
Qed.

(** A waker's move keeps another waker that is about to wake the sleeper. *)
Lemma pending_other l pl c sl p w i wp :
  (∃ j, j ≠ i ∧ (w !! j = Some W_plock ∨ w !! j = Some W_test)) →
  pending (mk_pstate l pl c sl p (<[i := wp]> w)).
Proof.
  intros (j & Hne & Hj). exists j. cbn. by rewrite list_lookup_insert_ne.
Qed.

Lemma pending_here l pl c sl p w i wp0 wp :
  w !! i = Some wp0 → wp = W_plock ∨ wp = W_test →
  pending (mk_pstate l pl c sl p (<[i := wp]> w)).
Proof.
  intros Hi Hwp. exists i. cbn.
  rewrite list_lookup_insert_eq by (by eapply lookup_lt_Some). naive_solver.
Qed.

(** Only the owner of [lk] can be inside [wakeup]. *)
Lemma pending_owner s i :
  inv s → lk_owner s = Some (Waker i) → pending s →
  wps s !! i = Some W_plock ∨ wps s !! i = Some W_test.
Proof.
  intros I Hl (j & Hj). assert (Hw : lk_owner s = Some (Waker j)).
  { destruct Hj as [Hj|Hj]; by apply (inv_w_lk _ I _ _ Hj). }
  rewrite Hl in Hw. by simplify_eq.
Qed.

Lemma inv_waker_step i s s' : inv s → waker_step i s = Some s' → inv s'.
Proof.
  intros I Hs. pose proof (pending_owner s i I) as Hpo.
  destruct I as [Hsl Hwl Hsp Hwp Ht Hm]. destruct s as [l pl c sl p w]; cbn in *.
  destruct (w !! i) as [wp|] eqn:Hi; [|done].
  pose proof (Hwl i wp Hi) as Hli. pose proof (Hwp i wp Hi) as Hpi.
  destruct wp; repeat case_match; simplify_eq/=.
  all: split; cbn;
    try (intros j q Hj; apply (lookup_wps_insert _ _ _ _ _ _ Hi) in Hj as
           [[<- ->]|[Hne Hj]];
         [|specialize (Hwl j q Hj); specialize (Hwp j q Hj); destruct q]).
  all: try (clear Hwl Hwp Hpo; cbn in *; intuition congruence).
  all: try (cbn in *; clear Hm Hpo; intuition congruence).
  all: try (intros; eapply pending_here; [done|by auto]).
  - intros H1 H2. destruct (Hm H1 H2) as (j & Hj). apply pending_other. exists j.
    split; [|done]. intros ->. destruct Hj as [Hj|Hj]; cbn in Hj; congruence.
  - intros Hp. exfalso. rewrite (proj2 Hli Logic.I) in Hsl.
    destruct Hp as [-> | ->]; cbn in Hsl; by pose proof (proj2 Hsl Logic.I).
  - intros H1 H2. exfalso. rewrite (proj2 Hpi Logic.I) in Hsp.
    destruct H1 as [-> |[-> |[]]]; [..|done]; cbn in Hsp;
      by pose proof (proj2 Hsp Logic.I).
  - intros H1 H2. exfalso.
    destruct (Hpo (proj2 Hli Logic.I) (Hm H1 H2)); congruence.
Qed.

Lemma sleep_reachable_inv n s : reachable n s → inv s.
Proof. induction 1; eauto using sleep_inv_init, inv_sleeper_step, inv_waker_step. Qed.

(** C4. No wakeup is lost: whenever the process is switched out and still
    SLEEPING on the channel although the condition holds, some waker is inside
    [wakeup] and has yet to look at the process; so once all wakers have left
    [wakeup], a sleeping process sleeps for a false condition. *)
Theorem no_lost_wakeup n s :
  reachable n s → sp s = S_off → sleeping s = true →
  (cond s = true → pending s) ∧
  (¬ pending s → cond s = false).
Proof.
  intros Hr%sleep_reachable_inv Hp Hsl.
  assert (Hm : cond s = true → pending s).
  { intros Hc. apply (inv_mark _ Hr); [|by rewrite Hc]. right. right.
    by rewrite Hsl. }
  split; [done|]. intros Hno. destruct (cond s); [|done]. by destruct Hno; apply Hm.
Qed.

(** A run in which the waker sets the condition after the sleeper has marked
    itself, and waits for [p->lock]. *)
Lemma no_lost_wakeup_witness :
  ∃ s, reachable 1 s ∧ sleeping s = true ∧ cond s = true ∧ pending s.
Proof.
  set (s := mk_pstate (Some (Waker 0)) None true true S_off [W_plock]).
  assert (Hr : reachable 1 s).
  { eapply (reach_sleeper 1 (mk_pstate (Some (Waker 0)) (Some Sleeper) true true S_sched [W_plock]));
      [|done].
    eapply (reach_waker 1 0 (mk_pstate (Some (Waker 0)) (Some Sleeper) false true S_sched [W_set]));
      [|done].
    eapply (reach_waker 1 0 (mk_pstate None (Some Sleeper) false true S_sched [W_out]));
      [|done].
    eapply (reach_sleeper 1 (mk_pstate None (Some Sleeper) false false S_mark [W_out])); [|done].
    eapply (reach_sleeper 1 (mk_pstate (Some Sleeper) (Some Sleeper) false false S_unlk [W_out]));
      [|done].
    eapply (reach_sleeper 1 (mk_pstate (Some Sleeper) None false false S_plock [W_out])); [|done].
    eapply (reach_sleeper 1 (mk_pstate (Some Sleeper) None false false S_test [W_out])); [|done].
    eapply (reach_sleeper 1 (init 1 false)); [|done]. apply reach_init. }
  exists s. split; [exact Hr|]. split; [done|]. split; [done|].
  exact (proj1 (no_lost_wakeup 1 s Hr eq_refl eq_refl) eq_refl).
Defined.
End SleepConc.
