(* ===== verification/Sleeplock.v ===== *)
(** kernel/sleeplock.c: long-term locks held across sleeps.

    A sleep lock sits inside a buffer or an inode; [slk] names it, with the
    spinlock inside it and the channel its waiters sleep on. *)

From S2P Require Import Prelude Cmem Kstate Spinlock Sleep.
Local Open Scope Z_scope.

Inductive slk : Type := SlBuf (i : nat) | SlInode (i : nat).

Definition sl_get (x : slk) (s : kstate) : sleeplock :=
  match x with
  | SlBuf i => (get_buf i s).(b_lock)
  | SlInode i => (get_inode i s).(i_lock)
  end.

Definition sl_set (x : slk) (l : sleeplock) (s : kstate) : kstate :=
  match x with
  | SlBuf i => upd_buf i (set_b_lock (λ _, l)) s
  | SlInode i => upd_inode i (set_i_lock (λ _, l)) s
  end.

Definition sl_lk (x : slk) : lockid :=
  match x with SlBuf i => LkBuf i | SlInode i => LkInode i end.
Definition sl_chan (x : slk) : chan :=
  match x with SlBuf i => ChBufLock i | SlInode i => ChInodeLock i end.

Section sleeplock.
Context {Fl : Fuel}.

Definition initsleeplock (x : slk) : K unit :=
  initlock (sl_lk x) ;;
  modify (sl_set x (mk_sleeplock 0 0)).

(** [while (lk->locked) sleep(lk, &lk->lk);] *)
Fixpoint acquiresleep_wait (n : nat) (x : slk) : K unit :=
  match n with
  | O => out_of_fuel
  | S n =>
      l ← gets (sl_get x);
      if l.(sl_locked) =? 0 then mret ()
      else sleep (sl_chan x) (sl_lk x) ;; acquiresleep_wait n x
  end.

Definition acquiresleep (x : slk) : K unit :=
  acquire (sl_lk x) ;;
  acquiresleep_wait (S fuel) x ;;
  l ← gets (sl_get x);
  modify (sl_set x (mk_sleeplock 1 l.(sl_pid))) ;;
  p ← myproc_ptr;
  q ← gets (get_proc p);
  l ← gets (sl_get x);
  modify (sl_set x (mk_sleeplock l.(sl_locked) q.(p_pid))) ;;
  release (sl_lk x).

Definition releasesleep (x : slk) : K unit :=
  acquire (sl_lk x) ;;
  modify (sl_set x (mk_sleeplock 0 0)) ;;
  wakeup (sl_chan x) ;;
  release (sl_lk x).

Definition holdingsleep (x : slk) : K bool :=
  acquire (sl_lk x) ;;
  l ← gets (sl_get x);
  r ← (if l.(sl_locked) =? 0 then mret false
       else p ← myproc_ptr; q ← gets (get_proc p); mret (l.(sl_pid) =? q.(p_pid)));
  release (sl_lk x) ;;
  mret r.

(** ** A kernel with one active thread

    [quiet p s]: process [p] runs in the kernel on this processor, outside any
    critical section; every static spinlock is free and no process sleeps. *)
Definition static_lock (lk : lockid) : Prop :=
  match lk with
  | LkProc i => (i < NPROC)%nat
  | LkBuf i => (i < NBUF)%nat
  | LkInode i => (i < NINODE)%nat
  | LkPipe _ => False
  | _ => True
  end.

Definition quiet_core (p : nat) (h : nat) (cs : list cpu) (L : gmap lockid spinlock)
    (ps : list proc) : Prop :=
  (h < length cs)%nat ∧ settled (cs !!! h) ∧
  (cs !!! h).(c_proc) = Some p ∧ (p < NPROC)%nat ∧ length ps = NPROC ∧
  (∀ lk, static_lock lk → L !! lk = Some (mk_spinlock 0 None)) ∧
  (∀ i q, ps !! i = Some q → q.(p_state) ≠ SLEEPING) ∧
  (cs !!! h).(noff) = 0 ∧ (ps !!! p).(p_state) = RUNNING ∧ (ps !!! p).(p_chan) = None.

Definition quiet (p : nat) (s : kstate) : Prop :=
  quiet_core p s.(hart) s.(cpus) s.(locks) s.(procs).

Lemma quiet_cpu_ok p s : quiet p s → cpu_ok s.
Proof. intros (Hh & Hs & _). by split. Qed.

Lemma quiet_lock p lk s : quiet p s → static_lock lk → lock_free lk s.
Proof. intros (_ & _ & _ & _ & _ & Hl & _). apply Hl. Qed.

Lemma quiet_procs_free p s : quiet p s → procs_free s.
Proof. intros Hq i Hi. by eapply quiet_lock. Qed.

Lemma quiet_myproc p s : quiet p s → myproc_ptr s = Done p s.
Proof.
  intros Hq. apply myproc_ptr_done; [by eapply quiet_cpu_ok|]. apply Hq.
Qed.

(** With nobody asleep [wakeup] changes nothing. *)
Lemma wakeup_idle ch s :
  cpu_ok s → procs_free s → length s.(procs) = NPROC →
  (∀ i q, s.(procs) !! i = Some q → q.(p_state) ≠ SLEEPING) →
  wakeup ch s = Done () s.
Proof.
  intros Hs Hl Hlen Hsl. rewrite wakeup_done by done. f_equal.
  unfold set_procs. assert (E : imap (woken (cur_cpu s).(c_proc) ch) s.(procs) = s.(procs)).
  { apply list_eq. intros i. rewrite list_lookup_imap.
    destruct (s.(procs) !! i) as [q|] eqn:Hq; [|done]. cbn. f_equal. unfold woken.
    unfold sleeping_on. rewrite (bool_decide_eq_false_2 (p_state q = SLEEPING))
      by (by eapply Hsl). cbn. by rewrite andb_false_r. }
  by rewrite E.
Qed.

(** ** The inner lock of a sleep lock *)

Definition slk_ok (x : slk) (s : kstate) : Prop :=
  match x with
  | SlBuf i => (i < NBUF)%nat ∧ (i < length s.(bufs))%nat
  | SlInode i => (i < NINODE)%nat ∧ (i < length s.(itable))%nat
  end.

Lemma slk_static x s : slk_ok x s → static_lock (sl_lk x).
Proof. destruct x; cbn; naive_solver. Qed.

Lemma sl_get_set x l s : slk_ok x s → sl_get x (sl_set x l s) = l.
Proof.
  destruct x as [i|i]; intros [_ Hi]; unfold sl_get, sl_set, get_buf, get_inode; cbn;
    by rewrite lookup_total_alter_list_eq.
Qed.

Lemma sl_set_set x l l' s : sl_set x l (sl_set x l' s) = sl_set x l s.
Proof.
  destruct x as [i|i]; unfold sl_set, upd_buf, upd_inode, set_bufs, set_itable; cbn;
    by rewrite alter_alter_list.
Qed.

Lemma sl_set_get x s : sl_set x (sl_get x s) s = s.
Proof.
  destruct x as [i|i]; unfold sl_set, sl_get, upd_buf, upd_inode, set_bufs, set_itable; cbn.
  - rewrite alter_id_list; [done|]. intros b Hb. unfold get_buf.
    by rewrite (list_lookup_total_correct _ _ _ Hb).
  - rewrite alter_id_list; [done|]. intros b Hb. unfold get_inode.
    by rewrite (list_lookup_total_correct _ _ _ Hb).
Qed.

Lemma sl_set_acq x l lk s : sl_set x l (acq lk s) = acq lk (sl_set x l s).
Proof. by destruct x. Qed.

Lemma sl_get_acq x lk s : sl_get x (acq lk s) = sl_get x s.
Proof. by destruct x. Qed.

Lemma quiet_sl_set x l p s : quiet p s → quiet p (sl_set x l s).
Proof. by destruct x. Qed.

(** ** Sleep locks that are free do not wait *)

Lemma myproc_acq_cpu lk p s : cpu_ok s → (cur_cpu s).(c_proc) = Some p → myproc_ptr (acq lk s) = Done p (acq lk s).
Proof.
  intros Hs Hp. apply myproc_ptr_done; [by apply cpu_ok_acq|].
  unfold acq, cur_cpu. cbn. rewrite lookup_total_alter_list_eq by apply Hs. exact Hp.
Qed.
Lemma myproc_acq lk p s : quiet p s → myproc_ptr (acq lk s) = Done p (acq lk s).
Proof. intros Hq. apply myproc_acq_cpu; [by eapply quiet_cpu_ok|apply Hq]. Qed.

(** Also inside a critical section of another lock. *)
Lemma acquiresleep_cpu x p s :
  cpu_ok s → (cur_cpu s).(c_proc) = Some p → lock_free (sl_lk x) s → slk_ok x s → (sl_get x s).(sl_locked) = 0 →
  acquiresleep x s = Done () (sl_set x (mk_sleeplock 1 (get_proc p s).(p_pid)) s).
Proof.
  intros Hs Hcp Hl Hx Hl0.
  unfold acquiresleep. mstep (acquire_free _ _ (proj1 Hs) Hl).
  assert (Hw : acquiresleep_wait (S fuel) x (acq (sl_lk x) s) = Done () (acq (sl_lk x) s)).
  { cbn [acquiresleep_wait]. mnext. by rewrite sl_get_acq, Hl0. }
  mstep Hw. do 2 mnext. rewrite sl_set_acq. set (l := mk_sleeplock 1 _).
  assert (Hs1 : cpu_ok (sl_set x l s)) by (by destruct x).
  mstep (myproc_acq_cpu (sl_lk x) p (sl_set x l s) Hs1 ltac:(by destruct x)). do 3 mnext.
  rewrite sl_get_acq, sl_get_set, sl_set_acq, sl_set_set by done. cbn [sl_locked l].
  assert (Hp : get_proc p (acq (sl_lk x) (sl_set x l s)) = get_proc p s) by (by destruct x).
  rewrite Hp. apply release_acq; by destruct x.
Qed.

Lemma acquiresleep_free x p s :
  quiet p s → slk_ok x s → (sl_get x s).(sl_locked) = 0 →
  acquiresleep x s = Done () (sl_set x (mk_sleeplock 1 (get_proc p s).(p_pid)) s).
Proof.
  intros Hq Hx Hl0. apply acquiresleep_cpu; try done; [by eapply quiet_cpu_ok|apply Hq|].
  exact (quiet_lock _ _ _ Hq (slk_static _ _ Hx)).
Qed.

Lemma releasesleep_quiet x p s :
  quiet p s → slk_ok x s → releasesleep x s = Done () (sl_set x (mk_sleeplock 0 0) s).
Proof.
  intros Hq Hx. pose proof (quiet_cpu_ok _ _ Hq) as Hs.
  pose proof (quiet_lock _ (sl_lk x) _ Hq (slk_static _ _ Hx)) as Hl.
  unfold releasesleep. mstep (acquire_free _ _ (proj1 Hs) Hl). mnext.
  rewrite sl_set_acq. set (s1 := sl_set x (mk_sleeplock 0 0) s).
  assert (Hq1 : quiet p s1) by (by apply quiet_sl_set).
  pose proof (quiet_cpu_ok _ _ Hq1) as Hs1.
  assert (Hw : wakeup (sl_chan x) (acq (sl_lk x) s1) = Done () (acq (sl_lk x) s1)).
  { apply wakeup_idle.
    - by apply cpu_ok_acq.
    - intros i Hi. apply lock_free_acq; [by destruct x|]. by eapply quiet_lock.
    - apply Hq1.
    - apply Hq1. }
  mstep Hw. apply release_acq; [done|]. exact (quiet_lock _ _ _ Hq1 (slk_static _ _ Hx)).
Qed.

Lemma holdingsleep_quiet x p s :
  quiet p s → slk_ok x s →
  holdingsleep x s = Done (negb ((sl_get x s).(sl_locked) =? 0) &&
                           ((sl_get x s).(sl_pid) =? (get_proc p s).(p_pid))) s.
Proof.
  intros Hq Hx. pose proof (quiet_cpu_ok _ _ Hq) as Hs.
  pose proof (quiet_lock _ (sl_lk x) _ Hq (slk_static _ _ Hx)) as Hl.
  unfold holdingsleep. mstep (acquire_free _ _ (proj1 Hs) Hl). mnext.
  rewrite sl_get_acq. destruct (sl_locked (sl_get x s) =? 0); cbn [negb andb].
  - mnext. by mstep (release_acq (sl_lk x) s Hs Hl).
  - rewrite (bind_done _ _ (acq (sl_lk x) s) (sl_pid (sl_get x s) =? p_pid (get_proc p s))
               (acq (sl_lk x) s)).
    + by mstep (release_acq (sl_lk x) s Hs Hl).
    + mstep (myproc_acq (sl_lk x) p s Hq). by mnext.
Qed.

(** A sleep lock that is free is taken without sleeping and records the
    taker; [holdingsleep] then says so, and releasing it gives back the state
    before. *)
Lemma sleeplock_cycle x p s :
  quiet p s → slk_ok x s → sl_get x s = mk_sleeplock 0 0 →
  ∃ s1, acquiresleep x s = Done () s1 ∧
    sl_get x s1 = mk_sleeplock 1 (get_proc p s).(p_pid) ∧
    holdingsleep x s1 = Done true s1 ∧
    releasesleep x s1 = Done () s.
Proof.
  intros Hq Hx Hl. exists (sl_set x (mk_sleeplock 1 (get_proc p s).(p_pid)) s).
  set (s1 := sl_set x _ s).
  assert (Hx1 : slk_ok x s1) by (destruct x; cbn; rewrite length_alter; done).
  assert (Hg : sl_get x s1 = mk_sleeplock 1 (get_proc p s).(p_pid)) by (by apply sl_get_set).
  split; [by apply acquiresleep_free; rewrite ?Hl|]. split; [done|]. split.
  - erewrite holdingsleep_quiet; [|by apply quiet_sl_set|done]. rewrite Hg. cbn.
    destruct x; cbn; by rewrite Z.eqb_refl.
  - erewrite releasesleep_quiet; [|by apply quiet_sl_set|done].
    unfold s1. rewrite sl_set_set, <- Hl, sl_set_get. done.
Qed.
End sleeplock.

(** Process 3 alone in the kernel. *)
Definition alone_state : kstate :=
  upd_proc 3 (λ q, set_p_state (λ _, RUNNING) (set_p_pid (λ _, 7) q))
    (upd_cpu (set_c_proc (λ _, Some 3%nat)) ready_state).

Lemma ready_locks_free lk : static_lock lk → ready_locks !! lk = Some (mk_spinlock 0 None).
Proof.
  intros Hlk. unfold ready_locks. apply elem_of_list_to_map_1.
  { apply (bool_decide_unpack _). by vm_compute. }
  apply list_elem_of_fmap. exists lk. split; [done|].
  destruct lk; try (apply elem_of_app; left; apply (bool_decide_unpack _); by vm_compute).
  - apply elem_of_app; right. apply elem_of_app; left.
    apply list_elem_of_fmap. eexists. split; [done|]. apply elem_of_seq. cbn in *. lia.
  - apply elem_of_app; right. apply elem_of_app; right. apply elem_of_app; left.
    apply list_elem_of_fmap. eexists. split; [done|]. apply elem_of_seq. cbn in *. lia.
  - apply elem_of_app; right. apply elem_of_app; right. apply elem_of_app; right.
    apply list_elem_of_fmap. eexists. split; [done|]. apply elem_of_seq. cbn in *. lia.
Qed.

Lemma Forall_lookup_all {A} (P : A → Prop) (l : list A) :
  Forall P l → ∀ i x, l !! i = Some x → P x.
Proof. intros H i x. by apply Forall_lookup_1. Qed.

Lemma alone_quiet : quiet 3 alone_state.
Proof.
  split; [vm_compute; lia|]. split; [left; by vm_compute|]. split; [by vm_compute|].
  split; [unfold NPROC; lia|]. split; [by vm_compute|].
  split; [exact ready_locks_free|]. split; [|by vm_compute].
  apply Forall_lookup_all. apply (bool_decide_unpack _). by vm_compute.
Qed.

Lemma sleeplock_cycle_witness :
  let F : Fuel := 1%nat in
  ∃ s1, acquiresleep (SlBuf 2) alone_state = Done () s1 ∧
        releasesleep (SlBuf 2) s1 = Done () alone_state.
Proof.
  destruct (@sleeplock_cycle 1%nat (SlBuf 2) 3 alone_state alone_quiet)
    as (s1 & H1 & _ & _ & H2); [vm_compute; lia|by vm_compute|].
  exists s1. exact (conj H1 H2).
Defined.
