(* ===== verification/Kalloc.v ===== *)
(** kernel/kalloc.c: the allocator of physical pages.

    The free list is threaded through the free pages themselves: the first
    eight bytes of a free page hold the address of the next one.  [chain]
    relates it to the list of free pages, the allocator's abstract state;
    [kalloc] pops it and [kfree] pushes on it. *)

From S2P Require Import Prelude Cmem KString Kstate Spinlock.
Local Open Scope Z_scope.

(** The symbols kernel.ld defines: the end of the kernel's text, the page
    holding trampoline.S and the end of the kernel's data. *)
Class Layout := {
  etext : Z;
  trampoline : Z;
  end_ : Z;
  layout_order : KERNBASE ≤ trampoline ∧ trampoline + PGSIZE = etext ∧
                 etext ≤ end_ ∧ end_ < PHYSTOP;
  layout_align : trampoline mod PGSIZE = 0 }.

Section kalloc.
Context {Fl : Fuel} {Ly : Layout}.

Definition mem_set (dst c n : Z) : K unit := modify (set_pmem (λ m, memset m dst c n)).

(** The guard of kfree. *)
Definition bad_page (pa : Z) : bool :=
  negb (pa mod PGSIZE =? 0) || (pa <? end_) || (PHYSTOP <=? pa).

Definition kfree (pa : Z) : K unit :=
  if bad_page pa then panic "kfree" else
  mem_set pa 1 PGSIZE ;;
  acquire LkKmem ;;
  fl ← gets freelist;
  modify (set_pmem (λ m, st64 m pa fl)) ;;
  modify (set_freelist (λ _, pa)) ;;
  release LkKmem.

Definition kalloc : K Z :=
  acquire LkKmem ;;
  r ← gets freelist;
  when (negb (r =? 0))
    (next ← gets (λ s, ld64 s.(pmem) r); modify (set_freelist (λ _, next))) ;;
  release LkKmem ;;
  when (negb (r =? 0)) (mem_set r 5 PGSIZE) ;;
  mret r.

Fixpoint freerange_loop (n : nat) (p pa_end : Z) : K unit :=
  match n with
  | O => out_of_fuel
  | S n =>
      if p + PGSIZE <=? pa_end then kfree p ;; freerange_loop n (p + PGSIZE) pa_end
      else mret ()
  end.

(** One round for every page of the range, and the last test. *)
Definition freerange (pa_start pa_end : Z) : K unit :=
  let p := PGROUNDUP pa_start in
  freerange_loop (S (Z.to_nat ((pa_end - p) / PGSIZE))) p pa_end.

Definition kinit : K unit :=
  initlock LkKmem ;;
  freerange end_ PHYSTOP.

(** ** The free list as a list of pages *)

Definition page_ok (pa : Z) : Prop := bad_page pa = false.

Fixpoint chain (m : mem) (a : Z) (l : list Z) : Prop :=
  match l with
  | [] => a = 0
  | x :: l => a = x ∧ page_ok x ∧ chain m (ld64 m x) l
  end.

(** [free_pages s l]: [l] is what the allocator owns. *)
Definition free_pages (s : kstate) (l : list Z) : Prop :=
  chain s.(pmem) s.(freelist) l ∧ NoDup l.

Definition on_page (pa x : Z) : Prop := pa ≤ x < pa + PGSIZE.

Lemma page_ok_spec pa :
  page_ok pa ↔ pa mod PGSIZE = 0 ∧ end_ ≤ pa < PHYSTOP.
Proof.
  unfold page_ok, bad_page. destruct (pa mod PGSIZE =? 0) eqn:E1; cbn; bool_hyps;
    [|split; [done|lia]].
  destruct (pa <? end_) eqn:E2; cbn; bool_hyps; [split; [done|lia]|].
  destruct (PHYSTOP <=? pa) eqn:E3; bool_hyps; split; (done || lia).
Qed.

Lemma page_ok_pos pa : page_ok pa → 0 < pa ∧ pa + PGSIZE < 18446744073709551616.
Proof.
  intros [_ H]%page_ok_spec. destruct layout_order as (? & ? & ? & ?).
  unfold PHYSTOP, KERNBASE, PGSIZE in *. lia.
Qed.

(** Distinct pages do not overlap. *)
Lemma aligned_disj a b : a mod PGSIZE = 0 → b mod PGSIZE = 0 → a ≠ b →
  a + PGSIZE ≤ b ∨ b + PGSIZE ≤ a.
Proof. intros Ha Hb Hne. unfold PGSIZE in *. mlia. Qed.

Lemma pages_disj a b : page_ok a → page_ok b → a ≠ b → a + PGSIZE ≤ b ∨ b + PGSIZE ≤ a.
Proof. intros [Ha _]%page_ok_spec [Hb _]%page_ok_spec. by apply aligned_disj. Qed.

(** A chain only depends on the contents of its own pages. *)
Lemma chain_ext m m' a l :
  (∀ p x, p ∈ l → on_page p x → ld8 m' x = ld8 m x) →
  chain m a l → chain m' a l.
Proof.
  revert a. induction l as [|y l IH]; intros a Hm; [done|]. cbn.
  intros (-> & Hok & Hc). split; [done|]. split; [done|].
  rewrite (ld64_ext m' m y y).
  - apply IH; [|done]. intros p x Hp. apply Hm. by right.
  - intros i Hi. apply (Hm y); [by left|]. unfold on_page, PGSIZE. lia.
Qed.

Lemma chain_pages m a l : chain m a l → Forall page_ok l.
Proof.
  revert a. induction l as [|y l IH]; intros a; [constructor|].
  intros (-> & Hok & Hc). constructor; [done|]. by eapply IH.
Qed.

(** Writing to a page the allocator does not own keeps the free list. *)
Lemma chain_frame m m' a l P :
  page_ok P → P ∉ l → (∀ x, ¬ on_page P x → ld8 m' x = ld8 m x) →
  chain m a l → chain m' a l.
Proof.
  intros HP Hin Hg Hc. eapply chain_ext; [|done]. intros p x Hp Hx. apply Hg.
  assert (Hok : page_ok p).
  { apply chain_pages in Hc. rewrite Forall_forall in Hc. by apply Hc. }
  destruct (pages_disj P p HP Hok) as [?|?]; [by intros ->|..]; unfold on_page in *; lia.
Qed.

Lemma free_pages_frame s l (g : mem → mem) P :
  page_ok P → P ∉ l → (∀ x, ¬ on_page P x → ld8 (g s.(pmem)) x = ld8 s.(pmem) x) →
  free_pages s l → free_pages (set_pmem g s) l.
Proof. intros HP Hin Hg [Hc Hn]. split; [|done]. by eapply chain_frame. Qed.

Definition hd0 (l : list Z) : Z := default 0 (head l).

Lemma kalloc_empty s :
  cpu_ok s → lock_free LkKmem s → free_pages s [] → kalloc s = Done 0 s.
Proof.
  intros Hs Hl [Hc _]. cbn in Hc. unfold kalloc.
  mstep (acquire_free _ _ (proj1 Hs) Hl). mnext.
  change (freelist (acq LkKmem s)) with (freelist s). rewrite Hc.
  mnext. mstep (release_acq LkKmem s Hs Hl). by mnext.
Qed.

(** The state after allocating the page [r], with [l] left. *)
Definition kalloced (r : Z) (l : list Z) (s : kstate) : kstate :=
  set_pmem (λ m, memset m r 5 PGSIZE) (set_freelist (λ _, hd0 l) s).

Lemma chain_hd m a l : chain m a l → a = hd0 l.
Proof. by destruct l as [|x l]; [|intros (-> & _)]. Qed.

Lemma kalloc_pops s r l :
  cpu_ok s → lock_free LkKmem s → free_pages s (r :: l) →
  kalloc s = Done r (kalloced r l s).
Proof.
  intros Hs Hl [Hc Hn]. cbn in Hc. destruct Hc as (Hr & Hok & Hc). unfold kalloc.
  mstep (acquire_free _ _ (proj1 Hs) Hl). mnext.
  change (freelist (acq LkKmem s)) with (freelist s). rewrite Hr.
  pose proof (page_ok_pos _ Hok) as [Hpos _].
  assert (E : (r =? 0) = false) by (apply Z.eqb_neq; lia). rewrite E. cbn [negb when].
  rewrite (bind_done _ _ _ () (acq LkKmem (set_freelist (λ _, hd0 l) s))).
  2:{ mnext. rewrite <- (chain_hd _ _ _ Hc). done. }
  cbv beta. mstep (release_acq LkKmem (set_freelist (λ _, hd0 l) s) Hs Hl).
  mnext. reflexivity.
Qed.

Lemma free_pages_kalloced s r l :
  free_pages s (r :: l) → free_pages (kalloced r l s) l.
Proof.
  intros [Hc Hn]. cbn in Hc. destruct Hc as (Hr & Hok & Hc).
  apply NoDup_cons in Hn as [Hin Hn].
  apply (free_pages_frame (set_freelist (λ _, hd0 l) s) l (λ m, memset m r 5 PGSIZE) r);
    [done..| |].
  - intros x Hx. rewrite ld8_memset. case_decide; [|done]. by destruct Hx.
  - split; [|done]. cbn. by rewrite <- (chain_hd _ _ _ Hc).
Qed.

(** The state after freeing the page [pa]. *)
Definition kfreed (pa : Z) (s : kstate) : kstate :=
  set_freelist (λ _, pa)
    (set_pmem (λ m, st64 (memset m pa 1 PGSIZE) pa s.(freelist)) s).

Lemma kfree_pushes s pa :
  cpu_ok s → lock_free LkKmem s → page_ok pa → kfree pa s = Done () (kfreed pa s).
Proof.
  intros Hs Hl Hok. unfold kfree. rewrite Hok. mnext.
  mstep (acquire_free LkKmem (set_pmem (λ m, memset m pa 1 PGSIZE) s) (proj1 Hs) Hl).
  do 3 mnext.
  exact (release_acq LkKmem (kfreed pa s) Hs Hl).
Qed.

Lemma chain_range m a l : chain m a l → 0 ≤ a < 18446744073709551616.
Proof.
  destruct l as [|x l]; [intros ->; lia|]. intros (-> & Hok & _).
  pose proof (page_ok_pos _ Hok). unfold PGSIZE in *. lia.
Qed.

Lemma junk_next_out m pa v x :
  ¬ on_page pa x → ld8 (st64 (memset m pa 1 PGSIZE) pa v) x = ld8 m x.
Proof.
  intros Hx. rewrite ld8_st64_ne, ld8_memset by (unfold on_page, PGSIZE in *; lia).
  case_decide; [by destruct Hx|done].
Qed.

Lemma chain_push m a pa l :
  page_ok pa → pa ∉ l → chain m a l →
  chain (st64 (memset m pa 1 PGSIZE) pa a) pa (pa :: l).
Proof.
  intros Hok Hin Hc. split; [done|]. split; [done|].
  rewrite ld64_st64_eq, u64_small by (by eapply chain_range).
  eapply chain_frame; [done..| |done]. intros x. apply junk_next_out.
Qed.

Lemma free_pages_kfreed s pa l :
  page_ok pa → pa ∉ l → free_pages s l → free_pages (kfreed pa s) (pa :: l).
Proof.
  intros Hok Hin [Hc Hn]. split; [|by apply NoDup_cons]. by apply chain_push.
Qed.

(** ** Initialisation *)

Definition range_pages (p : Z) (n : nat) : list Z := (λ i, p + Z.of_nat i * PGSIZE) <$> seq 0 n.

Lemma range_pages_S p n : range_pages p (S n) = p :: range_pages (p + PGSIZE) n.
Proof.
  unfold range_pages. cbn [seq fmap list_fmap]. f_equal; [lia|].
  rewrite <- fmap_S_seq, <- list_fmap_compose. apply list_fmap_ext. intros _ x _. cbn. lia.
Qed.

Lemma elem_of_range_pages x p n :
  x ∈ range_pages p n → p ≤ x < p + Z.of_nat n * PGSIZE.
Proof.
  intros (i & -> & Hi%elem_of_seq)%list_elem_of_fmap. unfold PGSIZE. lia.
Qed.

Lemma freerange_loop_done n p pa_end s l :
  cpu_ok s → lock_free LkKmem s → p mod PGSIZE = 0 → end_ ≤ p → pa_end ≤ PHYSTOP →
  pa_end - p < Z.of_nat (S n) * PGSIZE → Z.of_nat n * PGSIZE ≤ pa_end - p →
  Forall (λ x, x < p) l → free_pages s l →
  ∃ s', freerange_loop (S n) p pa_end s = Done () s' ∧
        free_pages s' (reverse (range_pages p n) ++ l) ∧ cpu_ok s' ∧ lock_free LkKmem s'.
Proof.
  revert p s l. induction n as [|n IH]; intros p s l Hs Hl Ha He Hp Hlt Hge Hlow Hf;
    rewrite !Nat2Z.inj_succ in *; cbn [freerange_loop].
  - destruct (p + PGSIZE <=? pa_end) eqn:E; bool_hyps; [unfold PGSIZE in *; lia|].
    exists s. by destruct Hs, Hf.
  - destruct (p + PGSIZE <=? pa_end) eqn:E; bool_hyps; [|unfold PGSIZE in *; lia].
    assert (Hok : page_ok p) by (apply page_ok_spec; unfold PGSIZE in *; mlia).
    mstep (kfree_pushes s p Hs Hl Hok).
    destruct (IH (p + PGSIZE) (kfreed p s) (p :: l)) as (s' & H1 & H2 & H3);
      try done; try (unfold PGSIZE in *; mlia).
    + constructor; [unfold PGSIZE; lia|]. eapply Forall_impl; [done|].
      intros x Hx. cbn in Hx. unfold PGSIZE; lia.
    + apply free_pages_kfreed; [done| |done]. intros Hin. rewrite Forall_forall in Hlow.
      specialize (Hlow _ Hin). lia.
    + exists s'. split; [done|]. split; [|done].
      by rewrite range_pages_S, reverse_cons, <- (assoc_L (++)).
Qed.

Lemma PGROUNDUP_spec x :
  0 ≤ x → x + PGSIZE < 18446744073709551616 →
  PGROUNDUP x mod PGSIZE = 0 ∧ x ≤ PGROUNDUP x < x + PGSIZE.
Proof.
  intros H0 H1. unfold PGROUNDUP. rewrite u64_small by (unfold PGSIZE in *; lia).
  change (Z.lnot (PGSIZE - 1)) with (Z.lnot (Z.ones 12)).
  rewrite <- Z.ldiff_land, Z.ldiff_ones_r, Z.shiftl_mul_pow2, Z.shiftr_div_pow2 by lia.
  change (2 ^ 12) with 4096. unfold PGSIZE. mlia.
Qed.

(** [kinit] gives the allocator exactly the whole pages between the end of
    the kernel and the top of memory, each once. *)
Lemma kinit_owns_all s :
  cpu_ok s → s.(freelist) = 0 →
  ∃ s', kinit s = Done () s' ∧
    free_pages s' (reverse (range_pages (PGROUNDUP end_)
                              (Z.to_nat ((PHYSTOP - PGROUNDUP end_) / PGSIZE)))).
Proof.
  intros Hs H0. unfold kinit, freerange.
  destruct layout_order as (L1 & L2 & L3 & L4).
  destruct (PGROUNDUP_spec end_) as [A1 A2];
    [unfold PHYSTOP, KERNBASE, PGSIZE in *; lia..|].
  mnext.
  assert (Hmod : PHYSTOP mod PGSIZE = 0) by reflexivity.
  destruct (freerange_loop_done (Z.to_nat ((PHYSTOP - PGROUNDUP end_) / PGSIZE))
              (PGROUNDUP end_) PHYSTOP
              (set_locks <[LkKmem := mk_spinlock 0 None]> s) []) as (s' & H1 & H2 & _).
  - exact Hs.
  - apply lookup_insert_eq.
  - done.
  - lia.
  - lia.
  - unfold PGSIZE in *. mlia.
  - unfold PGSIZE in *. mlia.
  - constructor.
  - split; [exact H0|constructor].
  - exists s'. split; [exact H1|]. by rewrite app_nil_r in H2.
Qed.

(** C6. The allocator implements a stack of distinct pages: [kalloc] returns
    the top page filled with 5 and keeps the rest, or 0 when there is none;
    [kfree] of a page it does not own pushes it. *)
Theorem kalloc_kfree_refine s l :
  cpu_ok s → lock_free LkKmem s → free_pages s l →
  (match l with
   | [] => kalloc s = Done 0 s
   | r :: l' => ∃ s', kalloc s = Done r s' ∧ free_pages s' l' ∧ (r ∉ l') ∧ page_ok r ∧
                  ∀ x, ld8 s'.(pmem) x = if decide (on_page r x) then 5 else ld8 s.(pmem) x
   end) ∧
  (∀ pa, page_ok pa → pa ∉ l →
     ∃ s', kfree pa s = Done () s' ∧ free_pages s' (pa :: l) ∧
       ∀ x, ¬ on_page pa x → ld8 s'.(pmem) x = ld8 s.(pmem) x).
Proof.
  intros Hs Hl Hf. split.
  - destruct l as [|r l]; [by apply kalloc_empty|].
    exists (kalloced r l s). split; [by apply kalloc_pops|].
    split; [by apply free_pages_kalloced|].
    destruct Hf as [(_ & Hok & _) Hn]. apply NoDup_cons in Hn as [? _].
    split; [done|]. split; [done|]. intros x. cbn. rewrite ld8_memset. done.
  - intros pa Hok Hin. exists (kfreed pa s). split; [by apply kfree_pushes|].
    split; [by apply free_pages_kfreed|]. intros x. apply junk_next_out.
Qed.

(** Freeing an address that is not a page of allocatable memory panics. *)
Lemma kfree_bad_page pa s :
  pa mod PGSIZE ≠ 0 ∨ pa < end_ ∨ PHYSTOP ≤ pa → kfree pa s = Panicked "kfree".
Proof.
  intros H. unfold kfree. destruct (bad_page pa) eqn:E; [done|].
  apply page_ok_spec in E. lia.
Qed.
End kalloc.

(** A layout with a kernel of 64 pages, and a machine with two free pages. *)
Definition layout64 : Layout.
Proof.
  refine {| etext := 0x80008000; trampoline := 0x80007000; end_ := 0x80040010 |};
    [unfold KERNBASE, PHYSTOP, PGSIZE, KERNBASE; lia|done].
Defined.

Definition two_pages : list Z := [0x80043000; 0x80041000].
Definition two_page_state : kstate :=
  set_freelist (λ _, 0x80043000) (set_pmem (λ m, st64 m 0x80043000 0x80041000) ready_state).

Lemma two_pages_free : @free_pages layout64 two_page_state two_pages.
Proof.
  split; [by vm_compute|]. apply (bool_decide_unpack _). by vm_compute.
Qed.

Lemma kinit_owns_all_witness :
  let F : Fuel := 1%nat in let L := layout64 in
  ∃ s', kinit ready_state = Done () s'.
Proof.
  destruct (@kinit_owns_all 1%nat layout64 ready_state ready_cpu_ok eq_refl) as (s' & H & _).
  exact (ex_intro _ s' H).
Defined.

Lemma kalloc_kfree_refine_witness :
  let F : Fuel := 1%nat in let L := layout64 in
  ∃ s', kalloc two_page_state = Done 0x80043000 s' ∧ free_pages s' [0x80041000].
Proof.
  destruct (@kalloc_kfree_refine 1%nat layout64 two_page_state two_pages)
    as [(s' & H1 & H2 & _) _];
    [exact ready_cpu_ok|by vm_compute|exact two_pages_free|].
  exact (ex_intro _ s' (conj H1 H2)).
Defined.

Lemma kfree_bad_page_witness :
  let F : Fuel := 1%nat in let L := layout64 in
  kfree 0x80041008 two_page_state = Panicked "kfree".
Proof. apply (@kfree_bad_page 1%nat layout64). left. by vm_compute. Defined.
