(* ===== verification/Vm.v ===== *)
(** kernel/vm.c: Sv39 page tables and copying between user and kernel memory,
    with proc_mapstacks of kernel/proc.c.

    A page table is a tree of pages of [pmem]; its entries are read and written
    as 64-bit words there.  Where the C code passes a kernel buffer, the model
    passes its bytes: [copyout] takes them, [copyin] and [copyinstr] return
    what was stored at the destination, also when they fail half way. *)

From S2P Require Import Prelude Cmem KString Kstate Spinlock Sleep Kalloc.
Local Open Scope Z_scope.

Section vm.
Context {Fl : Fuel} {Ly : Layout}.

Definition pte_at (pagetable i : Z) : Z := pagetable + 8 * i.
Definition has (pte flag : Z) : bool := negb (Z.land pte flag =? 0).

Definition get_pte (a : Z) : K Z := gets (λ s, ld64 s.(pmem) a).
Definition set_pte (a v : Z) : K unit := modify (set_pmem (λ m, st64 m a v)).

(** The loop over the levels; [level] is how many are left below. *)
Fixpoint walk_loop (level : nat) (pagetable va : Z) (alloc : bool) : K Z :=
  match level with
  | O => mret (pte_at pagetable (PX 0 va))
  | S level' =>
      let pte := pte_at pagetable (PX (Z.of_nat level) va) in
      v ← get_pte pte;
      if has v PTE_V then walk_loop level' (PTE2PA v) va alloc
      else if negb alloc then mret 0
      else
        pagetable ← kalloc;
        if pagetable =? 0 then mret 0
        else
          mem_set pagetable 0 PGSIZE ;;
          set_pte pte (Z.lor (PA2PTE pagetable) PTE_V) ;;
          walk_loop level' pagetable va alloc
  end.

Definition walk (pagetable va : Z) (alloc : bool) : K Z :=
  if MAXVA <=? va then panic "walk" else walk_loop 2 pagetable va alloc.

Definition walkaddr (pagetable va : Z) : K Z :=
  if MAXVA <=? va then mret 0 else
  pte ← walk pagetable va false;
  if pte =? 0 then mret 0 else
  v ← get_pte pte;
  if negb (has v PTE_V) then mret 0 else
  if negb (has v PTE_U) then mret 0 else
  mret (PTE2PA v).

Fixpoint mappages_loop (n : nat) (pagetable a last pa perm : Z) : K Z :=
  match n with
  | O => out_of_fuel
  | S n =>
      pte ← walk pagetable a true;
      if pte =? 0 then mret (-1) else
      v ← get_pte pte;
      if has v PTE_V then panic "mappages: remap" else
      set_pte pte (Z.lor (Z.lor (PA2PTE pa) perm) PTE_V) ;;
      if a =? last then mret 0
      else mappages_loop n pagetable (u64 (a + PGSIZE)) last (u64 (pa + PGSIZE)) perm
  end.

(** One round for every page. *)
Definition mappages (pagetable va size pa perm : Z) : K Z :=
  if negb (va mod PGSIZE =? 0) then panic "mappages: va not aligned" else
  if negb (size mod PGSIZE =? 0) then panic "mappages: size not aligned" else
  if size =? 0 then panic "mappages: size" else
  mappages_loop (Z.to_nat (size / PGSIZE)) pagetable va (u64 (va + size - PGSIZE)) pa perm.

Definition kvmmap (kpgtbl va pa sz perm : Z) : K unit :=
  r ← mappages kpgtbl va sz pa perm;
  when (negb (r =? 0)) (panic "kvmmap").

(** proc.c: a page for each process's kernel stack, high in memory, followed
    by an invalid guard page. *)
Definition proc_mapstacks (kpgtbl : Z) : K unit :=
  mfor (seq 0 NPROC) (λ p,
    pa ← kalloc;
    when (pa =? 0) (panic "kalloc") ;;
    kvmmap kpgtbl (KSTACK (Z.of_nat p)) pa PGSIZE (Z.lor PTE_R PTE_W)).

Definition kvmmake : K Z :=
  kpgtbl ← kalloc;
  mem_set kpgtbl 0 PGSIZE ;;
  kvmmap kpgtbl UART0 UART0 PGSIZE (Z.lor PTE_R PTE_W) ;;
  kvmmap kpgtbl VIRTIO0 VIRTIO0 PGSIZE (Z.lor PTE_R PTE_W) ;;
  kvmmap kpgtbl PLIC PLIC 0x4000000 (Z.lor PTE_R PTE_W) ;;
  kvmmap kpgtbl KERNBASE KERNBASE (etext - KERNBASE) (Z.lor PTE_R PTE_X) ;;
  kvmmap kpgtbl etext etext (PHYSTOP - etext) (Z.lor PTE_R PTE_W) ;;
  kvmmap kpgtbl TRAMPOLINE trampoline PGSIZE (Z.lor PTE_R PTE_X) ;;
  proc_mapstacks kpgtbl ;;
  mret kpgtbl.

Definition kvminit : K unit :=
  pt ← kvmmake;
  modify (set_kernel_pagetable (λ _, pt)).

Definition kvminithart : K unit :=
  kpt ← gets kernel_pagetable;
  modify (upd_cpu (set_satp (λ _, MAKE_SATP kpt))).

Definition uvmcreate : K Z :=
  pagetable ← kalloc;
  if pagetable =? 0 then mret 0 else
  mem_set pagetable 0 PGSIZE ;;
  mret pagetable.

(** The loop's body; the [continue]s skip pages without a valid entry. *)
Definition uvmunmap_page (pagetable a : Z) (do_free : bool) : K unit :=
  pte ← walk pagetable a false;
  if pte =? 0 then mret () else
  v ← get_pte pte;
  if negb (has v PTE_V) then mret () else
  when do_free (kfree (PTE2PA v)) ;;
  set_pte pte 0.

Fixpoint uvmunmap_loop (n : nat) (pagetable a last : Z) (do_free : bool) : K unit :=
  if last <=? a then mret () else
  match n with
  | O => out_of_fuel
  | S n =>
      uvmunmap_page pagetable a do_free ;;
      uvmunmap_loop n pagetable (u64 (a + PGSIZE)) last do_free
  end.

Definition uvmunmap (pagetable va npages : Z) (do_free : bool) : K unit :=
  if negb (va mod PGSIZE =? 0) then panic "uvmunmap: not aligned" else
  uvmunmap_loop (Z.to_nat npages) pagetable va (u64 (va + npages * PGSIZE)) do_free.

Definition uvmdealloc (pagetable oldsz newsz : Z) : K Z :=
  if oldsz <=? newsz then mret oldsz else
  when (PGROUNDUP newsz <? PGROUNDUP oldsz)
    (let npages := s32 ((PGROUNDUP oldsz - PGROUNDUP newsz) / PGSIZE) in
     uvmunmap pagetable (PGROUNDUP newsz) npages true) ;;
  mret newsz.

Fixpoint uvmalloc_loop (n : nat) (pagetable a oldsz newsz xperm : Z) : K Z :=
  if newsz <=? a then mret newsz else
  match n with
  | O => out_of_fuel
  | S n =>
      mem ← kalloc;
      if mem =? 0 then uvmdealloc pagetable a oldsz ;; mret 0 else
      mem_set mem 0 PGSIZE ;;
      r ← mappages pagetable a PGSIZE mem (Z.lor (Z.lor PTE_R PTE_U) xperm);
      if negb (r =? 0) then kfree mem ;; uvmdealloc pagetable a oldsz ;; mret 0
      else uvmalloc_loop n pagetable (u64 (a + PGSIZE)) oldsz newsz xperm
  end.

(** At most one round for every page between the sizes. *)
Definition uvmalloc (pagetable oldsz newsz xperm : Z) : K Z :=
  if newsz <? oldsz then mret oldsz else
  let oldsz := PGROUNDUP oldsz in
  uvmalloc_loop (Z.to_nat ((newsz - oldsz + PGSIZE - 1) / PGSIZE)) pagetable oldsz oldsz
    newsz xperm.

(** [n] bounds the depth of the tree, which is 3 for Sv39. *)
Fixpoint freewalk_at (n : nat) (pagetable : Z) : K unit :=
  match n with
  | O => out_of_fuel
  | S n =>
      mfor (seqZ 0 512) (λ i,
        pte ← get_pte (pte_at pagetable i);
        if has pte PTE_V && negb (has pte (Z.lor (Z.lor PTE_R PTE_W) PTE_X)) then
          freewalk_at n (PTE2PA pte) ;;
          set_pte (pte_at pagetable i) 0
        else when (has pte PTE_V) (panic "freewalk: leaf")) ;;
      kfree pagetable
  end.
Definition freewalk (pagetable : Z) : K unit := freewalk_at (3 + fuel) pagetable.

Definition uvmfree (pagetable sz : Z) : K unit :=
  when (0 <? sz) (uvmunmap pagetable 0 (PGROUNDUP sz / PGSIZE) true) ;;
  freewalk pagetable.

Fixpoint uvmcopy_loop (n : nat) (old new i sz : Z) : K Z :=
  if sz <=? i then mret 0 else
  match n with
  | O => out_of_fuel
  | S n =>
      pte ← walk old i false;
      if pte =? 0 then uvmcopy_loop n old new (u64 (i + PGSIZE)) sz else
      v ← get_pte pte;
      if negb (has v PTE_V) then uvmcopy_loop n old new (u64 (i + PGSIZE)) sz else
      let pa := PTE2PA v in
      let flags := PTE_FLAGS v in
      mem ← kalloc;
      if mem =? 0 then uvmunmap new 0 (i / PGSIZE) true ;; mret (-1) else
      modify (set_pmem (λ m, memmove m mem pa PGSIZE)) ;;
      r ← mappages new i PGSIZE mem flags;
      if negb (r =? 0) then
        kfree mem ;; uvmunmap new 0 (i / PGSIZE) true ;; mret (-1)
      else uvmcopy_loop n old new (u64 (i + PGSIZE)) sz
  end.

Definition uvmcopy (old new sz : Z) : K Z :=
  uvmcopy_loop (Z.to_nat ((sz + PGSIZE - 1) / PGSIZE)) old new 0 sz.

Definition uvmclear (pagetable va : Z) : K unit :=
  pte ← walk pagetable va false;
  when (pte =? 0) (panic "uvmclear") ;;
  v ← get_pte pte;
  set_pte pte (Z.land v (Z.lnot PTE_U)).

Definition ismapped (pagetable va : Z) : K bool :=
  pte ← walk pagetable va false;
  if pte =? 0 then mret false else
  v ← get_pte pte;
  mret (has v PTE_V).

Definition vmfault (pagetable va : Z) : K Z :=
  p ← myproc_ptr;
  q ← gets (get_proc p);
  if q.(p_sz) <=? va then mret 0 else
  let va := PGROUNDDOWN va in
  b ← ismapped pagetable va;
  if b : bool then mret 0 else
  mem ← kalloc;
  if mem =? 0 then mret 0 else
  mem_set mem 0 PGSIZE ;;
  q ← gets (get_proc p);
  r ← mappages q.(p_pagetable) va PGSIZE mem (Z.lor (Z.lor PTE_W PTE_U) PTE_R);
  if negb (r =? 0) then kfree mem ;; mret 0 else mret mem.

(** How many pages [len] bytes can touch, and the last test. *)
Definition copy_rounds (len : Z) : nat := Z.to_nat (len / PGSIZE + 3).

Fixpoint copyout_loop (n : nat) (pagetable dstva : Z) (src : list Z) : K Z :=
  match src with
  | [] => mret 0
  | _ =>
    match n with
    | O => out_of_fuel
    | S n =>
        let va0 := PGROUNDDOWN dstva in
        if MAXVA <=? va0 then mret (-1) else
        pa0 ← walkaddr pagetable va0;
        pa0 ← (if pa0 =? 0 then vmfault pagetable va0 else mret pa0);
        if pa0 =? 0 then mret (-1) else
        pte ← walk pagetable va0 false;
        when (pte =? 0) (panic "kerneltrap") ;;
        v ← get_pte pte;
        if negb (has v PTE_W) then mret (-1) else
        let n0 := PGSIZE - (dstva - va0) in
        let len := Z.of_nat (length src) in
        let k := if len <? n0 then len else n0 in
        modify (set_pmem (λ m, wr m (pa0 + (dstva - va0)) (take (Z.to_nat k) src))) ;;
        copyout_loop n pagetable (u64 (va0 + PGSIZE)) (drop (Z.to_nat k) src)
    end
  end.

Definition copyout (pagetable dstva : Z) (src : list Z) : K Z :=
  copyout_loop (copy_rounds (Z.of_nat (length src))) pagetable dstva src.

(** The status and the bytes stored at the destination. *)
Fixpoint copyin_loop (n : nat) (pagetable srcva len : Z) : K (Z * list Z) :=
  if len <=? 0 then mret (0, []) else
  match n with
  | O => out_of_fuel
  | S n =>
      let va0 := PGROUNDDOWN srcva in
      pa0 ← walkaddr pagetable va0;
      pa0 ← (if pa0 =? 0 then vmfault pagetable va0 else mret pa0);
      if pa0 =? 0 then mret (-1, []) else
      let n0 := PGSIZE - (srcva - va0) in
      let k := if len <? n0 then len else n0 in
      bs ← gets (λ s, rd s.(pmem) (pa0 + (srcva - va0)) (Z.to_nat k));
      r ← copyin_loop n pagetable (u64 (va0 + PGSIZE)) (len - k);
      mret (r.1, bs ++ r.2)
  end.

Definition copyin (pagetable srcva len : Z) : K (Z * list Z) :=
  copyin_loop (copy_rounds len) pagetable srcva len.

(** The inner loop of copyinstr: the bytes stored and whether a NUL was. *)
Fixpoint copyinstr_page (m : mem) (p : Z) (n : nat) : list Z * bool :=
  match n with
  | O => ([], false)
  | S n =>
      if ld8 m p =? 0 then ([0], true)
      else let r := copyinstr_page m (p + 1) n in (ld8 m p :: r.1, r.2)
  end.

Fixpoint copyinstr_loop (n : nat) (pagetable srcva max : Z) : K (Z * list Z) :=
  if max <=? 0 then mret (-1, []) else
  match n with
  | O => out_of_fuel
  | S n =>
      let va0 := PGROUNDDOWN srcva in
      pa0 ← walkaddr pagetable va0;
      if pa0 =? 0 then mret (-1, []) else
      let n0 := PGSIZE - (srcva - va0) in
      let k := if max <? n0 then max else n0 in
      r ← gets (λ s, copyinstr_page s.(pmem) (pa0 + (srcva - va0)) (Z.to_nat k));
      if r.2 : bool then mret (0, r.1)
      else
        r' ← copyinstr_loop n pagetable (u64 (va0 + PGSIZE)) (max - k);
        mret (r'.1, r.1 ++ r'.2)
  end.

Definition copyinstr (pagetable srcva max : Z) : K (Z * list Z) :=
  copyinstr_loop (copy_rounds max) pagetable srcva max.

(** proc.c: copy to or from a user or a kernel address. *)
Definition either_copyout (user_dst : bool) (dst : Z) (src : list Z) : K Z :=
  p ← myproc;
  if user_dst then p ← deref p; q ← gets (get_proc p); copyout q.(p_pagetable) dst src
  else modify (set_pmem (λ m, wr m dst src)) ;; mret 0.

Definition either_copyin (user_src : bool) (src len : Z) : K (Z * list Z) :=
  p ← myproc;
  if user_src then p ← deref p; q ← gets (get_proc p); copyin q.(p_pagetable) src len
  else bs ← gets (λ s, rd s.(pmem) src (Z.to_nat len)); mret (0, bs).
End vm.
