(* ===== verification/VmSpec.v ===== *)
(** What the page tables of [Vm] mean, and what the operations of vm.c do to
    that meaning.

    [leaf m root va] is the leaf entry the hardware finds for [va] (0 when a
    table on the way is missing).  [typed m root T] says the table pages form a
    tree: [T] gives every table page its level and the prefix of the addresses
    it translates, so no table is shared. *)

From S2P Require Import Prelude Cmem KString Kstate Spinlock Sleep Kalloc Vm.
Local Open Scope Z_scope.

(** Arithmetic on pages. *)
Ltac pg :=
  change MAXVA with 274877906944 in *; change (2 ^ 56) with 72057594037927936 in *;
  change PGSIZE with 4096 in *; mlia.

(** Level and address prefix of every table page. *)
Abbreviation typing := (gmap Z (nat * Z)).

Section vmspec.
Context {Fl : Fuel} {Ly : Layout}.

Definition lvl_shift (level : nat) : Z := 12 + 9 * Z.of_nat level.
Definition pre_of (level : nat) (va : Z) : Z := Z.shiftr va (lvl_shift level).

Fixpoint leaf_at (m : mem) (level : nat) (P va : Z) : Z :=
  let v := ld64 m (pte_at P (PX (Z.of_nat level) va)) in
  match level with
  | O => v
  | S level' => if has v PTE_V then leaf_at m level' (PTE2PA v) va else 0
  end.
Definition leaf (m : mem) (root va : Z) : Z := leaf_at m 2 root va.

(** The address [walk] returns without allocating. *)
Fixpoint slot_at (m : mem) (level : nat) (P va : Z) : Z :=
  match level with
  | O => pte_at P (PX 0 va)
  | S level' =>
      let v := ld64 m (pte_at P (PX (Z.of_nat level) va)) in
      if has v PTE_V then slot_at m level' (PTE2PA v) va else 0
  end.

Record typed (m : mem) (root : Z) (T : typing) : Prop := {
  typed_root : T !! root = Some (2%nat, 0);
  typed_page P x : T !! P = Some x → page_ok P;
  typed_child P level pre i :
    T !! P = Some (S level, pre) → 0 ≤ i < 512 → has (ld64 m (pte_at P i)) PTE_V = true →
    T !! PTE2PA (ld64 m (pte_at P i)) = Some (level, pre * 512 + i) }.

(** ** Indexes *)

Lemma PX_range level va : 0 ≤ PX level va < 512.
Proof.
  unfold PX. change 0x1FF with (Z.ones 9). rewrite Z.land_ones by lia.
  apply Z.mod_pos_bound. lia.
Qed.

Lemma PX_pre level va :
  pre_of (S level) va * 512 + PX (Z.of_nat level) va = pre_of level va.
Proof.
  unfold PX, pre_of, PXSHIFT, lvl_shift. change 0x1FF with (Z.ones 9).
  rewrite Z.land_ones by lia.
  replace (12 + 9 * Z.of_nat (S level)) with (12 + 9 * Z.of_nat level + 9) by lia.
  rewrite <- Z.shiftr_shiftr, (Z.shiftr_div_pow2 _ 9) by lia.
  change (2 ^ 9) with 512. mlia.
Qed.

Lemma pre_root va : 0 ≤ va < MAXVA → pre_of 3 va = 0.
Proof.
  intros H. unfold pre_of, lvl_shift. rewrite Z.shiftr_div_pow2 by lia.
  apply Z.div_small. change MAXVA with (2 ^ 38) in H. change (2 ^ (12 + 9 * Z.of_nat 3)) with (2 ^ 39).
  lia.
Qed.

Lemma pre_eq_px level va va' :
  pre_of (S level) va = pre_of (S level) va' →
  PX (Z.of_nat level) va = PX (Z.of_nat level) va' ↔ pre_of level va = pre_of level va'.
Proof. intros H. rewrite <- !(PX_pre level), H. lia. Qed.

Lemma pte_on_page P i : 0 ≤ i < 512 → P ≤ pte_at P i ∧ pte_at P i + 8 ≤ P + PGSIZE.
Proof. unfold pte_at, PGSIZE. lia. Qed.

Lemma pte_at_inj P i j : 0 ≤ i < 512 → 0 ≤ j < 512 → i ≠ j →
  pte_at P i + 8 ≤ pte_at P j ∨ pte_at P j + 8 ≤ pte_at P i.
Proof. unfold pte_at. lia. Qed.

(** Entries of different tables, or with different indexes, do not overlap. *)
Lemma entry_disj P Q i j :
  page_ok P → page_ok Q → 0 ≤ i < 512 → 0 ≤ j < 512 → P ≠ Q ∨ i ≠ j →
  pte_at P i + 8 ≤ pte_at Q j ∨ pte_at Q j + 8 ≤ pte_at P i.
Proof.
  intros HP HQ Hi Hj H. destruct (decide (P = Q)) as [->|Hne].
  - apply pte_at_inj; [done..|]. by destruct H.
  - pose proof (pages_disj _ _ HP HQ Hne). unfold pte_at, PGSIZE in *. lia.
Qed.

(** ** Entries *)

Lemma has_lor_V x : has (Z.lor x PTE_V) PTE_V = true.
Proof.
  unfold has. apply negb_true_iff, Z.eqb_neq. intros H.
  assert (Z.testbit (Z.land (Z.lor x PTE_V) PTE_V) 0 = false) as Hb by (by rewrite H).
  rewrite Z.land_spec, Z.lor_spec in Hb. cbn in Hb. by rewrite orb_true_r in Hb.
Qed.

Lemma PTE2PA_PA2PTE pa flags :
  pa mod PGSIZE = 0 → 0 ≤ pa < 2 ^ 56 → 0 ≤ flags < 1024 →
  PTE2PA (Z.lor (PA2PTE pa) flags) = pa.
Proof.
  intros Ha Hr Hf. unfold PTE2PA, PA2PTE. unfold PGSIZE in Ha.
  rewrite !Z.shiftr_div_pow2, !Z.shiftl_mul_pow2 by lia.
  change (2 ^ 12) with 4096. change (2 ^ 10) with 1024. change (2 ^ 56) with 72057594037927936 in Hr.
  rewrite (u64_small (pa / 4096 * 1024)) by mlia.
  assert (E : Z.lor (pa / 4096 * 1024) flags / 1024 = pa / 4096).
  { change 1024 with (2 ^ 10). rewrite <- Z.shiftr_div_pow2, Z.shiftr_lor by lia.
    rewrite <- Z.shiftl_mul_pow2, Z.shiftr_shiftl_l by lia.
    rewrite (Z.shiftr_div_pow2 flags), (Z.div_small flags) by lia.
    rewrite Z.sub_diag, Z.shiftl_0_r. apply Z.lor_0_r. }
  rewrite E. rewrite u64_small; mlia.
Qed.

Lemma lor_range a b n : 0 ≤ n → 0 ≤ a < 2 ^ n → 0 ≤ b < 2 ^ n → 0 ≤ Z.lor a b < 2 ^ n.
Proof.
  intros Hn Ha Hb. split; [apply Z.lor_nonneg; lia|].
  destruct (decide (Z.lor a b = 0)) as [->|Hne]; [lia|].
  assert (0 < Z.lor a b) by (pose proof (proj2 (Z.lor_nonneg a b)); lia).
  apply Z.log2_lt_pow2; [done|]. rewrite Z.log2_lor by lia.
  apply Z.max_lub_lt.
  - destruct (decide (a = 0)) as [->|]; [|apply Z.log2_lt_pow2; lia].
    cbn. destruct (decide (n = 0)) as [->|]; [|lia]. change (2 ^ 0) with 1 in *.
    assert (b = 0) by lia. subst. done.
  - destruct (decide (b = 0)) as [->|]; [|apply Z.log2_lt_pow2; lia].
    cbn. destruct (decide (n = 0)) as [->|]; [|lia]. change (2 ^ 0) with 1 in *.
    assert (a = 0) by lia. subst. done.
Qed.

Lemma entry_u64 pa flags :
  0 ≤ pa < 2 ^ 56 → 0 ≤ flags < 1024 →
  u64 (Z.lor (PA2PTE pa) flags) = Z.lor (PA2PTE pa) flags.
Proof.
  intros Hr Hf. apply u64_small. change 18446744073709551616 with (2 ^ 64).
  apply lor_range; [lia| |lia]. apply u64_range.
Qed.

Lemma page_ok_56 r : page_ok r → r mod PGSIZE = 0 ∧ 0 ≤ r < 2 ^ 56.
Proof.
  intros [Ha Hr]%page_ok_spec. split; [done|].
  destruct layout_order as (? & ? & ? & ?). unfold PHYSTOP, KERNBASE, PGSIZE in *. lia.
Qed.

(** ** Frame: only the table pages matter *)

Lemma typed_ext m m' root T :
  (∀ P x y, T !! P = Some x → on_page P y → ld8 m' y = ld8 m y) →
  typed m root T → typed m' root T.
Proof.
  intros Hm [H1 H2 H3]. split; [done|done|]. intros P level pre i HP Hi.
  assert (E : ld64 m' (pte_at P i) = ld64 m (pte_at P i)).
  { apply ld64_ext. intros k Hk. eapply Hm; [done|].
    pose proof (pte_on_page P i Hi). unfold on_page. lia. }
  rewrite E. by apply H3.
Qed.

Lemma leaf_at_ext m m' root T level P pre va :
  typed m root T → T !! P = Some (level, pre) →
  (∀ P x y, T !! P = Some x → on_page P y → ld8 m' y = ld8 m y) →
  leaf_at m' level P va = leaf_at m level P va.
Proof.
  intros HT. revert P pre. induction level as [|level IH]; intros P pre HP Hm;
    cbn [leaf_at].
  - change (Z.of_nat 0) with 0. apply ld64_ext. intros k Hk. eapply Hm; [done|].
    pose proof (pte_on_page P _ (PX_range 0 va)). unfold on_page. lia.
  - pose proof (PX_range (Z.of_nat (S level)) va) as Hi'. assert (E : ld64 m' (pte_at P (PX (Z.of_nat (S level)) va)) =
                ld64 m (pte_at P (PX (Z.of_nat (S level)) va))).
    { apply ld64_ext. intros k Hk. eapply Hm; [done|].
      pose proof (pte_on_page P _ Hi'). unfold on_page. lia. }
    rewrite E. destruct (has _ _) eqn:Hv; [|done].
    eapply IH; [|done]. by eapply typed_child.
Qed.

Lemma slot_at_ext m m' root T level P pre va :
  typed m root T → T !! P = Some (level, pre) →
  (∀ P x y, T !! P = Some x → on_page P y → ld8 m' y = ld8 m y) →
  slot_at m' level P va = slot_at m level P va.
Proof.
  intros HT. revert P pre. induction level as [|level IH]; intros P pre HP Hm;
    cbn [slot_at]; [done|].
  pose proof (PX_range (Z.of_nat (S level)) va) as Hi'.
  assert (E : ld64 m' (pte_at P (PX (Z.of_nat (S level)) va)) =
              ld64 m (pte_at P (PX (Z.of_nat (S level)) va))).
  { apply ld64_ext. intros k Hk. eapply Hm; [done|].
    pose proof (pte_on_page P _ Hi'). unfold on_page. lia. }
  rewrite E. destruct (has _ _) eqn:Hv; [|done].
  eapply IH; [|done]. by eapply typed_child.
Qed.

(** ** Writing a leaf entry *)

Lemma typed_set_leaf m root T Q pre i v :
  typed m root T → T !! Q = Some (0%nat, pre) → 0 ≤ i < 512 →
  typed (st64 m (pte_at Q i) v) root T.
Proof.
  intros [H1 H2 H3] HQ Hi. split; [done|done|]. intros P level pre' j HP Hj.
  assert (E : ld64 (st64 m (pte_at Q i) v) (pte_at P j) = ld64 m (pte_at P j)).
  { apply ld64_st64_ne. destruct (entry_disj P Q j i) as [?|?]; eauto; [|lia..].
    left. intros ->. rewrite HQ in HP. congruence. }
  rewrite E. by apply H3.
Qed.

Lemma leaf_at_set_other m root T level P Q pre i v va :
  typed m root T → T !! Q = Some (0%nat, pre) → 0 ≤ i < 512 →
  T !! P = Some (level, pre_of (S level) va) → pre_of 0 va ≠ pre * 512 + i →
  leaf_at (st64 m (pte_at Q i) v) level P va = leaf_at m level P va.
Proof.
  intros HT HQ Hi. revert P. induction level as [|level IH]; intros P HP Hne; cbn [leaf_at].
  - change (Z.of_nat 0) with 0. pose proof (PX_range 0 va) as Hpx.
    apply ld64_st64_ne. destruct (entry_disj P Q (PX 0 va) i) as [?|?]; try lia;
      try by eapply typed_page.
    destruct (decide (P = Q)) as [->|]; [right|by left]. intros <-.
    rewrite HQ in HP. injection HP as ->. apply Hne. symmetry. apply (PX_pre 0).
  - pose proof (PX_range (Z.of_nat (S level)) va) as Hpx.
    assert (E : ld64 (st64 m (pte_at Q i) v) (pte_at P (PX (Z.of_nat (S level)) va)) =
                ld64 m (pte_at P (PX (Z.of_nat (S level)) va))).
    { apply ld64_st64_ne. destruct (entry_disj P Q (PX (Z.of_nat (S level)) va) i); try lia;
        try by eapply typed_page. left. intros ->. rewrite HQ in HP. congruence. }
    rewrite E. destruct (has _ _) eqn:Hv; [|done]. apply IH; [|done].
    rewrite <- (PX_pre (S level)). by eapply typed_child.
Qed.

Lemma slot_typed m root T level P va :
  typed m root T → T !! P = Some (level, pre_of (S level) va) → slot_at m level P va ≠ 0 →
  ∃ Q, T !! Q = Some (0%nat, pre_of 1 va) ∧ slot_at m level P va = pte_at Q (PX 0 va).
Proof.
  intros HT. revert P. induction level as [|level IH]; intros P HP; cbn [slot_at].
  - intros _. by exists P.
  - pose proof (PX_range (Z.of_nat (S level)) va) as Hpx.
    destruct (has _ _) eqn:Hv; [|done]. apply IH.
    rewrite <- (PX_pre (S level)). by eapply typed_child.
Qed.

Lemma leaf_at_slot m level P va : slot_at m level P va ≠ 0 →
  leaf_at m level P va = ld64 m (slot_at m level P va).
Proof.
  revert P. induction level as [|level IH]; intros P; cbn [slot_at leaf_at]; [done|].
  destruct (has _ _); [apply IH|done].
Qed.

Lemma leaf_at_no_slot m root T level P va :
  typed m root T → T !! P = Some (level, pre_of (S level) va) →
  slot_at m level P va = 0 → leaf_at m level P va = 0.
Proof.
  intros HT. revert P. induction level as [|level IH]; intros P HP; cbn [slot_at leaf_at].
  - intros H0. apply (typed_page _ _ _ HT), page_ok_pos in HP.
    pose proof (PX_range 0 va). unfold pte_at in H0. lia.
  - pose proof (PX_range (Z.of_nat (S level)) va) as Hpx.
    destruct (has _ _) eqn:Hv; [|done]. apply IH.
    rewrite <- (PX_pre (S level)). by eapply typed_child.
Qed.

Lemma slot_at_set_leaf m root T level P Q pre i v va :
  typed m root T → T !! Q = Some (0%nat, pre) → 0 ≤ i < 512 →
  T !! P = Some (level, pre_of (S level) va) →
  slot_at (st64 m (pte_at Q i) v) level P va = slot_at m level P va.
Proof.
  intros HT HQ Hi. revert P. induction level as [|level IH]; intros P HP; cbn [slot_at]; [done|].
  pose proof (PX_range (Z.of_nat (S level)) va) as Hpx.
  assert (E : ld64 (st64 m (pte_at Q i) v) (pte_at P (PX (Z.of_nat (S level)) va)) =
              ld64 m (pte_at P (PX (Z.of_nat (S level)) va))).
  { apply ld64_st64_ne. destruct (entry_disj P Q (PX (Z.of_nat (S level)) va) i); try lia;
      try by eapply typed_page. left. intros ->. rewrite HQ in HP. congruence. }
  rewrite E. destruct (has _ _) eqn:Hv; [|done]. apply IH.
  rewrite <- (PX_pre (S level)). by eapply typed_child.
Qed.

(** Addresses of one page have the same entry. *)
Lemma PX_page k va va' : pre_of 0 va = pre_of 0 va' →
  PX (Z.of_nat k) va = PX (Z.of_nat k) va'.
Proof.
  intros H. unfold pre_of, lvl_shift in H. unfold PX, PXSHIFT.
  rewrite <- !(Z.shiftr_shiftr _ 12) by lia. change (12 + 9 * Z.of_nat 0) with 12 in H.
  by rewrite H.
Qed.

Lemma leaf_at_page m level P va va' :
  pre_of 0 va = pre_of 0 va' → leaf_at m level P va = leaf_at m level P va'.
Proof.
  intros H. revert P. induction level as [|level IH]; intros P; cbn [leaf_at];
    rewrite (PX_page _ _ _ H); [done|]. by destruct (has _ _).
Qed.

(** Writing the entry [walk] found changes the translation of its page only. *)
Lemma leaf_set m root T va v va' :
  typed m root T → 0 ≤ va < MAXVA → 0 ≤ va' < MAXVA → slot_at m 2 root va ≠ 0 →
  typed (st64 m (slot_at m 2 root va) v) root T ∧
  leaf (st64 m (slot_at m 2 root va) v) root va' =
    if decide (pre_of 0 va' = pre_of 0 va) then u64 v else leaf m root va'.
Proof.
  intros HT Hva Hva' Hs.
  assert (HR : T !! root = Some (2%nat, pre_of 3 va)) by (rewrite pre_root by done; apply HT).
  assert (HR' : T !! root = Some (2%nat, pre_of 3 va')) by (rewrite pre_root by done; apply HT).
  destruct (slot_typed _ _ _ _ _ _ HT HR Hs) as (Q & HQ & E). rewrite E in *.
  pose proof (PX_range 0 va) as Hpx. split; [by eapply typed_set_leaf|].
  unfold leaf. case_decide as Ep.
  - rewrite (leaf_at_page _ _ _ _ _ Ep), leaf_at_slot.
    + erewrite slot_at_set_leaf, E by done. apply ld64_st64_eq.
    + erewrite slot_at_set_leaf by done. by rewrite E.
  - eapply leaf_at_set_other; [done..|].
    intros E'. apply Ep. rewrite E'. exact (PX_pre 0 va).
Qed.

(** ** Adding a table page *)

Lemma ld64_zero m P i :
  0 ≤ i < 512 → (∀ y, on_page P y → ld8 m y = 0) → ld64 m (pte_at P i) = 0.
Proof.
  intros Hi Hz. unfold ld64. replace (rd m (pte_at P i) 8) with (replicate 8 0); [done|].
  symmetry. apply list_eq. intros k. destruct (decide (k < 8)%nat) as [Hk|Hk].
  - rewrite lookup_rd, lookup_replicate_2 by done. f_equal. apply Hz.
    pose proof (pte_on_page P i Hi). unfold on_page. lia.
  - rewrite !lookup_ge_None_2; [done|rewrite length_replicate; lia|rewrite length_rd; lia].
Qed.

(** Below an empty table every leaf entry is 0. *)
Lemma leaf_at_empty m level P va :
  (∀ y, on_page P y → ld8 m y = 0) → leaf_at m level P va = 0.
Proof.
  intros Hz. destruct level as [|level]; cbn [leaf_at].
  - apply ld64_zero; [apply PX_range|done].
  - by rewrite ld64_zero by (apply PX_range || done).
Qed.

Section grow.
Variables (m m' : mem) (root : Z) (T : typing) (P r : Z) (level : nat) (pre i : Z).
Hypothesis HT : typed m root T.
Hypothesis HP : T !! P = Some (S level, pre).
Hypothesis Hi : 0 ≤ i < 512.
Hypothesis Hinv : has (ld64 m (pte_at P i)) PTE_V = false.
Hypothesis Hr : T !! r = None.
Hypothesis Hrok : page_ok r.
Hypothesis Hzero : ∀ y, on_page r y → ld8 m' y = 0.
Hypothesis Hentry : ld64 m' (pte_at P i) = Z.lor (PA2PTE r) PTE_V.
Hypothesis Hframe : ∀ y, ¬ on_page r y → y < pte_at P i ∨ pte_at P i + 8 ≤ y →
  ld8 m' y = ld8 m y.

Lemma grow_other Q x j :
  T !! Q = Some x → 0 ≤ j < 512 → Q ≠ P ∨ j ≠ i →
  ld64 m' (pte_at Q j) = ld64 m (pte_at Q j).
Proof using HT HP Hi Hr Hrok Hframe.
  intros HQ Hj Hne. apply ld64_ext. intros k Hk.
  pose proof (typed_page _ _ _ HT _ _ HQ) as HQok.
  pose proof (typed_page _ _ _ HT _ _ HP) as HPok.
  pose proof (pte_on_page Q j Hj). apply Hframe.
  - assert (Q ≠ r) as Hqr by congruence.
    destruct (pages_disj _ _ HQok Hrok Hqr); unfold on_page; lia.
  - destruct (entry_disj Q P j i); try done; lia.
Qed.

Lemma grow_entry : has (ld64 m' (pte_at P i)) PTE_V = true ∧ PTE2PA (ld64 m' (pte_at P i)) = r.
Proof using Hentry Hrok.
  destruct (page_ok_56 _ Hrok). rewrite Hentry. split; [apply has_lor_V|].
  apply PTE2PA_PA2PTE; [done..|]. unfold PTE_V. lia.
Qed.

Lemma typed_grow : typed m' root (<[r := (level, pre * 512 + i)]> T).
Proof using All.
  pose proof grow_entry as [Ev Er]. split.
  - rewrite lookup_insert_ne; [apply HT|]. intros ->. rewrite (typed_root _ _ _ HT) in Hr. done.
  - intros Q x. destruct (decide (r = Q)) as [<-|Hne]; [done|].
    rewrite lookup_insert_ne by done. apply HT.
  - intros Q l' p' j. destruct (decide (r = Q)) as [<-|Hne].
    + rewrite lookup_insert_eq. intros _ Hj. by rewrite ld64_zero.
    + rewrite lookup_insert_ne by done. intros HQ Hj.
      destruct (decide (Q = P)) as [->|HQP].
      * rewrite HP in HQ. injection HQ as <- <-. destruct (decide (j = i)) as [->|Hji].
        -- intros _. rewrite Er. apply lookup_insert_eq.
        -- rewrite (grow_other P _ j HP Hj) by tauto. intros Hv.
           pose proof (typed_child _ _ _ HT _ _ _ _ HP Hj Hv) as Hc.
           rewrite lookup_insert_ne; [done|congruence].
      * rewrite (grow_other Q _ j HQ Hj) by tauto. intros Hv.
        pose proof (typed_child _ _ _ HT _ _ _ _ HQ Hj Hv) as Hc.
        rewrite lookup_insert_ne; [done|congruence].
Qed.

Lemma leaf_at_grow l' Q p' va :
  T !! Q = Some (l', p') → leaf_at m' l' Q va = leaf_at m l' Q va.
Proof using All.
  revert Q p'. induction l' as [|l' IH]; intros Q p' HQ; cbn [leaf_at].
  - change (Z.of_nat 0) with 0. eapply grow_other; [done|apply PX_range|].
    left. intros ->. congruence.
  - set (j := PX (Z.of_nat (S l')) va).
    assert (Hj : 0 ≤ j < 512) by apply PX_range.
    destruct (decide (Q = P ∧ j = i)) as [[-> ->]|Hne].
    + pose proof grow_entry as [Ev Er]. rewrite Ev, Er, Hinv. by apply leaf_at_empty.
    + rewrite (grow_other Q _ j HQ Hj) by (destruct (decide (Q = P)); [right|left]; tauto).
      destruct (has (ld64 m (pte_at Q j)) PTE_V) eqn:Hv; [|done]. eapply IH. by eapply typed_child.
Qed.
End grow.

(** ** The kernel state around a page table *)

(** The part of the state the page-table code changes. *)
Definition vm_mem (m : mem) (f : Z) (s : kstate) : kstate :=
  set_pmem (λ _, m) (set_freelist (λ _, f) s).

Record vm_inv (root : Z) (s : kstate) (T : typing) (l : list Z) : Prop := {
  vi_typed : typed s.(pmem) root T;
  vi_free : free_pages s l;
  vi_disj P x : T !! P = Some x → P ∉ l }.

(** Only memory and the free list matter. *)
Lemma vm_inv_same root s s' T l :
  s'.(pmem) = s.(pmem) → s'.(freelist) = s.(freelist) → vm_inv root s T l → vm_inv root s' T l.
Proof.
  intros E1 E2 [H1 H2 H3]. split; [by rewrite E1| |done].
  unfold free_pages in *. by rewrite E1, E2.
Qed.

Definition table_byte (T : typing) (y : Z) : Prop := ∃ P x, T !! P = Some x ∧ on_page P y.

(** [s'] has the tables of [s] and some more, taken from the free pages; other
    memory is untouched. *)
Record vm_grow (s : kstate) (T : typing) (l : list Z) (s' : kstate) (T' : typing)
    (l' : list Z) : Prop := {
  vg_state : ∃ m f, s' = vm_mem m f s;
  vg_sub : T ⊆ T';
  vg_used : ∃ used, l = used ++ l' ∧
    ∀ P x, T' !! P = Some x → T !! P = Some x ∨ P ∈ used;
  vg_frame y : ¬ table_byte T' y → ld8 s'.(pmem) y = ld8 s.(pmem) y }.

Lemma vm_grow_refl s T l : vm_grow s T l s T l.
Proof.
  split; [|done| |done].
  - by exists s.(pmem), s.(freelist).
  - exists []. split; [done|]. auto.
Qed.

Lemma vm_grow_trans s1 T1 l1 s2 T2 l2 s3 T3 l3 :
  vm_grow s1 T1 l1 s2 T2 l2 → vm_grow s2 T2 l2 s3 T3 l3 → vm_grow s1 T1 l1 s3 T3 l3.
Proof.
  intros [(m & f & ->) S1 (u1 & -> & U1) F1] [(m' & f' & ->) S2 (u2 & -> & U2) F2].
  split.
  - by exists m', f'.
  - by transitivity T2.
  - exists (u1 ++ u2). split; [by rewrite (assoc_L (++))|].
    intros P x HP. rewrite elem_of_app. destruct (U2 P x HP) as [H2|]; [|tauto].
    destruct (U1 P x H2); tauto.
  - intros y Hy. rewrite F2 by done. apply F1. intros (P & x & HP & Hon). apply Hy.
    exists P, x. split; [|done]. by eapply lookup_weaken.
Qed.

Lemma on_page_disj P Q y : page_ok P → page_ok Q → on_page P y → on_page Q y → P = Q.
Proof.
  intros HP HQ H1 H2. destruct (decide (P = Q)); [done|].
  destruct (pages_disj _ _ HP HQ); [done|..]; unfold on_page in *; lia.
Qed.

(** One table page more, below the entry [i] of [P]. *)
Lemma vm_grow_table root s T l r P level pre i :
  vm_inv root s T (r :: l) → T !! P = Some (S level, pre) → 0 ≤ i < 512 →
  has (ld64 s.(pmem) (pte_at P i)) PTE_V = false →
  let s' := set_pmem (λ m, st64 (memset m r 0 PGSIZE) (pte_at P i) (Z.lor (PA2PTE r) PTE_V))
              (kalloced r l s) in
  let T' := <[r := (level, pre * 512 + i)]> T in
  vm_grow s T (r :: l) s' T' l ∧ vm_inv root s' T' l ∧
  (∀ va, leaf s'.(pmem) root va = leaf s.(pmem) root va) ∧
  (∀ Q x y, T !! Q = Some x → Q ≠ P → on_page Q y → ld8 s'.(pmem) y = ld8 s.(pmem) y) ∧
  ld64 s'.(pmem) (pte_at P i) = Z.lor (PA2PTE r) PTE_V.
Proof.
  intros [HT Hf Hd] HP Hi Hv s' T'.
  pose proof Hf as [(_ & Hrok & Hc) Hnd]. apply NoDup_cons in Hnd as [Hrl Hnd].
  assert (Hr : T !! r = None).
  { destruct (T !! r) eqn:E; [|done]. destruct (Hd _ _ E). by left. }
  assert (HPr : P ≠ r) by congruence.
  pose proof (typed_page _ _ _ HT _ _ HP) as HPok.
  pose proof (pte_on_page P i Hi) as HPi.
  pose proof (pages_disj _ _ HPok Hrok HPr) as Hdisj.
  assert (Hout : ∀ y, ¬ on_page r y → y < pte_at P i ∨ pte_at P i + 8 ≤ y →
    ld8 s'.(pmem) y = ld8 s.(pmem) y).
  { intros y Hy Hy'. cbn. unfold on_page in Hy.
    rewrite ld8_st64_ne, !ld8_memset by done. by rewrite !decide_False by tauto. }
  assert (Hzero : ∀ y, on_page r y → ld8 s'.(pmem) y = 0).
  { intros y Hy. cbn. unfold on_page in Hy.
    rewrite ld8_st64_ne, ld8_memset by lia. by rewrite decide_True. }
  assert (He : ld64 s'.(pmem) (pte_at P i) = Z.lor (PA2PTE r) PTE_V).
  { cbn. rewrite ld64_st64_eq. destruct (page_ok_56 _ Hrok).
    apply entry_u64; [done|]. unfold PTE_V. lia. }
  pose proof (typed_grow s.(pmem) s'.(pmem) root T P r level pre i
                HT HP Hi Hv Hr Hrok Hzero He Hout) as HT'.
  split; [split|split; [split|split; [|split]]].
  - by exists s'.(pmem), s'.(freelist).
  - by apply insert_subseteq.
  - exists [r]. split; [done|]. intros Q x. unfold T'. rewrite lookup_insert_Some.
    intros [[<- _]|[_ ?]]; [right; by left|by left].
  - intros y Hy. apply Hout.
    + intros Hon. apply Hy. exists r, (level, pre * 512 + i). split; [apply lookup_insert_eq|exact Hon].
    + destruct (decide (on_page P y)) as [Hon|]; [|unfold on_page in *; lia].
      destruct Hy. exists P, (S level, pre). split; [|exact Hon].
      unfold T'. rewrite lookup_insert_ne by congruence. exact HP.
  - exact HT'.
  - split; [|exact Hnd]. change (s'.(freelist)) with (hd0 l).
    rewrite <- (chain_hd _ _ _ Hc). apply (chain_ext s.(pmem)); [|exact Hc].
    intros p y Hp Hy.
    assert (Hpok : page_ok p) by (exact (proj1 (Forall_forall _ _) (chain_pages _ _ _ Hc) p Hp)).
    apply Hout.
    + intros Hon. pose proof (on_page_disj _ _ _ Hpok Hrok Hy Hon). congruence.
    + assert (HPp : P ≠ p) by (intros ->; apply (Hd _ _ HP); by right).
      destruct (pages_disj _ _ HPok Hpok HPp); unfold on_page in *; lia.
  - intros Q x. unfold T'. rewrite lookup_insert_Some. intros [[<- _]|[_ HQ]]; [done|].
    intros Hin. apply (Hd _ _ HQ). by right.
  - intros va. exact (leaf_at_grow s.(pmem) s'.(pmem) root T P r level pre i
      HT HP Hi Hv Hr Hrok Hzero He Hout 2 root 0 va (typed_root _ _ _ HT)).
  - intros Q x y HQ HQP Hon. pose proof (typed_page _ _ _ HT _ _ HQ) as HQok.
    apply Hout.
    + intros Hon'. pose proof (on_page_disj _ _ _ HQok Hrok Hon Hon'). congruence.
    + destruct (pages_disj _ _ HQok HPok HQP); unfold on_page in *; lia.
  - exact He.
Qed.

(** ** walk *)

Lemma walk_loop_find level P va s :
  walk_loop level P va false s = Done (slot_at s.(pmem) level P va) s.
Proof.
  revert P. induction level as [|level IH]; intros P; cbn [walk_loop slot_at]; [done|].
  unfold get_pte. mnext. destruct (has _ _); [apply IH|done].
Qed.

Lemma walk_find root va s :
  va < MAXVA → walk root va false s = Done (slot_at s.(pmem) 2 root va) s.
Proof.
  intros H. unfold walk. destruct (MAXVA <=? va) eqn:E; bool_hyps; [lia|].
  apply walk_loop_find.
Qed.

(** The result of a walk that may allocate: all translations are as before, and
    unless memory ran out the entry's slot is there.  It takes at most
    [c] pages, and memory has run out only if it had fewer. *)
Definition walked (root : Z) (level c : nat) (P va : Z) (s : kstate) (T : typing) (l : list Z)
    (a : Z) (s' : kstate) : Prop :=
  ∃ T' l', vm_grow s T l s' T' l' ∧ vm_inv root s' T' l' ∧
    (∀ va', leaf s'.(pmem) root va' = leaf s.(pmem) root va') ∧
    (∀ Q l0 p y, T !! Q = Some (l0, p) → (level < l0)%nat → on_page Q y →
       ld8 s'.(pmem) y = ld8 s.(pmem) y) ∧
    ((a = 0 ∧ l' = [] ∧ (length l < c)%nat) ∨
     (a ≠ 0 ∧ slot_at s'.(pmem) level P va = a ∧ (length l ≤ length l' + c)%nat)).

Lemma ld64_on_page m m' P i :
  0 ≤ i < 512 → (∀ y, on_page P y → ld8 m' y = ld8 m y) →
  ld64 m' (pte_at P i) = ld64 m (pte_at P i).
Proof.
  intros Hi H. apply ld64_ext. intros k Hk. apply H.
  pose proof (pte_on_page P i Hi). unfold on_page. lia.
Qed.

(** Walking down an existing entry. *)
Lemma walked_down root level c c' P va s T l a s' : (c ≤ c')%nat →
  T !! P = Some (S level, pre_of (S (S level)) va) →
  has (ld64 s.(pmem) (pte_at P (PX (Z.of_nat (S level)) va))) PTE_V = true →
  walked root level c (PTE2PA (ld64 s.(pmem) (pte_at P (PX (Z.of_nat (S level)) va)))) va s T l a s' →
  walked root (S level) c' P va s T l a s'.
Proof.
  intros Hcc HP Hv (T' & l' & Hg & Hi & Hl & Hup & Ha). exists T', l'.
  split; [done|]. split; [done|]. split; [done|]. split.
  - intros Q l0 p y HQ Hlt. eapply Hup; [done|lia].
  - destruct Ha as [(Ha & Hl0 & Hn)|(Ha0 & Ha & Hn)]; [left; split_and!; done || lia|right]. split; [done|]. split; [|lia]. cbn [slot_at].
    rewrite (ld64_on_page s.(pmem)), Hv; [done|apply PX_range|].
    intros y. eapply Hup; [done|lia].
Qed.

Lemma walked_trans root level c P va s T l s1 T1 l1 a s' :
  vm_grow s T l s1 T1 l1 → (length l ≤ S (length l1))%nat →
  (∀ va', leaf s1.(pmem) root va' = leaf s.(pmem) root va') →
  (∀ Q l0 p y, T !! Q = Some (l0, p) → (level < l0)%nat → on_page Q y →
       ld8 s1.(pmem) y = ld8 s.(pmem) y) →
  walked root level c P va s1 T1 l1 a s' → walked root level (S c) P va s T l a s'.
Proof.
  intros Hg Hn Hl Hup (T' & l' & Hg' & Hi & Hl' & Hup' & Ha). exists T', l'.
  split; [by eapply vm_grow_trans|]. split; [done|]. split; [by intros va'; rewrite Hl', Hl|].
  split.
  - intros Q l0 p y HQ Hlt Hon. rewrite (Hup' Q l0 p), (Hup Q l0 p); try done.
    eapply lookup_weaken; [done|apply Hg].
  - destruct Ha as [(Ha & Hl0 & Hc)|(Ha0 & Ha & Hc)]; [left|right]; split_and!; done || lia.
Qed.

Lemma set_pmem_set_pmem g h s : set_pmem g (set_pmem h s) = set_pmem (λ m, g (h m)) s.
Proof. reflexivity. Qed.

Lemma walk_loop_alloc root level P va s T l :
  cpu_ok s → lock_free LkKmem s → vm_inv root s T l →
  T !! P = Some (level, pre_of (S level) va) →
  ∃ a s', walk_loop level P va true s = Done a s' ∧ walked root level level P va s T l a s'.
Proof.
  revert P s T l. induction level as [|level IH]; intros P s T l Hs Hl HI HP; cbn [walk_loop].
  - exists (pte_at P (PX 0 va)), s. split; [done|]. exists T, l.
    split; [apply vm_grow_refl|]. split; [done|]. split; [done|]. split; [done|]. right.
    split; [|split; [done|lia]]. apply (typed_page _ _ _ (vi_typed _ _ _ _ HI)), page_ok_pos in HP.
    pose proof (PX_range 0 va). unfold pte_at. lia.
  - set (i := PX (Z.of_nat (S level)) va).
    assert (Hi : 0 ≤ i < 512) by apply PX_range.
    unfold get_pte. mnext. destruct (has (ld64 s.(pmem) (pte_at P i)) PTE_V) eqn:Hv.
    + destruct (IH (PTE2PA (ld64 s.(pmem) (pte_at P i))) s T l) as (a & s' & E & HW); try done.
      { rewrite <- (PX_pre (S level)). by eapply typed_child; [apply HI|..]. }
      exists a, s'. split; [exact E|]. by apply (walked_down _ _ level); [lia|..].
    + cbn [negb]. destruct l as [|r l].
      * mstep (kalloc_empty s Hs Hl (vi_free _ _ _ _ HI)). exists 0, s. split; [done|].
        exists T, []. split; [apply vm_grow_refl|]. split; [done|]. split; [done|].
        split; [done|]. left. split_and!; [done..|cbn; lia].
      * mstep (kalloc_pops s r l Hs Hl (vi_free _ _ _ _ HI)).
        assert (Hrok : page_ok r) by apply (vi_free _ _ _ _ HI).
        assert (E0 : (r =? 0) = false) by (apply Z.eqb_neq; apply page_ok_pos in Hrok; lia).
        rewrite E0. unfold mem_set, set_pte. do 2 mnext.
        destruct (vm_grow_table root s T l r P level _ i HI HP Hi Hv) as (Hg & HI' & Hlf & Hup & He).
        rewrite set_pmem_set_pmem. cbv zeta in Hg, HI', Hlf, Hup, He.
        set (s1 := set_pmem _ (kalloced r l s)) in *.
        set (T1 := <[r := _]> T) in *.
        assert (Hr1 : T1 !! r = Some (level, pre_of (S level) va)).
        { unfold T1. rewrite lookup_insert_eq. by rewrite <- (PX_pre (S level)). }
        destruct (IH r s1 T1 l Hs Hl HI' Hr1) as (a & s' & E & HW).
        exists a, s'. split; [exact E|].
        apply (walked_trans _ _ level _ _ _ _ _ s1 T1 l); [done|done|done| |].
        { intros Q l0 p y HQ Hlt. eapply Hup; [done|]. intros ->. rewrite HP in HQ.
          injection HQ as <- <-. lia. }
        apply (walked_down _ _ level); [done|..].
        { eapply lookup_weaken; [exact HP|apply Hg]. }
        { fold i. rewrite He. apply has_lor_V. }
        { fold i. rewrite He. destruct (page_ok_56 _ Hrok).
          rewrite PTE2PA_PA2PTE; [done..|]. unfold PTE_V. lia. }
Qed.

Lemma walk_alloc root va s T l :
  cpu_ok s → lock_free LkKmem s → vm_inv root s T l → 0 ≤ va < MAXVA →
  ∃ a s', walk root va true s = Done a s' ∧ walked root 2 2 root va s T l a s'.
Proof.
  intros Hs Hl HI Hva. unfold walk. destruct (MAXVA <=? va) eqn:E; bool_hyps; [lia|].
  apply walk_loop_alloc; [done..|]. rewrite pre_root by done. apply HI.
Qed.

(** ** Changing a leaf entry *)

Lemma vm_set_leaf root s T l va v :
  vm_inv root s T l → 0 ≤ va < MAXVA → slot_at s.(pmem) 2 root va ≠ 0 →
  let s' := set_pmem (λ m, st64 m (slot_at s.(pmem) 2 root va) v) s in
  vm_grow s T l s' T l ∧ vm_inv root s' T l ∧
  ∀ va', 0 ≤ va' < MAXVA →
    leaf s'.(pmem) root va' =
      if decide (pre_of 0 va' = pre_of 0 va) then u64 v else leaf s.(pmem) root va'.
Proof.
  intros [HT Hf Hd] Hva Hs s'.
  assert (HR : T !! root = Some (2%nat, pre_of 3 va)) by (rewrite pre_root by done; apply HT).
  destruct (slot_typed _ _ _ _ _ _ HT HR Hs) as (Q & HQ & E).
  pose proof (typed_page _ _ _ HT _ _ HQ) as HQok.
  pose proof (pte_on_page Q _ (PX_range 0 va)) as HQi.
  split; [split|split; [split|]].
  - by exists s'.(pmem), s'.(freelist).
  - done.
  - exists []. split; [done|]. auto.
  - intros y Hy. apply ld8_st64_ne. rewrite E.
    destruct (decide (on_page Q y)) as [Hon|]; [|unfold on_page in *; lia].
    destruct Hy. by exists Q, (0%nat, pre_of 1 va).
  - exact (proj1 (leaf_set _ _ _ va v va HT Hva Hva Hs)).
  - eapply free_pages_frame; [exact HQok|by eapply Hd| |done].
    intros y Hy. apply ld8_st64_ne. rewrite E. unfold on_page in Hy. lia.
  - done.
  - intros va' Hva'. exact (proj2 (leaf_set _ _ _ va v va' HT Hva Hva' Hs)).
Qed.

Lemma leaf_slot_ne root s T l va :
  vm_inv root s T l → 0 ≤ va < MAXVA → leaf s.(pmem) root va ≠ 0 → slot_at s.(pmem) 2 root va ≠ 0.
Proof.
  intros HI Hva Hl Hs. apply Hl. eapply leaf_at_no_slot; [apply HI| |done].
  rewrite pre_root by done. apply HI.
Qed.

(** ** mappages *)

(** The entry mappages stores for [va] when it maps a range from [a] to [pa]. *)
Definition mapped_pte (a pa perm va : Z) : Z :=
  Z.lor (Z.lor (PA2PTE (pa + (va - a) / PGSIZE * PGSIZE)) perm) PTE_V.

Lemma mapped_pte_u64 pa perm : 0 ≤ pa < 2 ^ 56 → 0 ≤ perm < 1024 →
  u64 (Z.lor (Z.lor (PA2PTE pa) perm) PTE_V) = Z.lor (Z.lor (PA2PTE pa) perm) PTE_V.
Proof.
  intros Hpa Hperm. rewrite <- Z.lor_assoc. apply entry_u64; [done|].
  change 1024 with (2 ^ 10). apply lor_range; unfold PTE_V; lia.
Qed.

Lemma pre0_same a va : a mod PGSIZE = 0 → pre_of 0 va = pre_of 0 a ↔ a ≤ va < a + PGSIZE.
Proof.
  intros Ha. unfold pre_of, lvl_shift. change (12 + 9 * Z.of_nat 0) with 12.
  rewrite !Z.shiftr_div_pow2 by lia. change (2 ^ 12) with 4096. unfold PGSIZE in *. mlia.
Qed.

Definition pages_mapped (root a pa perm : Z) (k : Z) (s s' : kstate) : Prop :=
  ∀ va, 0 ≤ va < MAXVA →
    leaf s'.(pmem) root va =
      if decide (a ≤ va < a + k * PGSIZE) then mapped_pte a pa perm va
      else leaf s.(pmem) root va.

(** One round: either memory for tables ran out, or the page's entry is set. *)
Lemma map_one root a v s T l :
  cpu_ok s → lock_free LkKmem s → vm_inv root s T l → a mod PGSIZE = 0 → 0 ≤ a < MAXVA →
  ∃ sl s1 T1 l1, walk root a true s = Done sl s1 ∧
    ((sl = 0 ∧ vm_grow s T l s1 T1 l1 ∧ vm_inv root s1 T1 l1 ∧ (l1 = [] ∧ (length l < 2)%nat) ∧
      ∀ va, leaf s1.(pmem) root va = leaf s.(pmem) root va) ∨
     (sl ≠ 0 ∧ (ld64 s1.(pmem) sl = leaf s.(pmem) root a ∧ (length l ≤ length l1 + 2)%nat) ∧
      let s2 := set_pmem (λ m, st64 m sl v) s1 in
      vm_grow s T l s2 T1 l1 ∧ vm_inv root s2 T1 l1 ∧
      ∀ va, 0 ≤ va < MAXVA →
        leaf s2.(pmem) root va =
          if decide (a ≤ va < a + PGSIZE) then u64 v else leaf s.(pmem) root va)).
Proof.
  intros Hs Hl HI Ha Hva.
  destruct (walk_alloc root a s T l Hs Hl HI Hva)
    as (sl & s1 & E1 & T1 & l1 & Hg & HI1 & Hlf & _ & Hsl).
  exists sl, s1, T1, l1. split; [done|]. destruct Hsl as [(-> & -> & Hn)|(Hne & Hsl & Hn)]; [by left|right].
  split; [done|]. split.
  { split; [|exact Hn]. rewrite <- Hlf. unfold leaf. rewrite leaf_at_slot; rewrite Hsl; done. }
  subst sl. destruct (vm_set_leaf root s1 T1 l1 a v HI1 Hva Hne) as (Hg2 & HI2 & Hlf2).
  split; [by eapply vm_grow_trans|]. split; [done|]. intros va Hv. rewrite Hlf2, Hlf by done.
  pose proof (pre0_same a va Ha). repeat case_decide; tauto.
Qed.

Lemma pages_mapped_step root a pa perm k s s1 s' :
  a mod PGSIZE = 0 → 0 ≤ k →
  (∀ va, 0 ≤ va < MAXVA → leaf s1.(pmem) root va =
     if decide (a ≤ va < a + PGSIZE) then Z.lor (Z.lor (PA2PTE pa) perm) PTE_V
     else leaf s.(pmem) root va) →
  pages_mapped root (a + PGSIZE) (pa + PGSIZE) perm k s1 s' →
  pages_mapped root a pa perm (k + 1) s s'.
Proof.
  intros Ha Hk H1 H2 va Hva. rewrite H2, H1 by done. unfold mapped_pte, PGSIZE in *.
  repeat case_decide; try lia; try done; do 3 f_equal; mlia.
Qed.

Lemma vm_grow_ok s T l s' T' l' : vm_grow s T l s' T' l' → cpu_ok s → lock_free LkKmem s →
  cpu_ok s' ∧ lock_free LkKmem s'.
Proof. intros [(m & f & ->) _ _ _] Hs Hl. exact (conj Hs Hl). Qed.

Lemma mappages_loop_S n pagetable a last pa perm :
  mappages_loop (S n) pagetable a last pa perm =
    (pte ← walk pagetable a true;
     if pte =? 0 then mret (-1) else
     v ← get_pte pte;
     if has v PTE_V then panic "mappages: remap" else
     set_pte pte (Z.lor (Z.lor (PA2PTE pa) perm) PTE_V) ;;
     if a =? last then mret 0
     else mappages_loop n pagetable (u64 (a + PGSIZE)) last (u64 (pa + PGSIZE)) perm).
Proof. done. Qed.

(** Mapping [n] pages takes at most two pages for tables each, and fails only
    if it had fewer. *)
Definition took (l l' : list Z) (r : Z) (n : nat) : Prop :=
  (length l ≤ length l' + 2 * n)%nat ∧ (r = -1 → (length l < 2 * n)%nat).

Lemma mappages_loop_done n root a pa perm s T l :
  cpu_ok s → lock_free LkKmem s → vm_inv root s T l →
  a mod PGSIZE = 0 → 0 ≤ a → a + Z.of_nat (S n) * PGSIZE ≤ MAXVA →
  0 ≤ pa → pa + Z.of_nat (S n) * PGSIZE ≤ 2 ^ 56 → 0 ≤ perm < 1024 →
  (∀ va, a ≤ va < a + Z.of_nat (S n) * PGSIZE → has (leaf s.(pmem) root va) PTE_V = false) →
  ∃ r s' T' l' k,
    mappages_loop (S n) root a (a + Z.of_nat n * PGSIZE) pa perm s = Done r s' ∧
    vm_grow s T l s' T' l' ∧ vm_inv root s' T' l' ∧ pages_mapped root a pa perm k s s' ∧
    ((r = 0 ∧ k = Z.of_nat (S n)) ∨ (r = -1 ∧ l' = [] ∧ 0 ≤ k ≤ Z.of_nat n)) ∧ took l l' r (S n).
Proof.
  revert a pa s T l. induction n as [|n IH];
    intros a pa s T l Hs Hl HI Ha Ha0 Hmax Hpa0 Hpa Hperm Hun.
  all: rewrite !Nat2Z.inj_succ in *; 
    assert (Hva : 0 ≤ a < MAXVA) by pg;
    destruct (map_one root a (Z.lor (Z.lor (PA2PTE pa) perm) PTE_V) s T l Hs Hl HI Ha Hva)
      as (sl & s1 & T1 & l1 & E1 & [(-> & Hg & HI1 & [Hl1 Htk] & Hlf)|(Hne & [Hld Htk] & Hg & HI1 & Hlf)]);
    rewrite mappages_loop_S; mstep E1.
  - exists (-1), s1, T1, l1, 0. do 3 (split; [done|]). split; [|split; [right; split; [done|]; split; [done|]; lia|unfold took; lia]].
    intros va Hv. rewrite Hlf, decide_False by lia. done.
  - rewrite (proj2 (Z.eqb_neq _ _) Hne). unfold get_pte, set_pte. mnext. rewrite Hld, Hun by pg.
    mnext. rewrite (proj2 (Z.eqb_eq a (a + Z.of_nat 0 * PGSIZE))) by lia.
    eexists 0, _, T1, l1, 1. split; [done|]. split; [done|]. split; [done|]. split; [|split; [left; lia|unfold took; lia]].
    intros va Hv. rewrite Hlf, mapped_pte_u64 by (done || pg).
    unfold mapped_pte, PGSIZE. repeat case_decide; try lia; try done. do 3 f_equal. mlia.
  - exists (-1), s1, T1, l1, 0. do 3 (split; [done|]). split; [|split; [right; split; [done|]; split; [done|]; lia|unfold took; lia]].
    intros va Hv. rewrite Hlf, decide_False by lia. done.
  - rewrite (proj2 (Z.eqb_neq _ _) Hne). unfold get_pte, set_pte. mnext. rewrite Hld, Hun by pg.
    mnext. rewrite (proj2 (Z.eqb_neq a (a + Z.succ (Z.of_nat n) * PGSIZE))) by pg.
    rewrite !u64_small by pg.
    destruct (vm_grow_ok _ _ _ _ _ _ Hg Hs Hl) as [Hs2 Hl2]. cbv zeta in Hg, HI1, Hlf.
    set (s2 := set_pmem _ s1) in *. rewrite mapped_pte_u64 in Hlf by (done || pg).
    destruct (IH (a + PGSIZE) (pa + PGSIZE) s2 T1 l1 Hs2 Hl2 HI1)
      as (r & s' & T' & l' & k & E & Hg' & HI' & Hm & Hr & Htk'); try pg.
    { intros va Hv. rewrite Hlf, decide_False, Hun
        by pg. done. }
    exists r, s', T', l', (k + 1). split.
    { replace (a + Z.succ (Z.of_nat n) * PGSIZE) with (a + PGSIZE + Z.of_nat n * PGSIZE) by pg.
      exact E. }
    split; [by eapply vm_grow_trans|]. split; [done|]. split.
    + eapply pages_mapped_step; try done. lia.
    + split; [|unfold took in *; lia]. destruct Hr as [[-> ->]|(-> & -> & ?)]; [left|right]; repeat split; lia.
Qed.

Lemma mappages_done root va size pa perm s T l :
  cpu_ok s → lock_free LkKmem s → vm_inv root s T l →
  va mod PGSIZE = 0 → size mod PGSIZE = 0 → 0 < size → 0 ≤ va → va + size ≤ MAXVA →
  0 ≤ pa → pa + size ≤ 2 ^ 56 → 0 ≤ perm < 1024 →
  (∀ a, va ≤ a < va + size → has (leaf s.(pmem) root a) PTE_V = false) →
  ∃ r s' T' l' k,
    mappages root va size pa perm s = Done r s' ∧
    vm_inv root s' T' l' ∧ vm_grow s T l s' T' l' ∧ pages_mapped root va pa perm k s s' ∧
    ((r = 0 ∧ k * PGSIZE = size) ∨ (r = -1 ∧ l' = [] ∧ 0 ≤ k ∧ k * PGSIZE < size)) ∧
    took l l' r (Z.to_nat (size / PGSIZE)).
Proof.
  intros Hs Hl HI Ha Hsz Hsz0 Hva Hmax Hpa Hpa' Hperm Hun.
  destruct (Z.to_nat (size / PGSIZE)) as [|n] eqn:En; [pg|].
  assert (E : size = Z.of_nat (S n) * PGSIZE) by pg.
  destruct (mappages_loop_done n root va pa perm s T l) as (r & s' & T' & l' & k & H1 & H2 & H3 & H4 & H5 & H6);
    rewrite <- ?E; try done.
  exists r, s', T', l', k. split.
  2:{ do 3 (split; [done|]). split; [|exact H6]. destruct H5 as [[-> ->]|(-> & -> & ?)]; [left|right];
      repeat split; pg. }
  unfold mappages. rewrite Ha, Hsz, En. cbn [Z.eqb negb].
  rewrite (proj2 (Z.eqb_neq size 0)) by lia. rewrite <- H1. f_equal. rewrite u64_small; pg.
Qed.

(** C7. Mapping unmapped, aligned pages either succeeds, and then exactly the
    pages of the range translate to the given physical pages with the given
    permissions, or fails because no page was left for a table, and then only
    a prefix of them does.  Either way every other translation is as before,
    the tables stay a tree disjoint from the free pages, and no byte outside
    the tables changes. *)
Theorem mappages_maps root va size pa perm s T l :
  cpu_ok s → lock_free LkKmem s → vm_inv root s T l →
  va mod PGSIZE = 0 → size mod PGSIZE = 0 → 0 < size → 0 ≤ va → va + size ≤ MAXVA →
  0 ≤ pa → pa + size ≤ 2 ^ 56 → 0 ≤ perm < 1024 →
  (∀ a, va ≤ a < va + size → has (leaf s.(pmem) root a) PTE_V = false) →
  ∃ r s' T' l' k,
    mappages root va size pa perm s = Done r s' ∧
    vm_inv root s' T' l' ∧ vm_grow s T l s' T' l' ∧ pages_mapped root va pa perm k s s' ∧
    ((r = 0 ∧ k * PGSIZE = size) ∨ (r = -1 ∧ l' = [] ∧ 0 ≤ k ∧ k * PGSIZE < size)).
Proof.
  intros. destruct (mappages_done root va size pa perm s T l) as (r & s' & T' & l' & k & E & HI & Hg & Hp & Hr & _); [done..|].
  exists r, s', T', l', k. done.
Qed.

(** ** uvmunmap *)

Lemma has_zero f : has 0 f = false.
Proof. done. Qed.

(** The physical pages the valid entries of [n] pages from [a] point to. *)
Fixpoint frames (m : mem) (root a : Z) (n : nat) : list Z :=
  match n with
  | O => []
  | S n =>
      let v := leaf m root a in
      (if has v PTE_V then [PTE2PA v] else []) ++ frames m root (a + PGSIZE) n
  end.

Lemma frames_ext m m' root a n :
  (∀ va, a ≤ va < a + Z.of_nat n * PGSIZE → leaf m' root va = leaf m root va) →
  frames m' root a n = frames m root a n.
Proof.
  revert a. induction n as [|n IH]; intros a H; cbn [frames]; [done|].
  rewrite (H a) by pg. f_equal. apply IH. intros va Hv. apply H. pg.
Qed.

(** Giving a page that is no table back to the allocator. *)
Lemma vm_kfree root s T l pa :
  vm_inv root s T l → page_ok pa → pa ∉ l → T !! pa = None →
  vm_inv root (kfreed pa s) T (pa :: l) ∧
  (∀ va, leaf (kfreed pa s).(pmem) root va = leaf s.(pmem) root va) ∧
  (∀ va, slot_at (kfreed pa s).(pmem) 2 root va = slot_at s.(pmem) 2 root va).
Proof.
  intros [HT Hf Hd] Hok Hin HnT.
  assert (Hm : ∀ P x y, T !! P = Some x → on_page P y →
             ld8 (kfreed pa s).(pmem) y = ld8 s.(pmem) y).
  { intros P x y HP Hon. apply junk_next_out. intros Hon'.
    pose proof (on_page_disj _ _ _ (typed_page _ _ _ HT _ _ HP) Hok Hon Hon'). congruence. }
  split; [split|split].
  - by eapply typed_ext.
  - by apply free_pages_kfreed.
  - intros P x HP [->|Hin']%elem_of_cons; [congruence|]. by eapply Hd.
  - intros va. eapply leaf_at_ext; [done|apply HT|done].
  - intros va. eapply slot_at_ext; [done|apply HT|done].
Qed.

(** The valid entries of [n] pages from [a] are gone, the others unchanged. *)
Definition pages_unmapped (root a n : Z) (s s' : kstate) : Prop :=
  ∀ va, 0 ≤ va < MAXVA →
    leaf s'.(pmem) root va =
      if decide (a ≤ va < a + n * PGSIZE ∧ has (leaf s.(pmem) root va) PTE_V = true) then 0
      else leaf s.(pmem) root va.

Lemma pages_unmapped_set root a s s' :
  a mod PGSIZE = 0 → has (leaf s.(pmem) root a) PTE_V = true →
  (∀ va, 0 ≤ va < MAXVA → leaf s'.(pmem) root va =
     if decide (pre_of 0 va = pre_of 0 a) then 0 else leaf s.(pmem) root va) →
  pages_unmapped root a 1 s s'.
Proof.
  intros Ha Hv H va Hva. rewrite H by done. pose proof (pre0_same a va Ha) as Hp.
  destruct (decide (pre_of 0 va = pre_of 0 a)) as [E|E].
  - rewrite decide_True; [done|]. split; [pg|]. unfold leaf in *. by rewrite (leaf_at_page _ _ _ _ _ E).
  - rewrite decide_False; [done|]. intros [? _]. pg.
Qed.

Lemma pages_unmapped_skip root a s :
  a mod PGSIZE = 0 → has (leaf s.(pmem) root a) PTE_V = false → pages_unmapped root a 1 s s.
Proof.
  intros Ha Hv va Hva. pose proof (pre0_same a va Ha) as Hp. case_decide as Hd; [|done].
  destruct Hd as [Hd1 Hd2]. unfold leaf in *.
  rewrite (leaf_at_page _ _ _ va a) in Hd2 by (apply Hp; pg). congruence.
Qed.

Lemma pages_unmapped_trans root a n s s1 s' :
  0 ≤ n → pages_unmapped root a 1 s s1 → pages_unmapped root (a + PGSIZE) n s1 s' →
  pages_unmapped root a (n + 1) s s'.
Proof.
  intros Hn H1 H2 va Hva. rewrite H2, H1 by done.
  set (b := has (leaf s.(pmem) root va) PTE_V).
  destruct (decide (a ≤ va < a + 1 * PGSIZE ∧ b = true)) as [Hd|Hd].
  - rewrite has_zero. rewrite decide_False by (by intros [_ ?]). rewrite decide_True; [done|].
    split; [pg|tauto].
  - fold b. destruct b; [|by rewrite !decide_False by (by intros [_ ?])].
    assert (Hd' : ¬ (a ≤ va < a + 1 * PGSIZE)) by tauto.
    destruct (decide (a + PGSIZE ≤ va < a + PGSIZE + n * PGSIZE)).
    + rewrite !decide_True; [done|split; [pg|done]..].
    + rewrite !decide_False; [done|intros [? _]; pg..].
Qed.

Definition freed (do_free : bool) (v : Z) : list Z :=
  if has v PTE_V && do_free then [PTE2PA v] else [].

(** Pages [kfree] accepts: not free already and no tables. *)
Definition owned (T : typing) (l : list Z) (pa : Z) : Prop :=
  page_ok pa ∧ T !! pa = None ∧ pa ∉ l.

(** Such pages, and memory that is neither, keep their contents. *)
Definition untouched (T : typing) (l : list Z) (s s' : kstate) : Prop :=
  ∀ P y, owned T l P → on_page P y → ld8 s'.(pmem) y = ld8 s.(pmem) y.

Lemma untouched_grow root s T l s' T' l' :
  vm_inv root s' T' l' → vm_grow s T l s' T' l' → untouched T l s s'.
Proof.
  intros HI [_ _ (used & -> & Hu) Hf] P y (HP & HT & Hl) Hy. apply Hf. intros (Q & x & HQ & HyQ).
  pose proof (typed_page _ _ _ (vi_typed _ _ _ _ HI) _ _ HQ) as HQok.
  rewrite <- (on_page_disj _ _ _ HP HQok Hy HyQ) in HQ. destruct (Hu _ _ HQ); [congruence|set_solver].
Qed.

Lemma untouched_kfreed T l s pa : page_ok pa → untouched T (pa :: l) s (kfreed pa s).
Proof.
  intros Hpa P y (HP & _ & Hl) Hy. apply junk_next_out. intros Hy'.
  pose proof (on_page_disj _ _ _ HP Hpa Hy Hy'). set_solver.
Qed.

Lemma untouched_trans T l l' s s1 s' : (∀ P, P ∈ l → P ∈ l') →
  untouched T l s s1 → untouched T l' s1 s' → untouched T l' s s'.
Proof.
  intros Hl H1 H2 P y HP Hy. rewrite (H2 P y HP Hy). apply (H1 P y); [|done].
  destruct HP as (? & ? & HP). split; [done|]. split; [done|]. by intros ?%Hl.
Qed.

Lemma uvmunmap_page_done root a do_free s T l :
  cpu_ok s → lock_free LkKmem s → vm_inv root s T l → a mod PGSIZE = 0 → 0 ≤ a < MAXVA →
  Forall (owned T l) (freed do_free (leaf s.(pmem) root a)) →
  ∃ s', uvmunmap_page root a do_free s = Done () s' ∧
    vm_inv root s' T (freed do_free (leaf s.(pmem) root a) ++ l) ∧
    cpu_ok s' ∧ lock_free LkKmem s' ∧ pages_unmapped root a 1 s s' ∧
    untouched T (freed do_free (leaf s.(pmem) root a) ++ l) s s'.
Proof.
  intros Hs Hl HI Ha Hva. unfold freed. set (v := leaf s.(pmem) root a). intros Hfr.
  pose proof (pages_unmapped_skip root a s Ha) as Hskip. fold v in Hskip.
  unfold uvmunmap_page. mstep (walk_find root a s (proj2 Hva)).
  destruct (slot_at s.(pmem) 2 root a =? 0) eqn:E0; bool_hyps.
  { assert (Ev : v = 0) by (eapply leaf_at_no_slot; [apply HI|rewrite pre_root by done; apply HI|done]).
    rewrite Ev in *. exists s. do 4 (split; [done|]). split; [by apply Hskip|by intros ?]. }
  unfold get_pte, set_pte. mnext.
  assert (Ev : ld64 s.(pmem) (slot_at s.(pmem) 2 root a) = v) by (symmetry; by apply leaf_at_slot).
  rewrite Ev. destruct (has v PTE_V) eqn:Hv; cbn [negb andb] in *.
  2:{ exists s. do 4 (split; [done|]). split; [by apply Hskip|by intros ?]. }
  destruct do_free; cbn [when].
  - apply Forall_cons in Hfr as [(Hok & HnT & Hin) _].
    mstep (kfree_pushes s (PTE2PA v) Hs Hl Hok).
    destruct (vm_kfree root s T l _ HI Hok Hin HnT) as (HI1 & Hlf1 & Esl).
    destruct (vm_set_leaf root (kfreed (PTE2PA v) s) T (PTE2PA v :: l) a 0 HI1 Hva) as (Hg & HI2 & Hlf2).
    { by rewrite Esl. }
    rewrite Esl in *. eexists. split; [reflexivity|]. split; [done|]. split; [done|]. split; [done|]. split.
    + apply pages_unmapped_set; [done..|]. intros va Hv'. by rewrite Hlf2, Hlf1.
    + eapply untouched_trans; [|by apply untouched_kfreed|by eapply untouched_grow]. done.
  - mnext. destruct (vm_set_leaf root s T l a 0 HI Hva E0) as (Hg & HI2 & Hlf2).
    eexists. split; [reflexivity|]. split; [done|]. split; [done|]. split; [done|].
    split; [by apply pages_unmapped_set|by eapply untouched_grow].
Qed.

Definition freed_frames (do_free : bool) (m : mem) (root a : Z) (n : nat) : list Z :=
  if do_free then frames m root a n else [].

Lemma uvmunmap_loop_done n root a do_free s T l :
  cpu_ok s → lock_free LkKmem s → vm_inv root s T l → a mod PGSIZE = 0 → 0 ≤ a →
  a + Z.of_nat n * PGSIZE ≤ MAXVA →
  Forall (owned T l) (freed_frames do_free s.(pmem) root a n) →
  NoDup (freed_frames do_free s.(pmem) root a n) →
  ∃ s', uvmunmap_loop n root a (a + Z.of_nat n * PGSIZE) do_free s = Done () s' ∧
    vm_inv root s' T (reverse (freed_frames do_free s.(pmem) root a n) ++ l) ∧
    pages_unmapped root a (Z.of_nat n) s s' ∧
    untouched T (reverse (freed_frames do_free s.(pmem) root a n) ++ l) s s'.
Proof.
  revert a s l. induction n as [|n IH]; intros a s l Hs Hl HI Ha Ha0 Hmax Hown Hnd.
  - exists s. cbn [uvmunmap_loop]. rewrite (proj2 (Z.leb_le _ _)) by pg. split; [done|].
    split; [by destruct do_free|]. split; [|by intros ?].
    intros va Hva. rewrite decide_False; [done|]. pg.
  - cbn [uvmunmap_loop]. rewrite (proj2 (Z.leb_gt _ _)) by pg.
    assert (Hsplit : freed_frames do_free s.(pmem) root a (S n) =
      freed do_free (leaf s.(pmem) root a) ++ freed_frames do_free s.(pmem) root (a + PGSIZE) n).
    { unfold freed_frames, freed. cbn [frames]. destruct do_free; [by rewrite andb_true_r|].
      by rewrite andb_false_r. }
    rewrite Hsplit in *. apply Forall_app in Hown as [Hown1 Hown2].
    apply NoDup_app in Hnd as (Hnd1 & Hnd & Hnd2).
    destruct (uvmunmap_page_done root a do_free s T l) as (s1 & E1 & HI1 & Hs1 & Hl1 & Hu1 & Hk1); try done.
    { pg. }
    mstep E1. rewrite u64_small by pg.
    assert (Hfr : freed_frames do_free s1.(pmem) root (a + PGSIZE) n =
                  freed_frames do_free s.(pmem) root (a + PGSIZE) n).
    { unfold freed_frames. destruct do_free; [|done]. apply frames_ext. intros va Hv.
      rewrite Hu1 by pg. rewrite decide_False; [done|]. pg. }
    destruct (IH (a + PGSIZE) s1 (freed do_free (leaf s.(pmem) root a) ++ l)) as (s' & E & HI' & Hu & Hk);
      rewrite ?Hfr in *; try done; try pg.
    { apply Forall_forall. intros pa Hpa. rewrite Forall_forall in Hown2.
      destruct (Hown2 pa Hpa) as (Hok & HT & Hl'). split; [done|]. split; [done|].
      rewrite elem_of_app. intros [Hin|?]; [|done]. by apply (Hnd _ Hin). }
    exists s'. split.
    { replace (a + Z.of_nat (S n) * PGSIZE) with (a + PGSIZE + Z.of_nat n * PGSIZE) by pg. done. }
    assert (Hrev : reverse (freed do_free (leaf s.(pmem) root a)) = freed do_free (leaf s.(pmem) root a)).
    { unfold freed. by destruct (_ && _). }
    rewrite reverse_app, Hrev, <- (assoc_L (++)). split; [done|]. split.
    2: { eapply untouched_trans; [|exact Hk1|exact Hk]. intros P HP. apply elem_of_app. by right. }
    + replace (Z.of_nat (S n)) with (Z.of_nat n + 1) by lia.
      by apply (pages_unmapped_trans _ _ _ _ s1); [lia|..].
Qed.

Lemma uvmunmap_done root va npages do_free s T l :
  cpu_ok s → lock_free LkKmem s → vm_inv root s T l →
  va mod PGSIZE = 0 → 0 ≤ va → 0 ≤ npages → va + npages * PGSIZE ≤ MAXVA →
  let fr := freed_frames do_free s.(pmem) root va (Z.to_nat npages) in
  Forall (owned T l) fr → NoDup fr →
  ∃ s', uvmunmap root va npages do_free s = Done () s' ∧
    vm_inv root s' T (reverse fr ++ l) ∧ pages_unmapped root va npages s s' ∧
    untouched T (reverse fr ++ l) s s'.
Proof.
  intros Hs Hl HI Ha Ha0 Hn Hmax fr Hown Hnd. unfold uvmunmap. rewrite Ha. cbn [Z.eqb negb].
  rewrite u64_small by pg.
  destruct (uvmunmap_loop_done (Z.to_nat npages) root va do_free s T l) as (s' & E & HI' & Hu & Hk);
    rewrite ?Z2Nat.id in * by done; try done.
  by exists s'.
Qed.

(** C8. Unmapping a range removes exactly its valid translations; with
    [do_free] the pages they pointed to go back to the allocator, each once,
    and without it the allocator keeps its pages. *)
Theorem uvmunmap_unmaps root va npages do_free s T l :
  cpu_ok s → lock_free LkKmem s → vm_inv root s T l →
  va mod PGSIZE = 0 → 0 ≤ va → 0 ≤ npages → va + npages * PGSIZE ≤ MAXVA →
  let fr := freed_frames do_free s.(pmem) root va (Z.to_nat npages) in
  Forall (owned T l) fr → NoDup fr →
  ∃ s', uvmunmap root va npages do_free s = Done () s' ∧
    vm_inv root s' T (reverse fr ++ l) ∧ pages_unmapped root va npages s s'.
Proof.
  intros Hs Hl HI Ha Ha0 Hn Hmax fr Hown Hnd.
  destruct (uvmunmap_done root va npages do_free s T l Hs Hl HI Ha Ha0 Hn Hmax Hown Hnd) as (s' & E & HI' & Hu & _).
  by exists s'.
Qed.
End vmspec.

(** ** A concrete page table *)

Lemma typed_empty `{Ly : Layout} m root :
  page_ok root → (∀ y, on_page root y → ld8 m y = 0) → typed m root {[root := (2%nat, 0)]}.
Proof.
  intros Hok Hz. split.
  - apply lookup_singleton_eq.
  - intros P x [<- _]%lookup_singleton_Some. done.
  - intros P level pre i [<- _]%lookup_singleton_Some Hi. by rewrite ld64_zero.
Qed.

(** An empty table at 0x80041000 and six free pages. *)
Definition demo_root : Z := 0x80041000.
Definition demo_free : list Z := [0x80042000; 0x80043000; 0x80044000; 0x80047000; 0x80048000; 0x80049000].
Definition demo_state : kstate :=
  set_freelist (λ _, 0x80042000)
    (set_pmem (λ _, st64 (st64 (st64 (st64 (st64 ∅ 0x80042000 0x80043000) 0x80043000 0x80044000)
      0x80044000 0x80047000) 0x80047000 0x80048000) 0x80048000 0x80049000) ready_state).

Lemma demo_zero y : on_page demo_root y → ld8 demo_state.(pmem) y = 0.
Proof.
  unfold on_page, demo_root, PGSIZE. intros Hy. unfold demo_state. cbn [pmem set_freelist set_pmem].
  rewrite !ld8_st64_ne by lia. unfold ld8. by rewrite lookup_empty.
Qed.

Lemma demo_inv : @vm_inv layout64 demo_root demo_state {[demo_root := (2%nat, 0)]} demo_free.
Proof.
  split.
  - apply typed_empty; [by vm_compute|apply demo_zero].
  - split; [by vm_compute|]. apply (bool_decide_unpack _). by vm_compute.
  - intros P x [<- _]%lookup_singleton_Some. apply (bool_decide_unpack _). by vm_compute.
Qed.

Lemma demo_unmapped va : leaf demo_state.(pmem) demo_root va = 0.
Proof. apply leaf_at_empty, demo_zero. Qed.

Lemma demo_ok : cpu_ok demo_state ∧ lock_free LkKmem demo_state.
Proof. split; [exact ready_cpu_ok|by vm_compute]. Qed.

Lemma mappages_maps_witness :
  let F : Fuel := 1%nat in let L := layout64 in
  ∃ r s' k, mappages demo_root 0x1000 0x2000 0x80045000 (Z.lor PTE_R PTE_U) demo_state = Done r s' ∧
    pages_mapped demo_root 0x1000 0x80045000 (Z.lor PTE_R PTE_U) k demo_state s'.
Proof.
  destruct (@mappages_maps 1%nat layout64 demo_root 0x1000 0x2000 0x80045000 (Z.lor PTE_R PTE_U)
              demo_state _ _ (proj1 demo_ok) (proj2 demo_ok) demo_inv)
    as (r & s' & T' & l' & k & H1 & _ & _ & H2 & _);
    [done|done|lia|lia|pg|lia|lia|by vm_compute|intros a _; by rewrite demo_unmapped|].
  exact (ex_intro _ r (ex_intro _ s' (ex_intro _ k (conj H1 H2)))).
Defined.

(** A state in which page 1 is mapped to the frame 0x80045000. *)
Lemma demo_mapped : let F : Fuel := 1%nat in let L := layout64 in
  ∃ s T l, mappages demo_root 0x1000 0x1000 0x80045000
             (Z.lor (Z.lor PTE_R PTE_W) PTE_U) demo_state = Done 0 s ∧
    vm_inv demo_root s T l ∧ cpu_ok s ∧ lock_free LkKmem s ∧
    T !! 0x80045000 = None ∧ ((0x80045000 ∉ l) ∧ (length demo_free ≤ length l + 2)%nat) ∧
    vm_grow demo_state {[demo_root := (2%nat, 0)]} demo_free s T l ∧
    ∀ va, 0 ≤ va < MAXVA → leaf s.(pmem) demo_root va =
      if decide (0x1000 ≤ va < 0x2000) then 0x20011417 else 0.
Proof.
  intros F L.
  destruct (@mappages_loop_done F L 0 demo_root 0x1000 0x80045000 (Z.lor (Z.lor PTE_R PTE_W) PTE_U)
              demo_state _ _ (proj1 demo_ok) (proj2 demo_ok) demo_inv)
    as (r & s & T & l & k & H1 & H2 & H3 & H4 & H5 & [H6 _]);
    [done|lia|pg|lia|pg|by vm_compute|intros a _; by rewrite demo_unmapped|].
  assert (Hr : r = 0).
  { assert (E : match mappages_loop 1 demo_root 0x1000 (0x1000 + Z.of_nat 0 * PGSIZE) 0x80045000
      (Z.lor (Z.lor PTE_R PTE_W) PTE_U) demo_state with Done r _ => r | _ => 1 end = 0)
      by (by vm_compute). by rewrite H1 in E. }
  destruct H5 as [[_ ->]|[-> _]]; [|done]. subst r.
  exists s, T, l. split; [exact H1|]. split; [done|].
  destruct (vm_grow_ok _ _ _ _ _ _ H2 (proj1 demo_ok) (proj2 demo_ok)). split; [done|]. split; [done|].
  destruct (vg_used _ _ _ _ _ _ H2) as (used & Hl & Hu).
  assert (Hd : 0x80045000 ∉ demo_free) by (apply (bool_decide_unpack _); by vm_compute).
  rewrite Hl, elem_of_app in Hd. split; [|split; [split; [tauto|exact H6]|split; [done|]]].
  - destruct (T !! _) eqn:E; [|done]. destruct (Hu _ _ E) as [Hx|Hx]; [|tauto].
    by vm_compute in Hx.
  - intros va Hva. rewrite H4 by done. rewrite demo_unmapped.
    change (0x1000 + Z.of_nat 1 * PGSIZE) with 0x2000. case_decide as Hv; [|done].
    unfold mapped_pte. assert (E : (va - 0x1000) / PGSIZE = 0) by (clear - Hv; pg).
    rewrite E. by vm_compute.
Qed.

Lemma uvmunmap_unmaps_witness :
  let F : Fuel := 1%nat in let L := layout64 in
  ∃ s s' T l, uvmunmap demo_root 0x1000 1 true s = Done () s' ∧
    vm_inv demo_root s' T (0x80045000 :: l) ∧ pages_unmapped demo_root 0x1000 1 s s'.
Proof.
  destruct demo_mapped as (s & T & l & _ & HI & Hs & Hl & HT & [Hin _] & _ & Hlf).
  assert (Hfr : frames s.(pmem) demo_root 0x1000 1 = [0x80045000]).
  { cbn [frames]. rewrite Hlf by pg. by vm_compute. }
  destruct (@uvmunmap_unmaps 1%nat layout64 demo_root 0x1000 1 true s T l Hs Hl HI)
    as (s' & H1 & H2 & H3); [done|lia|lia|pg|..].
  { change (Forall (@owned layout64 T l) (frames s.(pmem) demo_root 0x1000 1)). rewrite Hfr.
    repeat constructor; try done; by vm_compute. }
  { change (NoDup (frames s.(pmem) demo_root 0x1000 1)). rewrite Hfr. apply NoDup_singleton. }
  exists s, s', T, l. split; [exact H1|]. split; [|exact H3].
  change (@vm_inv layout64 demo_root s' T (reverse (frames s.(pmem) demo_root 0x1000 1) ++ l)) in H2.
  by rewrite Hfr in H2.
Defined.
