(* ===== verification/UserMem.v ===== *)
(** User memory through a page table: what [copyin], [copyout] and [copyinstr]
    of vm.c do when the addresses are mapped.

    [ub m root va] is the byte a user program sees at [va]. *)

From S2P Require Import Prelude Cmem KString Kstate Spinlock Sleep Kalloc Vm VmSpec.
Local Open Scope Z_scope.

Section usermem.
Context {Fl : Fuel} {Ly : Layout}.

Definition user_page (m : mem) (root va : Z) : Prop :=
  has (leaf m root va) PTE_V = true ∧ has (leaf m root va) PTE_U = true.

Definition frame (m : mem) (root va : Z) : Z := PTE2PA (leaf m root va).
Definition ub (m : mem) (root va : Z) : Z := ld8 m (frame m root va + va mod PGSIZE).
Definition ubytes (m : mem) (root va : Z) (n : nat) : list Z :=
  (λ i, ub m root (va + Z.of_nat i)) <$> seq 0 n.

(** Distinct user pages have distinct frames, none of them a table, a free page
    or page 0. *)
Record user_space (m : mem) (root : Z) (T : typing) (l : list Z) : Prop := {
  us_frame va : 0 ≤ va < MAXVA → user_page m root va →
    frame m root va ≠ 0 ∧ T !! frame m root va = None ∧ frame m root va ∉ l;
  us_inj va va' : 0 ≤ va < MAXVA → 0 ≤ va' < MAXVA →
    user_page m root va → user_page m root va' →
    frame m root va = frame m root va' → pre_of 0 va = pre_of 0 va' }.

Definition writable (m : mem) (root va : Z) : Prop :=
  user_page m root va ∧ has (leaf m root va) PTE_W = true.

Lemma PTE2PA_aligned v : PTE2PA v mod PGSIZE = 0.
Proof.
  unfold PTE2PA, u64. rewrite Z.shiftl_mul_pow2 by lia. change (2 ^ 12) with 4096.
  unfold PGSIZE. mlia.
Qed.

Lemma PGROUNDDOWN_spec a :
  PGROUNDDOWN a mod PGSIZE = 0 ∧ PGROUNDDOWN a ≤ a < PGROUNDDOWN a + PGSIZE ∧
  a - PGROUNDDOWN a = a mod PGSIZE.
Proof.
  unfold PGROUNDDOWN. change (Z.lnot (PGSIZE - 1)) with (Z.lnot (Z.ones 12)).
  rewrite <- Z.ldiff_land, Z.ldiff_ones_r, Z.shiftl_mul_pow2, Z.shiftr_div_pow2 by lia.
  change (2 ^ 12) with 4096. unfold PGSIZE. mlia.
Qed.

Lemma PGROUNDDOWN_pre a : pre_of 0 (PGROUNDDOWN a) = pre_of 0 a.
Proof.
  symmetry. destruct (PGROUNDDOWN_spec a) as (H1 & H2 & _). by apply pre0_same.
Qed.

Lemma leaf_rounddown m root a : leaf m root (PGROUNDDOWN a) = leaf m root a.
Proof. apply leaf_at_page, PGROUNDDOWN_pre. Qed.

(** The bytes of one page are contiguous in physical memory. *)
Lemma ubytes_chunk m root va k :
  va mod PGSIZE + Z.of_nat k ≤ PGSIZE →
  ubytes m root va k = rd m (frame m root va + va mod PGSIZE) k.
Proof.
  intros Hk. apply list_eq. intros i. unfold ubytes. rewrite list_lookup_fmap.
  destruct (decide (i < k)%nat) as [Hi|Hi].
  - rewrite lookup_seq_lt by done. rewrite lookup_rd by done. cbn. f_equal.
    unfold ub, frame, leaf. rewrite (leaf_at_page _ _ _ (va + Z.of_nat i) va).
    + f_equal. pg.
    + rewrite <- (PGROUNDDOWN_pre va). apply pre0_same; [apply PGROUNDDOWN_spec|].
      destruct (PGROUNDDOWN_spec va) as (? & ? & ?). pg.
  - rewrite lookup_seq_ge by lia. cbn. symmetry. apply lookup_ge_None_2.
    rewrite length_rd. lia.
Qed.

Lemma ubytes_app m root va n k :
  ubytes m root va (n + k) = ubytes m root va n ++ ubytes m root (va + Z.of_nat n) k.
Proof.
  unfold ubytes. rewrite seq_app, fmap_app. f_equal.
  rewrite (Nat.add_comm 0), <- (fmap_add_seq n 0), <- list_fmap_compose.
  apply list_fmap_ext. intros _ i _. cbn. f_equal. lia.
Qed.


Lemma has_nonzero v f : has v f = true → v ≠ 0.
Proof. intros H ->. done. Qed.

Lemma walkaddr_user root va s T l :
  vm_inv root s T l → 0 ≤ va < MAXVA → user_page s.(pmem) root va →
  walkaddr root va s = Done (frame s.(pmem) root va) s ∧
  slot_at s.(pmem) 2 root va ≠ 0 ∧
  ld64 s.(pmem) (slot_at s.(pmem) 2 root va) = leaf s.(pmem) root va.
Proof.
  intros HI Hva [HV HU].
  pose proof (leaf_slot_ne _ _ _ _ _ HI Hva (has_nonzero _ _ HV)) as Hne.
  pose proof (leaf_at_slot _ _ _ _ Hne) as Hl.
  split; [|done]. unfold walkaddr. rewrite (proj2 (Z.leb_gt _ _)) by lia.
  mstep (walk_find root va s (proj2 Hva)). rewrite (proj2 (Z.eqb_neq _ _) Hne).
  unfold get_pte. mnext. rewrite <- Hl. fold (leaf s.(pmem) root va). by rewrite HV, HU.
Qed.

(** The bytes of [k] from [srcva] to the end of the page, or all of them. *)
Definition chunk (va len : Z) : Z :=
  let n0 := PGSIZE - (va - PGROUNDDOWN va) in if len <? n0 then len else n0.

Lemma chunk_spec va len : 0 < len →
  0 < chunk va len ≤ len ∧ va mod PGSIZE + chunk va len ≤ PGSIZE ∧
  (chunk va len = len ∨ va + chunk va len = PGROUNDDOWN va + PGSIZE).
Proof.
  intros H. unfold chunk. destruct (PGROUNDDOWN_spec va) as (? & ? & E). rewrite E.
  destruct (_ <? _) eqn:Hc; bool_hyps; pg.
Qed.

Lemma rounddown_next va : PGROUNDDOWN (PGROUNDDOWN va + PGSIZE) = PGROUNDDOWN va + PGSIZE.
Proof.
  destruct (PGROUNDDOWN_spec va) as (? & ? & ?).
  destruct (PGROUNDDOWN_spec (PGROUNDDOWN va + PGSIZE)) as (? & ? & ?). pg.
Qed.

Lemma copyin_loop_reads n root srcva len s T l :
  vm_inv root s T l → user_space s.(pmem) root T l → 0 ≤ srcva → 0 ≤ len → srcva + len ≤ MAXVA →
  (∀ va, srcva ≤ va < srcva + len → user_page s.(pmem) root va) →
  srcva mod PGSIZE + len ≤ Z.of_nat n * PGSIZE →
  copyin_loop n root srcva len s = Done (0, ubytes s.(pmem) root srcva (Z.to_nat len)) s.
Proof.
  intros HI HU. revert srcva len. induction n as [|n IH]; intros va len Hva Hlen Hmax Hu Hn;
    cbn [copyin_loop]; destruct (len <=? 0) eqn:El; bool_hyps;
    try (replace (Z.to_nat len) with 0%nat by lia; done); [pg|].
  destruct (PGROUNDDOWN_spec va) as (R1 & R2 & R3).
  assert (Hu0 : user_page s.(pmem) root (PGROUNDDOWN va)).
  { unfold user_page. rewrite leaf_rounddown. apply Hu. lia. }
  assert (Hr0 : 0 ≤ PGROUNDDOWN va < MAXVA) by pg.
  destruct (walkaddr_user root (PGROUNDDOWN va) s T l HI Hr0 Hu0) as [Ew _]. mstep Ew.
  destruct (us_frame _ _ _ _ HU _ Hr0 Hu0) as [Hf0 _].
  rewrite (proj2 (Z.eqb_neq _ _) Hf0). mnext. rewrite (proj2 (Z.eqb_neq _ _) Hf0). mnext.
  fold (chunk va len). destruct (chunk_spec va len El) as (C1 & C2 & C3).
  set (k := chunk va len) in *.
  assert (Hk : Z.to_nat len = (Z.to_nat k + Z.to_nat (len - k))%nat) by lia.
  rewrite R3. unfold frame at 1. rewrite leaf_rounddown. fold (frame s.(pmem) root va).
  rewrite <- ubytes_chunk by lia.
  destruct C3 as [C3|C3].
  - assert (E : copyin_loop n root (u64 (PGROUNDDOWN va + PGSIZE)) (len - k) s = Done (0, []) s).
    { destruct n; cbn [copyin_loop]; rewrite (proj2 (Z.leb_le _ _)) by lia; done. }
    mstep E. cbn. by rewrite C3, app_nil_r.
  - rewrite u64_small by pg. rewrite <- C3.
    assert (E : copyin_loop n root (va + k) (len - k) s =
              Done (0, ubytes s.(pmem) root (va + k) (Z.to_nat (len - k))) s).
    { apply IH; try pg. intros va' Hv'. apply Hu. lia. }
    mstep E. cbn. rewrite Hk, ubytes_app, Z2Nat.id by lia. done.
Qed.

(** ** Writing to user memory *)

Section write_frame.
Variables (root va : Z) (bs : list Z) (s : kstate) (T : typing) (l : list Z).
Hypothesis HI : vm_inv root s T l.
Hypothesis HU : user_space s.(pmem) root T l.
Hypothesis Hva : 0 ≤ va < MAXVA.
Hypothesis Hup : user_page s.(pmem) root va.
Hypothesis Hlen : va mod PGSIZE + Z.of_nat (length bs) ≤ PGSIZE.
Let m' := wr s.(pmem) (frame s.(pmem) root va + va mod PGSIZE) bs.

Lemma write_out y : ¬ on_page (frame s.(pmem) root va) y → ld8 m' y = ld8 s.(pmem) y.
Proof using All. intros Hy. apply ld8_wr_out. unfold on_page in Hy. pg. Qed.

Lemma write_other P y : P mod PGSIZE = 0 → P ≠ frame s.(pmem) root va → on_page P y →
  ld8 m' y = ld8 s.(pmem) y.
Proof using All.
  intros HP Hne Hon. apply write_out. intros Hon'.
  destruct (aligned_disj P _ HP (PTE2PA_aligned _) Hne); unfold on_page, frame in *; lia.
Qed.

Lemma write_table P x y : T !! P = Some x → on_page P y → ld8 m' y = ld8 s.(pmem) y.
Proof using All.
  intros HP. apply write_other.
  - by eapply page_ok_spec, typed_page; [apply HI|].
  - destruct (us_frame _ _ _ _ HU va Hva Hup) as (_ & HT & _). congruence.
Qed.

Lemma write_leaf va' : leaf m' root va' = leaf s.(pmem) root va'.
Proof using All.
  eapply leaf_at_ext; [apply HI|apply HI|]. intros P x y HP Hon. by eapply write_table.
Qed.

Lemma write_inv : vm_inv root (set_pmem (λ _, m') s) T l.
Proof using All.
  pose proof HI as [HT [Hc Hn] Hd]. split.
  - eapply typed_ext; [|done]. intros P x y HP Hon. by eapply write_table.
  - split; [|done]. eapply chain_ext; [|done]. intros p y Hp. apply write_other.
    + eapply page_ok_spec. by eapply (proj1 (Forall_forall _ _)); [eapply chain_pages|].
    + destruct (us_frame _ _ _ _ HU va Hva Hup) as (_ & _ & Hl). by intros ->.
  - done.
Qed.

Lemma write_space : user_space m' root T l.
Proof using All.
  split.
  - intros va'. unfold frame, user_page. rewrite write_leaf. apply HU.
  - intros va1 va2. unfold frame, user_page. rewrite !write_leaf. apply HU.
Qed.

Lemma write_bytes va' :
  0 ≤ va' < MAXVA → user_page s.(pmem) root va' →
  ub m' root va' =
    if decide (va ≤ va' < va + Z.of_nat (length bs)) then u8 (bs !!! Z.to_nat (va' - va))
    else ub s.(pmem) root va'.
Proof using All.
  intros Hva' Hup'. unfold ub at 1, frame. rewrite write_leaf.
  fold (frame s.(pmem) root va').
  destruct (decide (frame s.(pmem) root va' = frame s.(pmem) root va)) as [Ef|Ef].
  - pose proof (us_inj _ _ _ _ HU va' va Hva' Hva Hup' Hup Ef) as Hp.
    rewrite <- (PGROUNDDOWN_pre va) in Hp. apply pre0_same in Hp; [|apply PGROUNDDOWN_spec].
    destruct (PGROUNDDOWN_spec va) as (R1 & R2 & R3).
    assert (Eo : va' mod PGSIZE - va mod PGSIZE = va' - va) by pg.
    case_decide as Hd.
    + destruct (lookup_lt_is_Some_2 bs (Z.to_nat (va' - va))) as [b Hb]; [lia|].
      rewrite (list_lookup_total_correct _ _ _ Hb), Ef. unfold m'.
      replace (frame s.(pmem) root va + va' mod PGSIZE) with
        (frame s.(pmem) root va + va mod PGSIZE + Z.of_nat (Z.to_nat (va' - va))) by lia.
      by apply ld8_wr_in.
    + unfold m'. rewrite ld8_wr_out by (rewrite Ef; lia). done.
  - rewrite decide_False.
    + apply write_other with (P := frame s.(pmem) root va'); [apply PTE2PA_aligned|done|].
      unfold on_page. pg.
    + intros Hd. apply Ef. unfold frame, leaf. f_equal. apply leaf_at_page.
      destruct (PGROUNDDOWN_spec va) as (R1 & R2 & R3).
      rewrite <- (PGROUNDDOWN_pre va). apply pre0_same; [done|]. pg.
Qed.
End write_frame.

Lemma copyout_loop_writes n root dstva src s T l :
  vm_inv root s T l → user_space s.(pmem) root T l → 0 ≤ dstva →
  dstva + Z.of_nat (length src) ≤ MAXVA →
  (∀ va, dstva ≤ va < dstva + Z.of_nat (length src) → writable s.(pmem) root va) →
  dstva mod PGSIZE + Z.of_nat (length src) ≤ Z.of_nat n * PGSIZE →
  ∃ m', copyout_loop n root dstva src s = Done 0 (set_pmem (λ _, m') s) ∧
    vm_inv root (set_pmem (λ _, m') s) T l ∧ user_space m' root T l ∧
    (∀ va, leaf m' root va = leaf s.(pmem) root va) ∧
    (∀ va, 0 ≤ va < MAXVA → user_page s.(pmem) root va →
       ub m' root va = if decide (dstva ≤ va < dstva + Z.of_nat (length src))
                       then u8 (src !!! Z.to_nat (va - dstva)) else ub s.(pmem) root va).
Proof.
  revert dstva src s. induction n as [|n IH]; intros va src s HI HU Hva Hmax Hw Hn;
    (destruct src as [|b src];
     [exists s.(pmem); cbn; split; [done|]; split; [done|]; split; [done|]; split; [done|];
      intros va' _ _; by rewrite decide_False by lia|]).
  { cbn [length] in Hn. pg. }
  remember (b :: src) as bs eqn:Ebs.
  assert (Hlen : 0 < Z.of_nat (length bs)) by (subst; cbn; lia).
  set (len := Z.of_nat (length bs)) in *.
  destruct (PGROUNDDOWN_spec va) as (R1 & R2 & R3).
  destruct (Hw va) as [Hu HW]; [lia|].
  assert (Hu0 : user_page s.(pmem) root (PGROUNDDOWN va)).
  { unfold user_page. rewrite leaf_rounddown. apply Hu. }
  assert (Hr0 : 0 ≤ PGROUNDDOWN va < MAXVA) by pg.
  destruct (walkaddr_user root (PGROUNDDOWN va) s T l HI Hr0 Hu0) as (Ew & Hs0 & Hld).
  destruct (us_frame _ _ _ _ HU _ Hr0 Hu0) as [Hf0 _].
  assert (E : copyout_loop (S n) root va bs s =
    copyout_loop n root (u64 (PGROUNDDOWN va + PGSIZE)) (drop (Z.to_nat (chunk va len)) bs)
      (set_pmem (λ _, wr s.(pmem) (frame s.(pmem) root va + va mod PGSIZE)
                        (take (Z.to_nat (chunk va len)) bs)) s)).
  { rewrite Ebs. cbn [copyout_loop]. rewrite <- Ebs. rewrite (proj2 (Z.leb_gt _ _)) by lia.
    mstep Ew. rewrite (proj2 (Z.eqb_neq _ _) Hf0). mnext. rewrite (proj2 (Z.eqb_neq _ _) Hf0).
    mstep (walk_find root (PGROUNDDOWN va) s (proj2 Hr0)).
    rewrite (proj2 (Z.eqb_neq _ _) Hs0). unfold get_pte. do 2 mnext.
    rewrite Hld, leaf_rounddown, HW. cbn [negb]. mnext.
    fold len. fold (chunk va len). rewrite R3. unfold frame at 1. rewrite leaf_rounddown. reflexivity. }
  destruct (chunk_spec va len Hlen) as (C1 & C2 & C3). set (k := chunk va len) in *.
  assert (Htk : Z.of_nat (length (take (Z.to_nat k) bs)) = k) by (rewrite length_take; lia).
  assert (Hva' : 0 ≤ va < MAXVA) by lia.
  assert (Hin : va mod PGSIZE + Z.of_nat (length (take (Z.to_nat k) bs)) ≤ PGSIZE) by lia.
  pose proof (write_inv root va _ s T l HI HU Hva' Hu Hin) as HI1.
  pose proof (write_space root va _ s T l HI HU Hva' Hu Hin) as HU1.
  pose proof (write_leaf root va _ s T l HI HU Hva' Hu Hin) as Hlf1.
  pose proof (write_bytes root va _ s T l HI HU Hva' Hu Hin) as Hb1.
  set (m1 := wr s.(pmem) _ (take (Z.to_nat k) bs)) in *. rewrite Htk in Hb1.
  assert (Hdr : Z.of_nat (length (drop (Z.to_nat k) bs)) = len - k) by (rewrite length_drop; lia).
  destruct C3 as [C3|C3].
  { exists m1. rewrite E. rewrite (drop_ge bs) by lia. split; [by destruct n|].
    do 3 (split; [done|]). intros va' Hv' Hup'. rewrite Hb1, C3 by done. case_decide; [|done].
    f_equal. rewrite !list_lookup_total_alt, lookup_take_lt by lia. done. }
  destruct (IH (va + k) (drop (Z.to_nat k) bs) (set_pmem (λ _, m1) s)) as
    (m2 & E2 & HI2 & HU2 & Hlf2 & Hb2); rewrite ?Hdr in *; try done; try pg.
  { intros va' Hv. unfold writable, user_page. change (pmem (set_pmem (λ _, m1) s)) with m1.
    rewrite Hlf1. apply Hw. lia. }
  exists m2. split; [rewrite E, u64_small, <- C3 by pg; exact E2|].
  split; [done|]. split; [done|]. split; [intros va'; rewrite Hlf2; apply Hlf1|].
  intros va' Hv' Hup'.
  rewrite Hb2; [|done|unfold user_page; change (pmem (set_pmem (λ _, m1) s)) with m1; by rewrite Hlf1].
  change (pmem (set_pmem (λ _, m1) s)) with m1. rewrite Hb1 by done.
  repeat case_decide; try lia; try done.
  - rewrite list_lookup_total_alt, lookup_drop, <- list_lookup_total_alt. do 2 f_equal. lia.
  - f_equal. rewrite !list_lookup_total_alt, lookup_take_lt by lia. done.
Qed.

(** [copyin] of mapped user memory returns exactly its bytes and changes
    nothing. *)
Lemma copyin_reads root srcva len s T l :
  vm_inv root s T l → user_space s.(pmem) root T l → 0 ≤ srcva → 0 ≤ len → srcva + len ≤ MAXVA →
  (∀ va, srcva ≤ va < srcva + len → user_page s.(pmem) root va) →
  copyin root srcva len s = Done (0, ubytes s.(pmem) root srcva (Z.to_nat len)) s.
Proof.
  intros. eapply copyin_loop_reads; try done. unfold copy_rounds. pg.
Qed.

(** C9. [copyout] to mapped writable user memory stores exactly the given
    bytes there; every other user byte, every translation and the free pages
    are as before, and [copyin] of the range reads the bytes back. *)
Theorem copyout_copyin root dstva src s T l :
  vm_inv root s T l → user_space s.(pmem) root T l → 0 ≤ dstva →
  dstva + Z.of_nat (length src) ≤ MAXVA → Forall (λ b, 0 ≤ b < 256) src →
  (∀ va, dstva ≤ va < dstva + Z.of_nat (length src) → writable s.(pmem) root va) →
  ∃ m', let s' := set_pmem (λ _, m') s in
    copyout root dstva src s = Done 0 s' ∧
    vm_inv root s' T l ∧ (∀ va, leaf m' root va = leaf s.(pmem) root va) ∧
    (∀ va, 0 ≤ va < MAXVA → user_page s.(pmem) root va →
       ¬ (dstva ≤ va < dstva + Z.of_nat (length src)) → ub m' root va = ub s.(pmem) root va) ∧
    copyin root dstva (Z.of_nat (length src)) s' = Done (0, src) s'.
Proof.
  intros HI HU Hd Hmax Hby Hw.
  destruct (copyout_loop_writes (copy_rounds (Z.of_nat (length src))) root dstva src s T l)
    as (m' & E & HI' & HU' & Hlf & Hb); try done.
  { unfold copy_rounds. pg. }
  assert (Hup : ∀ va, user_page m' root va ↔ user_page s.(pmem) root va).
  { intros va. unfold user_page. by rewrite Hlf. }
  exists m'. split; [done|]. split; [done|]. split; [done|]. split.
  { intros va Hv Hu Hout. rewrite Hb by done. by rewrite decide_False. }
  unfold copyin. rewrite (copyin_loop_reads _ root dstva _ _ T l); try done; try pg.
  - do 2 f_equal. apply list_eq. intros i. unfold ubytes. rewrite Nat2Z.id, list_lookup_fmap.
    destruct (decide (i < length src)%nat) as [Hi|Hi].
    + rewrite lookup_seq_lt by done. cbn.
      destruct (lookup_lt_is_Some_2 src i Hi) as [b Eb]. rewrite Eb. f_equal.
      rewrite Hb; [|lia|apply Hw; lia]. rewrite decide_True by lia.
      replace (Z.to_nat (dstva + Z.of_nat i - dstva)) with i by lia.
      rewrite (list_lookup_total_correct _ _ _ Eb). apply u8_small.
      rewrite Forall_lookup in Hby. by apply (Hby i).
    + rewrite lookup_seq_ge by lia. cbn. symmetry. apply lookup_ge_None_2. lia.
  - intros va Hv. apply Hup. by apply Hw.
  - unfold copy_rounds. pg.
Qed.
End usermem.

Lemma demo_space : let F : Fuel := 1%nat in let L := layout64 in
  ∃ s T l, vm_inv demo_root s T l ∧ user_space s.(pmem) demo_root T l ∧
    ∀ va, 0x1000 ≤ va < 0x2000 → writable s.(pmem) demo_root va.
Proof.
  destruct demo_mapped as (s & T & l & _ & HI & _ & _ & HT & [Hin _] & _ & Hlf).
  assert (Hup : ∀ va, 0 ≤ va < MAXVA → user_page s.(pmem) demo_root va →
            0x1000 ≤ va < 0x2000 ∧ frame s.(pmem) demo_root va = 0x80045000).
  { intros va Hva [HV _]. unfold frame. rewrite Hlf in * by done. case_decide; [|done].
    split; [done|]. by vm_compute. }
  exists s, T, l. split; [done|]. split; [split|].
  - intros va Hva Hu. destruct (Hup va Hva Hu) as [_ ->]. done.
  - intros va va' Hva Hva' Hu Hu' _. destruct (Hup va Hva Hu) as [H1 _].
    destruct (Hup va' Hva' Hu') as [H2 _].
    transitivity (pre_of 0 0x1000); [|symmetry]; apply pre0_same; done || pg.
  - intros va Hva. unfold writable, user_page. rewrite Hlf by pg. by rewrite decide_True.
Qed.

Lemma copyin_reads_witness : let F : Fuel := 1%nat in let L := layout64 in
  ∃ s, copyin demo_root 0x1ffd 3 s = Done (0, ubytes s.(pmem) demo_root 0x1ffd 3) s.
Proof.
  destruct demo_space as (s & T & l & HI & HU & Hw). exists s.
  apply (@copyin_reads 1%nat layout64 demo_root 0x1ffd 3 s T l HI HU); [lia|lia|pg|].
  intros va Hva. apply Hw. lia.
Defined.

Lemma copyout_copyin_witness : let F : Fuel := 1%nat in let L := layout64 in
  ∃ s m', copyout demo_root 0x1ffd [10; 20; 30] s = Done 0 (set_pmem (λ _, m') s) ∧
    copyin demo_root 0x1ffd 3 (set_pmem (λ _, m') s) = Done (0, [10; 20; 30]) (set_pmem (λ _, m') s).
Proof.
  destruct demo_space as (s & T & l & HI & HU & Hw). exists s.
  destruct (@copyout_copyin 1%nat layout64 demo_root 0x1ffd [10; 20; 30] s T l HI HU)
    as (m' & H1 & _ & _ & _ & H2); [lia|cbn [length]; pg|repeat constructor; lia|..].
  { intros va Hva. apply Hw. cbn in Hva. lia. }
  exists m'. exact (conj H1 H2).
Defined.
