(* ===== verification/VmCopy.v ===== *)
(** fork's copy of an address space: uvmcopy of vm.c.

    Every page in use at the start, the parent's tables and frames among them,
    stays as it is while the child's table grows; the child's frames are new
    pages with the parent's bytes. *)

From S2P Require Import Prelude Cmem KString Kstate Spinlock Sleep Kalloc Vm VmSpec UserMem.
Local Open Scope Z_scope.

(** The flags of an entry are those it was made from. *)
Lemma flags_kept r v : 0 ≤ r < 2 ^ 56 → has v PTE_V = true →
  PTE_FLAGS (Z.lor (Z.lor (PA2PTE r) (PTE_FLAGS v)) PTE_V) = PTE_FLAGS v.
Proof.
  intros Hr Hv. unfold PTE_FLAGS. change 0x3FF with (Z.ones 10). rewrite !Z.land_lor_distr_l.
  assert (Z.land (PA2PTE r) (Z.ones 10) = 0) as ->.
  { unfold PA2PTE. rewrite Z.shiftl_mul_pow2, Z.shiftr_div_pow2 by lia. change (2 ^ 56) with 72057594037927936 in Hr.
    rewrite u64_small by mlia. rewrite Z.land_ones by lia. apply Z_mod_mult. }
  rewrite <-Z.land_assoc, Z.land_diag, Z.lor_0_l. change (Z.land PTE_V (Z.ones 10)) with 1.
  apply Z.bits_inj'. intros n Hn. rewrite Z.lor_spec. destruct (decide (n = 0)) as [->|Hn0].
  - rewrite orb_true_r, Z.land_spec, andb_true_r. unfold has, PTE_V in Hv. apply negb_true_iff, Z.eqb_neq in Hv.
    rewrite Z.bit0_odd. change 1 with (Z.ones 1) in Hv. rewrite Z.land_ones in Hv by lia.
    change (2 ^ 1) with 2 in Hv. rewrite Zmod_odd in Hv. by destruct (Z.odd v).
  - change 1 with (2 ^ 0). rewrite Z.pow2_bits_false by lia. apply orb_false_r.
Qed.

Lemma flags_range v : 0 ≤ PTE_FLAGS v < 1024.
Proof. unfold PTE_FLAGS. change 0x3FF with (Z.ones 10). rewrite Z.land_ones by lia. apply Z.mod_pos_bound. lia. Qed.

Lemma frames_in m root a n x : x ∈ frames m root a n →
  ∃ va, a ≤ va < a + Z.of_nat n * PGSIZE ∧ has (leaf m root va) PTE_V = true ∧ x = frame m root va.
Proof.
  revert a. induction n as [|n IH]; intros a; cbn [frames]; [by intros ?%not_elem_of_nil|].
  intros [Hx|Hx]%elem_of_app.
  - exists a. destruct (has _ _) eqn:E; [|by apply not_elem_of_nil in Hx].
    apply elem_of_cons in Hx as [->|Hx]; [|by apply not_elem_of_nil in Hx]. split; [pg|done].
  - destruct (IH _ Hx) as (va & Hva & HV & ->). exists va. split; [pg|done].
Qed.

(** Pages with frames of their own. *)
Lemma frames_nodup m root a n : a mod PGSIZE = 0 →
  (∀ va va', a ≤ va < a + Z.of_nat n * PGSIZE → a ≤ va' < a + Z.of_nat n * PGSIZE →
     has (leaf m root va) PTE_V = true → has (leaf m root va') PTE_V = true →
     frame m root va = frame m root va' → pre_of 0 va = pre_of 0 va') →
  NoDup (frames m root a n).
Proof.
  revert a. induction n as [|n IH]; intros a Ha Hinj; cbn [frames]; [constructor|].
  apply NoDup_app. split; [destruct (has _ _); [apply NoDup_singleton|constructor]|]. split.
  - intros x Hx (va & Hva & HV & Hfx)%frames_in. destruct (has (leaf m root a) PTE_V) eqn:E; [|by apply not_elem_of_nil in Hx].
    apply elem_of_cons in Hx as [->|Hx]; [|by apply not_elem_of_nil in Hx].
    assert (Hp : pre_of 0 va = pre_of 0 a) by (symmetry; apply Hinj; [pg|pg|done|done|exact Hfx]).
    apply (pre0_same a va Ha) in Hp. pg.
  - apply IH; [pg|]. intros va va' Hva Hva'. apply Hinj; pg.
Qed.

Section vmcopy.
Context {Fl : Fuel} {Ly : Layout}.
(** The two tables, the size copied and its page limit; the memory, the
    child's tables, the free pages and the child's high translations at the
    start; the parent's tables. *)
Variables (old new sz top : Z) (m0 : mem) (T0 : typing) (l0 : list Z) (hi : Z → Z) (To : typing).

(** The pages in use at the start that are not the child's tables. *)
Abbreviation shield := (owned T0 l0).

(** [va]'s page is in the child as it was in the parent. *)
Definition copied (m : mem) (va : Z) : Prop :=
  has (leaf m new va) PTE_V = has (leaf m0 old va) PTE_V ∧
  (has (leaf m0 old va) PTE_V = true →
    PTE_FLAGS (leaf m new va) = PTE_FLAGS (leaf m0 old va) ∧
    ∀ y, 0 ≤ y < PGSIZE → ld8 m (frame m new va + y) = ld8 m0 (frame m0 old va + y)).

(** The loop has copied the pages below [i]. *)
Record copying (s : kstate) (Tn : typing) (l : list Z) (i : Z) : Prop := {
  cp_ok : cpu_ok s ∧ lock_free LkKmem s;
  cp_inv : vm_inv new s Tn l;
  cp_shield P : shield P → owned Tn l P;
  cp_keep P y : shield P → on_page P y → ld8 s.(pmem) y = ld8 m0 y;
  cp_done va : 0 ≤ va < i → va < sz → copied s.(pmem) va;
  cp_rest va : i ≤ va < top → has (leaf s.(pmem) new va) PTE_V = false;
  cp_high va : top ≤ va < MAXVA → leaf s.(pmem) new va = hi va;
  cp_own va : 0 ≤ va < top → has (leaf s.(pmem) new va) PTE_V = true →
    owned Tn l (frame s.(pmem) new va) ∧ ¬ shield (frame s.(pmem) new va);
  cp_inj va va' : 0 ≤ va < top → 0 ≤ va' < top → has (leaf s.(pmem) new va) PTE_V = true →
    has (leaf s.(pmem) new va') PTE_V = true →
    frame s.(pmem) new va = frame s.(pmem) new va' → pre_of 0 va = pre_of 0 va' }.

Hypothesis Hold : typed m0 old To.
Hypothesis Htables : ∀ P x, To !! P = Some x → shield P.
Hypothesis Hframes : ∀ va, 0 ≤ va < sz → has (leaf m0 old va) PTE_V = true → shield (frame m0 old va).
Hypothesis Hsz : 0 ≤ sz.
Hypothesis Htop : sz ≤ top < sz + PGSIZE.
Hypothesis Htal : top mod PGSIZE = 0.
Hypothesis Htmax : top ≤ MAXVA.

Lemma shield_table s Tn l i P x y : copying s Tn l i → To !! P = Some x → on_page P y →
  ld8 s.(pmem) y = ld8 m0 y.
Proof. intros Hc HP. apply (cp_keep _ _ _ _ Hc). by eapply Htables. Qed.

(** The parent's translations are still there. *)
Lemma old_leaf s Tn l i va : copying s Tn l i → leaf s.(pmem) old va = leaf m0 old va.
Proof. intros Hc. eapply leaf_at_ext; [exact Hold|apply Hold|]. intros. by eapply shield_table. Qed.

Lemma old_slot s Tn l i va : copying s Tn l i → slot_at s.(pmem) 2 old va = slot_at m0 2 old va.
Proof. intros Hc. eapply slot_at_ext; [exact Hold|apply Hold|]. intros. by eapply shield_table. Qed.

(** Looking up the page at [i] in the parent. *)
Lemma old_walk s Tn l i va : copying s Tn l i → 0 ≤ va < MAXVA →
  walk old va false s = Done (slot_at m0 2 old va) s ∧
  (slot_at m0 2 old va = 0 → leaf m0 old va = 0) ∧
  (slot_at m0 2 old va ≠ 0 → ld64 s.(pmem) (slot_at m0 2 old va) = leaf m0 old va).
Proof.
  intros Hc Hva. rewrite walk_find by lia. rewrite (old_slot _ _ _ _ _ Hc). split; [done|]. split.
  - intros H0. eapply leaf_at_no_slot; [exact Hold|rewrite pre_root by done; apply Hold|done].
  - intros Hne. rewrite <-(old_leaf _ _ _ _ va Hc), <-(old_slot _ _ _ _ va Hc). unfold leaf.
    rewrite leaf_at_slot; [done|]. by rewrite (old_slot _ _ _ _ _ Hc).
Qed.

(** A change of memory and tables that leaves other pages, and the child's
    translations, alone. *)
Definition evolves (s : kstate) (Tn : typing) (l : list Z) (s' : kstate) (Tn' : typing) (l' : list Z) : Prop :=
  (cpu_ok s' ∧ lock_free LkKmem s') ∧ vm_inv new s' Tn' l' ∧
  (∀ P, owned Tn l P → owned Tn' l' P) ∧ untouched Tn l s s'.

Lemma frame_byte m va y : 0 ≤ y < PGSIZE → on_page (frame m new va) (frame m new va + y).
Proof. unfold on_page. lia. Qed.

(** The translations below [i] and their contents survive. *)
Lemma evolves_pages s Tn l i s' Tn' l' : copying s Tn l i → evolves s Tn l s' Tn' l' → i ≤ top →
  (∀ va, 0 ≤ va < i → leaf s'.(pmem) new va = leaf s.(pmem) new va) →
  (∀ P, shield P → owned Tn' l' P) ∧
  (∀ P y, shield P → on_page P y → ld8 s'.(pmem) y = ld8 m0 y) ∧
  (∀ va, 0 ≤ va < i → va < sz → copied s'.(pmem) va) ∧
  (∀ va, 0 ≤ va < i → has (leaf s'.(pmem) new va) PTE_V = true →
     owned Tn' l' (frame s'.(pmem) new va) ∧ ¬ shield (frame s'.(pmem) new va)).
Proof.
  intros Hc (_ & _ & Ho & Hu) Hi Hlf.
  split; [intros P HP; by apply Ho, (cp_shield _ _ _ _ Hc)|].
  split; [intros P y HP Hy; rewrite (Hu P y) by (by try apply (cp_shield _ _ _ _ Hc)); by apply (cp_keep _ _ _ _ Hc P)|].
  split.
  - intros va Hva Hvs. destruct (cp_done _ _ _ _ Hc va Hva Hvs) as [H1 H2]. unfold copied, frame in *.
    rewrite (Hlf va Hva). split; [done|]. intros HV. destruct (H2 HV) as [H3 H4]. split; [done|].
    intros y Hy. rewrite <-H4 by done. rewrite HV in H1. destruct (cp_own _ _ _ _ Hc va) as [Hown _]; [lia|done|].
    apply (Hu _ _ Hown). by apply frame_byte.
  - intros va Hva. unfold frame. rewrite (Hlf va Hva). intros HV.
    destruct (cp_own _ _ _ _ Hc va) as [Hown Hsh]; [lia|done|]. split; [by apply Ho|done].
Qed.

Lemma copying_evolves s Tn l i s' Tn' l' : copying s Tn l i → evolves s Tn l s' Tn' l' → 0 ≤ i ≤ top →
  (∀ va, 0 ≤ va < MAXVA → leaf s'.(pmem) new va = leaf s.(pmem) new va) → copying s' Tn' l' i.
Proof.
  intros Hc He Hi Hlf. destruct (evolves_pages _ _ _ _ _ _ _ Hc He) as (H1 & H2 & H3 & H4); [lia|intros va Hva; apply Hlf; lia|].
  split; try done; try apply He.
  - intros va Hva. rewrite Hlf by lia. by apply (cp_rest _ _ _ _ Hc).
  - intros va Hva. rewrite Hlf by lia. by apply (cp_high _ _ _ _ Hc).
  - intros va Hva HV. destruct (decide (va < i)); [by apply H4; [lia|]|].
    rewrite Hlf, (cp_rest _ _ _ _ Hc) in HV by lia. done.
  - intros va va' Hva Hva'. unfold frame. rewrite !Hlf by lia. by apply (cp_inj _ _ _ _ Hc).
Qed.

(** ** One page *)

(** A new page filled from the parent's frame [pa]. *)
Lemma fresh_page s Tn r l i pa : copying s Tn (r :: l) i → shield pa →
  let s1 := set_pmem (λ m, memmove m r pa PGSIZE) (kalloced r l s) in
  evolves s Tn (r :: l) s1 Tn l ∧ (∀ va, leaf s1.(pmem) new va = leaf s.(pmem) new va) ∧
  owned Tn l r ∧ ¬ shield r ∧
  (∀ va, 0 ≤ va < top → has (leaf s.(pmem) new va) PTE_V = true → frame s.(pmem) new va ≠ r) ∧
  ∀ y, 0 ≤ y < PGSIZE → ld8 s1.(pmem) (r + y) = ld8 m0 (pa + y).
Proof.
  intros Hc Hpa s1. destruct (cp_inv _ _ _ _ Hc) as [HT Hf Hd].
  pose proof Hf as [(_ & Hrok & _) [Hrl Hnd]%NoDup_cons].
  assert (Hr : ∀ P, owned Tn (r :: l) P → P ≠ r) by (intros P (_ & _ & HP); set_solver).
  assert (Hout : ∀ y, ¬ on_page r y → ld8 s1.(pmem) y = ld8 s.(pmem) y).
  { intros y Hy. cbn. unfold on_page in Hy. rewrite ld8_memmove, decide_False, ld8_memset, decide_False by done. done. }
  assert (Hpage : ∀ P y, page_ok P → P ≠ r → on_page P y → ld8 s1.(pmem) y = ld8 s.(pmem) y).
  { intros P y HP Hne Hy. apply Hout. intros Hy'. by apply Hne, (on_page_disj _ _ _ HP Hrok Hy Hy'). }
  assert (Htab : ∀ P x y, Tn !! P = Some x → on_page P y → ld8 s1.(pmem) y = ld8 s.(pmem) y).
  { intros P x y HP. apply Hpage; [by eapply typed_page|]. intros ->. apply (Hd _ _ HP). by left. }
  pose proof (cp_shield _ _ _ _ Hc pa Hpa) as Hpao.
  split; [split; [apply (cp_ok _ _ _ _ Hc)|split; [split|split]]|].
  - by eapply typed_ext.
  - apply (free_pages_frame _ _ (λ m, memmove m r pa PGSIZE) r); [done..| |by apply free_pages_kalloced].
    intros y Hy. unfold on_page in Hy. by rewrite ld8_memmove, decide_False.
  - intros P x HP Hin. apply (Hd _ _ HP). by right.
  - intros P (H1 & H2 & H3). split; [done|]. split; [done|]. set_solver.
  - intros P y HP. apply Hpage; [apply HP|by apply Hr].
  - split; [intros va; eapply leaf_at_ext; [exact HT|apply HT|done]|].
    split; [split; [done|split; [|done]]; destruct (Tn !! r) eqn:E; [|done]; destruct (Hd _ _ E); by left|].
    split; [intros Hsh; by apply (Hr r (cp_shield _ _ _ _ Hc r Hsh))|].
    split; [intros va Hva HV; by apply Hr, (cp_own _ _ _ _ Hc)|].
    intros y Hy. cbn. rewrite ld8_memmove, decide_True by lia. replace (pa + (r + y - r)) with (pa + y) by lia.
    assert (on_page pa (pa + y)) as Hy' by (unfold on_page; lia).
    rewrite ld8_memset, decide_False; [by apply (cp_keep _ _ _ _ Hc pa)|].
    intros Hy2. by apply (Hr pa Hpao), (on_page_disj _ _ _ (proj1 Hpao) Hrok Hy' Hy2).
Qed.

Lemma evolves_grow s Tn l s' Tn' l' : cpu_ok s → lock_free LkKmem s → vm_inv new s' Tn' l' →
  vm_grow s Tn l s' Tn' l' → evolves s Tn l s' Tn' l'.
Proof.
  intros Hs Hl HI Hg. split; [by eapply vm_grow_ok|]. split; [done|]. split; [|by eapply untouched_grow].
  intros P (H1 & H2 & H3). destruct (vg_used _ _ _ _ _ _ Hg) as (used & -> & Hu).
  split; [done|]. split; [|set_solver]. destruct (Tn' !! P) eqn:E; [|done].
  destruct (Hu _ _ E); [congruence|set_solver].
Qed.

(** The entry for the page at [i] is written: the loop goes on. *)
Lemma copying_mapped s Tn l i s' Tn' l' r : copying s Tn l i → evolves s Tn l s' Tn' l' →
  i mod PGSIZE = 0 → 0 ≤ i → i < top → has (leaf m0 old i) PTE_V = true →
  owned Tn l r → ¬ shield r →
  (∀ va, 0 ≤ va < top → has (leaf s.(pmem) new va) PTE_V = true → frame s.(pmem) new va ≠ r) →
  (∀ y, 0 ≤ y < PGSIZE → ld8 s.(pmem) (r + y) = ld8 m0 (frame m0 old i + y)) →
  pages_mapped new i r (PTE_FLAGS (leaf m0 old i)) 1 s s' →
  copying s' Tn' l' (i + PGSIZE).
Proof.
  intros Hc He Hal Hi0 Hi HV Hown Hnsh Hfr Hby Hpm. assert (Hit : i + PGSIZE ≤ top) by pg. pose proof He as (Hok & HI & Ho & Hu).
  destruct (page_ok_56 _ (proj1 Hown)) as [Hral Hr].
  set (e := Z.lor (Z.lor (PA2PTE r) (PTE_FLAGS (leaf m0 old i))) PTE_V).
  assert (Hlf : ∀ va, 0 ≤ va < MAXVA → leaf s'.(pmem) new va =
    if decide (i ≤ va < i + PGSIZE) then e else leaf s.(pmem) new va).
  { intros va Hva. rewrite Hpm by done. rewrite Z.mul_1_l. case_decide; [|done]. unfold mapped_pte.
    by replace (r + (va - i) / PGSIZE * PGSIZE) with r by pg. }
  assert (HeV : has e PTE_V = true) by apply has_lor_V.
  assert (Hepa : PTE2PA e = r).
  { unfold e. rewrite <-Z.lor_assoc. apply PTE2PA_PA2PTE; [done..|]. change 1024 with (2 ^ 10).
    apply lor_range; [lia| |unfold PTE_V; lia]. apply flags_range. }
  destruct (evolves_pages _ _ _ _ _ _ _ Hc He) as (H1 & H2 & H3 & H4); [pg| |].
  { intros va Hva. rewrite Hlf, decide_False by pg. done. }
  assert (Hvalid : ∀ va, 0 ≤ va < top → has (leaf s'.(pmem) new va) PTE_V = true →
    i ≤ va < i + PGSIZE ∧ frame s'.(pmem) new va = r ∨
    va < i ∧ has (leaf s.(pmem) new va) PTE_V = true ∧ frame s'.(pmem) new va = frame s.(pmem) new va).
  { intros va Hva. unfold frame. rewrite Hlf by lia. case_decide; [by left|]. intros HV'. right.
    split; [|done]. destruct (decide (va < i)); [done|]. by rewrite (cp_rest _ _ _ _ Hc) in HV' by lia. }
  split; try done.
  - intros va Hva Hvs. destruct (decide (va < i)); [by apply H3; [lia|]|].
    assert (leaf m0 old va = leaf m0 old i) as Hle by (apply leaf_at_page, pre0_same; [done|lia]).
    unfold copied, frame. rewrite Hlf, decide_True, Hle, HeV, HV, Hepa by pg. split; [done|]. intros _.
    split; [by apply flags_kept|]. intros y Hy. rewrite <-Hby by done. apply (Hu r); [done|]. unfold on_page. pg.
  - intros va Hva. rewrite Hlf, decide_False by pg. apply (cp_rest _ _ _ _ Hc); pg.
  - intros va Hva. rewrite Hlf, decide_False by pg. apply (cp_high _ _ _ _ Hc); pg.
  - intros va Hva HV'. destruct (Hvalid va Hva HV') as [[_ ->]|(Hlt & _ & _)]; [split; [by apply Ho|done]|].
    by apply H4; [lia|].
  - intros va va' Hva Hva' HVa HVa'.
    destruct (Hvalid va Hva HVa) as [[Hp ->]|(Hlt & Hv & ->)], (Hvalid va' Hva' HVa') as [[Hp' ->]|(Hlt' & Hv' & ->)]; intros E.
    + rewrite (proj2 (pre0_same i va Hal)), (proj2 (pre0_same i va' Hal)) by done. done.
    + by destruct (Hfr va' Hva' Hv').
    + by destruct (Hfr va Hva Hv).
    + by apply (cp_inj _ _ _ _ Hc).
Qed.

(** A page the child does not use goes back to the allocator. *)
Lemma give_back s Tn l i r : copying s Tn l i → owned Tn l r → ¬ shield r →
  (∀ va, 0 ≤ va < top → has (leaf s.(pmem) new va) PTE_V = true → frame s.(pmem) new va ≠ r) →
  0 ≤ i ≤ top → copying (kfreed r s) Tn (r :: l) i.
Proof.
  intros Hc (Hr1 & Hr2 & Hr3) Hsh Hfr Hi. destruct (vm_kfree new s Tn l r (cp_inv _ _ _ _ Hc) Hr1 Hr3 Hr2) as (HI & Hlf & _).
  assert (Hadd : ∀ P, owned Tn l P → P ≠ r → owned Tn (r :: l) P).
  { intros P (H1 & H2 & H3) Hne. split; [done|]. split; [done|]. set_solver. }
  pose proof (untouched_kfreed Tn l s r Hr1) as Hu.
  assert (Hso : ∀ P, shield P → owned Tn (r :: l) P).
  { intros P HP. apply Hadd; [by apply (cp_shield _ _ _ _ Hc)|]. by intros ->. }
  assert (Hfo : ∀ va, 0 ≤ va < top → has (leaf s.(pmem) new va) PTE_V = true → owned Tn (r :: l) (frame s.(pmem) new va)).
  { intros va Hva HV. apply Hadd; [by apply (cp_own _ _ _ _ Hc)|by apply Hfr]. }
  assert (Hfeq : ∀ va, frame (kfreed r s).(pmem) new va = frame s.(pmem) new va).
  { intros va. exact (f_equal PTE2PA (Hlf va)). }
  split.
  - exact (cp_ok _ _ _ _ Hc).
  - exact HI.
  - exact Hso.
  - intros P y HP Hy. rewrite (Hu P y (Hso P HP) Hy). exact (cp_keep _ _ _ _ Hc P y HP Hy).
  - intros va Hva Hvs. destruct (cp_done _ _ _ _ Hc va Hva Hvs) as [H1 H2]. unfold copied.
    rewrite Hlf, Hfeq. split; [exact H1|]. intros HV. destruct (H2 HV) as [H3 H4]. split; [exact H3|].
    intros y Hy. rewrite <-(H4 y Hy). rewrite HV in H1. apply (Hu _ _ (Hfo va ltac:(lia) H1)). exact (frame_byte _ va y Hy).
  - intros va Hva. rewrite Hlf. exact (cp_rest _ _ _ _ Hc va Hva).
  - intros va Hva. rewrite Hlf. exact (cp_high _ _ _ _ Hc va Hva).
  - intros va Hva. rewrite Hlf, Hfeq. intros HV. exact (conj (Hfo va Hva HV) (proj2 (cp_own _ _ _ _ Hc va Hva HV))).
  - intros va va' Hva Hva'. rewrite !Hlf, !Hfeq. exact (cp_inj _ _ _ _ Hc va va' Hva Hva').
Qed.

(** Nothing to copy at [i]. *)
Lemma copying_skip s Tn l i : copying s Tn l i → i mod PGSIZE = 0 → 0 ≤ i < top →
  has (leaf m0 old i) PTE_V = false → copying s Tn l (i + PGSIZE).
Proof.
  intros Hc Hal Hi HV. split; try apply Hc.
  - intros va Hva Hvs. destruct (decide (va < i)); [apply (cp_done _ _ _ _ Hc); lia|].
    assert (leaf m0 old va = leaf m0 old i) as Hle by (apply leaf_at_page, pre0_same; [done|lia]).
    unfold copied. rewrite Hle, HV, (cp_rest _ _ _ _ Hc) by lia. by split.
  - intros va Hva. apply (cp_rest _ _ _ _ Hc). pg.
Qed.

(** Giving up: what has been copied is unmapped and freed. *)
Lemma abandon s Tn l i : copying s Tn l i → i mod PGSIZE = 0 → 0 ≤ i ≤ top →
  ∃ s', uvmunmap new 0 (i / PGSIZE) true s = Done () s' ∧
    (∀ va, 0 ≤ va < top → has (leaf s'.(pmem) new va) PTE_V = false) ∧
    (∀ va, top ≤ va < MAXVA → leaf s'.(pmem) new va = hi va) ∧
    (∀ P y, shield P → on_page P y → ld8 s'.(pmem) y = ld8 m0 y).
Proof.
  intros Hc Hal Hi. destruct (cp_ok _ _ _ _ Hc) as [Hs Hl].
  set (n := Z.to_nat (i / PGSIZE)). assert (Hn : Z.of_nat n * PGSIZE = i) by (unfold n; pg).
  set (fr := frames s.(pmem) new 0 n).
  assert (Hfr : ∀ P, P ∈ fr → owned Tn l P ∧ ¬ shield P).
  { intros P (va & Hva & HV & ->)%frames_in. apply (cp_own _ _ _ _ Hc); [lia|done]. }
  destruct (uvmunmap_done new 0 (i / PGSIZE) true s Tn l) as (s' & E & _ & Hu & Hk); try done.
  - apply (cp_inv _ _ _ _ Hc).
  - pg.
  - pg.
  - apply Forall_forall. intros P HP. by apply Hfr.
  - apply frames_nodup; [done|]. fold n. intros va va' Hva Hva'. apply (cp_inj _ _ _ _ Hc); lia.
  - exists s'. split; [exact E|]. fold n in Hk. cbn [freed_frames] in Hk. fold fr in Hk. split; [|split].
    + intros va Hva. rewrite Hu by lia. case_decide as Hd; [done|].
      destruct (decide (va < i)); [|apply (cp_rest _ _ _ _ Hc); lia].
      apply not_true_is_false. intros HV. apply Hd. split; [pg|done].
    + intros va Hva. rewrite Hu, decide_False by pg. by apply (cp_high _ _ _ _ Hc).
    + intros P y HP Hy. rewrite (Hk P y); [by apply (cp_keep _ _ _ _ Hc P)| |done].
      destruct (cp_shield _ _ _ _ Hc P HP) as (H1 & H2 & H3). split; [done|]. split; [done|].
      rewrite elem_of_app, elem_of_reverse. intros [Hin|?]; [|done]. by apply (Hfr P Hin).
Qed.

(** What uvmcopy leaves behind: the pages in use and the child's high
    translations as they were; and the copy, in pages of its own, or nothing. *)
Definition copy_result (r : Z) (s' : kstate) : Prop :=
  (∀ P y, shield P → on_page P y → ld8 s'.(pmem) y = ld8 m0 y) ∧
  (∀ va, top ≤ va < MAXVA → leaf s'.(pmem) new va = hi va) ∧
  (r = 0 ∧
   (∀ va, 0 ≤ va < sz → copied s'.(pmem) va) ∧
   (∀ va, 0 ≤ va < top → has (leaf s'.(pmem) new va) PTE_V = true → ¬ shield (frame s'.(pmem) new va)) ∨
   r = -1 ∧ ∀ va, 0 ≤ va < top → has (leaf s'.(pmem) new va) PTE_V = false).

(** The outcome of code that has [l] to allocate from and [n] valid pages to
    copy: it gives up only if there are not three pages for each, the copy and
    two tables. *)
Definition copy_outcome (o : outcome kstate Z) (l : list Z) (n : nat) : Prop :=
  ∃ r s', o = Done r s' ∧ copy_result r s' ∧ (r = -1 → (length l < 3 * n)%nat).

Lemma abandon_result (s : kstate) Tn l i l1 n : copying s Tn l i → i mod PGSIZE = 0 → 0 ≤ i ≤ top →
  (length l1 < 3 * n)%nat → copy_outcome ((uvmunmap new 0 (i / PGSIZE) true ;; mret (-1)) s) l1 n.
Proof.
  intros Hc Hal Hi Hn. destruct (abandon s Tn l i Hc Hal Hi) as (s' & E & H1 & H2 & H3).
  exists (-1), s'. split; [by mstep E|]. split; [|done]. split; [done|]. split; [done|]. right. by split.
Qed.

Lemma copying_result s Tn l i : copying s Tn l i → sz ≤ i → copy_result 0 s.
Proof.
  intros Hc Hi. split; [apply (cp_keep _ _ _ _ Hc)|]. split; [apply (cp_high _ _ _ _ Hc)|]. left. split; [done|].
  split; [intros va Hva; apply (cp_done _ _ _ _ Hc); lia|]. intros va Hva HV. by apply (cp_own _ _ _ _ Hc).
Qed.

(** Copying one valid page: the rest of the loop body, with [next] the loop
    from the next page. *)
Lemma copy_page s Tn l i (next : K Z) n : copying s Tn l i → i mod PGSIZE = 0 → 0 ≤ i < top → i < sz →
  has (leaf m0 old i) PTE_V = true →
  (∀ s' Tn' l', copying s' Tn' l' (i + PGSIZE) → copy_outcome (next s') l' n) →
  copy_outcome
    ((mem ← kalloc;
     if mem =? 0 then uvmunmap new 0 (i / PGSIZE) true ;; mret (-1) else
     modify (set_pmem (λ m, memmove m mem (PTE2PA (leaf m0 old i)) PGSIZE)) ;;
     r ← mappages new i PGSIZE mem (PTE_FLAGS (leaf m0 old i));
     if negb (r =? 0) then
       kfree mem ;; uvmunmap new 0 (i / PGSIZE) true ;; mret (-1)
     else next) s) l (S n).
Proof.
  intros Hc Hal Hi His HV Hnext. destruct (cp_ok _ _ _ _ Hc) as [Hs Hl]. pose proof (cp_inv _ _ _ _ Hc) as HI.
  destruct l as [|r l].
  { mstep (kalloc_empty s Hs Hl (vi_free _ _ _ _ HI)). by eapply abandon_result; [|done|lia|cbn; lia]. }
  mstep (kalloc_pops s r l Hs Hl (vi_free _ _ _ _ HI)).
  destruct (fresh_page s Tn r l i (frame m0 old i) Hc) as (He & Hlf & Hown & Hnsh & Hfr & Hby); [apply Hframes; [lia|done]|].
  destruct (page_ok_56 _ (proj1 Hown)) as [Hral Hr].
  pose proof (page_ok_pos _ (proj1 Hown)) as [Hpos _].
  rewrite (proj2 (Z.eqb_neq r 0)) by lia. mnext.
  fold (frame m0 old i).
  set (s1 := set_pmem (λ m, memmove m r (frame m0 old i) PGSIZE) (kalloced r l s)) in *. clearbody s1.
  assert (Hc1 : copying s1 Tn l i) by (eapply copying_evolves; [exact Hc|exact He|lia|by intros]).
  assert (Hfr1 : ∀ va, 0 ≤ va < top → has (leaf s1.(pmem) new va) PTE_V = true → frame s1.(pmem) new va ≠ r).
  { intros va Hva. unfold frame. rewrite Hlf. by apply Hfr. }
  destruct (cp_ok _ _ _ _ Hc1) as [Hs1 Hl1].
  destruct (mappages_done new i PGSIZE r (PTE_FLAGS (leaf m0 old i)) s1 Tn l) as (rr & s2 & T2 & l2 & k & E & HI2 & Hg & Hpm & Hk & Htk);
    [done|done|apply Hc1|done|done|pg|lia|pg|lia|pg|apply flags_range|intros a Ha; apply (cp_rest _ _ _ _ Hc1); pg|].
  change (Z.to_nat (PGSIZE / PGSIZE)) with 1%nat in Htk.
  pose proof (evolves_grow _ _ _ _ _ _ Hs1 Hl1 HI2 Hg) as He2. mstep E.
  destruct Hk as [[-> Hk]|(-> & -> & Hk0 & Hk)]; cbn [Z.eqb negb].
  - assert (k = 1) as -> by pg. destruct (Hnext s2 T2 l2) as (r' & s' & En & Hres & Hlow); [by apply (copying_mapped s1 Tn l i s2 T2 l2 r); done || lia|].
    exists r', s'. split; [exact En|]. split; [exact Hres|]. intros Hr'. specialize (Hlow Hr'). destruct Htk as [Htk _]. cbn [length] in *. lia.
  - assert (k = 0) as -> by pg.
    assert (Hlf2 : ∀ va, 0 ≤ va < MAXVA → leaf s2.(pmem) new va = leaf s1.(pmem) new va).
    { intros va Hva. rewrite Hpm, decide_False by (done || pg). done. }
    pose proof (copying_evolves _ _ _ _ _ _ _ Hc1 He2 ltac:(lia) Hlf2) as Hc2.
    destruct (cp_ok _ _ _ _ Hc2) as [Hs2 Hl2]. mstep (kfree_pushes s2 r Hs2 Hl2 (proj1 Hown)).
    eapply abandon_result; [apply (give_back s2 T2 [] i r Hc2)|done|lia|]; try done; try lia.
    + by apply He2.
    + intros va Hva. unfold frame. rewrite Hlf2 by lia. by apply Hfr1.
    + destruct Htk as [_ Htk]. specialize (Htk eq_refl). cbn [length] in *. lia.
Qed.

Lemma uvmcopy_loop_done n s Tn l i : copying s Tn l i → i mod PGSIZE = 0 → 0 ≤ i ≤ top →
  top ≤ i + Z.of_nat n * PGSIZE →
  copy_outcome (uvmcopy_loop n old new i sz s) l (length (frames m0 old i n)).
Proof.
  revert s Tn l i. induction n as [|n IH]; intros s Tn l i Hc Hal Hi Hn; cbn [uvmcopy_loop];
    destruct (Z.leb_spec sz i) as [Hle|Hlt].
  1,3: exists 0, s; split; [done|]; split; [by eapply copying_result|done].
  { lia. }
  assert (Hit : i + PGSIZE ≤ top) by pg. assert (Hva : 0 ≤ i < MAXVA) by pg.
  assert (Hnext : u64 (i + PGSIZE) = i + PGSIZE) by (apply u64_small; pg). rewrite Hnext.
  assert (Hgo : ∀ s' Tn' l', copying s' Tn' l' (i + PGSIZE) →
    copy_outcome (uvmcopy_loop n old new (i + PGSIZE) sz s') l' (length (frames m0 old (i + PGSIZE) n))).
  { intros s' Tn' l' Hc'. eapply IH; [exact Hc'|pg|pg|lia]. }
  assert (Hskip : has (leaf m0 old i) PTE_V = false →
    copy_outcome (uvmcopy_loop n old new (i + PGSIZE) sz s) l (length (frames m0 old i (S n)))).
  { intros HV. cbn [frames]. rewrite HV. cbn [app]. eapply Hgo, copying_skip; [exact Hc|done|lia|done]. }
  destruct (old_walk s Tn l i i Hc Hva) as (Hw & H0 & H1). mstep Hw.
  destruct (Z.eqb_spec (slot_at m0 2 old i) 0) as [Hz|Hz]; [apply Hskip; by rewrite (H0 Hz)|].
  mnext. rewrite (H1 Hz). destruct (has (leaf m0 old i) PTE_V) eqn:HV; cbn [negb]; [|by apply Hskip].
  cbn [frames]. rewrite HV. cbn [app length]. by eapply copy_page; [exact Hc|done|lia|done|done|].
Qed.
End vmcopy.

Lemma copying_start `{Ly : Layout} old new sz top s T0 l0 :
  cpu_ok s → lock_free LkKmem s → vm_inv new s T0 l0 → top ≤ MAXVA →
  (∀ va, 0 ≤ va < top → has (leaf s.(pmem) new va) PTE_V = false) →
  copying old new sz top s.(pmem) T0 l0 (leaf s.(pmem) new) s T0 l0 0.
Proof.
  intros Hs Hl HI Hm Hun. split; try done.
  - intros va Hva. lia.
  - intros va Hva HV. by rewrite Hun in HV.
  - intros va va' Hva _ HV. by rewrite Hun in HV.
Qed.

(** C10. uvmcopy of a parent's [sz] bytes into a child with nothing mapped
    there always returns.  No page in use is written, so the parent keeps its
    translations and its memory, and the child its translations above [sz].
    On 0 every page of the parent has a copy in the child, with its flags and
    bytes, in a page that was free, and pages the parent lacks are missing in
    the child.  Otherwise it returns -1, and the child has no page below [sz];
    this happens only if memory ran out, with fewer than three free pages at
    the start for each page of the parent (its copy and two tables). *)
Theorem uvmcopy_copies `{Fl : Fuel} `{Ly : Layout} old new sz s T0 l0 To :
  cpu_ok s → lock_free LkKmem s → vm_inv new s T0 l0 → typed s.(pmem) old To →
  (∀ P x, To !! P = Some x → owned T0 l0 P) →
  (∀ va, 0 ≤ va < sz → has (leaf s.(pmem) old va) PTE_V = true → owned T0 l0 (frame s.(pmem) old va)) →
  0 ≤ sz ≤ MAXVA →
  (∀ va, 0 ≤ va < PGROUNDUP sz → has (leaf s.(pmem) new va) PTE_V = false) →
  ∃ r s', uvmcopy old new sz s = Done r s' ∧
    (∀ va, leaf s'.(pmem) old va = leaf s.(pmem) old va) ∧
    copy_result old new sz (PGROUNDUP sz) s.(pmem) T0 l0 (leaf s.(pmem) new) r s' ∧
    (r = -1 → (length l0 < 3 * length (frames s.(pmem) old 0 (Z.to_nat ((sz + PGSIZE - 1) / PGSIZE))))%nat).
Proof.
  intros Hs Hl HI Ho Ht Hf Hsz Hun.
  destruct (PGROUNDUP_spec sz) as [Hal Hup]; [lia|pg|]. assert (Hm : PGROUNDUP sz ≤ MAXVA) by pg.
  destruct (uvmcopy_loop_done old new sz (PGROUNDUP sz) s.(pmem) T0 l0 (leaf s.(pmem) new) To Ho Ht Hf
    (proj1 Hsz) Hup Hal Hm (Z.to_nat ((sz + PGSIZE - 1) / PGSIZE)) s T0 l0 0) as (r & s' & E & Hr & Hlow);
    [by apply copying_start|done|lia|pg|].
  exists r, s'. split; [exact E|]. split; [|by split]. intros va. eapply leaf_at_ext; [exact Ho|apply Ho|].
  intros P x y HP. by eapply (proj1 Hr), Ht.
Qed.

(** A parent with page 1 mapped and a child with an empty table, and memory
    enough: the page is copied. *)
Lemma uvmcopy_copies_witness : let F : Fuel := 1%nat in let L := layout64 in
  ∃ s s', has (leaf s.(pmem) demo_root 0x1000) PTE_V = true ∧
    uvmcopy demo_root 0x80046000 0x1800 s = Done 0 s' ∧
    copied demo_root 0x80046000 s.(pmem) s'.(pmem) 0x1000 ∧ has (leaf s'.(pmem) 0x80046000 0x1000) PTE_V = true.
Proof.
  intros F L. destruct demo_mapped as (s & T & l & _ & HI & Hs & Hl & HT & [Hin Hlen] & Hg & Hlf).
  destruct (vg_used _ _ _ _ _ _ Hg) as (used & El & Hu).
  assert (Ho : owned {[demo_root := (2%nat, 0)]} demo_free 0x80046000).
  { split; [by vm_compute|]. split; [by vm_compute|]. apply (bool_decide_unpack _). by vm_compute. }
  assert (Hnl : 0x80046000 ∉ demo_free) by apply Ho. rewrite El, elem_of_app in Hnl.
  assert (HnT : T !! 0x80046000 = None).
  { destruct (T !! 0x80046000) eqn:E; [|done]. destruct (Hu _ _ E) as [Hx|Hx]; [by vm_compute in Hx|tauto]. }
  assert (Hz : ∀ y, on_page 0x80046000 y → ld8 s.(pmem) y = 0).
  { intros y Hy. rewrite (untouched_grow _ _ _ _ _ _ _ HI Hg _ y Ho Hy). unfold on_page, PGSIZE in Hy.
    unfold demo_state. cbn [pmem set_freelist set_pmem]. rewrite !ld8_st64_ne by lia. unfold ld8. by rewrite lookup_empty. }
  assert (Hok : page_ok 0x80046000) by apply Ho.
  destruct (@uvmcopy_copies F L demo_root 0x80046000 0x1800 s {[0x80046000 := (2%nat, 0)]} l T Hs Hl) as (r & s' & E & _ & Hr & Hlow).
  - split; [by apply typed_empty|apply HI|]. intros P x [<- _]%lookup_singleton_Some. tauto.
  - apply HI.
  - intros P x HP. split; [by eapply typed_page; [apply HI|]|]. split; [|by eapply (vi_disj _ _ _ _ HI)].
    apply lookup_singleton_ne. intros <-. by rewrite HnT in HP.
  - intros va Hva. unfold frame. rewrite Hlf by pg. case_decide; [|done]. intros _. change (PTE2PA 0x20011417) with 0x80045000.
    split; [by vm_compute|]. split; [by vm_compute|done].
  - pg.
  - intros va _. unfold leaf. rewrite leaf_at_empty; done.
  - assert (Hp : has (leaf s.(pmem) demo_root 0x1000) PTE_V = true) by (rewrite Hlf by pg; by vm_compute).
    assert (Hfr : length (frames s.(pmem) demo_root 0 (Z.to_nat ((0x1800 + PGSIZE - 1) / PGSIZE))) = 1%nat).
    { change (Z.to_nat ((0x1800 + PGSIZE - 1) / PGSIZE)) with 2%nat. cbn [frames]. rewrite !Hlf by pg. by vm_compute. }
    rewrite Hfr in Hlow. change (length demo_free) with 6%nat in Hlen.
    destruct Hr as (_ & _ & [(-> & Hcp & _)|[Er _]]); [|specialize (Hlow Er); lia].
    exists s, s'. split; [exact Hp|]. split; [exact E|]. specialize (Hcp 0x1000 ltac:(lia)). split; [exact Hcp|].
    destruct Hcp as [-> _]. exact Hp.
Defined.
