(* ===== verification/Printf.v ===== *)
(** kernel/uart.c (output and input of bytes), consputc of kernel/console.c and
    kernel/printf.c.

    The loop of printf only calls consputc, so it is modelled by the sequence
    of those calls: [format] computes their arguments. *)

From S2P Require Import Prelude Cmem Kstate Spinlock Sleep.
From Stdlib Require Import Ascii.
Local Open Scope Z_scope.

(** The devices on the bus: the value of a register when it is read. *)
Class Device := reg : kstate → Z → Z.

(** The bytes of a string literal. *)
Fixpoint bytes_of (s : String.string) : list Z :=
  match s with
  | EmptyString => []
  | String c s => Z.of_nat (nat_of_ascii c) :: bytes_of s
  end.

Definition IER : Z := 1.
Definition FCR : Z := 2.
Definition ISR : Z := 2.
Definition LCR : Z := 3.
Definition LSR : Z := 5.
Definition IER_RX_ENABLE : Z := 1.
Definition IER_TX_ENABLE : Z := 2.
Definition FCR_FIFO_ENABLE : Z := 1.
Definition FCR_FIFO_CLEAR : Z := 6.
Definition LCR_EIGHT_BITS : Z := 3.
Definition LCR_BAUD_LATCH : Z := 128.
Definition LSR_RX_READY : Z := 1.
Definition LSR_TX_IDLE : Z := 32.
Definition BACKSPACE : Z := 0x100.

(** An argument of printf: an integer register, or a string (or null). *)
Inductive vararg : Type := Vint (x : Z) | Vstr (s : option (list Z)).
Definition va_int (a : vararg) : Z := match a with Vint x => x | Vstr _ => 0 end.
Definition va_str (a : vararg) : option (list Z) := match a with Vint _ => None | Vstr s => s end.

Section printf.
Context {Fl : Fuel} {Dv : Device}.

Definition mmio_write (a v : Z) : K unit := modify (set_mmio (λ l, l ++ [(a, v)])).
Definition ReadReg (r : Z) : K Z := gets (λ s, u8 (reg s (UART0 + r))).
Definition WriteReg (r v : Z) : K unit := mmio_write (UART0 + r) (u8 v).
(** Writing THR sends a byte. *)
Definition WriteTHR (c : Z) : K unit := modify (set_uart_out (λ l, l ++ [u8 c])).

Definition uartinit : K unit :=
  WriteReg IER 0 ;;
  WriteReg LCR LCR_BAUD_LATCH ;;
  WriteReg 0 0x03 ;;
  WriteReg 1 0x00 ;;
  WriteReg LCR LCR_EIGHT_BITS ;;
  WriteReg FCR (Z.lor FCR_FIFO_ENABLE FCR_FIFO_CLEAR) ;;
  WriteReg IER (Z.lor IER_TX_ENABLE IER_RX_ENABLE) ;;
  initlock LkTx.

Fixpoint uart_txwait (n : nat) : K unit :=
  match n with
  | O => out_of_fuel
  | S n =>
      b ← gets tx_busy;
      if b =? 0 then mret () else sleep ChTx LkTx ;; uart_txwait n
  end.

Definition uartwrite (buf : list Z) : K unit :=
  acquire LkTx ;;
  mfor buf (λ c,
    uart_txwait (S fuel) ;;
    WriteTHR c ;;
    modify (set_tx_busy (λ _, 1))) ;;
  release LkTx.

(** [while((ReadReg(LSR) & LSR_TX_IDLE) == 0) ;] *)
Fixpoint uart_spin (n : nat) : K unit :=
  match n with
  | O => out_of_fuel
  | S n =>
      r ← ReadReg LSR;
      if Z.land r LSR_TX_IDLE =? 0 then yield_cpu ;; uart_spin n else mret ()
  end.

Definition uartputc_sync (c : Z) : K unit :=
  pk ← gets panicking;
  when (pk =? 0) push_off ;;
  pd ← gets panicked;
  (if pd =? 0 then mret () else out_of_fuel) ;;
  uart_spin (S fuel) ;;
  WriteTHR c ;;
  pk ← gets panicking;
  when (pk =? 0) pop_off.

(** The next byte waiting in the UART, or -1. *)
Definition uartgetc : K Z :=
  l ← gets uart_in;
  match l with
  | c :: l => modify (set_uart_in (λ _, l)) ;; mret c
  | [] => mret (-1)
  end.

Definition consputc (c : Z) : K unit :=
  if c =? BACKSPACE then uartputc_sync 8 ;; uartputc_sync 32 ;; uartputc_sync 8
  else uartputc_sync c.

Definition digits (d : Z) : Z := bytes_of "0123456789abcdef" !!! Z.to_nat d.

(** [do buf[i++] = digits[x % base]; while((x /= base) != 0)] *)
Fixpoint print_digits (n : nat) (x base : Z) : list Z :=
  match n with
  | O => []
  | S n =>
      digits (x mod base) :: (if x / base =? 0 then [] else print_digits n (x / base) base)
  end.

(** The characters printint stores in [buf]; a 64-bit number has at most 64
    digits in any base. *)
Definition printint_buf (xx base : Z) (sign : bool) : list Z :=
  let neg := sign && (xx <? 0) in
  let x := if neg then u64 (- xx) else u64 xx in
  print_digits 64 x base ++ (if neg then [45] else []).

Definition printint (xx base : Z) (sign : bool) : list Z := reverse (printint_buf xx base sign).

Fixpoint printptr_loop (n : nat) (x : Z) : list Z :=
  match n with
  | O => []
  | S n => digits (Z.shiftr x 60) :: printptr_loop n (u64 (Z.shiftl x 4))
  end.
Definition printptr (x : Z) : list Z := [48; 120] ++ printptr_loop 16 (u64 x).

(** The arguments of consputc, in order.  [i] is the position in [fmt]. *)
Fixpoint format (n : nat) (fmt : list Z) (i : nat) (ap : list vararg) : list Z :=
  match n with
  | O => []
  | S n =>
      let ch k := default 0 (fmt !! k) in
      let arg := default (Vint 0) (head ap) in
      let rest := tail ap in
      let cx := ch i in
      if cx =? 0 then []
      else if negb (cx =? 37) then cx :: format n fmt (i + 1) ap
      else
        let i := (i + 1)%nat in
        let c0 := ch i in
        let c1 := if c0 =? 0 then 0 else ch (i + 1)%nat in
        let c2 := if c1 =? 0 then 0 else ch (i + 2)%nat in
        if c0 =? 100 (* d *) then
          printint (s32 (va_int arg)) 10 true ++ format n fmt (i + 1) rest
        else if (c0 =? 108) && (c1 =? 100) then
          printint (s64 (va_int arg)) 10 true ++ format n fmt (i + 2) rest
        else if (c0 =? 108) && (c1 =? 108) && (c2 =? 100) then
          printint (s64 (va_int arg)) 10 true ++ format n fmt (i + 3) rest
        else if c0 =? 117 (* u *) then
          printint (u32 (va_int arg)) 10 false ++ format n fmt (i + 1) rest
        else if (c0 =? 108) && (c1 =? 117) then
          printint (s64 (va_int arg)) 10 false ++ format n fmt (i + 2) rest
        else if (c0 =? 108) && (c1 =? 108) && (c2 =? 117) then
          printint (s64 (va_int arg)) 10 false ++ format n fmt (i + 3) rest
        else if c0 =? 120 (* x *) then
          printint (u32 (va_int arg)) 16 false ++ format n fmt (i + 1) rest
        else if (c0 =? 108) && (c1 =? 120) then
          printint (s64 (va_int arg)) 16 false ++ format n fmt (i + 2) rest
        else if (c0 =? 108) && (c1 =? 108) && (c2 =? 120) then
          printint (s64 (va_int arg)) 16 false ++ format n fmt (i + 3) rest
        else if c0 =? 112 (* p *) then
          printptr (va_int arg) ++ format n fmt (i + 1) rest
        else if c0 =? 99 (* c *) then
          u32 (va_int arg) :: format n fmt (i + 1) rest
        else if c0 =? 115 (* s *) then
          default (bytes_of "(null)") (va_str arg) ++ format n fmt (i + 1) rest
        else if c0 =? 37 then 37 :: format n fmt (i + 1) ap
        else if c0 =? 0 then []
        else 37 :: c0 :: format n fmt (i + 1) ap
  end.

(** One round for every character of the format, and the last test. *)
Definition printf (fmt : String.string) (ap : list vararg) : K Z :=
  pk ← gets panicking;
  when (pk =? 0) (acquire LkPr) ;;
  mfor (format (S (String.length fmt)) (bytes_of fmt) 0 ap) consputc ;;
  pk ← gets panicking;
  when (pk =? 0) (release LkPr) ;;
  mret 0.

(** What panic does before it spins forever. *)
Definition panic_report (msg : list Z) : K unit :=
  modify (set_panicking (λ _, 1)) ;;
  _ ← printf "panic: " [];
  _ ← printf "%s
" [Vstr (Some msg)];
  modify (set_panicked (λ _, 1)).

Definition printfinit : K unit := initlock LkPr.

(** ** What is printed *)

(** A UART that can always take a byte. *)
Definition uart_ready : Prop := ∀ s, Z.land (u8 (reg s (UART0 + LSR))) LSR_TX_IDLE ≠ 0.

Definition cbytes (c : Z) : list Z := if c =? BACKSPACE then [8; 32; 8] else [u8 c].

Definition printing (s : kstate) : Prop := cpu_ok s ∧ s.(panicking) = 0 ∧ s.(panicked) = 0.

Lemma uartputc_done c s :
  uart_ready → printing s → uartputc_sync c s = Done () (set_uart_out (λ l, l ++ [u8 c]) s).
Proof.
  intros Hr (Hs & Hk & Hd). unfold uartputc_sync. mnext. change (panicking s) with (panicking s). rewrite Hk. cbn [Z.eqb when].
  mstep (push_off_done s (proj1 Hs)).
  mnext. change (panicked (upd_cpu push_cpu s)) with (panicked s). rewrite Hd. cbn [Z.eqb]. mnext.
  assert (Hsp : uart_spin (S fuel) (upd_cpu push_cpu s) = Done () (upd_cpu push_cpu s)).
  { cbn [uart_spin]. unfold ReadReg. mnext. by rewrite (proj2 (Z.eqb_neq _ _) (Hr _)). }
  mstep Hsp. unfold WriteTHR. do 2 mnext.
  change (panicking (set_uart_out (λ l, l ++ [u8 c]) (upd_cpu push_cpu s))) with (panicking s).
  rewrite Hk. cbn [Z.eqb when].
  exact (pop_off_push (set_uart_out (λ l, l ++ [u8 c]) s) Hs).
Qed.

Lemma set_uart_out_app l1 l2 s :
  set_uart_out (λ l, l ++ l2) (set_uart_out (λ l, l ++ l1) s) = set_uart_out (λ l, l ++ (l1 ++ l2)) s.
Proof.
  change (set_uart_out (λ l, l ++ l2) (set_uart_out (λ l, l ++ l1) s))
    with (set_uart_out (λ l, (l ++ l1) ++ l2) s).
  unfold set_uart_out. by rewrite <- (assoc_L (++)).
Qed.

Lemma consputc_done c s :
  uart_ready → printing s → consputc c s = Done () (set_uart_out (λ l, l ++ cbytes c) s).
Proof.
  intros Hr Hp. unfold consputc, cbytes. destruct (c =? BACKSPACE); [|by apply uartputc_done].
  mstep (uartputc_done 8 s Hr Hp).
  mstep (uartputc_done 32 (set_uart_out (λ l, l ++ [u8 8]) s) Hr Hp).
  rewrite set_uart_out_app.
  rewrite (uartputc_done 8 (set_uart_out (λ l, l ++ ([u8 8] ++ [u8 32])) s) Hr Hp).
  by rewrite set_uart_out_app.
Qed.

Lemma consputs_done cs s :
  uart_ready → printing s →
  mfor cs consputc s = Done () (set_uart_out (λ l, l ++ (cs ≫= cbytes)) s).
Proof.
  intros Hr. revert s. induction cs as [|c cs IH]; intros s Hp; cbn [mfor].
  - cbn. unfold set_uart_out. by rewrite app_nil_r.
  - mstep (consputc_done c s Hr Hp).
    rewrite (IH (set_uart_out (λ l, l ++ cbytes c) s) Hp). by rewrite set_uart_out_app.
Qed.

Lemma printf_done fmt ap s :
  uart_ready → printing s → lock_free LkPr s →
  printf fmt ap s = Done 0 (set_uart_out
    (λ l, l ++ (format (S (String.length fmt)) (bytes_of fmt) 0 ap ≫= cbytes)) s).
Proof.
  intros Hr Hp Hl. pose proof Hp as (Hs & Hk & Hd). unfold printf.
  set (cs := format _ _ _ _). mnext. change (panicking s) with (panicking s). rewrite Hk. cbn [Z.eqb when].
  mstep (acquire_free _ _ (proj1 Hs) Hl).
  assert (Hp' : printing (acq LkPr s)) by (split; [by apply cpu_ok_acq|done]).
  mstep (consputs_done cs (acq LkPr s) Hr Hp'). mnext.
  set (s1 := set_uart_out (λ l, l ++ (cs ≫= cbytes)) s).
  change (set_uart_out (λ l, l ++ (cs ≫= cbytes)) (acq LkPr s)) with (acq LkPr s1).
  change (panicking (acq LkPr s1)) with (panicking s). rewrite Hk. cbn [Z.eqb when].
  mstep (release_acq LkPr s1 Hs Hl). done.
Qed.

(** ** Numbers *)

(** [c] is the character of digit [d]: '0' to '9', then 'a' to 'f'. *)
Definition digit_char (base d c : Z) : Prop :=
  0 ≤ d < base ∧ (d < 10 ∧ c = 48 + d ∨ 10 ≤ d < 16 ∧ c = 97 + (d - 10)).

(** The numeral of a number, most significant digit first, without leading
    zeros. *)
Inductive numeral (base : Z) : Z → list Z → Prop :=
| numeral_digit d c : digit_char base d c → numeral base d [c]
| numeral_more x l d c : numeral base x l → x ≠ 0 → digit_char base d c → numeral base (base * x + d) (l ++ [c]).

Lemma digits_char base d : 0 ≤ d < base → base ≤ 16 → digit_char base d (digits d).
Proof.
  intros Hd Hb. split; [done|].
  assert (Hall : Forall (λ d, d < 10 ∧ digits d = 48 + d ∨ 10 ≤ d < 16 ∧ digits d = 97 + (d - 10)) (seqZ 0 16)).
  { apply (bool_decide_unpack _). by vm_compute. }
  rewrite Forall_forall in Hall. apply Hall, elem_of_seqZ. lia.
Qed.

Lemma print_digits_numeral n x base :
  2 ≤ base ≤ 16 → 0 ≤ x < base ^ Z.of_nat n → (0 < n)%nat →
  numeral base x (reverse (print_digits n x base)).
Proof.
  intros Hb. revert x. induction n as [|n IH]; intros x Hx Hn; [lia|]. cbn [print_digits].
  assert (Hm : 0 ≤ x mod base < base) by (apply Z.mod_pos_bound; lia).
  pose proof (digits_char base (x mod base) Hm (proj2 Hb)) as Hd.
  pose proof (Z.div_mod x base ltac:(lia)) as Hdm. rewrite reverse_cons.
  destruct (x / base =? 0) eqn:E; bool_hyps.
  - replace x with (x mod base) at 1 by (rewrite E in Hdm; lia). by constructor.
  - assert (Hq : 0 ≤ x / base) by (apply Z.div_pos; lia). rewrite Hdm at 1. constructor; [|done|done].
    destruct n as [|n]; [rewrite Z.pow_1_r in Hx; rewrite Z.div_small in E; lia|].
    apply IH; [|lia]. split; [done|]. apply Z.div_lt_upper_bound; [lia|].
    rewrite <- Z.pow_succ_r, <- Nat2Z.inj_succ by lia. lia.
Qed.

Lemma print_digits_length n k x base :
  2 ≤ base → 0 ≤ x < base ^ Z.of_nat (S k) → (length (print_digits n x base) ≤ S k)%nat.
Proof.
  intros Hb. revert k x. induction n as [|n IH]; intros k x Hx; cbn [print_digits]; [cbn; lia|].
  destruct (x / base =? 0) eqn:E; bool_hyps; [cbn; lia|]. cbn [length].
  destruct k as [|k].
  - rewrite Z.pow_1_r in Hx. rewrite Z.div_small in E; lia.
  - assert (length (print_digits n (x / base) base) ≤ S k)%nat; [|lia]. apply IH.
    split; [apply Z.div_pos; lia|]. apply Z.div_lt_upper_bound; [lia|].
    rewrite <- Z.pow_succ_r, <- Nat2Z.inj_succ by lia. lia.
Qed.

(** C40. For the bases printf uses, printint prints the numeral of the number
    in that base, most significant digit first and without leading zeros, the
    digits being the characters '0' to '9' and 'a' to 'f'; before it stands a
    minus sign exactly for negative signed numbers.  It never overruns its
    20-byte buffer, not even for the most negative number. *)
Theorem printint_correct xx base sign :
  base = 10 ∨ base = 16 → (sign = true → base = 10) →
  -9223372036854775808 ≤ xx < 9223372036854775808 →
  ∃ ds, printint xx base sign = (if sign && (xx <? 0) then [45] else []) ++ ds ∧
    numeral base (if sign then Z.abs xx else u64 xx) ds ∧
    (length (printint_buf xx base sign) ≤ 20)%nat.
Proof.
  intros Hb Hs Hx.
  set (neg := sign && (xx <? 0)). set (x := if neg then u64 (- xx) else u64 xx).
  assert (Ex : x = if sign then Z.abs xx else u64 xx).
  { unfold x, neg. destruct sign; [|done]. cbn [andb]. destruct (xx <? 0) eqn:E; bool_hyps;
      rewrite u64_small; lia. }
  assert (Hr : 0 ≤ x < if sign then 10 ^ Z.of_nat 19 else base ^ Z.of_nat 20).
  { rewrite Ex. pose proof (u64_range xx). destruct sign; [cbn; lia|].
    destruct Hb as [-> | ->]; cbn; lia. }
  exists (reverse (print_digits 64 x base)). split; [|split].
  - unfold printint, printint_buf. fold neg. fold x. rewrite reverse_app. by destruct neg.
  - rewrite <- Ex. apply print_digits_numeral; [lia| |lia]. pose proof (u64_range xx).
    split; [lia|]. apply Z.lt_le_trans with (2 ^ 64); [destruct sign; [|destruct Hb as [-> | ->]]; cbn in Hr |- *; try lia|].
    + pose proof (Z.pow_le_mono_l 2 base 64). change (Z.of_nat 64) with 64. lia.
  - unfold printint_buf. fold neg. fold x. rewrite length_app. destruct sign.
    + rewrite (Hs eq_refl) in *.
      pose proof (print_digits_length 64 18 x 10 ltac:(lia) Hr). destruct neg; cbn [length]; lia.
    + pose proof (print_digits_length 64 19 x base ltac:(lia) Hr). cbn [neg length andb]. lia.
Qed.
End printf.

Lemma printint_correct_witness :
  printint (-9223372036854775808) 10 true = bytes_of "-9223372036854775808" ∧
  (length (printint_buf (-9223372036854775808) 10 true) ≤ 20)%nat ∧
  printint (-339) 16 false = bytes_of "fffffffffffffead" ∧ numeral 16 (2 ^ 64 - 339) (printint (-339) 16 false).
Proof.
  split; [by vm_compute|]. split; [|split; [by vm_compute|]].
  - destruct (printint_correct (-9223372036854775808) 10 true) as (ds & _ & _ & H);
      [by left|done|lia|exact H].
  - destruct (printint_correct (-339) 16 false) as (ds & E & H & _); [by right|done|lia|].
    rewrite E. exact H.
Defined.
