(* ===== verification/Bio.v ===== *)
(** kernel/bio.c: the buffer cache.

    [bufs] holds the NBUF buffers and, as its last entry, the head of the
    doubly linked list that orders them from most to least recently used.
    The disk driver is an interface: [disk_rw] is virtio_disk_rw. *)

From S2P Require Import Prelude Cmem Kstate Spinlock Sleep Sleeplock.
Local Open Scope Z_scope.

(** virtio_disk_rw(b, write) *)
Class BlockDev := disk_rw : nat → bool → K unit.

Definition HEAD : nat := NBUF.

Section bio.
Context {Fl : Fuel} {Bd : BlockDev}.

Definition binit : K unit :=
  initlock LkBcache ;;
  modify (upd_buf HEAD (set_b_prev (λ _, HEAD))) ;;
  modify (upd_buf HEAD (set_b_next (λ _, HEAD))) ;;
  mfor (seq 0 NBUF) (λ b,
    h ← gets (get_buf HEAD);
    modify (upd_buf b (set_b_next (λ _, h.(b_next)))) ;;
    modify (upd_buf b (set_b_prev (λ _, HEAD))) ;;
    initsleeplock (SlBuf b) ;;
    h ← gets (get_buf HEAD);
    modify (upd_buf h.(b_next) (set_b_prev (λ _, b))) ;;
    modify (upd_buf HEAD (set_b_next (λ _, b)))).

Definition holds (dev blockno : Z) (b : buf) : bool :=
  (b.(b_dev) =? dev) && (b.(b_blockno) =? blockno).

(** [for(b = head.next; b != &head; b = b->next)]: the first buffer of the block. *)
Fixpoint bget_cached (n : nat) (s : kstate) (b : nat) (dev blockno : Z) : option nat :=
  match n with
  | O => None
  | S n =>
      if (b =? HEAD)%nat then None
      else if holds dev blockno (get_buf b s) then Some b
      else bget_cached n s (get_buf b s).(b_next) dev blockno
  end.

(** [for(b = head.prev; b != &head; b = b->prev)]: the first unused buffer. *)
Fixpoint bget_unused (n : nat) (s : kstate) (b : nat) : option nat :=
  match n with
  | O => None
  | S n =>
      if (b =? HEAD)%nat then None
      else if (get_buf b s).(b_refcnt) =? 0 then Some b
      else bget_unused n s (get_buf b s).(b_prev)
  end.

(** The scans only read, so each is a function of the state; a list has at
    most NBUF buffers. *)
Definition bget (dev blockno : Z) : K nat :=
  acquire LkBcache ;;
  r ← gets (λ s, bget_cached (S NBUF) s (get_buf HEAD s).(b_next) dev blockno);
  match r with
  | Some b =>
      modify (upd_buf b (set_b_refcnt (λ r, u32 (r + 1)))) ;;
      release LkBcache ;;
      acquiresleep (SlBuf b) ;;
      mret b
  | None =>
      r ← gets (λ s, bget_unused (S NBUF) s (get_buf HEAD s).(b_prev));
      match r with
      | Some b =>
          modify (upd_buf b (set_b_dev (λ _, dev))) ;;
          modify (upd_buf b (set_b_blockno (λ _, blockno))) ;;
          modify (upd_buf b (set_b_valid (λ _, 0))) ;;
          modify (upd_buf b (set_b_refcnt (λ _, 1))) ;;
          release LkBcache ;;
          acquiresleep (SlBuf b) ;;
          mret b
      | None => panic "bget: no buffers"
      end
  end.

Definition bread (dev blockno : Z) : K nat :=
  b ← bget dev blockno;
  q ← gets (get_buf b);
  when (q.(b_valid) =? 0)
    (disk_rw b false ;;
     modify (upd_buf b (set_b_valid (λ _, 1)))) ;;
  mret b.

Definition bwrite (b : nat) : K unit :=
  h ← holdingsleep (SlBuf b);
  if negb h then panic "bwrite" else
  disk_rw b true.

(** The list surgery of brelse: unlink [b] and put it behind the head. *)
Definition brelse_front (b : nat) : K unit :=
  q ← gets (get_buf b);
  modify (upd_buf q.(b_next) (set_b_prev (λ _, q.(b_prev)))) ;;
  q ← gets (get_buf b);
  modify (upd_buf q.(b_prev) (set_b_next (λ _, q.(b_next)))) ;;
  h ← gets (get_buf HEAD);
  modify (upd_buf b (set_b_next (λ _, h.(b_next)))) ;;
  modify (upd_buf b (set_b_prev (λ _, HEAD))) ;;
  h ← gets (get_buf HEAD);
  modify (upd_buf h.(b_next) (set_b_prev (λ _, b))) ;;
  modify (upd_buf HEAD (set_b_next (λ _, b))).

Definition brelse (b : nat) : K unit :=
  h ← holdingsleep (SlBuf b);
  if negb h then panic "brelse" else
  releasesleep (SlBuf b) ;;
  acquire LkBcache ;;
  modify (upd_buf b (set_b_refcnt (λ r, u32 (r - 1)))) ;;
  q ← gets (get_buf b);
  when (q.(b_refcnt) =? 0) (brelse_front b) ;;
  release LkBcache.

Definition bpin (b : nat) : K unit :=
  acquire LkBcache ;;
  modify (upd_buf b (set_b_refcnt (λ r, u32 (r + 1)))) ;;
  release LkBcache.

Definition bunpin (b : nat) : K unit :=
  acquire LkBcache ;;
  modify (upd_buf b (set_b_refcnt (λ r, u32 (r - 1)))) ;;
  release LkBcache.
End bio.
