(* ===== verification/BioSpec.v ===== *)
(** What the buffer cache of [Bio] promises.

    Its abstract state maps block numbers to contents ([blk]), reference counts
    ([rc]) and locks ([lk]); every operation is described by its effect on
    these maps and on the disk.  [lru] relates the linked list to the order in
    which the buffers were last released. *)

From S2P Require Import Prelude Cmem Kstate Spinlock Sleep Sleeplock Bio.
Local Open Scope Z_scope.

(** ** Doubly linked lists *)

(** From [a] through [l] to [z]. *)
Fixpoint links (nx pv : nat → nat) (a : nat) (l : list nat) (z : nat) : Prop :=
  match l with
  | [] => nx a = z ∧ pv z = a
  | b :: l => nx a = b ∧ pv b = a ∧ links nx pv b l z
  end.

Lemma links_app nx pv a l1 b l2 z :
  links nx pv a (l1 ++ b :: l2) z ↔ links nx pv a l1 b ∧ links nx pv b l2 z.
Proof.
  revert a. induction l1 as [|c l1 IH]; intros a; cbn; [tauto|]. rewrite IH. tauto.
Qed.

Lemma links_ext nx pv nx' pv' a l z :
  (∀ x, x ∈ a :: l → nx' x = nx x) → (∀ x, x ∈ z :: l → pv' x = pv x) →
  links nx pv a l z → links nx' pv' a l z.
Proof.
  revert a. induction l as [|b l IH]; intros a Hn Hp; cbn.
  - rewrite Hn, Hp by (by left). done.
  - rewrite (Hn a), (Hp b) by set_solver. intros (? & ? & ?). split; [done|]. split; [done|].
    apply IH; [|set_solver|done]. intros x Hx. apply Hn. by right.
Qed.

Lemma links_rev nx pv a l z : links nx pv a l z → links pv nx z (reverse l) a.
Proof.
  revert a. induction l as [|b l IH]; intros a; cbn [links].
  - by intros [? ?].
  - intros (? & ? & Hl). rewrite reverse_cons, links_app. split; [by apply IH|]. done.
Qed.

(** Sending the last link of a segment to another node. *)
Lemma links_to nx pv nx' pv' a l b y :
  links nx pv a l b → NoDup (a :: l) →
  (∀ x, x ∈ a :: l → x ≠ pv b → nx' x = nx x) → nx' (pv b) = y →
  (∀ x, x ∈ l → pv' x = pv x) → pv' y = pv b →
  links nx' pv' a l y ∧ pv b ∈ a :: l.
Proof.
  revert a. induction l as [|c l IH]; intros a Hl Hnd Hn Hy Hp Hpy; cbn in Hl |- *.
  - destruct Hl as [_ E]. rewrite E in *. split; [done|by left].
  - destruct Hl as (E1 & E2 & Hl). apply NoDup_cons in Hnd as [Ha Hnd].
    destruct (IH c Hl Hnd) as [IH1 IH2]; [set_solver|done|set_solver|done|].
    split; [|by right]. split; [|split; [|done]].
    + rewrite Hn; [done|by left|]. intros ->. done.
    + rewrite Hp; [done|by left].
Qed.

(** Starting a segment from another node. *)
Lemma links_from nx pv nx' pv' b l z a :
  links nx pv b l z → NoDup (z :: l) →
  (∀ x, x ∈ l → nx' x = nx x) → nx' a = nx b →
  (∀ x, x ∈ z :: l → x ≠ nx b → pv' x = pv x) → pv' (nx b) = a →
  links nx' pv' a l z.
Proof.
  intros Hl Hnd Hn Ha Hp Hpb. destruct l as [|c l]; cbn in Hl |- *.
  - destruct Hl as [E _]. by rewrite E in *.
  - destruct Hl as (E1 & _ & Hl). rewrite E1 in *. split; [done|]. split; [done|].
    eapply links_ext; [| |done]; [done|]. intros x Hx. apply Hp; [set_solver|].
    apply NoDup_cons in Hnd as [Hz Hnd]. apply NoDup_cons in Hnd as [Hc Hnd].
    intros ->. set_solver.
Qed.

(** ** The order of the buffers *)

Definition nx (bs : list buf) (i : nat) : nat := (bs !!! i).(b_next).
Definition pv (bs : list buf) (i : nat) : nat := (bs !!! i).(b_prev).

Record lru (bs : list buf) (l : list nat) : Prop := {
  lru_len : length bs = S NBUF;
  lru_links : links (nx bs) (pv bs) HEAD l HEAD;
  lru_perm : l ≡ₚ seq 0 NBUF }.

Lemma lru_elem bs l i : lru bs l → i ∈ l ↔ (i < NBUF)%nat.
Proof.
  intros H. rewrite (lru_perm _ _ H), elem_of_seq. lia.
Qed.

Lemma lru_nodup bs l : lru bs l → NoDup (HEAD :: l).
Proof.
  intros H. apply NoDup_cons. split.
  - rewrite (lru_elem _ _ _ H). unfold HEAD. lia.
  - rewrite (lru_perm _ _ H). apply NoDup_seq.
Qed.

(** Links written to one buffer. *)
Lemma nx_set_next bs i v j : (i < length bs)%nat →
  nx (alter (set_b_next (λ _, v)) i bs) j = if decide (i = j) then v else nx bs j.
Proof. intros Hi. unfold nx. rewrite lookup_total_alter_list by done. by case_decide. Qed.
Lemma pv_set_next bs i v j : (i < length bs)%nat →
  pv (alter (set_b_next (λ _, v)) i bs) j = pv bs j.
Proof. intros Hi. unfold pv. rewrite lookup_total_alter_list by done. by case_decide. Qed.
Lemma pv_set_prev bs i v j : (i < length bs)%nat →
  pv (alter (set_b_prev (λ _, v)) i bs) j = if decide (i = j) then v else pv bs j.
Proof. intros Hi. unfold pv. rewrite lookup_total_alter_list by done. by case_decide. Qed.
Lemma nx_set_prev bs i v j : (i < length bs)%nat →
  nx (alter (set_b_prev (λ _, v)) i bs) j = nx bs j.
Proof. intros Hi. unfold nx. rewrite lookup_total_alter_list by done. by case_decide. Qed.

(** The six assignments of brelse. *)
Definition unlink (b : nat) (bs : list buf) : list buf :=
  let bs := alter (set_b_prev (λ _, pv bs b)) (nx bs b) bs in
  alter (set_b_next (λ _, nx bs b)) (pv bs b) bs.
Definition push_front (b : nat) (bs : list buf) : list buf :=
  let bs := alter (set_b_next (λ _, nx bs HEAD)) b bs in
  let bs := alter (set_b_prev (λ _, HEAD)) b bs in
  let bs := alter (set_b_prev (λ _, b)) (nx bs HEAD) bs in
  alter (set_b_next (λ _, b)) HEAD bs.

Lemma links_ends nx pv a l z : links nx pv a l z → (nx a = z ∨ nx a ∈ l) ∧ (pv z = a ∨ pv z ∈ l).
Proof.
  revert a. induction l as [|b l IH]; intros a; cbn; [tauto|]. intros (-> & ? & Hl).
  split; [right; by left|]. destruct (IH _ Hl) as [_ [->|?]]; right; [by left|by right].
Qed.

Lemma unlink_links bs b l1 l2 :
  length bs = S NBUF → links (nx bs) (pv bs) HEAD (l1 ++ b :: l2) HEAD →
  NoDup (HEAD :: l1 ++ b :: l2) → (∀ x, x ∈ HEAD :: l1 ++ b :: l2 → (x < length bs)%nat) →
  links (nx (unlink b bs)) (pv (unlink b bs)) HEAD (l1 ++ l2) HEAD.
Proof.
  intros Hlen Hl Hnd Hlt. apply links_app in Hl as [H1 H2].
  apply NoDup_cons in Hnd as [Hh Hnd]. apply NoDup_app in Hnd as (Hn1 & Hn12 & Hn2).
  apply NoDup_cons in Hn2 as [Hb2 Hn2].
  destruct (links_ends _ _ _ _ _ H1) as [_ Hx]. destruct (links_ends _ _ _ _ _ H2) as [Hy _].
  assert (Hxl : pv bs b ∈ HEAD :: l1) by (destruct Hx as [->|]; [by left|by right]).
  assert (Hyl : nx bs b ∈ HEAD :: l2) by (destruct Hy as [->|]; [by left|by right]).
  assert (Hxb : pv bs b ≠ b) by (intros E; rewrite E in Hxl; set_solver).
  assert (Hyb : nx bs b ≠ b) by (intros E; rewrite E in Hyl; set_solver).
  assert (Hxlt : (pv bs b < length bs)%nat) by (apply Hlt; set_solver).
  assert (Hylt : (nx bs b < length bs)%nat) by (apply Hlt; set_solver).
  assert (Hnx : ∀ j, nx (unlink b bs) j = if decide (pv bs b = j) then nx bs b else nx bs j).
  { intros j. unfold unlink. rewrite nx_set_next by (by rewrite length_alter, pv_set_prev; [case_decide|]).
    rewrite !nx_set_prev, pv_set_prev by done. rewrite (decide_False (P := nx bs b = b)) by done. done. }
  assert (Hpv : ∀ j, pv (unlink b bs) j = if decide (nx bs b = j) then pv bs b else pv bs j).
  { intros j. unfold unlink. rewrite pv_set_next by (by rewrite length_alter, pv_set_prev; [case_decide|]).
    by rewrite pv_set_prev. }
  assert (Hseg1 : links (nx (unlink b bs)) (pv (unlink b bs)) HEAD l1 (nx bs b)).
  { eapply links_to; [exact H1|by apply NoDup_cons; set_solver|..].
    - intros x _ Hne. rewrite Hnx. by rewrite decide_False.
    - rewrite Hnx. by rewrite decide_True.
    - intros x Hxin. rewrite Hpv, decide_False; [done|]. intros <-.
      apply elem_of_cons in Hyl as [E|?]; [rewrite E in Hxin; set_solver|set_solver].
    - rewrite Hpv. by rewrite decide_True. }
  destruct l2 as [|c l2]; cbn in H2.
  - destruct H2 as [E _]. rewrite E in Hseg1. by rewrite app_nil_r.
  - destruct H2 as (E & _ & H2). rewrite E in *. apply links_app. split; [done|].
    apply NoDup_cons in Hn2 as [Hc Hn2].
    eapply links_ext; [| |exact H2].
    + intros x Hxin. rewrite Hnx, decide_False; [done|]. intros <-.
      apply elem_of_cons in Hxl as [E'|?]; [rewrite E' in Hxin; set_solver|set_solver].
    + intros x Hxin. rewrite Hpv, decide_False; [done|]. intros <-. set_solver.
Qed.

Lemma push_front_links bs b l :
  length bs = S NBUF → links (nx bs) (pv bs) HEAD l HEAD → NoDup (HEAD :: b :: l) →
  (∀ x, x ∈ HEAD :: b :: l → (x < length bs)%nat) →
  links (nx (push_front b bs)) (pv (push_front b bs)) HEAD (b :: l) HEAD.
Proof.
  intros Hlen Hl Hnd Hlt. apply NoDup_cons in Hnd as [Hh Hnd]. apply NoDup_cons in Hnd as [Hb Hnd].
  assert (HbH : b ≠ HEAD) by (intros ->; apply Hh; by left).
  destruct (links_ends _ _ _ _ _ Hl) as [Hy _].
  assert (Hyl : nx bs HEAD ∈ HEAD :: l) by (destruct Hy as [->|]; [by left|by right]).
  assert (Hyb : nx bs HEAD ≠ b) by (intros E; rewrite E in Hyl; set_solver).
  assert (Hylt : (nx bs HEAD < length bs)%nat) by (apply Hlt; set_solver).
  assert (Hblt : (b < length bs)%nat) by (apply Hlt; set_solver).
  assert (HHlt : (HEAD < length bs)%nat) by (apply Hlt; by left).
  assert (Hnx : ∀ j, nx (push_front b bs) j =
    if decide (HEAD = j) then b else if decide (b = j) then nx bs HEAD else nx bs j).
  { intros j. unfold push_front.
    rewrite nx_set_next by (by rewrite !length_alter). case_decide; [done|].
    rewrite !nx_set_prev by (rewrite ?length_alter, ?nx_set_prev, ?nx_set_next;
      rewrite ?length_alter; try done; by case_decide).
    by rewrite nx_set_next. }
  assert (Hpv : ∀ j, pv (push_front b bs) j =
    if decide (nx bs HEAD = j) then b else if decide (b = j) then HEAD else pv bs j).
  { intros j. unfold push_front. rewrite pv_set_next by (by rewrite !length_alter).
    assert (E : nx (alter (set_b_prev (λ _, HEAD)) b (alter (set_b_next (λ _, nx bs HEAD)) b bs)) HEAD
                = nx bs HEAD).
    { rewrite nx_set_prev, nx_set_next by (by rewrite ?length_alter). by rewrite decide_False. }
    rewrite E. rewrite pv_set_prev by (by rewrite !length_alter). case_decide; [done|].
    rewrite pv_set_prev, pv_set_next by (by rewrite ?length_alter). done. }
  cbn [links]. split; [rewrite Hnx; by rewrite decide_True|]. split.
  { rewrite Hpv. rewrite decide_False by done. by rewrite decide_True. }
  eapply links_from; [exact Hl|by apply NoDup_cons; set_solver|..].
  - intros x Hx. rewrite Hnx. rewrite !decide_False; [done|set_solver..].
  - rewrite Hnx. rewrite decide_False by done. by rewrite decide_True.
  - intros x Hx Hne. rewrite Hpv. rewrite !decide_False; [done| |done]. set_solver.
  - rewrite Hpv. by rewrite decide_True.
Qed.

Definition to_front (b : nat) (l : list nat) : list nat := b :: filter (λ x, x ≠ b) l.

Lemma filter_ne_split (b : nat) l1 l2 : NoDup (l1 ++ b :: l2) → filter (λ x, x ≠ b) (l1 ++ b :: l2) = l1 ++ l2.
Proof.
  intros Hnd. assert (H : ∀ l : list nat, b ∉ l → filter (λ x, x ≠ b) l = l).
  { intros l Hl. induction l as [|x l IH]; [done|]. rewrite filter_cons_True by set_solver.
    f_equal. apply IH. set_solver. }
  apply NoDup_app in Hnd as (_ & H12 & [Hb _]%NoDup_cons).
  rewrite filter_app, filter_cons_False by tauto. rewrite !H; [done|done|]. set_solver.
Qed.

Lemma length_unlink b bs : length (unlink b bs) = length bs.
Proof. unfold unlink. by rewrite !length_alter. Qed.
Lemma length_push_front b bs : length (push_front b bs) = length bs.
Proof. unfold push_front. by rewrite !length_alter. Qed.

(** Releasing a buffer moves it to the front of the order. *)
Lemma lru_to_front bs l b :
  lru bs l → (b < NBUF)%nat → lru (push_front b (unlink b bs)) (to_front b l).
Proof.
  intros HL Hb. pose proof HL as [Hlen Hlk Hperm].
  assert (Hin : b ∈ l) by (by apply (lru_elem _ _ _ HL)).
  apply list_elem_of_split in Hin as (l1 & l2 & ->).
  pose proof (lru_nodup _ _ HL) as Hnd.
  assert (Hlt : ∀ x, x ∈ HEAD :: l1 ++ b :: l2 → (x < length bs)%nat).
  { intros x [->|Hx]%elem_of_cons; [unfold HEAD; lia|]. apply (lru_elem _ _ _ HL) in Hx. lia. }
  assert (Hp : b :: l1 ++ l2 ≡ₚ seq 0 NBUF) by (rewrite <- Hperm; apply Permutation_middle).
  unfold to_front. rewrite filter_ne_split by (by apply NoDup_cons in Hnd as [_ ?]).
  split; [by rewrite length_push_front, length_unlink| |done].
  apply push_front_links.
  - by rewrite length_unlink.
  - by apply unlink_links.
  - apply NoDup_cons. split; [|rewrite Hp; apply NoDup_seq].
    rewrite Hp, elem_of_seq. unfold HEAD. lia.
  - rewrite length_unlink. intros x [->|Hx]%elem_of_cons; [unfold HEAD; lia|].
    rewrite Hp, elem_of_seq in Hx. lia.
Qed.

(** Updates that keep the links keep the order. *)
Lemma lru_ext bs bs' l :
  length bs' = length bs → (∀ i, nx bs' i = nx bs i ∧ pv bs' i = pv bs i) → lru bs l → lru bs' l.
Proof.
  intros Hlen H [H1 H2 H3]. split; [lia| |done].
  eapply links_ext; [| |done]; intros x _; apply H.
Qed.

(** ** The scans of bget *)

Lemma scan_next (s : kstate) dev bno a l n :
  links (nx s.(bufs)) (pv s.(bufs)) a l HEAD → HEAD ∉ l → (length l < n)%nat →
  bget_cached n s (nx s.(bufs) a) dev bno = find (λ i, holds dev bno (get_buf i s)) l.
Proof.
  revert a n. induction l as [|b l IH]; intros a [|n] Hl Hh Hn; cbn in Hn; try lia; cbn [links] in Hl.
  - destruct Hl as [-> _]. done.
  - destruct Hl as (-> & _ & Hl). cbn [bget_cached find].
    rewrite (proj2 (Nat.eqb_neq b HEAD)) by set_solver.
    destruct (holds dev bno (get_buf b s)); [done|].
    apply (IH b n Hl); [set_solver|cbn in Hn; lia].
Qed.

Lemma scan_prev (s : kstate) z l n :
  links (pv s.(bufs)) (nx s.(bufs)) z l HEAD → HEAD ∉ l → (length l < n)%nat →
  bget_unused n s (pv s.(bufs) z) = find (λ i, (get_buf i s).(b_refcnt) =? 0) l.
Proof.
  revert z n. induction l as [|b l IH]; intros z [|n] Hl Hh Hn; cbn in Hn; try lia; cbn [links] in Hl.
  - destruct Hl as [-> _]. done.
  - destruct Hl as (-> & _ & Hl). cbn [bget_unused find].
    rewrite (proj2 (Nat.eqb_neq b HEAD)) by set_solver.
    destruct ((get_buf b s).(b_refcnt) =? 0); [done|].
    apply (IH b n Hl); [set_solver|cbn in Hn; lia].
Qed.

Lemma bget_scans s l dev bno :
  lru s.(bufs) l →
  bget_cached (S NBUF) s (get_buf HEAD s).(b_next) dev bno = find (λ i, holds dev bno (get_buf i s)) l ∧
  bget_unused (S NBUF) s (get_buf HEAD s).(b_prev) = find (λ i, (get_buf i s).(b_refcnt) =? 0) (reverse l).
Proof.
  intros HL. pose proof (lru_nodup _ _ HL) as [Hh _]%NoDup_cons.
  assert (Hlen : length l = NBUF) by (rewrite (lru_perm _ _ HL); apply length_seq).
  split.
  - apply scan_next; [apply HL|done|lia].
  - apply scan_prev; [by apply links_rev, HL|by rewrite elem_of_reverse|rewrite length_reverse; lia].
Qed.

(** ** The driver's promise *)

(** What a completed transfer of buffer [i] changes. *)
Definition rw_effect (i : nat) (write : bool) (s : kstate) : kstate :=
  let q := get_buf i s in
  if write then
    set_disk_writes (λ w, w ++ [(q.(b_blockno), q.(b_data))])
      (set_disk <[q.(b_blockno) := q.(b_data)]> s)
  else upd_buf i (set_b_data (λ _, disk_block s q.(b_blockno))) s.

(** The driver's own state and its writes to the device's registers. *)
Definition dev_to (d : vdisk * list (Z * Z)) (s : kstate) : kstate :=
  set_mmio (λ _, d.2) (set_kvdisk (λ _, d.1) s).

Class BlockDevSpec `{Bd : BlockDev} := {
  dev_ok : vdisk → Prop;
  disk_rw_spec p i w s :
    quiet p s → dev_ok s.(kvdisk) → (i < NBUF)%nat → length s.(bufs) = S NBUF →
    (get_buf i s).(b_disk) = 0 → length (get_buf i s).(b_data) = 1024%nat →
    0 ≤ (get_buf i s).(b_blockno) < 2147483648 →
    ∃ vd, dev_ok vd.1 ∧ disk_rw i w s = Done () (dev_to vd (rw_effect i w s)) }.

(** ** Contents, reference counts and locks by block number *)

Definition free_lock : sleeplock := mk_sleeplock 0 0.

(** Buffer [i] caches block [b] of the root device. *)
Definition hb (bs : list buf) (i : nat) (b : Z) : Prop :=
  (i < NBUF)%nat ∧ (bs !!! i).(b_dev) = ROOTDEV ∧ (bs !!! i).(b_blockno) = b.

Definition idx_of (bs : list buf) (b : Z) : option nat :=
  find (λ i, holds ROOTDEV b (bs !!! i)) (seq 0 NBUF).

Definition attr {A} (f : buf → A) (d : A) (bs : list buf) (b : Z) : A :=
  match idx_of bs b with Some i => f (bs !!! i) | None => d end.

Definition rc (s : kstate) (b : Z) : Z := attr b_refcnt 0 s.(bufs) b.
Definition lk (s : kstate) (b : Z) : sleeplock := attr b_lock free_lock s.(bufs) b.
Definition blk (s : kstate) (b : Z) : list Z := attr b_data (disk_block s b) s.(bufs) b.
Definition in_use (bs : list buf) : list nat := filter (λ i, (bs !!! i).(b_refcnt) ≠ 0) (seq 0 NBUF).
Definition used (s : kstate) : nat := length (in_use s.(bufs)).

(** The cache between calls: each block in at most one buffer, every cached
    block read, and unused buffers clean and unlocked. *)
Record bc (s : kstate) : Prop := {
  bc_lru : ∃ l, lru s.(bufs) l;
  bc_uniq i j b : hb s.(bufs) i b → hb s.(bufs) j b → i = j;
  bc_valid i b : hb s.(bufs) i b → (get_buf i s).(b_valid) = 1;
  bc_clean i b : hb s.(bufs) i b → (get_buf i s).(b_refcnt) = 0 →
    (get_buf i s).(b_data) = disk_block s b;
  bc_unlocked i : (i < NBUF)%nat → (get_buf i s).(b_refcnt) = 0 → (get_buf i s).(b_lock) = free_lock;
  bc_range i : (i < NBUF)%nat → 0 ≤ (get_buf i s).(b_refcnt) ∧ (get_buf i s).(b_disk) = 0 ∧
    length (get_buf i s).(b_data) = 1024%nat;
  bc_disk b : length (disk_block s b) = 1024%nat }.

Lemma holds_true dev b q : holds dev b q = true ↔ q.(b_dev) = dev ∧ q.(b_blockno) = b.
Proof. unfold holds. rewrite andb_true_iff, !Z.eqb_eq. done. Qed.

Lemma find_Some_1 {A} (f : A → bool) l x : find f l = Some x → x ∈ l ∧ f x = true.
Proof. intros H. apply find_some in H as [Hin Hf]. by apply list_elem_of_In in Hin. Qed.

Lemma find_None_1 {A} (f : A → bool) l x : find f l = None → x ∈ l → f x = false.
Proof. intros H Hin. eapply find_none; [done|]. by apply list_elem_of_In. Qed.

Lemma idx_Some bs b i : idx_of bs b = Some i → hb bs i b.
Proof.
  intros [Hi%elem_of_seq Hh%holds_true]%find_Some_1. split; [lia|done].
Qed.

Lemma idx_None bs b i : idx_of bs b = None → ¬ hb bs i b.
Proof.
  intros H (Hi & Hd & Hb). unfold idx_of in H.
  assert (Hin : i ∈ seq 0 NBUF) by (apply elem_of_seq; lia).
  pose proof (find_None_1 _ _ _ H Hin) as Hf.
  cbv beta in Hf. rewrite (proj2 (holds_true ROOTDEV b (bs !!! i))) in Hf; done.
Qed.

Lemma idx_hb bs b i : (∀ i j, hb bs i b → hb bs j b → i = j) → hb bs i b → idx_of bs b = Some i.
Proof.
  intros Hu Hi. destruct (idx_of bs b) as [j|] eqn:E.
  - f_equal. apply Hu; [by apply idx_Some|done].
  - by apply (idx_None _ _ i) in E.
Qed.

Lemma attr_hb {A} (f : buf → A) d s i b : bc s → hb s.(bufs) i b → attr f d s.(bufs) b = f (get_buf i s).
Proof.
  intros Hbc Hi. unfold attr. rewrite (idx_hb _ _ i); [done| |done].
  intros j k. apply Hbc.
Qed.

Lemma attr_none {A} (f : buf → A) d bs b : (∀ i, ¬ hb bs i b) → attr f d bs b = d.
Proof.
  intros H. unfold attr. destruct (idx_of bs b) eqn:E; [|done].
  apply idx_Some in E. by destruct (H n).
Qed.

(** Either a block is cached or it is not. *)
Lemma cached_dec bs b : (∃ i, hb bs i b) ∨ (∀ i, ¬ hb bs i b).
Proof.
  destruct (idx_of bs b) as [i|] eqn:E; [left; exists i; by apply idx_Some|right].
  intros i. by apply idx_None.
Qed.

(** A buffer that is not in use exists when not all are. *)
Lemma unused_exists s : (used s < NBUF)%nat → ∃ i, (i < NBUF)%nat ∧ (get_buf i s).(b_refcnt) = 0.
Proof.
  intros Hu. destruct (decide (Exists (λ i, (get_buf i s).(b_refcnt) = 0) (seq 0 NBUF))) as [H|H].
  - apply Exists_exists in H as (i & Hi%elem_of_seq & Hr). exists i. split; [lia|done].
  - exfalso. apply not_Exists_Forall in H; [|apply _]. unfold used, in_use in Hu.
    assert (Hall : ∀ l : list nat, Forall (λ i, (get_buf i s).(b_refcnt) ≠ 0) l →
      filter (λ i, (s.(bufs) !!! i).(b_refcnt) ≠ 0) l = l).
    { induction l as [|x l IH]; intros Hf; [done|]. apply Forall_cons in Hf as [Hx Hf].
      rewrite filter_cons_True by done. by rewrite IH. }
    rewrite Hall, length_seq in Hu; [lia|]. by eapply Forall_impl.
Qed.

(** ** Steps of the cache *)

Section steps.
Context {Fl : Fuel} `{Bs : BlockDevSpec}.

Definition bit (r : Z) : Z := if r =? 0 then 0 else 1.

(** From [s] to [s'] the count of block [b] becomes [r] and its lock [k];
    contents, the disk and everything outside the cache stay, and buffers in
    use keep their blocks. *)
Record cache_to (s s' : kstate) (b r : Z) (k : sleeplock) : Prop := {
  ct_state : ∃ bs vd, s' = dev_to vd (set_bufs (λ _, bs) s) ∧ dev_ok vd.1;
  ct_bc : bc s';
  ct_blk b' : blk s' b' = blk s b';
  ct_rc b' : rc s' b' = if decide (b' = b) then r else rc s b';
  ct_lk b' : lk s' b' = if decide (b' = b) then k else lk s b';
  ct_used : Z.of_nat (used s') = Z.of_nat (used s) + bit r - bit (rc s b);
  ct_hb i b' : hb s.(bufs) i b' → 0 < rc s b' → hb s'.(bufs) i b' }.

(** Buffers equal up to their links. *)
Definition core (q : buf) : buf := set_b_prev (λ _, O) (set_b_next (λ _, O) q).

Lemma hb_core bs bs' i b : core (bs' !!! i) = core (bs !!! i) → hb bs' i b ↔ hb bs i b.
Proof.
  intros E. unfold hb. assert (E1 : (bs' !!! i).(b_dev) = (bs !!! i).(b_dev)) by
    (exact (f_equal b_dev E)).
  assert (E2 : (bs' !!! i).(b_blockno) = (bs !!! i).(b_blockno)) by (exact (f_equal b_blockno E)).
  by rewrite E1, E2.
Qed.

Lemma find_ext {A} (f g : A → bool) l : (∀ x, x ∈ l → f x = g x) → find f l = find g l.
Proof.
  induction l as [|x l IH]; intros H; [done|]. cbn. rewrite H by (by left).
  rewrite IH; [done|]. intros y Hy. apply H. by right.
Qed.

Lemma idx_core bs bs' b :
  (∀ i, (i < NBUF)%nat → (bs' !!! i).(b_dev) = (bs !!! i).(b_dev) ∧
     (bs' !!! i).(b_blockno) = (bs !!! i).(b_blockno)) →
  idx_of bs' b = idx_of bs b.
Proof.
  intros H. apply find_ext. intros i Hi%elem_of_seq. unfold holds.
  by destruct (H i) as [-> ->]; [lia|].
Qed.

Lemma filter_ext_in {A} (P Q : A → Prop) `{!∀ x, Decision (P x), !∀ x, Decision (Q x)} (l : list A) :
  (∀ x, x ∈ l → P x ↔ Q x) → filter P l = filter Q l.
Proof.
  induction l as [|x l IH]; intros HPQ; [done|].
  assert (IH' : filter P l = filter Q l) by (apply IH; intros y Hy; apply HPQ; by right).
  assert (Hx : P x ↔ Q x) by (apply HPQ; by left).
  destruct (decide (P x)) as [HP|HP].
  - rewrite !filter_cons_True by tauto. by f_equal.
  - rewrite !filter_cons_False by tauto. done.
Qed.

(** How many buffers are in use after the count of one changed. *)
Lemma in_use_update bs bs' i :
  (i < NBUF)%nat →
  (∀ j, (j < NBUF)%nat → j ≠ i → (bs' !!! j).(b_refcnt) = (bs !!! j).(b_refcnt)) →
  Z.of_nat (length (in_use bs')) =
    Z.of_nat (length (in_use bs)) + bit (bs' !!! i).(b_refcnt) - bit (bs !!! i).(b_refcnt).
Proof.
  intros Hi Hj. unfold in_use.
  assert (Hs : seq 0 NBUF = seq 0 i ++ i :: seq (S i) (NBUF - S i)).
  { replace NBUF with (i + S (NBUF - S i))%nat at 1 by lia. by rewrite seq_app. }
  rewrite Hs, !filter_app, !length_app.
  rewrite (filter_ext_in (λ j, (bs' !!! j).(b_refcnt) ≠ 0) (λ j, (bs !!! j).(b_refcnt) ≠ 0) (seq 0 i)).
  2:{ intros x Hx%elem_of_seq. rewrite Hj by lia. done. }
  assert (Ht : filter (λ j, (bs' !!! j).(b_refcnt) ≠ 0) (seq (S i) (NBUF - S i)) =
               filter (λ j, (bs !!! j).(b_refcnt) ≠ 0) (seq (S i) (NBUF - S i))).
  { apply filter_ext_in. intros x Hx%elem_of_seq. rewrite Hj by lia. done. }
  assert (Hc : ∀ bs0 : list buf, Z.of_nat (length (filter (λ j, (bs0 !!! j).(b_refcnt) ≠ 0)
                (i :: seq (S i) (NBUF - S i)))) =
       bit (bs0 !!! i).(b_refcnt) +
       Z.of_nat (length (filter (λ j, (bs0 !!! j).(b_refcnt) ≠ 0) (seq (S i) (NBUF - S i))))).
  { intros bs0. unfold bit. destruct (_ =? 0) eqn:E; bool_hyps.
    - rewrite filter_cons_False by tauto. lia.
    - rewrite filter_cons_True by done. cbn [length]. lia. }
  rewrite !Nat2Z.inj_add, !Hc, Ht. lia.
Qed.

Lemma core_fields q q' : core q = core q' →
  q.(b_valid) = q'.(b_valid) ∧ q.(b_disk) = q'.(b_disk) ∧ q.(b_dev) = q'.(b_dev) ∧
  q.(b_blockno) = q'.(b_blockno) ∧ q.(b_lock) = q'.(b_lock) ∧ q.(b_refcnt) = q'.(b_refcnt) ∧
  q.(b_data) = q'.(b_data).
Proof.
  intros E. repeat split; [exact (f_equal b_valid E)|exact (f_equal b_disk E)|exact (f_equal b_dev E)
    |exact (f_equal b_blockno E)|exact (f_equal b_lock E)|exact (f_equal b_refcnt E)|exact (f_equal b_data E)].
Qed.

(** The fields of buffer [i] change to [q], up to links; the others keep theirs. *)
Definition buf_to (bs bs' : list buf) (i : nat) (q : buf) : Prop :=
  core (bs' !!! i) = core q ∧ ∀ j, (j < NBUF)%nat → j ≠ i → core (bs' !!! j) = core (bs !!! j).

Definition relocked (r : Z) (k : sleeplock) (q : buf) : buf :=
  set_b_lock (λ _, k) (set_b_refcnt (λ _, r) q).

Lemma hb_buf_to bs bs' i q j b :
  buf_to bs bs' i q → q.(b_dev) = (bs !!! i).(b_dev) → q.(b_blockno) = (bs !!! i).(b_blockno) →
  hb bs' j b ↔ hb bs j b.
Proof.
  intros [Hi Hj] Hd Hb. unfold hb. destruct (decide (j = i)) as [->|Hne].
  - apply core_fields in Hi as (_ & _ & -> & -> & _). by rewrite Hd, Hb.
  - split; intros (Hlt & E); (split; [done|]); specialize (Hj j Hlt Hne);
      apply core_fields in Hj as (_ & _ & E1 & E2 & _); rewrite ?E1, ?E2 in *; done.
Qed.

Lemma attr_buf_to {A} (f : buf → A) d s bs' i q b b' :
  bc s → hb s.(bufs) i b → buf_to s.(bufs) bs' i q →
  q.(b_dev) = (get_buf i s).(b_dev) → q.(b_blockno) = (get_buf i s).(b_blockno) →
  (∀ q1 q2, core q1 = core q2 → f q1 = f q2) →
  attr f d bs' b' = if decide (b' = b) then f q else attr f d s.(bufs) b'.
Proof.
  intros Hbc Hi Ht Hd Hbn Hf.
  assert (Hidx : idx_of bs' b' = idx_of s.(bufs) b').
  { apply idx_core. intros j Hj. destruct Ht as [Ht1 Ht2]. destruct (decide (j = i)) as [->|Hne].
    - apply core_fields in Ht1 as (_ & _ & -> & -> & _). done.
    - specialize (Ht2 j Hj Hne). apply core_fields in Ht2 as (_ & _ & -> & -> & _). done. }
  unfold attr. rewrite Hidx. case_decide as E.
  - subst b'. rewrite (idx_hb _ _ i); [|intros ??; apply Hbc|done]. by apply Hf, Ht.
  - destruct (idx_of s.(bufs) b') as [j|] eqn:Ej; [|done]. apply idx_Some in Ej.
    apply Hf, Ht; [apply Ej|]. intros ->. destruct Hi as (_ & _ & H1), Ej as (_ & _ & H2). congruence.
Qed.

Lemma cache_update s bs' i b r k vd :
  bc s → hb s.(bufs) i b → dev_ok vd.1 → (∃ l, lru bs' l) →
  buf_to s.(bufs) bs' i (relocked r k (get_buf i s)) → 0 ≤ r →
  (r = 0 → k = free_lock ∧ blk s b = disk_block s b) →
  cache_to s (dev_to vd (set_bufs (λ _, bs') s)) b r k.
Proof.
  intros Hbc Hi Hvd Hlru Ht Hr Hr0.
  assert (Hhb : ∀ j b', hb bs' j b' ↔ hb s.(bufs) j b') by (intros; by eapply hb_buf_to).
  assert (Hat : ∀ A (f : buf → A) d b', (∀ q1 q2, core q1 = core q2 → f q1 = f q2) →
    attr f d bs' b' = if decide (b' = b) then f (relocked r k (get_buf i s)) else attr f d s.(bufs) b').
  { intros A f d b' Hf. exact (attr_buf_to f d s bs' i _ b b' Hbc Hi Ht eq_refl eq_refl Hf). }
  assert (Hcore : ∀ j, (j < NBUF)%nat → core (bs' !!! j) =
    core (if decide (j = i) then relocked r k (get_buf i s) else get_buf j s)).
  { intros j Hj. case_decide; [subst; apply Ht|by apply Ht]. }
  split.
  - by exists bs', vd.
  - split.
    + done.
    + intros j1 j2 b'. change (bufs (dev_to vd (set_bufs (λ _, bs') s))) with bs'.
      rewrite !Hhb. apply Hbc.
    + intros j b' [Hj Hd]%Hhb. specialize (Hcore j Hj). apply core_fields in Hcore as (E & _).
      change (b_valid (bs' !!! j) = 1). rewrite E. case_decide; [subst|];
        by eapply bc_valid; [done|]; split.
    + intros j b' Hb'%Hhb. specialize (Hcore j (proj1 Hb')).
      apply core_fields in Hcore as (_ & _ & _ & _ & _ & E1 & E2).
      change (b_refcnt (bs' !!! j) = 0 → b_data (bs' !!! j) = disk_block s b'). rewrite E1, E2.
      case_decide as Ej; [subst j|by eapply bc_clean]. cbn. intros E0.
      assert (b' = b) as -> by (destruct Hi as (_ & _ & <-), Hb' as (_ & _ & <-); done).
      destruct (Hr0 E0) as [_ <-]. unfold blk. by rewrite (attr_hb _ _ _ i).
    + intros j Hj. specialize (Hcore j Hj). apply core_fields in Hcore as (_ & _ & _ & _ & E1 & E2 & _).
      change (b_refcnt (bs' !!! j) = 0 → b_lock (bs' !!! j) = free_lock). rewrite E1, E2.
      case_decide; [|by apply Hbc]. cbn. intros E0. by apply Hr0.
    + intros j Hj. specialize (Hcore j Hj). apply core_fields in Hcore as (_ & E0 & _ & _ & _ & E1 & E2).
      change (0 ≤ b_refcnt (bs' !!! j) ∧ b_disk (bs' !!! j) = 0 ∧ length (b_data (bs' !!! j)) = 1024%nat).
      rewrite E0, E1, E2. pose proof (bc_range _ Hbc j Hj). case_decide; [subst; cbn; tauto|done].
    + apply Hbc.
  - intros b'. change (attr b_data (disk_block s b') bs' b' = blk s b').
    rewrite Hat by (intros ?? E; apply core_fields in E; tauto). case_decide; [subst|done]. cbn.
    unfold blk. by rewrite (attr_hb _ _ _ i).
  - intros b'. change (attr b_refcnt 0 bs' b' = if decide (b' = b) then r else rc s b').
    rewrite Hat by (intros ?? E; apply core_fields in E; tauto). done.
  - intros b'. change (attr b_lock free_lock bs' b' = if decide (b' = b) then k else lk s b').
    rewrite Hat by (intros ?? E; apply core_fields in E; tauto). done.
  - change (Z.of_nat (length (in_use bs')) = Z.of_nat (length (in_use s.(bufs))) + bit r - bit (rc s b)).
    rewrite (in_use_update s.(bufs) bs' i) by
      (apply Hi || (intros j Hj Hne; by pose proof (core_fields _ _ (proj2 Ht j Hj Hne)) as (_ & _ & _ & _ & _ & ? & _))).
    destruct (core_fields _ _ (proj1 Ht)) as (_ & _ & _ & _ & _ & -> & _).
    unfold rc. by rewrite (attr_hb _ _ _ i).
  - intros j b' Hj _. by apply Hhb.
Qed.

(** ** Recycling a buffer *)

Section recycle.
Variables (s : kstate) (bs' : list buf) (i : nat) (b : Z) (k : sleeplock) (q : buf).
Hypothesis Hbc : bc s.
Hypothesis Hi : (i < NBUF)%nat.
Hypothesis Hfree : (get_buf i s).(b_refcnt) = 0.
Hypothesis Hnew : ∀ j, ¬ hb s.(bufs) j b.
Hypothesis Ht : buf_to s.(bufs) bs' i q.
Hypothesis Hq : q.(b_valid) = 1 ∧ q.(b_disk) = 0 ∧ q.(b_dev) = ROOTDEV ∧ q.(b_blockno) = b ∧
  q.(b_lock) = k ∧ q.(b_refcnt) = 1 ∧ q.(b_data) = disk_block s b.

Lemma recycled_fields : (bs' !!! i).(b_valid) = 1 ∧ (bs' !!! i).(b_disk) = 0 ∧
  (bs' !!! i).(b_dev) = ROOTDEV ∧ (bs' !!! i).(b_blockno) = b ∧ (bs' !!! i).(b_lock) = k ∧
  (bs' !!! i).(b_refcnt) = 1 ∧ (bs' !!! i).(b_data) = disk_block s b.
Proof using Ht Hq. destruct (core_fields _ _ (proj1 Ht)) as (-> & -> & -> & -> & -> & -> & ->). done. Qed.

Lemma recycled_hb j b' : hb bs' j b' ↔ (j = i ∧ b' = b) ∨ (j ≠ i ∧ hb s.(bufs) j b').
Proof using All.
  destruct recycled_fields as (_ & _ & Ed & Eb & _). unfold hb.
  destruct (decide (j = i)) as [->|Hne].
  - rewrite Ed, Eb. split; [intros (_ & _ & <-); by left|].
    intros [[_ ->]|[? _]]; [done|congruence].
  - split.
    + intros (Hj & E). right. split; [done|]. split; [done|].
      destruct (core_fields _ _ (proj2 Ht j Hj Hne)) as (_ & _ & E1 & E2 & _).
      by rewrite <- E1, <- E2.
    + intros [[? _]|[_ (Hj & E)]]; [congruence|]. split; [done|].
      destruct (core_fields _ _ (proj2 Ht j Hj Hne)) as (_ & _ & E1 & E2 & _).
      by rewrite E1, E2.
Qed.

Lemma recycled_uniq j1 j2 b' : hb bs' j1 b' → hb bs' j2 b' → j1 = j2.
Proof using All.
  rewrite !recycled_hb. intros [[-> ->]|[H1 H2]] [[-> E]|[H3 H4]]; try done.
  - by destruct (Hnew j2).
  - subst b'. by destruct (Hnew j1).
  - by eapply bc_uniq.
Qed.

Lemma recycled_attr {A} (f : buf → A) d b' :
  (∀ q1 q2, core q1 = core q2 → f q1 = f q2) → (hb s.(bufs) i b' → f (get_buf i s) = d) →
  attr f d bs' b' = if decide (b' = b) then f (bs' !!! i) else attr f d s.(bufs) b'.
Proof using All.
  intros Hf Hd. case_decide as E.
  - subst b'. unfold attr. rewrite (idx_hb _ _ i); [done|intros ??; apply recycled_uniq|].
    apply recycled_hb. by left.
  - destruct (cached_dec s.(bufs) b') as [[j Hj]|Hn].
    + destruct (decide (j = i)) as [->|Hne].
      * rewrite attr_none; [rewrite (attr_hb _ _ _ i) by done; by rewrite Hd|].
        intros j [[-> ?]|[Hne Hj']]%recycled_hb; [done|]. apply Hne. by eapply bc_uniq.
      * unfold attr. rewrite (idx_hb bs' _ j); [|intros ??; apply recycled_uniq|].
        2:{ apply recycled_hb. by right. }
        rewrite (idx_hb s.(bufs) _ j); [|intros ??; by apply bc_uniq|done].
        apply Hf, Ht; [apply Hj|done].
    + rewrite !attr_none; [done|done|].
      intros j [[-> ?]|[Hne Hj']]%recycled_hb; [done|by destruct (Hn j)].
Qed.

Lemma cache_recycle vd :
  dev_ok vd.1 → (∃ l, lru bs' l) →
  cache_to s (dev_to vd (set_bufs (λ _, bs') s)) b 1 k.
Proof using All.
  intros Hvd Hlru. pose proof recycled_fields as (Ev & Edk & Ed & Eb & El & Er & Eda).
  assert (Hoth : ∀ j, (j < NBUF)%nat → j ≠ i → core (bs' !!! j) = core (get_buf j s)).
  { intros j Hj Hne. by apply Ht. }
  split.
  - by exists bs', vd.
  - split.
    + done.
    + exact recycled_uniq.
    + intros j b' [[-> ->]|[Hne Hj]]%recycled_hb; [done|].
      destruct (core_fields _ _ (Hoth j (proj1 Hj) Hne)) as (E & _).
      change (b_valid (bs' !!! j) = 1). rewrite E. by eapply bc_valid.
    + intros j b' [[-> ->]|[Hne Hj]]%recycled_hb; [done|].
      destruct (core_fields _ _ (Hoth j (proj1 Hj) Hne)) as (_ & _ & _ & _ & _ & E1 & E2).
      change (b_refcnt (bs' !!! j) = 0 → b_data (bs' !!! j) = disk_block s b'). rewrite E1, E2.
      by eapply bc_clean.
    + intros j Hj. change (b_refcnt (bs' !!! j) = 0 → b_lock (bs' !!! j) = free_lock).
      destruct (decide (j = i)) as [->|Hne]; [by rewrite Er|].
      destruct (core_fields _ _ (Hoth j Hj Hne)) as (_ & _ & _ & _ & -> & -> & _). by apply Hbc.
    + intros j Hj.
      change (0 ≤ b_refcnt (bs' !!! j) ∧ b_disk (bs' !!! j) = 0 ∧ length (b_data (bs' !!! j)) = 1024%nat).
      destruct (decide (j = i)) as [->|Hne].
      * rewrite Er, Edk, Eda. pose proof (bc_disk _ Hbc b). split; [lia|done].
      * destruct (core_fields _ _ (Hoth j Hj Hne)) as (_ & -> & _ & _ & _ & -> & ->). by apply Hbc.
    + apply Hbc.
  - intros b'. change (attr b_data (disk_block s b') bs' b' = blk s b').
    rewrite recycled_attr; [|intros ?? E; apply core_fields in E; tauto|].
    + case_decide; [|done]. subst b'. transitivity (disk_block s b); [exact Eda|]. unfold blk. by rewrite attr_none.
    + intros Hb'. by eapply bc_clean.
  - intros b'. change (attr b_refcnt 0 bs' b' = if decide (b' = b) then 1 else rc s b').
    rewrite recycled_attr; [case_decide; [exact Er|done]|intros ?? E; apply core_fields in E; tauto|done].
  - intros b'. change (attr b_lock free_lock bs' b' = if decide (b' = b) then k else lk s b').
    rewrite recycled_attr; [case_decide; [exact El|done]|intros ?? E; apply core_fields in E; tauto|].
    intros _. by apply Hbc.
  - change (Z.of_nat (length (in_use bs')) = Z.of_nat (length (in_use s.(bufs))) + bit 1 - bit (rc s b)).
    rewrite (in_use_update s.(bufs) bs' i) by
      (done || (intros j Hj Hne; by pose proof (core_fields _ _ (Hoth j Hj Hne)) as (_ & _ & _ & _ & _ & ? & _))).
    change (s.(bufs) !!! i) with (get_buf i s). rewrite Er, Hfree.
    unfold rc. by rewrite attr_none.
  - intros j b' Hj Hrc. apply recycled_hb. right. split; [|done]. intros ->.
    unfold rc in Hrc. rewrite (attr_hb _ _ _ i) in Hrc by done. lia.
Qed.
End recycle.

(** ** The operations *)

Definition pid_of (p : nat) (s : kstate) : Z := (get_proc p s).(p_pid).

Lemma slk_buf_ok s i : bc s → (i < NBUF)%nat → slk_ok (SlBuf i) s.
Proof. intros [[l Hl] _ _ _ _ _ _] Hi. cbn. rewrite (lru_len _ _ Hl). lia. Qed.

Lemma upd_buf_eq i g s : (i < length s.(bufs))%nat → get_buf i (upd_buf i g s) = g (get_buf i s).
Proof. intros Hi. exact (lookup_total_alter_list_eq g s.(bufs) i Hi). Qed.

Lemma upd_buf_ne i j g s : i ≠ j → get_buf j (upd_buf i g s) = get_buf j s.
Proof. intros Hi. exact (lookup_total_alter_list_ne g s.(bufs) i j Hi). Qed.

Lemma bget_hit p s l dev b i :
  quiet p s → lru s.(bufs) l → (i < NBUF)%nat →
  find (λ i, holds dev b (get_buf i s)) l = Some i → (get_buf i s).(b_lock) = free_lock →
  bget dev b s = Done i
    (upd_buf i (set_b_lock (λ _, mk_sleeplock 1 (pid_of p s)))
       (upd_buf i (set_b_refcnt (λ r, u32 (r + 1))) s)).
Proof.
  intros Hq HL Hi Hf Hlk. pose proof (quiet_cpu_ok _ _ Hq) as Hs.
  pose proof (quiet_lock p LkBcache s Hq I) as Hl.
  unfold bget. mstep (acquire_free _ _ (proj1 Hs) Hl). mnext.
  destruct (bget_scans (acq LkBcache s) l dev b HL) as [E _]. rewrite E.
  change (find _ l) with (find (λ i, holds dev b (get_buf i s)) l). rewrite Hf.
  mnext. set (s1 := upd_buf i (set_b_refcnt (λ r, u32 (r + 1))) s).
  change (upd_buf i _ (acq LkBcache s)) with (acq LkBcache s1).
  mstep (release_acq LkBcache s1 Hs Hl).
  assert (Hx : slk_ok (SlBuf i) s1).
  { split; [done|]. cbn. rewrite length_alter, (lru_len _ _ HL). lia. }
  assert (Hlk1 : (sl_get (SlBuf i) s1).(sl_locked) = 0).
  { unfold sl_get, s1. rewrite upd_buf_eq by (rewrite (lru_len _ _ HL); lia). cbn. by rewrite Hlk. }
  by mstep (acquiresleep_free (SlBuf i) p s1 Hq Hx Hlk1).
Qed.

Definition recycled (dev b : Z) (q : buf) : buf :=
  set_b_refcnt (λ _, 1) (set_b_valid (λ _, 0) (set_b_blockno (λ _, b) (set_b_dev (λ _, dev) q))).

Lemma bget_miss p s l dev b i :
  quiet p s → lru s.(bufs) l → (i < NBUF)%nat →
  find (λ i, holds dev b (get_buf i s)) l = None →
  find (λ i, (get_buf i s).(b_refcnt) =? 0) (reverse l) = Some i →
  (get_buf i s).(b_lock) = free_lock →
  bget dev b s = Done i
    (upd_buf i (set_b_lock (λ _, mk_sleeplock 1 (pid_of p s))) (upd_buf i (recycled dev b) s)).
Proof.
  intros Hq HL Hi Hf Hf' Hlk. pose proof (quiet_cpu_ok _ _ Hq) as Hs.
  pose proof (quiet_lock p LkBcache s Hq I) as Hl.
  unfold bget. mstep (acquire_free _ _ (proj1 Hs) Hl). mnext.
  destruct (bget_scans (acq LkBcache s) l dev b HL) as [E E']. rewrite E.
  change (find _ l) with (find (λ i, holds dev b (get_buf i s)) l). rewrite Hf.
  mnext. rewrite E'.
  change (find _ (reverse l)) with (find (λ i, (get_buf i s).(b_refcnt) =? 0) (reverse l)).
  rewrite Hf'. do 4 mnext.
  assert (Hup : ∀ s, upd_buf i (set_b_refcnt (λ _, 1)) (upd_buf i (set_b_valid (λ _, 0))
     (upd_buf i (set_b_blockno (λ _, b)) (upd_buf i (set_b_dev (λ _, dev)) s))) =
     upd_buf i (recycled dev b) s).
  { intros s0. unfold upd_buf. change (set_bufs (λ x, alter (set_b_refcnt (λ _, 1)) i
      (alter (set_b_valid (λ _, 0)) i (alter (set_b_blockno (λ _, b)) i
        (alter (set_b_dev (λ _, dev)) i x)))) s0 = set_bufs (alter (recycled dev b) i) s0).
    unfold set_bufs. by rewrite !alter_alter_list. }
  rewrite Hup. set (s1 := upd_buf i (recycled dev b) s).
  change (upd_buf i _ (acq LkBcache s)) with (acq LkBcache s1).
  mstep (release_acq LkBcache s1 Hs Hl).
  assert (Hx : slk_ok (SlBuf i) s1).
  { split; [done|]. cbn. rewrite length_alter, (lru_len _ _ HL). lia. }
  assert (Hlk1 : (sl_get (SlBuf i) s1).(sl_locked) = 0).
  { unfold sl_get, s1. rewrite upd_buf_eq by (rewrite (lru_len _ _ HL); lia). cbn. by rewrite Hlk. }
  by mstep (acquiresleep_free (SlBuf i) p s1 Hq Hx Hlk1).
Qed.

Lemma find_cached s l i b :
  bc s → lru s.(bufs) l → hb s.(bufs) i b → find (λ i, holds ROOTDEV b (get_buf i s)) l = Some i.
Proof.
  intros Hbc HL Hi. destruct (find _ l) as [j|] eqn:E.
  - apply find_Some_1 in E as [Hj Hh]. f_equal. eapply bc_uniq; [done| |done].
    apply holds_true in Hh. split; [by apply (lru_elem _ _ _ HL)|done].
  - exfalso. assert (Hin : i ∈ l) by (by apply (lru_elem _ _ _ HL), Hi).
    pose proof (find_None_1 _ _ _ E Hin) as Hf. cbv beta in Hf.
    rewrite (proj2 (holds_true ROOTDEV b (get_buf i s))) in Hf; [done|]. apply Hi.
Qed.

Lemma find_uncached s l b :
  lru s.(bufs) l → (∀ i, ¬ hb s.(bufs) i b) → find (λ i, holds ROOTDEV b (get_buf i s)) l = None.
Proof.
  intros HL Hn. destruct (find _ l) as [j|] eqn:E; [|done].
  apply find_Some_1 in E as [Hj Hh]. apply holds_true in Hh. destruct (Hn j).
  split; [by apply (lru_elem _ _ _ HL)|done].
Qed.

Lemma find_unused s l :
  lru s.(bufs) l → (used s < NBUF)%nat →
  ∃ i, find (λ i, (get_buf i s).(b_refcnt) =? 0) (reverse l) = Some i ∧ (i < NBUF)%nat ∧
       (get_buf i s).(b_refcnt) = 0.
Proof.
  intros HL Hu. destruct (find _ (reverse l)) as [j|] eqn:E.
  - exists j. apply find_Some_1 in E as [Hj Hh]. rewrite elem_of_reverse in Hj.
    apply (lru_elem _ _ _ HL) in Hj. apply Z.eqb_eq in Hh. done.
  - exfalso. destruct (unused_exists s Hu) as (i & Hi & Hr).
    assert (Hin : i ∈ reverse l) by (rewrite elem_of_reverse; by apply (lru_elem _ _ _ HL)).
    pose proof (find_None_1 _ _ _ E Hin) as Hf. apply Z.eqb_neq in Hf. done.
Qed.

(** Updating other fields than the links of a buffer keeps the order. *)
Lemma lru_alter bs l i g :
  (∀ q, (g q).(b_next) = q.(b_next) ∧ (g q).(b_prev) = q.(b_prev)) →
  (i < length bs)%nat → lru bs l → lru (alter g i bs) l.
Proof.
  intros Hg Hi. apply lru_ext; [apply length_alter|]. intros j. unfold nx, pv.
  rewrite lookup_total_alter_list by done. case_decide; [apply Hg|done].
Qed.

Lemma buf_to_alter bs i g : (i < length bs)%nat → buf_to bs (alter g i bs) i (g (bs !!! i)).
Proof.
  intros Hi. split; [by rewrite lookup_total_alter_list_eq|].
  intros j _ Hne. by rewrite lookup_total_alter_list_ne.
Qed.

Lemma len_bufs s : bc s → length s.(bufs) = S NBUF.
Proof. intros [[l Hl] _ _ _ _ _ _]. apply Hl. Qed.

(** Changing count and lock of a block's buffer is a step of the cache. *)
Lemma cache_relock s i b r k g :
  bc s → dev_ok s.(kvdisk) → hb s.(bufs) i b → 0 ≤ r →
  (r = 0 → k = free_lock ∧ blk s b = disk_block s b) →
  (∀ q, (g q).(b_next) = q.(b_next) ∧ (g q).(b_prev) = q.(b_prev)) →
  g (get_buf i s) = relocked r k (get_buf i s) →
  cache_to s (upd_buf i g s) b r k.
Proof.
  intros Hbc Hdev Hi Hr Hr0 Hg Eg. pose proof (len_bufs _ Hbc) as Hlen.
  assert (Hlt : (i < length s.(bufs))%nat) by (destruct Hi; lia).
  change (upd_buf i g s) with (dev_to (s.(kvdisk), s.(mmio)) (set_bufs (λ _, alter g i s.(bufs)) s)).
  apply (cache_update s _ i); try done.
  - destruct (bc_lru _ Hbc) as [l Hl]. exists l. by apply lru_alter.
  - rewrite <- Eg. by apply buf_to_alter.
Qed.

Lemma upd_buf_upd_buf i g h s : upd_buf i g (upd_buf i h s) = upd_buf i (g ∘ h) s.
Proof.
  unfold upd_buf. change (set_bufs (λ x, alter g i (alter h i x)) s = set_bufs (alter (g ∘ h) i) s).
  unfold set_bufs. by rewrite alter_alter_list.
Qed.

Lemma relocked_eq k f q r :
  f q.(b_refcnt) = r → set_b_lock (λ _, k) (set_b_refcnt f q) = relocked r k q.
Proof. by intros <-. Qed.

Lemma alter_ext_total {A} `{!Inhabited A} (f g : A → A) i (l : list A) :
  (i < length l)%nat → f (l !!! i) = g (l !!! i) → alter f i l = alter g i l.
Proof.
  revert i. induction l as [|x l IH]; intros [|i] Hi E; cbn in *; try lia.
  - by rewrite E.
  - f_equal. apply IH; [lia|done].
Qed.

(** Reading the block of a recycled buffer. *)
Lemma bread_miss p s i b :
  quiet p s → dev_ok s.(kvdisk) → bc s → 0 ≤ b < 2147483648 → (i < NBUF)%nat →
  (get_buf i s).(b_refcnt) = 0 → (∀ j, ¬ hb s.(bufs) j b) →
  let k := mk_sleeplock 1 (pid_of p s) in
  let s1 := upd_buf i (set_b_lock (λ _, k) ∘ recycled ROOTDEV b) s in
  ∃ vd, let s2 := upd_buf i (set_b_valid (λ _, 1)) (dev_to vd (rw_effect i false s1)) in
    disk_rw i false s1 = Done () (dev_to vd (rw_effect i false s1)) ∧
    (get_buf i s1).(b_valid) = 0 ∧ cache_to s s2 b 1 k ∧ hb s2.(bufs) i b.
Proof.
  intros Hq Hdev Hbc Hb Hi Hr Hn k s1. pose proof (len_bufs _ Hbc) as Hlen.
  pose proof (bc_range _ Hbc i Hi) as (_ & Hdk & Hda).
  set (q := set_b_lock (λ _, k) (recycled ROOTDEV b (get_buf i s))).
  assert (Hg : get_buf i s1 = q) by (unfold s1; by rewrite upd_buf_eq by lia).
  destruct (disk_rw_spec p i false s1) as (vd & Hvd & E); try (rewrite ?Hg; done).
  { unfold s1. cbn. by rewrite length_alter. }
  exists vd. split; [exact E|]. split; [by rewrite Hg|].
  set (q' := set_b_valid (λ _, 1) (set_b_data (λ _, disk_block s b) q)).
  assert (Es2 : upd_buf i (set_b_valid (λ _, 1)) (dev_to vd (rw_effect i false s1)) =
    dev_to vd (set_bufs (λ _, alter (λ _, q') i s.(bufs)) s)).
  { unfold rw_effect. rewrite Hg.
    change (dev_to vd (set_bufs (λ _, alter (set_b_valid (λ _, 1)) i
      (alter (set_b_data (λ _, disk_block s b)) i
        (alter (set_b_lock (λ _, k) ∘ recycled ROOTDEV b) i s.(bufs)))) s) =
      dev_to vd (set_bufs (λ _, alter (λ _, q') i s.(bufs)) s)).
    rewrite !alter_alter_list. by rewrite (alter_ext_total _ (λ _, q')) by (done || lia). }
  rewrite Es2. assert (Hbs : alter (λ _, q') i s.(bufs) !!! i = q')
    by (rewrite lookup_total_alter_list_eq; [done|lia]).
  split.
  - apply (cache_recycle s _ i b k q'); try done.
    + split; [by rewrite Hbs|]. intros j _ Hne. by rewrite lookup_total_alter_list_ne.
    + destruct (bc_lru _ Hbc) as [l Hl]. exists l. revert Hl.
      apply lru_ext; [apply length_alter|]. intros j. unfold nx, pv.
      rewrite lookup_total_alter_list by lia. by case_decide as Ej; [subst j|].
  - split; [done|]. change (bufs (dev_to _ _)) with (alter (λ _, q') i s.(bufs)). by rewrite Hbs.
Qed.

(** [bread] returns a locked buffer with the block's contents. *)
Lemma bread_ok p s b :
  quiet p s → dev_ok s.(kvdisk) → bc s → 0 ≤ b < 2147483648 → lk s b = free_lock →
  rc s b < 4294967295 → ((∃ i, hb s.(bufs) i b) ∨ (used s < NBUF)%nat) →
  ∃ i s', bread ROOTDEV b s = Done i s' ∧
    cache_to s s' b (rc s b + 1) (mk_sleeplock 1 (pid_of p s)) ∧ hb s'.(bufs) i b.
Proof.
  intros Hq Hdev Hbc Hb Hlk Hrc Hav. destruct (bc_lru _ Hbc) as [l HL].
  pose proof (len_bufs _ Hbc) as Hlen. unfold bread.
  destruct (cached_dec s.(bufs) b) as [[i Hi]|Hn].
  - assert (Hlk' : (get_buf i s).(b_lock) = free_lock).
    { unfold lk in Hlk. by rewrite (attr_hb _ _ _ i) in Hlk. }
    assert (Hrc' : rc s b = (get_buf i s).(b_refcnt)) by (unfold rc; by rewrite (attr_hb _ _ _ i)).
    pose proof (bc_range _ Hbc i (proj1 Hi)) as (Hr0 & _).
    mstep (bget_hit p s l ROOTDEV b i Hq HL (proj1 Hi) (find_cached _ _ _ _ Hbc HL Hi) Hlk').
    rewrite upd_buf_upd_buf. set (g := set_b_lock _ ∘ _). mnext.
    assert (Hv : (get_buf i (upd_buf i g s)).(b_valid) = 1).
    { rewrite upd_buf_eq by (destruct Hi; lia). by eapply bc_valid. }
    rewrite Hv. mnext. exists i, (upd_buf i g s). split; [done|].
    assert (Hct : cache_to s (upd_buf i g s) b (rc s b + 1) (mk_sleeplock 1 (pid_of p s))).
    { apply (cache_relock s i); try done; [lia|lia|].
      apply relocked_eq. rewrite Hrc'. apply u32_small. lia. }
    split; [done|]. split; [apply Hi|].
    change ((get_buf i (upd_buf i g s)).(b_dev) = ROOTDEV ∧ (get_buf i (upd_buf i g s)).(b_blockno) = b).
    rewrite upd_buf_eq by (destruct Hi; lia). apply Hi.
  - destruct Hav as [[i Hi]|Hav]; [by destruct (Hn i)|].
    destruct (find_unused s l HL Hav) as (i & Hf & Hi & Hr).
    destruct (bread_miss p s i b Hq Hdev Hbc Hb Hi Hr Hn) as (vd & E & Hv & Hct & Hh).
    mstep (bget_miss p s l ROOTDEV b i Hq HL Hi (find_uncached s l b HL Hn) Hf (bc_unlocked _ Hbc i Hi Hr)).
    rewrite upd_buf_upd_buf. mnext. rewrite Hv. cbn [Z.eqb when].
    rewrite (bind_done _ _ _ () (upd_buf i (set_b_valid (λ _, 1))
      (dev_to vd (rw_effect i false
        (upd_buf i (set_b_lock (λ _, mk_sleeplock 1 (pid_of p s)) ∘ recycled ROOTDEV b) s)))))
      by (by mstep E).
    eexists i, _. split; [done|]. assert (Hr0 : rc s b = 0) by (unfold rc; by rewrite attr_none).
    rewrite Hr0. done.
Qed.

Lemma holding_lock p s i b :
  quiet p s → bc s → hb s.(bufs) i b → lk s b = mk_sleeplock 1 (pid_of p s) →
  holdingsleep (SlBuf i) s = Done true s.
Proof.
  intros Hq Hbc Hi Hl. unfold lk in Hl. rewrite (attr_hb _ _ _ i) in Hl by done.
  rewrite (holdingsleep_quiet (SlBuf i) p s Hq) by (by apply slk_buf_ok, Hi).
  unfold sl_get. assert (E : (get_buf i s).(b_lock) = mk_sleeplock 1 (pid_of p s)) by exact Hl.
  rewrite E. cbn. fold (pid_of p s). by rewrite Z.eqb_refl.
Qed.

(** The disk after a write of [d] to block [b]. *)
Definition wrote (b : Z) (d : list Z) (s : kstate) : kstate :=
  set_disk_writes (λ w, w ++ [(b, d)]) (set_disk <[b := d]> s).

Lemma disk_block_wrote b d s b' :
  disk_block (wrote b d s) b' = if decide (b' = b) then d else disk_block s b'.
Proof.
  unfold disk_block. change (disk (wrote b d s)) with (<[b := d]> s.(disk)). case_decide as E.
  - subst. by rewrite lookup_insert_eq.
  - by rewrite lookup_insert_ne.
Qed.

(** [bwrite] puts the buffer's contents on the disk. *)
Lemma bwrite_ok p s i b :
  quiet p s → dev_ok s.(kvdisk) → bc s → hb s.(bufs) i b → 0 ≤ b < 2147483648 →
  lk s b = mk_sleeplock 1 (pid_of p s) →
  ∃ vd, let s' := dev_to vd (wrote b (blk s b) s) in
    dev_ok vd.1 ∧ bwrite i s = Done () s' ∧ bc s' ∧ ∀ b', blk s' b' = blk s b'.
Proof.
  intros Hq Hdev Hbc Hi Hb Hl. pose proof (bc_range _ Hbc i (proj1 Hi)) as (_ & Hdk & Hda).
  assert (Hbn : (get_buf i s).(b_blockno) = b) by apply Hi.
  destruct (disk_rw_spec p i true s) as (vd & Hvd & E);
    [done|done|apply Hi|by apply len_bufs|done|done|by rewrite Hbn|].
  assert (Hblk : blk s b = (get_buf i s).(b_data)) by (unfold blk; by rewrite (attr_hb _ _ _ i)).
  assert (Eeff : rw_effect i true s = wrote b (blk s b) s).
  { unfold rw_effect, wrote. rewrite Hbn, Hblk. done. }
  rewrite Eeff in E. exists vd. split; [done|]. split; [|split].
  - unfold bwrite. mstep (holding_lock p s i b Hq Hbc Hi Hl). exact E.
  - pose proof Hbc as [B1 B2 B3 B4 B5 B6 B7]. split; try done.
    + intros j b' Hj Hr. change (disk_block (dev_to _ _) b') with (disk_block (wrote b (blk s b) s) b').
      rewrite disk_block_wrote. case_decide as Eb; [|by eapply B4]. subst b'.
      assert (j = i) as -> by (by eapply B2). by rewrite Hblk.
    + intros b'. change (disk_block (dev_to _ _) b') with (disk_block (wrote b (blk s b) s) b').
      rewrite disk_block_wrote. case_decide; [by rewrite Hblk|done].
  - intros b'. change (attr b_data (disk_block (wrote b (blk s b) s) b') s.(bufs) b' = blk s b').
    rewrite disk_block_wrote. case_decide as Eb; [|done]. subst b'.
    unfold blk at 2. by rewrite !(attr_hb _ _ _ i).
Qed.

Lemma brelse_front_done i s :
  brelse_front i s = Done () (set_bufs (λ bs, push_front i (unlink i bs)) s).
Proof. reflexivity. Qed.

Lemma core_alter (bs : list buf) (i : nat) g (j : nat) :
  (∀ q, core (g q) = core q) → core (alter g i bs !!! j) = core (bs !!! j).
Proof.
  intros Hg. rewrite !list_lookup_total_alt. destruct (decide (i = j)) as [->|Hne].
  - rewrite list_lookup_alter_eq. destruct (bs !! j); [apply Hg|done].
  - by rewrite list_lookup_alter_ne.
Qed.

Lemma core_to_front bs b j : core (push_front b (unlink b bs) !!! j) = core (bs !!! j).
Proof. unfold push_front, unlink. by rewrite !core_alter by done. Qed.

Lemma bits_one r : 0 ≤ r → r ≠ 0 → bit r = 1.
Proof. intros H1 H2. unfold bit. by rewrite (proj2 (Z.eqb_neq _ _) H2). Qed.

(** [brelse] gives up the lock and one reference; the last one must leave a
    clean buffer. *)
Lemma brelse_ok p s i b :
  quiet p s → dev_ok s.(kvdisk) → bc s → hb s.(bufs) i b →
  lk s b = mk_sleeplock 1 (pid_of p s) → 0 < rc s b < 4294967296 →
  (rc s b = 1 → blk s b = disk_block s b) →
  ∃ s', brelse i s = Done () s' ∧ cache_to s s' b (rc s b - 1) free_lock.
Proof.
  intros Hq Hdev Hbc Hi Hl Hrc Hclean. destruct (bc_lru _ Hbc) as [l HL].
  pose proof (len_bufs _ Hbc) as Hlen. assert (Hlt : (i < length s.(bufs))%nat) by (destruct Hi; lia).
  assert (Hrc' : rc s b = (get_buf i s).(b_refcnt)) by (unfold rc; by rewrite (attr_hb _ _ _ i)).
  pose proof (quiet_cpu_ok _ _ Hq) as Hs. pose proof (quiet_lock p LkBcache s Hq I) as Hlk.
  unfold brelse. mstep (holding_lock p s i b Hq Hbc Hi Hl). cbn [negb].
  mstep (releasesleep_quiet (SlBuf i) p s Hq (slk_buf_ok _ _ Hbc (proj1 Hi))).
  set (s1 := sl_set (SlBuf i) (mk_sleeplock 0 0) s).
  mstep (acquire_free LkBcache s1 (proj1 Hs) Hlk). do 2 mnext.
  set (g := set_b_refcnt (λ r, u32 (r - 1)) ∘ set_b_lock (λ _, free_lock)).
  assert (Es2 : upd_buf i (set_b_refcnt (λ r, u32 (r - 1))) (acq LkBcache s1) = acq LkBcache (upd_buf i g s)).
  { change (acq LkBcache (upd_buf i (set_b_refcnt (λ r, u32 (r - 1))) s1) = acq LkBcache (upd_buf i g s)).
    unfold s1, sl_set. by rewrite upd_buf_upd_buf. }
  rewrite Es2. set (s2 := upd_buf i g s).
  assert (Eg : g (get_buf i s) = relocked (rc s b - 1) free_lock (get_buf i s)).
  { unfold g, relocked, compose. rewrite Hrc'. change ((set_b_refcnt (λ _, u32 ((get_buf i s).(b_refcnt) - 1))
      (set_b_lock (λ _, free_lock) (get_buf i s))) = set_b_lock (λ _, free_lock)
      (set_b_refcnt (λ _, (get_buf i s).(b_refcnt) - 1) (get_buf i s))).
    rewrite u32_small by lia. done. }
  assert (Hg2 : get_buf i (acq LkBcache s2) = relocked (rc s b - 1) free_lock (get_buf i s)).
  { change (get_buf i (acq LkBcache s2)) with (get_buf i (upd_buf i g s)). by rewrite upd_buf_eq. }
  rewrite Hg2. cbn [relocked set_b_lock set_b_refcnt b_refcnt].
  assert (Hr0 : rc s b - 1 = 0 → free_lock = free_lock ∧ blk s b = disk_block s b).
  { intros E. split; [done|]. apply Hclean. lia. }
  destruct (rc s b - 1 =? 0) eqn:E0; cbn [when]; bool_hyps.
  - mstep (brelse_front_done i (acq LkBcache s2)).
    set (s3 := set_bufs (λ bs, push_front i (unlink i bs)) s2).
    exists s3. split; [exact (release_acq LkBcache s3 Hs Hlk)|].
    change s3 with (dev_to (s.(kvdisk), s.(mmio))
      (set_bufs (λ _, push_front i (unlink i (alter g i s.(bufs)))) s)).
    apply (cache_update s _ i); try done; [|split|lia].
    + exists (to_front i l). apply lru_to_front; [|apply Hi]. by apply lru_alter.
    + rewrite core_to_front, lookup_total_alter_list_eq by done. by rewrite <- Eg.
    + intros j _ Hne. by rewrite core_to_front, lookup_total_alter_list_ne.
  - mnext. exists s2. split; [exact (release_acq LkBcache s2 Hs Hlk)|].
    apply (cache_relock s i); try done. lia.
Qed.

(** [bpin] and [bunpin] change the count only. *)
Lemma bpin_ok p s i b :
  quiet p s → dev_ok s.(kvdisk) → bc s → hb s.(bufs) i b → 0 < rc s b < 4294967295 →
  ∃ s', bpin i s = Done () s' ∧ cache_to s s' b (rc s b + 1) (lk s b).
Proof.
  intros Hq Hdev Hbc Hi Hrc. pose proof (quiet_cpu_ok _ _ Hq) as Hs.
  pose proof (quiet_lock p LkBcache s Hq I) as Hlk. unfold bpin.
  mstep (acquire_free LkBcache s (proj1 Hs) Hlk). mnext.
  set (s1 := upd_buf i (set_b_refcnt (λ r, u32 (r + 1))) s).
  exists s1. split; [exact (release_acq LkBcache s1 Hs Hlk)|].
  apply (cache_relock s i); try done; [lia|lia|].
  unfold rc, lk in *. rewrite !(attr_hb _ _ _ i) in * by done. cbn in Hrc.
  change (set_b_refcnt (λ _, u32 ((get_buf i s).(b_refcnt) + 1)) (get_buf i s) =
          relocked ((get_buf i s).(b_refcnt) + 1) (get_buf i s).(b_lock) (get_buf i s)).
  by rewrite u32_small by lia.
Qed.

Lemma bunpin_ok p s i b :
  quiet p s → dev_ok s.(kvdisk) → bc s → hb s.(bufs) i b → 1 < rc s b < 4294967296 →
  ∃ s', bunpin i s = Done () s' ∧ cache_to s s' b (rc s b - 1) (lk s b).
Proof.
  intros Hq Hdev Hbc Hi Hrc. pose proof (quiet_cpu_ok _ _ Hq) as Hs.
  pose proof (quiet_lock p LkBcache s Hq I) as Hlk. unfold bunpin.
  mstep (acquire_free LkBcache s (proj1 Hs) Hlk). mnext.
  set (s1 := upd_buf i (set_b_refcnt (λ r, u32 (r - 1))) s).
  exists s1. split; [exact (release_acq LkBcache s1 Hs Hlk)|].
  apply (cache_relock s i); try done; [lia|lia|].
  unfold rc, lk in *. rewrite !(attr_hb _ _ _ i) in * by done. cbn in Hrc.
  change (set_b_refcnt (λ _, u32 ((get_buf i s).(b_refcnt) - 1)) (get_buf i s) =
          relocked ((get_buf i s).(b_refcnt) - 1) (get_buf i s).(b_lock) (get_buf i s)).
  by rewrite u32_small by lia.
Qed.

(** Writing to the data of a buffer in use. *)
Lemma buf_data_ok s i b d :
  bc s → hb s.(bufs) i b → 0 < rc s b → length d = 1024%nat →
  let s' := upd_buf i (set_b_data (λ _, d)) s in
  bc s' ∧ (∀ b', blk s' b' = if decide (b' = b) then d else blk s b') ∧
  (∀ b', rc s' b' = rc s b') ∧ (∀ b', lk s' b' = lk s b') ∧ used s' = used s ∧
  (∀ j b', hb s.(bufs) j b' ↔ hb s'.(bufs) j b').
Proof.
  intros Hbc Hi Hrc Hd s'. pose proof (len_bufs _ Hbc) as Hlen.
  assert (Hlt : (i < length s.(bufs))%nat) by (destruct Hi; lia).
  unfold rc in Hrc. rewrite (attr_hb _ _ _ i) in Hrc by done.
  assert (Ht : buf_to s.(bufs) s'.(bufs) i (set_b_data (λ _, d) (get_buf i s))) by (by apply buf_to_alter).
  assert (Hhb : ∀ j b', hb s.(bufs) j b' ↔ hb s'.(bufs) j b').
  { intros j b'. symmetry. by eapply hb_buf_to. }
  assert (Hat : ∀ A (f : buf → A) dd b', (∀ q1 q2, core q1 = core q2 → f q1 = f q2) →
    attr f dd s'.(bufs) b' = if decide (b' = b) then f (set_b_data (λ _, d) (get_buf i s)) else attr f dd s.(bufs) b').
  { intros A f dd b' Hf. exact (attr_buf_to f dd s _ i _ b b' Hbc Hi Ht eq_refl eq_refl Hf). }
  assert (Hgj : ∀ j, j ≠ i → get_buf j s' = get_buf j s) by (intros j Hj; by apply upd_buf_ne).
  assert (Hgi : get_buf i s' = set_b_data (λ _, d) (get_buf i s)) by (by apply upd_buf_eq).
  split; [|split; [|split; [|split; [|split]]]].
  - pose proof Hbc as [B1 B2 B3 B4 B5 B6 B7]. split.
    + destruct B1 as [l HL]. exists l. by apply lru_alter.
    + intros j1 j2 b'. rewrite <- !Hhb. apply B2.
    + intros j b' Hj%Hhb. destruct (decide (j = i)) as [->|Hne]; [rewrite Hgi|rewrite Hgj by done];
        by eapply B3.
    + intros j b' Hj%Hhb. destruct (decide (j = i)) as [->|Hne].
      * rewrite Hgi. cbn. intros E. cbn in Hrc. lia.
      * rewrite Hgj by done. by apply B4.
    + intros j Hj. destruct (decide (j = i)) as [->|Hne]; [rewrite Hgi|rewrite Hgj by done]; by apply B5.
    + intros j Hj. destruct (decide (j = i)) as [->|Hne]; [rewrite Hgi|rewrite Hgj by done].
      * destruct (B6 i Hj) as (? & ? & ?). done.
      * by apply B6.
    + done.
  - intros b'. change (attr b_data (disk_block s b') s'.(bufs) b' = if decide (b' = b) then d else blk s b').
    rewrite Hat by (intros ?? E; apply core_fields in E; tauto). done.
  - intros b'. unfold rc. rewrite Hat by (intros ?? E; apply core_fields in E; tauto).
    case_decide; [subst|done]. by rewrite (attr_hb _ _ _ i).
  - intros b'. unfold lk. rewrite Hat by (intros ?? E; apply core_fields in E; tauto).
    case_decide; [subst|done]. by rewrite (attr_hb _ _ _ i).
  - unfold used, in_use. f_equal. apply filter_ext_in. intros j _.
    change ((get_buf j s').(b_refcnt) ≠ 0 ↔ (get_buf j s).(b_refcnt) ≠ 0).
    destruct (decide (j = i)) as [->|Hne]; [by rewrite Hgi|by rewrite Hgj].
  - done.
Qed.
End steps.
