(* ===== verification/Log.v ===== *)
(** kernel/log.c: the redo log that makes file system updates atomic.

    The header block and the in-memory header hold the number of logged blocks
    and their home addresses as 32-bit integers. *)

From S2P Require Import Prelude Cmem Kstate Spinlock Sleep Sleeplock Printf Bio.
Local Open Scope Z_scope.

Section log.
Context {Fl : Fuel} {Dv : Device} {Bd : BlockDev}.

(** Fields of the header block, struct logheader. *)
Definition lh_get_n (d : list Z) : Z := s32 (get_le d 0 4).
Definition lh_get_block (d : list Z) (i : nat) : Z := s32 (get_le d (4 + 4 * i) 4).
Definition lh_set_n (n : Z) (d : list Z) : list Z := put_le d 0 4 n.
Definition lh_set_block (i : nat) (b : Z) (d : list Z) : list Z := put_le d (4 + 4 * i) 4 b.

Definition log_block (i : nat) (s : kstate) : Z := s.(klog).(lh_block) !!! i.

Definition recover_msg : String.string := "recovering tail %d dst %d
".

(** The body of install_trans for one block. *)
Definition install_one (recovering : bool) (tail : nat) : K unit :=
  when recovering
    (dst ← gets (log_block tail);
     _ ← printf recover_msg [Vint (Z.of_nat tail); Vint dst]; mret ()) ;;
  l ← gets klog;
  lbuf ← bread (u32 l.(l_dev)) (u32 (l.(l_start) + Z.of_nat tail + 1));
  dst ← gets (log_block tail);
  dbuf ← bread (u32 l.(l_dev)) (u32 dst);
  q ← gets (get_buf lbuf);
  modify (upd_buf dbuf (set_b_data (λ _, q.(b_data)))) ;;
  bwrite dbuf ;;
  when (negb recovering) (bunpin dbuf) ;;
  brelse lbuf ;;
  brelse dbuf.

Definition install_trans (recovering : bool) : K unit :=
  n ← gets (λ s, s.(klog).(lh_n));
  mfor (seq 0 (Z.to_nat n)) (install_one recovering).

(** Storing past the array overwrites other memory: outside the model. *)
Definition set_log_block (i : nat) (b : Z) : K unit :=
  if (i <? 30)%nat then modify (set_klog (set_lh_block (λ l, <[i := b]> l)))
  else panic "log: block out of range".

Definition read_head : K unit :=
  l ← gets klog;
  b ← bread (u32 l.(l_dev)) (u32 l.(l_start));
  q ← gets (get_buf b);
  modify (set_klog (set_lh_n (λ _, lh_get_n q.(b_data)))) ;;
  mfor (seq 0 (Z.to_nat (lh_get_n q.(b_data)))) (λ i,
    set_log_block i (lh_get_block q.(b_data) i)) ;;
  brelse b.

Definition write_head : K unit :=
  l ← gets klog;
  b ← bread (u32 l.(l_dev)) (u32 l.(l_start));
  modify (upd_buf b (set_b_data (lh_set_n l.(lh_n)))) ;;
  mfor (seq 0 (Z.to_nat l.(lh_n))) (λ i,
    v ← gets (log_block i);
    modify (upd_buf b (set_b_data (lh_set_block i v)))) ;;
  bwrite b ;;
  brelse b.

Definition recover_from_log : K unit :=
  read_head ;;
  install_trans true ;;
  modify (set_klog (set_lh_n (λ _, 0))) ;;
  write_head.

(** sizeof(struct logheader) is 4 * (1 + LOGBLOCKS). *)
Definition initlog (dev : Z) (sb : superblock) : K unit :=
  if BSIZE <=? 4 * (1 + LOGBLOCKS) then panic "initlog: too big logheader" else
  initlock LkLog ;;
  modify (set_klog (set_l_start (λ _, s32 sb.(sb_logstart)))) ;;
  modify (set_klog (set_l_dev (λ _, dev))) ;;
  recover_from_log.

Fixpoint begin_op_loop (n : nat) : K unit :=
  match n with
  | O => out_of_fuel
  | S n =>
      l ← gets klog;
      if negb (l.(l_committing) =? 0) then
        sleep ChLog LkLog ;; begin_op_loop n
      else if LOGBLOCKS <? l.(lh_n) + (l.(l_outstanding) + 1) * MAXOPBLOCKS then
        sleep ChLog LkLog ;; begin_op_loop n
      else
        modify (set_klog (set_l_outstanding (λ x, x + 1))) ;;
        release LkLog
  end.

Definition begin_op : K unit :=
  acquire LkLog ;;
  begin_op_loop (S fuel).

(** The body of write_log for one block. *)
Definition write_log_one (tail : nat) : K unit :=
  l ← gets klog;
  to ← bread (u32 l.(l_dev)) (u32 (l.(l_start) + Z.of_nat tail + 1));
  src ← gets (log_block tail);
  from ← bread (u32 l.(l_dev)) (u32 src);
  q ← gets (get_buf from);
  modify (upd_buf to (set_b_data (λ _, q.(b_data)))) ;;
  bwrite to ;;
  brelse from ;;
  brelse to.

Definition write_log : K unit :=
  n ← gets (λ s, s.(klog).(lh_n));
  mfor (seq 0 (Z.to_nat n)) write_log_one.

Definition commit : K unit :=
  n ← gets (λ s, s.(klog).(lh_n));
  when (0 <? n)
    (write_log ;;
     write_head ;;
     install_trans false ;;
     modify (set_klog (set_lh_n (λ _, 0))) ;;
     write_head).

Definition end_op : K unit :=
  acquire LkLog ;;
  modify (set_klog (set_l_outstanding (λ x, x - 1))) ;;
  l ← gets klog;
  when (negb (l.(l_committing) =? 0)) (panic "log.committing") ;;
  do_commit ← (if l.(l_outstanding) =? 0 then
                 modify (set_klog (set_l_committing (λ _, 1))) ;; mret true
               else wakeup ChLog ;; mret false);
  release LkLog ;;
  when do_commit
    (commit ;;
     acquire LkLog ;;
     modify (set_klog (set_l_committing (λ _, 0))) ;;
     wakeup ChLog ;;
     release LkLog).

(** [for (i = 0; i < n; i++) if (block[i] == blockno) break;] *)
Fixpoint log_find (l : list Z) (i n : nat) (blockno : Z) : nat :=
  match n with
  | O => i
  | S n => if u32 (l !!! i) =? blockno then i else log_find l (i + 1) n blockno
  end.

Definition log_write (b : nat) : K unit :=
  acquire LkLog ;;
  l ← gets klog;
  when (LOGBLOCKS <=? l.(lh_n)) (panic "too big a transaction") ;;
  when (l.(l_outstanding) <? 1) (panic "log_write outside of trans") ;;
  q ← gets (get_buf b);
  let i := log_find l.(lh_block) 0 (Z.to_nat l.(lh_n)) q.(b_blockno) in
  set_log_block i (s32 q.(b_blockno)) ;;
  when (Z.of_nat i =? l.(lh_n))
    (bpin b ;; modify (set_klog (set_lh_n (λ n, n + 1)))) ;;
  release LkLog.
End log.
