(* ===== verification/LogSpec.v ===== *)
(** Crash safety of the log of [Log].

    The proofs use the buffer cache through its abstract state: a [view] gives
    every block its cached contents, reference count, lock and disk contents. *)

From S2P Require Import Prelude Cmem Kstate Spinlock Sleep Sleeplock Printf Bio BioSpec Log.
Local Open Scope Z_scope.

(** Functions on block numbers, updated at one. *)
Definition fupd {A} (f : Z → A) (b : Z) (x : A) : Z → A := λ b', if decide (b' = b) then x else f b'.

Lemma fupd_eq {A} (f : Z → A) b x : fupd f b x b = x.
Proof. unfold fupd. by rewrite decide_True. Qed.
Lemma fupd_ne {A} (f : Z → A) b x b' : b' ≠ b → fupd f b x b' = f b'.
Proof. intros H. unfold fupd. by rewrite decide_False. Qed.

Record view : Type := mk_view {
  vb : Z → list Z;
  vr : Z → Z;
  vl : Z → sleeplock;
  vu : Z;
  vd : Z → list Z;
  vw : list (Z * list Z) }.

Record view_eq (v v' : view) : Prop := {
  veq_b b : vb v b = vb v' b;
  veq_r b : vr v b = vr v' b;
  veq_l b : vl v b = vl v' b;
  veq_u : vu v = vu v';
  veq_d b : vd v b = vd v' b;
  veq_w : vw v = vw v' }.
Infix "≡ᵥ" := view_eq (at level 70).

#[global] Instance view_eq_equiv : Equivalence view_eq.
Proof.
  split.
  - by intros v.
  - intros v v' []. by split.
  - intros v1 v2 v3 [] []. split; intros; congruence.
Qed.

(** The count of block [b] becomes [r] and its lock [k]. *)
Definition vcount (b r : Z) (k : sleeplock) (v : view) : view :=
  mk_view v.(vb) (fupd v.(vr) b r) (fupd v.(vl) b k) (v.(vu) + bit r - bit (v.(vr) b)) v.(vd) v.(vw).
Definition vdata (b : Z) (d : list Z) (v : view) : view :=
  mk_view (fupd v.(vb) b d) v.(vr) v.(vl) v.(vu) v.(vd) v.(vw).
Definition vwrite (b : Z) (v : view) : view :=
  mk_view v.(vb) v.(vr) v.(vl) v.(vu) (fupd v.(vd) b (v.(vb) b)) (v.(vw) ++ [(b, v.(vb) b)]).

(** Fields of updated views. *)
Ltac vs := cbn [vb vr vl vu vd vw vcount vdata vwrite].

Section logspec.
Context {Fl : Fuel} {Dv : Device} `{Bs : BlockDevSpec}.

(** [s] has the view [v] and is [s0] outside the cache and the disk. *)
Record at_view (s0 s : kstate) (v : view) : Prop := {
  av_state : ∃ bs vk d w, s = set_disk_writes (λ _, w) (set_disk (λ _, d)
               (dev_to vk (set_bufs (λ _, bs) s0)));
  av_dev : dev_ok s.(kvdisk);
  av_bc : bc s;
  av_b b : blk s b = v.(vb) b;
  av_r b : rc s b = v.(vr) b;
  av_l b : lk s b = v.(vl) b;
  av_u : Z.of_nat (used s) = v.(vu);
  av_d b : disk_block s b = v.(vd) b;
  av_w : s.(disk_writes) = v.(vw) }.

#[global] Instance at_view_proper s0 s : Proper (view_eq ==> iff) (at_view s0 s).
Proof.
  intros v v' E. split; intros [H1 H2 H3 H4 H5 H6 H7 H8 H9]; split; try done; intros;
    rewrite ?H4, ?H5, ?H6, ?H7, ?H8, ?H9; first [apply E | symmetry; apply E].
Qed.

(** Handles of buffers in use stay valid. *)
Definition keeps (v : view) (s s' : kstate) : Prop :=
  ∀ i b, hb s.(bufs) i b → 0 < v.(vr) b → hb s'.(bufs) i b.

Lemma av_pid p s0 s v : at_view s0 s v → pid_of p s = pid_of p s0.
Proof. by intros [(bs & vk & d & w & ->) _ _ _ _ _ _ _ _]. Qed.

Lemma av_quiet p s0 s v : at_view s0 s v → quiet p s0 → quiet p s.
Proof. by intros [(bs & vk & d & w & ->) _ _ _ _ _ _ _ _]. Qed.

Lemma av_klog s0 s v : at_view s0 s v → s.(klog) = s0.(klog).
Proof. by intros [(bs & vk & d & w & ->) _ _ _ _ _ _ _ _]. Qed.

(** A step of the cache is a step of the view. *)
Lemma av_cache s0 s s' v b r k :
  at_view s0 s v → cache_to s s' b r k → at_view s0 s' (vcount b r k v) ∧ keeps v s s'.
Proof.
  intros [(bs & vk & d & w & E) H2 H3 H4 H5 H6 H7 H8 H9] [(bs' & vk' & E' & Hd) C2 C3 C4 C5 C6 C7].
  split.
  - split.
    + exists bs', vk', d, w. by rewrite E', E.
    + by rewrite E'.
    + done.
    + intros b'. by rewrite C3, H4.
    + intros b'. rewrite C4, H5. done.
    + intros b'. rewrite C5, H6. done.
    + rewrite C6, H7, H5. done.
    + intros b'. transitivity (disk_block s b'); [by rewrite E'|apply H8].
    + transitivity (s.(disk_writes)); [by rewrite E'|apply H9].
  - intros i b' Hi Hr. apply C7; [done|]. by rewrite H5.
Qed.

Lemma av_bread p s0 s v b :
  quiet p s0 → at_view s0 s v → 0 ≤ b < 2147483648 → v.(vl) b = free_lock →
  0 ≤ v.(vr) b < 4294967295 → 0 < v.(vr) b ∨ v.(vu) < 30 →
  ∃ i s', bread ROOTDEV b s = Done i s' ∧
    at_view s0 s' (vcount b (v.(vr) b + 1) (mk_sleeplock 1 (pid_of p s0)) v) ∧
    keeps v s s' ∧ hb s'.(bufs) i b.
Proof.
  intros Hq HA Hb Hl Hr Hu.
  destruct (bread_ok p s b) as (i & s' & E & Hc & Hh).
  - by eapply av_quiet.
  - apply HA.
  - apply HA.
  - done.
  - by rewrite (av_l _ _ _ HA).
  - rewrite (av_r _ _ _ HA). lia.
  - destruct Hu as [Hu|Hu]; [left|right].
    + destruct (cached_dec s.(bufs) b) as [?|Hn]; [done|]. exfalso.
      rewrite <- (av_r _ _ _ HA) in Hu. unfold rc in Hu. rewrite attr_none in Hu by done. lia.
    + rewrite <- (av_u _ _ _ HA) in Hu. unfold NBUF. lia.
  - exists i, s'. split; [done|]. rewrite (av_pid p _ _ _ HA), (av_r _ _ _ HA) in Hc.
    destruct (av_cache _ _ _ _ _ _ _ HA Hc). done.
Qed.

Lemma av_brelse p s0 s v i b :
  quiet p s0 → at_view s0 s v → hb s.(bufs) i b → v.(vl) b = mk_sleeplock 1 (pid_of p s0) →
  0 < v.(vr) b < 4294967296 → (v.(vr) b = 1 → v.(vb) b = v.(vd) b) →
  ∃ s', brelse i s = Done () s' ∧ at_view s0 s' (vcount b (v.(vr) b - 1) free_lock v) ∧ keeps v s s'.
Proof.
  intros Hq HA Hi Hl Hr Hc.
  destruct (brelse_ok p s i b) as (s' & E & Hct).
  - by eapply av_quiet.
  - apply HA.
  - apply HA.
  - done.
  - by rewrite (av_l _ _ _ HA), (av_pid p _ _ _ HA).
  - by rewrite (av_r _ _ _ HA).
  - rewrite (av_r _ _ _ HA), (av_b _ _ _ HA), (av_d _ _ _ HA). done.
  - exists s'. split; [done|]. rewrite (av_r _ _ _ HA) in Hct. by eapply av_cache.
Qed.

Lemma av_bunpin p s0 s v i b :
  quiet p s0 → at_view s0 s v → hb s.(bufs) i b → 1 < v.(vr) b < 4294967296 →
  ∃ s', bunpin i s = Done () s' ∧ at_view s0 s' (vcount b (v.(vr) b - 1) (v.(vl) b) v) ∧ keeps v s s'.
Proof.
  intros Hq HA Hi Hr. destruct (bunpin_ok p s i b) as (s' & E & Hct);
    [by eapply av_quiet|apply HA|apply HA|done|by rewrite (av_r _ _ _ HA)|].
  exists s'. split; [done|]. rewrite (av_r _ _ _ HA), (av_l _ _ _ HA) in Hct. by eapply av_cache.
Qed.

Lemma av_bwrite p s0 s v i b :
  quiet p s0 → at_view s0 s v → hb s.(bufs) i b → 0 ≤ b < 2147483648 →
  v.(vl) b = mk_sleeplock 1 (pid_of p s0) →
  ∃ s', bwrite i s = Done () s' ∧ at_view s0 s' (vwrite b v) ∧ s'.(bufs) = s.(bufs).
Proof.
  intros Hq HA Hi Hb Hl. pose proof (av_quiet p _ _ _ HA Hq) as Hqs.
  destruct (bwrite_ok p s i b) as (vk & Hd & E & Hbc & Hblk);
    [done|apply HA|apply HA|done|done|by rewrite (av_l _ _ _ HA), (av_pid p _ _ _ HA)|].
  eexists. split; [exact E|]. split; [|done].
  pose proof HA as [(bs & vk0 & d & w & Es) H2 H3 H4 H5 H6 H7 H8 H9]. split.
  - exists bs, vk, (<[b := blk s b]> d), (w ++ [(b, blk s b)]). rewrite Es. done.
  - done.
  - done.
  - intros b'. rewrite Hblk. apply H4.
  - apply H5.
  - apply H6.
  - apply H7.
  - intros b'. change (disk_block (dev_to vk (wrote b (blk s b) s)) b')
      with (disk_block (wrote b (blk s b) s) b').
    rewrite disk_block_wrote, H8, H4. done.
  - change (s.(disk_writes) ++ [(b, blk s b)] = v.(vw) ++ [(b, v.(vb) b)]). by rewrite H9, H4.
Qed.

Lemma av_data s0 s v i b d :
  at_view s0 s v → hb s.(bufs) i b → 0 < v.(vr) b → length d = 1024%nat →
  let s' := upd_buf i (set_b_data (λ _, d)) s in
  at_view s0 s' (vdata b d v) ∧ keeps v s s'.
Proof.
  intros HA Hi Hr Hd s'. pose proof HA as [(bs & vk & dd & w & Es) H2 H3 H4 H5 H6 H7 H8 H9].
  destruct (buf_data_ok s i b d) as (B1 & B2 & B3 & B4 & B5 & B6); [done|done|by rewrite H5|done|].
  split.
  - split; try done.
    + exists (s'.(bufs)), vk, dd, w. unfold s'. rewrite Es. done.
    + intros b'. rewrite B2. unfold vdata, fupd. cbn. by rewrite H4.
    + intros b'. by rewrite B3, H5.
    + intros b'. by rewrite B4, H6.
    + unfold s'. rewrite B5. exact H7.
  - intros j b' Hj _. by apply B6.
Qed.

Lemma av_buf s0 s v i b : at_view s0 s v → hb s.(bufs) i b → (get_buf i s).(b_data) = v.(vb) b.
Proof. intros HA Hi. rewrite <- (av_b _ _ _ HA). unfold blk. by rewrite (attr_hb _ _ _ i) by (apply HA || done). Qed.

Lemma av_len s0 s v b : at_view s0 s v → length (v.(vb) b) = 1024%nat.
Proof.
  intros HA. rewrite <- (av_b _ _ _ HA). unfold blk.
  destruct (cached_dec s.(bufs) b) as [[i Hi]|Hn].
  - rewrite (attr_hb _ _ _ i) by (apply HA || done). by apply (bc_range _ (av_bc _ _ _ HA) i), Hi.
  - rewrite attr_none by done. apply (bc_disk _ (av_bc _ _ _ HA)).
Qed.

Lemma av_clean s0 s v b : at_view s0 s v → v.(vr) b = 0 → v.(vb) b = v.(vd) b.
Proof.
  intros HA Hr. rewrite <- (av_b _ _ _ HA), <- (av_d _ _ _ HA). rewrite <- (av_r _ _ _ HA) in Hr.
  unfold blk, rc in *. destruct (cached_dec s.(bufs) b) as [[i Hi]|Hn]; [|by rewrite attr_none].
  rewrite (attr_hb _ _ _ i) in Hr by (apply HA || done).
  rewrite (attr_hb _ _ _ i) by (apply HA || done). eapply bc_clean; [apply HA|done|exact Hr].
Qed.

(** ** One block of the log *)

(** Copying block [h] to block [L] on the disk. *)
Definition vcopy (h L : Z) (v : view) : view := vwrite L (vdata L (v.(vb) h) v).

Lemma write_log_one_ok p s0 s v st tail h :
  let L := st + Z.of_nat tail + 1 in
  quiet p s0 → s0.(klog).(l_dev) = ROOTDEV → s0.(klog).(l_start) = st → log_block tail s0 = h →
  0 ≤ st → L < 2147483648 → 0 ≤ h < 2147483648 → h ≠ L →
  at_view s0 s v → v.(vl) L = free_lock → v.(vl) h = free_lock → v.(vr) L = 0 →
  0 < v.(vr) h < 4294967295 → v.(vu) < 30 →
  ∃ s', write_log_one tail s = Done () s' ∧ at_view s0 s' (vcopy h L v).
Proof.
  intros L Hq Hdev Hst Hh Hst0 HL Hhr Hne HA Hl1 Hl2 Hr1 Hr2 Hu.
  set (k := mk_sleeplock 1 (pid_of p s0)).
  unfold write_log_one. mnext. change (klog s) with s.(klog). rewrite (av_klog _ _ _ HA), Hdev, Hst.
  change (u32 ROOTDEV) with ROOTDEV. rewrite (u32_small (st + Z.of_nat tail + 1)) by lia. fold L.
  destruct (av_bread p s0 s v L Hq HA) as (to & s1 & E1 & HA1 & K1 & T1); [lia|done|lia|lia|].
  mstep E1. mnext. unfold log_block at 1. rewrite (av_klog _ _ _ HA1).
  change (lh_block (klog s0) !!! tail) with (log_block tail s0). rewrite Hh, u32_small by lia.
  set (v1 := vcount L _ _ v) in *.
  assert (vr v1 h = vr v h ∧ vl v1 h = vl v h) as [Hrh Hlh] by (unfold v1; vs; by rewrite !fupd_ne).
  destruct (av_bread p s0 s1 v1 h Hq HA1) as (from & s2 & E2 & HA2 & K2 & T2);
    [lia|by rewrite Hlh|lia|lia|].
  mstep E2. mnext. rewrite (av_buf _ _ _ _ _ HA2 T2).
  set (v2 := vcount h _ _ v1) in *.
  assert (T1' : hb s2.(bufs) to L) by (apply K2; [done|unfold v1; vs; rewrite fupd_eq; lia]).
  assert (vr v2 L = 1 ∧ vl v2 L = k) as [Hr2L Hl2L].
  { unfold v2, v1. vs. rewrite !(fupd_ne _ h _ L), !fupd_eq by done. rewrite Hr1. done. }
  destruct (av_data s0 s2 v2 to L (vb v2 h) HA2 T1') as [HA3 K3]; [lia|by eapply av_len|]. mnext.
  set (s3 := upd_buf to _ s2) in *. set (v3 := vdata L _ v2) in *.
  assert (T1'' : hb s3.(bufs) to L) by (apply K3; [done|lia]).
  assert (T2' : hb s3.(bufs) from h).
  { apply K3; [done|]. unfold v2. vs. rewrite fupd_eq. lia. }
  destruct (av_bwrite p s0 s3 v3 to L Hq HA3 T1'') as (s4 & E4 & HA4 & B4); [lia|exact Hl2L|].
  mstep E4. set (v4 := vwrite L v3) in *.
  assert (vr v4 h = vr v h + 1 ∧ vl v4 h = k) as [Hr4 Hl4].
  { unfold v4, v3, v2. vs. rewrite !fupd_eq. split; [|done]. lia. }
  destruct (av_brelse p s0 s4 v4 from h Hq HA4) as (s5 & E5 & HA5 & K5);
    [by rewrite B4|exact Hl4|lia|lia|].
  mstep E5. set (v5 := vcount h _ _ v4) in *.
  assert (vr v5 L = 1 ∧ vl v5 L = k) as [Hr5 Hl5] by (unfold v5; vs; by rewrite !fupd_ne).
  destruct (av_brelse p s0 s5 v5 to L Hq HA5) as (s6 & E6 & HA6 & K6).
  { apply K5; [by rewrite B4|]. change (0 < vr v2 L). lia. }
  { exact Hl5. }
  { lia. }
  { intros _. unfold v5, v4, v3. vs. by rewrite !fupd_eq. }
  exists s6. split; [exact E6|]. eapply at_view_proper; [symmetry|exact HA6].
  split; try done.
  - intros b. change (fupd (fupd (vr v4) h (vr v4 h - 1)) L (vr v5 L - 1) b = vr v b).
    destruct (decide (b = L)) as [->|Hb]; [rewrite fupd_eq; lia|rewrite fupd_ne by done].
    destruct (decide (b = h)) as [->|Hb']; [rewrite fupd_eq; lia|rewrite fupd_ne by done].
    change (fupd (fupd (vr v) L (vr v L + 1)) h (vr v1 h + 1) b = vr v b). by rewrite !fupd_ne.
  - intros b. change (fupd (fupd (fupd (fupd (vl v) L k) h k) h free_lock) L free_lock b = vl v b).
    unfold fupd. destruct (decide (b = L)) as [->|]; [done|]. by destruct (decide (b = h)) as [->|].
  - change (vu v + bit (vr v L + 1) - bit (vr v L) + bit (vr v1 h + 1) - bit (vr v1 h) +
      bit (vr v4 h - 1) - bit (vr v4 h) + bit (vr v5 L - 1) - bit (vr v5 L) = vu v).
    rewrite Hr1, Hr4, Hr5, Hrh. rewrite !(bits_one (vr v h + 1)), (bits_one (vr v h)) by lia.
    replace (vr v h + 1 - 1) with (vr v h) by lia. rewrite (bits_one (vr v h)) by lia.
    change (bit (0 + 1)) with 1. change (bit 0) with 0. change (bit (1 - 1)) with 0. change (bit 1) with 1. lia.
Qed.

(** The uart is not part of the view. *)
Definition said (o : list Z) (s : kstate) : kstate := set_uart_out (λ l, l ++ o) s.

Lemma av_said s0 s v o : at_view s0 s v → at_view (said o s0) (said o s) v.
Proof.
  intros [(bs & vk & d & w & E) H2 H3 H4 H5 H6 H7 H8 H9]. split; try done.
  - exists bs, vk, d, w. by rewrite E.
  - destruct H3 as [B1 B2 B3 B4 B5 B6 B7]. by split.
Qed.

Lemma said_said o o' s : said o' (said o s) = said (o ++ o') s.
Proof. apply set_uart_out_app. Qed.

(** Copying the log block [L] home to [h]. *)
Lemma install_copy p s0 s v tail L h (recovering : bool) :
  let k := mk_sleeplock 1 (pid_of p s0) in
  quiet p s0 → L ≠ h → 0 ≤ L < 2147483648 → 0 ≤ h < 2147483648 →
  at_view s0 s v → v.(vl) L = free_lock → v.(vl) h = free_lock → v.(vr) L = 0 →
  (if recovering then v.(vr) h = 0 ∧ v.(vu) < 29 else 0 < v.(vr) h < 4294967295 ∧ v.(vu) < 30) →
  s0.(klog).(l_dev) = ROOTDEV → s0.(klog).(l_start) + Z.of_nat tail + 1 = L → log_block tail s0 = h →
  ∃ s', (l ← gets klog;
         lbuf ← bread (u32 l.(l_dev)) (u32 (l.(l_start) + Z.of_nat tail + 1));
         dst ← gets (log_block tail);
         dbuf ← bread (u32 l.(l_dev)) (u32 dst);
         q ← gets (get_buf lbuf);
         modify (upd_buf dbuf (set_b_data (λ _, q.(b_data)))) ;;
         bwrite dbuf ;;
         when (negb recovering) (bunpin dbuf) ;;
         brelse lbuf ;;
         brelse dbuf) s = Done () s' ∧
    at_view s0 s' (vcount h (if recovering then 0 else v.(vr) h - 1) free_lock (vcopy L h v)).
Proof.
  intros k Hq Hne HL Hh HA Hl1 Hl2 Hr1 Hr2 Hdev Hst Hhb.
  assert (Hrh : 0 ≤ vr v h < 4294967295 ∧ (0 < vr v h ∨ vu v < 29)) by (destruct recovering; lia).
  assert (Hu : vu v < 30) by (destruct recovering; lia).
  mnext. change (klog s) with s.(klog). rewrite (av_klog _ _ _ HA), Hdev, Hst.
  change (u32 ROOTDEV) with ROOTDEV. rewrite (u32_small L) by lia.
  destruct (av_bread p s0 s v L Hq HA) as (lb & s1 & E1 & HA1 & K1 & T1); [lia|done|lia|lia|].
  mstep E1. mnext. unfold log_block at 1. rewrite (av_klog _ _ _ HA1).
  change (lh_block (klog s0) !!! tail) with (log_block tail s0). rewrite Hhb, u32_small by lia.
  set (v1 := vcount L _ _ v) in *.
  assert (vr v1 h = vr v h ∧ vl v1 h = vl v h) as [Hr1h Hl1h] by (unfold v1; vs; by rewrite !fupd_ne).
  assert (Hu1 : vu v1 = vu v + 1) by (unfold v1; vs; rewrite Hr1; change (bit (0 + 1)) with 1; change (bit 0) with 0; lia).
  destruct (av_bread p s0 s1 v1 h Hq HA1) as (db & s2 & E2 & HA2 & K2 & T2);
    [lia|by rewrite Hl1h|lia|lia|].
  mstep E2. mnext. set (v2 := vcount h _ _ v1) in *.
  assert (T1' : hb s2.(bufs) lb L) by (apply K2; [done|unfold v1; vs; rewrite fupd_eq; lia]).
  rewrite (av_buf _ _ _ _ _ HA2 T1').
  assert (vr v2 h = vr v h + 1 ∧ vl v2 h = k) as [Hr2h Hl2h] by (unfold v2; vs; rewrite !fupd_eq; split; [lia|done]).
  destruct (av_data s0 s2 v2 db h (vb v2 L) HA2 T2) as [HA3 K3]; [lia|by eapply av_len|]. mnext.
  set (s3 := upd_buf db _ s2) in *. set (v3 := vdata h _ v2) in *.
  assert (T2' : hb s3.(bufs) db h) by (apply K3; [done|lia]).
  assert (vr v2 L = 1 ∧ vl v2 L = k) as [Hr2L Hl2L].
  { unfold v2, v1. vs. rewrite !(fupd_ne _ h _ L), !fupd_eq by done. rewrite Hr1. done. }
  assert (T1'' : hb s3.(bufs) lb L) by (apply K3; [done|lia]).
  destruct (av_bwrite p s0 s3 v3 db h Hq HA3 T2') as (s4 & E4 & HA4 & B4); [lia|exact Hl2h|].
  mstep E4. set (v4 := vwrite h v3) in *.
  set (r := if recovering then 1 else vr v h).
  assert (H5 : ∃ s5, when (negb recovering) (bunpin db) s4 = Done () s5 ∧
     at_view s0 s5 (vcount h r k v4) ∧ hb s5.(bufs) lb L ∧ hb s5.(bufs) db h).
  { destruct recovering; cbn [negb when].
    - exists s4. split; [done|]. rewrite B4. split; [|done]. eapply at_view_proper; [|exact HA4].
      split; try done; vs.
      + intros b. unfold fupd. destruct (decide (b = h)) as [->|]; [|done].
        change (r = vr v2 h). unfold r. lia.
      + intros b. unfold fupd. destruct (decide (b = h)) as [->|]; [|done]. symmetry. exact Hl2h.
      + change (vr v4 h) with (vr v2 h). unfold r. rewrite Hr2h, (proj1 Hr2). change (bit (0 + 1)) with 1. change (bit 1) with 1. lia.
    - destruct (av_bunpin p s0 s4 v4 db h Hq HA4) as (s5 & E5 & HA5 & K5);
        [by rewrite B4|change (1 < vr v2 h < 4294967296); lia|].
      exists s5. split; [done|]. change (vr v4 h) with (vr v2 h) in HA5.
      change (vl v4 h) with (vl v2 h) in HA5. rewrite Hr2h, Hl2h in HA5.
      replace (vr v h + 1 - 1) with r in HA5 by (unfold r; lia). split; [done|].
      split; apply K5; rewrite ?B4; try done; [change (0 < vr v2 L)|change (0 < vr v2 h)]; lia. }
  destruct H5 as (s5 & E5 & HA5 & T1s & T2s). mstep E5. set (v5 := vcount h r k v4) in *.
  assert (vr v5 L = 1 ∧ vl v5 L = k ∧ vr v5 h = r ∧ vl v5 h = k) as (Hr5L & Hl5L & Hr5h & Hl5h).
  { unfold v5. vs. rewrite !fupd_eq, !(fupd_ne _ h _ L) by done. done. }
  destruct (av_brelse p s0 s5 v5 lb L Hq HA5) as (s6 & E6 & HA6 & K6); [done|done|lia| |].
  { intros _. change (fupd (vb v) h (vb v L) L = fupd (vd v) h (fupd (vb v) h (vb v L) h) L).
    rewrite !fupd_ne by done. by eapply av_clean. }
  mstep E6. set (v6 := vcount L _ _ v5) in *.
  assert (vr v6 h = r ∧ vl v6 h = k) as [Hr6 Hl6] by (unfold v6; vs; by rewrite !fupd_ne).
  assert (Hrr : 0 < r < 4294967296) by (unfold r; destruct recovering; lia).
  destruct (av_brelse p s0 s6 v6 db h Hq HA6) as (s7 & E7 & HA7 & K7); [|done|lia| |].
  { apply K6; [done|lia]. }
  { intros _. change (fupd (vb v) h (vb v L) h = fupd (vd v) h (fupd (vb v) h (vb v L) h) h).
    by rewrite !fupd_eq. }
  exists s7. split; [exact E7|]. eapply at_view_proper; [symmetry|exact HA7].
  assert (Hr' : (if recovering then 0 else vr v h - 1) = r - 1) by (unfold r; by destruct recovering).
  rewrite Hr'. split; try done.
  - intros b. change (fupd (fupd (fupd (fupd (fupd (vr v) L (vr v L + 1)) h (vr v1 h + 1)) h r)
      L (vr v5 L - 1)) h (vr v6 h - 1) b = fupd (vr v) h (r - 1) b). rewrite Hr6, Hr5L.
    unfold fupd. destruct (decide (b = h)) as [->|]; [done|]. destruct (decide (b = L)) as [->|]; [lia|done].
  - intros b. change (fupd (fupd (fupd (fupd (fupd (vl v) L k) h k) h k) L free_lock) h free_lock b =
      fupd (vl v) h free_lock b).
    unfold fupd. destruct (decide (b = h)) as [->|]; [done|]. by destruct (decide (b = L)) as [->|].
  - change (vu v1 + bit (vr v1 h + 1) - bit (vr v1 h) + bit r - bit (vr v2 h) + bit (vr v5 L - 1)
      - bit (vr v5 L) + bit (vr v6 h - 1) - bit (vr v6 h) = vu v + bit (r - 1) - bit (vr v h)).
    rewrite Hu1, Hr1h, Hr2h, Hr5L, Hr6. rewrite (bits_one (vr v h + 1)), (bits_one r) by lia.
    change (bit (1 - 1)) with 0. change (bit 1) with 1. lia.
Qed.
End logspec.
