(* ===== verification/BioProps.v ===== *)
(** What the buffer cache of [Bio] promises its clients, on a driver that meets
    [BlockDevSpec]. *)

From S2P Require Import Prelude Cmem Kstate Spinlock Sleep Sleeplock Printf Bio BioSpec Log LogSpec.
Local Open Scope Z_scope.

(** The abstract state of the cache and the disk. *)
Definition view_of (s : kstate) : view :=
  mk_view (blk s) (rc s) (lk s) (Z.of_nat (used s)) (disk_block s) s.(disk_writes).

(** A disk driver that does its transfers at once. *)
Definition ideal_disk : BlockDev := λ i w, modify (rw_effect i w).

#[global] Instance ideal_disk_spec : @BlockDevSpec ideal_disk.
Proof.
  refine {| dev_ok := λ _, True |}. intros p i w s _ _ _ _ _ _ _. exists (s.(kvdisk), s.(mmio)). split; [done|].
  unfold disk_rw, ideal_disk, modify. by destruct w.
Defined.

#[global] Instance spinlock_eq_dec : EqDecision spinlock.
Proof. solve_decision. Defined.
#[global] Instance sleeplock_eq_dec : EqDecision sleeplock.
Proof. solve_decision. Defined.

(** A cache state checked by evaluation, over a disk of zero blocks. *)
Definition bc_check (s : kstate) (l : list nat) : bool :=
  let cached := filter (λ i, (get_buf i s).(b_dev) = ROOTDEV) (seq 0 NBUF) in
  bool_decide (length s.(bufs) = S NBUF) && bool_decide (l ≡ₚ seq 0 NBUF) && bool_decide (s.(disk) = ∅) &&
  bool_decide (NoDup ((λ i, (get_buf i s).(b_blockno)) <$> cached)) &&
  forallb (λ i, (get_buf i s).(b_valid) =? 1) cached &&
  forallb (λ i, let q := get_buf i s in
    (0 <=? q.(b_refcnt)) && (q.(b_disk) =? 0) && (length q.(b_data) =? 1024)%nat &&
    (negb (q.(b_refcnt) =? 0) || bool_decide (q.(b_lock) = free_lock) && bool_decide (q.(b_data) = zero_block)))
    (seq 0 NBUF).

Lemma fmap_nodup_inj {A B} (f : A → B) l x y :
  NoDup (f <$> l) → x ∈ l → y ∈ l → f x = f y → x = y.
Proof.
  induction l as [|z l IH]; [set_solver|]. cbn. intros [Hz Hnd]%NoDup_cons Hx Hy E.
  apply elem_of_cons in Hx as [->|Hx], Hy as [->|Hy]; [done|..|by apply IH].
  - exfalso. apply Hz. rewrite E. by apply list_elem_of_fmap_2.
  - exfalso. apply Hz. rewrite <- E. by apply list_elem_of_fmap_2.
Qed.

Lemma bc_by_check s l : bc_check s l = true → links (nx s.(bufs)) (pv s.(bufs)) HEAD l HEAD → bc s.
Proof.
  unfold bc_check. set (cached := filter _ _). intros H Hl. rewrite !andb_true_iff in H.
  destruct H as (((((H1%bool_decide_eq_true_1 & H2%bool_decide_eq_true_1) & H3%bool_decide_eq_true_1) &
    H4%bool_decide_eq_true_1) & H5) & H6).
  rewrite forallb_forall in H5, H6.
  assert (Hc : ∀ i b, hb s.(bufs) i b → i ∈ cached ∧ (get_buf i s).(b_blockno) = b).
  { intros i b (Hi & Hd & Hb). split; [|done]. apply list_elem_of_filter. split; [done|]. apply elem_of_seq. lia. }
  assert (Hz : ∀ b, disk_block s b = zero_block) by (intros b; unfold disk_block; by rewrite H3, lookup_empty).
  assert (Hi6 : ∀ i, (i < NBUF)%nat → In i (seq 0 NBUF)) by (intros i Hi; apply in_seq; lia).
  split.
  - by exists l.
  - intros i j b [Hi Ei]%Hc [Hj Ej]%Hc. apply (fmap_nodup_inj _ _ _ _ H4 Hi Hj). by rewrite Ei, Ej.
  - intros i b [Hi _]%Hc. apply Z.eqb_eq, H5. by apply list_elem_of_In.
  - intros i b Hh Hr. rewrite Hz. destruct Hh as (Hi & _). specialize (H6 i (Hi6 i Hi)). cbv zeta in H6.
    rewrite Hr in H6. rewrite !andb_true_iff in H6. destruct H6 as [_ [_ H6]%andb_true_iff]. by apply bool_decide_eq_true_1 in H6.
  - intros i Hi Hr. specialize (H6 i (Hi6 i Hi)). cbv zeta in H6.
    rewrite Hr in H6. rewrite !andb_true_iff in H6. destruct H6 as [_ [H6 _]%andb_true_iff]. by apply bool_decide_eq_true_1 in H6.
  - intros i Hi. specialize (H6 i (Hi6 i Hi)). cbv zeta in H6. rewrite !andb_true_iff in H6.
    destruct H6 as [[[A1 A2] A3] _]. apply Z.leb_le in A1. apply Z.eqb_eq in A2. by apply Nat.eqb_eq in A3.
  - intros b. rewrite Hz. by vm_compute.
Qed.

Section props.
Context {Fl : Fuel} {Dv : Device} `{Bs : BlockDevSpec}.

Lemma view_of_ok s : dev_ok s.(kvdisk) → bc s → at_view s s (view_of s).
Proof. intros Hd Hb. split; try done. by exists s.(bufs), (s.(kvdisk), s.(mmio)), s.(disk), s.(disk_writes). Qed.

Lemma used_le s : (used s ≤ NBUF)%nat.
Proof. unfold used, in_use. rewrite length_filter. by rewrite length_seq. Qed.

Lemma find_split {A} (f : A → bool) l x :
  find f l = Some x → ∃ l1 l2, l = l1 ++ x :: l2 ∧ f x = true ∧ Forall (λ y, f y = false) l1.
Proof.
  induction l as [|y l IH]; [done|]. cbn. destruct (f y) eqn:E.
  - intros [= <-]. by exists [], l.
  - intros (l1 & l2 & -> & ? & ?)%IH. exists (y :: l1), l2. split_and!; [done..|by constructor].
Qed.

(** C12. [bread] returns the one buffer that holds the block, locked by the caller,
    with the contents last written to it; no other block's contents, count or
    lock change, and neither does the disk. *)
Theorem bread_serves p s b :
  quiet p s → dev_ok s.(kvdisk) → bc s → 0 ≤ b < 2147483648 → lk s b = free_lock →
  rc s b < 4294967295 → ((∃ i, hb s.(bufs) i b) ∨ (used s < NBUF)%nat) →
  ∃ i s', bread ROOTDEV b s = Done i s' ∧ bc s' ∧
    (∀ j, hb s'.(bufs) j b ↔ j = i) ∧
    (get_buf i s').(b_data) = blk s b ∧ (get_buf i s').(b_valid) = 1 ∧
    (get_buf i s').(b_lock) = mk_sleeplock 1 (pid_of p s) ∧ (get_buf i s').(b_refcnt) = rc s b + 1 ∧
    (∀ b', blk s' b' = blk s b') ∧ (∀ b', b' ≠ b → rc s' b' = rc s b' ∧ lk s' b' = lk s b') ∧
    s'.(disk) = s.(disk).
Proof.
  intros Hq Hd Hbc Hb Hl Hr Hu. destruct (bread_ok p s b) as (i & s' & E & [C1 C2 C3 C4 C5 C6 C7] & Hi); try done.
  exists i, s'. split; [done|]. split; [done|].
  assert (Hat : ∀ A (f : buf → A) d, attr f d s'.(bufs) b = f (get_buf i s')) by (intros; by apply attr_hb).
  split; [intros j; split; [intros Hj; by eapply C2|by intros ->]|].
  split; [rewrite <- (C3 b); unfold blk; by rewrite Hat|].
  split; [by apply (bc_valid _ C2 i b)|].
  split; [specialize (C5 b); unfold lk in C5; by rewrite Hat, decide_True in C5|].
  split; [specialize (C4 b); unfold rc in C4 at 1; by rewrite Hat, decide_True in C4|].
  split; [done|]. split; [intros b' Hne; by rewrite C4, C5, !decide_False|].
  by destruct C1 as (bs & vd & -> & _).
Qed.

(** When no buffer holds the block, [bget] takes the least recently released
    buffer that is not in use, and panics exactly when all are in use. *)
Lemma bget_replaces_lru p s l dev b :
  quiet p s → lru s.(bufs) l → (∀ i, (i < NBUF)%nat → holds dev b (get_buf i s) = false) →
  (∀ i, (i < NBUF)%nat → (get_buf i s).(b_refcnt) = 0 → (get_buf i s).(b_lock) = free_lock) →
  (∃ l1 i l2, l = l1 ++ i :: l2 ∧ (get_buf i s).(b_refcnt) = 0 ∧
     Forall (λ j, (get_buf j s).(b_refcnt) ≠ 0) l2 ∧
     bget dev b s = Done i (upd_buf i (set_b_lock (λ _, mk_sleeplock 1 (pid_of p s)))
                              (upd_buf i (recycled dev b) s))) ∨
  (Forall (λ j, (get_buf j s).(b_refcnt) ≠ 0) l ∧ bget dev b s = Panicked "bget: no buffers").
Proof.
  intros Hq HL Hno Hfree. pose proof (quiet_cpu_ok _ _ Hq) as Hs. pose proof (quiet_lock p LkBcache s Hq I) as Hlk.
  assert (Hf : find (λ i, holds dev b (get_buf i s)) l = None).
  { destruct (find _ l) as [i|] eqn:E; [|done]. apply find_Some_1 in E as [Hin%(lru_elem _ _ _ HL) Hh].
    by rewrite Hno in Hh. }
  destruct (find (λ i, (get_buf i s).(b_refcnt) =? 0) (reverse l)) as [i|] eqn:E.
  - left. destruct (find_split _ _ _ E) as (k1 & k2 & Ek & Hi & Hk). exists (reverse k2), i, (reverse k1).
    split; [by rewrite <- (reverse_involutive l), Ek, reverse_app, reverse_cons, <- (assoc_L (++))|].
    apply Z.eqb_eq in Hi. split; [done|]. split.
    + apply Forall_reverse. eapply Forall_impl; [exact Hk|]. intros j Hj. by apply Z.eqb_neq.
    + assert (Hin : (i < NBUF)%nat).
      { apply (lru_elem _ _ _ HL). rewrite <- elem_of_reverse, Ek. set_solver. }
      by apply (bget_miss p s l); [..|apply Hfree].
  - right. split.
    + apply Forall_forall. intros j Hj. apply Z.eqb_neq, (find_None_1 _ _ _ E). by apply elem_of_reverse.
    + unfold bget. mstep (acquire_free _ _ (proj1 Hs) Hlk). mnext.
      destruct (bget_scans (acq LkBcache s) l dev b HL) as [E1 E2]. rewrite E1.
      change (find _ l) with (find (λ i, holds dev b (get_buf i s)) l). rewrite Hf. mnext. rewrite E2.
      change (find _ (reverse l)) with (find (λ i, (get_buf i s).(b_refcnt) =? 0) (reverse l)). by rewrite E.
Qed.

(** C11. What is written to a block is what a later read returns, from the cache
    and from the disk. *)
Theorem bwrite_bread p s i b d :
  quiet p s → dev_ok s.(kvdisk) → bc s → hb s.(bufs) i b → 0 ≤ b < 2147483648 →
  lk s b = mk_sleeplock 1 (pid_of p s) → rc s b = 1 → length d = 1024%nat →
  ∃ s' j s'', (modify (upd_buf i (set_b_data (λ _, d))) ;; bwrite i ;; brelse i) s = Done () s' ∧
    disk_block s' b = d ∧ (∀ b', b' ≠ b → disk_block s' b' = disk_block s b' ∧ blk s' b' = blk s b') ∧
    bread ROOTDEV b s' = Done j s'' ∧ (get_buf j s'').(b_data) = d.
Proof.
  intros Hq Hd Hbc Hi Hb Hl Hr Hlen. pose proof (view_of_ok s Hd Hbc) as HA. mnext.
  assert (Hr0 : vr (view_of s) b = 1) by done.
  destruct (av_data s s (view_of s) i b d HA Hi) as [HA1 K1]; [lia|done|].
  set (s1 := upd_buf i _ s) in *. set (v1 := vdata b d (view_of s)) in *.
  assert (Hi1 : hb s1.(bufs) i b) by (apply K1; [done|lia]).
  destruct (av_bwrite p s s1 v1 i b) as (s2 & E2 & HA2 & Eb); try done. mstep E2.
  set (v2 := vwrite b v1) in *. rewrite <- Eb in Hi1.
  destruct (av_brelse p s s2 v2 i b) as (s3 & E3 & HA3 & _); try done.
  { change (0 < rc s b < 4294967296). lia. }
  { intros _. unfold v2, v1. vs. by rewrite !fupd_eq. }
  set (v3 := vcount b _ _ v2) in *.
  destruct (av_bread p s s3 v3 b) as (j & s4 & E4 & HA4 & _ & Hj); try done.
  { unfold v3. vs. by rewrite fupd_eq. }
  { unfold v3. vs. rewrite fupd_eq. change (0 ≤ rc s b - 1 < 4294967295). lia. }
  { right. unfold v3. vs. change (Z.of_nat (used s) + bit (rc s b - 1) - bit (rc s b) < 30).
    rewrite Hr. cbn [bit]. pose proof (used_le s). unfold NBUF in *. change (bit 1) with 1. change (bit (1 - 1)) with 0. lia. }
  exists s3, j, s4. split; [exact E3|]. split; [|split; [|split; [exact E4|]]].
  - rewrite (av_d _ _ _ HA3). unfold v3, v2, v1. vs. by rewrite !fupd_eq.
  - intros b' Hne. rewrite (av_d _ _ _ HA3), (av_b _ _ _ HA3). unfold v3, v2, v1. vs. by rewrite !fupd_ne.
  - rewrite (av_buf _ _ _ _ _ HA4 Hj). unfold v3, v2, v1. vs. by rewrite !fupd_eq.
Qed.
End props.

(** ** Concrete states *)

Definition state_after {A} (m : K A) (s : kstate) : kstate :=
  match m s with Done _ s' => s' | _ => s end.

Lemma demo_quiet s : s.(hart) = alone_state.(hart) → s.(cpus) = alone_state.(cpus) →
  s.(locks) = alone_state.(locks) → s.(procs) = alone_state.(procs) → quiet 3 s.
Proof. intros H1 H2 H3 H4. unfold quiet. rewrite H1, H2, H3, H4. exact alone_quiet. Qed.

Definition demo_cache : kstate := state_after binit alone_state.
Definition demo_read : kstate :=
  let F : Fuel := 1%nat in let D := ideal_disk in state_after (bread ROOTDEV 100) demo_cache.
(** Every buffer in use. *)
Definition demo_full : kstate := set_bufs (λ l, set_b_refcnt (λ _, 1) <$> l) demo_cache.

Lemma demo_cache_quiet : quiet 3 demo_cache.
Proof.
  apply demo_quiet; [by vm_compute..| |by vm_compute]. apply (bool_decide_unpack _). by vm_compute.
Qed.
Lemma demo_read_quiet : quiet 3 demo_read.
Proof.
  apply demo_quiet; [by vm_compute..| |by vm_compute]. apply (bool_decide_unpack _). by vm_compute.
Qed.
Lemma demo_full_quiet : quiet 3 demo_full.
Proof.
  apply demo_quiet; [by vm_compute..| |by vm_compute]. apply (bool_decide_unpack _). by vm_compute.
Qed.
Lemma demo_cache_lru : lru demo_cache.(bufs) (reverse (seq 0 30)).
Proof. split; [by vm_compute| |by apply (bool_decide_unpack _); vm_compute]. vm_compute. tauto. Qed.
Lemma demo_cache_bc : bc demo_cache.
Proof. apply (bc_by_check _ (reverse (seq 0 30))); [by vm_compute|]. vm_compute. tauto. Qed.
Lemma demo_read_bc : bc demo_read.
Proof. apply (bc_by_check _ (reverse (seq 0 30))); [by vm_compute|]. vm_compute. tauto. Qed.

Lemma bread_serves_witness :
  let F : Fuel := 1%nat in let D := ideal_disk in
  ∃ i s', bread ROOTDEV 100 demo_cache = Done i s' ∧ (get_buf i s').(b_data) = zero_block.
Proof.
  intros F D. destruct (@bread_serves F D ideal_disk_spec 3 demo_cache 100 demo_cache_quiet I demo_cache_bc)
    as (i & s' & E & _ & _ & Hd & _); [lia|by vm_compute|by vm_compute|right; vm_compute; lia|].
  exists i, s'. split; [exact E|]. rewrite Hd. by vm_compute.
Defined.

Lemma demo_unused s : forallb (λ i, negb (holds ROOTDEV 100 (get_buf i s)) &&
    (negb ((get_buf i s).(b_refcnt) =? 0) || bool_decide ((get_buf i s).(b_lock) = free_lock))) (seq 0 30) = true →
  (∀ i, (i < NBUF)%nat → holds ROOTDEV 100 (get_buf i s) = false) ∧
  (∀ i, (i < NBUF)%nat → (get_buf i s).(b_refcnt) = 0 → (get_buf i s).(b_lock) = free_lock).
Proof.
  intros H. rewrite forallb_forall in H. split; intros i Hi; specialize (H i ltac:(apply in_seq; unfold NBUF in Hi; lia));
    apply andb_true_iff in H as [H1 H2]; [by apply negb_true_iff|].
  intros E. rewrite E in H2. by apply bool_decide_eq_true_1 in H2.
Qed.

Lemma bget_replaces_lru_witness :
  let F : Fuel := 1%nat in let D := ideal_disk in
  (∃ s', bget ROOTDEV 100 demo_cache = Done 0%nat s') ∧ bget ROOTDEV 100 demo_full = Panicked "bget: no buffers".
Proof.
  intros F D. split.
  - destruct (demo_unused demo_cache) as [H1 H2]; [by vm_compute|].
    destruct (@bget_replaces_lru F 3 demo_cache _ ROOTDEV 100 demo_cache_quiet demo_cache_lru H1 H2)
      as [(l1 & i & l2 & El & _ & Hl2 & E)|[Hall _]].
    + destruct l2 as [|j l2 _] using rev_ind.
      * apply (f_equal last) in El. rewrite last_snoc in El. injection El as <-. eexists. exact E.
      * apply Forall_app in Hl2 as [_ Hl2]. rewrite Forall_singleton in Hl2. apply (f_equal last) in El.
        rewrite app_comm_cons, (assoc_L (++)), last_snoc in El. injection El as <-. exfalso. apply Hl2. vm_compute. reflexivity.
    + exfalso. eapply Forall_forall in Hall; [|apply (list_elem_of_lookup_2 _ 0%nat 29%nat); by vm_compute].
      apply Hall. vm_compute. reflexivity.
  - destruct (demo_unused demo_full) as [H1 H2]; [by vm_compute|].
    assert (HL : lru demo_full.(bufs) (reverse (seq 0 30))).
    { split; [by vm_compute| |by apply (bool_decide_unpack _); vm_compute]. vm_compute. tauto. }
    destruct (@bget_replaces_lru F 3 demo_full _ ROOTDEV 100 demo_full_quiet HL H1 H2)
      as [(l1 & i & l2 & El & Hi & _)|[_ E]]; [exfalso|exact E].
    assert (Hin : i ∈ reverse (seq 0 30)) by (rewrite El; apply elem_of_app; right; left).
    apply elem_of_reverse, elem_of_seq in Hin.
    assert (Hz : forallb (λ i, (get_buf i demo_full).(b_refcnt) =? 1) (seq 0 30) = true) by (by vm_compute).
    rewrite forallb_forall in Hz. specialize (Hz i ltac:(apply in_seq; lia)). by rewrite Hi in Hz.
Defined.

Lemma bwrite_bread_witness :
  let F : Fuel := 1%nat in let D := ideal_disk in
  ∃ s' j s'', (modify (upd_buf 0 (set_b_data (λ _, replicate 1024 5))) ;; bwrite 0 ;; brelse 0) demo_read = Done () s' ∧
    bread ROOTDEV 100 s' = Done j s'' ∧ (get_buf j s'').(b_data) = replicate 1024 5.
Proof.
  intros F D.
  destruct (@bwrite_bread F D ideal_disk_spec 3 demo_read 0 100 (replicate 1024 5) demo_read_quiet I demo_read_bc)
    as (s' & j & s'' & E & _ & _ & E' & Hd);
    [split; [by vm_compute; lia|by vm_compute]|lia|by vm_compute|by vm_compute|by rewrite length_replicate|].
  exists s', j, s''. exact (conj E (conj E' Hd)).
Defined.
