(* ===== verification/LogCrash.v ===== *)
(** The whole commit and the recovery of [Log], and what a crash between any
    two disk writes of a commit leaves behind. *)

From S2P Require Import Prelude Cmem Kstate Spinlock Sleep Sleeplock Printf Bio BioSpec Log LogSpec.
Local Open Scope Z_scope.

(** ** The header block *)

Definition enc_head (n : nat) (hs : nat → Z) (d : list Z) : list Z :=
  foldl (λ d i, lh_set_block i (hs i) d) (lh_set_n (Z.of_nat n) d) (seq 0 n).

Lemma length_lh_set_block i b d :
  (i < 30)%nat → length d = 1024%nat → length (lh_set_block i b d) = 1024%nat.
Proof. intros Hi Hd. unfold lh_set_block. rewrite length_put_le; lia. Qed.

Lemma length_lh_set_n n d : length d = 1024%nat → length (lh_set_n n d) = 1024%nat.
Proof. intros Hd. unfold lh_set_n. rewrite length_put_le; lia. Qed.

Lemma s32_u32 x : -2147483648 ≤ x < 2147483648 → s32 (x mod 256 ^ Z.of_nat 4) = x.
Proof. intros H. unfold s32. change (256 ^ Z.of_nat 4) with 4294967296. mlia. Qed.

Lemma lh_get_set_n n d : length d = 1024%nat → 0 ≤ n < 2147483648 → lh_get_n (lh_set_n n d) = n.
Proof.
  intros Hd Hn. unfold lh_get_n, lh_set_n. rewrite get_put_le_same by lia. apply s32_u32. lia.
Qed.

Lemma lh_get_n_set_block i b d : length d = 1024%nat → (i < 30)%nat →
  lh_get_n (lh_set_block i b d) = lh_get_n d.
Proof. intros Hd Hi. unfold lh_get_n, lh_set_block. by rewrite get_put_le_disj by lia. Qed.

Lemma lh_get_set_block i j b d : length d = 1024%nat → (i < 30)%nat → 0 ≤ b < 2147483648 →
  lh_get_block (lh_set_block i b d) j = if decide (j = i) then b else lh_get_block d j.
Proof.
  intros Hd Hi Hb. unfold lh_get_block, lh_set_block. case_decide as E.
  - subst. rewrite get_put_le_same by lia. apply s32_u32. lia.
  - by rewrite get_put_le_disj by lia.
Qed.

Lemma enc_blocks (hs : nat → Z) d a m :
  length d = 1024%nat → (a + m ≤ 30)%nat → (∀ i, (a ≤ i < a + m)%nat → 0 ≤ hs i < 2147483648) →
  let d' := foldl (λ d i, lh_set_block i (hs i) d) d (seq a m) in
  length d' = 1024%nat ∧ lh_get_n d' = lh_get_n d ∧
  ∀ j, lh_get_block d' j = if decide (a ≤ j < a + m)%nat then hs j else lh_get_block d j.
Proof.
  revert a d. induction m as [|m IH]; intros a d Hd Ha Hh; cbn [seq foldl].
  - split; [done|]. split; [done|]. intros j. by rewrite decide_False by lia.
  - destruct (IH (S a) (lh_set_block a (hs a) d)) as (H1 & H2 & H3).
    + apply length_lh_set_block; [lia|done].
    + lia.
    + intros i Hi. apply Hh. lia.
    + cbv zeta in *. split; [done|]. split; [rewrite H2; apply lh_get_n_set_block; lia|].
      intros j. rewrite H3, lh_get_set_block by (done || lia || (apply Hh; lia)).
      repeat case_decide; try lia; by subst.
Qed.

Lemma enc_head_spec n hs d :
  length d = 1024%nat → (n ≤ 30)%nat → (∀ i, (i < n)%nat → 0 ≤ hs i < 2147483648) →
  length (enc_head n hs d) = 1024%nat ∧ lh_get_n (enc_head n hs d) = Z.of_nat n ∧
  ∀ i, (i < n)%nat → lh_get_block (enc_head n hs d) i = hs i.
Proof.
  intros Hd Hn Hh. pose proof (length_lh_set_n (Z.of_nat n) d Hd) as Hd'.
  destruct (enc_blocks hs (lh_set_n (Z.of_nat n) d) 0 n Hd') as (H1 & H2 & H3); [lia| |].
  { intros i Hi. apply Hh. lia. }
  split; [done|]. split; [rewrite <- (lh_get_set_n (Z.of_nat n) d) by lia; exact H2|].
  intros i Hi. unfold enc_head. rewrite H3. by rewrite decide_True by lia.
Qed.

(** ** The steps of commit and recovery *)

Section logcrash.
Context {Fl : Fuel} {Dv : Device} `{Bs : BlockDevSpec}.

(** The view after the log blocks of [l] are written. *)
Definition vlogged (st : Z) (hs : nat → Z) (l : list nat) (v : view) : view :=
  foldl (λ v i, vcopy (hs i) (st + Z.of_nat i + 1) v) v l.

(** The view after the blocks of [l] are installed. *)
Definition vinst1 (rec : bool) (st : Z) (hs : nat → Z) (v : view) (i : nat) : view :=
  vcount (hs i) (if rec then 0 else v.(vr) (hs i) - 1) free_lock
    (vcopy (st + Z.of_nat i + 1) (hs i) v).
Definition vinstalled (rec : bool) (st : Z) (hs : nat → Z) (l : list nat) (v : view) : view :=
  foldl (vinst1 rec st hs) v l.

(** The geometry of the log: header at [st], blocks behind it, and [n] logged
    home blocks, all different and outside the log. *)
Record log_geom (st : Z) (n : nat) (hs : nat → Z) : Prop := {
  lg_start : 0 ≤ st ∧ st + 30 < 2147483648;
  lg_n : (n ≤ 29)%nat;
  lg_home i : (i < n)%nat → 0 ≤ hs i < 2147483648 ∧ ¬ (st ≤ hs i ≤ st + 30);
  lg_inj i j : (i < n)%nat → (j < n)%nat → hs i = hs j → i = j }.

Record log_mem (s0 : kstate) (st : Z) (n : nat) (hs : nat → Z) : Prop := {
  lm_dev : s0.(klog).(l_dev) = ROOTDEV;
  lm_start : s0.(klog).(l_start) = st;
  lm_n : s0.(klog).(lh_n) = Z.of_nat n;
  lm_len : length s0.(klog).(lh_block) = 30%nat;
  lm_block i : (i < n)%nat → log_block i s0 = hs i }.

Lemma write_log_loop p s0 st n hs a m s v :
  quiet p s0 → log_geom st n hs → log_mem s0 st n hs → (a + m ≤ n)%nat →
  at_view s0 s v → v.(vu) < 30 →
  (∀ i, (i < n)%nat → v.(vl) (st + Z.of_nat i + 1) = free_lock ∧ v.(vr) (st + Z.of_nat i + 1) = 0 ∧
     v.(vl) (hs i) = free_lock ∧ 0 < v.(vr) (hs i) < 4294967295) →
  ∃ s', mfor (seq a m) write_log_one s = Done () s' ∧ at_view s0 s' (vlogged st hs (seq a m) v).
Proof.
  intros Hq HG HM. revert a s v. induction m as [|m IH]; intros a s v Ham HA Hu Hpre.
  - by exists s.
  - destruct (Hpre a ltac:(lia)) as (P1 & P2 & P3 & P4).
    destruct (lg_home _ _ _ HG a ltac:(lia)) as [G1 G2]. pose proof (lg_start _ _ _ HG).
    pose proof (lg_n _ _ _ HG).
    destruct (write_log_one_ok p s0 s v st a (hs a)) as (s1 & E1 & HA1);
      try done; try apply HM; try lia.
    destruct (IH (S a) s1 (vcopy (hs a) (st + Z.of_nat a + 1) v)) as (s' & E & HA'); try done; [lia|].
    exists s'. split; [|done]. cbn [seq mfor]. by mstep E1.
Qed.

Lemma vinst1_counts rec st hs v i :
  vr (vinst1 rec st hs v i) = fupd v.(vr) (hs i) (if rec then 0 else v.(vr) (hs i) - 1) ∧
  vl (vinst1 rec st hs v i) = fupd v.(vl) (hs i) free_lock.
Proof. done. Qed.

Definition inst_ready (rec : bool) (st : Z) (hs : nat → Z) (v : view) (i : nat) : Prop :=
  v.(vl) (st + Z.of_nat i + 1) = free_lock ∧ v.(vr) (st + Z.of_nat i + 1) = 0 ∧
  v.(vl) (hs i) = free_lock ∧ (if rec then v.(vr) (hs i) = 0 else 0 < v.(vr) (hs i) < 4294967295).

Lemma install_one_ok p s0 st n hs (rec : bool) i s v :
  quiet p s0 → log_geom st n hs → log_mem s0 st n hs → (i < n)%nat →
  (rec = true → uart_ready ∧ s0.(panicking) = 0 ∧ s0.(panicked) = 0) →
  at_view s0 s v → v.(vu) < (if rec then 29 else 30) → inst_ready rec st hs v i →
  ∃ o s', install_one rec i s = Done () s' ∧ at_view (said o s0) s' (vinst1 rec st hs v i).
Proof.
  intros Hq HG HM Hi Hrec HA Hu (P1 & P2 & P3 & P4).
  destruct (lg_home _ _ _ HG i Hi) as [G1 G2]. pose proof (lg_start _ _ _ HG). pose proof (lg_n _ _ _ HG).
  assert (Hcopy : ∀ o, ∃ s', (l ← gets klog;
         lbuf ← bread (u32 l.(l_dev)) (u32 (l.(l_start) + Z.of_nat i + 1));
         dst ← gets (log_block i);
         dbuf ← bread (u32 l.(l_dev)) (u32 dst);
         q ← gets (get_buf lbuf);
         modify (upd_buf dbuf (set_b_data (λ _, q.(b_data)))) ;;
         bwrite dbuf ;;
         when (negb rec) (bunpin dbuf) ;;
         brelse lbuf ;;
         brelse dbuf) (said o s) = Done () s' ∧ at_view (said o s0) s' (vinst1 rec st hs v i)).
  { intros o. apply (install_copy p (said o s0) (said o s) v i (st + Z.of_nat i + 1) (hs i) rec);
      try done; try lia.
    - by apply av_said.
    - destruct rec; lia.
    - apply HM.
    - change (s0.(klog).(l_start) + Z.of_nat i + 1 = st + Z.of_nat i + 1). by rewrite (lm_start _ _ _ _ HM).
    - by apply HM. }
  unfold install_one. destruct rec; cbn [when].
  - destruct (Hrec eq_refl) as (Hur & Hk & Hd). set (ap := [Vint (Z.of_nat i); Vint (log_block i s)]).
    assert (Hp : printing s).
    { destruct HA as [(bs & vk & d & w & ->) _ _ _ _ _ _ _ _]. split; [|done]. by eapply quiet_cpu_ok. }
    assert (Hl : lock_free LkPr s) by (eapply quiet_lock; [by eapply av_quiet|done]).
    set (o := format (S (String.length recover_msg)) (bytes_of recover_msg) 0 ap ≫= cbytes).
    destruct (Hcopy o) as (s' & E & HA'). exists o, s'. split; [|done].
    rewrite (bind_done _ _ s () (said o s)); [exact E|]. mnext.
    rewrite (bind_done _ _ s 0 (said o s)); [done|]. by apply printf_done.
  - destruct (Hcopy []) as (s' & E & HA'). exists [], s'. split; [|done]. mnext. rewrite <- E.
    f_equal. unfold said, set_uart_out. by rewrite app_nil_r.
Qed.

Lemma inst_ready_next rec st n hs v i j :
  log_geom st n hs → (i < n)%nat → (j < n)%nat → i ≠ j →
  inst_ready rec st hs v j → inst_ready rec st hs (vinst1 rec st hs v i) j.
Proof.
  intros HG Hi Hj Hne (P1 & P2 & P3 & P4). unfold inst_ready.
  destruct (vinst1_counts rec st hs v i) as [-> ->].
  destruct (lg_home _ _ _ HG i Hi). pose proof (lg_n _ _ _ HG).
  assert (hs j ≠ hs i) by (intros E; apply Hne; symmetry; by apply (lg_inj _ _ _ HG)).
  rewrite !fupd_ne by (done || lia). done.
Qed.

Lemma inst_used rec st hs v i : inst_ready rec st hs v i → vu (vinst1 rec st hs v i) ≤ vu v.
Proof.
  intros (_ & _ & _ & P4).
  change (vu v + bit (if rec then 0 else vr v (hs i) - 1) - bit (vr v (hs i)) ≤ vu v).
  destruct rec; [rewrite P4; lia|]. rewrite (bits_one (vr v (hs i))) by lia.
  unfold bit. destruct (_ =? 0); lia.
Qed.

Lemma log_mem_said o s0 st n hs : log_mem s0 st n hs → log_mem (said o s0) st n hs.
Proof. by intros [H1 H2 H3 H4 H5]. Qed.

Lemma install_loop p s0 st n hs (rec : bool) a m s v :
  quiet p s0 → log_geom st n hs → log_mem s0 st n hs → (a + m ≤ n)%nat →
  (rec = true → uart_ready ∧ s0.(panicking) = 0 ∧ s0.(panicked) = 0) →
  at_view s0 s v → v.(vu) < (if rec then 29 else 30) →
  (∀ i, (a ≤ i < n)%nat → inst_ready rec st hs v i) →
  ∃ o s', mfor (seq a m) (install_one rec) s = Done () s' ∧
    at_view (said o s0) s' (vinstalled rec st hs (seq a m) v).
Proof.
  revert s0 a s v. induction m as [|m IH]; intros s0 a s v Hq HG HM Ham Hrec HA Hu Hpre.
  - exists [], s. split; [done|]. unfold said, set_uart_out. rewrite app_nil_r. exact HA.
  - destruct (install_one_ok p s0 st n hs rec a s v) as (o & s1 & E1 & HA1); try done; [lia|apply Hpre; lia|].
    destruct (IH (said o s0) (S a) s1 (vinst1 rec st hs v a)) as (o' & s' & E & HA');
      try done; [by apply log_mem_said|lia|..].
    + pose proof (inst_used rec st hs v a (Hpre a ltac:(lia))). destruct rec; lia.
    + intros i Hi. apply (inst_ready_next _ _ n); try done; [lia..|]. apply Hpre. lia.
    + exists (o ++ o'), s'. rewrite <- said_said. split; [|done]. cbn [seq mfor]. by mstep E1.
Qed.

Lemma upd_buf_data s i f : (i < length s.(bufs))%nat →
  upd_buf i (set_b_data f) s = upd_buf i (set_b_data (λ _, f (get_buf i s).(b_data))) s.
Proof.
  intros Hi. unfold upd_buf, set_bufs.
  by rewrite (alter_ext_total (set_b_data f) (set_b_data (λ _, f (get_buf i s).(b_data)))).
Qed.

Lemma av_modify s0 s v i b f :
  at_view s0 s v → hb s.(bufs) i b → 0 < v.(vr) b → length (f (v.(vb) b)) = 1024%nat →
  at_view s0 (upd_buf i (set_b_data f) s) (vdata b (f (v.(vb) b)) v) ∧
  hb (upd_buf i (set_b_data f) s).(bufs) i b.
Proof.
  intros HA Hi Hr Hf.
  rewrite upd_buf_data by (rewrite (len_bufs _ (av_bc _ _ _ HA)); destruct Hi; lia).
  rewrite (av_buf _ _ _ _ _ HA Hi). destruct (av_data s0 s v i b (f (vb v b)) HA Hi Hr Hf) as [H1 H2].
  split; [done|]. by apply H2.
Qed.

Lemma vdata_vdata b d d' v : vdata b d' (vdata b d v) ≡ᵥ vdata b d' v.
Proof. split; try done. intros b'. cbn. unfold fupd. by case_decide. Qed.

Lemma head_loop s0 st n hs a m s v i :
  log_mem s0 st n hs → (a + m ≤ n)%nat → (n ≤ 30)%nat →
  at_view s0 s v → hb s.(bufs) i st → 0 < v.(vr) st →
  ∃ s', mfor (seq a m) (λ j, x ← gets (log_block j);
          modify (upd_buf i (set_b_data (lh_set_block j x)))) s = Done () s' ∧
    at_view s0 s' (vdata st (foldl (λ d j, lh_set_block j (hs j) d) (v.(vb) st) (seq a m)) v) ∧
    hb s'.(bufs) i st.
Proof.
  intros HM. revert a s v. induction m as [|m IH]; intros a s v Ham Hn HA Hi Hr.
  - exists s. split; [done|]. split; [|done]. eapply at_view_proper; [|exact HA].
    split; try done. intros b. cbn. unfold fupd. by case_decide as E; [subst|].
  - pose proof (av_len _ _ _ st HA) as Hlen.
    destruct (av_modify s0 s v i st (lh_set_block a (hs a)) HA Hi Hr) as [HA1 Hi1].
    { apply length_lh_set_block; [lia|done]. }
    destruct (IH (S a) _ _ ltac:(lia) Hn HA1 Hi1 Hr) as (s' & E & HA' & Hi').
    exists s'. split; [|split; [|done]].
    + cbn [seq mfor]. rewrite (bind_done _ _ s () (upd_buf i (set_b_data (lh_set_block a (hs a))) s)); [done|].
      mnext. unfold log_block. rewrite (av_klog _ _ _ HA).
      change (lh_block (klog s0) !!! a) with (log_block a s0). by rewrite (lm_block _ _ _ _ HM) by lia.
    + eapply at_view_proper; [|exact HA']. symmetry. etransitivity; [apply vdata_vdata|].
      change (vb (vdata st (lh_set_block a (hs a) (vb v st)) v) st) with
        (fupd (vb v) st (lh_set_block a (hs a) (vb v st)) st). by rewrite fupd_eq.
Qed.

Definition vhead (st : Z) (d : list Z) (v : view) : view := vwrite st (vdata st d v).

Lemma write_head_ok p s0 st n hs s v :
  quiet p s0 → log_mem s0 st n hs → (n ≤ 30)%nat → 0 ≤ st < 2147483648 →
  at_view s0 s v → v.(vu) < 30 → v.(vl) st = free_lock → v.(vr) st = 0 →
  ∃ s', write_head s = Done () s' ∧ at_view s0 s' (vhead st (enc_head n hs (v.(vb) st)) v).
Proof.
  intros Hq HM Hn Hst HA Hu Hl Hr. set (k := mk_sleeplock 1 (pid_of p s0)).
  unfold write_head. mnext. change (klog s) with s.(klog). rewrite (av_klog _ _ _ HA).
  rewrite (lm_dev _ _ _ _ HM), (lm_start _ _ _ _ HM), (lm_n _ _ _ _ HM), Nat2Z.id.
  change (u32 ROOTDEV) with ROOTDEV. rewrite u32_small by lia.
  destruct (av_bread p s0 s v st Hq HA) as (i & s1 & E1 & HA1 & _ & T1); [lia|done|lia|lia|].
  mstep E1. set (v1 := vcount st _ _ v) in *.
  assert (Hr1 : vr v1 st = 1) by (unfold v1; vs; rewrite fupd_eq; lia).
  pose proof (av_len _ _ _ st HA1) as Hlen.
  destruct (av_modify s0 s1 v1 i st (lh_set_n (Z.of_nat n)) HA1 T1) as [HA2 T2];
    [lia|by apply length_lh_set_n|]. mnext.
  set (v2 := vdata st _ v1) in *. set (s2 := upd_buf i _ s1) in *.
  destruct (head_loop s0 st n hs 0 n s2 v2 i HM) as (s3 & E3 & HA3 & T3);
    [lia|lia|done|done|change (0 < vr v1 st); lia|].
  mstep E3.
  assert (Eh : foldl (λ d j, lh_set_block j (hs j) d) (vb v2 st) (seq 0 n) = enc_head n hs (vb v st)).
  { unfold v2. vs. rewrite fupd_eq. done. }
  rewrite Eh in HA3. set (v3 := vdata st (enc_head n hs (vb v st)) v2) in *.
  destruct (av_bwrite p s0 s3 v3 i st Hq HA3 T3) as (s4 & E4 & HA4 & B4);
    [lia|change (vl v1 st = k); unfold v1; vs; by rewrite fupd_eq|].
  mstep E4. set (v4 := vwrite st v3) in *.
  destruct (av_brelse p s0 s4 v4 i st Hq HA4) as (s5 & E5 & HA5 & _); [by rewrite B4|..].
  { change (vl v1 st = k). unfold v1. vs. by rewrite fupd_eq. }
  { change (0 < vr v1 st < 4294967296). lia. }
  { intros _. unfold v4. vs. by rewrite fupd_eq. }
  exists s5. split; [exact E5|]. eapply at_view_proper; [symmetry|exact HA5].
  split; try done.
  - intros b. unfold v4, v3, v2, vhead, fupd. vs. unfold fupd. by case_decide.
  - intros b. change (fupd (fupd (vr v) st (vr v st + 1)) st (vr v1 st - 1) b = vr v b).
    unfold fupd. destruct (decide (b = st)) as [->|]; [lia|done].
  - intros b. change (fupd (fupd (vl v) st k) st free_lock b = vl v b).
    unfold fupd. by destruct (decide (b = st)) as [->|].
  - change (vu v + bit (vr v st + 1) - bit (vr v st) + bit (vr v1 st - 1) - bit (vr v1 st) = vu v).
    rewrite Hr, Hr1. change (bit (0 + 1)) with 1. change (bit 0) with 0.
    change (bit (1 - 1)) with 0. change (bit 1) with 1. lia.
  - intros b. unfold v4, v3, v2, vhead. vs. unfold fupd. by repeat case_decide.
  - unfold v4, v3, v2, vhead. vs. by rewrite !fupd_eq.
Qed.

Lemma av_set_klog g s0 s v : at_view s0 s v → at_view (set_klog g s0) (set_klog g s) v.
Proof.
  intros [(bs & vk & d & w & E) H2 H3 H4 H5 H6 H7 H8 H9]. split; try done.
  - exists bs, vk, d, w. by rewrite E.
  - destruct H3 as [B1 B2 B3 B4 B5 B6 B7]. by split.
Qed.
End logcrash.

(** ** Disks and writes *)

Definition apply_writes (w : list (Z * list Z)) (d : Z → list Z) : Z → list Z :=
  foldl (λ d x, fupd d x.1 x.2) d w.

Lemma apply_writes_app w1 w2 d : apply_writes (w1 ++ w2) d = apply_writes w2 (apply_writes w1 d).
Proof. apply foldl_app. Qed.

Lemma apply_writes_out w d b : (∀ x, x ∈ w → x.1 ≠ b) → apply_writes w d b = d b.
Proof.
  revert d. induction w as [|x w IH]; intros d Hw; [done|]. cbn [apply_writes foldl].
  change (apply_writes w (fupd d x.1 x.2) b = d b). rewrite IH.
  - apply fupd_ne. intros E. apply (Hw x); [by left|done].
  - intros y Hy. apply Hw. by right.
Qed.

(** Writes to the different addresses [f i]. *)
Lemma apply_writes_in (f : nat → Z) (c : nat → list Z) a m d i :
  (∀ i j, (a ≤ i < a + m)%nat → (a ≤ j < a + m)%nat → f i = f j → i = j) →
  (a ≤ i < a + m)%nat → apply_writes ((λ i, (f i, c i)) <$> seq a m) d (f i) = c i.
Proof.
  revert a d. induction m as [|m IH]; intros a d Hf Hi; [lia|]. cbn [seq fmap list_fmap].
  change (apply_writes ((λ i, (f i, c i)) <$> seq (S a) m) (fupd d (f a) (c a)) (f i) = c i).
  destruct (decide (i = a)) as [->|Hne].
  - rewrite apply_writes_out, fupd_eq; [done|].
    intros x (j & -> & Hj%elem_of_seq)%list_elem_of_fmap. cbn. intros E.
    assert (j = a) by (apply Hf; [lia..|done]). lia.
  - apply IH; [|lia]. intros i' j' Hi' Hj'. apply Hf; lia.
Qed.

Lemma apply_writes_ext w d d' b : d b = d' b → apply_writes w d b = apply_writes w d' b.
Proof.
  revert d d'. induction w as [|x w IH]; intros d d' E; [done|]. cbn [apply_writes foldl].
  apply (IH (fupd d x.1 x.2) (fupd d' x.1 x.2)). unfold fupd. by case_decide.
Qed.

(** [v'] is reached from [v] by the writes [w]. *)
Definition wrote_to (v v' : view) (w : list (Z * list Z)) : Prop :=
  v'.(vw) = v.(vw) ++ w ∧ ∀ b, v'.(vd) b = apply_writes w v.(vd) b.

Lemma wrote_to_trans v1 v2 v3 w w' : wrote_to v1 v2 w → wrote_to v2 v3 w' → wrote_to v1 v3 (w ++ w').
Proof.
  intros [H1 H2] [H3 H4]. split; [by rewrite H3, H1, (assoc_L (++))|].
  intros b. rewrite H4, apply_writes_app. apply apply_writes_ext. apply H2.
Qed.

Lemma wrote_to_one b v : wrote_to v (vwrite b v) [(b, v.(vb) b)].
Proof. by split. Qed.

(** ** The views of a commit *)

Section views.
Variables (st : Z) (n : nat) (hs : nat → Z).
Hypothesis HG : log_geom st n hs.

Lemma vlogged_spec a m v :
  (a + m ≤ n)%nat →
  let v' := vlogged st hs (seq a m) v in
  vr v' = vr v ∧ vl v' = vl v ∧ vu v' = vu v ∧
  (∀ b, ¬ (st + Z.of_nat a < b ≤ st + Z.of_nat (a + m)) → vb v' b = vb v b) ∧
  (∀ i, (a ≤ i < a + m)%nat → vb v' (st + Z.of_nat i + 1) = vb v (hs i)) ∧
  wrote_to v v' ((λ i, (st + Z.of_nat i + 1, vb v (hs i))) <$> seq a m).
Proof using HG.
  revert a v. induction m as [|m IH]; intros a v Ham; cbn [seq vlogged foldl].
  - do 4 (split; [done|]). split; [lia|]. split; [by rewrite app_nil_r|done].
  - set (v1 := vcopy (hs a) (st + Z.of_nat a + 1) v).
    destruct (IH (S a) v1 ltac:(lia)) as (H1 & H2 & H3 & H4 & H5 & H6).
    change (foldl _ v1 (seq (S a) m)) with (vlogged st hs (seq (S a) m) v1).
    cbv zeta. set (v' := vlogged st hs (seq (S a) m) v1) in *.
    assert (Hv1 : ∀ b, vb v1 b = fupd (vb v) (st + Z.of_nat a + 1) (vb v (hs a)) b) by done.
    assert (Hh : ∀ i, (i < n)%nat → vb v1 (hs i) = vb v (hs i)).
    { intros i Hi. rewrite Hv1, fupd_ne; [done|]. destruct (lg_home _ _ _ HG i Hi). pose proof (lg_n _ _ _ HG). lia. }
    do 3 (split; [done|]). split; [|split].
    + intros b Hb. rewrite H4 by lia. rewrite Hv1, fupd_ne by lia. done.
    + intros i Hi. destruct (decide (i = a)) as [->|Hne].
      * rewrite H4 by lia. rewrite Hv1, fupd_eq. done.
      * rewrite H5 by lia. apply Hh. lia.
    + assert (E1 : wrote_to v v1 [(st + Z.of_nat a + 1, vb v (hs a))]).
      { unfold wrote_to, v1, vcopy. vs. by rewrite fupd_eq. }
      assert (E2 : ((λ i, (st + Z.of_nat i + 1, vb v1 (hs i))) <$> seq (S a) m) =
                   ((λ i, (st + Z.of_nat i + 1, vb v (hs i))) <$> seq (S a) m)).
      { apply list_fmap_ext. intros _ i Hi%list_elem_of_lookup_2%elem_of_seq. rewrite Hh by lia. done. }
      rewrite E2 in H6. cbn [fmap list_fmap]. exact (wrote_to_trans _ _ _ _ _ E1 H6).
Qed.

Lemma vinstalled_spec rec a m v :
  (a + m ≤ n)%nat →
  let v' := vinstalled rec st hs (seq a m) v in
  (∀ b, (∀ i, (a ≤ i < a + m)%nat → b ≠ hs i) → vr v' b = vr v b ∧ vl v' b = vl v b ∧ vb v' b = vb v b) ∧
  (∀ i, (a ≤ i < a + m)%nat → vb v' (hs i) = vb v (st + Z.of_nat i + 1) ∧ vl v' (hs i) = free_lock ∧
     vr v' (hs i) = if rec then 0 else vr v (hs i) - 1) ∧
  ((∀ i, (a ≤ i < a + m)%nat → if rec then vr v (hs i) = 0 else 0 < vr v (hs i)) → vu v' ≤ vu v) ∧
  wrote_to v v' ((λ i, (hs i, vb v (st + Z.of_nat i + 1))) <$> seq a m).
Proof using HG.
  revert a v. induction m as [|m IH]; intros a v Ham; cbn [seq vinstalled foldl].
  - split; [done|]. split; [lia|]. split; [lia|]. split; [by rewrite app_nil_r|done].
  - set (v1 := vinst1 rec st hs v a).
    destruct (IH (S a) v1 ltac:(lia)) as (H1 & H2 & H3 & H4).
    change (foldl _ v1 (seq (S a) m)) with (vinstalled rec st hs (seq (S a) m) v1).
    cbv zeta. set (v' := vinstalled rec st hs (seq (S a) m) v1) in *.
    assert (Hb1 : ∀ b, vb v1 b = fupd (vb v) (hs a) (vb v (st + Z.of_nat a + 1)) b) by done.
    assert (Hr1 : ∀ b, vr v1 b = fupd (vr v) (hs a) (if rec then 0 else vr v (hs a) - 1) b) by done.
    assert (Hl1 : ∀ b, vl v1 b = fupd (vl v) (hs a) free_lock b) by done.
    assert (Hinj : ∀ i, (S a ≤ i < n)%nat → hs i ≠ hs a).
    { intros i Hi E. assert (i = a) by (apply (lg_inj _ _ _ HG); [lia..|done]). lia. }
    assert (HL : ∀ i, (i < n)%nat → st + Z.of_nat i + 1 ≠ hs a).
    { intros i Hi E. destruct (lg_home _ _ _ HG a ltac:(lia)). pose proof (lg_n _ _ _ HG). lia. }
    split; [|split; [|split]].
    + intros b Hb. destruct (H1 b) as (E1 & E2 & E3); [intros i Hi; apply Hb; lia|].
      assert (b ≠ hs a) by (apply Hb; lia). rewrite E1, E2, E3, Hb1, Hr1, Hl1, !fupd_ne by done. done.
    + intros i Hi. destruct (decide (i = a)) as [->|Hne].
      * destruct (H1 (hs a)) as (E1 & E2 & E3); [intros j Hj E; by apply (Hinj j ltac:(lia))|].
        rewrite E1, E2, E3, Hb1, Hr1, Hl1, !fupd_eq. done.
      * destruct (H2 i ltac:(lia)) as (E1 & E2 & E3). rewrite E1, E2, E3, Hb1, Hr1.
        rewrite !fupd_ne by (apply HL || apply Hinj; lia). done.
    + intros Hp. assert (Hu1 : vu v1 ≤ vu v).
      { change (vu v + bit (if rec then 0 else vr v (hs a) - 1) - bit (vr v (hs a)) ≤ vu v).
        specialize (Hp a ltac:(lia)). destruct rec; [rewrite Hp; lia|].
        rewrite (bits_one (vr v (hs a))) by lia. unfold bit. destruct (_ =? 0); lia. }
      assert (vu v' ≤ vu v1); [|lia]. apply H3. intros i Hi. rewrite Hr1, fupd_ne by (apply Hinj; lia).
      apply Hp. lia.
    + assert (E1 : wrote_to v v1 [(hs a, vb v (st + Z.of_nat a + 1))]).
      { unfold wrote_to, v1, vinst1, vcopy. vs. by rewrite fupd_eq. }
      assert (E2 : ((λ i, (hs i, vb v1 (st + Z.of_nat i + 1))) <$> seq (S a) m) =
                   ((λ i, (hs i, vb v (st + Z.of_nat i + 1))) <$> seq (S a) m)).
      { apply list_fmap_ext. intros _ i Hi%list_elem_of_lookup_2%elem_of_seq.
        rewrite Hb1, fupd_ne by (apply HL; lia). done. }
      rewrite E2 in H4. cbn [fmap list_fmap]. exact (wrote_to_trans _ _ _ _ _ E1 H4).
Qed.
End views.

(** ** Commit *)

Section commit.
Context {Fl : Fuel} {Dv : Device} `{Bs : BlockDevSpec}.

(** A transaction ready to commit: the log's blocks are not in use, and every
    logged block is pinned in the cache and unlocked. *)
Record commit_ready (v : view) (st : Z) (n : nat) (hs : nat → Z) : Prop := {
  cr_used : v.(vu) < 30;
  cr_log b : st ≤ b ≤ st + 30 → v.(vl) b = free_lock ∧ v.(vr) b = 0;
  cr_home i : (i < n)%nat → v.(vl) (hs i) = free_lock ∧ 0 < v.(vr) (hs i) < 4294967295 }.

Definition log_writes (st : Z) (n : nat) (c : nat → list Z) : list (Z * list Z) :=
  (λ i, (st + Z.of_nat i + 1, c i)) <$> seq 0 n.
Definition home_writes (n : nat) (hs : nat → Z) (c : nat → list Z) : list (Z * list Z) :=
  (λ i, (hs i, c i)) <$> seq 0 n.

Lemma log_mem_empty s0 st n hs hs' :
  log_mem s0 st n hs → log_mem (set_klog (set_lh_n (λ _, 0)) s0) st 0 hs'.
Proof. intros [H1 H2 H3 H4 H5]. split; try done. lia. Qed.

Lemma vhead_wrote st d v : wrote_to v (vhead st d v) [(st, d)].
Proof. unfold wrote_to, vhead. vs. by rewrite fupd_eq. Qed.

Lemma commit_ok p s0 st n hs s v :
  quiet p s0 → log_geom st n hs → (0 < n)%nat → log_mem s0 st n hs →
  at_view s0 s v → commit_ready v st n hs →
  let c i := v.(vb) (hs i) in
  ∃ s' s0' v' H1 H0,
    commit s = Done () s' ∧ at_view s0' s' v' ∧ s0'.(klog).(lh_n) = 0 ∧
    wrote_to v v' (log_writes st n c ++ [(st, H1)] ++ home_writes n hs c ++ [(st, H0)]) ∧
    (lh_get_n H1 = Z.of_nat n ∧ ∀ i, (i < n)%nat → lh_get_block H1 i = hs i) ∧
    lh_get_n H0 = 0 ∧
    (∀ b, ¬ (st ≤ b ≤ st + 30) → v'.(vb) b = v.(vb) b) ∧
    (∀ i, (i < n)%nat → v'.(vr) (hs i) = v.(vr) (hs i) - 1).
Proof.
  intros Hq HG Hn HM HA [Hu Hlog Hhome] c.
  pose proof (lg_n _ _ _ HG) as Hn29. pose proof (lg_start _ _ _ HG) as Hstart.
  unfold commit. mnext. rewrite (av_klog _ _ _ HA), (lm_n _ _ _ _ HM).
  rewrite (proj2 (Z.ltb_lt 0 _)) by lia. cbn [when].
  (* write_log *)
  destruct (write_log_loop p s0 st n hs 0 n s v) as (s1 & E1 & HA1); try done.
  { intros i Hi. destruct (Hlog (st + Z.of_nat i + 1)); [lia|]. destruct (Hhome i Hi). done. }
  destruct (vlogged_spec st n hs HG 0 n v ltac:(lia)) as (L1 & L2 & L3 & L4 & L5 & L6).
  set (v1 := vlogged st hs (seq 0 n) v) in *. cbv zeta in L1, L2, L3, L4, L5, L6.
  rewrite (bind_done write_log _ s () s1).
  2:{ unfold write_log. mnext. rewrite (av_klog _ _ _ HA), (lm_n _ _ _ _ HM), Nat2Z.id. done. }
  (* write_head *)
  assert (Hst1 : vl v1 st = free_lock ∧ vr v1 st = 0) by (rewrite L1, L2; apply Hlog; lia).
  destruct (write_head_ok p s0 st n hs s1 v1) as (s2 & E2 & HA2); try done; [lia..|apply Hst1|apply Hst1|].
  mstep E2. set (H1 := enc_head n hs (vb v1 st)) in *. set (v2 := vhead st H1 v1) in *.
  (* install_trans *)
  assert (Hready : ∀ i, (0 ≤ i < n)%nat → inst_ready false st hs v2 i).
  { intros i Hi. unfold inst_ready. change (vl v2) with (vl v1). change (vr v2) with (vr v1).
    rewrite L1, L2. destruct (Hlog (st + Z.of_nat i + 1)); [lia|]. destruct (Hhome i ltac:(lia)). done. }
  destruct (install_loop p s0 st n hs false 0 n s2 v2) as (o & s3 & E3 & HA3); try done.
  { change (vu v2) with (vu v1). lia. }
  destruct (vinstalled_spec st n hs HG false 0 n v2 ltac:(lia)) as (I1 & I2 & I3 & I4).
  set (v3 := vinstalled false st hs (seq 0 n) v2) in *. cbv zeta in I1, I2, I3, I4.
  rewrite (bind_done (install_trans false) _ s2 () s3).
  2:{ unfold install_trans. mnext. rewrite (av_klog _ _ _ HA2), (lm_n _ _ _ _ HM), Nat2Z.id. done. }
  mnext.
  (* write_head *)
  set (s0' := set_klog (set_lh_n (λ _, 0)) (said o s0)).
  assert (HM' : log_mem s0' st 0 hs) by (by eapply log_mem_empty, log_mem_said).
  assert (Hnh : ∀ b, st ≤ b ≤ st + 30 → ∀ i, (0 ≤ i < 0 + n)%nat → b ≠ hs i).
  { intros b Hb i Hi ->. destruct (lg_home _ _ _ HG i ltac:(lia)). lia. }
  destruct (I1 st) as (R1 & R2 & R3); [by apply Hnh; lia|].
  destruct (write_head_ok p s0' st 0 hs (set_klog (set_lh_n (λ _, 0)) s3) v3) as (s4 & E4 & HA4);
    try done; [lia|lia|by apply av_set_klog| |by rewrite R2; apply Hst1|by rewrite R1; apply Hst1|].
  { assert (vu v3 ≤ vu v2); [|change (vu v2) with (vu v1) in *; lia].
    apply I3. intros i Hi. change (vr v2) with (vr v1). rewrite L1. apply Hhome. lia. }
  set (H0 := enc_head 0 hs (vb v3 st)) in *.
  exists s4, s0', (vhead st H0 v3), H1, H0. split; [exact E4|]. split; [done|]. split; [done|].
  assert (Hlen1 : length (vb v1 st) = 1024%nat) by (by eapply av_len).
  assert (Hlen3 : length (vb v3 st) = 1024%nat) by (by eapply av_len).
  destruct (enc_head_spec n hs (vb v1 st) Hlen1) as (_ & N1 & N2); [lia|intros i Hi; by apply HG|].
  destruct (enc_head_spec 0 hs (vb v3 st) Hlen3) as (_ & N3 & _); [lia|lia|].
  assert (Hv2 : ∀ b, b ≠ st → vb v2 b = vb v1 b) by (intros b Hb; unfold v2, vhead; vs; by rewrite fupd_ne).
  split; [|split; [done|split; [done|split]]].
  - eapply wrote_to_trans; [exact L6|]. eapply wrote_to_trans; [apply vhead_wrote|].
    eapply wrote_to_trans; [|apply vhead_wrote].
    assert (Ec : home_writes n hs c = ((λ i, (hs i, vb v2 (st + Z.of_nat i + 1))) <$> seq 0 n)).
    { apply list_fmap_ext. intros _ i Hi%list_elem_of_lookup_2%elem_of_seq.
      rewrite Hv2 by lia. by rewrite L5 by lia. }
    rewrite Ec. exact I4.
  - intros b Hb. change (fupd (vb v3) st H0 b = vb v b). rewrite fupd_ne by lia.
    destruct (decide (Exists (λ i, b = hs i) (seq 0 n))) as [Hex|Hnex].
    + apply Exists_exists in Hex as (i & Hi%elem_of_seq & ->).
      destruct (I2 i ltac:(lia)) as (-> & _). rewrite Hv2 by lia. by rewrite L5 by lia.
    + destruct (I1 b) as (_ & _ & ->).
      { intros i Hi ->. apply Hnex, Exists_exists. exists i. split; [apply elem_of_seq; lia|done]. }
      rewrite Hv2 by lia. apply L4. lia.
  - intros i Hi. destruct (I2 i ltac:(lia)) as (_ & _ & E).
    change (vr v3 (hs i) = vr v (hs i) - 1). rewrite E. change (vr v2) with (vr v1). by rewrite L1.
Qed.
End commit.

(** ** Recovery *)

Section recover.
Context {Fl : Fuel} {Dv : Device} `{Bs : BlockDevSpec}.

Definition load_blocks (d : list Z) (l : list nat) (lb : list Z) : list Z :=
  foldl (λ lb i, <[i := lh_get_block d i]> lb) lb l.

Lemma load_loop d a m s :
  (a + m ≤ 30)%nat →
  mfor (seq a m) (λ i, set_log_block i (lh_get_block d i)) s =
    Done () (set_klog (set_lh_block (load_blocks d (seq a m))) s).
Proof.
  revert a s. induction m as [|m IH]; intros a s Ham; [done|]. cbn [seq mfor].
  rewrite (bind_done _ _ s () (set_klog (set_lh_block (λ l, <[a := lh_get_block d a]> l)) s)).
  - rewrite IH by lia. done.
  - unfold set_log_block. by rewrite (proj2 (Nat.ltb_lt _ _)) by lia.
Qed.

Lemma load_blocks_spec d a m lb :
  length lb = 30%nat → (a + m ≤ 30)%nat →
  length (load_blocks d (seq a m) lb) = 30%nat ∧
  ∀ i, load_blocks d (seq a m) lb !!! i = if decide (a ≤ i < a + m)%nat then lh_get_block d i else lb !!! i.
Proof.
  revert a lb. induction m as [|m IH]; intros a lb Hlb Ham; cbn [seq load_blocks foldl].
  - split; [done|]. intros i. by rewrite decide_False by lia.
  - destruct (IH (S a) (<[a := lh_get_block d a]> lb)) as [H1 H2]; [by rewrite length_insert|lia|].
    split; [exact H1|]. intros i. unfold load_blocks in H2. rewrite H2.
    destruct (decide (i = a)) as [->|Hne].
    + rewrite decide_False, decide_True by lia. apply list_lookup_total_insert_eq. lia.
    + rewrite list_lookup_total_insert_ne by done. repeat case_decide; try lia; done.
Qed.

Lemma read_head_ok p s0 st s v :
  quiet p s0 → s0.(klog).(l_dev) = ROOTDEV → s0.(klog).(l_start) = st →
  length s0.(klog).(lh_block) = 30%nat → 0 ≤ st < 2147483648 →
  at_view s0 s v → v.(vu) < 30 → v.(vl) st = free_lock → v.(vr) st = 0 →
  0 ≤ lh_get_n (v.(vb) st) ≤ 30 →
  let n := Z.to_nat (lh_get_n (v.(vb) st)) in
  ∃ s' s0', read_head s = Done () s' ∧ at_view s0' s' v ∧
    (∃ g, s0' = set_klog g s0) ∧ log_mem s0' st n (lh_get_block (v.(vb) st)).
Proof.
  intros Hq Hdev Hst Hlb Hst0 HA Hu Hl Hr Hn n.
  unfold read_head. mnext. change (klog s) with s.(klog). rewrite (av_klog _ _ _ HA), Hdev, Hst.
  change (u32 ROOTDEV) with ROOTDEV. rewrite u32_small by lia.
  destruct (av_bread p s0 s v st Hq HA) as (i & s1 & E1 & HA1 & _ & T1); [lia|done|lia|lia|].
  mstep E1. set (v1 := vcount st _ _ v) in *. mnext. rewrite (av_buf _ _ _ _ _ HA1 T1).
  change (vb v1 st) with (vb v st). set (d := vb v st) in *. mnext. fold n.
  rewrite (bind_done _ _ _ _ _ (load_loop d 0 n _ ltac:(lia))).
  set (g := λ k, set_lh_block (load_blocks d (seq 0 n)) (set_lh_n (λ _, lh_get_n d) k)).
  change (set_klog (set_lh_block (load_blocks d (seq 0 n))) (set_klog (set_lh_n (λ _, lh_get_n d)) s1))
    with (set_klog g s1).
  destruct (av_brelse p (set_klog g s0) (set_klog g s1) v1 i st Hq (av_set_klog g _ _ _ HA1) T1)
    as (s2 & E2 & HA2 & _).
  { unfold v1. vs. by rewrite fupd_eq. }
  { unfold v1. vs. rewrite fupd_eq. lia. }
  { intros _. change (vb v st = vd v st). by eapply av_clean. }
  exists s2, (set_klog g s0). split; [exact E2|]. split; [|split].
  - eapply at_view_proper; [symmetry|exact HA2]. split; try done.
    + intros b. unfold v1. vs. unfold fupd. destruct (decide (b = st)) as [->|]; [|done].
      rewrite decide_True by done. lia.
    + intros b. unfold v1. vs. unfold fupd. by destruct (decide (b = st)) as [->|].
    + unfold v1. vs. rewrite fupd_eq, Hr. change (bit (0 + 1)) with 1. change (bit 0) with 0.
      change (bit (0 + 1 - 1)) with 0. lia.
  - by exists g.
  - destruct (load_blocks_spec d 0 n s0.(klog).(lh_block) Hlb ltac:(lia)) as [L1 L2]. split; try done.
    + change (lh_get_n d = Z.of_nat n). unfold n. by rewrite Z2Nat.id by lia.
    + intros j Hj. unfold log_block. change (load_blocks d (seq 0 n) s0.(klog).(lh_block) !!! j = lh_get_block d j).
      rewrite L2. by rewrite decide_True by lia.
Qed.

(** A machine that restarts: an empty cache over the disk [d], the log's place
    known from the superblock. *)
Record restarted (st : Z) (d : Z → list Z) (s : kstate) : Prop := {
  rs_quiet : ∃ p, quiet p s;
  rs_print : uart_ready ∧ s.(panicking) = 0 ∧ s.(panicked) = 0;
  rs_log : s.(klog).(l_dev) = ROOTDEV ∧ s.(klog).(l_start) = st ∧ length s.(klog).(lh_block) = 30%nat;
  rs_dev : dev_ok s.(kvdisk);
  rs_bc : bc s;
  rs_empty i b : ¬ hb s.(bufs) i b;
  rs_used : used s = 0%nat;
  rs_disk b : disk_block s b = d b }.

Lemma restarted_view st d s : restarted st d s →
  at_view s s (mk_view d (λ _, 0) (λ _, free_lock) 0 d s.(disk_writes)).
Proof.
  intros [R1 R2 R3 R4 R5 R6 R7 R8]. split; try done.
  - by exists s.(bufs), (s.(kvdisk), s.(mmio)), s.(disk), s.(disk_writes).
  - intros b. unfold blk. rewrite attr_none by done. apply R8.
  - intros b. unfold rc. by rewrite attr_none.
  - intros b. unfold lk. by rewrite attr_none.
  - by rewrite R7.
Qed.

(** Recovery installs the blocks the header on the disk names, and nothing when
    it names none. *)
Lemma recover_ok st d s n hs :
  restarted st d s → log_geom st n hs → lh_get_n (d st) = Z.of_nat n →
  (∀ i, (i < n)%nat → lh_get_block (d st) i = hs i) →
  ∃ s', recover_from_log s = Done () s' ∧
    ∀ b, b ≠ st → disk_block s' b = apply_writes (home_writes n hs (λ i, d (st + Z.of_nat i + 1))) d b.
Proof.
  intros HR HG Hn Hhs. pose proof (restarted_view _ _ _ HR) as HA.
  destruct HR as [[p Hq] Hpr (Hd & Hs & Hlb) _ _ _ _ _]. pose proof (lg_n _ _ _ HG). pose proof (lg_start _ _ _ HG).
  set (v := mk_view _ _ _ _ _ _) in HA. unfold recover_from_log.
  destruct (read_head_ok p s st s v) as (s1 & s0 & E1 & HA1 & (g & Eg) & HM); try done; [lia|cbn; lia..|].
  mstep E1. cbn in HM. rewrite Hn, Nat2Z.id in HM.
  assert (HM' : log_mem s0 st n hs).
  { destruct HM as [M1 M2 M3 M4 M5]. split; try done. intros i Hi. rewrite M5 by done. by apply Hhs. }
  assert (Hq0 : quiet p s0) by (by rewrite Eg).
  destruct (install_loop p s0 st n hs true 0 n s1 v) as (o & s2 & E2 & HA2); try done.
  { intros _. rewrite Eg. exact Hpr. }
  destruct (vinstalled_spec st n hs HG true 0 n v ltac:(lia)) as (I1 & I2 & I3 & I4).
  set (v2 := vinstalled true st hs (seq 0 n) v) in *. cbv zeta in I1, I2, I3, I4.
  rewrite (bind_done (install_trans true) _ s1 () s2).
  2:{ unfold install_trans. mnext. rewrite (av_klog _ _ _ HA1), (lm_n _ _ _ _ HM'), Nat2Z.id. done. }
  mnext. destruct (I1 st) as (R1 & R2 & R3).
  { intros i Hi E. destruct (lg_home _ _ _ HG i ltac:(lia)). lia. }
  destruct (write_head_ok p (set_klog (set_lh_n (λ _, 0)) (said o s0)) st 0 hs
              (set_klog (set_lh_n (λ _, 0)) s2) v2) as (s3 & E3 & HA3);
    try done; [by eapply log_mem_empty, log_mem_said|lia|lia|by apply av_set_klog| |].
  { assert (vu v2 ≤ 0); [|lia]. apply I3. done. }
  exists s3. split; [exact E3|]. intros b Hb. rewrite (av_d _ _ _ HA3).
  unfold vhead. vs. rewrite fupd_ne by done. apply I4.
Qed.
End recover.

(** ** Crashes *)

Section crash.
Context (st : Z) (n : nat) (hs : nat → Z) (HG : log_geom st n hs).
Context (c : nat → list Z) (d : Z → list Z) (H1 H0 : list Z).

Let w : list (Z * list Z) := log_writes st n c ++ [(st, H1)] ++ home_writes n hs c ++ [(st, H0)].
Let in_log (b : Z) : Prop := st ≤ b ≤ st + 30.
Let is_home (b : Z) : Prop := ∃ i, (i < n)%nat ∧ b = hs i.

Lemma log_writes_at x : x ∈ log_writes st n c → ∃ i, (i < n)%nat ∧ x.1 = st + Z.of_nat i + 1.
Proof. intros (i & -> & Hi%elem_of_seq)%list_elem_of_fmap. exists i. split; [lia|done]. Qed.

Lemma home_writes_at x : x ∈ home_writes n hs c → is_home x.1.
Proof. intros (i & -> & Hi%elem_of_seq)%list_elem_of_fmap. exists i. split; [lia|done]. Qed.

Lemma home_not_log b : is_home b → ¬ in_log b.
Proof using HG. intros (i & Hi & ->). by apply (lg_home _ _ _ HG). Qed.

(** Before the header is written the disk is the old one outside the log. *)
Lemma crash_before k b : (k ≤ n)%nat → b = st ∨ ¬ in_log b → apply_writes (take k w) d b = d b.
Proof using HG.
  intros Hk Hb. pose proof (lg_n _ _ _ HG). unfold w.
  rewrite take_app_le by (unfold log_writes; rewrite length_fmap, length_seq; lia).
  apply apply_writes_out. intros x Hx%elem_of_take. destruct Hx as (j & Hx%list_elem_of_lookup_2 & _).
  destruct (log_writes_at x Hx) as (i & Hi & ->). unfold in_log in Hb. lia.
Qed.

(** After it, until it is cleared, the log holds the transaction. *)
Lemma crash_between j : let d' := apply_writes (log_writes st n c ++ [(st, H1)] ++ take j (home_writes n hs c)) d in
  d' st = H1 ∧ (∀ i, (i < n)%nat → d' (st + Z.of_nat i + 1) = c i) ∧
  (∀ b, ¬ in_log b → ¬ is_home b → d' b = d b).
Proof using HG.
  pose proof (lg_n _ _ _ HG). cbv zeta.
  assert (Hout : ∀ b, ¬ is_home b → b ≠ st →
    apply_writes (log_writes st n c ++ [(st, H1)] ++ take j (home_writes n hs c)) d b =
    apply_writes (log_writes st n c) d b).
  { intros b Hb Hne. rewrite apply_writes_app. apply apply_writes_out.
    intros x [->%list_elem_of_singleton|Hx]%elem_of_app; [done|]. apply elem_of_take in Hx as (j' & Hx & _).
    apply list_elem_of_lookup_2, home_writes_at in Hx. by intros <-. }
  split; [|split].
  - rewrite (assoc_L (++)), apply_writes_app, apply_writes_out.
    + rewrite apply_writes_app. apply fupd_eq.
    + intros x (j' & Hx%list_elem_of_lookup_2%home_writes_at & _)%elem_of_take E. rewrite E in Hx.
      apply (home_not_log _ Hx). unfold in_log. lia.
  - intros i Hi. rewrite Hout; [|intros Hh; apply (home_not_log _ Hh); unfold in_log; lia|lia].
    apply (apply_writes_in (λ i, st + Z.of_nat i + 1) c 0 n); lia.
  - intros b Hb Hh. rewrite Hout; [|done|intros ->; apply Hb; unfold in_log; lia].
    apply apply_writes_out. intros x Hx%log_writes_at. destruct Hx as (i & Hi & ->). unfold in_log in Hb. lia.
Qed.

Lemma home_written e b : is_home b → ∃ i, (i < n)%nat ∧ b = hs i ∧ apply_writes (home_writes n hs c) e b = c i.
Proof using HG.
  intros (i & Hi & ->). exists i. split; [done|]. split; [done|].
  apply (apply_writes_in hs c 0 n); [|lia]. intros i' j' ? ?. apply (lg_inj _ _ _ HG); lia.
Qed.

Lemma home_unwritten e b : ¬ is_home b → apply_writes (home_writes n hs c) e b = e b.
Proof. intros Hb. apply apply_writes_out. intros x Hx%home_writes_at <-. done. Qed.

(** The prefixes of a commit's writes. *)
Lemma crash_take k : (n < k)%nat →
  (∃ j, (j ≤ n)%nat ∧ take k w = log_writes st n c ++ [(st, H1)] ++ take j (home_writes n hs c)) ∨ take k w = w.
Proof.
  intros Hk. assert (Hl : length (log_writes st n c) = n) by (unfold log_writes; by rewrite length_fmap, length_seq).
  assert (Hh : length (home_writes n hs c) = n) by (unfold home_writes; by rewrite length_fmap, length_seq).
  destruct (decide (k ≤ n + 1 + n)%nat).
  - left. exists (k - n - 1)%nat. split; [lia|]. unfold w. rewrite take_app_ge by lia. f_equal.
    rewrite Hl, take_app_ge by (cbn; lia). f_equal. rewrite take_app_le by (cbn; lia). done.
  - right. apply take_ge. unfold w. rewrite !length_app, Hl, Hh. cbn. lia.
Qed.
End crash.
