(* ===== verification/LogSafe.v ===== *)
(** What the log of [Log] promises: commits are atomic under crashes. *)

From S2P Require Import Prelude Cmem Kstate Spinlock Sleep Sleeplock Printf Bio BioSpec Log LogSpec LogCrash BioProps.
Local Open Scope Z_scope.

(** The home blocks of a transaction. *)
Definition homes (n : nat) (hs : nat → Z) : list Z := hs <$> seq 0 n.

Section safe.
Context {Fl : Fuel} {Dv : Device} `{Bs : BlockDevSpec}.

Lemma log_geom_empty st n hs : log_geom st n hs → log_geom st 0 hs.
Proof. intros [G1 G2 G3 G4]. split; [done|lia..]. Qed.

(** Recovery after a crash at the [k]-th write of a commit. *)
Lemma crash_recover st n hs c (d : Z → list Z) H1 H0 k r :
  log_geom st n hs →
  (lh_get_n H1 = Z.of_nat n ∧ ∀ i, (i < n)%nat → lh_get_block H1 i = hs i) → lh_get_n H0 = 0 →
  lh_get_n (d st) = 0 →
  restarted st (apply_writes (take k (log_writes st n c ++ [(st, H1)] ++ home_writes n hs c ++ [(st, H0)])) d) r →
  ∃ r', recover_from_log r = Done () r' ∧
    ∀ b, ¬ (st ≤ b ≤ st + 30) →
      ((n < k)%nat → ∀ i, (i < n)%nat → b = hs i → disk_block r' b = c i) ∧
      ((k ≤ n)%nat ∨ b ∉ homes n hs → disk_block r' b = d b).
Proof.
  intros HG [Hn1 Hb1] Hn0 Hd HR. set (w := log_writes _ _ _ ++ _) in HR.
  assert (Hhome : ∀ b, b ∈ homes n hs ↔ ∃ i, (i < n)%nat ∧ b = hs i).
  { intros b. unfold homes. rewrite list_elem_of_fmap. setoid_rewrite elem_of_seq.
    split; intros (i & ? & ?); exists i; (split; [lia || done|lia || done]). }
  assert (Hst : ∀ b, ¬ (st ≤ b ≤ st + 30) → b ≠ st) by lia.
  destruct (decide (k ≤ n)%nat) as [Hk|Hk].
  - destruct (recover_ok _ _ r 0 hs HR (log_geom_empty _ _ _ HG)) as (r' & E & HD); [|lia|].
    { unfold w. by rewrite (crash_before st n hs HG c d H1 H0) by auto. }
    exists r'. split; [done|]. intros b Hb. split; [lia|]. intros _. rewrite HD by auto.
    apply (crash_before st n hs HG c d H1 H0); auto.
  - destruct (crash_take st n hs c H1 H0 k) as [(j & Hj & E)|E]; [lia|..]; fold w in E; rewrite E in HR.
    + destruct (crash_between st n hs HG c d H1 j) as (D1 & D2 & D3). set (d' := apply_writes _ d) in *.
      destruct (recover_ok _ _ r n hs HR HG) as (r' & Er & HD); [by rewrite D1|by rewrite D1|].
      exists r'. split; [done|]. intros b Hb. split.
      * intros _ i Hi ->. rewrite HD by auto. rewrite <- (D2 i Hi).
        apply (apply_writes_in hs (λ i, d' (st + Z.of_nat i + 1)) 0 n); [|lia].
        intros i' j' ? ?. apply (lg_inj _ _ _ HG); lia.
      * intros [?|Hnh]; [lia|]. rewrite Hhome in Hnh. rewrite HD by auto.
        rewrite (home_unwritten n hs) by done. by apply D3.
    + destruct (crash_between st n hs HG c d H1 n) as (D1 & D2 & D3).
      assert (Hw : ∀ b, apply_writes w d b = fupd (apply_writes (home_writes n hs c)
                (apply_writes (log_writes st n c ++ [(st, H1)]) d)) st H0 b).
      { intros b. unfold w. rewrite (assoc_L (++) (log_writes st n c)), apply_writes_app.
        by rewrite apply_writes_app. }
      destruct (recover_ok _ _ r 0 hs HR (log_geom_empty _ _ _ HG)) as (r' & Er & HD); [|lia|].
      { by rewrite Hw, fupd_eq. }
      exists r'. split; [done|]. intros b Hb. rewrite HD by auto.
      change (apply_writes (home_writes 0 hs _) (apply_writes w d) b) with (apply_writes w d b).
      rewrite Hw, fupd_ne by auto. split.
      * intros _ i Hi ->. destruct (home_written st n hs HG c (apply_writes (log_writes st n c ++ [(st, H1)]) d) (hs i))
          as (i' & Hi' & E' & ->); [by exists i|]. by rewrite (lg_inj _ _ _ HG i i' Hi Hi' E').
      * intros [?|Hnh]; [lia|]. rewrite Hhome in Hnh. rewrite <- (D3 b Hb Hnh).
        rewrite <- apply_writes_app, <- (assoc_L (++)), (firstn_all2 (home_writes n hs c)); [done|].
        unfold home_writes. by rewrite length_fmap, length_seq.
Qed.

(** log_write *)
Lemma bpin_done i s : cpu_ok s → lock_free LkBcache s →
  bpin i s = Done () (upd_buf i (set_b_refcnt (λ r, u32 (r + 1))) s).
Proof.
  intros Hs Hl. unfold bpin. mstep (acquire_free LkBcache s (proj1 Hs) Hl). mnext.
  exact (release_acq LkBcache (upd_buf i (set_b_refcnt (λ r, u32 (r + 1))) s) Hs Hl).
Qed.

Lemma log_find_spec l i n b :
  let j := log_find l i n b in
  (i ≤ j ≤ i + n)%nat ∧ (∀ k, (i ≤ k < j)%nat → u32 (l !!! k) ≠ b) ∧ (j = (i + n)%nat ∨ u32 (l !!! j) = b).
Proof.
  revert i. induction n as [|n IH]; intros i; cbn [log_find]; [split; [lia|]; split; [lia|left; lia]|].
  destruct (u32 (l !!! i) =? b) eqn:E.
  - apply Z.eqb_eq in E. split; [lia|]. split; [lia|by right].
  - apply Z.eqb_neq in E. rewrite Nat.add_1_r. destruct (IH (S i)) as (H1 & H2 & H3). split; [lia|]. split.
    + intros k Hk. destruct (decide (k = i)) as [->|]; [done|]. apply H2. lia.
    + destruct H3; [left; lia|by right].
Qed.

Lemma set_klog_id g s : g s.(klog) = s.(klog) → set_klog g s = s.
Proof. intros H. unfold set_klog. by rewrite H. Qed.

Lemma set_block_same j b l : (j < length l.(lh_block))%nat → l.(lh_block) !!! j = b →
  set_lh_block (λ lb, <[j:=b]> lb) l = l.
Proof.
  intros Hj <-. unfold set_lh_block. rewrite list_insert_id; [done|]. by apply list_lookup_lookup_total_lt.
Qed.

(** The blocks the current transaction has logged. *)
Definition logged (s : kstate) : list Z := take (Z.to_nat s.(klog).(lh_n)) s.(klog).(lh_block).

Lemma log_write_done p i b s :
  quiet p s → (get_buf i s).(b_blockno) = b → 0 ≤ b < 2147483648 →
  length s.(klog).(lh_block) = 30%nat → 0 ≤ s.(klog).(lh_n) < 30 → 1 ≤ s.(klog).(l_outstanding) →
  Forall (λ x, 0 ≤ x < 2147483648) (logged s) →
  log_write i s = Done () (if decide (b ∈ logged s) then s else
    upd_buf i (set_b_refcnt (λ r, u32 (r + 1)))
      (set_klog (λ l, set_lh_n (λ n, n + 1) (set_lh_block <[Z.to_nat l.(lh_n) := b]> l)) s)).
Proof.
  intros Hq Hb Hr Hlen Hn Ho Hall. pose proof (quiet_cpu_ok _ _ Hq) as Hs.
  pose proof (quiet_lock p LkLog s Hq I) as Hlk. set (n := Z.to_nat s.(klog).(lh_n)).
  unfold log_write. mstep (acquire_free LkLog s (proj1 Hs) Hlk). mnext.
  change (klog (acq LkLog s)) with s.(klog).
  rewrite (proj2 (Z.leb_gt 30 _)) by (change LOGBLOCKS with 30; lia). rewrite (proj2 (Z.ltb_ge _ 1)) by lia. cbn [when].
  do 3 mnext. change (get_buf i (acq LkLog s)) with (get_buf i s). rewrite Hb, s32_small by lia. fold n.
  destruct (log_find_spec s.(klog).(lh_block) 0 n b) as (F1 & F2 & F3). set (j := log_find _ _ _ _) in *.
  assert (Hel : ∀ k, (k < n)%nat → s.(klog).(lh_block) !!! k ∈ logged s ∧ u32 (s.(klog).(lh_block) !!! k) = s.(klog).(lh_block) !!! k).
  { intros k Hk. assert (Hin : s.(klog).(lh_block) !!! k ∈ logged s).
    { apply elem_of_take. exists k. split; [|done]. apply list_lookup_lookup_total_lt. lia. }
    split; [done|]. rewrite Forall_forall in Hall. specialize (Hall _ Hin). apply u32_small. lia. }
  assert (Hset : set_log_block j b (acq LkLog s) = Done () (set_klog (set_lh_block (λ l, <[j:=b]> l)) (acq LkLog s))).
  { unfold set_log_block. by rewrite (proj2 (Nat.ltb_lt _ _)) by lia. }
  mstep Hset. destruct (decide (j = n)) as [Ej|Ej].
  - rewrite decide_False.
    2:{ intros (k & Hk & Hkn)%elem_of_take. apply (F2 k); [lia|].
        destruct (Hel k Hkn) as [_ ->]. by apply list_lookup_total_correct. }
    rewrite (proj2 (Z.eqb_eq _ _)) by lia. cbn [when]. rewrite Ej.
    set (s1 := set_klog (set_lh_block (λ l, <[n:=b]> l)) s).
    change (set_klog (set_lh_block (λ l, <[n:=b]> l)) (acq LkLog s)) with (acq LkLog s1).
    rewrite (bind_done _ _ (acq LkLog s1) () (set_klog (set_lh_n (λ n, n + 1))
               (upd_buf i (set_b_refcnt (λ r, u32 (r + 1))) (acq LkLog s1)))).
    2:{ by mstep (bpin_done i (acq LkLog s1) (cpu_ok_acq LkLog s1 Hs)
          (lock_free_acq LkLog LkBcache s1 ltac:(done) (quiet_lock p LkBcache s Hq I))). }
    exact (release_acq LkLog (upd_buf i (set_b_refcnt (λ r, u32 (r + 1)))
      (set_klog (λ l, set_lh_n (λ n, n + 1) (set_lh_block <[Z.to_nat l.(lh_n) := b]> l)) s)) Hs Hlk).
  - destruct F3 as [?|F3]; [lia|]. destruct (Hel j ltac:(lia)) as [Hin E]. rewrite E in F3. rewrite F3 in Hin.
    rewrite decide_True by done. rewrite (proj2 (Z.eqb_neq _ _)) by lia. cbn [when]. mnext.
    replace (set_klog (set_lh_block (λ l, <[j:=b]> l)) (acq LkLog s)) with (acq LkLog s).
    + exact (release_acq LkLog s Hs Hlk).
    + symmetry. apply set_klog_id, (set_block_same j b s.(klog)); [lia|done].
Qed.

(** [log_write] absorbs: a block already in the transaction changes nothing,
    and a new one is appended to the logged blocks and pinned in the cache. *)
Lemma log_write_absorbs p i b s :
  quiet p s → (get_buf i s).(b_blockno) = b → 0 ≤ b < 2147483648 →
  length s.(klog).(lh_block) = 30%nat → 0 ≤ s.(klog).(lh_n) < 30 → 1 ≤ s.(klog).(l_outstanding) →
  Forall (λ x, 0 ≤ x < 2147483648) (logged s) →
  log_write i s = Done () (if decide (b ∈ logged s) then s else
    upd_buf i (set_b_refcnt (λ r, u32 (r + 1)))
      (set_klog (λ l, set_lh_n (λ n, n + 1) (set_lh_block <[Z.to_nat l.(lh_n) := b]> l)) s)).
Proof. apply log_write_done. Qed.

End safe.

(** ** A concrete transaction: block 100 is written in a log that starts at block 3. *)

Definition demo_device : Device := λ _ _, 32.

Definition demo_boot : kstate :=
  state_after binit (set_klog (λ l, set_l_start (λ _, 3) (set_l_dev (λ _, ROOTDEV)
    (set_l_outstanding (λ _, 1) l))) alone_state).

Definition demo_tx : kstate :=
  let F : Fuel := 1%nat in let D := ideal_disk in
  state_after (b ← bread ROOTDEV 100; modify (upd_buf b (set_b_data (λ _, replicate 1024 5))) ;;
               log_write b ;; brelse b) demo_boot.


Lemma demo_tx_quiet : quiet 3 demo_tx.
Proof.
  apply demo_quiet.
  - by vm_compute.
  - by vm_compute.
  - apply (bool_decide_unpack _). by vm_compute.
  - by vm_compute.
Qed.

Lemma demo_tx_bc : bc demo_tx.
Proof. apply (bc_by_check _ (reverse (seq 0 30))); [by vm_compute|]. vm_compute. tauto. Qed.

Lemma demo_tx_ready : commit_ready (view_of demo_tx) 3 1 (λ _, 100).
Proof.
  split; [by vm_compute| |].
  - intros b Hb. cbn [vl vr view_of].
    assert (H : forallb (λ b, bool_decide (lk demo_tx b = free_lock) && (rc demo_tx b =? 0)) (seqZ 3 31) = true)
      by (by vm_compute).
    rewrite forallb_forall in H. specialize (H b). rewrite andb_true_iff, bool_decide_eq_true, Z.eqb_eq in H.
    apply H. apply list_elem_of_In, elem_of_seqZ. lia.
  - intros i Hi. by vm_compute.
Qed.

Lemma demo_boot_restarted :
  let F : Fuel := 1%nat in let V := demo_device in let D := ideal_disk in
  restarted 3 (λ _, zero_block) demo_boot.
Proof.
  split.
  - exists 3%nat. apply demo_quiet; [by vm_compute..| |by vm_compute]. apply (bool_decide_unpack _). by vm_compute.
  - split; [|by vm_compute]. intros s. by vm_compute.
  - by vm_compute.
  - done.
  - apply (bc_by_check _ (reverse (seq 0 30))); [by vm_compute|]. vm_compute. tauto.
  - intros i b (Hi & Hd & _).
    assert (H : forallb (λ i, negb ((demo_boot.(bufs) !!! i).(b_dev) =? 1)) (seq 0 30) = true) by (by vm_compute).
    rewrite forallb_forall in H. specialize (H i). rewrite Hd in H. discriminate H. apply in_seq. unfold NBUF in Hi. lia.
  - by vm_compute.
  - intros b. unfold disk_block. replace demo_boot.(disk) with (∅ : gmap Z (list Z)) by (by vm_compute). by rewrite lookup_empty.
Qed.


Lemma log_write_absorbs_witness :
  let F : Fuel := 1%nat in
  log_write 0 demo_tx = Done () demo_tx ∧
  ∃ s', log_write 1 demo_tx = Done () s' ∧ logged s' = [100; 0].
Proof.
  intros F.
  assert (Hall : Forall (λ x, 0 ≤ x < 2147483648) (logged demo_tx)).
  { apply (bool_decide_unpack _). by vm_compute. }
  assert (Hn : 0 ≤ demo_tx.(klog).(lh_n) < 30) by (by vm_compute).
  assert (Ho : 1 ≤ demo_tx.(klog).(l_outstanding)) by (by vm_compute).
  split.
  - rewrite (@log_write_absorbs F 3 0 100 demo_tx demo_tx_quiet);
      [|by vm_compute|lia|by vm_compute|exact Hn|exact Ho|exact Hall].
    rewrite decide_True; [reflexivity|]. apply (bool_decide_unpack _). by vm_compute.
  - eexists. split.
    + apply (@log_write_absorbs F 3 1 0 demo_tx demo_tx_quiet);
        [by vm_compute|lia|by vm_compute|exact Hn|exact Ho|exact Hall].
    + rewrite decide_False; [by vm_compute|]. apply (bool_decide_unpack _). by vm_compute.
Defined.
