(* ===== verification/Tx.v ===== *)
(** Transactions, as the file system uses them: reading, changing and logging
    blocks between begin_op and end_op.

    The contents of block [b] are [vb v b] of a view [v] of the cache
    ([LogSpec.at_view]); updates reach the disk only when the log commits.  A
    block that is already in the log costs no log space, so the space is
    counted by [fresh]. *)

From S2P Require Import Prelude Cmem KString Kstate Spinlock Sleep Sleeplock Printf Bio BioSpec Log LogSpec BioProps LogCrash LogSafe.
Local Open Scope Z_scope.

Lemma gets_eq {A} (f : kstate → A) s a : f s = a → gets f s = Done a s.
Proof. by intros <-. Qed.

(** Transactions *)
Section tx.
Context {Fl : Fuel} {Dv : Device} `{Bs : BlockDevSpec}.

(** Process [p] is inside begin_op and end_op, with room for [n] more blocks in
    the log and [m] more in the cache; or it only reads, and [n] is 0. *)
Record tx (p : nat) (s0 s : kstate) (v : view) (n m : Z) : Prop := {
  tx_quiet : quiet p s0;
  tx_view : at_view s0 s v;
  tx_list : length s0.(klog).(lh_block) = 30%nat;
  tx_n : 0 ≤ s0.(klog).(lh_n);
  tx_room : s0.(klog).(lh_n) + n ≤ 30;
  tx_open : 0 < n → 1 ≤ s0.(klog).(l_outstanding);
  tx_range : Forall (λ x, 0 ≤ x < 2147483648) (logged s0);
  tx_pinned b : b ∈ logged s0 → 0 < v.(vr) b;
  tx_cache : v.(vu) + m ≤ 30;
  tx_count b : 0 ≤ v.(vr) b ∧ 0 ≤ (v.(vl) b).(sl_locked) ≤ 1 ∧
    v.(vr) b + n + m - (v.(vl) b).(sl_locked) < 4294967290;
  tx_pos : 0 ≤ n ∧ 0 ≤ m }.

Lemma tx_weaken p s0 s v n m n' m' : tx p s0 s v n m → 0 ≤ n' ≤ n → 0 ≤ m' ≤ m → tx p s0 s v n' m'.
Proof.
  intros [H1 H2 H3 H4 H5 H6 H7 H8 H9 H10 H11] Hn Hm. split; try done; [lia|intros ?; apply H6; lia|lia| |lia].
  intros b. specialize (H10 b). lia.
Qed.

Lemma bit_pos r : r ≠ 0 → bit r = 1.
Proof. intros H. unfold bit. by rewrite (proj2 (Z.eqb_neq _ _) H). Qed.

(** The log is not part of the view. *)
Lemma av_klog_set s0 s v g : at_view s0 s v → at_view (set_klog g s0) (set_klog g s) v.
Proof.
  intros [(bs & vk & d & w & E) H2 H3 H4 H5 H6 H7 H8 H9]. split; try done.
  - exists bs, vk, d, w. by rewrite E.
  - destruct H3 as [B1 B2 B3 B4 B5 B6 B7]. by split.
Qed.

Definition log_add (b : Z) (l : log) : log :=
  set_lh_n (λ n, n + 1) (set_lh_block <[Z.to_nat l.(lh_n) := b]> l).

Lemma logged_add b s :
  length s.(klog).(lh_block) = 30%nat → 0 ≤ s.(klog).(lh_n) < 30 →
  logged (set_klog (log_add b) s) = logged s ++ [b].
Proof.
  intros Hl Hn. unfold logged, log_add. cbn.
  replace (Z.to_nat (lh_n (klog s) + 1)) with (S (Z.to_nat (lh_n (klog s)))) by lia.
  rewrite (take_S_r _ _ b); [|apply list_lookup_insert_eq; lia].
  by rewrite take_insert_ge by lia.
Qed.

(** The log space that logging [b] takes. *)
Definition fresh (s0 : kstate) (b : Z) : Z := if decide (b ∈ logged s0) then 0 else 1.

Lemma fresh_range s0 b : 0 ≤ fresh s0 b ≤ 1.
Proof. unfold fresh. case_decide; lia. Qed.

(** Handles stay, locks and the disk are as before, nothing is unpinned. *)
Record onward (s : kstate) (v : view) (s' : kstate) (v' : view) : Prop := {
  ow_keeps : keeps v s s';
  ow_l b : v'.(vl) b = v.(vl) b;
  ow_d b : v'.(vd) b = v.(vd) b;
  ow_r b : v.(vr) b ≤ v'.(vr) b }.

Lemma onward_refl s v : onward s v s v.
Proof. by split; [intros ???| | |]. Qed.

Lemma onward_trans s v s1 v1 s2 v2 : onward s v s1 v1 → onward s1 v1 s2 v2 → onward s v s2 v2.
Proof.
  intros [A1 A2 A3 A4] [B1 B2 B3 B4]. split.
  - intros i b Hi Hr. apply B1; [by apply A1|]. specialize (A4 b). lia.
  - intros b. by rewrite B2.
  - intros b. by rewrite B3.
  - intros b. etrans; [apply A4|apply B4].
Qed.

(** The log grew by [b] at most. *)
Definition logs (s0 s0' : kstate) (b : Z) : Prop :=
  (∃ g, s0' = set_klog g s0) ∧ ∀ x, x ∈ logged s0' ↔ x ∈ logged s0 ∨ x = b.

(** [log_write] of a buffer in use: the block is logged and pinned. *)
Lemma tx_log_write p s0 s v n m i b :
  tx p s0 s v n m → 1 ≤ n → hb s.(bufs) i b → 0 ≤ b < 2147483648 → 0 < v.(vr) b →
  ∃ s0' s' v', log_write i s = Done () s' ∧ tx p s0' s' v' (n - fresh s0 b) m ∧ onward s v s' v' ∧
    logs s0 s0' b ∧ (∀ b', v'.(vb) b' = v.(vb) b') ∧ v'.(vr) b = v.(vr) b + fresh s0 b.
Proof.
  intros HT Hn Hi Hb Hr. pose proof HT as [H1 H2 H3 H4 H5 H6 H7 H8 H9 H10 H11].
  pose proof (av_klog _ _ _ H2) as Ek. assert (El : logged s = logged s0) by (unfold logged; by rewrite Ek).
  pose proof (log_write_done p i b s (av_quiet _ _ _ _ H2 H1)) as E.
  rewrite Ek, El in E. specialize (E (proj2 (proj2 Hi)) Hb H3 ltac:(lia) (H6 ltac:(lia)) H7). unfold fresh.
  case_decide as Hin.
  - exists s0, s, v. rewrite Z.sub_0_r, Z.add_0_r. do 2 (split; [done|]). split; [apply onward_refl|].
    split; [|done]. split; [by exists (λ l, l)|]. intros x. split; [by left|]. by intros [?| ->].
  - destruct (bpin_ok p s i b) as (s1 & Ep & Hct); [by apply (av_quiet _ _ _ _ H2)|apply H2|apply H2|done| |].
    { rewrite (av_r _ _ _ H2). specialize (H10 b). lia. }
    pose proof (av_quiet _ _ _ _ H2 H1) as Hqs.
    rewrite (bpin_done i s (quiet_cpu_ok _ _ Hqs) (quiet_lock p LkBcache s Hqs I)) in Ep.
    injection Ep as <-. rewrite (av_r _ _ _ H2), (av_l _ _ _ H2) in Hct.
    destruct (av_cache _ _ _ _ _ _ _ H2 Hct) as [HA HK].
    eexists (set_klog (log_add b) s0), _, (vcount b (v.(vr) b + 1) (v.(vl) b) v).
    split; [exact E|]. specialize (H10 b) as Hcb.
    assert (Hlg : logged (set_klog (log_add b) s0) = logged s0 ++ [b]) by (apply logged_add; [done|lia]).
    assert (Hin' : ∀ x, x ∈ logged (set_klog (log_add b) s0) ↔ x ∈ logged s0 ∨ x = b).
    { intros x. by rewrite Hlg, elem_of_app, list_elem_of_singleton. }
    split; [split|split; [split|split; [split; [by eexists|exact Hin']|]]]; try done.
    + exact (av_klog_set _ _ _ (log_add b) HA).
    + cbn. by rewrite length_insert.
    + cbn. lia.
    + cbn. lia.
    + intros _. apply H6. lia.
    + rewrite Hlg. apply Forall_app. by rewrite Forall_singleton.
    + intros b' Hb'%Hin'. vs. unfold fupd. case_decide; [lia|]. destruct Hb'; [by apply H8|done].
    + vs. rewrite (bit_pos (vr v b)), bit_pos by lia. lia.
    + intros b'. specialize (H10 b'). vs. unfold fupd. case_decide; subst; lia.
    + lia.
    + intros b'. vs. unfold fupd. by case_decide; subst.
    + intros b'. vs. unfold fupd. case_decide; subst; lia.
    + split; [done|]. vs. by rewrite fupd_eq.
Qed.

#[global] Instance tx_proper p s0 s : Proper (view_eq ==> eq ==> eq ==> iff) (tx p s0 s).
Proof.
  intros v v' E n _ <- m _ <-. pose proof E as [E1 E2 E3 E4 E5 E6].
  split; intros [H1 H2 H3 H4 H5 H6 H7 H8 H9 H10 H11]; split; try done; try (intros b; specialize (E2 b); specialize (E3 b)).
  all: try (rewrite <- E || rewrite E; done).
  all: try (intros Hb; specialize (H8 b Hb); lia).
  all: try (specialize (H10 b); rewrite E3 in *; lia).
  all: try (specialize (H10 b); rewrite <- E3 in *; lia).
  all: lia.
Qed.

(** ** Blocks *)

(** Process [p] has block [b] locked in buffer [i]; a pin of the log on it is
    counted besides. *)
Record held (p : nat) (s0 s : kstate) (v : view) (i : nat) (b : Z) : Prop := {
  hd_hb : hb s.(bufs) i b;
  hd_l : v.(vl) b = mk_sleeplock 1 (pid_of p s0);
  hd_r : 1 ≤ v.(vr) b;
  hd_pin : b ∈ logged s0 → 2 ≤ v.(vr) b }.

(** It stays so when other blocks are logged. *)
Lemma held_onward p s0 s v i b s0' s' v' :
  held p s0 s v i b → onward s v s' v' → pid_of p s0' = pid_of p s0 →
  (b ∈ logged s0' → b ∈ logged s0) → held p s0' s' v' i b.
Proof.
  intros [H1 H2 H3 H4] [O1 O2 O3 O4] Hp Hin. pose proof (O4 b). split.
  - apply O1; [done|lia].
  - by rewrite O2, Hp.
  - lia.
  - intros Hb. specialize (H4 (Hin Hb)). lia.
Qed.

Lemma tx_buf_lt p s0 s v n m i b : tx p s0 s v n m → hb s.(bufs) i b → (i < length s.(bufs))%nat.
Proof.
  intros HT [Hi _]. rewrite (len_bufs s); [lia|]. apply (av_bc _ _ _ (tx_view _ _ _ _ _ _ HT)).
Qed.

Lemma tx_len p s0 s v n m b : tx p s0 s v n m → length (v.(vb) b) = 1024%nat.
Proof. intros HT. apply (av_len s0 s v), HT. Qed.

(** The view with [b] in use by process [p] once more. *)
Definition vhold (p : nat) (s0 : kstate) (b : Z) (v : view) : view :=
  vcount b (v.(vr) b + 1) (mk_sleeplock 1 (pid_of p s0)) v.

(** Reading a block: [bread] gives the buffer that shows it. *)
Lemma tx_bread p s0 s v n m b :
  tx p s0 s v n m → 1 ≤ m → 0 ≤ b < 2147483648 → v.(vl) b = free_lock →
  ∃ i s1, bread ROOTDEV b s = Done i s1 ∧ held p s0 s1 (vhold p s0 b v) i b ∧ keeps v s s1 ∧
    (get_buf i s1).(b_data) = v.(vb) b ∧ tx p s0 s1 (vhold p s0 b v) n (m - fresh s0 b).
Proof.
  intros HT Hm Hb Hl. pose proof HT as [H1 H2 H3 H4 H5 H6 H7 H8 H9 H10 H11]. specialize (H10 b) as Hc.
  destruct (av_bread p s0 s v b) as (i & s1 & E & HA & HK & Hh); try done; [lia|right; lia|].
  exists i, s1. split; [done|]. unfold vhold. split; [split; vs; rewrite ?fupd_eq; try done; [lia|]|].
  { intros Hin. specialize (H8 b Hin). lia. }
  split; [done|]. split; [by rewrite (av_buf _ _ _ _ _ HA Hh)|]. unfold fresh. split; try done.
  - intros b' Hb'. vs. unfold fupd. case_decide; [lia|by apply H8].
  - vs. case_decide as Hd; [specialize (H8 b Hd)|]; unfold bit; repeat case_match; lia.
  - intros b'. vs. unfold fupd. specialize (H10 b'). rewrite Hl in Hc. cbn in Hc. repeat case_decide; subst; cbn; lia.
  - case_decide; lia.
Qed.

(** ... and releasing it unchanged gives the view back. *)
Lemma tx_release p s0 s s1 v n m m1 i b :
  tx p s0 s v n m → held p s0 s1 (vhold p s0 b v) i b → v.(vl) b = free_lock → keeps v s s1 →
  tx p s0 s1 (vhold p s0 b v) n m1 →
  ∃ s2, brelse i s1 = Done () s2 ∧ tx p s0 s2 v n m ∧ onward s v s2 v.
Proof.
  intros HT Hi Hl HK HT1. pose proof (tx_count _ _ _ _ _ _ HT b) as Hr.
  pose proof (tx_pos _ _ _ _ _ _ HT) as Hp.
  destruct (av_brelse p s0 s1 _ i b (tx_quiet _ _ _ _ _ _ HT) (tx_view _ _ _ _ _ _ HT1) (hd_hb _ _ _ _ _ _ Hi) (hd_l _ _ _ _ _ _ Hi))
    as (s2 & E & HA & HK2); unfold vhold in *.
  - vs. rewrite fupd_eq. lia.
  - vs. rewrite fupd_eq. intros Hz. apply (av_clean s0 s v); [apply HT|lia].
  - exists s2. split; [done|].
    assert (Ev : vcount b (v.(vr) b + 1 - 1) free_lock
      (vcount b (v.(vr) b + 1) (mk_sleeplock 1 (pid_of p s0)) v) ≡ᵥ v).
    { split; vs; try done; try (intros b'; unfold fupd; case_decide; subst; done || lia || (rewrite Hl; done)).
      rewrite fupd_eq. replace (vr v b + 1 - 1) with (vr v b) by lia. lia. }
    revert HA. vs. rewrite fupd_eq. intros HA. rewrite Ev in HA.
    split; [destruct HT as [H1 H2 H3 H4 H5 H6 H7 H8 H9 H10 H11]; by split|].
    split; try done. intros j b' Hj Hr'. apply HK2; [by apply HK|]. vs. unfold fupd. case_decide; subst; lia.
Qed.

(** Releasing a buffer that was not changed, after other blocks were. *)
Lemma tx_unhold p s0 s v n m i b :
  tx p s0 s v n m → held p s0 s v i b → (v.(vr) b = 1 → v.(vb) b = v.(vd) b) →
  ∃ s2, brelse i s = Done () s2 ∧ tx p s0 s2 (vcount b (v.(vr) b - 1) free_lock v) n m ∧ keeps v s s2.
Proof.
  intros HT [Hi Hl Hr Hpin] Hclean. pose proof (tx_count _ _ _ _ _ _ HT b) as Hc. pose proof (tx_pos _ _ _ _ _ _ HT) as Hp.
  destruct (av_brelse p s0 s v i b) as (s2 & E & HA & HK); try done; [apply HT|apply HT|lia|].
  exists s2. split; [done|]. split; [|done]. destruct HT as [T1 T2 T3 T4 T5 T6 T7 T8 T9 T10 T11]. split; try done.
  - intros b' Hb'. vs. unfold fupd. case_decide; [subst; specialize (Hpin Hb'); lia|by apply T8].
  - vs. unfold bit. repeat case_match; lia.
  - intros b'. specialize (T10 b'). vs. unfold fupd. case_decide; subst; cbn; lia.
Qed.

(** Storing [d] in a buffer, logging and releasing it. *)
Lemma tx_store p s0 s v n m i b d :
  tx p s0 s v n m → 1 ≤ n → held p s0 s v i b → 0 ≤ b < 2147483648 → length d = 1024%nat →
  ∃ s0' sa s2 v', log_write i (upd_buf i (set_b_data (λ _, d)) s) = Done () sa ∧
    brelse i sa = Done () s2 ∧ tx p s0' s2 v' (n - fresh s0 b) m ∧ logs s0 s0' b ∧ keeps v s s2 ∧
    (∀ b', v'.(vb) b' = fupd v.(vb) b d b') ∧ (∀ b', v'.(vl) b' = fupd v.(vl) b free_lock b') ∧
    (∀ b', v'.(vd) b' = v.(vd) b') ∧
    (∀ b', fupd v.(vr) b (v.(vr) b - 1) b' ≤ v'.(vr) b' ∧ (b' = b → 1 ≤ v'.(vr) b')).
Proof.
  intros HT Hn Hi Hb Hd. pose proof HT as [H1 H2 H3 H4 H5 H6 H7 H8 H9 H10 H11]. destruct Hi as [Hi Hl Hr Hpin].
  destruct (av_data s0 s v i b d H2 Hi ltac:(lia) Hd) as [HA HK].
  assert (HT2 : tx p s0 (upd_buf i (set_b_data (λ _, d)) s) (vdata b d v) n m) by (by split).
  destruct (tx_log_write p s0 _ _ n m i b HT2 Hn) as (s0' & s2 & v2 & E & HT3 & [O1 O2 O3 O4] & [ [g ->] Hlg] & Hsame & Hr2).
  { apply (HK i b Hi). lia. } { done. } { vs. lia. }
  assert (Hge : 2 ≤ vr v2 b) by (rewrite Hr2; unfold fresh; vs; case_decide; [specialize (Hpin ltac:(done))|]; lia).
  pose proof (tx_count _ _ _ _ _ _ HT3 b) as Hc. pose proof (tx_pos _ _ _ _ _ _ HT3) as Hp.
  destruct (av_brelse p (set_klog g s0) s2 v2 i b) as (s3 & E3 & HA3 & HK3).
  - exact H1.
  - apply HT3.
  - apply O1; [apply (HK i b Hi); lia|vs; lia].
  - rewrite O2. exact Hl.
  - lia.
  - lia.
  - exists (set_klog g s0), s2, s3, (vcount b (vr v2 b - 1) free_lock v2). do 2 (split; [done|]).
    split; [|split; [split; [by eexists|done]|]]; [|split; [|split; [|split; [|split]]]].
    + destruct HT3 as [T1 T2 T3 T4 T5 T6 T7 T8 T9 T10 T11]. split; try done.
      * intros b' Hb'. vs. unfold fupd. case_decide; [lia|by apply T8].
      * vs. rewrite !bit_pos by lia. lia.
      * intros b'. specialize (T10 b'). vs. unfold fupd. case_decide; subst; cbn; lia.
    + intros j b' Hj Hr'. apply HK3; [apply O1; [by apply HK|done]|].
      specialize (O4 b'). revert O4. vs. lia.
    + intros b'. vs. by rewrite Hsame.
    + intros b'. vs. unfold fupd. case_decide; [done|]. by rewrite O2.
    + intros b'. vs. by rewrite O3.
    + intros b'. specialize (O4 b'). revert O4. vs. unfold fupd. case_decide; subst; lia.
Qed.

(** A block read, and then released unchanged, or changed to [d], logged and
    released. *)
Lemma tx_block p s0 s v n m b :
  tx p s0 s v n m → 1 ≤ m → 0 ≤ b < 2147483648 → v.(vl) b = free_lock →
  ∃ i s1, bread ROOTDEV b s = Done i s1 ∧ (get_buf i s1).(b_data) = v.(vb) b ∧ (i < length s1.(bufs))%nat ∧
    (∃ s2, brelse i s1 = Done () s2 ∧ tx p s0 s2 v n m ∧ onward s v s2 v) ∧
    (1 ≤ n → ∀ d, length d = 1024%nat →
     ∃ s0' sa s2 v', log_write i (upd_buf i (set_b_data (λ _, d)) s1) = Done () sa ∧
       brelse i sa = Done () s2 ∧ tx p s0' s2 v' (n - fresh s0 b) (m - fresh s0 b) ∧ logs s0 s0' b ∧
       onward s v s2 v' ∧ ∀ b', v'.(vb) b' = fupd v.(vb) b d b').
Proof.
  intros HT Hm Hb Hl. destruct (tx_bread p s0 s v n m b HT Hm Hb Hl) as (i & s1 & E & Hh & HK & Hd & HT1).
  exists i, s1. split; [done|]. split; [done|]. split; [by eapply tx_buf_lt, Hh|].
  split; [by eapply tx_release|]. intros Hn d Hlen. pose proof (tx_count _ _ _ _ _ _ HT) as Hc.
  destruct (tx_store p s0 s1 _ n _ i b d HT1 Hn Hh Hb Hlen) as (s0' & sa & s2 & v' & Ea & E2 & HT2 & Hlg & HK2 & Vb & Vl & Vd & Vr).
  exists s0', sa, s2, v'. do 4 (split; [done|]). split; [|done]. unfold vhold in *. split.
  - intros j b' Hj Hr'. apply HK2; [by apply HK|]. vs. unfold fupd. case_decide; subst; lia.
  - intros b'. rewrite Vl. vs. unfold fupd. case_decide as Eb; [by rewrite Eb, Hl|done].
  - intros b'. by rewrite Vd.
  - intros b'. specialize (Vr b'). revert Vr. vs. rewrite fupd_eq. unfold fupd. case_decide; subst; lia.
Qed.

(** ** What a transaction does not involve *)

(** Inodes and the memory of programs are not part of the view. *)
Ltac tx_frame :=
  intros [H1 [(bs & vk & d & w & E) A2 A3 A4 A5 A6 A7 A8 A9] H3 H4 H5 H6 H7 H8 H9 H10 H11];
  split; try done; split; try done;
  [exists bs, vk, d, w; by rewrite E|destruct A3 as [B1 B2 B3 B4 B5 B6 B7]; by split].

Lemma tx_inode p s0 s v n m ip g :
  tx p s0 s v n m → tx p (upd_inode ip g s0) (upd_inode ip g s) v n m.
Proof. tx_frame. Qed.
Lemma tx_pmem p s0 s v n m g :
  tx p s0 s v n m → tx p (set_pmem g s0) (set_pmem g s) v n m.
Proof. tx_frame. Qed.
Lemma tx_file p s0 s v n m f g :
  tx p s0 s v n m → tx p (upd_file f g s0) (upd_file f g s) v n m.
Proof. tx_frame. Qed.

Ltac tx_same HT :=
  destruct (av_state _ _ _ (tx_view _ _ _ _ _ _ HT)) as (bs & vk & d & w & E); by rewrite E.

Lemma tx_get_inode p s0 s v n m ip : tx p s0 s v n m → get_inode ip s = get_inode ip s0.
Proof. intros HT. tx_same HT. Qed.
Lemma tx_get_file p s0 s v n m f : tx p s0 s v n m → get_file f s = get_file f s0.
Proof. intros HT. tx_same HT. Qed.
Lemma tx_sb p s0 s v n m : tx p s0 s v n m → sb s = sb s0.
Proof. intros HT. tx_same HT. Qed.
Lemma tx_procs p s0 s v n m : tx p s0 s v n m → procs s = procs s0.
Proof. intros HT. tx_same HT. Qed.
Lemma tx_freelist p s0 s v n m : tx p s0 s v n m → freelist s = freelist s0.
Proof. intros HT. tx_same HT. Qed.
Lemma tx_mem p s0 s v n m : tx p s0 s v n m → pmem s = pmem s0.
Proof. intros HT. tx_same HT. Qed.

(** ** Space reserved for known blocks

    Space in the log and the cache for the blocks of [X], reserved once however
    often they are written, besides room for [n] and [m] others. *)

Definition missing (X : gset Z) (s0 : kstate) : Z := Z.of_nat (size (X ∖ list_to_set (logged s0))).

Definition txc (X : gset Z) (p : nat) (s0 s : kstate) (v : view) (n m : Z) : Prop :=
  tx p s0 s v (n + missing X s0) (m + missing X s0) ∧ 0 ≤ n ∧ 0 ≤ m.

(** What logging [b] takes from the room for other blocks. *)
Definition pay (X : gset Z) (s0 : kstate) (b : Z) : Z :=
  if decide (b ∈ X ∨ b ∈ logged s0) then 0 else 1.

Lemma pay_range X s0 b : 0 ≤ pay X s0 b ≤ 1.
Proof. unfold pay. case_decide; lia. Qed.
Lemma pay_in X s0 b : b ∈ X → pay X s0 b = 0.
Proof. intros H. unfold pay. rewrite decide_True; [done|by left]. Qed.
Lemma pay_logged X s0 b : b ∈ logged s0 → pay X s0 b = 0.
Proof. intros H. unfold pay. rewrite decide_True; [done|by right]. Qed.

Lemma missing_pos X s0 : 0 ≤ missing X s0.
Proof. unfold missing. lia. Qed.

Lemma missing_logs X s0 s0' b : logs s0 s0' b → missing X s0' = missing X s0 - fresh s0 b + pay X s0 b.
Proof.
  intros [_ Hin]. unfold missing, fresh, pay.
  destruct (decide (b ∈ logged s0)) as [Hb|Hb]; [rewrite decide_True by (by right)|destruct (decide (b ∈ X)) as [HX|HX]].
  - assert (list_to_set (C := gset Z) (logged s0') = list_to_set (logged s0)) as ->; [|lia].
    apply set_eq. intros x. rewrite !elem_of_list_to_set, Hin. naive_solver.
  - rewrite decide_True by (by left).
    assert (X ∖ list_to_set (logged s0) = {[b]} ∪ X ∖ list_to_set (logged s0')) as ->.
    { apply set_eq. intros x. rewrite elem_of_union, elem_of_singleton, !elem_of_difference, !elem_of_list_to_set, Hin.
      destruct (decide (x = b)); naive_solver. }
    rewrite (size_union {[b]} (X ∖ list_to_set (logged s0'))), size_singleton; [lia|].
    intros x. rewrite elem_of_singleton, elem_of_difference, elem_of_list_to_set, Hin. naive_solver.
  - rewrite decide_False by tauto.
    assert (X ∖ list_to_set (logged s0') = X ∖ list_to_set (logged s0)) as ->; [|lia].
    apply set_eq. intros x. rewrite !elem_of_difference, !elem_of_list_to_set, Hin. naive_solver.
Qed.

Lemma missing_empty s0 : missing ∅ s0 = 0.
Proof. unfold missing. assert (∅ ∖ list_to_set (logged s0) = (∅ : gset Z)) as -> by set_solver. done. Qed.

Lemma txc_tx X p s0 s v n m : txc X p s0 s v n m → tx p s0 s v n m.
Proof. intros [HT Hnm]. pose proof (missing_pos X s0). eapply tx_weaken; [done|lia|lia]. Qed.

Lemma tx_txc p s0 s v n m : tx p s0 s v n m → txc ∅ p s0 s v n m.
Proof. intros HT. split; [by rewrite missing_empty, !Z.add_0_r|]. apply HT. Qed.

Lemma txc_weaken X p s0 s v n m n' m' :
  txc X p s0 s v n m → 0 ≤ n' ≤ n → 0 ≤ m' ≤ m → txc X p s0 s v n' m'.
Proof.
  intros [HT ?] ??. pose proof (missing_pos X s0). split; [|lia]. eapply tx_weaken; [done|lia|lia].
Qed.

Lemma txc_len X p s0 s v n m b : txc X p s0 s v n m → length (v.(vb) b) = 1024%nat.
Proof. intros HT%txc_tx. exact (tx_len _ _ _ _ _ _ b HT). Qed.
Lemma txc_sb X p s0 s v n m : txc X p s0 s v n m → sb s = sb s0.
Proof. intros HT%txc_tx. exact (tx_sb _ _ _ _ _ _ HT). Qed.
Lemma txc_get_inode X p s0 s v n m ip : txc X p s0 s v n m → get_inode ip s = get_inode ip s0.
Proof. intros HT%txc_tx. exact (tx_get_inode _ _ _ _ _ _ ip HT). Qed.
Lemma txc_mem X p s0 s v n m : txc X p s0 s v n m → pmem s = pmem s0.
Proof. intros HT%txc_tx. exact (tx_mem _ _ _ _ _ _ HT). Qed.

Lemma txc_inode X p s0 s v n m ip g :
  txc X p s0 s v n m → txc X p (upd_inode ip g s0) (upd_inode ip g s) v n m.
Proof. intros [HT Hp]. split; [|done]. exact (tx_inode _ _ _ _ _ _ ip g HT). Qed.
Lemma txc_pmem X p s0 s v n m g :
  txc X p s0 s v n m → txc X p (set_pmem g s0) (set_pmem g s) v n m.
Proof. intros [HT Hp]. split; [|done]. exact (tx_pmem _ _ _ _ _ _ g HT). Qed.
Lemma txc_file X p s0 s v n m f g :
  txc X p s0 s v n m → txc X p (upd_file f g s0) (upd_file f g s) v n m.
Proof. intros [HT Hp]. split; [|done]. exact (tx_file _ _ _ _ _ _ f g HT). Qed.
Lemma txc_get_file X p s0 s v n m f : txc X p s0 s v n m → get_file f s = get_file f s0.
Proof. intros HT%txc_tx. exact (tx_get_file _ _ _ _ _ _ f HT). Qed.

Lemma txc_bread X p s0 s v n m b :
  txc X p s0 s v n m → 1 ≤ m → 0 ≤ b < 2147483648 → v.(vl) b = free_lock →
  ∃ i s1, bread ROOTDEV b s = Done i s1 ∧ held p s0 s1 (vhold p s0 b v) i b ∧ keeps v s s1 ∧
    (get_buf i s1).(b_data) = v.(vb) b ∧ txc X p s0 s1 (vhold p s0 b v) n (m - fresh s0 b).
Proof.
  intros [HT Hp] Hm Hb Hl. pose proof (missing_pos X s0) as Hmp. pose proof (fresh_range s0 b).
  destruct (tx_bread p s0 s v _ _ b HT ltac:(lia) Hb Hl) as (i & s1 & E & Hh & HK & Hd & HT1).
  exists i, s1. do 4 (split; [done|]). split; [|lia]. eapply tx_weaken; [done|lia|lia].
Qed.

Lemma txc_release X p s0 s s1 v n m m1 i b :
  txc X p s0 s v n m → held p s0 s1 (vhold p s0 b v) i b → v.(vl) b = free_lock → keeps v s s1 →
  txc X p s0 s1 (vhold p s0 b v) n m1 →
  ∃ s2, brelse i s1 = Done () s2 ∧ txc X p s0 s2 v n m ∧ onward s v s2 v.
Proof.
  intros [HT Hp] Hh Hl HK [HT1 _]. destruct (tx_release p s0 s s1 v _ _ _ i b HT Hh Hl HK HT1) as (s2 & E & H2 & HO).
  by exists s2.
Qed.

Lemma txc_store X p s0 s v n m i b d :
  txc X p s0 s v n m → 1 ≤ n → held p s0 s v i b → 0 ≤ b < 2147483648 → length d = 1024%nat →
  ∃ s0' sa s2 v', log_write i (upd_buf i (set_b_data (λ _, d)) s) = Done () sa ∧
    brelse i sa = Done () s2 ∧ txc X p s0' s2 v' (n - pay X s0 b) (m + fresh s0 b - pay X s0 b) ∧
    logs s0 s0' b ∧ keeps v s s2 ∧
    (∀ b', v'.(vb) b' = fupd v.(vb) b d b') ∧ (∀ b', v'.(vl) b' = fupd v.(vl) b free_lock b') ∧
    (∀ b', v'.(vd) b' = v.(vd) b') ∧
    (∀ b', fupd v.(vr) b (v.(vr) b - 1) b' ≤ v'.(vr) b' ∧ (b' = b → 1 ≤ v'.(vr) b')).
Proof.
  intros [HT Hp] Hn Hh Hb Hd. pose proof (missing_pos X s0) as Hmp.
  destruct (tx_store p s0 s v _ _ i b d HT ltac:(lia) Hh Hb Hd) as (s0' & sa & s2 & v' & Ea & E2 & HT2 & Hlg & Hrest).
  exists s0', sa, s2, v'. do 2 (split; [done|]). split; [|done].
  pose proof (pay_range X s0 b). pose proof (fresh_range s0 b). pose proof (missing_logs X s0 s0' b Hlg).
  pose proof (missing_pos X s0'). assert (pay X s0 b ≤ fresh s0 b) by (unfold pay, fresh; repeat case_decide; tauto || lia).
  split; [|lia]. eapply tx_weaken; [done|lia|lia].
Qed.

Lemma txc_block X p s0 s v n m b :
  txc X p s0 s v n m → 1 ≤ m → 0 ≤ b < 2147483648 → v.(vl) b = free_lock →
  ∃ i s1, bread ROOTDEV b s = Done i s1 ∧ (get_buf i s1).(b_data) = v.(vb) b ∧ (i < length s1.(bufs))%nat ∧
    (∃ s2, brelse i s1 = Done () s2 ∧ txc X p s0 s2 v n m ∧ onward s v s2 v) ∧
    (1 ≤ n → ∀ d, length d = 1024%nat →
     ∃ s0' sa s2 v', log_write i (upd_buf i (set_b_data (λ _, d)) s1) = Done () sa ∧
       brelse i sa = Done () s2 ∧ txc X p s0' s2 v' (n - pay X s0 b) (m - pay X s0 b) ∧ logs s0 s0' b ∧
       onward s v s2 v' ∧ ∀ b', v'.(vb) b' = fupd v.(vb) b d b').
Proof.
  intros [HT Hp] Hm Hb Hl. pose proof (missing_pos X s0) as Hmp.
  destruct (tx_block p s0 s v _ _ b HT ltac:(lia) Hb Hl) as (i & s1 & E & Hd & Hi & (s2 & E2 & HT2 & HO2) & Hw).
  exists i, s1. do 3 (split; [done|]). split; [by exists s2|]. intros Hn d Hlen.
  destruct (Hw ltac:(lia) d Hlen) as (s0' & sa & s3 & v' & Ea & E3 & HT3 & Hlg & HO3 & Hv).
  exists s0', sa, s3, v'. do 2 (split; [done|]). split; [|done].
  pose proof (pay_range X s0 b). split; [|lia]. rewrite (missing_logs X s0 s0' b Hlg).
  eapply tx_weaken; [done| |]; pose proof (fresh_range s0 b); rewrite <- ?(missing_logs X s0 s0' b Hlg);
    pose proof (missing_logs X s0 s0' b Hlg); pose proof (missing_pos X s0'); lia.
Qed.
End tx.
