(* ===== verification/Fs.v ===== *)
(** kernel/fs.c: blocks, inodes, directories and path names.

    Disk structures are read from and written to the data of buffers.  A
    function's local object whose address escapes (a directory entry, a name)
    lives in [pmem] on the kernel stack of the running process, see [frame];
    the loop bounds come from the sizes the loops test. *)

From S2P Require Import Prelude Cmem KString Kstate Spinlock Sleep Sleeplock Kalloc Vm Printf Bio Log.
Local Open Scope Z_scope.

(** ** Locals in memory *)

(** The stack of the running process, or of the processor when there is none;
    objects of different functions get different offsets. *)
Definition stack_base (s : kstate) : Z :=
  match (cur_cpu s).(c_proc) with
  | Some p => (get_proc p s).(p_kstack)
  | None => - PGSIZE * (Z.of_nat s.(hart) + 1)
  end.
Definition frame (off : Z) : K Z := gets (λ s, stack_base s + off).

Definition DE_LOOKUP : Z := 0.
Definition DE_LINK : Z := 16.
Definition DE_UNLINK : Z := 32.
Definition DE_EMPTY : Z := 48.
Definition NAMEI_NAME : Z := 64.
Definition SYS_NAME : Z := 96.
Definition SYS_PATH : Z := 128.
Definition SYS_OLD : Z := 256.
Definition FILE_STAT : Z := 384.
Definition LITERAL : Z := 416.
Definition EXEC_ELF : Z := 512.
Definition EXEC_PH : Z := 576.
Definition EXEC_ARGV : Z := 640.

(** ** On-disk structures *)

Definition sb_of (d : list Z) : superblock :=
  mk_sb (get_le d 0 4) (get_le d 4 4) (get_le d 8 4) (get_le d 12 4)
    (get_le d 16 4) (get_le d 20 4) (get_le d 24 4) (get_le d 28 4).

Record dinode : Type := mk_dinode {
  di_type : Z;
  di_major : Z;
  di_minor : Z;
  di_nlink : Z;
  di_size : Z;
  di_addrs : list Z }.

Definition get_short (d : list Z) (off : nat) : Z := s16 (get_le d off 2).

Definition dinode_at (d : list Z) (off : nat) : dinode :=
  mk_dinode (get_short d off) (get_short d (off + 2)) (get_short d (off + 4)) (get_short d (off + 6))
    (get_le d (off + 8) 4) ((λ i, get_le d (off + 12 + 4 * i) 4) <$> seq 0 13).

Definition enc_dinode (di : dinode) : list Z :=
  to_le 2 di.(di_type) ++ to_le 2 di.(di_major) ++ to_le 2 di.(di_minor) ++ to_le 2 di.(di_nlink) ++
  to_le 4 di.(di_size) ++ concat (to_le 4 <$> di.(di_addrs)).

Definition put_dinode (off : nat) (di : dinode) (d : list Z) : list Z := splice d off (enc_dinode di).

Definition IBLOCK (i : Z) (b : superblock) : Z := u32 (i / IPB + b.(sb_inodestart)).
Definition BBLOCK (n : Z) (b : superblock) : Z := u32 (n / BPB + b.(sb_bmapstart)).
(** The offset of inode [i] in its block. *)
Definition ioff (i : Z) : nat := Z.to_nat (i mod IPB * 64).

Section fs.
Context {Fl : Fuel} {La : Layout} {Dv : Device} {Bd : BlockDev}.

(** A string constant of the code, placed in the frame. *)
Definition literal (off : Z) (str : String.string) : K Z :=
  a ← frame (LITERAL + off);
  modify (set_pmem (λ m, wr m a (bytes_of str ++ [0]))) ;;
  mret a.

Definition buf_data (b : nat) : K (list Z) := gets (λ s, (get_buf b s).(b_data)).
Definition set_data (b : nat) (g : list Z → list Z) : K unit := modify (upd_buf b (set_b_data g)).

Definition readsb (dev : Z) : K unit :=
  bp ← bread dev 1;
  d ← buf_data bp;
  modify (set_sb (λ _, sb_of d)) ;;
  brelse bp.

(** ** Blocks *)

Definition bzero (dev bno : Z) : K unit :=
  bp ← bread dev bno;
  set_data bp (λ _, zero_block) ;;
  log_write bp ;;
  brelse bp.

Definition bit_mask (bi : Z) : Z := Z.shiftl 1 (bi mod 8).
Definition bit_clear (d : list Z) (bi : Z) : bool :=
  Z.land (d !!! Z.to_nat (bi / 8)) (bit_mask bi) =? 0.
Definition set_bit (bi : Z) (d : list Z) : list Z :=
  <[Z.to_nat (bi / 8) := Z.lor (d !!! Z.to_nat (bi / 8)) (bit_mask bi)]> d.
Definition clear_bit (bi : Z) (d : list Z) : list Z :=
  <[Z.to_nat (bi / 8) := Z.land (d !!! Z.to_nat (bi / 8)) (u8 (Z.lnot (bit_mask bi)))]> d.

(** [for(bi = 0; bi < BPB && b + bi < sb.size; bi++)]: the first clear bit. *)
Fixpoint balloc_scan (n : nat) (d : list Z) (b bi size : Z) : option Z :=
  match n with
  | O => None
  | S n =>
      if (bi <? BPB) && (b + bi <? size) then
        if bit_clear d bi then Some bi else balloc_scan n d b (bi + 1) size
      else None
  end.

Fixpoint balloc_loop (n : nat) (dev b : Z) : K Z :=
  sbk ← gets sb;
  if b <? sbk.(sb_size) then
    match n with
    | O => out_of_fuel
    | S n =>
        bp ← bread dev (BBLOCK b sbk);
        d ← buf_data bp;
        match balloc_scan (Z.to_nat BPB) d b 0 sbk.(sb_size) with
        | Some bi =>
            set_data bp (set_bit bi) ;;
            log_write bp ;;
            brelse bp ;;
            bzero dev (b + bi) ;;
            mret (b + bi)
        | None => brelse bp ;; balloc_loop n dev (b + BPB)
        end
    end
  else
    _ ← printf "balloc: out of blocks
" []; mret 0.

Definition balloc (dev : Z) : K Z :=
  sbk ← gets sb;
  balloc_loop (Z.to_nat (sbk.(sb_size) / BPB + 1)) dev 0.

Definition bfree (dev b : Z) : K unit :=
  sbk ← gets sb;
  bp ← bread dev (BBLOCK b sbk);
  let bi := b mod BPB in
  d ← buf_data bp;
  if bit_clear d bi then panic "freeing free block" else
  set_data bp (clear_bit bi) ;;
  log_write bp ;;
  brelse bp.

(** ** Inodes *)

Definition iinit : K unit :=
  initlock LkItable ;;
  mfor (seq 0 NINODE) (λ i, initsleeplock (SlInode i)).

(** The scan of iget: the entry of the inode, or the first empty one. *)
Fixpoint iget_scan (l : list inode) (i : nat) (empty : option nat) (dev inum : Z) : option nat * option nat :=
  match l with
  | [] => (None, empty)
  | ip :: l =>
      if (0 <? ip.(i_ref)) && (ip.(i_dev) =? dev) && (ip.(i_inum) =? inum) then (Some i, empty)
      else iget_scan l (S i)
             (match empty with None => if ip.(i_ref) =? 0 then Some i else None | Some _ => empty end) dev inum
  end.

Definition iget (dev inum : Z) : K nat :=
  acquire LkItable ;;
  r ← gets (λ s, iget_scan s.(itable) 0 None dev inum);
  match r with
  | (Some ip, _) =>
      modify (upd_inode ip (set_i_ref (λ r, r + 1))) ;;
      release LkItable ;;
      mret ip
  | (None, None) => panic "iget: no inodes"
  | (None, Some ip) =>
      modify (upd_inode ip (set_i_dev (λ _, dev))) ;;
      modify (upd_inode ip (set_i_inum (λ _, inum))) ;;
      modify (upd_inode ip (set_i_ref (λ _, 1))) ;;
      modify (upd_inode ip (set_i_valid (λ _, 0))) ;;
      release LkItable ;;
      mret ip
  end.

(** [for(inum = 1; inum < sb.ninodes; inum++)] *)
Fixpoint ialloc_loop (n : nat) (dev type inum : Z) : K (option nat) :=
  sbk ← gets sb;
  if inum <? sbk.(sb_ninodes) then
    match n with
    | O => out_of_fuel
    | S n =>
        bp ← bread dev (IBLOCK inum sbk);
        d ← buf_data bp;
        if (dinode_at d (ioff inum)).(di_type) =? 0 then
          set_data bp (put_dinode (ioff inum) (mk_dinode type 0 0 0 0 (replicate 13 0))) ;;
          log_write bp ;;
          brelse bp ;;
          ip ← iget dev inum; mret (Some ip)
        else brelse bp ;; ialloc_loop n dev type (inum + 1)
    end
  else
    _ ← printf "ialloc: no inodes
" []; mret None.

Definition ialloc (dev type : Z) : K (option nat) :=
  sbk ← gets sb;
  ialloc_loop (Z.to_nat sbk.(sb_ninodes)) dev type 1.

Definition dinode_of (q : inode) : dinode :=
  mk_dinode q.(i_type) q.(i_major) q.(i_minor) q.(i_nlink) q.(i_size) q.(i_addrs).

Definition iupdate (ip : nat) : K unit :=
  q ← gets (get_inode ip);
  sbk ← gets sb;
  bp ← bread q.(i_dev) (IBLOCK q.(i_inum) sbk);
  q ← gets (get_inode ip);
  set_data bp (put_dinode (ioff q.(i_inum)) (dinode_of q)) ;;
  log_write bp ;;
  brelse bp.

Definition idup (ip : nat) : K nat :=
  acquire LkItable ;;
  modify (upd_inode ip (set_i_ref (λ r, r + 1))) ;;
  release LkItable ;;
  mret ip.

Definition load_dinode (di : dinode) (q : inode) : inode :=
  set_i_addrs (λ _, di.(di_addrs)) (set_i_size (λ _, di.(di_size)) (set_i_nlink (λ _, di.(di_nlink))
    (set_i_minor (λ _, di.(di_minor)) (set_i_major (λ _, di.(di_major)) (set_i_type (λ _, di.(di_type)) q))))).

Definition ilock (ip : option nat) : K unit :=
  match ip with
  | None => panic "ilock"
  | Some ip =>
      q ← gets (get_inode ip);
      if q.(i_ref) <? 1 then panic "ilock" else
      acquiresleep (SlInode ip) ;;
      q ← gets (get_inode ip);
      when (q.(i_valid) =? 0)
        (sbk ← gets sb;
         bp ← bread q.(i_dev) (IBLOCK q.(i_inum) sbk);
         d ← buf_data bp;
         modify (upd_inode ip (load_dinode (dinode_at d (ioff q.(i_inum))))) ;;
         brelse bp ;;
         modify (upd_inode ip (set_i_valid (λ _, 1))) ;;
         q ← gets (get_inode ip);
         when (q.(i_type) =? 0) (panic "ilock: no type"))
  end.

Definition iunlock (ip : option nat) : K unit :=
  match ip with
  | None => panic "iunlock"
  | Some ip =>
      h ← holdingsleep (SlInode ip);
      if negb h then panic "iunlock" else
      q ← gets (get_inode ip);
      if q.(i_ref) <? 1 then panic "iunlock" else
      releasesleep (SlInode ip)
  end.

(** ** Inode content *)

Definition get_addr (ip : nat) (i : nat) : K Z := gets (λ s, (get_inode ip s).(i_addrs) !!! i).
Definition set_addr (ip : nat) (i : nat) (a : Z) : K unit :=
  modify (upd_inode ip (set_i_addrs (λ l, <[i := a]> l))).

Definition bmap (ip : nat) (bn : Z) : K Z :=
  if bn <? NDIRECT then
    addr ← get_addr ip (Z.to_nat bn);
    if addr =? 0 then
      q ← gets (get_inode ip);
      addr ← balloc q.(i_dev);
      if addr =? 0 then mret 0 else
      set_addr ip (Z.to_nat bn) addr ;; mret addr
    else mret addr
  else
    let bn := bn - NDIRECT in
    if bn <? NINDIRECT then
      q ← gets (get_inode ip);
      addr ← get_addr ip (Z.to_nat NDIRECT);
      addr ← (if addr =? 0 then
                addr ← balloc q.(i_dev);
                (if addr =? 0 then mret 0 else set_addr ip (Z.to_nat NDIRECT) addr ;; mret addr)
              else mret addr);
      if addr =? 0 then mret 0 else
      bp ← bread q.(i_dev) addr;
      d ← buf_data bp;
      addr ← (if get_le d (Z.to_nat (4 * bn)) 4 =? 0 then
                addr ← balloc q.(i_dev);
                when (negb (addr =? 0))
                  (set_data bp (λ d, put_le d (Z.to_nat (4 * bn)) 4 addr) ;; log_write bp) ;;
                mret addr
              else mret (get_le d (Z.to_nat (4 * bn)) 4));
      brelse bp ;;
      mret addr
    else panic "bmap: out of range".

Definition itrunc (ip : nat) : K unit :=
  mfor (seq 0 (Z.to_nat NDIRECT)) (λ i,
    a ← get_addr ip i;
    when (negb (a =? 0))
      (q ← gets (get_inode ip); bfree q.(i_dev) a ;; set_addr ip i 0)) ;;
  a ← get_addr ip (Z.to_nat NDIRECT);
  when (negb (a =? 0))
    (q ← gets (get_inode ip);
     bp ← bread q.(i_dev) a;
     mfor (seq 0 (Z.to_nat NINDIRECT)) (λ j,
       d ← buf_data bp;
       let aj := get_le d (4 * j) 4 in
       when (negb (aj =? 0)) (bfree q.(i_dev) aj)) ;;
     brelse bp ;;
     a ← get_addr ip (Z.to_nat NDIRECT);
     bfree q.(i_dev) a ;;
     set_addr ip (Z.to_nat NDIRECT) 0) ;;
  modify (upd_inode ip (set_i_size (λ _, 0))) ;;
  iupdate ip.

Definition iput (ip : nat) : K unit :=
  acquire LkItable ;;
  q ← gets (get_inode ip);
  when ((q.(i_ref) =? 1) && negb (q.(i_valid) =? 0) && (q.(i_nlink) =? 0))
    (acquiresleep (SlInode ip) ;;
     release LkItable ;;
     itrunc ip ;;
     modify (upd_inode ip (set_i_type (λ _, 0))) ;;
     iupdate ip ;;
     modify (upd_inode ip (set_i_valid (λ _, 0))) ;;
     releasesleep (SlInode ip) ;;
     acquire LkItable) ;;
  modify (upd_inode ip (set_i_ref (λ r, r - 1))) ;;
  release LkItable.

Definition iunlockput (ip : nat) : K unit :=
  iunlock (Some ip) ;;
  iput ip.

Definition ireclaim_msg : String.string := "ireclaim: orphaned inode %d
".

Fixpoint ireclaim_loop (n : nat) (dev inum : Z) : K unit :=
  sbk ← gets sb;
  if inum <? sbk.(sb_ninodes) then
    match n with
    | O => out_of_fuel
    | S n =>
        bp ← bread dev (IBLOCK inum sbk);
        d ← buf_data bp;
        let dip := dinode_at d (ioff inum) in
        ip ← (if negb (dip.(di_type) =? 0) && (dip.(di_nlink) =? 0) then
                _ ← printf ireclaim_msg [Vint inum];
                ip ← iget dev inum; mret (Some ip)
              else mret None);
        brelse bp ;;
        match ip with
        | Some ip =>
            begin_op ;;
            ilock (Some ip) ;;
            iunlock (Some ip) ;;
            iput ip ;;
            end_op
        | None => mret ()
        end ;;
        ireclaim_loop n dev (inum + 1)
    end
  else mret ().

Definition ireclaim (dev : Z) : K unit :=
  sbk ← gets sb;
  ireclaim_loop (Z.to_nat sbk.(sb_ninodes)) dev 1.

Definition fsinit (dev : Z) : K unit :=
  readsb dev ;;
  sbk ← gets sb;
  if negb (sbk.(sb_magic) =? FSMAGIC) then panic "invalid file system" else
  initlog dev sbk ;;
  ireclaim dev.

(** struct stat at [st]: dev, ino, type, nlink, four bytes of padding that keep
    what the memory held, and size. *)
Definition SIZEOF_STAT : Z := 24.
Definition stati (ip : nat) (st : Z) : K unit :=
  q ← gets (get_inode ip);
  modify (set_pmem (λ m, st32 m st q.(i_dev))) ;;
  modify (set_pmem (λ m, st32 m (st + 4) q.(i_inum))) ;;
  modify (set_pmem (λ m, wr m (st + 8) (to_le 2 q.(i_type)))) ;;
  modify (set_pmem (λ m, wr m (st + 10) (to_le 2 q.(i_nlink)))) ;;
  modify (set_pmem (λ m, st64 m (st + 16) q.(i_size))).

Definition zmin (a b : Z) : Z := if a <? b then a else b.

(** How many blocks [n] bytes can touch, and the last test. *)
Definition io_rounds (n : Z) : nat := Z.to_nat (n / BSIZE + 3).

Fixpoint readi_loop (k : nat) (ip : nat) (user_dst : bool) (dst off n tot : Z) : K Z :=
  if tot <? n then
    match k with
    | O => out_of_fuel
    | S k =>
        addr ← bmap ip (off / BSIZE);
        if addr =? 0 then mret tot else
        q ← gets (get_inode ip);
        bp ← bread q.(i_dev) addr;
        let m := zmin (n - tot) (BSIZE - off mod BSIZE) in
        d ← buf_data bp;
        r ← either_copyout user_dst dst (take (Z.to_nat m) (drop (Z.to_nat (off mod BSIZE)) d));
        if r =? -1 then brelse bp ;; mret (-1)
        else brelse bp ;; readi_loop k ip user_dst (u64 (dst + m)) (u32 (off + m)) n (tot + m)
    end
  else mret tot.

Definition readi (ip : nat) (user_dst : bool) (dst off n : Z) : K Z :=
  q ← gets (get_inode ip);
  if (q.(i_size) <? off) || (u32 (off + n) <? off) then mret 0 else
  let n := if q.(i_size) <? u32 (off + n) then q.(i_size) - off else n in
  r ← readi_loop (io_rounds n) ip user_dst dst off n 0;
  mret (s32 r).

(** The count and the final offset. *)
Fixpoint writei_loop (k : nat) (ip : nat) (user_src : bool) (src off n tot : Z) : K (Z * Z) :=
  if tot <? n then
    match k with
    | O => out_of_fuel
    | S k =>
        addr ← bmap ip (off / BSIZE);
        if addr =? 0 then mret (tot, off) else
        q ← gets (get_inode ip);
        bp ← bread q.(i_dev) addr;
        let m := zmin (n - tot) (BSIZE - off mod BSIZE) in
        r ← either_copyin user_src src m;
        set_data bp (λ d, splice d (Z.to_nat (off mod BSIZE)) r.2) ;;
        if r.1 =? -1 then brelse bp ;; mret (tot, off)
        else log_write bp ;; brelse bp ;;
          writei_loop k ip user_src (u64 (src + m)) (u32 (off + m)) n (tot + m)
    end
  else mret (tot, off).

Definition writei (ip : nat) (user_src : bool) (src off n : Z) : K Z :=
  q ← gets (get_inode ip);
  if (q.(i_size) <? off) || (u32 (off + n) <? off) then mret (-1) else
  if MAXFILE * BSIZE <? u32 (off + n) then mret (-1) else
  r ← writei_loop (io_rounds n) ip user_src src off n 0;
  q ← gets (get_inode ip);
  when (q.(i_size) <? r.2) (modify (upd_inode ip (set_i_size (λ _, r.2)))) ;;
  iupdate ip ;;
  mret (s32 r.1).

(** ** Directories *)

Definition namecmp (m : mem) (s t : Z) : Z := strncmp m s t DIRSIZ.

(** struct dirent in memory: the inode number and the name at offset 2. *)
Definition SIZEOF_DE : Z := 16.
Definition de_inum (m : mem) (de : Z) : Z := of_le (rd m de 2).

(** The inode and the offset of its entry. *)
Fixpoint dirlookup_loop (k : nat) (dp : nat) (name de off : Z) : K (option (nat * Z)) :=
  q ← gets (get_inode dp);
  if off <? q.(i_size) then
    match k with
    | O => out_of_fuel
    | S k =>
        r ← readi dp false de off SIZEOF_DE;
        if negb (r =? SIZEOF_DE) then panic "dirlookup read" else
        m ← gets pmem;
        if de_inum m de =? 0 then dirlookup_loop k dp name de (u32 (off + SIZEOF_DE))
        else if namecmp m name (de + 2) =? 0 then
          q ← gets (get_inode dp);
          ip ← iget q.(i_dev) (de_inum m de); mret (Some (ip, off))
        else dirlookup_loop k dp name de (u32 (off + SIZEOF_DE))
    end
  else mret None.

Definition dirlookup (dp : nat) (name : Z) : K (option (nat * Z)) :=
  q ← gets (get_inode dp);
  if negb (q.(i_type) =? T_DIR) then panic "dirlookup not DIR" else
  de ← frame DE_LOOKUP;
  dirlookup_loop (Z.to_nat (q.(i_size) / SIZEOF_DE + 1)) dp name de 0.

(** The offset of the first empty entry, or the size. *)
Fixpoint dirlink_scan (k : nat) (dp : nat) (de off : Z) : K Z :=
  q ← gets (get_inode dp);
  if off <? q.(i_size) then
    match k with
    | O => out_of_fuel
    | S k =>
        r ← readi dp false de off SIZEOF_DE;
        if negb (r =? SIZEOF_DE) then panic "dirlink read" else
        m ← gets pmem;
        if de_inum m de =? 0 then mret off else dirlink_scan k dp de (off + SIZEOF_DE)
    end
  else mret off.

Definition dirlink (dp : nat) (name inum : Z) : K Z :=
  r ← dirlookup dp name;
  match r with
  | Some (ip, _) => iput ip ;; mret (-1)
  | None =>
      q ← gets (get_inode dp);
      de ← frame DE_LINK;
      off ← dirlink_scan (Z.to_nat (q.(i_size) / SIZEOF_DE + 1)) dp de 0;
      modify (set_pmem (λ m, strncpy m (de + 2) name DIRSIZ)) ;;
      modify (set_pmem (λ m, wr m de (to_le 2 inum))) ;;
      r ← writei dp false de off SIZEOF_DE;
      if negb (r =? SIZEOF_DE) then mret (-1) else mret 0
  end.

(** ** Paths *)

Definition slash : Z := 47.

Fixpoint skip_slashes (n : nat) (m : mem) (path : Z) : Z :=
  match n with
  | O => path
  | S n => if ld8 m path =? slash then skip_slashes n m (path + 1) else path
  end.
Fixpoint skip_name (n : nat) (m : mem) (path : Z) : Z :=
  match n with
  | O => path
  | S n => if negb (ld8 m path =? slash) && negb (ld8 m path =? 0) then skip_name n m (path + 1) else path
  end.

(** The memory with the element in [name], and the rest of the path, null when
    there is no element.  A string in memory is no longer than the memory. *)
Definition skipelem (m : mem) (path name : Z) : mem * Z :=
  let k := S (size m) in
  let path := skip_slashes k m path in
  if ld8 m path =? 0 then (m, 0) else
  let s := path in
  let path := skip_name k m path in
  let len := path - s in
  let m' := if DIRSIZ <=? len then memmove m name s DIRSIZ
            else st8 (memmove m name s len) (name + len) 0 in
  (m', skip_slashes (S (size m')) m' path).

Fixpoint namex_loop (k : nat) (ip : nat) (path : Z) (nameiparent : bool) (name : Z) : K (option nat) :=
  m ← gets pmem;
  let '(m', path) := skipelem m path name in
  modify (set_pmem (λ _, m')) ;;
  if path =? 0 then
    if nameiparent then iput ip ;; mret None else mret (Some ip)
  else
    match k with
    | O => out_of_fuel
    | S k =>
        ilock (Some ip) ;;
        q ← gets (get_inode ip);
        if negb (q.(i_type) =? T_DIR) then iunlockput ip ;; mret None else
        m ← gets pmem;
        if nameiparent && (ld8 m path =? 0) then iunlock (Some ip) ;; mret (Some ip) else
        r ← dirlookup ip name;
        match r with
        | None => iunlockput ip ;; mret None
        | Some (next, _) => iunlockput ip ;; namex_loop k next path nameiparent name
        end
    end.

Definition namex (path : Z) (nameiparent : bool) (name : Z) : K (option nat) :=
  m ← gets pmem;
  ip ← (if ld8 m path =? slash then iget ROOTDEV ROOTINO
        else p ← myproc_ptr; q ← gets (get_proc p); cwd ← deref q.(p_cwd); idup cwd);
  namex_loop (Z.to_nat (strlen m path)) ip path nameiparent name.

Definition namei (path : Z) : K (option nat) :=
  name ← frame NAMEI_NAME;
  namex path false name.

Definition nameiparent (path name : Z) : K (option nat) := namex path true name.
End fs.
