(* ===== verification/FsSpec.v ===== *)
(** The file system on top of transactions ([Tx]): what the block allocator
    and the inode code of fs.c do between begin_op and end_op. *)

From S2P Require Import Prelude Cmem KString Kstate Spinlock Sleep Sleeplock Kalloc Vm Printf Bio BioSpec Log LogSpec BioProps LogCrash LogSafe Tx Fs.
Local Open Scope Z_scope.

Section balloc.
Context {Fl : Fuel} {La : Layout} {Dv : Device} `{Bs : BlockDevSpec}.

(** ** The block allocator *)

Lemma set_data_const i g s d :
  (i < length s.(bufs))%nat → (get_buf i s).(b_data) = d →
  set_data i g s = Done () (upd_buf i (set_b_data (λ _, g d)) s).
Proof. intros Hi <-. unfold set_data, modify. by rewrite upd_buf_data. Qed.

(** Replacing the contents of a block. *)
Lemma bzero_done X p s0 s v n m b :
  txc X p s0 s v n m → 1 ≤ n → 1 ≤ m → 0 ≤ b < 2147483648 → v.(vl) b = free_lock →
  ∃ s0' s' v', bzero ROOTDEV b s = Done () s' ∧ txc X p s0' s' v' (n - pay X s0 b) (m - pay X s0 b) ∧
    logs s0 s0' b ∧ onward s v s' v' ∧ (∀ b', v'.(vb) b' = fupd v.(vb) b zero_block b').
Proof.
  intros HT Hn Hm Hb Hl. unfold bzero.
  destruct (txc_block X p s0 s v n m b HT Hm Hb Hl) as (i & s1 & E & Hd & Hi & _ & Hw). mstep E.
  mstep (set_data_const i (λ _, zero_block) s1 _ Hi Hd).
  destruct (Hw Hn zero_block) as (s0' & sa & s2 & v' & Ea & E2 & Hrest); [done|].
  exists s0', s2, v'. split; [by mstep Ea|done].
Qed.

(** Block [y] is free in the bitmap. *)
Definition is_free_block (v : view) (k : superblock) (y : Z) : Prop :=
  bit_clear (v.(vb) (BBLOCK y k)) (y mod BPB) = true.

Lemma balloc_scan_spec n d b bi size :
  0 ≤ bi → BPB - bi ≤ Z.of_nat n →
  match balloc_scan n d b bi size with
  | Some x => bi ≤ x < BPB ∧ b + x < size ∧ bit_clear d x = true ∧
      ∀ y, bi ≤ y < x → bit_clear d y = false
  | None => ∀ y, bi ≤ y < BPB → b + y < size → bit_clear d y = false
  end.
Proof.
  revert bi. induction n as [|n IH]; intros bi H0 Hn; cbn [balloc_scan]; [lia|].
  destruct ((bi <? BPB) && (b + bi <? size)) eqn:Et; bool_hyps.
  - destruct (bit_clear d bi) eqn:Ec; [split; [lia|]; split; [lia|]; split; [done|lia]|].
    specialize (IH (bi + 1) ltac:(lia) ltac:(lia)). destruct (balloc_scan n d b (bi + 1) size) as [x|].
    + destruct IH as (I1 & I2 & I3 & I4). split; [lia|]. split; [lia|]. split; [done|].
      intros y Hy. destruct (decide (y = bi)) as [->|]; [done|]. apply I4. lia.
    + intros y Hy Hs. destruct (decide (y = bi)) as [->|]; [done|]. apply IH; lia.
  - intros y Hy Hs. apply andb_false_iff in Et as [Et|Et]; bool_hyps; lia.
Qed.

Lemma length_set_bit bi d : length (set_bit bi d) = length d.
Proof. apply length_insert. Qed.

(** The superblock describes a disk whose bitmap is addressable. *)
Record sb_ok (k : superblock) : Prop := {
  sbo_size : 0 ≤ k.(sb_size) < 2147483648;
  sbo_bmap : 0 ≤ k.(sb_bmapstart) < 1073741824;
  sbo_inode : 0 ≤ k.(sb_inodestart) < 1073741824 }.

Lemma BBLOCK_range k y : sb_ok k → 0 ≤ y < k.(sb_size) → 0 ≤ BBLOCK y k < 2147483648.
Proof.
  intros [H1 H2 _] Hy. unfold BBLOCK. change BPB with 8192. rewrite u32_small; mlia.
Qed.

Lemma BBLOCK_group k b y : b mod BPB = 0 → 0 ≤ y < BPB →
  BBLOCK (b + y) k = BBLOCK b k ∧ (b + y) mod BPB = y.
Proof.
  intros Hb Hy. unfold BBLOCK. change BPB with 8192 in *.
  replace ((b + y) / 8192) with (b / 8192) by mlia. split; [done|]. mlia.
Qed.

(** The bitmap and the free blocks are not locked. *)
Definition free_unlocked (v : view) (k : superblock) : Prop :=
  ∀ y, 0 ≤ y < k.(sb_size) → v.(vl) (BBLOCK y k) = free_lock ∧
    (is_free_block v k y → v.(vl) y = free_lock).

(** Block [r] was free; it is marked in the bitmap and zero. *)
Record valloc (k : superblock) (v : view) (r : Z) (v' : view) : Prop := {
  al_range : 0 ≤ r < k.(sb_size);
  al_free : is_free_block v k r;
  al_vb b : v'.(vb) b = fupd (fupd v.(vb) (BBLOCK r k) (set_bit (r mod BPB) (v.(vb) (BBLOCK r k))))
                          r zero_block b }.

(** balloc takes the first free block. *)
Record allocated (k : superblock) (s0 s : kstate) (v : view) (r : Z) (s0' s' : kstate) (v' : view) : Prop := {
  al_v : valloc k v r v';
  al_first y : 0 ≤ y < r → ¬ is_free_block v k y;
  al_log : ∃ g, s0' = set_klog g s0;
  al_logged x : x ∈ logged s0' ↔ x ∈ logged s0 ∨ x = BBLOCK r k ∨ x = r;
  al_onward : onward s v s' v' }.

Lemma balloc_loop_done k X p s0 s v n m b x f :
  txc X p s0 s v n m → (∀ y, 0 ≤ y < k.(sb_size) → pay X s0 (BBLOCK y k) + 1 ≤ n ∧ pay X s0 (BBLOCK y k) + 1 ≤ m) →
  s0.(sb) = k → sb_ok k → free_unlocked v k →
  b mod BPB = 0 → 0 ≤ b → k.(sb_size) - b ≤ Z.of_nat f * BPB →
  (∀ y, 0 ≤ y < b → y < k.(sb_size) → ¬ is_free_block v k y) → b ≤ x < k.(sb_size) → is_free_block v k x →
  ∃ r s0' s' v', balloc_loop f ROOTDEV b s = Done r s' ∧ allocated k s0 s v r s0' s' v' ∧
    txc X p s0' s' v' (n - pay X s0 (BBLOCK r k) - 1) (m - pay X s0 (BBLOCK r k) - 1).
Proof.
  intros HT Hnm Hk Hsb Hfl. revert s b HT Hfl. induction f as [|f IH]; intros s b HT Hfl Hb H0 Hf Hno Hx Hfx.
  { lia. }
  cbn [balloc_loop]. mnext. pose proof (txc_sb _ _ _ _ _ _ _ HT) as Es. rewrite Hk in Es.
  change (sb s) with (sb s). rewrite Es, (proj2 (Z.ltb_lt b _)) by lia.
  destruct (Hnm b ltac:(lia)) as [Hn Hm]. pose proof (pay_range X s0 (BBLOCK b k)) as Hpr.
  destruct (txc_block X p s0 s v n m (BBLOCK b k) HT ltac:(lia)) as (i & s1 & E & Hd & Hi & (s1' & E1' & HT1' & HO1) & Hw).
  { apply BBLOCK_range; [done|lia]. } { exact (proj1 (Hfl b ltac:(lia))). }
  mstep E. unfold buf_data. mnext. rewrite Hd.
  pose proof (balloc_scan_spec (Z.to_nat BPB) (vb v (BBLOCK b k)) b 0 (sb_size k) ltac:(lia) ltac:(unfold BPB, BSIZE; lia)) as Hsc.
  destruct (balloc_scan _ _ _ _ _) as [bi|].
  - destruct Hsc as (S1 & S2 & S3 & S4). destruct (BBLOCK_group k b bi Hb S1) as [G1 G2].
    assert (Hfr : is_free_block v k (b + bi)) by (unfold is_free_block; by rewrite G1, G2).
    mstep (set_data_const i (set_bit bi) s1 _ Hi Hd).
    destruct (Hw ltac:(lia) (set_bit bi (vb v (BBLOCK b k)))) as (s0' & sa & s2 & v2 & Ea & E2 & HT2 & [ [g ->] Hl2] & HO2 & Hv2).
    { rewrite length_set_bit. exact (txc_len _ _ _ _ _ _ _ _ HT). }
    destruct (bzero_done X p (set_klog g s0) s2 v2 _ _ (b + bi) HT2) as (s0'' & s3 & v3 & E3 & HT3 & [ [g' ->] Hl3] & HO3 & Hv3);
      [lia|lia|destruct Hsb; lia| |].
    { rewrite (ow_l _ _ _ _ HO2). exact (proj2 (Hfl (b + bi) ltac:(lia)) Hfr). }
    exists (b + bi), (set_klog g' (set_klog g s0)), s3, v3. rewrite G1.
    split; [mstep Ea; mstep E2; by mstep E3|]. split.
    2:{ pose proof (pay_range X (set_klog g s0) (b + bi)). eapply txc_weaken; [exact HT3|lia|lia]. }
    split; rewrite ?G1, ?G2.
    + split; rewrite ?G1, ?G2; [lia|done|]. intros y. rewrite Hv3. unfold fupd at 1 2. case_decide; [done|]. apply Hv2.
    + intros y Hy. destruct (decide (y < b)) as [|Hge]; [apply Hno; lia|].
      replace y with (b + (y - b)) by lia. destruct (BBLOCK_group k b (y - b) Hb) as [G3 G4]; [lia|].
      unfold is_free_block. rewrite G3, G4, S4 by lia. done.
    + by exists (g' ∘ g).
    + intros y. rewrite Hl3, Hl2. tauto.
    + by eapply onward_trans.
  - mstep E1'. assert (Hno' : ∀ y, 0 ≤ y < b + BPB → y < sb_size k → ¬ is_free_block v k y).
    { intros y Hy Hys. destruct (decide (y < b)) as [|Hge]; [apply Hno; lia|].
      replace y with (b + (y - b)) by lia. destruct (BBLOCK_group k b (y - b) Hb) as [G3 G4]; [lia|].
      unfold is_free_block. rewrite G3, G4, Hsc by lia. done. }
    destruct (IH s1' (b + BPB) HT1' Hfl) as (r & s0' & s' & v' & Er & [] & HT'); try done.
    + change BPB with 8192 in *. mlia.
    + change BPB with 8192. lia.
    + lia.
    + split; [|lia]. destruct (decide (x < b + BPB)) as [Hlt|]; [|lia]. by destruct (Hno' x); [lia..|].
    + exists r, s0', s', v'. split; [done|]. split; [|done]. split; try done. by eapply onward_trans.
Qed.

Lemma balloc_done k X p s0 s v n m x :
  txc X p s0 s v n m → (∀ y, 0 ≤ y < k.(sb_size) → pay X s0 (BBLOCK y k) + 1 ≤ n ∧ pay X s0 (BBLOCK y k) + 1 ≤ m) →
  s0.(sb) = k → sb_ok k → free_unlocked v k → 0 ≤ x < k.(sb_size) → is_free_block v k x →
  ∃ r s0' s' v', balloc ROOTDEV s = Done r s' ∧ allocated k s0 s v r s0' s' v' ∧
    txc X p s0' s' v' (n - pay X s0 (BBLOCK r k) - 1) (m - pay X s0 (BBLOCK r k) - 1).
Proof.
  intros HT Hnm Hk Hsb Hfl Hx Hfx. unfold balloc. mnext.
  pose proof (txc_sb _ _ _ _ _ _ _ HT) as Es. rewrite Hk in Es.
  change (sb s) with (sb s). rewrite Es.
  apply balloc_loop_done with x; try done; [|intros; lia]. change BPB with 8192. destruct Hsb. mlia.
Qed.

(** ** Bits *)

Lemma bit_clear_test d y : bit_clear d y = negb (Z.testbit (d !!! Z.to_nat (y / 8)) (y mod 8)).
Proof.
  unfold bit_clear, bit_mask. assert (Hy : 0 ≤ y mod 8 < 8) by mlia.
  rewrite Z.shiftl_1_l. destruct (Z.testbit _ _) eqn:E; cbn.
  - apply Z.eqb_neq. intros H. apply (f_equal (λ x, Z.testbit x (y mod 8))) in H.
    rewrite Z.land_spec, Z.pow2_bits_true, E, Z.bits_0 in H by lia. done.
  - apply Z.eqb_eq, Z.bits_inj'. intros j Hj. rewrite Z.land_spec, Z.pow2_bits_eqb, Z.bits_0 by lia.
    destruct (Z.eqb_spec (y mod 8) j) as [<-|]; [by rewrite E|by rewrite andb_false_r].
Qed.

(** The bits of a byte with bit [i] cleared. *)
Lemma clear_byte x i j : 0 ≤ i < 8 → 0 ≤ j < 8 →
  Z.testbit (Z.land x (u8 (Z.lnot (Z.shiftl 1 i)))) j = Z.testbit x j && negb (i =? j).
Proof.
  intros Hi Hj. rewrite Z.land_spec. f_equal. unfold u8. change 256 with (2 ^ 8).
  rewrite Z.mod_pow2_bits_low, Z.lnot_spec, Z.shiftl_1_l, Z.pow2_bits_eqb by lia. done.
Qed.

Lemma bit_clear_clear bi y d :
  0 ≤ bi < 8 * Z.of_nat (length d) → 0 ≤ y →
  bit_clear (clear_bit bi d) y = bit_clear d y || (y =? bi).
Proof.
  intros Hb Hy. rewrite !bit_clear_test. unfold clear_bit.
  assert (0 ≤ bi mod 8 < 8 ∧ 0 ≤ y mod 8 < 8) as [Mb My] by mlia.
  destruct (decide (y / 8 = bi / 8)) as [E|E].
  - rewrite E, list_lookup_total_insert_eq by mlia. unfold bit_mask.
    rewrite clear_byte by done. rewrite negb_andb, negb_involutive. f_equal.
    destruct (Z.eqb_spec (bi mod 8) (y mod 8)), (Z.eqb_spec y bi); try done; exfalso; mlia.
  - rewrite list_lookup_total_insert_ne by mlia.
    destruct (Z.eqb_spec y bi) as [->|]; [done|by rewrite orb_false_r].
Qed.

(** The bitmap with the bit of [b] cleared. *)
Lemma is_free_clear k v v' b : sb_ok k → 0 ≤ b < k.(sb_size) → length (v.(vb) (BBLOCK b k)) = 1024%nat →
  (∀ b', v'.(vb) b' = fupd v.(vb) (BBLOCK b k) (clear_bit (b mod BPB) (v.(vb) (BBLOCK b k))) b') →
  ∀ y, 0 ≤ y < k.(sb_size) → is_free_block v' k y ↔ is_free_block v k y ∨ y = b.
Proof.
  intros Hsb Hb Hlen Hv y Hy. unfold is_free_block. rewrite Hv. unfold fupd. case_decide as Eb.
  - rewrite bit_clear_clear, Eb, orb_true_iff, Z.eqb_eq by (change BPB with 8192; rewrite ?Hlen; mlia).
    apply or_iff_compat_l. split; [|by intros ->]. intros Em. revert Eb Em.
    unfold BBLOCK. change BPB with 8192. destruct Hsb as [B1 B2 _]. rewrite !u32_small by mlia. mlia.
  - split; [by left|]. intros [? | ->]; done.
Qed.

Lemma bfree_done k X p s0 s v n m b :
  txc X p s0 s v n m → 1 ≤ n → 1 ≤ m → s0.(sb) = k → sb_ok k →
  v.(vl) (BBLOCK b k) = free_lock → 0 ≤ b < k.(sb_size) →
  if bit_clear (v.(vb) (BBLOCK b k)) (b mod BPB) then bfree ROOTDEV b s = Panicked "freeing free block"
  else ∃ s0' s' v', bfree ROOTDEV b s = Done () s' ∧
    txc X p s0' s' v' (n - pay X s0 (BBLOCK b k)) (m - pay X s0 (BBLOCK b k)) ∧
    logs s0 s0' (BBLOCK b k) ∧ onward s v s' v' ∧
    (∀ b', v'.(vb) b' = fupd v.(vb) (BBLOCK b k) (clear_bit (b mod BPB) (v.(vb) (BBLOCK b k))) b').
Proof.
  intros HT Hn Hm Hk Hsb Hl Hb. unfold bfree.
  pose proof (txc_sb _ _ _ _ _ _ _ HT) as Es. rewrite Hk in Es.
  rewrite (bind_done (gets sb) _ s (sb s) s) by done. rewrite Es.
  destruct (txc_block X p s0 s v n m (BBLOCK b k) HT Hm (BBLOCK_range _ _ Hsb Hb) Hl) as (i & s1 & E & Hd & Hi & _ & Hw).
  rewrite (bind_done _ _ _ _ _ E). rewrite (bind_done (buf_data i) _ s1 _ s1 eq_refl), Hd.
  destruct (bit_clear (vb v (BBLOCK b k)) (b mod BPB)) eqn:Ec; [done|].
  mstep (set_data_const i (clear_bit (b mod BPB)) s1 _ Hi Hd).
  destruct (Hw Hn (clear_bit (b mod BPB) (vb v (BBLOCK b k)))) as (s0' & sa & s2 & v2 & Ea & E2 & Hrest).
  { unfold clear_bit. rewrite length_insert. exact (txc_len _ _ _ _ _ _ _ _ HT). }
  exists s0', s2, v2. split; [by mstep Ea|done].
Qed.

(** C14. bfree clears exactly the block's bit in the bitmap, changing no other
    block, and panics when the block is already free. *)
Theorem bfree_frees k p s0 s v n m b :
  tx p s0 s v n m → 1 ≤ n → 1 ≤ m → s0.(sb) = k → sb_ok k →
  (∀ y, v.(vl) y = free_lock) → 0 ≤ b < k.(sb_size) →
  if bit_clear (v.(vb) (BBLOCK b k)) (b mod BPB) then bfree ROOTDEV b s = Panicked "freeing free block"
  else ∃ s0' s' v', bfree ROOTDEV b s = Done () s' ∧ tx p s0' s' v' (n - 1) (m - 1) ∧
    (∀ b', b' ≠ BBLOCK b k → v'.(vb) b' = v.(vb) b') ∧
    (∀ y, 0 ≤ y < k.(sb_size) → is_free_block v' k y ↔ is_free_block v k y ∨ y = b) ∧
    (∀ b', v'.(vl) b' = free_lock ∧ v'.(vd) b' = v.(vd) b').
Proof.
  intros HT Hn Hm Hk Hsb Hfl Hb.
  pose proof (bfree_done k ∅ p s0 s v n m b (tx_txc _ _ _ _ _ _ HT) Hn Hm Hk Hsb (Hfl _) Hb) as H.
  destruct (bit_clear _ _); [done|]. destruct H as (s0' & s' & v' & E & HT' & _ & HO & Hv).
  exists s0', s', v'. split; [done|]. pose proof (pay_range ∅ s0 (BBLOCK b k)).
  split; [eapply tx_weaken; [by eapply txc_tx|lia|lia]|]. split; [|split].
  - intros b' Hne. rewrite Hv. by apply fupd_ne.
  - apply is_free_clear; try done. by eapply tx_len.
  - intros b'. rewrite (ow_l _ _ _ _ HO), (ow_d _ _ _ _ HO). done.
Qed.

(** C13. balloc finds the first block that is free in the bitmap, marks it used
    there and returns it zeroed; no other block's contents change, nothing goes
    to the disk before the log commits, and all buffers are released. *)
Theorem balloc_allocates k p s0 s v n m x :
  tx p s0 s v n m → 2 ≤ n → 2 ≤ m → s0.(sb) = k → sb_ok k →
  (∀ y, v.(vl) y = free_lock) → 0 ≤ x < k.(sb_size) → is_free_block v k x →
  ∃ r s0' s' v', balloc ROOTDEV s = Done r s' ∧ tx p s0' s' v' (n - 2) (m - 2) ∧
    (∃ g, s0' = set_klog g s0) ∧
    0 ≤ r < k.(sb_size) ∧ is_free_block v k r ∧ (∀ y, 0 ≤ y < r → ¬ is_free_block v k y) ∧
    (∀ b', v'.(vb) b' = fupd (fupd v.(vb) (BBLOCK r k) (set_bit (r mod BPB) (v.(vb) (BBLOCK r k))))
                          r zero_block b' ∧
           v'.(vl) b' = free_lock ∧ v'.(vd) b' = v.(vd) b').
Proof.
  intros HT Hn Hm Hk Hsb Hfl Hx Hfx.
  destruct (balloc_done k ∅ p s0 s v n m x) as (r & s0' & s' & v' & E & [ [A1 A2 A7] A3 A4 A5 A6] & HT'); try done.
  { by apply tx_txc. } { intros y _. pose proof (pay_range ∅ s0 (BBLOCK y k)). lia. }
  exists r, s0', s', v'. split; [done|]. pose proof (pay_range ∅ s0 (BBLOCK r k)).
  split; [eapply tx_weaken; [by eapply txc_tx|lia|lia]|]. do 4 (split; [done|]).
  intros b'. rewrite A7, (ow_l _ _ _ _ A6), (ow_d _ _ _ _ A6). done.
Qed.
End balloc.

(** ** Inodes on disk *)

(** The fields fit their widths. *)
Record dinode_ok (di : dinode) : Prop := {
  do_type : -32768 ≤ di.(di_type) < 32768;
  do_major : -32768 ≤ di.(di_major) < 32768;
  do_minor : -32768 ≤ di.(di_minor) < 32768;
  do_nlink : -32768 ≤ di.(di_nlink) < 32768;
  do_size : 0 ≤ di.(di_size) < 4294967296;
  do_len : length di.(di_addrs) = 13%nat;
  do_addrs : Forall (λ a, 0 ≤ a < 4294967296) di.(di_addrs) }.

Lemma length_concat_le n (l : list Z) : length (concat (to_le n <$> l)) = (n * length l)%nat.
Proof.
  induction l as [|x l IH]; cbn; [lia|]. rewrite length_app, length_to_le, IH. lia.
Qed.

Lemma length_enc_dinode di : dinode_ok di → length (enc_dinode di) = 64%nat.
Proof.
  intros H. unfold enc_dinode. rewrite !length_app, !length_to_le, length_concat_le, (do_len _ H). done.
Qed.

(** Reading inside and outside a splice. *)
Lemma get_le_splice_in d off bs x n :
  (off + length bs ≤ length d)%nat → (x + n ≤ length bs)%nat →
  get_le (splice d off bs) (off + x) n = of_le (take n (drop x bs)).
Proof.
  intros Hd Hx. unfold get_le. f_equal. unfold splice.
  rewrite drop_app_ge by (rewrite length_take; lia).
  rewrite length_take. replace (off + x - off `min` length d)%nat with x by lia.
  rewrite drop_app_le by lia. by rewrite take_app_le by (rewrite length_drop; lia).
Qed.

Lemma take_drop_seg {A} (a b c : list A) n x : length a = x → length b = n → take n (drop x (a ++ b ++ c)) = b.
Proof. intros <- <-. by rewrite drop_app_length, take_app_length. Qed.

Lemma take_drop_concat i (l : list Z) x :
  l !! i = Some x → take 4 (drop (4 * i) (concat (to_le 4 <$> l))) = to_le 4 x.
Proof.
  revert i. induction l as [|y l IH]; intros [|i] H; try done.
  - injection H as ->. cbn [fmap list_fmap concat]. rewrite Nat.mul_0_r, drop_0.
    by rewrite take_app_length' by (by rewrite length_to_le).
  - cbn [fmap list_fmap concat]. replace (4 * S i)%nat with (4 + 4 * i)%nat by lia.
    rewrite <- drop_drop, drop_app_length' by (by rewrite length_to_le). by apply IH.
Qed.

(** A field of an encoded inode. *)
Lemma dinode_field d off di x n w rest :
  dinode_ok di → (off + 64 ≤ length d)%nat →
  take n (drop x (enc_dinode di)) = to_le n w → (x + n ≤ 64)%nat → rest = 256 ^ Z.of_nat n →
  get_le (put_dinode off di d) (off + x) n = w mod rest.
Proof.
  intros Hdi Hd Hf Hx ->. unfold put_dinode. pose proof (length_enc_dinode _ Hdi).
  rewrite get_le_splice_in by lia. rewrite Hf. apply of_le_to_le.
Qed.

Lemma short_field d off di x w :
  dinode_ok di → (off + 64 ≤ length d)%nat →
  take 2 (drop x (enc_dinode di)) = to_le 2 w → (x + 2 ≤ 64)%nat → -32768 ≤ w < 32768 →
  get_short (put_dinode off di d) (off + x) = w.
Proof.
  intros Hdi Hd Hf Hx Hw. unfold get_short. rewrite (dinode_field _ _ _ _ _ w 65536) by done.
  unfold s16. mlia.
Qed.

Lemma dinode_at_put off di d :
  dinode_ok di → (off + 64 ≤ length d)%nat → dinode_at (put_dinode off di d) off = di.
Proof.
  intros Hdi Hd. destruct Hdi as [H1 H2 H3 H4 H5 H6 H7] eqn:E. clear E. unfold dinode_at.
  rewrite <- (Nat.add_0_r off) at 2.
  rewrite (short_field _ _ _ 0 di.(di_type)), (short_field _ _ _ 2 di.(di_major)),
    (short_field _ _ _ 4 di.(di_minor)), (short_field _ _ _ 6 di.(di_nlink)) by (done || lia).
  rewrite (dinode_field _ _ _ 8 4 di.(di_size) 4294967296), Z.mod_small by (done || lia).
  destruct di as [ty ma mi nl sz ad]. cbn [di_type di_major di_minor di_nlink di_size di_addrs] in *. f_equal.
  apply list_eq_same_length with (n := 13%nat); [done|by rewrite length_fmap, length_seq|].
  intros i x y Hi. rewrite list_lookup_fmap, lookup_seq_lt by done. cbn [fmap option_fmap option_map].
  intros [= <-] Hy. rewrite <- Nat.add_assoc.
  rewrite (dinode_field _ _ _ (12 + 4 * i) 4 y 4294967296), Z.mod_small; try done; try lia.
  - rewrite Forall_lookup in H7. by apply (H7 i).
  - unfold enc_dinode. cbn [di_type di_major di_minor di_nlink di_size di_addrs].
    rewrite !(assoc_L (++)). rewrite <- drop_drop, drop_app_length' by (by rewrite !length_app, !length_to_le).
    by apply take_drop_concat.
Qed.

Section inode.
Context {Fl : Fuel} {La : Layout} {Dv : Device} `{Bs : BlockDevSpec}.

Lemma IBLOCK_range k i : sb_ok k → 0 ≤ i < 4294967296 → 0 ≤ IBLOCK i k < 2147483648.
Proof. intros [_ _ H] Hi. unfold IBLOCK. change IPB with 16. rewrite u32_small; mlia. Qed.

Lemma ioff_fits i : (ioff i + 64 ≤ 1024)%nat.
Proof. unfold ioff. change IPB with 16. mlia. Qed.

Lemma iupdate_done X p s0 s v n m ip k :
  txc X p s0 s v n m → 1 ≤ n → 1 ≤ m → s0.(sb) = k → sb_ok k →
  let q := get_inode ip s0 in
  let b := IBLOCK q.(i_inum) k in
  v.(vl) b = free_lock → q.(i_dev) = ROOTDEV → 0 ≤ q.(i_inum) < 4294967296 → dinode_ok (dinode_of q) →
  ∃ s0' s' v', iupdate ip s = Done () s' ∧ txc X p s0' s' v' (n - pay X s0 b) (m - pay X s0 b) ∧
    logs s0 s0' b ∧ onward s v s' v' ∧
    (∀ b', v'.(vb) b' = fupd v.(vb) b (put_dinode (ioff q.(i_inum)) (dinode_of q) (v.(vb) b)) b').
Proof.
  intros HT Hn Hm Hk Hsb q b Hl Hdev Hin Hok. unfold iupdate.
  rewrite (bind_done (gets (get_inode ip)) _ s q s) by (exact (gets_eq _ _ _ (txc_get_inode _ _ _ _ _ _ _ _ HT))).
  rewrite (bind_done (gets sb) _ s k s) by (exact (gets_eq _ _ _ (eq_trans (txc_sb _ _ _ _ _ _ _ HT) Hk))).
  rewrite Hdev. fold b. assert (Hb : 0 ≤ b < 2147483648) by (by apply IBLOCK_range).
  destruct (txc_bread X p s0 s v n m b HT Hm Hb Hl) as (i' & s1' & E' & _ & _ & _ & HT1).
  destruct (txc_block X p s0 s v n m b HT Hm Hb Hl) as (i & s1 & E & Hd & Hi & _ & Hw).
  rewrite E in E'. injection E' as <- <-.
  mstep E. rewrite (bind_done (gets (get_inode ip)) _ s1 q s1)
    by (exact (gets_eq _ _ _ (txc_get_inode _ _ _ _ _ _ _ _ HT1))).
  set (d := put_dinode (ioff q.(i_inum)) (dinode_of q) (v.(vb) b)).
  rewrite (bind_done (set_data _ _) _ s1 () (upd_buf i (set_b_data (λ _, d)) s1)) by (by apply set_data_const).
  destruct (Hw Hn d) as (s0' & sa & s2 & v2 & Ea & E2 & Hrest).
  { unfold d, put_dinode. pose proof (ioff_fits (i_inum q)). pose proof (txc_len _ _ _ _ _ _ _ b HT).
    rewrite length_splice; rewrite ?length_enc_dinode by done; lia. }
  exists s0', s2, v2. split; [by mstep Ea|done].
Qed.

(** Locking an inode that is not in memory reads it from its block. *)
Lemma ilock_loads p s0 s v n m ip k di :
  tx p s0 s v n m → 1 ≤ m → s0.(sb) = k → sb_ok k → (∀ y, v.(vl) y = free_lock) →
  let q := get_inode ip s0 in
  (ip < NINODE)%nat → (ip < length s0.(itable))%nat →
  q.(i_dev) = ROOTDEV → 0 ≤ q.(i_inum) < 4294967296 → 1 ≤ q.(i_ref) → q.(i_valid) = 0 →
  q.(i_lock) = free_lock →
  dinode_at (v.(vb) (IBLOCK q.(i_inum) k)) (ioff q.(i_inum)) = di → di.(di_type) ≠ 0 →
  ∃ s0' s', ilock (Some ip) s = Done () s' ∧ tx p s0' s' v n m ∧
    s0' = upd_inode ip (λ _, set_i_valid (λ _, 1) (load_dinode di
            (set_i_lock (λ _, mk_sleeplock 1 (pid_of p s0)) q))) s0.
Proof.
  intros HT Hm Hk Hsb Hfl q Hip Hipl Hdev Hin Href Hval Hlk Hdi Hty. unfold ilock.
  set (q1 := set_i_lock (λ _, mk_sleeplock 1 (pid_of p s0)) q).
  rewrite (bind_done (gets (get_inode ip)) _ s q s) by (exact (gets_eq _ _ _ (tx_get_inode _ _ _ _ _ _ _ HT))).
  rewrite (proj2 (Z.ltb_ge _ _)) by lia.
  pose proof (tx_inode p s0 s v n m ip (set_i_lock (λ _, mk_sleeplock 1 (pid_of p s0))) HT) as HT1.
  set (a0 := upd_inode ip _ s0) in HT1. set (a := upd_inode ip _ s) in HT1.
  assert (Ea : acquiresleep (SlInode ip) s = Done () a).
  { rewrite (acquiresleep_free (SlInode ip) p s).
    - fold (pid_of p s). unfold a. rewrite (av_pid p s0 s v) by apply HT. done.
    - apply (av_quiet p s0 s v); apply HT.
    - split; [done|]. by destruct (av_state _ _ _ (tx_view _ _ _ _ _ _ HT)) as (bs & vk & d & w & ->).
    - change (sl_get (SlInode ip) s) with ((get_inode ip s).(i_lock)).
      rewrite (tx_get_inode _ _ _ _ _ _ _ HT). fold q. by rewrite Hlk. }
  mstep Ea. assert (Eq1 : get_inode ip a0 = q1) by (unfold a0, get_inode; cbn; by rewrite lookup_total_alter_list_eq).
  rewrite (bind_done (gets (get_inode ip)) _ a q1 a)
    by (exact (gets_eq _ _ _ (eq_trans (tx_get_inode _ _ _ _ _ _ _ HT1) Eq1))).
  change (i_valid q1) with (i_valid q). rewrite Hval. cbn [Z.eqb when].
  rewrite (bind_done (gets sb) _ a k a) by (exact (gets_eq _ _ _ (eq_trans (tx_sb _ _ _ _ _ _ HT1) Hk))).
  change (i_dev q1) with (i_dev q). change (i_inum q1) with (i_inum q). rewrite Hdev.
  set (b := IBLOCK q.(i_inum) k) in *.
  destruct (tx_bread p a0 a v n m b HT1 Hm (IBLOCK_range k _ Hsb Hin) (Hfl b)) as (i & s1 & E & Hi & HK & Hd & HT2).
  mstep E. rewrite (bind_done (buf_data i) _ s1 _ s1 eq_refl), Hd, Hdi. mnext.
  pose proof (tx_inode p a0 s1 _ n _ ip (load_dinode di) HT2) as HT3.
  pose proof (tx_inode p a0 a _ n m ip (load_dinode di) HT1) as HT3'.
  destruct (tx_release p _ _ (upd_inode ip (load_dinode di) s1) v n m (m - fresh a0 b) i b HT3') as (s2 & E2 & HT4 & _);
    [by destruct Hi|done|done|exact HT3|]. mstep E2. mnext.
  pose proof (tx_inode p _ s2 _ n m ip (set_i_valid (λ _, 1)) HT4) as HT5.
  set (z0 := upd_inode ip _ _) in HT5. set (z := upd_inode ip _ s2) in HT5.
  set (q2 := set_i_valid (λ _, 1) (load_dinode di q1)).
  assert (Ez0 : z0 = upd_inode ip (λ _, q2) s0).
  { unfold z0, a0, upd_inode, set_itable. cbn. rewrite !alter_alter_list.
    by rewrite (alter_ext_total _ (λ _, q2)). }
  assert (Eq2 : get_inode ip z0 = q2).
  { rewrite Ez0. unfold get_inode. cbn. by rewrite lookup_total_alter_list_eq. }
  rewrite (bind_done (gets (get_inode ip)) _ z q2 z)
    by (exact (gets_eq _ _ _ (eq_trans (tx_get_inode _ _ _ _ _ _ _ HT5) Eq2))).
  change (i_type q2) with (di_type di). rewrite (proj2 (Z.eqb_neq _ _) Hty). cbn [when].
  exists z0, z. split; [done|]. split; [done|]. exact Ez0.
Qed.

(** An inode table entry as it is after the entry was reused: same inode, not
    yet read from the disk. *)
Definition forgotten (q q' : inode) : Prop :=
  q'.(i_dev) = q.(i_dev) ∧ q'.(i_inum) = q.(i_inum) ∧ 1 ≤ q'.(i_ref) ∧ q'.(i_valid) = 0 ∧
  q'.(i_lock) = free_lock.

(** C15. Inodes survive the table: after iupdate, whatever the table entry is
    overwritten with, ilock of the same inode brings back the type, device
    numbers, link count, size and block addresses that iupdate stored, and
    iupdate changes nothing of the disk but the inode's own 64 bytes. *)
Theorem iupdate_ilock p s0 s v n m ip k q' :
  tx p s0 s v n m → 1 ≤ n → 2 ≤ m → s0.(sb) = k → sb_ok k → (∀ y, v.(vl) y = free_lock) →
  (ip < NINODE)%nat → (ip < length s0.(itable))%nat →
  let q := get_inode ip s0 in
  q.(i_dev) = ROOTDEV → 0 ≤ q.(i_inum) < 4294967296 → dinode_ok (dinode_of q) → q.(i_type) ≠ 0 →
  forgotten q q' →
  let b := IBLOCK q.(i_inum) k in
  ∃ s1 s2, iupdate ip s = Done () s1 ∧ ilock (Some ip) (upd_inode ip (λ _, q') s1) = Done () s2 ∧
    dinode_of (get_inode ip s2) = dinode_of q ∧ (get_inode ip s2).(i_valid) = 1 ∧
    (∀ b', b' ≠ b → blk s2 b' = blk s b') ∧
    (∀ j, (j < ioff q.(i_inum) ∨ ioff q.(i_inum) + 64 ≤ j)%nat → blk s2 b !! j = blk s b !! j).
Proof.
  intros HT Hn Hm Hk Hsb Hfl Hip Hipl q Hdev Hin Hok Hty (F1 & F2 & F3 & F4 & F5) b.
  destruct (iupdate_done ∅ p s0 s v n m ip k (tx_txc _ _ _ _ _ _ HT)) as (s0' & s1 & v1 & E1 & HT1 & [ [g ->] _] & HO & Hv1); try done; [lia|].
  apply txc_tx in HT1. pose proof (pay_range ∅ s0 b) as Hpr. fold q in HT1, Hv1. fold b in HT1, Hv1.
  pose proof (tx_inode p _ s1 v1 _ _ ip (λ _, q') HT1) as HT2. set (r0 := upd_inode ip _ _) in HT2.
  assert (Eq' : get_inode ip r0 = q') by (unfold r0, get_inode; cbn; by rewrite lookup_total_alter_list_eq).
  destruct (ilock_loads p r0 _ v1 _ _ ip k (dinode_of q) HT2) as (t0 & s2 & E2 & HT3 & Et0);
    rewrite ?Eq', ?F1, ?F2; try done; [lia|intros y; by rewrite (ow_l _ _ _ _ HO)|unfold r0; cbn; by rewrite length_alter| |].
  { rewrite Hv1. fold b. rewrite fupd_eq.
    apply dinode_at_put; [done|]. rewrite (tx_len _ _ _ _ _ _ _ HT). apply ioff_fits. }
  exists s1, s2. split; [done|]. split; [done|].
  rewrite (tx_get_inode _ _ _ _ _ _ ip HT3), Et0.
  assert (Eg : ∀ x, get_inode ip (upd_inode ip (λ _, x) r0) = x).
  { intros x. unfold get_inode, r0. cbn. by rewrite !lookup_total_alter_list_eq by (rewrite ?length_alter; done). }
  rewrite Eg. split; [done|]. split; [done|].
  pose proof (tx_view _ _ _ _ _ _ HT) as A. pose proof (tx_view _ _ _ _ _ _ HT3) as A3.
  split.
  - intros b' Hne. rewrite (av_b _ _ _ A3), (av_b _ _ _ A). rewrite Hv1. by apply fupd_ne.
  - intros j Hj. rewrite (av_b _ _ _ A3), (av_b _ _ _ A). rewrite Hv1. fold b. rewrite fupd_eq.
    pose proof (ioff_fits (i_inum q)). unfold put_dinode.
    apply lookup_splice_out; rewrite length_enc_dinode by done; [|exact Hj].
    rewrite (av_len s0 s v) by apply HT. exact H.
Qed.
End inode.

(** ** A concrete file system: 2000 blocks, the first 47 in use, inode 7 in the table. *)

Definition demo_sb : superblock := mk_sb 0x10203040 2000 1953 200 31 2 33 46.
Definition demo_bitmap : list Z := replicate 5 255 ++ 127 :: replicate 1018 0.
Definition demo_inode : inode := mk_inode ROOTDEV 7 1 (mk_sleeplock 0 0) 1 2 0 0 1 1500 (replicate 13 0).

(** The state [s] with the file system on disk [D]. *)
Definition with_fs (D : gmap Z (list Z)) (s : kstate) : kstate :=
  upd_inode 0 (λ _, demo_inode) (set_sb (λ _, demo_sb) (set_disk (λ _, D) s)).
Definition fs_on (D : gmap Z (list Z)) : kstate := with_fs D demo_boot.
Definition demo_disk : gmap Z (list Z) := {[46 := demo_bitmap]}.
Definition fs_demo : kstate := fs_on demo_disk.

Lemma fs_on_quiet D : quiet 3 (fs_on D).
Proof.
  apply demo_quiet; [by vm_compute..| |by vm_compute]. apply (bool_decide_unpack _). by vm_compute.
Qed.

Lemma fs_demo_uncached i b : ¬ hb demo_boot.(bufs) i b.
Proof.
  intros (Hi & Hd & _).
  assert (H : forallb (λ i, negb ((demo_boot.(bufs) !!! i).(b_dev) =? 1)) (seq 0 30) = true) by (by vm_compute).
  rewrite forallb_forall in H. specialize (H i). rewrite Hd in H. discriminate H. apply in_seq. unfold NBUF in Hi. lia.
Qed.

Lemma demo_boot_bc : bc demo_boot.
Proof. apply (bc_by_check _ (reverse (seq 0 30))); [by vm_compute|]. vm_compute. tauto. Qed.

Lemma with_fs_bc D s : (∀ b, length (default zero_block (D !! b)) = 1024%nat) →
  (∀ i b, ¬ hb s.(bufs) i b) → bc s → bc (with_fs D s).
Proof.
  intros HD Hn [B1 B2 B3 B4 B5 B6 B7]. split; try done. intros i b Hi. by destruct (Hn i b).
Qed.

(** Nothing is cached, so contents are those of the disk. *)
Lemma with_fs_view D s : (∀ i b, ¬ hb s.(bufs) i b) → let v := view_of (with_fs D s) in
  (∀ b, vb v b = default zero_block (D !! b)) ∧ (∀ b, vr v b = 0) ∧ (∀ b, vl v b = free_lock).
Proof.
  intros Hn v.
  assert (H : ∀ A (f : buf → A) d b, attr f d s.(bufs) b = d) by (intros; by apply attr_none).
  split_and!; intros b; apply H.
Qed.

Lemma fs_on_log D : let s := fs_on D in
  length s.(klog).(lh_block) = 30%nat ∧ s.(klog).(lh_n) = 0 ∧ s.(klog).(l_outstanding) = 1 ∧ used s = 0%nat.
Proof. split_and!; by vm_compute. Qed.

Lemma fs_on_tx d : (∀ b, length (default zero_block (d !! b)) = 1024%nat) → let F : Fuel := 1%nat in let D := ideal_disk in
  tx 3 (fs_on d) (fs_on d) (view_of (fs_on d)) 10 10.
Proof.
  intros Hd F D. destruct (fs_on_log d) as (H1 & H2 & H3 & H4).
  assert (Hlg : logged (fs_on d) = []) by (unfold logged; rewrite H2; done).
  destruct (with_fs_view d demo_boot fs_demo_uncached) as (_ & Hr & Hfl). split.
  - exact (fs_on_quiet d).
  - apply view_of_ok; [done|]. exact (with_fs_bc d demo_boot Hd fs_demo_uncached demo_boot_bc).
  - exact H1.
  - rewrite H2. lia.
  - rewrite H2. lia.
  - rewrite H3. lia.
  - rewrite Hlg. constructor.
  - intros b Hb. rewrite Hlg in Hb. destruct (not_elem_of_nil b Hb).
  - unfold view_of. cbn [vu]. rewrite H4. lia.
  - intros b. specialize (Hr b). specialize (Hfl b). change (with_fs d demo_boot) with (fs_on d) in Hr, Hfl.
    rewrite Hr, Hfl. cbn [sl_locked free_lock]. lia.
  - lia.
Qed.

Lemma demo_disk_block b : default zero_block (demo_disk !! b) = if decide (b = 46) then demo_bitmap else zero_block.
Proof.
  unfold demo_disk. case_decide as E; [subst; by rewrite lookup_singleton_eq|by rewrite lookup_singleton_ne].
Qed.

Lemma fs_demo_tx : let F : Fuel := 1%nat in let D := ideal_disk in
  tx 3 fs_demo fs_demo (view_of fs_demo) 10 10.
Proof. apply fs_on_tx. intros b. rewrite demo_disk_block. case_decide; by vm_compute. Qed.

Lemma demo_sb_ok : sb_ok demo_sb.
Proof. split; by vm_compute. Qed.

Lemma fs_demo_free y : 0 ≤ y ≤ 47 → is_free_block (view_of fs_demo) demo_sb y ↔ y = 47.
Proof.
  intros Hy. unfold is_free_block. destruct (with_fs_view demo_disk demo_boot fs_demo_uncached) as (Hb & _ & _).
  assert (EB : BBLOCK y demo_sb = 46) by (unfold BBLOCK; cbn [sb_bmapstart demo_sb]; change BPB with 8192;
    rewrite Z.div_small by lia; by vm_compute).
  unfold fs_demo, fs_on. rewrite Hb, EB, demo_disk_block, decide_True by done. clear Hb.
  change BPB with 8192. rewrite Z.mod_small by lia.
  assert (H : forallb (λ y, bool_decide (bit_clear demo_bitmap y = true ↔ y = 47)) (seqZ 0 48) = true) by (by vm_compute).
  rewrite forallb_forall in H. apply (bool_decide_unpack _), Is_true_eq_left, H.
  apply list_elem_of_In, elem_of_seqZ. lia.
Qed.

Lemma fs_demo_unlocked y : vl (view_of fs_demo) y = free_lock.
Proof. exact (proj2 (proj2 (with_fs_view demo_disk demo_boot fs_demo_uncached)) y). Qed.

Lemma balloc_allocates_witness :
  let F : Fuel := 1%nat in let L := layout64 in let V := demo_device in let D := ideal_disk in
  ∃ s', balloc ROOTDEV fs_demo = Done 47 s'.
Proof.
  intros F L V D.
  destruct (@balloc_allocates F V D ideal_disk_spec demo_sb 3 fs_demo fs_demo (view_of fs_demo) 10 10 47 fs_demo_tx)
    as (r & s0' & s' & v' & E & _ & _ & Hr & Hf & Hno & _).
  - lia.
  - lia.
  - exact eq_refl.
  - exact demo_sb_ok.
  - exact fs_demo_unlocked.
  - cbn [sb_size demo_sb]. lia.
  - apply fs_demo_free; [lia|exact eq_refl].
  - assert (r = 47) as ->; [|exists s'; exact E].
    destruct (Z.lt_trichotomy r 47) as [Hlt|[Heq|Hgt]].
    + apply fs_demo_free in Hf; lia.
    + exact Heq.
    + exfalso. apply (Hno 47); [lia|]. apply fs_demo_free; [lia|exact eq_refl].
Defined.

Lemma bfree_frees_witness :
  let F : Fuel := 1%nat in let L := layout64 in let V := demo_device in let D := ideal_disk in
  bfree ROOTDEV 47 fs_demo = Panicked "freeing free block" ∧
  ∃ s', bfree ROOTDEV 4 fs_demo = Done () s'.
Proof.
  intros F L V D.
  pose proof (@bfree_frees F D ideal_disk_spec demo_sb 3 fs_demo fs_demo (view_of fs_demo) 10 10 47 fs_demo_tx
    ltac:(lia) ltac:(lia) eq_refl demo_sb_ok fs_demo_unlocked ltac:(cbn [sb_size demo_sb]; lia)) as H47.
  pose proof (@bfree_frees F D ideal_disk_spec demo_sb 3 fs_demo fs_demo (view_of fs_demo) 10 10 4 fs_demo_tx
    ltac:(lia) ltac:(lia) eq_refl demo_sb_ok fs_demo_unlocked ltac:(cbn [sb_size demo_sb]; lia)) as H4.
  rewrite (proj2 (fs_demo_free 47 ltac:(lia)) eq_refl) in H47. split; [exact H47|].
  destruct (bit_clear _ _) eqn:E in H4.
  - exfalso. apply (proj1 (fs_demo_free 4 ltac:(lia))) in E. lia.
  - destruct H4 as (s0' & s' & v' & E' & _). exists s'. exact E'.
Defined.

Lemma iupdate_ilock_witness :
  let F : Fuel := 1%nat in let L := layout64 in let V := demo_device in let D := ideal_disk in
  ∃ s1 s2, iupdate 0 fs_demo = Done () s1 ∧
    ilock (Some 0%nat) (upd_inode 0 (λ _, mk_inode ROOTDEV 7 3 (mk_sleeplock 0 0) 0 9 9 9 9 9 []) s1) = Done () s2 ∧
    (get_inode 0 s2).(i_size) = 1500.
Proof.
  intros F L V D. assert (Eq : get_inode 0 fs_demo = demo_inode) by (by vm_compute).
  destruct (@iupdate_ilock F D ideal_disk_spec 3 fs_demo fs_demo (view_of fs_demo) 10 10 0 demo_sb
    (mk_inode ROOTDEV 7 3 (mk_sleeplock 0 0) 0 9 9 9 9 9 []) fs_demo_tx) as (s1 & s2 & E1 & E2 & Hd & _).
  - lia.
  - lia.
  - exact eq_refl.
  - exact demo_sb_ok.
  - exact fs_demo_unlocked.
  - unfold NINODE. lia.
  - apply (bool_decide_unpack _). by vm_compute.
  - rewrite Eq. exact eq_refl.
  - rewrite Eq. cbn. lia.
  - rewrite Eq. split; cbn; try lia. repeat constructor; lia.
  - rewrite Eq. cbn. lia.
  - rewrite Eq. unfold forgotten. cbn. split_and!; [exact eq_refl|exact eq_refl|lia|exact eq_refl|exact eq_refl].
  - exists s1, s2. split; [exact E1|]. split; [exact E2|].
    rewrite Eq in Hd. exact (f_equal di_size Hd).
Defined.
