(* ===== verification/FsView.v ===== *)
(** Files as blocks of a view: which blocks an inode leads to, the bytes they
    hold, and what allocating a block, storing bytes and writing an inode do to
    a file and to the others.  Nothing here depends on how the blocks are
    reached, so these lemmas serve the kernel and mkfs alike.

    A file is its inode and the blocks the inode leads to; [faddr] is the map
    from block positions to blocks that bmap implements, [fbyte] the bytes that
    readi and writei move. *)

From S2P Require Import Prelude Cmem KString Kstate Spinlock Sleep Sleeplock Kalloc Vm Printf Bio BioSpec Log LogSpec BioProps LogCrash LogSafe Tx Fs FsSpec.
Local Open Scope Z_scope.

(** ** Files in a view *)

Definition ind (q : inode) : Z := q.(i_addrs) !!! 12%nat.

(** The block at position [bn] of a file, 0 when it has none. *)
Definition faddr (v : view) (q : inode) (bn : Z) : Z :=
  if bn <? 12 then q.(i_addrs) !!! Z.to_nat bn
  else if ind q =? 0 then 0 else get_le (v.(vb) (ind q)) (Z.to_nat (4 * (bn - 12))) 4.

Definition fbyte (v : view) (q : inode) (o : Z) : Z :=
  v.(vb) (faddr v q (o / BSIZE)) !!! Z.to_nat (o mod BSIZE).
Definition fbytes (v : view) (q : inode) (off : Z) (n : nat) : list Z :=
  (λ i, fbyte v q (off + Z.of_nat i)) <$> seq 0 n.

(** A block of a file: on the disk, and neither bitmap nor inodes. *)
Record data_block (k : superblock) (b : Z) : Prop := {
  db_range : 0 < b < k.(sb_size);
  db_bitmap y : 0 ≤ y < k.(sb_size) → b ≠ BBLOCK y k;
  db_inode i : 0 ≤ i < k.(sb_ninodes) → b ≠ IBLOCK i k }.

(** The inodes and the bitmap are in different blocks. *)
Record sb_layout (k : superblock) : Prop := {
  sl_ninodes : k.(sb_ninodes) ≤ 4294967296;
  sl_disjoint i y : 0 ≤ i < k.(sb_ninodes) → 0 ≤ y < k.(sb_size) → IBLOCK i k ≠ BBLOCK y k }.

(** Free blocks can be given to files. *)
Definition fs_ok (v : view) (k : superblock) : Prop :=
  ∀ y, 0 ≤ y < k.(sb_size) → is_free_block v k y → data_block k y.

(** The blocks of a file. *)
Definition fblock (v : view) (q : inode) (b : Z) : Prop :=
  b ≠ 0 ∧ (b = ind q ∨ ∃ bn, 0 ≤ bn < MAXFILE ∧ faddr v q bn = b).

Record file_ok (v : view) (k : superblock) (q : inode) : Prop := {
  fo_dev : q.(i_dev) = ROOTDEV;
  fo_inum : 0 ≤ q.(i_inum) < k.(sb_ninodes);
  fo_dinode : dinode_ok (dinode_of q);
  fo_size : 0 ≤ q.(i_size) ≤ MAXFILE * BSIZE;
  fo_data b : fblock v q b → data_block k b ∧ ¬ is_free_block v k b;
  fo_inj bn bn' : 0 ≤ bn < MAXFILE → 0 ≤ bn' < MAXFILE → faddr v q bn ≠ 0 →
    faddr v q bn = faddr v q bn' → bn = bn';
  fo_ind bn : 0 ≤ bn < MAXFILE → faddr v q bn ≠ 0 → faddr v q bn ≠ ind q;
  fo_cover bn : 0 ≤ bn → bn * BSIZE < q.(i_size) → faddr v q bn ≠ 0 }.

Lemma fo_len v k q : file_ok v k q → length q.(i_addrs) = 13%nat.
Proof. intros H. exact (do_len _ (fo_dinode _ _ _ H)). Qed.

Lemma fo_block v k q bn : file_ok v k q → 0 ≤ bn < MAXFILE → faddr v q bn ≠ 0 →
  data_block k (faddr v q bn) ∧ ¬ is_free_block v k (faddr v q bn).
Proof. intros H Hbn Ha. apply (fo_data _ _ _ H). split; [done|]. right. eauto. Qed.

Lemma fo_ind_block v k q : file_ok v k q → ind q ≠ 0 → data_block k (ind q) ∧ ¬ is_free_block v k (ind q).
Proof. intros H Ha. apply (fo_data _ _ _ H). split; [done|by left]. Qed.

(** An inode as it is on the disk, and a table entry that was just read. *)
Definition disk_inode (k : superblock) (v : view) (i : Z) : dinode := dinode_at (v.(vb) (IBLOCK i k)) (ioff i).
Definition inode_of (k : superblock) (v : view) (i : Z) : inode :=
  load_dinode (disk_inode k v i) (mk_inode ROOTDEV i 1 free_lock 1 0 0 0 0 0 []).

(** What a file is depends on the disk inode and its number only. *)
Lemma faddr_dinode v q q' bn : dinode_of q' = dinode_of q → faddr v q' bn = faddr v q bn.
Proof. intros H. injection H as _ _ _ _ _ E. unfold faddr, ind. by rewrite E. Qed.
Lemma fbytes_dinode v q q' off n : dinode_of q' = dinode_of q → fbytes v q' off n = fbytes v q off n.
Proof. intros H. unfold fbytes, fbyte. apply list_fmap_ext. intros _ i _. by rewrite (faddr_dinode v q q' _ H). Qed.
Lemma file_ok_dinode v k q q' : dinode_of q' = dinode_of q → q'.(i_dev) = q.(i_dev) → q'.(i_inum) = q.(i_inum) →
  file_ok v k q → file_ok v k q'.
Proof.
  intros H Hd Hi [F1 F2 F3 F4 F5 F6 F7 F8].
  assert (Ha : ∀ bn, faddr v q' bn = faddr v q bn) by (intros bn; by apply faddr_dinode).
  assert (Hs : q'.(i_size) = q.(i_size)) by (by injection H).
  assert (Hin : ind q' = ind q) by (unfold ind; injection H as _ _ _ _ _ E; by rewrite E).
  split; rewrite ?Hd, ?Hi, ?Hs, ?H, ?Hin; try done.
  - intros b [Hb Hor]. apply F5. split; [done|]. rewrite Hin in Hor. destruct Hor as [->|(bn & Hbn & <-)]; [by left|].
    right. exists bn. by rewrite Ha.
  - intros bn bn'. rewrite !Ha. apply F6.
  - intros bn. rewrite Ha. apply F7.
  - intros bn. rewrite Ha. apply F8.
Qed.

Lemma data_block_range k b : sb_ok k → data_block k b → 0 ≤ b < 2147483648.
Proof. intros [H _ _] [Hb _ _]. lia. Qed.

(** Positions with the same indirect block agree. *)
Lemma faddr_ext v v' q bn : (ind q ≠ 0 → v'.(vb) (ind q) = v.(vb) (ind q)) → faddr v' q bn = faddr v q bn.
Proof.
  intros H. unfold faddr. destruct (bn <? 12); [done|]. destruct (Z.eqb_spec (ind q) 0); [done|]. by rewrite H.
Qed.

Lemma length_fbytes v q off n : length (fbytes v q off n) = n.
Proof. unfold fbytes. by rewrite length_fmap, length_seq. Qed.

Lemma lookup_fbytes v q off n i : (i < n)%nat → fbytes v q off n !! i = Some (fbyte v q (off + Z.of_nat i)).
Proof. intros Hi. unfold fbytes. rewrite list_lookup_fmap, lookup_seq_lt by done. done. Qed.

Lemma fbytes_app v q off n1 n2 :
  fbytes v q off (n1 + n2) = fbytes v q off n1 ++ fbytes v q (off + Z.of_nat n1) n2.
Proof.
  unfold fbytes. rewrite seq_app, fmap_app. f_equal. replace (0 + n1)%nat with (n1 + 0)%nat by lia.
  rewrite <- fmap_add_seq, <- list_fmap_compose.
  apply list_fmap_ext. intros _ i _. cbn. f_equal. lia.
Qed.

(** The bytes of a file inside one block. *)
Lemma fbytes_chunk v q off n : length (v.(vb) (faddr v q (off / BSIZE))) = 1024%nat → 0 ≤ off →
  off mod BSIZE + Z.of_nat n ≤ BSIZE →
  take n (drop (Z.to_nat (off mod BSIZE)) (v.(vb) (faddr v q (off / BSIZE)))) = fbytes v q off n.
Proof.
  intros Hl Ho Hn. assert (Hm : 0 ≤ off mod BSIZE < 1024) by (unfold BSIZE; mlia).
  apply list_eq_same_length with n; [by rewrite length_fbytes|rewrite length_take, length_drop, Hl; unfold BSIZE in *; lia|].
  intros i x y Hi. rewrite lookup_take_lt, lookup_drop by done. intros Hx. rewrite lookup_fbytes by done. intros [= <-].
  unfold fbyte. assert ((off + Z.of_nat i) / BSIZE = off / BSIZE) as -> by (unfold BSIZE in *; mlia).
  assert ((off + Z.of_nat i) mod BSIZE = off mod BSIZE + Z.of_nat i) as -> by (unfold BSIZE in *; mlia).
  rewrite Z2Nat.inj_add, Nat2Z.id by lia. symmetry. by apply list_lookup_total_correct.
Qed.

(** ** Allocating a block *)

Lemma set_byte x i j : 0 ≤ i < 8 → 0 ≤ j < 8 →
  Z.testbit (Z.lor x (Z.shiftl 1 i)) j = Z.testbit x j || (i =? j).
Proof. intros Hi Hj. by rewrite Z.lor_spec, Z.shiftl_1_l, Z.pow2_bits_eqb by lia. Qed.

Lemma bit_clear_set bi y d :
  0 ≤ bi < 8 * Z.of_nat (length d) → 0 ≤ y →
  bit_clear (set_bit bi d) y = bit_clear d y && negb (y =? bi).
Proof.
  intros Hb Hy. rewrite !bit_clear_test. unfold set_bit.
  assert (0 ≤ bi mod 8 < 8 ∧ 0 ≤ y mod 8 < 8) as [Mb My] by mlia.
  destruct (decide (y / 8 = bi / 8)) as [E|E].
  - rewrite E, list_lookup_total_insert_eq by mlia. unfold bit_mask.
    rewrite set_byte by done. rewrite negb_orb. f_equal. f_equal.
    destruct (Z.eqb_spec (bi mod 8) (y mod 8)), (Z.eqb_spec y bi); try done; exfalso; mlia.
  - rewrite list_lookup_total_insert_ne by mlia.
    destruct (Z.eqb_spec y bi) as [->|]; [done|by rewrite andb_true_r].
Qed.

(** At least [c] blocks are free. *)
Definition avail (v : view) (k : superblock) (c : Z) : Prop :=
  ∃ l, NoDup l ∧ c ≤ Z.of_nat (length l) ∧ ∀ x, x ∈ l → 0 ≤ x < k.(sb_size) ∧ is_free_block v k x.

(** The contents of blocks other than the bitmap, free blocks and those in [A]
    are as before, and no block became free. *)
Record touches (k : superblock) (v v' : view) (A : Z → Prop) : Prop := {
  to_vb b : v'.(vb) b = v.(vb) b ∨ (∃ y, 0 ≤ y < k.(sb_size) ∧ b = BBLOCK y k) ∨ (data_block k b ∧ is_free_block v k b) ∨ A b;
  to_free y : 0 ≤ y < k.(sb_size) → is_free_block v' k y → is_free_block v k y }.

Lemma touches_refl k v A : touches k v v A.
Proof. split; [by left|done]. Qed.

Lemma touches_trans k v v1 v2 A : touches k v v1 A → touches k v1 v2 A → touches k v v2 A.
Proof.
  intros [A1 A2] [B1 B2]. split; [|intros y Hy H; by apply A2, B2].
  intros b. destruct (B1 b) as [->|[?|[ [H1 H2]|?] ]]; [apply A1|by right; left| |by do 3 right].
  right; right; left. split; [done|]. apply A2; [destruct H1; lia|done].
Qed.

Lemma touches_mono k v v' (A B : Z → Prop) : (∀ b, A b → B b) → touches k v v' A → touches k v v' B.
Proof. intros HAB [H1 H2]. split; [|done]. intros b. destruct (H1 b) as [|[|[|] ]]; naive_solver. Qed.

(** A block of a file is kept, unless it is in [A]. *)
Lemma touches_used k v v' A b : touches k v v' A → data_block k b → ¬ is_free_block v k b → ¬ A b →
  v'.(vb) b = v.(vb) b.
Proof. intros [H _] Hd Hf HA. destruct (H b) as [|[ [y [Hy ->]]|[ [_ ?]|?] ]]; try done. by destruct (db_bitmap _ _ Hd y Hy). Qed.

Section alloc.
Context (k : superblock) (v : view) (r : Z) (v' : view).
Hypothesis Hal : valloc k v r v'.
Hypothesis Hsb : sb_ok k.
Hypothesis Hfs : fs_ok v k.
Hypothesis Hlen : ∀ b, length (v.(vb) b) = 1024%nat.

Lemma alloc_data : data_block k r.
Proof. apply Hfs; apply Hal. Qed.

Lemma alloc_free y : 0 ≤ y < k.(sb_size) → is_free_block v' k y ↔ is_free_block v k y ∧ y ≠ r.
Proof.
  intros Hy. pose proof (al_range _ _ _ _ Hal) as Hr. unfold is_free_block. rewrite (al_vb _ _ _ _ Hal).
  rewrite fupd_ne by (intros E; by apply (db_bitmap _ _ alloc_data y Hy)). unfold fupd. case_decide as Eb.
  - rewrite bit_clear_set, Eb, andb_true_iff, negb_true_iff, Z.eqb_neq by (change BPB with 8192; rewrite ?Hlen; mlia).
    split; intros [H1 H2]; (split; [done|]); [congruence|]. intros Em. apply H2. revert Eb Em.
    unfold BBLOCK. change BPB with 8192. destruct Hsb as [B1 B2 _]. rewrite !u32_small by mlia. mlia.
  - split; [|by intros [? _]]. intros H. split; [done|]. by intros ->.
Qed.

Lemma alloc_touches A : touches k v v' A.
Proof.
  split; [|intros y Hy; by rewrite alloc_free by done; intros [? _]].
  intros b. rewrite (al_vb _ _ _ _ Hal). unfold fupd.
  destruct (decide (b = r)) as [->|]; [|destruct (decide (b = BBLOCK r k))].
  - right; right; left. split; [apply alloc_data|apply Hal].
  - right; left. exists r. split; [apply Hal|done].
  - by left.
Qed.

Lemma alloc_fs_ok : fs_ok v' k.
Proof. intros y Hy. rewrite alloc_free by done. intros [? _]. by apply Hfs. Qed.

Lemma alloc_zero : v'.(vb) r = zero_block.
Proof. rewrite (al_vb _ _ _ _ Hal). apply fupd_eq. Qed.

Lemma alloc_avail c : avail v k c → avail v' k (c - 1).
Proof.
  intros (l & Hnd & Hc & Hl).
  assert (H : ∃ l', NoDup l' ∧ c - 1 ≤ Z.of_nat (length l') ∧ ∀ x, x ∈ l' → x ∈ l ∧ x ≠ r).
  { destruct (decide (r ∈ l)) as [(l1 & l2 & ->)%list_elem_of_split|Hn].
    - exists (l1 ++ l2). rewrite <- Permutation_middle in Hnd. apply NoDup_cons in Hnd as [Hr Hnd].
      split; [done|]. rewrite !length_app in *. cbn [length] in Hc. split; [lia|]. set_solver.
    - exists l. split; [done|]. split; [lia|]. set_solver. }
  destruct H as (l' & H1 & H2 & H3). exists l'. split; [done|]. split; [done|]. intros x Hx.
  destruct (H3 x Hx) as [Hx1 Hx2]. destruct (Hl x Hx1). split; [done|]. by rewrite alloc_free.
Qed.
End alloc.

(** A file none of whose blocks changed. *)
Lemma file_ok_step k v v' q A : file_ok v k q → touches k v v' A → ¬ A (ind q) → file_ok v' k q.
Proof.
  intros Hok Ht HA.
  assert (Hf : ∀ bn, faddr v' q bn = faddr v q bn).
  { intros bn. apply faddr_ext. intros Hi. destruct (fo_ind_block _ _ _ Hok Hi). by eapply touches_used. }
  destruct Hok as [H1 H2 H3 H4 H5 H6 H7 H8]. split; try done; try (intros; rewrite ?Hf in *; by eauto).
  intros b [Hb0 Hb]. destruct (H5 b) as [Hd Hnf].
  { split; [done|]. destruct Hb as [|(bn & Hbn & <-)]; [by left|right]. exists bn. by rewrite Hf. }
  split; [done|]. intros Hfree. apply Hnf, (to_free _ _ _ _ Ht); [destruct Hd; lia|done].
Qed.

(** ** Growing a file *)

(** The file after position [bn] got block [r]. *)
Lemma file_ok_extend k v v' q q' bn r A : file_ok v k q → (∃ ad, q' = set_i_addrs (λ _, ad) q) →
  dinode_ok (dinode_of q') → ind q' = ind q → 0 ≤ bn < MAXFILE →
  data_block k r → ¬ is_free_block v' k r → ¬ fblock v q r → touches k v v' A →
  (∀ bn', 0 ≤ bn' < MAXFILE → faddr v' q' bn' = if decide (bn' = bn) then r else faddr v q bn') →
  file_ok v' k q'.
Proof.
  intros Hok [ad Eq] Hdi Hind Hbn Hr Hrf Hfr Ht Hf. pose proof (fo_size _ _ _ Hok) as Hsz.
  assert (Hne : ∀ bn', 0 ≤ bn' < MAXFILE → faddr v q bn' ≠ r).
  { intros bn' Hbn' E. apply Hfr. destruct Hr as [Hr _ _]. split; [lia|]. right. eauto. }
  assert (Hri : r ≠ ind q). { intros E. apply Hfr. destruct Hr as [Hr _ _]. split; [lia|by left]. }
  split; try done; try (rewrite Eq; apply Hok).
  - intros b [Hb0 Hb]. rewrite Hind in Hb. destruct (decide (b = r)) as [->|Hbr]; [done|].
    destruct (fo_data _ _ _ Hok b) as [Hd Hnf].
    { split; [done|]. destruct Hb as [|(bn' & Hbn' & <-)]; [by left|right]. exists bn'. split; [done|].
      rewrite Hf in Hbr by done. rewrite (Hf bn') by done. by case_decide. }
    split; [done|]. intros Hfree. apply Hnf, (to_free _ _ _ _ Ht); [destruct Hd; lia|done].
  - intros b b' Hb Hb'. rewrite !Hf by done. repeat case_decide; intros H1 H2; subst; try done.
    + by destruct (Hne b').
    + by destruct (Hne b).
    + by apply (fo_inj _ _ _ Hok).
  - intros b Hb. rewrite Hf, Hind by done. case_decide; [done|]. by apply (fo_ind _ _ _ Hok).
  - intros b Hb Hbs. assert (Hs : i_size q' = i_size q) by (by rewrite Eq). rewrite Hs in Hbs.
    rewrite Hf by (unfold BSIZE in *; lia). case_decide; [destruct Hr as [Hr _ _]; lia|]. by apply (fo_cover _ _ _ Hok).
Qed.

(** The file after it got an indirect block. *)
Lemma file_ok_indirect k v v' q q' r A : file_ok v k q → (∃ ad, q' = set_i_addrs (λ _, ad) q) →
  dinode_ok (dinode_of q') → ind q = 0 → ind q' = r →
  data_block k r → ¬ is_free_block v' k r → ¬ fblock v q r → touches k v v' A →
  (∀ bn', 0 ≤ bn' < MAXFILE → faddr v' q' bn' = faddr v q bn') → file_ok v' k q'.
Proof.
  intros Hok [ad Eq] Hdi Hind <- Hr Hrf Hfr Ht Hf. pose proof (fo_size _ _ _ Hok) as Hsz.
  split; try done; try (rewrite Eq; apply Hok).
  - intros b [Hb0 Hb]. destruct (decide (b = ind q')) as [->|Hbr]; [done|].
    destruct (fo_data _ _ _ Hok b) as [Hd Hnf].
    { split; [done|]. right. destruct Hb as [|(bn' & Hbn' & <-)]; [done|]. exists bn'. split; [done|]. by rewrite Hf. }
    split; [done|]. intros Hfree. apply Hnf, (to_free _ _ _ _ Ht); [destruct Hd; lia|done].
  - intros b b' Hb Hb'. rewrite !Hf by done. by apply (fo_inj _ _ _ Hok).
  - intros b Hb. rewrite Hf by done. intros H1 H2. apply Hfr. split; [congruence|]. right. eauto.
  - intros b Hb Hbs. assert (Hs : i_size q' = i_size q) by (by rewrite Eq). rewrite Hs in Hbs.
    rewrite Hf by (unfold BSIZE in *; lia). by apply (fo_cover _ _ _ Hok).
Qed.

(** Entries of the indirect block. *)
Lemma get_put_le_eq d off n x : (off + n ≤ length d)%nat → get_le (put_le d off n x) off n = x mod 256 ^ Z.of_nat n.
Proof.
  intros Hd. unfold get_le, put_le. rewrite <- (length_to_le n x) at 1.
  rewrite take_drop_splice_same by (by rewrite length_to_le). apply of_le_to_le.
Qed.
Lemma get_put_le_ne d off n x off' n' : (off + n ≤ length d)%nat → (off' + n' ≤ off ∨ off + n ≤ off')%nat →
  get_le (put_le d off n x) off' n' = get_le d off' n'.
Proof. intros Hd Ho. unfold get_le, put_le. by rewrite take_drop_splice_disj by (by rewrite length_to_le). Qed.

Lemma get_le_zero off : (off + 4 ≤ 1024)%nat → get_le zero_block off 4 = 0.
Proof.
  intros Ho. unfold get_le, zero_block. rewrite drop_replicate, take_replicate.
  replace (4 `min` _)%nat with 4%nat by lia. done.
Qed.

Lemma dinode_ok_addr q j r : dinode_ok (dinode_of q) → 0 ≤ r < 4294967296 →
  dinode_ok (dinode_of (set_i_addrs (λ l, <[j := r]> l) q)).
Proof.
  intros [H1 H2 H3 H4 H5 H6 H7] Hr. split; try done; cbn in *; [by rewrite length_insert|]. by apply Forall_insert.
Qed.

Section grow.
Context (k : superblock).
Hypothesis Hsb : sb_ok k.

(** The file [q] gained block [a], zeroed, at position [bn]. *)
Record gained (v : view) (q : inode) (v' : view) (q' : inode) (bn a : Z) : Prop := {
  ga_addr bn' : 0 ≤ bn' < MAXFILE → faddr v' q' bn' = if decide (bn' = bn) then a else faddr v q bn';
  ga_zero : v'.(vb) a = zero_block;
  ga_kept b : fblock v q b → b ≠ ind q → v'.(vb) b = v.(vb) b;
  ga_free : is_free_block v k a;
  ga_data : data_block k a }.

(** The file got blocks that were free, and nothing else changed but its own
    blocks and the bitmap. *)
Record vgrown (v : view) (q : inode) (v' : view) (q' : inode) : Prop := {
  vg_q : ∃ ad, q' = set_i_addrs (λ _, ad) q;
  vg_ok : file_ok v' k q';
  vg_fs : fs_ok v' k;
  vg_touch : touches k v v' (fblock v q);
  vg_fblock b : fblock v' q' b → fblock v q b ∨ data_block k b ∧ is_free_block v k b;
  vg_ind : ind q ≠ 0 → ind q' = ind q }.

Lemma vgrown_refl v q : file_ok v k q → fs_ok v k → vgrown v q v q.
Proof.
  intros Hok Hfs. split; try done; [exists q.(i_addrs); by destruct q|apply touches_refl|by left].
Qed.

Lemma vgrown_trans v q v1 q1 v2 q2 : vgrown v q v1 q1 → vgrown v1 q1 v2 q2 → vgrown v q v2 q2.
Proof.
  intros [ [ad Ead] A5 A6 A7 A7' A10] [ [ad' Ead'] B5 B6 B7 B7' B10].
  assert (Hold : ∀ b, data_block k b ∧ is_free_block v1 k b → data_block k b ∧ is_free_block v k b).
  { intros b [Hd Hf]. split; [done|]. apply (to_free _ _ _ _ A7); [destruct Hd; lia|done]. }
  split; try done.
  - exists ad'. by rewrite Ead', Ead.
  - split; [|intros y Hy Hf; by apply (to_free _ _ _ _ A7), (to_free _ _ _ _ B7)].
    intros b. destruct (to_vb _ _ _ _ B7 b) as [->|[?|[Hb|Hb] ]].
    + apply (to_vb _ _ _ _ A7).
    + by right; left.
    + right; right; left. by apply Hold.
    + destruct (A7' b Hb); [by do 3 right|by do 2 right; left].
  - intros b [Hb|Hb]%B7'; [by apply A7'|right; by apply Hold].
  - intros Hi. rewrite B10, A10; [done|done|]. by rewrite A10.
Qed.

Lemma not_fblock v q r : file_ok v k q → is_free_block v k r → ¬ fblock v q r.
Proof. intros Hok Hf Hb. by apply (fo_data _ _ _ Hok r Hb). Qed.

(** A new block [r] at position [bn], recorded in the inode or in the indirect
    block. *)
Lemma gain_block v r v2 v' q q' bn :
  valloc k v r v2 → fs_ok v k → (∀ b, length (v.(vb) b) = 1024%nat) →
  file_ok v k q → (∃ ad, q' = set_i_addrs (λ _, ad) q) → dinode_ok (dinode_of q') → ind q' = ind q →
  0 ≤ bn < MAXFILE → (∀ b, v'.(vb) b = v2.(vb) b ∨ b = ind q ∧ ind q ≠ 0) →
  (∀ bn', 0 ≤ bn' < MAXFILE → faddr v' q' bn' = if decide (bn' = bn) then r else faddr v q bn') →
  vgrown v q v' q' ∧ gained v q v' q' bn r ∧ ∀ c, avail v k c → avail v' k (c - 1).
Proof.
  intros Hal Hfs Hlen Hok Hq' Hdi Hind Hbn Hv Hf.
  pose proof (alloc_data _ _ _ _ Hal Hfs) as Hrd. pose proof (db_range _ _ Hrd) as Hrr.
  pose proof (al_free _ _ _ _ Hal) as Hrf.
  assert (Hb : ∀ y, 0 ≤ y < k.(sb_size) → v'.(vb) (BBLOCK y k) = v2.(vb) (BBLOCK y k)).
  { intros y Hy. destruct (Hv (BBLOCK y k)) as [|[E Hi]]; [done|]. destruct (fo_ind_block _ _ _ Hok Hi) as [Hd _].
    by destruct (db_bitmap _ _ Hd y Hy). }
  assert (Hfree : ∀ y, 0 ≤ y < k.(sb_size) → is_free_block v' k y ↔ is_free_block v k y ∧ y ≠ r).
  { intros y Hy. unfold is_free_block at 1. rewrite Hb by done. by apply (alloc_free _ _ _ _ Hal). }
  assert (Ht : touches k v v' (fblock v q)).
  { split; [|intros y Hy; rewrite Hfree by done; tauto]. intros b. destruct (Hv b) as [->|[-> Hi]]; [|by do 3 right; split; [|left]].
    by apply (to_vb _ _ _ (fblock v q)), (alloc_touches _ _ _ _ Hal). }
  split; [split; try done|split].
  - eapply file_ok_extend; [exact Hok|done|done|done|done|done| |by apply not_fblock|exact Ht|exact Hf].
    rewrite Hfree by lia. tauto.
  - intros y Hy. rewrite Hfree by done. intros [? _]. by apply Hfs.
  - intros b [Hb0 [->|(bn' & Hbn' & E)]]; [left; split; [done|by left]|]. rewrite Hf in E by done. case_decide; [subst; by right|].
    left. split; [done|]. right. eauto.
  - split; [done| | |done|done].
    + destruct (Hv r) as [->|[E Hi]]; [by apply (alloc_zero _ _ _ _ Hal)|].
      destruct (fo_ind_block _ _ _ Hok Hi) as [_ Hnf]. by rewrite <- E in Hnf.
    + intros b Hb' Hbi. destruct (Hv b) as [->|[? _]]; [|done]. destruct (fo_data _ _ _ Hok b Hb') as [Hbd Hbf].
      by apply (touches_used _ _ _ _ _ (alloc_touches _ _ _ _ Hal Hsb Hfs Hlen (λ _, False))); [| |intros []].
  - intros c (l & Hl). destruct (alloc_avail _ _ _ _ Hal Hsb Hfs Hlen c) as (l' & H1 & H2 & H3); [by exists l|].
    exists l'. split; [done|]. split; [done|]. intros x Hx. destruct (H3 x Hx) as [Hx1 Hx2]. split; [done|].
    unfold is_free_block in *. by rewrite Hb.
Qed.

(** Recorded in the inode. *)
Lemma grow_direct v r v' q bn :
  valloc k v r v' → fs_ok v k → (∀ b, length (v.(vb) b) = 1024%nat) → file_ok v k q → 0 ≤ bn < 12 →
  let q' := set_i_addrs (λ l, <[Z.to_nat bn := r]> l) q in
  vgrown v q v' q' ∧ gained v q v' q' bn r ∧ ind q' = ind q ∧ ∀ c, avail v k c → avail v' k (c - 1).
Proof.
  intros Hal Hfs Hlen Hok Hbn q'. pose proof (db_range _ _ (alloc_data _ _ _ _ Hal Hfs)) as Hrr.
  assert (Hind : ind q' = ind q). { unfold ind, q'. cbn. apply list_lookup_total_insert_ne. lia. }
  pose proof (alloc_touches _ _ _ _ Hal Hsb Hfs Hlen (λ _, False)) as Ht0. pose proof (sbo_size _ Hsb) as Hs1.
  destruct (gain_block v r v' v' q q' bn Hal) as (G1 & G2 & G3); try done.
  - by eexists.
  - apply dinode_ok_addr; [apply Hok|lia].
  - change MAXFILE with 268. lia.
  - by left.
  - intros bn' Hb'. rewrite <- (faddr_ext v v' q bn').
    + unfold faddr. rewrite Hind. unfold q'. cbn. pose proof (fo_len _ _ _ Hok). destruct (Z.ltb_spec bn' 12).
      * case_decide as Eb; [subst; apply list_lookup_total_insert_eq; lia|apply list_lookup_total_insert_ne; lia].
      * by rewrite decide_False by lia.
    + intros Hi. destruct (fo_ind_block _ _ _ Hok Hi). by apply (touches_used _ _ _ _ _ Ht0); [| |intros []].
Qed.

Lemma entry_off bn : 12 ≤ bn < MAXFILE → (Z.to_nat (4 * (bn - 12)) + 4 ≤ 1024)%nat.
Proof. change MAXFILE with 268. lia. Qed.

(** Entry [bn] of the indirect block set to [r]. *)
Lemma faddr_put v v' q bn r : ind q ≠ 0 → length (v.(vb) (ind q)) = 1024%nat →
  v'.(vb) (ind q) = put_le (v.(vb) (ind q)) (Z.to_nat (4 * (bn - 12))) 4 r →
  12 ≤ bn < MAXFILE → 0 ≤ r < 4294967296 →
  ∀ bn', 0 ≤ bn' < MAXFILE → faddr v' q bn' = if decide (bn' = bn) then r else faddr v q bn'.
Proof.
  intros Hi Hlen Hv Hbn Hr bn' Hbn'. unfold faddr. rewrite (proj2 (Z.eqb_neq _ 0)) by done.
  pose proof (entry_off bn Hbn). destruct (Z.ltb_spec bn' 12); [by rewrite decide_False by lia|]. rewrite Hv.
  case_decide as E.
  - subst. rewrite get_put_le_eq by (rewrite Hlen; lia). apply Z.mod_small. done.
  - apply get_put_le_ne; [rewrite Hlen; lia|lia].
Qed.

(** Recorded in the indirect block. *)
Lemma grow_block_entry v r v2 v' q bn :
  valloc k v r v2 → fs_ok v k → (∀ b, length (v.(vb) b) = 1024%nat) → file_ok v k q → ind q ≠ 0 → 12 ≤ bn < MAXFILE →
  (∀ b, v'.(vb) b = fupd v2.(vb) (ind q) (put_le (v.(vb) (ind q)) (Z.to_nat (4 * (bn - 12))) 4 r) b) →
  vgrown v q v' q ∧ gained v q v' q bn r ∧ ∀ c, avail v k c → avail v' k (c - 1).
Proof.
  intros Hal Hfs Hlen Hok Hi Hbn Vb. pose proof (db_range _ _ (alloc_data _ _ _ _ Hal Hfs)) as Hrr. pose proof (sbo_size _ Hsb) as Hs1.
  eapply gain_block; try done.
  - exists q.(i_addrs). by destruct q.
  - apply Hok.
  - lia.
  - intros b. rewrite Vb. unfold fupd. case_decide; [by right|by left].
  - apply faddr_put; try done; [by rewrite Vb, fupd_eq|lia].
Qed.

(** An indirect block. *)
Lemma grow_indirect v r v' q :
  valloc k v r v' → fs_ok v k → (∀ b, length (v.(vb) b) = 1024%nat) → file_ok v k q → ind q = 0 →
  let q' := set_i_addrs (λ l, <[12%nat := r]> l) q in
  vgrown v q v' q' ∧ ind q' = r ∧ (∀ bn, 0 ≤ bn < MAXFILE → faddr v' q' bn = faddr v q bn) ∧
  (∀ b, fblock v q b → v'.(vb) b = v.(vb) b) ∧ ∀ c, avail v k c → avail v' k (c - 1).
Proof.
  intros Hal Hfs Hlen Hok Hi q'. pose proof (alloc_data _ _ _ _ Hal Hfs) as Hrd. pose proof (db_range _ _ Hrd) as Hrr.
  pose proof (sbo_size _ Hsb) as Hs1. pose proof (fo_len _ _ _ Hok) as Hal13.
  assert (Hind : ind q' = r). { unfold ind, q'. cbn. apply list_lookup_total_insert_eq. lia. }
  pose proof (alloc_touches _ _ _ _ Hal Hsb Hfs Hlen (fblock v q)) as Ht.
  assert (Hf : ∀ bn, 0 ≤ bn < MAXFILE → faddr v' q' bn = faddr v q bn).
  { intros bn Hb. unfold faddr. rewrite Hind, Hi, (proj2 (Z.eqb_neq r 0)) by lia. cbn [Z.eqb]. unfold q'. cbn.
    destruct (Z.ltb_spec bn 12); [apply list_lookup_total_insert_ne; lia|].
    rewrite (alloc_zero _ _ _ _ Hal). apply get_le_zero. apply entry_off. lia. }
  split; [split; try done|split; [done|split; [done|split]]].
  - by eexists.
  - eapply file_ok_indirect; [exact Hok|by eexists|apply dinode_ok_addr; [apply Hok|lia]|done|done|done| | |exact Ht|exact Hf].
    + rewrite (alloc_free _ _ _ _ Hal Hsb Hfs Hlen) by lia. tauto.
    + apply not_fblock; [done|apply Hal].
  - by apply (alloc_fs_ok _ _ _ _ Hal).
  - intros b [Hb0 [->|(bn' & Hbn' & E')]]; [right; rewrite Hind; split; [done|apply Hal]|].
    left. split; [done|]. right. exists bn'. by rewrite <- Hf.
  - intros b Hb. destruct (fo_data _ _ _ Hok b Hb).
    by apply (touches_used _ _ _ _ _ (alloc_touches _ _ _ _ Hal Hsb Hfs Hlen (λ _, False))); [| |intros []].
  - by apply (alloc_avail _ _ _ _ Hal).
Qed.

(** A block gained after an indirect block. *)
Lemma gained_after v q v1 q1 v2 q2 bn a :
  file_ok v k q → vgrown v q v1 q1 → (∀ bn, 0 ≤ bn < MAXFILE → faddr v1 q1 bn = faddr v q bn) →
  (∀ b, fblock v q b → v1.(vb) b = v.(vb) b) → gained v1 q1 v2 q2 bn a → gained v q v2 q2 bn a.
Proof.
  intros Hok [_ T5 _ T7 _ T10] Hf1 Hk1 [A1 A2 A2' A3 A4].
  split; [|done| |by apply (to_free _ _ _ _ T7); [destruct A4; lia|]|done].
  - intros bn' Hb'. rewrite A1 by done. by rewrite Hf1.
  - intros b Hb Hbi. rewrite <- (Hk1 b Hb).
    assert (b ≠ ind q1). { intros ->. destruct (decide (ind q = 0)) as [H0|H0]; [|by rewrite T10 in Hbi].
      destruct Hb as [Hb0 [|(bn' & Hbn' & Hb)]]; [done|]. rewrite <- Hf1 in Hb by done.
      by destruct (fo_ind _ _ _ T5 bn' Hbn'); rewrite Hb. }
    apply A2'; [|done]. destruct Hb as [Hb0 [|(bn' & Hbn' & Hb)]]; [done|]. split; [done|right]. exists bn'. by rewrite Hf1.
Qed.
End grow.

(** The cost of an indirect block that is still missing. *)
Definition icost (q : inode) : Z := if ind q =? 0 then 1 else 0.

Lemma icost_range q : 0 ≤ icost q ≤ 1.
Proof. unfold icost. destruct (_ =? _); lia. Qed.

(** ** Bytes *)

(** The byte at [o], holes being zero. *)
Definition fget (v : view) (q : inode) (o : Z) : Z := if faddr v q (o / BSIZE) =? 0 then 0 else fbyte v q o.

Lemma fget_byte v q o : faddr v q (o / BSIZE) ≠ 0 → fget v q o = fbyte v q o.
Proof. intros H. unfold fget. by rewrite (proj2 (Z.eqb_neq _ 0)). Qed.

(** The bytes in [P] are as they were, and no block was lost. *)
Definition kept (v : view) (q : inode) (v' : view) (q' : inode) (P : Z → Prop) : Prop :=
  ∀ o, 0 ≤ o < MAXFILE * BSIZE →
    (faddr v q (o / BSIZE) ≠ 0 → faddr v' q' (o / BSIZE) ≠ 0) ∧ (P o → fget v' q' o = fget v q o).

Lemma kept_refl v q P : kept v q v q P.
Proof. intros o _. done. Qed.

Lemma kept_trans v q v1 q1 v2 q2 (P Q R : Z → Prop) : kept v q v1 q1 P → kept v1 q1 v2 q2 Q →
  (∀ o, R o → P o ∧ Q o) → kept v q v2 q2 R.
Proof.
  intros H1 H2 HR o Ho. destruct (H1 o Ho) as [A1 A2], (H2 o Ho) as [B1 B2]. split; [auto|].
  intros [HP HQ]%HR. rewrite B2; auto.
Qed.

Lemma pos_block o : 0 ≤ o < MAXFILE * BSIZE → 0 ≤ o / BSIZE < MAXFILE.
Proof. change MAXFILE with 268. unfold BSIZE. mlia. Qed.

(** The bytes of a block with [d] stored at [o]. *)
Lemma splice_total (l : list Z) o d i : (o + length d ≤ length l)%nat →
  splice l o d !!! i = if decide (o ≤ i < o + length d)%nat then d !!! (i - o)%nat else l !!! i.
Proof.
  intros Hl. case_decide as Hi.
  - unfold splice. rewrite !list_lookup_total_alt. rewrite lookup_app_r; rewrite length_take; [|lia].
    rewrite lookup_app_l by lia. f_equal. f_equal. lia.
  - rewrite !list_lookup_total_alt, lookup_splice_out by lia. done.
Qed.

Definition in_range (off z o : Z) : Prop := off ≤ o < off + z.

(** The number of blocks that [z] bytes at [off] touch. *)
Definition nblk (off z : Z) : Z := if z <=? 0 then 0 else (off + z - 1) / BSIZE - off / BSIZE + 1.

Lemma nblk_round off rem z : 0 ≤ off → 0 < z ≤ rem → z = rem ∨ z = BSIZE - off mod BSIZE →
  z ≤ BSIZE - off mod BSIZE → nblk (off + z) (rem - z) ≤ nblk off rem - 1.
Proof.
  intros Ho Hz Hc Hm. unfold nblk, BSIZE in *. destruct (Z.leb_spec rem 0), (Z.leb_spec (rem - z) 0); mlia.
Qed.

Section bytes.
Context (k : superblock).

(** A new block is zero, as the hole it fills was. *)
Lemma gained_kept v q v' q' bn a : file_ok v k q → gained k v q v' q' bn a → 0 ≤ bn < MAXFILE → faddr v q bn = 0 →
  kept v q v' q' (λ _, True).
Proof.
  intros Hok [A1 A2 A3 A4 A5] Hbn Ha o Ho. pose proof (pos_block o Ho) as Hb. pose proof (db_range _ _ A5) as Hr.
  unfold fget, fbyte. rewrite (A1 _ Hb). case_decide as E; [subst bn|]; (split; [done || lia|]); intros _.
  - rewrite Ha, (proj2 (Z.eqb_neq a 0)), A2 by lia. cbn [Z.eqb]. apply lookup_total_replicate_2. unfold BSIZE. mlia.
  - destruct (Z.eqb_spec (faddr v q (o / BSIZE)) 0) as [|H0]; [done|].
    rewrite A3; [done|split; [done|right; eauto]|by apply (fo_ind _ _ _ Hok)].
Qed.

(** The file after the bytes [d] were stored at offset [off], in one block. *)
Lemma chunk_file v q v' off d :
  let a := faddr v q (off / BSIZE) in
  (∀ b, v'.(vb) b = fupd v.(vb) a (splice (v.(vb) a) (Z.to_nat (off mod BSIZE)) d) b) →
  (∀ b, length (v.(vb) b) = 1024%nat) → 0 ≤ off < MAXFILE * BSIZE → off mod BSIZE + Z.of_nat (length d) ≤ BSIZE →
  a ≠ 0 → fs_ok v k → file_ok v k q →
  vgrown k v q v' q ∧ kept v q v' q (λ o, ¬ in_range off (Z.of_nat (length d)) o) ∧
  (∀ i, (i < length d)%nat → faddr v' q ((off + Z.of_nat i) / BSIZE) ≠ 0 ∧ fbyte v' q (off + Z.of_nat i) = d !!! i) ∧
  (∀ bn, faddr v' q bn = faddr v q bn) ∧ ∀ c, avail v k c → avail v' k c.
Proof.
  intros a Hv Hlen Hoff Hd Ha Hfs Hok. pose proof (pos_block off Hoff) as Hbn.
  destruct (fo_block _ _ _ _ Hok Hbn Ha) as [Had Haf]. fold a in Had, Haf.
  pose proof (fo_ind _ _ _ Hok _ Hbn Ha) as Hai. fold a in Hai.
  assert (Hfree : ∀ y, 0 ≤ y < k.(sb_size) → is_free_block v' k y ↔ is_free_block v k y).
  { intros y Hy. unfold is_free_block. rewrite Hv, fupd_ne; [done|]. intros E. by apply (db_bitmap _ _ Had y Hy). }
  assert (Ht : touches k v v' (λ b, b = a)).
  { split; [|intros y Hy; by rewrite Hfree]. intros b. rewrite Hv. unfold fupd. case_decide; [by do 3 right|by left]. }
  assert (Hf : ∀ bn, faddr v' q bn = faddr v q bn).
  { intros bn. apply faddr_ext. intros _. rewrite Hv. by apply fupd_ne. }
  assert (Hm : 0 ≤ off mod BSIZE < BSIZE) by (unfold BSIZE; mlia).
  assert (Hby : ∀ o, 0 ≤ o < MAXFILE * BSIZE → faddr v q (o / BSIZE) ≠ 0 → fbyte v' q o =
    if decide (in_range off (Z.of_nat (length d)) o) then d !!! Z.to_nat (o - off) else fbyte v q o).
  { intros o Ho Hao. unfold fbyte. rewrite Hf, Hv. unfold fupd, in_range.
    destruct (decide (o / BSIZE = off / BSIZE)) as [E|E].
    - rewrite E. fold a. rewrite decide_True by done. rewrite splice_total by (rewrite Hlen; unfold BSIZE in *; lia).
      unfold BSIZE in *. repeat case_decide; try (f_equal; mlia); exfalso; mlia.
    - rewrite decide_False. + rewrite decide_False; [done|]. unfold BSIZE in *. mlia.
      + intros Ea. apply E. apply (fo_inj _ _ _ Hok); [by apply pos_block|done|done|exact Ea]. }
  split; [split; try done|split; [|split; [|split; [exact Hf|]]]].
  - exists q.(i_addrs). by destruct q.
  - eapply file_ok_step; [exact Hok|exact Ht|]. intros E. by apply Hai.
  - intros y Hy. rewrite Hfree by done. by apply Hfs.
  - eapply touches_mono, Ht. intros b ->. split; [done|right]. by exists (off / BSIZE).
  - intros b [Hb0 Hb]. left. split; [done|]. destruct Hb as [|(bn & Hb & E)]; [by left|right]. exists bn. by rewrite <- Hf.
  - intros o Ho. unfold fget. rewrite Hf. split; [done|]. intros HP. destruct (Z.eqb_spec (faddr v q (o / BSIZE)) 0); [done|].
    by rewrite Hby, decide_False.
  - intros i Hi. assert ((off + Z.of_nat i) / BSIZE = off / BSIZE) as E by (unfold BSIZE in *; mlia).
    rewrite E, Hf. split; [done|]. rewrite Hby, decide_True; [f_equal; lia|unfold in_range; lia| |by rewrite E].
    change MAXFILE with 268 in *. unfold BSIZE in *. mlia.
  - intros c (l & L1 & L2 & L3). exists l. split; [done|]. split; [done|]. intros x Hx. destruct (L3 x Hx). by rewrite Hfree.
Qed.

(** The addresses and the bytes of the file are the same. *)
Record unchanged (v v' : view) (q : inode) : Prop := {
  un_addr bn : faddr v' q bn = faddr v q bn;
  un_get o : 0 ≤ o < MAXFILE * BSIZE → fget v' q o = fget v q o }.

Lemma un_byte v v' q o : file_ok v k q → unchanged v v' q → 0 ≤ o < q.(i_size) → fbyte v' q o = fbyte v q o.
Proof.
  intros Hok [U1 U2] Ho. pose proof (fo_size _ _ _ Hok) as Hs.
  assert (Ha : faddr v q (o / BSIZE) ≠ 0) by (apply (fo_cover _ _ _ Hok); unfold BSIZE; mlia).
  rewrite <- !fget_byte by (by rewrite ?U1). apply U2. lia.
Qed.

(** A file whose blocks did not change. *)
Lemma same_file v v' q : file_ok v k q → (∀ b, fblock v q b → v'.(vb) b = v.(vb) b) →
  (∀ y, fblock v q y → 0 ≤ y < k.(sb_size) → is_free_block v' k y → is_free_block v k y) →
  file_ok v' k q ∧ (∀ b, fblock v' q b ↔ fblock v q b) ∧ unchanged v v' q.
Proof.
  intros Hok Hv Hfree.
  assert (Hf : ∀ bn, faddr v' q bn = faddr v q bn).
  { intros bn. apply faddr_ext. intros Hi. apply Hv. split; [done|by left]. }
  assert (Hfb : ∀ b, fblock v' q b ↔ fblock v q b).
  { intros b. unfold fblock. setoid_rewrite Hf. done. }
  split; [|split; [done|split; [done|]]].
  - pose proof Hok as [O1 O2 O3 O4 O5 O6 O7 O8]. split; try done; try (intros; rewrite ?Hf in *; by eauto).
    intros b Hb%Hfb. destruct (O5 b Hb) as [Hd Hnf]. split; [done|]. intros Hfr. apply Hnf, Hfree; [done|destruct Hd; lia|done].
  - intros o Ho. unfold fget, fbyte. rewrite Hf. destruct (Z.eqb_spec (faddr v q (o / BSIZE)) 0) as [|H0]; [done|].
    rewrite Hv; [done|]. split; [done|right]. exists (o / BSIZE). split; [by apply pos_block|done].
Qed.

Lemma file_ok_same v v' q : (∀ b, v'.(vb) b = v.(vb) b) → file_ok v k q → file_ok v' k q.
Proof. intros Hv Hok. apply (same_file v); [done|by intros b _|]. intros y _ _. unfold is_free_block. by rewrite Hv. Qed.

Hypothesis Hly : sb_layout k.

(** Writing an inode block leaves files and the bitmap as they are. *)
Lemma inode_write v v' q i d : file_ok v k q → fs_ok v k → 0 ≤ i < k.(sb_ninodes) →
  (∀ b, v'.(vb) b = fupd v.(vb) (IBLOCK i k) d b) →
  file_ok v' k q ∧ fs_ok v' k ∧ touches k v v' (λ b, b = IBLOCK i k) ∧ (∀ b, fblock v' q b ↔ fblock v q b) ∧ unchanged v v' q.
Proof.
  intros Hok Hfs Hi Hv.
  assert (Hfree : ∀ y, 0 ≤ y < k.(sb_size) → is_free_block v' k y ↔ is_free_block v k y).
  { intros y Hy. unfold is_free_block. rewrite Hv, fupd_ne; [done|]. intros E. by apply (sl_disjoint _ Hly i y). }
  destruct (same_file v v' q Hok) as (W1 & W2 & W3).
  { intros b Hb. destruct (fo_data _ _ _ Hok b Hb) as [Hd _]. rewrite Hv. apply fupd_ne. by apply (db_inode _ _ Hd). }
  { intros y _ Hy. by rewrite Hfree. }
  split; [done|]. split; [intros y Hy; rewrite Hfree by done; by apply Hfs|]. split; [|done].
  split; [|intros y Hy; by rewrite Hfree]. intros b. rewrite Hv. unfold fupd. case_decide; [by do 3 right|by left].
Qed.

(** The file with a larger size. *)
Lemma file_ok_size v q sz : file_ok v k q → q.(i_size) ≤ sz ≤ MAXFILE * BSIZE →
  (∀ bn, 0 ≤ bn → q.(i_size) ≤ bn * BSIZE < sz → faddr v q bn ≠ 0) → file_ok v k (set_i_size (λ _, sz) q).
Proof.
  intros [O1 O2 O3 O4 O5 O6 O7 O8] Hsz Hc. split; try done; cbn.
  - destruct O3 as [D1 D2 D3 D4 D5 D6 D7]. split; try done. cbn. change (MAXFILE * BSIZE) with 274432 in *. lia.
  - lia.
  - intros bn Hb Hs. change (faddr v q bn ≠ 0). destruct (decide (bn * BSIZE < q.(i_size))); [by apply O8|]. apply Hc; lia.
Qed.

(** ** A write *)

(** Another inode of the same block. *)
Lemma dinode_at_put_ne off di d off' : dinode_ok di → (off + 64 ≤ length d)%nat →
  (off + 64 ≤ off' ∨ off' + 64 ≤ off)%nat → dinode_at (put_dinode off di d) off' = dinode_at d off'.
Proof.
  intros Hdi Hd Ho. pose proof (length_enc_dinode _ Hdi) as Hl.
  assert (Hg : ∀ x n, (x + n ≤ 64)%nat → get_le (put_dinode off di d) (off' + x) n = get_le d (off' + x) n).
  { intros x n Hx. unfold get_le, put_dinode. by rewrite take_drop_splice_disj by (rewrite ?Hl; lia). }
  unfold dinode_at, get_short. rewrite (Hg 2%nat), (Hg 4%nat), (Hg 6%nat), (Hg 8%nat) by lia.
  pose proof (Hg 0%nat 2%nat ltac:(lia)) as H0. rewrite Nat.add_0_r in H0. rewrite H0. f_equal.
  apply list_fmap_ext. intros j x [-> Hx]%lookup_seq. rewrite <- Nat.add_assoc. apply Hg. lia.
Qed.

(** The file [q] after the bytes [bs] were written at [off], and its inode to
    its block. *)
Record vwritten (v : view) (q : inode) (off : Z) (bs : list Z) (v' : view) (q' : inode) : Prop := {
  vw_q : ∃ ad, q' = set_i_size (λ _, Z.max q.(i_size) (off + Z.of_nat (length bs))) (set_i_addrs (λ _, ad) q);
  vw_ok : file_ok v' k q';
  vw_fs : fs_ok v' k;
  vw_touch : touches k v v' (λ b, fblock v q b ∨ b = IBLOCK q.(i_inum) k);
  vw_fblock b : fblock v' q' b → fblock v q b ∨ data_block k b ∧ is_free_block v k b;
  vw_disk i : 0 ≤ i < k.(sb_ninodes) → dinode_at (v'.(vb) (IBLOCK i k)) (ioff i) =
    if decide (i = q.(i_inum)) then dinode_of q' else dinode_at (v.(vb) (IBLOCK i k)) (ioff i);
  vw_bytes i : (i < length bs)%nat → fbyte v' q' (off + Z.of_nat i) = bs !!! i;
  vw_rest o : 0 ≤ o < MAXFILE * BSIZE → ¬ in_range off (Z.of_nat (length bs)) o → fget v' q' o = fget v q o }.

Lemma vw_old v q off bs v' q' o : vwritten v q off bs v' q' → file_ok v k q → 0 ≤ o < q.(i_size) →
  ¬ in_range off (Z.of_nat (length bs)) o → fbyte v' q' o = fbyte v q o.
Proof.
  intros W Hok Ho Hr. pose proof (fo_size _ _ _ Hok) as Hs. destruct (vw_q _ _ _ _ _ _ W) as [ad Eq].
  assert (Hb : 0 ≤ o / BSIZE ∧ o / BSIZE * BSIZE ≤ o) by (unfold BSIZE; mlia).
  rewrite <- !fget_byte; [apply (vw_rest _ _ _ _ _ _ W); [lia|done]| |].
  - apply (fo_cover _ _ _ Hok); lia.
  - apply (fo_cover _ _ _ (vw_ok _ _ _ _ _ _ W)); [lia|]. rewrite Eq. cbn. lia.
Qed.

Lemma vw_fbytes v q off bs v' q' : vwritten v q off bs v' q' → fbytes v' q' off (length bs) = bs.
Proof.
  intros W. apply list_eq_same_length with (length bs); [done|apply length_fbytes|].
  intros j x y Hj. rewrite lookup_fbytes by done. intros [= <-] Hy.
  rewrite (vw_bytes _ _ _ _ _ _ W) by done. by apply list_lookup_total_correct.
Qed.

(** Two inodes share a block only at different offsets. *)
Lemma ioff_ne i j : sb_ok k → 0 ≤ i < 4294967296 → 0 ≤ j < 4294967296 → i ≠ j → IBLOCK i k = IBLOCK j k →
  (ioff i + 64 ≤ ioff j ∨ ioff j + 64 ≤ ioff i)%nat.
Proof.
  intros [_ _ Hs] Hi Hj Hne. unfold IBLOCK, ioff. change IPB with 16. rewrite !u32_small by mlia. mlia.
Qed.

(** The end of a write: the new size, and the inode written to its block. *)
Lemma write_inode v q off bs v1 q1 v' :
  sb_ok k → file_ok v k q → vgrown k v q v1 q1 → (∀ b, length (v1.(vb) b) = 1024%nat) →
  let cnt := Z.of_nat (length bs) in
  kept v q v1 q1 (λ o, ¬ in_range off cnt o) →
  (∀ i, (i < length bs)%nat → faddr v1 q1 ((off + Z.of_nat i) / BSIZE) ≠ 0 ∧ fbyte v1 q1 (off + Z.of_nat i) = bs !!! i) →
  0 ≤ off ≤ q.(i_size) → off + cnt ≤ MAXFILE * BSIZE →
  let q' := set_i_size (λ _, Z.max q.(i_size) (off + cnt)) q1 in
  (∀ b, v'.(vb) b = fupd v1.(vb) (IBLOCK q.(i_inum) k) (put_dinode (ioff q.(i_inum)) (dinode_of q') (v1.(vb) (IBLOCK q.(i_inum) k))) b) →
  dinode_ok (dinode_of q') ∧ vwritten v q off bs v' q' ∧ ∀ bn, faddr v' q' bn = faddr v1 q1 bn.
Proof.
  intros Hsb Hok [ [ad T4] T5 T6 T7 T7' T10] Hlen cnt K1 B1 Hoff Hmax q' Hv.
  pose proof (fo_size _ _ _ Hok) as Hfsz. pose proof (fo_inum _ _ _ Hok) as Hin. pose proof (sl_ninodes _ Hly) as Hni.
  change (MAXFILE * BSIZE) with 274432 in *.
  assert (Hsz : q1.(i_size) = q.(i_size)) by (by rewrite T4).
  assert (Hok2 : file_ok v1 k q').
  { unfold q'. rewrite <- Hsz. apply file_ok_size; [done|change (MAXFILE * BSIZE) with 274432; lia|]. rewrite Hsz. intros bn Hb Hr.
    destruct (B1 (Z.to_nat (bn * BSIZE - off))) as [Ha _]; [unfold cnt in *; lia|].
    replace ((off + Z.of_nat (Z.to_nat (bn * BSIZE - off))) / BSIZE) with bn in Ha; [done|]. unfold BSIZE in *. mlia. }
  split; [apply Hok2|]. destruct (inode_write v1 v' q' (i_inum q) _ Hok2 T6 Hin Hv) as (W1 & W2 & W3 & W4 & W5).
  split; [|exact (un_addr _ _ _ W5)]. split; try done.
  - exists ad. unfold q'. by rewrite T4.
  - eapply touches_trans; [eapply touches_mono, T7; by left|eapply touches_mono, W3; by right].
  - intros b Hb%W4. by apply T7'.
  - intros i Hi. rewrite Hv.
    assert (Hold : v1.(vb) (IBLOCK i k) = v.(vb) (IBLOCK i k)).
    { destruct (to_vb _ _ _ _ T7 (IBLOCK i k)) as [|[(y & Hy & E)|[ [Hd _]|Hb]]]; [done| | |].
      - by destruct (sl_disjoint _ Hly i y).
      - by destruct (db_inode _ _ Hd i).
      - destruct (fo_data _ _ _ Hok _ Hb) as [Hd _]. by destruct (db_inode _ _ Hd i). }
    pose proof (ioff_fits (i_inum q)) as Hio. case_decide as Ei; [subst i; rewrite fupd_eq; apply dinode_at_put; [apply Hok2|by rewrite Hlen]|].
    unfold fupd. case_decide as Eb; [|by rewrite Hold].
    rewrite <- Eb, dinode_at_put_ne; [by rewrite Hold|apply Hok2|by rewrite Hlen|]. apply ioff_ne; [done|lia|lia|congruence|congruence].
  - intros i Hi. destruct (B1 i Hi) as [Ha <-]. change (fbyte v1 q1) with (fbyte v1 q'). change (faddr v1 q1) with (faddr v1 q') in Ha.
    rewrite <- !(fget_byte _ q') by (by rewrite ?(un_addr _ _ _ W5)). apply (un_get _ _ _ W5). change (MAXFILE * BSIZE) with 274432. unfold cnt in *. lia.
  - intros o Ho Hr. destruct (K1 o Ho) as [_ <-]; [|done]. by apply (un_get _ _ _ W5).
Qed.

(** ** All files *)

(** The files of the table [Q] are well formed and share no block. *)
Record files_ok (v : view) (Q : list inode) : Prop := {
  fi_fs : fs_ok v k;
  fi_ok i q : Q !! i = Some q → file_ok v k q;
  fi_disj i j q q' b : Q !! i = Some q → Q !! j = Some q' → i ≠ j → fblock v q b → ¬ fblock v q' b }.

(** A file whose blocks another file's write does not touch. *)
Lemma other_file v q off bs v' q' q2 :
  vwritten v q off bs v' q' → 0 ≤ q.(i_inum) < k.(sb_ninodes) → file_ok v k q2 →
  (∀ b, fblock v q2 b → ¬ fblock v q b) →
  file_ok v' k q2 ∧ (∀ b, fblock v' q2 b ↔ fblock v q2 b) ∧ unchanged v v' q2.
Proof.
  intros W Hin Hok Hdis. apply same_file; [done| |intros y _; apply W].
  intros b Hb. destruct (fo_data _ _ _ Hok b Hb) as [Hd Hf]. apply (touches_used _ _ _ _ _ (vw_touch _ _ _ _ _ _ W)); [done|done|].
  intros [H|H]; [by eapply Hdis|]. by apply (db_inode _ _ Hd (i_inum q)).
Qed.

Lemma written_files v q off bs v' q' Q i :
  vwritten v q off bs v' q' → files_ok v Q → Q !! i = Some q →
  files_ok v' (<[i := q']> Q) ∧ ∀ j q2, j ≠ i → Q !! j = Some q2 → unchanged v v' q2.
Proof.
  intros W [F1 F2 F3] Hi. pose proof (F2 i q Hi) as Hok.
  assert (Hoth : ∀ j q2, j ≠ i → Q !! j = Some q2 → file_ok v' k q2 ∧ (∀ b, fblock v' q2 b ↔ fblock v q2 b) ∧ unchanged v v' q2).
  { intros j q2 Hj Hj2. eapply other_file; [exact W|apply Hok|by eapply F2|]. intros b. by eapply F3. }
  assert (Hsep : ∀ j q2 b, j ≠ i → Q !! j = Some q2 → fblock v' q2 b → ¬ fblock v' q' b).
  { intros j q2 b Hj Hj2 Hb Hb'. destruct (Hoth j q2 Hj Hj2) as (_ & Hfb & _). apply Hfb in Hb.
    destruct (vw_fblock _ _ _ _ _ _ W b Hb') as [H|[_ H]]; [by eapply (F3 j i)|].
    by destruct (fo_data _ _ _ (F2 j q2 Hj2) b Hb). }
  split; [split|intros j q2 Hj Hj2; by apply (Hoth j q2 Hj Hj2)].
  - apply W.
  - intros j q2. rewrite list_lookup_insert_Some. intros [(-> & <- & _)|[Hj Hj2]]; [apply W|by apply (Hoth j q2)].
  - intros j1 j2 q1 q2 b. rewrite !list_lookup_insert_Some.
    intros [(-> & <- & _)|[Hj1 Hq1]] [(-> & <- & _)|[Hj2 Hq2]] Hne Hb; try done.
    + intros Hb'. by eapply (Hsep j2 q2 b).
    + by eapply (Hsep j1 q1 b).
    + destruct (Hoth j1 q1) as (_ & Hfb1 & _); [done|done|]. destruct (Hoth j2 q2) as (_ & Hfb2 & _); [done|done|].
      rewrite Hfb2. apply Hfb1 in Hb. by eapply (F3 j1 j2).
Qed.
End bytes.
