(* ===== verification/FsTable.v ===== *)
(** The inode table: iget, idup, ilock, iunlock and iput of fs.c as operations
    on the number of references held to each inode. *)

From S2P Require Import Prelude Cmem KString Kstate Spinlock Sleep Sleeplock Printf Bio BioSpec Log LogSpec BioProps LogCrash LogSafe Tx Fs FsSpec FsView.
Local Open Scope Z_scope.

(** ** Sums over the table *)

Definition tsum (w : inode → Z) (l : list inode) : Z := foldr (λ q n, w q + n) 0 l.

Lemma tsum_alter w g l i : (i < length l)%nat → tsum w (alter g i l) = tsum w l - w (l !!! i) + w (g (l !!! i)).
Proof.
  revert i. induction l as [|q l IH]; intros [|i] Hi; cbn [length] in Hi; [lia..|cbn; lia|].
  change (w q + tsum w (alter g i l) = w q + tsum w l - w (l !!! i) + w (g (l !!! i))). rewrite IH by lia. lia.
Qed.

Lemma tsum_zero w l : (∀ j, (j < length l)%nat → w (l !!! j) = 0) → tsum w l = 0.
Proof.
  induction l as [|q l IH]; intros Hz; [done|]. change (w q + tsum w l = 0).
  rewrite IH by (intros j Hj; apply (Hz (S j)); cbn; lia). rewrite Z.add_0_r. exact (Hz 0%nat ltac:(cbn; lia)).
Qed.

Lemma tsum_one w l i : (i < length l)%nat → (∀ j, (j < length l)%nat → j ≠ i → w (l !!! j) = 0) → tsum w l = w (l !!! i).
Proof.
  revert i. induction l as [|q l IH]; intros i Hi Hz; [cbn in Hi; lia|]. cbn [length] in *.
  change (w q + tsum w l = w ((q :: l) !!! i)). destruct i as [|i].
  - rewrite tsum_zero; [cbn; lia|]. intros j Hj. apply (Hz (S j)); lia.
  - rewrite (IH i) by (try lia; intros j Hj Hne; apply (Hz (S j)); lia).
    change (w q + w (l !!! i) = w (l !!! i)). pose proof (Hz 0%nat ltac:(lia) ltac:(done)) as Hq. change (w q = 0) in Hq. lia.
Qed.

(** References to inode [j], and entries not in use. *)
Definition refs_to (j : Z) (q : inode) : Z := if (0 <? q.(i_ref)) && (q.(i_inum) =? j) then q.(i_ref) else 0.
Definition nrefs (s : kstate) (j : Z) : Z := tsum (refs_to j) s.(itable).
Definition nfree (s : kstate) : Z := tsum (λ q, if q.(i_ref) =? 0 then 1 else 0) s.(itable).

Lemma nrefs_pos s j : 0 ≤ nrefs s j.
Proof.
  unfold nrefs. induction s.(itable) as [|q l IH]; [done|]. change (0 ≤ refs_to j q + tsum (refs_to j) l).
  unfold refs_to at 1. destruct (Z.ltb_spec 0 (i_ref q)), (i_inum q =? j); cbn [andb]; lia.
Qed.

(** Entry [ip] stands for inode [j]. *)
Definition href (s : kstate) (ip : nat) (j : Z) : Prop :=
  (ip < NINODE)%nat ∧ 0 < (get_inode ip s).(i_ref) ∧ (get_inode ip s).(i_inum) = j.

(** ** The table

    Every inode has at most one entry in use; an entry that was read agrees
    with the disk; exactly the entries in [L] are locked, by the process [pid]. *)
Record itab_ok (k : superblock) (v : view) (pid : Z) (L : gset nat) (s : kstate) : Prop := {
  it_len : length s.(itable) = NINODE;
  it_pos i : (i < NINODE)%nat → 0 ≤ (get_inode i s).(i_ref);
  it_used i j : href s i j → (get_inode i s).(i_dev) = ROOTDEV ∧ 0 ≤ j < k.(sb_ninodes);
  it_inj i i' j : href s i j → href s i' j → i = i';
  it_sync i j : href s i j → (get_inode i s).(i_valid) ≠ 0 →
    dinode_of (get_inode i s) = disk_inode k v j ∧ (disk_inode k v j).(di_type) ≠ 0;
  it_lock i : (i < NINODE)%nat → (get_inode i s).(i_lock) = if decide (i ∈ L) then mk_sleeplock 1 pid else free_lock;
  it_held i : i ∈ L → (∃ j, href s i j) ∧ (get_inode i s).(i_valid) ≠ 0 }.

Section pure.
Context (k : superblock) (v : view) (pid : Z).

Lemma get_upd_inode s ip g i : (ip < length s.(itable))%nat →
  get_inode i (upd_inode ip g s) = if decide (i = ip) then g (get_inode ip s) else get_inode i s.
Proof.
  intros Hip. unfold get_inode. cbn. rewrite lookup_total_alter_list by done. repeat case_decide; congruence.
Qed.

(** The table is not in memory that programs see. *)
Lemma itab_pmem L s g : itab_ok k v pid L s → itab_ok k v pid L (set_pmem g s).
Proof. by intros []. Qed.

Lemma itab_klog L s g : itab_ok k v pid L s → itab_ok k v pid L (set_klog g s).
Proof. by intros []. Qed.
(** Nor do other inodes on the disk matter. *)
Lemma itab_view L s v' : itab_ok k v pid L s → (∀ i j, href s i j → disk_inode k v' j = disk_inode k v j) → itab_ok k v' pid L s.
Proof. intros [T1 T2 T3 T4 T5 T6 T7] Hd. split; try done. intros i j Hh Hv. rewrite (Hd i j Hh). by apply T5. Qed.

(** A change of one entry that keeps the table well formed. *)
Record entry_ok (L' : gset nat) (s : kstate) (ip : nat) (q : inode) : Prop := {
  en_pos : 0 ≤ q.(i_ref);
  en_used : 0 < q.(i_ref) → q.(i_dev) = ROOTDEV ∧ 0 ≤ q.(i_inum) < k.(sb_ninodes);
  en_inj i : 0 < q.(i_ref) → href s i q.(i_inum) → i = ip;
  en_sync : 0 < q.(i_ref) → q.(i_valid) ≠ 0 →
    dinode_of q = disk_inode k v q.(i_inum) ∧ (disk_inode k v q.(i_inum)).(di_type) ≠ 0;
  en_lock : q.(i_lock) = if decide (ip ∈ L') then mk_sleeplock 1 pid else free_lock;
  en_held : ip ∈ L' → 0 < q.(i_ref) ∧ q.(i_valid) ≠ 0 }.

Lemma itab_upd L L' s ip g : itab_ok k v pid L s → (ip < NINODE)%nat → (∀ i, i ≠ ip → i ∈ L' ↔ i ∈ L) →
  entry_ok L' s ip (g (get_inode ip s)) → itab_ok k v pid L' (upd_inode ip g s).
Proof.
  intros [T1 T2 T3 T4 T5 T6 T7] Hip HL [E1 E2 E3 E4 E5 E6]. set (q := g (get_inode ip s)) in *.
  assert (Hg : ∀ i, get_inode i (upd_inode ip g s) = if decide (i = ip) then q else get_inode i s)
    by (intros i; apply get_upd_inode; lia).
  assert (Hh : ∀ i j, href (upd_inode ip g s) i j ↔ if decide (i = ip) then 0 < q.(i_ref) ∧ q.(i_inum) = j else href s i j).
  { intros i j. unfold href at 1. rewrite Hg. destruct (decide (i = ip)) as [->|E]; [|done]. split; [by intros (_ & ? & ?)|by intros [? ?]]. }
  split.
  - cbn. by rewrite length_alter.
  - intros i Hi. rewrite Hg. destruct (decide (i = ip)) as [->|E]; [done|by apply T2].
  - intros i j. rewrite Hh, Hg. destruct (decide (i = ip)) as [->|E]; [|by apply T3]. intros [Hr <-]. by apply E2.
  - intros i i' j. rewrite !Hh. destruct (decide (i = ip)) as [->|E], (decide (i' = ip)) as [->|E'].
    + done.
    + intros [Hr <-] H'. symmetry. by apply E3.
    + intros H' [Hr <-]. by apply E3.
    + apply T4.
  - intros i j. rewrite Hh, Hg. destruct (decide (i = ip)) as [->|E]; [|by apply T5]. intros [Hr <-]. by apply E4.
  - intros i Hi. rewrite Hg. destruct (decide (i = ip)) as [->|E]; [done|]. rewrite T6 by done.
    by rewrite (decide_ext (i ∈ L) (i ∈ L')) by (by rewrite HL).
  - intros i Hi. rewrite Hg. destruct (decide (i = ip)) as [->|E].
    + destruct (E6 Hi). split; [|done]. exists q.(i_inum). rewrite Hh. by rewrite decide_True.
    + rewrite HL in Hi by done. destruct (T7 i Hi) as [[j Hj] Hv]. split; [|done]. exists j. rewrite Hh. by rewrite decide_False.
Qed.

Lemma refs_to_href s j i : (i < NINODE)%nat → ¬ href s i j → refs_to j (s.(itable) !!! i) = 0.
Proof.
  intros Hi Hn. unfold refs_to. change (s.(itable) !!! i) with (get_inode i s).
  destruct (Z.ltb_spec 0 (i_ref (get_inode i s))), (Z.eqb_spec (i_inum (get_inode i s)) j); try done. by destruct Hn.
Qed.

Lemma nrefs_href s L ip j : itab_ok k v pid L s → href s ip j → nrefs s j = (get_inode ip s).(i_ref).
Proof.
  intros HT Hh. pose proof Hh as (Hip & Hr & Hj). unfold nrefs. rewrite (tsum_one _ _ ip).
  - unfold refs_to. change (s.(itable) !!! ip) with (get_inode ip s). by rewrite (proj2 (Z.ltb_lt _ _)), (proj2 (Z.eqb_eq _ _)) by done.
  - by rewrite (it_len _ _ _ _ _ HT).
  - rewrite (it_len _ _ _ _ _ HT). intros i Hi Hne. apply refs_to_href; [done|]. intros H. by apply Hne, (it_inj _ _ _ _ _ HT _ _ j).
Qed.

Lemma nrefs_none s L j : itab_ok k v pid L s → (∀ i, ¬ href s i j) → nrefs s j = 0.
Proof.
  intros HT Hn. apply tsum_zero. rewrite (it_len _ _ _ _ _ HT). intros i Hi. by apply refs_to_href.
Qed.

Lemma nfree_slot s L : itab_ok k v pid L s → (∀ i, (i < NINODE)%nat → (get_inode i s).(i_ref) ≠ 0) → nfree s = 0.
Proof.
  intros HT Hn. apply tsum_zero. rewrite (it_len _ _ _ _ _ HT). intros i Hi.
  change (s.(itable) !!! i) with (get_inode i s). cbv beta. by rewrite (proj2 (Z.eqb_neq _ _) (Hn i Hi)).
Qed.

Lemma nrefs_upd s L ip g j : itab_ok k v pid L s → (ip < NINODE)%nat →
  nrefs (upd_inode ip g s) j = nrefs s j - refs_to j (get_inode ip s) + refs_to j (g (get_inode ip s)).
Proof. intros HT Hip. apply tsum_alter. by rewrite (it_len _ _ _ _ _ HT). Qed.

Lemma nfree_upd s L ip g : itab_ok k v pid L s → (ip < NINODE)%nat →
  nfree (upd_inode ip g s) = nfree s - (if (get_inode ip s).(i_ref) =? 0 then 1 else 0) +
    (if (g (get_inode ip s)).(i_ref) =? 0 then 1 else 0).
Proof. intros HT Hip. apply (tsum_alter (λ q, if q.(i_ref) =? 0 then 1 else 0)). by rewrite (it_len _ _ _ _ _ HT). Qed.
End pure.

(** [d] more references to inode [j], and no other change of references. *)
Record ref_moved (s s' : kstate) (j d : Z) : Prop := {
  rm_refs j' : nrefs s' j' = nrefs s j' + (if decide (j' = j) then d else 0);
  rm_free : nfree s' + bit (nrefs s' j) = nfree s + bit (nrefs s j) }.

Lemma ref_moved_0 s s1 s' j d : ref_moved s s1 j 0 → ref_moved s1 s' j d → ref_moved s s' j d.
Proof.
  intros [R1 R2] [S1 S2].
  assert (H : ∀ j', nrefs s1 j' = nrefs s j') by (intros j'; rewrite R1; case_decide; lia).
  split; [intros j'; by rewrite S1, H|]. rewrite H in R2, S2. lia.
Qed.

(** Entries in use keep what they hold. *)
Definition same_entries (s s' : kstate) : Prop :=
  ∀ i j, href s i j → ∃ r, 0 < r ∧ get_inode i s' = set_i_ref (λ _, r) (get_inode i s).

(** The state of an entry given to inode [inum]. *)
Definition taken (dev inum : Z) (q : inode) : inode :=
  set_i_valid (λ _, 0) (set_i_ref (λ _, 1) (set_i_inum (λ _, inum) (set_i_dev (λ _, dev) q))).

Section moves.
Context (k : superblock) (v : view) (pid : Z) (L : gset nat) (s : kstate).
Hypothesis HT : itab_ok k v pid L s.

Lemma refs_to_eq q j : 0 ≤ q.(i_ref) → refs_to j q = if decide (q.(i_inum) = j) then q.(i_ref) else 0.
Proof.
  intros Hr. unfold refs_to. destruct (Z.ltb_spec 0 (i_ref q)), (Z.eqb_spec (i_inum q) j); cbn [andb]; case_decide; done || lia.
Qed.

(** A change of the count of an entry in use. *)
Lemma ref_moved_upd ip g j d : href s ip j → let q := get_inode ip s in
  (g q).(i_ref) = q.(i_ref) + d → 0 ≤ q.(i_ref) + d → (g q).(i_inum) = q.(i_inum) → ref_moved s (upd_inode ip g s) j d.
Proof.
  intros Hh q Hr Hpos Hi. pose proof Hh as (Hip & Hp & Hj). fold q in Hp, Hj.
  assert (Hn : nrefs s j = i_ref q) by (by eapply nrefs_href).
  assert (Hrefs : ∀ j', nrefs (upd_inode ip g s) j' = nrefs s j' + (if decide (j' = j) then d else 0)).
  { intros j'. rewrite (nrefs_upd k v pid s L ip _ j' HT Hip). fold q. rewrite !refs_to_eq by lia.
    rewrite Hi, Hj, Hr. destruct (decide (j = j')), (decide (j' = j)); congruence || lia. }
  split; [done|]. rewrite Hrefs, Hn, decide_True by done. rewrite (nfree_upd k v pid s L ip _ HT Hip). fold q.
  rewrite Hr. unfold bit. destruct (Z.eqb_spec (i_ref q) 0), (Z.eqb_spec (i_ref q + d) 0); lia.
Qed.

Lemma ref_change ip j d : href s ip j → let r := (get_inode ip s).(i_ref) + d in 0 ≤ r → (ip ∈ L → 0 < r) →
  let s' := upd_inode ip (set_i_ref (λ r, r + d)) s in itab_ok k v pid L s' ∧ ref_moved s s' j d.
Proof.
  intros Hh r Hr HL s'. split; [|by apply ref_moved_upd].
  pose proof Hh as (Hip & Hp & Hj). destruct (it_used _ _ _ _ _ HT _ _ Hh) as [Hd Hin].
  set (q := get_inode ip s) in *. set (q' := set_i_ref (λ r, r + d) q). assert (Hq' : q'.(i_ref) = r) by done.
  apply (itab_upd k v pid L); try done. fold q. fold q'. split; rewrite ?Hq'; change (i_inum q') with (i_inum q); try done.
  - by rewrite Hj.
  - intros i _. rewrite Hj. intros Hi. by eapply (it_inj _ _ _ _ _ HT).
  - intros _. rewrite Hj. exact (it_sync _ _ _ _ _ HT _ _ Hh).
  - exact (it_lock _ _ _ _ _ HT ip Hip).
  - intros Hi. split; [by apply HL|]. by apply (it_held _ _ _ _ _ HT).
Qed.

(** An entry not in use is given to inode [j]. *)
Lemma taken_ok ip j : (ip < NINODE)%nat → (get_inode ip s).(i_ref) = 0 → (∀ i, ¬ href s i j) → 0 ≤ j < k.(sb_ninodes) →
  let s' := upd_inode ip (taken ROOTDEV j) s in itab_ok k v pid L s' ∧ ref_moved s s' j 1.
Proof.
  intros Hip Hr Hno Hj s'. set (q := get_inode ip s) in *.
  assert (Hn : nrefs s j = 0) by (by eapply nrefs_none).
  assert (Hrefs : ∀ j', nrefs s' j' = nrefs s j' + (if decide (j' = j) then 1 else 0)).
  { intros j'. unfold s'. rewrite (nrefs_upd k v pid s L ip _ j' HT Hip). fold q. rewrite !refs_to_eq by (cbn; lia).
    change (i_inum (taken ROOTDEV j q)) with j. change (i_ref (taken ROOTDEV j q)) with 1. rewrite Hr.
    destruct (decide (j = j')), (decide (j' = j)); try congruence; case_decide; lia. }
  split.
  - apply (itab_upd k v pid L); try done. fold q. split; try done.
    + intros i _ Hi. by destruct (Hno i).
    + exact (it_lock _ _ _ _ _ HT ip Hip).
    + intros Hi. destruct (it_held _ _ _ _ _ HT _ Hi) as [(j' & _ & Hp & _) _]. fold q in Hp. lia.
  - split; [done|]. rewrite Hrefs, Hn, decide_True by done. unfold s'. rewrite (nfree_upd k v pid s L ip _ HT Hip). fold q.
    change (i_ref (taken ROOTDEV j q)) with 1. rewrite Hr. change (bit (0 + 1)) with 1. change (bit 0) with 0.
    cbn [Z.eqb]. lia.
Qed.

(** A change that is not one of the count. *)
Lemma ref_kept ip g j : (ip < NINODE)%nat → let q := get_inode ip s in (g q).(i_ref) = q.(i_ref) → (g q).(i_inum) = q.(i_inum) →
  ref_moved s (upd_inode ip g s) j 0.
Proof.
  intros Hip q Hr Hi. assert (Hn : ∀ j, nrefs (upd_inode ip g s) j = nrefs s j).
  { intros j'. rewrite (nrefs_upd k v pid s L ip _ j' HT Hip). fold q. unfold refs_to. rewrite Hr, Hi. lia. }
  split; [intros j'; rewrite Hn; case_decide; lia|]. rewrite Hn, (nfree_upd k v pid s L ip _ HT Hip). fold q. rewrite Hr. lia.
Qed.
End moves.

(** ** iget, idup *)

(** What the scan of iget finds: the entry of the inode, else an entry that is
    not in use, if there is one. *)
Lemma iget_scan_spec l i0 e dev inum :
  match iget_scan l i0 e dev inum with
  | (Some i, _) => ∃ n q, i = (i0 + n)%nat ∧ l !! n = Some q ∧ 0 < q.(i_ref) ∧ q.(i_dev) = dev ∧ q.(i_inum) = inum
  | (None, e') =>
      (∀ n q, l !! n = Some q → 0 < q.(i_ref) → q.(i_dev) = dev → q.(i_inum) ≠ inum) ∧
      match e' with
      | Some i => e = Some i ∨ ∃ n q, i = (i0 + n)%nat ∧ l !! n = Some q ∧ q.(i_ref) = 0
      | None => e = None ∧ ∀ n q, l !! n = Some q → q.(i_ref) ≠ 0
      end
  end.
Proof.
  revert i0 e. induction l as [|q l IH]; intros i0 e; cbn [iget_scan].
  { split; [done|]. destruct e; [by left|done]. }
  destruct ((0 <? i_ref q) && (i_dev q =? dev) && (i_inum q =? inum)) eqn:Em.
  { bool_hyps. exists 0%nat, q. rewrite Nat.add_0_r. split_and!; done. }
  assert (Hq : 0 < q.(i_ref) → q.(i_dev) = dev → q.(i_inum) ≠ inum).
  { intros H1 H2 H3. apply Z.ltb_lt in H1. apply Z.eqb_eq in H2, H3. by rewrite H1, H2, H3 in Em. }
  set (e1 := match e with None => _ | Some _ => e end). specialize (IH (S i0) e1).
  destruct (iget_scan l (S i0) e1 dev inum) as [[i|] e'].
  { destruct IH as (n & q' & -> & H). exists (S n), q'. split; [lia|done]. }
  destruct IH as [H1 H2]. split; [by intros [|n] q' [=]; subst; [|eapply H1]|].
  destruct e' as [i|].
  - destruct H2 as [H2|(n & q' & -> & H2)]; [|right; exists (S n), q'; split; [lia|done]].
    unfold e1 in H2. destruct e; [by left|]. destruct (Z.eqb_spec (i_ref q) 0) as [E|E]; [|done]. injection H2 as <-.
    right. exists 0%nat, q. split; [lia|done].
  - destruct H2 as [H2 H3]. unfold e1 in H2. destruct e; [done|]. destruct (Z.eqb_spec (i_ref q) 0) as [E|E]; [done|].
    split; [done|]. by intros [|n] q' [=]; subst; [|eapply H3].
Qed.

Section ops.
Context {Fl : Fuel} {Dv : Device} `{Bs : BlockDevSpec}.
Context (k : superblock) (X : gset Z) (p : nat).

Lemma itable_acquire s : quiet p s → acquire LkItable s = Done () (acq LkItable s).
Proof. intros Hq. apply acquire_free; [apply (quiet_cpu_ok p s Hq)|exact (quiet_lock p LkItable s Hq I)]. Qed.
Lemma itable_release s ip g : quiet p s → release LkItable (upd_inode ip g (acq LkItable s)) = Done () (upd_inode ip g s).
Proof.
  intros Hq. change (upd_inode ip g (acq LkItable s)) with (acq LkItable (upd_inode ip g s)).
  apply release_acq; [exact (quiet_cpu_ok p s Hq)|exact (quiet_lock p LkItable s Hq I)].
Qed.

Lemma upd_upd_inode s ip g h : upd_inode ip g (upd_inode ip h s) = upd_inode ip (g ∘ h) s.
Proof. unfold upd_inode, set_itable. cbn. by rewrite alter_alter_list. Qed.

Lemma iget_scanned s dev inum ip g : quiet p s →
  match iget_scan s.(itable) 0 None dev inum with
  | (Some i, _) => i = ip ∧ g = set_i_ref (λ r, r + 1)
  | (None, Some i) => i = ip ∧ g = taken dev inum
  | (None, None) => False
  end → iget dev inum s = Done ip (upd_inode ip g s).
Proof.
  intros Hq Hs. unfold iget. mstep (itable_acquire s Hq). mnext. change (itable (acq LkItable s)) with (itable s).
  destruct (iget_scan _ _ _ _ _) as [[i|] [i'|]]; try (by destruct Hs); destruct Hs as [-> ->].
  - mnext. by mstep (itable_release s ip (set_i_ref (λ r, r + 1)) Hq).
  - mnext. by mstep (itable_release s ip (set_i_ref (λ r, r + 1)) Hq).
  - do 4 mnext. rewrite !upd_upd_inode. change (_ ∘ _) with (taken dev inum). by mstep (itable_release s ip (taken dev inum) Hq).
Qed.

(** iget finds the entry of the inode or takes one that is not in use. *)
Lemma iget_entry L s v j : itab_ok k v (pid_of p s) L s → quiet p s → 0 < nrefs s j ∨ 0 < nfree s →
  ∃ ip g, iget ROOTDEV j s = Done ip (upd_inode ip g s) ∧ (ip < NINODE)%nat ∧
    (g = set_i_ref (λ r, r + 1) ∧ href s ip j ∨
     g = taken ROOTDEV j ∧ (get_inode ip s).(i_ref) = 0 ∧ ∀ i, ¬ href s i j).
Proof.
  intros HT Hq Hroom. pose proof (iget_scan_spec s.(itable) 0 None ROOTDEV j) as Hsc.
  assert (Hgi : ∀ n q, s.(itable) !! n = Some q → (n < NINODE)%nat ∧ get_inode n s = q).
  { intros n q Hnq. split; [|by apply list_lookup_total_correct]. rewrite <- (it_len _ _ _ _ _ HT). by eapply lookup_lt_Some. }
  assert (Hno : (∀ n q, s.(itable) !! n = Some q → 0 < q.(i_ref) → q.(i_dev) = ROOTDEV → q.(i_inum) ≠ j) → ∀ i, ¬ href s i j).
  { intros H i Hh. destruct (it_used _ _ _ _ _ HT i j Hh) as [Hd _]. destruct Hh as (Hi & Hr & Hj).
    destruct (lookup_lt_is_Some_2 s.(itable) i) as [q Hnq]; [by rewrite (it_len _ _ _ _ _ HT)|].
    destruct (Hgi i q Hnq) as [_ Eq]. rewrite Eq in *. by eapply H. }
  destruct (iget_scan s.(itable) 0 None ROOTDEV j) as [[ip|] e] eqn:Es.
  - destruct Hsc as (n & q & -> & Hnq & Hr & Hd & Hj). destruct (Hgi _ _ Hnq) as [Hn Eq].
    exists n, (set_i_ref (λ r, r + 1)). split; [apply iget_scanned; [done|]; by rewrite Es|]. split; [done|]. left.
    split; [done|]. split; [done|]. by rewrite Eq.
  - destruct Hsc as [H1 H2]. destruct e as [ip|].
    + destruct H2 as [[=]|(n & q & -> & Hnq & Hr)]. destruct (Hgi _ _ Hnq) as [Hn Eq].
      exists n, (taken ROOTDEV j). split; [apply iget_scanned; [done|]; by rewrite Es|]. split; [done|]. right.
      split; [done|]. split; [by rewrite Eq|by apply Hno].
    + destruct H2 as [_ H2]. rewrite (nrefs_none k v _ s L j HT (Hno H1)) in Hroom.
      rewrite (nfree_slot k v _ s L HT) in Hroom; [lia|]. intros i Hi.
      destruct (lookup_lt_is_Some_2 s.(itable) i) as [q Hnq]; [by rewrite (it_len _ _ _ _ _ HT)|].
      destruct (Hgi i q Hnq) as [_ Eq]. rewrite Eq. by eapply H2.
Qed.

Lemma iget_done L s0 s v n m j :
  txc X p s0 s v n m → itab_ok k v (pid_of p s0) L s0 → 0 ≤ j < k.(sb_ninodes) → 0 < nrefs s0 j ∨ 0 < nfree s0 →
  ∃ ip g, let s0' := upd_inode ip g s0 in let s' := upd_inode ip g s in
    iget ROOTDEV j s = Done ip s' ∧ txc X p s0' s' v n m ∧ itab_ok k v (pid_of p s0) L s0' ∧
    href s0' ip j ∧ same_entries s0 s0' ∧ ref_moved s0 s0' j 1.
Proof.
  intros HX HT Hj Hroom. pose proof (tx_quiet _ _ _ _ _ _ (proj1 HX)) as Hq. pose proof (tx_view _ _ _ _ _ _ (proj1 HX)) as HA.
  assert (Eit : itable s = itable s0) by (destruct (av_state _ _ _ HA) as (bs & vk & d & w & ->); done).
  assert (HTs : itab_ok k v (pid_of p s) L s).
  { rewrite (av_pid p s0 s v HA). destruct (av_state _ _ _ HA) as (bs & vk & d & w & ->). by destruct HT. }
  assert (Hh : ∀ i j, href s i j ↔ href s0 i j) by (intros i j'; unfold href, get_inode; by rewrite Eit).
  destruct (iget_entry L s v j HTs (av_quiet p s0 s v HA Hq)) as (ip & g & E & Hip & Hor).
  { unfold nrefs, nfree in *. by rewrite Eit. }
  assert (Hil : (ip < length s0.(itable))%nat) by (by rewrite (it_len _ _ _ _ _ HT)).
  assert (Hg : itab_ok k v (pid_of p s0) L (upd_inode ip g s0) ∧ ref_moved s0 (upd_inode ip g s0) j 1).
  { destruct Hor as [[-> Hhr]|(-> & Hr & Hno)].
    - apply Hh in Hhr. pose proof Hhr as (_ & Hr & _). apply ref_change; try done; [lia|]. intros _. lia.
    - apply taken_ok; try done; [unfold get_inode in *; by rewrite <- Eit|]. intros i Hi. apply Hh in Hi. by apply (Hno i). }
  exists ip, g. cbv zeta. split; [exact E|]. split; [by apply txc_inode|]. split; [apply Hg|]. split; [|split; [|apply Hg]].
  - split; [done|]. rewrite get_upd_inode, decide_True by done.
    destruct Hor as [[-> Hhr]|(-> & _)]; [|done]. apply Hh in Hhr. destruct Hhr as (_ & H1 & H2). cbn. split; [lia|done].
  - intros i j' Hi. rewrite get_upd_inode by done. pose proof Hi as (_ & Hr & _). destruct (decide (i = ip)) as [->|Hne].
    + destruct Hor as [[-> Hhr]|(_ & Hr0 & _)]; [|unfold get_inode in *; rewrite Eit in Hr0; lia].
      exists ((get_inode ip s0).(i_ref) + 1). split; [lia|]. by destruct (get_inode ip s0).
    + exists (get_inode i s0).(i_ref). split; [done|]. by destruct (get_inode i s0).
Qed.

Lemma tx_itab L s0 s v n m : txc X p s0 s v n m → itab_ok k v (pid_of p s0) L s0 →
  quiet p s ∧ itable s = itable s0 ∧ (∀ ip, get_inode ip s = get_inode ip s0) ∧ pid_of p s = pid_of p s0.
Proof.
  intros HX HT. pose proof (tx_quiet _ _ _ _ _ _ (proj1 HX)) as Hq. pose proof (tx_view _ _ _ _ _ _ (proj1 HX)) as HA.
  split; [exact (av_quiet p s0 s v HA Hq)|]. rewrite (av_pid p s0 s v HA).
  destruct (av_state _ _ _ HA) as (bs & vk & d & w & ->). done.
Qed.

Lemma idup_done L s0 s v n m ip j : txc X p s0 s v n m → itab_ok k v (pid_of p s0) L s0 → href s0 ip j →
  let g := set_i_ref (λ r, r + 1) in let s0' := upd_inode ip g s0 in let s' := upd_inode ip g s in
  idup ip s = Done ip s' ∧ txc X p s0' s' v n m ∧ itab_ok k v (pid_of p s0) L s0' ∧ href s0' ip j ∧ ref_moved s0 s0' j 1.
Proof.
  intros HX HT Hh g s0' s'. destruct (tx_itab L s0 s v n m HX HT) as (Hq & _). pose proof Hh as (Hip & Hr & Hj).
  destruct (ref_change k v _ L s0 HT ip j 1 Hh) as [H1 H2]; [lia|intros; lia|].
  split; [|split; [by apply txc_inode|split; [done|split; [|done]]]].
  - unfold idup. mstep (itable_acquire s Hq). mnext. by mstep (itable_release s ip g Hq).
  - split; [done|]. unfold s0'. rewrite get_upd_inode, decide_True by (rewrite ?(it_len _ _ _ _ _ HT); done). cbn. split; [lia|done].
Qed.

(** ** ilock, iunlock, iput *)

Lemma iunlock_done L s0 s v n m ip j :
  txc X p s0 s v n m → itab_ok k v (pid_of p s0) L s0 → href s0 ip j → ip ∈ L →
  let g := set_i_lock (λ _, free_lock) in let s0' := upd_inode ip g s0 in let s' := upd_inode ip g s in
  iunlock (Some ip) s = Done () s' ∧ txc X p s0' s' v n m ∧ itab_ok k v (pid_of p s0) (L ∖ {[ip]}) s0' ∧
  href s0' ip j ∧ ref_moved s0 s0' j 0.
Proof.
  intros HX HT Hh HL g s0' s'. destruct (tx_itab L s0 s v n m HX HT) as (Hq & Eit & Hgi & Epid). pose proof Hh as (Hip & Hr & Hj).
  destruct (it_used _ _ _ _ _ HT _ _ Hh) as [Hd Hin]. set (q := get_inode ip s0) in *.
  assert (Hlk : q.(i_lock) = mk_sleeplock 1 (pid_of p s0)) by (unfold q; by rewrite (it_lock _ _ _ _ _ HT), decide_True).
  assert (Hok : slk_ok (SlInode ip) s) by (split; [done|by rewrite Eit, (it_len _ _ _ _ _ HT)]).
  split; [|split; [by apply txc_inode|split; [|split]]].
  - unfold iunlock. mstep (holdingsleep_quiet (SlInode ip) p s Hq Hok). fold (pid_of p s). cbn [sl_get]. rewrite Hgi, Epid. fold q.
    rewrite Hlk. cbn [sl_locked sl_pid]. rewrite Z.eqb_refl. cbn [Z.eqb negb andb]. mnext. rewrite Hgi. fold q.
    rewrite (proj2 (Z.ltb_ge _ _)) by lia. exact (releasesleep_quiet (SlInode ip) p s Hq Hok).
  - apply (itab_upd k v _ L); try done; [set_solver|]. fold q. split; change (i_ref (g q)) with (i_ref q); change (i_inum (g q)) with (i_inum q); try done.
    + lia.
    + by rewrite Hj.
    + intros i _. rewrite Hj. intros Hi. by eapply (it_inj _ _ _ _ _ HT).
    + intros _. rewrite Hj. exact (it_sync _ _ _ _ _ HT _ _ Hh).
    + rewrite decide_False by set_solver. done.
    + set_solver.
  - split; [done|]. unfold s0'. rewrite get_upd_inode, decide_True by (rewrite ?(it_len _ _ _ _ _ HT); done). done.
  - by apply (ref_kept k v (pid_of p s0) L).
Qed.

(** Dropping a reference to an inode that has links or other references. *)
Lemma iput_done L s0 s v n m ip j :
  txc X p s0 s v n m → itab_ok k v (pid_of p s0) L s0 → href s0 ip j → ip ∉ L →
  (disk_inode k v j).(di_nlink) ≠ 0 ∨ 1 < nrefs s0 j →
  let g := set_i_ref (λ r, r - 1) in let s0' := upd_inode ip g s0 in let s' := upd_inode ip g s in
  iput ip s = Done () s' ∧ txc X p s0' s' v n m ∧ itab_ok k v (pid_of p s0) L s0' ∧ ref_moved s0 s0' j (-1).
Proof.
  intros HX HT Hh HL Hlast g s0' s'. destruct (tx_itab L s0 s v n m HX HT) as (Hq & Eit & Hgi & Epid). pose proof Hh as (Hip & Hr & Hj).
  rewrite (nrefs_href k v _ s0 L ip j HT Hh) in Hlast.
  destruct (ref_change k v _ L s0 HT ip j (-1) Hh) as [H1 H2]; [lia|done|]. split; [|split; [by apply txc_inode|done]].
  unfold iput. mstep (itable_acquire s Hq). mnext. change (get_inode ip (acq LkItable s)) with (get_inode ip s). rewrite Hgi.
  assert (Hno : (i_ref (get_inode ip s0) =? 1) && negb (i_valid (get_inode ip s0) =? 0) && (i_nlink (get_inode ip s0) =? 0) = false).
  { destruct (Z.eqb_spec (i_ref (get_inode ip s0)) 1), (Z.eqb_spec (i_valid (get_inode ip s0)) 0) as [|Hv]; try done. cbn [negb andb].
    apply Z.eqb_neq. destruct (it_sync _ _ _ _ _ HT _ _ Hh Hv) as [Hs _].
    change (i_nlink (get_inode ip s0)) with (di_nlink (dinode_of (get_inode ip s0))). rewrite Hs. destruct Hlast; [done|lia]. }
  rewrite Hno. cbn [when]. do 2 mnext. exact (itable_release s ip g Hq).
Qed.

Lemma iunlockput_done L s0 s v n m ip j :
  txc X p s0 s v n m → itab_ok k v (pid_of p s0) L s0 → href s0 ip j → ip ∈ L →
  (disk_inode k v j).(di_nlink) ≠ 0 ∨ 1 < nrefs s0 j →
  ∃ g, let s0' := upd_inode ip g s0 in let s' := upd_inode ip g s in
    iunlockput ip s = Done () s' ∧ txc X p s0' s' v n m ∧ itab_ok k v (pid_of p s0) (L ∖ {[ip]}) s0' ∧ ref_moved s0 s0' j (-1) ∧
    ∀ i' j', href s0 i' j' → i' ≠ ip ∨ 1 < nrefs s0 j' → href s0' i' j'.
Proof.
  intros HX HT Hh HL Hlast. destruct (iunlock_done L s0 s v n m ip j HX HT Hh HL) as (E1 & HX1 & HT1 & Hh1 & HR1).
  set (s1 := upd_inode ip _ s) in *. set (t1 := upd_inode ip _ s0) in *.
  destruct (iput_done (L ∖ {[ip]}) t1 s1 v n m ip j HX1 HT1 Hh1) as (E2 & HX2 & HT2 & HR2); [set_solver| |].
  { rewrite (rm_refs _ _ _ _ HR1). rewrite decide_True by done. destruct Hlast; [by left|right; lia]. }
  exists (set_i_ref (λ r, r - 1) ∘ set_i_lock (λ _, free_lock)). cbv zeta. rewrite <- !upd_upd_inode. fold s1 t1.
  split; [unfold iunlockput; by mstep E1|]. split; [done|]. split; [done|]. split; [by eapply ref_moved_0|].
  intros i' j' Hi Hor. pose proof Hi as (Hi1 & Hi2 & Hi3). split; [done|]. pose proof (it_len _ _ _ _ _ HT) as Hlen.
  rewrite (get_upd_inode t1) by (unfold t1; cbn; rewrite length_alter, Hlen; apply Hh). unfold t1.
  rewrite !get_upd_inode by (rewrite Hlen; apply Hh). destruct (decide (i' = ip)) as [->|Hne]; [|done]. rewrite decide_True by done. cbn.
  split; [|done]. destruct Hor as [|Hor]; [done|]. rewrite (nrefs_href k v _ s0 L ip j' HT Hi) in Hor. lia.
Qed.

Hypothesis Hsb : sb_ok k.
Hypothesis Hly : sb_layout k.

(** Locking an inode, read from the disk when it has not been. *)
Lemma ilock_done L s0 s v n m ip j :
  txc X p s0 s v n m → 1 ≤ m → s0.(sb) = k → (∀ y, v.(vl) y = free_lock) →
  itab_ok k v (pid_of p s0) L s0 → href s0 ip j → ip ∉ L → (disk_inode k v j).(di_type) ≠ 0 →
  ∃ q s', let s0' := upd_inode ip (λ _, q) s0 in
    ilock (Some ip) s = Done () s' ∧ txc X p s0' s' v n m ∧ itab_ok k v (pid_of p s0) ({[ip]} ∪ L) s0' ∧
    get_inode ip s0' = q ∧ dinode_of q = disk_inode k v j ∧ q.(i_dev) = ROOTDEV ∧ href s0' ip j ∧ ref_moved s0 s0' j 0.
Proof.
  intros HX Hm Hk Hfl HT Hh HL Hty. destruct (tx_itab L s0 s v n m HX HT) as (Hq & Eit & Hgi & Epid).
  pose proof Hh as (Hip & Hr & Hj). destruct (it_used _ _ _ _ _ HT _ _ Hh) as [Hd Hin]. set (q0 := get_inode ip s0) in *.
  assert (Hlen : (ip < length s0.(itable))%nat) by (by rewrite (it_len _ _ _ _ _ HT)).
  assert (Hlk : q0.(i_lock) = free_lock) by (unfold q0; by rewrite (it_lock _ _ _ _ _ HT), decide_False).
  set (lkd := set_i_lock (λ _, mk_sleeplock 1 (pid_of p s0)) q0).
  assert (Hgo : ∃ q s', ilock (Some ip) s = Done () s' ∧ txc X p (upd_inode ip (λ _, q) s0) s' v n m ∧
    q.(i_lock) = mk_sleeplock 1 (pid_of p s0) ∧ q.(i_valid) ≠ 0 ∧ dinode_of q = disk_inode k v j ∧
    q.(i_dev) = q0.(i_dev) ∧ q.(i_inum) = q0.(i_inum) ∧ q.(i_ref) = q0.(i_ref)).
  { destruct (decide (q0.(i_valid) = 0)) as [Hv|Hv].
    - destruct HX as [HX Hnm]. pose proof (missing_pos X s0). pose proof (sl_ninodes _ Hly).
      destruct (ilock_loads p s0 s v _ _ ip k (disk_inode k v j) HX) as (s0' & s' & E & HX' & ->); fold q0; try done; [lia|lia|lia|by rewrite Hj|].
      eexists _, s'. split; [exact E|]. split; [split; [exact HX'|done]|]. by destruct (disk_inode k v j).
    - destruct (it_sync _ _ _ _ _ HT _ _ Hh Hv) as [Hs _]. exists lkd, (upd_inode ip (λ _, lkd) s).
      split; [|split; [by apply txc_inode|done]].
      unfold ilock. mnext. rewrite Hgi. fold q0. rewrite (proj2 (Z.ltb_ge _ _)) by lia.
      assert (Ea : acquiresleep (SlInode ip) s = Done () (upd_inode ip (λ _, lkd) s)).
      { rewrite (acquiresleep_free (SlInode ip) p s Hq); [|split; [done|by rewrite Eit]|by cbn [sl_get]; rewrite Hgi; fold q0; rewrite Hlk].
        fold (pid_of p s). rewrite Epid. unfold sl_set, upd_inode, set_itable. do 2 f_equal.
        apply alter_ext_total; [by rewrite Eit|]. change (s.(itable) !!! ip) with (get_inode ip s). by rewrite Hgi. }
      mstep Ea. mnext. rewrite get_upd_inode, decide_True by (rewrite ?Eit; done).
      change (i_valid lkd) with (i_valid q0). by rewrite (proj2 (Z.eqb_neq _ _) Hv). }
  destruct Hgo as (q & s' & E & HX' & Q1 & Q2 & Q3 & Q4 & Q5 & Q6). exists q, s'. cbv zeta. split; [done|]. split; [done|].
  assert (Hgq : get_inode ip (upd_inode ip (λ _, q) s0) = q) by (by rewrite get_upd_inode, decide_True).
  split; [|split; [done|split; [done|split; [congruence|split]]]].
  - apply (itab_upd k v _ L); try done; [set_solver|]. split; cbv beta; rewrite ?Q6, ?Q5, ?Hj, ?Q4; try done; [lia| |].
    + intros i _ Hi. by eapply (it_inj _ _ _ _ _ HT).
    + rewrite decide_True by set_solver. done.
  - split; [done|]. rewrite Hgq, Q5, Q6. done.
  - by apply (ref_kept k v (pid_of p s0) L).
Qed.
End ops.
