(* ===== verification/FsFile.v ===== *)
(** bmap and readi of fs.c inside a transaction, on the files of [FsView]. *)

From S2P Require Import Prelude Cmem KString Kstate Spinlock Sleep Sleeplock Kalloc Vm Printf Bio BioSpec Log LogSpec BioProps LogCrash LogSafe Tx Fs FsSpec FsView.
Local Open Scope Z_scope.

Section file.
Context {Fl : Fuel} {La : Layout} {Dv : Device} `{Bs : BlockDevSpec}.

Lemma get_addr_done X p s0 s v n m ip q i : txc X p s0 s v n m → get_inode ip s0 = q →
  get_addr ip i s = Done (q.(i_addrs) !!! i) s.
Proof. intros HT <-. unfold get_addr, gets. by rewrite (txc_get_inode _ _ _ _ _ _ _ ip HT). Qed.

Lemma gets_inode X p s0 s v n m ip q : txc X p s0 s v n m → get_inode ip s0 = q →
  gets (get_inode ip) s = Done q s.
Proof. intros HT <-. apply gets_eq. by eapply txc_get_inode. Qed.

(** ** bmap *)

(** A position that has a block: bmap finds it and changes nothing. *)
Lemma bmap_old k X p s0 s v n m ip q bn :
  txc X p s0 s v n m → 1 ≤ m → sb_ok k → (∀ y, v.(vl) y = free_lock) → get_inode ip s0 = q → file_ok v k q →
  0 ≤ bn < MAXFILE → faddr v q bn ≠ 0 →
  ∃ s', bmap ip bn s = Done (faddr v q bn) s' ∧ txc X p s0 s' v n m ∧ onward s v s' v.
Proof.
  intros HT Hm Hsb Hfl Hq Hok Hbn Ha. unfold bmap. change NDIRECT with 12. change (Z.to_nat 12) with 12%nat.
  change NINDIRECT with 256. change MAXFILE with 268 in Hbn. revert Ha. unfold faddr. destruct (Z.ltb_spec bn 12) as [Hd|Hd].
  - intros Ha. mstep (get_addr_done _ _ _ _ _ _ _ _ _ (Z.to_nat bn) HT Hq). rewrite (proj2 (Z.eqb_neq _ 0)) by done.
    exists s. split; [done|]. split; [done|apply onward_refl].
  - destruct (Z.eqb_spec (ind q) 0) as [|Hi]; [done|]. intros Ha. rewrite (proj2 (Z.ltb_lt _ _)) by lia.
    mstep (gets_inode _ _ _ _ _ _ _ _ _ HT Hq). mstep (get_addr_done _ _ _ _ _ _ _ _ _ 12%nat HT Hq).
    fold (ind q). rewrite (proj2 (Z.eqb_neq _ 0)) by done. mnext. rewrite (proj2 (Z.eqb_neq _ 0)) by done.
    rewrite (fo_dev _ _ _ Hok).
    destruct (txc_block X p s0 s v n m (ind q) HT Hm) as (i & s1 & E & Hdd & Hil & (s2 & E2 & HT2 & HO) & _).
    { apply (data_block_range k); [done|]. by apply (fo_ind_block v k q). } { apply Hfl. }
    mstep E. unfold buf_data. mnext. rewrite Hdd, (proj2 (Z.eqb_neq _ 0)) by done. mnext.
    exists s2. split; [by mstep E2|done].
Qed.

(** ** readi *)

(** Where readi puts the bytes: [R bs m] says that memory [m] has received
    [bs], and either_copyout delivers up to [n] bytes to it in every state with
    the processes and the free pages of [S]. *)
Definition sink (p : nat) (S : kstate) (user : bool) (dst : Z) (n : nat) (R : list Z → mem → Prop) : Prop :=
  ∀ s bs bs', quiet p s → s.(procs) = S.(procs) → s.(freelist) = S.(freelist) → R bs s.(pmem) → (length bs + length bs' ≤ n)%nat →
  ∃ m', either_copyout user (u64 (dst + Z.of_nat (length bs))) bs' s = Done 0 (set_pmem (λ _, m') s) ∧
    R (bs ++ bs') m'.

(** Kernel memory receives what is written to it. *)
Lemma kernel_sink p S dst n m0 : 0 ≤ dst → dst + Z.of_nat n < 18446744073709551616 →
  sink p S false dst n (λ bs m, m = wr m0 dst bs).
Proof.
  intros H0 H1 s bs bs' Hq _ _ Hm Hn. exists (wr s.(pmem) (dst + Z.of_nat (length bs)) bs').
  rewrite u64_small by lia. split; [|by rewrite Hm, wr_app]. unfold either_copyout.
  mstep (myproc_done s (quiet_cpu_ok _ _ Hq)). done.
Qed.

(** The bytes one round moves. *)
Lemma zmin_spec a b : 0 < a → 0 < b → 0 < zmin a b ≤ a ∧ zmin a b ≤ b ∧ (zmin a b = a ∨ zmin a b = b).
Proof. intros. unfold zmin. destruct (Z.ltb_spec a b); lia. Qed.

Section io.
Context (k : superblock) (X : gset Z) (p : nat) (ip : nat) (q : inode).
Hypothesis Hsb : sb_ok k.

Lemma readi_loop_done f user dst cnt R S0 s0 s v n m off tot bs :
  sink p S0 user dst (Z.to_nat cnt) R →
  txc X p s0 s v n m → 1 ≤ m → (∀ y, v.(vl) y = free_lock) → get_inode ip s0 = q → file_ok v k q →
  s0.(procs) = S0.(procs) → s0.(freelist) = S0.(freelist) → R bs s0.(pmem) → Z.of_nat (length bs) = tot → 0 ≤ tot ≤ cnt →
  0 ≤ off → off + (cnt - tot) ≤ q.(i_size) →
  (tot < cnt → cnt - tot + off mod BSIZE ≤ Z.of_nat f * BSIZE) →
  ∃ g s', readi_loop f ip user (u64 (dst + tot)) off cnt tot s = Done cnt s' ∧
    txc X p (set_pmem g s0) s' v n m ∧ onward s v s' v ∧
    R (bs ++ fbytes v q off (Z.to_nat (cnt - tot))) (g s0.(pmem)).
Proof.
  intros Hsink. revert s0 s off tot bs. induction f as [|f IH]; intros s0 s off tot bs HT Hm Hfl Hq Hok Hps Hfre HR Hlen Ht Ho Hsz Hf;
    cbn [readi_loop]; destruct (Z.ltb_spec tot cnt) as [Hlt|Hge].
  1: { unfold BSIZE in Hf. mlia. }
  1, 3: exists (λ m, m), s; split; [f_equal; lia|]; split; [exact HT|]; split; [apply onward_refl|];
    replace (Z.to_nat (cnt - tot)) with 0%nat by lia; by rewrite app_nil_r.
  assert (Hbs : off mod BSIZE < BSIZE ∧ 0 ≤ off mod BSIZE) by (unfold BSIZE; mlia).
  pose proof (fo_size _ _ _ Hok) as Hmax.
  assert (Hbn : 0 ≤ off / BSIZE < MAXFILE) by (change MAXFILE with 268 in *; unfold BSIZE in *; mlia).
  assert (Ha : faddr v q (off / BSIZE) ≠ 0) by (apply (fo_cover _ _ _ Hok); [lia|unfold BSIZE; mlia]).
  destruct (bmap_old k X p s0 s v n m ip q (off / BSIZE) HT Hm Hsb Hfl Hq Hok Hbn Ha) as (s1 & E1 & HT1 & HO1). mstep E1.
  set (a := faddr v q (off / BSIZE)) in *. rewrite (proj2 (Z.eqb_neq a 0)) by done.
  mstep (gets_inode _ _ _ _ _ _ _ _ _ HT1 Hq). rewrite (fo_dev _ _ _ Hok).
  destruct (txc_bread X p s0 s1 v n m a HT1 Hm) as (i & s2 & E2 & Hh & HK & Hd & HT2).
  { apply (data_block_range k); [done|]. by apply (fo_block v k q). } { apply Hfl. }
  mstep E2. unfold buf_data. mnext. rewrite Hd.
  destruct (zmin_spec (cnt - tot) (BSIZE - off mod BSIZE)) as (Hz1 & Hz2 & Hz3); [lia|lia|]. set (z := zmin _ _) in *.
  unfold a at 1. rewrite fbytes_chunk by (done || lia || (exact (txc_len _ _ _ _ _ _ _ _ HT))).
  destruct (Hsink s2 bs (fbytes v q off (Z.to_nat z))) as (m' & Ec & HR').
  { apply (av_quiet p s0 s2 (vhold p s0 a v)); apply HT2. }
  { by rewrite (tx_procs _ _ _ _ _ _ (proj1 HT2)). } { by rewrite (tx_freelist _ _ _ _ _ _ (proj1 HT2)). }
  { by rewrite (txc_mem _ _ _ _ _ _ _ HT2). }
  { rewrite length_fbytes. lia. }
  rewrite Hlen in Ec. mstep Ec. cbn [Z.eqb].
  pose proof (txc_pmem _ _ _ _ _ _ _ (λ _, m') HT1) as HT1'. pose proof (txc_pmem _ _ _ _ _ _ _ (λ _, m') HT2) as HT2'.
  destruct (txc_release X p _ _ (set_pmem (λ _, m') s2) v n m (m - fresh s0 a) i a HT1') as (s3 & E3 & HT3 & HO3); [by destruct Hh|apply Hfl|exact HK|exact HT2'|].
  mstep E3. assert (Hoff : u32 (off + z) = off + z).
  { apply u32_small. change MAXFILE with 268 in *. unfold BSIZE in *. lia. }
  assert (Hdst : u64 (u64 (dst + tot) + z) = u64 (dst + (tot + z))).
  { unfold u64. rewrite Zplus_mod_idemp_l. f_equal. lia. }
  rewrite Hoff, Hdst.
  destruct (IH (set_pmem (λ _, m') s0) s3 (off + z) (tot + z) (bs ++ fbytes v q off (Z.to_nat z)))
    as (g & s4 & E4 & HT4 & HO4 & HR4); try done.
  - rewrite length_app, length_fbytes. lia.
  - lia.
  - lia.
  - lia.
  - intros Hlt'. unfold BSIZE in *. destruct Hz3 as [Hz3|Hz3]; [lia|]. rewrite Hz3 in *. specialize (Hf Hlt). mlia.
  - exists (g ∘ (λ _, m')), s4. split; [exact E4|]. split; [exact HT4|].
    split; [apply (onward_trans s v s1 v); [exact HO1|]; apply (onward_trans s1 v s3 v); [by destruct HO3|exact HO4]|].
    revert HR4. rewrite <- app_assoc. replace (off + z) with (off + Z.of_nat (Z.to_nat z)) by lia. rewrite <- fbytes_app.
    by replace (Z.to_nat z + Z.to_nat (cnt - (tot + z)))%nat with (Z.to_nat (cnt - tot)) by lia.
Qed.

(** The number of bytes readi delivers. *)
Definition read_count (size off cnt : Z) : Z :=
  if (size <? off) || (4294967296 <=? off + cnt) then 0 else Z.min cnt (size - off).

Lemma u32_add_wraps a b : 0 ≤ a < 4294967296 → 0 ≤ b < 4294967296 →
  (u32 (a + b) <? a) = (4294967296 <=? a + b) ∧ (a + b < 4294967296 → u32 (a + b) = a + b).
Proof.
  intros Ha Hb. split; [|intros; apply u32_small; lia]. unfold u32.
  destruct (Z.leb_spec 4294967296 (a + b)); [apply Z.ltb_lt|apply Z.ltb_ge]; mlia.
Qed.

Lemma readi_done user dst off cnt R S0 s0 s v n m :
  sink p S0 user dst (Z.to_nat cnt) R → R [] s0.(pmem) → 0 ≤ dst < 18446744073709551616 →
  txc X p s0 s v n m → 1 ≤ m → (∀ y, v.(vl) y = free_lock) → get_inode ip s0 = q → file_ok v k q →
  s0.(procs) = S0.(procs) → s0.(freelist) = S0.(freelist) → 0 ≤ off < 4294967296 → 0 ≤ cnt < 4294967296 →
  let c := read_count q.(i_size) off cnt in
  ∃ g s', readi ip user dst off cnt s = Done c s' ∧ txc X p (set_pmem g s0) s' v n m ∧ onward s v s' v ∧
    R (fbytes v q off (Z.to_nat c)) (g s0.(pmem)).
Proof.
  intros Hsink HR Hdst HT Hm Hfl Hq Hok Hps Hfre Hoff Hcnt c. unfold readi.
  mstep (gets_inode _ _ _ _ _ _ _ _ _ HT Hq). destruct (u32_add_wraps off cnt Hoff Hcnt) as [Hw1 Hw2]. rewrite Hw1.
  pose proof (fo_size _ _ _ Hok) as Hmax. change (MAXFILE * BSIZE) with 274432 in Hmax.
  unfold c, read_count. destruct (Z.ltb_spec (i_size q) off) as [|Hs]; cbn [orb].
  { exists (λ m, m), s. split; [done|]. split; [exact HT|]. split; [apply onward_refl|exact HR]. }
  destruct (Z.leb_spec 4294967296 (off + cnt)) as [|Hw].
  { exists (λ m, m), s. split; [done|]. split; [exact HT|]. split; [apply onward_refl|exact HR]. }
  rewrite Hw2 by lia. set (n' := if i_size q <? off + cnt then i_size q - off else cnt).
  assert (Hn' : n' = Z.min cnt (i_size q - off)) by (unfold n'; destruct (Z.ltb_spec (i_size q) (off + cnt)); lia).
  destruct (readi_loop_done (io_rounds n') user dst n' R S0 s0 s v n m off 0 []) as (g & s' & E & HT' & HO & HR'); try done.
  - intros s1 b1 b2 Q1 Q2 Q3 Q4 Q5. apply Hsink; [done|done|done|done|lia].
  - lia.
  - lia.
  - lia.
  - intros _. unfold io_rounds, BSIZE in *. mlia.
  - rewrite Z.add_0_r, u64_small in E by lia. mstep E. exists g, s'. rewrite s32_small by lia. rewrite Hn'.
    split; [done|]. split; [done|]. split; [done|]. revert HR'. by rewrite Z.sub_0_r, Hn'.
Qed.
End io.

(** ** Allocating a block *)

Lemma upd_inode_id j s : upd_inode j (λ x, x) s = s.
Proof.
  unfold upd_inode. assert (alter (λ x, x) j s.(itable) = s.(itable)) as E.
  { apply list_eq. intros i. rewrite list_lookup_alter. case_decide as Ei; [subst; by destruct (s.(itable) !! i)|done]. }
  unfold set_itable. rewrite E. done.
Qed.

(** What an operation on file [ip] that may allocate blocks leaves, with room
    for [n'] and [m'] blocks: a file, and everything else as before.  The blocks
    of the file are those it had and some that were free. *)
Record grown (k : superblock) (X : gset Z) (p ip : nat) (s0 s : kstate) (v : view) (q : inode)
    (s0' s' : kstate) (v' : view) (q' : inode) (n' m' : Z) : Prop := {
  gr_tx : txc X p s0' s' v' n' m';
  gr_state : ∃ g f, s0' = set_klog g (upd_inode ip f s0);
  gr_get : get_inode ip s0' = q';
  gr_v : vgrown k v q v' q';
  gr_logged x : x ∈ logged s0 → x ∈ logged s0';
  gr_onward : onward s v s' v';
  gr_paid : ind q' ≠ 0 → pay X s0' (ind q') = 0 }.

Section bmap.
Context (k : superblock) (X : gset Z) (p : nat) (ip : nat).
Hypothesis Hsb : sb_ok k.
Hypothesis HX : ∀ y, 0 ≤ y < k.(sb_size) → BBLOCK y k ∈ X.

Lemma alloc_step s0 s v n m c :
  txc X p s0 s v n m → 1 ≤ n → 1 ≤ m → s0.(sb) = k → free_unlocked v k → avail v k c → 1 ≤ c →
  ∃ r s0' s' v', balloc ROOTDEV s = Done r s' ∧ allocated k s0 s v r s0' s' v' ∧ txc X p s0' s' v' (n - 1) (m - 1).
Proof.
  intros HT Hn Hm Hk Hfl (l & _ & Hc & Hl) Hc1. destruct l as [|x l]; [cbn in Hc; lia|].
  destruct (Hl x) as [Hx Hfx]; [by left|].
  destruct (balloc_done k X p s0 s v n m x HT) as (r & s0' & s' & v' & E & Ha & HT'); try done.
  { intros y Hy. rewrite pay_in by (by apply HX). lia. }
  exists r, s0', s', v'. split; [done|]. split; [done|].
  rewrite pay_in in HT' by (apply HX, Ha). by rewrite !Z.sub_0_r in HT'.
Qed.

(** Storing the address of a new block in the inode. *)
Lemma set_addr_done s0 s v q r s0' s' v' n m j :
  txc X p s0' s' v' n m → allocated k s0 s v r s0' s' v' →
  (ip < length s0.(itable))%nat → get_inode ip s0 = q →
  let q' := set_i_addrs (λ l, <[j := r]> l) q in
  ∃ s0'' s'', set_addr ip j r s' = Done () s'' ∧ txc X p s0'' s'' v' n m ∧
    (∃ g f, s0'' = set_klog g (upd_inode ip f s0)) ∧ get_inode ip s0'' = q' ∧
    logged s0'' = logged s0' ∧ onward s v s'' v'.
Proof.
  intros HT Ha Hip Hq q'. destruct (al_log _ _ _ _ _ _ _ _ Ha) as [g Eg].
  set (f := set_i_addrs (λ l, <[j := r]> l)). exists (upd_inode ip f s0'), (upd_inode ip f s').
  split; [done|]. split; [by apply txc_inode|]. split; [by exists g, f; rewrite Eg|].
  split; [|split; [done|]].
  - rewrite Eg. unfold get_inode. cbn. rewrite lookup_total_alter_list_eq by done. fold (get_inode ip s0). by rewrite Hq.
  - by destruct (al_onward _ _ _ _ _ _ _ _ Ha).
Qed.

Lemma paid_logs s0 s0' b : (∀ x, x ∈ logged s0 → x ∈ logged s0') → pay X s0 b = 0 → pay X s0' b = 0.
Proof.
  intros Hl. unfold pay. destruct (decide (b ∈ X ∨ b ∈ logged s0)) as [Hd|]; [|done].
  intros _. rewrite decide_True; [done|]. destruct Hd; auto.
Qed.

Lemma bmap_direct s0 s v n m q bn c :
  txc X p s0 s v n m → 1 ≤ n → 1 ≤ m → s0.(sb) = k → (∀ y, v.(vl) y = free_lock) → avail v k c → 1 ≤ c →
  fs_ok v k → get_inode ip s0 = q → (ip < length s0.(itable))%nat → file_ok v k q →
  (ind q ≠ 0 → pay X s0 (ind q) = 0) →
  0 ≤ bn < 12 → faddr v q bn = 0 →
  ∃ a s0' s' v' q', bmap ip bn s = Done a s' ∧
    grown k X p ip s0 s v q s0' s' v' q' (n - 1) (m - 1) ∧
    gained k v q v' q' bn a ∧ a ∈ logged s0' ∧ ind q' = ind q ∧ avail v' k (c - 1).
Proof.
  intros HT Hn Hm Hk Hfl Hav Hc1 Hfs Hq Hip Hok Hpay Hbn Ha. unfold bmap. change NDIRECT with 12.
  rewrite (proj2 (Z.ltb_lt bn 12)) by lia. mstep (get_addr_done _ _ _ _ _ _ _ _ _ (Z.to_nat bn) HT Hq).
  unfold faddr in Ha. rewrite (proj2 (Z.ltb_lt bn 12)) in Ha by lia. rewrite Ha. cbn [Z.eqb].
  mstep (gets_inode _ _ _ _ _ _ _ _ _ HT Hq). rewrite (fo_dev _ _ _ Hok).
  destruct (alloc_step s0 s v n m c HT Hn Hm Hk) as (r & s0' & s' & v' & E & Hal & HT'); [by intros y _|done|done|]. mstep E.
  pose proof (al_v _ _ _ _ _ _ _ _ Hal) as Hva. pose proof (db_range _ _ (alloc_data _ _ _ _ Hva Hfs)) as Hrr.
  rewrite (proj2 (Z.eqb_neq r 0)) by lia.
  destruct (set_addr_done s0 s v q r s0' s' v' _ _ (Z.to_nat bn) HT' Hal Hip Hq) as (s0'' & s'' & E2 & HT2 & Hst & Hget & Hlg & HO).
  mstep E2. set (q' := set_i_addrs _ q) in *.
  destruct (grow_direct k Hsb v r v' q bn Hva Hfs (λ b, txc_len _ _ _ _ _ _ _ b HT) Hok Hbn) as (G1 & G2 & Hind & G3).
  fold q' in G1, G2, Hind.
  assert (Hmono : ∀ x, x ∈ logged s0 → x ∈ logged s0'') by (intros x; rewrite Hlg, (al_logged _ _ _ _ _ _ _ _ Hal); by left).
  exists r, s0'', s'', v', q'. split; [done|]. split; [split; try done|].
  - rewrite Hind. intros Hi. eapply paid_logs; [exact Hmono|by apply Hpay].
  - split; [done|]. split; [rewrite Hlg, (al_logged _ _ _ _ _ _ _ _ Hal); tauto|]. split; [done|]. by apply G3.
Qed.

(** The state of the transaction while the indirect block is held. *)
Lemma hold_unlocked s0 v q : (∀ y, v.(vl) y = free_lock) → file_ok v k q → ind q ≠ 0 →
  free_unlocked (vhold p s0 (ind q) v) k.
Proof.
  intros Hfl Hok Hi y Hy. destruct (fo_ind_block _ _ _ Hok Hi) as [Hd Hnf]. unfold vhold. vs. split.
  - rewrite fupd_ne; [done|]. intros E. by apply (db_bitmap _ _ Hd y Hy).
  - intros Hf. rewrite fupd_ne; [done|]. by intros ->.
Qed.

(** The second half of bmap: the entry of a file with an indirect block. *)
Definition bmap_second (addr bn : Z) : K Z :=
  bp ← bread ROOTDEV addr;
  d ← buf_data bp;
  addr ← (if get_le d (Z.to_nat (4 * bn)) 4 =? 0 then
            addr ← balloc ROOTDEV;
            when (negb (addr =? 0))
              (set_data bp (λ d, put_le d (Z.to_nat (4 * bn)) 4 addr) ;; log_write bp) ;;
            mret addr
          else mret (get_le d (Z.to_nat (4 * bn)) 4));
  brelse bp ;; mret addr.

Lemma bmap_second_runs s0 s v n m q bn c :
  txc X p s0 s v n m → 2 ≤ n → 2 ≤ m → s0.(sb) = k → (∀ y, v.(vl) y = free_lock) → avail v k c → 1 ≤ c →
  fs_ok v k → get_inode ip s0 = q → file_ok v k q → ind q ≠ 0 → pay X s0 (ind q) = 0 →
  12 ≤ bn < MAXFILE → faddr v q bn = 0 →
  let v1 := vhold p s0 (ind q) v in
  ∃ r s0' s' v' s1 s01 s2 v2, bmap_second (ind q) (bn - 12) s = Done r s' ∧ allocated k s0 s1 v1 r s01 s2 v2 ∧
    txc X p s0' s' v' (n - 1) (m - 1) ∧ (∃ g, s0' = set_klog g s0) ∧
    (∀ x, x ∈ logged s0' ↔ x ∈ logged s0 ∨ x = BBLOCK r k ∨ x = r ∨ x = ind q) ∧ onward s v s' v' ∧
    (∀ b, v'.(vb) b = fupd v2.(vb) (ind q) (put_le (v.(vb) (ind q)) (Z.to_nat (4 * (bn - 12))) 4 r) b).
Proof.
  intros HT Hn Hm Hk Hfl Hav Hc1 Hfs Hq Hok Hi Hpay Hbn Ha v1. unfold bmap_second.
  destruct (fo_ind_block _ _ _ Hok Hi) as [Hid Hinf]. pose proof (data_block_range _ _ Hsb Hid) as Hir.
  assert (Hg : get_le (v.(vb) (ind q)) (Z.to_nat (4 * (bn - 12))) 4 = 0).
  { revert Ha. unfold faddr. rewrite (proj2 (Z.ltb_ge bn 12)), (proj2 (Z.eqb_neq _ 0)) by lia. done. }
  pose proof (λ b, txc_len _ _ _ _ _ _ _ b HT) as Hlen.
  destruct (txc_bread X p s0 s v n m (ind q) HT) as (i & s1 & E1 & Hh1 & HK1 & Hd1 & HT1); [lia|done|apply Hfl|].
  fold v1 in Hh1, HT1.
  mstep E1. unfold buf_data. mnext. rewrite Hd1, Hg. cbn [Z.eqb].
  destruct (alloc_step s0 s1 v1 n _ c HT1) as (r & s0' & s2 & v2 & E2 & Hal & HT2);
    [lia|pose proof (fresh_range s0 (ind q)); lia|done|by apply hold_unlocked|done|done|].
  pose proof (al_v _ _ _ _ _ _ _ _ Hal) as Hva. pose proof (db_range _ _ (alloc_data _ _ _ _ Hva Hfs)) as Hrr.
  assert (Hri : ind q ≠ r) by (intros E; apply Hinf; rewrite E; apply (al_free _ _ _ _ Hva)).
  assert (Hib : ind q ≠ BBLOCK r k) by (apply (db_bitmap _ _ Hid), Hal).
  pose proof (al_onward _ _ _ _ _ _ _ _ Hal) as HO2. destruct (al_log _ _ _ _ _ _ _ _ Hal) as [g Eg].
  pose proof (al_logged _ _ _ _ _ _ _ _ Hal) as Hlg2.
  assert (Hh2 : held p s0' s2 v2 i (ind q)).
  { eapply held_onward; [exact Hh1|exact HO2|by rewrite Eg|]. rewrite Hlg2. tauto. }
  assert (Hvi : vb v2 (ind q) = vb v (ind q)).
  { rewrite (al_vb _ _ _ _ Hva), !fupd_ne by done. done. }
  set (d := put_le (vb v (ind q)) (Z.to_nat (4 * (bn - 12))) 4 r).
  pose proof (txc_tx _ _ _ _ _ _ _ HT2) as HT2'.
  destruct (txc_store X p s0' s2 v2 _ _ i (ind q) d HT2) as (s0'' & sa & s3 & v3 & E3 & E4 & HT3 & [ [g' Eg'] Hlg3] & HK3 & Vb & Vl & Vd & Vr);
    [lia|done|done| |].
  { unfold d, put_le. rewrite length_splice; rewrite ?length_to_le; rewrite Hlen; [done|]. by apply entry_off. }
  rewrite (bind_done _ _ s1 r sa).
  2:{ mstep E2. rewrite (proj2 (Z.eqb_neq r 0)) by lia. cbn [negb when].
      rewrite (bind_done _ _ s2 () sa); [done|].
      rewrite (bind_done _ _ s2 () (upd_buf i (set_b_data (λ _, d)) s2)); [done|].
      apply (set_data_const i (λ d, put_le d _ 4 r) s2 (vb v (ind q))); [eapply tx_buf_lt; [exact HT2'|apply Hh2]|].
      by rewrite (av_buf _ _ _ _ _ (tx_view _ _ _ _ _ _ HT2') (hd_hb _ _ _ _ _ _ Hh2)). }
  mstep E4.
  assert (Hpay2 : pay X s0' (ind q) = 0) by (eapply paid_logs; [|exact Hpay]; intros x; rewrite Hlg2; tauto).
  assert (Hfresh : fresh s0' (ind q) = fresh s0 (ind q)).
  { unfold fresh. assert (ind q ∈ logged s0' ↔ ind q ∈ logged s0) as Hiff by (rewrite Hlg2; tauto). repeat case_decide; tauto. }
  exists r, s0'', s3, v3, s1, s0', s2, v2. split; [done|]. split; [done|]. split; [|split; [|split; [|split; [|done]]]].
  - revert HT3. rewrite Hpay2, Hfresh. intros HT3. eapply txc_weaken; [exact HT3|lia|]. pose proof (fresh_range s0 (ind q)). lia.
  - rewrite Eg', Eg. by exists (g' ∘ g).
  - intros x. rewrite Hlg3, Hlg2. tauto.
  - pose proof (tx_count _ _ _ _ _ _ (proj1 HT)) as Hc. split.
    + intros j b Hj Hr. apply HK3; [apply (ow_keeps _ _ _ _ HO2); [by apply HK1|]|].
      * unfold v1, vhold. vs. unfold fupd. case_decide; subst; lia.
      * pose proof (ow_r _ _ _ _ HO2 b) as Hor. revert Hor. unfold v1, vhold. vs. unfold fupd. case_decide; subst; lia.
    + intros b. rewrite Vl. unfold fupd. case_decide as Eb; [by rewrite Hfl|].
      rewrite (ow_l _ _ _ _ HO2). unfold v1, vhold. vs. by rewrite fupd_ne.
    + intros b. by rewrite Vd, (ow_d _ _ _ _ HO2).
    + intros b. destruct (Vr b) as [Vr1 _]. pose proof (ow_r _ _ _ _ HO2 b) as Hor. revert Vr1 Hor.
      unfold v1, vhold. vs. unfold fupd. case_decide; subst; lia.
Qed.

Lemma bmap_entry s0 s v n m q bn c :
  txc X p s0 s v n m → 2 ≤ n → 2 ≤ m → s0.(sb) = k → (∀ y, v.(vl) y = free_lock) → avail v k c → 1 ≤ c →
  fs_ok v k → get_inode ip s0 = q → file_ok v k q → ind q ≠ 0 → pay X s0 (ind q) = 0 →
  12 ≤ bn < MAXFILE → faddr v q bn = 0 →
  ∃ a s0' s' v', bmap_second (ind q) (bn - 12) s = Done a s' ∧
    grown k X p ip s0 s v q s0' s' v' q (n - 1) (m - 1) ∧
    gained k v q v' q bn a ∧ a ∈ logged s0' ∧ avail v' k (c - 1).
Proof.
  intros HT Hn Hm Hk Hfl Hav Hc1 Hfs Hq Hok Hi Hpay Hbn Ha.
  destruct (bmap_second_runs s0 s v n m q bn c HT Hn Hm Hk Hfl Hav Hc1 Hfs Hq Hok Hi Hpay Hbn Ha)
    as (r & s0' & s' & v' & s1 & s01 & s2 & v2 & E & Hal & HT' & [g Hg] & Hlg & HO & Vb).
  destruct (grow_block_entry k Hsb v r v2 v' q bn) as (G1 & G2 & G3); try done.
  { destruct (al_v _ _ _ _ _ _ _ _ Hal). by split. } { intros b. exact (txc_len _ _ _ _ _ _ _ b HT). }
  assert (Hmono : ∀ x, x ∈ logged s0 → x ∈ logged s0') by (intros x; rewrite Hlg; by left).
  exists r, s0', s', v'. split; [done|]. split; [split; try done|].
  - exists g, (λ x, x). by rewrite upd_inode_id.
  - by rewrite Hg.
  - intros _. by eapply paid_logs.
  - split; [done|]. split; [rewrite Hlg; tauto|]. by apply G3.
Qed.

Lemma grown_refl s0 s v q n m s' : txc X p s0 s' v n m → get_inode ip s0 = q → file_ok v k q → fs_ok v k →
  (ind q ≠ 0 → pay X s0 (ind q) = 0) → onward s v s' v → grown k X p ip s0 s v q s0 s' v q n m.
Proof.
  intros HT Hq Hok Hfs Hpay HO. split; try done; [|by apply vgrown_refl].
  exists (λ l, l), (λ x, x). by rewrite upd_inode_id.
Qed.

Lemma grown_trans s0 s v q s1 t1 v1 q1 n1 m1 s2 t2 v2 q2 n2 m2 :
  grown k X p ip s0 s v q s1 t1 v1 q1 n1 m1 → grown k X p ip s1 t1 v1 q1 s2 t2 v2 q2 n2 m2 →
  grown k X p ip s0 s v q s2 t2 v2 q2 n2 m2.
Proof.
  intros [A0 (g & f & E) A3 A5 A8 A9 A11] [B0 (g' & f' & E') B3 B5 B8 B9 B11]. split; try done.
  - exists (g' ∘ g), (f' ∘ f). rewrite E', E. unfold upd_inode, set_itable, set_klog. cbn. by rewrite alter_alter_list.
  - by eapply vgrown_trans.
  - auto.
  - by eapply onward_trans.
Qed.

(** The first half of bmap for positions beyond the direct ones. *)
Definition bmap_first (addr : Z) : K Z :=
  if addr =? 0 then
    addr ← balloc ROOTDEV;
    (if addr =? 0 then mret 0 else set_addr ip (Z.to_nat NDIRECT) addr ;; mret addr)
  else mret addr.

Lemma bmap_first_done s0 s v n m q c :
  txc X p s0 s v n m → 1 ≤ n → 1 ≤ m → s0.(sb) = k → (∀ y, v.(vl) y = free_lock) → avail v k c → 1 ≤ c →
  fs_ok v k → get_inode ip s0 = q → (ip < length s0.(itable))%nat → file_ok v k q →
  (ind q ≠ 0 → pay X s0 (ind q) = 0) →
  ∃ s0' s' v' q', bmap_first (ind q) s = Done (ind q') s' ∧
    grown k X p ip s0 s v q s0' s' v' q' (n - icost q) (m - icost q) ∧
    ind q' ≠ 0 ∧ (∀ bn, 0 ≤ bn < MAXFILE → faddr v' q' bn = faddr v q bn) ∧
    (∀ b, fblock v q b → v'.(vb) b = v.(vb) b) ∧ avail v' k (c - icost q).
Proof.
  intros HT Hn Hm Hk Hfl Hav Hc1 Hfs Hq Hip Hok Hpay. unfold bmap_first, icost.
  destruct (Z.eqb_spec (ind q) 0) as [Hi|Hi].
  2:{ exists s0, s, v, q. rewrite !Z.sub_0_r. split; [done|]. split; [apply grown_refl; try done; apply onward_refl|]. split; [done|].
      by split. }
  destruct (alloc_step s0 s v n m c HT Hn Hm Hk) as (r & s0' & s' & v' & E & Hal & HT'); [by intros y _|done|done|]. mstep E.
  pose proof (al_v _ _ _ _ _ _ _ _ Hal) as Hva. pose proof (db_range _ _ (alloc_data _ _ _ _ Hva Hfs)) as Hrr.
  rewrite (proj2 (Z.eqb_neq r 0)) by lia. change (Z.to_nat NDIRECT) with 12%nat.
  destruct (set_addr_done s0 s v q r s0' s' v' _ _ 12 HT' Hal Hip Hq) as (s0'' & s'' & E2 & HT2 & Hst & Hget & Hlg & HO).
  mstep E2. set (q' := set_i_addrs _ q) in *.
  destruct (grow_indirect k Hsb v r v' q Hva Hfs (λ b, txc_len _ _ _ _ _ _ _ b HT) Hok Hi) as (G1 & Hind & G2 & G3 & G4).
  fold q' in G1, G2, Hind. exists s0'', s'', v', q'. split; [by rewrite Hind|]. split; [split; try done|].
  - intros x. rewrite Hlg, (al_logged _ _ _ _ _ _ _ _ Hal). by left.
  - intros _. apply pay_logged. rewrite Hind, Hlg, (al_logged _ _ _ _ _ _ _ _ Hal). tauto.
  - rewrite Hind. split; [lia|]. split; [done|]. split; [done|]. by apply G4.
Qed.

(** A position without a block: bmap allocates one, and the indirect block if
    it has to, and each costs one block of log space. *)
Lemma bmap_new s0 s v n m q bn c :
  txc X p s0 s v n m → 2 + icost q ≤ n → 2 + icost q ≤ m → s0.(sb) = k → (∀ y, v.(vl) y = free_lock) →
  avail v k c → 1 + icost q ≤ c → fs_ok v k → get_inode ip s0 = q → (ip < length s0.(itable))%nat → file_ok v k q →
  (ind q ≠ 0 → pay X s0 (ind q) = 0) → 0 ≤ bn < MAXFILE → faddr v q bn = 0 →
  ∃ a s0' s' v' q' e, bmap ip bn s = Done a s' ∧ e = 1 + icost q - icost q' ∧
    grown k X p ip s0 s v q s0' s' v' q' (n - e) (m - e) ∧
    gained k v q v' q' bn a ∧ a ∈ logged s0' ∧ avail v' k (c - e).
Proof.
  intros HT Hn Hm Hk Hfl Hav Hc1 Hfs Hq Hip Hok Hpay Hbn Ha. pose proof (icost_range q) as Hic.
  destruct (decide (bn < 12)) as [Hd|Hd].
  { destruct (bmap_direct s0 s v n m q bn c) as (a & s0' & s' & v' & q' & E & H1 & H2 & H3 & H4 & H5); try done; [lia..|].
    exists a, s0', s', v', q', 1. split; [done|]. split; [unfold icost; rewrite H4; lia|done]. }
  unfold bmap. change NDIRECT with 12. rewrite (proj2 (Z.ltb_ge bn 12)) by lia.
  rewrite (proj2 (Z.ltb_lt _ NINDIRECT)) by (change NINDIRECT with 256; change MAXFILE with 268 in *; lia).
  mstep (gets_inode _ _ _ _ _ _ _ _ _ HT Hq). mstep (get_addr_done _ _ _ _ _ _ _ _ _ (Z.to_nat 12) HT Hq).
  rewrite (fo_dev _ _ _ Hok). change (i_addrs q !!! Z.to_nat 12) with (ind q).
  destruct (bmap_first_done s0 s v n m q c) as (s1 & t1 & v1 & q1 & E1 & G1 & Hi1 & Hf1 & Hk1 & Hav1); try done; [lia..|].
  unfold bmap_first in E1. change NDIRECT with 12 in E1. mstep E1. rewrite (proj2 (Z.eqb_neq _ 0)) by done.
  pose proof G1 as [T1 (g & f & T2) T3 T4 T8 T9 T11]. pose proof T4 as [_ T5 T6 _ _ _].
  destruct (bmap_entry s1 t1 v1 (n - icost q) (m - icost q) q1 bn (c - icost q)) as (a & s2 & t2 & v2 & E2 & G2 & H3 & H4 & H5);
    try done; try lia.
  - by rewrite T2.
  - intros y. by rewrite (ow_l _ _ _ _ T9).
  - by rewrite Hf1.
  - exists a, s2, t2, v2, q1, (1 + icost q). split; [exact E2|].
    assert (icost q1 = 0) as -> by (unfold icost; by rewrite (proj2 (Z.eqb_neq (ind q1) 0))). split; [lia|].
    replace (n - (1 + icost q)) with (n - icost q - 1) by lia. replace (m - (1 + icost q)) with (m - icost q - 1) by lia.
    replace (c - (1 + icost q)) with (c - icost q - 1) by lia. split; [|split; [|done]].
    + by eapply grown_trans.
    + by eapply gained_after.
Qed.
End bmap.
End file.
