(* ===== verification/FsWrite.v ===== *)
(** writei: the bytes of a file after a write, the blocks it takes and what it
    leaves alone; and the round trip of writei and readi. *)

From S2P Require Import Prelude Cmem KString Kstate Spinlock Sleep Sleeplock Kalloc Vm Printf Bio BioSpec Log LogSpec BioProps LogCrash LogSafe Tx Fs FsSpec FsView FsFile.
Local Open Scope Z_scope.

(** Where writei takes the bytes [bs] from: either_copyin reads any part of
    them in every state with the processes, the free pages and the memory of
    [S]. *)
Definition source `{Fl : Fuel} `{La : Layout} (p : nat) (S : kstate) (user : bool) (src : Z) (bs : list Z) : Prop :=
  ∀ s j len, quiet p s → s.(procs) = S.(procs) → s.(freelist) = S.(freelist) → s.(pmem) = S.(pmem) → 0 ≤ j → 0 ≤ len → j + len ≤ Z.of_nat (length bs) →
  either_copyin user (u64 (src + j)) len s = Done (0, take (Z.to_nat len) (drop (Z.to_nat j) bs)) s.

Lemma rd_sub m a n j len : (j + len ≤ n)%nat → take len (drop j (rd m a n)) = rd m (a + Z.of_nat j) len.
Proof.
  intros H. replace n with (j + (len + (n - j - len)))%nat by lia. rewrite !rd_app.
  rewrite drop_app_length' by (by rewrite length_rd). by rewrite take_app_length' by (by rewrite length_rd).
Qed.

(** Kernel memory. *)
Lemma kernel_source `{Fl : Fuel} `{La : Layout} p S src n : 0 ≤ src → src + Z.of_nat n < 18446744073709551616 →
  source p S false src (rd S.(pmem) src n).
Proof.
  intros H0 H1 s j len Hq _ _ Hm Hj Hl Hjl. rewrite length_rd in Hjl. rewrite u64_small by lia. unfold either_copyin.
  mstep (myproc_done s (quiet_cpu_ok _ _ Hq)). mnext. rewrite rd_sub by lia. rewrite Hm, Z2Nat.id by lia. done.
Qed.

Section write.
Context {Fl : Fuel} {La : Layout} {Dv : Device} `{Bs : BlockDevSpec}.
Context (k : superblock) (X : gset Z) (p : nat) (ip : nat).
Hypothesis Hsb : sb_ok k.
Hypothesis HX : ∀ y, 0 ≤ y < k.(sb_size) → BBLOCK y k ∈ X.

(** ** bmap, whether or not the position has a block *)
Lemma bmap_done s0 s v n m q bn c :
  txc X p s0 s v n m → 2 + icost q ≤ n → 2 + icost q ≤ m → s0.(sb) = k → (∀ y, v.(vl) y = free_lock) →
  avail v k c → faddr v q bn ≠ 0 ∨ 1 + icost q ≤ c → fs_ok v k → get_inode ip s0 = q → (ip < length s0.(itable))%nat →
  file_ok v k q → (ind q ≠ 0 → pay X s0 (ind q) = 0) → 0 ≤ bn < MAXFILE →
  ∃ s0' s' v' q' e, bmap ip bn s = Done (faddr v' q' bn) s' ∧ faddr v' q' bn ≠ 0 ∧
    grown k X p ip s0 s v q s0' s' v' q' (n - e) (m - e) ∧ kept v q v' q' (λ _, True) ∧
    0 ≤ e ∧ e + pay X s0' (faddr v' q' bn) ≤ 1 + icost q - icost q' ∧
    avail v' k (c - e) ∧ (faddr v q bn ≠ 0 → e = 0 ∧ q' = q).
Proof.
  intros HT Hn Hm Hk Hfl Hav Hc Hfs Hq Hip Hok Hpay Hbn. destruct (decide (faddr v q bn = 0)) as [Ha|Ha].
  - destruct (bmap_new k X p ip Hsb HX s0 s v n m q bn c) as (a & s0' & s' & v' & q' & e & E & He & HG & Hga & Hlg & Hav');
      try done; [by destruct Hc|].
    pose proof (ga_addr _ _ _ _ _ _ _ Hga bn Hbn) as Ea. rewrite decide_True in Ea by done.
    pose proof (db_range _ _ (ga_data _ _ _ _ _ _ _ Hga)) as Hr. pose proof (icost_range q). pose proof (icost_range q').
    exists s0', s', v', q', e. rewrite Ea. split; [done|]. split; [lia|]. split; [done|]. split; [|split; [|split; [|split]]].
    + by apply (gained_kept k v q v' q' bn a).
    + lia.
    + rewrite (pay_logged _ _ _ Hlg). lia.
    + done.
    + done.
  - destruct (bmap_old k X p s0 s v n m ip q bn) as (s' & E & HT' & HO); try done.
    { pose proof (icost_range q). lia. }
    exists s0, s', v, q, 0. rewrite !Z.sub_0_r. split; [done|]. split; [done|]. split; [by apply grown_refl|].
    split; [done|]. split; [lia|]. pose proof (pay_range X s0 (faddr v q bn)). split; [lia|done].
Qed.

(** ** One block *)

(** ** The loop *)

(** One round: the bytes [d] at [off]. *)
Lemma write_round user src z d s0 s v n m q c off (next : K (Z * Z)) tot :
  (∀ s, quiet p s → s.(procs) = s0.(procs) → s.(freelist) = s0.(freelist) → s.(pmem) = s0.(pmem) → either_copyin user src z s = Done (0, d) s) →
  txc X p s0 s v n m → 2 + icost q ≤ n → 2 + icost q ≤ m → s0.(sb) = k → (∀ y, v.(vl) y = free_lock) →
  avail v k c → faddr v q (off / BSIZE) ≠ 0 ∨ 1 + icost q ≤ c → fs_ok v k → get_inode ip s0 = q →
  (ip < length s0.(itable))%nat → file_ok v k q → (ind q ≠ 0 → pay X s0 (ind q) = 0) →
  0 ≤ off < MAXFILE * BSIZE → off mod BSIZE + Z.of_nat (length d) ≤ BSIZE →
  ∃ s0' s' v' q' e,
    (addr ← bmap ip (off / BSIZE);
     if addr =? 0 then mret (tot, off) else
     q ← gets (get_inode ip);
     bp ← bread q.(i_dev) addr;
     r ← either_copyin user src z;
     set_data bp (λ d, splice d (Z.to_nat (off mod BSIZE)) r.2) ;;
     if r.1 =? -1 then brelse bp ;; mret (tot, off)
     else log_write bp ;; brelse bp ;; next) s = next s' ∧
    grown k X p ip s0 s v q s0' s' v' q' (n - e) (m - e) ∧
    kept v q v' q' (λ o, ¬ in_range off (Z.of_nat (length d)) o) ∧
    (∀ i, (i < length d)%nat → faddr v' q' ((off + Z.of_nat i) / BSIZE) ≠ 0 ∧ fbyte v' q' (off + Z.of_nat i) = d !!! i) ∧
    0 ≤ e ≤ 1 + icost q - icost q' ∧ avail v' k (c - e).
Proof.
  intros Hsrc HT Hn Hm Hk Hfl Hav Hc Hfs Hq Hip Hok Hpay Hoff Hd. pose proof (icost_range q) as Hic.
  destruct (bmap_done s0 s v n m q (off / BSIZE) c) as (s1 & t1 & v1 & q1 & e & E1 & Ha & G1 & K1 & He0 & He & Hav1 & _);
    try done; [by apply pos_block|]. mstep E1.
  pose proof G1 as [T1 (g & f & T2) T3 T4 T8 T9 T11]. pose proof T4 as [_ T5 T6 _ _ _]. pose proof (icost_range q1) as Hic1.
  set (a := faddr v1 q1 (off / BSIZE)) in *. rewrite (proj2 (Z.eqb_neq a 0)) by done.
  mstep (gets_inode _ _ _ _ _ _ _ _ _ T1 T3). rewrite (fo_dev _ _ _ T5).
  destruct (fo_block _ _ _ _ T5 (pos_block off Hoff) Ha) as [Had _]. pose proof (pay_range X s1 a) as Hpr.
  destruct (txc_bread X p s1 t1 v1 (n - e) (m - e) a T1) as (i' & t2' & E2' & _ & _ & _ & TH);
    [lia|by apply (data_block_range k)|rewrite (ow_l _ _ _ _ T9); apply Hfl|].
  destruct (txc_block X p s1 t1 v1 (n - e) (m - e) a T1) as (i & t2 & E2 & Hdd & Hi & _ & Hw);
    [lia|by apply (data_block_range k)|rewrite (ow_l _ _ _ _ T9); apply Hfl|].
  rewrite E2 in E2'. injection E2' as <- <-. mstep E2.
  rewrite (bind_done _ _ _ _ _ (Hsrc t2 (av_quiet p s1 t2 _ (tx_view _ _ _ _ _ _ (proj1 TH)) (tx_quiet _ _ _ _ _ _ (proj1 TH)))
    ltac:(rewrite (tx_procs _ _ _ _ _ _ (proj1 TH)), T2; done) ltac:(rewrite (tx_freelist _ _ _ _ _ _ (proj1 TH)), T2; done)
    ltac:(rewrite (txc_mem _ _ _ _ _ _ _ TH), T2; done))).
  cbv beta iota. cbn [fst snd].
  mstep (set_data_const i (λ x, splice x (Z.to_nat (off mod BSIZE)) d) t2 _ Hi Hdd). cbn [Z.eqb].
  assert (Hm' : 0 ≤ off mod BSIZE < BSIZE) by (unfold BSIZE; mlia).
  pose proof (λ b, txc_len _ _ _ _ _ _ _ b T1) as Hlen.
  destruct (Hw ltac:(lia) (splice (vb v1 a) (Z.to_nat (off mod BSIZE)) d)) as (s3 & ta & t3 & v3 & E3 & E4 & HT3 & Hlg & HO & Hv).
  { rewrite length_splice; rewrite Hlen; [done|]. unfold BSIZE in *. lia. }
  mstep E3. mstep E4.
  destruct (chunk_file k v1 q1 v3 off d) as (G3 & K3 & B3 & _ & Hav3); try done.
  exists s3, t3, v3, q1, (e + pay X s1 a). rewrite !Z.sub_add_distr. split; [done|].
  split; [eapply grown_trans; [exact G1|]|split; [|split; [done|split; [lia|]]]].
  - destruct Hlg as [ [g' Hg'] Hlg]. split; try done.
    + exists g', (λ x, x). by rewrite upd_inode_id.
    + by rewrite Hg'.
    + intros x Hx. apply Hlg. by left.
    + intros Hi'. apply (paid_logs X s1); [|by apply T11]. intros x Hx. apply Hlg. by left.
  - eapply kept_trans; [exact K1|exact K3|done].
  - apply Hav3 in Hav1 as (l & L1 & L2 & L3). exists l. split; [done|]. split; [lia|done].
Qed.

Lemma grown_state s0 s v q s0' s' v' q' n m : grown k X p ip s0 s v q s0' s' v' q' n m →
  s0'.(sb) = s0.(sb) ∧ s0'.(procs) = s0.(procs) ∧ s0'.(freelist) = s0.(freelist) ∧ s0'.(pmem) = s0.(pmem) ∧
  length s0'.(itable) = length s0.(itable) ∧ i_size q' = i_size q.
Proof.
  intros G. destruct (gr_state _ _ _ _ _ _ _ _ _ _ _ _ _ _ G) as (g & f & ->).
  destruct (vg_q _ _ _ _ _ (gr_v _ _ _ _ _ _ _ _ _ _ _ _ _ _ G)) as [ad ->]. repeat split. cbn. apply length_alter.
Qed.

Lemma writei_loop_done f user src bs S s0 s v n m q c off tot :
  let cnt := Z.of_nat (length bs) in
  source p S user src bs → txc X p s0 s v n m →
  s0.(procs) = S.(procs) → s0.(freelist) = S.(freelist) → s0.(pmem) = S.(pmem) →
  nblk off (cnt - tot) + icost q + 1 ≤ n → nblk off (cnt - tot) + icost q + 1 ≤ m →
  s0.(sb) = k → (∀ y, v.(vl) y = free_lock) → avail v k c →
  off + (cnt - tot) ≤ q.(i_size) ∨ nblk off (cnt - tot) + icost q ≤ c →
  fs_ok v k → get_inode ip s0 = q → (ip < length s0.(itable))%nat → file_ok v k q →
  (ind q ≠ 0 → pay X s0 (ind q) = 0) →
  0 ≤ tot ≤ cnt → 0 ≤ off → off + (cnt - tot) ≤ MAXFILE * BSIZE →
  (tot < cnt → cnt - tot + off mod BSIZE ≤ Z.of_nat f * BSIZE) →
  ∃ s0' s' v' q' n' m',
    writei_loop f ip user (u64 (src + tot)) off cnt tot s = Done (cnt, off + (cnt - tot)) s' ∧
    grown k X p ip s0 s v q s0' s' v' q' n' m' ∧ 1 ≤ n' ∧ 1 ≤ m' ∧
    kept v q v' q' (λ o, ¬ in_range off (cnt - tot) o) ∧
    ∀ i, tot ≤ i < cnt → faddr v' q' ((off + (i - tot)) / BSIZE) ≠ 0 ∧ fbyte v' q' (off + (i - tot)) = bs !!! Z.to_nat i.
Proof.
  intros cnt Hsrc. revert s0 s v n m q c off tot.
  induction f as [|f IH]; intros s0 s v n m q c off tot HT Hps Hfr Hm0 Hn Hm Hk Hfl Hav Hc Hfs Hq Hip Hok Hpay Ht Ho Hmax Hf;
    pose proof (icost_range q) as Hic; cbn [writei_loop]; destruct (Z.ltb_spec tot cnt) as [Hlt|Hge].
  1: { unfold BSIZE in Hf. mlia. }
  1, 3: exists s0, s, v, q, n, m; unfold nblk in *; rewrite (proj2 (Z.leb_le (cnt - tot) 0)) in * by lia;
    split; [do 2 f_equal; lia|]; split; [apply grown_refl; try done; apply onward_refl|]; split; [lia|]; split; [lia|];
    split; [apply kept_refl|]; intros i Hi; lia.
  assert (Hbs : off mod BSIZE < BSIZE ∧ 0 ≤ off mod BSIZE) by (unfold BSIZE; mlia).
  destruct (zmin_spec (cnt - tot) (BSIZE - off mod BSIZE)) as (Hz1 & Hz2 & Hz3); [lia|lia|]. set (z := zmin _ _) in *.
  pose proof (nblk_round off (cnt - tot) z Ho Hz1 Hz3 Hz2) as Hnb.
  assert (Hnb0 : 0 ≤ nblk (off + z) (cnt - tot - z)).
  { unfold nblk, BSIZE. destruct (_ <=? 0) eqn:Ez; bool_hyps; mlia. }
  set (d := take (Z.to_nat z) (drop (Z.to_nat tot) bs)).
  assert (Hdl : Z.of_nat (length d) = z) by (unfold d; rewrite length_take, length_drop; lia).
  destruct (write_round user (u64 (src + tot)) z d s0 s v n m q c off
    (writei_loop f ip user (u64 (u64 (src + tot) + z)) (u32 (off + z)) cnt (tot + z)) tot)
    as (s1 & t1 & v1 & q1 & e & E1 & G1 & K1 & B1 & He & Hav1); try done; try lia.
  { intros s' Q1 Q2 Q3 Q4. apply Hsrc; [done|congruence|congruence|congruence|lia|lia|unfold cnt in *; lia]. }
  { destruct Hc as [Hc|Hc]; [left|right; lia]. apply (fo_cover _ _ _ Hok); unfold BSIZE; mlia. }
  rewrite E1. destruct (grown_state _ _ _ _ _ _ _ _ _ _ G1) as (S1 & S2 & S2' & S3 & S4 & S5).
  pose proof G1 as [T1 _ T3 [_ T5 T6 _ _ _] T8 T9 T11]. pose proof (icost_range q1) as Hic1.
  assert (Hoff : u32 (off + z) = off + z) by (apply u32_small; change MAXFILE with 268 in *; unfold BSIZE in *; lia).
  assert (Hs64 : u64 (u64 (src + tot) + z) = u64 (src + (tot + z))) by (unfold u64; rewrite Zplus_mod_idemp_l; f_equal; lia).
  rewrite Hoff, Hs64. replace (cnt - tot - z) with (cnt - (tot + z)) in * by lia.
  destruct (IH s1 t1 v1 (n - e) (m - e) q1 (c - e) (off + z) (tot + z)) as (s2 & t2 & v2 & q2 & n' & m' & E2 & G2 & N1 & N2 & K2 & B2);
    try done; try congruence; try lia.
  - intros y. by rewrite (ow_l _ _ _ _ T9).
  - intros Hlt'. unfold BSIZE in *. destruct Hz3 as [Hz3|Hz3]; [lia|]. rewrite Hz3 in *. specialize (Hf Hlt). mlia.
  - exists s2, t2, v2, q2, n', m'. split; [rewrite E2; do 2 f_equal; lia|]. split; [by eapply grown_trans|].
    split; [done|]. split; [done|]. rewrite Hdl in K1. split.
    + eapply kept_trans; [exact K1|exact K2|]. intros o HP. unfold in_range in *. lia.
    + intros i Hi. destruct (decide (i < tot + z)) as [Hiz|Hiz].
      * destruct (B1 (Z.to_nat (i - tot))) as [Ha1 Hb1]; [lia|]. rewrite Z2Nat.id in Ha1, Hb1 by lia.
        destruct (K2 (off + (i - tot))) as [Ha2 Hb2]; [lia|]. specialize (Ha2 Ha1). split; [done|].
        rewrite <- fget_byte, Hb2, fget_byte, Hb1 by (done || (unfold in_range; lia)).
        unfold d. rewrite !list_lookup_total_alt, lookup_take_lt, lookup_drop by lia. do 2 f_equal. lia.
      * destruct (B2 i) as [Ha2 Hb2]; [lia|]. by replace (off + z + (i - (tot + z))) with (off + (i - tot)) in Ha2, Hb2 by lia.
Qed.

(** ** The inode *)

Hypothesis Hly : sb_layout k.

(** ** writei *)

(** The file [q] after the bytes [bs] were written at [off]. *)
Record written (s0 s : kstate) (v : view) (q : inode) (off : Z) (bs : list Z) (s0' s' : kstate) (v' : view) (q' : inode) : Prop := {
  wn_state : ∃ g f, s0' = set_klog g (upd_inode ip f s0);
  wn_get : get_inode ip s0' = q';
  wn_onward : onward s v s' v';
  wn_v : vwritten k v q off bs v' q' }.

Lemma size_step s0 s v n m q e (K : K Z) : txc X p s0 s v n m → (ip < length s0.(itable))%nat → get_inode ip s0 = q →
  ∃ f s', (when (q.(i_size) <? e) (modify (upd_inode ip (set_i_size (λ _, e)))) ;; K) s = K s' ∧
    txc X p (upd_inode ip f s0) s' v n m ∧ onward s v s' v ∧
    get_inode ip (upd_inode ip f s0) = set_i_size (λ _, Z.max q.(i_size) e) q.
Proof.
  intros HT Hip Hq. destruct (Z.ltb_spec q.(i_size) e) as [Hlt|Hge].
  - exists (set_i_size (λ _, e)), (upd_inode ip (set_i_size (λ _, e)) s). split; [done|]. split; [by apply txc_inode|].
    split; [by destruct (onward_refl s v)|]. unfold get_inode in *. cbn. rewrite lookup_total_alter_list_eq, Hq by done.
    by rewrite Z.max_r by lia.
  - exists (λ x, x), s. rewrite upd_inode_id. split; [done|]. split; [done|]. split; [apply onward_refl|].
    rewrite Hq, Z.max_l by lia. by destruct q.
Qed.

Lemma writei_done user src bs s0 s v n m q c off :
  let cnt := Z.of_nat (length bs) in
  source p s0 user src bs → 0 ≤ src < 18446744073709551616 → txc X p s0 s v n m →
  nblk off cnt + icost q + 1 ≤ n → nblk off cnt + icost q + 1 ≤ m →
  s0.(sb) = k → (∀ y, v.(vl) y = free_lock) → avail v k c →
  off + cnt ≤ q.(i_size) ∨ nblk off cnt + icost q ≤ c →
  fs_ok v k → get_inode ip s0 = q → (ip < length s0.(itable))%nat → file_ok v k q →
  (ind q ≠ 0 → pay X s0 (ind q) = 0) → IBLOCK q.(i_inum) k ∈ X →
  0 ≤ off ≤ q.(i_size) → off + cnt ≤ MAXFILE * BSIZE →
  ∃ s0' s' v' q' n' m', writei ip user src off cnt s = Done cnt s' ∧ txc X p s0' s' v' n' m' ∧ 1 ≤ m' ∧
    written s0 s v q off bs s0' s' v' q'.
Proof.
  intros cnt Hsrc Hs64 HT Hn Hm Hk Hfl Hav Hc Hfs Hq Hip Hok Hpay HIX Hoff Hmax. unfold writei.
  pose proof (fo_size _ _ _ Hok) as Hfsz. change (MAXFILE * BSIZE) with 274432 in *.
  assert (Hcnt : 0 ≤ cnt) by (unfold cnt; lia).
  mstep (gets_inode _ _ _ _ _ _ _ _ _ HT Hq). rewrite u32_small by lia.
  rewrite (proj2 (Z.ltb_ge _ _)), (proj2 (Z.ltb_ge (off + cnt) _)), (proj2 (Z.ltb_ge 274432 _)) by lia. cbn [orb].
  destruct (writei_loop_done (io_rounds cnt) user src bs s0 s0 s v n m q c off 0)
    as (s1 & t1 & v1 & q1 & n1 & m1 & E1 & G1 & N1 & M1 & K1 & B1);
    fold cnt; rewrite ?Z.sub_0_r; try done; try lia.
  { intros _. unfold io_rounds, BSIZE in *. mlia. }
  fold cnt in E1, K1, B1. rewrite Z.sub_0_r in E1, K1. rewrite Z.add_0_r, (u64_small src) in E1 by done. mstep E1. cbn [fst snd].
  destruct (grown_state _ _ _ _ _ _ _ _ _ _ G1) as (S1 & S2 & S2' & S3 & S4 & S5).
  pose proof G1 as [T1 (g & f & T2) T3 T4 T8 T9 T11]. destruct (vg_q _ _ _ _ _ T4) as [ad Eq1].
  mstep (gets_inode _ _ _ _ _ _ _ _ _ T1 T3).
  destruct (size_step s1 t1 v1 n1 m1 q1 (off + cnt) (iupdate ip ;; mret (s32 cnt)) T1) as (f1 & t2 & E2 & HT2 & HO2 & Hq2); [lia|done|].
  rewrite E2. rewrite S5 in Hq2. set (q2 := set_i_size _ q1) in *.
  assert (Hin2 : i_inum q2 = i_inum q) by (unfold q2; cbn; by rewrite Eq1).
  set (v3' := mk_view (fupd v1.(vb) (IBLOCK q.(i_inum) k) (put_dinode (ioff q.(i_inum)) (dinode_of q2) (v1.(vb) (IBLOCK q.(i_inum) k))))
    v1.(vr) v1.(vl) v1.(vu) v1.(vd) v1.(vw)).
  pose proof (fo_inum _ _ _ Hok) as Hin. pose proof (sl_ninodes _ Hly) as Hni.
  assert (HW : ∀ w, (∀ b, w.(vb) b = v3'.(vb) b) → dinode_ok (dinode_of q2) ∧ vwritten k v q off bs w q2).
  { intros w Hw. destruct (write_inode k Hly v q off bs v1 q1 w) as (? & ? & _); try done.
    - intros b. exact (txc_len _ _ _ _ _ _ _ b T1).
    - intros i Hi. destruct (B1 (Z.of_nat i)) as [Ha Hb]; [unfold cnt; lia|]. rewrite Z.sub_0_r in Ha, Hb. by rewrite Nat2Z.id in Hb. }
  destruct (HW v3' (λ _, eq_refl)) as [Hdi _].
  destruct (iupdate_done X p _ t2 v1 n1 m1 ip k HT2 N1 M1) as (s3 & t3 & v3 & E3 & HT3 & [ [g3 Hg3] Hlg3] & HO3 & Hv3);
    rewrite ?Hq2, ?Hin2; try done.
  { by rewrite <- Hk, <- S1. } { rewrite (ow_l _ _ _ _ T9). apply Hfl. } { unfold q2. cbn. rewrite Eq1. apply Hok. } { lia. }
  rewrite Hq2, Hin2 in HT3, Hv3. mstep E3. rewrite s32_small by lia.
  exists s3, t3, v3, q2. eexists _, _. split; [done|]. split; [exact HT3|]. rewrite (pay_in _ _ _ HIX). split; [lia|].
  split; try done.
  - rewrite Hg3, T2. exists (g3 ∘ g), (f1 ∘ f). unfold upd_inode, set_itable, set_klog. cbn. by rewrite alter_alter_list.
  - rewrite Hg3. exact Hq2.
  - eapply onward_trans; [exact T9|]. by eapply onward_trans.
  - by apply HW.
Qed.

(** What writei refuses, changing nothing. *)
Definition write_refused (size off cnt : Z) : bool :=
  (size <? off) || (4294967296 <=? off + cnt) || (MAXFILE * BSIZE <? off + cnt).

Lemma writei_refuses user src s0 s v n m q off cnt :
  txc X p s0 s v n m → get_inode ip s0 = q → 0 ≤ off < 4294967296 → 0 ≤ cnt < 4294967296 →
  write_refused q.(i_size) off cnt = true → writei ip user src off cnt s = Done (-1) s.
Proof.
  intros HT Hq Hoff Hcnt. unfold write_refused, writei. mstep (gets_inode _ _ _ _ _ _ _ _ _ HT Hq).
  destruct (u32_add_wraps off cnt Hoff Hcnt) as [-> Hw]. destruct (i_size q <? off); [done|].
  destruct (Z.leb_spec 4294967296 (off + cnt)); [done|]. rewrite Hw by lia. cbn [orb]. by intros ->.
Qed.

End write.

Section claims.
Context {Fl : Fuel} {La : Layout} {Dv : Device} `{Bs : BlockDevSpec}.

(** Process [p] can write [cnt] bytes at [off] of file [q], entry [ip] of the
    inode table: the transaction has space for the blocks the bytes touch, the
    indirect block, and the blocks of [X], which are the bitmap, the inode's
    block and the present indirect block; the blocks the file lacks are free. *)
Record write_ready (k : superblock) (X : gset Z) (p ip : nat) (s0 s : kstate) (v : view) (q : inode) (off cnt : Z) : Prop := {
  wr_sb : s0.(sb) = k;
  wr_sb_ok : sb_ok k;
  wr_layout : sb_layout k;
  wr_bitmap y : 0 ≤ y < k.(sb_size) → BBLOCK y k ∈ X;
  wr_inode : IBLOCK q.(i_inum) k ∈ X;
  wr_ind : ind q ≠ 0 → ind q ∈ X;
  wr_room : txc X p s0 s v (nblk off cnt + icost q + 1) (nblk off cnt + icost q + 1);
  wr_unlocked y : v.(vl) y = free_lock;
  wr_avail : off + cnt ≤ q.(i_size) ∧ avail v k 0 ∨ avail v k (nblk off cnt + icost q);
  wr_get : get_inode ip s0 = q;
  wr_ip : (ip < length s0.(itable))%nat }.

Lemma write_ready_done k X p ip s0 s v q off user src bs :
  let cnt := Z.of_nat (length bs) in
  write_ready k X p ip s0 s v q off cnt → fs_ok v k → file_ok v k q →
  source p s0 user src bs → 0 ≤ src < 18446744073709551616 → 0 ≤ off → write_refused q.(i_size) off cnt = false →
  ∃ s0' s' v' q' n' m', writei ip user src off cnt s = Done cnt s' ∧ txc X p s0' s' v' n' m' ∧ 1 ≤ m' ∧
    written k ip s0 s v q off bs s0' s' v' q'.
Proof.
  intros cnt [R1 R2 R3 R4 R5 R6 R7 R8 R9 R10 R11] Hfs Hok Hsrc H64 Hoff Href.
  unfold write_refused in Href. apply orb_false_iff in Href as [ [Hr1 Hr2]%orb_false_iff Hr3]. bool_hyps.
  assert (Hc : ∃ c, avail v k c ∧ (off + cnt ≤ q.(i_size) ∨ nblk off cnt + icost q ≤ c)).
  { destruct R9 as [ [H1 H2]|H]; [exists 0|eexists]; (split; [done|]); [by left|right; lia]. }
  destruct Hc as (c & Hav & Hc).
  eapply (writei_done k X p ip); try done. by intros; apply pay_in, R6.
Qed.

(** C16. writei keeps the file system well formed: after a write to one file
    of a table of files that share no block, the table with the changed inode
    is again such a table, with every block it uses marked in the bitmap; its
    inode on disk is the one in memory and the other inodes on disk are as they
    were.  The file has the bytes written where they were put and its old bytes
    elsewhere, and the other files have the bytes they had. *)
Theorem writei_keeps_files k X p ip s0 s v q off user src bs Q i :
  let cnt := Z.of_nat (length bs) in
  write_ready k X p ip s0 s v q off cnt → files_ok k v Q → Q !! i = Some q →
  source p s0 user src bs → 0 ≤ src < 18446744073709551616 → 0 ≤ off → write_refused q.(i_size) off cnt = false →
  ∃ s0' s' v' q', writei ip user src off cnt s = Done cnt s' ∧ at_view s0' s' v' ∧
    get_inode ip s' = q' ∧ files_ok k v' (<[i := q']> Q) ∧
    (∀ j, 0 ≤ j < k.(sb_ninodes) → dinode_at (v'.(vb) (IBLOCK j k)) (ioff j) =
       if decide (j = q.(i_inum)) then dinode_of q' else dinode_at (v.(vb) (IBLOCK j k)) (ioff j)) ∧
    q'.(i_size) = Z.max q.(i_size) (off + cnt) ∧
    (∀ o, 0 ≤ o < q'.(i_size) → fbyte v' q' o =
       if decide (off ≤ o < off + cnt) then bs !!! Z.to_nat (o - off) else fbyte v q o) ∧
    ∀ j q2, j ≠ i → Q !! j = Some q2 → ∀ o, 0 ≤ o < q2.(i_size) → fbyte v' q2 o = fbyte v q2 o.
Proof.
  intros cnt Hr HQ Hi Hsrc H64 Hoff Href. pose proof HQ as [F1 F2 F3].
  destruct (write_ready_done k X p ip s0 s v q off user src bs Hr F1 (F2 i q Hi) Hsrc H64 Hoff Href)
    as (s0' & s' & v' & q' & n' & m' & E & HT & _ & W). fold cnt in E.
  pose proof (wn_v _ _ _ _ _ _ _ _ _ _ _ _ W) as Wv. destruct (written_files k v q off bs v' q' Q i Wv HQ Hi) as [W1 W2].
  destruct (vw_q _ _ _ _ _ _ _ Wv) as [ad Eq].
  exists s0', s', v', q'. split; [done|]. split; [apply HT|].
  split; [rewrite (txc_get_inode _ _ _ _ _ _ _ ip HT); apply W|]. split; [done|]. split; [apply Wv|].
  split; [by rewrite Eq|]. split; [|intros j q2 Hj Hj2 o; apply (un_byte k); [by eapply F2|by eapply W2]].
  intros o Ho. case_decide as Hd.
  - rewrite <- (vw_bytes _ _ _ _ _ _ _ Wv) by (unfold cnt in *; lia). f_equal. lia.
  - apply (vw_old k v q off bs v' q' o Wv (F2 i q Hi)); [|exact Hd]. rewrite Eq in Ho. cbn in Ho. fold cnt in Ho. unfold write_refused in Href.
    apply orb_false_iff in Href as [ [Hr1 Hr2]%orb_false_iff Hr3]. bool_hyps. lia.
Qed.

(** What writei stores, readi delivers: the bytes taken from any source,
    kernel or user memory, written at an offset and read back from there into
    any destination arrive there unchanged. *)
Lemma writei_readi_any k X p ip s0 s v q off user src bs user' dst R :
  let cnt := Z.of_nat (length bs) in
  write_ready k X p ip s0 s v q off cnt → fs_ok v k → file_ok v k q →
  source p s0 user src bs → 0 ≤ src < 18446744073709551616 → 0 ≤ off → write_refused q.(i_size) off cnt = false →
  sink p s0 user' dst (length bs) R → R [] s0.(pmem) → 0 ≤ dst < 18446744073709551616 →
  ∃ s1 s2, writei ip user src off cnt s = Done cnt s1 ∧ readi ip user' dst off cnt s1 = Done cnt s2 ∧ R bs s2.(pmem).
Proof.
  intros cnt Hr Hfs Hok Hsrc H64 Hoff Href Hsink HR Hd.
  destruct (write_ready_done k X p ip s0 s v q off user src bs Hr Hfs Hok Hsrc H64 Hoff Href)
    as (s0' & s' & v' & q' & n' & m' & E & HT & Hm & W). fold cnt in E.
  pose proof (wn_v _ _ _ _ _ _ _ _ _ _ _ _ W) as Wv. destruct (vw_q _ _ _ _ _ _ _ Wv) as [ad Eq]. destruct (wn_state _ _ _ _ _ _ _ _ _ _ _ _ W) as (g & f & Es).
  unfold write_refused in Href. apply orb_false_iff in Href as [ [Hr1 Hr2]%orb_false_iff Hr3]. bool_hyps.
  change (MAXFILE * BSIZE) with 274432 in *. assert (Hcnt : 0 ≤ cnt) by (unfold cnt; lia).
  destruct (readi_done k X p ip q' (wr_sb_ok _ _ _ _ _ _ _ _ _ _ Hr) user' dst off cnt R s0 s0' s' v' n' m')
    as (g' & s2 & E2 & HT2 & _ & HR2); try done.
  - unfold cnt. by rewrite Nat2Z.id.
  - by rewrite Es.
  - intros y. rewrite (ow_l _ _ _ _ (wn_onward _ _ _ _ _ _ _ _ _ _ _ _ W)). apply Hr.
  - apply W.
  - apply W.
  - by rewrite Es.
  - by rewrite Es.
  - lia.
  - lia.
  - assert (Hc : read_count (i_size q') off cnt = cnt).
    { rewrite Eq. unfold read_count. cbn. fold cnt. destruct (Z.ltb_spec (Z.max (i_size q) (off + cnt)) off); [lia|].
      destruct (Z.leb_spec 4294967296 (off + cnt)); [lia|]. cbn [orb]. lia. }
    rewrite Hc in E2, HR2. exists s', s2. split; [done|]. split; [done|]. rewrite (txc_mem _ _ _ _ _ _ _ HT2).
    assert (fbytes v' q' off (Z.to_nat cnt) = bs) as Hb; [|by rewrite Hb in HR2].
    unfold cnt. rewrite Nat2Z.id. by apply (vw_fbytes k v q).
Qed.

(** C18. readi delivers the bytes of a file from [off], as many as were asked
    for and the file has, through the block map and the buffer cache, and none
    when [off] is past the end or [off] and the count overflow; no block
    changes.  The caller is the one thread in the kernel and has the inode, as
    the code asks of it; buffers are not locked. *)
Theorem readi_reads k X p ip s0 s v n m q off cnt user dst R :
  sb_ok k → txc X p s0 s v n m → 1 ≤ m → (∀ y, v.(vl) y = free_lock) → get_inode ip s0 = q → file_ok v k q →
  sink p s0 user dst (Z.to_nat cnt) R → R [] s0.(pmem) → 0 ≤ dst < 18446744073709551616 →
  0 ≤ off < 4294967296 → 0 ≤ cnt < 4294967296 →
  let c := read_count q.(i_size) off cnt in
  ∃ m' s', readi ip user dst off cnt s = Done c s' ∧ at_view (set_pmem (λ _, m') s0) s' v ∧
    R (fbytes v q off (Z.to_nat c)) m'.
Proof.
  intros Hsb HT Hm Hfl Hq Hok Hsink HR Hd Hoff Hcnt c.
  destruct (readi_done k X p ip q Hsb user dst off cnt R s0 s0 s v n m) as (g & s' & E & HT' & _ & HR'); try done.
  exists (g s0.(pmem)), s'. split; [done|]. split; [|done]. exact (tx_view _ _ _ _ _ _ (proj1 HT')).
Qed.
End claims.

(** ** A concrete file: inode 7, empty, of the file system of [FsSpec]. *)

(** A new inode: no bytes, no blocks. *)
Definition empty_of (inum type : Z) : inode := mk_inode ROOTDEV inum 1 (mk_sleeplock 0 0) 1 type 0 0 1 0 (replicate 13 0).
Definition empty_inode : inode := empty_of 7 T_FILE.
Definition file_demo : kstate := upd_inode 0 (λ _, empty_inode) fs_demo.
Definition demo_meta : gset Z := {[46; 33]}.

Lemma demo_bblock y : 0 ≤ y < 2000 → BBLOCK y demo_sb = 46.
Proof. intros Hy. unfold BBLOCK. cbn [sb_bmapstart demo_sb]. change BPB with 8192. rewrite Z.div_small by lia. done. Qed.
Lemma demo_iblock i : 0 ≤ i < 200 → 33 ≤ IBLOCK i demo_sb ≤ 45.
Proof. intros Hi. unfold IBLOCK. cbn [sb_inodestart demo_sb]. change IPB with 16. rewrite u32_small by mlia. mlia. Qed.

Lemma demo_bits y : 0 ≤ y < 2000 → is_free_block (view_of fs_demo) demo_sb y ↔ bit_clear demo_bitmap y = true.
Proof.
  intros Hy. unfold is_free_block. destruct (with_fs_view demo_disk demo_boot fs_demo_uncached) as (Hb & _ & _).
  unfold fs_demo, fs_on. rewrite Hb, demo_bblock, demo_disk_block, decide_True by done. clear Hb.
  change BPB with 8192. rewrite Z.mod_small by lia. done.
Qed.

Lemma demo_layout : sb_layout demo_sb.
Proof.
  split; [cbn; lia|]. cbn. intros i y Hi Hy. rewrite demo_bblock by done. pose proof (demo_iblock i Hi). lia.
Qed.

Lemma demo_fs_ok : fs_ok (view_of fs_demo) demo_sb.
Proof.
  intros y Hy Hf. cbn in Hy. assert (47 ≤ y).
  { destruct (decide (y ≤ 47)); [|lia]. apply fs_demo_free in Hf; lia. }
  split; cbn; [lia| |]; intros j Hj; [rewrite demo_bblock by done; lia|]. pose proof (demo_iblock j Hj). lia.
Qed.

Lemma demo_avail : avail (view_of fs_demo) demo_sb 2.
Proof.
  exists [47; 48]. split; [apply (bool_decide_unpack _); by vm_compute|]. split; [cbn; lia|].
  intros x Hx. assert (x = 47 ∨ x = 48) as Hx' by set_solver.
  destruct Hx' as [-> | ->]; (split; [cbn; lia|]); (apply demo_bits; [lia|]); by vm_compute.
Qed.

Lemma empty_faddr v inum type bn : faddr v (empty_of inum type) bn = 0.
Proof.
  unfold faddr. change (ind (empty_of inum type) =? 0) with true. destruct (Z.ltb_spec bn 12) as [Hb|]; [|done].
  cbn [i_addrs empty_of]. rewrite list_lookup_total_alt. destruct (_ !! _) as [x|] eqn:E.
  - by apply lookup_replicate in E as [-> _].
  - apply lookup_ge_None in E. rewrite length_replicate in E. lia.
Qed.

Lemma empty_fblock v inum type b : ¬ fblock v (empty_of inum type) b.
Proof. intros [Hb0 [-> | (bn & _ & Hb)]]; [by destruct (Hb0 eq_refl)|]. rewrite empty_faddr in Hb. by destruct Hb0. Qed.

Lemma empty_ok v inum type : 0 ≤ inum < 200 → -32768 ≤ type < 32768 → file_ok v demo_sb (empty_of inum type).
Proof.
  intros Hi Ht. split.
  - done.
  - done.
  - split; cbn; try lia. repeat constructor; lia.
  - cbn. change (MAXFILE * BSIZE) with 274432. lia.
  - intros b Hb. by apply empty_fblock in Hb.
  - intros bn bn' _ _ H. by rewrite empty_faddr in H.
  - intros bn _ H. by rewrite empty_faddr in H.
  - intros bn Hb. cbn. unfold BSIZE. lia.
Qed.

Lemma empty_file_ok v : file_ok v demo_sb empty_inode.
Proof. apply empty_ok; unfold T_FILE; lia. Qed.

Lemma demo_ready (cnt : Z) : 1 ≤ cnt ≤ 1000 → let F : Fuel := 1%nat in let D := ideal_disk in
  @write_ready D ideal_disk_spec demo_sb demo_meta 3 0 file_demo file_demo (view_of fs_demo) empty_inode 0 cnt.
Proof.
  intros Hc F D. assert (Hn : nblk 0 cnt = 1).
  { unfold nblk, BSIZE. rewrite (proj2 (Z.leb_gt cnt 0)) by lia. mlia. }
  assert (Hmis : missing demo_meta file_demo = 2) by (by vm_compute).
  split; rewrite ?Hn.
  - exact eq_refl.
  - exact demo_sb_ok.
  - exact demo_layout.
  - intros y Hy. cbn in Hy. rewrite demo_bblock by done. apply (bool_decide_unpack _). by vm_compute.
  - apply (bool_decide_unpack _). by vm_compute.
  - intros H. destruct (H eq_refl).
  - split; [|change (icost empty_inode) with 1; lia]. rewrite Hmis. change (icost empty_inode) with 1.
    apply tx_weaken with 10 10; [|lia|lia]. exact (tx_inode 3 fs_demo fs_demo _ 10 10 0 (λ _, empty_inode) fs_demo_tx).
  - exact fs_demo_unlocked.
  - right. exact demo_avail.
  - by vm_compute.
  - apply (bool_decide_unpack _). by vm_compute.
Qed.

Lemma demo_files : files_ok demo_sb (view_of fs_demo) [empty_inode].
Proof.
  split; [exact demo_fs_ok| |].
  - intros [|i] q; [|discriminate]. intros [= <-]. apply empty_file_ok.
  - intros [|i] [|j] q q' b; try discriminate. intros _ _ H. destruct (H eq_refl).
Qed.

Lemma demo_refused n : (n ≤ 1000)%nat → write_refused (i_size empty_inode) 0 (Z.of_nat n) = false.
Proof.
  intros Hn. unfold write_refused. cbn [i_size empty_inode empty_of]. change (MAXFILE * BSIZE) with 274432.
  rewrite (proj2 (Z.leb_gt _ _)), (proj2 (Z.ltb_ge 274432 _)) by lia. done.
Qed.

(** A file of 16 bytes, in block 47. *)
Definition one_block (inum ty nlink : Z) : inode := mk_inode ROOTDEV inum 1 free_lock 1 ty 0 0 nlink 16 (47 :: replicate 12 0).
Definition full_bitmap : list Z := replicate 6 255 ++ replicate 1018 0.

Lemma one_faddr v inum ty nl bn : 0 ≤ bn → faddr v (one_block inum ty nl) bn = if decide (bn = 0) then 47 else 0.
Proof.
  intros Hb. unfold faddr. change (ind (one_block inum ty nl) =? 0) with true. destruct (Z.ltb_spec bn 12); [|by rewrite decide_False by lia].
  assert (H12 : ∀ n, (n < 12)%nat → (47 :: replicate 12 0) !!! n = if decide (n = 0%nat) then 47 else 0).
  { intros n Hn. do 12 (destruct n as [|n]; [done|]). lia. }
  cbn [i_addrs one_block]. rewrite H12 by lia. repeat case_decide; lia.
Qed.

Lemma one_fblock v inum ty nl b : fblock v (one_block inum ty nl) b → b = 47.
Proof. intros [Hb0 [-> | (bn & Hbn & Hb)]]; [by destruct (Hb0 eq_refl)|]. rewrite one_faddr in Hb by lia. case_decide; lia. Qed.

Lemma one_block_ok v inum ty nl : v.(vb) 46 = full_bitmap → 0 ≤ inum < demo_sb.(sb_ninodes) → 0 ≤ ty ≤ 3 → 0 ≤ nl ≤ 1 →
  file_ok v demo_sb (one_block inum ty nl).
Proof.
  intros Hv Hi Ht Hl. split.
  - done.
  - exact Hi.
  - split; cbn; try lia. repeat constructor; lia.
  - cbn. change (MAXFILE * BSIZE) with 274432. lia.
  - intros b Hb. apply one_fblock in Hb as ->. split; [split; cbn|].
    + lia.
    + intros y Hy. rewrite demo_bblock by done. lia.
    + intros i Hi'. pose proof (demo_iblock i Hi'). lia.
    + unfold is_free_block. change (BBLOCK 47 demo_sb) with 46. rewrite Hv. intros Hf. by vm_compute in Hf.
  - intros bn bn' H H' Hn. rewrite !one_faddr in * by lia. repeat case_decide; lia.
  - intros bn _ Hne. exact Hne.
  - intros bn Hb Hs. cbn in Hs. unfold BSIZE in Hs. rewrite one_faddr, decide_True by lia. lia.
Qed.

(** Three bytes of kernel memory at 0x100 are written to the file. *)
Lemma writei_keeps_files_witness :
  let F : Fuel := 1%nat in let L := layout64 in let V := demo_device in let D := ideal_disk in
  ∃ s' q', writei 0 false 0x100 0 3 file_demo = Done 3 s' ∧ get_inode 0 s' = q' ∧ q'.(i_size) = 3.
Proof.
  intros F L V D.
  destruct (@writei_keeps_files F L V D ideal_disk_spec demo_sb demo_meta 3 0 file_demo file_demo (view_of fs_demo) empty_inode
    0 false 0x100 (rd file_demo.(pmem) 0x100 3) [empty_inode] 0%nat) as (s0' & s' & v' & q' & E & _ & G & _ & _ & Hsz & _).
  - rewrite length_rd. exact (demo_ready 3 ltac:(lia)).
  - exact demo_files.
  - exact eq_refl.
  - apply (kernel_source 3 file_demo 0x100 3); lia.
  - lia.
  - lia.
  - rewrite length_rd. apply demo_refused. lia.
  - rewrite length_rd in E, Hsz. exists s', q'. split; [exact E|]. split; [exact G|exact Hsz].
Defined.

Definition text_file : inode := one_block 7 T_FILE 1.
Definition text_disk : gmap Z (list Z) := {[46 := full_bitmap; 47 := [104; 105; 33] ++ drop 3 zero_block]}.
Definition text_state : kstate := upd_inode 0 (λ _, text_file) (fs_on text_disk).

(** Reading 20 bytes from offset 1 delivers the 15 there are. *)
Lemma readi_reads_witness :
  let F : Fuel := 1%nat in let L := layout64 in let V := demo_device in let D := ideal_disk in
  ∃ s', readi 0 false 0x200 1 20 text_state = Done 15 s' ∧ rd s'.(pmem) 0x200 15 = [105; 33] ++ replicate 13 0.
Proof.
  intros F L V D.
  assert (Hlen : ∀ b, length (default zero_block (text_disk !! b)) = 1024%nat).
  { intros b. destruct (text_disk !! b) as [d|] eqn:E; [|by vm_compute]. revert b d E. apply map_Forall_lookup.
    apply (bool_decide_unpack _). by vm_compute. }
  destruct (with_fs_view text_disk demo_boot fs_demo_uncached) as (Hb & _ & Hl). set (v := view_of (with_fs text_disk demo_boot)) in *.
  assert (HT : @txc D ideal_disk_spec ∅ 3 text_state text_state v 10 10).
  { apply tx_txc. exact (tx_inode 3 _ _ _ 10 10 0 (λ _, text_file) (fs_on_tx text_disk Hlen)). }
  destruct (@readi_reads F L V D ideal_disk_spec demo_sb ∅ 3 0 text_state text_state v 10 10 text_file
    1 20 false 0x200 (λ bs m, m = wr text_state.(pmem) 0x200 bs) demo_sb_ok HT) as (m' & s' & E & Hv & Hm).
  - lia.
  - exact Hl.
  - by vm_compute.
  - apply one_block_ok; [by rewrite Hb|cbn; lia|unfold T_FILE; lia|lia].
  - apply kernel_sink; lia.
  - exact eq_refl.
  - lia.
  - lia.
  - lia.
  - exists s'. split; [exact E|].
    destruct (av_state _ _ _ Hv) as (bs & vk & d & w & Es). rewrite Es, Hm.
    change (rd (wr (pmem text_state) 0x200 (fbytes v text_file 1 15)) 0x200 15 = [105; 33] ++ replicate 13 0).
    rewrite rd_wr_same by (by rewrite length_fbytes). unfold fbytes. rewrite <- list_fmap_compose.
    rewrite (list_fmap_ext _ (λ i, (([104; 105; 33] ++ drop 3 zero_block) !!! S i))); [by vm_compute|].
    intros j i [-> Hi]%lookup_seq. unfold compose, fbyte, text_file, BSIZE.
    rewrite Z.div_small, Z.mod_small by lia. rewrite one_faddr, decide_True, Hb by done.
    do 15 (destruct j as [|j]; [by vm_compute|]). lia.
Defined.
