(* ===== verification/FsUser.v ===== *)
(** Files and user memory: the buffers of the read and write system calls are
    sources and destinations of [FsFile] and [FsWrite]. *)

From S2P Require Import Prelude Cmem KString Kstate Spinlock Sleep Sleeplock Kalloc Vm VmSpec UserMem Printf Bio BioSpec Log LogSpec BioProps LogCrash LogSafe Tx Fs FsSpec FsView FsFile FsWrite.
Local Open Scope Z_scope.

Section user.
Context {Fl : Fuel} {La : Layout}.
(** The process, its page table, and the state in which its memory is. *)
Variables (p : nat) (S : kstate) (T : typing) (l : list Z).
Let root : Z := (get_proc p S).(p_pagetable).
Hypothesis HI : vm_inv root S T l.
Hypothesis HU : user_space S.(pmem) root T l.

Lemma current s : quiet p s → s.(procs) = S.(procs) →
  myproc s = Done (Some p) s ∧ (get_proc p s).(p_pagetable) = root.
Proof.
  intros Hq Hp. split; [|unfold root, get_proc; by rewrite Hp].
  rewrite (myproc_done s (quiet_cpu_ok _ _ Hq)). destruct Hq as (_ & _ & Hc & _). unfold cur_cpu. by rewrite Hc.
Qed.

Lemma ubytes_sub m a n j k : (j + k ≤ n)%nat → take k (drop j (ubytes m root a n)) = ubytes m root (a + Z.of_nat j) k.
Proof.
  intros H. unfold ubytes. apply list_eq_same_length with k;
    [by rewrite length_fmap, length_seq|rewrite length_take, length_drop, length_fmap, length_seq; lia|].
  intros i x y Hi. rewrite lookup_take_lt, lookup_drop, !list_lookup_fmap, !lookup_seq_lt by lia. cbn.
  intros [= <-] [= <-]. f_equal. lia.
Qed.

(** The buffer of a write. *)
Lemma user_source src n : 0 ≤ src → src + Z.of_nat n ≤ MAXVA →
  (∀ va, src ≤ va < src + Z.of_nat n → user_page S.(pmem) root va) →
  source p S true src (ubytes S.(pmem) root src n).
Proof.
  intros H0 H1 Hu s j len Hq Hp Hf Hm Hj Hl Hjl. unfold ubytes in Hjl. rewrite length_fmap, length_seq in Hjl.
  destruct (current s Hq Hp) as [Ec Er]. rewrite u64_small by pg. unfold either_copyin. mstep Ec. do 2 mnext.
  assert (HIs : vm_inv root s T l) by (by apply vm_inv_same with S).
  rewrite Er. unfold copyin. rewrite ubytes_sub by lia. rewrite Z2Nat.id by lia. rewrite <- Hm.
  eapply copyin_loop_reads; try done; try lia; rewrite ?Hm; try done.
  - intros va Hva. apply Hu. lia.
  - unfold copy_rounds. pg.
Qed.

(** The buffer of a read, filled up to [bs]. *)
Definition user_received (dst : Z) (bs : list Z) (m : mem) : Prop :=
  vm_inv root (set_pmem (λ _, m) S) T l ∧ user_space m root T l ∧ (∀ va, leaf m root va = leaf S.(pmem) root va) ∧
  ∀ va, 0 ≤ va < MAXVA → user_page S.(pmem) root va →
    ub m root va = if decide (dst ≤ va < dst + Z.of_nat (length bs)) then u8 (bs !!! Z.to_nat (va - dst)) else ub S.(pmem) root va.

Lemma user_sink dst n : 0 ≤ dst → dst + Z.of_nat n ≤ MAXVA →
  (∀ va, dst ≤ va < dst + Z.of_nat n → writable S.(pmem) root va) →
  sink p S true dst n (user_received dst).
Proof.
  intros H0 H1 Hw s bs bs' Hq Hp Hf (R1 & R2 & R3 & R4) Hn. destruct (current s Hq Hp) as [Ec Er].
  rewrite u64_small by pg.
  destruct (copyout_loop_writes (copy_rounds (Z.of_nat (length bs'))) root (dst + Z.of_nat (length bs)) bs' s T l)
    as (m' & E & W1 & W2 & W3 & W4).
  - by apply vm_inv_same with (set_pmem (λ _, s.(pmem)) S).
  - done.
  - lia.
  - lia.
  - intros va Hva. unfold writable, user_page. rewrite R3. apply Hw. lia.
  - unfold copy_rounds. pg.
  - exists m'. split.
    { unfold either_copyout. mstep Ec. do 2 mnext. rewrite Er. exact E. }
    assert (Hup : ∀ va, user_page s.(pmem) root va ↔ user_page S.(pmem) root va) by (intros va; unfold user_page; by rewrite R3).
    split; [|split; [done|split; [intros va; by rewrite W3, R3|]]].
    + destruct W1 as [V1 V2 V3]. split; [done| |done]. destruct V2 as [V2 V2']. split; [|done]. cbn in *. by rewrite <- Hf.
    + intros va Hva Hu. rewrite W4, R4 by (done || by apply Hup). rewrite length_app.
      repeat case_decide; try lia; try done; f_equal.
      * rewrite !list_lookup_total_alt, lookup_app_r by lia. do 2 f_equal. lia.
      * rewrite !list_lookup_total_alt, lookup_app_l by lia. done.
Qed.

Lemma user_received_nil dst : user_received dst [] S.(pmem).
Proof. split; [by destruct HI|]. split; [done|]. split; [done|]. intros va _ _. rewrite decide_False; [done|cbn; lia]. Qed.
End user.

Section claim.
Context {Fl : Fuel} {La : Layout} {Dv : Device} `{Bs : BlockDevSpec}.

(** C17. Bytes of a process's memory written to a file and read back into
    another of its buffers: the buffer then holds the bytes the first one held
    when they were written, and the rest of the process's memory is as it
    was. *)
Theorem user_file_roundtrip k X p ip s0 s v q off src dst n T l :
  let root := (get_proc p s0).(p_pagetable) in
  let m0 := s0.(pmem) in
  let cnt := Z.of_nat n in
  write_ready k X p ip s0 s v q off cnt → fs_ok v k → file_ok v k q →
  0 ≤ off → write_refused q.(i_size) off cnt = false →
  vm_inv root s0 T l → user_space m0 root T l →
  0 ≤ src → src + cnt ≤ MAXVA → (∀ va, src ≤ va < src + cnt → user_page m0 root va) →
  0 ≤ dst → dst + cnt ≤ MAXVA → (∀ va, dst ≤ va < dst + cnt → writable m0 root va) →
  ∃ s1 s2, writei ip true src off cnt s = Done cnt s1 ∧ readi ip true dst off cnt s1 = Done cnt s2 ∧
    ∀ va, 0 ≤ va < MAXVA → user_page m0 root va →
      ub s2.(pmem) root va = if decide (dst ≤ va < dst + cnt) then ub m0 root (src + (va - dst)) else ub m0 root va.
Proof.
  intros root m0 cnt Hr Hfs Hok Hoff Href HI HU Hs0 Hs1 Hs Hd0 Hd1 Hd.
  assert (Hlen : Z.of_nat (length (ubytes m0 root src n)) = cnt) by (unfold ubytes; by rewrite length_fmap, length_seq).
  destruct (writei_readi_any k X p ip s0 s v q off true src (ubytes m0 root src n) true dst (user_received p s0 T l dst))
    as (s1 & s2 & E1 & E2 & (_ & _ & _ & HR)); rewrite ?Hlen; try done.
  - by apply (user_source p s0 T l).
  - pg.
  - unfold ubytes. rewrite length_fmap, length_seq. by apply (user_sink p s0 T l).
  - by apply (user_received_nil p s0 T l).
  - pg.
  - rewrite Hlen in *. exists s1, s2. split; [done|]. split; [done|]. intros va Hva Hu. rewrite HR by done.
    case_decide as Hin; [|done]. unfold ubytes. rewrite list_lookup_total_alt, list_lookup_fmap, lookup_seq_lt by lia.
    cbn. rewrite Z2Nat.id by lia. apply u8_ld8.
Qed.
End claim.

(** ** A concrete process: the file of [FsWrite] and the page of [VmSpec]. *)

Definition with_space (fl : Z) (m : mem) (s : kstate) : kstate :=
  upd_proc 3 (set_p_pagetable (λ _, demo_root)) (set_freelist (λ _, fl) (set_pmem (λ _, m) s)).

Lemma with_space_quiet fl m s : quiet 3 s → quiet 3 (with_space fl m s).
Proof.
  intros (Q1 & Q2 & Q3 & Q4 & Q5 & Q6 & Q7 & Q8 & Q9 & Q10). split_and!; try done.
  - cbn. by rewrite length_alter.
  - intros i q. cbn. rewrite list_lookup_alter. case_decide; [|by apply Q7]. subst.
    destruct (procs s !! 3%nat) as [q0|] eqn:E; [|done]. intros [= <-]. exact (Q7 _ _ E).
  - cbn. by rewrite lookup_total_alter_list_eq by (rewrite Q5; unfold NPROC; lia).
  - cbn. by rewrite lookup_total_alter_list_eq by (rewrite Q5; unfold NPROC; lia).
Qed.

Lemma with_space_tx `{Fl : Fuel} `{Bs : BlockDevSpec} fl m0 s0 s v n m :
  tx 3 s0 s v n m → tx 3 (with_space fl m0 s0) (with_space fl m0 s) v n m.
Proof.
  intros [H1 [(bs & vk & d & w & E) A2 A3 A4 A5 A6 A7 A8 A9] H3 H4 H5 H6 H7 H8 H9 H10 H11].
  split; try done; [by apply with_space_quiet|]. split; try done.
  - exists bs, vk, d, w. by rewrite E.
  - destruct A3 as [B1 B2 B3 B4 B5 B6 B7]. by split.
Qed.

Lemma space_ready fl m cnt : 1 ≤ cnt ≤ 1000 → let F : Fuel := 1%nat in let D := ideal_disk in
  @write_ready D ideal_disk_spec demo_sb demo_meta 3 0 (with_space fl m file_demo) (with_space fl m file_demo)
    (view_of fs_demo) empty_inode 0 cnt.
Proof.
  intros Hc F D. destruct (demo_ready cnt Hc) as [R1 R2 R3 R4 R5 R6 [R7 R7'] R8 R9 R10 R11]. split; try assumption.
  split; [|exact R7']. exact (with_space_tx fl m _ _ _ _ _ R7).
Qed.

Lemma space_table fl m : (get_proc 3 (with_space fl m file_demo)).(p_pagetable) = demo_root.
Proof.
  unfold get_proc, with_space. cbn [procs upd_proc set_procs]. rewrite lookup_total_alter_list_eq; [done|].
  change (procs (set_freelist (λ _, fl) (set_pmem (λ _, m) file_demo))) with (procs file_demo).
  apply (bool_decide_unpack _). by vm_compute.
Qed.

Lemma user_file_roundtrip_witness :
  let F : Fuel := 1%nat in let L := layout64 in let V := demo_device in let D := ideal_disk in
  ∃ S s1 s2, writei 0 true 0x1000 0 3 S = Done 3 s1 ∧ readi 0 true 0x1800 0 3 s1 = Done 3 s2 ∧
    ub s2.(pmem) demo_root 0x1801 = ub S.(pmem) demo_root 0x1001.
Proof.
  intros F L V D. destruct demo_space as (s & T & l & HI & HU & Hw).
  set (S := with_space s.(freelist) s.(pmem) file_demo).
  assert (HIS : vm_inv demo_root S T l).
  { destruct HI as [V1 [V2 V2'] V3]. split; [exact V1|split; [exact V2|exact V2']|exact V3]. }
  destruct (@user_file_roundtrip F L V D ideal_disk_spec demo_sb demo_meta 3 0 S S (view_of fs_demo) empty_inode
    0 0x1000 0x1800 3 T l) as (s1 & s2 & E1 & E2 & HR); unfold S; rewrite ?space_table; fold S.
  - apply (space_ready _ _ 3). lia.
  - exact demo_fs_ok.
  - apply empty_file_ok.
  - lia.
  - apply (demo_refused 3). lia.
  - exact HIS.
  - exact HU.
  - lia.
  - pg.
  - intros va Hva. apply Hw. lia.
  - lia.
  - pg.
  - intros va Hva. apply Hw. lia.
  - exists S, s1, s2. split; [exact E1|]. split; [exact E2|].
    assert (Er : (get_proc 3 S).(p_pagetable) = demo_root) by apply space_table. rewrite Er in HR.
    rewrite (HR 0x1801); [done|pg|]. apply Hw. lia.
Defined.
