(* ===== verification/FsDir.v ===== *)
(** Directories: dirlookup and dirlink of fs.c as operations on the list of
    entries of a directory file. *)

From S2P Require Import Prelude Cmem KString Kstate Spinlock Sleep Sleeplock Kalloc Vm Printf Bio BioSpec Log LogSpec BioProps LogCrash LogSafe Tx Fs FsSpec FsView FsFile FsWrite.
Local Open Scope Z_scope.

(** ** Entries *)

(** A name field up to its first NUL. *)
Fixpoint cut (bs : list Z) : list Z :=
  match bs with
  | [] => []
  | b :: bs => if b =? 0 then [] else b :: cut bs
  end.

Lemma cstr_n_cut m a n : cstr_n m a n = cut (rd m a n).
Proof. revert a. induction n as [|n IH]; intros a; cbn; [done|]. destruct (ld8 m a =? 0); [done|]. by rewrite IH. Qed.

Lemma cut_pad nm n : Forall (λ b, b ≠ 0) nm → cut (nm ++ replicate n 0) = nm.
Proof.
  induction 1 as [|b nm Hb _ IH]; cbn; [by destruct n|]. by rewrite (proj2 (Z.eqb_neq b 0)), IH.
Qed.

(** The inode number and the name of the entry stored as [bs]. *)
Definition dent_of (bs : list Z) : Z * list Z := (of_le (take 2 bs), cut (drop 2 bs)).

Definition dent (v : view) (q : inode) (j : nat) : Z * list Z :=
  dent_of (u8 <$> fbytes v q (16 * Z.of_nat j) 16).
Definition ents (v : view) (q : inode) : list (Z * list Z) := dent v q <$> seq 0 (Z.to_nat (q.(i_size) / 16)).

(** The first entry in use with the name [nm]. *)
Fixpoint dfind (nm : list Z) (l : list (Z * list Z)) (i : nat) : option (nat * Z) :=
  match l with
  | [] => None
  | (inum, n) :: l => if negb (inum =? 0) && bool_decide (nm = n) then Some (i, inum) else dfind nm l (S i)
  end.
(** The first entry not in use, or the end. *)
Fixpoint dslot (l : list (Z * list Z)) : nat :=
  match l with
  | [] => O
  | (inum, _) :: l => if inum =? 0 then O else S (dslot l)
  end.

(** [l] with entry [e] at position [i], possibly its end. *)
Definition dput (i : nat) (e : Z * list Z) (l : list (Z * list Z)) : list (Z * list Z) := take i l ++ e :: drop (S i) l.

Lemma dslot_le l : (dslot l ≤ length l)%nat.
Proof. induction l as [|[inum n] l IH]; cbn; [lia|]. destruct (inum =? 0); lia. Qed.

Lemma lookup_dput i e l j : (i ≤ length l)%nat → dput i e l !! j = if decide (j = i) then Some e else l !! j.
Proof.
  intros Hi. unfold dput. assert (Hl : length (take i l) = i) by (rewrite length_take; lia). case_decide as Hj.
  - subst j. by rewrite list_lookup_middle.
  - destruct (decide (j < i)%nat) as [Hlt|Hge]; [by rewrite lookup_app_l, lookup_take_lt by lia|].
    rewrite lookup_app_r, Hl by lia. replace (j - i)%nat with (S (j - S i)) by lia.
    rewrite lookup_cons_ne_0 by lia. rewrite lookup_drop. f_equal. lia.
Qed.

(** Linking a new name changes the lookup of that name only. *)
Lemma dfind_dput nm nm' inum l i : inum ≠ 0 → dfind nm l i = None →
  dfind nm' (dput (dslot l) (inum, nm) l) i =
    if decide (nm' = nm) then Some ((i + dslot l)%nat, inum) else dfind nm' l i.
Proof.
  intros Hi. revert i. unfold dput. induction l as [|[x n] l IH]; intros i; cbn.
  - intros _. rewrite (proj2 (Z.eqb_neq inum 0)) by done. cbn. rewrite Nat.add_0_r. case_bool_decide; by case_decide.
  - destruct (Z.eqb_spec x 0) as [->|Hx]; cbn.
    + intros Hn. rewrite (proj2 (Z.eqb_neq inum 0)) by done. cbn. rewrite Nat.add_0_r. case_bool_decide; case_decide; done.
    + rewrite (proj2 (Z.eqb_neq x 0)) by done. cbn. case_bool_decide as Hnm; [done|]. intros Hn.
      case_bool_decide as Hnm'.
      * rewrite decide_False by congruence. done.
      * rewrite (IH (S i) Hn). case_decide; [|done]. do 2 f_equal. lia.
Qed.

(** Memory changed only in the 16 bytes at [de]. *)
Definition scribbled (de : Z) (m m' : mem) : Prop := ∀ x, x < de ∨ de + 16 ≤ x → ld8 m' x = ld8 m x.

Lemma scribbled_cstr de m m' a : scribbled de m m' → a + 14 ≤ de ∨ de + 16 ≤ a → cstr_n m' a 14 = cstr_n m a 14.
Proof. intros Hs Ha. apply cstr_n_ext. intros i Hi. apply Hs. lia. Qed.

(** The entry a read of its 16 bytes to [de] leaves in memory. *)
Lemma dent_memory m de bs : length bs = 16%nat → let m' := wr m de bs in
  de_inum m' de = (dent_of (u8 <$> bs)).1 ∧ cstr_n m' (de + 2) 14 = (dent_of (u8 <$> bs)).2 ∧ scribbled de m m'.
Proof.
  intros Hl m'. assert (Hrd : rd m' de 16 = u8 <$> bs) by (by apply rd_wr_same).
  assert (H2 : rd m' de 2 = take 2 (u8 <$> bs)).
  { rewrite <- Hrd. rewrite <- (drop_0 (rd m' de 16)). rewrite rd_sub by lia. f_equal. lia. }
  assert (H14 : rd m' (de + 2) 14 = drop 2 (u8 <$> bs)).
  { rewrite <- Hrd. change (de + 2) with (de + Z.of_nat 2). rewrite <- (rd_sub m' de 16 2 14) by lia.
    apply take_ge. rewrite length_drop, length_rd. lia. }
  unfold de_inum, dent_of. cbn [fst snd]. rewrite cstr_n_cut, H2, H14. split; [done|]. split; [done|].
  intros x Hx. apply ld8_wr_out. rewrite Hl. lia.
Qed.

Section dir.
Context {Fl : Fuel} {La : Layout} {Dv : Device} `{Bs : BlockDevSpec}.
Context (k : superblock) (X : gset Z) (p : nat) (dp : nat) (q : inode).
Hypothesis Hsb : sb_ok k.

Record dir_ok (v : view) : Prop := {
  dk_file : file_ok v k q;
  dk_type : q.(i_type) = T_DIR;
  dk_size : q.(i_size) mod 16 = 0 }.

Definition nents : nat := Z.to_nat (q.(i_size) / 16).

Lemma nents_size v : dir_ok v → q.(i_size) = 16 * Z.of_nat nents ∧ 0 ≤ q.(i_size) ≤ 274432.
Proof.
  intros [H1 _ H2]. pose proof (fo_size _ _ _ H1) as H. change (MAXFILE * BSIZE) with 274432 in H. unfold nents. split; [mlia|done].
Qed.

Lemma read_dent s0 s v n m de j :
  txc X p s0 s v n m → 1 ≤ m → (∀ y, v.(vl) y = free_lock) → get_inode dp s0 = q → dir_ok v →
  0 ≤ de → de + 16 < 18446744073709551616 → (j < nents)%nat →
  let off := 16 * Z.of_nat j in
  ∃ g s', readi dp false de off 16 s = Done 16 s' ∧ txc X p (set_pmem g s0) s' v n m ∧ onward s v s' v ∧
    g s0.(pmem) = wr s0.(pmem) de (fbytes v q off 16).
Proof.
  intros HT Hm Hfl Hq Hd H0 H1 Hj off. destruct (nents_size v Hd) as [Hsz Hmax].
  destruct (readi_done k X p dp q Hsb false de off 16 (λ bs m, m = wr s0.(pmem) de bs) s0 s0 s v n m)
    as (g & s' & E & HT' & HO & HR); try done.
  - apply kernel_sink; [done|]. cbn. lia.
  - lia.
  - apply Hd.
  - unfold off. lia.
  - assert (Hc : read_count (i_size q) off 16 = 16).
    { unfold read_count, off. rewrite (proj2 (Z.ltb_ge _ _)), (proj2 (Z.leb_gt _ _)) by lia. cbn [orb]. lia. }
    rewrite Hc in E, HR. by exists g, s'.
Qed.

Lemma ents_drop v j : (j < nents)%nat → drop j (ents v q) = dent v q j :: drop (S j) (ents v q).
Proof.
  intros Hj. apply drop_S. unfold ents. rewrite list_lookup_fmap, lookup_seq_lt by exact Hj. done.
Qed.
Lemma ents_end v : drop nents (ents v q) = [].
Proof. apply drop_ge. unfold ents. rewrite length_fmap, length_seq. fold nents. lia. Qed.

(** What dirlookup does when the search ended with [r]. *)
Definition lookup_rest (r : option (nat * Z)) : K (option (nat * Z)) :=
  match r with
  | None => mret None
  | Some (i, inum) => ip ← iget ROOTDEV inum; mret (Some (ip, 16 * Z.of_nat i))
  end.

Lemma scribbled_trans de m m1 m2 : scribbled de m m1 → scribbled de m1 m2 → scribbled de m m2.
Proof. intros H1 H2 x Hx. by rewrite H2, H1. Qed.

Lemma dirlookup_loop_done name de nm f j s0 s v n m :
  txc X p s0 s v n m → 1 ≤ m → (∀ y, v.(vl) y = free_lock) → get_inode dp s0 = q → dir_ok v →
  0 ≤ de → de + 16 < 18446744073709551616 → name + 14 ≤ de ∨ de + 16 ≤ name → cstr_n s0.(pmem) name 14 = nm →
  (j ≤ nents)%nat → (nents - j ≤ f)%nat →
  ∃ g s', dirlookup_loop f dp name de (16 * Z.of_nat j) s = lookup_rest (dfind nm (drop j (ents v q)) j) s' ∧
    txc X p (set_pmem g s0) s' v n m ∧ onward s v s' v ∧ scribbled de s0.(pmem) (g s0.(pmem)).
Proof.
  intros HT Hm Hfl Hq Hd H0 H1 Hdis. revert j s0 s HT Hq. induction f as [|f IH]; intros j s0 s HT Hq Hnm Hj Hf;
    destruct (nents_size v Hd) as [Hsz Hmax]; cbn [dirlookup_loop];
    mstep (gets_inode _ _ _ _ _ _ _ _ _ HT Hq); destruct (Z.ltb_spec (16 * Z.of_nat j) (i_size q)) as [Hlt|Hge].
  1: lia.
  1, 3: exists (λ m, m), s; assert (j = nents) as -> by lia; rewrite ents_end; split; [done|]; split; [exact HT|];
    split; [apply onward_refl|by intros x _].
  destruct (read_dent s0 s v n m de j HT Hm Hfl Hq Hd H0 H1) as (g & s1 & E1 & HT1 & HO1 & Hg); [lia|].
  change SIZEOF_DE with 16. mstep E1. change (negb (16 =? 16)) with false. cbv iota.
  rewrite (bind_done (gets pmem) _ s1 (g s0.(pmem)) s1) by (exact (gets_eq _ _ _ (txc_mem _ _ _ _ _ _ _ HT1))).
  destruct (dent_memory s0.(pmem) de (fbytes v q (16 * Z.of_nat j) 16)) as (D1 & D2 & D3); [apply length_fbytes|].
  rewrite <- Hg in D1, D2, D3. rewrite ents_drop by lia. cbn [dfind]. fold (dent v q j) in D1, D2.
  destruct (dent v q j) as [inum n'] eqn:Ed. cbn [fst snd] in D1, D2. rewrite D1.
  assert (Hnext : u32 (16 * Z.of_nat j + 16) = 16 * Z.of_nat (S j)) by (rewrite u32_small; lia).
  assert (Hgo : ∃ g' s', dirlookup_loop f dp name de (16 * Z.of_nat (S j)) s1 = lookup_rest (dfind nm (drop (S j) (ents v q)) (S j)) s' ∧
    txc X p (set_pmem g' s0) s' v n m ∧ onward s v s' v ∧ scribbled de s0.(pmem) (g' s0.(pmem))).
  { destruct (IH (S j) (set_pmem g s0) s1 HT1 Hq) as (g2 & s2 & E2 & HT2 & HO2 & HS2); [|lia|lia|].
    - rewrite <- Hnm. by apply (scribbled_cstr de).
    - exists (g2 ∘ g), s2. split; [done|]. split; [exact HT2|]. split; [by eapply onward_trans|]. by eapply scribbled_trans. }
  rewrite Hnext. destruct (Z.eqb_spec inum 0) as [->|Hi]; cbn [negb andb]; [done|].
  assert (Hcmp : namecmp (g s0.(pmem)) name (de + 2) = 0 ↔ nm = n').
  { unfold namecmp. rewrite strncmp_zero_iff. change (Z.to_nat DIRSIZ) with 14%nat.
    rewrite D2, (scribbled_cstr de s0.(pmem)) by done. by rewrite Hnm. }
  destruct (Z.eqb_spec (namecmp (g s0.(pmem)) name (de + 2)) 0) as [Hc|Hc].
  - rewrite bool_decide_true by (by apply Hcmp). mstep (gets_inode _ _ _ _ _ _ _ _ _ HT1 Hq). rewrite (fo_dev _ _ _ (dk_file _ Hd)).
    by exists g, s1.
  - rewrite bool_decide_false by (by rewrite <- Hcmp). done.
Qed.

Lemma tx_stack s0 s v n m : txc X p s0 s v n m → stack_base s = stack_base s0.
Proof. intros [HT _]. by destruct (av_state _ _ _ (tx_view _ _ _ _ _ _ HT)) as (bs & vk & d & w & ->). Qed.

Lemma gets_frame s0 s v n m off : txc X p s0 s v n m → frame off s = Done (stack_base s0 + off) s.
Proof. intros HT. unfold frame, gets. by rewrite (tx_stack _ _ _ _ _ HT). Qed.

(** Local entries fit on the stack at [b]; the string at [name] is elsewhere. *)
Definition stack_ok (b name : Z) : Prop :=
  0 ≤ b ∧ b + 32 < 18446744073709551616 ∧ (name + 14 ≤ b ∨ b + 32 ≤ name).

Lemma dirlookup_done name nm s0 s v n m :
  txc X p s0 s v n m → 1 ≤ m → (∀ y, v.(vl) y = free_lock) → get_inode dp s0 = q → dir_ok v →
  stack_ok (stack_base s0) name → cstr_n s0.(pmem) name 14 = nm →
  ∃ g s', dirlookup dp name s = lookup_rest (dfind nm (ents v q) 0) s' ∧
    txc X p (set_pmem g s0) s' v n m ∧ onward s v s' v ∧ scribbled (stack_base s0) s0.(pmem) (g s0.(pmem)).
Proof.
  intros HT Hm Hfl Hq Hd (H0 & H1 & H2) Hnm. unfold dirlookup. mstep (gets_inode _ _ _ _ _ _ _ _ _ HT Hq).
  rewrite (dk_type _ Hd). change (negb (T_DIR =? T_DIR)) with false. cbv iota. mstep (gets_frame _ _ _ _ _ DE_LOOKUP HT).
  change SIZEOF_DE with 16. unfold DE_LOOKUP. rewrite Z.add_0_r.
  destruct (dirlookup_loop_done name (stack_base s0) nm (Z.to_nat (i_size q / 16 + 1)) 0 s0 s v n m) as (g & s' & E & Hrest);
    try done; [lia|lia|lia|unfold nents; lia|].
  exists g, s'. split; [exact E|done].
Qed.

Lemma dirlink_scan_done de f j s0 s v n m :
  txc X p s0 s v n m → 1 ≤ m → (∀ y, v.(vl) y = free_lock) → get_inode dp s0 = q → dir_ok v →
  0 ≤ de → de + 16 < 18446744073709551616 → (j ≤ nents)%nat → (nents - j ≤ f)%nat →
  ∃ g s', dirlink_scan f dp de (16 * Z.of_nat j) s = Done (16 * Z.of_nat (j + dslot (drop j (ents v q)))) s' ∧
    txc X p (set_pmem g s0) s' v n m ∧ onward s v s' v ∧ scribbled de s0.(pmem) (g s0.(pmem)).
Proof.
  intros HT Hm Hfl Hq Hd H0 H1. revert j s0 s HT Hq. induction f as [|f IH]; intros j s0 s HT Hq Hj Hf;
    destruct (nents_size v Hd) as [Hsz Hmax]; cbn [dirlink_scan];
    mstep (gets_inode _ _ _ _ _ _ _ _ _ HT Hq); destruct (Z.ltb_spec (16 * Z.of_nat j) (i_size q)) as [Hlt|Hge].
  1: lia.
  1, 3: exists (λ m, m), s; assert (j = nents) as -> by lia; rewrite ents_end; cbn [dslot]; rewrite Nat.add_0_r;
    split; [done|]; split; [exact HT|]; split; [apply onward_refl|by intros x _].
  destruct (read_dent s0 s v n m de j HT Hm Hfl Hq Hd H0 H1) as (g & s1 & E1 & HT1 & HO1 & Hg); [lia|].
  change SIZEOF_DE with 16. mstep E1. change (negb (16 =? 16)) with false. cbv iota.
  rewrite (bind_done (gets pmem) _ s1 (g s0.(pmem)) s1) by (exact (gets_eq _ _ _ (txc_mem _ _ _ _ _ _ _ HT1))).
  destruct (dent_memory s0.(pmem) de (fbytes v q (16 * Z.of_nat j) 16)) as (D1 & _ & D3); [apply length_fbytes|].
  rewrite <- Hg in D1, D3. rewrite ents_drop by lia. cbn [dslot]. fold (dent v q j) in D1.
  destruct (dent v q j) as [inum n'] eqn:Ed. cbn [fst snd] in D1. rewrite D1.
  destruct (Z.eqb_spec inum 0) as [->|Hi].
  - exists g, s1. rewrite Nat.add_0_r. done.
  - replace (16 * Z.of_nat j + 16) with (16 * Z.of_nat (S j)) by lia.
    destruct (IH (S j) (set_pmem g s0) s1 HT1 Hq) as (g2 & s2 & E2 & HT2 & HO2 & HS2); [lia|lia|].
    exists (g2 ∘ g), s2. split; [rewrite E2; do 2 f_equal; lia|]. split; [exact HT2|].
    split; [by eapply onward_trans|]. by eapply scribbled_trans.
Qed.
End dir.

(** ** A new entry *)

(** The entry dirlink builds at [de] from [inum] and the string at [name]. *)
Lemma dent_built m de name inum : 0 ≤ inum < 65536 → name + 14 ≤ de ∨ de + 16 ≤ name →
  let m' := wr (strncpy m (de + 2) name DIRSIZ) de (to_le 2 inum) in
  dent_of (u8 <$> rd m' de 16) = (inum, cstr_n m name 14) ∧ scribbled de m m'.
Proof.
  intros Hi Hd m'. destruct (strncpy_spec m (de + 2) name DIRSIZ) as [S1 S2]; [by vm_compute|unfold DIRSIZ; lia|].
  change (Z.to_nat DIRSIZ) with 14%nat in S1. set (nm := cstr_n m name 14) in *.
  assert (Hl : length (to_le 2 inum) = 2%nat) by apply length_to_le.
  assert (Hrd : rd m' de 16 = to_le 2 inum ++ nm ++ replicate (14 - length nm) 0).
  { change 16%nat with (2 + 14)%nat. rewrite rd_app. unfold m' at 1. rewrite rd_wr_same by done. rewrite to_le_u8. f_equal.
    unfold m'. rewrite rd_wr_disj by (rewrite Hl; lia). exact S1. }
  split.
  - rewrite rd_u8, Hrd. unfold dent_of. f_equal.
    + rewrite take_app_length' by done. rewrite of_le_to_le. apply Z.mod_small. done.
    + rewrite drop_app_length' by done. apply cut_pad, cstr_n_nonzero.
  - intros x Hx. unfold m'. rewrite ld8_wr_out by (rewrite Hl; lia). apply S2. unfold DIRSIZ. lia.
Qed.

Lemma length_ents v q : length (ents v q) = nents q.
Proof. unfold ents. by rewrite length_fmap, length_seq. Qed.
Lemma lookup_ents v q j : ents v q !! j = if decide (j < nents q)%nat then Some (dent v q j) else None.
Proof.
  case_decide as Hj; [|apply lookup_ge_None; rewrite length_ents; lia].
  unfold ents. by rewrite list_lookup_fmap, lookup_seq_lt by exact Hj.
Qed.

(** The entries after one was written. *)
Lemma ents_written k v q v' q' slot bs e :
  vwritten k v q (16 * Z.of_nat slot) bs v' q' → file_ok v k q → length bs = 16%nat → dent_of (u8 <$> bs) = e →
  q.(i_size) mod 16 = 0 → 0 ≤ q.(i_size) → (slot ≤ nents q)%nat →
  ents v' q' = dput slot e (ents v q) ∧ q'.(i_size) mod 16 = 0.
Proof.
  intros W Hok Hl He Hm Hs Hslot. destruct (vw_q _ _ _ _ _ _ _ W) as [ad Eq].
  assert (Hsz : q'.(i_size) = Z.max q.(i_size) (16 * Z.of_nat slot + 16)) by (rewrite Eq; cbn; by rewrite Hl).
  assert (Hn : nents q' = (nents q `max` S slot)%nat) by (unfold nents; rewrite Hsz; mlia).
  assert (Hsn : q.(i_size) = 16 * Z.of_nat (nents q)) by (unfold nents; mlia).
  split; [|rewrite Hsz; mlia].
  assert (Hd : ∀ j, (j < nents q')%nat → dent v' q' j = if decide (j = slot) then e else dent v q j).
  { intros j Hj. unfold dent. case_decide as Ej.
    - subst j. rewrite <- He, <- Hl. by rewrite (vw_fbytes k v q _ bs).
    - do 2 f_equal. unfold fbytes. apply list_fmap_ext. intros z i [Ei Hi]%lookup_seq.
      apply (vw_old _ _ _ _ _ _ _ _ W Hok); [lia|]. unfold in_range. rewrite Hl. lia. }
  apply list_eq. intros j. rewrite lookup_dput by (by rewrite length_ents). rewrite !lookup_ents.
  case_decide as Ej; [|case_decide as Hj]; repeat case_decide; try lia; try done.
  - rewrite Hd by done. by rewrite decide_True.
  - rewrite Hd by done. by rewrite decide_False.
Qed.

(** ** dirlink *)

Section link.
Context {Fl : Fuel} {La : Layout} {Dv : Device} `{Bs : BlockDevSpec}.

(** The state is ready for a new entry of directory [dp], at the offset of its
    first free slot or its end. *)
Definition link_ready k X p dp s0 s v q : Prop :=
  write_ready k X p dp s0 s v q (16 * Z.of_nat (dslot (ents v q))) 16 ∧ fs_ok v k ∧ dir_ok k q v ∧
  16 * Z.of_nat (dslot (ents v q)) + 16 ≤ MAXFILE * BSIZE.

(** The directory with the new entry. *)
Record linked k X p dp s0 v q nm inum s0' s' v' q' : Prop := {
  lk_txc : ∃ n' m', txc X p s0' s' v' n' m' ∧ 1 ≤ m';
  lk_unlocked y : v'.(vl) y = free_lock;
  lk_get : get_inode dp s0' = q';
  lk_dir : dir_ok k q' v';
  lk_fs : fs_ok v' k;
  lk_stack : stack_base s0' = stack_base s0;
  lk_mem x : x < stack_base s0 ∨ stack_base s0 + 32 ≤ x → ld8 s0'.(pmem) x = ld8 s0.(pmem) x;
  lk_ents : ents v' q' = dput (dslot (ents v q)) (inum, nm) (ents v q) }.

Lemma write_ready_pmem k X p ip s0 s v q off cnt g s' :
  write_ready k X p ip s0 s v q off cnt →
  txc X p (set_pmem g s0) s' v (nblk off cnt + icost q + 1) (nblk off cnt + icost q + 1) →
  write_ready k X p ip (set_pmem g s0) s' v q off cnt.
Proof. by intros [] HT. Qed.

(** A name that is there: dirlink drops the reference dirlookup took. *)
Lemma dirlink_existing k X p dp name inum nm s0 s v q i inum0 :
  link_ready k X p dp s0 s v q → stack_ok (stack_base s0) name → cstr_n s0.(pmem) name 14 = nm →
  dfind nm (ents v q) 0 = Some (i, inum0) →
  ∃ g s1, at_view (set_pmem g s0) s1 v ∧
    ∀ ip s2, iget ROOTDEV inum0 s1 = Done ip s2 → dirlink dp name inum s = (iput ip ;; mret (-1)) s2.
Proof.
  intros ([R1 R2 R3 R4 R5 R6 R7 R8 R9 R10 R11] & Hfs & Hd & Hmax) Hst Hnm Hf. pose proof (icost_range q).
  destruct (dirlookup_done k X p dp q R2 name nm s0 s v _ _ R7) as (g & s1 & E & HT & _ & _); try done.
  { unfold nblk, BSIZE. cbn. mlia. }
  exists g, s1. split; [apply HT|]. intros ip s2 E2. rewrite Hf in E. cbn in E.
  unfold dirlink. rewrite (bind_done _ _ s (Some (ip, 16 * Z.of_nat i)) s2); [done|]. rewrite E. by rewrite (bind_done _ _ s1 ip s2).
Qed.

Lemma link_room v q : let off := 16 * Z.of_nat (dslot (ents v q)) in nblk off 16 = 1.
Proof. unfold nblk, BSIZE. cbn [Z.leb Z.compare]. mlia. Qed.

Lemma entry_fits k v q : dir_ok k q v → 16 * Z.of_nat (dslot (ents v q)) + 16 ≤ MAXFILE * BSIZE →
  write_refused q.(i_size) (16 * Z.of_nat (dslot (ents v q))) 16 = false.
Proof.
  intros Hd Hmax. destruct (nents_size k q v Hd). pose proof (dslot_le (ents v q)) as Hs. rewrite length_ents in Hs.
  unfold write_refused. change (MAXFILE * BSIZE) with 274432 in *. rewrite !orb_false_iff, !Z.ltb_ge, Z.leb_gt. lia.
Qed.

Lemma linked_of k X p dp s0 s4 t4 v q bs nm inum s' t' v' q' n' m' :
  written k dp s4 t4 v q (16 * Z.of_nat (dslot (ents v q))) bs s' t' v' q' →
  txc X p s' t' v' n' m' → 1 ≤ m' → (∀ y, v.(vl) y = free_lock) → dir_ok k q v →
  length bs = 16%nat → dent_of (u8 <$> bs) = (inum, nm) → stack_base s4 = stack_base s0 →
  (∀ x, x < stack_base s0 ∨ stack_base s0 + 32 ≤ x → ld8 s4.(pmem) x = ld8 s0.(pmem) x) →
  linked k X p dp s0 v q nm inum s' t' v' q'.
Proof.
  intros W HT Hm Hfl Hd Hl He Hst Hmem. destruct (nents_size k q v Hd) as [_ Hsz].
  pose proof (wn_v _ _ _ _ _ _ _ _ _ _ _ _ W) as Wv.
  destruct (ents_written k v q v' q' _ bs _ Wv (dk_file _ _ _ Hd) Hl He (dk_size _ _ _ Hd)) as [W1 W2]; [lia| |].
  { rewrite <- (length_ents v q). apply dslot_le. }
  destruct (wn_state _ _ _ _ _ _ _ _ _ _ _ _ W) as (g & f & ->). destruct (vw_q _ _ _ _ _ _ _ Wv) as [ad Eq].
  split; try done.
  - by exists n', m'.
  - intros y. by rewrite (ow_l _ _ _ _ (wn_onward _ _ _ _ _ _ _ _ _ _ _ _ W)).
  - apply W.
  - split; [apply W| |done]. rewrite Eq. exact (dk_type _ _ _ Hd).
  - apply W.
Qed.

Lemma dirlink_done k X p dp name inum nm s0 s v q :
  link_ready k X p dp s0 s v q → stack_ok (stack_base s0) name → cstr_n s0.(pmem) name 14 = nm →
  0 < inum < 65536 → dfind nm (ents v q) 0 = None →
  ∃ s0' s' v' q', dirlink dp name inum s = Done 0 s' ∧ linked k X p dp s0 v q nm inum s0' s' v' q'.
Proof.
  intros (HR & Hfs & Hd & Hmax) Hst Hnm Hi Hf. pose proof HR as [R1 R2 R3 R4 R5 R6 R7 R8 R9 R10 R11].
  pose proof (icost_range q) as Hic. pose proof (link_room v q) as Hnb. cbv zeta in Hnb. rewrite Hnb in R7.
  destruct Hst as (B0 & B1 & B2). set (b := stack_base s0) in *. set (slot := dslot (ents v q)) in *.
  destruct (dirlookup_done k X p dp q R2 name nm s0 s v _ _ R7) as (g & s1 & E1 & HT1 & HO1 & HS1); try done; [lia|].
  unfold dirlink. rewrite Hf in E1. mstep E1. mstep (gets_inode _ _ _ _ _ _ _ _ _ HT1 R10).
  mstep (gets_frame _ _ _ _ _ _ _ DE_LINK HT1). change (stack_base (set_pmem g s0)) with b. change DE_LINK with 16.
  destruct (dirlink_scan_done k X p dp q R2 (b + 16) (Z.to_nat (i_size q / 16 + 1)) 0 (set_pmem g s0) s1 v _ _ HT1)
    as (g2 & s2 & E2 & HT2 & HO2 & HS2); try done; [lia|lia|lia|lia|unfold nents; lia|].
  mstep E2. rewrite Nat.add_0_l. fold slot.
  set (s3 := set_pmem g2 (set_pmem g s0)) in *.
  assert (Hnm2 : cstr_n s3.(pmem) name 14 = nm).
  { rewrite <- Hnm. change (pmem s3) with (g2 (g s0.(pmem))). rewrite (scribbled_cstr (b + 16) (g s0.(pmem))) by (done || lia). apply (scribbled_cstr b); [done|lia]. }
  set (F := λ m, wr (strncpy m (b + 16 + 2) name DIRSIZ) (b + 16) (to_le 2 inum)).
  destruct (dent_built s3.(pmem) (b + 16) name inum) as [D1 D2]; [lia|lia|]. rewrite Hnm2 in D1.
  change (wr _ _ _) with (F (pmem s3)) in D1, D2.
  pose proof (txc_pmem _ _ _ _ _ _ _ F HT2) as HT3. set (s4 := set_pmem F s3) in *. set (t4 := set_pmem F s2) in *.
  rewrite (bind_done (modify _) _ s2 tt (set_pmem (λ m, strncpy m (b + 16 + 2) name DIRSIZ) s2)) by done.
  rewrite (bind_done (modify _) _ _ tt t4) by done.
  set (bs := rd s4.(pmem) (b + 16) 16) in *.
  destruct (write_ready_done k X p dp s4 t4 v q (16 * Z.of_nat slot) false (b + 16) bs) as (s5 & t5 & v5 & q5 & n5 & m5 & E5 & HT5 & M5 & W);
    unfold bs in *; rewrite ?length_rd in *; try done; try lia.
  { apply (write_ready_pmem k X p dp s0 s v q _ _ (F ∘ g2 ∘ g)); [done|]. change (Z.of_nat 16) with 16. rewrite Hnb. exact HT3. }
  { apply Hd. } { apply kernel_source; lia. }
  { by apply (entry_fits k). }
  change SIZEOF_DE with (Z.of_nat 16). mstep E5. change (negb (Z.of_nat 16 =? Z.of_nat 16)) with false. cbv iota.
  exists s5, t5, v5, q5. split; [done|]. eapply (linked_of k X p dp s0 s4); try done.
  intros x Hx. fold b in Hx. rewrite <- HS1, <- HS2 by lia. apply D2. lia.
Qed.

(** C19. dirlink and dirlookup agree on a directory of any length.  A name that
    is there is refused with -1, after dropping the reference taken to its
    inode.  A new name is stored with its inode number in the first free slot,
    or at the end, and no other entry changes; from then on dirlookup of that
    name gets the inode linked and the offset of that slot, and of any other
    name what it got before. *)
Theorem dirlink_dirlookup k X p dp name inum nm s0 s v q :
  link_ready k X p dp s0 s v q → stack_ok (stack_base s0) name → cstr_n s0.(pmem) name 14 = nm → 0 < inum < 65536 →
  match dfind nm (ents v q) 0 with
  | Some (i, inum0) => ∃ g s1, at_view (set_pmem g s0) s1 v ∧
      ∀ ip s2, iget ROOTDEV inum0 s1 = Done ip s2 → dirlink dp name inum s = (iput ip ;; mret (-1)) s2
  | None => ∃ s0' s1 v1 q1, dirlink dp name inum s = Done 0 s1 ∧ at_view s0' s1 v1 ∧
      get_inode dp s1 = q1 ∧ dir_ok k q1 v1 ∧ fs_ok v1 k ∧
      ents v1 q1 = dput (dslot (ents v q)) (inum, nm) (ents v q) ∧
      ∀ name' nm', stack_ok (stack_base s0) name' → cstr_n s0.(pmem) name' 14 = nm' →
        ∃ g s2, at_view (set_pmem g s0') s2 v1 ∧ dirlookup dp name' s1 = lookup_rest
          (if decide (nm' = nm) then Some (dslot (ents v q), inum) else dfind nm' (ents v q) 0) s2
  end.
Proof.
  intros Hr Hst Hnm Hi. destruct (dfind nm (ents v q) 0) as [ [i inum0]|] eqn:Hf.
  { by eapply dirlink_existing. }
  destruct (dirlink_done k X p dp name inum nm s0 s v q Hr Hst Hnm Hi Hf) as (s0' & s1 & v1 & q1 & E & L).
  pose proof L as [ (n1 & m1 & HT & Hm) L2 L3 L4 L5 L6 L7 L8]. destruct Hr as (HR & _).
  exists s0', s1, v1, q1. split; [done|]. split; [apply HT|]. split; [by rewrite (txc_get_inode _ _ _ _ _ _ _ dp HT)|].
  do 3 (split; [done|]). intros name' nm' Hst' Hnm'.
  destruct (dirlookup_done k X p dp q1 (wr_sb_ok _ _ _ _ _ _ _ _ _ _ HR) name' nm' s0' s1 v1 n1 m1) as (g & s2 & E2 & HT2 & _); try done.
  { by rewrite L6. }
  { rewrite <- Hnm'. apply cstr_n_ext. intros x Hx. apply L7. unfold stack_ok in Hst'. lia. }
  exists g, s2. split; [apply HT2|]. rewrite E2, L8, dfind_dput by (done || lia). done.
Qed.
End link.

(** ** A concrete directory: inode 7 of the file system of [FsSpec], a
    directory with no entries yet. *)

Definition dir_inode : inode := empty_of 7 T_DIR.
Definition dir_demo (name : list Z) : kstate :=
  set_pmem (λ m, wr m 0x100 name) (upd_inode 0 (λ _, dir_inode) file_demo).

Lemma dir_demo_ok v : dir_ok demo_sb dir_inode v.
Proof.
  split; [|done|done]. apply empty_ok; unfold T_DIR; lia.
Qed.

Lemma dir_demo_ready name : let F : Fuel := 1%nat in let D := ideal_disk in
  @link_ready D ideal_disk_spec demo_sb demo_meta 3 0 (dir_demo name) (dir_demo name) (view_of fs_demo) dir_inode.
Proof.
  intros F D. assert (Hs : dslot (ents (view_of fs_demo) dir_inode) = 0%nat) by done.
  unfold link_ready. rewrite Hs. split; [|split; [exact demo_fs_ok|split; [apply dir_demo_ok|by vm_compute]]].
  destruct (demo_ready 16 ltac:(lia)) as [R1 R2 R3 R4 R5 R6 R7 R8 R9 R10 R11]. split; try assumption.
  - exact (txc_pmem _ _ _ _ _ _ _ (λ m, wr m 0x100 name) (txc_inode _ _ _ _ _ _ _ 0 (λ _, dir_inode) R7)).
  - by vm_compute.
Qed.

(** "hi" is linked to inode 5, and found. *)
Lemma dirlink_dirlookup_witness :
  let F : Fuel := 1%nat in let L := layout64 in let V := demo_device in let D := ideal_disk in
  ∃ s1 s2, dirlink 0 0x100 5 (dir_demo [104; 105; 0]) = Done 0 s1 ∧
    dirlookup 0 0x100 s1 = (ip ← iget ROOTDEV 5; mret (Some (ip, 0))) s2.
Proof.
  intros F L V D. assert (Hb : stack_base (dir_demo [104; 105; 0]) = 0) by (by vm_compute).
  assert (Hst : stack_ok (stack_base (dir_demo [104; 105; 0])) 0x100) by (rewrite Hb; unfold stack_ok; lia).
  pose proof (@dirlink_dirlookup F L V D ideal_disk_spec demo_sb demo_meta 3 0 0x100 5 [104; 105]
    (dir_demo [104; 105; 0]) (dir_demo [104; 105; 0]) (view_of fs_demo) dir_inode (dir_demo_ready _) Hst) as H.
  assert (Hn : cstr_n (dir_demo [104; 105; 0]).(pmem) 0x100 14 = [104; 105]) by (by vm_compute).
  specialize (H Hn ltac:(lia)). change (dfind _ _ _) with (@None (nat * Z)) in H. cbv iota in H.
  destruct H as (s0' & s1 & v1 & q1 & E & _ & _ & _ & _ & _ & Hl). destruct (Hl 0x100 [104; 105] Hst Hn) as (g & s2 & _ & E2).
  exists s1, s2. split; [exact E|exact E2].
Defined.
