(* ===== verification/FsPath.v ===== *)
(** Path names: skipelem, namex, namei and nameiparent of fs.c as a walk
    through the directories of a tree. *)

From S2P Require Import Prelude Cmem KString Kstate Spinlock Sleep Sleeplock Kalloc Vm Printf Bio BioSpec Log LogSpec BioProps LogCrash LogSafe Tx Fs FsSpec FsView FsTable FsFile FsWrite FsDir.
Local Open Scope Z_scope.

(** ** Strings in memory *)

(** The string [l] with its NUL at [a]. *)
Fixpoint str_at (m : mem) (a : Z) (l : list Z) : Prop :=
  match l with
  | [] => ld8 m a = 0
  | c :: l => ld8 m a = c ∧ c ≠ 0 ∧ str_at m (a + 1) l
  end.

Lemma str_at_ext m m' a l : (∀ x, a ≤ x ≤ a + Z.of_nat (length l) → ld8 m' x = ld8 m x) → str_at m a l → str_at m' a l.
Proof.
  revert a. induction l as [|c l IH]; intros a Hx; cbn [str_at length]; [by rewrite Hx by (cbn; lia)|].
  cbn [length] in Hx. rewrite Hx by lia. intros (? & ? & ?). split_and!; try done. apply IH; [|done]. intros x Hr. apply Hx. lia.
Qed.

Lemma str_at_drop m a l1 l2 : str_at m a (l1 ++ l2) → str_at m (a + Z.of_nat (length l1)) l2.
Proof.
  revert a. induction l1 as [|c l IH]; intros a; cbn [app str_at length]; [by rewrite Z.add_0_r|].
  intros (_ & _ & H). replace (a + Z.of_nat (S (length l))) with (a + 1 + Z.of_nat (length l)) by lia. by apply IH.
Qed.

Lemma str_at_lookup m a l i c : str_at m a l → l !! i = Some c → ld8 m (a + Z.of_nat i) = c ∧ c ≠ 0.
Proof.
  revert a i. induction l as [|b l IH]; intros a i; [done|]. cbn [str_at]. intros (H1 & H2 & H3). destruct i as [|i].
  - intros [= <-]. by rewrite Z.add_0_r.
  - intros Hc. change (l !! i = Some c) in Hc. replace (a + Z.of_nat (S i)) with (a + 1 + Z.of_nat i) by lia. by apply IH.
Qed.

(** A string is no longer than the memory, so the loops over it end. *)
Lemma str_at_size m a l : str_at m a l → (length l ≤ size m)%nat.
Proof.
  intros H. destruct (zero_in_range m a) as (i & Hi & Hz).
  destruct (decide (length l ≤ size m)%nat) as [|Hgt]; [done|].
  destruct (lookup_lt_is_Some_2 l (Z.to_nat i)) as [c Hc]; [lia|].
  destruct (str_at_lookup _ _ _ _ _ H Hc) as [H1 H2]. rewrite Z2Nat.id in H1 by lia. congruence.
Qed.

Lemma str_at_strlen m a l : str_at m a l → strlen m a = Z.of_nat (length l).
Proof.
  intros H. destruct (strlen_spec m a) as (S1 & S2 & S3).
  assert (Hz : ld8 m (a + Z.of_nat (length l)) = 0).
  { rewrite <- (app_nil_r l) in H. by apply str_at_drop in H. }
  destruct (Z.lt_trichotomy (strlen m a) (Z.of_nat (length l))) as [Hl|[|Hg]]; [|done|].
  - destruct (lookup_lt_is_Some_2 l (Z.to_nat (strlen m a))) as [c Hc]; [lia|].
    destruct (str_at_lookup _ _ _ _ _ H Hc) as [H1 H2]. rewrite Z2Nat.id in H1 by lia. congruence.
  - by destruct (S3 (Z.of_nat (length l)) ltac:(lia)).
Qed.

Lemma str_at_cstr_n m a l n : str_at m a l → cstr_n m a n = take n l.
Proof.
  revert a l. induction n as [|n IH]; intros a l; [done|]. cbn [cstr_n]. destruct l as [|c l]; cbn [str_at].
  - by intros ->.
  - intros (-> & Hc & H). rewrite (proj2 (Z.eqb_neq _ _) Hc). cbn. by rewrite (IH _ l).
Qed.

(** ** Elements of a path *)

(** The elements between slashes. *)
Fixpoint elems (cur : list Z) (l : list Z) : list (list Z) :=
  let flush := if decide (cur = []) then [] else [cur] in
  match l with
  | [] => flush
  | c :: l => if c =? slash then flush ++ elems [] l else elems (cur ++ [c]) l
  end.
(** Names are cut after DIRSIZ bytes. *)
Definition path_elems (l : list Z) : list (list Z) := take 14 <$> elems [] l.

Fixpoint drop_slashes (l : list Z) : list Z :=
  match l with
  | [] => []
  | c :: l' => if c =? slash then drop_slashes l' else l
  end.
Fixpoint split_name (l : list Z) : list Z * list Z :=
  match l with
  | [] => ([], [])
  | c :: l' => if c =? slash then ([], l) else (c :: (split_name l').1, (split_name l').2)
  end.

Lemma split_name_app l : (split_name l).1 ++ (split_name l).2 = l.
Proof. induction l as [|c l IH]; cbn; [done|]. destruct (c =? slash); cbn; [done|]. by rewrite IH. Qed.
Lemma drop_slashes_app l : ∃ l1, l = l1 ++ drop_slashes l.
Proof.
  induction l as [|c l [l1 IH]]; cbn; [by exists []|]. destruct (c =? slash); [|by exists []]. exists (c :: l1). cbn. by rewrite <- IH.
Qed.

Lemma elems_slashes l : elems [] (drop_slashes l) = elems [] l.
Proof. induction l as [|c l IH]; [done|]. cbn [drop_slashes elems]. destruct (c =? slash) eqn:E; cbn [elems]; [done|by rewrite E]. Qed.

Lemma elems_name cur l : cur ≠ [] → elems cur l = (cur ++ (split_name l).1) :: elems [] (split_name l).2.
Proof.
  revert cur. induction l as [|c l IH]; intros cur Hc; cbn [elems split_name].
  - rewrite decide_False by done. by rewrite app_nil_r.
  - destruct (c =? slash) eqn:E; cbn [fst snd].
    + rewrite decide_False by done. rewrite app_nil_r. cbn [elems]. rewrite E. by rewrite decide_True.
    + rewrite IH by (by destruct cur). by rewrite <- app_assoc.
Qed.

(** The elements of a path are the first, and those of the rest. *)
Lemma elems_step l : match drop_slashes l with
  | [] => elems [] l = []
  | c :: l' => (c =? slash) = false ∧ elems [] l = (c :: (split_name l').1) :: elems [] (split_name l').2
  end.
Proof.
  rewrite <- elems_slashes. induction l as [|c l IH]; [done|]. cbn [drop_slashes]. destruct (c =? slash) eqn:E; [done|].
  split; [done|]. cbn [elems]. rewrite E. by rewrite elems_name.
Qed.

Lemma length_elems l : (length (elems [] l) ≤ length l)%nat.
Proof.
  assert (H : ∀ cur, (length (elems cur l) ≤ length l + (if decide (cur = []) then 0 else 1))%nat);
    [|specialize (H []); rewrite decide_True in H by done; lia].
  induction l as [|c l IH]; intros cur; cbn [elems length]; [case_decide; done|].
  destruct (c =? slash).
  - rewrite length_app. specialize (IH []). rewrite decide_True in IH by done. case_decide; cbn; lia.
  - specialize (IH (cur ++ [c])). rewrite decide_False in IH by (by destruct cur). case_decide; lia.
Qed.

Lemma skip_slashes_str n m a l : str_at m a l → (length l ≤ n)%nat →
  skip_slashes n m a = a + Z.of_nat (length l - length (drop_slashes l)).
Proof.
  revert n a. induction l as [|c l IH]; intros n a H Hn.
  - cbn in *. destruct n; cbn; [lia|]. rewrite H. cbn. lia.
  - cbn [str_at length] in *. destruct H as (H1 & H2 & H3). destruct n as [|n]; [lia|]. cbn [skip_slashes drop_slashes]. rewrite H1.
    destruct (c =? slash); [|cbn; lia]. rewrite IH by (done || lia).
    destruct (drop_slashes_app l) as [l1 El]. apply (f_equal length) in El. rewrite length_app in El. lia.
Qed.

Lemma skip_name_str n m a l : str_at m a l → (length l ≤ n)%nat → skip_name n m a = a + Z.of_nat (length (split_name l).1).
Proof.
  revert n a. induction l as [|c l IH]; intros n a H Hn.
  - cbn in *. destruct n; cbn; [lia|]. rewrite H. cbn. lia.
  - cbn [str_at length] in *. destruct H as (H1 & H2 & H3). destruct n as [|n]; [lia|]. cbn [skip_name split_name]. rewrite H1.
    rewrite (proj2 (Z.eqb_neq c 0) H2), andb_true_r. destruct (c =? slash); cbn [negb fst length]; [lia|]. rewrite IH by (done || lia). lia.
Qed.

Lemma str_at_copy m m' a a' l1 l2 : str_at m a (l1 ++ l2) →
  (∀ i, 0 ≤ i < Z.of_nat (length l1) → ld8 m' (a' + i) = ld8 m (a + i)) → ld8 m' (a' + Z.of_nat (length l1)) = 0 → str_at m' a' l1.
Proof.
  revert a a'. induction l1 as [|c l IH]; intros a a'; cbn [app str_at length].
  - intros _ _. by rewrite Z.add_0_r.
  - intros (H1 & H2 & H3) Hc Hz. split; [|split; [done|]].
    + specialize (Hc 0). rewrite !Z.add_0_r in Hc. rewrite Hc by lia. done.
    + apply (IH (a + 1)); [done| |by rewrite <- Hz; f_equal; lia]. intros i Hi.
      replace (a' + 1 + i) with (a' + (i + 1)) by lia. rewrite Hc by lia. f_equal. lia.
Qed.

(** The memory only changes in the [n] bytes at [a]. *)
Definition only_at (a : Z) (n : Z) (m m' : mem) : Prop := ∀ x, x < a ∨ a + n ≤ x → ld8 m' x = ld8 m x.

(** An element copied to the buffer of names. *)
Lemma name_copied m s name e r :
  str_at m s (e ++ r) → let len := Z.of_nat (length e) in
  let m' := if DIRSIZ <=? len then memmove m name s DIRSIZ else st8 (memmove m name s len) (name + len) 0 in
  cstr_n m' name 14 = take 14 e ∧ only_at name 14 m m'.
Proof.
  intros H len m'. unfold m'. change DIRSIZ with 14. destruct (Z.leb_spec 14 len) as [Hl|Hl].
  - split.
    + rewrite (cstr_n_ext _ m name s 14), (str_at_cstr_n m s _ 14 H), take_app_le by (done || lia || (intros i Hi; rewrite ld8_memmove, decide_True by lia; f_equal; lia)).
      done.
    + intros x Hx. rewrite ld8_memmove. by rewrite decide_False by lia.
  - split.
    + apply str_at_cstr_n. apply (str_at_copy m _ s _ e r H).
      * intros i Hi. rewrite ld8_st8_ne, ld8_memmove by lia. rewrite decide_True by lia. f_equal. lia.
      * by rewrite ld8_st8_eq.
    + intros x Hx. rewrite ld8_st8_ne, ld8_memmove by lia. by rewrite decide_False by lia.
Qed.

(** skipelem takes the first element off a path, into the buffer [name]. *)
Lemma skipelem_str m path name l : str_at m path l → 0 < path →
  name + 14 ≤ path ∨ path + Z.of_nat (length l) < name →
  match elems [] l with
  | [] => skipelem m path name = (m, 0)
  | e :: es => ∃ m' path' r, skipelem m path name = (m', path') ∧ path ≤ path' ∧
      path' + Z.of_nat (length r) = path + Z.of_nat (length l) ∧ str_at m' path' r ∧ elems [] r = es ∧
      (ld8 m' path' =? 0) = bool_decide (es = []) ∧ cstr_n m' name 14 = take 14 e ∧ only_at name 14 m m'
  end.
Proof.
  intros H Hp Hd. unfold skipelem. pose proof (str_at_size _ _ _ H) as Hs. rewrite (skip_slashes_str _ _ _ l) by (done || lia).
  destruct (drop_slashes_app l) as [l0 El]. pose proof (elems_step l) as He. set (l' := drop_slashes l) in *.
  pose proof (f_equal length El) as Ell. rewrite length_app in Ell. replace (length l - length l')%nat with (length l0) by lia.
  rewrite El in H. apply str_at_drop in H. set (a := path + Z.of_nat (length l0)) in *.
  destruct l' as [|c l'']; [rewrite He; cbn [str_at] in H; by rewrite H|]. destruct He as [Hc He]. rewrite He. clear He.
  pose proof H as (-> & Hc0 & _). rewrite (proj2 (Z.eqb_neq _ _) Hc0).
  set (e := c :: (split_name l'').1). set (r0 := (split_name l'').2).
  assert (El' : c :: l'' = e ++ r0) by (unfold e, r0; cbn [app]; by rewrite split_name_app).
  rewrite (skip_name_str _ _ _ _ H) by (cbn [length] in *; lia). cbn [split_name]. rewrite Hc. cbn [fst]. fold e.
  assert (Hlen : length (c :: l'') = (length e + length r0)%nat) by (rewrite El', length_app; done). rewrite El' in H.
  replace (a + Z.of_nat (length e) - a) with (Z.of_nat (length e)) by lia.
  destruct (name_copied m a name e r0 H) as [N1 N2]. set (m' := if DIRSIZ <=? _ then _ else _) in *.
  assert (Hr0 : str_at m' (a + Z.of_nat (length e)) r0).
  { apply (str_at_ext m); [|by apply str_at_drop]. intros x Hx. apply N2. lia. }
  pose proof (str_at_size _ _ _ Hr0). rewrite (skip_slashes_str _ _ _ r0) by (done || lia).
  destruct (drop_slashes_app r0) as [l1 Er]. set (r := drop_slashes r0) in *. pose proof (f_equal length Er) as Erl. rewrite length_app in Erl.
  rewrite Er in Hr0. apply str_at_drop in Hr0. replace (length r0 - length r)%nat with (length l1) by lia.
  eexists m', _, r. split; [done|]. split; [lia|]. split; [lia|]. split; [done|]. split; [apply elems_slashes|]. split; [|done].
  pose proof (elems_step r0) as Hes. fold r in Hes. destruct r as [|c' r'].
  - cbn [str_at] in Hr0. rewrite Hr0, Hes. done.
  - destruct Hr0 as (-> & Hc' & _). destruct Hes as [_ ->]. by rewrite (proj2 (Z.eqb_neq _ _) Hc').
Qed.

(** ** Trees *)

(** The entries of directory [i]. *)
Definition entries (k : superblock) (v : view) (i : Z) : list (Z * list Z) := ents v (inode_of k v i).
Definition is_dir (k : superblock) (v : view) (i : Z) : bool := (disk_inode k v i).(di_type) =? T_DIR.

(** The inode a path leads to from [i]; with [parent], the directory that has
    the last element. *)
Fixpoint path_walk (k : superblock) (v : view) (parent : bool) (i : Z) (es : list (list Z)) : option Z :=
  match es with
  | [] => if parent then None else Some i
  | e :: es =>
      if negb (is_dir k v i) then None
      else if parent && bool_decide (es = []) then Some i
      else match dfind e (entries k v i) 0 with
           | Some (_, j) => path_walk k v parent j es
           | None => None
           end
  end.

(** [P] is a set of inodes in use, closed under the entries of directories. *)
Record tree (k : superblock) (v : view) (P : Z → Prop) : Prop := {
  tr_range i : P i → 0 ≤ i < k.(sb_ninodes);
  tr_type i : P i → (disk_inode k v i).(di_type) ≠ 0;
  tr_links i : P i → (disk_inode k v i).(di_nlink) ≠ 0;
  tr_dir i : P i → is_dir k v i = true → dir_ok k (inode_of k v i) v;
  tr_closed i e : P i → is_dir k v i = true → e ∈ entries k v i → e.1 ≠ 0 → P e.1 }.

Lemma dinode_of_inode_of k v i : dinode_of (inode_of k v i) = disk_inode k v i.
Proof. unfold inode_of. by destruct (disk_inode k v i). Qed.

(** A locked inode that was read is the one of the disk. *)
Lemma ents_inode_of k v q i : dinode_of q = disk_inode k v i → ents v q = entries k v i.
Proof.
  intros H. unfold entries, ents. rewrite <- (dinode_of_inode_of k v i) in H.
  assert (q.(i_size) = (inode_of k v i).(i_size)) as -> by (by injection H).
  apply list_fmap_ext. intros _ j _. unfold dent. by rewrite (fbytes_dinode v (inode_of k v i) q).
Qed.
Lemma dir_ok_inode_of k v q i : dinode_of q = disk_inode k v i → q.(i_dev) = ROOTDEV → q.(i_inum) = i →
  dir_ok k (inode_of k v i) v → dir_ok k q v.
Proof.
  intros H Hd Hi [D1 D2 D3]. pose proof (dinode_of_inode_of k v i) as E. rewrite <- E in H. split.
  - by apply (file_ok_dinode v k (inode_of k v i)).
  - injection H as H _. by rewrite H.
  - injection H as _ _ _ _ H _. by rewrite H.
Qed.

(** Trees are made of contents of blocks only. *)
Section same.
Context (k : superblock) (v v' : view).
Hypothesis Hv : ∀ b, v'.(vb) b = v.(vb) b.

Lemma disk_inode_same i : disk_inode k v' i = disk_inode k v i.
Proof. unfold disk_inode. by rewrite Hv. Qed.
Lemma inode_of_same i : inode_of k v' i = inode_of k v i.
Proof. unfold inode_of. by rewrite disk_inode_same. Qed.
Lemma fbytes_same q off n : fbytes v' q off n = fbytes v q off n.
Proof. unfold fbytes. apply list_fmap_ext. intros _ o _. unfold fbyte. rewrite Hv. by rewrite (faddr_ext v v'). Qed.
Lemma entries_same i : entries k v' i = entries k v i.
Proof.
  unfold entries. rewrite inode_of_same. unfold ents. apply list_fmap_ext. intros _ j _. unfold dent. by rewrite fbytes_same.
Qed.

Lemma walk_same parent i es : path_walk k v' parent i es = path_walk k v parent i es.
Proof.
  revert i. induction es as [|e es IH]; intros i; cbn [path_walk]; [done|]. unfold is_dir. rewrite disk_inode_same, entries_same.
  destruct (negb _); [done|]. destruct (parent && _); [done|]. destruct (dfind _ _ _) as [[? j]|]; [apply IH|done].
Qed.

Lemma tree_same P : tree k v P → tree k v' P.
Proof.
  intros [T1 T2 T3 T4 T5].
  split; unfold is_dir; intros i; rewrite ?disk_inode_same, ?inode_of_same; try auto.
  - intros HP Ht. destruct (T4 i HP Ht) as [D1 D2 D3]. split; [by apply (file_ok_same k v)|done|done].
  - intros e. rewrite entries_same. apply T5.
Qed.
End same.

Lemma dfind_elem nm l n i j : dfind nm l n = Some (i, j) → (j, nm) ∈ l ∧ j ≠ 0.
Proof.
  revert n. induction l as [|[x y] l IH]; intros n; cbn [dfind]; [done|].
  destruct (Z.eqb_spec x 0) as [Hx|Hx]; cbn [negb andb].
  - intros H. destruct (IH _ H). split; [by right|done].
  - case_bool_decide as E; [intros [= _ <-]; subst; split; [by left|done]|]. intros H. destruct (IH _ H). split; [by right|done].
Qed.

(** Where the references held to inodes stand: those of [T], with [F] entries
    of the table not in use, and one more to [o]. *)
Record based (T : Z → Z) (F : Z) (s : kstate) (o : option Z) : Prop := {
  ba_refs j : nrefs s j = T j + (if decide (o = Some j) then 1 else 0);
  ba_free : nfree s = F - match o with Some j => 1 - bit (T j) | None => 0 end }.

Lemma based_take T F s s' j : (∀ j, 0 ≤ T j) → based T F s None → ref_moved s s' j 1 → based T F s' (Some j).
Proof.
  intros HT [B1 B2] [R1 R2]. split.
  - intros j'. rewrite R1, B1. repeat case_decide; try congruence; lia.
  - rewrite R1, decide_True, !B1 in R2 by done. rewrite !decide_False, B2 in R2 by done. specialize (HT j).
    rewrite (bit_pos (T j + 0 + 1)) in R2 by lia. rewrite Z.add_0_r in R2. lia.
Qed.
Lemma based_drop T F s s' j : (∀ j, 0 ≤ T j) → based T F s (Some j) → ref_moved s s' j (-1) → based T F s' None.
Proof.
  intros HT [B1 B2] [R1 R2]. split.
  - intros j'. rewrite R1, B1. repeat case_decide; try congruence; lia.
  - rewrite R1, decide_True, !B1 in R2 by done. rewrite !decide_True, B2 in R2 by done. specialize (HT j).
    rewrite (bit_pos (T j + 1)) in R2 by lia. replace (T j + 1 + -1) with (T j) in R2 by lia. lia.
Qed.
Lemma based_pmem T F s g o : based T F s o → based T F (set_pmem g s) o.
Proof. by intros []. Qed.
Lemma based_keep T F s s' o j : based T F s o → ref_moved s s' j 0 → based T F s' o.
Proof.
  intros [B1 B2] [R1 R2]. rewrite R1 in R2. split; [intros j'; rewrite R1, B1; repeat case_decide; lia|].
  replace (nrefs s j + _) with (nrefs s j) in R2 by (case_decide; lia). lia.
Qed.

(** A reference to [j] instead of the one to [i]. *)
Lemma based_step T F s s1 s2 i j : (∀ j, 0 ≤ T j) → based T F s (Some i) → ref_moved s s1 j 1 → ref_moved s1 s2 i (-1) →
  based T F s2 (Some j).
Proof.
  intros HT [B1 B2] [R1 R2] [S1 S2]. pose proof (HT i). pose proof (HT j). split.
  - intros j'. rewrite S1, R1, B1. repeat case_decide; try congruence; lia.
  - rewrite !S1, !R1, !B1 in S2. rewrite !R1, !B1 in R2. rewrite B2 in R2. revert R2 S2. destruct (decide (i = j)) as [->|Hne].
    + rewrite !decide_True by done. rewrite !(bit_pos (_ + 1)) by lia. rewrite (bit_pos (_ + -1)) by lia. lia.
    + rewrite !(decide_True (P := Some i = Some i)), !(decide_True (P := j = j)), !(decide_True (P := i = i)) by done.
      rewrite !(decide_False (P := Some i = Some j)) by congruence.
      rewrite !Z.add_0_r, !(bit_pos (_ + 1)) by lia. replace (T i + 1 + -1) with (T i) by lia. lia.
Qed.

(** What path lookup may change: the inode table, the buffer [name] and the
    local entry of dirlookup. *)
Definition visited (name : Z) (s s' : kstate) : Prop :=
  ∃ l m, s' = set_itable (λ _, l) (set_pmem (λ _, m) s) ∧
    ∀ x, x < name ∨ name + 14 ≤ x → x < stack_base s ∨ stack_base s + 16 ≤ x → ld8 m x = ld8 s.(pmem) x.

Lemma visited_trans name s s1 s2 : visited name s s1 → visited name s1 s2 → visited name s s2.
Proof.
  intros (l & m & -> & H1) (l' & m' & -> & H2). exists l', m'. split; [done|]. intros x Hx Hy. rewrite H2 by done. by apply H1.
Qed.
Lemma visited_inode name s ip g : visited name s (upd_inode ip g s).
Proof. exists (alter g ip s.(itable)), s.(pmem). by destruct s. Qed.
Lemma visited_mem name s g :
  (∀ x, x < name ∨ name + 14 ≤ x → x < stack_base s ∨ stack_base s + 16 ≤ x → ld8 (g s.(pmem)) x = ld8 s.(pmem) x) →
  visited name s (set_pmem g s).
Proof. intros H. exists s.(itable), (g s.(pmem)). split; [by destruct s|done]. Qed.

Section namex.
Context {Fl : Fuel} {La : Layout} {Dv : Device} `{Bs : BlockDevSpec}.
Context (k : superblock) (X : gset Z) (p : nat) (v : view) (P : Z → Prop) (T : Z → Z) (F : Z) (name : Z).
Hypothesis Hsb : sb_ok k.
Hypothesis Hly : sb_layout k.
Hypothesis Hfl : ∀ y, v.(vl) y = free_lock.
Hypothesis Htree : tree k v P.
Hypothesis HTpos : ∀ j, 0 ≤ T j.
Hypothesis HF : 2 ≤ F.

Lemma based_room s i j : based T F s (Some i) → 0 < nrefs s j ∨ 0 < nfree s.
Proof. intros [_ B2]. right. rewrite B2. unfold bit. destruct (T i =? 0); lia. Qed.

(** One lookup in the locked directory [ip], and letting go of it. *)
Lemma lookup_step s0 s n m ip i q nm :
  txc X p s0 s v n m → 1 ≤ m → P i → is_dir k v i = true → itab_ok k v (pid_of p s0) {[ip]} s0 → href s0 ip i →
  get_inode ip s0 = q → dinode_of q = disk_inode k v i → q.(i_dev) = ROOTDEV → based T F s0 (Some i) →
  stack_ok (stack_base s0) name → cstr_n s0.(pmem) name 14 = nm →
  ∃ r s1 s0' s', dirlookup ip name s = Done r s1 ∧ iunlockput ip s1 = Done () s' ∧ txc X p s0' s' v n m ∧
    itab_ok k v (pid_of p s0) ∅ s0' ∧ visited name s0 s0' ∧
    match dfind nm (entries k v i) 0 with
    | Some (_, j) => (∃ ip' o, r = Some (ip', o) ∧ href s0' ip' j) ∧ P j ∧ based T F s0' (Some j)
    | None => r = None ∧ based T F s0' None
    end.
Proof.
  intros HX Hm Hi Hdir HT Hh Hq Hdi Hdev HB Hst Hnm. pose proof Hh as (_ & _ & Hin). rewrite Hq in Hin.
  destruct (dirlookup_done k X p ip q Hsb name nm s0 s v n m HX Hm Hfl Hq) as (g & s1 & E & HX1 & _ & Hsc); try done.
  { eapply dir_ok_inode_of; try done. by apply (tr_dir _ _ _ Htree). }
  rewrite (ents_inode_of k v q i Hdi) in E. set (t := set_pmem g s0) in *.
  assert (HTt : itab_ok k v (pid_of p t) {[ip]} t) by (by apply itab_pmem). assert (HBt : based T F t (Some i)) by (by apply based_pmem).
  assert (Hvt : visited name s0 t) by (apply visited_mem; intros x _ Hx; by apply Hsc).
  assert (Hlinks := tr_links _ _ _ Htree i Hi). assert (Hemp : ({[ip]} ∖ {[ip]} : gset nat) = ∅) by apply difference_diag_L.
  destruct (dfind nm (entries k v i) 0) as [[slot j]|] eqn:Ed; cbn [lookup_rest] in E.
  - destruct (dfind_elem _ _ _ _ _ Ed) as [Hel Hj0]. assert (Pj : P j) by (exact (tr_closed _ _ _ Htree i (j, nm) Hi Hdir Hel Hj0)).
    destruct (iget_done k X p {[ip]} t s1 v n m j HX1 HTt (tr_range _ _ _ Htree j Pj) (based_room _ _ _ HBt))
      as (ip' & h & E2 & HX2 & HT2 & Hh2 & Hsame & HR2).
    set (t2 := upd_inode ip' h t) in *. set (s2 := upd_inode ip' h s1) in *.
    destruct (Hsame ip i Hh) as (r & Hr & Eip). assert (Hhi : href t2 ip i) by (split; [apply Hh|]; rewrite Eip; split; [done|apply Hh]).
    destruct (iunlockput_done k X p {[ip]} t2 s2 v n m ip i HX2 HT2 Hhi) as (h' & E3 & HX3 & HT3 & HR3 & Hkeep); [set_solver|by left|].
    eexists _, s2, _, _. split; [rewrite E; mstep E2; done|]. split; [exact E3|]. split; [exact HX3|]. rewrite Hemp in HT3. split; [exact HT3|].
    split; [eapply visited_trans; [exact Hvt|]; eapply visited_trans; apply visited_inode|]. split; [|split; [done|]].
    + eexists ip', _. split; [done|]. apply Hkeep; [done|]. destruct (decide (ip' = ip)) as [->|]; [right|by left].
      assert (j = i) as -> by (destruct Hh2 as (_ & _ & <-), Hhi as (_ & _ & <-); done).
      rewrite (rm_refs _ _ _ _ HR2), decide_True by done. change (nrefs t i) with (nrefs s0 i).
      rewrite (ba_refs _ _ _ _ HB), decide_True by done. specialize (HTpos i). lia.
    + by eapply (based_step T F t t2 _ i j).
  - destruct (iunlockput_done k X p {[ip]} t s1 v n m ip i HX1 HTt Hh) as (h' & E3 & HX3 & HT3 & HR3 & _); [set_solver|by left|].
    eexists _, s1, _, _. split; [exact E|]. split; [exact E3|]. split; [exact HX3|]. rewrite Hemp in HT3. split; [exact HT3|].
    split; [eapply visited_trans; [exact Hvt|]; apply visited_inode|]. split; [done|]. by eapply (based_drop T F t).
Qed.

(** The string of a path is neither in the buffer [name] nor on the stack. *)
Definition path_clear (b path : Z) (l : list Z) : Prop :=
  0 < path ∧ (name + 14 ≤ path ∨ path + Z.of_nat (length l) < name) ∧ (path + Z.of_nat (length l) < b ∨ b + 16 ≤ path).

(** The outcome [r] of a walk that leads to [o]. *)
Definition arrived (s0 : kstate) (r : option nat) (o : option Z) : Prop :=
  match o with
  | Some j => (∃ ip, r = Some ip ∧ href s0 ip j) ∧ P j
  | None => r = None
  end ∧ based T F s0 o.

(** A table of inodes at rest, and the string at [path]. *)
Record rest_state (s0 s : kstate) (n m : Z) : Prop := {
  rs_txc : txc X p s0 s v n m;
  rs_sb : s0.(sb) = k;
  rs_itab : itab_ok k v (pid_of p s0) ∅ s0;
  rs_stack : stack_ok (stack_base s0) name }.

Lemma visited_same s s' : visited name s s' → stack_base s' = stack_base s ∧ pid_of p s' = pid_of p s ∧ s'.(sb) = s.(sb).
Proof. by intros (l & m & -> & _). Qed.
Lemma visited_str s s' path l : visited name s s' → path_clear (stack_base s) path l → str_at s.(pmem) path l → str_at s'.(pmem) path l.
Proof. intros (l' & m & -> & H) (_ & H1 & H2). apply str_at_ext. intros x Hx. apply H; lia. Qed.

Lemma rest_visited s0 s n m s0' s' : rest_state s0 s n m → visited name s0 s0' → txc X p s0' s' v n m →
  itab_ok k v (pid_of p s0) ∅ s0' → rest_state s0' s' n m.
Proof.
  intros [R1 R2 R3 R4] Hv HX HT. destruct (visited_same _ _ Hv) as (E1 & E2 & E3). split; try done; [by rewrite E3|by rewrite E2|by rewrite E1].
Qed.

Lemma rest_name s0 s n m m' : rest_state s0 s n m → only_at name 14 s0.(pmem) m' →
  rest_state (set_pmem (λ _, m') s0) (set_pmem (λ _, m') s) n m ∧ visited name s0 (set_pmem (λ _, m') s0).
Proof.
  intros HR Hm. assert (visited name s0 (set_pmem (λ _, m') s0)) by (apply visited_mem; intros x Hx _; by apply Hm).
  split; [|done]. eapply rest_visited; [done|done|apply txc_pmem, HR|apply itab_pmem, HR].
Qed.

(** At the end of the path. *)
Lemma walk_end (parent : bool) ip i s0 s n m : rest_state s0 s n m → P i → href s0 ip i → based T F s0 (Some i) →
  ∃ r s0' s', (if parent then iput ip ;; mret None else mret (Some ip) : K (option nat)) s = Done r s' ∧
    rest_state s0' s' n m ∧ visited name s0 s0' ∧ arrived s0' r (path_walk k v parent i []).
Proof.
  intros HR Hi Hh HB. destruct parent; cbn [path_walk].
  - destruct (iput_done k X p ∅ s0 s v n m ip i (rs_txc _ _ _ _ HR) (rs_itab _ _ _ _ HR) Hh) as (E & HX & HT & HRm); [set_solver|left; by apply (tr_links _ _ _ Htree)|].
    eexists (None : option nat), _, _. split; [by mstep E|]. split; [eapply rest_visited; [done|apply visited_inode|done|done]|].
    split; [apply visited_inode|]. split; [done|]. by eapply (based_drop T F s0).
  - exists (Some ip), s0, s. split; [done|]. split; [done|]. split; [exists s0.(itable), s0.(pmem); by destruct s0|].
    split; [|done]. split; [by exists ip|done].
Qed.

(** One directory of the walk: locked, searched, let go. *)
Lemma walk_step (parent last : bool) ip i s0 s n m nm es f path :
  rest_state s0 s n m → 1 ≤ m → P i → href s0 ip i → based T F s0 (Some i) → cstr_n s0.(pmem) name 14 = nm →
  (ld8 s0.(pmem) path =? 0) = last → bool_decide (es = []) = last →
  let body : K (option nat) :=
    ilock (Some ip) ;;
    q ← gets (get_inode ip);
    if negb (q.(i_type) =? T_DIR) then iunlockput ip ;; mret None else
    m ← gets pmem;
    if parent && (ld8 m path =? 0) then iunlock (Some ip) ;; mret (Some ip) else
    r ← dirlookup ip name;
    match r with
    | None => iunlockput ip ;; mret None
    | Some (next, _) => iunlockput ip ;; f next
    end in
  ∃ s0' s', rest_state s0' s' n m ∧ visited name s0 s0' ∧
    ((∃ r, body s = Done r s' ∧ arrived s0' r (path_walk k v parent i (nm :: es)) ∧ (r ≠ None → parent && last = true ∧ cstr_n s0'.(pmem) name 14 = nm)) ∨
     (∃ ip' j, parent && last = false ∧ body s = f ip' s' ∧ path_walk k v parent i (nm :: es) = path_walk k v parent j es ∧
       P j ∧ href s0' ip' j ∧ based T F s0' (Some j))).
Proof.
  intros HR Hm Hi Hh HB Hnm Hlast Hes body. pose proof HR as [HX Hk HT Hst].
  destruct (ilock_done k X p Hsb Hly ∅ s0 s v n m ip i HX Hm Hk Hfl HT Hh) as (q & sa & E & HXa & HTa & Hq & Hdi & Hdev & Hha & HRa);
    [set_solver|by apply (tr_type _ _ _ Htree)|]. set (ta := upd_inode ip _ s0) in *.
  assert (HBa : based T F ta (Some i)) by (by eapply based_keep). rewrite union_empty_r_L in HTa.
  assert (Hva : visited name s0 ta) by apply visited_inode. assert (Hlinks := tr_links _ _ _ Htree i Hi).
  assert (Hemp : ({[ip]} ∖ {[ip]} : gset nat) = ∅) by apply difference_diag_L.
  assert (Ety : q.(i_type) = (disk_inode k v i).(di_type)) by (by rewrite <- Hdi).
  cbn [path_walk]. rewrite Hes. unfold is_dir. unfold body. mstep E.
  rewrite (bind_done (gets (get_inode ip)) _ sa q sa) by (exact (gets_eq _ _ _ (eq_trans (txc_get_inode _ _ _ _ _ _ _ _ HXa) Hq))).
  rewrite Ety. destruct (di_type (disk_inode k v i) =? T_DIR) eqn:Ed; cbn [negb].
  2: { destruct (iunlockput_done k X p {[ip]} ta sa v n m ip i HXa HTa Hha) as (h & E3 & HX3 & HT3 & HR3 & _); [set_solver|by left|].
    rewrite Hemp in HT3. eexists _, _. split; [eapply rest_visited; [done|by eapply visited_trans, visited_inode|exact HX3|exact HT3]|].
    split; [by eapply visited_trans, visited_inode|]. left. exists None. split; [by mstep E3|]. split; [|done].
    split; [done|]. by eapply (based_drop T F ta). }
  rewrite (bind_done (gets pmem) _ sa s0.(pmem) sa) by (exact (gets_eq _ _ _ (txc_mem _ _ _ _ _ _ _ HXa))). rewrite Hlast.
  destruct (parent && last) eqn:Epl.
  - destruct (iunlock_done k X p {[ip]} ta sa v n m ip i HXa HTa Hha) as (E3 & HX3 & HT3 & Hh3 & HR3); [set_solver|].
    rewrite Hemp in HT3. eexists _, _. split; [eapply rest_visited; [done|by eapply visited_trans, visited_inode|exact HX3|exact HT3]|].
    split; [by eapply visited_trans, visited_inode|]. left. exists (Some ip). split; [by mstep E3|]. split; [|done].
    split; [split; [by exists ip|done]|]. by eapply based_keep.
  - destruct (lookup_step ta sa n m ip i q nm HXa Hm Hi Ed HTa Hha Hq Hdi Hdev HBa Hst Hnm)
      as (r & s1 & t3 & s3 & E1 & E3 & HX3 & HT3 & Hv3 & Hrest). pose proof (visited_trans _ _ _ _ Hva Hv3) as Hv.
    exists t3, s3. split; [by eapply rest_visited|]. split; [done|]. mstep E1.
    destruct (dfind nm (entries k v i) 0) as [[slot j]|].
    + destruct Hrest as ((ip' & o & -> & Hh') & Pj & HB'). right. exists ip', j. split; [done|]. split; [by mstep E3|done].
    + destruct Hrest as [-> HB']. left. exists None. split; [by mstep E3|]. done.
Qed.

(** namex_loop follows the path from the inode of [ip]. *)
Lemma namex_loop_walks f (parent : bool) ip i s0 s n m path l :
  rest_state s0 s n m → 1 ≤ m → P i → href s0 ip i → based T F s0 (Some i) →
  str_at s0.(pmem) path l → path_clear (stack_base s0) path l → (length (elems [] l) ≤ f)%nat →
  ∃ r s0' s', namex_loop f ip path parent name s = Done r s' ∧ rest_state s0' s' n m ∧ visited name s0 s0' ∧
    arrived s0' r (path_walk k v parent i (path_elems l)) ∧
    (parent = true → r ≠ None → last (path_elems l) = Some (cstr_n s0'.(pmem) name 14)).
Proof.
  revert ip i s0 s path l. induction f as [|f IH]; intros ip i s0 s path l HR Hm Hi Hh HB Hstr Hcl Hf; cbn [namex_loop];
    rewrite (bind_done (gets pmem) _ s s0.(pmem) s) by (exact (gets_eq _ _ _ (txc_mem _ _ _ _ _ _ _ (rs_txc _ _ _ _ HR))));
    pose proof Hcl as (Hp0 & Hcn & Hcs); pose proof (skipelem_str s0.(pmem) path name l Hstr Hp0 Hcn) as Hsk;
    unfold path_elems; destruct (elems [] l) as [|e es] eqn:Ee; cbn [length] in Hf; try lia.
  1, 2: rewrite Hsk; mnext; destruct (rest_name s0 s n m s0.(pmem) HR) as [HR1 Hv1]; [done|];
    destruct (walk_end parent ip i _ _ n m HR1 Hi Hh (based_pmem _ _ _ _ _ HB)) as (r & s0' & s' & E & HR2 & Hv2 & Ha);
    exists r, s0', s'; split; [exact E|]; split; [done|]; split; [exact (visited_trans _ _ _ _ Hv1 Hv2)|]; split; [exact Ha|];
    intros ->; destruct Ha as [Ha _]; done.
  destruct Hsk as (m' & path' & r & -> & Hle & Hlen & Hstr' & Her & Hz & Hnm & Hon). mnext.
  destruct (rest_name s0 s n m m' HR Hon) as [HR1 Hv1]. set (t1 := set_pmem _ s0) in *.
  rewrite (proj2 (Z.eqb_neq path' 0)) by lia.
  destruct (walk_step parent (bool_decide (es = [])) ip i t1 _ n m (take 14 e) (take 14 <$> es) (λ next, namex_loop f next path' parent name) path' HR1 Hm Hi Hh (based_pmem _ _ _ _ _ HB) Hnm Hz)
    as (t2 & s2 & HR2 & Hv2 & [(r' & E & Ha & Hl)|(ip' & j & Hpl & E & Hw & Pj & Hh2 & HB2)]).
  { apply bool_decide_ext. destruct es; done. }
  - exists r', t2, s2. split; [exact E|]. split; [done|]. split; [exact (visited_trans _ _ _ _ Hv1 Hv2)|]. split; [exact Ha|].
    intros _ Hr. destruct (Hl Hr) as [Hpl Hc]. apply andb_prop in Hpl as [_ ->%bool_decide_eq_true]. by rewrite Hc.
  - pose proof (visited_trans _ _ _ _ Hv1 Hv2) as Hv. destruct (visited_same _ _ Hv) as (Eb & _ & _).
    assert (Hcl' : path_clear (stack_base t2) path' r) by (rewrite Eb; unfold path_clear; lia).
    destruct (IH ip' j t2 s2 path' r HR2 Hm Pj Hh2 HB2) as (r' & t3 & s3 & E3 & HR3 & Hv3 & Ha & Hlast); [|done|rewrite Her; lia|].
    { eapply (visited_str t1); [done|by rewrite Eb in Hcl'|done]. }
    exists r', t3, s3. split; [exact (eq_trans E E3)|]. split; [done|]. split; [exact (visited_trans _ _ _ _ Hv Hv3)|]. unfold path_elems in Ha, Hlast. rewrite Her in Ha, Hlast.
    change (take 14 <$> e :: es) with (take 14 e :: (take 14 <$> es)). split; [by rewrite Hw|].
    intros Hpar Hr. rewrite <- (Hlast Hpar Hr). rewrite Hpar in Hpl. apply bool_decide_eq_false in Hpl. by destruct es.
Qed.
End namex.

Section claims.
Context {Fl : Fuel} {La : Layout} {Dv : Device} `{Bs : BlockDevSpec}.

(** Where a path starts: at the root or at the working directory of [p]. *)
Definition starts (p : nat) (s0 : kstate) (l : list Z) (i : Z) : Prop :=
  if decide (head l = Some slash) then i = ROOTINO
  else ∃ ip, (get_proc p s0).(p_cwd) = Some ip ∧ href s0 ip i.

Lemma start_done k X p name s0 s v n m path l i : rest_state k X p v name s0 s n m → 2 ≤ nfree s0 → str_at s0.(pmem) path l →
  starts p s0 l i → 0 ≤ i < k.(sb_ninodes) →
  ∃ ip s0' s', (if ld8 s0.(pmem) path =? slash then iget ROOTDEV ROOTINO
      else p ← myproc_ptr; q ← gets (get_proc p); cwd ← deref q.(p_cwd); idup cwd) s = Done ip s' ∧
    rest_state k X p v name s0' s' n m ∧ visited name s0 s0' ∧ s0'.(pmem) = s0.(pmem) ∧
    href s0' ip i ∧ based (nrefs s0) (nfree s0) s0' (Some i).
Proof.
  intros HR HF Hstr Hst Hi. pose proof HR as [HX Hk HT Hsk].
  assert (HB0 : based (nrefs s0) (nfree s0) s0 None) by (split; [intros j; rewrite decide_False by done|]; lia).
  assert (Hpos : ∀ j, 0 ≤ nrefs s0 j) by (intros j; apply nrefs_pos).
  assert (Hhd : (ld8 s0.(pmem) path =? slash) = bool_decide (head l = Some slash)).
  { destruct l as [|c l]; cbn [str_at] in Hstr; [by rewrite Hstr|]. destruct Hstr as (-> & _). cbn [head].
    destruct (Z.eqb_spec c slash) as [->|]; [by rewrite bool_decide_true|]. rewrite bool_decide_false by congruence. done. }
  rewrite Hhd. unfold starts in Hst. destruct (decide (head l = Some slash)) as [Hs|Hs].
  - rewrite bool_decide_true by done. subst i.
    destruct (iget_done k X p ∅ s0 s v n m ROOTINO HX HT Hi) as (ip & g & E & HX1 & HT1 & Hh1 & _ & HR1); [lia|].
    eexists ip, _, _. split; [exact E|]. split; [by eapply rest_visited, HT1; [|apply visited_inode|]|]. split; [apply visited_inode|]. split; [done|].
    split; [done|]. by eapply based_take.
  - rewrite bool_decide_false by done. destruct Hst as (ip & Hcwd & Hh).
    destruct (idup_done k X p ∅ s0 s v n m ip i HX HT Hh) as (E & HX1 & HT1 & Hh1 & HR1).
    eexists ip, _, _. split.
    { pose proof (tx_quiet _ _ _ _ _ _ (proj1 HX)) as Hq. pose proof (tx_view _ _ _ _ _ _ (proj1 HX)) as HA.
      mstep (quiet_myproc p s (av_quiet p s0 s v HA Hq)).
      assert (Hgp : get_proc p s = get_proc p s0) by (unfold get_proc; by rewrite (tx_procs _ _ _ _ _ _ (proj1 HX))).
      mnext. rewrite Hgp, Hcwd. mnext. exact E. }
    split; [by eapply rest_visited, HT1; [|apply visited_inode|]|]. split; [apply visited_inode|]. split; [done|].
    split; [done|]. by eapply based_take.
Qed.

(** namex, in terms of the references held before. *)
Lemma namex_done k X p P name (parent : bool) s0 s v n m path l i :
  sb_ok k → sb_layout k → (∀ y, v.(vl) y = free_lock) → tree k v P → P i →
  rest_state k X p v name s0 s n m → 1 ≤ m → 2 ≤ nfree s0 →
  str_at s0.(pmem) path l → path_clear name (stack_base s0) path l → starts p s0 l i →
  ∃ r s0' s', namex path parent name s = Done r s' ∧ rest_state k X p v name s0' s' n m ∧ visited name s0 s0' ∧
    arrived P (nrefs s0) (nfree s0) s0' r (path_walk k v parent i (path_elems l)) ∧
    (parent = true → r ≠ None → last (path_elems l) = Some (cstr_n s0'.(pmem) name 14)).
Proof.
  intros Hsb Hly Hfl Htree Hi HR Hm HF Hstr Hcl Hst.
  assert (Hpos : ∀ j, 0 ≤ nrefs s0 j) by (intros j; apply nrefs_pos).
  destruct (start_done k X p name s0 s v n m path l i HR HF Hstr Hst (tr_range _ _ _ Htree i Hi)) as (ip & s1 & t1 & E1 & HR1 & Hv1 & Hm1 & Hh1 & HB1).
  destruct (visited_same p name _ _ Hv1) as (Eb & _ & _).
  destruct (namex_loop_walks k X p v P (nrefs s0) (nfree s0) name Hsb Hly Hfl Htree Hpos HF (length l) parent ip i s1 t1 n m path l)
    as (r & s2 & t2 & E2 & HR2 & Hv2 & Ha & Hl); try done; [by rewrite Hm1|by rewrite Eb|apply length_elems|].
  exists r, s2, t2. split.
  { unfold namex. rewrite (bind_done (gets pmem) _ s s0.(pmem) s) by (exact (gets_eq _ _ _ (txc_mem _ _ _ _ _ _ _ (rs_txc _ _ _ _ _ _ _ _ _ HR)))).
    mstep E1. rewrite (str_at_strlen _ _ _ Hstr), Nat2Z.id. exact E2. }
  split; [done|]. split; [exact (visited_trans _ _ _ _ Hv1 Hv2)|]. done.
Qed.

(** C20. Path lookup is a walk through the tree of directories.  For every
    string, in a tree of well-formed directories of any depth and length, namex
    follows the elements between the slashes, cut to DIRSIZ bytes, from the
    root or the working directory.  It returns an entry of the inode table for
    the inode the walk leads to, with exactly one more reference to it, or null
    and no reference when an element is missing or is not a directory.  As
    nameiparent it stops one element earlier and leaves the last one in the
    buffer.  No inode stays locked, and nothing else changes but the buffer and
    the local entry of dirlookup. *)
Theorem namex_walks k X p P name (parent : bool) s0 s v n m path l i :
  sb_ok k → sb_layout k → (∀ y, v.(vl) y = free_lock) → tree k v P → P i →
  rest_state k X p v name s0 s n m → 1 ≤ m → 2 ≤ nfree s0 →
  str_at s0.(pmem) path l → path_clear name (stack_base s0) path l → starts p s0 l i →
  ∃ r s0' s', namex path parent name s = Done r s' ∧ rest_state k X p v name s0' s' n m ∧ visited name s0 s0' ∧
    match path_walk k v parent i (path_elems l) with
    | Some j => (∃ ip, r = Some ip ∧ href s0' ip j) ∧ ref_moved s0 s0' j 1
    | None => r = None ∧ ∀ j, ref_moved s0 s0' j 0
    end ∧
    (parent = true → r ≠ None → last (path_elems l) = Some (cstr_n s0'.(pmem) name 14)).
Proof.
  intros Hsb Hly Hfl Htree Hi HR Hm HF Hstr Hcl Hst.
  destruct (namex_done k X p P name parent s0 s v n m path l i) as (r & s2 & t2 & E & HR2 & Hv & [Ha [B1 B2]] & Hl); try done.
  exists r, s2, t2. split; [done|]. split; [done|]. split; [done|]. split; [|done].
  destruct (path_walk k v parent i (path_elems l)) as [j|].
  - destruct Ha as [Ha _]. split; [done|]. split.
    + intros j'. rewrite B1. repeat case_decide; congruence || lia.
    + rewrite B1, B2, decide_True by done. pose proof (nrefs_pos s0 j). rewrite (bit_pos (_ + 1)) by lia. lia.
  - split; [done|]. intros j. split; [intros j'; rewrite B1, decide_False by done; case_decide; lia|].
    rewrite B1, B2, decide_False by done. rewrite Z.add_0_r. lia.
Qed.
End claims.

(** ** A concrete tree: the root, with an entry "." in block 47. *)

Definition root_inode : inode := one_block 1 T_DIR 1.
Definition tree_disk : gmap Z (list Z) :=
  {[46 := full_bitmap; 33 := put_dinode (ioff 1) (dinode_of root_inode) zero_block; 47 := splice zero_block 0 [1; 0; 46]]}.
Definition tree_view : view := mk_view (λ b, default zero_block (tree_disk !! b)) (λ _, 0) (λ _, free_lock) 0 (λ _, []) [].

Lemma root_file_ok : file_ok tree_view demo_sb root_inode.
Proof. apply one_block_ok; cbn; done || lia || unfold T_DIR; lia. Qed.

Lemma tree_demo : tree demo_sb tree_view (λ i, i = 1).
Proof.
  assert (Hr : inode_of demo_sb tree_view 1 = root_inode) by (by vm_compute).
  split.
  - intros i ->. cbn. lia.
  - intros i ->. by vm_compute.
  - intros i ->. by vm_compute.
  - intros i -> _. rewrite Hr. split; [exact root_file_ok|done|done].
  - intros i e -> _ Hel _. assert (He : entries demo_sb tree_view 1 = [(1, [46])]) by (by vm_compute). rewrite He in Hel.
    by apply list_elem_of_singleton in Hel as ->.
Qed.

(** The state of [FsSpec] on that disk, with an empty inode table and a path
    in memory. *)
Definition path_state (D : gmap Z (list Z)) (path : list Z) : kstate :=
  set_pmem (λ m, wr m 0x100 (path ++ [0])) (upd_inode 0 (λ _, inode0) (fs_on D)).

Lemma itab_empty k v pid s : s.(itable) = replicate NINODE inode0 → itab_ok k v pid ∅ s ∧ nfree s = 50.
Proof.
  intros E. assert (Hg : ∀ i, get_inode i s = inode0).
  { intros i. unfold get_inode. rewrite E, list_lookup_total_alt. destruct (_ !! _) as [q|] eqn:Eq; [|done].
    by apply lookup_replicate in Eq as [-> _]. }
  assert (Hh : ∀ i j, ¬ href s i j) by (intros i j (_ & H & _); by rewrite Hg in H).
  split; [|unfold nfree; by rewrite E]. split.
  - by rewrite E.
  - intros i _. by rewrite Hg.
  - intros i j H. by destruct (Hh i j).
  - intros i i' j H. by destruct (Hh i j).
  - intros i j H. by destruct (Hh i j).
  - intros i _. rewrite Hg. by rewrite decide_False by set_solver.
  - set_solver.
Qed.

Lemma path_state_rest D path : (∀ b, length (default zero_block (D !! b)) = 1024%nat) →
  let F : Fuel := 1%nat in let Dv := ideal_disk in let s := path_state D path in
  @rest_state Dv ideal_disk_spec demo_sb ∅ 3 (view_of (fs_on D)) (stack_base s + NAMEI_NAME) s s 10 10 ∧ nfree s = 50 ∧
  (∀ b, (view_of (fs_on D)).(vb) b = default zero_block (D !! b)) ∧ (∀ y, (view_of (fs_on D)).(vl) y = free_lock).
Proof.
  intros HD F Dv s. destruct (itab_empty demo_sb (view_of (fs_on D)) (pid_of 3 s) s) as [HT HF]; [by vm_compute|].
  destruct (with_fs_view D demo_boot fs_demo_uncached) as (Hb & _ & Hl). split; [|exact (conj HF (conj Hb Hl))]. split.
  - apply tx_txc, tx_pmem, tx_inode. exact (fs_on_tx D HD).
  - exact eq_refl.
  - exact HT.
  - assert (stack_base s = 0) as -> by (by vm_compute). unfold stack_ok, NAMEI_NAME. lia.
Qed.

(** "/./" leads back to the root, through an entry of the table. *)
Lemma namex_walks_witness :
  let F : Fuel := 1%nat in let L := layout64 in let V := demo_device in let D := ideal_disk in
  let s := path_state tree_disk [47; 46; 47] in
  ∃ ip s0' s', namex 0x100 false (stack_base s + NAMEI_NAME) s = Done (Some ip) s' ∧ href s0' ip 1 ∧ ref_moved s s0' 1 1.
Proof.
  intros F L V D s.
  assert (Hlen : ∀ b, length (default zero_block (tree_disk !! b)) = 1024%nat).
  { intros b. destruct (tree_disk !! b) as [d|] eqn:E; [|by vm_compute]. revert b d E. apply map_Forall_lookup.
    apply (bool_decide_unpack _). by vm_compute. }
  destruct (path_state_rest tree_disk [47; 46; 47] Hlen) as (HR & HF & Hb & Hl). fold s in HR, HF.
  assert (Ht : tree demo_sb (view_of (fs_on tree_disk)) (λ i, i = 1)) by (exact (tree_same _ tree_view _ Hb _ tree_demo)).
  assert (Hs0 : stack_base s = 0) by (by vm_compute).
  destruct (@namex_walks F L V D ideal_disk_spec demo_sb ∅ 3 (λ i, i = 1) (stack_base s + NAMEI_NAME) false s s
    (view_of (fs_on tree_disk)) 10 10 0x100 [47; 46; 47] 1 demo_sb_ok demo_layout Hl Ht eq_refl HR)
    as (r & s0' & s' & E & _ & _ & Hw & _).
  - lia.
  - lia.
  - cbn [str_at]. split_and!; by vm_compute.
  - rewrite Hs0. unfold path_clear, NAMEI_NAME. cbn. lia.
  - unfold starts. by rewrite decide_True.
  - assert (Hwk : path_walk demo_sb (view_of (fs_on tree_disk)) false 1 (path_elems [47; 46; 47]) = Some 1)
      by (rewrite (walk_same demo_sb tree_view _ Hb); by vm_compute).
    rewrite Hwk in Hw. destruct Hw as [(ip & -> & Hh) Hm]. exists ip, s0', s'. split; [exact E|]. split; [exact Hh|exact Hm].
Defined.
