(* ===== verification/FsTrunc.v ===== *)
(** Freeing a file: itrunc, and iput of the last reference to an inode without
    links. *)

From S2P Require Import Prelude Cmem KString Kstate Spinlock Sleep Sleeplock Kalloc Vm Printf Bio BioSpec Log LogSpec BioProps LogCrash LogSafe Tx Fs FsSpec FsView FsTable FsFile FsWrite FsDir FsPath.
Local Open Scope Z_scope.

(** ** Freed blocks *)

(** From [v] to [v'] the blocks of [A] are freed, and nothing but the bitmap
    changes. *)
Record freed (k : superblock) (v v' : view) (A : Z → Prop) : Prop := {
  fr_vb b : (∀ y, 0 ≤ y < k.(sb_size) → b ≠ BBLOCK y k) → v'.(vb) b = v.(vb) b;
  fr_bits y : 0 ≤ y < k.(sb_size) → is_free_block v' k y ↔ is_free_block v k y ∨ A y }.

Lemma freed_refl k v (A : Z → Prop) : (∀ y, ¬ A y) → freed k v v A.
Proof. intros H. split; [done|]. intros y _. specialize (H y). tauto. Qed.
Lemma freed_ext k v v' (A B : Z → Prop) : (∀ y, A y ↔ B y) → freed k v v' A → freed k v v' B.
Proof. intros H [F1 F2]. split; [done|]. intros y Hy. by rewrite F2, H. Qed.

(** The blocks at the first [n] positions of a file. *)
Definition fbelow (v : view) (q : inode) (n : nat) (y : Z) : Prop :=
  y ≠ 0 ∧ ∃ bn, 0 ≤ bn < Z.of_nat n ∧ faddr v q bn = y.

Lemma fbelow_0 v q y : ¬ fbelow v q 0 y.
Proof. intros (_ & bn & H & _). lia. Qed.
Lemma fbelow_S v q n y : fbelow v q (S n) y ↔ fbelow v q n y ∨ y ≠ 0 ∧ y = faddr v q (Z.of_nat n).
Proof.
  unfold fbelow. split.
  - intros (H0 & bn & Hb & <-). destruct (decide (bn = Z.of_nat n)) as [->|]; [by right|]. left. split; [done|]. exists bn. split; [lia|done].
  - intros [(H0 & bn & Hb & <-)|[H0 ->]]; (split; [done|]); [exists bn; split; [lia|done]|exists (Z.of_nat n); split; [lia|done]].
Qed.
Lemma fbelow_not v k q n : file_ok v k q → Z.of_nat n < MAXFILE → faddr v q (Z.of_nat n) ≠ 0 → ¬ fbelow v q n (faddr v q (Z.of_nat n)).
Proof.
  intros Hok Hn Ha (_ & bn & Hb & E). pose proof (fo_inj _ _ _ Hok (Z.of_nat n) bn). lia.
Qed.
Lemma fblock_all v q y : fblock v q y ↔ fbelow v q 268 y ∨ y ≠ 0 ∧ y = ind q.
Proof. unfold fblock, fbelow. change (Z.of_nat 268) with MAXFILE. naive_solver. Qed.

(** From [v] to [v'] the blocks of [A] are freed and inode [i] is written. *)
Record erased (k : superblock) (v v' : view) (i : Z) (A : Z → Prop) : Prop := {
  er_vb b : (∀ y, 0 ≤ y < k.(sb_size) → b ≠ BBLOCK y k) → b ≠ IBLOCK i k → v'.(vb) b = v.(vb) b;
  er_bits y : 0 ≤ y < k.(sb_size) → is_free_block v' k y ↔ is_free_block v k y ∨ A y;
  er_other j : 0 ≤ j < k.(sb_ninodes) → j ≠ i → disk_inode k v' j = disk_inode k v j }.

Lemma freed_erased k v v' i A : sb_layout k → freed k v v' A → erased k v v' i A.
Proof.
  intros Hly [F1 F2]. split; [intros b Hb _; by apply F1|done|].
  intros j Hj _. unfold disk_inode. by rewrite F1 by (intros y Hy; by apply (sl_disjoint _ Hly)).
Qed.

Lemma put_erased k v v1 v2 i A di : sb_ok k → sb_layout k → 0 ≤ i < k.(sb_ninodes) → dinode_ok di →
  (∀ b, length (v1.(vb) b) = 1024%nat) → erased k v v1 i A →
  (∀ b, v2.(vb) b = fupd v1.(vb) (IBLOCK i k) (put_dinode (ioff i) di (v1.(vb) (IBLOCK i k))) b) →
  erased k v v2 i A ∧ disk_inode k v2 i = di.
Proof.
  intros Hsb Hly Hi Hdi Hlen [E1 E2 E3] Hv. pose proof (sl_ninodes _ Hly). pose proof (ioff_fits i).
  split; [split|unfold disk_inode; rewrite Hv, fupd_eq; apply dinode_at_put; [done|by rewrite Hlen]].
  - intros b Hb Hne. rewrite Hv, fupd_ne by done. by apply E1.
  - intros y Hy. rewrite <- E2 by done. unfold is_free_block. by rewrite Hv, fupd_ne by (apply not_eq_sym, (sl_disjoint _ Hly); done).
  - intros j Hj Hne. rewrite <- E3 by done. unfold disk_inode. rewrite Hv. unfold fupd. case_decide as Eb; [|done]. rewrite Eb.
    apply dinode_at_put_ne; [done|by rewrite Hlen|]. apply (ioff_ne k i j); try done; lia.
Qed.

(** An inode with its first [j] addresses cleared. *)
Definition zeroed (j : nat) (q : inode) : inode := set_i_addrs (λ l, replicate j 0 ++ drop j l) q.

Lemma zeroed_addr j q : (j < length q.(i_addrs))%nat → (zeroed j q).(i_addrs) !!! j = q.(i_addrs) !!! j.
Proof.
  intros Hj. cbn. rewrite lookup_total_app_r by (rewrite length_replicate; lia). rewrite length_replicate, Nat.sub_diag, lookup_total_drop.
  f_equal. lia.
Qed.
Lemma zeroed_S j q : (j < length q.(i_addrs))%nat → set_i_addrs (λ l, <[j := 0]> l) (zeroed j q) = zeroed (S j) q.
Proof.
  intros Hj. unfold zeroed. destruct q as [q1 q2 q3 q4 q5 q6 q7 q8 q9 q10 l]. unfold set_i_addrs. cbn in *. f_equal.
  rewrite insert_app_r_alt by (rewrite length_replicate; lia). rewrite length_replicate, Nat.sub_diag.
  destruct (lookup_lt_is_Some_2 l j Hj) as [x Hx]. rewrite (drop_S l x j Hx). cbn.
  rewrite (cons_middle 0), app_assoc. f_equal. change [0] with (replicate 1 0). rewrite <- replicate_add. by rewrite Nat.add_1_r.
Qed.
Lemma zeroed_skip j q : (j < length q.(i_addrs))%nat → q.(i_addrs) !!! j = 0 → zeroed j q = zeroed (S j) q.
Proof.
  intros Hj H0. rewrite <- zeroed_S by done. pose proof (zeroed_addr j q Hj) as Ha. rewrite H0 in Ha.
  assert (Hl : (j < length (zeroed j q).(i_addrs))%nat) by (cbn; rewrite length_app, length_replicate, length_drop; lia).
  destruct (zeroed j q) as [q1 q2 q3 q4 q5 q6 q7 q8 q9 q10 l]. unfold set_i_addrs. cbn in *. f_equal.
  symmetry. apply list_insert_id. rewrite <- Ha. by apply list_lookup_lookup_total_lt.
Qed.

Section trunc.
Context {Fl : Fuel} {La : Layout} {Dv : Device} `{Bs : BlockDevSpec}.
Context (k : superblock) (X : gset Z) (p : nat) (ip : nat) (v : view) (q : inode) (n m : Z).
Hypothesis Hsb : sb_ok k.
Hypothesis HX : ∀ y, 0 ≤ y < k.(sb_size) → BBLOCK y k ∈ X.
Hypothesis Hok : file_ok v k q.
Hypothesis Hn : 1 ≤ n.

(** One more block is freed. *)
Lemma free_step s0 s v1 m' A b :
  txc X p s0 s v1 n m' → 1 ≤ m' → s0.(sb) = k → v1.(vl) (BBLOCK b k) = free_lock → 0 ≤ b < k.(sb_size) →
  freed k v v1 A → ¬ is_free_block v k b → ¬ A b →
  ∃ g s' v2, let s0' := set_klog g s0 in bfree ROOTDEV b s = Done () s' ∧ txc X p s0' s' v2 n m' ∧ onward s v1 s' v2 ∧
    freed k v v2 (λ y, A y ∨ y = b) ∧ ∀ x, x ∈ logged s0' → x ∈ logged s0 ∨ x = BBLOCK b k.
Proof.
  intros HT Hm Hk Hl Hb [F1 F2] Hnf HA. pose proof (bfree_done k X p s0 s v1 n m' b HT Hn Hm Hk Hsb Hl Hb) as H.
  assert (Hnf1 : ¬ is_free_block v1 k b) by (rewrite F2 by done; tauto). unfold is_free_block in Hnf1 at 1.
  destruct (bit_clear _ _); [done|]. destruct H as (s0' & s' & v2 & E & HT2 & [ [g ->] Hlg] & HO & Hv).
  rewrite (pay_in X s0 (BBLOCK b k)), !Z.sub_0_r in HT2 by (by apply HX).
  exists g, s', v2. split; [done|]. split; [done|]. split; [done|]. split; [|intros x; by rewrite Hlg]. split.
  - intros b' Hb'. rewrite Hv, fupd_ne by (by apply Hb'). by apply F1.
  - intros y Hy. rewrite (is_free_clear k v1 v2 b Hsb Hb (txc_len _ _ _ _ _ _ _ _ HT) Hv y Hy), F2 by done. tauto.
Qed.

Definition free_direct (i : nat) : K unit :=
  a ← get_addr ip i;
  when (negb (a =? 0)) (q ← gets (get_inode ip); bfree q.(i_dev) a ;; set_addr ip i 0).

(** What a stage of itrunc leaves: the inode is [q'], the blocks of [A] are
    freed, and the log and the inode are all that changed besides. *)
Record cut (s0 s : kstate) (v1 : view) (s0' s' : kstate) (v' : view) (m' : Z) (q' : inode) (A : Z → Prop) : Prop := {
  cu_txc : txc X p s0' s' v' n m';
  cu_get : get_inode ip s0' = q';
  cu_state : ∃ g f, s0' = set_klog g (upd_inode ip f s0);
  cu_onward : onward s v1 s' v';
  cu_freed : freed k v v' A }.

Lemma cut_trans s0 s v1 s1 t1 v2 s2 t2 v3 m1 m2 q1 q2 A B :
  cut s0 s v1 s1 t1 v2 m1 q1 A → cut s1 t1 v2 s2 t2 v3 m2 q2 B → cut s0 s v1 s2 t2 v3 m2 q2 B.
Proof.
  intros [C1 C2 (g & f & C3) C4 C5] [D1 D2 (g' & f' & D3) D4 D5]. split; try done; [|by eapply onward_trans].
  exists (g' ∘ g), (f' ∘ f). rewrite D3, C3. unfold upd_inode, set_itable, set_klog. cbn. by rewrite alter_alter_list.
Qed.

Lemma cut_same s0 s v1 s0' s' v' m' q' A : cut s0 s v1 s0' s' v' m' q' A → length s0'.(itable) = length s0.(itable) ∧ s0'.(sb) = s0.(sb) ∧
  pid_of p s0' = pid_of p s0.
Proof. intros [_ _ (g & f & ->) _ _]. cbn. by rewrite length_alter. Qed.

Lemma direct_step j s0 s v1 :
  (j < 12)%nat → txc X p s0 s v1 n m → 1 ≤ m → get_inode ip s0 = zeroed j q → (ip < length s0.(itable))%nat → s0.(sb) = k →
  (∀ y, v1.(vl) y = free_lock) → freed k v v1 (fbelow v q j) →
  ∃ s0' s' v', free_direct j s = Done () s' ∧ cut s0 s v1 s0' s' v' m (zeroed (S j) q) (fbelow v q (S j)).
Proof.
  intros Hj HT Hm Hq Hip Hk Hfl HF. pose proof (fo_len _ _ _ Hok) as Hlen.
  assert (Hda : q.(i_addrs) !!! j = faddr v q (Z.of_nat j)) by (unfold faddr; by rewrite (proj2 (Z.ltb_lt _ _)), Nat2Z.id by lia).
  unfold free_direct. mstep (get_addr_done _ _ _ _ _ _ _ _ _ j HT Hq). rewrite zeroed_addr by lia.
  destruct (Z.eqb_spec (q.(i_addrs) !!! j) 0) as [H0|H0]; cbn [negb when].
  - exists s0, s, v1. split; [done|]. split; [done|by rewrite Hq, zeroed_skip by lia| |apply onward_refl|].
    + exists (λ x, x), (λ x, x). rewrite upd_inode_id. by destruct s0.
    + eapply freed_ext; [|exact HF]. intros y. rewrite fbelow_S, <- Hda, H0. naive_solver.
  - mstep (gets_inode _ _ _ _ _ _ _ _ _ HT Hq). change (i_dev (zeroed j q)) with (i_dev q). rewrite (fo_dev _ _ _ Hok), Hda. rewrite Hda in H0.
    assert (Hmf : Z.of_nat j < MAXFILE) by (change MAXFILE with 268; lia).
    destruct (fo_block v k q (Z.of_nat j) Hok ltac:(lia) H0) as [Hdb Hnf].
    destruct (free_step s0 s v1 m (fbelow v q j) (faddr v q (Z.of_nat j)) HT Hm Hk (Hfl _)) as (g & s1 & v2 & E & HT1 & HO & HF2 & _); try done.
    { destruct Hdb. lia. } { by eapply fbelow_not. }
    mstep E. set (f := set_i_addrs (λ l, <[j := 0]> l)).
    exists (upd_inode ip f (set_klog g s0)), (upd_inode ip f s1), v2. split; [done|]. split.
    + by apply txc_inode.
    + unfold get_inode. cbn. rewrite lookup_total_alter_list_eq by done. change (itable s0 !!! ip) with (get_inode ip s0). rewrite Hq.
      apply zeroed_S. lia.
    + by exists g, f.
    + by destruct HO.
    + eapply freed_ext; [|exact HF2]. intros y. rewrite fbelow_S. split; [|tauto]. intros [|[=]]; [by left|right]. subst. done.
Qed.

Lemma direct_loop r j s0 s v1 :
  (j + r = 12)%nat → txc X p s0 s v1 n m → 1 ≤ m → get_inode ip s0 = zeroed j q → (ip < length s0.(itable))%nat → s0.(sb) = k →
  (∀ y, v1.(vl) y = free_lock) → freed k v v1 (fbelow v q j) →
  ∃ s0' s' v', mfor (seq j r) free_direct s = Done () s' ∧ cut s0 s v1 s0' s' v' m (zeroed 12 q) (fbelow v q 12).
Proof.
  revert j s0 s v1. induction r as [|r IH]; intros j s0 s v1 Hj HT Hm Hq Hip Hk Hfl HF; cbn [seq mfor].
  { assert (j = 12%nat) as -> by lia. exists s0, s, v1. split; [done|]. split; try done; [|apply onward_refl].
    exists (λ x, x), (λ x, x). rewrite upd_inode_id. by destruct s0. }
  destruct (direct_step j s0 s v1) as (s1 & t1 & v2 & E & C); try done; [lia|]. mstep E.
  destruct (cut_same _ _ _ _ _ _ _ _ _ C) as (L1 & L2 & _).
  destruct (IH (S j) s1 t1 v2) as (s2 & t2 & v3 & E2 & C2); try (by apply C); try lia; [by rewrite L2|intros y; by rewrite (ow_l _ _ _ _ (cu_onward _ _ _ _ _ _ _ _ _ C))|].
  exists s2, t2, v3. split; [done|]. by eapply cut_trans.
Qed.

(** ** The indirect block, held in buffer [i] *)

Definition free_entry (dev : Z) (i : nat) (j : nat) : K unit :=
  d ← buf_data i;
  let aj := get_le d (4 * j) 4 in
  when (negb (aj =? 0)) (bfree dev aj).

(** Only the indirect block is locked. *)
Definition only_ind (v1 : view) : Prop := ∀ y, y ≠ ind q → v1.(vl) y = free_lock.

Lemma entry_step i j s0 s v1 m' q1 :
  (j < 256)%nat → ind q ≠ 0 → txc X p s0 s v1 n m' → 1 ≤ m' → get_inode ip s0 = q1 → s0.(sb) = k →
  held p s0 s v1 i (ind q) → only_ind v1 → freed k v v1 (fbelow v q (12 + j)) →
  ∃ s0' s' v', free_entry ROOTDEV i j s = Done () s' ∧ cut s0 s v1 s0' s' v' m' q1 (fbelow v q (12 + S j)) ∧ held p s0' s' v' i (ind q).
Proof.
  intros Hj Hi HT Hm Hq Hk Hh Hfl HF. destruct (fo_ind_block _ _ _ Hok Hi) as [Hid Hinf].
  assert (Hd : (get_buf i s).(b_data) = v.(vb) (ind q)).
  { rewrite (av_buf _ _ _ _ _ (tx_view _ _ _ _ _ _ (proj1 HT)) (hd_hb _ _ _ _ _ _ Hh)). apply (fr_vb _ _ _ _ HF), Hid. }
  assert (Hfa : get_le (v.(vb) (ind q)) (4 * j) 4 = faddr v q (Z.of_nat (12 + j))).
  { unfold faddr. rewrite (proj2 (Z.ltb_ge _ 12)), (proj2 (Z.eqb_neq _ 0)) by lia. f_equal. lia. }
  assert (Hmf : Z.of_nat (12 + j) < MAXFILE) by (change MAXFILE with 268; lia).
  unfold free_entry, buf_data. mnext. rewrite Hd, Hfa. rewrite Nat.add_succ_r.
  destruct (Z.eqb_spec (faddr v q (Z.of_nat (12 + j))) 0) as [H0|H0]; cbn [negb when].
  - exists s0, s, v1. split; [done|]. split; [|done]. split; [done|done| |apply onward_refl|].
    + exists (λ x, x), (λ x, x). rewrite upd_inode_id. by destruct s0.
    + eapply freed_ext; [|exact HF]. intros y. rewrite fbelow_S, H0. naive_solver.
  - destruct (fo_block v k q (Z.of_nat (12 + j)) Hok ltac:(lia) H0) as [Hdb Hnf]. pose proof (db_range _ _ Hdb) as Hr.
    set (a := faddr v q (Z.of_nat (12 + j))) in *.
    assert (Hib : ind q ≠ BBLOCK a k) by (apply (db_bitmap _ _ Hid); lia).
    destruct (free_step s0 s v1 m' (fbelow v q (12 + j)) a HT Hm Hk (Hfl _ (not_eq_sym Hib)))
      as (g & s1 & v2 & E & HT1 & HO & HF2 & Hlg); try done; [lia|by eapply fbelow_not|].
    exists (set_klog g s0), s1, v2. split; [done|]. split; [split; try done|].
    + exists g, (λ x, x). by rewrite upd_inode_id.
    + eapply freed_ext; [|exact HF2]. intros y. rewrite fbelow_S. fold a. naive_solver.
    + eapply held_onward; [exact Hh|exact HO|done|]. intros Hx. destruct (Hlg _ Hx); [done|congruence].
Qed.

Lemma entry_loop i r j s0 s v1 m' q1 :
  (j + r = 256)%nat → ind q ≠ 0 → txc X p s0 s v1 n m' → 1 ≤ m' → get_inode ip s0 = q1 → s0.(sb) = k →
  held p s0 s v1 i (ind q) → only_ind v1 → freed k v v1 (fbelow v q (12 + j)) →
  ∃ s0' s' v', mfor (seq j r) (free_entry ROOTDEV i) s = Done () s' ∧ cut s0 s v1 s0' s' v' m' q1 (fbelow v q 268) ∧ held p s0' s' v' i (ind q).
Proof.
  revert j s0 s v1. induction r as [|r IH]; intros j s0 s v1 Hj Hi HT Hm Hq Hk Hh Hfl HF; cbn [seq mfor].
  { exists s0, s, v1. split; [done|]. split; [|done]. replace (12 + j)%nat with 268%nat in HF by lia. split; try done; [|apply onward_refl].
    exists (λ x, x), (λ x, x). rewrite upd_inode_id. by destruct s0. }
  destruct (entry_step i j s0 s v1 m' q1) as (s1 & t1 & v2 & E & C & Hh1); try done; [lia|]. mstep E.
  destruct (cut_same _ _ _ _ _ _ _ _ _ C) as (L1 & L2 & _).
  destruct (IH (S j) s1 t1 v2) as (s2 & t2 & v3 & E2 & C2 & Hh2); try (by apply C); try done; [lia|by rewrite L2| |].
  { intros y Hy. rewrite (ow_l _ _ _ _ (cu_onward _ _ _ _ _ _ _ _ _ C)). by apply Hfl. }
  exists s2, t2, v3. split; [done|]. split; [by eapply cut_trans|done].
Qed.

(** The indirect block read, its entries freed, and let go. *)
Lemma entries_freed s0 s v1 q1 :
  ind q ≠ 0 → txc X p s0 s v1 n m → 2 ≤ m → get_inode ip s0 = q1 → s0.(sb) = k → (∀ y, v1.(vl) y = free_lock) →
  freed k v v1 (fbelow v q 12) →
  ∃ i s1 s0' s2 s' v', bread ROOTDEV (ind q) s = Done i s1 ∧ mfor (seq 0 256) (free_entry ROOTDEV i) s1 = Done () s2 ∧ brelse i s2 = Done () s' ∧
    cut s0 s v1 s0' s' v' (m - 1) q1 (fbelow v q 268).
Proof.
  intros Hi HT Hm Hq Hk Hfl HF. destruct (fo_ind_block _ _ _ Hok Hi) as [Hid Hinf]. pose proof (data_block_range _ _ Hsb Hid) as Hir.
  destruct (txc_bread X p s0 s v1 n m (ind q) HT) as (i & s1 & E1 & Hh1 & HK1 & _ & HT1); [lia|done|apply Hfl|].
  pose proof (fresh_range s0 (ind q)) as Hfr. apply (txc_weaken _ _ _ _ _ _ _ n (m - 1)) in HT1; [|lia|lia].
  set (w := vhold p s0 (ind q) v1) in *.
  assert (HFw : freed k v w (fbelow v q (12 + 0))) by (by destruct HF).
  destruct (entry_loop i 256 0 s0 s1 w (m - 1) q1) as (t0 & s2 & v2 & E2 & C & Hh2); try done; [lia| |].
  { intros y Hy. unfold w, vhold. vs. by rewrite fupd_ne. }
  pose proof C as [C1 C2 C3 C4 C5]. pose proof (tx_count _ _ _ _ _ _ (proj1 HT)) as Hc.
  destruct (tx_unhold p t0 s2 v2 _ _ i (ind q) (proj1 C1) Hh2) as (s3 & E3 & HT3 & HK3).
  { intros Hr. pose proof (ow_r _ _ _ _ C4 (ind q)) as Hge. unfold w, vhold in Hge. revert Hge. vs. rewrite fupd_eq. intros Hge.
    rewrite (ow_d _ _ _ _ C4), (fr_vb _ _ _ _ C5 _ (db_bitmap _ _ Hid)), <- (fr_vb _ _ _ _ HF _ (db_bitmap _ _ Hid)).
    apply (av_clean s0 s v1); [apply HT|]. specialize (Hc (ind q)). lia. }
  exists i, s1, t0, s2, s3, (vcount (ind q) (vr v2 (ind q) - 1) free_lock v2). do 3 (split; [done|]). split; try done.
  - split; [exact HT3|apply C1].
  - split.
    + intros j b Hj Hr. apply HK3; [apply (ow_keeps _ _ _ _ C4); [by apply HK1|]|].
      * unfold w, vhold. vs. unfold fupd. case_decide; subst; lia.
      * pose proof (ow_r _ _ _ _ C4 b) as Hor. revert Hor. unfold w, vhold. vs. unfold fupd. case_decide; subst; lia.
    + intros b. vs. unfold fupd. case_decide as Eb; [by rewrite Hfl|]. rewrite (ow_l _ _ _ _ C4). unfold w, vhold. vs. by rewrite fupd_ne.
    + intros b. vs. by rewrite (ow_d _ _ _ _ C4).
    + intros b. pose proof (ow_r _ _ _ _ C4 b) as Hor. revert Hor. unfold w, vhold. vs. unfold fupd. case_decide; subst; lia.
  - by destruct C5.
Qed.

Lemma cut_set_addr s0 s v1 s0' s' v' m' q' A j a : cut s0 s v1 s0' s' v' m' q' A → (ip < length s0.(itable))%nat →
  ∃ s0'' s'', set_addr ip j a s' = Done () s'' ∧ cut s0 s v1 s0'' s'' v' m' (set_i_addrs (λ l, <[j := a]> l) q') A.
Proof.
  intros C Hip. destruct (cut_same _ _ _ _ _ _ _ _ _ C) as (L1 & _ & _). pose proof C as [C1 C2 (g & f & C3) C4 C5].
  set (h := set_i_addrs (λ l, <[j := a]> l)). exists (upd_inode ip h s0'), (upd_inode ip h s'). split; [done|]. split; try done.
  - by apply txc_inode.
  - unfold get_inode. cbn. rewrite lookup_total_alter_list_eq by lia. change (itable s0' !!! ip) with (get_inode ip s0'). by rewrite C2.
  - exists g, (h ∘ f). rewrite C3. unfold upd_inode, set_itable, set_klog. cbn. by rewrite alter_alter_list.
  - by destruct C4.
Qed.

Definition free_indirect : K unit :=
  a ← get_addr ip (Z.to_nat NDIRECT);
  when (negb (a =? 0))
    (q ← gets (get_inode ip);
     bp ← bread q.(i_dev) a;
     mfor (seq 0 (Z.to_nat NINDIRECT)) (free_entry q.(i_dev) bp) ;;
     brelse bp ;;
     a ← get_addr ip (Z.to_nat NDIRECT);
     bfree q.(i_dev) a ;;
     set_addr ip (Z.to_nat NDIRECT) 0).

Lemma no_indirect y : ind q = 0 → fbelow v q 12 y ↔ fblock v q y.
Proof.
  intros H0. rewrite fblock_all. unfold fbelow. split; [intros (Hy & bn & Hb & E); left; split; [done|]; exists bn; split; [lia|done]|].
  intros [(Hy & bn & Hb & E)|[Hy ->]]; [|done]. split; [done|]. exists bn. split; [|done].
  destruct (decide (bn < 12)); [lia|]. unfold faddr in E. rewrite (proj2 (Z.ltb_ge _ _)), H0 in E by lia. cbn in E. congruence.
Qed.

Lemma indirect_freed s0 s v1 :
  txc X p s0 s v1 n m → 2 ≤ m → get_inode ip s0 = zeroed 12 q → (ip < length s0.(itable))%nat → s0.(sb) = k →
  (∀ y, v1.(vl) y = free_lock) → freed k v v1 (fbelow v q 12) →
  ∃ s0' s' v', free_indirect s = Done () s' ∧ cut s0 s v1 s0' s' v' (m - 1) (zeroed 13 q) (fblock v q).
Proof.
  intros HT Hm Hq Hip Hk Hfl HF. pose proof (fo_len _ _ _ Hok) as Hlen. unfold free_indirect. change (Z.to_nat NDIRECT) with 12%nat.
  assert (Ha : (zeroed 12 q).(i_addrs) !!! 12%nat = ind q) by (by rewrite zeroed_addr by lia).
  mstep (get_addr_done _ _ _ _ _ _ _ _ _ 12%nat HT Hq). rewrite Ha. destruct (Z.eqb_spec (ind q) 0) as [H0|H0]; cbn [negb when].
  { exists s0, s, v1. split; [done|]. split; [by eapply txc_weaken; [done|lia|lia]|by rewrite Hq, (zeroed_skip 12 q ltac:(lia) H0)| |apply onward_refl|].
    - exists (λ x, x), (λ x, x). rewrite upd_inode_id. by destruct s0.
    - eapply freed_ext; [|exact HF]. intros y. by apply no_indirect. }
  mstep (gets_inode _ _ _ _ _ _ _ _ _ HT Hq). change (i_dev (zeroed 12 q)) with (i_dev q). rewrite (fo_dev _ _ _ Hok).
  destruct (entries_freed s0 s v1 (zeroed 12 q)) as (i & s1 & t0 & s2 & s3 & v2 & E1 & E2 & E3 & C); try done.
  mstep E1. change (Z.to_nat NINDIRECT) with 256%nat. mstep E2. mstep E3.
  mstep (get_addr_done _ _ _ _ _ _ _ _ _ 12%nat (cu_txc _ _ _ _ _ _ _ _ _ C) (cu_get _ _ _ _ _ _ _ _ _ C)). rewrite Ha.
  destruct (cut_same _ _ _ _ _ _ _ _ _ C) as (L1 & L2 & _). destruct (fo_ind_block _ _ _ Hok H0) as [Hid Hinf]. pose proof (db_range _ _ Hid).
  destruct (free_step t0 s3 v2 (m - 1) (fbelow v q 268) (ind q)) as (g & s4 & v3 & E4 & HT4 & HO4 & HF4 & _); try done; try (by apply C); try lia.
  { by rewrite L2. } { by rewrite (ow_l _ _ _ _ (cu_onward _ _ _ _ _ _ _ _ _ C)). }
  { intros (_ & bn & Hb & Hf). apply (fo_ind _ _ _ Hok bn); [exact Hb|by rewrite Hf|done]. }
  mstep E4. assert (C4 : cut s0 s v1 (set_klog g t0) s4 v3 (m - 1) (zeroed 12 q) (fblock v q)).
  { eapply cut_trans; [exact C|]. split; try done; [apply C| |].
    - exists g, (λ x, x). by rewrite upd_inode_id.
    - eapply freed_ext; [|exact HF4]. intros y. rewrite fblock_all.
      split; [intros [Hy| ->]; [by left|by right]|intros [Hy|[_ Hy]]; [by left|by right]]. }
  destruct (cut_set_addr _ _ _ _ _ _ _ _ _ 12 0 C4 Hip) as (s0'' & s'' & E5 & C5). rewrite zeroed_S in C5 by lia. by exists s0'', s'', v3.
Qed.

(** The inode of an empty file. *)
Definition emptied : inode := set_i_size (λ _, 0) (zeroed 13 q).

Lemma emptied_ok : dinode_ok (dinode_of emptied).
Proof.
  destruct (fo_dinode _ _ _ Hok) as [D1 D2 D3 D4 D5 D6 D7]. change (length q.(i_addrs) = 13%nat) in D6.
  assert (Ha : emptied.(i_addrs) = replicate 13 0) by (unfold emptied; cbn -[replicate]; rewrite drop_ge by lia; by rewrite app_nil_r).
  split; try done; cbn [dinode_of di_addrs]; rewrite Ha; [done|]. repeat constructor; lia.
Qed.

Hypothesis Hly : sb_layout k.
Hypothesis HXi : IBLOCK q.(i_inum) k ∈ X.

(** iupdate of inode [q'] under the number of [q]. *)
Lemma iupdate_erased s0 s v1 m' q' A :
  txc X p s0 s v1 n m' → 1 ≤ m' → s0.(sb) = k → (∀ y, v1.(vl) y = free_lock) → get_inode ip s0 = q' →
  q'.(i_dev) = ROOTDEV → q'.(i_inum) = q.(i_inum) → dinode_ok (dinode_of q') → erased k v v1 q.(i_inum) A →
  ∃ g s' v', iupdate ip s = Done () s' ∧ txc X p (set_klog g s0) s' v' n m' ∧ onward s v1 s' v' ∧
    erased k v v' q.(i_inum) A ∧ disk_inode k v' q.(i_inum) = dinode_of q'.
Proof.
  intros HT Hm Hk Hfl Hq Hdev Hin Hd HE. pose proof (fo_inum _ _ _ Hok) as Hi. pose proof (sl_ninodes _ Hly).
  destruct (iupdate_done X p s0 s v1 n m' ip k HT Hn Hm Hk Hsb) as (s0' & s' & v' & E & HT' & [ [g ->] _] & HO & Hv);
    rewrite ?Hq; try done; [by rewrite Hin; lia|].
  rewrite Hq, Hin in HT', Hv. rewrite (pay_in X s0 _ HXi), !Z.sub_0_r in HT'.
  destruct (put_erased k v v1 v' q.(i_inum) A (dinode_of q')) as [P1 P2]; try done; [intros b; exact (txc_len _ _ _ _ _ _ _ b HT)|].
  by exists g, s', v'.
Qed.

(** itrunc frees the blocks of the file and writes its empty inode. *)
Lemma itrunc_done s0 s :
  txc X p s0 s v n m → 2 ≤ m → get_inode ip s0 = q → (ip < length s0.(itable))%nat → s0.(sb) = k → (∀ y, v.(vl) y = free_lock) →
  ∃ g f s' v', let s0' := set_klog g (upd_inode ip f s0) in itrunc ip s = Done () s' ∧ txc X p s0' s' v' n (m - 1) ∧
    get_inode ip s0' = emptied ∧ onward s v s' v' ∧ erased k v v' q.(i_inum) (fblock v q).
Proof.
  intros HT Hm Hq Hip Hk Hfl. unfold itrunc. change (Z.to_nat NDIRECT) with 12%nat.
  destruct (direct_loop 12 0 s0 s v) as (s1 & t1 & v1 & E1 & C1); try done; [lia|apply freed_refl, fbelow_0|].
  unfold free_direct in E1. mstep E1. destruct (cut_same _ _ _ _ _ _ _ _ _ C1) as (L1 & L2 & _).
  destruct (indirect_freed s1 t1 v1) as (s2 & t2 & v2 & E2 & C2); try (by apply C1); try done; [by rewrite L1|by rewrite L2| |].
  { intros y. by rewrite (ow_l _ _ _ _ (cu_onward _ _ _ _ _ _ _ _ _ C1)). }
  rewrite (bind_nested (get_addr ip 12) _ _ t1 () t2 E2). mnext.
  pose proof (cut_trans _ _ _ _ _ _ _ _ _ _ _ _ _ _ _ C1 C2) as C. destruct (cut_same _ _ _ _ _ _ _ _ _ C) as (L3 & L4 & _).
  pose proof C as [D1 D2 (g & f & D3) D4 D5]. set (h := set_i_size (λ _, 0)).
  assert (Hg : get_inode ip (upd_inode ip h s2) = emptied).
  { unfold get_inode. cbn. rewrite lookup_total_alter_list_eq by lia. change (itable s2 !!! ip) with (get_inode ip s2). by rewrite D2. }
  destruct (iupdate_erased (upd_inode ip h s2) (upd_inode ip h t2) v2 (m - 1) emptied (fblock v q)) as (g' & t3 & v3 & E3 & HT3 & HO3 & HE3 & _); try done.
  - by apply txc_inode.
  - lia.
  - cbn. by rewrite L4.
  - intros y. by rewrite (ow_l _ _ _ _ D4).
  - exact (fo_dev _ _ _ Hok).
  - exact emptied_ok.
  - by apply freed_erased.
  - exists (g' ∘ g), (h ∘ f), t3, v3.
    assert (Es : set_klog (g' ∘ g) (upd_inode ip (h ∘ f) s0) = set_klog g' (upd_inode ip h s2)).
    { rewrite D3. unfold upd_inode, set_itable, set_klog. cbn. by rewrite alter_alter_list. }
    cbv zeta. rewrite Es. split; [exact E3|]. split; [exact HT3|]. split; [exact Hg|]. split; [|exact HE3].
    eapply onward_trans; [exact D4|]. by destruct HO3.
Qed.
End trunc.

(** ** Files that stay *)

Lemma erased_files k v v' i q Q : sb_layout k → files_ok k v Q → Q !! i = Some q → erased k v v' q.(i_inum) (fblock v q) →
  files_ok k v' (delete i Q) ∧ ∀ i' q', i' ≠ i → Q !! i' = Some q' → unchanged v v' q'.
Proof.
  intros Hly [F1 F2 F3] Hi [E1 E2 E3]. pose proof (fo_inum _ _ _ (F2 _ _ Hi)) as Hin.
  assert (Hoth : ∀ i' q', i' ≠ i → Q !! i' = Some q' → file_ok v' k q' ∧ (∀ b, fblock v' q' b ↔ fblock v q' b) ∧ unchanged v v' q').
  { intros i' q' Hne Hq. pose proof (F2 _ _ Hq) as Hok. apply same_file; [done| |].
    - intros b Hb. destruct (fo_data _ _ _ Hok b Hb) as [Hd _]. apply E1; [apply Hd|by apply (db_inode _ _ Hd)].
    - intros y Hy Hr. rewrite E2 by done. intros [|Hf]; [done|]. by destruct (F3 i i' q q' y Hi Hq (not_eq_sym Hne) Hf). }
  assert (Hdel : ∀ j q', delete i Q !! j = Some q' → ∃ i', i' ≠ i ∧ Q !! i' = Some q' ∧ (j < i ∧ i' = j ∨ i ≤ j ∧ i' = S j)%nat).
  { intros j q' Hj. destruct (decide (j < i)%nat).
    - rewrite list_lookup_delete_lt in Hj by done. exists j. split; [lia|]. split; [done|by left].
    - rewrite list_lookup_delete_ge in Hj by lia. exists (S j). split; [lia|]. split; [done|right; lia]. }
  split; [split|intros i' q' Hne Hq; by apply (Hoth i')].
  - intros y Hy Hf. apply E2 in Hf as [Hf|Hf]; [by apply F1| |done]. by apply (fo_data _ _ _ (F2 _ _ Hi)).
  - intros j q' Hj. destruct (Hdel j q' Hj) as (i' & Hne & Hq & _). by apply (Hoth i').
  - intros j j' q1 q2 b Hj Hj' Hne. destruct (Hdel j q1 Hj) as (i1 & Hn1 & Hq1 & L1), (Hdel j' q2 Hj') as (i2 & Hn2 & Hq2 & L2).
    destruct (Hoth i1 q1 Hn1 Hq1) as (_ & -> & _), (Hoth i2 q2 Hn2 Hq2) as (_ & -> & _). apply (F3 i1 i2); try done. lia.
Qed.

(** ** iput *)

Section iput.
Context {Fl : Fuel} {La : Layout} {Dv : Device} `{Bs : BlockDevSpec}.

(** The log and the entry [ip] changed. *)
Definition inode_step (ip : nat) (s0 s0' : kstate) : Prop := ∃ g f, s0' = set_klog g (upd_inode ip f s0).

Lemma inode_step_upd ip f s0 : inode_step ip s0 (upd_inode ip f s0).
Proof. exists (λ x, x), f. by destruct s0. Qed.
Lemma inode_step_klog ip g s0 : inode_step ip s0 (set_klog g s0).
Proof. exists g, (λ x, x). by rewrite upd_inode_id. Qed.
Lemma inode_step_trans ip s0 s1 s2 : inode_step ip s0 s1 → inode_step ip s1 s2 → inode_step ip s0 s2.
Proof.
  intros (g & f & ->) (g' & f' & ->). exists (g' ∘ g), (f' ∘ f). unfold upd_inode, set_itable, set_klog. cbn. by rewrite alter_alter_list.
Qed.
Lemma inode_step_same p ip s0 s0' : inode_step ip s0 s0' →
  length s0'.(itable) = length s0.(itable) ∧ s0'.(sb) = s0.(sb) ∧ pid_of p s0' = pid_of p s0.
Proof. intros (g & f & ->). cbn. by rewrite length_alter. Qed.

Lemma get_upd_same s ip g : (ip < length s.(itable))%nat → get_inode ip (upd_inode ip g s) = g (get_inode ip s).
Proof. intros H. by rewrite get_upd_inode, decide_True. Qed.

(** What iput does to the entry of an inode it frees. *)
Definition gone (q : inode) : inode := set_i_type (λ _, 0) (emptied q).

(** The part of iput inside its condition. *)
Definition iput_free (ip : nat) : K unit :=
  acquiresleep (SlInode ip) ;;
  release LkItable ;;
  itrunc ip ;;
  modify (upd_inode ip (set_i_type (λ _, 0))) ;;
  iupdate ip ;;
  modify (upd_inode ip (set_i_valid (λ _, 0))) ;;
  releasesleep (SlInode ip) ;;
  acquire LkItable.

Lemma iput_free_done k X p ip s0 s v n m q :
  sb_ok k → sb_layout k → (∀ y, 0 ≤ y < k.(sb_size) → BBLOCK y k ∈ X) → IBLOCK q.(i_inum) k ∈ X →
  txc X p s0 s v n m → 1 ≤ n → 2 ≤ m → s0.(sb) = k → (∀ y, v.(vl) y = free_lock) →
  get_inode ip s0 = q → (ip < NINODE)%nat → length s0.(itable) = NINODE → q.(i_lock) = free_lock → file_ok v k q →
  ∃ s0' s' v', iput_free ip (acq LkItable s) = Done () (acq LkItable s') ∧ inode_step ip s0 s0' ∧
    txc X p s0' s' v' n (m - 1) ∧ get_inode ip s0' = set_i_valid (λ _, 0) (gone q) ∧
    erased k v v' q.(i_inum) (fblock v q) ∧ disk_inode k v' q.(i_inum) = dinode_of (gone q).
Proof.
  intros Hsb Hly HX HXi HT Hn Hm Hk Hfl Hq Hip Hlen Hlk Hok.
  pose proof (tx_quiet _ _ _ _ _ _ (proj1 HT)) as Hq0. pose proof (tx_view _ _ _ _ _ _ (proj1 HT)) as HA.
  pose proof (av_quiet p s0 s v HA Hq0) as Hqs. pose proof (quiet_cpu_ok _ _ Hqs) as Hcpu.
  assert (Eit : itable s = itable s0) by (destruct (av_state _ _ _ HA) as (bs & vk & d & w & ->); done).
  unfold iput_free. set (lk := set_i_lock (λ _, mk_sleeplock 1 (pid_of p s0))).
  assert (E1 : acquiresleep (SlInode ip) (acq LkItable s) = Done () (acq LkItable (upd_inode ip lk s))).
  { rewrite (acquiresleep_cpu (SlInode ip) p).
    - fold (pid_of p (acq LkItable s)). change (pid_of p (acq LkItable s)) with (pid_of p s). by rewrite (av_pid p s0 s v HA).
    - by apply cpu_ok_acq.
    - unfold acq, cur_cpu. cbn. rewrite lookup_total_alter_list_eq by apply Hcpu. apply Hqs.
    - apply lock_free_acq; [done|]. by eapply quiet_lock.
    - split; [done|]. cbn. by rewrite Eit, Hlen.
    - cbn [sl_get]. change (get_inode ip (acq LkItable s)) with (get_inode ip s). rewrite (txc_get_inode _ _ _ _ _ _ _ _ HT), Hq. by rewrite Hlk. }
  mstep E1. mstep (release_acq LkItable (upd_inode ip lk s) Hcpu (quiet_lock p LkItable s Hqs I)).
  set (q1 := lk q). set (a0 := upd_inode ip lk s0). assert (St1 : inode_step ip s0 a0) by apply inode_step_upd.
  assert (Hok1 : file_ok v k q1) by (by apply (file_ok_dinode v k q)).
  destruct (itrunc_done k X p ip v q1 n m Hsb HX Hok1 Hn Hly HXi a0 (upd_inode ip lk s)) as (g & f & t1 & v1 & E2 & HT2 & Hg2 & HO2 & HE2); try done.
  { by apply txc_inode. } { unfold a0. rewrite get_upd_same by lia. by rewrite Hq. } { cbn. rewrite length_alter. lia. }
  mstep E2. mnext. set (b0 := set_klog g (upd_inode ip f a0)) in *. set (ty := set_i_type (λ _, 0)).
  assert (St2 : inode_step ip s0 b0) by (eapply inode_step_trans; [exact St1|by exists g, f]).
  destruct (inode_step_same p _ _ _ St2) as (L2 & K2 & P2).
  destruct (iupdate_erased k X p ip v q1 n Hsb Hok1 Hn Hly HXi (upd_inode ip ty b0) (upd_inode ip ty t1) v1 (m - 1) (gone q1) (fblock v q1))
    as (g3 & t3 & v3 & E3 & HT3 & HO3 & HE3 & Hd3); try done.
  { by apply txc_inode. } { lia. } { intros y. by rewrite (ow_l _ _ _ _ HO2). }
  { rewrite get_upd_same by lia. by rewrite Hg2. } { exact (fo_dev _ _ _ Hok). }
  { destruct (emptied_ok k v q1 Hok1) as [D1 D2 D3 D4 D5 D6 D7]. by split. }
  mstep E3. mnext. set (va := set_i_valid (λ _, 0)). set (c0 := upd_inode ip va (set_klog g3 (upd_inode ip ty b0))).
  assert (St3 : inode_step ip s0 c0).
  { eapply inode_step_trans; [exact St2|]. eapply inode_step_trans; [apply inode_step_upd|]. eapply inode_step_trans; [apply inode_step_klog|apply inode_step_upd]. }
  destruct (inode_step_same p _ _ _ St3) as (L3 & K3 & P3). pose proof (txc_inode _ _ _ _ _ _ _ ip va HT3) as HT4. fold c0 in HT4.
  pose proof (tx_quiet _ _ _ _ _ _ (proj1 HT4)) as Hq4. pose proof (tx_view _ _ _ _ _ _ (proj1 HT4)) as HA4.
  pose proof (av_quiet p _ _ _ HA4 Hq4) as Hqt. set (t4 := upd_inode ip va t3) in *.
  assert (Eit4 : itable t4 = itable c0) by (destruct (av_state _ _ _ HA4) as (bs & vk & d & w & E); by rewrite E).
  assert (Hslk : slk_ok (SlInode ip) t4) by (split; [done|]; rewrite Eit4, L3; lia). mstep (releasesleep_quiet (SlInode ip) p t4 Hqt Hslk).
  set (fr := set_i_lock (λ _, free_lock)). exists (upd_inode ip fr c0), (upd_inode ip fr t4), v3.
  split; [exact (itable_acquire p (upd_inode ip fr t4) Hqt)|]. split; [eapply inode_step_trans; [exact St3|apply inode_step_upd]|].
  split; [by apply txc_inode|]. split; [|split; [exact HE3|exact Hd3]].
  rewrite get_upd_same by lia. unfold c0. rewrite get_upd_same by (cbn; rewrite !length_alter; lia).
  change (get_inode ip (set_klog g3 (upd_inode ip ty b0))) with (get_inode ip (upd_inode ip ty b0)). rewrite get_upd_same by lia. rewrite Hg2.
  unfold fr, va, ty, gone, emptied, zeroed, q1, lk. destruct q as [q1' q2 q3 ql q5 q6 q7 q8 q9 q10 l]. cbn in Hlk. by rewrite Hlk.
Qed.

(** C23. iput of the last reference to an inode without links frees the file:
    exactly its blocks, direct, indirect and the indirect block itself, become
    free in the bitmap, the inode on the disk becomes free and empty, and its
    entry of the table is given back.  The other files of the disk stay well
    formed, without shared blocks, and keep their bytes, and the other inodes
    keep their contents. *)
Theorem iput_frees k X p ip j s0 s v n m Q i q :
  sb_ok k → sb_layout k → (∀ y, 0 ≤ y < k.(sb_size) → BBLOCK y k ∈ X) → IBLOCK j k ∈ X →
  txc X p s0 s v n m → 1 ≤ n → 2 ≤ m → s0.(sb) = k → (∀ y, v.(vl) y = free_lock) →
  itab_ok k v (pid_of p s0) ∅ s0 → href s0 ip j → get_inode ip s0 = q →
  q.(i_ref) = 1 → q.(i_valid) ≠ 0 → q.(i_nlink) = 0 → files_ok k v Q → Q !! i = Some q →
  ∃ s0' s' v', iput ip s = Done () s' ∧ txc X p s0' s' v' n (m - 1) ∧ itab_ok k v' (pid_of p s0) ∅ s0' ∧ ref_moved s0 s0' j (-1) ∧
    (∀ y, 0 ≤ y < k.(sb_size) → is_free_block v' k y ↔ is_free_block v k y ∨ fblock v q y) ∧
    disk_inode k v' j = mk_dinode 0 q.(i_major) q.(i_minor) 0 0 (replicate 13 0) ∧
    (∀ j', 0 ≤ j' < k.(sb_ninodes) → j' ≠ j → disk_inode k v' j' = disk_inode k v j') ∧
    files_ok k v' (delete i Q) ∧ ∀ i' q', i' ≠ i → Q !! i' = Some q' → unchanged v v' q'.
Proof.
  intros Hsb Hly HX HXi HT Hn Hm Hk Hfl Htab Hh Hq Hr Hval Hnl HQ Hi. pose proof (fi_ok _ _ _ HQ _ _ Hi) as Hok.
  destruct (tx_itab k X p ∅ s0 s v n m HT Htab) as (Hqs & Eit & Hgi & Epid). pose proof Hh as (Hip & _ & Hj). rewrite Hq in Hj.
  pose proof (it_len _ _ _ _ _ Htab) as Hlen.
  destruct (iput_free_done k X p ip s0 s v n m q) as (t0 & t & v' & E & (g & f & Et) & HT1 & Hg1 & HE & Hd); try done; [by rewrite Hj| |].
  { rewrite <- Hq, (it_lock _ _ _ _ _ Htab ip Hip). rewrite decide_False; [done|]. intros Hin. by apply elem_of_empty in Hin. }
  rewrite Hj in HE, Hd. set (dr := set_i_ref (λ r, r - 1)). set (F := dr ∘ f).
  assert (Es : upd_inode ip dr t0 = set_klog g (upd_inode ip F s0)).
  { rewrite Et. unfold upd_inode, set_itable, set_klog. cbn. by rewrite alter_alter_list. }
  assert (Hfq : f q = set_i_valid (λ _, 0) (gone q)).
  { rewrite <- Hg1, Et. change (get_inode ip (set_klog g (upd_inode ip f s0))) with (get_inode ip (upd_inode ip f s0)). rewrite get_upd_same by lia. by rewrite Hq. }
  assert (HFq : F q = dr (set_i_valid (λ _, 0) (gone q))) by (unfold F; cbn; by rewrite Hfq).
  assert (Hoth : ∀ i' j', href (upd_inode ip F s0) i' j' → j' ≠ j).
  { intros i' j' Hh' ->. unfold href in Hh'. rewrite get_upd_inode in Hh' by lia. destruct (decide (i' = ip)) as [->|Hne].
    - rewrite Hq, HFq in Hh'. destruct Hh' as (_ & Hr' & _). cbn in Hr'. lia.
    - apply Hne. by apply (it_inj _ _ _ _ _ Htab _ _ j). }
  exists (upd_inode ip dr t0), (upd_inode ip dr t), v'.
  assert (Htab1 : itab_ok k v (pid_of p s0) ∅ (upd_inode ip F s0)).
  { apply (itab_upd k v _ ∅); try done. rewrite Hq, HFq.
    assert (Hr0 : i_ref (dr (set_i_valid (λ _, 0) (gone q))) = 0) by (cbn; lia).
    split; [lia|lia|intros ? ?; lia|lia| |intros Hin; by apply elem_of_empty in Hin]. cbn [i_lock].
    assert (Hlk : i_lock q = free_lock) by (rewrite <- Hq, (it_lock _ _ _ _ _ Htab ip Hip); apply decide_False; intros Hin; by apply elem_of_empty in Hin).
    rewrite decide_False by (intros Hin; by apply elem_of_empty in Hin). exact Hlk. }
  split; [|split; [by apply txc_inode|split; [|split; [|split; [exact (er_bits _ _ _ _ _ HE)|split; [|split; [exact (er_other _ _ _ _ _ HE)|]]]]]]].
  - unfold iput. mstep (itable_acquire p s Hqs). mnext. change (get_inode ip (acq LkItable s)) with (get_inode ip s). rewrite Hgi, Hq, Hr, Hnl.
    rewrite (proj2 (Z.eqb_neq _ 0) Hval). cbn [Z.eqb Pos.eqb negb andb when]. unfold iput_free in E. mstep E. mnext.
    pose proof (tx_quiet _ _ _ _ _ _ (proj1 HT1)) as Hq4. exact (itable_release p t ip dr (av_quiet p _ _ _ (tx_view _ _ _ _ _ _ (proj1 HT1)) Hq4)).
  - rewrite Es. apply itab_klog. eapply itab_view; [exact Htab1|]. intros i' j' Hh'. apply (er_other _ _ _ _ _ HE); [|by eapply Hoth].
    by eapply (it_used _ _ _ _ _ Htab1).
  - rewrite Es. change (ref_moved s0 (set_klog g (upd_inode ip F s0)) j (-1)).
    assert (H : ref_moved s0 (upd_inode ip F s0) j (-1)); [|by destruct H].
    apply (ref_moved_upd k v _ ∅ s0 Htab); try done; rewrite Hq, ?HFq; cbn; lia || done.
  - rewrite Hd. unfold gone, emptied, zeroed, dinode_of. cbn -[replicate]. rewrite Hnl. f_equal.
    rewrite drop_ge by (rewrite (fo_len _ _ _ Hok); lia). by rewrite app_nil_r.
  - apply (erased_files k v v' i q Q); try done. by rewrite Hj.
Qed.
End iput.

(** ** A concrete file: one block, 47, and no name. *)

Definition lost_file : inode := one_block 7 T_FILE 0.
Definition lost_disk : gmap Z (list Z) := {[46 := full_bitmap; 33 := put_dinode (ioff 7) (dinode_of lost_file) zero_block]}.
Definition lost_state : kstate := upd_inode 0 (λ _, lost_file) (path_state lost_disk []).

Lemma lost_itab v pid : (∀ b, v.(vb) b = default zero_block (lost_disk !! b)) → itab_ok demo_sb v pid ∅ lost_state.
Proof.
  intros Hb. destruct (itab_empty demo_sb v pid (path_state lost_disk [])) as [HT _]; [by vm_compute|].
  assert (Hd : disk_inode demo_sb v 7 = dinode_of lost_file).
  { unfold disk_inode. change (IBLOCK 7 demo_sb) with 33. rewrite Hb. by vm_compute. }
  apply (itab_upd demo_sb v pid ∅); try done; [unfold NINODE; lia|]. split.
  - cbn. lia.
  - intros _. cbn. split; [done|lia].
  - intros i _ (_ & Hr & _). exfalso. revert Hr. unfold get_inode.
    assert (E : itable (path_state lost_disk []) = replicate NINODE inode0) by (by vm_compute).
    rewrite E, list_lookup_total_alt. destruct (_ !! _) as [q|] eqn:Eq; [|done]. by apply lookup_replicate in Eq as [-> _].
  - intros _ _. change (i_inum lost_file) with 7. rewrite Hd. split; [done|]. cbn. unfold T_FILE. lia.
  - by rewrite decide_False by set_solver.
  - set_solver.
Qed.

Lemma full_fs_ok v : v.(vb) 46 = full_bitmap → fs_ok v demo_sb.
Proof.
  intros Hv y Hy Hf. cbn in Hy. assert (47 ≤ y).
  { destruct (decide (47 ≤ y)); [done|]. exfalso. unfold is_free_block in Hf. rewrite demo_bblock, Hv in Hf by done.
    change BPB with 8192 in Hf. rewrite Z.mod_small in Hf by lia.
    assert (H : forallb (λ y, negb (bit_clear full_bitmap y)) (seqZ 0 47) = true) by (by vm_compute).
    rewrite forallb_forall in H. specialize (H y). rewrite Hf in H. discriminate H. apply list_elem_of_In, elem_of_seqZ. lia. }
  split; cbn; [lia| |]; intros j Hj; [rewrite demo_bblock by done; lia|]. pose proof (demo_iblock j Hj). lia.
Qed.

Definition lost_view : view := view_of (fs_on lost_disk).

Lemma lost_tx : let F : Fuel := 1%nat in let D := ideal_disk in tx 3 lost_state lost_state lost_view 10 10.
Proof.
  intros F D. apply tx_inode, tx_pmem, tx_inode. apply fs_on_tx.
  intros b. destruct (lost_disk !! b) as [d|] eqn:E; [|by vm_compute]. revert b d E. apply map_Forall_lookup.
  apply (bool_decide_unpack _). by vm_compute.
Qed.

Lemma lost_blocks : (∀ b, lost_view.(vb) b = default zero_block (lost_disk !! b)) ∧ ∀ b, lost_view.(vl) b = free_lock.
Proof. destruct (with_fs_view lost_disk demo_boot fs_demo_uncached) as (Hb & _ & Hl). exact (conj Hb Hl). Qed.

Lemma lost_inode : inode_of demo_sb lost_view 7 = lost_file.
Proof.
  unfold inode_of, disk_inode. change (IBLOCK 7 demo_sb) with 33. rewrite (proj1 lost_blocks). by vm_compute.
Qed.

(** Its block is freed, and its inode can be used again. *)
Lemma iput_frees_witness :
  let F : Fuel := 1%nat in let L := layout64 in let V := demo_device in let D := ideal_disk in
  ∃ s0' s' v', iput 0 lost_state = Done () s' ∧ ref_moved lost_state s0' 7 (-1) ∧
    is_free_block v' demo_sb 47 ∧ (disk_inode demo_sb v' 7).(di_type) = 0.
Proof.
  intros F L V D.
  destruct lost_blocks as [Hb Hl].
  assert (Hok : file_ok lost_view demo_sb lost_file).
  { apply one_block_ok; [by rewrite Hb|cbn; lia|unfold T_FILE; lia|lia]. }
  destruct (@iput_frees F D ideal_disk_spec demo_sb {[46; 33]} 3 0 7 lost_state lost_state lost_view 8 8 [lost_file] 0%nat lost_file)
    as (s0' & s' & v' & E & _ & _ & Hr & Hf & Hd & _).
  - exact demo_sb_ok.
  - exact demo_layout.
  - intros y Hy. rewrite demo_bblock by done. set_solver.
  - apply elem_of_union. right. by apply elem_of_singleton.
  - assert (Hmis : missing {[46; 33]} lost_state = 2) by (by vm_compute). unfold txc. rewrite Hmis. split; [exact lost_tx|lia].
  - lia.
  - lia.
  - exact eq_refl.
  - exact Hl.
  - exact (lost_itab lost_view _ Hb).
  - split; [unfold NINODE; lia|]. by vm_compute.
  - by vm_compute.
  - exact eq_refl.
  - done.
  - exact eq_refl.
  - split; [exact (full_fs_ok lost_view (Hb 46))| |].
    + intros [|i] q Hi; [|done]. by injection Hi as <-.
    + intros [|i] [|i'] q q' b Hi Hi' Hne; done.
  - exact eq_refl.
  - exists s0', s', v'. split; [exact E|]. split; [exact Hr|]. split; [|by rewrite Hd].
    apply Hf; [cbn; lia|]. right. split; [lia|]. right. exists 0. split; [change MAXFILE with 268; lia|].
    unfold lost_file. rewrite one_faddr by lia. exact eq_refl.
Defined.
