(* ===== verification/Mkfs.v ===== *)
(** mkfs.c, the host program that builds the initial disk image.

    The image file is a list of sectors, since the program only moves whole
    sectors at multiples of their size.  [HostOrder] is the byte order of the
    host, in which its integers lie in memory.  What the host holds, the input
    files and whether the image can be created, is the argument [host] of
    main; an input file is the list of what successive reads of it return.
    Exits with an error are [Panicked].  Messages are not modelled. *)

From S2P Require Import Prelude Cmem KString Kstate Spinlock Sleep Sleeplock Kalloc Vm Printf Bio BioSpec Log LogSpec BioProps LogCrash LogSafe Tx Fs FsSpec FsView FsFile FsWrite FsDir.
Local Open Scope Z_scope.

(** ** Integers of the host *)

Class HostOrder := big_endian : bool.

Section mkfs.
Context {HO : HostOrder}.

(** The bytes of an integer in memory, and back. *)
Definition hbytes (n : nat) (x : Z) : list Z := if big_endian then reverse (to_le n x) else to_le n x.
Definition hval (b : list Z) : Z := of_le (if big_endian then reverse b else b).
Definition hget (d : list Z) (off n : nat) : Z := hval (take n (drop off d)).

Definition xshort (x : Z) : Z := hval [u8 x; u8 (Z.shiftr x 8)].
Definition xint (x : Z) : Z := hval [u8 x; u8 (Z.shiftr x 8); u8 (Z.shiftr x 16); u8 (Z.shiftr x 24)].

(** ** Layout *)

Definition NINODES : Z := 200.
Definition nbitmap : Z := FSSIZE / BPB + 1.
Definition ninodeblocks : Z := NINODES / IPB + 1.
Definition nlog : Z := LOGBLOCKS + 1.
Definition nmeta : Z := 2 + nlog + ninodeblocks + nbitmap.
Definition nblocks : Z := FSSIZE - nmeta.

(** The globals of the program: the image, the superblock (with the values as
    the host holds them) and what is free. *)
Record mkst : Type := mk_mkst {
  img : list (list Z);
  msb : superblock;
  freeinode : Z;
  freeblock : Z }.
Definition set_img (f : list (list Z) → list (list Z)) (s : mkst) : mkst := mk_mkst (f s.(img)) s.(msb) s.(freeinode) s.(freeblock).
Definition set_msb (f : superblock → superblock) (s : mkst) : mkst := mk_mkst s.(img) (f s.(msb)) s.(freeinode) s.(freeblock).
Definition set_freeinode (f : Z → Z) (s : mkst) : mkst := mk_mkst s.(img) s.(msb) (f s.(freeinode)) s.(freeblock).
Definition set_freeblock (f : Z → Z) (s : mkst) : mkst := mk_mkst s.(img) s.(msb) s.(freeinode) (f s.(freeblock)).

Definition die {A} (s : string) : M mkst A := panic s.
Definition assert (b : bool) : M mkst unit := if b then mret () else panic "assertion failed".

(** ** Sectors *)

Definition sector (sec : Z) : nat := Z.to_nat (u32 (sec * BSIZE) / BSIZE).

(** A write beyond the end of the file leaves a gap of zeroes. *)
Definition wsect (sec : Z) (buf : list Z) : M mkst unit :=
  modify (set_img (λ l,
    if (sector sec <? length l)%nat then <[sector sec := buf]> l
    else l ++ replicate (sector sec - length l) zero_block ++ [buf])).

Definition rsect (sec : Z) : M mkst (list Z) :=
  l ← gets img;
  match l !! sector sec with Some d => mret d | None => die "read" end.

(** ** Inodes *)

(** struct dinode in memory. *)
Definition hdinode_at (d : list Z) (off : nat) : dinode :=
  mk_dinode (s16 (hget d off 2)) (s16 (hget d (off + 2) 2)) (s16 (hget d (off + 4) 2)) (s16 (hget d (off + 6) 2))
    (hget d (off + 8) 4) ((λ i, hget d (off + 12 + 4 * i) 4) <$> seq 0 13).
Definition hdinode_bytes (di : dinode) : list Z :=
  hbytes 2 di.(di_type) ++ hbytes 2 di.(di_major) ++ hbytes 2 di.(di_minor) ++ hbytes 2 di.(di_nlink) ++
  hbytes 4 di.(di_size) ++ concat (hbytes 4 <$> di.(di_addrs)).

Definition winode (inum : Z) (ip : dinode) : M mkst unit :=
  k ← gets msb;
  let bn := IBLOCK inum k in
  buf ← rsect bn;
  wsect bn (splice buf (ioff inum) (hdinode_bytes ip)).

Definition rinode (inum : Z) : M mkst dinode :=
  k ← gets msb;
  buf ← rsect (IBLOCK inum k);
  mret (hdinode_at buf (ioff inum)).

Definition ialloc (type : Z) : M mkst Z :=
  inum ← gets freeinode;
  modify (set_freeinode (λ x, u32 (x + 1))) ;;
  winode inum (mk_dinode (s16 (xshort type)) 0 0 (s16 (xshort 1)) (xint 0) (replicate 13 0)) ;;
  mret inum.

(** The bitmap with the first [used] bits set. *)
Definition bits_used (used : Z) : list Z :=
  foldl (λ buf i, <[Z.to_nat (i / 8) := Z.lor (buf !!! Z.to_nat (i / 8)) (Z.shiftl 0x1 (i mod 8))]> buf)
    zero_block (seqZ 0 used).

Definition balloc (used : Z) : M mkst unit :=
  assert (used <? BPB) ;;
  k ← gets msb;
  wsect k.(sb_bmapstart) (bits_used used).

(** ** Files *)

(** [freeblock++] *)
Definition next_block : M mkst Z :=
  b ← gets freeblock;
  modify (set_freeblock (λ x, u32 (x + 1))) ;;
  mret b.

Definition set_di_addr (i : nat) (x : Z) (di : dinode) : dinode :=
  mk_dinode di.(di_type) di.(di_major) di.(di_minor) di.(di_nlink) di.(di_size) (<[i := x]> di.(di_addrs)).
Definition set_di_size (x : Z) (di : dinode) : dinode :=
  mk_dinode di.(di_type) di.(di_major) di.(di_minor) di.(di_nlink) x di.(di_addrs).

(** The address [din.addrs[i]], allocated when it is missing. *)
Definition ensure_addr (din : dinode) (i : nat) : M mkst dinode :=
  if xint (din.(di_addrs) !!! i) =? 0 then
    b ← next_block;
    mret (set_di_addr i (xint b) din)
  else mret din.

(** The address at [i] of the indirect block [a], allocated when it is missing. *)
Definition ensure_entry (a : Z) (i : nat) : M mkst Z :=
  indirect ← rsect a;
  if hget indirect i 4 =? 0 then
    b ← next_block;
    let indirect := splice indirect i (hbytes 4 (xint b)) in
    wsect a indirect ;;
    mret (xint (hget indirect i 4))
  else mret (xint (hget indirect i 4)).

(** The block at position [fbn] of the file. *)
Definition iappend_block (din : dinode) (fbn : Z) : M mkst (dinode * Z) :=
  if fbn <? NDIRECT then
    din ← ensure_addr din (Z.to_nat fbn);
    mret (din, xint (din.(di_addrs) !!! Z.to_nat fbn))
  else
    din ← ensure_addr din (Z.to_nat NDIRECT);
    x ← ensure_entry (xint (din.(di_addrs) !!! Z.to_nat NDIRECT)) (Z.to_nat (4 * (fbn - NDIRECT)));
    mret (din, x).

Fixpoint iappend_loop (k : nat) (din : dinode) (off : Z) (p : list Z) : M mkst (dinode * Z) :=
  let n := Z.of_nat (length p) in
  if 0 <? n then
    match k with
    | O => out_of_fuel
    | S k =>
        let fbn := off / BSIZE in
        assert (fbn <? MAXFILE) ;;
        r ← iappend_block din fbn;
        let n1 := zmin n ((fbn + 1) * BSIZE - off) in
        buf ← rsect r.2;
        wsect r.2 (splice buf (Z.to_nat (off - fbn * BSIZE)) (take (Z.to_nat n1) p)) ;;
        iappend_loop k r.1 (u32 (off + n1)) (drop (Z.to_nat n1) p)
    end
  else mret (din, off).

Definition iappend (inum : Z) (p : list Z) : M mkst unit :=
  din ← rinode inum;
  let off := xint din.(di_size) in
  r ← iappend_loop (io_rounds (Z.of_nat (length p))) din off p;
  winode inum (set_di_size (xint r.2) r.1).

(** ** The image *)

(** struct dirent, cleared and filled in. *)
Definition dirent (inum : Z) (name : list Z) : list Z :=
  hbytes 2 (xshort inum) ++ take (Z.to_nat DIRSIZ) name ++ replicate (Z.to_nat DIRSIZ - length name) 0.

(** What the host has. *)
Record host : Type := mk_host {
  h_create : list Z → bool;
  h_read : list Z → option (list (list Z)) }.

Definition user_slash : list Z := [117; 115; 101; 114; 47].
Definition c_slash : Z := 47.
Definition c_underscore : Z := 95.

(** The name without "user/", and then without a leading underscore. *)
Definition shortname (arg : list Z) : list Z :=
  if decide (take 5 arg = user_slash) then drop 5 arg else arg.
Definition skip_underscore (name : list Z) : list Z :=
  match name with c :: r => if c =? c_underscore then r else name | [] => [] end.

(** [while((cc = read(fd, buf, sizeof(buf))) > 0) iappend(inum, buf, cc);] *)
Fixpoint copy_in (inum : Z) (reads : list (list Z)) : M mkst unit :=
  match reads with
  | [] => mret ()
  | buf :: reads => if (0 <? length buf)%nat then iappend inum buf ;; copy_in inum reads else mret ()
  end.

Definition add_file (h : host) (rootino : Z) (arg : list Z) : M mkst unit :=
  let name := shortname arg in
  assert (bool_decide (c_slash ∉ name)) ;;
  match h.(h_read) arg with
  | None => die "open"
  | Some reads =>
      let name := skip_underscore name in
      assert (Z.of_nat (length name) <=? DIRSIZ) ;;
      inum ← ialloc T_FILE;
      iappend rootino (dirent inum name) ;;
      copy_in inum reads
  end.

(** The size of the root directory rounded up to whole blocks. *)
Definition fix_root (rootino : Z) : M mkst unit :=
  din ← rinode rootino;
  let off := u32 ((xint din.(di_size) / BSIZE + 1) * BSIZE) in
  winode rootino (set_di_size (xint off) din).

Definition superblock_bytes (k : superblock) : list Z :=
  concat (hbytes 4 <$> [k.(sb_magic); k.(sb_size); k.(sb_nblocks); k.(sb_ninodes); k.(sb_nlog); k.(sb_logstart);
    k.(sb_inodestart); k.(sb_bmapstart)]).

Definition new_sb : superblock :=
  mk_sb FSMAGIC (xint FSSIZE) (xint nblocks) (xint NINODES) (xint nlog) (xint 2) (xint (2 + nlog)) (xint (2 + nlog + ninodeblocks)).

Definition main (h : host) (args : list (list Z)) : M mkst unit :=
  match args with
  | [] => die "Usage: mkfs fs.img files..."
  | out :: files =>
      if negb (h.(h_create) out) then die "open" else
      modify (set_img (λ _, [])) ;;
      modify (set_msb (λ _, new_sb)) ;;
      modify (set_freeblock (λ _, nmeta)) ;;
      mfor (seqZ 0 FSSIZE) (λ i, wsect i zero_block) ;;
      wsect 1 (splice zero_block 0 (superblock_bytes new_sb)) ;;
      rootino ← ialloc T_DIR;
      assert (rootino =? ROOTINO) ;;
      iappend rootino (dirent rootino [46]) ;;
      iappend rootino (dirent rootino [46; 46]) ;;
      mfor files (add_file h rootino) ;;
      fix_root rootino ;;
      b ← gets freeblock;
      balloc b
  end.

(** The globals when the program starts. *)
Definition mkst0 : mkst := mk_mkst [] (mk_sb 0 0 0 0 0 0 0 0) 1 0.
End mkfs.
