(* ===== verification/MkfsSpec.v ===== *)
(** What mkfs builds: the image of a file system as [FsView] describes it.

    The image is written in one pass, and the bitmap last.  While it grows the
    program is described by the view in which the bitmap already marks the
    blocks handed out so far, [vmk], so that handing out a block is the
    allocation step of the kernel's balloc. *)

From S2P Require Import Prelude Cmem KString Kstate Spinlock Sleep Sleeplock Kalloc Vm Printf Bio BioSpec Log LogSpec BioProps LogCrash LogSafe Tx Fs FsSpec FsView FsFile FsWrite FsDir Mkfs.
Local Open Scope Z_scope.

(** ** A little-endian host *)

Definition le_host : HostOrder := false.
#[local] Existing Instance le_host.

Lemma xint_u32 x : xint x = u32 x.
Proof.
  unfold xint, hval. change big_endian with false. cbv iota.
  replace [u8 x; u8 (Z.shiftr x 8); u8 (Z.shiftr x 16); u8 (Z.shiftr x 24)] with (to_le 4 x); [apply of_le_to_le|].
  cbn. rewrite !Z.shiftr_div_pow2, !Z.div_div by lia. done.
Qed.
Lemma xshort_u16 x : xshort x = u16 x.
Proof.
  unfold xshort, hval. change big_endian with false. cbv iota.
  replace [u8 x; u8 (Z.shiftr x 8)] with (to_le 2 x); [apply of_le_to_le|].
  cbn. by rewrite Z.shiftr_div_pow2 by lia.
Qed.

Lemma hdinode_at_le d off : hdinode_at d off = dinode_at d off.
Proof. done. Qed.
Lemma hdinode_bytes_le di : hdinode_bytes di = enc_dinode di.
Proof. done. Qed.
Lemma new_sb_le : new_sb = demo_sb.
Proof. by vm_compute. Qed.

(** ** The view of a growing image *)

Definition vimg (l : list (list Z)) : Z → list Z := λ b, default zero_block (l !! Z.to_nat b).
Definition vmk (s : mkst) : view :=
  mk_view (fupd (vimg s.(img)) 46 (bits_used s.(freeblock))) (λ _, 0) (λ _, free_lock) 0 (λ _, []) [].

Record mk_ok (s : mkst) : Prop := {
  mo_sb : s.(msb) = demo_sb;
  mo_len : length s.(img) = 2000%nat;
  mo_sect : Forall (λ d, length d = 1024%nat) s.(img);
  mo_fb : 47 ≤ s.(freeblock) ≤ 2000;
  mo_zero b : s.(freeblock) ≤ b < 2000 → vimg s.(img) b = zero_block }.

Lemma bits_used_S n : 0 ≤ n → bits_used (n + 1) = set_bit n (bits_used n).
Proof.
  intros Hn. unfold bits_used. rewrite seqZ_app by lia. rewrite foldl_app. done.
Qed.

Lemma bits_used_clear n y : 0 ≤ n ≤ 8192 → 0 ≤ y < 8192 →
  length (bits_used n) = 1024%nat ∧ bit_clear (bits_used n) y = (n <=? y).
Proof.
  intros Hn Hy. rewrite <- (Z2Nat.id n) in * by lia. induction (Z.to_nat n) as [|i IH].
  { split; [done|]. rewrite (proj2 (Z.leb_le _ _)) by lia. rewrite bit_clear_test.
    change (bits_used (Z.of_nat 0)) with zero_block. unfold zero_block.
    rewrite lookup_total_replicate_2 by mlia. by rewrite Z.bits_0. }
  destruct IH as [Hl Hc]; [lia|]. rewrite Nat2Z.inj_succ, <- Z.add_1_r, bits_used_S by lia.
  split; [by rewrite length_set_bit|]. rewrite bit_clear_set by (rewrite ?Hl; lia). rewrite Hc.
  destruct (Z.leb_spec (Z.of_nat i) y), (Z.eqb_spec y (Z.of_nat i)), (Z.leb_spec (Z.of_nat i + 1) y); cbn; lia.
Qed.

Section steps.
Variables (s : mkst).
Hypothesis Hs : mk_ok s.

Lemma vmk_len b : length ((vmk s).(vb) b) = 1024%nat.
Proof.
  pose proof (mo_fb _ Hs). cbn. unfold fupd. case_decide; [apply (bits_used_clear _ 0); lia|]. unfold vimg.
  destruct (s.(img) !! Z.to_nat b) as [d|] eqn:E; [|done]. exact (Forall_lookup_1 _ _ _ _ (mo_sect _ Hs) E).
Qed.

Lemma vmk_free y : 0 ≤ y < 2000 → is_free_block (vmk s) demo_sb y ↔ s.(freeblock) ≤ y.
Proof.
  intros Hy. pose proof (mo_fb _ Hs). unfold is_free_block. rewrite demo_bblock by done. cbn. rewrite fupd_eq.
  change BPB with 8192. rewrite Z.mod_small by lia. destruct (bits_used_clear s.(freeblock) y) as [_ ->]; [lia|lia|]. apply Z.leb_le.
Qed.

Lemma demo_data_block y : 47 ≤ y < 2000 → data_block demo_sb y.
Proof.
  intros Hy. split; cbn; [lia| |]; intros j Hj; [rewrite demo_bblock by done; lia|]. pose proof (demo_iblock j Hj). lia.
Qed.

Lemma vmk_fs_ok : fs_ok (vmk s) demo_sb.
Proof. intros y Hy. cbn in Hy. rewrite vmk_free by done. intros H. pose proof (mo_fb _ Hs). apply demo_data_block. lia. Qed.

Lemma sector_small b : 0 ≤ b < 4194304 → sector b = Z.to_nat b.
Proof. intros Hb. unfold sector. rewrite u32_small by (unfold BSIZE; lia). rewrite Z.div_mul by (unfold BSIZE; lia). done. Qed.

Lemma rsect_done b : 0 ≤ b < 2000 → b ≠ 46 → rsect b s = Done ((vmk s).(vb) b) s.
Proof.
  intros Hb H46. unfold rsect. mnext. rewrite sector_small by lia. cbn. rewrite fupd_ne by done. unfold vimg.
  destruct (lookup_lt_is_Some_2 s.(img) (Z.to_nat b)) as [d ->]; [rewrite (mo_len _ Hs); lia|done].
Qed.

Lemma wsect_done b d : 0 < b < s.(freeblock) → b ≠ 46 → length d = 1024%nat →
  ∃ l, wsect b d s = Done () (set_img (λ _, l) s) ∧ mk_ok (set_img (λ _, l) s) ∧
    ∀ b', (vmk (set_img (λ _, l) s)).(vb) b' = fupd (vmk s).(vb) b d b'.
Proof.
  intros Hb H46 Hd. destruct Hs as [H1 H2 H3 H4 H5]. exists (<[Z.to_nat b := d]> s.(img)).
  assert (Hv : ∀ b', vimg (<[Z.to_nat b := d]> s.(img)) b' = fupd (vimg s.(img)) b d b').
  { intros b'. unfold vimg, fupd. case_decide as E; [subst; by rewrite list_lookup_insert_eq by lia|].
    rewrite list_lookup_insert_ne; [done|]. lia. }
  split; [|split].
  - unfold wsect, modify, set_img. rewrite sector_small, (proj2 (Nat.ltb_lt _ _)) by lia. done.
  - split; cbn; try done; [by rewrite length_insert|by apply Forall_insert|]. intros b' Hb'. rewrite Hv, fupd_ne by lia. by apply H5.
  - intros b'. cbn. unfold fupd at 1 2. case_decide as E; [subst; by rewrite decide_False|]. rewrite Hv. unfold fupd. by case_decide; [|rewrite decide_False].
Qed.

Lemma next_block_done : s.(freeblock) < 2000 →
  let s' := set_freeblock (λ x, x + 1) s in
  next_block s = Done s.(freeblock) s' ∧ mk_ok s' ∧ valloc demo_sb (vmk s) s.(freeblock) (vmk s').
Proof.
  intros Hb s'. destruct Hs as [H1 H2 H3 H4 H5]. split; [|split].
  - unfold next_block, gets, modify, mbind, M_bind. cbn. unfold s', set_freeblock. by rewrite u32_small by lia.
  - split; cbn; try done; [lia|]. intros b Hb'. apply H5. lia.
  - split; [cbn; lia|apply vmk_free; lia|]. intros b. rewrite demo_bblock by lia. cbn.
    change BPB with 8192. rewrite Z.mod_small, bits_used_S by lia. rewrite fupd_eq. unfold fupd. case_decide as E.
    + subst b. rewrite decide_False by lia. done.
    + case_decide as E2; [|done]. subst b. apply H5. lia.
Qed.
End steps.

(** ** The block at a position *)

(** The blocks of a file of [off] bytes, the indirect block included. *)
Definition blocks (off : Z) : Z := (off + 1023) / 1024 + (if 12288 <? off then 1 else 0).

(** The file has exactly the blocks its first [off] bytes need. *)
Definition dense (v : view) (q : inode) (off : Z) : Prop :=
  (∀ bn, 0 ≤ bn < MAXFILE → faddr v q bn ≠ 0 ↔ bn * BSIZE < off) ∧ (ind q ≠ 0 ↔ 12288 < off).

(** What an operation on the file [q] leaves: a file, grown by [c] blocks. *)
Record mgrown (s : mkst) (q : inode) (s' : mkst) (q' : inode) (c : Z) : Prop := {
  mg_ok : mk_ok s';
  mg_inode : s'.(freeinode) = s.(freeinode);
  mg_block : s'.(freeblock) = s.(freeblock) + c;
  mg_v : vgrown demo_sb (vmk s) q (vmk s') q' }.

Lemma mgrown_refl s q : mk_ok s → file_ok (vmk s) demo_sb q → mgrown s q s q 0.
Proof. intros Hs Hok. split; [done|done|lia|]. apply vgrown_refl; [done|by apply vmk_fs_ok]. Qed.

Lemma mgrown_trans s q s1 q1 s2 q2 c1 c2 : mgrown s q s1 q1 c1 → mgrown s1 q1 s2 q2 c2 → mgrown s q s2 q2 (c1 + c2).
Proof. intros [A1 A2 A3 A4] [B1 B2 B3 B4]. split; [done|congruence|lia|by eapply vgrown_trans]. Qed.

Lemma addr_range q i : dinode_ok (dinode_of q) → 0 ≤ q.(i_addrs) !!! i < 4294967296.
Proof.
  intros H. rewrite list_lookup_total_alt. destruct (q.(i_addrs) !! i) as [x|] eqn:E; [|cbn; lia].
  exact (Forall_lookup_1 _ _ _ _ (do_addrs _ H) E).
Qed.

Lemma xint_small x : 0 ≤ x < 4294967296 → xint x = x.
Proof. intros H. by rewrite xint_u32, u32_small. Qed.

Lemma ensure_have s q i : dinode_ok (dinode_of q) → q.(i_addrs) !!! i ≠ 0 →
  ensure_addr (dinode_of q) i s = Done (dinode_of q) s.
Proof.
  intros Hd Hi. unfold ensure_addr. cbn [di_addrs dinode_of]. rewrite xint_small by (by apply addr_range). by rewrite (proj2 (Z.eqb_neq _ 0)).
Qed.

Lemma ensure_new s q i : mk_ok s → q.(i_addrs) !!! i = 0 → s.(freeblock) < 2000 →
  ensure_addr (dinode_of q) i s =
    Done (dinode_of (set_i_addrs (λ l, <[i := s.(freeblock)]> l) q)) (set_freeblock (λ x, x + 1) s).
Proof.
  intros Hs Hi Hb. destruct (next_block_done s Hs Hb) as (E & _ & _). pose proof (mo_fb _ Hs).
  unfold ensure_addr. cbn [di_addrs dinode_of]. rewrite Hi, xint_small by lia. cbn [Z.eqb]. mstep E. by rewrite xint_small by lia.
Qed.

(** A direct position. *)
Lemma iappend_direct s q bn : mk_ok s → file_ok (vmk s) demo_sb q → 0 ≤ bn < 12 → faddr (vmk s) q bn = 0 → s.(freeblock) < 2000 →
  ∃ s' q', iappend_block (dinode_of q) bn s = Done (dinode_of q', faddr (vmk s') q' bn) s' ∧ mgrown s q s' q' 1 ∧
    gained demo_sb (vmk s) q (vmk s') q' bn s.(freeblock) ∧ ind q' = ind q.
Proof.
  intros Hs Hok Hbn Ha Hb. destruct (next_block_done s Hs Hb) as (_ & Hs' & Hal). set (s' := set_freeblock _ s) in *.
  destruct (grow_direct demo_sb demo_sb_ok (vmk s) _ (vmk s') q bn Hal (vmk_fs_ok s Hs) (vmk_len s Hs) Hok Hbn) as (G1 & G2 & G3 & _).
  set (q' := set_i_addrs _ q) in *. exists s', q'. split; [|split; [by split|done]].
  assert (Hf : faddr (vmk s') q' bn = q'.(i_addrs) !!! Z.to_nat bn) by (unfold faddr; by rewrite (proj2 (Z.ltb_lt bn 12)) by lia).
  unfold iappend_block. change NDIRECT with 12. rewrite (proj2 (Z.ltb_lt bn 12)) by lia.
  unfold faddr in Ha. rewrite (proj2 (Z.ltb_lt bn 12)) in Ha by lia. mstep (ensure_new s q _ Hs Ha Hb). fold q' s'.
  cbn [di_addrs dinode_of]. rewrite xint_small by (apply addr_range, (fo_dinode _ _ _ (vg_ok _ _ _ _ _ G1))). by rewrite Hf.
Qed.

(** Blocks of files can be read and written. *)
Lemma file_sector s q b : mk_ok s → file_ok (vmk s) demo_sb q → fblock (vmk s) q b → 0 < b < s.(freeblock) ∧ b < 2000 ∧ b ≠ 46.
Proof.
  intros Hs Hok Hb. destruct (fo_data _ _ _ Hok b Hb) as [ [D1 D2 _] Hf]. cbn in D1, D2. rewrite vmk_free in Hf by (done || lia).
  pose proof (D2 0 ltac:(lia)) as Hne. rewrite demo_bblock in Hne by lia. lia.
Qed.

Lemma ind_fblock v q : ind q ≠ 0 → fblock v q (ind q).
Proof. intros H. split; [done|by left]. Qed.

Lemma faddr_entry v q bn : ind q ≠ 0 → 12 ≤ bn → hget (v.(vb) (ind q)) (Z.to_nat (4 * (bn - 12))) 4 = faddr v q bn.
Proof. intros Hi Hb. unfold faddr. by rewrite (proj2 (Z.ltb_ge bn 12)), (proj2 (Z.eqb_neq _ 0)) by lia. Qed.

Lemma entry_have s q bn : mk_ok s → file_ok (vmk s) demo_sb q → ind q ≠ 0 → 12 ≤ bn < MAXFILE → faddr (vmk s) q bn ≠ 0 →
  ensure_entry (ind q) (Z.to_nat (4 * (bn - 12))) s = Done (faddr (vmk s) q bn) s.
Proof.
  intros Hs Hok Hi Hbn Ha. destruct (file_sector s q _ Hs Hok (ind_fblock _ _ Hi)) as (B1 & B2 & B3).
  unfold ensure_entry. mstep (rsect_done s Hs (ind q) ltac:(lia) B3). rewrite faddr_entry by (done || lia).
  rewrite (proj2 (Z.eqb_neq _ 0)) by done. rewrite xint_small; [done|].
  destruct (fo_block _ _ _ bn Hok) as [ [D _ _] _]; [lia|done|]. cbn in D. lia.
Qed.

Lemma entry_new s q bn : mk_ok s → file_ok (vmk s) demo_sb q → ind q ≠ 0 → 12 ≤ bn < MAXFILE → faddr (vmk s) q bn = 0 →
  s.(freeblock) < 2000 →
  ∃ s', ensure_entry (ind q) (Z.to_nat (4 * (bn - 12))) s = Done (faddr (vmk s') q bn) s' ∧ mgrown s q s' q 1 ∧
    gained demo_sb (vmk s) q (vmk s') q bn s.(freeblock).
Proof.
  intros Hs Hok Hi Hbn Ha Hb. destruct (file_sector s q _ Hs Hok (ind_fblock _ _ Hi)) as (B1 & B2 & B3).
  destruct (next_block_done s Hs Hb) as (E1 & Hs1 & Hal). set (s1 := set_freeblock _ s) in *. pose proof (mo_fb _ Hs) as Hfb.
  unfold ensure_entry. mstep (rsect_done s Hs (ind q) ltac:(lia) B3). rewrite faddr_entry by (done || lia). rewrite Ha. cbn [Z.eqb].
  mstep E1. rewrite (xint_small s.(freeblock)) by lia. change (hbytes 4) with (to_le 4). cbv zeta.
  set (i := Z.to_nat (4 * (bn - 12))). fold (put_le ((vmk s).(vb) (ind q)) i 4 s.(freeblock)).
  pose proof (entry_off bn Hbn) as Hoff. fold i in Hoff. set (d := put_le _ _ _ _).
  assert (Hd : length d = 1024%nat) by (unfold d; rewrite length_put_le; rewrite vmk_len; done).
  destruct (wsect_done s1 Hs1 (ind q) d) as (l & E2 & Hs2 & Hv); [unfold s1; cbn; lia|done|done|]. mstep E2.
  set (s2 := set_img _ s1) in *.
  destruct (grow_block_entry demo_sb demo_sb_ok (vmk s) _ (vmk s1) (vmk s2) q bn Hal (vmk_fs_ok s Hs) (vmk_len s Hs) Hok Hi Hbn Hv) as (G1 & G2 & _).
  exists s2. split; [|split; [by split|done]]. rewrite <- (faddr_entry (vmk s2)) by (done || lia). fold i.
  rewrite Hv, fupd_eq. rewrite xint_small; [done|]. unfold hget, hval. change big_endian with false. cbv iota.
  change (0 ≤ get_le d i 4 < 4294967296). unfold d. rewrite get_put_le_eq by (rewrite vmk_len; done). cbn. mlia.
Qed.

Lemma blocks_same off z : 0 ≤ off → off mod 1024 ≠ 0 → 0 ≤ z → off mod 1024 + z ≤ 1024 → blocks (off + z) = blocks off.
Proof.
  intros Ho Hm Hz Hb. unfold blocks. f_equal; [mlia|]. destruct (Z.ltb_spec 12288 (off + z)), (Z.ltb_spec 12288 off); mlia.
Qed.
Lemma blocks_next off : 0 ≤ off → off mod 1024 = 0 → blocks (off + 1) = blocks off + 1 + if off =? 12288 then 1 else 0.
Proof.
  intros Ho Hm. unfold blocks. destruct (Z.eqb_spec off 12288), (Z.ltb_spec 12288 (off + 1)), (Z.ltb_spec 12288 off); mlia.
Qed.

Lemma dense_same v q off z : 0 ≤ off → off mod 1024 ≠ 0 → 0 ≤ z → off mod 1024 + z ≤ 1024 → dense v q off → dense v q (off + z).
Proof.
  intros Ho Hm Hz Hb [H1 H2]. split; [|rewrite H2; mlia]. intros bn Hbn. rewrite H1 by done. unfold BSIZE. mlia.
Qed.
Lemma dense_gain v q v' q' off a : 0 ≤ off → off mod 1024 = 0 → dense v q off → gained demo_sb v q v' q' (off / BSIZE) a →
  (ind q' ≠ 0 ↔ 12288 < off + 1) → dense v' q' (off + 1).
Proof.
  intros Ho Hm [H1 H2] [A1 _ _ _ [A5 _ _] ] Hi. split; [|done]. intros bn Hbn. rewrite A1 by done. specialize (H1 bn Hbn).
  unfold BSIZE in *. case_decide as E; [split; [mlia|lia]|]. rewrite H1. mlia.
Qed.

(** A position that has its block. *)
Lemma iappend_old s q bn : mk_ok s → file_ok (vmk s) demo_sb q → 0 ≤ bn < MAXFILE → faddr (vmk s) q bn ≠ 0 →
  iappend_block (dinode_of q) bn s = Done (dinode_of q, faddr (vmk s) q bn) s.
Proof.
  intros Hs Hok Hbn Ha. pose proof (fo_dinode _ _ _ Hok) as Hdi. unfold iappend_block. change NDIRECT with 12.
  destruct (Z.ltb_spec bn 12) as [Hlt|Hge].
  - assert (Hf : faddr (vmk s) q bn = q.(i_addrs) !!! Z.to_nat bn) by (unfold faddr; by rewrite (proj2 (Z.ltb_lt _ _)) by lia).
    rewrite Hf in *. mstep (ensure_have s q _ Hdi Ha). cbn [di_addrs dinode_of]. by rewrite xint_small by (by apply addr_range).
  - assert (Hi : ind q ≠ 0).
    { intros H0. apply Ha. unfold faddr. by rewrite (proj2 (Z.ltb_ge bn 12)), H0 by lia. }
    change (Z.to_nat 12) with 12%nat. mstep (ensure_have s q 12 Hdi Hi). cbn [di_addrs dinode_of]. fold (ind q).
    rewrite xint_small by (by apply addr_range). by mstep (entry_have s q bn Hs Hok Hi ltac:(lia) Ha).
Qed.

(** The indirect block, allocated when it is missing. *)
Lemma ensure_indirect s q : mk_ok s → file_ok (vmk s) demo_sb q → s.(freeblock) + icost q ≤ 2000 →
  ∃ s' q', ensure_addr (dinode_of q) 12 s = Done (dinode_of q') s' ∧ mgrown s q s' q' (icost q) ∧ ind q' ≠ 0 ∧
    (∀ bn, 0 ≤ bn < MAXFILE → faddr (vmk s') q' bn = faddr (vmk s) q bn) ∧
    (∀ b, fblock (vmk s) q b → (vmk s').(vb) b = (vmk s).(vb) b).
Proof.
  intros Hs Hok Hroom. unfold icost in *. destruct (Z.eqb_spec (ind q) 0) as [Hi|Hi].
  2:{ exists s, q. split; [apply ensure_have; [apply Hok|done]|]. by split; [apply mgrown_refl|]. }
  destruct (next_block_done s Hs ltac:(lia)) as (_ & Hs1 & Hal). pose proof (mo_fb _ Hs).
  destruct (grow_indirect demo_sb demo_sb_ok (vmk s) _ _ q Hal (vmk_fs_ok s Hs) (vmk_len s Hs) Hok Hi) as (G1 & Hind & G2 & G3 & _).
  eexists _, _. split; [apply ensure_new; [done|done|lia]|]. split; [by split|]. split; [rewrite Hind; lia|done].
Qed.

(** A position without a block. *)
Lemma iappend_new s q bn : mk_ok s → file_ok (vmk s) demo_sb q → 0 ≤ bn < MAXFILE → faddr (vmk s) q bn = 0 →
  let c := 1 + if bn <? 12 then 0 else icost q in
  s.(freeblock) + c ≤ 2000 →
  ∃ s' q' a, iappend_block (dinode_of q) bn s = Done (dinode_of q', faddr (vmk s') q' bn) s' ∧ mgrown s q s' q' c ∧
    gained demo_sb (vmk s) q (vmk s') q' bn a ∧ if bn <? 12 then ind q' = ind q else ind q' ≠ 0.
Proof.
  intros Hs Hok Hbn Ha c Hroom. unfold c in *. destruct (Z.ltb_spec bn 12) as [Hlt|Hge].
  { destruct (iappend_direct s q bn) as (s' & q' & E & G & Hg & Hi); try done; [lia|lia|]. by exists s', q', s.(freeblock). }
  pose proof (icost_range q) as Hic. unfold iappend_block. change NDIRECT with 12. rewrite (proj2 (Z.ltb_ge bn 12)) by lia.
  destruct (ensure_indirect s q Hs Hok ltac:(lia)) as (s1 & q1 & E1 & G1 & Hi & Hf & Hk).
  change (Z.to_nat 12) with 12%nat. mstep E1. cbn [di_addrs dinode_of]. fold (ind q1).
  pose proof G1 as [Hs1 _ M1 V1]. pose proof (vg_ok _ _ _ _ _ V1) as Hok1. rewrite xint_small by (apply addr_range, Hok1).
  destruct (entry_new s1 q1 bn Hs1 Hok1 Hi) as (s2 & E2 & G2 & Hg); [lia|by rewrite Hf|lia|]. mstep E2.
  exists s2, q1, s1.(freeblock). split; [done|]. split; [|split; [by eapply gained_after|done]].
  replace (1 + icost q) with (icost q + 1) by lia. by eapply mgrown_trans.
Qed.

Lemma iappend_block_done s q off : mk_ok s → file_ok (vmk s) demo_sb q → dense (vmk s) q off → 0 ≤ off < MAXFILE * BSIZE →
  s.(freeblock) + (blocks (off + 1) - blocks off) ≤ 2000 →
  let fbn := off / BSIZE in
  ∃ s' q', iappend_block (dinode_of q) fbn s = Done (dinode_of q', faddr (vmk s') q' fbn) s' ∧
    mgrown s q s' q' (blocks (off + 1) - blocks off) ∧ kept (vmk s) q (vmk s') q' (λ _, True) ∧ dense (vmk s') q' (off + 1).
Proof.
  intros Hs Hok Hde Hoff Hroom fbn. pose proof (pos_block off Hoff) as Hbn. fold fbn in Hbn. pose proof Hde as [D1 D2].
  specialize (D1 fbn Hbn). destruct (decide (off mod 1024 = 0)) as [Hm|Hm].
  2:{ rewrite blocks_same, Z.sub_diag by mlia. exists s, q. split; [apply iappend_old; try done; apply D1; unfold fbn, BSIZE; mlia|].
      split; [by apply mgrown_refl|split; [apply kept_refl|apply dense_same; mlia || done]]. }
  assert (Ha : faddr (vmk s) q fbn = 0). { destruct (decide (faddr (vmk s) q fbn = 0)) as [|H]; [done|]. apply D1 in H. unfold fbn, BSIZE in H. mlia. }
  assert (Hc : blocks (off + 1) - blocks off = 1 + if fbn <? 12 then 0 else icost q).
  { rewrite blocks_next by lia. unfold icost. unfold fbn, BSIZE in *.
    assert (Hi0 : ind q = 0 → off ≤ 12288) by (intros H0; destruct (decide (12288 < off)) as [?%D2|]; [done|lia]).
    destruct (Z.ltb_spec (off / 1024) 12), (Z.eqb_spec off 12288), (Z.eqb_spec (ind q) 0) as [H0|H0]; try mlia;
      first [apply D2 in H0|apply Hi0 in H0]; mlia. }
  rewrite Hc in *. destruct (iappend_new s q fbn Hs Hok Hbn Ha Hroom) as (s' & q' & a & E & G & Hg & Hi).
  exists s', q'. split; [done|]. split; [done|]. split; [by eapply gained_kept|].
  eapply dense_gain; [lia|done|done|exact Hg|]. unfold fbn, BSIZE in *. destruct (Z.ltb_spec (off / 1024) 12).
  - rewrite Hi, D2. mlia.
  - split; [mlia|done].
Qed.

(** ** iappend *)

Lemma blocks_mono x y : 0 ≤ x ≤ y → blocks x ≤ blocks y.
Proof. intros H. unfold blocks. destruct (Z.ltb_spec 12288 x), (Z.ltb_spec 12288 y); mlia. Qed.

(** The rest of a block after its first byte. *)
Lemma rest_of_block v q off z : 0 ≤ off → 1 ≤ z → off mod 1024 + z ≤ 1024 →
  dense v q (off + 1) → dense v q (off + z) ∧ blocks (off + z) = blocks (off + 1).
Proof.
  intros Ho Hz Hb Hd. destruct (decide (z = 1)) as [->|Hne]; [done|]. replace (off + z) with (off + 1 + (z - 1)) by lia.
  split; [apply dense_same; mlia || done|apply blocks_same; mlia].
Qed.

(** One block of the data. *)
Lemma iappend_round s q off d : mk_ok s → file_ok (vmk s) demo_sb q → dense (vmk s) q off → 0 ≤ off < MAXFILE * BSIZE →
  let z := Z.of_nat (length d) in let fbn := off / BSIZE in
  1 ≤ z → off mod BSIZE + z ≤ BSIZE → s.(freeblock) + (blocks (off + z) - blocks off) ≤ 2000 →
  ∃ s' q', (∀ (K : dinode → M mkst (dinode * Z)),
      (r ← iappend_block (dinode_of q) fbn;
       buf ← rsect r.2;
       wsect r.2 (splice buf (Z.to_nat (off - fbn * BSIZE)) d) ;; K r.1) s = K (dinode_of q') s') ∧
    mgrown s q s' q' (blocks (off + z) - blocks off) ∧ dense (vmk s') q' (off + z) ∧
    kept (vmk s) q (vmk s') q' (λ o, ¬ in_range off z o) ∧
    ∀ i, (i < length d)%nat → faddr (vmk s') q' ((off + Z.of_nat i) / BSIZE) ≠ 0 ∧ fbyte (vmk s') q' (off + Z.of_nat i) = d !!! i.
Proof.
  intros Hs Hok Hde Hoff z fbn Hz Hb Hroom. change BSIZE with 1024 in Hb.
  pose proof (blocks_mono (off + 1) (off + z) ltac:(lia)) as Hmono.
  destruct (iappend_block_done s q off Hs Hok Hde Hoff ltac:(lia)) as (s1 & q1 & E1 & G1 & K1 & Hd1). fold fbn in E1.
  pose proof G1 as [Hs1 _ _ V1]. pose proof (vg_ok _ _ _ _ _ V1) as Hok1. pose proof (pos_block off Hoff) as Hbn. fold fbn in Hbn.
  assert (Ha : faddr (vmk s1) q1 fbn ≠ 0) by (apply Hd1; [done|unfold fbn, BSIZE; mlia]).
  destruct (file_sector s1 q1 (faddr (vmk s1) q1 fbn) Hs1 Hok1) as (B1 & B2 & B3); [split; [done|right; eauto]|].
  set (a := faddr (vmk s1) q1 fbn) in *. assert (Hsub : off - fbn * BSIZE = off mod BSIZE) by (unfold fbn, BSIZE; mlia).
  set (d' := splice ((vmk s1).(vb) a) (Z.to_nat (off mod BSIZE)) d).
  assert (Hfit : (Z.to_nat (off mod BSIZE) + length d ≤ 1024)%nat) by (unfold BSIZE, z in *; mlia).
  destruct (wsect_done s1 Hs1 a d') as (l & E2 & Hs2 & Hv); [done|done|unfold d'; rewrite length_splice; rewrite (vmk_len s1 Hs1); done|].
  set (s2 := set_img _ s1) in *.
  destruct (chunk_file demo_sb (vmk s1) q1 (vmk s2) off d) as (G3 & K3 & B4 & Hf & _); try done.
  { exact (vmk_len s1 Hs1). } { by apply vmk_fs_ok. }
  destruct (rest_of_block (vmk s1) q1 off z) as [Hd2 Hbl]; [lia|done|done|done|].
  exists s2, q1. split; [|split; [|split; [|split; [|done]]]].
  - intros K. mstep E1. mstep (rsect_done s1 Hs1 a ltac:(lia) B3). cbn [snd]. rewrite Hsub. fold d'. by mstep E2.
  - rewrite Hbl, <- (Z.add_0_r (_ - _)). eapply mgrown_trans; [exact G1|]. split; [done|done|change (s2.(freeblock)) with (s1.(freeblock)); lia|done].
  - destruct Hd2 as [X1 X2]. split; [|done]. intros bn Hbn'. rewrite Hf. by apply X1.
  - eapply kept_trans; [exact K1|exact K3|done].
Qed.

Lemma iappend_loop_done f p s q off : mk_ok s → file_ok (vmk s) demo_sb q → dense (vmk s) q off → 0 ≤ off →
  let n := Z.of_nat (length p) in
  off + n ≤ MAXFILE * BSIZE → s.(freeblock) + (blocks (off + n) - blocks off) ≤ 2000 →
  (0 < n → n + off mod BSIZE ≤ Z.of_nat f * BSIZE) →
  ∃ s' q', iappend_loop f (dinode_of q) off p s = Done (dinode_of q', off + n) s' ∧
    mgrown s q s' q' (blocks (off + n) - blocks off) ∧ dense (vmk s') q' (off + n) ∧
    kept (vmk s) q (vmk s') q' (λ o, ¬ in_range off n o) ∧
    ∀ i, (i < length p)%nat → faddr (vmk s') q' ((off + Z.of_nat i) / BSIZE) ≠ 0 ∧ fbyte (vmk s') q' (off + Z.of_nat i) = p !!! i.
Proof.
  revert p s q off. induction f as [|f IH]; intros p s q off Hs Hok Hde Hoff n Hmax Hroom Hf; cbn [iappend_loop]; fold n;
    destruct (Z.ltb_spec 0 n) as [Hlt|Hge].
  1: { unfold BSIZE in Hf. mlia. }
  1, 3: assert (n = 0) as H0 by lia; rewrite H0, Z.add_0_r, Z.sub_diag; exists s, q; split; [done|];
    split; [by apply mgrown_refl|]; split; [done|]; split; [apply kept_refl|]; intros i Hi; unfold n in H0; lia.
  assert (Hbn : 0 ≤ off < MAXFILE * BSIZE) by lia. pose proof (pos_block off Hbn) as Hfb.
  rewrite (proj2 (Z.ltb_lt _ MAXFILE)) by lia. cbn [assert].
  assert (Hbs : off mod BSIZE < BSIZE ∧ 0 ≤ off mod BSIZE) by (unfold BSIZE; mlia).
  replace ((off / BSIZE + 1) * BSIZE - off) with (BSIZE - off mod BSIZE) by (unfold BSIZE; mlia).
  destruct (zmin_spec n (BSIZE - off mod BSIZE)) as (Hz1 & Hz2 & Hz3); [lia|lia|]. set (z := zmin _ _) in *.
  set (d := take (Z.to_nat z) p). assert (Hdl : Z.of_nat (length d) = z) by (unfold d; rewrite length_take; unfold n in *; lia).
  pose proof (blocks_mono (off + z) (off + n) ltac:(lia)) as Hmono.
  destruct (iappend_round s q off d Hs Hok Hde Hbn) as (s1 & q1 & E1 & G1 & Hd1 & K1 & B1); rewrite ?Hdl in *; [lia|lia|lia|].
  mnext. rewrite (E1 (λ din, iappend_loop f din (u32 (off + z)) (drop (Z.to_nat z) p))).
  assert (Hu : u32 (off + z) = off + z) by (apply u32_small; change MAXFILE with 268 in *; unfold BSIZE in *; lia). rewrite Hu.
  pose proof G1 as [Hs1 _ F1 V1].
  assert (Hdr : Z.of_nat (length (drop (Z.to_nat z) p)) = n - z) by (rewrite length_drop; unfold n; lia).
  destruct (IH (drop (Z.to_nat z) p) s1 q1 (off + z)) as (s2 & q2 & E2 & G2 & Hd2 & K2 & B2); rewrite ?Hdr in *; try done; try lia.
  { apply V1. } { rewrite F1. replace (off + z + (n - z)) with (off + n) by lia. lia. }
  { intros Hlt'. unfold BSIZE in *. destruct Hz3 as [Hz3|Hz3]; [lia|]. rewrite Hz3 in *. specialize (Hf Hlt). mlia. }
  replace (off + z + (n - z)) with (off + n) in * by lia. exists s2, q2. split; [exact E2|].
  split; [|split; [done|split]].
  - replace (blocks (off + n) - blocks off) with (blocks (off + z) - blocks off + (blocks (off + n) - blocks (off + z))) by lia.
    by eapply mgrown_trans.
  - eapply kept_trans; [exact K1|exact K2|]. intros o HP. unfold in_range in *. lia.
  - intros i Hi. destruct (decide (Z.of_nat i < z)) as [Hiz|Hiz].
    + destruct (B1 i) as [Ha1 Hb1]; [lia|]. destruct (K2 (off + Z.of_nat i)) as [Ha2 Hb2]; [unfold n in *; lia|].
      specialize (Ha2 Ha1). split; [done|]. rewrite <- fget_byte, Hb2, fget_byte, Hb1 by (done || (unfold in_range; lia)).
      unfold d. rewrite !list_lookup_total_alt, lookup_take_lt by lia. done.
    + destruct (B2 (i - Z.to_nat z)%nat) as [Ha2 Hb2]; [rewrite length_drop; lia|].
      replace (off + z + Z.of_nat (i - Z.to_nat z)) with (off + Z.of_nat i) in Ha2, Hb2 by lia. split; [done|].
      rewrite Hb2, !list_lookup_total_alt, lookup_drop. do 2 f_equal. lia.
Qed.

(** The inode on disk. *)
Definition ondisk : view → Z → dinode := disk_inode demo_sb.

Lemma rinode_done s i : mk_ok s → 0 ≤ i < 200 → rinode i s = Done (ondisk (vmk s) i) s.
Proof.
  intros Hs Hi. pose proof (demo_iblock i Hi). unfold rinode. mnext. rewrite (mo_sb _ Hs).
  by mstep (rsect_done s Hs (IBLOCK i demo_sb) ltac:(lia) ltac:(lia)).
Qed.

Lemma winode_done s i di : mk_ok s → 0 ≤ i < 200 → dinode_ok di →
  ∃ l, winode i di s = Done () (set_img (λ _, l) s) ∧ mk_ok (set_img (λ _, l) s) ∧
    ∀ b, (vmk (set_img (λ _, l) s)).(vb) b =
      fupd (vmk s).(vb) (IBLOCK i demo_sb) (put_dinode (ioff i) di ((vmk s).(vb) (IBLOCK i demo_sb))) b.
Proof.
  intros Hs Hi Hd. pose proof (demo_iblock i Hi). pose proof (mo_fb _ Hs). unfold winode. mnext. rewrite (mo_sb _ Hs). cbv zeta.
  mstep (rsect_done s Hs (IBLOCK i demo_sb) ltac:(lia) ltac:(lia)). rewrite hdinode_bytes_le. apply wsect_done; [done|lia|lia|].
  unfold put_dinode. rewrite length_splice; rewrite vmk_len by done; [done|]. rewrite length_enc_dinode by done. apply ioff_fits.
Qed.

(** The file [q] of the image: well formed, with the blocks of its size, its
    inode on disk. *)
Record mfile (s : mkst) (q : inode) : Prop := {
  mf_ok : file_ok (vmk s) demo_sb q;
  mf_dense : dense (vmk s) q q.(i_size);
  mf_blocks b : fblock (vmk s) q b → 47 ≤ b;
  mf_disk : ondisk (vmk s) q.(i_inum) = dinode_of q }.

Lemma iappend_done s q p : mk_ok s → mfile s q →
  let n := q.(i_size) + Z.of_nat (length p) in
  n ≤ MAXFILE * BSIZE → s.(freeblock) + (blocks n - blocks q.(i_size)) ≤ 2000 →
  ∃ s' q', iappend q.(i_inum) p s = Done () s' ∧ mk_ok s' ∧ mfile s' q' ∧
    s'.(freeinode) = s.(freeinode) ∧ s'.(freeblock) = s.(freeblock) + (blocks n - blocks q.(i_size)) ∧
    vwritten demo_sb (vmk s) q q.(i_size) p (vmk s') q'.
Proof.
  intros Hs [Hok Hde Hbl Hdisk] n Hmax Hroom. pose proof (fo_inum _ _ _ Hok) as Hin. cbn in Hin. pose proof (fo_size _ _ _ Hok) as Hsz.
  unfold iappend. mstep (rinode_done s _ Hs Hin). rewrite Hdisk. cbn [di_size dinode_of].
  assert (H32 : MAXFILE * BSIZE < 4294967296) by (by vm_compute). rewrite xint_small by lia.
  destruct (iappend_loop_done (io_rounds (Z.of_nat (length p))) p s q q.(i_size) Hs Hok Hde) as (s1 & q1 & E1 & G1 & Hd1 & K1 & B1);
    [lia|done|done|intros _; unfold io_rounds, BSIZE in *; mlia|]. fold n in E1, G1, Hd1. mstep E1. cbn [fst snd].
  pose proof G1 as [Hs1 F1 F2 V1]. destruct (vg_q _ _ _ _ _ V1) as [ad Eq1]. rewrite xint_small by (unfold n; lia).
  set (q2 := set_i_size (λ _, Z.max q.(i_size) (q.(i_size) + Z.of_nat (length p))) q1).
  assert (Hsz2 : q2.(i_size) = n) by (unfold q2; cbn; lia).
  change (set_di_size n (dinode_of q1)) with (dinode_of (set_i_size (λ _, n) q1)).
  assert (Eq2 : set_i_size (λ _, n) q1 = q2) by (unfold q2, set_i_size; f_equal; lia). rewrite Eq2.
  assert (Hdi : dinode_ok (dinode_of q2)).
  { destruct (fo_dinode _ _ _ (vg_ok _ _ _ _ _ V1)) as [D1 D2 D3 D4 D5 D6 D7]. split; try done. cbn [di_size dinode_of]. unfold n in *. lia. }
  destruct (winode_done s1 q.(i_inum) (dinode_of q2) Hs1 Hin Hdi) as (l & E2 & Hs2 & Hv). set (s2 := set_img _ s1) in *.
  destruct (write_inode demo_sb demo_layout (vmk s) q q.(i_size) p (vmk s1) q1 (vmk s2)) as (_ & W & Hf); try done.
  { exact (vmk_len s1 Hs1). } { lia. }
  exists s2, q2. split; [exact E2|]. split; [done|]. split; [|split; [done|split; [done|done]]].
  assert (Hin2 : i_inum q2 = i_inum q) by (unfold q2; cbn; by rewrite Eq1).
  split; [apply W| | |].
  - rewrite Hsz2. destruct Hd1 as [X1 X2]. split; [|done]. intros bn Hb. rewrite Hf. by apply X1.
  - intros b [Hb|[ [Hd _ _] Hb]]%(vw_fblock _ _ _ _ _ _ _ W); [by apply Hbl|]. cbn in Hd. apply vmk_free in Hb; [|done|lia].
    pose proof (mo_fb _ Hs). lia.
  - rewrite Hin2. unfold ondisk, disk_inode. rewrite (vw_disk _ _ _ _ _ _ _ W) by done. by rewrite decide_True.
Qed.

(** ** The files built so far *)

(** A file [q] of type [f.1] with contents [f.2], and zeroes after them. *)
Record stores (v : view) (q : inode) (f : Z * list Z) : Prop := {
  ho_type : q.(i_type) = f.1;
  ho_nlink : q.(i_nlink) = 1;
  ho_size : q.(i_size) = Z.of_nat (length f.2);
  ho_get o : 0 ≤ o < MAXFILE * BSIZE → fget v q o = default 0 (f.2 !! Z.to_nat o) }.

(** The blocks files need. *)
Definition need (F : list (Z * list Z)) : Z := foldr (λ f n, blocks (Z.of_nat (length f.2)) + n) 0 F.

Lemma need_app F F' : need (F ++ F') = need F + need F'.
Proof. induction F as [|f F IH]; cbn; [done|]. unfold need in *. cbn. lia. Qed.
Lemma need_insert F i f f' : F !! i = Some f →
  need (<[i := f']> F) = need F - blocks (Z.of_nat (length f.2)) + blocks (Z.of_nat (length f'.2)).
Proof.
  intros Hi. rewrite <- (take_drop_middle F i f Hi) at 2. rewrite insert_take_drop by (by eapply lookup_lt_Some).
  rewrite !need_app. unfold need at 2 4. cbn. fold (need (drop (S i) F)). lia.
Qed.

(** What the first blocks, before the inodes, hold. *)
Definition meta_block (b : Z) : list Z := if b =? 1 then splice zero_block 0 (superblock_bytes new_sb) else zero_block.

Record built (s : mkst) (Q : list inode) (F : list (Z * list Z)) : Prop := {
  bu_ok : mk_ok s;
  bu_files : files_ok demo_sb (vmk s) Q;
  bu_file i q : Q !! i = Some q → mfile s q ∧ q.(i_inum) = Z.of_nat i + 1;
  bu_next : s.(freeinode) = Z.of_nat (length Q) + 1;
  bu_free j : s.(freeinode) ≤ j < 200 → (ondisk (vmk s) j).(di_type) = 0;
  bu_data : Forall2 (stores (vmk s)) Q F;
  bu_room : s.(freeblock) = 47 + need F;
  bu_meta b : 0 ≤ b < 33 → (vmk s).(vb) b = meta_block b }.

Lemma holds_unchanged v v' q f : unchanged v v' q → stores v q f → stores v' q f.
Proof. intros [_ U2] [H1 H2 H3 H4]. split; try done. intros o Ho. rewrite U2 by done. by apply H4. Qed.

Lemma holds_written v q f v' q' p : vwritten demo_sb v q q.(i_size) p v' q' → file_ok v demo_sb q → stores v q f →
  stores v' q' (f.1, f.2 ++ p).
Proof.
  intros W Hok [H1 H2 H3 H4]. destruct (vw_q _ _ _ _ _ _ _ W) as [ad Eq]. pose proof (fo_size _ _ _ Hok) as Hsz.
  assert (Hs' : i_size q' = q.(i_size) + Z.of_nat (length p)) by (rewrite Eq; cbn; lia).
  split; cbn [fst snd].
  - by rewrite Eq.
  - by rewrite Eq.
  - rewrite Hs', length_app. lia.
  - intros o Ho. destruct (decide (in_range q.(i_size) (Z.of_nat (length p)) o)) as [Hr|Hr].
    + unfold in_range in Hr. rewrite fget_byte by (apply (fo_cover _ _ _ (vw_ok _ _ _ _ _ _ _ W)); rewrite ?Hs'; unfold BSIZE; mlia).
      pose proof (vw_bytes _ _ _ _ _ _ _ W (Z.to_nat (o - q.(i_size))) ltac:(lia)) as Hb.
      replace (q.(i_size) + Z.of_nat (Z.to_nat (o - q.(i_size)))) with o in Hb by lia. rewrite Hb, lookup_app_r by lia.
      replace (Z.to_nat o - length f.2)%nat with (Z.to_nat (o - q.(i_size))) by lia.
      destruct (lookup_lt_is_Some_2 p (Z.to_nat (o - q.(i_size)))) as [x Hx]; [lia|]. by rewrite Hx, (list_lookup_total_correct _ _ _ Hx).
    + rewrite (vw_rest _ _ _ _ _ _ _ W) by done. rewrite H4 by done. unfold in_range in Hr.
      destruct (decide (o < q.(i_size))); [by rewrite lookup_app_l by lia|].
      rewrite !lookup_ge_None_2; [done|rewrite length_app; lia|lia].
Qed.

Lemma iappend_built s Q F i f p : built s Q F → F !! i = Some f →
  Z.of_nat (length f.2 + length p) ≤ MAXFILE * BSIZE → 47 + need (<[i := (f.1, f.2 ++ p)]> F) ≤ 2000 →
  ∃ s' Q', iappend (Z.of_nat i + 1) p s = Done () s' ∧ built s' Q' (<[i := (f.1, f.2 ++ p)]> F) ∧ length Q' = length Q.
Proof.
  intros [B1 B2 B3 B4 B5 B6 B7 B8] Hf Hmax Hneed.
  destruct (Forall2_lookup_r _ _ _ _ _ B6 Hf) as (q & Hq & Hh). destruct (B3 i q Hq) as [Hmf Hin]. pose proof Hmf as [Hok _ Hbl _].
  rewrite (need_insert _ _ f) in * by done. cbn [snd] in *. rewrite length_app in *. rewrite <- Hin.
  pose proof (ho_size _ _ _ Hh) as Hsz. rewrite Nat2Z.inj_add, <- Hsz in *.
  destruct (iappend_done s q p B1 Hmf) as (s' & q' & E & Hs' & Hmf' & F1 & F2 & W); [lia|lia|].
  destruct (written_files demo_sb (vmk s) q _ p (vmk s') q' Q i W B2 Hq) as [W1 W2]. destruct (vw_q _ _ _ _ _ _ _ W) as [ad Eq].
  assert (Hdisk : ∀ j, 0 ≤ j < 200 → j ≠ i_inum q → ondisk (vmk s') j = ondisk (vmk s) j).
  { intros j Hj Hne. unfold ondisk, disk_inode. rewrite (vw_disk _ _ _ _ _ _ _ W) by done. by rewrite decide_False. }
  exists s', (<[i := q']> Q). split; [done|]. split; [split|by rewrite length_insert].
  - done.
  - done.
  - intros j q2. rewrite list_lookup_insert_Some. intros [(-> & <- & _)|[Hj Hj2]]; [split; [done|by rewrite Eq]|].
    destruct (B3 j q2 Hj2) as [ [M1 M2 M3 M4] M5]. split; [|done]. pose proof (W2 j q2 ltac:(congruence) Hj2) as [U1 U2].
    split; [apply (fi_ok _ _ _ W1 j); by rewrite list_lookup_insert_ne| | |].
    + destruct M2 as [X1 X2]. split; [|done]. intros bn Hb. rewrite U1. by apply X1.
    + intros b [Hb0 Hb]. apply M3. split; [done|]. destruct Hb as [|(bn & Hbn & Hb)]; [by left|right]. exists bn. by rewrite <- Hb, U1.
    + rewrite Hdisk; [done|apply M1|lia].
  - by rewrite length_insert, F1.
  - intros j Hj. rewrite F1 in Hj. apply lookup_lt_Some in Hq. rewrite Hdisk by lia. by apply B5.
  - apply Forall2_same_length_lookup. split; [rewrite !length_insert; exact (Forall2_length _ _ _ B6)|].
    intros j q2 f2. rewrite !list_lookup_insert_Some. intros [(-> & <- & _)|[Hj Hj2]] [(Ej & <- & _)|[Hj' Hf2]]; try done.
    + by eapply holds_written.
    + eapply holds_unchanged; [by eapply W2|]. by eapply Forall2_lookup_lr.
  - rewrite (need_insert _ _ f) by done. cbn [snd]. rewrite length_app, Nat2Z.inj_add, <- Hsz. lia.
  - intros b Hb. rewrite <- B8 by done. pose proof (mo_fb _ B1). destruct (to_vb _ _ _ _ (vw_touch _ _ _ _ _ _ _ W) b)
      as [|[(y & Hy & E2)|[ [_ Hfree]|[Hb2|E2]]]]; [done|rewrite demo_bblock in E2 by done; lia|apply vmk_free in Hfree; [lia|done|lia]| |].
    + apply Hbl in Hb2. lia.
    + pose proof (demo_iblock (i_inum q) (fo_inum _ _ _ Hok)). lia.
Qed.

(** ** Writing an inode *)

Section inode.
Context (s s' : mkst) (inum : Z) (di : dinode).
Hypothesis Hs : mk_ok s.
Hypothesis Hs' : mk_ok s'.
Hypothesis Hi : 0 ≤ inum < 200.
Hypothesis Hdi : dinode_ok di.
Hypothesis Hv : ∀ b, (vmk s').(vb) b =
  fupd (vmk s).(vb) (IBLOCK inum demo_sb) (put_dinode (ioff inum) di ((vmk s).(vb) (IBLOCK inum demo_sb))) b.

Lemma ondisk_put j : 0 ≤ j < 200 → ondisk (vmk s') j = if decide (j = inum) then di else ondisk (vmk s) j.
Proof.
  intros Hj. unfold ondisk, disk_inode. rewrite Hv. pose proof (ioff_fits inum). case_decide as E.
  - subst. rewrite fupd_eq. apply dinode_at_put; [done|]. by rewrite vmk_len.
  - unfold fupd. case_decide as Eb; [|done]. rewrite Eb. apply dinode_at_put_ne; [done|by rewrite vmk_len|].
    apply (ioff_ne demo_sb); [exact demo_sb_ok|lia|lia|congruence|congruence].
Qed.

Lemma put_meta b : 0 ≤ b < 33 → (vmk s').(vb) b = (vmk s).(vb) b.
Proof. intros Hb. rewrite Hv, fupd_ne; [done|]. pose proof (demo_iblock inum Hi). lia. Qed.

Lemma put_file q : file_ok (vmk s) demo_sb q →
  file_ok (vmk s') demo_sb q ∧ (∀ b, fblock (vmk s') q b ↔ fblock (vmk s) q b) ∧ unchanged (vmk s) (vmk s') q.
Proof.
  intros Hok. destruct (inode_write demo_sb demo_layout (vmk s) (vmk s') q inum _ Hok (vmk_fs_ok s Hs) Hi Hv) as (W1 & _ & _ & W2 & W3). done.
Qed.

Lemma put_mfile q : mfile s q → q.(i_inum) ≠ inum → mfile s' q.
Proof.
  intros [M1 M2 M3 M4] Hne. destruct (put_file q M1) as (W1 & W2 & [U1 _]). split; [done| | |].
  - destruct M2 as [X1 X2]. split; [|done]. intros bn Hb. rewrite U1. by apply X1.
  - intros b Hb%W2. by apply M3.
  - rewrite ondisk_put, decide_False by (done || apply M1). done.
Qed.

Lemma put_files Q : files_ok demo_sb (vmk s) Q → files_ok demo_sb (vmk s') Q.
Proof.
  intros [F1 F2 F3]. split; [by apply vmk_fs_ok|intros i q Hq; by apply put_file, (F2 i)|].
  intros i j q q' b Hq Hq' Hne Hb%(proj1 (proj2 (put_file q (F2 i q Hq)))). rewrite (proj1 (proj2 (put_file q' (F2 j q' Hq')))).
  by eapply (F3 i j).
Qed.

Lemma put_holds Q F : files_ok demo_sb (vmk s) Q → Forall2 (stores (vmk s)) Q F → Forall2 (stores (vmk s')) Q F.
Proof.
  intros [_ F2 _] H. apply Forall2_same_length_lookup. split; [exact (Forall2_length _ _ _ H)|]. intros i q f Hq Hf.
  destruct (put_file q (F2 i q Hq)) as (_ & _ & U). eapply holds_unchanged; [exact U|by eapply Forall2_lookup_lr].
Qed.
End inode.

(** ** A new inode *)

Lemma empty_mfile s i t : 0 ≤ i < 200 → -32768 ≤ t < 32768 → ondisk (vmk s) i = dinode_of (empty_of i t) → mfile s (empty_of i t).
Proof.
  intros Hi Ht Hd. split; [by apply empty_ok| |intros b Hb; by apply empty_fblock in Hb|done].
  split; [|split; [by intros []|cbn; lia]]. intros bn Hb. rewrite empty_faddr. cbn. unfold BSIZE. lia.
Qed.

Lemma empty_holds v i t : stores v (empty_of i t) (t, []).
Proof. split; try done. intros o Ho. unfold fget. by rewrite empty_faddr. Qed.

Lemma snoc_lookup {A} (l : list A) x i y : (l ++ [x]) !! i = Some y → l !! i = Some y ∨ i = length l ∧ y = x.
Proof.
  intros [H|[Hl H]]%lookup_app_Some; [by left|right]. apply list_lookup_singleton_Some in H as [H <-]. split; [lia|done].
Qed.

Lemma ialloc_built s Q F t : built s Q F → Z.of_nat (length Q) < 199 → 0 < t < 32768 →
  ∃ s' Q', ialloc t s = Done (Z.of_nat (length Q) + 1) s' ∧ built s' Q' (F ++ [(t, [])]) ∧ length Q' = S (length Q).
Proof.
  intros [B1 B2 B3 B4 B5 B6 B7 B8] Hlen Ht. set (inum := Z.of_nat (length Q) + 1). set (q' := empty_of inum t).
  assert (Hin : 0 ≤ inum < 200) by (unfold inum; lia).
  pose proof (fo_dinode _ _ _ (empty_ok (vmk s) inum t Hin ltac:(lia))) as Hdi. fold q' in Hdi.
  set (s1 := set_freeinode (λ x, x + 1) s).
  assert (Hs1 : mk_ok s1) by (destruct B1; by split).
  destruct (winode_done s1 inum (dinode_of q') Hs1 Hin Hdi) as (l & E & Hs2 & Hv). set (s2 := set_img _ s1) in *.
  change (vmk s1) with (vmk s) in Hv.
  exists s2, (Q ++ [q']). split; [|split; [split|by rewrite length_app, Nat.add_1_r]].
  - unfold ialloc. mnext. rewrite B4. fold inum.
    rewrite (bind_done (modify _) _ s () s1); [|unfold modify, s1, set_freeinode; by rewrite B4, u32_small by lia].
    rewrite xshort_u16, xshort_u16, xint_u32. change (u32 0) with 0. change (s16 (u16 1)) with 1.
    rewrite (u16_small t), (s16_small t) by lia. by mstep E.
  - done.
  - destruct (put_files s s2 inum _ B1 Hs2 Hin Hv Q B2) as [F1 F2 F3]. split; [done| |].
    + intros i q [Hq|[_ ->]]%snoc_lookup; [by apply (F2 i)|]. apply empty_ok; lia.
    + intros i j q1 q2 b [Hq1|[-> ->]]%snoc_lookup [Hq2|[-> ->]]%snoc_lookup Hne Hb; try done; [by eapply (F3 i j)| |].
      * apply empty_fblock.
      * by apply empty_fblock in Hb.
  - intros i q [Hq|[-> ->]]%snoc_lookup.
    + destruct (B3 i q Hq) as [M1 M2]. split; [|done]. apply (put_mfile s s2 inum (dinode_of q') B1 Hin Hdi Hv q M1).
      apply lookup_lt_Some in Hq. unfold inum. lia.
    + split; [|done]. apply empty_mfile; [done|lia|]. rewrite (ondisk_put s s2 inum _ B1 Hin Hdi Hv) by done. by rewrite decide_True.
  - change (s2.(freeinode)) with (s.(freeinode) + 1). rewrite B4, length_app. cbn. lia.
  - intros j Hj. change (s2.(freeinode)) with (s.(freeinode) + 1) in Hj. rewrite (ondisk_put s s2 inum _ B1 Hin Hdi Hv) by lia.
    rewrite decide_False by (unfold inum; lia). apply B5. lia.
  - apply Forall2_app; [exact (put_holds s s2 inum _ B1 Hin Hv Q F B2 B6)|]. constructor; [apply empty_holds|constructor].
  - change (s2.(freeblock)) with (s.(freeblock)). rewrite need_app, B7. change (need [(t, [])]) with 0. lia.
  - intros b Hb. rewrite (put_meta s s2 inum _ Hin Hv) by done. by apply B8.
Qed.

(** ** The empty image *)

Lemma clear_image n s : Z.of_nat (length s.(img) + n) < 4194304 →
  mfor (seqZ (Z.of_nat (length s.(img))) (Z.of_nat n)) (λ i, wsect i zero_block) s =
    Done () (set_img (λ l, l ++ replicate n zero_block) s).
Proof.
  revert s. induction n as [|n IH]; intros s Hn.
  { destruct s. unfold set_img. cbn. by rewrite app_nil_r. }
  rewrite seqZ_cons by lia. cbn [mfor]. replace (Z.pred (Z.of_nat (S n))) with (Z.of_nat n) by lia.
  rewrite (bind_done _ _ s () (set_img (λ l, l ++ [zero_block]) s)).
  2:{ unfold wsect, modify, set_img. rewrite sector_small, Nat2Z.id, (proj2 (Nat.ltb_ge _ _)), Nat.sub_diag by lia. done. }
  set (s1 := set_img _ s). assert (Hl : length s1.(img) = S (length s.(img))) by (cbn [img set_img s1]; rewrite length_app, Nat.add_1_r; done).
  replace (Z.succ (Z.of_nat (length s.(img)))) with (Z.of_nat (length s1.(img))) by lia.
  rewrite IH by lia. unfold s1, set_img. cbn [img]. by rewrite <- app_assoc.
Qed.

Definition start_img : list (list Z) := <[1%nat := splice zero_block 0 (superblock_bytes new_sb)]> (replicate 2000 zero_block).
Definition start_st : mkst := mk_mkst start_img demo_sb 1 47.

Lemma start_vimg b : 0 ≤ b → vimg start_img b = meta_block b.
Proof.
  intros H0. unfold vimg, start_img, meta_block. destruct (Z.eqb_spec b 1) as [->|H1].
  { by rewrite list_lookup_insert_eq by (rewrite length_replicate; lia). }
  rewrite list_lookup_insert_ne by lia. destruct (replicate 2000 zero_block !! Z.to_nat b) as [d|] eqn:E; [|done].
  by apply lookup_replicate in E as [-> _].
Qed.

Lemma start_ok : mk_ok start_st.
Proof.
  split.
  - done.
  - unfold start_st, start_img. cbn [img]. by rewrite length_insert, length_replicate.
  - unfold start_st, start_img. cbn [img]. apply Forall_insert; [by apply Forall_replicate|by vm_compute].
  - cbn [freeblock start_st]. lia.
  - cbn [freeblock img start_st]. intros b Hb. rewrite start_vimg by lia. unfold meta_block. by rewrite (proj2 (Z.eqb_neq b 1)) by lia.
Qed.

Lemma start_built : built start_st [] [].
Proof.
  split.
  - exact start_ok.
  - split; [apply vmk_fs_ok, start_ok|done|done].
  - done.
  - done.
  - cbn [freeinode start_st]. intros j Hj. unfold ondisk, disk_inode. pose proof (demo_iblock j ltac:(lia)). cbn [vb vmk start_st img freeblock].
    rewrite fupd_ne, start_vimg by lia. unfold meta_block. rewrite (proj2 (Z.eqb_neq _ 1)) by lia.
    cbn [di_type dinode_at]. unfold get_short, get_le, zero_block. rewrite drop_replicate, take_replicate.
    pose proof (ioff_fits j). by replace (2 `min` (1024 - ioff j))%nat with 2%nat by lia.
  - constructor.
  - done.
  - intros b Hb. cbn [vb vmk start_st img freeblock]. rewrite fupd_ne by lia. apply start_vimg. lia.
Qed.

(** ** The files of the arguments *)

Lemma need_nonneg F : 0 ≤ need F.
Proof.
  induction F as [|f F IH]; [done|]. unfold need in *. cbn [foldr]. pose proof (blocks_mono 0 (Z.of_nat (length f.2)) ltac:(lia)) as H.
  change (blocks 0) with 0 in H. lia.
Qed.

Lemma need_more F i f t bs p : F !! i = Some f → need (<[i := (t, bs)]> F) ≤ need (<[i := (t, bs ++ p)]> F).
Proof.
  intros Hf. rewrite !(need_insert _ _ f) by done. cbn [snd]. rewrite length_app.
  pose proof (blocks_mono (Z.of_nat (length bs)) (Z.of_nat (length bs + length p)) ltac:(lia)). lia.
Qed.

Lemma copy_in_built reads s Q F i f : built s Q F → F !! i = Some f → Forall (λ c, c ≠ []) reads →
  Z.of_nat (length f.2 + length (concat reads)) ≤ MAXFILE * BSIZE → 47 + need (<[i := (f.1, f.2 ++ concat reads)]> F) ≤ 2000 →
  ∃ s' Q', copy_in (Z.of_nat i + 1) reads s = Done () s' ∧ built s' Q' (<[i := (f.1, f.2 ++ concat reads)]> F) ∧ length Q' = length Q.
Proof.
  intros HB Hf Hr. revert s Q F f HB Hf. induction Hr as [|c reads Hc _ IH]; intros s Q F f HB Hf Hmax Hneed.
  { cbn [concat]. rewrite app_nil_r, list_insert_id by (by destruct f). by exists s, Q. }
  cbn [copy_in]. rewrite (proj2 (Nat.ltb_lt 0 (length c))) by (destruct c; [done|cbn; lia]). cbn [concat] in *.
  rewrite length_app in Hmax. rewrite app_assoc in *. pose proof (need_more F i f f.1 (f.2 ++ c) (concat reads) Hf).
  destruct (iappend_built s Q F i f c HB Hf) as (s1 & Q1 & E1 & HB1 & HQ1); [lia|lia|]. mstep E1.
  destruct (IH s1 Q1 _ (f.1, f.2 ++ c) HB1) as (s2 & Q2 & E2 & HB2 & HQ2); cbn [fst snd].
  - apply list_lookup_insert_eq. by eapply lookup_lt_Some.
  - rewrite length_app. lia.
  - by rewrite list_insert_insert_eq.
  - rewrite list_insert_insert_eq in HB2. exists s2, Q2. split; [done|]. split; [done|lia].
Qed.

(** What the program relies on of an argument: the file can be read, its name
    is no path and fits a directory entry, and its contents fit a file. *)
Definition fname (arg : list Z) : list Z := skip_underscore (shortname arg).
Definition fdata (h : host) (arg : list Z) : list Z := concat (default [] (h.(h_read) arg)).

Record arg_ok (h : host) (arg : list Z) : Prop := {
  ar_read : is_Some (h.(h_read) arg);
  ar_reads : Forall (λ c, c ≠ []) (default [] (h.(h_read) arg));
  ar_slash : c_slash ∉ shortname arg;
  ar_name : Z.of_nat (length (fname arg)) ≤ DIRSIZ;
  ar_size : Z.of_nat (length (fdata h arg)) ≤ MAXFILE * BSIZE }.

Lemma length_dirent inum name : Z.of_nat (length name) ≤ DIRSIZ → length (dirent inum name) = 16%nat.
Proof.
  intros H. unfold dirent. change (Z.to_nat DIRSIZ) with 14%nat. change (hbytes 2) with (to_le 2). unfold DIRSIZ in H.
  rewrite !length_app, length_to_le, length_replicate, length_take. lia.
Qed.

Lemma add_file_built h arg s Q F dir : built s Q F → F !! 0%nat = Some (T_DIR, dir) → arg_ok h arg → Z.of_nat (length Q) < 199 →
  let F' := <[0%nat := (T_DIR, dir ++ dirent (Z.of_nat (length Q) + 1) (fname arg))]> F ++ [(T_FILE, fdata h arg)] in
  Z.of_nat (length dir) + 16 ≤ MAXFILE * BSIZE → 47 + need F' ≤ 2000 →
  ∃ s' Q', add_file h 1 arg s = Done () s' ∧ built s' Q' F' ∧ length Q' = S (length Q).
Proof.
  intros HB Hdir [ [reads Er] Ar2 Ar3 Ar4 Ar5] HQ F' Hmax Hneed.
  assert (HF : fdata h arg = concat reads) by (unfold fdata; by rewrite Er). rewrite HF in *.
  unfold add_file. cbv zeta. rewrite Er in *. cbn [default] in *.
  rewrite bool_decide_true by done. cbn [assert]. mnext. fold (fname arg). rewrite (proj2 (Z.leb_le _ _)) by done. cbn [assert]. mnext.
  destruct (ialloc_built s Q F T_FILE HB HQ ltac:(unfold T_FILE; lia)) as (s1 & Q1 & E1 & HB1 & HQ1). mstep E1.
  set (inum := Z.of_nat (length Q) + 1) in *. pose proof (length_dirent inum (fname arg) Ar4) as Hde.
  assert (HlF : length F = length Q) by (symmetry; exact (Forall2_length _ _ _ (bu_data _ _ _ HB))).
  assert (Hlt : (0 < length F)%nat) by (by eapply lookup_lt_Some).
  assert (Hn1 : need F' = need (<[0%nat := (T_DIR, dir ++ dirent inum (fname arg))]> F) + blocks (Z.of_nat (length (concat reads)))).
  { unfold F'. rewrite HF, need_app. f_equal. unfold need. cbn [foldr snd]. lia. }
  pose proof (blocks_mono 0 (Z.of_nat (length (concat reads))) ltac:(lia)) as Hbm. change (blocks 0) with 0 in Hbm.
  destruct (iappend_built s1 Q1 _ 0 (T_DIR, dir) (dirent inum (fname arg)) HB1) as (s2 & Q2 & E2 & HB2 & HQ2); cbn [fst snd] in *.
  { by rewrite lookup_app_l. } { lia. }
  { rewrite insert_app_l by done. rewrite need_app. change (need [(T_FILE, [])]) with 0. lia. }
  change (Z.of_nat 0 + 1) with 1 in E2. mstep E2. rewrite insert_app_l in HB2 by done.
  destruct (copy_in_built reads s2 Q2 _ (length F) (T_FILE, []) HB2) as (s3 & Q3 & E3 & HB3 & HQ3); cbn [fst snd] in *.
  - rewrite lookup_app_r by (rewrite length_insert; lia). by rewrite length_insert, Nat.sub_diag.
  - done.
  - done.
  - rewrite insert_app_r_alt, length_insert, Nat.sub_diag by (rewrite length_insert; lia).
    change (<[0%nat := (T_FILE, [] ++ concat reads)]> [(T_FILE, [])]) with [(T_FILE, concat reads)].
    rewrite need_app. unfold need at 2. cbn [foldr snd]. lia.
  - rewrite insert_app_r_alt, length_insert, Nat.sub_diag in HB3 by (rewrite length_insert; lia).
    exists s3, Q3. rewrite HlF in E3. unfold F'. rewrite HF. split; [done|]. split; [done|lia].
Qed.

(** The files of the image: the root directory and the arguments. *)
Definition dir_entries (names : list (list Z)) : list (Z * list Z) :=
  (1, [46]) :: (1, [46; 46]) :: imap (λ i nm, (Z.of_nat i + 2, nm)) names.
Definition dir_bytes (names : list (list Z)) : list Z := concat ((λ e, dirent e.1 e.2) <$> dir_entries names).
Definition image_files (h : host) (args : list (list Z)) : list (Z * list Z) :=
  (T_DIR, dir_bytes (fname <$> args)) :: ((λ a, (T_FILE, fdata h a)) <$> args).

Lemma dir_entries_snoc names nm : dir_entries (names ++ [nm]) = dir_entries names ++ [(Z.of_nat (length names) + 2, nm)].
Proof. unfold dir_entries. rewrite imap_app. cbn. by rewrite Nat.add_0_r. Qed.

Lemma image_files_snoc h args a : image_files h (args ++ [a]) =
  <[0%nat := (T_DIR, dir_bytes (fname <$> args) ++ dirent (Z.of_nat (length args) + 2) (fname a))]> (image_files h args) ++ [(T_FILE, fdata h a)].
Proof.
  unfold image_files, dir_bytes. rewrite !fmap_app. change (fname <$> [a]) with [fname a].
  rewrite dir_entries_snoc, length_fmap, fmap_app, concat_app. cbn. by rewrite app_nil_r.
Qed.

Lemma length_dir_bytes names : Forall (λ nm, Z.of_nat (length nm) ≤ DIRSIZ) names → length (dir_bytes names) = (16 * (2 + length names))%nat.
Proof.
  induction names as [|nm names IH] using rev_ind; [done|]. intros [H [Hn _]%Forall_cons]%Forall_app. unfold dir_bytes in *.
  rewrite dir_entries_snoc, fmap_app, concat_app, length_app, IH by done. cbn [fmap list_fmap concat fst snd].
  rewrite app_nil_r, length_dirent, length_app by done. cbn [length]. lia.
Qed.

Lemma need_cons f F : need (f :: F) = blocks (Z.of_nat (length f.2)) + need F.
Proof. done. Qed.

Lemma args_names h args : Forall (arg_ok h) args → Forall (λ nm, Z.of_nat (length nm) ≤ DIRSIZ) (fname <$> args).
Proof. intros H. apply Forall_fmap. eapply Forall_impl; [exact H|]. intros a Ha. apply Ha. Qed.

Lemma need_prefix h pre post : Forall (arg_ok h) (pre ++ post) → need (image_files h pre) ≤ need (image_files h (pre ++ post)).
Proof.
  intros H. unfold image_files. rewrite !need_cons. cbn [snd]. rewrite (fmap_app (λ a, (T_FILE, fdata h a)) pre post), need_app.
  pose proof (need_nonneg ((λ a, (T_FILE, fdata h a)) <$> post)).
  pose proof (proj1 (Forall_app _ _ _) H) as [H1 _]. rewrite !length_dir_bytes by (by eapply args_names). rewrite !length_fmap, length_app.
  pose proof (blocks_mono (Z.of_nat (16 * (2 + length pre))) (Z.of_nat (16 * (2 + (length pre + length post)))) ltac:(lia)). lia.
Qed.

Lemma add_files_built h post : ∀ pre s Q, built s Q (image_files h pre) → Forall (arg_ok h) (pre ++ post) →
  Z.of_nat (length (pre ++ post)) < 199 → 47 + need (image_files h (pre ++ post)) ≤ 2000 →
  ∃ s' Q', mfor post (add_file h 1) s = Done () s' ∧ built s' Q' (image_files h (pre ++ post)).
Proof.
  induction post as [|a post IH]; intros pre s Q HB Hok Hlen Hneed.
  { rewrite app_nil_r. by exists s, Q. }
  cbn [mfor]. replace (pre ++ a :: post) with ((pre ++ [a]) ++ post) in * by (by rewrite <- app_assoc).
  pose proof (need_prefix h (pre ++ [a]) post Hok) as Hp. pose proof (proj1 (Forall_app _ _ _) Hok) as [Hok1 _].
  pose proof (proj1 (Forall_app _ _ _) Hok1) as [Hok0 [Ha _]%Forall_cons].
  rewrite !length_app in Hlen. cbn [length] in Hlen. pose proof (Forall2_length _ _ _ (bu_data _ _ _ HB)) as HlQ. cbn in HlQ. rewrite length_fmap in HlQ.
  rewrite image_files_snoc in Hp. replace (Z.of_nat (length pre) + 2) with (Z.of_nat (length Q) + 1) in Hp by lia.
  destruct (add_file_built h a s Q (image_files h pre) (dir_bytes (fname <$> pre)) HB) as (s1 & Q1 & E1 & HB1 & _); [done|done|lia| |lia|].
  { rewrite length_dir_bytes by (by eapply args_names). rewrite length_fmap. change (MAXFILE * BSIZE) with 274432. lia. }
  mstep E1. apply (IH (pre ++ [a]) s1 Q1); [|done|rewrite !length_app; cbn [length]; lia|done].
  rewrite image_files_snoc. by replace (Z.of_nat (length pre) + 2) with (Z.of_nat (length Q) + 1) by lia.
Qed.

(** ** Directory entries *)

Lemma concat_chunk {A} n (L : list (list A)) j l : Forall (λ l, length l = n) L → L !! j = Some l → take n (drop (n * j) (concat L)) = l.
Proof.
  intros H. revert j. induction H as [|x L Hx _ IH]; intros j Hj; [done|]. cbn [concat]. destruct j as [|j].
  - rewrite Nat.mul_0_r, drop_0. injection Hj as ->. by rewrite take_app_length'.
  - rewrite drop_app_ge by lia. replace (n * S j - length x)%nat with (n * j)%nat by lia. by apply IH.
Qed.

Lemma dent_of_dirent inum name : 0 ≤ inum < 65536 → Z.of_nat (length name) ≤ DIRSIZ → Forall (λ c, 0 < c < 256) name →
  dent_of (u8 <$> dirent inum name) = (inum, name).
Proof.
  intros Hi Hl Hn. unfold dirent, DIRSIZ in *. change (Z.to_nat 14) with 14%nat. change (hbytes 2) with (to_le 2).
  rewrite xshort_u16, u16_small by done. rewrite take_ge by lia. rewrite !fmap_app, to_le_u8.
  assert (Hu : u8 <$> name = name).
  { clear Hl. induction Hn as [|c name Hc _ IH]; [done|]. cbn. by rewrite IH, u8_small by lia. }
  rewrite Hu, fmap_replicate. unfold dent_of.
  rewrite take_app_length' by (by rewrite length_to_le). rewrite drop_app_length' by (by rewrite length_to_le). rewrite of_le_to_le. f_equal.
  - apply Z.mod_small. done.
  - change (u8 0) with 0. apply cut_pad. eapply Forall_impl; [exact Hn|]. cbn. lia.
Qed.

Lemma holds_fbytes v q f off n : stores v q f → file_ok v demo_sb q → 0 ≤ off →
  off + Z.of_nat n ≤ Z.of_nat (length f.2) → fbytes v q off n = take n (drop (Z.to_nat off) f.2).
Proof.
  intros [H1 H2 H3 H4] Hok Ho Hn. pose proof (fo_size _ _ _ Hok) as Hsz.
  apply list_eq_same_length with n; [rewrite length_take, length_drop; lia|apply length_fbytes|].
  intros i x y Hi. rewrite lookup_fbytes by done. intros [= <-]. rewrite lookup_take_lt, lookup_drop by done. intros Hy.
  rewrite <- fget_byte by (apply (fo_cover _ _ _ Hok); unfold BSIZE; mlia). rewrite H4 by lia.
  replace (Z.to_nat (off + Z.of_nat i)) with (Z.to_nat off + i)%nat by lia. by rewrite Hy.
Qed.

Definition ent_ok (e : Z * list Z) : Prop := 0 ≤ e.1 < 65536 ∧ Z.of_nat (length e.2) ≤ DIRSIZ ∧ Forall (λ c, 0 < c < 256) e.2.

Lemma dir_entries_ok names : Forall (λ nm, Z.of_nat (length nm) ≤ DIRSIZ ∧ Forall (λ c, 0 < c < 256) nm) names →
  Z.of_nat (length names) < 1000 → Forall ent_ok (dir_entries names).
Proof.
  intros Hn Hlen. unfold dir_entries. apply Forall_cons_2; [|apply Forall_cons_2].
  - split; [cbn; lia|]. split; [by vm_compute|]. repeat constructor; lia.
  - split; [cbn; lia|]. split; [by vm_compute|]. repeat constructor; lia.
  - apply Forall_lookup_2. intros i e (nm & Hnm & ->)%list_lookup_imap_Some. pose proof (lookup_lt_Some _ _ _ Hnm).
    split; [cbn [fst]; lia|]. exact (Forall_lookup_1 _ _ _ _ Hn Hnm).
Qed.

Lemma length_dir_entries names : length (dir_entries names) = (2 + length names)%nat.
Proof. unfold dir_entries. cbn [length]. by rewrite length_imap. Qed.

(** An entry of the directory, and one beyond its end. *)
Lemma root_entry v r names j e : stores v r (T_DIR, dir_bytes names) → file_ok v demo_sb r → Forall ent_ok (dir_entries names) →
  length (dir_bytes names) = (16 * (2 + length names))%nat →
  dir_entries names !! j = Some e → dent v r j = e.
Proof.
  intros Hh Hok Hen Hld He. pose proof (lookup_lt_Some _ _ _ He) as Hj. rewrite length_dir_entries in Hj. unfold dent.
  rewrite (holds_fbytes v r _ _ _ Hh Hok) by (cbn [snd]; lia). cbn [snd]. replace (Z.to_nat (16 * Z.of_nat j)) with (16 * j)%nat by lia.
  unfold dir_bytes. destruct (Forall_lookup_1 _ _ _ _ Hen He) as (E1 & E2 & E3).
  rewrite (concat_chunk 16 _ j (dirent e.1 e.2)); [|apply Forall_fmap|by rewrite list_lookup_fmap, He].
  - rewrite (dent_of_dirent _ _ E1 E2 E3). by destruct e.
  - eapply Forall_impl; [exact Hen|]. intros e' (_ & He' & _). exact (length_dirent _ _ He').
Qed.

Lemma root_beyond v r dir j sz : stores v r (T_DIR, dir) → file_ok v demo_sb (set_i_size (λ _, sz) r) →
  Z.of_nat (length dir) ≤ 16 * Z.of_nat j → 16 * Z.of_nat j + 16 ≤ sz → (dent v r j).1 = 0.
Proof.
  intros [_ _ _ H4] Hok Hd Hj. pose proof (fo_size _ _ _ Hok) as Hsz. cbn in Hsz.
  assert (Hz : fbytes v r (16 * Z.of_nat j) 16 = replicate 16 0).
  { apply list_eq_same_length with 16%nat; [apply length_replicate|apply length_fbytes|]. intros i x y Hi.
    rewrite lookup_fbytes, lookup_replicate_2 by done. intros [= <-] [= <-].
    pose proof (fo_cover _ _ _ Hok ((16 * Z.of_nat j + Z.of_nat i) / BSIZE) ltac:(unfold BSIZE; mlia) ltac:(cbn; unfold BSIZE; mlia)) as Ha.
    change (faddr v (set_i_size (λ _, sz) r)) with (faddr v r) in Ha. rewrite <- fget_byte by done. rewrite H4 by lia. cbn [snd].
    by rewrite lookup_ge_None_2 by lia. }
  unfold dent. by rewrite Hz.
Qed.

(** The root directory with its size rounded up: the entries, and free ones. *)
Lemma root_entries v r names sz : stores v r (T_DIR, dir_bytes names) → file_ok v demo_sb r →
  let r' := set_i_size (λ _, sz) r in
  file_ok v demo_sb r' → r.(i_size) ≤ sz → sz mod 16 = 0 →
  Forall (λ nm, Z.of_nat (length nm) ≤ DIRSIZ ∧ Forall (λ c, 0 < c < 256) nm) names → Z.of_nat (length names) < 1000 →
  take (2 + length names) (ents v r') = dir_entries names ∧ Forall (λ e, e.1 = 0) (drop (2 + length names) (ents v r')).
Proof.
  intros Hh Hok r' Hok' Hsz Hm Hn Hlen. pose proof (dir_entries_ok names Hn Hlen) as Hen.
  assert (Hld : length (dir_bytes names) = (16 * (2 + length names))%nat).
  { apply length_dir_bytes. eapply Forall_impl; [exact Hn|]. by intros nm [? _]. }
  pose proof (ho_size _ _ _ Hh) as Hs. cbn [snd] in Hs. pose proof (length_dir_entries names) as Hle.
  assert (Hnr : nents r' = Z.to_nat (sz / 16)) by done. split.
  - apply list_eq_same_length with (2 + length names)%nat; [done|rewrite length_take, length_ents, Hnr; mlia|].
    intros j x y Hj. rewrite lookup_take_lt, lookup_ents, decide_True by (rewrite ?Hnr; mlia). intros [= <-] Hy.
    change (dent v r' j) with (dent v r j). by apply (root_entry v r names).
  - apply Forall_lookup_2. intros i e. rewrite lookup_drop, lookup_ents, Hnr. case_decide as Hi; [|done]. intros [= <-].
    change (dent v r') with (dent v r). apply (root_beyond v r (dir_bytes names) _ sz); [done|done|lia|mlia].
Qed.

(** ** The end *)

Lemma files_ok_set v Q i q q' : files_ok demo_sb v Q → Q !! i = Some q → file_ok v demo_sb q' →
  (∀ b, fblock v q' b → fblock v q b) → files_ok demo_sb v (<[i := q']> Q).
Proof.
  intros [F1 F2 F3] Hi Hok Hb. split; [done| |].
  - intros j q2. rewrite list_lookup_insert_Some. intros [(-> & <- & _)|[_ Hj]]; [done|by eapply F2].
  - intros j1 j2 q1 q2 b. rewrite !list_lookup_insert_Some.
    intros [(-> & <- & _)|[Hj1 Hq1]] [(-> & <- & _)|[Hj2 Hq2]] Hne; try done.
    + intros H1%Hb. by eapply (F3 j1 j2).
    + intros H1 H2%Hb. by eapply (F3 j1 j2).
    + by eapply (F3 j1 j2).
Qed.

Lemma fix_root_done s Q F dir : built s Q F → F !! 0%nat = Some (T_DIR, dir) →
  Z.of_nat (length dir) mod 1024 ≠ 0 → let sz := (Z.of_nat (length dir) / 1024 + 1) * 1024 in sz ≤ MAXFILE * BSIZE →
  ∃ s' r, Q !! 0%nat = Some r ∧ fix_root 1 s = Done () s' ∧ mk_ok s' ∧ s'.(freeblock) = s.(freeblock) ∧
    let r' := set_i_size (λ _, sz) r in
    file_ok (vmk s') demo_sb r ∧ file_ok (vmk s') demo_sb r' ∧ files_ok demo_sb (vmk s') (<[0%nat := r']> Q) ∧
    Forall2 (stores (vmk s')) Q F ∧
    (∀ j, 0 ≤ j < 200 → ondisk (vmk s') j = if decide (j = 1) then dinode_of r' else ondisk (vmk s) j) ∧
    (∀ b, 0 ≤ b < 33 → (vmk s').(vb) b = meta_block b).
Proof.
  intros [B1 B2 B3 B4 B5 B6 B7 B8] Hdir Hm sz Hmax. destruct (Forall2_lookup_r _ _ _ _ _ B6 Hdir) as (r & Hr & Hh).
  destruct (B3 0%nat r Hr) as [ [M1 M2 M3 M4] M5]. change (Z.of_nat 0 + 1) with 1 in M5. rewrite M5 in M4. pose proof (ho_size _ _ _ Hh) as Hs. cbn [snd] in Hs.
  assert (H32 : MAXFILE * BSIZE < 4294967296) by (by vm_compute). pose proof (fo_size _ _ _ M1) as Hsz.
  set (r' := set_i_size (λ _, sz) r).
  assert (Hfix : ∀ v, file_ok v demo_sb r → file_ok v demo_sb r').
  { intros v Hv. apply file_ok_size; [done|unfold sz in *; mlia|]. intros bn Hb. rewrite Hs. unfold sz, BSIZE. mlia. }
  destruct (winode_done s 1 (dinode_of r') B1 ltac:(lia) (fo_dinode _ _ _ (Hfix _ M1))) as (l & E & Hs2 & Hv). set (s2 := set_img _ s) in *.
  pose proof (put_files s s2 1 _ B1 Hs2 ltac:(lia) Hv Q B2) as HF. pose proof (fi_ok _ _ _ HF 0%nat r Hr) as Hok2.
  exists s2, r. split; [done|]. split.
  { unfold fix_root. mstep (rinode_done s 1 B1 ltac:(lia)). rewrite M4. cbn [di_size dinode_of]. rewrite (xint_small (i_size r)), Hs by lia.
    fold sz. change BSIZE with 1024. fold sz. rewrite u32_small, xint_small by (unfold sz in *; mlia). exact E. }
  split; [done|]. split; [done|]. cbv zeta. fold r'. split; [done|]. split; [by apply Hfix|].
  split; [eapply files_ok_set; [done|done|by apply Hfix|done]|].
  split; [exact (put_holds s s2 1 _ B1 ltac:(lia) Hv Q F B2 B6)|].
  split; [exact (ondisk_put s s2 1 _ B1 ltac:(lia) (fo_dinode _ _ _ (Hfix _ M1)) Hv)|].
  intros b Hb. rewrite (put_meta s s2 1 _ ltac:(lia) Hv) by done. by apply B8.
Qed.

Lemma bitmap_written s : mk_ok s → ∃ l, balloc s.(freeblock) s = Done () (set_img (λ _, l) s) ∧ length l = 2000%nat ∧
  ∀ b, vimg l b = (vmk s).(vb) b.
Proof.
  intros [H1 H2 H3 H4 H5]. exists (<[46%nat := bits_used s.(freeblock)]> s.(img)). split; [|split; [by rewrite length_insert|]].
  - unfold balloc. rewrite (proj2 (Z.ltb_lt _ _)) by (change BPB with 8192; lia). cbn [assert]. mnext. mnext. rewrite H1.
    unfold wsect, modify, set_img. cbn [sb_bmapstart demo_sb]. change (sector 46) with 46%nat. by rewrite (proj2 (Nat.ltb_lt _ _)) by lia.
  - intros b. cbn [vb vmk]. unfold fupd, vimg. case_decide as E; [subst; by rewrite list_lookup_insert_eq by lia|].
    by rewrite list_lookup_insert_ne by lia.
Qed.

(** What the kernel finds on the disk: the superblock, an empty log, the root
    directory with the names of the arguments, and their contents.  The files
    are well formed, share no block and have their blocks marked; the other
    inodes and blocks are free. *)
Record fs_image (h : host) (args : list (list Z)) (v : view) (Q : list inode) : Prop := {
  im_sb : sb_of (v.(vb) 1) = demo_sb;
  im_log : v.(vb) demo_sb.(sb_logstart) = zero_block;
  im_files : files_ok demo_sb v Q;
  im_len : length Q = S (length args);
  im_inode i q : Q !! i = Some q → q.(i_inum) = Z.of_nat i + 1 ∧ q.(i_nlink) = 1 ∧ ondisk v q.(i_inum) = dinode_of q;
  im_free j : Z.of_nat (length Q) < j < 200 → (ondisk v j).(di_type) = 0;
  im_bitmap y : 0 ≤ y < 2000 → is_free_block v demo_sb y ↔ 47 + need (image_files h args) ≤ y;
  im_root : ∃ r, Q !! 0%nat = Some r ∧ dir_ok demo_sb r v ∧
    take (2 + length args) (ents v r) = dir_entries (fname <$> args) ∧ Forall (λ e, e.1 = 0) (drop (2 + length args) (ents v r));
  im_data i arg : args !! i = Some arg → ∃ q, Q !! S i = Some q ∧ q.(i_type) = T_FILE ∧
    q.(i_size) = Z.of_nat (length (fdata h arg)) ∧ fbytes v q 0 (length (fdata h arg)) = fdata h arg }.

Lemma holds_same v v' q f : (∀ b, v'.(vb) b = v.(vb) b) → file_ok v demo_sb q → stores v q f → stores v' q f.
Proof.
  intros Hv Hok. apply holds_unchanged. eapply same_file; [exact Hok|by intros b _|]. intros y _ _. unfold is_free_block. by rewrite Hv.
Qed.
Lemma files_ok_same v v' Q : (∀ b, v'.(vb) b = v.(vb) b) → files_ok demo_sb v Q → files_ok demo_sb v' Q.
Proof.
  intros Hv [F1 F2 F3]. split.
  - intros y Hy Hf. apply F1; [done|]. unfold is_free_block in *. by rewrite <- Hv.
  - intros i q Hq. eapply file_ok_same; [done|by eapply F2].
  - intros i j q q' b Hq Hq' Hne. unfold fblock. setoid_rewrite (faddr_ext v v'); [|done..]. by apply (F3 i j).
Qed.

Lemma fname_bytes (P : Z → Prop) arg : Forall P arg → Forall P (fname arg).
Proof.
  intros H. unfold fname, shortname. assert (H5 : Forall P (drop 5 arg)) by (by apply Forall_drop).
  case_decide; [revert H5; generalize (drop 5 arg)|revert H; generalize arg]; intros l Hl; destruct Hl; cbn; try done;
    (destruct (_ =? _); [done|by constructor]).
Qed.

Lemma image_of h args s Q s2 r v : built s Q (image_files h args) → Forall (arg_ok h) args →
  Forall (Forall (λ c, 0 < c < 256)) args → Z.of_nat (length args) < 199 → (2 + Z.of_nat (length args)) mod 64 ≠ 0 →
  let sz := (Z.of_nat (length (dir_bytes (fname <$> args))) / 1024 + 1) * 1024 in let r' := set_i_size (λ _, sz) r in
  Q !! 0%nat = Some r → mk_ok s2 → s2.(freeblock) = s.(freeblock) →
  file_ok (vmk s2) demo_sb r → file_ok (vmk s2) demo_sb r' → files_ok demo_sb (vmk s2) (<[0%nat := r']> Q) →
  Forall2 (stores (vmk s2)) Q (image_files h args) →
  (∀ j, 0 ≤ j < 200 → ondisk (vmk s2) j = if decide (j = 1) then dinode_of r' else ondisk (vmk s) j) →
  (∀ b, 0 ≤ b < 33 → (vmk s2).(vb) b = meta_block b) →
  (∀ b, v.(vb) b = (vmk s2).(vb) b) → fs_image h args v (<[0%nat := r']> Q).
Proof.
  intros HB Hok Hby Hlen Hm sz r' Hr Hs2 Hfb Hrok Hrok' HF HD Hod Hme Hv.
  pose proof (Forall2_length _ _ _ HD) as HlQ. cbn in HlQ. rewrite length_fmap in HlQ.
  assert (Hod' : ∀ j, ondisk v j = ondisk (vmk s2) j) by (intros j; unfold ondisk, disk_inode; by rewrite Hv).
  assert (Hrh : stores v r (T_DIR, dir_bytes (fname <$> args))).
  { apply (holds_same (vmk s2)); [done|done|]. exact (Forall2_lookup_lr _ _ _ _ _ _ HD Hr eq_refl). }
  assert (Hsz : Z.of_nat (length (dir_bytes (fname <$> args))) = 16 * (2 + Z.of_nat (length args))).
  { rewrite length_dir_bytes by (by eapply args_names). rewrite length_fmap. lia. }
  split.
  - rewrite Hv, Hme by lia. by vm_compute.
  - rewrite Hv, Hme by (cbn; lia). done.
  - by apply (files_ok_same (vmk s2)).
  - by rewrite length_insert.
  - intros i q. rewrite list_lookup_insert_Some, Hod'. intros [(<- & <- & _)|[Hi Hq]].
    + destruct (bu_file _ _ _ HB 0%nat r Hr) as [_ Hin]. change (i_inum r') with (i_inum r). rewrite Hin.
      split; [done|]. split; [apply Hrh|]. by rewrite Hod, decide_True by lia.
    + destruct (bu_file _ _ _ HB i q Hq) as [ [M1 _ _ M4] Hin]. split; [done|].
      destruct (Forall2_lookup_l _ _ _ _ _ HD Hq) as (f & _ & Hf). split; [apply Hf|].
      rewrite Hod, decide_False by (lia || apply M1). done.
  - intros j Hj. rewrite length_insert in Hj. rewrite Hod', Hod, decide_False by lia. apply (bu_free _ _ _ HB). rewrite (bu_next _ _ _ HB). lia.
  - intros y Hy. unfold is_free_block. rewrite Hv. fold (is_free_block (vmk s2) demo_sb y). rewrite vmk_free by done.
    by rewrite Hfb, (bu_room _ _ _ HB).
  - exists r'. split; [by apply list_lookup_insert_eq; lia|]. split; [split; [by apply (file_ok_same demo_sb (vmk s2))|apply Hrh|cbn; unfold sz; mlia]|].
    rewrite <- (length_fmap fname args). apply root_entries; try done.
    + by apply (file_ok_same demo_sb (vmk s2)).
    + by apply (file_ok_same demo_sb (vmk s2)).
    + rewrite (ho_size _ _ _ Hrh). cbn [snd]. unfold sz. mlia.
    + unfold sz. mlia.
    + apply Forall_fmap, Forall_lookup_2. intros i a Ha. split; [apply (Forall_lookup_1 _ _ _ _ Hok Ha)|].
      apply fname_bytes. exact (Forall_lookup_1 _ _ _ _ Hby Ha).
    + rewrite length_fmap. lia.
  - intros i a Ha.
    assert (Hf : image_files h args !! S i = Some (T_FILE, fdata h a)).
    { change (image_files h args !! S i) with (((λ a, (T_FILE, fdata h a)) <$> args) !! i). by rewrite list_lookup_fmap, Ha. }
    destruct (Forall2_lookup_r _ _ _ _ _ HD Hf) as (q & Hq & Hh). exists q. rewrite list_lookup_insert_ne by lia.
    pose proof (fi_ok _ _ _ HF (S i) q ltac:(by rewrite list_lookup_insert_ne by lia)) as Hqk.
    split; [done|]. split; [apply Hh|]. split; [apply Hh|].
    rewrite (holds_fbytes v q (T_FILE, fdata h a)); cbn [snd]; [by rewrite drop_0, take_ge| | |lia|lia].
    + by apply (holds_same (vmk s2)).
    + by apply (file_ok_same demo_sb (vmk s2)).
Qed.

Lemma start_runs {A} (K : M mkst A) :
  (modify (set_img (λ _, [])) ;;
   modify (set_msb (λ _, new_sb)) ;;
   modify (set_freeblock (λ _, nmeta)) ;;
   mfor (seqZ 0 FSSIZE) (λ i, wsect i zero_block) ;;
   wsect 1 (splice zero_block 0 (superblock_bytes new_sb)) ;; K) mkst0 = K start_st.
Proof.
  rewrite (bind_done (modify _) _ mkst0 () mkst0) by done.
  rewrite (bind_done (modify _) _ mkst0 () (set_msb (λ _, new_sb) mkst0)) by done.
  set (s0 := mk_mkst [] demo_sb 1 47). rewrite (bind_done (modify _) _ _ () s0) by (by vm_compute).
  mstep (clear_image 2000 s0 ltac:(cbn [length img s0]; lia)).
  rewrite (bind_done _ _ _ () start_st); [done|]. unfold wsect, modify, set_img. cbn [img s0 app].
  change (sector 1) with 1%nat. rewrite length_replicate. done.
Qed.

(** mkfs builds the file system it was asked for.  When the arguments are
    readable files that fit, and the root directory does not fill its last
    block, the program ends with an image of 2000 blocks on which the kernel
    finds the superblock, an empty log, well-formed files that share no block,
    with exactly their blocks marked in the bitmap, a root directory with the
    names of the arguments in order, and under inode 2 + i the bytes of
    argument i, however the reads of the files were cut. *)
Lemma mkfs_image h out args :
  h.(h_create) out = true → Forall (arg_ok h) args → Forall (Forall (λ c, 0 < c < 256)) args →
  Z.of_nat (length args) < 199 → 47 + need (image_files h args) ≤ 2000 → (2 + Z.of_nat (length args)) mod 64 ≠ 0 →
  ∃ s Q, main h (out :: args) mkst0 = Done () s ∧ length s.(img) = 2000%nat ∧
    ∀ v, (∀ b, v.(vb) b = vimg s.(img) b) → fs_image h args v Q.
Proof.
  intros Hc Hok Hby Hlen Hneed Hm. unfold main. rewrite Hc. cbn [negb]. rewrite start_runs.
  destruct (ialloc_built start_st [] [] T_DIR start_built) as (s1 & Q1 & E1 & B1 & L1); [done|unfold T_DIR; lia|].
  mstep E1. change (Z.of_nat (length []) + 1 =? ROOTINO) with true. cbn [assert]. mnext. change (Z.of_nat (length []) + 1) with (Z.of_nat 0 + 1).
  destruct (iappend_built s1 Q1 _ 0 (T_DIR, []) (dirent (Z.of_nat 0 + 1) [46]) B1) as (s2 & Q2 & E2 & B2 & L2); [done|by vm_compute|by vm_compute|].
  mstep E2.
  destruct (iappend_built s2 Q2 _ 0 (T_DIR, dirent 1 [46]) (dirent (Z.of_nat 0 + 1) [46; 46]) B2) as (s3 & Q3 & E3 & B3 & L3); [done|by vm_compute|by vm_compute|].
  mstep E3. change (built s3 Q3 (image_files h [])) in B3.
  destruct (add_files_built h args [] s3 Q3 B3) as (s4 & Q4 & E4 & B4); [done|done|done|].
  change (Z.of_nat 0 + 1) with 1. mstep E4. cbn [app] in B4.
  assert (Hdl : Z.of_nat (length (dir_bytes (fname <$> args))) = 16 * (2 + Z.of_nat (length args))).
  { rewrite length_dir_bytes by (by eapply args_names). rewrite length_fmap. lia. }
  destruct (fix_root_done s4 Q4 _ (dir_bytes (fname <$> args)) B4) as (s5 & r & Hr & E5 & Hs5 & Hfb & F1 & F2 & F3 & F4 & F5 & F6);
    [done|rewrite Hdl; mlia|rewrite Hdl; change (MAXFILE * BSIZE) with 274432; mlia|]. mstep E5. mnext.
  destruct (bitmap_written s5 Hs5) as (l & E6 & Hl & Hv). eexists _, _. split; [exact E6|]. split; [exact Hl|].
  intros v Hvv. eapply (image_of h args s4 Q4 s5 r); try done. intros b. rewrite Hvv. apply Hv.
Qed.

(** The image of "user/_cat", a file of 1034 bytes read in two pieces. *)
Definition demo_host : host := mk_host (λ _, true) (λ _, Some [replicate 1024 7; replicate 10 9]).
Definition demo_arg : list Z := [117; 115; 101; 114; 47; 95; 99; 97; 116].

Lemma demo_arg_ok : arg_ok demo_host demo_arg.
Proof.
  split.
  - by eexists.
  - cbn [default h_read demo_host]. repeat constructor; done.
  - apply (bool_decide_unpack _). by vm_compute.
  - by vm_compute.
  - by vm_compute.
Qed.

(** When the entries fill the last block of the root directory, the size is
    rounded up past it, to a position that has no block. *)
Lemma fix_root_hole s Q F dir : built s Q F → F !! 0%nat = Some (T_DIR, dir) → Z.of_nat (length dir) mod 1024 = 0 →
  Z.of_nat (length dir) + 1024 ≤ MAXFILE * BSIZE →
  ∃ s' r, Q !! 0%nat = Some r ∧ fix_root 1 s = Done () s' ∧
    let r' := set_i_size (λ _, Z.of_nat (length dir) + 1024) r in
    ondisk (vmk s') 1 = dinode_of r' ∧ faddr (vmk s') r' (Z.of_nat (length dir) / 1024) = 0.
Proof.
  intros [B1 B2 B3 B4 B5 B6 B7 B8] Hdir Hm Hmax. destruct (Forall2_lookup_r _ _ _ _ _ B6 Hdir) as (r & Hr & Hh).
  destruct (B3 0%nat r Hr) as [ [M1 M2 M3 M4] M5]. change (Z.of_nat 0 + 1) with 1 in M5. rewrite M5 in M4.
  pose proof (ho_size _ _ _ Hh) as Hs. cbn [snd] in Hs. change (MAXFILE * BSIZE) with 274432 in *.
  set (r' := set_i_size (λ _, Z.of_nat (length dir) + 1024) r).
  assert (Hdi : dinode_ok (dinode_of r')).
  { destruct (fo_dinode _ _ _ M1) as [D1 D2 D3 D4 D5 D6 D7]. split; try done. cbn [di_size dinode_of r' set_i_size i_size]. lia. }
  destruct (winode_done s 1 (dinode_of r') B1 ltac:(lia) Hdi) as (l & E & Hs2 & Hv). set (s2 := set_img _ s) in *.
  exists s2, r. split; [done|]. split.
  { unfold fix_root. mstep (rinode_done s 1 B1 ltac:(lia)). rewrite M4. cbn [di_size dinode_of]. rewrite (xint_small (i_size r)), Hs by lia.
    replace ((Z.of_nat (length dir) / BSIZE + 1) * BSIZE) with (Z.of_nat (length dir) + 1024) by (unfold BSIZE; mlia).
    rewrite u32_small, xint_small by lia. exact E. }
  cbv zeta. fold r'. split; [rewrite (ondisk_put s s2 1 _ B1 ltac:(lia) Hdi Hv) by lia; by rewrite decide_True|].
  change (faddr (vmk s2) r') with (faddr (vmk s2) r).
  rewrite (un_addr _ _ _ (proj2 (proj2 (put_file s s2 1 _ B1 ltac:(lia) Hv r M1)))).
  destruct M2 as [X1 _]. specialize (X1 (Z.of_nat (length dir) / 1024)). change MAXFILE with 268 in X1. unfold BSIZE in X1.
  destruct (decide (faddr (vmk s) r (Z.of_nat (length dir) / 1024) = 0)) as [|Hne]; [done|]. apply X1 in Hne; mlia.
Qed.

(** On a big-endian host the superblock does not have the magic number: it is
    stored without xint. *)
Definition be_host : HostOrder := true.
Lemma mkfs_big_endian : sb_magic (sb_of (splice zero_block 0 (@superblock_bytes be_host (@new_sb be_host)))) ≠ FSMAGIC.
Proof. by vm_compute. Qed.
