(* ===== verification/MkfsBoot.v ===== *)
(** The kernel on an image of mkfs: names are resolved and files are read as
    they were on the host. *)

From S2P Require Import Prelude Cmem KString Kstate Spinlock Sleep Sleeplock Kalloc Vm Printf Bio BioSpec Log LogSpec BioProps LogCrash LogSafe Tx Fs FsSpec FsView FsTable FsFile FsWrite FsDir FsPath Mkfs MkfsSpec.
Local Open Scope Z_scope.
#[local] Existing Instance le_host.

Lemma fbytes_sub v q off n len : 0 ≤ off → off + Z.of_nat n ≤ Z.of_nat len →
  fbytes v q off n = take n (drop (Z.to_nat off) (fbytes v q 0 len)).
Proof.
  intros Ho Hn. apply list_eq_same_length with n; [rewrite length_take, length_drop, length_fbytes; lia|apply length_fbytes|].
  intros i x y Hi. rewrite lookup_fbytes by done. rewrite lookup_take_lt, lookup_drop, lookup_fbytes by lia.
  intros [= <-] [= <-]. f_equal. lia.
Qed.

(** The first entry with a name. *)
Lemma dfind_first nm l n i j : l !! i = Some (j, nm) → j ≠ 0 → (∀ i' e, (i' < i)%nat → l !! i' = Some e → e.2 ≠ nm) →
  dfind nm l n = Some ((n + i)%nat, j).
Proof.
  revert n i. induction l as [|[x y] l IH]; intros n i Hi Hj Hno; [done|]. destruct i as [|i]; cbn [dfind].
  - injection Hi as -> ->. rewrite (proj2 (Z.eqb_neq _ _) Hj). cbn [negb andb]. by rewrite bool_decide_true, Nat.add_0_r.
  - rewrite (bool_decide_false (nm = y)) by (pose proof (Hno 0%nat (x, y) ltac:(lia) eq_refl) as H; cbn in H; congruence).
    rewrite andb_false_r, (IH (S n) i); [do 2 f_equal; lia|done|done|]. intros i' e Hi' He. by apply (Hno (S i') e); [lia|].
Qed.

(** A path of one element below the root. *)
Lemma elems_plain cur nm : slash ∉ nm → cur ++ nm ≠ [] → elems cur nm = [cur ++ nm].
Proof.
  revert cur. induction nm as [|c nm IH]; intros cur Hs Hne; cbn [elems].
  - rewrite app_nil_r in *. by rewrite decide_False.
  - rewrite (proj2 (Z.eqb_neq c slash)) by set_solver. rewrite IH; [by rewrite <- app_assoc|set_solver|by rewrite <- app_assoc].
Qed.
Lemma root_path nm : slash ∉ nm → nm ≠ [] → Z.of_nat (length nm) ≤ DIRSIZ → path_elems (slash :: nm) = [nm].
Proof.
  intros Hs Hne Hl. unfold path_elems. cbn [elems]. rewrite Z.eqb_refl, decide_True by done. cbn [app].
  rewrite elems_plain by done. cbn. by rewrite take_ge by (unfold DIRSIZ in Hl; lia).
Qed.

Section image.
Context (h : host) (args : list (list Z)) (v : view) (Q : list inode).
Hypothesis HI : fs_image h args v Q.
Hypothesis Hlen : Z.of_nat (length args) < 199.

(** The inodes of the root and of the arguments. *)
Definition in_image (i : Z) : Prop := 1 ≤ i ≤ 1 + Z.of_nat (length args).

Lemma image_inode i : in_image i → ∃ q, Q !! Z.to_nat (i - 1) = Some q ∧ q.(i_inum) = i ∧ q.(i_nlink) = 1 ∧
  disk_inode demo_sb v i = dinode_of q ∧ file_ok v demo_sb q ∧ q.(i_type) = (if decide (i = 1) then T_DIR else T_FILE).
Proof.
  intros [H1 H2]. destruct (lookup_lt_is_Some_2 Q (Z.to_nat (i - 1))) as [q Hq]; [rewrite (im_len _ _ _ _ HI); lia|].
  destruct (im_inode _ _ _ _ HI _ _ Hq) as (Hn & Hl & Hd). assert (Ei : q.(i_inum) = i) by lia.
  exists q. split; [done|]. split; [done|]. split; [done|]. split; [rewrite <- Ei; exact Hd|].
  split; [exact (fi_ok _ _ _ (im_files _ _ _ _ HI) _ _ Hq)|]. case_decide as E1.
  - destruct (im_root _ _ _ _ HI) as (r & Hr & Hdir & _). replace (Z.to_nat (i - 1)) with 0%nat in Hq by lia. simplify_eq. exact (dk_type _ _ _ Hdir).
  - destruct (lookup_lt_is_Some_2 args (Z.to_nat (i - 2))) as [arg Ha]; [lia|].
    destruct (im_data _ _ _ _ HI _ _ Ha) as (q' & Hq' & Ht & _). replace (S (Z.to_nat (i - 2))) with (Z.to_nat (i - 1)) in Hq' by lia.
    simplify_eq. done.
Qed.

Lemma root_dir : dir_ok demo_sb (inode_of demo_sb v 1) v ∧
  take (2 + length args) (entries demo_sb v 1) = dir_entries (fname <$> args) ∧
  Forall (λ e, e.1 = 0) (drop (2 + length args) (entries demo_sb v 1)).
Proof.
  destruct (im_root _ _ _ _ HI) as (r & Hr & [D1 D2 D3] & He & Hz). destruct (im_inode _ _ _ _ HI _ _ Hr) as (Hn & _ & Hd).
  change (Z.of_nat 0 + 1) with 1 in Hn. rewrite Hn in Hd. change (ondisk v 1) with (disk_inode demo_sb v 1) in Hd.
  rewrite <- (ents_inode_of demo_sb v r 1) by done. split; [|done]. pose proof (dinode_of_inode_of demo_sb v 1) as E. rewrite Hd in E.
  split.
  - apply (file_ok_dinode v demo_sb r); [done|by rewrite (fo_dev _ _ _ D1)|done|done].
  - change (di_type (dinode_of (inode_of demo_sb v 1)) = T_DIR). by rewrite E.
  - change (di_size (dinode_of (inode_of demo_sb v 1)) mod 16 = 0). by rewrite E.
Qed.

Lemma image_tree : tree demo_sb v in_image.
Proof.
  split.
  - intros i [H1 H2]. cbn. lia.
  - intros i Hi. destruct (image_inode i Hi) as (q & _ & _ & _ & -> & _ & Ht). cbn. rewrite Ht. unfold T_DIR, T_FILE. case_decide; lia.
  - intros i Hi. destruct (image_inode i Hi) as (q & _ & _ & Hl & -> & _). cbn. lia.
  - intros i Hi Hd. destruct (image_inode i Hi) as (q & _ & _ & _ & Eq & _ & Ht). unfold is_dir in Hd. rewrite Eq in Hd. cbn in Hd. rewrite Ht in Hd.
    case_decide; [|done]. subst. apply root_dir.
  - intros i e Hi Hd He He0. destruct (image_inode i Hi) as (q & _ & _ & _ & Eq & _ & Ht). unfold is_dir in Hd. rewrite Eq in Hd. cbn in Hd. rewrite Ht in Hd.
    case_decide; [|done]. subst. destruct root_dir as (_ & Htk & Hdr). rewrite <- (take_drop (2 + length args) (entries demo_sb v 1)) in He.
    apply elem_of_app in He as [He|He]; [|by apply (Forall_forall (λ e, e.1 = 0)) with (x := e) in Hdr].
    rewrite Htk in He. unfold dir_entries in He. unfold in_image. apply elem_of_cons in He as [->|He]; [cbn; lia|].
    apply elem_of_cons in He as [->|He]; [cbn; lia|]. apply list_elem_of_lookup in He as [j (nm & Hj & ->)%list_lookup_imap_Some].
    apply lookup_lt_Some in Hj. rewrite length_fmap in Hj. cbn. lia.
Qed.

(** The name of an argument leads to its inode. *)
Lemma image_walk i arg : NoDup ([46] :: [46; 46] :: (fname <$> args)) → args !! i = Some arg →
  path_walk demo_sb v false 1 [fname arg] = Some (Z.of_nat i + 2).
Proof.
  intros Hnd Ha. destruct root_dir as ([_ D2 _] & Htk & _). cbn [path_walk].
  assert (Hd : is_dir demo_sb v 1 = true).
  { unfold is_dir. change (di_type (disk_inode demo_sb v 1)) with (i_type (inode_of demo_sb v 1)). by rewrite D2. }
  rewrite Hd. cbn [negb andb].
  assert (Hl : ∀ j, (j < 2 + length args)%nat → entries demo_sb v 1 !! j = dir_entries (fname <$> args) !! j).
  { intros j Hj. rewrite <- Htk. by rewrite lookup_take_lt. }
  assert (Hn : ∀ j e, dir_entries (fname <$> args) !! j = Some e → ([46] :: [46; 46] :: (fname <$> args)) !! j = Some e.2).
  { intros [|[|j]] e; [by intros [= <-]..|]. change (dir_entries (fname <$> args) !! S (S j)) with (imap (λ i nm, (Z.of_nat i + 2, nm)) (fname <$> args) !! j).
    intros (nm & Hj & ->)%list_lookup_imap_Some. exact Hj. }
  pose proof (lookup_lt_Some _ _ _ Ha).
  assert (Hi : dir_entries (fname <$> args) !! S (S i) = Some (Z.of_nat i + 2, fname arg)).
  { change (imap (λ i nm, (Z.of_nat i + 2, nm)) (fname <$> args) !! i = Some (Z.of_nat i + 2, fname arg)).
    by rewrite list_lookup_imap, list_lookup_fmap, Ha. }
  rewrite (dfind_first (fname arg) _ 0 (S (S i)) (Z.of_nat i + 2)); [done|by rewrite Hl by lia|lia|].
  intros i' e Hi' He Hc. rewrite Hl in He by lia. apply Hn in He. apply Hn in Hi. cbn [snd] in Hi. rewrite Hc in He.
  pose proof (NoDup_lookup _ _ _ _ Hnd He Hi). lia.
Qed.
End image.

Section boot.
Context {Fl : Fuel} {La : Layout} {Dv : Device} `{Bs : BlockDevSpec}.

(** What the kernel does with argument [arg] of mkfs: it finds the inode under
    the name, and reads from it the bytes the file had on the host. *)
Definition readable (h : host) (arg : list Z) (v : view) : Prop := ∀ X p s0 t n m path,
  let b := stack_base s0 in
  rest_state demo_sb X p v (b + NAMEI_NAME) s0 t n m → 1 ≤ m → 2 ≤ nfree s0 →
  str_at s0.(pmem) path (slash :: fname arg) → path_clear (b + NAMEI_NAME) b path (slash :: fname arg) →
  ∃ ip t1 s2 t2, namei path t = Done (Some ip) t1 ∧ ilock (Some ip) t1 = Done () t2 ∧
    ∀ user dst off cnt R, sink p s2 user dst (Z.to_nat cnt) R → R [] s2.(pmem) →
      0 ≤ dst < 18446744073709551616 → 0 ≤ off < 4294967296 → 0 ≤ cnt < 4294967296 →
      let c := read_count (Z.of_nat (length (fdata h arg))) off cnt in
      ∃ m' t3, readi ip user dst off cnt t2 = Done c t3 ∧ at_view (set_pmem (λ _, m') s2) t3 v ∧
        R (take (Z.to_nat c) (drop (Z.to_nat off) (fdata h arg))) m'.

Lemma read_count_range size off cnt : 0 ≤ size → 0 ≤ off → 0 ≤ cnt → let c := read_count size off cnt in c = 0 ∨ 0 ≤ c ∧ off + c ≤ size.
Proof. intros Hs Ho Hc c. unfold c, read_count. destruct (Z.ltb_spec size off); [by left|]. destruct (_ || _); [by left|]. right. lia. Qed.

Lemma image_readable h args v Q i arg :
  fs_image h args v Q → Z.of_nat (length args) < 199 → (∀ y, v.(vl) y = free_lock) →
  NoDup ([46] :: [46; 46] :: (fname <$> args)) → args !! i = Some arg → arg_ok h arg → fname arg ≠ [] → readable h arg v.
Proof.
  intros HI Hlen Hfl Hnd Ha Hok Hne X p s0 t n m path b HR Hm HF Hstr Hcl. pose proof (image_tree h args v Q HI Hlen) as Htree.
  assert (Hs : slash ∉ fname arg).
  { intros Hin. apply (ar_slash _ _ Hok). unfold fname, skip_underscore in Hin. destruct (shortname arg) as [|c r]; [done|].
    destruct (c =? c_underscore); [by right|done]. }
  destruct (namex_done demo_sb X p (in_image args) (b + NAMEI_NAME) false s0 t v n m path (slash :: fname arg) 1 demo_sb_ok demo_layout Hfl Htree)
    as (r & s1 & t1 & E1 & HR1 & Hv1 & [Har _] & _); try done; [unfold in_image; lia|].
  rewrite root_path in Har by (done || apply Hok). rewrite (image_walk h args v Q HI i arg Hnd Ha) in Har.
  destruct Har as ((ip & -> & Hh) & Hin). destruct (visited_same p _ _ _ Hv1) as (_ & Epid & _).
  destruct (ilock_done demo_sb X p demo_sb_ok demo_layout ∅ s1 t1 v n m ip (Z.of_nat i + 2)) as (q & t2 & E2 & HX2 & _ & Hq & Hdi & Hdev & Hh2 & _);
    try done; [apply HR1|apply HR1|apply HR1|by apply (tr_type _ _ _ Htree)|]. set (s2 := upd_inode ip _ s1) in *.
  destruct (image_inode h args v Q HI _ Hin) as (qi & Hqi & Hnum & _ & Ed & Hfile & _).
  destruct (im_data _ _ _ _ HI i arg Ha) as (q' & Hq' & _ & Hsz & Hby).
  assert (q' = qi) as -> by (replace (Z.to_nat (Z.of_nat i + 2 - 1)) with (S i) in Hqi by lia; congruence).
  rewrite Ed in Hdi. assert (Hqsz : q.(i_size) = Z.of_nat (length (fdata h arg))) by (rewrite <- Hsz; by injection Hdi).
  exists ip, t1, s2, t2. split.
  { unfold namei. mstep (gets_frame X p s0 t v n m NAMEI_NAME (rs_txc _ _ _ _ _ _ _ _ _ HR)). exact E1. }
  split; [exact E2|]. intros user dst off cnt R Hsink HR0 Hdst Hoff Hcnt c.
  destruct (readi_done demo_sb X p ip q demo_sb_ok user dst off cnt R s2 s2 t2 v n m) as (g & t3 & E3 & HX3 & _ & HRes); try done.
  { apply (file_ok_dinode v demo_sb qi); [done|by rewrite (fo_dev _ _ _ Hfile)| |done]. destruct Hh2 as (_ & _ & Hin2). rewrite Hq in Hin2. congruence. }
  rewrite Hqsz in E3, HRes. fold c in E3, HRes. exists (g s2.(pmem)), t3. split; [done|]. split; [exact (tx_view _ _ _ _ _ _ (proj1 HX3))|].
  assert (fbytes v q off (Z.to_nat c) = take (Z.to_nat c) (drop (Z.to_nat off) (fdata h arg))) as <-; [|done].
  rewrite (fbytes_dinode v qi q) by done. destruct (read_count_range (Z.of_nat (length (fdata h arg))) off cnt) as [H0|Hr]; [lia|lia|lia| |].
  - fold c in H0. by rewrite H0.
  - fold c in Hr. by rewrite (fbytes_sub v qi off _ (length (fdata h arg))), Hby by lia.
Qed.

(** C22. What mkfs puts into an image the kernel finds there.  When the
    arguments are readable files with different names that fit, and the root
    directory does not fill its last block, mkfs ends with an image of 2000
    blocks: the superblock, an empty log, well-formed files that share no block,
    exactly their blocks marked in the bitmap, and a root directory with the
    names in order.  In every kernel state on that image, at rest and with room
    in the cache and the inode table, namei of "/" and a name returns the inode
    of the file, and ilock and readi deliver any range of the bytes the file had
    on the host, however its reads were cut there. *)
Theorem mkfs_boots h out args :
  h.(h_create) out = true → Forall (arg_ok h) args → Forall (Forall (λ c, 0 < c < 256)) args →
  Z.of_nat (length args) < 199 → 47 + need (image_files h args) ≤ 2000 → (2 + Z.of_nat (length args)) mod 64 ≠ 0 →
  Forall (λ arg, fname arg ≠ []) args → NoDup ([46] :: [46; 46] :: (fname <$> args)) →
  ∃ s Q, main h (out :: args) mkst0 = Done () s ∧ length s.(img) = 2000%nat ∧
    ∀ v, (∀ b, v.(vb) b = vimg s.(img) b) → fs_image h args v Q ∧
      ((∀ y, v.(vl) y = free_lock) → Forall (λ arg, readable h arg v) args).
Proof.
  intros Hc Hok Hby Hlen Hneed Hm Hne Hnd. destruct (mkfs_image h out args) as (s & Q & E & Hl & HI); try done.
  exists s, Q. split; [done|]. split; [done|]. intros v Hv. split; [by apply HI|]. intros Hfl. apply Forall_lookup_2. intros i arg Ha.
  eapply image_readable; [by apply HI|done|done|done|done|by eapply (Forall_lookup_1 _ _ _ _ Hok)|by eapply (Forall_lookup_1 _ _ _ _ Hne)].
Qed.
End boot.

(** The image as a disk of the kernel. *)
Definition img_disk (l : list (list Z)) : gmap Z (list Z) := list_to_map (zip (seqZ 0 (Z.of_nat (length l))) l).

Lemma img_disk_block l b : head l = Some zero_block → default zero_block (img_disk l !! b) = vimg l b.
Proof.
  intros H0. unfold img_disk, vimg. destruct (list_to_map (zip (seqZ 0 (Z.of_nat (length l))) l) !! b) as [d|] eqn:E.
  - apply elem_of_list_to_map_2, list_elem_of_lookup in E as [i Hi]. apply lookup_zip_with_Some in Hi as (x & y & [= <- <-] & H1 & H2).
    apply lookup_seqZ in H1 as [-> H1]. by rewrite Z.add_0_l, Nat2Z.id, H2.
  - apply not_elem_of_list_to_map_2 in E. rewrite fst_zip in E by (rewrite length_seqZ; lia). rewrite elem_of_seqZ in E.
    destruct (decide (b < 0)); [|by rewrite lookup_ge_None_2 by lia]. replace (Z.to_nat b) with 0%nat by lia.
    by destruct l as [|d l]; [|injection H0 as ->].
Qed.

(** "user/_cat" of 1034 bytes: 100 bytes from offset 1000 of "/cat". *)
Lemma mkfs_boots_witness :
  let F : Fuel := 1%nat in let L := layout64 in let V := demo_device in let D := ideal_disk in
  ∃ s ip t1 t2 t3, main demo_host [[120]; demo_arg] mkst0 = Done () s ∧
    let t := path_state (img_disk s.(img)) [47; 99; 97; 116] in
    namei 0x100 t = Done (Some ip) t1 ∧ ilock (Some ip) t1 = Done () t2 ∧
    readi ip false 0x10000 1000 100 t2 = Done 34 t3 ∧ rd t3.(pmem) 0x10000 34 = replicate 24 7 ++ replicate 10 9.
Proof.
  intros F L V D.
  destruct (@mkfs_boots F L V D ideal_disk_spec demo_host [120] [demo_arg]) as (s & Q & E & _ & H).
  - done.
  - constructor; [exact demo_arg_ok|constructor].
  - repeat constructor.
  - done.
  - by vm_compute.
  - by vm_compute.
  - repeat constructor. by vm_compute.
  - apply (bool_decide_unpack _). by vm_compute.
  - assert (Hs : match main demo_host [[120]; demo_arg] mkst0 with
      | Done _ s => bool_decide (head s.(img) = Some zero_block) && bool_decide (Forall (λ d, length d = 1024%nat) s.(img))
      | _ => false end = true) by (by vm_compute).
    rewrite E in Hs. apply andb_prop in Hs as [Hz%bool_decide_eq_true Hl%bool_decide_eq_true].
    set (d := img_disk s.(img)). pose proof (λ b, img_disk_block s.(img) b Hz) as Hd. fold d in Hd.
    destruct (path_state_rest d [47; 99; 97; 116]) as (HR & HF & Hb & Hfl).
    { intros b. rewrite Hd. unfold vimg. destruct (s.(img) !! Z.to_nat b) as [x|] eqn:Ex; [by eapply (Forall_lookup_1 _ _ _ _ Hl)|by vm_compute]. }
    set (t := path_state d [47; 99; 97; 116]) in *.
    destruct (H (view_of (fs_on d))) as [_ Hr]; [intros b; by rewrite Hb, Hd|]. specialize (Hr Hfl). apply Forall_cons in Hr as [Hr _].
    assert (Hs0 : stack_base t = 0) by (by vm_compute).
    destruct (Hr ∅ 3%nat t t 10 10 0x100 HR) as (ip & t1 & s2 & t2 & E1 & E2 & Hrd).
    + lia.
    + lia.
    + change (fname demo_arg) with [99; 97; 116]. cbn [str_at]. split_and!; by vm_compute.
    + rewrite Hs0. unfold path_clear, NAMEI_NAME. cbn. lia.
    + destruct (Hrd false 0x10000 1000 100 (λ bs m, m = wr s2.(pmem) 0x10000 bs)) as (m' & t3 & E3 & HA & ->); try lia.
      * apply kernel_sink; cbn; lia.
      * done.
      * exists s, ip, t1, t2, t3. split; [exact E|]. split; [exact E1|]. split; [exact E2|].
        assert (Hf : fdata demo_host demo_arg = replicate 1024 7 ++ replicate 10 9) by (by vm_compute).
        rewrite Hf in E3, HA. split; [exact E3|].
        assert (Hm : t3.(pmem) = wr s2.(pmem) 0x10000 (replicate 24 7 ++ replicate 10 9)) by (by destruct (av_state _ _ _ HA) as (bs & vk & dd & w & ->)).
        rewrite Hm. by rewrite rd_wr_same.
Defined.
