(* ===== verification/Console.v ===== *)
(** kernel/console.c: console input and output, with uartintr of kernel/uart.c
    and procdump of kernel/proc.c. *)

From S2P Require Import Prelude Cmem Kstate Spinlock Sleep Kalloc Vm Printf.
Local Open Scope Z_scope.

(** The bytes of a C string stored in a list. *)
Fixpoint cstr_of (l : list Z) : list Z :=
  match l with
  | [] => []
  | c :: l => if c =? 0 then [] else c :: cstr_of l
  end.

Definition INPUT_BUF_SIZE : Z := 128.
(** [C(x)] of a letter, by its code. *)
Definition Ctrl (x : Z) : Z := x - 64.
Definition ctrl_D : Z := Ctrl 68.
Definition ctrl_H : Z := Ctrl 72.
Definition ctrl_P : Z := Ctrl 80.
Definition ctrl_U : Z := Ctrl 85.

Section console.
Context {Fl : Fuel} {La : Layout} {Dv : Device}.

Definition state_name (st : procstate) : list Z :=
  match st with
  | UNUSED => bytes_of "unused"
  | USED => bytes_of "used"
  | SLEEPING => bytes_of "sleep "
  | RUNNABLE => bytes_of "runble"
  | RUNNING => bytes_of "run   "
  | ZOMBIE => bytes_of "zombie"
  end.

Definition newline : String.string := "
".

Definition procdump : K unit :=
  _ ← printf newline [];
  mfor (seq 0 NPROC) (λ p,
    q ← gets (get_proc p);
    if bool_decide (q.(p_state) = UNUSED) then mret () else
    _ ← printf "%d %s %s" [Vint q.(p_pid); Vstr (Some (state_name q.(p_state)));
                           Vstr (Some (cstr_of q.(p_name)))];
    _ ← printf newline []; mret ()).

(** 32 bytes at a time. *)
Fixpoint consolewrite_loop (k : nat) (user_src : bool) (src n i : Z) : K Z :=
  if i <? n then
    match k with
    | O => out_of_fuel
    | S k =>
        let nn := if n - i <? 32 then n - i else 32 in
        r ← either_copyin user_src (u64 (src + i)) nn;
        if r.1 =? -1 then mret i else
        uartwrite r.2 ;;
        consolewrite_loop k user_src src n (i + nn)
    end
  else mret i.

Definition consolewrite (user_src : bool) (src n : Z) : K Z :=
  consolewrite_loop (Z.to_nat (n / 32 + 1)) user_src src n 0.

Definition cons_get (i : Z) (s : kstate) : Z := s.(kcons).(c_buf) !!! Z.to_nat (i mod INPUT_BUF_SIZE).

(** Wait for input; true when the process was killed. *)
Fixpoint cons_wait (k : nat) : K bool :=
  match k with
  | O => out_of_fuel
  | S k =>
      c ← gets kcons;
      if c.(c_r) =? c.(c_w) then
        p ← myproc_ptr;
        d ← killed p;
        if negb (d =? 0) then mret true else
        sleep ChCons LkCons ;; cons_wait k
      else mret false
  end.

(** What is left of [n], or -1 when killed (after the release). *)
Fixpoint consoleread_loop (k : nat) (user_dst : bool) (dst n target : Z) : K (option Z) :=
  if 0 <? n then
    match k with
    | O => out_of_fuel
    | S k =>
        d ← cons_wait (S fuel);
        if d : bool then release LkCons ;; mret None else
        r ← gets (λ s, s.(kcons).(c_r));
        c ← gets (cons_get r);
        modify (set_kcons (set_c_r (λ r, u32 (r + 1)))) ;;
        if c =? ctrl_D then
          when (u32 n <? target) (modify (set_kcons (set_c_r (λ r, u32 (r - 1))))) ;;
          mret (Some n)
        else
          e ← either_copyout user_dst dst [u8 c];
          if e =? -1 then mret (Some n) else
          if c =? 10 then mret (Some (n - 1)) else
          consoleread_loop k user_dst (u64 (dst + 1)) (n - 1) target
    end
  else mret (Some n).

Definition consoleread (user_dst : bool) (dst n : Z) : K Z :=
  let target := u32 n in
  acquire LkCons ;;
  r ← consoleread_loop (Z.to_nat n) user_dst dst n target;
  match r with
  | None => mret (-1)
  | Some n => release LkCons ;; mret (s32 (u32 (target - n)))
  end.

(** [while(cons.e != cons.w && cons.buf[(cons.e-1) % INPUT_BUF_SIZE] != '\n')];
    every round takes one character off the edited line. *)
Fixpoint kill_line (k : nat) : K unit :=
  c ← gets kcons;
  b ← gets (cons_get (u32 (c.(c_e) - 1)));
  if negb (c.(c_e) =? c.(c_w)) && negb (b =? 10) then
    match k with
    | O => out_of_fuel
    | S k =>
        modify (set_kcons (set_c_e (λ e, u32 (e - 1)))) ;;
        consputc BACKSPACE ;;
        kill_line k
    end
  else mret ().

Definition consoleintr (c : Z) : K unit :=
  acquire LkCons ;;
  (if c =? ctrl_P then procdump
   else if c =? ctrl_U then
     q ← gets kcons;
     kill_line (Z.to_nat (u32 (q.(c_e) - q.(c_w))))
   else if (c =? ctrl_H) || (c =? 127) then
     q ← gets kcons;
     when (negb (q.(c_e) =? q.(c_w)))
       (modify (set_kcons (set_c_e (λ e, u32 (e - 1)))) ;;
        consputc BACKSPACE)
   else
     q ← gets kcons;
     when (negb (c =? 0) && (u32 (q.(c_e) - q.(c_r)) <? INPUT_BUF_SIZE))
       (let c := if c =? 13 then 10 else c in
        consputc c ;;
        e ← gets (λ s, s.(kcons).(c_e));
        modify (set_kcons (set_c_buf (λ l, <[Z.to_nat (e mod INPUT_BUF_SIZE) := u8 c]> l))) ;;
        modify (set_kcons (set_c_e (λ e, u32 (e + 1)))) ;;
        q ← gets kcons;
        when ((c =? 10) || (c =? ctrl_D) || (u32 (q.(c_e) - q.(c_r)) =? INPUT_BUF_SIZE))
          (modify (set_kcons (set_c_w (λ _, q.(c_e)))) ;;
           wakeup ChCons))) ;;
  release LkCons.

Definition consoleinit : K unit :=
  initlock LkCons ;;
  uartinit ;;
  modify (set_devsw (λ l, alter (λ d, (Some Fconsoleread, d.2)) CONSOLE l)) ;;
  modify (set_devsw (λ l, alter (λ d, (d.1, Some Fconsolewrite)) CONSOLE l)).

(** [while(1)]: the characters waiting in the UART; [k] bounds how many arrive. *)
Fixpoint uart_drain (k : nat) : K unit :=
  match k with
  | O => out_of_fuel
  | S k =>
      c ← uartgetc;
      if c =? -1 then mret () else consoleintr c ;; uart_drain k
  end.

Definition uartintr : K unit :=
  _ ← ReadReg ISR;
  acquire LkTx ;;
  r ← ReadReg LSR;
  when (negb (Z.land r LSR_TX_IDLE =? 0))
    (modify (set_tx_busy (λ _, 0)) ;;
     wakeup ChTx) ;;
  release LkTx ;;
  uart_drain (S fuel).
End console.
