(* ===== verification/ConsoleSpec.v ===== *)
(** The console's line discipline: consoleintr edits the line being typed and
    hands whole lines to readers.

    The ring of console.c holds the bytes handed over but not yet read,
    [committed], followed by the line being edited, [editing]. *)

From S2P Require Import Prelude Ring Cmem Kstate Spinlock Sleep Sleeplock Kalloc Vm Printf Console.
Local Open Scope Z_scope.

Definition committed (k : consbuf) : list Z := ring INPUT_BUF_SIZE k.(c_buf) k.(c_r) (Z.to_nat (u32 (k.(c_w) - k.(c_r)))).
Definition editing (k : consbuf) : list Z := ring INPUT_BUF_SIZE k.(c_buf) k.(c_w) (Z.to_nat (u32 (k.(c_e) - k.(c_w)))).

(** The invariant of the console: r, w and e follow each other around the ring,
    at most its size apart, and the line being edited has no newline. *)
Record cons_ok (k : consbuf) : Prop := {
  co_buf : length k.(c_buf) = 128%nat;
  co_r : 0 ≤ k.(c_r) < 4294967296;
  co_w : 0 ≤ k.(c_w) < 4294967296;
  co_e : 0 ≤ k.(c_e) < 4294967296;
  co_size : u32 (k.(c_w) - k.(c_r)) + u32 (k.(c_e) - k.(c_w)) ≤ 128;
  co_line : Forall (λ b, b ≠ 10) (editing k) }.

(** What typing the character [c] means. *)
Definition edit (c : Z) (cm ed : list Z) : list Z * list Z :=
  if c =? ctrl_U then (cm, [])
  else if (c =? ctrl_H) || (c =? 127) then (cm, take (length ed - 1) ed)
  else if negb (c =? 0) && (length cm + length ed <? 128)%nat then
    let x := if c =? 13 then 10 else c in
    let ed' := ed ++ [x] in
    if (x =? 10) || (x =? ctrl_D) || (length cm + length ed' =? 128)%nat then (cm ++ ed', [])
    else (cm, ed')
  else (cm, ed).

Lemma INPUT_div : (INPUT_BUF_SIZE | 4294967296).
Proof. by exists 33554432. Qed.

Lemma length_committed k : length (committed k) = Z.to_nat (u32 (k.(c_w) - k.(c_r))).
Proof. apply length_ring. Qed.
Lemma length_editing k : length (editing k) = Z.to_nat (u32 (k.(c_e) - k.(c_w))).
Proof. apply length_ring. Qed.

(** ** Steps of the ring *)

(** Everything typed, handed over or not. *)
Lemma typed_len k : cons_ok k → u32 (k.(c_e) - k.(c_r)) = Z.of_nat (length (committed k) + length (editing k)).
Proof.
  intros [_ H1 H2 H3 H4 _]. rewrite length_committed, length_editing. unfold u32 in *. mlia.
Qed.

Lemma editing_nil k : cons_ok k → (k.(c_e) =? k.(c_w)) = bool_decide (editing k = []).
Proof.
  intros [_ H1 H2 H3 H4 _]. apply eq_bool_prop_intro. rewrite bool_decide_spec.
  split; intros E.
  - apply Is_true_eq_true, Z.eqb_eq in E. unfold editing. rewrite E, Z.sub_diag. done.
  - apply (f_equal length) in E. rewrite length_editing in E. cbn in E.
    apply Is_true_eq_left, Z.eqb_eq. unfold u32 in *. mlia.
Qed.

(** Backspace. *)
Definition erase (k : consbuf) : consbuf := set_c_e (λ e, u32 (e - 1)) k.

Lemma erase_ok k b ed :
  cons_ok k → editing k = ed ++ [b] →
  cons_ok (erase k) ∧ editing (erase k) = ed ∧ committed (erase k) = committed k ∧
  k.(c_buf) !!! Z.to_nat (u32 (k.(c_e) - 1) mod INPUT_BUF_SIZE) = b.
Proof.
  intros [H0 H1 H2 H3 H4 H5] E. pose proof (f_equal length E) as El.
  rewrite length_editing, length_app in El. cbn [length] in El.
  assert (Hn : u32 (c_e (erase k) - c_w (erase k)) = u32 (c_e k - c_w k) - 1).
  { unfold erase. cbn. unfold u32 in *. mlia. }
  assert (Hs : editing k = editing (erase k) ++ [k.(c_buf) !!! Z.to_nat (u32 (k.(c_e) - 1) mod INPUT_BUF_SIZE)]).
  { unfold editing at 1. replace (Z.to_nat (u32 (c_e k - c_w k))) with (S (Z.to_nat (u32 (c_e k - c_w k) - 1))) by lia.
    rewrite ring_snoc. unfold editing. rewrite Hn. f_equal. f_equal. f_equal. unfold ring_slot.
    do 2 f_equal. unfold u32 in *. mlia. }
  rewrite E in Hs. apply app_inj_tail in Hs as [Hed Hb]. split; [|done]. split; try done.
  - unfold erase. cbn. apply u32_range.
  - rewrite Hn. change (u32 (c_w k - c_r k) + (u32 (c_e k - c_w k) - 1) ≤ 128). lia.
  - rewrite <- Hed. rewrite E in H5. by apply Forall_app in H5 as [H5 _].
Qed.

(** A character behind the line. *)
Definition put (c : Z) (k : consbuf) : consbuf :=
  set_c_e (λ e, u32 (e + 1)) (set_c_buf (λ l, <[Z.to_nat (k.(c_e) mod INPUT_BUF_SIZE) := c]> l) k).

Lemma put_ok c k :
  cons_ok k → (length (committed k) + length (editing k) < 128)%nat →
  editing (put c k) = editing k ++ [c] ∧ committed (put c k) = committed k ∧
  (c ≠ 10 → cons_ok (put c k)).
Proof.
  intros [H0 H1 H2 H3 H4 H5] Hl. rewrite length_committed, length_editing in Hl.
  assert (Hn : u32 (c_e (put c k) - c_w (put c k)) = u32 (c_e k - c_w k) + 1).
  { unfold put. cbn. unfold u32 in *. mlia. }
  pose proof (u32_range (c_e k - c_w k)) as R1. pose proof (u32_range (c_w k - c_r k)) as R2.
  assert (Hs : Z.to_nat (c_e k mod INPUT_BUF_SIZE) =
    ring_slot INPUT_BUF_SIZE (c_w k + Z.of_nat (Z.to_nat (u32 (c_e k - c_w k))))).
  { unfold ring_slot. do 2 f_equal. rewrite Z2Nat.id by lia. unfold u32. mlia. }
  assert (He : editing (put c k) = editing k ++ [c]).
  { unfold editing. rewrite Hn.
    replace (Z.to_nat (u32 (c_e k - c_w k) + 1)) with (S (Z.to_nat (u32 (c_e k - c_w k)))) by lia.
    unfold put. cbn [c_buf c_w c_e set_c_e set_c_buf]. rewrite Hs.
    apply ring_put; [done|apply INPUT_div|by rewrite H0|unfold INPUT_BUF_SIZE; lia]. }
  split; [done|]. split.
  - unfold committed. change (c_w (put c k)) with (c_w k). change (c_r (put c k)) with (c_r k).
    apply ring_ext. intros i Hi. unfold put. cbn [c_buf set_c_e set_c_buf]. rewrite Hs.
    rewrite (ring_slot_u32 _ (c_w k + Z.of_nat (Z.to_nat (u32 (c_e k - c_w k))))
      (c_r k + u32 (c_w k - c_r k) + u32 (c_e k - c_w k))) by (rewrite Z2Nat.id by lia; unfold u32; mlia).
    apply list_lookup_total_insert_ne, ring_slot_ne; [done|apply INPUT_div|lia|].
    unfold INPUT_BUF_SIZE. lia.
  - intros Hc. split; try done.
    + unfold put. cbn. by rewrite length_insert.
    + unfold put. cbn. apply u32_range.
    + rewrite Hn. change (u32 (c_w k - c_r k) + (u32 (c_e k - c_w k) + 1) ≤ 128). lia.
    + rewrite He. apply Forall_app. by rewrite Forall_singleton.
Qed.

(** Handing the line over. *)
Definition hand_over (k : consbuf) : consbuf := set_c_w (λ _, k.(c_e)) k.

Lemma hand_over_ok k :
  length k.(c_buf) = 128%nat → 0 ≤ k.(c_r) < 4294967296 → 0 ≤ k.(c_w) < 4294967296 →
  0 ≤ k.(c_e) < 4294967296 → u32 (k.(c_w) - k.(c_r)) + u32 (k.(c_e) - k.(c_w)) ≤ 128 →
  cons_ok (hand_over k) ∧ committed (hand_over k) = committed k ++ editing k ∧ editing (hand_over k) = [].
Proof.
  intros H0 H1 H2 H3 H4.
  pose proof (u32_range (c_e k - c_w k)) as R1. pose proof (u32_range (c_w k - c_r k)) as R2.
  assert (He : editing (hand_over k) = []).
  { unfold editing, hand_over. cbn [c_e c_w set_c_w]. by rewrite Z.sub_diag. }
  assert (Hn : u32 (c_e k - c_r k) = u32 (c_w k - c_r k) + u32 (c_e k - c_w k)) by (unfold u32 in *; mlia).
  split; [split; try done|split; [|done]].
  - change (u32 (c_e k - c_r k) + u32 (c_e k - c_e k) ≤ 128). rewrite Z.sub_diag, Hn. change (u32 0) with 0. lia.
  - by rewrite He.
  - unfold committed at 1, hand_over. cbn [c_w c_r c_buf set_c_w]. rewrite Hn, Z2Nat.inj_add by lia.
    rewrite ring_app. f_equal. unfold editing. apply ring_u32. rewrite Z2Nat.id by lia. unfold u32. mlia.
Qed.

(** ** The interrupt handler *)

Section handler.
Context {Fl : Fuel} {Dv : Device}.

(** Only the console's buffer and what went to the terminal changed. *)
Definition cst (k : consbuf) (o : list Z) (s : kstate) : kstate :=
  set_kcons (λ _, k) (set_uart_out (λ l, l ++ o) s).

Lemma cst_id s : cst s.(kcons) [] s = s.
Proof. unfold cst, set_kcons, set_uart_out. cbn. by rewrite app_nil_r. Qed.

Lemma cst_cst k k' o o' s : cst k' o' (cst k o s) = cst k' (o ++ o') s.
Proof. unfold cst, set_kcons, set_uart_out. cbn. by rewrite <- (assoc_L (++)). Qed.

Lemma consputc_cst c s :
  uart_ready → printing s → consputc c s = Done () (cst s.(kcons) (cbytes c) s).
Proof. intros Hr Hp. exact (consputc_done c s Hr Hp). Qed.

Lemma snoc_cases {A} (l : list A) n : length l = S n → ∃ l' x, l = l' ++ [x] ∧ length l' = n.
Proof.
  destruct l as [|x l _] using rev_ind; [done|]. rewrite length_app. cbn. exists l, x. split; [done|lia].
Qed.

(** Control-U. *)
Lemma kill_line_done n s :
  uart_ready → printing s → cons_ok s.(kcons) → length (editing s.(kcons)) = n →
  ∃ o k', kill_line n s = Done () (cst k' o s) ∧ cons_ok k' ∧
    committed k' = committed s.(kcons) ∧ editing k' = [].
Proof.
  intros Hr. revert s. induction n as [|n IH]; intros s Hp Hk Hn; set (k := s.(kcons)) in *.
  - apply nil_length_inv in Hn. exists [], k. split; [|done]. unfold k at 1. rewrite cst_id.
    assert (Ht : (c_e k =? c_w k) = true) by (rewrite editing_nil by done; by apply bool_decide_eq_true_2).
    cbn [kill_line]. do 2 mnext. change (kcons s) with k. by rewrite Ht.
  - destruct (snoc_cases _ _ Hn) as (ed & b & E & Hed).
    destruct (erase_ok k b ed Hk E) as (Hk1 & He1 & Hc1 & Hb).
    assert (Ht : (c_e k =? c_w k) = false).
    { rewrite editing_nil by done. apply bool_decide_eq_false_2. rewrite E. by destruct ed. }
    assert (Hb10 : b ≠ 10). { pose proof (co_line _ Hk) as H. rewrite E in H. by apply Forall_app in H as [_ H%Forall_inv]. }
    cbn [kill_line]. do 2 mnext. unfold cons_get. change (kcons s) with k. rewrite Hb, Ht, (proj2 (Z.eqb_neq _ _) Hb10).
    cbn [negb andb]. mnext. set (s1 := set_kcons _ s).
    mstep (consputc_cst BACKSPACE s1 Hr Hp). rewrite <- He1 in Hed.
    destruct (IH (cst (kcons s1) (cbytes BACKSPACE) s1) Hp Hk1 Hed) as (o & k' & E' & Hk' & Hc' & He').
    rewrite cst_cst in E'. exists (cbytes BACKSPACE ++ o), k'. split; [exact E'|].
    split; [done|]. split; [|done]. by rewrite Hc'.
Qed.

(** The state without wakeup. *)
Lemma set_procs_same (s : kstate) : set_procs (λ _, s.(procs)) s = s.
Proof. done. Qed.

Lemma take_snoc {A} (ed : list A) b : take (length (ed ++ [b]) - 1) (ed ++ [b]) = ed.
Proof. rewrite length_app. cbn. by rewrite take_app_length' by lia. Qed.

(** Erasing one character, if there is one. *)
Lemma backspace_done s :
  uart_ready → printing s → cons_ok s.(kcons) →
  ∃ o k', when (negb (c_e s.(kcons) =? c_w s.(kcons)))
      (modify (set_kcons (set_c_e (λ e, u32 (e - 1)))) ;; consputc BACKSPACE) s = Done () (cst k' o s) ∧
    cons_ok k' ∧ committed k' = committed s.(kcons) ∧
    editing k' = take (length (editing s.(kcons)) - 1) (editing s.(kcons)).
Proof.
  intros Hr Hp Hk. rewrite editing_nil by done. case_bool_decide as He.
  - exists [], s.(kcons). rewrite He. rewrite cst_id. done.
  - destruct (length (editing (kcons s))) as [|n] eqn:Hn; [by apply nil_length_inv in Hn|].
    destruct (snoc_cases _ _ Hn) as (ed & b & E & Hed).
    destruct (erase_ok _ b ed Hk E) as (Hk1 & He1 & Hc1 & _).
    exists (cbytes BACKSPACE), (erase (kcons s)). cbn [when negb]. mnext. split; [|split; [done|split; [done|]]].
    + exact (consputc_cst BACKSPACE (set_kcons (set_c_e (λ e, u32 (e - 1))) s) Hr Hp).
    + rewrite He1, E. replace (S n - 1)%nat with (length (ed ++ [b]) - 1)%nat by (rewrite <- E; lia).
      by rewrite take_snoc.
Qed.

(** The code of an ordinary character, at the console's buffer. *)
Definition accept (c : Z) (k : consbuf) : consbuf :=
  let k1 := put c k in
  if (c =? 10) || (c =? ctrl_D) || (u32 (k1.(c_e) - k1.(c_r)) =? INPUT_BUF_SIZE) then hand_over k1 else k1.

Lemma accept_ok c k :
  cons_ok k → (length (committed k) + length (editing k) < 128)%nat →
  let ed' := editing k ++ [c] in
  (u32 ((put c k).(c_e) - (put c k).(c_r)) =? INPUT_BUF_SIZE) = (length (committed k) + length ed' =? 128)%nat ∧
  cons_ok (accept c k) ∧
  if (c =? 10) || (c =? ctrl_D) || (length (committed k) + length ed' =? 128)%nat
  then accept c k = hand_over (put c k) ∧ committed (accept c k) = committed k ++ ed' ∧ editing (accept c k) = []
  else accept c k = put c k ∧ committed (accept c k) = committed k ∧ editing (accept c k) = ed'.
Proof.
  intros Hk Hl ed'. destruct (put_ok c k Hk Hl) as (P1 & P2 & P3). unfold accept.
  pose proof Hk as [H0 H1 H2 H3 H4 _].
  assert (Hsz : u32 (c_w (put c k) - c_r (put c k)) + u32 (c_e (put c k) - c_w (put c k)) =
    Z.of_nat (length (committed k) + length ed')).
  { unfold ed'. rewrite <- P1, <- P2, length_committed, length_editing.
    pose proof (u32_range (c_w (put c k) - c_r (put c k))).
    pose proof (u32_range (c_e (put c k) - c_w (put c k))). lia. }
  assert (Hle : (length (committed k) + length ed' ≤ 128)%nat) by (unfold ed'; rewrite length_app; cbn; lia).
  assert (Het : (u32 (c_e (put c k) - c_r (put c k)) =? INPUT_BUF_SIZE) =
                (length (committed k) + length ed' =? 128)%nat).
  { replace (u32 (c_e (put c k) - c_r (put c k))) with (Z.of_nat (length (committed k) + length ed')).
    - unfold INPUT_BUF_SIZE. destruct (Nat.eqb_spec (length (committed k) + length ed') 128);
        [apply Z.eqb_eq|apply Z.eqb_neq]; lia.
    - rewrite <- Hsz. unfold u32 in *. mlia. }
  split; [exact Het|]. rewrite Het. destruct (hand_over_ok (put c k)) as (O1 & O2 & O3); try done.
  { unfold put. cbn. by rewrite length_insert. } { unfold put. cbn. apply u32_range. } { rewrite Hsz. lia. }
  rewrite P1, P2 in O2. destruct (c =? 10) eqn:E10; bool_hyps; [done|]. cbn [orb].
  destruct ((c =? ctrl_D) || _); [done|]. split; [by apply P3|]. by rewrite P1, P2.
Qed.

(** The code of consoleintr for an ordinary character. *)
Lemma consoleintr_char x s :
  uart_ready → printing s → procs_free s → length s.(procs) = NPROC → 0 ≤ x < 256 →
  let k := s.(kcons) in
  let commit := (x =? 10) || (x =? ctrl_D) || (u32 ((put x k).(c_e) - (put x k).(c_r)) =? INPUT_BUF_SIZE) in
  (consputc x ;;
   e ← gets (λ s, s.(kcons).(c_e));
   modify (set_kcons (set_c_buf (λ l, <[Z.to_nat (e mod INPUT_BUF_SIZE) := u8 x]> l))) ;;
   modify (set_kcons (set_c_e (λ e, u32 (e + 1)))) ;;
   q ← gets kcons;
   when ((x =? 10) || (x =? ctrl_D) || (u32 (q.(c_e) - q.(c_r)) =? INPUT_BUF_SIZE))
     (modify (set_kcons (set_c_w (λ _, q.(c_e)))) ;; wakeup ChCons)) s =
  Done () (set_procs (λ ps, if commit then imap (woken (cur_cpu s).(c_proc) ChCons) ps else ps)
    (cst (accept x k) (cbytes x) s)).
Proof.
  intros Hr Hp Hpf Hlen Hx k commit. mstep (consputc_cst x s Hr Hp). rewrite u8_small by done. do 4 mnext.
  change (kcons (set_kcons _ _)) with (put x k). fold commit. unfold accept. fold commit.
  destruct commit; [|done]. cbn [when]. mnext.
  set (s1 := set_kcons _ _). change s1 with (cst (hand_over (put x k)) (cbytes x) s).
  apply (wakeup_done ChCons (cst (hand_over (put x k)) (cbytes x) s)); [apply Hp|done|done].
Qed.

(** C26. Typing is line editing: consoleintr keeps the console's ring invariant
    and does to the line being edited and the lines handed to readers what
    [edit] says: ^U kills the line, backspace its last character, other
    characters are appended while there is room, and a newline, ^D or a full
    buffer hands the line over and wakes the readers.  ^P, which prints the
    process list and edits nothing, is excluded. *)
Theorem consoleintr_edits c s :
  uart_ready → printing s → lock_free LkCons s → procs_free s → length s.(procs) = NPROC →
  cons_ok s.(kcons) → 0 ≤ c < 256 → c ≠ ctrl_P →
  let cm := committed s.(kcons) in
  ∃ o k' ps, consoleintr c s = Done () (set_procs (λ _, ps) (cst k' o s)) ∧ cons_ok k' ∧
    (committed k', editing k') = edit c cm (editing s.(kcons)) ∧
    ps = if decide (committed k' = cm) then s.(procs) else imap (woken (cur_cpu s).(c_proc) ChCons) s.(procs).
Proof.
  intros Hr Hp Hl Hpf Hlen Hk Hc HcP cm. pose proof Hp as (Hs & Hpk & Hpd).
  set (a := acq LkCons s). assert (Hpa : printing a) by (split; [by apply cpu_ok_acq|done]).
  assert (Hrel : ∀ ps k' o, release LkCons (set_procs (λ _, ps) (cst k' o a)) = Done () (set_procs (λ _, ps) (cst k' o s))).
  { intros ps k' o. exact (release_acq LkCons (set_procs (λ _, ps) (cst k' o s)) Hs Hl). }
  unfold consoleintr, edit. mstep (acquire_free LkCons s (proj1 Hs) Hl). fold a.
  rewrite (proj2 (Z.eqb_neq _ _) HcP).
  destruct (c =? ctrl_U) eqn:EU.
  { destruct (kill_line_done _ a Hr Hpa Hk eq_refl) as (o & k' & E & Hk' & Hcm & Hed).
    exists o, k', s.(procs). rewrite decide_True, Hcm, Hed by done. split; [|done].
    erewrite bind_done by (mnext; change (kcons a) with (kcons s); rewrite <- length_editing; exact E).
    exact (Hrel s.(procs) k' o). }
  destruct ((c =? ctrl_H) || (c =? 127)) eqn:EH.
  { destruct (backspace_done a Hr Hpa Hk) as (o & k' & E & Hk' & Hcm & Hed).
    exists o, k', s.(procs). rewrite decide_True, Hcm, Hed by done. split; [|done].
    erewrite bind_done by (mnext; exact E). exact (Hrel s.(procs) k' o). }
  set (k := s.(kcons)) in *. set (ed := editing k) in *.
  assert (Ht : (u32 (c_e k - c_r k) <? INPUT_BUF_SIZE) = (length cm + length ed <? 128)%nat).
  { rewrite (typed_len k Hk). unfold INPUT_BUF_SIZE. fold cm ed.
    destruct (Nat.ltb_spec (length cm + length ed) 128); [apply Z.ltb_lt|apply Z.ltb_ge]; lia. }
  destruct (negb (c =? 0) && (length cm + length ed <? 128)%nat) eqn:Eok.
  2: { exists [], k, s.(procs). rewrite decide_True by done. split; [|done].
       erewrite bind_done by (mnext; change (kcons a) with k; rewrite Ht, Eok; reflexivity).
       change (cst k [] s) with (cst s.(kcons) [] s). rewrite cst_id. exact (release_acq LkCons s Hs Hl). }
  apply andb_prop in Eok as [E0 El]. apply Nat.ltb_lt in El.
  set (x := if c =? 13 then 10 else c).
  assert (Hx : 0 ≤ x < 256) by (unfold x; destruct (c =? 13); lia).
  destruct (accept_ok x k Hk El) as (Het & Hok & Hacc). fold cm ed in Het, Hacc.
  assert (Hpfa : procs_free a) by (intros i Hi; apply lock_free_acq; [done|by apply Hpf]).
  pose proof (consoleintr_char x a Hr Hpa Hpfa Hlen Hx) as Ech.
  cbv zeta in Ech. change (kcons a) with k in Ech. rewrite Het in Ech.
  assert (Hme : c_proc (cur_cpu a) = c_proc (cur_cpu s)).
  { unfold a, acq, cur_cpu. cbn. by rewrite lookup_total_alter_list_eq by apply Hs. }
  rewrite Hme in Ech. set (B := (x =? 10) || (x =? ctrl_D) || _) in *.
  exists (cbytes x), (accept x k),
    (if B then imap (woken (cur_cpu s).(c_proc) ChCons) s.(procs) else s.(procs)). split; [|split; [done|]].
  - erewrite bind_done by (mnext; change (kcons a) with k; rewrite Ht, E0, (proj2 (Nat.ltb_lt _ _) El); exact Ech).
    destruct B; apply Hrel.
  - fold x. fold B. destruct B; destruct Hacc as (_ & Hcm & Hed); rewrite Hcm, Hed.
    + split; [done|]. rewrite decide_False; [done|]. intros E%(f_equal length). rewrite !length_app in E. cbn in E. lia.
    + by rewrite decide_True.
Qed.
End handler.

(** A newline typed at a console that was just initialised. *)
Lemma consoleintr_edits_witness :
  let F : Fuel := 1%nat in let D : Device := λ _ _, 32 in
  ∃ o k' ps, consoleintr 10 alone_state = Done () (set_procs (λ _, ps) (cst k' o alone_state)) ∧
    committed k' = [10] ∧ editing k' = [].
Proof.
  intros F D. destruct (@consoleintr_edits F D 10 alone_state) as (o & k' & ps & E & _ & Hed & _).
  - intros s. vm_compute. discriminate.
  - split; [exact (quiet_cpu_ok _ _ alone_quiet)|split; exact eq_refl].
  - exact (quiet_lock 3 LkCons alone_state alone_quiet I).
  - exact (quiet_procs_free 3 alone_state alone_quiet).
  - by vm_compute.
  - split; [by vm_compute|vm_compute; split; [discriminate|reflexivity]..|by vm_compute|by vm_compute].
  - lia.
  - by vm_compute.
  - exists o, k', ps. split; [exact E|].
    change (edit 10 (committed (kcons alone_state)) (editing (kcons alone_state))) with (edit 10 [] []) in Hed.
    exact (conj (f_equal fst Hed) (f_equal snd Hed)).
Defined.
