(* ===== verification/Pipe.v ===== *)
(** kernel/pipe.c: closing, writing and reading a pipe (pipealloc is with the
    file table in [File]).

    The struct pipe in the page [pi] is the entry [pi] of [pipes]. *)

From S2P Require Import Prelude Ring Cmem Kstate Spinlock Sleep Kalloc Vm.
Local Open Scope Z_scope.

Definition get_pipe (pi : Z) (s : kstate) : pipe := s.(pipes) !!! pi.
Definition upd_pipe (pi : Z) (g : pipe → pipe) (s : kstate) : kstate := set_pipes (alter g pi) s.

Section pipe.
Context {Fl : Fuel} {La : Layout}.

Definition pipeclose (pi : Z) (writable : bool) : K unit :=
  acquire (LkPipe pi) ;;
  (if writable then
     modify (upd_pipe pi (set_writeopen (λ _, 0))) ;; wakeup (ChPipeR pi)
   else
     modify (upd_pipe pi (set_readopen (λ _, 0))) ;; wakeup (ChPipeW pi)) ;;
  q ← gets (get_pipe pi);
  if (q.(readopen) =? 0) && (q.(writeopen) =? 0) then
    release (LkPipe pi) ;;
    modify (set_pipes (delete pi)) ;;
    kfree pi
  else release (LkPipe pi).

(** [pi->data[pi->nwrite++ % PIPESIZE] = ch] *)
Definition pipe_put (ch : Z) (q : pipe) : pipe :=
  set_nwrite (λ w, u32 (w + 1))
    (set_pi_data (λ d, <[Z.to_nat (q.(nwrite) mod PIPESIZE) := ch]> d) q).

(** [ch = pi->data[pi->nread++ % PIPESIZE]] *)
Definition pipe_peek (q : pipe) : Z := q.(pi_data) !!! Z.to_nat (q.(nread) mod PIPESIZE).
Definition pipe_take (q : pipe) : pipe := set_nread (λ r, u32 (r + 1)) q.

(** The loop of pipewrite: [None] when the reader is gone or the process was
    killed.  [k] bounds the rounds that store a byte or sleep. *)
Fixpoint pipewrite_loop (k : nat) (pi : Z) (pr : nat) (addr n i : Z) : K (option Z) :=
  if i <? n then
    match k with
    | O => out_of_fuel
    | S k =>
        q ← gets (get_pipe pi);
        d ← (if q.(readopen) =? 0 then mret 1 else killed pr);
        if negb (d =? 0) then release (LkPipe pi) ;; mret None else
        q ← gets (get_pipe pi);
        if q.(nwrite) =? u32 (q.(nread) + PIPESIZE) then
          wakeup (ChPipeR pi) ;;
          sleep (ChPipeW pi) (LkPipe pi) ;;
          pipewrite_loop k pi pr addr n i
        else
          pt ← gets (λ s, (get_proc pr s).(p_pagetable));
          r ← copyin pt (u64 (addr + i)) 1;
          if r.1 =? -1 then mret (Some i) else
          modify (upd_pipe pi (pipe_put (r.2 !!! 0%nat))) ;;
          pipewrite_loop k pi pr addr n (i + 1)
    end
  else mret (Some i).

Definition pipewrite (pi addr n : Z) : K Z :=
  pr ← myproc_ptr;
  acquire (LkPipe pi) ;;
  r ← pipewrite_loop (fuel + Z.to_nat n) pi pr addr n 0;
  match r with
  | None => mret (-1)
  | Some i =>
      wakeup (ChPipeR pi) ;;
      release (LkPipe pi) ;;
      mret i
  end.

(** Wait while the pipe is empty and open; true when killed. *)
Fixpoint pipe_wait (k : nat) (pi : Z) (pr : nat) : K bool :=
  match k with
  | O => out_of_fuel
  | S k =>
      q ← gets (get_pipe pi);
      if (q.(nread) =? q.(nwrite)) && negb (q.(writeopen) =? 0) then
        d ← killed pr;
        if negb (d =? 0) then release (LkPipe pi) ;; mret true else
        sleep (ChPipeR pi) (LkPipe pi) ;;
        pipe_wait k pi pr
      else mret false
  end.

(** The copy loop of piperead, [k] bytes still wanted. *)
Fixpoint piperead_loop (k : nat) (pi : Z) (pr : nat) (addr i : Z) : K Z :=
  match k with
  | O => mret i
  | S k =>
      q ← gets (get_pipe pi);
      if q.(nread) =? q.(nwrite) then mret i else
      modify (upd_pipe pi pipe_take) ;;
      pt ← gets (λ s, (get_proc pr s).(p_pagetable));
      r ← copyout pt (u64 (addr + i)) [pipe_peek q];
      if r =? -1 then mret i else
      piperead_loop k pi pr addr (i + 1)
  end.

Definition piperead (pi addr n : Z) : K Z :=
  pr ← myproc_ptr;
  acquire (LkPipe pi) ;;
  d ← pipe_wait (S fuel) pi pr;
  if d : bool then mret (-1) else
  i ← piperead_loop (Z.to_nat n) pi pr addr 0;
  wakeup (ChPipeW pi) ;;
  release (LkPipe pi) ;;
  mret i.
End pipe.

(** ** The pipe as a queue *)

(** Number of bytes in the pipe, and those bytes, oldest first. *)
Definition pipe_len (q : pipe) : Z := u32 (q.(nwrite) - q.(nread)).
Definition pipe_bytes (q : pipe) : list Z := ring PIPESIZE q.(pi_data) q.(nread) (Z.to_nat (pipe_len q)).

(** The type invariant of a struct pipe. *)
Record pipe_ok (q : pipe) : Prop := {
  po_data : length q.(pi_data) = 512%nat;
  po_bytes : Forall (λ b, 0 ≤ b < 256) q.(pi_data);
  po_read : 0 ≤ q.(nread) < 4294967296;
  po_write : 0 ≤ q.(nwrite) < 4294967296;
  po_len : pipe_len q ≤ PIPESIZE }.

(** Tests of the code on the counters, which wrap around. *)
Lemma pipe_empty_iff q : pipe_ok q → (q.(nread) =? q.(nwrite)) = true ↔ pipe_bytes q = [].
Proof.
  intros [H1 _ H2 H3 H4]. unfold pipe_bytes, pipe_len in *. rewrite Z.eqb_eq. split.
  - intros ->. by rewrite Z.sub_diag.
  - intros E%(f_equal length). rewrite length_ring in E. cbn in E. unfold u32 in *. mlia.
Qed.

Lemma pipe_full_iff q : pipe_ok q →
  (q.(nwrite) =? u32 (q.(nread) + PIPESIZE)) = true ↔ length (pipe_bytes q) = 512%nat.
Proof.
  intros [H1 _ H2 H3 H4]. unfold pipe_bytes, pipe_len in *. rewrite Z.eqb_eq, length_ring.
  unfold u32, PIPESIZE in *. split; mlia.
Qed.
