(* ===== verification/PipeSpec.v ===== *)
(** What a pipe promises: pipewrite and piperead are the ends of a first-in
    first-out queue of at most PIPESIZE bytes between user memories. *)

From S2P Require Import Prelude Ring Cmem KString Kstate Spinlock Sleep Kalloc Vm VmSpec UserMem Pipe.
Local Open Scope Z_scope.

(** ** The ring buffer as a queue *)

Lemma PIPESIZE_div : (PIPESIZE | 4294967296).
Proof. by exists 8388608. Qed.

Lemma length_pipe_bytes q : length (pipe_bytes q) = Z.to_nat (pipe_len q).
Proof. apply length_ring. Qed.

Lemma pipe_put_bytes c q :
  pipe_ok q → 0 ≤ c < 256 → (length (pipe_bytes q) < 512)%nat →
  pipe_ok (pipe_put c q) ∧ pipe_bytes (pipe_put c q) = pipe_bytes q ++ [c].
Proof.
  intros [H1 Hby H2 H3 H4] Hc Hl. rewrite length_pipe_bytes in Hl.
  assert (H0 : 0 ≤ pipe_len q) by (unfold pipe_len; auto with width; apply u32_range).
  assert (Hn : pipe_len (pipe_put c q) = pipe_len q + 1).
  { unfold pipe_len, pipe_put in *. cbn. unfold u32, PIPESIZE in *. mlia. }
  assert (Hs : Z.to_nat (nwrite q mod PIPESIZE) =
    ring_slot PIPESIZE (nread q + Z.of_nat (Z.to_nat (pipe_len q)))).
  { unfold ring_slot. do 2 f_equal. rewrite Z2Nat.id by done. unfold pipe_len, u32. mlia. }
  split; [split|].
  - unfold pipe_put. cbn. by rewrite length_insert.
  - unfold pipe_put. cbn. by apply Forall_insert.
  - done.
  - unfold pipe_put. cbn. apply u32_range.
  - rewrite Hn. unfold PIPESIZE. lia.
  - unfold pipe_bytes. rewrite Hn. replace (Z.to_nat (pipe_len q + 1)) with (S (Z.to_nat (pipe_len q))) by lia.
    unfold pipe_put. cbn [pi_data nread set_nwrite set_pi_data]. rewrite Hs.
    apply ring_put; [done|apply PIPESIZE_div|by rewrite H1|unfold PIPESIZE; lia].
Qed.

Lemma pipe_take_bytes c l q :
  pipe_ok q → pipe_bytes q = c :: l →
  pipe_ok (pipe_take q) ∧ pipe_peek q = c ∧ pipe_bytes (pipe_take q) = l.
Proof.
  intros [H1 Hby H2 H3 H4] E. pose proof (f_equal length E) as El.
  rewrite length_pipe_bytes in El. cbn [length] in El.
  assert (Hn : pipe_len (pipe_take q) = pipe_len q - 1).
  { unfold pipe_len, pipe_take in *. cbn. unfold u32, PIPESIZE in *. mlia. }
  assert (Hk : Z.to_nat (pipe_len q) = S (Z.to_nat (pipe_len q - 1))) by lia.
  unfold pipe_bytes in E. rewrite Hk, ring_cons in E. injection E as Ec El'.
  split; [split; try done|split].
  - unfold pipe_take. cbn. apply u32_range.
  - lia.
  - rewrite <- Ec. unfold pipe_peek, ring_slot. by rewrite u32_small.
  - unfold pipe_bytes. rewrite Hn, <- El'. apply ring_u32. unfold pipe_take. cbn. unfold u32. mlia.
Qed.

(** ** The ends of the pipe *)

Section pipe_spec.
Context {Fl : Fuel} {La : Layout}.

(** Process [p] runs, with page table [root], while nobody holds the pipe's
    lock or a process's. *)
Record pipe_user (pi : Z) (p : nat) (root : Z) (s : kstate) (T : typing) (l : list Z) : Prop := {
  pu_cpu : cpu_ok s;
  pu_procs : procs_free s;
  pu_nproc : length s.(procs) = NPROC;
  pu_me : (cur_cpu s).(c_proc) = Some p;
  pu_p : (p < NPROC)%nat;
  pu_lock : lock_free (LkPipe pi) s;
  pu_pipe : is_Some (s.(pipes) !! pi);
  pu_root : (get_proc p s).(p_pagetable) = root;
  pu_alive : (get_proc p s).(p_killed) = 0;
  pu_vm : vm_inv root s T l;
  pu_us : user_space s.(pmem) root T l }.

Lemma get_upd_pipe pi g s : is_Some (s.(pipes) !! pi) → get_pipe pi (upd_pipe pi g s) = g (get_pipe pi s).
Proof.
  intros [q Hq]. unfold get_pipe, upd_pipe. cbn.
  by rewrite !lookup_total_alt, lookup_alter_eq, Hq.
Qed.

Lemma upd_pipe_upd pi g g' s : upd_pipe pi g (upd_pipe pi g' s) = upd_pipe pi (g ∘ g') s.
Proof. unfold upd_pipe, set_pipes. cbn. by rewrite alter_alter_eq. Qed.

Lemma upd_pipe_const pi g s :
  is_Some (s.(pipes) !! pi) → upd_pipe pi g s = upd_pipe pi (λ _, g (get_pipe pi s)) s.
Proof.
  intros [q Hq]. unfold upd_pipe, set_pipes. f_equal. apply map_eq. intros j.
  destruct (decide (j = pi)) as [->|]; [|by rewrite !lookup_alter_ne].
  rewrite !lookup_alter_eq, Hq. cbn. unfold get_pipe. by rewrite lookup_total_alt, Hq.
Qed.

(** The lock held, or the pipe updated, is invisible to the page tables. *)
Lemma pipe_user_upd pi p root s T l g :
  pipe_user pi p root s T l → pipe_user pi p root (upd_pipe pi g s) T l.
Proof.
  intros [H1 H2 H3 H4 H5 H6 H7 H8 H9 H10 H11]. split; try done.
  - unfold upd_pipe. cbn. destruct H7 as [q Hq]. by rewrite lookup_alter_eq, Hq.
  - by apply vm_inv_same with s.
Qed.

(** The lock held. *)
Lemma pu_killed pi p root s T l :
  pipe_user pi p root s T l →
  killed p (acq (LkPipe pi) s) = Done 0 (acq (LkPipe pi) s).
Proof.
  intros H. rewrite killed_done.
  - f_equal. apply H.
  - apply cpu_ok_acq, H.
  - apply lock_free_acq; [done|]. apply (pu_procs _ _ _ _ _ _ H), H.
Qed.

Lemma ubytes_S m root va n : ubytes m root va (S n) = ub m root va :: ubytes m root (va + 1) n.
Proof.
  unfold ubytes. cbn. rewrite Z.add_0_r. f_equal. rewrite <- fmap_S_seq, <- list_fmap_compose.
  apply list_fmap_ext. intros i x _. cbn. f_equal. lia.
Qed.

Lemma ubytes_range m root va n : Forall (λ b, 0 ≤ b < 256) (ubytes m root va n).
Proof. apply Forall_fmap, Forall_true. intros i. apply ld8_range. Qed.

Definition put_all (bs : list Z) (q : pipe) : pipe := foldl (λ q c, pipe_put c q) q bs.

Lemma put_all_bytes bs q :
  pipe_ok q → Forall (λ b, 0 ≤ b < 256) bs → (length (pipe_bytes q) + length bs ≤ 512)%nat →
  pipe_ok (put_all bs q) ∧ pipe_bytes (put_all bs q) = pipe_bytes q ++ bs.
Proof.
  revert q. induction bs as [|c bs IH]; intros q Hq Hby Hl; cbn.
  - by rewrite app_nil_r.
  - cbn in Hl. apply Forall_cons in Hby as [Hc Hby].
    destruct (pipe_put_bytes c q Hq Hc) as [Hok E]; [lia|].
    destruct (IH (pipe_put c q) Hok Hby) as [Hok' E'].
    + rewrite E, length_app. cbn. lia.
    + split; [done|]. unfold put_all in E'. by rewrite E', E, <- (assoc_L (++)).
Qed.

(** Only the data and the count of bytes written change. *)
Lemma put_all_rest bs q : u32 q.(nwrite) = q.(nwrite) →
  put_all bs q = mk_pipe (put_all bs q).(pi_data) q.(nread) (u32 (q.(nwrite) + Z.of_nat (length bs))) q.(readopen) q.(writeopen).
Proof.
  revert q. induction bs as [|c bs IH]; intros q Hw.
  - cbn. rewrite Z.add_0_r, Hw. by destruct q.
  - change (put_all (c :: bs) q) with (put_all bs (pipe_put c q)). rewrite (IH (pipe_put c q)) at 1.
    + unfold pipe_put. cbn [set_nwrite set_pi_data nwrite nread readopen writeopen length]. f_equal.
      rewrite Nat2Z.inj_succ. unfold u32. rewrite Zplus_mod_idemp_l. f_equal. lia.
    + unfold pipe_put. cbn. unfold u32. by rewrite Z.mod_mod.
Qed.

Lemma pipewrite_loop_done j k pi p root addr n i s T l :
  pipe_user pi p root s T l → pipe_ok (get_pipe pi s) → (get_pipe pi s).(readopen) ≠ 0 →
  (length (pipe_bytes (get_pipe pi s)) + j ≤ 512)%nat → i + Z.of_nat j = n → (j ≤ k)%nat →
  0 ≤ addr + i → addr + n ≤ MAXVA →
  (∀ va, addr + i ≤ va < addr + n → user_page s.(pmem) root va) →
  pipewrite_loop k pi p addr n i (acq (LkPipe pi) s) =
    Done (Some n) (acq (LkPipe pi) (upd_pipe pi (put_all (ubytes s.(pmem) root (addr + i) j)) s)).
Proof.
  revert k i s. induction j as [|j IH]; intros k i s HU Hq Hro Hl Hn Hk Ha Hmax Hup.
  - assert (Hge : (i <? n) = false) by lia.
    destruct k; cbn [pipewrite_loop]; rewrite Hge; cbn; do 2 f_equal; [lia| |lia|];
      f_equal; unfold upd_pipe, set_pipes; cbn; by rewrite alter_id by done.
  - destruct k as [|k]; [lia|]. cbn [pipewrite_loop]. rewrite (proj2 (Z.ltb_lt i n)) by lia.
    set (q := get_pipe pi s) in *. mnext. change (get_pipe pi (acq (LkPipe pi) s)) with q.
    rewrite (proj2 (Z.eqb_neq _ _) Hro). mstep (pu_killed _ _ _ _ _ _ HU).
    cbn [Z.eqb negb]. mnext. change (get_pipe pi (acq (LkPipe pi) s)) with q.
    destruct (nwrite q =? u32 (nread q + PIPESIZE)) eqn:Ef.
    { apply (pipe_full_iff _ Hq) in Ef. lia. }
    mnext. change (get_proc p (acq (LkPipe pi) s)) with (get_proc p s). rewrite (pu_root _ _ _ _ _ _ HU).
    rewrite u64_small by (pg; lia).
    assert (Ec : copyin root (addr + i) 1 (acq (LkPipe pi) s) =
      Done (0, [ub s.(pmem) root (addr + i)]) (acq (LkPipe pi) s)).
    { unfold copyin. rewrite (copyin_loop_reads _ root (addr + i) 1 _ T l); try done; try lia.
      - change (Z.to_nat 1) with 1%nat. by rewrite ubytes_S.
      - apply vm_inv_same with s; [done..|]. apply HU.
      - apply HU.
      - intros va Hva. apply Hup. lia.
      - unfold copy_rounds. pg. }
    mstep Ec. cbn [Z.eqb fst]. mnext.
    set (c := ub s.(pmem) root (addr + i)). cbn [snd]. change ([c] !!! 0%nat) with c.
    destruct (pipe_put_bytes c q Hq (ld8_range _ _)) as [Hok Eb]; [lia|].
    change (upd_pipe pi (pipe_put c) (acq (LkPipe pi) s)) with (acq (LkPipe pi) (upd_pipe pi (pipe_put c) s)).
    rewrite (IH k (i + 1) (upd_pipe pi (pipe_put c) s)); rewrite ?get_upd_pipe by apply HU;
      [|by apply pipe_user_upd|done|done| |lia|lia|lia|lia|].
    + rewrite upd_pipe_upd, ubytes_S, Z.add_assoc. done.
    + fold q. rewrite Eb, length_app. cbn. lia.
    + intros va Hva. apply Hup. lia.
Qed.

(** The state after the wakeup at the end of either call. *)
Definition woke (ch : chan) (p : nat) : kstate → kstate := set_procs (imap (woken (Some p) ch)).

Lemma pipe_finish pi p root s T l ch :
  pipe_user pi p root s T l →
  wakeup ch (acq (LkPipe pi) s) = Done () (acq (LkPipe pi) (woke ch p s)) ∧
  release (LkPipe pi) (acq (LkPipe pi) (woke ch p s)) = Done () (woke ch p s).
Proof.
  intros H. assert (Hme : c_proc (cur_cpu (acq (LkPipe pi) s)) = Some p).
  { unfold acq, cur_cpu. cbn. rewrite lookup_total_alter_list_eq by apply H. apply H. }
  split.
  - rewrite wakeup_done.
    + by rewrite Hme.
    + apply cpu_ok_acq, H.
    + intros i Hi. apply lock_free_acq; [done|]. by apply (pu_procs _ _ _ _ _ _ H).
    + apply H.
  - apply release_acq; apply H.
Qed.

(** C24. pipewrite appends: with a reader, room in the pipe and the buffer
    mapped, it returns [n], the bytes of the user buffer are behind those
    already in the pipe in their order, and readers sleeping on the pipe are
    made runnable.  Of the pipe only the data and the count of bytes written
    change, which goes up by [n], and nothing changes outside it. *)
Theorem pipewrite_appends pi p root addr n s T l :
  pipe_user pi p root s T l → pipe_ok (get_pipe pi s) → (get_pipe pi s).(readopen) ≠ 0 →
  0 ≤ n → Z.of_nat (length (pipe_bytes (get_pipe pi s))) + n ≤ PIPESIZE →
  0 ≤ addr → addr + n ≤ MAXVA →
  (∀ va, addr ≤ va < addr + n → user_page s.(pmem) root va) →
  ∃ q', pipewrite pi addr n s = Done n (woke (ChPipeR pi) p (upd_pipe pi (λ _, q') s)) ∧
    pipe_ok q' ∧
    pipe_bytes q' = pipe_bytes (get_pipe pi s) ++ ubytes s.(pmem) root addr (Z.to_nat n) ∧
    let q := get_pipe pi s in
    q' = mk_pipe q'.(pi_data) q.(nread) (u32 (q.(nwrite) + n)) q.(readopen) q.(writeopen).
Proof.
  intros HU Hq Hro Hn Hroom Ha Hmax Hup. set (bs := ubytes s.(pmem) root addr (Z.to_nat n)).
  assert (Hbs : length bs = Z.to_nat n) by (unfold bs, ubytes; by rewrite length_fmap, length_seq).
  exists (put_all bs (get_pipe pi s)). split.
  - unfold pipewrite. mstep (myproc_ptr_done s p (pu_cpu _ _ _ _ _ _ HU) (pu_me _ _ _ _ _ _ HU)).
    mstep (acquire_free _ _ (proj1 (pu_cpu _ _ _ _ _ _ HU)) (pu_lock _ _ _ _ _ _ HU)).
    pose proof (pipewrite_loop_done (Z.to_nat n) (fuel + Z.to_nat n) pi p root addr n 0 s T l HU Hq Hro)
      as E. rewrite Z.add_0_r in E. fold bs in E.
    rewrite (bind_done _ _ _ _ _ (E ltac:(unfold PIPESIZE in Hroom; lia) ltac:(lia) ltac:(lia) Ha Hmax Hup)).
    destruct (pipe_finish _ _ _ _ _ _ (ChPipeR pi) (pipe_user_upd _ _ _ _ _ _ (put_all bs) HU)) as [Ew Er].
    mstep Ew. mstep Er. by rewrite (upd_pipe_const _ _ _ (pu_pipe _ _ _ _ _ _ HU)).
  - destruct (put_all_bytes bs (get_pipe pi s)) as [H1 H2]; [done|apply ubytes_range|unfold PIPESIZE in Hroom; lia|].
    split; [done|]. split; [done|]. cbv zeta.
    rewrite put_all_rest at 1 by (apply u32_small, Hq). by rewrite Hbs, Z2Nat.id.
Qed.

(** ** Reading *)

(** User memory [m'] is [m] with the bytes [bs] at [a]. *)
Definition delivered (root a : Z) (bs : list Z) (m m' : mem) : Prop :=
  (∀ va, leaf m' root va = leaf m root va) ∧
  ∀ va, 0 ≤ va < MAXVA → user_page m root va →
    ub m' root va = if decide (a ≤ va < a + Z.of_nat (length bs))
                    then bs !!! Z.to_nat (va - a) else ub m root va.

Lemma delivered_nil root a m : delivered root a [] m m.
Proof. split; [done|]. intros va _ _. cbn. by rewrite decide_False by lia. Qed.

Lemma delivered_cons root a b bs m m1 m2 :
  delivered root a [b] m m1 → delivered root (a + 1) bs m1 m2 → delivered root a (b :: bs) m m2.
Proof.
  intros [L1 B1] [L2 B2]. split; [intros va; by rewrite L2|]. intros va Hva Hu.
  rewrite B2, B1; [|done|done|done|unfold user_page in *; by rewrite L1]. cbn [length].
  repeat case_decide; try lia; try done.
  - replace (Z.to_nat (va - a)) with (S (Z.to_nat (va - (a + 1)))) by lia. done.
  - replace va with a by lia. by rewrite Z.sub_diag.
Qed.

Lemma copyout_byte root a b s T l :
  vm_inv root s T l → user_space s.(pmem) root T l → 0 ≤ a → a + 1 ≤ MAXVA → 0 ≤ b < 256 →
  writable s.(pmem) root a →
  ∃ m', copyout root a [b] s = Done 0 (set_pmem (λ _, m') s) ∧
    vm_inv root (set_pmem (λ _, m') s) T l ∧ user_space m' root T l ∧
    delivered root a [b] s.(pmem) m'.
Proof.
  intros HI HU Ha Hmax Hb Hw. unfold copyout. change (Z.of_nat (length [b])) with 1.
  destruct (copyout_loop_writes (copy_rounds 1) root a [b] s T l) as (m' & E & HI' & HU' & Hl & Hb');
    try done.
  { intros va Hva. cbn in Hva. by replace va with a by lia. }
  { unfold copy_rounds. cbn [length]. pg. }
  exists m'. split_and!; try done. split; [done|]. intros va Hva Hu. rewrite Hb' by done.
  cbn [length]. case_decide; [|done]. replace va with a by lia. rewrite Z.sub_diag. cbn.
  by apply u8_small.
Qed.

(** The state once [q'] is in the pipe and [m'] in memory. *)
Definition read_state (pi : Z) (q' : pipe) (m' : mem) (s : kstate) : kstate :=
  set_pmem (λ _, m') (upd_pipe pi (λ _, q') s).

Lemma pipe_user_read pi p root s T l q' m' :
  pipe_user pi p root s T l → vm_inv root (set_pmem (λ _, m') s) T l → user_space m' root T l →
  pipe_user pi p root (read_state pi q' m' s) T l.
Proof.
  intros H HI HU. pose proof (pipe_user_upd _ _ _ _ _ _ (λ _, q') H) as [H1 H2 H3 H4 H5 H6 H7 H8 H9 _ _].
  split; try done. by apply vm_inv_same with (set_pmem (λ _, m') s).
Qed.

Lemma read_state_twice pi q q' m m' s :
  read_state pi q' m' (read_state pi q m s) = read_state pi q' m' s.
Proof. unfold read_state, upd_pipe, set_pipes, set_pmem. cbn. by rewrite alter_alter_eq. Qed.

Lemma read_state_id pi s : is_Some (s.(pipes) !! pi) → read_state pi (get_pipe pi s) s.(pmem) s = s.
Proof.
  intros [q Hq]. unfold read_state, upd_pipe, set_pipes, set_pmem. cbn.
  rewrite alter_id; [done|]. intros q' Hq'. unfold get_pipe. by rewrite lookup_total_alt, Hq'.
Qed.

Lemma get_read_state pi q m s : is_Some (s.(pipes) !! pi) → get_pipe pi (read_state pi q m s) = q.
Proof. intros H. exact (get_upd_pipe pi (λ _, q) s H). Qed.

Lemma pipe_peek_range q : pipe_ok q → 0 ≤ pipe_peek q < 256.
Proof.
  intros [H1 Hb H2 _ _]. unfold pipe_peek.
  destruct (lookup_lt_is_Some_2 (pi_data q) (Z.to_nat (nread q mod PIPESIZE))) as [b Eb].
  - rewrite H1. unfold PIPESIZE. mlia.
  - rewrite (list_lookup_total_correct _ _ _ Eb). rewrite Forall_lookup in Hb. eauto.
Qed.

(** Only the count of bytes read has changed. *)
Definition taken_from (q q' : pipe) : Prop := q' = mk_pipe q.(pi_data) q'.(nread) q.(nwrite) q.(readopen) q.(writeopen).

Lemma taken_from_refl q : taken_from q q.
Proof. by destruct q. Qed.
Lemma taken_from_take q q' : taken_from (pipe_take q) q' → taken_from q q'.
Proof. done. Qed.

Lemma piperead_loop_done j pi p root addr i s T l :
  pipe_user pi p root s T l → pipe_ok (get_pipe pi s) →
  let bs := take j (pipe_bytes (get_pipe pi s)) in
  0 ≤ addr + i → addr + i + Z.of_nat (length bs) ≤ MAXVA →
  (∀ va, addr + i ≤ va < addr + i + Z.of_nat (length bs) → writable s.(pmem) root va) →
  ∃ q' m', let s' := read_state pi q' m' s in
    piperead_loop j pi p addr i (acq (LkPipe pi) s) =
      Done (i + Z.of_nat (length bs)) (acq (LkPipe pi) s') ∧
    pipe_user pi p root s' T l ∧ pipe_ok q' ∧
    (pipe_bytes q' = drop j (pipe_bytes (get_pipe pi s)) ∧ taken_from (get_pipe pi s) q') ∧
    delivered root (addr + i) bs s.(pmem) m'.
Proof.
  revert i s. induction j as [|j IH]; intros i s HU Hq bs Ha Hmax Hw.
  { exists (get_pipe pi s), s.(pmem). unfold bs. cbv zeta. rewrite read_state_id by apply HU.
    cbn [take length Z.of_nat piperead_loop]. rewrite Z.add_0_r.
    split_and!; try done; (apply taken_from_refl || apply delivered_nil). }
  cbn [piperead_loop]. mnext. change (get_pipe pi (acq (LkPipe pi) s)) with (get_pipe pi s).
  set (q := get_pipe pi s) in *. destruct (nread q =? nwrite q) eqn:Ee.
  { apply (pipe_empty_iff _ Hq) in Ee. unfold bs. rewrite Ee, take_nil, drop_nil.
    exists q, s.(pmem). cbv zeta. unfold q. rewrite read_state_id by apply HU.
    cbn [length Z.of_nat]. rewrite Z.add_0_r. split_and!; try done; (apply taken_from_refl || apply delivered_nil). }
  destruct (pipe_bytes q) as [|c rest] eqn:Eb.
  { apply (pipe_empty_iff _ Hq) in Eb. congruence. }
  destruct (pipe_take_bytes c rest q Hq Eb) as (Hok & Hpk & Ebt).
  unfold bs in *. cbn [take drop length] in *.
  mnext. mnext. change (get_proc p (upd_pipe pi pipe_take (acq (LkPipe pi) s))) with (get_proc p s).
  rewrite (pu_root _ _ _ _ _ _ HU), u64_small by (pg; lia).
  change (upd_pipe pi pipe_take (acq (LkPipe pi) s)) with (acq (LkPipe pi) (upd_pipe pi pipe_take s)).
  set (s1 := upd_pipe pi pipe_take s).
  destruct (copyout_byte root (addr + i) (pipe_peek q) (acq (LkPipe pi) s1) T l)
    as (m1 & Ec & HI1 & HU1 & HD1).
  { apply vm_inv_same with s; [done..|]. apply HU. }
  { apply HU. }
  { lia. } { lia. } { by apply pipe_peek_range. } { apply Hw. lia. }
  mstep Ec. cbn [Z.eqb]. unfold s1 in *. clear s1.
  rewrite (upd_pipe_const _ _ _ (pu_pipe _ _ _ _ _ _ HU)). fold q.
  set (s2 := read_state pi (pipe_take q) m1 s).
  assert (HU2 : pipe_user pi p root s2 T l).
  { apply pipe_user_read; [done| |done]. by eapply vm_inv_same; [..|exact HI1]. }
  assert (Eq2 : get_pipe pi s2 = pipe_take q) by (apply get_read_state, HU).
  destruct (IH (i + 1) s2 HU2) as (q' & m' & El & HU' & Hq' & [Eb' Htk] & HD');
    rewrite ?Eq2, ?Ebt in *; [done|lia|lia| |].
  { intros va Hva. unfold writable, user_page. destruct HD1 as [Hlf _]. rewrite Hlf. apply Hw. lia. }
  exists q', m'. cbv zeta in *. unfold s2 in HU', El. rewrite read_state_twice in HU', El.
  split_and!; try done.
  - replace (i + Z.of_nat (S (length (take j rest)))) with (i + 1 + Z.of_nat (length (take j rest))) by lia.
    exact El.
  - rewrite <- Hpk. eapply delivered_cons; [exact HD1|].
    by replace (addr + i + 1) with (addr + (i + 1)) by lia.
Qed.

(** C25. piperead takes from the front: it returns the number of bytes that
    were in the pipe, at most [n]; those oldest bytes, in order, are in the
    user buffer, the rest stays in the pipe, other user memory is unchanged,
    and writers sleeping on the pipe are made runnable.  Of the pipe only the
    count of bytes read changes.  At the end of file, with the pipe empty and
    no writer, it returns 0. *)
Theorem piperead_takes pi p root addr n s T l :
  pipe_user pi p root s T l → pipe_ok (get_pipe pi s) →
  let q := get_pipe pi s in
  let bs := take (Z.to_nat n) (pipe_bytes q) in
  pipe_bytes q ≠ [] ∨ q.(writeopen) = 0 →
  0 ≤ addr → addr + Z.of_nat (length bs) ≤ MAXVA →
  (∀ va, addr ≤ va < addr + Z.of_nat (length bs) → writable s.(pmem) root va) →
  ∃ q' m', piperead pi addr n s =
      Done (Z.of_nat (length bs)) (woke (ChPipeW pi) p (read_state pi q' m' s)) ∧
    pipe_ok q' ∧ pipe_bytes q = bs ++ pipe_bytes q' ∧ taken_from q q' ∧
    delivered root addr bs s.(pmem) m'.
Proof.
  intros HU Hq q bs Hne Ha Hmax Hw.
  destruct (piperead_loop_done (Z.to_nat n) pi p root addr 0 s T l HU Hq) as
    (q' & m' & El & HU' & Hq' & [Eb Htk] & HD); rewrite ?Z.add_0_r; [done..|].
  exists q', m'. rewrite Z.add_0_r in HD. split_and!; [|done| |done|done].
  - unfold piperead. mstep (myproc_ptr_done s p (pu_cpu _ _ _ _ _ _ HU) (pu_me _ _ _ _ _ _ HU)).
    mstep (acquire_free _ _ (proj1 (pu_cpu _ _ _ _ _ _ HU)) (pu_lock _ _ _ _ _ _ HU)).
    assert (Ew : pipe_wait (S fuel) pi p (acq (LkPipe pi) s) = Done false (acq (LkPipe pi) s)).
    { cbn [pipe_wait]. mnext. change (get_pipe pi (acq (LkPipe pi) s)) with q.
      destruct (nread q =? nwrite q) eqn:Ee; [|done]. destruct Hne as [Hne|Hne].
      - by apply (pipe_empty_iff _ Hq) in Ee.
      - by rewrite Hne. }
    mstep Ew. rewrite (bind_done _ _ _ _ _ El).
    destruct (pipe_finish _ _ _ _ _ _ (ChPipeW pi) HU') as [Ek Er]. mstep Ek. mstep Er. done.
  - rewrite Eb. unfold bs. by rewrite take_drop.
Qed.
End pipe_spec.

(** Process 3 with the demonstration page table and one pipe. *)
Definition pipe_demo (q : pipe) (m : mem) (f : Z) : kstate :=
  set_pmem (λ _, m) (set_freelist (λ _, f) (set_pipes (λ _, {[0x80050000 := q]})
    (set_locks <[LkPipe 0x80050000 := mk_spinlock 0 None]>
      (upd_proc 3 (set_p_pagetable (λ _, demo_root)) sleepy_state)))).

Lemma pipe_demo_user q s T l : let L := layout64 in
  vm_inv demo_root s T l → user_space s.(pmem) demo_root T l →
  pipe_user 0x80050000 3 demo_root (pipe_demo q s.(pmem) s.(freelist)) T l.
Proof.
  intros L HI HU. split; try done.
  - exact sleepy_cpu_ok.
  - intros i Hi. unfold lock_free, pipe_demo. cbn. rewrite lookup_insert_ne by done.
    exact (ready_procs_free i Hi).
  - unfold NPROC. lia.
  - by apply vm_inv_same with s.
Qed.

(** An empty pipe whose counters are about to wrap around, and one holding
    three bytes across the wrap. *)
Definition wrap_pipe : pipe := mk_pipe (replicate 512 0) 4294967294 4294967294 1 1.
Definition wrap_full : pipe := put_all [10; 20; 30] wrap_pipe.

Lemma wrap_pipe_ok : pipe_ok wrap_pipe.
Proof. split; [done| |done..|by vm_compute]. apply Forall_replicate. lia. Qed.

Lemma pipe_demo_get q m f : get_pipe 0x80050000 (pipe_demo q m f) = q.
Proof. unfold get_pipe, pipe_demo. cbn. by rewrite lookup_total_singleton. Qed.

Lemma pipewrite_appends_witness : let F : Fuel := 1%nat in let L := layout64 in
  ∃ s q', pipewrite 0x80050000 0x1ffd 3 s =
      Done 3 (woke (ChPipeR 0x80050000) 3 (upd_pipe 0x80050000 (λ _, q') s)) ∧
    pipe_bytes q' = ubytes s.(pmem) demo_root 0x1ffd 3.
Proof.
  destruct demo_space as (s & T & l & HI & HU & Hw).
  exists (pipe_demo wrap_pipe s.(pmem) s.(freelist)).
  destruct (@pipewrite_appends 1%nat layout64 0x80050000 3 demo_root 0x1ffd 3 _ T l
    (pipe_demo_user wrap_pipe s T l HI HU)) as (q' & H1 & _ & H2 & _); rewrite ?pipe_demo_get in *.
  - exact wrap_pipe_ok.
  - done.
  - lia.
  - by vm_compute.
  - lia.
  - pg.
  - intros va Hva. apply Hw. lia.
  - exists q'. exact (conj H1 H2).
Defined.

Lemma piperead_takes_witness : let F : Fuel := 1%nat in let L := layout64 in
  ∃ s q' m', piperead 0x80050000 0x1ffd 2 s =
      Done 2 (woke (ChPipeW 0x80050000) 3 (read_state 0x80050000 q' m' s)) ∧
    pipe_bytes (get_pipe 0x80050000 s) = [10; 20] ++ pipe_bytes q' ∧
    delivered demo_root 0x1ffd [10; 20] s.(pmem) m'.
Proof.
  destruct demo_space as (s & T & l & HI & HU & Hw).
  exists (pipe_demo wrap_full s.(pmem) s.(freelist)).
  assert (Eb : pipe_bytes wrap_full = [10; 20; 30]) by (by vm_compute).
  destruct (@piperead_takes 1%nat layout64 0x80050000 3 demo_root 0x1ffd 2 _ T l
    (pipe_demo_user wrap_full s T l HI HU)) as (q' & m' & H1 & _ & H2 & _ & H3);
    rewrite ?pipe_demo_get, ?Eb in *.
  - apply put_all_bytes; [exact wrap_pipe_ok|repeat constructor; lia|vm_compute; lia].
  - by left.
  - lia.
  - by vm_compute.
  - intros va Hva. apply Hw. change (Z.of_nat (length (take (Z.to_nat 2) [10; 20; 30]))) with 2 in Hva. lia.
  - exists q', m'. exact (conj H1 (conj H2 H3)).
Defined.
