(* ===== verification/File.v ===== *)
(** kernel/file.c: the table of open files, and pipealloc of kernel/pipe.c. *)

From S2P Require Import Prelude Cmem KString Kstate Spinlock Sleep Sleeplock Kalloc Vm Printf Bio Log Fs Console Pipe.
Local Open Scope Z_scope.

(** The device number macros. *)
Definition major (dev : Z) : Z := Z.land (Z.shiftr dev 16) 0xFFFF.
Definition minor (dev : Z) : Z := Z.land dev 0xFFFF.
Definition mkdev (m n : Z) : Z := u32 (Z.lor (Z.shiftl m 16) n).

Section file.
Context {Fl : Fuel} {La : Layout} {Dv : Device} {Bd : BlockDev}.

Definition fileinit : K unit := initlock LkFtable.

Definition filealloc : K (option nat) :=
  acquire LkFtable ;;
  r ← mfor_ret (seq 0 NFILE) (λ f,
    q ← gets (get_file f);
    if q.(f_ref) =? 0 then
      modify (upd_file f (set_f_ref (λ _, 1))) ;;
      release LkFtable ;;
      mret (Some f)
    else mret None);
  match r with
  | Some f => mret (Some f)
  | None => release LkFtable ;; mret None
  end.

Definition filedup (f : nat) : K nat :=
  acquire LkFtable ;;
  q ← gets (get_file f);
  if q.(f_ref) <? 1 then panic "filedup" else
  modify (upd_file f (set_f_ref (λ r, r + 1))) ;;
  release LkFtable ;;
  mret f.

Definition fileclose (f : nat) : K unit :=
  acquire LkFtable ;;
  q ← gets (get_file f);
  if q.(f_ref) <? 1 then panic "fileclose" else
  modify (upd_file f (set_f_ref (λ r, r - 1))) ;;
  q ← gets (get_file f);
  if 0 <? q.(f_ref) then release LkFtable
  else
    ff ← gets (get_file f);
    modify (upd_file f (set_f_ref (λ _, 0))) ;;
    modify (upd_file f (set_f_type (λ _, FD_NONE))) ;;
    release LkFtable ;;
    match ff.(f_type) with
    | FD_PIPE => pipeclose ff.(f_pipe) (negb (ff.(f_writable) =? 0))
    | FD_INODE | FD_DEVICE =>
        begin_op ;;
        ip ← deref ff.(f_ip);
        iput ip ;;
        end_op
    | FD_NONE => mret ()
    end.

Definition filestat (f : nat) (addr : Z) : K Z :=
  p ← myproc_ptr;
  q ← gets (get_file f);
  match q.(f_type) with
  | FD_INODE | FD_DEVICE =>
      st ← frame FILE_STAT;
      ilock q.(f_ip) ;;
      ip ← deref q.(f_ip);
      stati ip st ;;
      iunlock q.(f_ip) ;;
      pt ← gets (λ s, (get_proc p s).(p_pagetable));
      bs ← gets (λ s, rd s.(pmem) st (Z.to_nat SIZEOF_STAT));
      r ← copyout pt addr bs;
      mret (if r <? 0 then -1 else 0)
  | _ => mret (-1)
  end.

(** The functions a devsw entry can hold. *)
Definition dev_call (d : devfn) (addr n : Z) : K Z :=
  match d with
  | Fconsoleread => consoleread true addr n
  | Fconsolewrite => consolewrite true addr n
  end.

Definition fileread (f : nat) (addr n : Z) : K Z :=
  q ← gets (get_file f);
  if q.(f_readable) =? 0 then mret (-1) else
  match q.(f_type) with
  | FD_PIPE => piperead q.(f_pipe) addr n
  | FD_DEVICE =>
      if (q.(f_major) <? 0) || (NDEV <=? q.(f_major)) then mret (-1) else
      d ← gets (λ s, (s.(devsw) !!! Z.to_nat q.(f_major)).1);
      match d with
      | None => mret (-1)
      | Some d => dev_call d addr n
      end
  | FD_INODE =>
      ilock q.(f_ip) ;;
      ip ← deref q.(f_ip);
      q ← gets (get_file f);
      r ← readi ip true addr q.(f_off) (u32 n);
      when (0 <? r) (modify (upd_file f (set_f_off (λ o, u32 (o + r))))) ;;
      iunlock q.(f_ip) ;;
      mret r
  | FD_NONE => panic "fileread"
  end.

(** The most a transaction can hold, with the inode, the indirect block, the
    bitmap blocks and two blocks of slop. *)
Definition write_max : Z := (MAXOPBLOCKS - 1 - 1 - 2) / 2 * BSIZE.

Fixpoint filewrite_loop (k : nat) (f : nat) (addr n i : Z) : K Z :=
  if i <? n then
    match k with
    | O => out_of_fuel
    | S k =>
        let n1 := if write_max <? n - i then write_max else n - i in
        begin_op ;;
        q ← gets (get_file f);
        ilock q.(f_ip) ;;
        ip ← deref q.(f_ip);
        q ← gets (get_file f);
        r ← writei ip true (u64 (addr + i)) q.(f_off) (u32 n1);
        when (0 <? r) (modify (upd_file f (set_f_off (λ o, u32 (o + r))))) ;;
        iunlock q.(f_ip) ;;
        end_op ;;
        if negb (r =? n1) then mret i else filewrite_loop k f addr n (i + r)
    end
  else mret i.

Definition filewrite (f : nat) (addr n : Z) : K Z :=
  q ← gets (get_file f);
  if q.(f_writable) =? 0 then mret (-1) else
  match q.(f_type) with
  | FD_PIPE => pipewrite q.(f_pipe) addr n
  | FD_DEVICE =>
      if (q.(f_major) <? 0) || (NDEV <=? q.(f_major)) then mret (-1) else
      d ← gets (λ s, (s.(devsw) !!! Z.to_nat q.(f_major)).2);
      match d with
      | None => mret (-1)
      | Some d => dev_call d addr n
      end
  | FD_INODE =>
      i ← filewrite_loop (Z.to_nat (n / write_max + 1)) f addr n 0;
      mret (if i =? n then n else -1)
  | FD_NONE => panic "filewrite"
  end.

(** The struct pipe in a fresh page: its data starts after the spinlock. *)
Definition new_pipe (pi : Z) (s : kstate) : pipe := mk_pipe (rd s.(pmem) (pi + 24) 512) 0 0 1 1.

Definition pipe_bad (f0 f1 : option nat) : K (Z * option nat * option nat) :=
  match f0 with Some f => fileclose f | None => mret () end ;;
  match f1 with Some f => fileclose f | None => mret () end ;;
  mret (-1, f0, f1).

Definition pipe_end (f : nat) (pi readable writable : Z) : K unit :=
  modify (upd_file f (set_f_type (λ _, FD_PIPE))) ;;
  modify (upd_file f (set_f_readable (λ _, readable))) ;;
  modify (upd_file f (set_f_writable (λ _, writable))) ;;
  modify (upd_file f (set_f_pipe (λ _, pi))).

(** The status and the two files. *)
Definition pipealloc : K (Z * option nat * option nat) :=
  f0 ← filealloc;
  match f0 with
  | None => pipe_bad None None
  | Some a =>
      f1 ← filealloc;
      match f1 with
      | None => pipe_bad f0 None
      | Some b =>
          pi ← kalloc;
          if pi =? 0 then pipe_bad f0 f1 else
          modify (λ s, set_pipes <[pi := new_pipe pi s]> s) ;;
          initlock (LkPipe pi) ;;
          pipe_end a pi 1 0 ;;
          pipe_end b pi 0 1 ;;
          mret (0, f0, f1)
      end
  end.
End file.
