(* ===== verification/Proc.v ===== *)
(** kernel/proc.c: the life of a process, from allocproc to kwait.

    The trapframe is a page of [pmem] whose 64-bit fields lie at the offsets
    [tf_...] of kernel/proc.h. *)

From S2P Require Import Prelude Cmem KString Kstate Spinlock Sleep Sleeplock Kalloc Vm Printf Bio Log Fs Console Pipe File.
Local Open Scope Z_scope.

(** Addresses the linker gives to code that is jumped to. *)
Class Symbols := {
  forkret_addr : Z;
  kernelvec : Z;
  usertrap_addr : Z;
  uservec_off : Z;
  userret_off : Z }.

Definition tf_kernel_satp : Z := 0.
Definition tf_kernel_sp : Z := 8.
Definition tf_kernel_trap : Z := 16.
Definition tf_epc : Z := 24.
Definition tf_kernel_hartid : Z := 32.
Definition tf_sp : Z := 48.
Definition tf_a0 : Z := 112.
Definition tf_a1 : Z := 120.
Definition tf_a7 : Z := 168.
Definition SIZEOF_TF : nat := 288.

(** safestrcpy on the 16 bytes of a process name. *)
Definition name_copy (dst src : list Z) : list Z :=
  let c := take 15 (cstr_of src) in
  splice dst 0 (c ++ (if (length c <? 15)%nat then [0; 0] else [0])).

Section proc.
Context {Fl : Fuel} {La : Layout} {Dv : Device} {Bd : BlockDev} {Sy : Symbols}.

Definition get_tf (p : nat) (off : Z) : K Z := gets (λ s, ld64 s.(pmem) ((get_proc p s).(p_trapframe) + off)).
Definition set_tf (p : nat) (off v : Z) : K unit :=
  modify (λ s, set_pmem (λ m, st64 m ((get_proc p s).(p_trapframe) + off) (u64 v)) s).

Definition procinit : K unit :=
  initlock LkPid ;;
  initlock LkWait ;;
  mfor (seq 0 NPROC) (λ p,
    initlock (LkProc p) ;;
    modify (upd_proc p (set_p_state (λ _, UNUSED))) ;;
    modify (upd_proc p (set_p_kstack (λ _, KSTACK (Z.of_nat p))))).

Definition allocpid : K Z :=
  acquire LkPid ;;
  pid ← gets nextpid;
  modify (set_nextpid (λ n, s32 (n + 1))) ;;
  release LkPid ;;
  mret pid.

Definition proc_freepagetable (pagetable sz : Z) : K unit :=
  uvmunmap pagetable TRAMPOLINE 1 false ;;
  uvmunmap pagetable TRAPFRAME 1 false ;;
  uvmfree pagetable sz.

Definition freeproc (p : nat) : K unit :=
  q ← gets (get_proc p);
  when (negb (q.(p_trapframe) =? 0)) (kfree q.(p_trapframe)) ;;
  modify (upd_proc p (set_p_trapframe (λ _, 0))) ;;
  q ← gets (get_proc p);
  when (negb (q.(p_pagetable) =? 0)) (proc_freepagetable q.(p_pagetable) q.(p_sz)) ;;
  modify (upd_proc p (set_p_pagetable (λ _, 0))) ;;
  modify (upd_proc p (set_p_sz (λ _, 0))) ;;
  modify (upd_proc p (set_p_pid (λ _, 0))) ;;
  modify (upd_proc p (set_p_parent (λ _, None))) ;;
  modify (upd_proc p (set_p_name (λ l, <[0%nat := 0]> l))) ;;
  modify (upd_proc p (set_p_chan (λ _, None))) ;;
  modify (upd_proc p (set_p_killed (λ _, 0))) ;;
  modify (upd_proc p (set_p_xstate (λ _, 0))) ;;
  modify (upd_proc p (set_p_state (λ _, UNUSED))).

Definition proc_pagetable (p : nat) : K Z :=
  pagetable ← uvmcreate;
  if pagetable =? 0 then mret 0 else
  r ← mappages pagetable TRAMPOLINE PGSIZE trampoline (Z.lor PTE_R PTE_X);
  if r <? 0 then uvmfree pagetable 0 ;; mret 0 else
  q ← gets (get_proc p);
  r ← mappages pagetable TRAPFRAME PGSIZE q.(p_trapframe) (Z.lor PTE_R PTE_W);
  if r <? 0 then
    uvmunmap pagetable TRAMPOLINE 1 false ;;
    uvmfree pagetable 0 ;;
    mret 0
  else mret pagetable.

(** The process, with its lock held. *)
Definition allocproc_found (p : nat) : K (option nat) :=
  pid ← allocpid;
  modify (upd_proc p (set_p_pid (λ _, pid))) ;;
  modify (upd_proc p (set_p_state (λ _, USED))) ;;
  tf ← kalloc;
  modify (upd_proc p (set_p_trapframe (λ _, tf))) ;;
  if tf =? 0 then freeproc p ;; release (LkProc p) ;; mret None else
  pt ← proc_pagetable p;
  modify (upd_proc p (set_p_pagetable (λ _, pt))) ;;
  if pt =? 0 then freeproc p ;; release (LkProc p) ;; mret None else
  modify (upd_proc p (λ q,
    set_p_context (λ _, mk_context forkret_addr (u64 (q.(p_kstack) + PGSIZE)) (replicate 12 0)) q)) ;;
  mret (Some p).

Definition allocproc : K (option nat) :=
  r ← mfor_ret (seq 0 NPROC) (λ p,
    acquire (LkProc p) ;;
    q ← gets (get_proc p);
    if bool_decide (q.(p_state) = UNUSED) then mret (Some p)
    else release (LkProc p) ;; mret None);
  match r with
  | Some p => allocproc_found p
  | None => mret None
  end.

Definition userinit : K unit :=
  p ← allocproc;
  modify (set_initproc (λ _, p)) ;;
  p ← deref p;
  path ← literal 0 "/";
  ip ← namei path;
  modify (upd_proc p (set_p_cwd (λ _, ip))) ;;
  modify (upd_proc p (set_p_state (λ _, RUNNABLE))) ;;
  release (LkProc p).

Definition growproc (n : Z) : K Z :=
  p ← myproc_ptr;
  q ← gets (get_proc p);
  let sz := q.(p_sz) in
  if 0 <? n then
    sz ← uvmalloc q.(p_pagetable) sz (u64 (sz + n)) PTE_W;
    if sz =? 0 then mret (-1) else
    modify (upd_proc p (set_p_sz (λ _, sz))) ;; mret 0
  else
    sz ← (if n <? 0 then uvmdealloc q.(p_pagetable) sz (u64 (sz + n)) else mret sz);
    modify (upd_proc p (set_p_sz (λ _, sz))) ;; mret 0.

Definition kfork : K Z :=
  p ← myproc_ptr;
  np ← allocproc;
  match np with
  | None => mret (-1)
  | Some np =>
      q ← gets (get_proc p);
      nq ← gets (get_proc np);
      r ← uvmcopy q.(p_pagetable) nq.(p_pagetable) q.(p_sz);
      if r <? 0 then freeproc np ;; release (LkProc np) ;; mret (-1) else
      modify (upd_proc np (set_p_sz (λ _, q.(p_sz)))) ;;
      modify (set_pmem (λ m, wr m nq.(p_trapframe) (rd m q.(p_trapframe) SIZEOF_TF))) ;;
      set_tf np tf_a0 0 ;;
      mfor (seq 0 NOFILE) (λ i,
        f ← gets (λ s, (get_proc p s).(p_ofile) !!! i);
        match f with
        | Some f => f ← filedup f; modify (upd_proc np (set_p_ofile (λ l, <[i := Some f]> l)))
        | None => mret ()
        end) ;;
      cwd ← deref q.(p_cwd);
      cwd ← idup cwd;
      modify (upd_proc np (set_p_cwd (λ _, Some cwd))) ;;
      modify (upd_proc np (set_p_name (λ l, name_copy l q.(p_name)))) ;;
      nq ← gets (get_proc np);
      let pid := nq.(p_pid) in
      release (LkProc np) ;;
      acquire LkWait ;;
      modify (upd_proc np (set_p_parent (λ _, Some p))) ;;
      release LkWait ;;
      acquire (LkProc np) ;;
      modify (upd_proc np (set_p_state (λ _, RUNNABLE))) ;;
      release (LkProc np) ;;
      mret pid
  end.

(** wakeup of a process's channel; nobody sleeps on a null one. *)
Definition wakeup_proc (p : option nat) : K unit :=
  match p with Some p => wakeup (ChProc p) | None => mret () end.

Definition reparent (p : nat) : K unit :=
  mfor (seq 0 NPROC) (λ pp,
    q ← gets (get_proc pp);
    when (bool_decide (q.(p_parent) = Some p))
      (i ← gets initproc;
       modify (upd_proc pp (set_p_parent (λ _, i))) ;;
       wakeup_proc i)).

Definition kexit (status : Z) : K unit :=
  p ← myproc_ptr;
  i ← gets initproc;
  if bool_decide (i = Some p) then panic "init exiting" else
  mfor (seq 0 NOFILE) (λ fd,
    f ← gets (λ s, (get_proc p s).(p_ofile) !!! fd);
    match f with
    | Some f => fileclose f ;; modify (upd_proc p (set_p_ofile (λ l, <[fd := None]> l)))
    | None => mret ()
    end) ;;
  begin_op ;;
  q ← gets (get_proc p);
  cwd ← deref q.(p_cwd);
  iput cwd ;;
  end_op ;;
  modify (upd_proc p (set_p_cwd (λ _, None))) ;;
  acquire LkWait ;;
  reparent p ;;
  q ← gets (get_proc p);
  wakeup_proc q.(p_parent) ;;
  acquire (LkProc p) ;;
  modify (upd_proc p (set_p_xstate (λ _, status))) ;;
  modify (upd_proc p (set_p_state (λ _, ZOMBIE))) ;;
  release LkWait ;;
  sched ;;
  panic "zombie exit".

(** The scan of kwait: the value to return, if any, and [havekids]. *)
Fixpoint kwait_scan (l : list nat) (p : nat) (addr : Z) (havekids : bool) : K (option Z * bool) :=
  match l with
  | [] => mret (None, havekids)
  | pp :: l =>
      q ← gets (get_proc pp);
      if bool_decide (q.(p_parent) = Some p) then
        acquire (LkProc pp) ;;
        q ← gets (get_proc pp);
        if bool_decide (q.(p_state) = ZOMBIE) then
          let pid := q.(p_pid) in
          pt ← gets (λ s, (get_proc p s).(p_pagetable));
          r ← (if addr =? 0 then mret 0 else copyout pt addr (to_le 4 q.(p_xstate)));
          if r <? 0 then
            release (LkProc pp) ;;
            release LkWait ;;
            mret (Some (-1), true)
          else
            freeproc pp ;;
            release (LkProc pp) ;;
            release LkWait ;;
            mret (Some pid, true)
        else release (LkProc pp) ;; kwait_scan l p addr true
      else kwait_scan l p addr havekids
  end.

Fixpoint kwait_loop (k : nat) (p : nat) (addr : Z) : K Z :=
  match k with
  | O => out_of_fuel
  | S k =>
      r ← kwait_scan (seq 0 NPROC) p addr false;
      match r with
      | (Some pid, _) => mret pid
      | (None, havekids) =>
          d ← (if havekids : bool then killed p else mret 1);
          if negb (d =? 0) then release LkWait ;; mret (-1) else
          sleep (ChProc p) LkWait ;;
          kwait_loop k p addr
      end
  end.

Definition kwait (addr : Z) : K Z :=
  p ← myproc_ptr;
  acquire LkWait ;;
  kwait_loop (S fuel) p addr.
End proc.
