(* ===== verification/Exec.v ===== *)
(** kernel/exec.c: replacing the user image of a process. *)

From S2P Require Import Prelude Cmem KString Kstate Spinlock Sleep Sleeplock Kalloc Vm Printf Bio Log Fs Console Pipe File Proc.
Local Open Scope Z_scope.

Definition ELF_MAGIC : Z := 0x464C457F.
Definition ELF_PROG_LOAD : Z := 1.

(** The fields of struct elfhdr that are used, and its size. *)
Definition SIZEOF_ELF : Z := 64.
Record elfhdr : Type := mk_elf { e_magic : Z; e_entry : Z; e_phoff : Z; e_phnum : Z }.
Definition elfhdr_of (d : list Z) : elfhdr :=
  mk_elf (get_le d 0 4) (get_le d 24 8) (get_le d 32 8) (get_le d 56 2).

(** Likewise struct proghdr. *)
Definition SIZEOF_PH : Z := 56.
Record proghdr : Type := mk_ph { ph_type : Z; ph_flags : Z; ph_off : Z; ph_vaddr : Z; ph_filesz : Z; ph_memsz : Z }.
Definition proghdr_of (d : list Z) : proghdr :=
  mk_ph (get_le d 0 4) (get_le d 4 4) (get_le d 8 8) (get_le d 16 8) (get_le d 32 8) (get_le d 40 8).

Definition flags2perm (flags : Z) : Z :=
  let perm := if Z.land flags 0x1 =? 0 then 0 else PTE_X in
  if Z.land flags 0x2 =? 0 then perm else Z.lor perm PTE_W.

(** The last element of the path. *)
Fixpoint last_elem (k : nat) (m : mem) (s last : Z) : Z :=
  match k with
  | O => last
  | S k =>
      if ld8 m s =? 0 then last
      else last_elem k m (s + 1) (if ld8 m s =? slash then s + 1 else last)
  end.

Section exec.
Context {Fl : Fuel} {La : Layout} {Dv : Device} {Bd : BlockDev} {Sy : Symbols}.

Fixpoint loadseg_loop (k : nat) (pagetable va : Z) (ip : nat) (offset sz i : Z) : K Z :=
  if i <? sz then
    match k with
    | O => out_of_fuel
    | S k =>
        pa ← walkaddr pagetable (u64 (va + i));
        if pa =? 0 then panic "loadseg: address should exist" else
        let n := if sz - i <? PGSIZE then sz - i else PGSIZE in
        r ← readi ip false pa (u32 (offset + i)) n;
        if negb (u32 r =? n) then mret (-1)
        else loadseg_loop k pagetable va ip offset sz (u32 (i + PGSIZE))
    end
  else mret 0.

Definition loadseg (pagetable va : Z) (ip : nat) (offset sz : Z) : K Z :=
  loadseg_loop (Z.to_nat (sz / PGSIZE + 1)) pagetable va ip offset sz 0.

(** The loop over the program headers: false to [goto bad], and [sz]. *)
Fixpoint load_segments (k : nat) (pagetable : Z) (ip : nat) (off sz : Z) : K (bool * Z) :=
  match k with
  | O => mret (true, sz)
  | S k =>
      ph ← frame EXEC_PH;
      r ← readi ip false ph (u32 off) SIZEOF_PH;
      if negb (r =? SIZEOF_PH) then mret (false, sz) else
      d ← gets (λ s, rd s.(pmem) ph (Z.to_nat SIZEOF_PH));
      let h := proghdr_of d in
      if negb (h.(ph_type) =? ELF_PROG_LOAD) then load_segments k pagetable ip (s32 (off + SIZEOF_PH)) sz else
      if h.(ph_memsz) <? h.(ph_filesz) then mret (false, sz) else
      if u64 (h.(ph_vaddr) + h.(ph_memsz)) <? h.(ph_vaddr) then mret (false, sz) else
      if negb (h.(ph_vaddr) mod PGSIZE =? 0) then mret (false, sz) else
      sz1 ← uvmalloc pagetable sz (u64 (h.(ph_vaddr) + h.(ph_memsz))) (flags2perm (s32 h.(ph_flags)));
      if sz1 =? 0 then mret (false, sz) else
      r ← loadseg pagetable h.(ph_vaddr) ip (u32 h.(ph_off)) (u32 h.(ph_filesz));
      if r <? 0 then mret (false, sz1)
      else load_segments k pagetable ip (s32 (off + SIZEOF_PH)) sz1
  end.

(** The argument strings: the stack pointer and [ustack], or [None] to [goto bad]. *)
Fixpoint push_args (k : nat) (pagetable : Z) (argv : list Z) (argc : nat) (sp stackbase : Z)
    (ustack : list Z) : K (option (Z * list Z)) :=
  let a := default 0 (argv !! argc) in
  if a =? 0 then mret (Some (sp, ustack)) else
  match k with
  | O => mret None
  | S k =>
      m ← gets pmem;
      let len := strlen m a in
      let sp := u64 (sp - (len + 1)) in
      let sp := sp - sp mod 16 in
      if sp <? stackbase then mret None else
      r ← copyout pagetable sp (rd m a (Z.to_nat (len + 1)));
      if r <? 0 then mret None else
      push_args k pagetable argv (S argc) sp stackbase (ustack ++ [sp])
  end.

Definition exec_bad (pagetable sz : Z) (ip : option nat) : K Z :=
  when (negb (pagetable =? 0)) (proc_freepagetable pagetable sz) ;;
  match ip with
  | Some ip => iunlockput ip ;; end_op
  | None => mret ()
  end ;;
  mret (-1).

(** From the user stack on: the file is closed and the image is complete. *)
Definition exec_commit (path : Z) (argv : list Z) (entry pagetable sz : Z) : K Z :=
  p ← myproc_ptr;
  q ← gets (get_proc p);
  let oldsz := q.(p_sz) in
  let sz := PGROUNDUP sz in
  sz1 ← uvmalloc pagetable sz (u64 (sz + (USERSTACK + 1) * PGSIZE)) PTE_W;
  if sz1 =? 0 then exec_bad pagetable sz None else
  let sz := sz1 in
  uvmclear pagetable (u64 (sz - (USERSTACK + 1) * PGSIZE)) ;;
  let stackbase := u64 (sz - USERSTACK * PGSIZE) in
  r ← push_args MAXARG pagetable argv 0 sz stackbase [];
  match r with
  | None => exec_bad pagetable sz None
  | Some (sp, ustack) =>
      let argc := Z.of_nat (length ustack) in
      let sp := u64 (sp - (argc + 1) * 8) in
      let sp := sp - sp mod 16 in
      if sp <? stackbase then exec_bad pagetable sz None else
      r ← copyout pagetable sp (concat (to_le 8 <$> (ustack ++ [0])));
      if r <? 0 then exec_bad pagetable sz None else
      set_tf p tf_a1 sp ;;
      m ← gets pmem;
      let last := last_elem (S (size m)) m path path in
      modify (upd_proc p (set_p_name (λ l, name_copy l (rd m last 16)))) ;;
      q ← gets (get_proc p);
      let oldpagetable := q.(p_pagetable) in
      modify (upd_proc p (set_p_pagetable (λ _, pagetable))) ;;
      modify (upd_proc p (set_p_sz (λ _, sz))) ;;
      set_tf p tf_epc entry ;;
      set_tf p tf_sp sp ;;
      proc_freepagetable oldpagetable oldsz ;;
      mret argc
  end.

Definition kexec (path : Z) (argv : list Z) : K Z :=
  p ← myproc_ptr;
  begin_op ;;
  ip ← namei path;
  match ip with
  | None => end_op ;; mret (-1)
  | Some i =>
      ilock ip ;;
      elf ← frame EXEC_ELF;
      r ← readi i false elf 0 SIZEOF_ELF;
      if negb (r =? SIZEOF_ELF) then exec_bad 0 0 ip else
      d ← gets (λ s, rd s.(pmem) elf (Z.to_nat SIZEOF_ELF));
      let h := elfhdr_of d in
      if negb (h.(e_magic) =? ELF_MAGIC) then exec_bad 0 0 ip else
      pagetable ← proc_pagetable p;
      if pagetable =? 0 then exec_bad 0 0 ip else
      r ← load_segments (Z.to_nat h.(e_phnum)) pagetable i (s32 h.(e_phoff)) 0;
      if negb r.1 then exec_bad pagetable r.2 ip else
      iunlockput i ;;
      end_op ;;
      exec_commit path argv h.(e_entry) pagetable r.2
  end.
End exec.
