(* ===== verification/Syscall.v ===== *)
(** kernel/syscall.c (fetching arguments) and kernel/sysproc.c. *)

From S2P Require Import Prelude Cmem KString Kstate Spinlock Sleep Sleeplock Kalloc Vm Printf Bio Log Fs Console Pipe File Proc Exec.
Local Open Scope Z_scope.


Section syscall.
Context {Fl : Fuel} {La : Layout} {Dv : Device} {Bd : BlockDev} {Sy : Symbols}.

(** The status and the value. *)
Definition fetchaddr (addr : Z) : K (Z * Z) :=
  p ← myproc_ptr;
  q ← gets (get_proc p);
  if (q.(p_sz) <=? addr) || (q.(p_sz) <? u64 (addr + 8)) then mret (-1, 0) else
  r ← copyin q.(p_pagetable) addr 8;
  if negb (r.1 =? 0) then mret (-1, 0) else mret (0, of_le r.2).

Definition fetchstr (addr buf max : Z) : K Z :=
  p ← myproc_ptr;
  q ← gets (get_proc p);
  r ← copyinstr q.(p_pagetable) addr max;
  modify (set_pmem (λ m, wr m buf r.2)) ;;
  if r.1 <? 0 then mret (-1) else gets (λ s, strlen s.(pmem) buf).

Definition argraw (n : Z) : K Z :=
  p ← myproc_ptr;
  if (0 <=? n) && (n <=? 5) then get_tf p (tf_a0 + 8 * n) else panic "argraw".

Definition argint (n : Z) : K Z := x ← argraw n; mret (s32 x).
Definition argaddr (n : Z) : K Z := argraw n.
Definition argstr (n buf max : Z) : K Z := addr ← argaddr n; fetchstr addr buf max.

Definition sys_exit : K Z :=
  n ← argint 0;
  kexit n ;;
  mret 0.

Definition sys_getpid : K Z := p ← myproc_ptr; gets (λ s, (get_proc p s).(p_pid)).

Definition sys_fork : K Z := kfork.

Definition sys_wait : K Z := p ← argaddr 0; kwait p.

Definition sys_sbrk : K Z :=
  n ← argint 0;
  t ← argint 1;
  p ← myproc_ptr;
  addr ← gets (λ s, (get_proc p s).(p_sz));
  if (t =? SBRK_EAGER) || (n <? 0) then
    r ← growproc n;
    if r <? 0 then mret (-1) else mret addr
  else if u64 (addr + n) <? addr then mret (-1)
  else
    p ← myproc_ptr;
    modify (upd_proc p (set_p_sz (λ sz, u64 (sz + n)))) ;;
    mret addr.

(** [while(ticks - ticks0 < n)], the difference unsigned; true when killed. *)
Fixpoint pause_wait (k : nat) (ticks0 n : Z) : K bool :=
  match k with
  | O => out_of_fuel
  | S k =>
      t ← gets ticks;
      if u32 (t - ticks0) <? n then
        p ← myproc_ptr;
        d ← killed p;
        if negb (d =? 0) then mret true else
        sleep ChTicks LkTicks ;; pause_wait k ticks0 n
      else mret false
  end.

Definition sys_pause : K Z :=
  n ← argint 0;
  let n := if n <? 0 then 0 else n in
  acquire LkTicks ;;
  ticks0 ← gets ticks;
  d ← pause_wait (S fuel) ticks0 n;
  release LkTicks ;;
  mret (if d : bool then -1 else 0).

Definition sys_kill : K Z := pid ← argint 0; kkill pid.

Definition sys_uptime : K Z :=
  acquire LkTicks ;;
  xticks ← gets ticks;
  release LkTicks ;;
  mret xticks.
End syscall.
