(* ===== verification/SbrkSpec.v ===== *)
(** Lazy growth of a process: sys_sbrk of sysproc.c and the fault handler of
    vm.c together. *)

From S2P Require Import Prelude Cmem KString Kstate Spinlock Sleep Sleeplock Kalloc Vm VmSpec UserMem Printf Bio Log Fs Console Pipe File Proc Exec Syscall.
Local Open Scope Z_scope.

Section sbrk.
Context {Fl : Fuel} {La : Layout} {Dv : Device} {Bd : BlockDev} {Sy : Symbols}.

(** System call argument [i] of process [p]. *)
Definition arg_of (p : nat) (i : Z) (s : kstate) : Z :=
  ld64 s.(pmem) ((get_proc p s).(p_trapframe) + (tf_a0 + 8 * i)).

Lemma argint_done p i s :
  cpu_ok s → (cur_cpu s).(c_proc) = Some p → 0 ≤ i ≤ 5 → argint i s = Done (s32 (arg_of p i s)) s.
Proof.
  intros Hs Hp Hi. unfold argint, argraw. rewrite bind_unfold.
  rewrite (bind_done _ _ _ _ _ (myproc_ptr_done s p Hs Hp)).
  by rewrite (proj2 (Z.leb_le 0 i)), (proj2 (Z.leb_le i 5)) by lia.
Qed.

(** A lazy sbrk only moves the size, however far. *)
Lemma sys_sbrk_lazy p s n :
  cpu_ok s → (cur_cpu s).(c_proc) = Some p → (p < length s.(procs))%nat →
  s32 (arg_of p 0 s) = n → s32 (arg_of p 1 s) = SBRK_LAZY → 0 ≤ n →
  0 ≤ (get_proc p s).(p_sz) → (get_proc p s).(p_sz) + n < 18446744073709551616 →
  sys_sbrk s = Done (get_proc p s).(p_sz) (upd_proc p (set_p_sz (λ sz, u64 (sz + n))) s).
Proof.
  intros Hs Hp Hlen Hn Ht Hn0 Hz Hmax. unfold sys_sbrk.
  mstep (argint_done p 0 s Hs Hp ltac:(lia)). mstep (argint_done p 1 s Hs Hp ltac:(lia)). rewrite Hn, Ht.
  mstep (myproc_ptr_done s p Hs Hp). mnext. cbn [Z.eqb SBRK_EAGER SBRK_LAZY Pos.eqb orb].
  rewrite (proj2 (Z.ltb_ge n 0)) by lia. set (z := p_sz (get_proc p s)) in *.
  rewrite (proj2 (Z.ltb_ge _ z)) by (rewrite u64_small; lia).
  mstep (myproc_ptr_done s p Hs Hp). by mnext.
Qed.

Lemma rounddown_maxva va : MAXVA ≤ va → MAXVA ≤ PGROUNDDOWN va ≤ va.
Proof. intros H. destruct (PGROUNDDOWN_spec va) as (H1 & H2 & _). change MAXVA with 274877906944 in *. change PGSIZE with 4096 in *. mlia. Qed.

(** The fault handler on an address below the size but above MAXVA. *)
Lemma vmfault_high p root va s :
  cpu_ok s → (cur_cpu s).(c_proc) = Some p → MAXVA ≤ va < (get_proc p s).(p_sz) →
  vmfault root va s = Panicked "walk".
Proof.
  intros Hs Hp Hva. unfold vmfault. mstep (myproc_ptr_done s p Hs Hp).
  rewrite (bind_done (gets (get_proc p)) _ s (get_proc p s) s eq_refl).
  rewrite (proj2 (Z.leb_gt _ va)) by lia. apply bind_panicked. unfold ismapped. apply bind_panicked.
  unfold walk. by rewrite (proj2 (Z.leb_le _ _)) by (apply rounddown_maxva; lia).
Qed.

End sbrk.

(** A process one page short of MAXVA asks for two pages. *)
Definition sbrk_demo : kstate :=
  upd_proc 3 (λ q, set_p_sz (λ _, MAXVA - PGSIZE) (set_p_trapframe (λ _, 0x80060000) q))
    (set_pmem (λ _, st64 (st64 ∅ (0x80060000 + tf_a0) 8192) (0x80060000 + tf_a0 + 8) SBRK_LAZY) alone_state).

