(* ===== verification/Sysfile.v ===== *)
(** kernel/sysfile.c: the file system calls, and the table of system calls of
    kernel/syscall.c. *)

From S2P Require Import Prelude Cmem KString Kstate Spinlock Sleep Sleeplock Kalloc Vm Printf Bio Log Fs Console Pipe File Proc Exec Syscall.
Local Open Scope Z_scope.

Section sysfile.
Context {Fl : Fuel} {La : Layout} {Dv : Device} {Bd : BlockDev} {Sy : Symbols}.

(** The descriptor and its file, or [None] for -1. *)
Definition argfd (n : Z) : K (option (Z * nat)) :=
  fd ← argint n;
  if (fd <? 0) || (Z.of_nat NOFILE <=? fd) then mret None else
  p ← myproc_ptr;
  f ← gets (λ s, (get_proc p s).(p_ofile) !!! Z.to_nat fd);
  match f with
  | None => mret None
  | Some f => mret (Some (fd, f))
  end.

Definition set_ofile (p : nat) (fd : Z) (f : option nat) : K unit :=
  modify (upd_proc p (set_p_ofile (λ l, <[Z.to_nat fd := f]> l))).

Definition fdalloc (f : nat) : K Z :=
  p ← myproc_ptr;
  r ← mfor_ret (seq 0 NOFILE) (λ fd,
    o ← gets (λ s, (get_proc p s).(p_ofile) !!! fd);
    match o with
    | None => set_ofile p (Z.of_nat fd) (Some f) ;; mret (Some (Z.of_nat fd))
    | Some _ => mret None
    end);
  mret (default (-1) r).

Definition sys_dup : K Z :=
  r ← argfd 0;
  match r with
  | None => mret (-1)
  | Some (_, f) =>
      fd ← fdalloc f;
      if fd <? 0 then mret (-1) else
      _ ← filedup f;
      mret fd
  end.

Definition sys_read : K Z :=
  p ← argaddr 1;
  n ← argint 2;
  r ← argfd 0;
  match r with None => mret (-1) | Some (_, f) => fileread f p n end.

Definition sys_write : K Z :=
  p ← argaddr 1;
  n ← argint 2;
  r ← argfd 0;
  match r with None => mret (-1) | Some (_, f) => filewrite f p n end.

Definition sys_close : K Z :=
  r ← argfd 0;
  match r with
  | None => mret (-1)
  | Some (fd, f) =>
      p ← myproc_ptr;
      set_ofile p fd None ;;
      fileclose f ;;
      mret 0
  end.

Definition sys_fstat : K Z :=
  st ← argaddr 1;
  r ← argfd 0;
  match r with None => mret (-1) | Some (_, f) => filestat f st end.

Definition link_bad (ip : nat) : K Z :=
  ilock (Some ip) ;;
  modify (upd_inode ip (set_i_nlink (λ n, s16 (n - 1)))) ;;
  iupdate ip ;;
  iunlockput ip ;;
  end_op ;;
  mret (-1).

Definition sys_link : K Z :=
  old ← frame SYS_OLD;
  new ← frame SYS_PATH;
  name ← frame SYS_NAME;
  r ← argstr 0 old MAXPATH;
  if r <? 0 then mret (-1) else
  r ← argstr 1 new MAXPATH;
  if r <? 0 then mret (-1) else
  begin_op ;;
  o ← namei old;
  match o with
  | None => end_op ;; mret (-1)
  | Some ip =>
      ilock (Some ip) ;;
      q ← gets (get_inode ip);
      if q.(i_type) =? T_DIR then iunlockput ip ;; end_op ;; mret (-1) else
      modify (upd_inode ip (set_i_nlink (λ n, s16 (n + 1)))) ;;
      iupdate ip ;;
      iunlock (Some ip) ;;
      d ← nameiparent new name;
      match d with
      | None => link_bad ip
      | Some dp =>
          ilock (Some dp) ;;
          qd ← gets (get_inode dp);
          q ← gets (get_inode ip);
          r ← (if negb (qd.(i_dev) =? q.(i_dev)) then mret (-1) else dirlink dp name q.(i_inum));
          if r <? 0 then iunlockput dp ;; link_bad ip else
          iunlockput dp ;;
          iput ip ;;
          end_op ;;
          mret 0
      end
  end.

Fixpoint isdirempty_loop (k : nat) (dp : nat) (de off : Z) : K bool :=
  q ← gets (get_inode dp);
  if off <? q.(i_size) then
    match k with
    | O => out_of_fuel
    | S k =>
        r ← readi dp false de off SIZEOF_DE;
        if negb (r =? SIZEOF_DE) then panic "isdirempty: readi" else
        m ← gets pmem;
        if negb (de_inum m de =? 0) then mret false else isdirempty_loop k dp de (off + SIZEOF_DE)
    end
  else mret true.

Definition isdirempty (dp : nat) : K bool :=
  de ← frame DE_EMPTY;
  q ← gets (get_inode dp);
  isdirempty_loop (Z.to_nat (q.(i_size) / SIZEOF_DE + 1)) dp de (2 * SIZEOF_DE).

Definition unlink_bad (dp : nat) : K Z := iunlockput dp ;; end_op ;; mret (-1).

Definition sys_unlink : K Z :=
  path ← frame SYS_PATH;
  name ← frame SYS_NAME;
  r ← argstr 0 path MAXPATH;
  if r <? 0 then mret (-1) else
  begin_op ;;
  d ← nameiparent path name;
  match d with
  | None => end_op ;; mret (-1)
  | Some dp =>
      ilock (Some dp) ;;
      dot ← literal 0 ".";
      dotdot ← literal 8 "..";
      m ← gets pmem;
      if (namecmp m name dot =? 0) || (namecmp m name dotdot =? 0) then unlink_bad dp else
      r ← dirlookup dp name;
      match r with
      | None => unlink_bad dp
      | Some (ip, off) =>
          ilock (Some ip) ;;
          q ← gets (get_inode ip);
          if q.(i_nlink) <? 1 then panic "unlink: nlink < 1" else
          e ← (if q.(i_type) =? T_DIR then isdirempty ip else mret true);
          if negb e then iunlockput ip ;; unlink_bad dp else
          de ← frame DE_UNLINK;
          modify (set_pmem (λ m, memset m de 0 SIZEOF_DE)) ;;
          r ← writei dp false de off SIZEOF_DE;
          if negb (r =? SIZEOF_DE) then panic "unlink: writei" else
          q ← gets (get_inode ip);
          when (q.(i_type) =? T_DIR)
            (modify (upd_inode dp (set_i_nlink (λ n, s16 (n - 1)))) ;; iupdate dp) ;;
          iunlockput dp ;;
          modify (upd_inode ip (set_i_nlink (λ n, s16 (n - 1)))) ;;
          iupdate ip ;;
          iunlockput ip ;;
          end_op ;;
          mret 0
      end
  end.

Definition create_fail (ip dp : nat) : K (option nat) :=
  modify (upd_inode ip (set_i_nlink (λ _, 0))) ;;
  iupdate ip ;;
  iunlockput ip ;;
  iunlockput dp ;;
  mret None.

(** The entries "." and ".." of a new directory; false when they do not fit. *)
Definition create_dots (ip dp : nat) : K bool :=
  dot ← literal 0 ".";
  q ← gets (get_inode ip);
  r ← dirlink ip dot q.(i_inum);
  if r <? 0 then mret false else
  dotdot ← literal 8 "..";
  qd ← gets (get_inode dp);
  r ← dirlink ip dotdot qd.(i_inum);
  mret (negb (r <? 0)).

Definition create (path type maj min : Z) : K (option nat) :=
  name ← frame SYS_NAME;
  d ← nameiparent path name;
  match d with
  | None => mret None
  | Some dp =>
      ilock (Some dp) ;;
      r ← dirlookup dp name;
      match r with
      | Some (ip, _) =>
          iunlockput dp ;;
          ilock (Some ip) ;;
          q ← gets (get_inode ip);
          if (type =? T_FILE) && ((q.(i_type) =? T_FILE) || (q.(i_type) =? T_DEVICE)) then mret (Some ip)
          else iunlockput ip ;; mret None
      | None =>
          qd ← gets (get_inode dp);
          o ← ialloc qd.(i_dev) type;
          match o with
          | None => iunlockput dp ;; mret None
          | Some ip =>
              ilock (Some ip) ;;
              modify (upd_inode ip (set_i_major (λ _, maj))) ;;
              modify (upd_inode ip (set_i_minor (λ _, min))) ;;
              modify (upd_inode ip (set_i_nlink (λ _, 1))) ;;
              iupdate ip ;;
              ok ← (if type =? T_DIR then create_dots ip dp else mret true);
              if negb ok then create_fail ip dp else
              q ← gets (get_inode ip);
              r ← dirlink dp name q.(i_inum);
              if r <? 0 then create_fail ip dp else
              when (type =? T_DIR)
                (modify (upd_inode dp (set_i_nlink (λ n, s16 (n + 1)))) ;; iupdate dp) ;;
              iunlockput dp ;;
              mret (Some ip)
          end
      end
  end.

(** The inode to open, locked, or [None] after [end_op]. *)
Definition open_inode (path omode : Z) : K (option nat) :=
  if negb (Z.land omode O_CREATE =? 0) then
    ip ← create path T_FILE 0 0;
    match ip with
    | None => end_op ;; mret None
    | Some ip => mret (Some ip)
    end
  else
    ip ← namei path;
    match ip with
    | None => end_op ;; mret None
    | Some ip =>
        ilock (Some ip) ;;
        q ← gets (get_inode ip);
        if (q.(i_type) =? T_DIR) && negb (omode =? O_RDONLY) then
          iunlockput ip ;; end_op ;; mret None
        else mret (Some ip)
    end.

Definition open_bad (f : option nat) (ip : nat) : K Z :=
  match f with Some f => fileclose f | None => mret () end ;;
  iunlockput ip ;;
  end_op ;;
  mret (-1).

Definition sys_open : K Z :=
  path ← frame SYS_PATH;
  omode ← argint 1;
  n ← argstr 0 path MAXPATH;
  if n <? 0 then mret (-1) else
  begin_op ;;
  o ← open_inode path omode;
  match o with
  | None => mret (-1)
  | Some ip =>
      q ← gets (get_inode ip);
      if (q.(i_type) =? T_DEVICE) && ((q.(i_major) <? 0) || (NDEV <=? q.(i_major))) then
        iunlockput ip ;; end_op ;; mret (-1)
      else
      fo ← filealloc;
      match fo with
      | None => open_bad None ip
      | Some f =>
          fd ← fdalloc f;
          if fd <? 0 then open_bad (Some f) ip else
          q ← gets (get_inode ip);
          (if q.(i_type) =? T_DEVICE then
             modify (upd_file f (set_f_type (λ _, FD_DEVICE))) ;;
             modify (upd_file f (set_f_major (λ _, q.(i_major))))
           else
             modify (upd_file f (set_f_type (λ _, FD_INODE))) ;;
             modify (upd_file f (set_f_off (λ _, 0)))) ;;
          modify (upd_file f (set_f_ip (λ _, Some ip))) ;;
          modify (upd_file f (set_f_readable (λ _, if Z.land omode O_WRONLY =? 0 then 1 else 0))) ;;
          modify (upd_file f (set_f_writable (λ _,
            if negb (Z.land omode O_WRONLY =? 0) || negb (Z.land omode O_RDWR =? 0) then 1 else 0))) ;;
          when (negb (Z.land omode O_TRUNC =? 0) && (q.(i_type) =? T_FILE)) (itrunc ip) ;;
          iunlock (Some ip) ;;
          end_op ;;
          mret fd
      end
  end.

Definition sys_mkdir : K Z :=
  path ← frame SYS_PATH;
  begin_op ;;
  r ← argstr 0 path MAXPATH;
  o ← (if r <? 0 then mret None else create path T_DIR 0 0);
  match o with
  | None => end_op ;; mret (-1)
  | Some ip => iunlockput ip ;; end_op ;; mret 0
  end.

Definition sys_mknod : K Z :=
  path ← frame SYS_PATH;
  begin_op ;;
  maj ← argint 1;
  min ← argint 2;
  r ← argstr 0 path MAXPATH;
  o ← (if r <? 0 then mret None else create path T_DEVICE (s16 maj) (s16 min));
  match o with
  | None => end_op ;; mret (-1)
  | Some ip => iunlockput ip ;; end_op ;; mret 0
  end.

Definition sys_chdir : K Z :=
  path ← frame SYS_PATH;
  p ← myproc_ptr;
  begin_op ;;
  r ← argstr 0 path MAXPATH;
  o ← (if r <? 0 then mret None else namei path);
  match o with
  | None => end_op ;; mret (-1)
  | Some ip =>
      ilock (Some ip) ;;
      q ← gets (get_inode ip);
      if negb (q.(i_type) =? T_DIR) then iunlockput ip ;; end_op ;; mret (-1) else
      iunlock (Some ip) ;;
      qp ← gets (get_proc p);
      cwd ← deref qp.(p_cwd);
      iput cwd ;;
      end_op ;;
      modify (upd_proc p (set_p_cwd (λ _, Some ip))) ;;
      mret 0
  end.

(** The argument strings, each in a page of its own: the pages so far, and
    whether to [goto bad]. *)
Fixpoint fetch_args (k : nat) (uargv : Z) (argv : list Z) : K (bool * list Z) :=
  match k with
  | O => mret (false, argv)
  | S k =>
      r ← fetchaddr (u64 (uargv + 8 * Z.of_nat (length argv)));
      if r.1 <? 0 then mret (false, argv) else
      if r.2 =? 0 then mret (true, argv) else
      a ← kalloc;
      if a =? 0 then mret (false, argv) else
      n ← fetchstr r.2 a PGSIZE;
      if n <? 0 then mret (false, argv ++ [a]) else
      fetch_args k uargv (argv ++ [a])
  end.

Definition sys_exec : K Z :=
  path ← frame SYS_PATH;
  uargv ← argaddr 1;
  r ← argstr 0 path MAXPATH;
  if r <? 0 then mret (-1) else
  r ← fetch_args MAXARG uargv [];
  if negb r.1 then mfor r.2 kfree ;; mret (-1) else
  ret ← kexec path r.2;
  mfor r.2 kfree ;;
  mret ret.

Definition pipe_undo (rf wf : nat) : K Z := fileclose rf ;; fileclose wf ;; mret (-1).

Definition sys_pipe : K Z :=
  p ← myproc_ptr;
  fdarray ← argaddr 0;
  r ← pipealloc;
  match r with
  | (st, Some rf, Some wf) =>
      if st <? 0 then mret (-1) else
      fd0 ← fdalloc rf;
      fd1 ← (if fd0 <? 0 then mret (-1) else fdalloc wf);
      if (fd0 <? 0) || (fd1 <? 0) then
        when (0 <=? fd0) (set_ofile p fd0 None) ;;
        pipe_undo rf wf
      else
        pt ← gets (λ s, (get_proc p s).(p_pagetable));
        r ← copyout pt fdarray (to_le 4 fd0);
        r ← (if r <? 0 then mret r else copyout pt (u64 (fdarray + 4)) (to_le 4 fd1));
        if r <? 0 then
          set_ofile p fd0 None ;;
          set_ofile p fd1 None ;;
          pipe_undo rf wf
        else mret 0
  | _ => mret (-1)
  end.

(** The array [syscalls], by the numbers of kernel/syscall.h. *)
Definition syscalls (num : Z) : option (K Z) :=
  match num with
  | 1 => Some sys_fork
  | 2 => Some sys_exit
  | 3 => Some sys_wait
  | 4 => Some sys_pipe
  | 5 => Some sys_read
  | 6 => Some sys_kill
  | 7 => Some sys_exec
  | 8 => Some sys_fstat
  | 9 => Some sys_chdir
  | 10 => Some sys_dup
  | 11 => Some sys_getpid
  | 12 => Some sys_sbrk
  | 13 => Some sys_pause
  | 14 => Some sys_uptime
  | 15 => Some sys_open
  | 16 => Some sys_write
  | 17 => Some sys_mknod
  | 18 => Some sys_unlink
  | 19 => Some sys_link
  | 20 => Some sys_mkdir
  | 21 => Some sys_close
  | _ => None
  end.

Definition unknown_msg : String.string := "%d %s: unknown sys call %d
".

Definition syscall : K unit :=
  p ← myproc_ptr;
  a7 ← get_tf p tf_a7;
  let num := s32 a7 in
  match (if 0 <? num then syscalls num else None) with
  | Some f => r ← f; set_tf p tf_a0 r
  | None =>
      q ← gets (get_proc p);
      _ ← printf unknown_msg [Vint q.(p_pid); Vstr (Some (cstr_of q.(p_name))); Vint num];
      set_tf p tf_a0 (-1)
  end.
End sysfile.
