(* ===== verification/Virtio.v ===== *)
(** kernel/virtio_disk.c: the driver of the virtio block device, and what it
    relies on the device to do. *)

From S2P Require Import Prelude Cmem KString Kstate Spinlock Sleep Sleeplock Kalloc Printf Bio.
Local Open Scope Z_scope.

(** The control registers of the device. *)
Inductive virtio_mmio : Set :=
| VIRTIO_MMIO_MAGIC_VALUE | VIRTIO_MMIO_VERSION | VIRTIO_MMIO_DEVICE_ID
| VIRTIO_MMIO_VENDOR_ID | VIRTIO_MMIO_DEVICE_FEATURES | VIRTIO_MMIO_DRIVER_FEATURES
| VIRTIO_MMIO_QUEUE_SEL | VIRTIO_MMIO_QUEUE_NUM_MAX | VIRTIO_MMIO_QUEUE_NUM
| VIRTIO_MMIO_QUEUE_READY | VIRTIO_MMIO_QUEUE_NOTIFY | VIRTIO_MMIO_INTERRUPT_STATUS
| VIRTIO_MMIO_INTERRUPT_ACK | VIRTIO_MMIO_STATUS | VIRTIO_MMIO_QUEUE_DESC_LOW
| VIRTIO_MMIO_QUEUE_DESC_HIGH | VIRTIO_MMIO_DRIVER_DESC_LOW | VIRTIO_MMIO_DRIVER_DESC_HIGH
| VIRTIO_MMIO_DEVICE_DESC_LOW | VIRTIO_MMIO_DEVICE_DESC_HIGH.
(** Where they are, from the start of the device. *)
Definition mmio_offset (r : virtio_mmio) : Z :=
  match r with
  | VIRTIO_MMIO_MAGIC_VALUE => 0x000
  | VIRTIO_MMIO_VERSION => 0x004
  | VIRTIO_MMIO_DEVICE_ID => 0x008
  | VIRTIO_MMIO_VENDOR_ID => 0x00c
  | VIRTIO_MMIO_DEVICE_FEATURES => 0x010
  | VIRTIO_MMIO_DRIVER_FEATURES => 0x020
  | VIRTIO_MMIO_QUEUE_SEL => 0x030
  | VIRTIO_MMIO_QUEUE_NUM_MAX => 0x034
  | VIRTIO_MMIO_QUEUE_NUM => 0x038
  | VIRTIO_MMIO_QUEUE_READY => 0x044
  | VIRTIO_MMIO_QUEUE_NOTIFY => 0x050
  | VIRTIO_MMIO_INTERRUPT_STATUS => 0x060
  | VIRTIO_MMIO_INTERRUPT_ACK => 0x064
  | VIRTIO_MMIO_STATUS => 0x070
  | VIRTIO_MMIO_QUEUE_DESC_LOW => 0x080
  | VIRTIO_MMIO_QUEUE_DESC_HIGH => 0x084
  | VIRTIO_MMIO_DRIVER_DESC_LOW => 0x090
  | VIRTIO_MMIO_DRIVER_DESC_HIGH => 0x094
  | VIRTIO_MMIO_DEVICE_DESC_LOW => 0x0a0
  | VIRTIO_MMIO_DEVICE_DESC_HIGH => 0x0a4
  end.
Coercion mmio_offset : virtio_mmio >-> Z.
(** Features of the device. *)
Inductive virtio_feature : Set :=
| VIRTIO_BLK_F_RO | VIRTIO_BLK_F_SCSI | VIRTIO_BLK_F_CONFIG_WCE | VIRTIO_BLK_F_MQ
| VIRTIO_F_ANY_LAYOUT | VIRTIO_RING_F_INDIRECT_DESC | VIRTIO_RING_F_EVENT_IDX.
(** Their positions in the feature register. *)
Definition feature_bit (r : virtio_feature) : Z :=
  match r with
  | VIRTIO_BLK_F_RO => 5
  | VIRTIO_BLK_F_SCSI => 7
  | VIRTIO_BLK_F_CONFIG_WCE => 11
  | VIRTIO_BLK_F_MQ => 12
  | VIRTIO_F_ANY_LAYOUT => 27
  | VIRTIO_RING_F_INDIRECT_DESC => 28
  | VIRTIO_RING_F_EVENT_IDX => 29
  end.
Coercion feature_bit : virtio_feature >-> Z.
Definition VIRTIO_CONFIG_S_ACKNOWLEDGE : Z := 1.
Definition VIRTIO_CONFIG_S_DRIVER : Z := 2.
Definition VIRTIO_CONFIG_S_DRIVER_OK : Z := 4.
Definition VIRTIO_CONFIG_S_FEATURES_OK : Z := 8.
Definition VRING_DESC_F_NEXT : Z := 1.
Definition VRING_DESC_F_WRITE : Z := 2.
Definition VIRTIO_BLK_T_IN : Z := 0.
Definition VIRTIO_BLK_T_OUT : Z := 1.

(** Distinct values for the addresses of [disk.ops[i]], of the data of buffer
    [b] and of [disk.info[i].status]. *)
Definition ops_addr (i : nat) : Z := 3 * Z.of_nat i.
Definition data_addr (b : nat) : Z := 3 * Z.of_nat b + 1.
Definition status_addr (i : nat) : Z := 3 * Z.of_nat i + 2.

Section virtio.
Context {Fl : Fuel} {La : Layout} {Dv : Device}.

Definition R_read (r : Z) : K Z := gets (λ s, u32 (reg s (VIRTIO0 + r))).
Definition R_write (r v : Z) : K unit := mmio_write (VIRTIO0 + r) (u32 v).

Definition clear_feature (f : Z) (x : Z) : Z := Z.land x (Z.lnot (Z.shiftl 1 f)).

Definition negotiate (x : Z) : Z :=
  clear_feature VIRTIO_RING_F_INDIRECT_DESC (clear_feature VIRTIO_RING_F_EVENT_IDX
    (clear_feature VIRTIO_F_ANY_LAYOUT (clear_feature VIRTIO_BLK_F_MQ
      (clear_feature VIRTIO_BLK_F_CONFIG_WCE (clear_feature VIRTIO_BLK_F_SCSI
        (clear_feature VIRTIO_BLK_F_RO x)))))).

(** The three pages of the rings: zeroed, so that the rings the model keeps in
    [kvdisk] are zero too. *)
Definition zero_rings (v : vdisk) : vdisk :=
  set_used_ring (λ _, replicate NUM 0) (set_used_idx_dev (λ _, 0)
    (set_avail_ring (λ _, replicate NUM 0) (set_avail_idx (λ _, 0)
      (set_vd_desc (λ _, replicate NUM (mk_desc 0 0 0 0)) v)))).

Definition ring_page (low high page : Z) : K unit :=
  R_write low page ;; R_write high (Z.shiftr page 32).

Definition virtio_disk_init : K unit :=
  initlock LkVdisk ;;
  a ← R_read VIRTIO_MMIO_MAGIC_VALUE;
  b ← R_read VIRTIO_MMIO_VERSION;
  c ← R_read VIRTIO_MMIO_DEVICE_ID;
  d ← R_read VIRTIO_MMIO_VENDOR_ID;
  if negb (a =? 0x74726976) || negb (b =? 2) || negb (c =? 2) || negb (d =? 0x554d4551)
  then panic "could not find virtio disk" else
  R_write VIRTIO_MMIO_STATUS 0 ;;
  let status := VIRTIO_CONFIG_S_ACKNOWLEDGE in
  R_write VIRTIO_MMIO_STATUS status ;;
  let status := Z.lor status VIRTIO_CONFIG_S_DRIVER in
  R_write VIRTIO_MMIO_STATUS status ;;
  features ← R_read VIRTIO_MMIO_DEVICE_FEATURES;
  R_write VIRTIO_MMIO_DRIVER_FEATURES (negotiate features) ;;
  R_write VIRTIO_MMIO_STATUS (Z.lor status VIRTIO_CONFIG_S_FEATURES_OK) ;;
  status ← R_read VIRTIO_MMIO_STATUS;
  if Z.land status VIRTIO_CONFIG_S_FEATURES_OK =? 0 then panic "virtio disk FEATURES_OK unset" else
  R_write VIRTIO_MMIO_QUEUE_SEL 0 ;;
  ready ← R_read VIRTIO_MMIO_QUEUE_READY;
  if negb (ready =? 0) then panic "virtio disk should not be ready" else
  max ← R_read VIRTIO_MMIO_QUEUE_NUM_MAX;
  if max =? 0 then panic "virtio disk has no queue 0" else
  if max <? Z.of_nat NUM then panic "virtio disk max queue too short" else
  desc ← kalloc;
  avail ← kalloc;
  used ← kalloc;
  if (desc =? 0) || (avail =? 0) || (used =? 0) then panic "virtio disk kalloc" else
  mem_set desc 0 PGSIZE ;;
  mem_set avail 0 PGSIZE ;;
  mem_set used 0 PGSIZE ;;
  modify (set_kvdisk zero_rings) ;;
  R_write VIRTIO_MMIO_QUEUE_NUM (Z.of_nat NUM) ;;
  ring_page VIRTIO_MMIO_QUEUE_DESC_LOW VIRTIO_MMIO_QUEUE_DESC_HIGH desc ;;
  ring_page VIRTIO_MMIO_DRIVER_DESC_LOW VIRTIO_MMIO_DRIVER_DESC_HIGH avail ;;
  ring_page VIRTIO_MMIO_DEVICE_DESC_LOW VIRTIO_MMIO_DEVICE_DESC_HIGH used ;;
  R_write VIRTIO_MMIO_QUEUE_READY 1 ;;
  modify (set_kvdisk (set_vd_free (λ _, replicate NUM 1))) ;;
  R_write VIRTIO_MMIO_STATUS (Z.lor status VIRTIO_CONFIG_S_DRIVER_OK).

(** ** Descriptors *)

Definition is_free (v : vdisk) (i : nat) : bool := negb (v.(vd_free) !!! i =? 0).

(** The first free descriptor. *)
Definition alloc_desc : K (option nat) :=
  r ← mfor_ret (seq 0 NUM) (λ i,
    v ← gets kvdisk;
    if is_free v i then
      modify (set_kvdisk (set_vd_free (λ l, <[i := 0]> l))) ;; mret (Some i)
    else mret None);
  mret r.

Definition set_desc (i : nat) (d : virtq_desc) : K unit :=
  modify (set_kvdisk (set_vd_desc (λ l, <[i := d]> l))).

Definition free_desc (i : nat) : K unit :=
  if (NUM <=? i)%nat then panic "free_desc 1" else
  v ← gets kvdisk;
  if is_free v i then panic "free_desc 2" else
  set_desc i (mk_desc 0 0 0 0) ;;
  modify (set_kvdisk (set_vd_free (λ l, <[i := 1]> l))) ;;
  wakeup ChDiskFree.

(** A chain of more than NUM descriptors would free one twice, which panics. *)
Fixpoint free_chain_loop (k : nat) (i : nat) : K unit :=
  match k with
  | O => out_of_fuel
  | S k =>
      d ← gets (λ s, s.(kvdisk).(vd_desc) !!! i);
      free_desc i ;;
      if negb (Z.land d.(d_flags) VRING_DESC_F_NEXT =? 0) then free_chain_loop k (Z.to_nat d.(d_next))
      else mret ()
  end.
Definition free_chain (i : nat) : K unit := free_chain_loop (S NUM) i.

(** The descriptors, or [None] after giving back those already taken. *)
Fixpoint alloc3_loop (k : nat) (idx : list nat) : K (option (list nat)) :=
  match k with
  | O => mret (Some idx)
  | S k =>
      r ← alloc_desc;
      match r with
      | Some i => alloc3_loop k (idx ++ [i])
      | None => mfor idx free_desc ;; mret None
      end
  end.
Definition alloc3_desc : K (option (list nat)) := alloc3_loop 3 [].

Fixpoint alloc3_wait (k : nat) : K (list nat) :=
  match k with
  | O => out_of_fuel
  | S k =>
      r ← alloc3_desc;
      match r with
      | Some idx => mret idx
      | None => sleep ChDiskFree LkVdisk ;; alloc3_wait k
      end
  end.

(** ** Requests *)

(** Filling in the three descriptors and offering the chain to the device. *)
Definition post_request (b : nat) (write : bool) (sector : Z) (i0 i1 i2 : nat) : K unit :=
  modify (set_kvdisk (set_vd_ops (λ l,
    <[i0 := mk_req (if write then VIRTIO_BLK_T_OUT else VIRTIO_BLK_T_IN) 0 sector]> l))) ;;
  set_desc i0 (mk_desc (ops_addr i0) 16 VRING_DESC_F_NEXT (Z.of_nat i1)) ;;
  set_desc i1 (mk_desc (data_addr b) BSIZE
    (Z.lor (if write then 0 else VRING_DESC_F_WRITE) VRING_DESC_F_NEXT) (Z.of_nat i2)) ;;
  modify (set_kvdisk (set_info_status (λ l, <[i0 := 0xff]> l))) ;;
  set_desc i2 (mk_desc (status_addr i0) 1 VRING_DESC_F_WRITE 0) ;;
  modify (upd_buf b (set_b_disk (λ _, 1))) ;;
  modify (set_kvdisk (set_info_b (λ l, <[i0 := Some b]> l))) ;;
  modify (set_kvdisk (λ v,
    set_avail_ring (λ l, <[Z.to_nat (v.(avail_idx) mod Z.of_nat NUM) := Z.of_nat i0]> l) v)) ;;
  modify (set_kvdisk (set_avail_idx (λ i, u16 (i + 1)))) ;;
  R_write VIRTIO_MMIO_QUEUE_NOTIFY 0.

Fixpoint disk_wait (k : nat) (b : nat) : K unit :=
  match k with
  | O => out_of_fuel
  | S k =>
      q ← gets (get_buf b);
      if q.(b_disk) =? 1 then sleep (ChBuf b) LkVdisk ;; disk_wait k b else mret ()
  end.

Definition virtio_disk_rw (b : nat) (write : bool) : K unit :=
  q ← gets (get_buf b);
  let sector := u32 (q.(b_blockno) * (BSIZE / 512)) in
  acquire LkVdisk ;;
  idx ← alloc3_wait (S fuel);
  let i0 := idx !!! 0%nat in
  post_request b write sector i0 (idx !!! 1%nat) (idx !!! 2%nat) ;;
  disk_wait (S fuel) b ;;
  modify (set_kvdisk (set_info_b (λ l, <[i0 := None]> l))) ;;
  free_chain i0 ;;
  release LkVdisk.

(** The completions in the used ring; the indices are 16 bits wide. *)
Fixpoint intr_loop (k : nat) : K unit :=
  v ← gets kvdisk;
  if v.(vd_used_idx) =? v.(used_idx_dev) then mret () else
  match k with
  | O => out_of_fuel
  | S k =>
      let id := Z.to_nat (v.(used_ring) !!! Z.to_nat (v.(vd_used_idx) mod Z.of_nat NUM)) in
      if negb (v.(info_status) !!! id =? 0) then panic "virtio_disk_intr status" else
      b ← deref (v.(info_b) !!! id);
      modify (upd_buf b (set_b_disk (λ _, 0))) ;;
      wakeup (ChBuf b) ;;
      modify (set_kvdisk (set_vd_used_idx (λ i, u16 (i + 1)))) ;;
      intr_loop k
  end.

Definition virtio_disk_intr : K unit :=
  acquire LkVdisk ;;
  st ← R_read VIRTIO_MMIO_INTERRUPT_STATUS;
  R_write VIRTIO_MMIO_INTERRUPT_ACK (Z.land st 0x3) ;;
  intr_loop (Z.to_nat 65536) ;;
  release LkVdisk.
End virtio.

(** ** The device

    The device is a parameter: what it does to memory, the rings and the disk
    when it has a request to serve.  [VirtioBlkSpec] is what the virtio
    standard promises for a request that is offered as the standard asks. *)
Class VirtioBlk := device_serve : kstate → kstate.

(** A request: the head of its chain, the entry of the used ring for its
    completion, where its status goes, the buffer and block, the direction. *)
Record blk_request : Type := mk_blk_request {
  rq_slot : nat; rq_head : nat; rq_status : nat; rq_buf : nat; rq_block : Z; rq_write : bool }.

Definition has_flag (f : Z) (d : virtq_desc) : bool := negb (Z.land d.(d_flags) f =? 0).

(** The chain of three descriptors at [head] is well formed: a header of 16
    bytes the device reads, a block of data it reads or writes as the header's
    type says, a status byte it writes; the sector is the first of a block. *)
Definition well_formed (v : vdisk) (head : nat) : bool :=
  let d0 := v.(vd_desc) !!! head in
  let d1 := v.(vd_desc) !!! Z.to_nat d0.(d_next) in
  let d2 := v.(vd_desc) !!! Z.to_nat d1.(d_next) in
  let op := v.(vd_ops) !!! Z.to_nat (d0.(d_addr) / 3) in
  (head <? NUM)%nat &&
  (d0.(d_addr) mod 3 =? 0) && (d0.(d_len) =? 16) && has_flag VRING_DESC_F_NEXT d0 && negb (has_flag VRING_DESC_F_WRITE d0) &&
  (d1.(d_addr) mod 3 =? 1) && (d1.(d_len) =? BSIZE) && has_flag VRING_DESC_F_NEXT d1 &&
  (if has_flag VRING_DESC_F_WRITE d1 then op.(r_type) =? VIRTIO_BLK_T_IN else op.(r_type) =? VIRTIO_BLK_T_OUT) &&
  (d2.(d_addr) mod 3 =? 2) && (d2.(d_len) =? 1) && negb (has_flag VRING_DESC_F_NEXT d2) && has_flag VRING_DESC_F_WRITE d2 &&
  (op.(r_sector) mod 2 =? 0).

(** The request that has been offered: its chain is the only one in the
    available ring not served yet, and queue 0 has been notified of it. *)
Definition offered (s : kstate) : option blk_request :=
  let v := s.(kvdisk) in
  let slot := Z.to_nat (v.(used_idx_dev) mod Z.of_nat NUM) in
  let head := Z.to_nat (v.(avail_ring) !!! slot) in
  let d0 := v.(vd_desc) !!! head in
  let d1 := v.(vd_desc) !!! Z.to_nat d0.(d_next) in
  let d2 := v.(vd_desc) !!! Z.to_nat d1.(d_next) in
  let op := v.(vd_ops) !!! Z.to_nat (d0.(d_addr) / 3) in
  if bool_decide (last s.(mmio) = Some (VIRTIO0 + VIRTIO_MMIO_QUEUE_NOTIFY, 0)) &&
     (v.(avail_idx) =? u16 (v.(used_idx_dev) + 1)) && well_formed v head
  then Some (mk_blk_request slot head (Z.to_nat (d2.(d_addr) / 3)) (Z.to_nat (d1.(d_addr) / 3))
         (op.(r_sector) / 2) (op.(r_type) =? VIRTIO_BLK_T_OUT))
  else None.

(** The block is transferred, the status is zero and the head of the chain is
    on the used ring. *)
Definition answered (r : blk_request) (s : kstate) : kstate :=
  let data := (get_buf r.(rq_buf) s).(b_data) in
  set_kvdisk (λ v,
    set_used_idx_dev (λ i, u16 (i + 1)) (set_used_ring (λ l, <[r.(rq_slot) := Z.of_nat r.(rq_head)]> l)
      (set_info_status (λ l, <[r.(rq_status) := 0]> l) v)))
    (if r.(rq_write) then
       set_disk_writes (λ w, w ++ [(r.(rq_block), data)]) (set_disk <[r.(rq_block) := data]> s)
     else upd_buf r.(rq_buf) (set_b_data (λ _, disk_block s r.(rq_block))) s).

Class VirtioBlkSpec {Vb : VirtioBlk} : Prop :=
  serve_offered : ∀ s r, offered s = Some r → device_serve s = answered r s.

(** A device that answers such requests and no other. *)
Definition strict_blk : VirtioBlk := λ s, match offered s with Some r => answered r s | None => s end.
Lemma strict_blk_spec : @VirtioBlkSpec strict_blk.
Proof. intros s r E. unfold device_serve, strict_blk. by rewrite E. Qed.
