(* ===== verification/VirtioSpec.v ===== *)
(** The disk driver keeps the buffer cache's contract: virtio_disk_rw, the
    device, the interrupt handler and the scheduler together transfer one block
    between buffer and disk and change nothing else. *)

From S2P Require Import Prelude Cmem Kstate Spinlock Sleep Sleeplock Kalloc Printf Bio BioSpec BioProps Virtio.
Local Open Scope Z_scope.

(** ** A sleep and its wakeup on one processor *)

Section cycle.
Context {Fl : Fuel}.

Definition slept (ch : chan) (q : proc) : proc :=
  set_p_state (λ _, SLEEPING) (set_p_chan (λ _, Some ch) q).

(** [p] sleeps and its processor is in the scheduler. *)
Definition idle (ch : chan) (p : nat) (s : kstate) : kstate :=
  upd_proc p (slept ch) (upd_cpu (set_c_proc (λ _, None)) s).

Lemma upd_proc_upd_proc p g h s : upd_proc p g (upd_proc p h s) = upd_proc p (g ∘ h) s.
Proof. unfold upd_proc, set_procs. cbn. by rewrite alter_alter_list. Qed.

Lemma cur_idle ch p s : quiet p s → cur_cpu (idle ch p s) = set_c_proc (λ _, None) (cur_cpu s).
Proof. intros Hq. exact (cur_upd_cpu (set_c_proc (λ _, None)) s (proj1 Hq)). Qed.

Lemma idle_cpu_ok ch p s : quiet p s → cpu_ok (idle ch p s).
Proof.
  intros Hq. split; [cbn; rewrite length_alter; apply Hq|]. rewrite (cur_idle _ _ _ Hq). apply Hq.
Qed.

(** Two locks taken and given back. *)
Lemma relock_id (L : gmap lockid spinlock) a b f h :
  a ≠ b → L !! a = Some f → L !! b = Some f →
  <[b := f]> (<[a := f]> (<[b := h]> (<[a := h]> L))) = L.
Proof.
  intros Hne Ha Hb. apply map_eq. intros x. rewrite !lookup_insert.
  repeat case_decide; by subst.
Qed.

Lemma cpu_round c p :
  settled c → c_proc c = Some p →
  pop_cpu (set_intena (λ _, intena (push_cpu c))
    (set_c_proc (λ _, Some p) (push_cpu (set_c_proc (λ _, None) c)))) = c.
Proof.
  intros Hs Hc. etransitivity; [|by apply pop_push_cpu]. destruct c. cbn in Hc. subst.
  unfold pop_cpu, push_cpu. cbn. by case_match.
Qed.

(** What scheduler does when the process it ran switches back to it. *)
Definition sched_back (p : nat) : K unit :=
  id ← cpuid;
  modify (set_cpus (alter (set_c_proc (λ _, None)) id)) ;;
  release (LkProc p).

Lemma sched_back_idle ch lk p s :
  quiet p s → static_lock lk → lk ≠ LkProc p →
  sched_back p (asleep ch lk p (acq lk s)) = Done () (idle ch p s).
Proof.
  intros Hq Hst Hne. pose proof Hq as (Hh & Hset & Hc & Hp & Hlen & Hl & _ & Hn & _).
  set (sw := asleep ch lk p (acq lk s)).
  assert (E : sched_back p sw = Done () (set_locks <[LkProc p := mk_spinlock 0 None]>
    (upd_cpu pop_cpu (upd_cpu (set_c_proc (λ _, None)) sw)))).
  { unfold sched_back. mnext. mnext. apply release_done.
    - cbn. by rewrite !length_alter.
    - change (sie (cur_cpu (upd_cpu (set_c_proc (λ _, None)) sw)) = false).
      rewrite cur_upd_cpu by (cbn; by rewrite length_alter). exact (sie_acq lk s Hh).
    - change (0 < noff (cur_cpu (upd_cpu (set_c_proc (λ _, None)) sw))).
      rewrite cur_upd_cpu by (cbn; by rewrite length_alter).
      change (0 < noff (cur_cpu (acq lk s))). rewrite noff_acq by done. unfold cur_cpu. rewrite Hn. lia.
    - unfold held. change (locks (set_cpus _ sw)) with (locks sw). unfold sw, asleep. cbn.
      by rewrite lookup_insert_ne, lookup_insert_eq. }
  rewrite E. f_equal. rewrite upd_cpu_upd_cpu.
  set (h := mk_spinlock 1 (Some s.(hart))). set (f := mk_spinlock 0 None).
  change (set_locks (λ L, <[LkProc p := f]> (<[lk := f]> (<[LkProc p := h]> (<[lk := h]> L))))
    (upd_cpu (pop_cpu ∘ set_c_proc (λ _, None)) (upd_cpu push_cpu
      (upd_proc p (set_p_state (λ _, SLEEPING)) (upd_proc p (set_p_chan (λ _, Some ch)) s)))) =
    idle ch p s).
  rewrite upd_cpu_upd_cpu, upd_proc_upd_proc, set_locks_id.
  - unfold idle. change (upd_cpu ?g (upd_proc ?q ?k s)) with (upd_proc q k (upd_cpu g s)).
    f_equal. apply upd_cpu_ext; [done|]. cbn. rewrite <- (pop_push_cpu (cur_cpu s) Hset) at 2.
    unfold pop_cpu, push_cpu. cbn. by case_match.
  - change (locks (upd_cpu _ _)) with (locks s). by apply relock_id; [|apply Hl..].
Qed.

(** The scheduler hands the processor to [p] as sleep expects it. *)
Lemma dispatch_idle ch lk p s :
  quiet p s → static_lock lk → lk ≠ LkProc p →
  let sd := dispatched s.(hart) p (upd_proc p (set_p_state (λ _, RUNNABLE)) (idle ch p s)) in
  switched p sd ∧ lock_free lk sd.
Proof.
  intros Hq Hst Hne sd. set (x := upd_proc p (set_p_state (λ _, RUNNABLE)) (idle ch p s)) in sd. split.
  - apply (switched_dispatched p x).
    + exact (idle_cpu_ok ch p s Hq).
    + change (noff (cur_cpu (idle ch p s)) = 0). rewrite (cur_idle _ _ _ Hq). apply Hq.
  - apply (lock_free_acq (LkProc p) lk x); [done|]. by apply (quiet_lock p lk s).
Qed.

(** The way back: [p], woken by the interrupt handler, is dispatched and goes
    on in sleep. *)
Lemma awoken_idle ch lk p s :
  quiet p s → static_lock lk → lk ≠ LkProc p →
  awoken lk p (cur_cpu (acq lk s)).(intena)
    (dispatched s.(hart) p (upd_proc p (set_p_state (λ _, RUNNABLE)) (idle ch p s))) = acq lk s.
Proof.
  intros Hq Hst Hne. pose proof Hq as (Hh & Hset & Hc & Hp & Hlen & Hl & _ & Hn & Hr & Hch).
  set (h := mk_spinlock 1 (Some s.(hart))). set (f := mk_spinlock 0 None).
  unfold awoken. f_equal.
  set (ie := intena (cur_cpu (acq lk s))).
  change (set_locks (λ L, <[LkProc p := f]> (<[LkProc p := h]> L))
    (upd_proc p (set_p_chan (λ _, None)) (upd_proc p (set_p_state (λ _, RUNNING))
      (upd_proc p (set_p_state (λ _, RUNNABLE)) (upd_proc p (slept ch)
        (upd_cpu (pop_cpu ∘ set_intena (λ _, ie)) (upd_cpu (set_c_proc (λ _, Some p))
          (upd_cpu push_cpu (upd_cpu (set_c_proc (λ _, None)) s)))))))) = s).
  rewrite set_locks_id.
  2: { change (locks _) with (locks s). rewrite insert_insert_eq. by apply insert_id, Hl. }
  rewrite !upd_cpu_upd_cpu, !upd_proc_upd_proc, upd_proc_id.
  - apply upd_cpu_id; [done|]. unfold ie, acq. change (cur_cpu (set_locks _ ?x)) with (cur_cpu x).
    rewrite cur_upd_cpu by done. by apply cpu_round.
  - change (procs _) with (procs s). intros q Hq'. cbn. unfold set_p_chan, set_p_state, slept. cbn.
    assert (E : procs s !!! p = q) by (by apply list_lookup_total_correct).
    rewrite E in Hr, Hch. rewrite <- Hr, <- Hch. done.
Qed.
End cycle.

(** ** The driver at rest *)

(** All descriptors are free and every request offered has been completed and
    seen. *)
Record vd_ready (v : vdisk) : Prop := {
  vr_desc : length v.(vd_desc) = NUM;
  vr_ops : length v.(vd_ops) = NUM;
  vr_info : length v.(info_b) = NUM;
  vr_status : length v.(info_status) = NUM;
  vr_avail : length v.(avail_ring) = NUM;
  vr_used : length v.(used_ring) = NUM;
  vr_free : v.(vd_free) = replicate NUM 1;
  vr_idx : 0 ≤ v.(avail_idx) < 65536;
  vr_served : v.(used_idx_dev) = v.(avail_idx);
  vr_seen : v.(vd_used_idx) = v.(avail_idx) }.

Section driver.
Context {Fl : Fuel} {Dv : Device} {Vb : VirtioBlk} {Vs : VirtioBlkSpec}.

(** The kernel between the sleep of [p] in virtio_disk_rw and its return: the
    scheduler's processor takes the interrupt of the served request, and its
    scan comes to [p]. *)
Definition disk_cycle (p : nat) : K bool :=
  sched_back p ;;
  modify device_serve ;;
  virtio_disk_intr ;;
  id ← cpuid;
  scheduler_scan id [p] false.

Definition disk_env (s : kstate) : kstate :=
  match (cur_cpu s).(c_proc) with
  | Some p => match disk_cycle p s with Waiting s' _ => s' | _ => s end
  | None => s
  end.

(** virtio_disk_rw with the device and the rest of the kernel around it. *)
Definition virtio_dev : BlockDev := λ b write s, run [disk_env] (virtio_disk_rw b write s).

Lemma mfor_ret_skip {A R} (body : A → K (option R)) l1 l2 s :
  (∀ x, x ∈ l1 → body x s = Done None s) → mfor_ret (l1 ++ l2) body s = mfor_ret l2 body s.
Proof.
  induction l1 as [|x l1 IH]; intros Hb; cbn [app mfor_ret]; [done|].
  mstep (Hb x ltac:(by left)). apply IH. intros y Hy. apply Hb. by right.
Qed.

Lemma alloc_desc_at i s :
  (i < NUM)%nat → (∀ j, (j < i)%nat → is_free (kvdisk s) j = false) → is_free (kvdisk s) i = true →
  alloc_desc s = Done (Some i) (set_kvdisk (set_vd_free (λ l, <[i := 0]> l)) s).
Proof.
  intros Hi Hj Hf. unfold alloc_desc.
  replace NUM with (i + S (NUM - S i))%nat by lia. rewrite seq_app. cbn [seq Nat.add].
  rewrite bind_unfold, mfor_ret_skip.
  - cbn [mfor_ret]. erewrite (bind_done _ _ s) by (mnext; change (kvdisk s) with (kvdisk s); rewrite Hf; reflexivity). done.
  - intros j Hin. apply elem_of_seq in Hin. mnext. change (kvdisk s) with (kvdisk s). by rewrite Hj by lia.
Qed.

Definition three_taken : list Z := [0; 0; 0; 1; 1; 1; 1; 1].

Lemma alloc3_ready k s :
  vd_free (kvdisk s) = replicate NUM 1 →
  alloc3_wait (S k) s = Done [0; 1; 2]%nat (set_kvdisk (set_vd_free (λ _, three_taken)) s).
Proof.
  intros Hf.
  assert (E : alloc3_desc s = Done (Some [0; 1; 2]%nat) (set_kvdisk (set_vd_free (λ _, three_taken)) s)).
  { unfold alloc3_desc. cbn [alloc3_loop].
    assert (E0 : is_free (kvdisk s) 0 = true) by (unfold is_free; by rewrite Hf).
    mstep (alloc_desc_at 0 s ltac:(unfold NUM; lia) ltac:(lia) E0).
    set (s1 := set_kvdisk _ s).
    assert (F1 : vd_free (kvdisk s1) = [0; 1; 1; 1; 1; 1; 1; 1]) by (cbn; by rewrite Hf).
    assert (E1 : is_free (kvdisk s1) 1 = true) by (unfold is_free; by rewrite F1).
    rewrite bind_unfold, (alloc_desc_at 1 s1); [|unfold NUM; lia| |done].
    2: { intros j Hj. unfold is_free. rewrite F1. by replace j with 0%nat by lia. }
    cbn [obind]. set (s2 := set_kvdisk _ s1).
    assert (F2 : vd_free (kvdisk s2) = [0; 0; 1; 1; 1; 1; 1; 1]).
    { change (<[1%nat := 0]> (vd_free (kvdisk s1)) = [0; 0; 1; 1; 1; 1; 1; 1]). by rewrite F1. }
    assert (E2 : is_free (kvdisk s2) 2 = true) by (unfold is_free; by rewrite F2).
    rewrite bind_unfold, (alloc_desc_at 2 s2); [|unfold NUM; lia| |done].
    2: { intros j Hj. unfold is_free. rewrite F2.
         assert (j = 0 ∨ j = 1)%nat as [-> | ->] by lia; done. }
    cbn [obind]. unfold mret, M_ret. f_equal.
    change (set_kvdisk (set_vd_free (λ _, <[2%nat := 0]> (vd_free (kvdisk s2)))) s =
      set_kvdisk (set_vd_free (λ _, three_taken)) s). by rewrite F2. }
  cbn [alloc3_wait]. by mstep E.
Qed.

(** The state once the request is offered. *)
Definition posted (b : nat) (write : bool) (sector : Z) (s : kstate) : kstate :=
  let v := s.(kvdisk) in
  let slot := Z.to_nat (v.(avail_idx) mod Z.of_nat NUM) in
  set_mmio (λ l, l ++ [(VIRTIO0 + VIRTIO_MMIO_QUEUE_NOTIFY, 0)])
    (upd_buf b (set_b_disk (λ _, 1))
      (set_kvdisk (λ v,
        mk_vdisk
          (<[2%nat := mk_desc (status_addr 0) 1 VRING_DESC_F_WRITE 0]>
            (<[1%nat := mk_desc (data_addr b) BSIZE
                 (Z.lor (if write then 0 else VRING_DESC_F_WRITE) VRING_DESC_F_NEXT) 2]>
              (<[0%nat := mk_desc (ops_addr 0) 16 VRING_DESC_F_NEXT 1]> v.(vd_desc))))
          (u16 (v.(avail_idx) + 1)) (<[slot := 0]> v.(avail_ring)) v.(used_idx_dev) v.(used_ring)
          v.(vd_free) v.(vd_used_idx) (<[0%nat := Some b]> v.(info_b))
          (<[0%nat := 0xff]> v.(info_status))
          (<[0%nat := mk_req (if write then VIRTIO_BLK_T_OUT else VIRTIO_BLK_T_IN) 0 sector]> v.(vd_ops))) s)).

Lemma post_request_done b write sector s :
  post_request b write sector 0 1 2 s = Done () (posted b write sector s).
Proof. reflexivity. Qed.

(** ** The device's turn *)

Definition vd_open (v : vdisk) : Prop :=
  length v.(vd_desc) = NUM ∧ length v.(vd_ops) = NUM ∧ length v.(info_b) = NUM ∧
  length v.(info_status) = NUM ∧ length v.(avail_ring) = NUM ∧ length v.(used_ring) = NUM ∧
  0 ≤ v.(avail_idx) < 65536 ∧ v.(used_idx_dev) = v.(avail_idx) ∧ v.(vd_used_idx) = v.(avail_idx).

Definition slot_of (i : Z) : nat := Z.to_nat (i mod Z.of_nat NUM).

Lemma slot_of_lt i : (slot_of i < NUM)%nat.
Proof. unfold slot_of, NUM. mlia. Qed.

Definition served_vd (v : vdisk) : vdisk :=
  set_used_idx_dev (λ i, u16 (i + 1))
    (set_used_ring (λ l, <[slot_of v.(used_idx_dev) := 0]> l)
      (set_info_status (λ l, <[0%nat := 0]> l) v)).

Lemma u16_next_ne i : 0 ≤ i < 65536 → u16 (i + 1) ≠ i.
Proof. unfold u16. intros. mlia. Qed.

Lemma device_serve_posted b write s :
  vd_open s.(kvdisk) → 0 ≤ (get_buf b s).(b_blockno) < 2147483648 → (b < length s.(bufs))%nat →
  let s1 := posted b write (u32 ((get_buf b s).(b_blockno) * (BSIZE / 512))) s in
  device_serve s1 = set_kvdisk served_vd (rw_effect b write s1).
Proof.
  intros (Hd & Ho & Hi & Hst & Ha & Hu & Hidx & Hsv & Hsn) Hb Hbl s1.
  set (bn := (get_buf b s).(b_blockno)) in *.
  assert (Hbn : (get_buf b s1).(b_blockno) = bn).
  { unfold s1, posted. change (get_buf b (set_mmio _ (upd_buf b ?g (set_kvdisk _ s)))) with (get_buf b (upd_buf b g s)).
    by rewrite upd_buf_eq. }
  set (v := s.(kvdisk)) in *. set (v1 := s1.(kvdisk)).
  assert (E1 : v1.(used_idx_dev) = v.(avail_idx)) by exact Hsv.
  assert (E2 : v1.(avail_idx) = u16 (v.(avail_idx) + 1)) by done.
  assert (E3 : v1.(avail_ring) !!! slot_of v.(avail_idx) = 0).
  { apply list_lookup_total_insert_eq. change (slot_of v.(avail_idx) < length v.(avail_ring))%nat.
    rewrite Ha. apply slot_of_lt. }
  set (D0 := mk_desc (ops_addr 0) 16 VRING_DESC_F_NEXT 1).
  set (D1 := mk_desc (data_addr b) BSIZE
    (Z.lor (if write then 0 else VRING_DESC_F_WRITE) VRING_DESC_F_NEXT) 2).
  set (D2 := mk_desc (status_addr 0) 1 VRING_DESC_F_WRITE 0).
  assert (A : v1.(vd_desc) !!! 0%nat = D0 ∧ v1.(vd_desc) !!! 1%nat = D1 ∧ v1.(vd_desc) !!! 2%nat = D2).
  { change (vd_desc v1) with (<[2%nat := D2]> (<[1%nat := D1]> (<[0%nat := D0]> v.(vd_desc)))).
    by destruct (vd_desc v) as [|? [|? [|? ?]]]. }
  destruct A as (A0 & A1 & A2).
  set (R := mk_req (if write then VIRTIO_BLK_T_OUT else VIRTIO_BLK_T_IN) 0 (u32 (bn * (BSIZE / 512)))).
  assert (E5 : v1.(vd_ops) !!! 0%nat = R).
  { change (vd_ops v1) with (<[0%nat := R]> v.(vd_ops)). by destruct (vd_ops v). }
  assert (Edata : Z.to_nat (data_addr b / 3) = b) by (unfold data_addr; mlia).
  assert (Esec : u32 (bn * (BSIZE / 512)) / 2 = bn).
  { change (BSIZE / 512) with 2. rewrite u32_small by lia. mlia. }
  assert (Emod : u32 (bn * (BSIZE / 512)) mod 2 = 0).
  { change (BSIZE / 512) with 2. rewrite u32_small by lia. mlia. }
  assert (Edm : data_addr b mod 3 = 1) by (unfold data_addr; mlia).
  assert (Hnt : bool_decide (last s1.(mmio) = Some (VIRTIO0 + VIRTIO_MMIO_QUEUE_NOTIFY, 0)) = true).
  { apply bool_decide_eq_true_2. unfold s1, posted. cbn [mmio set_mmio]. by rewrite last_snoc. }
  assert (Hoff : offered s1 = Some (mk_blk_request (slot_of (used_idx_dev v1)) 0 0 b bn write)).
  { unfold offered, well_formed. fold v1. fold (slot_of (used_idx_dev v1)).
    rewrite E1, E2, E3. change (Z.to_nat 0) with 0%nat. rewrite A0.
    change (Z.to_nat (d_next D0)) with 1%nat. rewrite A1. change (Z.to_nat (d_next D1)) with 2%nat. rewrite A2.
    change (Z.to_nat (d_addr D0 / 3)) with 0%nat. change (Z.to_nat (d_addr D2 / 3)) with 0%nat. rewrite E5.
    change (d_addr D1) with (data_addr b). rewrite Edata. change (r_sector R) with (u32 (bn * (BSIZE / 512))).
    rewrite Esec, Emod, Edm, Hnt, Z.eqb_refl. by destruct write. }
  rewrite (serve_offered s1 _ Hoff). unfold answered, rw_effect. cbn [rq_slot rq_head rq_status rq_buf rq_block rq_write].
  rewrite Hbn. by destruct write.
Qed.

(** The interrupt handler on a used ring with one new entry. *)
Lemma virtio_disk_intr_one b s :
  cpu_ok s → lock_free LkVdisk s → procs_free s → length s.(procs) = NPROC →
  let v := s.(kvdisk) in
  0 ≤ v.(vd_used_idx) < 65536 → v.(used_idx_dev) = u16 (v.(vd_used_idx) + 1) →
  v.(used_ring) !!! slot_of v.(vd_used_idx) = 0 →
  v.(info_status) !!! 0%nat = 0 → v.(info_b) !!! 0%nat = Some b →
  ∃ mm, virtio_disk_intr s = Done ()
    (set_procs (imap (woken (cur_cpu s).(c_proc) (ChBuf b)))
      (set_kvdisk (set_vd_used_idx (λ i, u16 (i + 1)))
        (upd_buf b (set_b_disk (λ _, 0)) (set_mmio (λ l, l ++ mm) s)))).
Proof.
  intros Hs Hl Hpf Hlen v Hi Hnext Hring Hst Hb. unfold virtio_disk_intr.
  mstep (acquire_free _ _ (proj1 Hs) Hl). mnext. unfold R_write, mmio_write. mnext.
  set (mm := [(VIRTIO0 + VIRTIO_MMIO_INTERRUPT_ACK, _)]). exists mm.
  set (s1 := upd_buf b (set_b_disk (λ _, 0)) (set_mmio (λ l, l ++ mm) s)).
  set (s2 := set_procs (imap (woken (cur_cpu s).(c_proc) (ChBuf b))) s1).
  set (s3 := set_kvdisk (set_vd_used_idx (λ i, u16 (i + 1))) s2).
  assert (Hrounds : ∃ k, Z.to_nat 65536 = S (S k)) by (exists (Z.to_nat 65534); lia).
  destruct Hrounds as [k ->].
  assert (E : intr_loop (S (S k)) (set_mmio (λ l, l ++ mm) (acq LkVdisk s)) = Done () (acq LkVdisk s3)).
  { cbn [intr_loop]. mnext. change (kvdisk (set_mmio _ (acq LkVdisk s))) with v.
    rewrite (proj2 (Z.eqb_neq _ _)) by (rewrite Hnext; intros E; symmetry in E; revert E; by apply u16_next_ne).
    fold (slot_of (vd_used_idx v)). rewrite Hring. change (Z.to_nat 0) with 0%nat. rewrite Hst, Hb.
    cbn [Z.eqb negb deref]. mnext. mnext.
    change (upd_buf b (set_b_disk (λ _, 0)) (set_mmio (λ l, l ++ mm) (acq LkVdisk s))) with (acq LkVdisk s1).
    assert (Ew : wakeup (ChBuf b) (acq LkVdisk s1) = Done () (acq LkVdisk s2)).
    { rewrite wakeup_done.
      - unfold acq, cur_cpu. cbn. rewrite lookup_total_alter_list_eq by apply Hs. done.
      - by apply (cpu_ok_acq LkVdisk s1).
      - intros i Hip. apply lock_free_acq; [done|]. by apply Hpf.
      - done. }
    mstep Ew. mnext. mnext. change (kvdisk (set_kvdisk ?g (acq LkVdisk s2))) with (g v).
    change (used_idx_dev (set_vd_used_idx _ v)) with (used_idx_dev v).
    change (vd_used_idx (set_vd_used_idx (λ i, u16 (i + 1)) v)) with (u16 (vd_used_idx v + 1)).
    by rewrite Hnext, Z.eqb_refl. }
  mstep E. exact (release_acq LkVdisk s3 Hs Hl).
Qed.

(** [p] is the only sleeper. *)
Lemma woken_idle ch p s :
  quiet p s →
  set_procs (imap (woken None ch)) (idle ch p s) =
    upd_proc p (set_p_state (λ _, RUNNABLE)) (idle ch p s).
Proof.
  intros (_ & _ & _ & _ & _ & _ & Hns & _). unfold idle.
  change (set_procs (λ l, imap (woken None ch) (alter (slept ch) p l)) (upd_cpu (set_c_proc (λ _, None)) s) =
    set_procs (λ l, alter (set_p_state (λ _, RUNNABLE)) p (alter (slept ch) p l))
      (upd_cpu (set_c_proc (λ _, None)) s)).
  unfold set_procs. f_equal. change (procs (upd_cpu _ s)) with (procs s).
  apply list_eq. intros i. rewrite list_lookup_imap, alter_alter_list.
  destruct (decide (i = p)) as [->|Hne].
  - rewrite !list_lookup_alter_eq. destruct (procs s !! p) as [q|]; [|done]. cbn. f_equal.
    unfold woken, sleeping_on. rewrite (bool_decide_eq_false_2 (None = Some p)) by done.
    by rewrite !bool_decide_eq_true_2 by done.
  - rewrite !list_lookup_alter_ne by done. destruct (procs s !! i) as [q|] eqn:E; [|done]. cbn. f_equal.
    unfold woken, sleeping_on. rewrite (bool_decide_eq_false_2 (p_state q = SLEEPING)) by eauto.
    by rewrite andb_false_r.
Qed.

(** The transfer is done and the driver knows. *)
Definition completed (b : nat) (write : bool) (mm : list (Z * Z)) (s : kstate) : kstate :=
  set_kvdisk (set_vd_used_idx (λ i, u16 (i + 1)))
    (upd_buf b (set_b_disk (λ _, 0)) (set_mmio (λ l, l ++ mm)
      (set_kvdisk served_vd (rw_effect b write s)))).

Definition request (b : nat) (write : bool) (s : kstate) : kstate :=
  posted b write (u32 ((get_buf b s).(b_blockno) * (BSIZE / 512))) s.

Lemma disk_cycle_done b write p s :
  quiet p s → vd_open s.(kvdisk) → 0 ≤ (get_buf b s).(b_blockno) < 2147483648 →
  (b < length s.(bufs))%nat →
  let s2 := request b write s in
  ∃ mm k, disk_cycle p (asleep (ChBuf b) LkVdisk p (acq LkVdisk s2)) =
    Waiting (dispatched s.(hart) p (upd_proc p (set_p_state (λ _, RUNNABLE))
      (idle (ChBuf b) p (completed b write mm s2)))) k.
Proof.
  intros Hq Hv Hb Hbl s2. pose proof Hq as (Hh & Hset & Hc & Hp & Hlen & Hl & Hns & Hn & _).
  unfold disk_cycle. assert (Hq2 : quiet p s2) by exact Hq.
  mstep (sched_back_idle (ChBuf b) LkVdisk p s2 Hq2 I ltac:(done)). mnext.
  assert (Ed : device_serve (idle (ChBuf b) p s2) =
    idle (ChBuf b) p (set_kvdisk served_vd (rw_effect b write s2))).
  { etransitivity; [exact (device_serve_posted b write (idle (ChBuf b) p s) Hv Hb Hbl)|].
    by destruct write. }
  rewrite Ed. set (s3 := set_kvdisk served_vd (rw_effect b write s2)).
  assert (Hq3 : quiet p s3) by (by destruct write).
  assert (Hkv : kvdisk (idle (ChBuf b) p s3) = served_vd (kvdisk s2)) by (by destruct write).
  destruct Hv as (Hd & Ho & Hi & Hst & Ha & Hu & Hidx & Hsv & Hsn).
  set (v := kvdisk s) in *.
  destruct (virtio_disk_intr_one b (idle (ChBuf b) p s3)) as [mm Ei]; rewrite ?Hkv.
  - by apply idle_cpu_ok.
  - unfold s3. destruct write; by apply (Hl LkVdisk).
  - intros i Hip. unfold s3. destruct write; by apply (Hl (LkProc i)).
  - unfold s3. destruct write; cbn; by rewrite length_alter.
  - change (0 ≤ vd_used_idx v < 65536). by rewrite Hsn.
  - change (u16 (used_idx_dev v + 1) = u16 (vd_used_idx v + 1)). by rewrite Hsv, Hsn.
  - change (<[slot_of (used_idx_dev v) := 0]> (used_ring v) !!! slot_of (vd_used_idx v) = 0).
    rewrite Hsv, Hsn. apply list_lookup_total_insert_eq. rewrite Hu. apply slot_of_lt.
  - change (<[0%nat := 0]> (<[0%nat := 0xff]> (info_status v)) !!! 0%nat = 0). by destruct (info_status v).
  - change (<[0%nat := Some b]> (info_b v) !!! 0%nat = Some b). by destruct (info_b v).
  - exists mm. mstep Ei. rewrite (cur_idle _ _ _ Hq3). cbn [c_proc set_c_proc]. mnext.
    set (s4 := completed b write mm s2).
    assert (Hq4 : quiet p s4) by (by destruct write).
    match goal with |- context [scheduler_scan _ _ _ ?x] =>
      change x with (set_procs (imap (woken None (ChBuf b))) (idle (ChBuf b) p s4)) end.
    rewrite (woken_idle _ _ _ Hq4). set (s5 := upd_proc p _ (idle (ChBuf b) p s4)).
    pose proof (scheduler_scan_run (hart s) [p] false s5 (idle_cpu_ok (ChBuf b) p s4 Hq4)) as Hrun.
    assert (Hr : runnable s5 p = true).
    { unfold runnable, get_proc. apply bool_decide_eq_true_2. unfold s5, upd_proc. cbn [procs set_procs].
      rewrite lookup_total_alter_list_eq; [done|]. unfold idle, s4. destruct write; cbn;
        rewrite length_alter; lia. }
    cbn [List.find] in Hrun. rewrite Hr in Hrun.
    destruct Hrun as [k Ek]; [|exists k; by destruct write].
    intros i Hip. apply list_elem_of_singleton in Hip as ->. unfold s5, s4.
    destruct write; by apply (Hl (LkProc p)).
Qed.

(** ** Giving the descriptors back *)

Definition freed_desc (i : nat) (v : vdisk) : vdisk :=
  set_vd_free (λ l, <[i := 1]> l) (set_vd_desc (λ l, <[i := mk_desc 0 0 0 0]> l) v).

Lemma free_desc_done i p s :
  quiet p s → (i < NUM)%nat → is_free (kvdisk s) i = false →
  free_desc i (acq LkVdisk s) = Done () (acq LkVdisk (set_kvdisk (freed_desc i) s)).
Proof.
  intros Hq Hi Hf. unfold free_desc. rewrite (proj2 (Nat.leb_gt _ _) Hi). mnext.
  change (kvdisk (acq LkVdisk s)) with (kvdisk s). rewrite Hf. unfold set_desc. do 2 mnext.
  set (s1 := set_kvdisk (freed_desc i) s).
  change (wakeup ChDiskFree (acq LkVdisk s1) = Done () (acq LkVdisk s1)).
  apply wakeup_idle; [|..|apply Hq].
  - apply cpu_ok_acq. by apply (quiet_cpu_ok p).
  - intros j Hj. apply lock_free_acq; [done|]. by apply (quiet_procs_free p s Hq).
  - apply Hq.
Qed.

Lemma free_chain_step k i p s :
  quiet p s → (i < NUM)%nat → is_free (kvdisk s) i = false →
  let d := (kvdisk s).(vd_desc) !!! i in
  free_chain_loop (S k) i (acq LkVdisk s) =
    (if negb (Z.land d.(d_flags) VRING_DESC_F_NEXT =? 0) then free_chain_loop k (Z.to_nat d.(d_next))
     else mret ()) (acq LkVdisk (set_kvdisk (freed_desc i) s)).
Proof.
  intros Hq Hi Hf d. cbn [free_chain_loop]. mnext. change (kvdisk (acq LkVdisk s)) with (kvdisk s).
  fold d. by mstep (free_desc_done i p s Hq Hi Hf).
Qed.

Lemma free_chain_three p s a b w :
  quiet p s → (kvdisk s).(vd_free) = three_taken → length (kvdisk s).(vd_desc) = NUM →
  (kvdisk s).(vd_desc) !!! 0%nat = mk_desc a 16 VRING_DESC_F_NEXT 1 →
  (kvdisk s).(vd_desc) !!! 1%nat =
    mk_desc b BSIZE (Z.lor (if w : bool then 0 else VRING_DESC_F_WRITE) VRING_DESC_F_NEXT) 2 →
  (∃ c, (kvdisk s).(vd_desc) !!! 2%nat = mk_desc c 1 VRING_DESC_F_WRITE 0) →
  ∃ d', length d' = NUM ∧
    free_chain 0 (acq LkVdisk s) = Done () (acq LkVdisk
      (set_kvdisk (λ v, set_vd_free (λ _, replicate NUM 1) (set_vd_desc (λ _, d') v)) s)).
Proof.
  intros Hq Hf Hlen H0 H1 [c H2]. set (v := kvdisk s) in *.
  set (z := mk_desc 0 0 0 0).
  exists (<[2%nat := z]> (<[1%nat := z]> (<[0%nat := z]> v.(vd_desc)))).
  split; [by rewrite !length_insert|]. unfold free_chain, NUM.
  set (s1 := set_kvdisk (freed_desc 0) s). set (s2 := set_kvdisk (freed_desc 1) s1).
  set (s3 := set_kvdisk (freed_desc 2) s2).
  rewrite (free_chain_step 8 0 p s Hq); [|unfold NUM; lia|unfold is_free; fold v; by rewrite Hf].
  fold v. rewrite H0. cbn [d_flags d_next].
  change (Z.land VRING_DESC_F_NEXT VRING_DESC_F_NEXT) with 1. cbn [Z.eqb negb].
  change (Z.to_nat 1) with 1%nat. fold s1.
  assert (F1 : vd_free (kvdisk s1) = <[0%nat := 1]> three_taken) by (rewrite <- Hf; done).
  assert (D1 : vd_desc (kvdisk s1) !!! 1%nat = vd_desc v !!! 1%nat).
  { change (<[0%nat := z]> (vd_desc v) !!! 1%nat = vd_desc v !!! 1%nat). by apply list_lookup_total_insert_ne. }
  rewrite (free_chain_step 7 1 p s1 Hq); [|unfold NUM; lia|unfold is_free; by rewrite F1].
  rewrite D1, H1.
  assert (Hfl : Z.land (Z.lor (if w then 0 else VRING_DESC_F_WRITE) VRING_DESC_F_NEXT) VRING_DESC_F_NEXT = 1)
    by (by destruct w).
  cbn [d_flags d_next]. rewrite Hfl. cbn [Z.eqb negb]. change (Z.to_nat 2) with 2%nat. fold s2.
  assert (F2 : vd_free (kvdisk s2) = <[1%nat := 1]> (<[0%nat := 1]> three_taken)) by (rewrite <- F1; done).
  assert (D2 : vd_desc (kvdisk s2) !!! 2%nat = vd_desc v !!! 2%nat).
  { change (<[1%nat := z]> (<[0%nat := z]> (vd_desc v)) !!! 2%nat = vd_desc v !!! 2%nat).
    by rewrite !list_lookup_total_insert_ne by done. }
  rewrite (free_chain_step 6 2 p s2 Hq); [|unfold NUM; lia|unfold is_free; by rewrite F2].
  rewrite D2, H2. cbn [d_flags d_next].
  change (Z.land VRING_DESC_F_WRITE VRING_DESC_F_NEXT) with 0. cbn [Z.eqb negb].
  assert (F3 : vd_free (kvdisk s3) = replicate NUM 1).
  { change (<[2%nat := 1]> (vd_free (kvdisk s2)) = replicate NUM 1). by rewrite F2. }
  unfold mret, M_ret. f_equal. f_equal.
  change (set_kvdisk (λ v, set_vd_free (λ _, vd_free (kvdisk s3))
    (set_vd_desc (λ l, <[2%nat := z]> (<[1%nat := z]> (<[0%nat := z]> l))) v)) s =
    set_kvdisk (λ v', set_vd_free (λ _, replicate NUM 1) (set_vd_desc
      (λ _, <[2%nat := z]> (<[1%nat := z]> (<[0%nat := z]> (vd_desc v)))) v')) s).
  by rewrite F3.
Qed.

(** ** The whole call *)

(** virtio_disk_rw offers the request, sleeps, and after the cycle goes on
    with the transfer done, holding its lock. *)
Lemma virtio_dev_cycle b write p s :
  (0 < fuel)%nat → quiet p s → vd_ready s.(kvdisk) → (b < length s.(bufs))%nat →
  0 ≤ (get_buf b s).(b_blockno) < 2147483648 →
  let s1 := set_kvdisk (set_vd_free (λ _, three_taken)) s in
  ∃ mm, let s2 := completed b write mm (request b write s1) in
    virtio_dev b write s =
      (modify (set_kvdisk (set_info_b (λ l, <[0%nat := None]> l))) ;;
       free_chain 0 ;;
       release LkVdisk) (acq LkVdisk s2).
Proof.
  intros Hfu Hq Hv Hbl Hbn s1. pose proof Hq as (Hh & Hset & Hc & Hp & Hlen & Hl & Hns & Hn & _).
  destruct Hv as [V1 V2 V3 V4 V5 V6 V7 V8 V9 V10].
  assert (Hopen : vd_open s1.(kvdisk)) by done.
  unfold virtio_dev, virtio_disk_rw. set (s2 := request b write s1).
  mnext. mstep (acquire_free LkVdisk s Hh (Hl LkVdisk I)).
  mstep (alloc3_ready fuel (acq LkVdisk s) V7).
  change ([0; 1; 2]%nat !!! 0%nat) with 0%nat. change ([0; 1; 2]%nat !!! 1%nat) with 1%nat.
  change ([0; 1; 2]%nat !!! 2%nat) with 2%nat.
  rewrite (bind_done _ _ _ () (acq LkVdisk s2)) by (apply post_request_done).
  assert (Hq2 : quiet p s2) by exact Hq.
  destruct (sleep_waits (ChBuf b) LkVdisk p (acq LkVdisk s2)) as (k & Hk & Hres).
  { by rewrite length_cpus_acq. } { change (p < length (procs s))%nat. lia. } { done. } { apply held_acq. }
  { apply lock_free_acq; [done|]. by apply (Hl (LkProc p)). }
  { rewrite noff_acq by done. unfold cur_cpu. change (noff (cpus s !!! hart s) + 1 = 1). rewrite Hn. lia. }
  { by apply sie_acq. }
  { unfold acq, cur_cpu. cbn. by rewrite lookup_total_alter_list_eq. }
  assert (Ew : disk_wait (S fuel) b (acq LkVdisk s2) =
    Waiting (asleep (ChBuf b) LkVdisk p (acq LkVdisk s2)) (λ s', obind (k s') (λ _, disk_wait fuel b))).
  { cbn [disk_wait]. mnext. change (get_buf b (acq LkVdisk s2)) with (get_buf b (upd_buf b (set_b_disk (λ _, 1)) s)).
    rewrite upd_buf_eq by done. cbn [b_disk set_b_disk Z.eqb Pos.eqb]. by apply bind_waiting. }
  destruct (disk_cycle_done b write p s1 Hq Hopen Hbn Hbl) as (mm & k' & Ec). fold s2 in Ec.
  exists mm. cbv zeta. set (s4 := completed b write mm s2).
  rewrite (bind_waiting _ _ _ _ _ Ew). cbn [run]. unfold disk_env.
  assert (Hcp : c_proc (cur_cpu (asleep (ChBuf b) LkVdisk p (acq LkVdisk s2))) = Some p).
  { unfold asleep, acq, cur_cpu. cbn. by rewrite lookup_total_alter_list_eq. }
  rewrite Hcp, Ec. fold s4. assert (Hq4 : quiet p s4) by (by destruct write).
  destruct (dispatch_idle (ChBuf b) LkVdisk p s4 Hq4 I ltac:(done)) as [Hsw Hlf].
  pose proof (awoken_idle (ChBuf b) LkVdisk p s4 Hq4 I ltac:(done)) as Ea.
  assert (Eh4 : hart s4 = hart s1) by (by destruct write). rewrite Eh4 in Ea, Hsw, Hlf.
  assert (Eie : intena (cur_cpu (acq LkVdisk s4)) = intena (cur_cpu (acq LkVdisk s2))) by (by destruct write).
  rewrite Eie in Ea. rewrite (Hres _ Hsw Hlf), Ea. cbn [obind].
  assert (Edone : disk_wait fuel b (acq LkVdisk s4) = Done () (acq LkVdisk s4)); [|by rewrite Edone].
  destruct fuel as [|f]; [lia|]. cbn [disk_wait]. mnext.
  change (get_buf b (acq LkVdisk s4)) with (get_buf b (upd_buf b (set_b_disk (λ _, 0)) (rw_effect b write s2))).
  rewrite upd_buf_eq; [done|]. destruct write; cbn; by rewrite ?length_alter.
Qed.

(** What the driver's tables hold when the transfer is done. *)
Lemma request_vd b write mm s :
  length (vd_desc (kvdisk s)) = NUM →
  let s1 := set_kvdisk (set_vd_free (λ _, three_taken)) s in
  let s3 := set_kvdisk (set_info_b (λ l, <[0%nat := None]> l)) (completed b write mm (request b write s1)) in
  vd_free (kvdisk s3) = three_taken ∧
  vd_desc (kvdisk s3) !!! 0%nat = mk_desc (ops_addr 0) 16 VRING_DESC_F_NEXT 1 ∧
  vd_desc (kvdisk s3) !!! 1%nat = mk_desc (data_addr b) BSIZE
    (Z.lor (if write then 0 else VRING_DESC_F_WRITE) VRING_DESC_F_NEXT) 2 ∧
  vd_desc (kvdisk s3) !!! 2%nat = mk_desc (status_addr 0) 1 VRING_DESC_F_WRITE 0.
Proof.
  intros Hlen s1 s3. split; [by destruct write|].
  assert (E : vd_desc (kvdisk s3) =
    <[2%nat := mk_desc (status_addr 0) 1 VRING_DESC_F_WRITE 0]>
      (<[1%nat := mk_desc (data_addr b) BSIZE
           (Z.lor (if write then 0 else VRING_DESC_F_WRITE) VRING_DESC_F_NEXT) 2]>
        (<[0%nat := mk_desc (ops_addr 0) 16 VRING_DESC_F_NEXT 1]> (vd_desc (kvdisk s)))))
    by (by destruct write).
  rewrite E. by destruct (vd_desc (kvdisk s)) as [|? [|? [|? ?]]].
Qed.

(** Outside the driver only the transfer is visible: [b->disk] is 0 again. *)
Lemma rw_effect_flag b write s :
  (b < length s.(bufs))%nat → (get_buf b s).(b_disk) = 0 →
  upd_buf b (set_b_disk (λ _, 0)) (rw_effect b write (upd_buf b (set_b_disk (λ _, 1)) s)) =
    rw_effect b write s.
Proof.
  intros Hbl Hdk. unfold rw_effect. rewrite upd_buf_eq by done.
  assert (Eq : ∀ d, set_b_disk (λ _, 0) (set_b_data d (set_b_disk (λ _, 1) (get_buf b s))) =
                    set_b_data d (get_buf b s)).
  { intros d. destruct (get_buf b s). cbn in Hdk. by subst. }
  destruct write.
  - set (q := get_buf b s) in *. change (upd_buf b ?g (set_disk_writes ?w (set_disk ?d (upd_buf b ?h s))))
      with (set_disk_writes w (set_disk d (upd_buf b g (upd_buf b h s)))).
    rewrite upd_buf_upd_buf. unfold upd_buf at 1, set_bufs. rewrite alter_id_list; [done|].
    intros q' Hq'. pose proof (Eq (λ d, d)) as E. unfold q, get_buf in E.
    by rewrite (list_lookup_total_correct _ _ _ Hq') in E.
  - rewrite !upd_buf_upd_buf. unfold upd_buf, set_bufs. set (d := λ _ : list Z, disk_block _ _).
    by rewrite (alter_ext_total _ (set_b_data d) b (bufs s) Hbl (Eq d)).
Qed.

Lemma transfer_state b write mm g s :
  (b < length s.(bufs))%nat → (get_buf b s).(b_disk) = 0 →
  let s1 := set_kvdisk (set_vd_free (λ _, three_taken)) s in
  let s4 := set_kvdisk g (set_kvdisk (set_info_b (λ l, <[0%nat := None]> l))
    (completed b write mm (request b write s1))) in
  s4 = dev_to (kvdisk s4, mmio s4) (rw_effect b write s).
Proof.
  intros Hbl Hdk s1 s4. rewrite <- (rw_effect_flag b write s Hbl Hdk). by destruct write.
Qed.

(** The driver implements the block device the buffer cache relies on: a
    call of virtio_disk_rw, with the device serving the request, the interrupt
    handler waking the caller and the scheduler resuming it, returns with the
    block transferred and leaves everything but the driver's own state as it
    was; its descriptors are all free again. *)
Lemma virtio_dev_done b write p s :
  (0 < fuel)%nat → quiet p s → vd_ready s.(kvdisk) → (b < length s.(bufs))%nat →
  (get_buf b s).(b_disk) = 0 → 0 ≤ (get_buf b s).(b_blockno) < 2147483648 →
  ∃ vd, vd_ready vd.1 ∧ virtio_dev b write s = Done () (dev_to vd (rw_effect b write s)).
Proof.
  intros Hfu Hq Hv Hbl Hdk Hbn.
  destruct (virtio_dev_cycle b write p s Hfu Hq Hv Hbl Hbn) as [mm E].
  set (s1 := set_kvdisk (set_vd_free (λ _, three_taken)) s) in E. cbv zeta in E. rewrite E. mnext.
  set (s3 := set_kvdisk (set_info_b (λ l, <[0%nat := None]> l)) (completed b write mm (request b write s1))).
  change (set_kvdisk _ (acq LkVdisk _)) with (acq LkVdisk s3).
  assert (Hq3 : quiet p s3) by (by destruct write).
  destruct (request_vd b write mm s (vr_desc _ Hv)) as (F0 & D0 & D1 & D2). fold s1 s3 in F0, D0, D1, D2.
  assert (Hld : length (vd_desc (kvdisk s3)) = NUM).
  { transitivity (length (vd_desc (kvdisk s))); [|apply Hv]. destruct write; cbn; by rewrite !length_insert. }
  destruct (free_chain_three p s3 _ _ write Hq3 F0 Hld D0 D1 (ex_intro _ _ D2)) as (d' & Hd' & Ef).
  mstep Ef. set (s4 := set_kvdisk _ s3).
  assert (Hq4 : quiet p s4) by (by destruct write).
  rewrite (release_acq LkVdisk s4 (quiet_cpu_ok _ _ Hq4) (quiet_lock _ LkVdisk _ Hq4 I)).
  exists (kvdisk s4, mmio s4). split.
  - destruct Hv as [V1 V2 V3 V4 V5 V6 V7 V8 V9 V10].
    assert (Ei : ∀ i, i = avail_idx (kvdisk s) → u16 (i + 1) = u16 (avail_idx (kvdisk s) + 1)) by (by intros ? ->).
    split; [done|..]; destruct write; cbn; rewrite ?length_insert; try done; try apply u16_range; by apply Ei.
  - f_equal. by apply transfer_state.
Qed.

(** The interface of the buffer cache, discharged. *)
Definition virtio_dev_spec (Hfu : (0 < fuel)%nat) : @BlockDevSpec virtio_dev.
Proof.
  refine (@Build_BlockDevSpec virtio_dev vd_ready _).
  intros p i w s Hq Hv Hi Hlen Hdk _ Hbn. apply virtio_dev_done with p; try done. lia.
Defined.

(** C5. The driver implements the block device the buffer cache relies on,
    over every device that serves requests as the virtio standard says.  A call
    of virtio_disk_rw offers a well-formed request (its descriptors with the
    lengths and directions of header, block and status byte) and notifies the
    queue.  With the device serving it, the interrupt handler waking the caller
    and the scheduler resuming it, the call returns with the block transferred
    and leaves everything but the driver's own state as it was; its descriptors
    are all free again. *)
Theorem virtio_dev_refines b write p s :
  (0 < fuel)%nat → quiet p s → vd_ready s.(kvdisk) → (b < length s.(bufs))%nat →
  (get_buf b s).(b_disk) = 0 → 0 ≤ (get_buf b s).(b_blockno) < 2147483648 →
  ∃ vd, vd_ready vd.1 ∧ virtio_dev b write s = Done () (dev_to vd (rw_effect b write s)).
Proof. apply virtio_dev_done. Qed.

(** So what is proved of the buffer cache against the interface holds over
    this driver; for instance bread. *)
Corollary bread_over_virtio p s b :
  (0 < fuel)%nat → quiet p s → vd_ready s.(kvdisk) → bc s → 0 ≤ b < 2147483648 →
  lk s b = free_lock → rc s b < 4294967295 → (used s < NBUF)%nat →
  ∃ i s', @bread _ virtio_dev ROOTDEV b s = Done i s' ∧ hb s'.(bufs) i b ∧ bc s' ∧
    (∀ b', blk s' b' = blk s b').
Proof.
  intros Hfu Hq Hv Hbc Hb Hlk Hrc Hus.
  destruct (@bread_ok Fl virtio_dev (virtio_dev_spec Hfu) p s b) as (i & s' & E & [_ C2 C3 _ _ _ _] & Hh);
    try done; [by right|]. by exists i, s'.
Qed.
End driver.

(** An initialised driver below an empty cache. *)
Definition disk_demo : kstate := set_kvdisk (set_vd_free (λ _, replicate NUM 1)) demo_cache.

Lemma disk_demo_ready : vd_ready disk_demo.(kvdisk).
Proof. split; by vm_compute. Qed.

Lemma disk_demo_quiet : quiet 3 disk_demo.
Proof.
  apply demo_quiet; [by vm_compute..| |by vm_compute]. apply (bool_decide_unpack _). by vm_compute.
Qed.

Lemma virtio_dev_refines_witness : let F : Fuel := 1%nat in let D : Device := λ _ _, 0 in let V := strict_blk in
  ∃ vd, vd_ready vd.1 ∧ virtio_dev 4%nat true disk_demo = Done () (dev_to vd (rw_effect 4%nat true disk_demo)).
Proof.
  intros F D V. refine (@virtio_dev_refines F D V strict_blk_spec 4 true 3 disk_demo _ disk_demo_quiet disk_demo_ready _ _ _).
  - unfold fuel, F. lia.
  - apply (bool_decide_unpack _). by vm_compute.
  - by vm_compute.
  - apply (bool_decide_unpack _). by vm_compute.
Defined.
