(* ===== verification/LogConc.v ===== *)
(** The log under concurrent file system operations: begin_op reserves enough
    log space for every operation that is open, and the disk is written only
    by a commit that runs alone, in any interleaving.

    Each thread is followed with a ghost value: outside an operation, inside
    one that has logged [u] blocks, or committing.  [G] is a thread's
    obligation: whenever it waits or returns the invariant [J] holds for its
    own value and those [ps] of the others, which it has not changed, and it
    can go on from every state the others may have reached meanwhile. *)

From S2P Require Import Prelude Cmem Kstate Spinlock Sleep Sleeplock Kalloc Printf Bio Log Virtio.
Local Open Scope Z_scope.

(** A literal message is not one of those excluded. *)
Ltac literal_ok := apply (bool_decide_unpack _); vm_compute; exact I.

Section ghost.
Context {Fl : Fuel} {Dv : Device}.

Inductive phase : Type := Idle | Open (u : Z) | Commit.

Definition opens (ps : list phase) : list Z := omap (λ p, match p with Open u => Some u | _ => None end) ps.
Definition commits (ps : list phase) : list unit := omap (λ p, match p with Commit => Some () | _ => None end) ps.

(** Log space that open operations may still use. *)
Definition unused (us : list Z) : Z := foldr (λ u z, MAXOPBLOCKS - u + z) 0 us.

(** [us]: what the open operations have logged; [cs]: the running commits. *)
Record LI (us : list Z) (cs : list unit) (l : log) : Prop := {
  li_out : l.(l_outstanding) = Z.of_nat (length us);
  li_used : Forall (λ u, 0 ≤ u ≤ MAXOPBLOCKS) us;
  li_n : 0 ≤ l.(lh_n);
  li_room : l.(lh_n) + unused us ≤ LOGBLOCKS;
  li_flag : cs = if l.(l_committing) =? 0 then [] else [()];
  li_commit : cs ≠ [] → us = [] }.

Definition J (g : phase) (ps : list phase) (s : kstate) : Prop := LI (opens (g :: ps)) (commits (g :: ps)) s.(klog).

Definition okmsg (m : String.string) : Prop :=
  m ∉ ["too big a transaction"; "log_write outside of trans"; "log.committing";
       "log: block out of range"; "disk write outside a commit"]%string.

Fixpoint G {A} (Q : phase → A → kstate → Prop) (ps : list phase) (o : outcome kstate A) : Prop :=
  match o with
  | Done a s => ∃ g, J g ps s ∧ Q g a s
  | Panicked m => okmsg m
  | OutOfFuel => True
  | Waiting s k => ∃ g, J g ps s ∧ ∀ ps' s', J g ps' s' → G Q ps' (k s')
  end.

Definition triple {A} (g : phase) (m : K A) (Q : phase → A → kstate → Prop) : Prop :=
  ∀ ps s, J g ps s → G Q ps (m s).

(** Code that a thread in phase [g] can run without changing the log's state;
    code that every thread can. *)
Definition keeps {A} (g : phase) (m : K A) : Prop := triple g m (λ g' _ _, g' = g).
Definition stable {A} (m : K A) : Prop := ∀ g, keeps g m.

Lemma G_mono {A} (Q Q' : phase → A → kstate → Prop) us o :
  (∀ g a s, Q g a s → Q' g a s) → G Q us o → G Q' us o.
Proof.
  intros HQ. revert us. induction o as [a s| |s k IH|]; cbn; intros us; try done.
  - intros (g & HJ & H). eauto.
  - intros (g & HJ & H). exists g. split; [done|]. intros us' s' HJ'. apply IH. by apply H.
Qed.

Lemma G_bind {A B} (Q : phase → A → kstate → Prop) (Q' : phase → B → kstate → Prop) us o f :
  G Q us o → (∀ g a s us', J g us' s → Q g a s → G Q' us' (f a s)) → G Q' us (obind o f).
Proof.
  intros H Hf. revert us H. induction o as [a s| |s k IH|]; cbn; intros us H; try done.
  - destruct H as (g & HJ & HQ). by apply (Hf g).
  - destruct H as (g & HJ & H). exists g. split; [done|]. intros us' s' HJ'. by apply IH, H.
Qed.

Lemma keeps_bind {A B} g (m : K A) (f : A → K B) : keeps g m → (∀ a, keeps g (f a)) → keeps g (m ≫= f).
Proof.
  intros Hm Hf us s HJ. apply (G_bind (λ g' _ _, g' = g)); [by apply Hm|].
  intros g' a s' us' HJ' ->. by apply Hf.
Qed.

Lemma stable_keeps {A} g (m : K A) : stable m → keeps g m.
Proof. intros H. apply H. Qed.
Lemma stable_ret {A} (a : A) : stable (mret a).
Proof. intros g us s HJ. by exists g. Qed.
Lemma stable_gets {A} (f : kstate → A) : stable (gets f).
Proof. intros g us s HJ. by exists g. Qed.
Lemma stable_panic {A} m : okmsg m → stable (panic (A := A) m).
Proof. intros Hm g us s HJ. exact Hm. Qed.
Lemma stable_fuel {A} : stable (out_of_fuel (A := A)).
Proof. by intros g us s HJ. Qed.
Lemma stable_modify f : (∀ s, klog (f s) = klog s) → stable (modify f).
Proof. intros Hf g us s HJ. exists g. split; [|done]. unfold J in *. by rewrite Hf. Qed.
Lemma stable_yield : stable yield_cpu.
Proof. intros g us s HJ. exists g. split; [done|]. intros us' s' HJ'. by exists g. Qed.
Lemma keeps_when g b m : keeps g m → keeps g (when b m).
Proof. intros Hm. destruct b; [done|apply stable_ret]. Qed.
Lemma stable_deref {A} (p : option A) : stable (deref p).
Proof. destruct p; [apply stable_ret|apply stable_panic; literal_ok]. Qed.
Lemma keeps_mfor {A} g (l : list A) (body : A → K unit) : (∀ x, keeps g (body x)) → keeps g (mfor l body).
Proof.
  intros Hb. induction l as [|x l IH]; [apply stable_ret|]. apply keeps_bind; [done|]. intros []; exact IH.
Qed.
End ghost.

Create HintDb stable.
#[export] Hint Resolve stable_ret stable_gets stable_fuel stable_yield stable_deref : stable.

(** Follow the code; [solve_stable] leaves calls to the hints. *)
Ltac solve_stable :=
  try (match goal with |- stable _ => let g := fresh "g" in intros g end);
  repeat first
    [ solve [apply stable_keeps; auto with stable]
    | solve [auto with stable]
    | apply keeps_bind; [|intros ?]
    | apply stable_keeps, stable_modify; intros ?; reflexivity
    | apply stable_keeps, stable_panic; literal_ok
    | apply keeps_when
    | apply keeps_mfor; intros ?
    | case_match ].

Section code.
Context {Fl : Fuel} {Dv : Device} {La : Layout}.

Lemma stable_push_off : stable push_off.
Proof. unfold push_off, intr_get, intr_off, mycpu. solve_stable. Qed.
Lemma stable_pop_off : stable pop_off.
Proof. unfold pop_off, intr_get, intr_on, mycpu. solve_stable. Qed.
Lemma stable_holding lk : stable (holding lk).
Proof. unfold holding, cpuid. solve_stable. Qed.
Hint Resolve stable_push_off stable_pop_off stable_holding : stable.
Lemma stable_spin n lk : stable (acquire_spin n lk).
Proof. induction n; cbn [acquire_spin]; unfold test_and_set; solve_stable. Qed.
Hint Resolve stable_spin : stable.
Lemma stable_acquire lk : stable (acquire lk).
Proof. unfold acquire, cpuid. solve_stable. Qed.
Lemma stable_release lk : stable (release lk).
Proof. unfold release. solve_stable. Qed.
Hint Resolve stable_acquire stable_release : stable.
Lemma stable_myproc : stable myproc.
Proof. unfold myproc, mycpu. solve_stable. Qed.
Hint Resolve stable_myproc : stable.
Lemma stable_myproc_ptr : stable myproc_ptr.
Proof. unfold myproc_ptr. solve_stable. Qed.
Hint Resolve stable_myproc_ptr : stable.
Lemma stable_sleep ch lk : stable (sleep ch lk).
Proof. unfold sleep, sched, mycpu, intr_get. solve_stable. Qed.
Lemma stable_wakeup ch : stable (wakeup ch).
Proof. unfold wakeup. solve_stable. Qed.
Hint Resolve stable_sleep stable_wakeup : stable.
Lemma stable_acquiresleep_wait n x : stable (acquiresleep_wait n x).
Proof. induction n; cbn [acquiresleep_wait]; solve_stable. Qed.
Hint Resolve stable_acquiresleep_wait : stable.
Lemma stable_sl_set x l : stable (modify (sl_set x l)).
Proof. apply stable_modify. by destruct x. Qed.
Hint Resolve stable_sl_set : stable.
Lemma stable_acquiresleep x : stable (acquiresleep x).
Proof. unfold acquiresleep. solve_stable. Qed.
Lemma stable_releasesleep x : stable (releasesleep x).
Proof. unfold releasesleep. solve_stable. Qed.
Lemma stable_holdingsleep x : stable (holdingsleep x).
Proof. unfold holdingsleep. solve_stable. Qed.
Hint Resolve stable_acquiresleep stable_releasesleep stable_holdingsleep : stable.
Lemma stable_bpin b : stable (bpin b).
Proof. unfold bpin. solve_stable. Qed.
Lemma stable_bunpin b : stable (bunpin b).
Proof. unfold bunpin. solve_stable. Qed.
Lemma stable_brelse b : stable (brelse b).
Proof. unfold brelse, brelse_front. solve_stable. Qed.
Lemma stable_bget dev n : stable (bget dev n).
Proof. unfold bget. solve_stable. Qed.
End code.
#[export] Hint Resolve stable_acquire stable_release stable_wakeup stable_sleep stable_acquiresleep
  stable_releasesleep stable_holdingsleep stable_bpin stable_bunpin stable_brelse stable_bget : stable.

(** The virtio driver leaves the log alone. *)
Section virtio.
Context {Fl : Fuel} {La : Layout} {Dv : Device}.
Lemma stable_mfor_ret {A B} (l : list A) (body : A → K (option B)) :
  (∀ x, stable (body x)) → stable (mfor_ret l body).
Proof.
  intros Hb g. induction l as [|x l IH]; [apply stable_ret|]. apply keeps_bind; [apply Hb|].
  intros [b|]; [apply stable_ret|exact IH].
Qed.
Lemma stable_alloc_desc : stable alloc_desc.
Proof. unfold alloc_desc. intros g. apply keeps_bind; [apply stable_mfor_ret; intros i|intros ?]; solve_stable. Qed.
Lemma stable_free_desc i : stable (free_desc i).
Proof. unfold free_desc, set_desc. solve_stable. Qed.
Hint Resolve stable_alloc_desc stable_free_desc : stable.
Lemma stable_alloc3_loop k idx : stable (alloc3_loop k idx).
Proof. revert idx. induction k; intros idx; cbn [alloc3_loop]; solve_stable. Qed.
Hint Resolve stable_alloc3_loop : stable.
Lemma stable_alloc3_wait k : stable (alloc3_wait k).
Proof. induction k; cbn [alloc3_wait]; unfold alloc3_desc; solve_stable. Qed.
Lemma stable_disk_wait k b : stable (disk_wait k b).
Proof. induction k; cbn [disk_wait]; solve_stable. Qed.
Lemma stable_free_chain k i : stable (free_chain_loop k i).
Proof. revert i. induction k; intros i; cbn [free_chain_loop]; solve_stable. Qed.
Hint Resolve stable_alloc3_wait stable_disk_wait stable_free_chain : stable.
Lemma stable_virtio_disk_rw b w : stable (virtio_disk_rw b w).
Proof.
  unfold virtio_disk_rw, post_request, set_desc, R_write, mmio_write, free_chain. solve_stable.
Qed.
End virtio.

(** ** The log's operations *)

(** A disk that refuses to be written but by a commit without open
    operations. *)
Definition commit_only (bd : BlockDev) : BlockDev := λ b w,
  l ← gets klog;
  when (w && ((l.(l_committing) =? 0) || negb (l.(l_outstanding) =? 0))) (panic "disk write outside a commit") ;;
  @disk_rw bd b w.

(** While a commit runs there is no other, and no open operation. *)
Lemma LI_alone us cs l : LI us (() :: cs) l → us = [] ∧ cs = [] ∧ l.(l_committing) ≠ 0 ∧ l.(l_outstanding) = 0.
Proof.
  intros [Ho _ _ _ Hf Hc]. specialize (Hc ltac:(done)) as ->. destruct (Z.eqb_spec (l_committing l) 0); [done|].
  by injection Hf as ->.
Qed.

Lemma LI_clear us cs l : LI us cs l → LI us cs (set_lh_n (λ _, 0) l).
Proof. intros []. split; cbn; [done|done|lia|lia|done|done]. Qed.

(** The end of a commit. *)
Lemma LI_committed us cs l : LI us (() :: cs) l → LI us cs (set_l_committing (λ _, 0) l).
Proof. intros H. destruct (LI_alone _ _ _ H) as (-> & -> & _). by destruct H. Qed.

Section ops.
Context {Fl : Fuel} {Dv : Device} {bd : BlockDev}.
Hypothesis disk_stable : ∀ b w, stable (@disk_rw bd b w).
Hint Resolve disk_stable : stable.
Local Instance guarded : BlockDev := commit_only bd.

Lemma stable_disk_read b : stable (disk_rw b false).
Proof. unfold disk_rw, guarded, commit_only. cbn [andb when]. solve_stable. Qed.
Lemma keeps_disk_write b : keeps Commit (disk_rw b true).
Proof.
  intros ps s HJ. unfold disk_rw, guarded, commit_only. mnext. cbn [andb].
  destruct (LI_alone _ _ _ HJ) as (_ & _ & Hc & Ho). 
  replace (_ || _) with false by (symmetry; apply orb_false_intro; [by apply Z.eqb_neq|by apply negb_false_iff, Z.eqb_eq]). cbn [when]. mnext. by apply disk_stable.
Qed.
Hint Resolve stable_disk_read keeps_disk_write : stable.

Lemma stable_bread dev n : stable (bread dev n).
Proof. unfold bread. solve_stable. Qed.
Lemma keeps_bwrite b : keeps Commit (bwrite b).
Proof. unfold bwrite. solve_stable. Qed.
Hint Resolve stable_bread keeps_bwrite : stable.
Lemma keeps_write_head : keeps Commit write_head.
Proof. unfold write_head. solve_stable. Qed.
Lemma keeps_write_log : keeps Commit write_log.
Proof. unfold write_log, write_log_one. solve_stable. Qed.
Lemma keeps_install : keeps Commit (install_trans false).
Proof. unfold install_trans, install_one, when. solve_stable. Qed.
Hint Resolve keeps_write_head keeps_write_log keeps_install : stable.

Lemma keeps_commit : keeps Commit commit.
Proof.
  unfold commit. solve_stable. intros ps s HJ. exists Commit. split; [by apply LI_clear|done].
Qed.

Lemma triple_commit_done : triple Commit (modify (set_klog (set_l_committing (λ _, 0)))) (λ g _ _, g = Idle).
Proof. intros ps s HJ. exists Idle. split; [by apply (LI_committed _ _ _ HJ)|done]. Qed.

Lemma triple_bind {A B} g (m : K A) (f : A → K B) Q Q' :
  triple g m Q → (∀ g' a s us, J g' us s → Q g' a s → G Q' us (f a s)) → triple g (m ≫= f) Q'.
Proof. intros Hm Hf us s HJ. eapply G_bind; [by apply Hm|]. exact Hf. Qed.

(** Run code that leaves the log alone, then go on. *)
Lemma triple_keeps {A B} g (m : K A) (f : A → K B) Q :
  keeps g m → (∀ a, triple g (f a) Q) → triple g (m ≫= f) Q.
Proof. intros Hm Hf us s HJ. eapply G_bind; [by apply Hm|]. intros g' a s' us' HJ' ->. by apply Hf. Qed.
Lemma triple_stable {A B} g (m : K A) (f : A → K B) Q :
  stable m → (∀ a, triple g (f a) Q) → triple g (m ≫= f) Q.
Proof. intros Hm. by apply triple_keeps. Qed.

Lemma unused_cons u us : unused (u :: us) = MAXOPBLOCKS - u + unused us.
Proof. reflexivity. Qed.

Lemma unused_nonneg us : Forall (λ u, 0 ≤ u ≤ MAXOPBLOCKS) us → 0 ≤ unused us.
Proof. induction 1; [done|]. rewrite unused_cons. lia. Qed.

(** The estimate of begin_op: MAXOPBLOCKS for each open operation. *)
Lemma unused_le us : Forall (λ u, 0 ≤ u ≤ MAXOPBLOCKS) us →
  unused us ≤ Z.of_nat (length us) * MAXOPBLOCKS.
Proof. induction 1; [done|]. rewrite unused_cons. cbn [length]. unfold MAXOPBLOCKS in *. lia. Qed.

Lemma LI_begin us cs l : LI us cs l → l.(l_committing) = 0 →
  l.(lh_n) + (l.(l_outstanding) + 1) * MAXOPBLOCKS ≤ LOGBLOCKS →
  LI (0 :: us) cs (set_l_outstanding (λ x, x + 1) l).
Proof.
  intros [Ho Hu Hn Hr Hf Hc] H0 Hle. pose proof (unused_le us Hu).
  split; cbn [l_outstanding set_l_outstanding lh_n l_committing length].
  - lia.
  - constructor; [unfold MAXOPBLOCKS; lia|done].
  - done.
  - rewrite unused_cons. rewrite Ho in Hle. lia.
  - done.
  - rewrite Hf, H0. done.
Qed.

Lemma LI_append u us cs l : LI (u :: us) cs l → u < MAXOPBLOCKS → LI (u + 1 :: us) cs (set_lh_n (λ n, n + 1) l).
Proof.
  intros [Ho Hu Hn Hr Hf Hc] Hlt. inversion_clear Hu as [|? ? Hu1 Hu2]. rewrite unused_cons in Hr.
  split; cbn [l_outstanding set_lh_n lh_n l_committing]; [done| |lia| |done|].
  - constructor; [lia|done].
  - rewrite unused_cons. lia.
  - intros H. by specialize (Hc H).
Qed.

Lemma LI_end u us cs l : LI (u :: us) cs l →
  LI us cs (set_l_outstanding (λ x, x - 1) l) ∧ l.(l_committing) = 0.
Proof.
  intros [Ho Hu Hn Hr Hf Hc]. inversion_clear Hu as [|? ? Hu1 Hu2]. rewrite unused_cons in Hr.
  assert (l.(l_committing) = 0) as H0.
  { destruct (Z.eqb_spec (l_committing l) 0) as [|H]; [done|]. subst cs. by specialize (Hc ltac:(done)). }
  split; [|done]. split; cbn [l_outstanding set_l_outstanding lh_n l_committing length] in *; try done; [lia|lia|].
  by rewrite Hf, H0.
Qed.

(** end_op commits only when no operation is open. *)
Lemma LI_committing us cs l : LI us cs l → l.(l_committing) = 0 → l.(l_outstanding) = 0 →
  LI us (() :: cs) (set_l_committing (λ _, 1) l).
Proof.
  intros [Ho Hu Hn Hr Hf Hc] H0 H1. rewrite H0 in Hf. subst cs. split; try done.
  intros _. apply length_zero_iff_nil. lia.
Qed.

Lemma LI_room u us cs l : LI (u :: us) cs l → u < MAXOPBLOCKS → l.(lh_n) < LOGBLOCKS ∧ 1 ≤ l.(l_outstanding).
Proof.
  intros [Ho Hu Hn Hr Hf Hc] Hlt. inversion_clear Hu as [|? ? Hu1 Hu2]. rewrite unused_cons in Hr.
  pose proof (unused_nonneg us Hu2). cbn [length] in Ho. lia.
Qed.

Lemma begin_op_loop_ok n : triple Idle (begin_op_loop n) (λ g _ _, g = Open 0).
Proof.
  induction n as [|n IH]; [done|]. intros us s HJ. cbn [begin_op_loop]. mnext.
  assert (triple Idle (sleep ChLog LkLog ;; begin_op_loop n) (λ g _ _, g = Open 0)) as Hw
    by (apply triple_stable; [auto with stable|by intros _]).
  destruct (negb _) eqn:H1; [by apply Hw|]. destruct (_ <? _) eqn:H2; [by apply Hw|].
  bool_hyps. mnext. eapply G_mono; [|apply (stable_release _ (Open 0))]; [done|].
  by apply LI_begin; [exact HJ|lia..].
Qed.

Lemma begin_op_ok : triple Idle begin_op (λ g _ _, g = Open 0).
Proof. apply triple_stable; [auto with stable|intros _; apply begin_op_loop_ok]. Qed.

Lemma log_find_bounds l i n b : (log_find l i n b ≤ i + n)%nat.
Proof. revert i. induction n as [|n IH]; intros i; cbn; [lia|]. case_match; [lia|]. specialize (IH (i + 1)%nat). lia. Qed.

Lemma triple_append u : u < MAXOPBLOCKS →
  triple (Open u) (modify (set_klog (set_lh_n (λ n, n + 1)))) (λ g _ _, g = Open (u + 1)).
Proof. intros Hu us s HJ. exists (Open (u + 1)). split; [by apply LI_append|done]. Qed.

(** An operation with budget left logs a block; the panics of log_write are
    out of reach. *)
Lemma log_write_ok u b : u < MAXOPBLOCKS →
  triple (Open u) (log_write b) (λ g _ _, ∃ u', g = Open u' ∧ u' ≤ u + 1).
Proof.
  intros Hu. apply triple_stable; [auto with stable|]. intros _ us s HJ. mnext.
  destruct (LI_room u _ _ s.(klog) HJ Hu) as [Hn Ho]. unfold LOGBLOCKS, MAXOPBLOCKS in Hn.
  destruct (LOGBLOCKS <=? _) eqn:E1; bool_hyps; [unfold LOGBLOCKS, MAXOPBLOCKS in *; lia|].
  destruct (_ <? 1) eqn:E2; bool_hyps; [lia|]. cbn [when]. do 3 mnext.
  set (i := log_find _ _ _ _).
  assert (i ≤ 0 + Z.to_nat s.(klog).(lh_n))%nat as Hi by apply log_find_bounds.
  pose proof (li_n _ _ _ HJ : 0 ≤ s.(klog).(lh_n)). unfold set_log_block.
  rewrite (proj2 (Nat.ltb_lt i 30)) by lia. mnext.
  eapply G_bind with (Q := λ g _ _, ∃ u', g = Open u' ∧ u' ≤ u + 1).
  - destruct (_ =? _); cbn [when].
    + apply (G_mono (λ g _ _, g = Open (u + 1))); [intros g _ _ ->; eexists; split; [done|lia]|].
      refine (triple_stable (Open u) (bpin b) _ _ _ _ us _ _);
        [auto with stable|intros _; by apply triple_append|]. destruct HJ. by split.
    + exists (Open u). split; [destruct HJ; by split|]. exists u. split; [done|lia].
  - intros g [] s' us' HJ' (u' & -> & Hu'). eapply G_mono; [|by apply (stable_release _ (Open u'))].
    intros g _ _ ->. by exists u'.
Qed.

(** The thread that closes the last operation commits. *)
Lemma end_commit_ok : triple Commit
  (commit ;; acquire LkLog ;; modify (set_klog (set_l_committing (λ _, 0))) ;; wakeup ChLog ;; release LkLog)
  (λ g _ _, g = Idle).
Proof.
  apply triple_keeps; [apply keeps_commit|]. intros _. apply triple_stable; [auto with stable|]. intros _.
  apply (triple_bind _ _ _ _ _ triple_commit_done). intros g [] s us HJ ->.
  assert (keeps Idle (wakeup ChLog ;; release LkLog)) as H by solve_stable. by apply H.
Qed.

Lemma end_op_ok u : triple (Open u) end_op (λ g _ _, g = Idle).
Proof.
  apply triple_stable; [auto with stable|]. intros _ us s HJ. do 2 mnext.
  destruct (LI_end u _ _ s.(klog) HJ) as [Hl H0].
  destruct (negb _) eqn:E; [apply negb_true_iff, Z.eqb_neq in E; contradiction|]. cbn [when]. mnext.
  rewrite bind_unfold. apply (G_bind (λ g d _, g = if d : bool then Commit else Idle)).
  - clear E. destruct (_ =? 0) eqn:E0.
    + bool_hyps. mnext. exists Commit. split; [by apply LI_committing|done].
    + refine (G_mono _ _ _ _ _ (triple_bind Idle (wakeup ChLog) _ _ (λ g d _, g = Idle ∧ d = false) (stable_wakeup _ Idle) _ us _ _));
        [by intros ? ? ? [-> ->]|by intros ? [] ? ? HJ' ->; exists Idle|exact Hl].
  - intros g d s' us' HJ' ->. rewrite bind_unfold. eapply G_bind; [by apply stable_release|].
    intros g' [] s2 us2 HJ2 ->. destruct d; [by apply end_commit_ok|by exists Idle].
Qed.

(** ** Whole operations *)

(** A file system call: code that leaves the log alone, each piece of it
    followed by logging the buffer it modified. *)
Definition fs_op (body : list (K nat)) : K unit :=
  begin_op ;;
  mfor body (λ m, b ← m; log_write b) ;;
  end_op.

Lemma fs_body_ok body u : Forall stable body → u + Z.of_nat (length body) ≤ MAXOPBLOCKS →
  triple (Open u) (mfor body (λ m, b ← m; log_write b)) (λ g _ _, ∃ u', g = Open u').
Proof.
  intros Hb. revert u. induction Hb as [|m body Hm Hb IH]; intros u Hu us s HJ; cbn [length] in Hu.
  - exists (Open u). eauto.
  - refine (triple_bind (Open u) (b ← m; log_write b) _ (λ g _ _, ∃ u', g = Open u' ∧ u' ≤ u + 1) _ _ _ us s HJ).
    + apply triple_stable; [done|]. intros b. apply log_write_ok. lia.
    + intros g [] s' us' HJ' (u' & -> & Hu'). apply (IH u'); [lia|done].
Qed.

Lemma fs_op_ok body : Forall stable body → Z.of_nat (length body) ≤ MAXOPBLOCKS →
  triple Idle (fs_op body) (λ g _ _, g = Idle).
Proof.
  intros Hb Hl. apply (triple_bind _ _ _ _ _ begin_op_ok). intros g [] s us HJ ->.
  refine (triple_bind _ _ _ _ _ (fs_body_ok body 0 Hb Hl) _ us s HJ).
  intros g [] s' us' HJ' [u ->]. by apply (end_op_ok u).
Qed.
End ops.

(** ** Any number of operations, interleaved

    A thread is the rest of its computation.  A step runs one waiting thread
    to its next wait or to its end, or is anything else the kernel does that
    leaves the log alone (interrupts, context switches, other system calls). *)
Definition thread : Type := outcome kstate unit.

Definition out_state (s : kstate) (t : thread) : kstate :=
  match t with Done _ s' | Waiting s' _ => s' | Panicked _ | OutOfFuel => s end.

Inductive sched_step : kstate * list thread → kstate * list thread → Prop :=
| step_thread s ts1 s0 k ts2 :
    sched_step (s, ts1 ++ Waiting s0 k :: ts2) (out_state s (k s), ts1 ++ k s :: ts2)
| step_other s s' ts : s'.(klog) = s.(klog) → sched_step (s, ts) (s', ts).

Definition start {Fl : Fuel} {Dv : Device} {bd : BlockDev} (s : kstate) (bodies : list (list (K nat))) : list thread :=
  (λ body, Waiting s (fs_op body)) <$> bodies.

Definition thread_ok (g : phase) (t : thread) : Prop :=
  match t with
  | Waiting _ k => triple g k (λ g _ _, g = Idle)
  | Panicked m => okmsg m
  | Done _ _ | OutOfFuel => True
  end.

Definition sys_inv (c : kstate * list thread) : Prop :=
  ∃ gs, Forall2 thread_ok gs c.2 ∧ LI (opens gs) (commits gs) c.1.(klog).

Lemma unused_perm us us' : us ≡ₚ us' → unused us = unused us'.
Proof. induction 1; rewrite ?unused_cons in *; lia. Qed.

#[export] Instance LI_perm : Proper ((≡ₚ) ==> (≡ₚ) ==> eq ==> iff) LI.
Proof.
  assert (∀ us us' cs cs' l, us ≡ₚ us' → cs ≡ₚ cs' → LI us cs l → LI us' cs' l) as H.
  { intros us us' cs cs' l Hp Hq [H1 H2 H3 H4 H5 H6]. split; rewrite <-?(unused_perm _ _ Hp), <-?Hp; try done.
    - subst cs. destruct (_ =? _); [by apply Permutation_nil_l in Hq|by apply Permutation_singleton_l in Hq].
    - intros Hc. apply Permutation_nil. rewrite <- Hp, H6; [done|]. intros ->. by apply Permutation_nil_l in Hq as <-. }
  intros us us' Hp cs cs' Hq l _ <-. split; by apply H.
Qed.

(** The phases of all threads, one of them singled out. *)
Lemma LI_focus gs1 g gs2 l : LI (opens (gs1 ++ g :: gs2)) (commits (gs1 ++ g :: gs2)) l ↔
  LI (opens (g :: gs1 ++ gs2)) (commits (g :: gs1 ++ gs2)) l.
Proof. unfold opens, commits. by rewrite <- (Permutation_middle gs1 gs2 g). Qed.

Lemma G_thread us t s : G (λ g _ _, g = Idle) us t → (∀ m, t ≠ Panicked m) → t ≠ OutOfFuel →
  ∃ g, thread_ok g t ∧ J g us (out_state s t).
Proof.
  destruct t as [a s'|m|s' k|]; cbn; intros H Hm Hf; [|by destruct (Hm m)| |done].
  - destruct H as (g & HJ & _). by exists g.
  - destruct H as (g & HJ & H). exists g. split; [|done]. intros us' s'' HJ'. by apply H.
Qed.

Lemma sys_inv_step c c' : sched_step c c' → sys_inv c → sys_inv c'.
Proof.
  intros Hs (gs & Hts & HL). destruct Hs as [s ts1 s0 k ts2|s s' ts Hk]; cbn in *.
  - apply Forall2_app_inv_r in Hts as (gs1 & gs2' & H1 & H2 & ->).
    apply Forall2_cons_inv_r in H2 as (g & gs2 & Hg & H2 & ->). rewrite LI_focus in HL.
    pose proof (Hg _ s HL) as HG.
    assert (∃ g', thread_ok g' (k s) ∧ J g' (gs1 ++ gs2) (out_state s (k s))) as (g' & Hok & HL').
    { destruct (k s) as [a s'|m|s' k'|] eqn:Hks.
      1,3: by apply (G_thread _ _ s HG). all: exists g; split; [exact HG|done]. }
    exists (gs1 ++ g' :: gs2). split; [by apply Forall2_app; [|constructor]|]. by rewrite LI_focus.
  - exists gs. split; [done|exact (eq_ind_r (LI (opens gs) (commits gs)) HL Hk)].
Qed.

Lemma all_idle n : opens (replicate n Idle) = [] ∧ commits (replicate n Idle) = [].
Proof. by induction n. Qed.

Lemma sys_inv_start {Fl : Fuel} {Dv : Device} {bd : BlockDev} s bodies :
  (∀ b w, stable (disk_rw b w)) →
  Forall (λ body, Forall stable body ∧ Z.of_nat (length body) ≤ MAXOPBLOCKS) bodies →
  LI [] [] s.(klog) → sys_inv (s, start s bodies).
Proof.
  intros Hd Hb HL. exists (replicate (length bodies) Idle). split.
  - cbn [snd]. unfold start. apply Forall2_same_length_lookup_2; [by rewrite length_replicate, length_fmap|].
    intros i g t Hg Ht. apply lookup_replicate_1 in Hg as [-> _].
    apply list_lookup_fmap_Some in Ht as (body & -> & Hi).
    destruct (Forall_lookup_1 _ _ _ _ Hb Hi). by apply fs_op_ok.
  - by destruct (all_idle (length bodies)) as [-> ->].
Qed.

Lemma opens_length gs : (length (opens gs) ≤ length gs)%nat.
Proof. induction gs as [|[] gs IH]; [done|..]; unfold opens in *; cbn; lia. Qed.

(** ** The lock of the log *)
Section lock.
Context {Fl : Fuel} {Dv : Device} {Bd : BlockDev}.

(** Another hart is in a critical section of the log. *)
Definition log_busy (s : kstate) : Prop :=
  (s.(hart) < length s.(cpus))%nat ∧ (get_lock LkLog s).(locked) ≠ 0 ∧ (get_lock LkLog s).(lk_cpu) ≠ Some s.(hart).

(** [m] waits, and has changed nothing of the log. *)
Definition held_off {A} (m : K A) (s : kstate) : Prop := ∃ s' k, m s = Waiting s' k ∧ s'.(klog) = s.(klog).

Lemma held_off_bind {A B} (m : K A) (f : A → K B) s : held_off m s → held_off (m ≫= f) s.
Proof. intros (s' & k & E & Hk). eexists s', _. split; [|exact Hk]. rewrite bind_unfold, E. reflexivity. Qed.

Lemma acquire_busy s : log_busy s → held_off (acquire LkLog) s.
Proof.
  intros (Hh & Hl & Hc). unfold acquire. set (s1 := upd_cpu push_cpu s).
  assert (E1 : holding LkLog s1 = Done false s1).
  { unfold holding, cpuid. do 2 mnext. change (get_lock LkLog s1) with (get_lock LkLog s).
    rewrite (bool_decide_eq_false_2 _ Hc), andb_false_r. done. }
  unfold held_off. mstep (push_off_done _ Hh). fold s1. mstep E1.
  change s.(klog) with s1.(klog). apply held_off_bind. cbn [acquire_spin].
  exists (set_locks <[LkLog := mk_spinlock 1 (get_lock LkLog s1).(lk_cpu)]> s1). eexists. split; [|done].
  rewrite (bind_done (test_and_set LkLog) _ s1 (get_lock LkLog s).(locked) _ eq_refl).
  rewrite (proj2 (Z.eqb_neq _ 0) Hl). reflexivity.
Qed.

(** No operation touches the log while another hart holds its lock. *)
Lemma log_held_off s : log_busy s → held_off begin_op s ∧ held_off end_op s ∧ ∀ b, held_off (log_write b) s.
Proof. intros H%acquire_busy. split_and!; [..|intros b]; by apply held_off_bind. Qed.

(** With the lock free and room in the log, begin_op opens an operation at
    once, and the lock is free again. *)
Lemma begin_op_admits s : cpu_ok s → lock_free LkLog s → s.(klog).(l_committing) = 0 →
  s.(klog).(lh_n) + (s.(klog).(l_outstanding) + 1) * MAXOPBLOCKS ≤ LOGBLOCKS →
  begin_op s = Done () (set_klog (set_l_outstanding (λ x, x + 1)) s).
Proof.
  intros Hs Hl Hc Hr. unfold begin_op. mstep (acquire_free _ _ (proj1 Hs) Hl). cbn [begin_op_loop]. mnext.
  change (klog (acq LkLog s)) with (klog s). rewrite Hc. cbn [Z.eqb negb]. rewrite (proj2 (Z.ltb_ge _ _)) by lia. mnext.
  by apply (release_acq LkLog (set_klog (set_l_outstanding (λ x, x + 1)) s)).
Qed.
End lock.


