(* ===== verification/Start.v ===== *)
(** kernel/start.c: the machine-mode entry of a hart, on the control registers
    it sets, up to the mret that enters main in supervisor mode. *)

From S2P Require Import Prelude.
Local Open Scope Z_scope.

Inductive mode : Type := User | Supervisor | Machine.

(** The registers start.c reads and writes, as 64-bit values. *)
Record csrs : Type := mk_csrs {
  priv : mode; pc : Z; tp : Z; mhartid : Z; mstatus : Z; mepc : Z; satp : Z;
  medeleg : Z; mideleg : Z; sie : Z; mie : Z; menvcfg : Z; mcounteren : Z;
  stimecmp : Z; time : Z; pmpaddr0 : Z; pmpcfg0 : Z }.

Definition MSTATUS_MPP_MASK : Z := Z.shiftl 3 11.
Definition MSTATUS_MPP_S : Z := Z.shiftl 1 11.
Definition SIE_SEIE : Z := Z.shiftl 1 9.
Definition SIE_STIE : Z := Z.shiftl 1 5.
Definition MIE_STIE : Z := Z.shiftl 1 5.

Definition timerinit (r : csrs) : csrs :=
  let mie' := Z.lor r.(mie) MIE_STIE in
  let menvcfg' := u64 (Z.lor r.(menvcfg) (Z.shiftl 1 63)) in
  let mcounteren' := Z.lor r.(mcounteren) 2 in
  let stimecmp' := u64 (r.(time) + 1000000) in
  mk_csrs r.(priv) r.(pc) r.(tp) r.(mhartid) r.(mstatus) r.(mepc) r.(satp)
    r.(medeleg) r.(mideleg) r.(sie) mie' menvcfg' mcounteren' stimecmp' r.(time) r.(pmpaddr0) r.(pmpcfg0).

(** The mret instruction: the mode MPP names, at mepc. *)
Definition mpp (mstatus : Z) : mode :=
  match Z.land (Z.shiftr mstatus 11) 3 with 0 => User | 1 => Supervisor | _ => Machine end.
Definition mret_insn (r : csrs) : csrs :=
  mk_csrs (mpp r.(mstatus)) r.(mepc) r.(tp) r.(mhartid) r.(mstatus) r.(mepc) r.(satp)
    r.(medeleg) r.(mideleg) r.(sie) r.(mie) r.(menvcfg) r.(mcounteren) r.(stimecmp) r.(time)
    r.(pmpaddr0) r.(pmpcfg0).

(** [start]; [main_addr] is the address of main. *)
Definition start (main_addr : Z) (r : csrs) : csrs :=
  let x := r.(mstatus) in
  let x := Z.land x (u64 (Z.lnot MSTATUS_MPP_MASK)) in
  let x := Z.lor x MSTATUS_MPP_S in
  let r := timerinit
    (mk_csrs r.(priv) r.(pc) r.(tp) r.(mhartid) x main_addr 0 0xffff 0xffff
       (Z.lor (Z.lor r.(sie) SIE_SEIE) SIE_STIE) r.(mie) r.(menvcfg) r.(mcounteren) r.(stimecmp)
       r.(time) 0x3fffffffffffff 0xf) in
  let id := s32 r.(mhartid) in
  mret_insn (mk_csrs r.(priv) r.(pc) (u64 id) r.(mhartid) r.(mstatus) r.(mepc) r.(satp)
    r.(medeleg) r.(mideleg) r.(sie) r.(mie) r.(menvcfg) r.(mcounteren) r.(stimecmp) r.(time)
    r.(pmpaddr0) r.(pmpcfg0)).

(** Whatever the registers hold at reset, start leaves the hart at main in
    supervisor mode, with paging off, its number in tp, interrupts and
    exceptions delegated, external and timer interrupts enabled in sie and a
    timer interrupt pending in the future. *)
Lemma start_enters_main main_addr r :
  0 ≤ r.(mstatus) < 2 ^ 64 → 0 ≤ r.(mhartid) < 2 ^ 31 → 0 ≤ r.(time) < 2 ^ 63 →
  let r' := start main_addr r in
  r'.(priv) = Supervisor ∧ r'.(pc) = main_addr ∧ r'.(satp) = 0 ∧ r'.(tp) = r.(mhartid) ∧
  r'.(medeleg) = 0xffff ∧ r'.(mideleg) = 0xffff ∧
  Z.testbit r'.(sie) 9 = true ∧ Z.testbit r'.(sie) 5 = true ∧ r.(time) < r'.(stimecmp).
Proof.
  intros Hm Hh Ht r'. assert (0 ≤ r.(mhartid) < 2147483648) as Hh' by lia.
  repeat match goal with |- _ ∧ _ => split end; try done; cbn.
  - unfold mpp. rewrite Z.shiftr_lor, Z.land_lor_distr_l, Z.shiftr_land.
    replace (Z.land (Z.land (Z.shiftr r.(mstatus) 11) _) 3) with 0; [done|].
    rewrite <-Z.land_assoc. change (Z.land (Z.shiftr _ 11) 3) with 0. by rewrite Z.land_0_r.
  - unfold u64, s32. rewrite !Z.mod_small by (rewrite ?Z.mod_small; lia). lia.
  - change (Z.testbit (Z.lor (Z.lor r.(sie) SIE_SEIE) SIE_STIE) 9 = true). by rewrite !Z.lor_spec, !orb_true_r.
  - change (Z.testbit (Z.lor (Z.lor r.(sie) SIE_SEIE) SIE_STIE) 5 = true). by rewrite !Z.lor_spec, !orb_true_r.
  - unfold u64. rewrite Z.mod_small by lia. lia.
Qed.
