(* ===== verification/Trap.v ===== *)
(** kernel/trap.c and kernel/plic.c, forkret of kernel/proc.c and kernel/main.c:
    interrupts, exceptions, the return to user space, and booting. *)

From S2P Require Import Prelude Cmem KString Kstate Spinlock Sleep Sleeplock Kalloc Vm Printf Bio Log Fs Console Pipe File Proc Exec Syscall Sysfile Virtio.
Local Open Scope Z_scope.

(** The time counter of the running hart. *)
Class Clock := r_time : kstate → Z.

Definition PLIC_SENABLE (hart : Z) : Z := PLIC + 0x2080 + hart * 0x100.
Definition PLIC_SPRIORITY (hart : Z) : Z := PLIC + 0x201000 + hart * 0x2000.
Definition PLIC_SCLAIM (hart : Z) : Z := PLIC + 0x201004 + hart * 0x2000.

Definition plic_hart : K Z := id ← cpuid; mret (Z.of_nat id).

Definition plicinit : K unit :=
  mmio_write (PLIC + UART0_IRQ * 4) 1 ;;
  mmio_write (PLIC + VIRTIO0_IRQ * 4) 1.

Definition plicinithart : K unit :=
  hart ← plic_hart;
  mmio_write (PLIC_SENABLE hart) (Z.lor (Z.shiftl 1 UART0_IRQ) (Z.shiftl 1 VIRTIO0_IRQ)) ;;
  mmio_write (PLIC_SPRIORITY hart) 0.

Section trap.
Context {Fl : Fuel} {La : Layout} {Dv : Device} {Bd : BlockDev} {Sy : Symbols} {Ck : Clock}.

Definition plic_claim : K Z :=
  hart ← plic_hart;
  gets (λ s, s32 (u32 (reg s (PLIC_SCLAIM hart)))).

Definition plic_complete (irq : Z) : K unit :=
  hart ← plic_hart;
  mmio_write (PLIC_SCLAIM hart) (u32 irq).

Definition trapinit : K unit := initlock LkTicks.

Definition trapinithart : K unit := modify (upd_cpu (set_stvec (λ _, kernelvec))).

Definition clockintr : K unit :=
  id ← cpuid;
  when (id =? 0)%nat
    (acquire LkTicks ;;
     modify (set_ticks (λ t, u32 (t + 1))) ;;
     wakeup ChTicks ;;
     release LkTicks) ;;
  modify (λ s, upd_cpu (set_stimecmp (λ _, u64 (r_time s + 1000000))) s).

Definition SCAUSE_EXTERNAL : Z := 0x8000000000000009.
Definition SCAUSE_TIMER : Z := 0x8000000000000005.

Definition irq_msg : String.string := "unexpected interrupt irq=%d
".

Definition devintr : K Z :=
  c ← mycpu;
  if c.(scause) =? SCAUSE_EXTERNAL then
    irq ← plic_claim;
    (if irq =? UART0_IRQ then uartintr
     else if irq =? VIRTIO0_IRQ then virtio_disk_intr
     else if negb (irq =? 0) then _ ← printf irq_msg [Vint irq]; mret ()
     else mret ()) ;;
    when (negb (irq =? 0)) (plic_complete irq) ;;
    mret 1
  else if c.(scause) =? SCAUSE_TIMER then clockintr ;; mret 2
  else mret 0.

Definition prepare_return : K unit :=
  p ← myproc_ptr;
  intr_off ;;
  modify (upd_cpu (set_stvec (λ _, TRAMPOLINE + uservec_off))) ;;
  c ← mycpu;
  set_tf p tf_kernel_satp c.(satp) ;;
  q ← gets (get_proc p);
  set_tf p tf_kernel_sp (q.(p_kstack) + PGSIZE) ;;
  set_tf p tf_kernel_trap usertrap_addr ;;
  id ← cpuid;
  set_tf p tf_kernel_hartid (Z.of_nat id) ;;
  modify (upd_cpu (set_sstatus (λ x, Z.lor (Z.land x (Z.lnot SSTATUS_SPP)) SSTATUS_SPIE))) ;;
  epc ← get_tf p tf_epc;
  modify (upd_cpu (set_sepc (λ _, epc))).

Definition scause_msg : String.string := "usertrap(): unexpected scause 0x%lx pid=%d
".
Definition sepc_msg : String.string := "            sepc=0x%lx stval=0x%lx
".

(** An exception that is neither a system call nor a device interrupt. *)
Definition user_fault (p : nat) : K unit :=
  c ← mycpu;
  q ← gets (get_proc p);
  pa ← (if (c.(scause) =? 15) || (c.(scause) =? 13) then vmfault q.(p_pagetable) c.(stval) else mret 0);
  if negb (pa =? 0) then mret () else
  c ← mycpu;
  _ ← printf scause_msg [Vint c.(scause); Vint q.(p_pid)];
  _ ← printf sepc_msg [Vint c.(sepc); Vint c.(stval)];
  setkilled p.

(** The satp value trampoline.S switches to. *)
Definition usertrap : K Z :=
  c ← mycpu;
  if negb (Z.land c.(sstatus) SSTATUS_SPP =? 0) then panic "usertrap: not from user mode" else
  modify (upd_cpu (set_stvec (λ _, kernelvec))) ;;
  p ← myproc_ptr;
  c ← mycpu;
  set_tf p tf_epc c.(sepc) ;;
  which_dev ←
    (if c.(scause) =? 8 then
       d ← killed p;
       when (negb (d =? 0)) (kexit (-1)) ;;
       epc ← get_tf p tf_epc;
       set_tf p tf_epc (epc + 4) ;;
       intr_on ;;
       syscall ;;
       mret 0
     else
       w ← devintr;
       when (w =? 0) (user_fault p) ;;
       mret w);
  d ← killed p;
  when (negb (d =? 0)) (kexit (-1)) ;;
  when (which_dev =? 2) yield ;;
  prepare_return ;;
  q ← gets (get_proc p);
  mret (MAKE_SATP q.(p_pagetable)).

Definition kerneltrap_msg : String.string := "scause=0x%lx sepc=0x%lx stval=0x%lx
".

Definition kerneltrap : K unit :=
  c ← mycpu;
  let pc := c.(sepc) in
  let status := c.(sstatus) in
  if Z.land status SSTATUS_SPP =? 0 then panic "kerneltrap: not from supervisor mode" else
  i ← intr_get;
  if i : bool then panic "kerneltrap: interrupts enabled" else
  which_dev ← devintr;
  if which_dev =? 0 then
    c' ← mycpu;
    _ ← printf kerneltrap_msg [Vint c.(scause); Vint c'.(sepc); Vint c'.(stval)];
    panic "kerneltrap"
  else
  (if which_dev =? 2 then
     p ← myproc;
     match p with Some _ => yield | None => mret () end
   else mret ()) ;;
  modify (upd_cpu (set_sepc (λ _, pc))) ;;
  modify (upd_cpu (set_sstatus (λ _, status))).

(** The first process starts the file system and runs /init; the value is the
    satp userret switches to. *)
Definition forkret : K Z :=
  p ← myproc_ptr;
  release (LkProc p) ;;
  first ← gets fork_first;
  when (negb (first =? 0))
    (fsinit ROOTDEV ;;
     modify (set_fork_first (λ _, 0)) ;;
     path ← literal 0 "/init";
     r ← kexec path [path];
     set_tf p tf_a0 r ;;
     a0 ← get_tf p tf_a0;
     when (a0 =? u64 (-1)) (panic "exec")) ;;
  prepare_return ;;
  q ← gets (get_proc p);
  mret (MAKE_SATP q.(p_pagetable)).

Definition booting_msg : String.string := "xv6 kernel is booting
".
Definition hart_msg : String.string := "hart %d starting
".

(** [while(started == 0) ;] *)
Fixpoint wait_started (k : nat) : K unit :=
  match k with
  | O => out_of_fuel
  | S k => st ← gets started; if st =? 0 then yield_cpu ;; wait_started k else mret ()
  end.

(** main up to the call of scheduler. *)
Definition boot : K unit :=
  id ← cpuid;
  if (id =? 0)%nat then
    consoleinit ;;
    printfinit ;;
    _ ← printf newline [];
    _ ← printf booting_msg [];
    _ ← printf newline [];
    kinit ;;
    kvminit ;;
    kvminithart ;;
    procinit ;;
    trapinit ;;
    trapinithart ;;
    plicinit ;;
    plicinithart ;;
    binit ;;
    iinit ;;
    fileinit ;;
    virtio_disk_init ;;
    userinit ;;
    modify (set_started (λ _, 1))
  else
    wait_started (S fuel) ;;
    id ← cpuid;
    _ ← printf hart_msg [Vint (Z.of_nat id)];
    kvminithart ;;
    trapinithart ;;
    plicinithart.

Definition main : K unit := boot ;; scheduler.
End trap.
