(* ===== verification/Grep.v ===== *)
(** user/grep.c, the matcher: a pattern is searched for in a line with the
    operators ^ . * $.

    A C string is the list of its bytes, without the NUL; advancing the pointer
    is taking the tail.  [match_spec] relates the backtracking matcher to the
    language the pattern denotes. *)

From S2P Require Import Prelude.
Local Open Scope Z_scope.

Definition c_caret : Z := 94.
Definition c_dot : Z := 46.
Definition c_star : Z := 42.
Definition c_dollar : Z := 36.

(** [matchstar(c, re, text)], [here] being [matchhere(re, _)]. *)
Fixpoint matchstar (here : list Z → bool) (c : Z) (text : list Z) : bool :=
  if here text then true else
  match text with
  | [] => false
  | t :: text => if (t =? c) || (c =? c_dot) then matchstar here c text else false
  end.

Fixpoint matchhere (re text : list Z) : bool :=
  match re with
  | [] => true
  | c :: re1 =>
      match re1 with
      | d :: re2 =>
          if d =? c_star then matchstar (matchhere re2) c text
          else match text with
               | [] => false
               | t :: text => if (c =? c_dot) || (c =? t) then matchhere re1 text else false
               end
      | [] =>
          if c =? c_dollar then match text with [] => true | _ => false end
          else match text with
               | [] => false
               | t :: text => if (c =? c_dot) || (c =? t) then matchhere re1 text else false
               end
      end
  end.

(** The [do ... while] of match: every suffix, the empty one included. *)
Fixpoint match_from (re text : list Z) : bool :=
  if matchhere re text then true else
  match text with
  | [] => false
  | _ :: text => match_from re text
  end.

Definition match_ (re text : list Z) : bool :=
  match re with
  | c :: re' => if c =? c_caret then matchhere re' text else match_from re text
  | [] => match_from re text
  end.

(** ** What a pattern denotes *)

(** One character, or any number of them. *)
Inductive item : Type := One (c : Z) | Star (c : Z).

(** The items of a pattern, and whether it ends in $. *)
Fixpoint compile (re : list Z) : list item * bool :=
  match re with
  | [] => ([], false)
  | c :: re1 =>
      match re1 with
      | d :: re2 =>
          if d =? c_star then (Star c :: (compile re2).1, (compile re2).2)
          else (One c :: (compile re1).1, (compile re1).2)
      | [] => if c =? c_dollar then ([], true) else ([One c], false)
      end
  end.

Definition sat (c t : Z) : Prop := c = c_dot ∨ t = c.

(** The strings a sequence of items stands for. *)
Inductive lang : list item → list Z → Prop :=
| lang_nil : lang [] []
| lang_one c t l w : sat c t → lang l w → lang (One c :: l) (t :: w)
| lang_star c l ts w : Forall (sat c) ts → lang l w → lang (Star c :: l) (ts ++ w).

(** [text] begins with a string of the pattern, all of it when it ends in $. *)
Definition prefix_in (p : list item * bool) (text : list Z) : Prop :=
  ∃ w rest, text = w ++ rest ∧ lang p.1 w ∧ (p.2 = true → rest = []).

#[local] Hint Constructors lang : core.

Lemma sat_test c t : (t =? c) || (c =? c_dot) = true ↔ sat c t.
Proof. unfold sat. rewrite orb_true_iff, !Z.eqb_eq. tauto. Qed.

Lemma matchstar_spec here c text :
  matchstar here c text = true ↔ ∃ ts rest, text = ts ++ rest ∧ Forall (sat c) ts ∧ here rest = true.
Proof.
  induction text as [|t text IH]; cbn.
  - destruct (here []) eqn:E; split; try done.
    + by exists [], [].
    + intros (ts & rest & [-> ->]%eq_sym%app_nil & _ & ?). congruence.
  - destruct (here (t :: text)) eqn:E; [split; [|done]; by exists [], (t :: text)|].
    destruct ((t =? c) || (c =? c_dot)) eqn:Et.
    + apply sat_test in Et. rewrite IH. split.
      * intros (ts & rest & -> & Hs & Hr). exists (t :: ts), rest. split_and!; cbn in *; auto.
      * intros ([|t' ts] & rest & Heq & Hs & Hr); cbn in Heq; [congruence|].
        injection Heq as <- ->. apply Forall_cons in Hs as [_ Hs]. by exists ts, rest.
    + split; [done|]. intros ([|t' ts] & rest & Heq & Hs & Hr); cbn in Heq; [congruence|].
      injection Heq as <- ->. apply Forall_cons in Hs as [Hs _]. apply sat_test in Hs. congruence.
Qed.

Lemma prefix_one c l e text :
  prefix_in (One c :: l, e) text ↔ ∃ t text', text = t :: text' ∧ sat c t ∧ prefix_in (l, e) text'.
Proof.
  split.
  - intros (w & rest & -> & Hl & He). inversion Hl as [|? t ? w' Hs Hw|]; subst.
    exists t, (w' ++ rest). split; [done|]. split; [done|]. by exists w', rest.
  - intros (t & text' & -> & Hs & w & rest & -> & Hl & He). exists (t :: w), rest. split_and!; cbn in *; auto.
Qed.

Lemma prefix_star c l e text :
  prefix_in (Star c :: l, e) text ↔ ∃ ts rest, text = ts ++ rest ∧ Forall (sat c) ts ∧ prefix_in (l, e) rest.
Proof.
  split.
  - intros (w & rest & -> & Hl & He). inversion Hl as [| |? ? ts w' Hs Hw]; subst.
    exists ts, (w' ++ rest). rewrite <- (assoc_L (++)). split; [done|]. split; [done|]. by exists w', rest.
  - intros (ts & r & -> & Hs & w & rest & -> & Hl & He). exists (ts ++ w), rest.
    rewrite <- (assoc_L (++)). split_and!; cbn in *; auto.
Qed.

Lemma prefix_nil text : prefix_in ([], false) text ∧ (prefix_in ([], true) text ↔ text = []).
Proof.
  split; [by exists [], text|]. split.
  - intros (w & rest & -> & Hl & He). inversion Hl. by rewrite He.
  - intros ->. by exists [], [].
Qed.

Lemma matchhere_2 c d re text : matchhere (c :: d :: re) text =
  if d =? c_star then matchstar (matchhere re) c text
  else match text with
       | [] => false
       | t :: text => if (c =? c_dot) || (c =? t) then matchhere (d :: re) text else false
       end.
Proof. done. Qed.

Lemma compile_2 c d re : compile (c :: d :: re) =
  if d =? c_star then (Star c :: (compile re).1, (compile re).2)
  else (One c :: (compile (d :: re)).1, (compile (d :: re)).2).
Proof. done. Qed.

(** Two elements of the pattern at a time: the matcher looks at [re[1]]. *)
Lemma matchhere_spec re text : matchhere re text = true ↔ prefix_in (compile re) text.
Proof.
  revert text. induction re as [re IH] using (induction_ltof1 _ (@length Z)); intros text. unfold ltof in IH.
  destruct re as [|c [|d re2]]; [cbn|cbn|rewrite matchhere_2, compile_2].
  - split; [intros _; apply prefix_nil|done].
  - destruct (c =? c_dollar); [rewrite (proj2 (prefix_nil text)); by destruct text|].
    rewrite prefix_one. destruct text as [|t text].
    + split; [done|]. by intros (? & ? & ? & _).
    + rewrite orb_comm, Z.eqb_sym. destruct ((t =? c) || (c =? c_dot)) eqn:E.
      * apply sat_test in E. split; [|done]. intros _. exists t, text. split; [done|]. split; [done|]. apply prefix_nil.
      * split; [done|]. intros (? & ? & [= <- <-] & Hs%sat_test & _). congruence.
  - destruct (d =? c_star).
    + rewrite matchstar_spec. destruct (compile re2) as [l e] eqn:Ec. cbn [fst snd]. rewrite prefix_star.
      setoid_rewrite (IH re2 ltac:(cbn; lia)). by rewrite Ec.
    + destruct (compile (d :: re2)) as [l e] eqn:Ec. cbn [fst snd]. rewrite prefix_one. destruct text as [|t text].
      * split; [done|]. by intros (? & ? & ? & _).
      * rewrite orb_comm, Z.eqb_sym. destruct ((t =? c) || (c =? c_dot)) eqn:E.
        -- apply sat_test in E. rewrite (IH (d :: re2)) by (cbn; lia). rewrite Ec. split.
           ++ intros H. by exists t, text.
           ++ by intros (? & ? & [= <- <-] & _ & ?).
        -- split; [done|]. intros (? & ? & [= <- <-] & Hs%sat_test & _). congruence.
Qed.

Lemma match_from_spec re text :
  match_from re text = true ↔ ∃ before rest, text = before ++ rest ∧ matchhere re rest = true.
Proof.
  induction text as [|t text IH]; cbn [match_from].
  - destruct (matchhere re []) eqn:E; split; try done.
    + by exists [], [].
    + intros (? & ? & [-> ->]%eq_sym%app_nil & ?). congruence.
  - destruct (matchhere re (t :: text)) eqn:E; [split; [|done]; by exists [], (t :: text)|].
    rewrite IH. split.
    + intros (b & r & -> & H). by exists (t :: b), r.
    + intros ([|t' b] & r & Heq & H); cbn in Heq; [congruence|]. injection Heq as <- ->. by exists b, r.
Qed.

(** C35. The backtracking matcher of grep decides exactly the language of the
    pattern: a line matches when some part of it is a string of the pattern,
    a part at the start after ^ and at the end before $. *)
Theorem match_spec re text :
  let anchored := bool_decide (head re = Some c_caret) in
  let p := compile (if anchored then tail re else re) in
  match_ re text = true ↔
  ∃ before w after, text = before ++ w ++ after ∧ lang p.1 w ∧
    (anchored = true → before = []) ∧ (p.2 = true → after = []).
Proof.
  cbv zeta. unfold match_. assert (Hfrom : ∀ re, match_from re text = true ↔
    ∃ before w after, text = before ++ w ++ after ∧ lang (compile re).1 w ∧ ((compile re).2 = true → after = [])).
  { intros re'. rewrite match_from_spec. setoid_rewrite matchhere_spec. unfold prefix_in. naive_solver. }
  destruct re as [|c re]; [rewrite Hfrom; cbn [head]; rewrite bool_decide_false by done; naive_solver|].
  cbn [head tail]. destruct (c =? c_caret) eqn:E.
  - apply Z.eqb_eq in E as ->. rewrite bool_decide_true by done. rewrite matchhere_spec. unfold prefix_in. split.
    + intros (w & rest & ? & ? & ?). by exists [], w, rest.
    + intros (before & w & rest & -> & ? & Hb & ?). rewrite Hb by done. by exists w, rest.
  - apply Z.eqb_neq in E. rewrite bool_decide_false by congruence. rewrite Hfrom. naive_solver.
Qed.
