(* ===== verification/Ulib.v ===== *)
(** user/ulib.c and user/printf.c: the C library of user programs, on the
    memory of a process. *)

From S2P Require Import Prelude Cmem KString Kstate Spinlock Sleep Printf.
Local Open Scope Z_scope.


(** A string ends within the memory, so [S (size m)] rounds reach its NUL. *)
Fixpoint strcpy_loop (k : nat) (m : mem) (s t : Z) : mem :=
  match k with
  | O => m
  | S k =>
      let c := ld8 m t in
      let m := st8 m s c in
      if c =? 0 then m else strcpy_loop k m (s + 1) (t + 1)
  end.
Definition strcpy (m : mem) (s t : Z) : mem := strcpy_loop (S (size m)) m s t.

Fixpoint strcmp_loop (k : nat) (m : mem) (p q : Z) : Z :=
  match k with
  | O => 0
  | S k =>
      if negb (ld8 m p =? 0) && (ld8 m p =? ld8 m q) then strcmp_loop k m (p + 1) (q + 1)
      else ld8 m p - ld8 m q
  end.
Definition strcmp (m : mem) (p q : Z) : Z := strcmp_loop (S (size m)) m p q.

Fixpoint strlen_loop (k : nat) (m : mem) (s n : Z) : Z :=
  match k with
  | O => n
  | S k => if ld8 m (s + n) =? 0 then n else strlen_loop k m s (n + 1)
  end.
Definition strlen (m : mem) (s : Z) : Z := strlen_loop (S (size m)) m s 0.

Fixpoint memset_loop (k : nat) (m : mem) (cdst c i : Z) : mem :=
  match k with
  | O => m
  | S k => memset_loop k (st8 m (cdst + i) c) cdst c (i + 1)
  end.
Definition memset (m : mem) (dst c n : Z) : mem := memset_loop (Z.to_nat n) m dst c 0.

(** The address found, or null. *)
Fixpoint strchr_loop (k : nat) (m : mem) (s c : Z) : Z :=
  match k with
  | O => 0
  | S k => if ld8 m s =? 0 then 0 else if ld8 m s =? c then s else strchr_loop k m (s + 1) c
  end.
Definition strchr (m : mem) (s c : Z) : Z := strchr_loop (S (size m)) m s c.

(** [n*10 + *s++ - '0'], computed in an [int]. *)
Fixpoint atoi_loop (k : nat) (m : mem) (s n : Z) : Z :=
  match k with
  | O => n
  | S k =>
      let c := ld8 m s in
      if (48 <=? c) && (c <=? 57) then atoi_loop k m (s + 1) (s32 (n * 10 + c - 48)) else n
  end.
Definition atoi (m : mem) (s : Z) : Z := atoi_loop (S (size m)) m s 0.

Fixpoint move_fwd (k : nat) (m : mem) (dst src : Z) : mem :=
  match k with
  | O => m
  | S k => move_fwd k (st8 m dst (ld8 m src)) (dst + 1) (src + 1)
  end.
Fixpoint move_bwd (k : nat) (m : mem) (dst src : Z) : mem :=
  match k with
  | O => m
  | S k => move_bwd k (st8 m (dst - 1) (ld8 m (src - 1))) (dst - 1) (src - 1)
  end.
Definition memmove (m : mem) (vdst vsrc n : Z) : mem :=
  if vdst <? vsrc then move_fwd (Z.to_nat n) m vdst vsrc
  else move_bwd (Z.to_nat n) m (vdst + n) (vsrc + n).

Fixpoint memcmp_loop (k : nat) (m : mem) (p1 p2 : Z) : Z :=
  match k with
  | O => 0
  | S k => if negb (ld8 m p1 =? ld8 m p2) then ld8 m p1 - ld8 m p2 else memcmp_loop k m (p1 + 1) (p2 + 1)
  end.
Definition memcmp (m : mem) (s1 s2 n : Z) : Z := memcmp_loop (Z.to_nat n) m s1 s2.
Definition memcpy (m : mem) (dst src n : Z) : mem := memmove m dst src n.

(** ** printf *)

Definition digits (d : Z) : Z := bytes_of "0123456789ABCDEF" !!! Z.to_nat d.

Fixpoint print_digits (k : nat) (x base : Z) : list Z :=
  match k with
  | O => []
  | S k => digits (x mod base) :: (if x / base =? 0 then [] else print_digits k (x / base) base)
  end.

(** [x] is a [uint]: 32 bits of the argument, at most 32 digits. *)
Definition printint_buf (xx base : Z) (sgn : bool) : list Z :=
  let neg := sgn && (xx <? 0) in
  let x := if neg then u32 (- xx) else u32 xx in
  print_digits 32 x base ++ (if neg then [45] else []).

(** The characters passed to putc, in order. *)
Definition printint (xx base : Z) (sgn : bool) : list Z := reverse (printint_buf xx base sgn).

Fixpoint printptr_loop (k : nat) (x : Z) : list Z :=
  match k with
  | O => []
  | S k => digits (Z.shiftr x 60) :: printptr_loop k (u64 (Z.shiftl x 4))
  end.
Definition printptr (x : Z) : list Z := [48; 120] ++ printptr_loop 16 (u64 x).

(** [state] is true after a percent sign. *)
Fixpoint vprintf (k : nat) (fmt : list Z) (i : nat) (state : bool) (ap : list vararg) : list Z :=
  match k with
  | O => []
  | S k =>
      let ch j := default 0 (fmt !! j) in
      let arg := default (Vint 0) (head ap) in
      let rest := tail ap in
      let c0 := ch i in
      if c0 =? 0 then []
      else if negb state then
        if c0 =? 37 then vprintf k fmt (i + 1) true ap else c0 :: vprintf k fmt (i + 1) false ap
      else
        let c1 := ch (i + 1)%nat in
        let c2 := if c1 =? 0 then 0 else ch (i + 2)%nat in
        if c0 =? 100 then printint (s32 (va_int arg)) 10 true ++ vprintf k fmt (i + 1) false rest
        else if (c0 =? 108) && (c1 =? 100) then
          printint (s64 (va_int arg)) 10 true ++ vprintf k fmt (i + 2) false rest
        else if (c0 =? 108) && (c1 =? 108) && (c2 =? 100) then
          printint (s64 (va_int arg)) 10 true ++ vprintf k fmt (i + 3) false rest
        else if c0 =? 117 then printint (u32 (va_int arg)) 10 false ++ vprintf k fmt (i + 1) false rest
        else if (c0 =? 108) && (c1 =? 117) then
          printint (s64 (va_int arg)) 10 false ++ vprintf k fmt (i + 2) false rest
        else if (c0 =? 108) && (c1 =? 108) && (c2 =? 117) then
          printint (s64 (va_int arg)) 10 false ++ vprintf k fmt (i + 3) false rest
        else if c0 =? 120 then printint (u32 (va_int arg)) 16 false ++ vprintf k fmt (i + 1) false rest
        else if (c0 =? 108) && (c1 =? 120) then
          printint (s64 (va_int arg)) 16 false ++ vprintf k fmt (i + 2) false rest
        else if (c0 =? 108) && (c1 =? 108) && (c2 =? 120) then
          printint (s64 (va_int arg)) 16 false ++ vprintf k fmt (i + 3) false rest
        else if c0 =? 112 then printptr (va_int arg) ++ vprintf k fmt (i + 1) false rest
        else if c0 =? 99 then u8 (va_int arg) :: vprintf k fmt (i + 1) false rest
        else if c0 =? 115 then
          default (bytes_of "(null)") (va_str arg) ++ vprintf k fmt (i + 1) false rest
        else if c0 =? 37 then 37 :: vprintf k fmt (i + 1) false ap
        else 37 :: c0 :: vprintf k fmt (i + 1) false ap
  end.

(** What [fprintf(fd, fmt, ...)] sends to [fd]: one round per character. *)
Definition fprintf_bytes (fmt : String.string) (ap : list vararg) : list Z :=
  vprintf (S (String.length fmt)) (bytes_of fmt) 0 false ap.

(** ** Numbers: atoi reads what printf prints *)

Definition is_digit (c : Z) : Prop := 48 ≤ c ≤ 57.

(** The value of decimal digits stored least significant first. *)
Definition dec_of (l : list Z) : Z := foldr (λ c v, c - 48 + 10 * v) 0 l.

Lemma digits_dec d : 0 ≤ d < 10 → digits d = 48 + d.
Proof.
  intros H. assert (Hall : Forall (λ d, digits d = 48 + d) (seqZ 0 10)).
  { apply (bool_decide_unpack _). by vm_compute. }
  rewrite Forall_forall in Hall. apply Hall, elem_of_seqZ. lia.
Qed.

Lemma print_digits_dec k x :
  0 ≤ x < 10 ^ Z.of_nat k → (0 < k)%nat →
  dec_of (print_digits k x 10) = x ∧ Forall is_digit (print_digits k x 10).
Proof.
  revert x. induction k as [|k IH]; intros x Hx Hk; [lia|]. cbn [print_digits].
  assert (Hm : 0 ≤ x mod 10 < 10) by mlia. rewrite (digits_dec _ Hm).
  destruct (x / 10 =? 0) eqn:E; bool_hyps.
  - split; [cbn; mlia|]. constructor; [|done]. unfold is_digit. lia.
  - destruct k as [|k]; [cbn in Hx; mlia|].
    rewrite Nat2Z.inj_succ, Z.pow_succ_r in Hx by lia.
    destruct (IH (x / 10)) as [Hv Hd]; [mlia|lia|]. split.
    + cbn [dec_of foldr]. fold (dec_of (print_digits (S k) (x / 10) 10)). rewrite Hv. mlia.
    + constructor; [unfold is_digit; lia|done].
Qed.

(** The most significant digit comes last, so prefixes of the printed string
    are quotients of the number. *)
Lemma dec_of_drop_le l j : Forall is_digit l → 0 ≤ dec_of (drop j l) ≤ dec_of l.
Proof.
  revert j. induction l as [|c l IH]; intros j H; [by rewrite drop_nil|].
  apply Forall_cons in H as [Hc H]. unfold is_digit in Hc.
  destruct j as [|j]; cbn [drop].
  - cbn [dec_of foldr]. fold (dec_of l). pose proof (IH 0%nat H) as IH0. rewrite drop_0 in IH0. lia.
  - cbn [dec_of foldr]. fold (dec_of l). pose proof (IH j H). pose proof (IH 0%nat H) as IH0.
    rewrite drop_0 in IH0. lia.
Qed.

(** Reading the printed digits [reverse l] after those of [hi]. *)
Lemma atoi_loop_digits k m s hi l :
  Forall is_digit (l ++ hi) → dec_of (l ++ hi) < 2147483648 → (length l < k)%nat →
  rd m s (S (length l)) = reverse l ++ [0] →
  atoi_loop k m s (dec_of hi) = dec_of (l ++ hi).
Proof.
  revert k s hi. induction l as [|c l IH] using rev_ind; intros k s hi Hd Hb Hk Hr.
  - destruct k as [|k]; [cbn in Hk; lia|]. cbn in Hr. cbn [atoi_loop app].
    injection Hr as ->. done.
  - rewrite length_app in Hk, Hr. cbn [length] in Hk, Hr. rewrite Nat.add_1_r in Hr.
    rewrite reverse_app in Hr. cbn in Hr. injection Hr as Hc Hr.
    rewrite <- (assoc_L (++)) in Hd, Hb |- *. cbn [app] in Hd, Hb |- *.
    assert (Hdc : is_digit c) by (rewrite Forall_app, Forall_cons in Hd; tauto).
    assert (Hch : 0 ≤ dec_of (c :: hi) ≤ dec_of (l ++ c :: hi)).
    { pose proof (dec_of_drop_le _ (length l) Hd) as Hle. by rewrite drop_app_length in Hle. }
    destruct k as [|k]; [lia|]. cbn [atoi_loop]. rewrite Hc. unfold is_digit in Hdc.
    rewrite (proj2 (Z.leb_le 48 c)), (proj2 (Z.leb_le c 57)) by lia. cbn [andb].
    replace (dec_of hi * 10 + c - 48) with (dec_of (c :: hi)) by (cbn; fold (dec_of hi); lia).
    rewrite s32_small by lia. apply IH; [done|done|lia|exact Hr].
Qed.

(** printf's %d and atoi are inverse: atoi of the bytes printint emits
    for a number, NUL-terminated, is the low 32 bits of that number, whenever
    they fit an int. *)
Lemma atoi_printint m s xx :
  0 ≤ xx → u32 xx < 2147483648 →
  rd m s (S (length (printint xx 10 true))) = printint xx 10 true ++ [0] →
  atoi m s = u32 xx.
Proof.
  intros Hx Hu. unfold printint, printint_buf. rewrite (proj2 (Z.ltb_ge xx 0) Hx). cbn [andb].
  rewrite app_nil_r, length_reverse. set (l := print_digits 32 (u32 xx) 10). intros Hr.
  destruct (print_digits_dec 32 (u32 xx)) as [Hv Hd]; [pose proof (u32_range xx); cbn; lia|lia|].
  fold l in Hv, Hd. unfold atoi. destruct (zero_in_range m s) as (i & Hi & Hz).
  assert (Hlen : (length l < S (size m))%nat).
  { destruct (decide (Z.of_nat (length l) ≤ i)) as [|Hlt]; [lia|]. exfalso.
    pose proof (lookup_rd m s (S (length l)) (Z.to_nat i) ltac:(lia)) as E.
    rewrite Z2Nat.id, Hz, Hr, lookup_app_l in E by (rewrite ?length_reverse; lia).
    apply list_elem_of_lookup_2 in E. rewrite elem_of_reverse in E. rewrite Forall_forall in Hd.
    apply Hd in E. unfold is_digit in E. lia. }
  rewrite (atoi_loop_digits _ _ _ [] l); rewrite ?app_nil_r; [done|done|lia|done|done].
Qed.

Lemma atoi_printint_witness :
  atoi (wr ∅ 4096 (bytes_of "2026" ++ [0])) 4096 = 2026.
Proof. refine (atoi_printint _ 4096 2026 _ _ _); [lia|by vm_compute|by vm_compute]. Defined.
