(* ===== verification/Sh.v ===== *)
(** user/sh.c: the shell's tokens, its recursive-descent parser and the
    termination of the strings it hands to exec and open. *)

From S2P Require Import Prelude Kstate Printf Fs.
Local Open Scope Z_scope.

(** ** Commands

    [A] stands for the strings of a command: the parser's pointer pairs
    (start, end) into the line, or the text they delimit.  [EXEC] is struct
    execcmd, whose argv and eargv run in step up to the null entry. *)
Inductive cmd (A : Type) : Type :=
| EXEC (argv : list A)
| REDIR (c : cmd A) (file : A) (mode fd : Z)
| PIPE (left right : cmd A)
| LIST (left right : cmd A)
| BACK (c : cmd A).
Arguments EXEC {A} argv.
Arguments REDIR {A} c file mode fd.
Arguments PIPE {A} left right.
Arguments LIST {A} left right.
Arguments BACK {A} c.

Definition MAXARGS : nat := 10.

Fixpoint cmd_map {A B} (f : A → B) (c : cmd A) : cmd B :=
  match c with
  | EXEC argv => EXEC (f <$> argv)
  | REDIR c file mode fd => REDIR (cmd_map f c) (f file) mode fd
  | PIPE l r => PIPE (cmd_map f l) (cmd_map f r)
  | LIST l r => LIST (cmd_map f l) (cmd_map f r)
  | BACK c => BACK (cmd_map f c)
  end.

(** Every string of a command. *)
Fixpoint cmd_strings {A} (c : cmd A) : list A :=
  match c with
  | EXEC argv => argv
  | REDIR c file _ _ => file :: cmd_strings c
  | PIPE l r | LIST l r => cmd_strings l ++ cmd_strings r
  | BACK c => cmd_strings c
  end.

(** A computation that returns, or writes [said] to descriptor 2, calls the
    shell's [panic] and exits. *)
Inductive res (A : Type) : Type :=
| Ret (a : A)
| Exit (said : list Z) (msg : String.string)
| NoFuel.
Arguments Ret {A} a.
Arguments Exit {A} said msg.
Arguments NoFuel {A}.

#[export] Instance res_bind : MBind res := λ A B f r,
  match r with Ret a => f a | Exit l m => Exit l m | NoFuel => NoFuel end.

(** ** Characters *)
Definition c_bar : Z := 124.
Definition c_lpar : Z := 40.
Definition c_rpar : Z := 41.
Definition c_semi : Z := 59.
Definition c_amp : Z := 38.
Definition c_lt : Z := 60.
Definition c_gt : Z := 62.
Definition c_plus : Z := 43.
Definition c_a : Z := 97.

(** [strchr(set, c)] is not null; the sets hold no NUL. *)
Definition in_set (set : list Z) (c : Z) : bool := existsb (Z.eqb c) set.

Definition whitespace : list Z := [32; 9; 13; 10; 11].
Definition symbols : list Z := [c_lt; c_bar; c_gt; c_amp; c_semi; c_lpar; c_rpar].
Definition word_char (c : Z) : bool := negb (in_set whitespace c) && negb (in_set symbols c).

(** The cases of gettoken's switch that are one character. *)
Definition single : list Z := [c_bar; c_lpar; c_rpar; c_semi; c_amp; c_lt].

Section parser.
(** The bytes of the string being parsed; [es] points to its NUL. *)
Variable line : list Z.
Abbreviation es := (length line).

Definition chr (i : nat) : Z := default 0 (line !! i).

(** [while(s < es && f( *s )) s++], from [s = es - n]. *)
Fixpoint skip_while (f : Z → bool) (n s : nat) : nat :=
  match n with
  | O => s
  | S n => if f (chr s) then skip_while f n (S s) else s
  end.
Definition skip_ws (s : nat) : nat := skip_while (in_set whitespace) (es - s) s.

(** The token, its bounds and the position after it. *)
Definition gettoken (s : nat) : Z * nat * nat * nat :=
  let q := skip_ws s in
  let c := chr q in
  let '(ret, eq) :=
    if c =? 0 then (0, q)
    else if in_set single c then (c, S q)
    else if c =? c_gt then
      if chr (S q) =? c_gt then (c_plus, S (S q)) else (c, S q)
    else (c_a, skip_while word_char (es - q) q) in
  (ret, q, eq, skip_ws eq).

Definition peek (s : nat) (toks : list Z) : bool * nat :=
  let s := skip_ws s in
  (negb (chr s =? 0) && in_set toks (chr s), s).

Definition pcmd : Type := cmd (nat * nat).

(** [cmd->argv[argc] = q; cmd->eargv[argc] = eq], where [cmd] is the execcmd
    at the bottom of the redirections [ret]. *)
Fixpoint add_arg (a : nat * nat) (ret : pcmd) : pcmd :=
  match ret with
  | EXEC argv => EXEC (argv ++ [a])
  | REDIR c file mode fd => REDIR (add_arg a c) file mode fd
  | c => c
  end.

Fixpoint parseredirs (n : nat) (c : pcmd) (s : nat) : res (pcmd * nat) :=
  match n with
  | O => NoFuel
  | S n =>
      let '(b, s) := peek s [c_lt; c_gt] in
      if negb b then Ret (c, s) else
      let '(tok, _, _, s) := gettoken s in
      let '(t, q, eq, s) := gettoken s in
      if negb (t =? c_a) then Exit [] "missing file for redirection" else
      parseredirs n
        (if tok =? c_lt then REDIR c (q, eq) O_RDONLY 0
         else if tok =? c_gt then
           REDIR c (q, eq) (Z.lor (Z.lor O_WRONLY O_CREATE) O_TRUNC) 1
         else if tok =? c_plus then REDIR c (q, eq) (Z.lor O_WRONLY O_CREATE) 1
         else c) s
  end.

(** The loop of parseexec over the arguments. *)
Fixpoint parseargs (n : nat) (ret : pcmd) (argc : nat) (s : nat) : res (pcmd * nat) :=
  match n with
  | O => NoFuel
  | S n =>
      let '(b, s) := peek s [c_bar; c_rpar; c_amp; c_semi] in
      if b then Ret (ret, s) else
      let '(tok, q, eq, s) := gettoken s in
      if tok =? 0 then Ret (ret, s) else
      if negb (tok =? c_a) then Exit [] "syntax" else
      if (MAXARGS <=? argc + 1)%nat then Exit [] "too many args" else
      '(ret, s) ← parseredirs (S es) (add_arg (q, eq) ret) s;
      parseargs n ret (argc + 1) s
  end.

(** [while(peek(ps, es, "&")) ...] of parseline. *)
Fixpoint parsebacks (n : nat) (c : pcmd) (s : nat) : res (pcmd * nat) :=
  match n with
  | O => NoFuel
  | S n =>
      let '(b, s) := peek s [c_amp] in
      if b then let '(_, _, _, s) := gettoken s in parsebacks n (BACK c) s
      else Ret (c, s)
  end.

Fixpoint parseline (n : nat) (s : nat) : res (pcmd * nat) :=
  match n with
  | O => NoFuel
  | S n =>
      '(c, s) ← parsepipe n s;
      '(c, s) ← parsebacks (S es) c s;
      let '(b, s) := peek s [c_semi] in
      if b then
        let '(_, _, _, s) := gettoken s in
        '(r, s) ← parseline n s;
        Ret (LIST c r, s)
      else Ret (c, s)
  end
with parsepipe (n : nat) (s : nat) : res (pcmd * nat) :=
  match n with
  | O => NoFuel
  | S n =>
      '(c, s) ← parseexec n s;
      let '(b, s) := peek s [c_bar] in
      if b then
        let '(_, _, _, s) := gettoken s in
        '(r, s) ← parsepipe n s;
        Ret (PIPE c r, s)
      else Ret (c, s)
  end
with parseexec (n : nat) (s : nat) : res (pcmd * nat) :=
  match n with
  | O => NoFuel
  | S n =>
      let '(b, s) := peek s [c_lpar] in
      if b then parseblock n s else
      '(ret, s) ← parseredirs (S es) (EXEC []) s;
      parseargs (S es) ret 0 s
  end
with parseblock (n : nat) (s : nat) : res (pcmd * nat) :=
  match n with
  | O => NoFuel
  | S n =>
      let '(b, s) := peek s [c_lpar] in
      if negb b then Exit [] "parseblock" else
      let '(_, _, _, s) := gettoken s in
      '(c, s) ← parseline n s;
      let '(b, s) := peek s [c_rpar] in
      if negb b then Exit [] "syntax - missing )" else
      let '(_, _, _, s) := gettoken s in
      parseredirs (S es) c s
  end.
End parser.

(** The line with a NUL stored at a pointer. *)
Definition nul_at (i : nat) (buf : list Z) : list Z := <[i := 0]> buf.

Fixpoint nulterminate (c : pcmd) (buf : list Z) : list Z :=
  match c with
  | EXEC argv => foldl (λ buf a, nul_at a.2 buf) buf argv
  | REDIR c file _ _ => nul_at file.2 (nulterminate c buf)
  | PIPE l r | LIST l r => nulterminate r (nulterminate l buf)
  | BACK c => nulterminate c buf
  end.

(** The command and the buffer, which holds [line] and its NUL, after
    parsing. *)
Definition parsecmd (line : list Z) : res (pcmd * list Z) :=
  '(c, s) ← parseline line (4 * length line + 4) 0;
  let '(_, s) := peek line s [] in
  if negb (s =? length line)%nat then Exit (bytes_of "leftovers: " ++ drop s line ++ [10]) "syntax" else
  Ret (c, nulterminate c (line ++ [0])).

(** ** What the parser returns *)
Section correct.
Variable line : list Z.
Abbreviation es := (length line).
Abbreviation ch := (chr line).

(** A pointer pair delimits a maximal run of word characters. *)
Definition word_at (a : nat * nat) : Prop :=
  (a.1 < a.2 ≤ es)%nat ∧ (∀ i, a.1 ≤ i < a.2 → word_char (ch i) = true)%nat ∧
  (a.2 < es → word_char (ch a.2) = false)%nat.

Lemma skip_while_spec f n s : (s + n = es)%nat →
  let e := skip_while line f n s in
  (s ≤ e ≤ es)%nat ∧ (∀ i, s ≤ i < e → f (ch i) = true)%nat ∧ (e < es → f (ch e) = false)%nat.
Proof.
  revert s. induction n as [|n IH]; intros s Hs; cbn [skip_while].
  - split; [lia|]. split; intros; lia.
  - destruct (f _) eqn:Hf; [|split; [lia|]; split; [lia|done]].
    destruct (IH (S s)) as (H1 & H2 & H3); [lia|]. split; [lia|]. split; [|done].
    intros i Hi. destruct (decide (i = s)) as [->|]; [done|]. apply H2. lia.
Qed.

Lemma skip_ws_spec s : (s ≤ es)%nat → (s ≤ skip_ws line s ≤ es)%nat ∧
  (skip_ws line s < es → in_set whitespace (ch (skip_ws line s)) = false)%nat.
Proof.
  intros Hs. unfold skip_ws. destruct (skip_while_spec (in_set whitespace) (es - s) s) as (H1 & _ & H3);
    [lia|]. done.
Qed.

Lemma chr_end i : (es ≤ i)%nat → ch i = 0.
Proof. intros Hi. unfold chr. by rewrite lookup_ge_None_2. Qed.

Lemma chr_lt i : ch i ≠ 0 → (i < es)%nat.
Proof. intros Hc. destruct (decide (i < es)%nat); [done|]. rewrite chr_end in Hc by lia. done. Qed.

Lemma in_set_spec set c : in_set set c = true ↔ c ∈ set.
Proof.
  unfold in_set. rewrite existsb_exists. setoid_rewrite Z.eqb_eq. split.
  - intros (x & Hx & ->). by apply list_elem_of_In.
  - intros Hc. exists c. by rewrite <-list_elem_of_In.
Qed.

Lemma word_char_spec c : in_set whitespace c = false → c ≠ c_gt →
  in_set single c = false → word_char c = true.
Proof.
  intros Hw Hg Hs. unfold word_char. rewrite Hw. cbn [negb andb]. apply negb_true_iff, not_true_is_false.
  intros Hc%in_set_spec. apply not_true_iff_false in Hs. apply Hs, in_set_spec. set_solver.
Qed.

(** gettoken stays in the line, advances past any token but the end, and
    the bounds of an 'a' token are those of a word. *)
Lemma gettoken_spec s tok q eq s' : (s ≤ es)%nat → gettoken line s = (tok, q, eq, s') →
  (s ≤ s' ≤ es)%nat ∧ (tok ≠ 0%Z → s < s')%nat ∧ (tok = c_a → word_at (q, eq)).
Proof.
  intros Hs. unfold gettoken. destruct (skip_ws_spec s Hs) as [Hq Hw].
  set (p := skip_ws line s) in *. pose proof (chr_lt p) as Hlt.
  remember (ch p) as c eqn:Hcp.
  destruct (if c =? 0 then _ else _) as [r e] eqn:Hr.
  assert ((p ≤ e ≤ es)%nat ∧ (r ≠ 0%Z → p < e)%nat ∧ (r = c_a → word_at (p, e))) as (H1 & H2 & H3).
  { destruct (c =? 0) eqn:E0; [simplify_eq; split; [lia|]; by split|]. bool_hyps.
    pose proof (Hlt E0) as Hp.
    destruct (in_set single c) eqn:E1.
    { apply in_set_spec in E1. injection Hr as <- <-. split; [lia|]. split; [lia|]. intros Hc.
      rewrite Hc in E1. by apply (bool_decide_pack _) in E1. }
    destruct (c =? c_gt) eqn:E2; bool_hyps.
    { assert (ch (S p) = c_gt → S p < es)%nat as Hn by (intros H; apply chr_lt; by rewrite H).
      destruct (ch (S p) =? c_gt) eqn:E3; bool_hyps; injection Hr as <- <-.
      - specialize (Hn E3). split; [lia|]. split; [lia|done].
      - split; [lia|]. split; [lia|]. by rewrite E2. }
    destruct (skip_while_spec word_char (es - p) p) as (G1 & G2 & G3); [lia|].
    injection Hr as <- <-.
    assert (word_char c = true) as Hc by (apply word_char_spec; [by apply Hw|done..]).
    assert (p < skip_while line word_char (es - p) p)%nat as Hlt'.
    { destruct (decide (skip_while line word_char (es - p) p = p)) as [He|]; [|lia].
      rewrite He in G3. rewrite Hcp, (G3 Hp) in Hc. done. }
    split; [lia|]. split; [done|]. intros _. split; [cbn; lia|]. by split. }
  intros [= <- <- <- <-]. destruct (skip_ws_spec e ltac:(lia)) as [He _].
  split; [lia|]. split; [intros Hr0; specialize (H2 Hr0); lia|done].
Qed.

Lemma skip_ws_idem s : (s ≤ es)%nat → skip_ws line (skip_ws line s) = skip_ws line s.
Proof.
  intros Hs. destruct (skip_ws_spec s Hs) as [H1 H2]. set (p := skip_ws line s) in *.
  unfold skip_ws. destruct (es - p)%nat eqn:Hn; [done|]. cbn [skip_while]. by rewrite H2 by lia.
Qed.

Lemma gettoken_nonzero s : ch (skip_ws line s) ≠ 0 → (gettoken line s).1.1.1 ≠ 0.
Proof.
  intros Hc. unfold gettoken. rewrite (proj2 (Z.eqb_neq _ _) Hc).
  destruct (in_set single _); [done|]. destruct (_ =? c_gt); [|done]. by destruct (_ =? c_gt).
Qed.

Lemma peek_spec s toks b s' : (s ≤ es)%nat → peek line s toks = (b, s') →
  (s ≤ s' ≤ es)%nat ∧ skip_ws line s' = s' ∧
  b = negb (ch s' =? 0) && in_set toks (ch s').
Proof.
  unfold peek. intros Hs [= <- <-]. destruct (skip_ws_spec s Hs).
  split; [done|]. split; [by apply skip_ws_idem|done].
Qed.

(** A token that [peek] has seen is consumed. *)
Lemma peek_gettoken s toks s' tok q eq s'' : (s ≤ es)%nat → peek line s toks = (true, s') →
  gettoken line s' = (tok, q, eq, s'') → (s < s'' ≤ es)%nat.
Proof.
  intros Hs Hp Hg. destruct (peek_spec _ _ _ _ Hs Hp) as (H1 & H2 & H3).
  symmetry in H3. apply andb_prop in H3 as [H3 _]. bool_hyps.
  pose proof (gettoken_nonzero s') as Hn. rewrite H2, Hg in Hn. cbn in Hn.
  destruct (gettoken_spec s' _ _ _ _ ltac:(lia) Hg) as (G1 & G2 & _). specialize (G2 (Hn H3)). lia.
Qed.

(** What a parsing function promises when it starts at [s]: it does not run
    out of fuel, moves forward within the line, and every string of the
    command is a word of the line. *)
Definition parsed (s : nat) (r : res (pcmd * nat)) : Prop :=
  match r with
  | Ret (c, s') => (s ≤ s' ≤ es)%nat ∧ Forall word_at (cmd_strings c)
  | Exit _ _ => True
  | NoFuel => False
  end.

Lemma parsed_from s s' r : (s ≤ s')%nat → parsed s' r → parsed s r.
Proof. intros Hs. destruct r as [[c e]| |]; cbn; [|done..]. intros [H1 H2]. split; [lia|done]. Qed.

Lemma parsed_bind s r f : parsed s r →
  (∀ c s', (s ≤ s' ≤ es)%nat → Forall word_at (cmd_strings c) → parsed s' (f (c, s'))) →
  parsed s (r ≫= f).
Proof.
  destruct r as [[c s']| |]; cbn; [|done..]. intros [Hs Hc] Hf. 
  apply (parsed_from _ s'); [lia|]. by apply Hf.
Qed.

Lemma parseredirs_parsed n c s : (s ≤ es)%nat → (es - s < n)%nat → Forall word_at (cmd_strings c) →
  parsed s (parseredirs line n c s).
Proof.
  revert c s. induction n as [|n IH]; intros c s Hs Hn Hc; [lia|]. cbn [parseredirs].
  destruct (peek _ _ _) as [b s1] eqn:Hp. destruct (peek_spec _ _ _ _ Hs Hp) as (H1 & _ & _).
  destruct b; cbn [negb]; [|by split; [lia|]].
  destruct (gettoken line s1) as [[[tok q0] eq0] s2] eqn:Hg1.
  pose proof (peek_gettoken _ _ _ _ _ _ _ Hs Hp Hg1) as H2.
  destruct (gettoken line s2) as [[[t q] eq] s3] eqn:Hg2.
  destruct (gettoken_spec s2 _ _ _ _ ltac:(lia) Hg2) as (H3 & _ & Hw).
  destruct (t =? c_a) eqn:Ht; cbn [negb]; [|done]. bool_hyps.
  apply (parsed_from _ s3); [lia|]. apply IH; [lia..|].
  repeat case_match; try done; constructor; auto.
Qed.
Lemma add_arg_words a c : word_at a → Forall word_at (cmd_strings c) →
  Forall word_at (cmd_strings (add_arg a c)).
Proof.
  intros Ha. induction c as [argv|c IH f m fd| | |]; cbn; intros Hc; try done.
  - apply Forall_app. split; [done|by constructor].
  - inversion_clear Hc. constructor; auto.
Qed.

Lemma parseargs_parsed n c k s : (s ≤ es)%nat → (es - s < n)%nat → Forall word_at (cmd_strings c) →
  parsed s (parseargs line n c k s).
Proof.
  revert c k s. induction n as [|n IH]; intros c k s Hs Hn Hc; [lia|]. cbn [parseargs].
  destruct (peek _ _ _) as [b s1] eqn:Hp. destruct (peek_spec _ _ _ _ Hs Hp) as (H1 & _ & _).
  destruct b; [by split; [lia|]|].
  destruct (gettoken line s1) as [[[tok q] eq] s2] eqn:Hg.
  destruct (gettoken_spec s1 _ _ _ _ ltac:(lia) Hg) as (H2 & H3 & Hw).
  destruct (tok =? 0) eqn:E0; bool_hyps; [by split; [lia|]|]. specialize (H3 E0).
  destruct (tok =? c_a) eqn:Ht; cbn [negb]; [|done]. bool_hyps.
  destruct (_ <=? _)%nat; [done|]. apply (parsed_from _ s2); [lia|].
  apply parsed_bind; [apply parseredirs_parsed; [lia..|by apply add_arg_words; [apply Hw|]]|].
  intros c' s' Hs' Hc'. apply IH; [lia..|done].
Qed.

Lemma parsebacks_parsed n c s : (s ≤ es)%nat → (es - s < n)%nat → Forall word_at (cmd_strings c) →
  parsed s (parsebacks line n c s).
Proof.
  revert c s. induction n as [|n IH]; intros c s Hs Hn Hc; [lia|]. cbn [parsebacks].
  destruct (peek _ _ _) as [b s1] eqn:Hp. destruct (peek_spec _ _ _ _ Hs Hp) as (H1 & _ & _).
  destruct b; [|by split; [lia|]].
  destruct (gettoken line s1) as [[[tok q] eq] s2] eqn:Hg.
  pose proof (peek_gettoken _ _ _ _ _ _ _ Hs Hp Hg). apply (parsed_from _ s2); [lia|].
  by apply IH; [lia..|].
Qed.

(** After a separator that [peek] saw, the rest is parsed by [m] and combined
    with what came before; otherwise nothing is left to do. *)
Lemma parsed_sep s toks c (m : nat → res (pcmd * nat)) (g : pcmd → pcmd) : (s ≤ es)%nat →
  Forall word_at (cmd_strings c) →
  (∀ s', (s < s' ≤ es)%nat → parsed s' (m s')) →
  (∀ r, Forall word_at (cmd_strings r) → Forall word_at (cmd_strings (g r))) →
  parsed s (let '(b, s) := peek line s toks in
            if b then let '(_, _, _, s) := gettoken line s in '(r, s) ← m s; Ret (g r, s)
            else Ret (c, s)).
Proof.
  intros Hs Hc Hm Hg. destruct (peek _ _ _) as [b s1] eqn:Hp.
  destruct (peek_spec _ _ _ _ Hs Hp) as (H1 & _ & _). destruct b; [|by split; [lia|]].
  destruct (gettoken line s1) as [[[tok q] eq] s2] eqn:Hg2.
  pose proof (peek_gettoken _ _ _ _ _ _ _ Hs Hp Hg2). apply (parsed_from _ s2); [lia|].
  apply parsed_bind; [apply Hm; lia|]. intros r s' Hs' Hr. split; [lia|auto].
Qed.

(** The fuel: each function calls the next with one unit less, and a block or
    a separator consumes a character before parsing goes on. *)
Lemma parse_parsed n :
  (∀ s, s ≤ es → 4 * (es - s) + 4 ≤ n → parsed s (parseline line n s))%nat ∧
  (∀ s, s ≤ es → 4 * (es - s) + 3 ≤ n → parsed s (parsepipe line n s))%nat ∧
  (∀ s, s ≤ es → 4 * (es - s) + 2 ≤ n → parsed s (parseexec line n s))%nat ∧
  (∀ s, s ≤ es → 4 * (es - s) + 1 ≤ n → parsed s (parseblock line n s))%nat.
Proof.
  induction n as [|n (IHl & IHp & IHe & IHb)]; [repeat split; lia|].
  split; [|split; [|split]]; intros s Hs Hn; cbn [parseline parsepipe parseexec parseblock].
  - apply parsed_bind; [apply IHp; lia|]. intros c s1 Hs1 Hc.
    apply parsed_bind; [by apply parsebacks_parsed; [lia..|]|]. intros c' s2 Hs2 Hc'.
    apply parsed_sep; [lia|done|intros s' Hs'; apply IHl; lia|].
    intros r Hr. by apply Forall_app.
  - apply parsed_bind; [apply IHe; lia|]. intros c s1 Hs1 Hc.
    apply parsed_sep; [lia|done|intros s' Hs'; apply IHp; lia|].
    intros r Hr. by apply Forall_app.
  - destruct (peek _ _ _) as [b s1] eqn:Hp. destruct (peek_spec _ _ _ _ Hs Hp) as (H1 & _ & _).
    apply (parsed_from _ s1); [lia|]. destruct b; [apply IHb; lia|].
    apply parsed_bind; [by apply parseredirs_parsed; [lia..|constructor]|]. intros c s2 Hs2 Hc.
    by apply parseargs_parsed; [lia..|].
  - destruct (peek _ _ _) as [b s1] eqn:Hp. destruct b; cbn [negb]; [|done].
    destruct (gettoken line s1) as [[[tok q] eq] s2] eqn:Hg.
    pose proof (peek_gettoken _ _ _ _ _ _ _ Hs Hp Hg). apply (parsed_from _ s2); [lia|].
    apply parsed_bind; [apply IHl; lia|]. intros c s3 Hs3 Hc.
    destruct (peek line s3 _) as [b s4] eqn:Hp4. destruct b; cbn [negb]; [|done].
    destruct (gettoken line s4) as [[[tok' q'] eq'] s5] eqn:Hg5.
    assert (s3 ≤ es)%nat as Hs3' by lia.
    pose proof (peek_gettoken _ _ _ _ _ _ _ Hs3' Hp4 Hg5). apply (parsed_from _ s5); [lia|].
    by apply parseredirs_parsed; [lia..|].
Qed.
End correct.

(** ** The strings of a command *)

(** The C string at [i], and the text between two pointers. *)
Fixpoint upto_nul (l : list Z) : list Z :=
  match l with [] => [] | c :: l => if c =? 0 then [] else c :: upto_nul l end.
Definition c_string (buf : list Z) (i : nat) : list Z := upto_nul (drop i buf).
Definition slice (line : list Z) (a : nat * nat) : list Z := take (a.2 - a.1) (drop a.1 line).

Lemma upto_nul_app l r : 0 ∉ l → upto_nul (l ++ 0 :: r) = l.
Proof.
  induction l as [|c l IH]; [done|]. intros [Hc Hl]%not_elem_of_cons. cbn.
  rewrite (proj2 (Z.eqb_neq c 0)) by done. by rewrite IH.
Qed.

Lemma nul_at_length i buf : length (nul_at i buf) = length buf.
Proof. apply length_insert. Qed.

Lemma nul_at_lookup i j buf : (j < length buf)%nat →
  nul_at i buf !! j = if decide (j = i) then Some 0 else buf !! j.
Proof. intros Hj. unfold nul_at. case_decide as H; [subst; by apply list_lookup_insert_eq|]. by apply list_lookup_insert_ne. Qed.

(** nulterminate stores a NUL at the end of every string and nowhere else. *)
Lemma nulterminate_spec c buf : length (nulterminate c buf) = length buf ∧
  ∀ j, (j < length buf)%nat →
    nulterminate c buf !! j = if decide (j ∈ snd <$> cmd_strings c) then Some 0 else buf !! j.
Proof.
  revert buf. induction c as [argv|c IH f m fd|l IHl r IHr|l IHl r IHr|c IH]; intros buf; cbn [nulterminate cmd_strings].
  - revert buf. induction argv as [|a argv IH]; intros buf; cbn; [done|].
    destruct (IH (nul_at a.2 buf)) as [H1 H2]. rewrite nul_at_length in H1, H2. split; [done|].
    intros j Hj. rewrite H2, nul_at_lookup by done. repeat case_decide; set_solver.
  - destruct (IH buf) as [H1 H2]. rewrite nul_at_length. split; [done|].
    intros j Hj. rewrite nul_at_lookup, H2 by (rewrite ?H1; done). repeat case_decide; set_solver.
  - destruct (IHl buf) as [H1 H2], (IHr (nulterminate l buf)) as [H3 H4]. split; [by rewrite H3|].
    intros j Hj. rewrite H4, H2 by (rewrite ?H1; done). rewrite fmap_app. repeat case_decide; set_solver.
  - destruct (IHl buf) as [H1 H2], (IHr (nulterminate l buf)) as [H3 H4]. split; [by rewrite H3|].
    intros j Hj. rewrite H4, H2 by (rewrite ?H1; done). rewrite fmap_app. repeat case_decide; set_solver.
  - apply IH.
Qed.

Lemma slice_lookup line a j : (a.2 ≤ length line)%nat →
  slice line a !! j = if decide (a.1 + j < a.2)%nat then line !! (a.1 + j)%nat else None.
Proof.
  intros Ha. unfold slice. case_decide.
  - by rewrite lookup_take_lt, lookup_drop by lia.
  - by rewrite lookup_take_ge by lia.
Qed.

(** A string no other string's end falls into reads back as its text. *)
Lemma nulterminate_string line c a : 0 ∉ line → Forall (word_at line) (cmd_strings c) →
  a ∈ cmd_strings c → c_string (nulterminate c (line ++ [0])) a.1 = slice line a.
Proof.
  intros H0 Hc Ha. destruct (nulterminate_spec c (line ++ [0])) as [Hl Hn].
  rewrite length_app in Hl, Hn. cbn [length] in Hl, Hn.
  pose proof (proj1 (Forall_forall _ _) Hc) as Hw. destruct (Hw a Ha) as (Hb & Hin & _).
  set (buf := nulterminate c (line ++ [0])) in *. unfold c_string.
  assert (drop a.1 buf = slice line a ++ 0 :: drop (S a.2) buf) as ->.
  { apply list_eq. intros j. rewrite lookup_drop.
    assert (length (slice line a) = a.2 - a.1)%nat as Hsl by (unfold slice; rewrite length_take, length_drop; lia).
    destruct (decide (a.1 + j < a.2)%nat) as [Hj|Hj].
    - rewrite lookup_app_l by lia. rewrite slice_lookup, decide_True by lia.
      rewrite Hn by lia. rewrite decide_False; [by rewrite lookup_app_l by lia|].
      intros (b & Hb2 & Hb1)%list_elem_of_fmap. destruct (Hw b Hb1) as (G1 & _ & G3).
      specialize (Hin (a.1 + j)%nat ltac:(lia)). rewrite Hb2 in Hin. rewrite G3 in Hin by lia. done.
    - rewrite lookup_app_r by lia. rewrite Hsl. destruct (j - (a.2 - a.1))%nat as [|k] eqn:Hk.
      + replace (a.1 + j)%nat with a.2 by lia. rewrite Hn by lia.
        rewrite decide_True; [done|]. apply list_elem_of_fmap. by exists a.
      + change ((0 :: ?l) !! S k) with (l !! k). rewrite lookup_drop. f_equal. lia. }
  apply upto_nul_app. intros (j & Hj)%list_elem_of_lookup. rewrite slice_lookup in Hj by lia.
  case_decide; [|done]. apply H0. by eapply list_elem_of_lookup_2.
Qed.

Lemma cmd_map_ext {A B} (f g : A → B) c : (∀ a, a ∈ cmd_strings c → f a = g a) → cmd_map f c = cmd_map g c.
Proof.
  induction c as [argv|c IH f' m fd|l IHl r IHr|l IHl r IHr|c IH]; cbn; intros H; f_equal;
    try (apply IH || apply IHl || apply IHr); try (intros a Ha; apply H; set_solver).
  - apply list_fmap_ext. intros i a Ha. by apply H, list_elem_of_lookup_2 with i.
  - apply H. set_solver.
Qed.

(** C30. parsecmd terminates on every line without NULs: its recursion, four
    mutually recursive functions and three loops, ends within the fuel given.
    When it returns rather than exits, every argument and file name is a
    maximal run of word characters of the line, and after nulterminate the C
    strings at the command's pointers are exactly these words. *)
Theorem parsecmd_total line : 0 ∉ line →
  match parsecmd line with
  | Ret (c, buf) =>
      Forall (word_at line) (cmd_strings c) ∧
      cmd_map (λ a, c_string buf a.1) c = cmd_map (slice line) c
  | Exit _ _ => True
  | NoFuel => False
  end.
Proof.
  intros H0. unfold parsecmd. destruct (parse_parsed line (4 * length line + 4)) as [Hl _].
  specialize (Hl 0%nat ltac:(lia) ltac:(lia)).
  destruct (parseline _ _ _) as [[c s]|l m|]; cbn in Hl |- *; [|done..]. destruct Hl as [Hs Hc].
  destruct (negb _); [exact I|]. split; [done|]. apply cmd_map_ext. intros a Ha. by apply nulterminate_string.
Qed.

(** [echo hi >x & ] *)
Lemma parsecmd_total_witness :
  let line := [101; 99; 104; 111; 32; 104; 105; 32; 62; 120; 32; 38; 32] in
  ∃ c buf, parsecmd line = Ret (c, buf) ∧
    cmd_map (λ a, c_string buf a.1) c =
      BACK (REDIR (EXEC [[101; 99; 104; 111]; [104; 105]]) [120] 0x601 1).
Proof.
  intros line. assert (0 ∉ line) as H0 by (apply (bool_decide_unpack _); by vm_compute).
  pose proof (parsecmd_total line H0) as H.
  destruct (parsecmd line) as [[c buf]|l m|] eqn:Hp; [|by vm_compute in Hp..].
  exists c, buf. split; [done|]. destruct H as [_ ->]. vm_compute in Hp. by injection Hp as <- <-.
Defined.
