(* ===== verification/ShSpec.v ===== *)
(** The shell's parser against its grammar: every command, written out with
    the parentheses its operators need, parses back to itself. *)

From S2P Require Import Prelude Kstate Fs Sh.
Local Open Scope Z_scope.

(** ** Writing commands *)
Inductive token : Type :=
| TSym (c : Z)
| TAppend
| TWord (w : list Z).

Definition text (t : token) : list Z :=
  match t with TSym c => [c] | TAppend => [c_gt; c_gt] | TWord w => w end.

(** What gettoken returns for it. *)
Definition code (t : token) : Z :=
  match t with TSym c => c | TAppend => c_plus | TWord _ => c_a end.

Definition word_ok (w : list Z) : Prop := w ≠ [] ∧ Forall (λ c, c ≠ 0 ∧ word_char c = true) w.

Definition tok_ok (t : token) : Prop :=
  match t with TSym c => c ∈ symbols | TAppend => True | TWord w => word_ok w end.

(** A space before each token. *)
Definition spaced (ts : list token) : list Z := ts ≫= λ t, 32 :: text t.

Definition redir_tok (mode : Z) : token :=
  if mode =? O_RDONLY then TSym c_lt
  else if mode =? Z.lor (Z.lor O_WRONLY O_CREATE) O_TRUNC then TSym c_gt
  else TAppend.

Definition paren (b : bool) (ts : list token) : list token :=
  if b then TSym c_lpar :: ts ++ [TSym c_rpar] else ts.

(** The tokens of a command where the grammar expects a line (0), the operand
    of [&] (1), a pipeline (2) or an element of a pipeline (3). *)
Fixpoint toks (lvl : nat) (c : cmd (list Z)) : list token :=
  match c with
  | LIST l r => paren (0 <? lvl)%nat (toks 1 l ++ TSym c_semi :: toks 0 r)
  | BACK c => paren (1 <? lvl)%nat (toks 1 c ++ [TSym c_amp])
  | PIPE l r => paren (2 <? lvl)%nat (toks 3 l ++ TSym c_bar :: toks 2 r)
  | REDIR c file mode _ => toks 3 c ++ [redir_tok mode; TWord file]
  | EXEC argv => TWord <$> argv
  end.

Definition render (c : cmd (list Z)) : list Z := spaced (toks 0 c).

Definition redir_ok (mode fd : Z) : Prop :=
  (mode, fd) ∈ [(O_RDONLY, 0); (Z.lor (Z.lor O_WRONLY O_CREATE) O_TRUNC, 1); (Z.lor O_WRONLY O_CREATE, 1)].

(** Commands that can be typed: words of word characters, at most
    MAXARGS - 1 of them, and the three kinds of redirection. *)
Fixpoint cmd_ok (c : cmd (list Z)) : Prop :=
  match c with
  | EXEC argv => Forall word_ok argv ∧ (length argv < MAXARGS)%nat
  | REDIR c file mode fd => cmd_ok c ∧ word_ok file ∧ redir_ok mode fd
  | PIPE l r | LIST l r => cmd_ok l ∧ cmd_ok r
  | BACK c => cmd_ok c
  end.

#[export] Instance redir_ok_dec mode fd : Decision (redir_ok mode fd).
Proof. unfold redir_ok. apply _. Defined.
#[export] Instance word_ok_dec w : Decision (word_ok w).
Proof. unfold word_ok. apply _. Defined.
#[export] Instance cmd_ok_dec c : Decision (cmd_ok c).
Proof. induction c; cbn [cmd_ok]; apply _. Defined.

(** Redirections applied from the inside out. *)
Definition redirs (c : cmd (list Z)) (rs : list (list Z * Z * Z)) : cmd (list Z) :=
  foldl (λ c r, REDIR c r.1.1 r.1.2 r.2) c rs.
Definition redir_toks (rs : list (list Z * Z * Z)) : list token :=
  rs ≫= λ r, [redir_tok r.1.2; TWord r.1.1].
Definition redirs_ok (rs : list (list Z * Z * Z)) : Prop :=
  Forall (λ r, word_ok r.1.1 ∧ redir_ok r.1.2 r.2) rs.

(** ** Scanning the written line *)
Section scan.
Variable line : list Z.
Abbreviation es := (length line).

Definition blank (w : list Z) : Prop := Forall (λ c, in_set whitespace c = true) w.

(** The tokens [ts] and white space [v], from the first token on. *)
Definition body (v : list Z) (ts : list token) : list Z :=
  match ts with [] => [] | t :: ts => text t ++ spaced ts ++ v end.

(** From [s] on the line holds the tokens [ts], between white space. *)
Definition at_toks (s : nat) (ts : list token) : Prop :=
  (s ≤ es)%nat ∧ Forall tok_ok ts ∧
  ∃ w v, blank w ∧ blank v ∧ drop s line = w ++ body v ts.

Lemma drop_len s w r : (s ≤ es)%nat → drop s line = w ++ r →
  (s + length w ≤ es)%nat ∧ drop (s + length w) line = r.
Proof.
  intros Hs Hd. pose proof (f_equal length Hd) as Hl. rewrite length_drop, length_app in Hl.
  split; [lia|]. rewrite <-drop_drop, Hd. apply drop_app_length.
Qed.

Lemma chr_drop s c r : drop s line = c :: r → chr line s = c.
Proof. intros Hd. unfold chr. rewrite <-(Nat.add_0_r s), <-lookup_drop, Hd. done. Qed.

Lemma chr_drop_nil s : drop s line = [] → chr line s = 0.
Proof. intros Hd. unfold chr. rewrite <-(Nat.add_0_r s), <-lookup_drop, Hd. done. Qed.

Lemma skip_while_drop f s w r : (s ≤ es)%nat → drop s line = w ++ r → Forall (λ c, f c = true) w →
  (∀ c r', r = c :: r' → f c = false) → skip_while line f (es - s) s = (s + length w)%nat.
Proof.
  intros Hs Hd Hw Hr. revert s Hs Hd. induction Hw as [|c w Hc Hw IH]; intros s Hs Hd; cbn in Hd |- *.
  - destruct (es - s)%nat eqn:Hn; cbn [skip_while]; [lia|]. destruct r as [|c r].
    + apply (f_equal length) in Hd. rewrite length_drop in Hd. cbn in Hd. lia.
    + rewrite (chr_drop s c r Hd), (Hr c r eq_refl). lia.
  - destruct (drop_len s [c] (w ++ r) Hs Hd) as [H1 H2]. cbn in H1, H2.
    replace (es - s)%nat with (S (es - (s + 1)))%nat by lia. cbn [skip_while].
    rewrite (chr_drop s c _ Hd), Hc. replace (S s) with (s + 1)%nat by lia. rewrite IH by done. lia.
Qed.

Lemma symbol_char c : c ∈ symbols → c ≠ 0 ∧ in_set whitespace c = false ∧ word_char c = false ∧
  (in_set single c = true ∨ c = c_gt).
Proof.
  revert c. apply Forall_forall. apply (bool_decide_unpack _). by vm_compute.
Qed.

Lemma word_char_not c : word_char c = true → in_set whitespace c = false ∧ in_set symbols c = false.
Proof. unfold word_char. intros [H1 H2]%andb_prop. by rewrite negb_true_iff in H1, H2. Qed.

Lemma word_char_single c : word_char c = true → in_set single c = false ∧ c ≠ c_gt.
Proof.
  intros [_ Hs]%word_char_not. apply not_true_iff_false in Hs. rewrite in_set_spec in Hs.
  split; [apply not_true_iff_false; rewrite in_set_spec|]; set_solver.
Qed.

Lemma text_first t : tok_ok t → ∃ c r, text t = c :: r ∧ c ≠ 0 ∧ in_set whitespace c = false.
Proof.
  destruct t as [c| |w]; cbn.
  - intros (H1 & H2 & _)%symbol_char. eauto.
  - intros _. by exists c_gt, [c_gt].
  - intros [Hn Hw]. destruct w as [|c w]; [done|]. inversion_clear Hw as [|? ? [H1 H2] _].
    exists c, w. split; [done|]. split; [done|]. by apply word_char_not.
Qed.

Lemma skip_ws_toks s ts : at_toks s ts →
  at_toks (skip_ws line s) ts ∧ ∃ v, blank v ∧ drop (skip_ws line s) line = body v ts.
Proof.
  intros (Hs & Hok & w & v & Hw & Hv & Hd). assert (skip_ws line s = s + length w)%nat as ->.
  { apply skip_while_drop with (body v ts); [done..|]. intros c r Hb. destruct ts as [|t ts]; [done|].
    inversion_clear Hok as [|? ? Ht _]. destruct (text_first t Ht) as (c' & r' & Ht' & _ & Hc').
    cbn in Hb. rewrite Ht' in Hb. by injection Hb as <- _. }
  destruct (drop_len s w _ Hs Hd) as [H1 H2]. split; [|by exists v]. split; [done|]. split; [done|].
  exists [], v. split; [constructor|done].
Qed.

Lemma spaced_toks s ts v : (s ≤ es)%nat → Forall tok_ok ts → blank v → drop s line = spaced ts ++ v → at_toks s ts.
Proof.
  intros Hs Hok Hv Hd. split; [done|]. split; [done|]. destruct ts as [|t ts].
  { exists v, []. split; [done|]. split; [constructor|]. by rewrite Hd, app_nil_r. }
  exists [32], v. split; [by constructor|]. split; [done|]. by rewrite Hd; cbn; rewrite <- app_assoc.
Qed.

(** The first character of the next token, NUL at the end of the line. *)
Definition first (ts : list token) : Z :=
  match ts with [] => 0 | t :: _ => hd 0 (text t) end.

Lemma chr_body s v ts : drop s line = body v ts → Forall tok_ok ts → chr line s = first ts.
Proof.
  intros Hd Hok. destruct ts as [|t ts]; [by apply chr_drop_nil|]. inversion_clear Hok as [|? ? Ht _].
  destruct (text_first t Ht) as (c & r & Hc & _). cbn in *. rewrite Hc in Hd |- *. by eapply chr_drop.
Qed.

Lemma peek_toks s ts set : at_toks s ts → ∃ s',
  peek line s set = (negb (first ts =? 0) && in_set set (first ts), s') ∧ at_toks s' ts.
Proof.
  intros Ha. destruct (skip_ws_toks s ts Ha) as (H1 & v & _ & H2). exists (skip_ws line s). split; [|done].
  unfold peek. rewrite (chr_body _ v ts H2); [done|]. apply Ha.
Qed.

Lemma gettoken_end s : at_toks s [] → ∃ q eq s', gettoken line s = (0, q, eq, s') ∧ at_toks s' [].
Proof.
  intros Ha. destruct (skip_ws_toks s [] Ha) as (H1 & v & _ & H2). unfold gettoken.
  rewrite (chr_body _ v [] H2) by constructor. do 3 eexists. split; [done|].
  by apply skip_ws_toks.
Qed.
Lemma spaced_first ts v c r : blank v → spaced ts ++ v = c :: r → in_set whitespace c = true.
Proof. intros Hv. destruct ts; cbn; [intros ->; by apply Forall_inv in Hv|]. by intros [= <- _]. Qed.
Lemma white_char c : in_set whitespace c = true → c ≠ c_gt ∧ word_char c = false.
Proof. intros Hc. split; [by intros ->|]. unfold word_char. by rewrite Hc. Qed.

Lemma slice_drop q x r : drop q line = x ++ r → slice line (q, q + length x)%nat = x.
Proof. intros Hd. unfold slice. cbn. rewrite Hd. replace (q + length x - q)%nat with (length x) by lia. apply take_app_length. Qed.

Lemma gettoken_toks s t ts : at_toks s (t :: ts) →
  ∃ q eq s', gettoken line s = (code t, q, eq, s') ∧ slice line (q, eq) = text t ∧ at_toks s' ts.
Proof.
  intros Ha. destruct (skip_ws_toks s _ Ha) as ((Hq & Hok & _) & v & Hv & Hd). inversion_clear Hok as [|? ? Ht Hts].
  cbn in Hd. set (q := skip_ws line s) in *. destruct (drop_len q _ _ Hq Hd) as [He Hde].
  assert (Hn : chr line (q + length (text t)) ≠ c_gt).
  { destruct (spaced ts ++ v) as [|c r] eqn:Hsp; [by rewrite chr_drop_nil|].
    rewrite (chr_drop _ c r) by done. by apply white_char, (spaced_first ts v c r Hv). }
  exists q, (q + length (text t))%nat, (skip_ws line (q + length (text t))).
  split; [|split; [by eapply slice_drop|by eapply skip_ws_toks, spaced_toks]].
  unfold gettoken. fold q. destruct t as [c| |w]; cbn [code text length] in *.
  - destruct (symbol_char c Ht) as (H0 & _ & _ & Hs). rewrite (chr_drop q c _ Hd).
    rewrite (proj2 (Z.eqb_neq c 0) H0). rewrite Nat.add_1_r in *. destruct Hs as [->| ->]; [done|].
    change (in_set single c_gt) with false. rewrite Z.eqb_refl.
    by rewrite (proj2 (Z.eqb_neq _ _) Hn).
  - rewrite (chr_drop q c_gt _ Hd). destruct (drop_len q [c_gt] _ Hq Hd) as [_ Hd'].
    cbn in Hd'. rewrite Nat.add_1_r in Hd'. rewrite (chr_drop (S q) c_gt _ Hd').
    by replace (q + 2)%nat with (S (S q)) by lia.
  - destruct Ht as [Hnil Hw]. destruct w as [|c w]; [done|].
    pose proof (Forall_inv Hw) as [H0 Hc]. rewrite (chr_drop q c _ Hd).
    destruct (word_char_single c Hc) as [H1 H2].
    rewrite (proj2 (Z.eqb_neq c 0) H0), H1, (proj2 (Z.eqb_neq c c_gt) H2).
    rewrite (skip_while_drop word_char q (c :: w) (spaced ts ++ v)); [done..| |].
    + eapply Forall_impl; [exact Hw|]. by intros ? [].
    + intros c' r' Hsp. by apply white_char, (spaced_first ts v c' r' Hv).
Qed.
End scan.

(** ** Parsing the written line *)
Section parse.
Variable line : list Z.
Abbreviation es := (length line).
Abbreviation at_toks := (at_toks line).

(** The command was parsed, and [ts] are the tokens left. *)
Definition good (r : res (pcmd * nat)) (c : cmd (list Z)) (ts : list token) : Prop :=
  r = NoFuel ∨ ∃ c' s', r = Ret (c', s') ∧ cmd_map (slice line) c' = c ∧ at_toks s' ts.

Lemma good_ret c' s' c ts : cmd_map (slice line) c' = c → at_toks s' ts → good (Ret (c', s')) c ts.
Proof. right. eauto. Qed.

Lemma good_bind r f c ts c2 ts2 : good r c ts →
  (∀ c' s', cmd_map (slice line) c' = c → at_toks s' ts → good (f (c', s')) c2 ts2) →
  good (r ≫= f) c2 ts2.
Proof. intros [->|(c' & s' & -> & Hc & Ha)] Hf; [by left|]. by apply Hf. Qed.

(** The next token is a symbol of [set], or the line ends. *)
Definition stop (set : list Z) (ts : list token) : Prop :=
  match ts with [] => True | TSym c :: _ => c ∈ set | _ => False end.

Lemma stop_mono set set' ts : (∀ c, c ∈ set → c ∈ set') → stop set ts → stop set' ts.
Proof. destruct ts as [|[] ?]; cbn; auto. Qed.

Lemma peek_stop s ts set set' : at_toks s ts → stop set ts → (∀ c, c ∈ set → in_set set' c = false) →
  ∃ s', peek line s set' = (false, s') ∧ at_toks s' ts.
Proof.
  intros Ha Hst Hd. destruct (peek_toks line s ts set' Ha) as (s' & -> & Ha'). exists s'. split; [|done].
  f_equal. destruct ts as [|[c| |w] ts]; cbn in *; try done. rewrite (Hd c Hst). apply andb_false_r.
Qed.

Lemma peek_sym s c ts set : at_toks s (TSym c :: ts) →
  ∃ s', peek line s set = (in_set set c, s') ∧ at_toks s' (TSym c :: ts).
Proof.
  intros Ha. destruct (peek_toks line s _ set Ha) as (s' & -> & Ha'). exists s'. split; [|done].
  destruct Ha as (_ & Hok & _). inversion_clear Hok as [|? ? Ht _].
  destruct (symbol_char c Ht) as (H0 & _). cbn. by rewrite (proj2 (Z.eqb_neq c 0) H0).
Qed.

Lemma peek_word s w ts set : at_toks s (TWord w :: ts) → (∀ c, c ∈ set → c ∈ symbols) →
  ∃ s', peek line s set = (false, s') ∧ at_toks s' (TWord w :: ts).
Proof.
  intros Ha Hset. destruct (peek_toks line s _ set Ha) as (s' & -> & Ha'). exists s'. split; [|done].
  f_equal. destruct Ha as (_ & Hok & _). inversion_clear Hok as [|? ? Ht _]. destruct Ht as [Hn Hw].
  destruct w as [|c w]; [done|]. pose proof (Forall_inv Hw) as [_ Hc]. cbn.
  destruct (word_char_not c Hc) as [_ Hs]. destruct (in_set set c) eqn:Hin; [|apply andb_false_r].
  apply in_set_spec, Hset, in_set_spec in Hin. by rewrite Hin in Hs.
Qed.

Lemma peek_redir s mode ts : at_toks s (redir_tok mode :: ts) →
  ∃ s', peek line s [c_lt; c_gt] = (true, s') ∧ at_toks s' (redir_tok mode :: ts).
Proof.
  intros Ha. destruct (peek_toks line s _ [c_lt; c_gt] Ha) as (s' & -> & Ha'). exists s'. split; [|done].
  unfold redir_tok. by repeat case_match.
Qed.

Lemma redir_code mode fd (c : pcmd) a : redir_ok mode fd →
  (if code (redir_tok mode) =? c_lt then REDIR c a O_RDONLY 0
   else if code (redir_tok mode) =? c_gt then REDIR c a (Z.lor (Z.lor O_WRONLY O_CREATE) O_TRUNC) 1
   else if code (redir_tok mode) =? c_plus then REDIR c a (Z.lor O_WRONLY O_CREATE) 1
   else c) = REDIR c a mode fd.
Proof.
  intros H%list_elem_of_In. by destruct H as [H|[H|[H|[]]]]; injection H as <- <-.
Qed.

Lemma parseredirs_good n c s rs ts : at_toks s (redir_toks rs ++ ts) → redirs_ok rs →
  (∀ s, at_toks s ts → ∃ s', peek line s [c_lt; c_gt] = (false, s') ∧ at_toks s' ts) →
  good (parseredirs line n c s) (redirs (cmd_map (slice line) c) rs) ts.
Proof.
  revert c s rs. induction n as [|n IH]; intros c s rs Ha Hrs Hend; [by left|]. cbn [parseredirs].
  destruct rs as [|[[f m] fd] rs].
  - destruct (Hend s Ha) as (s' & -> & Ha'). by apply good_ret.
  - inversion_clear Hrs as [|? ? [Hf Hm] Hrs'].
    destruct (peek_redir s m (TWord f :: redir_toks rs ++ ts) Ha) as (s1 & -> & Ha1). cbn [negb].
    destruct (gettoken_toks line s1 _ _ Ha1) as (q0 & e0 & s2 & -> & _ & Ha2).
    destruct (gettoken_toks line s2 _ _ Ha2) as (q & e & s3 & -> & Hq & Ha3).
    change (code (TWord f)) with c_a. rewrite Z.eqb_refl. cbn [negb]. rewrite (redir_code m fd) by done.
    cbn in Hq. cbn [redirs foldl fst snd]. rewrite <-Hq.
    by apply (IH (REDIR c (q, e) m fd)).
Qed.
(** What may follow an element of a pipeline. *)
Definition seps : list Z := [c_bar; c_rpar; c_amp; c_semi].

Lemma no_redir_ahead s ts : stop seps ts → at_toks s ts →
  ∃ s', peek line s [c_lt; c_gt] = (false, s') ∧ at_toks s' ts.
Proof.
  intros Hst Ha. apply (peek_stop s ts seps); [done..|]. apply Forall_forall, (bool_decide_unpack _).
  by vm_compute.
Qed.

Lemma parseargs_end n ret k s ts : at_toks s ts → stop seps ts →
  good (parseargs line n ret k s) (cmd_map (slice line) ret) ts.
Proof.
  intros Ha Hst. destruct n as [|n]; [by left|]. cbn [parseargs].
  destruct ts as [|[c| |w] ts]; try done.
  - destruct (peek_toks line s [] seps Ha) as (s' & Hp & Ha'). unfold seps in Hp. rewrite Hp. cbn [first negb andb Z.eqb].
    destruct (gettoken_end line s' Ha') as (q & e & s2 & -> & Ha2). by apply good_ret.
  - destruct (peek_sym s c ts seps Ha) as (s' & Hp & Ha'). unfold seps in Hp. rewrite Hp.
    apply in_set_spec in Hst. unfold seps in Hst. rewrite Hst. by apply good_ret.
Qed.

Lemma cmd_map_exec {A B} (f : A → B) c l : cmd_map f c = EXEC l → ∃ l', c = EXEC l' ∧ f <$> l' = l.
Proof. destruct c; cbn; intros [=]. eauto. Qed.

Lemma parseargs_good n ret pre args rs s ts :
  cmd_map (slice line) ret = EXEC pre →
  at_toks s ((TWord <$> args) ++ redir_toks rs ++ ts) → redirs_ok rs → stop seps ts →
  (args = [] → rs = []) → (length pre + length args < MAXARGS)%nat →
  good (parseargs line n ret (length pre) s) (redirs (EXEC (pre ++ args)) rs) ts.
Proof.
  revert ret pre args s. induction n as [|n IH]; intros ret pre args s Hret Ha Hrs Hst Hnil Hlen; [by left|].
  destruct args as [|w args].
  { rewrite (Hnil eq_refl) in *. rewrite app_nil_r, <-Hret. by apply parseargs_end. }
  cbn [parseargs]. destruct (peek_word s w _ seps Ha) as (s1 & Hp & Ha1).
  { apply Forall_forall, (bool_decide_unpack _). by vm_compute. }
  unfold seps in Hp. rewrite Hp. destruct (gettoken_toks line s1 _ _ Ha1) as (q & e & s2 & -> & Hq & Ha2).
  change (code (TWord w)) with c_a. change (c_a =? 0) with false. rewrite Z.eqb_refl. cbn [negb].
  cbn [length] in Hlen. rewrite (proj2 (Nat.leb_gt _ _)) by lia.
  destruct (cmd_map_exec _ _ _ Hret) as (l & -> & Hl). cbn [add_arg].
  assert (cmd_map (slice line) (EXEC (l ++ [(q, e)])) = EXEC (pre ++ [w])) as Hret'.
  { cbn. rewrite fmap_app, Hl. cbn in Hq |- *. by rewrite Hq. }
  replace (pre ++ w :: args) with ((pre ++ [w]) ++ args) by by rewrite <-app_assoc.
  destruct args as [|w' args].
  - eapply good_bind; [apply (parseredirs_good _ _ _ rs ts Ha2 Hrs); intros; by apply no_redir_ahead|].
    intros c' s' Hc' Ha'. rewrite app_nil_r, <-Hret', <-Hc'. by apply parseargs_end.
  - eapply good_bind.
    { apply (parseredirs_good _ _ _ [] _ Ha2); [constructor|]. intros s' Ha'. apply peek_word; [done|].
      apply Forall_forall, (bool_decide_unpack _). by vm_compute. }
    intros c' s' Hc' Ha'. rewrite Hret' in Hc'.
    replace (length pre + 1)%nat with (length (pre ++ [w])) by (rewrite length_app; done).
    apply IH; [done..|]. rewrite length_app. cbn in *. lia.
Qed.

Lemma parsebacks_good n c k s ts : at_toks s (replicate k (TSym c_amp) ++ ts) →
  stop [c_semi; c_rpar] ts →
  good (parsebacks line n c s) (Nat.iter k BACK (cmd_map (slice line) c)) ts.
Proof.
  revert c k s. induction n as [|n IH]; intros c k s Ha Hst; [by left|]. cbn [parsebacks].
  destruct k as [|k].
  - destruct (peek_stop s ts _ [c_amp] Ha Hst) as (s' & -> & Ha'); [|by apply good_ret].
    apply Forall_forall, (bool_decide_unpack _). by vm_compute.
  - destruct (peek_sym s c_amp _ [c_amp] Ha) as (s1 & -> & Ha1). change (in_set [c_amp] c_amp) with true.
    cbv iota. destruct (gettoken_toks line s1 _ _ Ha1) as (q & e & s2 & -> & _ & Ha2).
    rewrite Nat.iter_succ_r. by apply (IH (BACK c)).
Qed.
(** Redirections and [&]s around a command, as loops of the parser see them. *)
Lemma redirs_split c : ∃ c0 rs, c = redirs c0 rs ∧ toks 3 c = toks 3 c0 ++ redir_toks rs ∧
  match c0 with REDIR _ _ _ _ => False | _ => True end ∧ (cmd_ok c → cmd_ok c0 ∧ redirs_ok rs).
Proof.
  induction c as [argv|c (c0 & rs & Hc & Ht & Hn & Hok) f m fd|l _ r _|l _ r _|c _].
  2: { exists c0, (rs ++ [(f, m, fd)]). unfold redirs, redir_toks, redirs_ok in *.
       rewrite foldl_snoc, bind_app. cbn [toks foldl fst snd].
       split; [by rewrite <-Hc|]. split; [by rewrite Ht, <-app_assoc|]. split; [done|].
       intros (H1 & H2 & H3). destruct (Hok H1). split; [done|]. apply Forall_app. split; [done|]. by constructor. }
  all: eexists _, []; split; [done|]; split; [by rewrite app_nil_r|]; split; [exact I|];
    intros; split; [done|constructor].
Qed.

Lemma backs_split c : ∃ c0 k, c = Nat.iter k BACK c0 ∧
  toks 1 c = toks 2 c0 ++ replicate k (TSym c_amp) ∧ (cmd_ok c → cmd_ok c0).
Proof.
  induction c as [argv|c _ f m fd|l _ r _|l _ r _|c (c0 & k & Hc & Ht & Hok)].
  5: { exists c0, (S k). cbn [Nat.iter]. split; [by rewrite Hc at 1|]. split; [|done].
       rewrite replicate_S_end, app_assoc, <-Ht. done. }
  all: eexists _, 0%nat; split; [done|]; split; [by rewrite app_nil_r|done].
Qed.

(** An operator's symbol ahead is seen and consumed. *)
Lemma sep_toks s c ts : at_toks s (TSym c :: ts) → ∃ s1 q e s2,
  peek line s [c] = (true, s1) ∧ gettoken line s1 = (c, q, e, s2) ∧ at_toks s2 ts.
Proof.
  intros Ha. destruct (peek_sym s c ts [c] Ha) as (s1 & Hp & Ha1).
  destruct (gettoken_toks line s1 _ _ Ha1) as (q & e & s2 & Hg & _ & Ha2).
  exists s1, q, e, s2. rewrite Hp. unfold in_set. cbn. by rewrite Z.eqb_refl.
Qed.

Definition good_line (n : nat) : Prop := ∀ c s ts, cmd_ok c → at_toks s (toks 0 c ++ ts) →
  stop [c_rpar] ts → good (parseline line n s) c ts.
Definition good_pipe (n : nat) : Prop := ∀ c s ts, cmd_ok c → at_toks s (toks 2 c ++ ts) →
  stop [c_rpar; c_amp; c_semi] ts → good (parsepipe line n s) c ts.
Definition good_exec (n : nat) : Prop := ∀ c s ts, cmd_ok c → at_toks s (toks 3 c ++ ts) →
  stop seps ts → good (parseexec line n s) c ts.
Definition good_block (n : nat) : Prop := ∀ c rs s ts, cmd_ok c → redirs_ok rs →
  at_toks s (TSym c_lpar :: toks 0 c ++ TSym c_rpar :: redir_toks rs ++ ts) → stop seps ts →
  good (parseblock line n s) (redirs c rs) ts.

(** Sides of closed comparisons of symbol sets. *)
Ltac closed := apply Forall_forall, (bool_decide_unpack _); by vm_compute.

Lemma good_block_step n : good_line n → good_block (S n).
Proof.
  intros IH c rs s ts Hc Hrs Ha Hst. cbn [parseblock].
  destruct (sep_toks s _ _ Ha) as (s1 & q & e & s2 & -> & -> & Ha2). cbn [negb].
  eapply good_bind; [apply IH; [done|exact Ha2|cbn; set_solver]|].
  intros c' s3 Hc' Ha3. destruct (sep_toks s3 _ _ Ha3) as (s4 & q' & e' & s5 & -> & -> & Ha5). cbn [negb].
  rewrite <-Hc'. apply parseredirs_good; [done..|]. intros. by apply no_redir_ahead.
Qed.
(** A command other than a redirection is parenthesised in a pipeline, unless
    it is a plain command. *)
Lemma toks_paren c : match c with REDIR _ _ _ _ | EXEC _ => False | _ => True end →
  toks 3 c = TSym c_lpar :: toks 0 c ++ [TSym c_rpar].
Proof. by destruct c. Qed.

Lemma good_exec_step n : good_block n → good_exec (S n).
Proof.
  intros IH c s ts Hc Ha Hst. cbn [parseexec].
  destruct (redirs_split c) as (c0 & rs & -> & Ht & Hn & Hok). destruct (Hok Hc) as [Hc0 Hrs].
  rewrite Ht in Ha. destruct (match c0 with EXEC _ => true | _ => false end) eqn:He.
  - destruct c0 as [argv| | | |]; try done. destruct Hc0 as [Hw Hlen]. cbn [toks] in Ha.
    assert (∃ s', peek line s [c_lpar] = (false, s') ∧ at_toks s' ((TWord <$> argv) ++ redir_toks rs ++ ts))
      as (s1 & -> & Ha1).
    { rewrite <-app_assoc in Ha. destruct argv as [|w argv]; [|by apply peek_word; [|closed]].
      destruct rs as [|[[f m] fd] rs]; [by apply (peek_stop _ _ seps); [..|closed]|].
      destruct (peek_toks line s _ [c_lpar] Ha) as (s' & -> & Ha'). exists s'. split; [|done].
      cbn. unfold redir_tok. by repeat case_match. }
    destruct argv as [|w argv].
    + eapply good_bind; [apply (parseredirs_good _ (EXEC []) _ rs ts Ha1 Hrs); intros; by apply no_redir_ahead|].
      intros c' s' Hc' Ha'. change (EXEC []) with (cmd_map (slice line) (EXEC [])).
      rewrite <-Hc'. by apply parseargs_end.
    + eapply good_bind.
      { apply (parseredirs_good _ (EXEC []) _ [] _ Ha1); [constructor|]. intros s' Ha'. by apply peek_word; [|closed]. }
      intros c' s' Hc' Ha'. by apply (parseargs_good _ c' [] (w :: argv)).
  - rewrite toks_paren in Ha by by destruct c0. cbn in Ha. rewrite <-!app_assoc in Ha.
    destruct (peek_sym s _ _ [c_lpar] Ha) as (s1 & -> & Ha1). change (in_set [c_lpar] c_lpar) with true.
    by apply IH.
Qed.

Lemma good_pipe_step n : good_exec n → good_pipe n → good_pipe (S n).
Proof.
  intros IHe IHp c s ts Hc Ha Hst. cbn [parsepipe].
  destruct (match c with PIPE _ _ => true | _ => false end) eqn:Hp.
  - destruct c as [| |l r| |]; try done. destruct Hc as [Hl Hr]. cbn in Ha. rewrite <-app_assoc in Ha.
    eapply good_bind; [apply (IHe l); [done|exact Ha|cbn; unfold seps; set_solver]|].
    intros c' s1 Hc' Ha1. destruct (sep_toks s1 _ _ Ha1) as (s2 & q & e & s3 & -> & -> & Ha3).
    eapply good_bind; [by apply (IHp r)|]. intros r' s4 Hr' Ha4. apply good_ret; [|done].
    cbn. by rewrite Hc', Hr'.
  - replace (toks 2 c) with (toks 3 c) in Ha by by destruct c.
    eapply good_bind; [apply IHe; [done|exact Ha|eapply stop_mono; [|exact Hst]; unfold seps; set_solver]|].
    intros c' s1 Hc' Ha1. destruct (peek_stop s1 ts _ [c_bar] Ha1 Hst) as (s2 & -> & Ha2); [closed|].
    by apply good_ret.
Qed.

Lemma good_line_step n : good_pipe n → good_line n → good_line (S n).
Proof.
  intros IHp IHl c s ts Hc Ha Hst. cbn [parseline].
  (* the operand of [&]s, whatever follows it *)
  assert (∀ l ts', cmd_ok l → at_toks s (toks 1 l ++ ts') → stop [c_semi; c_rpar] ts' → ∀ f c2,
    (∀ c' s', cmd_map (slice line) c' = l → at_toks s' ts' → good (f c' s') c2 ts) →
    good ('(c, s) ← parsepipe line n s; '(c, s) ← parsebacks line (S es) c s; f c s) c2 ts) as Hop.
  { intros l ts' Hl Hal Hst' f c2 Hf. destruct (backs_split l) as (l0 & k & -> & Ht & Hok).
    rewrite Ht, <-app_assoc in Hal. eapply good_bind.
    - apply IHp; [by apply Hok|exact Hal|]. destruct k; [|cbn; set_solver].
      eapply stop_mono; [|exact Hst']. set_solver.
    - intros c' s' Hc' Ha'. eapply good_bind; [by apply parsebacks_good|]. rewrite Hc'.
      intros c'' s'' Hc'' Ha''. by apply Hf. }
  destruct (match c with LIST _ _ => true | _ => false end) eqn:Hp.
  - destruct c as [| | |l r|]; try done. destruct Hc as [Hl Hr]. cbn in Ha. rewrite <-app_assoc in Ha.
    apply (Hop l _ Hl Ha); [cbn; set_solver|]. intros c' s1 Hc' Ha1.
    destruct (sep_toks s1 _ _ Ha1) as (s2 & q & e & s3 & -> & -> & Ha3).
    eapply good_bind; [by apply (IHl r)|]. intros r' s4 Hr' Ha4. apply good_ret; [|done].
    cbn. by rewrite Hc', Hr'.
  - replace (toks 0 c) with (toks 1 c) in Ha by by destruct c.
    apply (Hop c ts Hc Ha); [eapply stop_mono; [|exact Hst]; set_solver|]. intros c' s1 Hc' Ha1.
    destruct (peek_stop s1 ts _ [c_semi] Ha1 Hst) as (s2 & -> & Ha2); [closed|]. by apply good_ret.
Qed.

Lemma good_parser n : good_line n ∧ good_pipe n ∧ good_exec n ∧ good_block n.
Proof.
  induction n as [|n (IHl & IHp & IHe & IHb)]; [by split; [|split; [|split]]; intros c; left|].
  split; [by apply good_line_step|]. split; [by apply good_pipe_step|].
  split; [by apply good_exec_step|by apply good_block_step].
Qed.
End parse.

Lemma paren_ok b ts : Forall tok_ok ts → Forall tok_ok (paren b ts).
Proof.
  intros H. destruct b; [|done]. constructor; [cbn; unfold symbols; set_solver|].
  apply Forall_app. split; [done|]. constructor; [cbn; unfold symbols; set_solver|constructor].
Qed.

Lemma toks_ok c lvl : cmd_ok c → Forall tok_ok (toks lvl c).
Proof.
  assert (∀ x, x ∈ symbols → ∀ l r, Forall tok_ok l → Forall tok_ok r → Forall tok_ok (l ++ TSym x :: r)) as Hs.
  { intros x Hx l r Hl Hr. apply Forall_app. split; [done|]. by constructor. }
  revert lvl. induction c as [argv|c IH f m fd|l IHl r IHr|l IHl r IHr|c IH]; cbn [cmd_ok toks]; intros lvl Hc.
  - apply Forall_fmap. eapply Forall_impl; [apply Hc|]. done.
  - destruct Hc as (H1 & H2 & H3). apply Forall_app. split; [by apply IH|].
    constructor; [|by constructor]. unfold redir_tok. repeat case_match; cbn; unfold symbols; set_solver.
  - apply paren_ok, Hs; [unfold symbols; set_solver|apply IHl, Hc|apply IHr, Hc].
  - apply paren_ok, Hs; [unfold symbols; set_solver|apply IHl, Hc|apply IHr, Hc].
  - apply paren_ok, Hs; [unfold symbols; set_solver|by apply IH|constructor].
Qed.

Lemma spaced_no_nul ts : Forall tok_ok ts → 0 ∉ spaced ts.
Proof.
  unfold spaced. induction 1 as [|t ts Ht Hts IH]; [set_solver|]. rewrite bind_cons.
  intros [[|Ht0]%elem_of_cons|]%elem_of_app; [done| |done]. destruct t as [c| |w]; cbn in Ht, Ht0.
  - apply symbol_char in Ht as [H0 _]. set_solver.
  - by apply (bool_decide_pack _) in Ht0.
  - destruct Ht as [_ Hw]. by destruct (proj1 (Forall_forall _ _) Hw 0 Ht0).
Qed.

Lemma parsecmd_toks line c : cmd_ok c → 0 ∉ line → at_toks line 0 (toks 0 c) →
  ∃ c' buf, parsecmd line = Ret (c', buf) ∧ cmd_map (λ a, c_string buf a.1) c' = c.
Proof.
  intros Hc H0 Ha. rewrite <- (app_nil_r (toks 0 c)) in Ha.
  destruct (good_parser line (4 * length line + 4)) as [Hl _].
  destruct (parse_parsed line (4 * length line + 4)) as [Hp _].
  specialize (Hl c 0%nat [] Hc Ha I). specialize (Hp 0%nat ltac:(lia) ltac:(lia)).
  unfold parsecmd. destruct Hl as [Hl|(c' & s' & Hl & Hmap & Ha')]; rewrite Hl in Hp |- *; [done|].
  destruct Hp as [_ Hw]. exists c', (nulterminate c' (line ++ [0])). split.
  - destruct (skip_ws_toks line s' [] Ha') as ((Hle & _) & v & _ & Hd). cbn [mbind res_bind peek].
    assert (skip_ws line s' = length line) as ->.
    { apply (f_equal length) in Hd. rewrite length_drop in Hd. cbn in Hd. lia. }
    by rewrite Nat.eqb_refl.
  - transitivity (cmd_map (slice line) c'); [|exact Hmap]. apply cmd_map_ext. intros a Ha2. by apply nulterminate_string.
Qed.

(** C29. Every command that can be typed parses back to itself: parsecmd
    returns on its written form, and the tree it builds, read through the C
    strings it leaves in the line, is the command.  Operators associate and
    bind as the grammar says, redirections and arguments keep their order. *)
Theorem parsecmd_render c : cmd_ok c →
  ∃ c' buf, parsecmd (render c) = Ret (c', buf) ∧ cmd_map (λ a, c_string buf a.1) c' = c.
Proof.
  intros Hc. pose proof (toks_ok c 0 Hc) as Hok. apply parsecmd_toks; [done|by apply spaced_no_nul|].
  apply (spaced_toks _ 0 _ []); [lia|done|constructor|by rewrite app_nil_r].
Qed.

(** [( a ; b < f & ) | c >> g] *)
Lemma parsecmd_render_witness :
  let c := PIPE (LIST (EXEC [[97]]) (BACK (REDIR (EXEC [[98]]) [102] O_RDONLY 0)))
             (REDIR (EXEC [[99]]) [103] 0x201 1) in
  ∃ c' buf, parsecmd (render c) = Ret (c', buf) ∧ cmd_map (λ a, c_string buf a.1) c' = c.
Proof.
  intros c. apply parsecmd_render.
  apply (bool_decide_unpack _). by vm_compute.
Defined.
