(* ===== verification/ShRun.v ===== *)
(** user/sh.c: running a parsed command, as the system calls it makes, and the
    processes and descriptors that come of it. *)

From S2P Require Import Prelude Kstate Printf Fs Sh ShSpec.
Local Open Scope Z_scope.

(** ** Programs that make system calls

    [Call] waits for the result of a call; fork returns in both processes.
    pipe returns its status and the two descriptors.  A program ends by
    exiting; a successful exec does not return. *)
Inductive scall : Type :=
| Sfork
| Swait
| Sclose (fd : Z)
| Sdup (fd : Z)
| Sopen (file : list Z) (mode : Z)
| Sexec (path : list Z) (argv : list (list Z))
| Swrite (fd : Z) (bytes : list Z).

Inductive prog : Type :=
| Pexit (status : Z)
| Pcall (c : scall) (k : Z → prog)
| Ppipe (k : Z → Z → Z → prog).

Definition msg_panic (s : String.string) : list Z := bytes_of s ++ [10].
Definition msg_failed (verb : String.string) (w : list Z) : list Z :=
  bytes_of verb ++ [32] ++ w ++ bytes_of " failed" ++ [10].

(** The shell's [panic]. *)
Definition sh_panic (s : String.string) : prog := Pcall (Swrite 2 (msg_panic s)) (λ _, Pexit 1).

Definition fork1 (k : Z → prog) : prog :=
  Pcall Sfork (λ pid, if pid =? -1 then sh_panic "fork" else k pid).

Fixpoint runcmd (c : cmd (list Z)) : prog :=
  match c with
  | EXEC argv =>
      match argv with
      | [] => Pexit 1
      | a :: _ => Pcall (Sexec a argv) (λ _,
          Pcall (Swrite 2 (msg_failed "exec" a)) (λ _, Pexit 0))
      end
  | REDIR c file mode fd =>
      Pcall (Sclose fd) (λ _,
      Pcall (Sopen file mode) (λ r,
        if r <? 0 then Pcall (Swrite 2 (msg_failed "open" file)) (λ _, Pexit 1)
        else runcmd c))
  | LIST l r =>
      fork1 (λ pid, if pid =? 0 then runcmd l else Pcall Swait (λ _, runcmd r))
  | PIPE l r =>
      Ppipe (λ st p0 p1,
      if st <? 0 then sh_panic "pipe" else
      fork1 (λ pid, if pid =? 0 then
        Pcall (Sclose 1) (λ _, Pcall (Sdup p1) (λ _,
        Pcall (Sclose p0) (λ _, Pcall (Sclose p1) (λ _, runcmd l)))) else
      fork1 (λ pid, if pid =? 0 then
        Pcall (Sclose 0) (λ _, Pcall (Sdup p0) (λ _,
        Pcall (Sclose p0) (λ _, Pcall (Sclose p1) (λ _, runcmd r)))) else
      Pcall (Sclose p0) (λ _, Pcall (Sclose p1) (λ _,
      Pcall Swait (λ _, Pcall Swait (λ _, Pexit 0)))))))
  | BACK c => fork1 (λ pid, if pid =? 0 then runcmd c else Pexit 0)
  end.

(** ** Descriptor tables *)
Inductive obj : Type :=
| Ofile (name : list Z) (mode : Z)
| Opipe (id : nat) (writable : bool)
| Oother (n : nat).

(** struct proc's ofile array. *)
Definition ftable : Type := list (option obj).

(** The lowest free descriptor, as fdalloc finds it. *)
Fixpoint lowest (ft : ftable) : option nat :=
  match ft with
  | [] => None
  | None :: _ => Some 0%nat
  | Some _ :: ft => S <$> lowest ft
  end.

Definition fd_get (ft : ftable) (fd : Z) : option obj :=
  if fd <? 0 then None else mjoin (ft !! Z.to_nat fd).
Definition fd_put (ft : ftable) (o : obj) : Z * ftable :=
  match lowest ft with Some i => (Z.of_nat i, <[i := Some o]> ft) | None => (-1, ft) end.

(** ** Processes

    What a process does that others can see: it writes a message, forks,
    waits, starts another program, or exits.  A process that waits or starts a
    program is shown with its descriptors. *)
Inductive ptree : Type :=
| Tsay (o : option obj) (bytes : list Z) (rest : ptree)
| Tfork (child rest : ptree)
| Twait (ft : ftable) (rest : ptree)
| Texec (argv : list (list Z)) (ft : ftable)
| Texit (status : Z).

(** Descriptors 0, 1 and 2, and no other. *)
Definition std (i o e : obj) : ftable := Some i :: Some o :: Some e :: replicate 13 None.

Section meaning.
(** Which files open, which programs exec finds, which forks and pipes the
    kernel has room for, and what wait returns.  The calls of fork, pipe and
    wait are numbered, those of a child before those that its parent makes
    after the fork. *)
Variable can_open : list Z → Z → bool.
Variable can_exec : list Z → bool.
Variable can_fork can_pipe : nat → bool.
Variable reaped : nat → Z.

(** The processes of a program that has descriptors [ft] and makes call [n]
    next; and the number of the call after its last one.  The pipe of call [n]
    is pipe [n]. *)
Fixpoint run_prog (p : prog) (ft : ftable) (n : nat) : ptree * nat :=
  match p with
  | Pexit st => (Texit st, n)
  | Ppipe k =>
      let '(f0, ft1) := fd_put ft (Opipe n false) in
      let '(f1, ft2) := fd_put ft1 (Opipe n true) in
      if negb (can_pipe n) || (f0 <? 0) || (f1 <? 0) then run_prog (k (-1) f0 f1) ft (S n)
      else run_prog (k 0 f0 f1) ft2 (S n)
  | Pcall c k =>
      match c with
      | Sfork =>
          if can_fork n then
            let '(t1, n1) := run_prog (k 0) ft (S n) in
            let '(t2, n2) := run_prog (k (Z.of_nat (S n))) ft n1 in (Tfork t1 t2, n2)
          else run_prog (k (-1)) ft (S n)
      | Swait => let '(t, n') := run_prog (k (reaped n)) ft (S n) in (Twait ft t, n')
      | Swrite fd b =>
          let '(t, n') := run_prog (k (match fd_get ft fd with Some _ => Z.of_nat (length b) | None => -1 end)) ft n in (Tsay (fd_get ft fd) b t, n')
      | Sclose fd =>
          match fd_get ft fd with
          | Some _ => run_prog (k 0) (<[Z.to_nat fd := None]> ft) n
          | None => run_prog (k (-1)) ft n
          end
      | Sdup fd =>
          match fd_get ft fd with
          | Some o => let '(r, ft') := fd_put ft o in run_prog (k r) ft' n
          | None => run_prog (k (-1)) ft n
          end
      | Sopen file mode =>
          if can_open file mode then
            let '(r, ft') := fd_put ft (Ofile file mode) in run_prog (k r) ft' n
          else run_prog (k (-1)) ft n
      | Sexec path argv =>
          if can_exec path then (Texec argv ft, n) else run_prog (k (-1)) ft n
      end
  end.

(** ** What a command means

    The processes that run it, with input [i], output [o] and messages to [e]. *)
Definition fails (e : obj) (msg : list Z) (status : Z) : ptree := Tsay (Some e) msg (Texit status).

(** A child, and what its parent does then. *)
Definition forking (e : obj) (n : nat) (child rest : nat → ptree * nat) : ptree * nat :=
  if can_fork n then
    let '(t1, n1) := child (S n) in
    let '(t2, n2) := rest n1 in (Tfork t1 t2, n2)
  else (fails e (bytes_of "fork" ++ [10]) 1, S n).

Definition waiting (ft : ftable) (rest : nat → ptree * nat) (n : nat) : ptree * nat :=
  let '(t, n') := rest (S n) in (Twait ft t, n').

Fixpoint meaning (c : cmd (list Z)) (i o e : obj) (n : nat) : ptree * nat :=
  match c with
  | EXEC argv =>
      match argv with
      | [] => (Texit 1, n)
      | a :: _ => (if can_exec a then Texec argv (std i o e)
                   else fails e (bytes_of "exec " ++ a ++ bytes_of " failed" ++ [10]) 0, n)
      end
  | REDIR c file mode fd =>
      if can_open file mode then
        if fd =? 0 then meaning c (Ofile file mode) o e n else meaning c i (Ofile file mode) e n
      else (fails e (bytes_of "open " ++ file ++ bytes_of " failed" ++ [10]) 1, n)
  | PIPE l r =>
      if can_pipe n then
        forking e (S n) (meaning l i (Opipe n true) e) (λ n1,
        forking e n1 (meaning r (Opipe n false) o e) (
        waiting (std i o e) (waiting (std i o e) (λ n2, (Texit 0, n2)))))
      else (fails e (bytes_of "pipe" ++ [10]) 1, S n)
  | LIST l r => forking e n (meaning l i o e) (waiting (std i o e) (meaning r i o e))
  | BACK c => forking e n (meaning c i o e) (λ n1, (Texit 0, n1))
  end.

(** A fork of the shell, where descriptor 2 is open. *)
Lemma run_fork c r ft n e : fd_get ft 2 = Some e →
  run_prog (fork1 (λ pid, if pid =? 0 then c else r)) ft n = forking e n (run_prog c ft) (run_prog r ft).
Proof.
  intros He. unfold forking. cbn [run_prog fork1]. destruct (can_fork n); [|cbn [Z.eqb Pos.eqb run_prog sh_panic]; by rewrite He].
  cbn [Z.eqb]. destruct (run_prog c ft (S n)) as [t1 n1].
  replace (Z.of_nat (S n) =? -1) with false by (symmetry; apply Z.eqb_neq; lia).
  by replace (Z.of_nat (S n) =? 0) with false by (symmetry; apply Z.eqb_neq; lia).
Qed.

Lemma forking_ext e n c1 c2 r1 r2 : (∀ m, c1 m = c2 m) → (∀ m, r1 m = r2 m) → forking e n c1 r1 = forking e n c2 r2.
Proof.
  intros Hc Hr. unfold forking. destruct (can_fork n); [|done]. rewrite Hc. destruct (c2 (S n)) as [t1 n1]. by rewrite Hr.
Qed.

(** The processes of a pipeline, past the plumbing. *)
Lemma run_pipe l r i o e n : run_prog (runcmd (PIPE l r)) (std i o e) n =
  if can_pipe n then
    forking e (S n) (run_prog (runcmd l) (std i (Opipe n true) e)) (λ n1,
    forking e n1 (run_prog (runcmd r) (std (Opipe n false) o e)) (
    waiting (std i o e) (waiting (std i o e) (λ n2, (Texit 0, n2)))))
  else (fails e (bytes_of "pipe" ++ [10]) 1, S n).
Proof.
  cbn [runcmd run_prog]. cbn -[fork1 run_prog runcmd forking waiting]. destruct (can_pipe n); cbn -[fork1 run_prog runcmd forking waiting]; [|done].
  rewrite (run_fork _ _ _ _ e) by done. apply forking_ext; intros m; [done|].
  rewrite (run_fork _ _ _ _ e) by done. by apply forking_ext.
Qed.

(** C31. Running a command that can be typed makes exactly the processes it
    means.  Each program starts, and the shell waits, with descriptors 0, 1
    and 2 and no other: a redirection opens on the descriptor it names, the
    two sides of a pipeline hold the write and read ends of one new pipe as
    standard output and input, and neither they nor the process that waits for
    them keep another end of a pipe open.  A list waits for its left command,
    a background command is not waited for.  A fork, pipe, open or exec that
    fails is reported on descriptor 2 by the process it happens in, which
    exits. *)
Theorem runcmd_wires c i o e n : cmd_ok c → run_prog (runcmd c) (std i o e) n = meaning c i o e n.
Proof.
  revert i o n. induction c as [argv|c IH f m fd|l IHl r IHr|l IHl r IHr|c IH]; intros i o n Hc; cbn [meaning].
  - destruct argv as [|a argv]; [done|]. cbn. by destruct (can_exec a).
  - destruct Hc as (Hc & _ & Hr%list_elem_of_In).
    destruct Hr as [Hr|[Hr|[Hr|[]]]]; injection Hr as <- <-; cbn;
      (destruct (can_open f _); [|done]); by apply IH.
  - destruct Hc as [Hl Hr]. rewrite (run_pipe l r). destruct (can_pipe n); [|done].
    apply forking_ext; intros m; [by apply IHl|]. apply forking_ext; [|done]. intros m'. by apply IHr.
  - destruct Hc as [Hl Hr]. cbn [runcmd]. rewrite (run_fork _ _ _ _ e) by done. apply forking_ext; intros m; [by apply IHl|].
    cbn. unfold waiting. by rewrite IHr.
  - cbn [runcmd]. rewrite (run_fork _ _ _ _ e) by done. apply forking_ext; intros m; [by apply IH|done].
Qed.
End meaning.

(** [a | b > f] on the console, where b cannot be executed; and where there is
    no process for the right side. *)
Lemma runcmd_wires_witness :
  let c := PIPE (EXEC [[97]]) (REDIR (EXEC [[98]]) [102] 0x601 1) in
  let tty := Oother 0 in
  let here := std tty tty tty in
  let can_exec := λ path, bool_decide (path = [97]) in
  let left := Texec [[97]] (std tty (Opipe 0 true) tty) in
  (run_prog (λ _ _, true) can_exec (λ _, true) (λ _, true) (λ _, 1) (runcmd c) here 0).1 =
    Tfork left (Tfork (Tsay (Some tty) (bytes_of "exec b failed" ++ [10]) (Texit 0)) (Twait here (Twait here (Texit 0)))) ∧
  (run_prog (λ _ _, true) can_exec (λ n, bool_decide (n < 2)%nat) (λ _, true) (λ _, 1) (runcmd c) here 0).1 =
    Tfork left (Tsay (Some tty) (bytes_of "fork" ++ [10]) (Texit 1)).
Proof.
  intros c tty here can_exec left.
  assert (Hc : cmd_ok c) by (apply (bool_decide_unpack _); by vm_compute). split.
  - unfold here. rewrite (runcmd_wires (λ _ _, true) can_exec (λ _, true) (λ _, true) (λ _, 1) c tty tty tty 0 Hc). by vm_compute.
  - unfold here. rewrite (runcmd_wires (λ _ _, true) can_exec (λ n, bool_decide (n < 2)%nat) (λ _, true) (λ _, 1) c tty tty tty 0 Hc). by vm_compute.
Defined.
