(* ===== verification/UserSys.v ===== *)
(** The system calls of user/user.h as events, programs as interaction trees
    over them, and what the programs of src/user rely on a call to do.  The
    functions of ulib.c and printf.c that make system calls are here too. *)

From S2P Require Import Prelude Kstate Printf Ulib.
From ITree Require Import Basics.Basics Core.ITreeDefinition Core.Subevent Indexed.Sum
  Interp.Interp Eq.Eqit Eq.UpToTaus Events.State Events.StateFacts.
Local Open Scope Z_scope.

(** ** Programs *)

Record stat : Type := mk_stat { st_dev : Z; st_ino : Z; st_type : Z; st_nlink : Z; st_size : Z }.

(** One constructor per call that returns.  Strings are their bytes, without
    the NUL; a call that fills a buffer returns what it stored beside its
    status. *)
Inductive sysE : Type → Type :=
| Fork : sysE Z
| Wait : sysE (Z * Z)
| Pipe : sysE (Z * (Z * Z))
| Write (fd : Z) (bytes : list Z) : sysE Z
| Read (fd n : Z) : sysE (Z * list Z)
| Close (fd : Z) : sysE Z
| Kill (pid : Z) : sysE Z
| Exec (path : list Z) (argv : list (list Z)) : sysE Z
| Open (path : list Z) (mode : Z) : sysE Z
| Mknod (path : list Z) (major minor : Z) : sysE Z
| Unlink (path : list Z) : sysE Z
| Fstat (fd : Z) : sysE (Z * stat)
| Link (old new : list Z) : sysE Z
| Mkdir (path : list Z) : sysE Z
| Chdir (path : list Z) : sysE Z
| Dup (fd : Z) : sysE Z
| Getpid : sysE Z
| Sbrk (n mode : Z) : sysE Z
| Pause (n : Z) : sysE Z
| Uptime : sysE Z.

(** exit does not return. *)
Inductive exitE : Type → Type := Exit_ (status : Z) : exitE Empty_set.

Definition prog : Type → Type := itree (sysE +' exitE).
#[export] Instance prog_ret : MRet prog := λ A x, Ret x.
#[export] Instance prog_bind : MBind prog := λ A B f m, ITree.bind m f.
#[export] Typeclasses Opaque prog.

(** The stubs that usys.pl generates. *)
Definition call {T} (e : sysE T) : prog T := ITree.trigger (inl1 e).
Definition exit {R} (status : Z) : prog R := Vis (inr1 (Exit_ status)) (λ v : Empty_set, match v with end).

(** A loop: another round with [inl], the result with [inr]. *)
Definition loop {I R} (body : I → prog (I + R)) : I → prog R := ITree.iter body.

Fixpoint each {A} (l : list A) (f : A → prog unit) : prog unit :=
  match l with
  | [] => mret ()
  | x :: l => f x ;; each l f
  end.

(** [f] says whether to go on. *)
Fixpoint each_while {A} (l : list A) (f : A → prog bool) : prog unit :=
  match l with
  | [] => mret ()
  | x :: l => go ← f x; if go : bool then each_while l f else mret ()
  end.

(** ** The library *)

(** A string in a buffer: its bytes up to the NUL. *)
Fixpoint cstr (l : list Z) : list Z :=
  match l with [] => [] | c :: l => if c =? 0 then [] else c :: cstr l end.

(** A format that ends in a newline. *)
Definition line (s : String.string) : String.string := String.append s (String (Ascii.ascii_of_nat 10) EmptyString).

(** [putc] of each byte. *)
Fixpoint putcs (fd : Z) (bs : list Z) : prog unit :=
  match bs with
  | [] => mret ()
  | c :: bs => call (Write fd [c]) ;; putcs fd bs
  end.
Definition fprintf (fd : Z) (fmt : String.string) (ap : list vararg) : prog unit := putcs fd (fprintf_bytes fmt ap).
Definition printf (fmt : String.string) (ap : list vararg) : prog unit := fprintf 1 fmt ap.

(** [%s] of a string that is not null. *)
Definition Vs (s : list Z) : vararg := Vstr (Some s).

(** [k] is [max - 1 - i]; the bytes stored before the NUL. *)
Fixpoint gets_loop (k : nat) : prog (list Z) :=
  match k with
  | O => mret []
  | S k =>
      '(cc, b) ← call (Read 0 1);
      if cc <? 1 then mret [] else
      let c := default 0 (head b) in
      if (c =? 10) || (c =? 13) then mret [c] else
      rest ← gets_loop k;
      mret (c :: rest)
  end.
Definition gets (max : Z) : prog (list Z) := gets_loop (Z.to_nat (max - 1)).

(** The contents of [*st] matter when the result is not negative. *)
Definition stat_call (n : list Z) : prog (Z * stat) :=
  fd ← call (Open n O_RDONLY);
  if fd <? 0 then mret (-1, mk_stat 0 0 0 0 0) else
  r ← call (Fstat fd);
  call (Close fd) ;;
  mret r.

Definition sbrk (n : Z) : prog Z := call (Sbrk n SBRK_EAGER).
Definition sbrklazy (n : Z) : prog Z := call (Sbrk n SBRK_LAZY).

(** [start] calls exit when main returns. *)
Definition start (main : prog unit) : prog unit := main ;; exit 0.

(** ** What the programs rely on

    The part of the system a program sees: its descriptors and the objects
    they stand for, the names it can open, the devices, the results the coming forks and
    waits will have, and the other calls made so far, with their results. *)

(** An object is a pair of streams.  [c_whole]: it is a file, and a read
    returns as much as it can; otherwise a read may return less. *)
Record chan : Type := mk_chan { c_in : list Z; c_out : list Z; c_whole : bool; c_stat : stat }.

(** Opening a device gives the object of the device, opening a file an
    object of its own. *)
Inductive target : Type := Tdev (o : nat) | Tfile (bs : list Z) (st : stat).

Record os : Type := mk_os {
  fds : gmap Z nat;
  objs : gmap nat chan;
  names : gmap (list Z * Z) target;
  devs : gmap Z nat;
  forks : list Z;
  waits : list (Z * Z);
  acts : list {T : Type & (sysE T * T)%type } }.

Definition set_fds (f : gmap Z nat → gmap Z nat) (a : os) : os := mk_os (f a.(fds)) a.(objs) a.(names) a.(devs) a.(forks) a.(waits) a.(acts).
Definition set_objs (f : gmap nat chan → gmap nat chan) (a : os) : os := mk_os a.(fds) (f a.(objs)) a.(names) a.(devs) a.(forks) a.(waits) a.(acts).
Definition set_names (f : gmap (list Z * Z) target → gmap (list Z * Z) target) (a : os) : os :=
  mk_os a.(fds) a.(objs) (f a.(names)) a.(devs) a.(forks) a.(waits) a.(acts).
Definition set_forks (f : list Z → list Z) (a : os) : os :=
  mk_os a.(fds) a.(objs) a.(names) a.(devs) (f a.(forks)) a.(waits) a.(acts).
Definition set_waits (f : list (Z * Z) → list (Z * Z)) (a : os) : os :=
  mk_os a.(fds) a.(objs) a.(names) a.(devs) a.(forks) (f a.(waits)) a.(acts).
Definition act {T} (e : sysE T) (r : T) : {T : Type & (sysE T * T)%type} := existT T (e, r).
Definition did {T} (e : sysE T) (r : T) (a : os) : os := mk_os a.(fds) a.(objs) a.(names) a.(devs) a.(forks) a.(waits) (a.(acts) ++ [act e r]).

Definition eat (k : nat) (c : chan) : chan := mk_chan (drop k c.(c_in)) c.(c_out) c.(c_whole) c.(c_stat).
Definition say (bs : list Z) (c : chan) : chan := mk_chan c.(c_in) (c.(c_out) ++ bs) c.(c_whole) c.(c_stat).

Definition chan_of (a : os) (fd : Z) : option (nat * chan) := o ← a.(fds) !! fd; c ← a.(objs) !! o; Some (o, c).

(** The lowest descriptor not in use. *)
Definition lowest_fd (m : gmap Z nat) : option Z := head (filter (λ fd, m !! fd = None) (seqZ 0 (Z.of_nat NOFILE))).

(** How much a read of [n] bytes may return. *)
Definition read_size (n : Z) (c : chan) (k : nat) : Prop :=
  (k ≤ Z.to_nat n)%nat ∧ (k ≤ length c.(c_in))%nat ∧ (k = 0%nat → 0 < n → c.(c_in) = []) ∧
  (c.(c_whole) = true → k = Z.to_nat n `min` length c.(c_in))%nat.

(** The object of a file goes away with its last descriptor. *)
Definition last_close (o : nat) (a : os) : os :=
  match a.(objs) !! o with
  | Some c => if c.(c_whole) && bool_decide (map_Forall (λ _ o', o' ≠ o) a.(fds)) then set_objs (delete o) a else a
  | None => a
  end.

(** [sys_spec e a r a']: call [e] may return [r] and lead from [a] to [a']. *)
Definition sys_spec {T} (e : sysE T) (a : os) : T → os → Prop :=
  match e in sysE T return T → os → Prop with
  | Read fd n => λ r a',
      match chan_of a fd with
      | Some (o, c) => ∃ k, read_size n c k ∧ r = (Z.of_nat k, take k c.(c_in)) ∧ a' = set_objs (alter (eat k) o) a
      | None => r = (-1, []) ∧ a' = a
      end
  | Write fd bs => λ r a',
      match chan_of a fd with
      | Some (o, c) => r = Z.of_nat (length bs) ∧ a' = set_objs (alter (say bs) o) a
      | None => r = -1 ∧ a' = a
      end
  | Open p mode => λ r a',
      match a.(names) !! (p, mode), lowest_fd a.(fds) with
      | Some (Tdev o), Some fd => r = fd ∧ a' = set_fds (insert fd o) a
      | Some (Tfile bs st), Some fd => ∃ o, a.(objs) !! o = None ∧ map_Forall (λ _ o', o' ≠ o) a.(fds) ∧ r = fd ∧
          a' = set_fds (insert fd o) (set_objs (insert o (mk_chan bs [] true st)) a)
      | _, _ => r = -1 ∧ a' = a
      end
  | Close fd => λ r a',
      match a.(fds) !! fd with
      | Some o => r = 0 ∧ a' = last_close o (set_fds (delete fd) a)
      | None => r = -1 ∧ a' = a
      end
  | Dup fd => λ r a',
      match a.(fds) !! fd, lowest_fd a.(fds) with
      | Some o, Some fd' => r = fd' ∧ a' = set_fds (insert fd' o) a
      | _, _ => r = -1 ∧ a' = a
      end
  | Fstat fd => λ r a',
      match chan_of a fd with
      | Some (_, c) => r = (0, c.(c_stat)) ∧ a' = a
      | None => r.1 = -1 ∧ a' = a
      end
  | Fork => λ r a',
      r = default (-1) (head a.(forks)) ∧ a' = set_forks tail a
  | Wait => λ r a',
      r = default (-1, 0) (head a.(waits)) ∧ a' = set_waits tail a
  | Mknod p ma mi => λ r a',
      match a.(devs) !! ma with
      | Some o => r = 0 ∧ a' = did (Mknod p ma mi) 0 (set_names (insert (p, O_RDWR) (Tdev o)) a)
      | None => a' = did (Mknod p ma mi) r a
      end
  | e => λ r a', a' = did e r a
  end.

(** A system that serves calls, as a function of its state. *)
Class Os (W : Type) : Type := os_call : ∀ T, sysE T → W → W * T.

Class OsSpec (W : Type) `{Os W} : Type := {
  os_abs : W → os;
  os_meets T (e : sysE T) w : sys_spec e (os_abs w) (os_call T e w).2 (os_abs (os_call T e w).1) }.

(** ** Running a program on a system

    The calls are interpreted in the state of the system; what is left is
    the end of the program. *)
Inductive haltE (W : Type) : Type → Type := Halt (w : W) (status : Z) : haltE W Empty_set.
Arguments Halt {W} w status.

Definition halted {W R} (w : W) (status : Z) : itree (haltE W) R :=
  Vis (Halt w status) (λ v : Empty_set, match v with end).

Definition serve {W} `{Os W} : ∀ T, (sysE +' exitE) T → W → itree (haltE W) (W * T) :=
  λ T e w, match e with
  | inl1 e => Ret (os_call T e w)
  | inr1 e => match e in exitE T return itree (haltE W) (W * T) with Exit_ n => halted w n end
  end.

Definition on {W} `{Os W} {R} (w : W) (t : prog R) : itree (haltE W) (W * R) := interp_state serve t w.

Arguments on : simpl never.
Arguments fprintf : simpl never.
Arguments printf : simpl never.
Arguments loop : simpl never.
Arguments call : simpl never.
Arguments exit : simpl never.

(** Names the body of the first loop of the goal. *)
Ltac name_body b := match goal with |- context [loop ?f] => set (b := f) end.

Section on.
Context {W : Type} `{Os W}.

#[export] Instance on_proper R w : Proper (eutt eq ==> eutt eq) (@on W _ R w).
Proof. intros t t' Ht. unfold on. by rewrite Ht. Qed.

Lemma on_ret {R} w (x : R) : on w (mret x) ≈ Ret (w, x).
Proof. unfold on, mret, prog_ret. by rewrite interp_state_ret. Qed.
Lemma on_bind {A B} w (m : prog A) (f : A → prog B) : on w (m ≫= f) ≈ ITree.bind (on w m) (λ x, on x.1 (f x.2)).
Proof. unfold on, mbind, prog_bind. by rewrite interp_state_bind. Qed.

(** A program that returns, and one that ends. *)
Definition returns {R} (w : W) (t : prog R) (w' : W) (x : R) : Prop := on w t ≈ Ret (w', x).
Definition ends {R} (w : W) (t : prog R) (w' : W) (n : Z) : Prop := on w t ≈ halted w' n.

Arguments returns : simpl never.
Arguments ends : simpl never.

Lemma returns_ret {R} w (x : R) : returns w (mret x) w x.
Proof. apply on_ret. Qed.
Lemma returns_call {T} w (e : sysE T) : returns w (call e) (os_call T e w).1 (os_call T e w).2.
Proof. unfold returns, on, call. rewrite interp_state_trigger. cbn. by destruct (os_call T e w). Qed.
Lemma ends_exit {R} w n : ends w (exit n : prog R) w n.
Proof.
  unfold ends, on, exit. rewrite interp_state_vis. cbn. unfold halted. rewrite bind_vis.
  apply eqit_Vis. intros [].
Qed.

Lemma on_bind_returns {A B} w w1 (m : prog A) x (f : A → prog B) : returns w m w1 x → on w (m ≫= f) ≈ on w1 (f x).
Proof. intros Hm. rewrite on_bind. unfold returns in Hm. by rewrite Hm, bind_ret_l. Qed.
Lemma returns_bind {A B} w w1 w2 (m : prog A) x (f : A → prog B) y :
  returns w m w1 x → returns w1 (f x) w2 y → returns w (m ≫= f) w2 y.
Proof. intros Hm Hf. unfold returns. by rewrite (on_bind_returns _ _ _ _ _ Hm). Qed.
Lemma ends_bind {A B} w w1 w2 (m : prog A) x (f : A → prog B) n :
  returns w m w1 x → ends w1 (f x) w2 n → ends w (m ≫= f) w2 n.
Proof. intros Hm Hf. unfold ends. by rewrite (on_bind_returns _ _ _ _ _ Hm). Qed.
Lemma ends_now {A B} w w1 (m : prog A) (f : A → prog B) n : ends w m w1 n → ends w (m ≫= f) w1 n.
Proof.
  intros Hm. unfold ends in *. rewrite on_bind, Hm. unfold halted. rewrite bind_vis. apply eqit_Vis. intros [].
Qed.

Lemma on_loop {I R} w (body : I → prog (I + R)) i :
  on w (loop body i) ≈ on w (body i ≫= λ r, match r with inl j => loop body j | inr x => mret x end).
Proof.
  apply on_proper. unfold loop at 1. etransitivity; [apply eq_sub_eutt, unfold_iter|].
  unfold mbind, prog_bind. apply eqit_bind; [reflexivity|].
  intros [j|x]; [|reflexivity]. exact (tau_eutt _).
Qed.
Lemma on_round {I R} w w1 (body : I → prog (I + R)) i j : returns w (body i) w1 (inl j) → on w (loop body i) ≈ on w1 (loop body j).
Proof. intros Hb. rewrite on_loop. by rewrite (on_bind_returns _ _ _ _ _ Hb). Qed.
Lemma returns_round {I R} w w1 w2 (body : I → prog (I + R)) i j x :
  returns w (body i) w1 (inl j) → returns w1 (loop body j) w2 x → returns w (loop body i) w2 x.
Proof. intros Hb Hl. unfold returns. by rewrite (on_round _ _ _ _ _ Hb). Qed.
Lemma ends_round {I R} w w1 w2 (body : I → prog (I + R)) i j n :
  returns w (body i) w1 (inl j) → ends w1 (loop body j) w2 n → ends w (loop body i) w2 n.
Proof. intros Hb Hl. unfold ends. by rewrite (on_round _ _ _ _ _ Hb). Qed.
Lemma returns_last {I R} w w1 (body : I → prog (I + R)) i x : returns w (body i) w1 (inr x) → returns w (loop body i) w1 x.
Proof. intros Hb. unfold returns. rewrite on_loop. rewrite (on_bind_returns _ _ _ _ _ Hb). apply on_ret. Qed.
Lemma ends_loop {I R} w w1 (body : I → prog (I + R)) i n : ends w (body i) w1 n → ends w (loop body i) w1 n.
Proof. intros Hb. unfold ends. rewrite on_loop. by apply ends_now. Qed.
End on.

(** ** The calls, on a system that meets the specification *)

Definition sends (o : nat) (bs : list Z) : os → os := set_objs (alter (say bs) o).
Definition takes (o k : nat) : os → os := set_objs (alter (eat k) o).

Lemma say_nil c : say [] c = c.
Proof. destruct c as [i ob w st]. unfold say. cbn. by rewrite app_nil_r. Qed.
Lemma sends_nil o a : sends o [] a = a.
Proof.
  destruct a. unfold sends, set_objs. cbn. f_equal. apply map_eq. intros o'.
  rewrite lookup_alter. case_decide; [subst|done]. destruct (_ !! _) as [c|]; cbn; by rewrite ?say_nil.
Qed.
Lemma sends_app o b1 b2 a : sends o b2 (sends o b1 a) = sends o (b1 ++ b2) a.
Proof.
  unfold sends, set_objs. cbn. f_equal. rewrite alter_alter_eq. apply alter_ext. intros c _.
  unfold say. cbn. by rewrite app_assoc.
Qed.
Lemma takes_add o k1 k2 a : takes o k2 (takes o k1 a) = takes o (k1 + k2) a.
Proof.
  unfold takes, set_objs. cbn. f_equal. rewrite alter_alter_eq. apply alter_ext. intros c _.
  unfold eat. cbn. by rewrite drop_drop.
Qed.
Lemma takes_0 o a : takes o 0 a = a.
Proof.
  destruct a. unfold takes, set_objs. cbn. f_equal. apply map_eq. intros o'.
  rewrite lookup_alter. case_decide; [subst|done]. by destruct (_ !! _) as [[]|].
Qed.
Lemma sends_takes o b o' k a : sends o b (takes o' k a) = takes o' k (sends o b a).
Proof.
  unfold sends, takes, set_objs. cbn. f_equal. destruct (decide (o = o')) as [->|Hne].
  - rewrite !alter_alter_eq. by apply alter_ext.
  - by apply alter_alter_ne.
Qed.

Lemma chan_alter a fd o f : chan_of (set_objs (alter f o) a) fd =
  (λ x, (x.1, if decide (x.1 = o) then f x.2 else x.2)) <$> chan_of a fd.
Proof.
  unfold chan_of. cbn. destruct (a.(fds) !! fd) as [o'|]; [|done]. cbn. rewrite lookup_alter.
  destruct (a.(objs) !! o') as [c|] eqn:E; destruct (decide (o = o')) as [->|Hne]; cbn; rewrite ?E; cbn;
    try rewrite decide_True by done; try rewrite decide_False by done; done.
Qed.

Lemma chan_sends a fd o c bs : chan_of a fd = Some (o, c) → chan_of (sends o bs a) fd = Some (o, say bs c).
Proof. intros Hc. unfold sends. rewrite chan_alter, Hc. cbn. by rewrite decide_True. Qed.
Lemma chan_takes a fd o c k : chan_of a fd = Some (o, c) → chan_of (takes o k a) fd = Some (o, eat k c).
Proof. intros Hc. unfold takes. rewrite chan_alter, Hc. cbn. by rewrite decide_True. Qed.
Lemma chan_sends_other a fd o c o' bs : chan_of a fd = Some (o, c) → ∃ c', chan_of (sends o' bs a) fd = Some (o, c').
Proof. intros Hc. unfold sends. rewrite chan_alter, Hc. by eexists. Qed.

(** A format without conversions is written as it is. *)
Lemma vprintf_plain k fmt i ap : (length fmt - i < k)%nat → 0 ∉ fmt → 37 ∉ fmt → vprintf k fmt i false ap = drop i fmt.
Proof.
  revert i. induction k as [|k IH]; intros i Hk H0 Hp; [lia|]. cbn [vprintf].
  destruct (decide (i < length fmt)%nat) as [Hi|Hi].
  - destruct (lookup_lt_is_Some_2 fmt i Hi) as [ch Hch]. rewrite Hch. change (default 0 (Some ch)) with ch. cbn [negb].
    assert (Hin : ch ∈ fmt) by (by eapply list_elem_of_lookup_2). assert (ch ≠ 0 ∧ ch ≠ 37) as [Hn0 Hn37] by (split; congruence).
    rewrite (proj2 (Z.eqb_neq ch 0)), (proj2 (Z.eqb_neq ch 37)) by done. rewrite (drop_S _ _ _ Hch). f_equal.
    rewrite Nat.add_1_r. apply IH; [lia|done|done].
  - rewrite lookup_ge_None_2, drop_ge by lia. done.
Qed.
Lemma fprintf_plain fmt ap : 0 ∉ bytes_of fmt → 37 ∉ bytes_of fmt → fprintf_bytes fmt ap = bytes_of fmt.
Proof.
  intros H0 Hp. unfold fprintf_bytes. rewrite vprintf_plain; [by rewrite drop_0| |done|done].
  assert (length (bytes_of fmt) = String.length fmt) by (clear; induction fmt; cbn; lia). lia.
Qed.

Section calls.
Context {W : Type} `{HO : Os W, HS : !OsSpec W}.

Lemma returns_write w fd bs o c : chan_of (os_abs w) fd = Some (o, c) →
  ∃ w', returns w (call (Write fd bs)) w' (Z.of_nat (length bs)) ∧ os_abs w' = sends o bs (os_abs w).
Proof.
  intros Hc. pose proof (os_meets _ (Write fd bs) w) as Hm. cbn in Hm. rewrite Hc in Hm. destruct Hm as [Hr Ha].
  eexists. split; [|exact Ha]. rewrite <- Hr. apply returns_call.
Qed.

Lemma returns_putcs w fd bs o c : chan_of (os_abs w) fd = Some (o, c) →
  ∃ w', returns w (putcs fd bs) w' () ∧ os_abs w' = sends o bs (os_abs w).
Proof.
  revert w c. induction bs as [|b bs IH]; intros w c Hc; cbn.
  - exists w. split; [apply returns_ret|by rewrite sends_nil].
  - destruct (returns_write w fd [b] o c Hc) as (w1 & R1 & E1).
    destruct (IH w1 (say [b] c)) as (w2 & R2 & E2).
    { rewrite E1. by apply chan_sends. }
    exists w2. split; [by eapply returns_bind|]. rewrite E2, E1. apply sends_app.
Qed.

Lemma returns_read w fd n o c : chan_of (os_abs w) fd = Some (o, c) →
  ∃ w' k, read_size n c k ∧ returns w (call (Read fd n)) w' (Z.of_nat k, take k c.(c_in)) ∧ os_abs w' = takes o k (os_abs w).
Proof.
  intros Hc. pose proof (os_meets _ (Read fd n) w) as Hm. cbn in Hm. rewrite Hc in Hm. destruct Hm as (k & Hk & Hr & Ha).
  eexists _, k. split; [done|]. split; [|exact Ha]. rewrite <- Hr. apply returns_call.
Qed.

Lemma returns_fork w : ∃ w', returns w (call Fork) w' (default (-1) (head (os_abs w).(forks))) ∧
  os_abs w' = set_forks tail (os_abs w).
Proof.
  destruct (os_meets _ Fork w) as [Hr Ha]. eexists. split; [|exact Ha]. rewrite <- Hr. apply returns_call.
Qed.
Lemma returns_fork_next w pid l : (os_abs w).(forks) = pid :: l →
  ∃ w', returns w (call Fork) w' pid ∧ os_abs w' = set_forks (λ _, l) (os_abs w).
Proof.
  intros Hf. destruct (os_meets _ Fork w) as [Hr Ha]. rewrite Hf in Hr. unfold set_forks in Ha. rewrite Hf in Ha.
  eexists. split; [|exact Ha]. cbn in Hr. rewrite <- Hr. apply returns_call.
Qed.
Lemma returns_wait_next w x l : (os_abs w).(waits) = x :: l →
  ∃ w', returns w (call Wait) w' x ∧ os_abs w' = set_waits (λ _, l) (os_abs w).
Proof.
  intros Hf. destruct (os_meets _ Wait w) as [Hr Ha]. rewrite Hf in Hr. unfold set_waits in Ha. rewrite Hf in Ha.
  eexists. split; [|exact Ha]. cbn in Hr. rewrite <- Hr. apply returns_call.
Qed.
Lemma returns_wait w : ∃ w', returns w (call Wait) w' (default (-1, 0) (head (os_abs w).(waits))) ∧
  os_abs w' = set_waits tail (os_abs w).
Proof.
  destruct (os_meets _ Wait w) as [Hr Ha]. eexists. split; [|exact Ha]. rewrite <- Hr. apply returns_call.
Qed.

(** Opening a file that is there, and closing it again. *)
Lemma returns_open w p mode bs st fd : (os_abs w).(names) !! (p, mode) = Some (Tfile bs st) → lowest_fd (os_abs w).(fds) = Some fd →
  ∃ w' o, (os_abs w).(objs) !! o = None ∧ map_Forall (λ _ o', o' ≠ o) (os_abs w).(fds) ∧ returns w (call (Open p mode)) w' fd ∧
    os_abs w' = set_fds (insert fd o) (set_objs (insert o (mk_chan bs [] true st)) (os_abs w)).
Proof.
  intros Hn Hl. pose proof (os_meets _ (Open p mode) w) as Hm. cbn in Hm. rewrite Hn, Hl in Hm. destruct Hm as (o & Ho & Hf & Hr & Ha).
  eexists _, o. split; [done|]. split; [done|]. split; [|exact Ha]. rewrite <- Hr. apply returns_call.
Qed.
Lemma returns_no_open w p mode : (os_abs w).(names) !! (p, mode) = None →
  ∃ w', returns w (call (Open p mode)) w' (-1) ∧ os_abs w' = os_abs w.
Proof.
  intros Hn. pose proof (os_meets _ (Open p mode) w) as Hm. cbn in Hm. rewrite Hn in Hm. destruct Hm as [Hr Ha].
  eexists. split; [|exact Ha]. rewrite <- Hr. apply returns_call.
Qed.
End calls.

Lemma lowest_fd_spec m fd : lowest_fd m = Some fd → m !! fd = None ∧ 0 ≤ fd.
Proof.
  unfold lowest_fd. intros Hf. assert (Hin : fd ∈ filter (λ fd, m !! fd = None) (seqZ 0 (Z.of_nat NOFILE))).
  { destruct (filter _ _) as [|x l]; [done|]. injection Hf as ->. by left. }
  apply list_elem_of_filter in Hin as [Hm Hs%elem_of_seqZ]. split; [done|lia].
Qed.

(** ** Programs that go through files

    The loop of the mains of cat, grep and wc. *)
Definition with_file (err : list Z → prog unit) (body : Z → list Z → prog unit) (file : list Z) : prog unit :=
  fd ← call (Open file O_RDONLY);
  if fd <? 0 then err file else
  body fd file ;;
  call (Close fd) ;;
  mret ().

Section files.
Context {W : Type} `{HO : Os W, HS : !OsSpec W}.

(** [body fd name] reads the rest of [fd] to its end and writes [out name] of
    it, for inputs in [P]. *)
Definition consumes (body : Z → list Z → prog unit) (P : list Z → Prop) (out : list Z → list Z → list Z) : Prop :=
  ∀ w fd name o c o1 c1, chan_of (os_abs w) fd = Some (o, c) → chan_of (os_abs w) 1 = Some (o1, c1) → P c.(c_in) →
  ∃ w', returns w (body fd name) w' () ∧ os_abs w' = sends o1 (out name c.(c_in)) (takes o (length c.(c_in)) (os_abs w)).

Lemma opened_closed a fd o c o1 bs k : a.(fds) !! fd = None → a.(objs) !! o = None → map_Forall (λ _ o', o' ≠ o) a.(fds) → o1 ≠ o →
  c.(c_whole) = true → let a' := sends o1 bs (takes o k (set_fds (insert fd o) (set_objs (insert o c) a))) in
  a'.(fds) !! fd = Some o ∧ last_close o (set_fds (delete fd) a') = sends o1 bs a.
Proof.
  intros Hfd Ho Hf Hne Hc a'. split; [cbn; apply lookup_insert_eq|].
  unfold last_close, a', sends, takes, set_objs, set_fds. cbn. rewrite (delete_insert_id a.(fds)) by done.
  rewrite lookup_alter_ne, lookup_alter_eq, lookup_insert_eq by done. cbn. rewrite Hc.
  rewrite bool_decide_true by done. cbn. f_equal. apply map_eq. intros o'.
  destruct (decide (o' = o)) as [->|Ho'].
  - rewrite lookup_delete_eq, lookup_alter_ne by done. by rewrite Ho.
  - rewrite lookup_delete_ne by done. destruct (decide (o' = o1)) as [->|Ho1].
    + rewrite !lookup_alter_eq, lookup_alter_ne, lookup_insert_ne by done. done.
    + rewrite !lookup_alter_ne, lookup_insert_ne by done. done.
Qed.

(** A file opened beside descriptor 1; what closing it leaves. *)
Lemma opened_file w p bs st fd o1 c1 : (os_abs w).(names) !! (p, O_RDONLY) = Some (Tfile bs st) → lowest_fd (os_abs w).(fds) = Some fd →
  chan_of (os_abs w) 1 = Some (o1, c1) → let c := mk_chan bs [] true st in
  ∃ w' o, returns w (call (Open p O_RDONLY)) w' fd ∧ (os_abs w).(objs) !! o = None ∧
    os_abs w' = set_fds (insert fd o) (set_objs (insert o c) (os_abs w)) ∧
    chan_of (os_abs w') fd = Some (o, c) ∧ chan_of (os_abs w') 1 = Some (o1, c1) ∧
    ∀ w2 k out, os_abs w2 = sends o1 out (takes o k (os_abs w')) →
      ∃ w3, returns w2 (call (Close fd)) w3 0 ∧ os_abs w3 = sends o1 out (os_abs w).
Proof.
  intros Hn Hl H1 c. destruct (lowest_fd_spec _ _ Hl) as [Hfd Hfd0].
  destruct (returns_open w p O_RDONLY bs st fd Hn Hl) as (w' & o & Ho & Hf & R1 & E1). fold c in E1.
  assert (H1' : (os_abs w).(fds) !! 1 = Some o1 ∧ (os_abs w).(objs) !! o1 = Some c1).
  { unfold chan_of in H1. destruct (fds _ !! 1) as [x|]; [|done]. cbn in H1. destruct (objs _ !! x) eqn:E; [|done].
    cbn in H1. by injection H1 as -> ->. }
  destruct H1' as [H1f H1o]. assert (fd ≠ 1) by congruence. assert (Hne : o1 ≠ o) by congruence.
  exists w', o. split; [done|]. split; [done|]. split; [done|]. split; [|split].
  - rewrite E1. unfold chan_of. cbn. rewrite lookup_insert_eq. cbn. by rewrite lookup_insert_eq.
  - rewrite E1. unfold chan_of. cbn. rewrite lookup_insert_ne by done. rewrite H1f. cbn. rewrite lookup_insert_ne by done. by rewrite H1o.
  - intros w2 k out E2. destruct (opened_closed (os_abs w) fd o c o1 out k) as [Hc1 Hc2]; try done.
    rewrite E1 in E2. rewrite <- E2 in Hc1, Hc2. pose proof (os_meets _ (Close fd) w2) as Hm. cbn in Hm. rewrite Hc1, Hc2 in Hm.
    destruct Hm as [Hr Ha]. eexists. split; [|exact Ha]. rewrite <- Hr. apply returns_call.
Qed.

Lemma returns_file w err body P out file bs st o1 c1 : consumes body P out → P bs →
  (os_abs w).(names) !! (file, O_RDONLY) = Some (Tfile bs st) → is_Some (lowest_fd (os_abs w).(fds)) →
  chan_of (os_abs w) 1 = Some (o1, c1) →
  ∃ w', returns w (with_file err body file) w' () ∧ os_abs w' = sends o1 (out file bs) (os_abs w).
Proof.
  intros Hb HP Hn [fd Hl] H1. destruct (opened_file w file bs st fd o1 c1 Hn Hl H1) as (w1 & o & R1 & _ & _ & Hc & H1' & Hback).
  destruct (Hb w1 fd file o _ o1 c1 Hc H1' HP) as (w2 & R2 & E2). destruct (Hback w2 _ _ E2) as (w3 & R3 & E3).
  exists w3. split; [|done]. eapply returns_bind; [exact R1|]. rewrite (proj2 (Z.ltb_ge fd 0)) by (by eapply lowest_fd_spec).
  eapply returns_bind; [exact R2|]. eapply returns_bind; [exact R3|apply returns_ret].
Qed.

(** The output of the files of a list, while they are all there. *)
Definition file_outs (out : list Z → list Z → list Z) (l : list (list Z * list Z)) : list Z := concat ((λ x, out x.1 x.2) <$> l).

Lemma returns_files w err body P out l o1 c1 : consumes body P out → Forall (λ x, P x.2) l →
  Forall (λ x, ∃ st, (os_abs w).(names) !! (x.1, O_RDONLY) = Some (Tfile x.2 st)) l → is_Some (lowest_fd (os_abs w).(fds)) →
  chan_of (os_abs w) 1 = Some (o1, c1) →
  ∃ w', returns w (each l.*1 (with_file err body)) w' () ∧ os_abs w' = sends o1 (file_outs out l) (os_abs w).
Proof.
  intros Hb. revert w c1. induction l as [|[f bs] l IH]; intros w c1 HP Hn Hl H1; cbn.
  - exists w. split; [apply returns_ret|]. unfold file_outs. cbn. by rewrite sends_nil.
  - apply Forall_cons in HP as [HP1 HP], Hn as [[st Hn1] Hn].
    destruct (returns_file w err body P out f bs st o1 c1) as (w1 & R1 & E1); try done.
    destruct (IH w1 (say (out f bs) c1)) as (w2 & R2 & E2); try done; [by rewrite E1..| |].
    { rewrite E1. by apply chan_sends. }
    exists w2. split; [by eapply returns_bind|]. rewrite E2, E1. apply sends_app.
Qed.

(** A file that is not there ends the loop. *)
Lemma ends_files w err body P out l f rest o1 c1 n (Q : os → Prop) : consumes body P out → Forall (λ x, P x.2) l →
  Forall (λ x, ∃ st, (os_abs w).(names) !! (x.1, O_RDONLY) = Some (Tfile x.2 st)) l → is_Some (lowest_fd (os_abs w).(fds)) →
  (os_abs w).(names) !! (f, O_RDONLY) = None → chan_of (os_abs w) 1 = Some (o1, c1) →
  (∀ w', os_abs w' = sends o1 (file_outs out l) (os_abs w) → ∃ w1, ends w' (err f) w1 n ∧ Q (os_abs w1)) →
  ∃ w1, ends w (each (l.*1 ++ f :: rest) (with_file err body)) w1 n ∧ Q (os_abs w1).
Proof.
  intros Hb. revert w c1. induction l as [|[g bs] l IH]; intros w c1 HP Hn Hl Hno H1 Herr; cbn.
  - destruct (returns_no_open w f O_RDONLY Hno) as (w2 & R2 & E2).
    destruct (Herr w2) as (w1 & R1 & HQ); [unfold file_outs; cbn; by rewrite sends_nil|].
    exists w1. split; [|done]. apply ends_now. by eapply ends_bind; [exact R2|].
  - apply Forall_cons in HP as [HP1 HP], Hn as [[st Hn1] Hn].
    destruct (returns_file w err body P out g bs st o1 c1) as (w2 & R2 & E2); try done.
    destruct (IH w2 (say (out g bs) c1)) as (w1 & R1 & HQ); try done; [by rewrite E2..| | |].
    { rewrite E2. by apply chan_sends. }
    { intros w3 E3. apply Herr. rewrite E3, E2. apply sends_app. }
    exists w1. split; [|done]. by eapply ends_bind.
Qed.
End files.

(** *** stat *)

(** What stat reports of a name. *)
Definition stat_of (a : os) (p : list Z) : option stat :=
  match a.(names) !! (p, O_RDONLY) with
  | Some (Tfile _ st) => Some st
  | Some (Tdev o) => c_stat <$> a.(objs) !! o
  | None => None
  end.

(** Names of devices stand for devices. *)
Definition devs_ok (a : os) : Prop :=
  ∀ key o, a.(names) !! key = Some (Tdev o) → ∃ c, a.(objs) !! o = Some c ∧ c.(c_whole) = false.

Lemma objs_moved a f o' : (∀ c, (f c).(c_stat) = c.(c_stat) ∧ (f c).(c_whole) = c.(c_whole)) →
  let a' := set_objs (alter f o') a in (∀ p, stat_of a' p = stat_of a p) ∧ (devs_ok a → devs_ok a').
Proof.
  intros Hf a'. split.
  - intros p. unfold stat_of. cbn. destruct (a.(names) !! _) as [[o|]|]; try done. rewrite lookup_alter.
    case_decide; [subst|done]. destruct (a.(objs) !! o) as [c|]; [|done]. cbn. f_equal. apply Hf.
  - intros Hd key o Hk. destruct (Hd key o Hk) as (c & Ho & Hc). cbn. rewrite lookup_alter. case_decide; [|by exists c].
    subst. rewrite Ho. exists (f c). split; [done|]. by rewrite (proj2 (Hf c)).
Qed.

(** Opening a file does not change what stat reports. *)
Lemma objs_opened a fd o c : a.(objs) !! o = None → devs_ok a → let a' := set_fds (insert fd o) (set_objs (insert o c) a) in
  (∀ p, stat_of a' p = stat_of a p) ∧ devs_ok a'.
Proof.
  intros Ho Hd a'. split.
  - intros p. unfold stat_of. cbn. destruct (a.(names) !! _) as [[o'|]|] eqn:E; try done. destruct (Hd _ _ E) as (c' & Ho' & _).
    by rewrite lookup_insert_ne by congruence.
  - intros key o' Hk. destruct (Hd key o' Hk) as (c' & Ho' & Hc'). exists c'. cbn. by rewrite lookup_insert_ne by congruence.
Qed.

Section stat.
Context {W : Type} `{HO : Os W, HS : !OsSpec W}.

Lemma returns_fstat w fd o c : chan_of (os_abs w) fd = Some (o, c) →
  ∃ w', returns w (call (Fstat fd)) w' (0, c.(c_stat)) ∧ os_abs w' = os_abs w.
Proof.
  intros Hc. pose proof (os_meets _ (Fstat fd) w) as Hm. cbn in Hm. rewrite Hc in Hm. destruct Hm as [Hr Ha].
  eexists. split; [|exact Ha]. rewrite <- Hr. apply returns_call.
Qed.
Lemma returns_close w fd o : (os_abs w).(fds) !! fd = Some o →
  ∃ w', returns w (call (Close fd)) w' 0 ∧ os_abs w' = last_close o (set_fds (delete fd) (os_abs w)).
Proof.
  intros Hf. pose proof (os_meets _ (Close fd) w) as Hm. cbn in Hm. rewrite Hf in Hm. destruct Hm as [Hr Ha].
  eexists. split; [|exact Ha]. rewrite <- Hr. apply returns_call.
Qed.
Lemma returns_open_dev w p mode o fd : (os_abs w).(names) !! (p, mode) = Some (Tdev o) → lowest_fd (os_abs w).(fds) = Some fd →
  ∃ w', returns w (call (Open p mode)) w' fd ∧ os_abs w' = set_fds (insert fd o) (os_abs w).
Proof.
  intros Hn Hl. pose proof (os_meets _ (Open p mode) w) as Hm. cbn in Hm. rewrite Hn, Hl in Hm. destruct Hm as [Hr Ha].
  eexists. split; [|exact Ha]. rewrite <- Hr. apply returns_call.
Qed.

(** A descriptor opened and closed leaves nothing behind. *)
Lemma opened_for w p : is_Some (lowest_fd (os_abs w).(fds)) → devs_ok (os_abs w) → is_Some (stat_of (os_abs w) p) →
  ∃ w' fd o c, returns w (call (Open p O_RDONLY)) w' fd ∧ 0 ≤ fd ∧ chan_of (os_abs w') fd = Some (o, c) ∧
    stat_of (os_abs w) p = Some c.(c_stat) ∧ (os_abs w').(fds) !! fd = Some o ∧
    last_close o (set_fds (delete fd) (os_abs w')) = os_abs w.
Proof.
  intros [fd Hl] Hd [st Hst]. destruct (lowest_fd_spec _ _ Hl) as [Hfd Hfd0]. unfold stat_of in *.
  destruct ((os_abs w).(names) !! (p, O_RDONLY)) as [[o|bs st']|] eqn:Hn; [| |done].
  - destruct (Hd _ _ Hn) as (c & Ho & Hc). destruct (returns_open_dev w p O_RDONLY o fd Hn Hl) as (w' & R & E).
    exists w', fd, o, c. rewrite E, Ho. cbn. rewrite lookup_insert_eq. split; [done|]. split; [done|]. split_and!; try done.
    + unfold chan_of. cbn. rewrite lookup_insert_eq. cbn. by rewrite Ho.
    + unfold last_close. cbn. rewrite Ho, Hc. cbn. unfold set_fds. cbn. rewrite delete_insert_id by done. by destruct (os_abs w).
  - destruct (returns_open w p O_RDONLY bs st' fd Hn Hl) as (w' & o & Ho & Hf & R & E). set (c := mk_chan bs [] true st') in *.
    exists w', fd, o, c. rewrite E. split; [done|]. split; [done|]. split_and!.
    + unfold chan_of. cbn. rewrite lookup_insert_eq. cbn. by rewrite lookup_insert_eq.
    + done.
    + cbn. by rewrite lookup_insert_eq.
    + unfold last_close. cbn. rewrite lookup_insert_eq. cbn. rewrite (delete_insert_id (os_abs w).(fds)) by done.
      rewrite bool_decide_true by done. unfold set_objs, set_fds. cbn. rewrite !delete_insert_id by done.
      by destruct (os_abs w).
Qed.

Lemma returns_stat w p : is_Some (lowest_fd (os_abs w).(fds)) → devs_ok (os_abs w) →
  ∃ w', match stat_of (os_abs w) p with
    | Some st => returns w (stat_call p) w' (0, st)
    | None => ∃ st, returns w (stat_call p) w' (-1, st)
    end ∧ os_abs w' = os_abs w.
Proof.
  intros Hl Hd. destruct (stat_of (os_abs w) p) as [st|] eqn:Hst.
  - destruct (opened_for w p Hl Hd) as (w1 & fd & o & c & R1 & H0 & Hc & Hs & Hf & Hback); [by eexists|]. rewrite Hst in Hs. injection Hs as ->.
    destruct (returns_fstat w1 fd o c Hc) as (w2 & R2 & E2). rewrite <- E2 in Hf, Hback.
    destruct (returns_close w2 fd o Hf) as (w3 & R3 & E3). exists w3. split; [|by rewrite E3].
    unfold stat_call. eapply returns_bind; [exact R1|]. rewrite (proj2 (Z.ltb_ge fd 0)) by done.
    eapply returns_bind; [exact R2|]. eapply returns_bind; [exact R3|apply returns_ret].
  - assert (Hn : (os_abs w).(names) !! (p, O_RDONLY) = None).
    { unfold stat_of in Hst. destruct (_ !! _) as [[o|]|] eqn:E in Hst |- *; try done. destruct (Hd _ _ E) as (c & Ho & _). by rewrite Ho in Hst. }
    destruct (returns_no_open w p O_RDONLY Hn) as (w1 & R1 & E1). exists w1. split; [|done]. eexists.
    unfold stat_call. eapply returns_bind; [exact R1|apply returns_ret].
Qed.
End stat.

(** ** A system that meets the specification

    Reads from a device return at most one byte more than the next of a list
    of sizes; the calls that are only recorded succeed. *)
Record sim : Type := mk_sim { sim_os : os; sim_sizes : list nat }.

Definition sim_read (n : Z) (c : chan) (sizes : list nat) : nat :=
  let most := (Z.to_nat n `min` length c.(c_in))%nat in
  if c.(c_whole) then most else (S (default 0 (head sizes)) `min` most)%nat.

Definition sim_close (fd : Z) (a : os) : os * Z :=
  match a.(fds) !! fd with
  | Some o => (last_close o (set_fds (delete fd) a), 0)
  | None => (a, -1)
  end.

Definition sim_open (p : list Z) (mode : Z) (a : os) : os * Z :=
  match a.(names) !! (p, mode), lowest_fd a.(fds) with
  | Some (Tdev o), Some fd => (set_fds (insert fd o) a, fd)
  | Some (Tfile bs st), Some fd =>
      let o := fresh (dom a.(objs) ∪ map_img a.(fds)) in
      (set_fds (insert fd o) (set_objs (insert o (mk_chan bs [] true st)) a), fd)
  | _, _ => (a, -1)
  end.

Definition sim_call (T : Type) (e : sysE T) (w : sim) : sim * T :=
  let a := w.(sim_os) in
  let ok {R} (x : os * R) : sim * R := (mk_sim x.1 w.(sim_sizes), x.2) in
  match e in sysE T return sim * T with
  | Read fd n =>
      match chan_of a fd with
      | Some (o, c) => let k := sim_read n c w.(sim_sizes) in (mk_sim (takes o k a) (tail w.(sim_sizes)), (Z.of_nat k, take k c.(c_in)))
      | None => ok (a, (-1, []))
      end
  | Write fd bs => match chan_of a fd with Some (o, _) => ok (sends o bs a, Z.of_nat (length bs)) | None => ok (a, -1) end
  | Open p mode => ok (sim_open p mode a)
  | Close fd => ok (sim_close fd a)
  | Dup fd =>
      match a.(fds) !! fd, lowest_fd a.(fds) with
      | Some o, Some fd' => ok (set_fds (insert fd' o) a, fd')
      | _, _ => ok (a, -1)
      end
  | Fstat fd => match chan_of a fd with Some (_, c) => ok (a, (0, c.(c_stat))) | None => ok (a, (-1, mk_stat 0 0 0 0 0)) end
  | Fork => ok (set_forks tail a, default (-1) (head a.(forks)))
  | Wait => ok (set_waits tail a, default (-1, 0) (head a.(waits)))
  | Mknod p ma mi =>
      match a.(devs) !! ma with
      | Some o => ok (did (Mknod p ma mi) 0 (set_names (insert (p, O_RDWR) (Tdev o)) a), 0)
      | None => ok (did (Mknod p ma mi) (-1) a, -1)
      end
  | Pipe => ok (did Pipe (-1, (0, 0)) a, (-1, (0, 0)))
  | (Kill _ | Exec _ _ | Unlink _ | Link _ _ | Mkdir _ | Chdir _ | Getpid | Sbrk _ _ | Pause _ | Uptime) as e => ok (did e 0 a, 0)
  end.
#[export] Instance sim_Os : Os sim := sim_call.

Lemma sim_read_size n c sizes : read_size n c (sim_read n c sizes).
Proof.
  unfold read_size, sim_read. destruct (c_whole c); split_and!; try lia; try done; intros H Hn'.
  - apply nil_length_inv. lia.
  - apply nil_length_inv. lia.
Qed.

#[export] Program Instance sim_spec : OsSpec sim := {| os_abs := sim_os |}.
Next Obligation.
  intros T e [a sizes]. unfold os_call, sim_Os. destruct e; cbn; try done.
  - by destruct (chan_of a fd) as [[o c]|].
  - destruct (chan_of a fd) as [[o c]|]; [|done]. eexists. split; [apply sim_read_size|done].
  - unfold sim_close. by destruct (a.(fds) !! fd).
  - unfold sim_open. destruct (a.(names) !! _) as [[o|bs st]|]; [by destruct (lowest_fd _)| |done].
    destruct (lowest_fd _) as [fd|]; [|done]. cbn. eexists. split_and!; [|..|done|done].
    + apply not_elem_of_dom. pose proof (is_fresh (dom a.(objs) ∪ map_img a.(fds))). set_solver.
    + intros fd' o' Hfd ->. apply (is_fresh (dom a.(objs) ∪ map_img (SA := gset nat) a.(fds))).
      apply elem_of_union_r. by eapply elem_of_map_img_2.
  - by destruct (a.(devs) !! _).
  - by destruct (chan_of a fd) as [[o c]|].
  - destruct (a.(fds) !! fd); [|done]. by destruct (lowest_fd _).
Qed.
