(* ===== verification/FileSpec.v ===== *)
(** fileread of file.c on a file of the disk, against the read that [UserSys]
    gives to programs: the open file is an object whose input is what is left
    of the file. *)

From S2P Require Import Prelude Cmem KString Kstate Spinlock Sleep Sleeplock Kalloc Vm VmSpec UserMem Printf Bio BioSpec Log LogSpec BioProps LogCrash LogSafe Tx Fs FsSpec FsView FsFile FsDir FsWrite FsUser FsTable FsPath FsTrunc Console Pipe File UserSys.
Local Open Scope Z_scope.

(** The object of an open file with offset [off]; a read returns as much as
    there is. *)
Definition file_rest (v : view) (q : inode) (off : Z) : list Z :=
  drop (Z.to_nat off) (fbytes v q 0 (Z.to_nat q.(i_size))).
Definition file_chan (v : view) (q : inode) (off : Z) : chan :=
  mk_chan (file_rest v q off) [] true (mk_stat q.(i_dev) q.(i_inum) q.(i_type) q.(i_nlink) q.(i_size)).

Lemma length_file_rest v q off : length (file_rest v q off) = (Z.to_nat q.(i_size) - Z.to_nat off)%nat.
Proof. unfold file_rest. by rewrite length_drop, length_fbytes. Qed.

Lemma take_file_rest v q off c : 0 ≤ off → (Z.to_nat off + c ≤ Z.to_nat q.(i_size))%nat →
  take c (file_rest v q off) = fbytes v q off c.
Proof.
  intros Ho Hc. apply list_eq_same_length with c; [by rewrite length_fbytes|rewrite length_take, length_file_rest; lia|].
  intros i x y Hi. unfold file_rest. rewrite lookup_take_lt, lookup_drop, !lookup_fbytes by lia.
  intros [= <-] [= <-]. f_equal. lia.
Qed.

Lemma file_chan_eat v q off c : 0 ≤ off → file_chan v q (off + Z.of_nat c) = eat c (file_chan v q off).
Proof. intros Ho. unfold file_chan, eat, file_rest. cbn. rewrite drop_drop. do 2 f_equal. lia. Qed.

(** readi's count is that of a read of the object. *)
Lemma read_count_size v q off n : 0 ≤ q.(i_size) ≤ MAXFILE * BSIZE → 0 ≤ off < 4294967296 → 0 ≤ n < 2147483648 →
  let c := Z.to_nat (read_count q.(i_size) off n) in
  read_count q.(i_size) off n = Z.of_nat c ∧ read_size n (file_chan v q off) c ∧
  fbytes v q off c = take c (file_rest v q off) ∧ off + Z.of_nat c < 4294967296.
Proof.
  intros Hs Ho Hn c. change (MAXFILE * BSIZE) with 274432 in Hs.
  assert (Hc : c = (Z.to_nat n `min` (Z.to_nat q.(i_size) - Z.to_nat off))%nat ∧ read_count q.(i_size) off n = Z.of_nat c).
  { unfold c, read_count. destruct (Z.ltb_spec q.(i_size) off); cbn [orb]; [lia|].
    destruct (Z.leb_spec 4294967296 (off + n)); lia. }
  destruct Hc as [Hc E]. split; [done|]. split.
  - unfold read_size, file_chan. cbn [c_in c_whole]. rewrite length_file_rest. split_and!; [lia|lia| |done].
    intros H0 Hp. apply nil_length_inv. rewrite length_file_rest. lia.
  - split; [|lia]. destruct (decide (c = 0%nat)) as [->|]; [by rewrite take_0|]. symmetry. apply take_file_rest; lia.
Qed.

(** ** Open files and transactions *)

(** Nothing of the inode table is in memory or in the table of open files. *)
Lemma beside_itab k v pid L s g f h : itab_ok k v pid L s → itab_ok k v pid L (upd_file f h (set_pmem g s)).
Proof. by intros []. Qed.

Lemma beside_refs s g f h j : ref_moved s (upd_file f h (set_pmem g s)) j 0.
Proof. split; [|done]. intros j'. change (nrefs s j' = nrefs s j' + if decide (j' = j) then 0 else 0). case_decide; lia. Qed.

Section read.
Context {Fl : Fuel} {La : Layout} {Dv : Device} `{Bs : BlockDevSpec}.
Context (k : superblock) (X : gset Z) (p : nat).

(** An open file of the disk: entry [f] of the table stands for inode [j],
    and no inode is locked. *)
Record file_open (s0 s : kstate) (v : view) (m : Z) (f ip : nat) (j off : Z) : Prop := {
  op_txc : txc X p s0 s v 0 m;
  op_room : 1 ≤ m;
  op_sb : s0.(sb) = k;
  op_free y : v.(vl) y = free_lock;
  op_itab : itab_ok k v (pid_of p s0) ∅ s0;
  op_href : href s0 ip j;
  op_type : (disk_inode k v j).(di_type) ≠ 0;
  op_ok : file_ok v k (inode_of k v j);
  op_slot : (f < length s0.(ftable))%nat;
  op_file : (get_file f s0).(f_type) = FD_INODE ∧ (get_file f s0).(f_ip) = Some ip;
  op_off : (get_file f s0).(f_off) = off ∧ 0 ≤ off < 4294967296 }.

(** The lock is taken: the inode is the one of the disk. *)
Lemma locked_file v q j : dinode_of q = disk_inode k v j → q.(i_dev) = ROOTDEV → q.(i_inum) = j →
  file_ok v k (inode_of k v j) → file_ok v k q ∧ q.(i_size) = (inode_of k v j).(i_size) ∧
    ∀ off n, fbytes v q off n = fbytes v (inode_of k v j) off n.
Proof.
  intros H Hd Hj Hok. rewrite <- (dinode_of_inode_of k v j) in H. split_and!.
  - by apply (file_ok_dinode v k (inode_of k v j)).
  - by injection H.
  - intros off n. by apply fbytes_dinode.
Qed.

(** The offset moves with the bytes; readi that finds none leaves it. *)
Lemma advance_done s0 s v m f r : txc X p s0 s v 0 m → (f < length s0.(ftable))%nat →
  let o := (get_file f s0).(f_off) in 0 ≤ r → 0 ≤ o → o + r < 4294967296 →
  ∃ h, let s0' := upd_file f h s0 in let s' := upd_file f h s in
    when (0 <? r) (modify (upd_file f (set_f_off (λ o, u32 (o + r))))) s = Done () s' ∧ txc X p s0' s' v 0 m ∧
    get_file f s0' = set_f_off (λ _, o + r) (get_file f s0).
Proof.
  intros HT Hf o Hr Ho Hb. destruct (Z.ltb_spec 0 r) as [Hp|Hp].
  - exists (set_f_off (λ o, u32 (o + r))). cbn zeta. split; [done|]. split; [by apply txc_file|].
    unfold get_file, upd_file. cbn [ftable set_ftable]. rewrite lookup_total_alter_list_eq by done.
    fold (get_file f s0). unfold set_f_off. cbn. by rewrite u32_small by (unfold o in *; lia).
  - assert (r = 0) as -> by lia. exists (λ q, q). cbn zeta.
    assert (Hid : ∀ t, upd_file f (λ q, q) t = t).
    { intros t. destruct t. unfold upd_file, set_ftable. cbn. f_equal. apply list_eq. intros i. rewrite list_lookup_alter.
      case_decide; [|done]. subst. by rewrite option_fmap_id. }
    rewrite !Hid. split; [done|]. split; [done|]. rewrite Z.add_0_r. unfold o, set_f_off. by destruct (get_file f s0).
Qed.
Lemma fileread_done s0 s v m f ip j off dst n T l :
  let root := (get_proc p s0).(p_pagetable) in let q := inode_of k v j in
  sb_ok k → sb_layout k → file_open s0 s v m f ip j off → (get_file f s0).(f_readable) ≠ 0 →
  vm_inv root s0 T l → user_space s0.(pmem) root T l → 0 ≤ n < 2147483648 → 0 ≤ dst → dst + n ≤ MAXVA →
  (∀ va, dst ≤ va < dst + n → writable s0.(pmem) root va) →
  ∃ c s0' s', fileread f dst n s = Done (Z.of_nat c) s' ∧ read_size n (file_chan v q off) c ∧
    file_open s0' s' v m f ip j (off + Z.of_nat c) ∧ ref_moved s0 s0' j 0 ∧
    get_file f s0' = set_f_off (λ _, off + Z.of_nat c) (get_file f s0) ∧
    get_proc p s0' = get_proc p s0 ∧ s0'.(freelist) = s0.(freelist) ∧
    user_received p s0 T l dst (take c (file_rest v q off)) s0'.(pmem).
Proof.
  intros root q Hsb Hly [HT Hm Hk Hfl Htab Hh Hty Hok Hf [Ht Hi] [Ho Hob]] Hrd HI HU Hn Hd Hdn Hw.
  unfold fileread. mstep (gets_eq _ _ _ (txc_get_file _ _ _ _ _ _ _ f HT)).
  rewrite (proj2 (Z.eqb_neq _ 0) Hrd), Ht, Hi.
  destruct (ilock_done k X p Hsb Hly ∅ s0 s v 0 m ip j) as (q1 & s1 & E1 & HT1 & Htab1 & Hg1 & Hd1 & Hdev1 & Hh1 & Hr1); try done.
  set (a1 := upd_inode ip (λ _, q1) s0) in *. mstep E1. cbn [deref]. mnext.
  mstep (gets_eq _ _ _ (txc_get_file _ _ _ _ _ _ _ f HT1)). change (get_file f a1) with (get_file f s0).
  rewrite Ho, u32_small, Hi by lia.
  destruct (locked_file v q1 j) as (Hok1 & Hsz & Hby); try done. { rewrite <- Hg1. by destruct Hh1 as (_ & _ & ?). }
  destruct (read_count_size v q off n) as (Ec & Hrs & Hfb & Hob'); [exact (fo_size _ _ _ Hok)|done|done|].
  set (c := Z.to_nat (read_count (i_size q) off n)) in *.
  destruct (readi_done k X p ip q1 Hsb true dst off n (user_received p s0 T l dst) s0 a1 s1 v 0 m)
    as (g & s2 & E2 & HT2 & _ & HR); try done.
  { apply user_sink; try done; lia || (intros va Hva; apply Hw; lia). } { exact (user_received_nil p s0 T l HI HU dst). } { pg. }
  { lia. }
  rewrite Hsz in E2, HR. rewrite Hby in HR. fold q in E2, HR. fold c in HR. rewrite Ec in E2. mstep E2.
  destruct (advance_done (set_pmem g a1) s2 v m f (Z.of_nat c) HT2) as (h & E3 & HT3 & Hgf); try done; try lia.
  { change (0 ≤ f_off (get_file f s0)). lia. } { change (f_off (get_file f s0) + Z.of_nat c < 4294967296). lia. }
  mstep E3. set (a3 := upd_file f h (set_pmem g a1)) in *.
  destruct (iunlock_done k X p ({[ip]} ∪ ∅) a3 (upd_file f h s2) v 0 m ip j) as (E4 & HT4 & Htab4 & Hh4 & Hr4); try done.
  { exact (beside_itab _ _ _ _ _ g f h Htab1). } { set_solver. }
  mstep E4. eexists c, _, _. split; [done|]. split; [done|].
  change (get_file f (set_pmem g a1)) with (get_file f s0) in Hgf. rewrite Ho in Hgf.
  assert (Hgf' : get_file f (upd_inode ip (set_i_lock (λ _, free_lock)) a3) = set_f_off (λ _, off + Z.of_nat c) (get_file f s0)) by exact Hgf.
  split; [|split; [|split; [exact Hgf'|split; [done|split; [done|by rewrite <- Hfb]]]]].
  - split; try done; rewrite ?Hgf'; try (split; [done|lia]).
    + assert (∅ = ({[ip]} ∪ ∅) ∖ {[ip]} :> gset nat) as -> by set_solver. exact Htab4.
    + cbn. by rewrite length_alter.
    + by split.
  - apply (ref_moved_0 _ a1); [done|]. by apply (ref_moved_0 _ a3); [apply beside_refs|].
Qed.

(** A process that reads a file: the file is open, and the memory of the
    process is in order. *)
Record reader (s0 s : kstate) (v : view) (m : Z) (f ip : nat) (j off : Z) (T : typing) (l : list Z) : Prop := {
  rd_open : file_open s0 s v m f ip j off;
  rd_readable : (get_file f s0).(f_readable) ≠ 0;
  rd_vm : vm_inv (get_proc p s0).(p_pagetable) s0 T l;
  rd_user : user_space s0.(pmem) (get_proc p s0).(p_pagetable) T l }.

(** C21. fileread of a file on the disk is the read that user programs rely
    on.  The open file is an object whose input is the file from the offset
    on.  The call takes the lock of the inode, reading the inode from the disk
    where needed, and returns as many bytes as are asked for and left; the
    bytes are those of the file at the offset, in the buffer of the process,
    and the rest of its memory is as it was.  What is left to read afterwards
    is the object without these bytes.  The inode is unlocked, references are
    as before, and the process can read again. *)
Theorem fileread_streams s0 s v m f ip j off dst n T l :
  let root := (get_proc p s0).(p_pagetable) in let o := file_chan v (inode_of k v j) in
  sb_ok k → sb_layout k → reader s0 s v m f ip j off T l →
  0 ≤ n < 2147483648 → 0 ≤ dst → dst + n ≤ MAXVA → (∀ va, dst ≤ va < dst + n → writable s0.(pmem) root va) →
  ∃ c s0' s', fileread f dst n s = Done (Z.of_nat c) s' ∧ read_size n (o off) c ∧
    reader s0' s' v m f ip j (off + Z.of_nat c) T l ∧ o (off + Z.of_nat c) = eat c (o off) ∧
    ref_moved s0 s0' j 0 ∧
    ∀ va, 0 ≤ va < MAXVA → user_page s.(pmem) root va →
      ub s'.(pmem) root va =
        if decide (dst ≤ va < dst + Z.of_nat c) then u8 ((o off).(c_in) !!! Z.to_nat (va - dst)) else ub s.(pmem) root va.
Proof.
  intros root o Hsb Hly [Hop Hrd HI HU] Hn Hd Hdn Hw.
  destruct (fileread_done s0 s v m f ip j off dst n T l) as (c & s0' & s' & E & Hrs & Hop' & Hm & Hgf & Hp & Hfl & HR); try done.
  exists c, s0', s'. split; [done|]. split; [done|]. pose proof (op_off _ _ _ _ _ _ _ _ Hop) as [_ Ho].
  destruct HR as ([V1 [V2 V2'] V3] & R2 & _ & R4). split; [|split; [by apply file_chan_eat; lia|split; [done|]]].
  - split; rewrite ?Hp; try done; [by rewrite Hgf|]. split; [exact V1| |exact V3]. split; [|exact V2']. rewrite Hfl. exact V2.
  - pose proof (txc_mem _ _ _ _ _ _ _ (op_txc _ _ _ _ _ _ _ _ Hop)) as ->.
    pose proof (txc_mem _ _ _ _ _ _ _ (op_txc _ _ _ _ _ _ _ _ Hop')) as ->.
    assert (Hlen : length (take c (file_rest v (inode_of k v j) off)) = c) by (rewrite length_take; destruct Hrs as (_ & Hc & _); cbn in Hc; lia).
    intros va Hva Hu. rewrite R4, Hlen by done. case_decide; [|done].
    rewrite !list_lookup_total_alt, lookup_take_lt by lia. done.
Qed.
End read.

(** ** A concrete process: the file of [FsTrunc], open, and the page of [UserMem]. *)

Definition lost_open : file := mk_file FD_INODE 1 1 0 0 (Some 0%nat) 4 0.
Definition reader_state (fl : Z) (m : mem) : kstate := with_space fl m (upd_file 5 (λ _, lost_open) lost_state).

Lemma reader_table fl m : (get_proc 3 (reader_state fl m)).(p_pagetable) = demo_root.
Proof.
  unfold get_proc, reader_state, with_space. cbn [procs upd_proc set_procs]. rewrite lookup_total_alter_list_eq; [done|].
  change (3 < length (procs lost_state))%nat. apply (bool_decide_unpack _). by vm_compute.
Qed.

Lemma reader_pid fl m : pid_of 3 (reader_state fl m) = pid_of 3 lost_state.
Proof.
  unfold pid_of, get_proc, reader_state, with_space. cbn [procs upd_proc set_procs]. rewrite lookup_total_alter_list_eq; [done|].
  change (3 < length (procs lost_state))%nat. apply (bool_decide_unpack _). by vm_compute.
Qed.

Lemma reader_file fl m : get_file 5 (reader_state fl m) = lost_open.
Proof.
  change (get_file 5 (upd_file 5 (λ _, lost_open) lost_state) = lost_open). unfold get_file, upd_file. cbn [ftable set_ftable].
  rewrite lookup_total_alter_list_eq; [done|]. apply (bool_decide_unpack _). by vm_compute.
Qed.

Lemma lost_open_file fl m : let F : Fuel := 1%nat in let D := ideal_disk in
  file_open demo_sb ∅ 3 (reader_state fl m) (reader_state fl m) lost_view 10 5 0 7 4.
Proof.
  intros F D. destruct lost_blocks as [Hb Hl]. split.
  - apply tx_txc, (tx_weaken 3 _ _ _ 10 10); [|lia|lia].
    exact (with_space_tx fl m _ _ _ 10 10 (tx_file 3 _ _ _ 10 10 5 (λ _, lost_open) lost_tx)).
  - lia.
  - exact eq_refl.
  - exact Hl.
  - rewrite reader_pid. destruct (lost_itab lost_view (pid_of 3 lost_state) Hb) as [I1 I2 I3 I4 I5 I6 I7].
    split; [exact I1|exact I2|exact I3|exact I4|exact I5|exact I6|exact I7].
  - split; [unfold NINODE; lia|]. exact (conj eq_refl eq_refl).
  - rewrite <- dinode_of_inode_of, lost_inode. done.
  - rewrite lost_inode. apply one_block_ok; [by rewrite Hb|cbn; lia|unfold T_FILE; lia|lia].
  - change (5 < length (ftable (upd_file 5 (λ _, lost_open) lost_state)))%nat. apply (bool_decide_unpack _). by vm_compute.
  - rewrite reader_file. exact (conj eq_refl eq_refl).
  - rewrite reader_file. split; [exact eq_refl|lia].
Qed.

(** Reading 20 bytes from offset 4 of a file of 16 gives 12. *)
Lemma fileread_streams_witness :
  let F : Fuel := 1%nat in let L := layout64 in let V := demo_device in let D := ideal_disk in
  ∃ S s', fileread 5 0x1000 20 S = Done 12 s' ∧ ub s'.(pmem) demo_root 0x1003 = 0.
Proof.
  intros F L V D. destruct demo_space as (s & T & l & HI & HU & Hw).
  set (S := reader_state s.(freelist) s.(pmem)).
  assert (HIS : vm_inv demo_root S T l).
  { destruct HI as [V1 [V2 V2'] V3]. split; [exact V1|split; [exact V2|exact V2']|exact V3]. }
  destruct (@fileread_streams F L V D ideal_disk_spec demo_sb ∅ 3 S S lost_view 10 5 0 7 4 0x1000 20 T l)
    as (c & s0' & s' & E & (_ & _ & _ & Hc) & _ & _ & _ & HR).
  - exact demo_sb_ok.
  - exact demo_layout.
  - split; unfold S; rewrite ?reader_table, ?reader_file; fold S; [apply lost_open_file|done|exact HIS|exact HU].
  - lia.
  - lia.
  - pg.
  - unfold S. rewrite reader_table. intros va Hva. apply Hw. lia.
  - assert (c = 12%nat) as -> by (rewrite Hc by done; cbn [c_in file_chan]; rewrite length_file_rest, lost_inode; exact eq_refl).
    exists S, s'. split; [exact E|].
    assert (Er : (get_proc 3 S).(p_pagetable) = demo_root) by apply reader_table. rewrite Er in HR.
    rewrite (HR 0x1003); [|pg|apply Hw; lia]. rewrite decide_True by lia. cbn [c_in file_chan].
    rewrite lost_inode. exact eq_refl.
Defined.
