(* ===== verification/UserProgs.v ===== *)
(** The small programs of src/user: cat.c, echo.c, init.c, kill.c, ln.c, ls.c,
    mkdir.c, rm.c, zombie.c, memdump.c, forktest.c, forphan.c and dorphan.c,
    and what they do on a system that meets [sys_spec].  [argv] holds the
    arguments of main, the name of the program first. *)

From S2P Require Import Prelude Cmem Kstate Printf Fs Ulib UserSys.
From ITree Require Import Core.ITreeDefinition Interp.Interp Eq.Eqit Eq.UpToTaus Events.State Events.StateFacts.
Local Open Scope Z_scope.

(** The arguments after the name of the program. *)
Definition args (argv : list (list Z)) : list (list Z) := tail argv.
Definition argc (argv : list (list Z)) : Z := Z.of_nat (length argv).

(** ** cat *)

Definition cat (fd : Z) : prog unit :=
  n ← loop (λ _ : unit,
    '(n, buf) ← call (Read fd 512);
    if 0 <? n then
      r ← call (Write 1 buf);
      if negb (r =? n) then
        fprintf 2 (line "cat: write error") [] ;;
        exit 1
      else mret (inl ())
    else mret (inr n)) ();
  if n <? 0 then
    fprintf 2 (line "cat: read error") [] ;;
    exit 1
  else mret ().

Definition cat_main (argv : list (list Z)) : prog unit :=
  if argc argv <=? 1 then cat 0 ;; exit 0 else
  each (args argv) (with_file
    (λ file, fprintf 2 (line "cat: cannot open %s") [Vs file] ;; exit 1)
    (λ fd _, cat fd)) ;;
  exit 0.

(** ** echo *)

Fixpoint echo_loop (l : list (list Z)) : prog unit :=
  match l with
  | [] => mret ()
  | a :: l =>
      call (Write 1 a) ;;
      (if negb (length l =? 0)%nat then call (Write 1 [32]) else call (Write 1 [10])) ;;
      echo_loop l
  end.
Definition echo_main (argv : list (list Z)) : prog unit := echo_loop (args argv) ;; exit 0.

(** ** Programs of one call per argument *)

(** atoi of a string, stored in memory. *)
Definition atoi_str (s : list Z) : Z := atoi (wr ∅ 4096 (s ++ [0])) 4096.

Definition kill_main (argv : list (list Z)) : prog unit :=
  if argc argv <? 2 then
    fprintf 2 (line "usage: kill pid...") [] ;;
    exit 1
  else
  each (args argv) (λ a, call (Kill (atoi_str a)) ;; mret ()) ;;
  exit 0.

Definition ln_main (argv : list (list Z)) : prog unit :=
  if negb (argc argv =? 3) then
    fprintf 2 (line "Usage: ln old new") [] ;;
    exit 1
  else
  let old := argv !!! 1%nat in
  let new := argv !!! 2%nat in
  r ← call (Link old new);
  (if r <? 0 then fprintf 2 (line "link %s %s: failed") [Vs old; Vs new] else mret ()) ;;
  exit 0.

Definition mkdir_main (argv : list (list Z)) : prog unit :=
  if argc argv <? 2 then
    fprintf 2 (line "Usage: mkdir files...") [] ;;
    exit 1
  else
  each_while (args argv) (λ a,
    r ← call (Mkdir a);
    if r <? 0 then fprintf 2 (line "mkdir: %s failed to create") [Vs a] ;; mret false
    else mret true) ;;
  exit 0.

Definition rm_main (argv : list (list Z)) : prog unit :=
  if argc argv <? 2 then
    fprintf 2 (line "Usage: rm files...") [] ;;
    exit 1
  else
  each_while (args argv) (λ a,
    r ← call (Unlink a);
    if r <? 0 then fprintf 2 (line "rm: %s failed to delete") [Vs a] ;; mret false
    else mret true) ;;
  exit 0.

Definition zombie_main : prog unit :=
  pid ← call Fork;
  (if 0 <? pid then call (Pause 5) ;; mret () else mret ()) ;;
  exit 0.

(** ** init *)

Definition init_wait (pid : Z) : prog unit :=
  loop (λ _ : unit,
    '(wpid, _) ← call Wait;
    if wpid =? pid then mret (inr ())
    else if wpid <? 0 then
      printf (line "init: wait returned an error") [] ;;
      exit 1
    else mret (inl ())) ().

Definition init_loop : prog unit :=
  loop (λ _ : unit,
    printf (line "init: starting sh") [] ;;
    pid ← call Fork;
    if pid <? 0 then
      printf (line "init: fork failed") [] ;;
      exit 1
    else if pid =? 0 then
      call (Exec (bytes_of "sh") [bytes_of "sh"]) ;;
      printf (line "init: exec sh failed") [] ;;
      exit 1
    else
      init_wait pid ;;
      mret (inl ())) ().

Definition init_main : prog unit :=
  fd ← call (Open (bytes_of "console") O_RDWR);
  (if fd <? 0 then
     call (Mknod (bytes_of "console") (Z.of_nat CONSOLE) 0) ;;
     call (Open (bytes_of "console") O_RDWR) ;;
     mret ()
   else mret ()) ;;
  call (Dup 0) ;;
  call (Dup 0) ;;
  init_loop.

(** ** ls *)

(** [for(p = path + strlen(path); p >= path && *p != '/'; p--)] and [p++], from
    [p = path + k - 1]. *)
Fixpoint name_start (path : list Z) (k : nat) : nat :=
  match k with
  | O => O
  | S j => if default 0 (path !! j) =? 47 then k else name_start path j
  end.

Definition fmtname (path : list Z) : list Z :=
  let p := drop (name_start path (S (length path))) path in
  if DIRSIZ <=? Z.of_nat (length p) then p else p ++ replicate (Z.to_nat DIRSIZ - length p) 32.

Definition ls_print (path : list Z) (st : stat) : prog unit :=
  printf (line "%s %d %d %d") [Vs (fmtname path); Vint st.(st_type); Vint st.(st_ino); Vint (s32 st.(st_size))].

(** [buf] is [path], a slash and the name of the entry. *)
Definition ls_dir (fd : Z) (path : list Z) : prog unit :=
  loop (λ _ : unit,
    '(n, de) ← call (Read fd SIZEOF_DE);
    if negb (n =? SIZEOF_DE) then mret (inr ()) else
    if of_le (take 2 de) =? 0 then mret (inl ()) else
    let buf := path ++ [47] ++ cstr (drop 2 de) in
    '(r, st) ← stat_call buf;
    (if r <? 0 then printf (line "ls: cannot stat %s") [Vs buf] else ls_print buf st) ;;
    mret (inl ())) ().

Definition ls (path : list Z) : prog unit :=
  fd ← call (Open path O_RDONLY);
  if fd <? 0 then fprintf 2 (line "ls: cannot open %s") [Vs path] else
  '(r, st) ← call (Fstat fd);
  if r <? 0 then
    fprintf 2 (line "ls: cannot stat %s") [Vs path] ;;
    call (Close fd) ;;
    mret ()
  else
  (if (st.(st_type) =? T_DEVICE) || (st.(st_type) =? T_FILE) then ls_print path st
   else if st.(st_type) =? T_DIR then
     if 512 <? Z.of_nat (length path) + 1 + DIRSIZ + 1 then printf (line "ls: path too long") []
     else ls_dir fd path
   else mret ()) ;;
  call (Close fd) ;;
  mret ().

Definition ls_main (argv : list (list Z)) : prog unit :=
  if argc argv <? 2 then ls [46] ;; exit 0 else
  each (args argv) ls ;;
  exit 0.

(** ** forktest *)

Definition print (s : list Z) : prog unit := call (Write 1 s) ;; mret ().

(** [n] is the number of children; [k] is [N - n]. *)
Fixpoint fork_loop (k : nat) (n : Z) : prog Z :=
  match k with
  | O => mret n
  | S k =>
      pid ← call Fork;
      if pid <? 0 then mret n
      else if pid =? 0 then exit 0
      else fork_loop k (n + 1)
  end.

Fixpoint wait_loop (n : nat) : prog unit :=
  match n with
  | O => mret ()
  | S n =>
      '(pid, _) ← call Wait;
      if pid <? 0 then
        print (bytes_of (line "wait stopped early")) ;;
        exit 1
      else wait_loop n
  end.

Definition forktest : prog unit :=
  print (bytes_of (line "fork test")) ;;
  n ← fork_loop 1000 0;
  if n =? 1000 then
    print (bytes_of (line "fork claimed to work N times!")) ;;
    exit 1
  else
  wait_loop (Z.to_nat n) ;;
  '(pid, _) ← call Wait;
  if negb (pid =? -1) then
    print (bytes_of (line "wait got too many")) ;;
    exit 1
  else print (bytes_of (line "fork test OK")).

Definition forktest_main : prog unit := forktest ;; exit 0.

(** ** forphan and dorphan *)

(** [for(;;) pause(1000)] *)
Definition sit_around : prog unit := loop (λ _ : unit, call (Pause 1000) ;; mret (inl ())) ().

Definition forphan_main (argv : list (list Z)) : prog unit :=
  let s := Vs (argv !!! 0%nat) in
  let ff := bytes_of "file0" in
  fd ← call (Open ff (Z.lor O_CREATE O_WRONLY));
  if fd <? 0 then printf (line "%s: open failed") [s] ;; exit 1 else
  '(r, st) ← call (Fstat fd);
  if r <? 0 then fprintf 2 (line "%s: cannot stat %s") [s; Vs (bytes_of "ff")] ;; exit 1 else
  r ← call (Unlink ff);
  if r <? 0 then printf (line "%s: unlink failed") [s] ;; exit 1 else
  fd ← call (Open ff O_RDONLY);
  if negb (fd =? -1) then printf (line "%s: open successed") [s] ;; exit 1 else
  printf (line "wait for kill and reclaim %d") [Vint st.(st_ino)] ;;
  sit_around.

Definition dorphan_main (argv : list (list Z)) : prog unit :=
  let s := Vs (argv !!! 0%nat) in
  r ← call (Mkdir (bytes_of "dd"));
  if negb (r =? 0) then printf (line "%s: mkdir dd failed") [s] ;; exit 1 else
  r ← call (Chdir (bytes_of "dd"));
  if negb (r =? 0) then printf (line "%s: chdir dd failed") [s] ;; exit 1 else
  r ← call (Unlink (bytes_of "../dd"));
  if r <? 0 then printf (line "%s: unlink failed") [s] ;; exit 1 else
  printf (line "wait for kill and reclaim") [] ;;
  sit_around.

(** ** What they do *)

#[local] Opaque fprintf_bytes.

Section specs.
Context {W : Type} `{HO : Os W, HS : !OsSpec W}.

Lemma chan_moved a fd fd1 o c o1 c1 k bs : chan_of a fd = Some (o, c) → chan_of a fd1 = Some (o1, c1) →
  ∃ c' c1', chan_of (sends o1 bs (takes o k a)) fd = Some (o, c') ∧ c'.(c_in) = drop k c.(c_in) ∧
    chan_of (sends o1 bs (takes o k a)) fd1 = Some (o1, c1').
Proof.
  intros Hc H1. unfold sends, takes. rewrite !chan_alter, Hc, H1. cbn. eexists _, _. split; [reflexivity|]. split; [|reflexivity].
  destruct (decide (o = o)) as [_|]; [|done]. by case_decide.
Qed.

Lemma cat_consumes : consumes (λ fd _, cat fd) (λ _, True) (λ _ bs, bs).
Proof.
  intros w fd name o c o1 c1 Hc H1 _. unfold cat. name_body body.
  enough (∃ w', returns w (loop body ()) w' 0 ∧ os_abs w' = sends o1 c.(c_in) (takes o (length c.(c_in)) (os_abs w))) as (w' & R & E).
  { exists w'. split; [|done]. by eapply returns_bind; [exact R|apply returns_ret]. }
  remember (length c.(c_in)) as n eqn:En. revert w c c1 En Hc H1. induction n as [n IH] using lt_wf_ind. intros w c c1 -> Hc H1.
  destruct (returns_read w fd 512 o c Hc) as (w1 & k & (_ & Hk & H0 & _) & R1 & E1).
  destruct (decide (k = 0%nat)) as [->|Hk0].
  - rewrite (H0 eq_refl) in * by lia. exists w1. split.
    + apply returns_last. unfold body. eapply returns_bind; [exact R1|apply returns_ret].
    + rewrite sends_nil. exact E1.
  - assert (H1' : ∃ c1', chan_of (os_abs w1) 1 = Some (o1, c1')).
    { rewrite E1. unfold takes. rewrite chan_alter, H1. by eexists. }
    destruct H1' as [c1' H1'].
    destruct (returns_write w1 1 (take k c.(c_in)) o1 c1' H1') as (w2 & R2 & E2).
    destruct (chan_moved (os_abs w) fd 1 o c o1 c1 k (take k c.(c_in)) Hc H1) as (c2 & c3 & Hc2 & Hin & H3).
    rewrite <- E1, <- E2 in Hc2, H3.
    destruct (IH (length c2.(c_in))) with w2 c2 c3 as (w3 & R3 & E3); try done; [rewrite Hin, length_drop; lia|].
    exists w3. split.
    + eapply returns_round; [|exact R3]. unfold body. eapply returns_bind; [exact R1|]. cbn [fst snd].
      rewrite (proj2 (Z.ltb_lt 0 _)) by lia. eapply returns_bind; [exact R2|]. rewrite length_take, Nat.min_l by lia.
      rewrite Z.eqb_refl. apply returns_ret.
    + rewrite E3, E2, E1, Hin. rewrite <- sends_takes, takes_add, sends_app, take_drop, length_drop. do 2 f_equal. lia.
Qed.

Definition there (a : os) (l : list (list Z * list Z)) : Prop :=
  Forall (λ x, ∃ st, a.(names) !! (x.1, O_RDONLY) = Some (Tfile x.2 st)) l.

Lemma ends_message {R} w fd bs o c n : chan_of (os_abs w) fd = Some (o, c) →
  ∃ w', ends w (putcs fd bs ;; (exit n : prog R)) w' n ∧ os_abs w' = sends o bs (os_abs w).
Proof.
  intros Hc. destruct (returns_putcs w fd bs o c Hc) as (w' & R' & E). exists w'. split; [|done].
  eapply ends_bind; [exact R'|apply ends_exit].
Qed.

Lemma file_outs_snd l : file_outs (λ _ bs, bs) l = concat l.*2.
Proof. done. Qed.

(** cat writes the contents of the files it is given to descriptor 1, in
    order, and ends with status 0; without arguments it copies what
    descriptor 0 has, to its end, however the reads cut it.  At a file it
    cannot open it has copied the files before it, says so on descriptor 2
    and ends with status 1. *)
Lemma cat_copies w name l o1 c1 : chan_of (os_abs w) 1 = Some (o1, c1) → there (os_abs w) l →
  is_Some (lowest_fd (os_abs w).(fds)) →
  (l ≠ [] → ∃ w', ends w (cat_main (name :: l.*1)) w' 0 ∧ os_abs w' = sends o1 (concat l.*2) (os_abs w)) ∧
  (∀ o0 c0, chan_of (os_abs w) 0 = Some (o0, c0) → ∃ w', ends w (cat_main [name]) w' 0 ∧
    os_abs w' = sends o1 c0.(c_in) (takes o0 (length c0.(c_in)) (os_abs w))) ∧
  (∀ f rest o2 c2, (os_abs w).(names) !! (f, O_RDONLY) = None → chan_of (os_abs w) 2 = Some (o2, c2) →
    ∃ w', ends w (cat_main (name :: l.*1 ++ f :: rest)) w' 1 ∧
      os_abs w' = sends o2 (fprintf_bytes (line "cat: cannot open %s") [Vs f]) (sends o1 (concat l.*2) (os_abs w))).
Proof.
  intros H1 Hl Hfd. assert (HP : Forall (λ x : list Z * list Z, True) l) by by apply Forall_true. split_and!.
  - intros Hne. destruct l as [|x l]; [done|]. unfold cat_main. cbn [argc args tail].
    destruct (returns_files w (λ file, fprintf 2 (line "cat: cannot open %s") [Vs file] ;; exit 1) _ _ _ _ _ _ cat_consumes HP Hl Hfd H1)
      as (w' & R & E). exists w'. split; [|exact E]. rewrite (proj2 (Z.leb_gt _ _)) by (unfold argc; cbn; lia).
    eapply ends_bind; [exact R|apply ends_exit].
  - intros o0 c0 H0. destruct (cat_consumes w 0 name o0 c0 o1 c1 H0 H1 I) as (w' & R & E). exists w'. split; [|done].
    unfold cat_main. cbn. eapply ends_bind; [exact R|apply ends_exit].
  - intros f rest o2 c2 Hf H2. unfold cat_main. rewrite (proj2 (Z.leb_gt _ _)) by (unfold argc; cbn; rewrite length_app; cbn; lia).
    destruct (ends_files w (λ file, fprintf 2 (line "cat: cannot open %s") [Vs file] ;; exit 1) _ _ _ l f rest o1 c1 1
      (λ a, a = sends o2 (fprintf_bytes (line "cat: cannot open %s") [Vs f]) (sends o1 (concat l.*2) (os_abs w))) cat_consumes HP Hl Hfd Hf H1)
      as (w' & R & E).
    + intros w1 E1. rewrite file_outs_snd in E1. rewrite <- E1. eapply ends_message.
      rewrite E1. unfold sends. rewrite chan_alter, H2. reflexivity.
    + exists w'. split; [|done]. by apply ends_now.
Qed.

(** *** init *)

(** One shell: its process, the orphans that exit before it, its status. *)
Record shell_life : Type := mk_life { sl_pid : Z; sl_orphans : list (Z * Z); sl_status : Z }.
Definition life_ok (r : shell_life) : Prop := 0 < r.(sl_pid) ∧ Forall (λ x, 0 ≤ x.1 ∧ x.1 ≠ r.(sl_pid)) r.(sl_orphans).
Definition life_waits (r : shell_life) : list (Z * Z) := r.(sl_orphans) ++ [(r.(sl_pid), r.(sl_status))].

Lemma init_waits w pid orphans st rest : Forall (λ x, 0 ≤ x.1 ∧ x.1 ≠ pid) orphans →
  (os_abs w).(waits) = orphans ++ (pid, st) :: rest →
  ∃ w', returns w (init_wait pid) w' () ∧ os_abs w' = set_waits (λ _, rest) (os_abs w).
Proof.
  intros Ho. revert w. unfold init_wait. name_body body. induction Ho as [|[x y] orphans [Hx Hne] _ IH]; intros w Hw.
  - destruct (returns_wait_next w _ _ Hw) as (w1 & R1 & E1). exists w1. split; [|done].
    apply returns_last. eapply returns_bind; [exact R1|]. cbn. rewrite Z.eqb_refl. apply returns_ret.
  - destruct (returns_wait_next w _ _ Hw) as (w1 & R1 & E1).
    destruct (IH w1) as (w2 & R2 & E2); [by rewrite E1|]. exists w2. split; [|by rewrite E2, E1].
    eapply returns_round; [|exact R2]. eapply returns_bind; [exact R1|]. cbn in Hx, Hne |- *.
    rewrite (proj2 (Z.eqb_neq x pid)), (proj2 (Z.ltb_ge x 0)) by lia. apply returns_ret.
Qed.

Definition starting : list Z := bytes_of (line "init: starting sh").
Definition fork_failed : list Z := bytes_of (line "init: fork failed").

Lemma returns_printf w fmt ap o c : chan_of (os_abs w) 1 = Some (o, c) →
  ∃ w', returns w (printf fmt ap) w' () ∧ os_abs w' = sends o (fprintf_bytes fmt ap) (os_abs w).
Proof. apply returns_putcs. Qed.

(** A message printed before the loop of [init_loop] forks. *)
Lemma init_prints w s o c : 0 ∉ bytes_of s → 37 ∉ bytes_of s → chan_of (os_abs w) 1 = Some (o, c) →
  ∃ w', returns w (printf s []) w' () ∧ os_abs w' = sends o (bytes_of s) (os_abs w).
Proof. intros H0 Hp Hc. destruct (returns_printf w s [] o c Hc) as (w' & R & E). rewrite fprintf_plain in E by done. by exists w'. Qed.

Lemma returns_dup w fd o fd' : (os_abs w).(fds) !! fd = Some o → lowest_fd (os_abs w).(fds) = Some fd' →
  ∃ w', returns w (call (Dup fd)) w' fd' ∧ os_abs w' = set_fds (insert fd' o) (os_abs w).
Proof.
  intros Hf Hl. pose proof (os_meets _ (Dup fd) w) as Hm. cbn in Hm. rewrite Hf, Hl in Hm. destruct Hm as [Hr Ha].
  eexists. split; [|exact Ha]. rewrite <- Hr. apply returns_call.
Qed.
Definition console_name : list Z * Z := (bytes_of "console", O_RDWR).

(** The console is there, or the device is and the name can be made. *)
Definition console_ready (a : os) (o : nat) : Prop :=
  a.(names) !! console_name = Some (Tdev o) ∨ a.(names) !! console_name = None ∧ a.(devs) !! Z.of_nat CONSOLE = Some o.

(** The call that makes the console's name, where there is none. *)
Definition makes_console (a : os) : list {T : Type & (sysE T * T)%type} :=
  match a.(names) !! console_name with
  | Some _ => []
  | None => [act (Mknod (bytes_of "console") (Z.of_nat CONSOLE) 0) 0]
  end.

(** What init's first calls leave alone, and what they do. *)
Definition same_world (a a' : os) : Prop := a'.(objs) = a.(objs) ∧ a'.(forks) = a.(forks) ∧ a'.(waits) = a.(waits) ∧
  a'.(acts) = a.(acts) ++ makes_console a.

Lemma init_opens w o : (os_abs w).(fds) = ∅ → console_ready (os_abs w) o →
  ∃ w', (∀ w2 n, ends w' (call (Dup 0) ;; call (Dup 0) ;; init_loop) w2 n → ends w init_main w2 n) ∧
    (os_abs w').(fds) = {[0 := o]} ∧ same_world (os_abs w) (os_abs w').
Proof.
  intros Hfd Hc. assert (Hl : lowest_fd ∅ = Some 0) by (by vm_compute). unfold init_main, same_world, makes_console. destruct Hc as [Hn|[Hn Hd]]; rewrite Hn.
  - destruct (returns_open_dev w _ _ o 0 Hn) as (w1 & R1 & E1); [by rewrite Hfd|]. exists w1. split; [|by rewrite E1; cbn; rewrite Hfd, app_nil_r].
    intros w2 n He. eapply ends_bind; [exact R1|]. cbn [Z.ltb Z.compare]. eapply ends_bind; [apply returns_ret|exact He].
  - destruct (returns_no_open w _ _ Hn) as (w1 & R1 & E1).
    pose proof (os_meets _ (Mknod (bytes_of "console") (Z.of_nat CONSOLE) 0) w1) as Hm. cbn in Hm. rewrite E1, Hd in Hm.
    destruct Hm as [_ E2]. set (w2 := (os_call _ _ w1).1) in E2.
    destruct (returns_open_dev w2 (bytes_of "console") O_RDWR o 0) as (w3 & R3 & E3).
    { rewrite E2. cbn [names did set_names]. apply lookup_insert_eq. }
    { rewrite E2. cbn [fds did set_names]. by rewrite Hfd. }
    exists w3. split; [|rewrite E3, E2; cbn; by rewrite Hfd].
    intros w4 n He. eapply ends_bind; [exact R1|]. cbn [Z.ltb Z.compare]. eapply ends_bind; [|exact He].
    eapply returns_bind; [apply returns_call|]. eapply returns_bind; [exact R3|apply returns_ret].
Qed.

Lemma init_setup w o : (os_abs w).(fds) = ∅ → console_ready (os_abs w) o →
  ∃ w', (∀ w2 n, ends w' init_loop w2 n → ends w init_main w2 n) ∧
    (os_abs w').(fds) = {[2 := o; 1 := o; 0 := o]} ∧ same_world (os_abs w) (os_abs w').
Proof.
  intros Hfd Hc. destruct (init_opens w o Hfd Hc) as (w1 & He & Hf1 & Hs1).
  destruct (returns_dup w1 0 o 1) as (w2 & R2 & E2); [by rewrite Hf1|by rewrite Hf1; vm_compute|].
  assert (Hf2 : (os_abs w2).(fds) = {[1 := o; 0 := o]}) by (rewrite E2; cbn; by rewrite Hf1).
  destruct (returns_dup w2 0 o 2) as (w3 & R3 & E3); [by rewrite Hf2|by rewrite Hf2; vm_compute|].
  exists w3. split; [|split; [by rewrite E3; cbn; rewrite Hf2|by rewrite E3, E2]].
  intros w4 n H4. apply He. eapply ends_bind; [exact R2|]. by eapply ends_bind; [exact R3|].
Qed.

(** Shells that have been started, and have exited. *)
Definition lived (o : nat) (rounds : list shell_life) (more : list Z) (a : os) : os :=
  set_forks (λ _, more) (set_waits (λ _, []) (sends o (concat (replicate (length rounds) starting)) a)).

(** A round of the loop, up to the fork. *)
Lemma init_starts w o c pid more : chan_of (os_abs w) 1 = Some (o, c) → default (-1) (head (os_abs w).(forks)) = pid → tail (os_abs w).(forks) = more →
  ∃ w1 w2, returns w (printf (line "init: starting sh") []) w1 () ∧ returns w1 (call Fork) w2 pid ∧
    os_abs w2 = set_forks (λ _, more) (sends o starting (os_abs w)) ∧ chan_of (os_abs w2) 1 = Some (o, say starting c).
Proof.
  intros Hc <- <-. destruct (init_prints w (line "init: starting sh") o c) as (w1 & R1 & E1); [by apply (bool_decide_unpack _); vm_compute..|done|].
  destruct (returns_fork w1) as (w2 & R2 & E2). rewrite E1 in R2, E2. exists w1, w2. split; [exact R1|]. split; [exact R2|]. split; [exact E2|].
  rewrite E2. exact (chan_sends _ _ _ _ _ Hc).
Qed.

Lemma init_lives w rounds more o c : Forall life_ok rounds → chan_of (os_abs w) 1 = Some (o, c) →
  (os_abs w).(forks) = (sl_pid <$> rounds) ++ more → (os_abs w).(waits) = concat (life_waits <$> rounds) →
  ∃ w', eutt eq (on w init_loop) (on w' init_loop) ∧ os_abs w' = lived o rounds more (os_abs w).
Proof.
  intros Hr. revert w c. unfold init_loop. name_body body. induction Hr as [|[pid orphans st] rounds [Hp Ho] _ IH]; intros w c Hc Hf Hw.
  - exists w. split; [reflexivity|]. unfold lived. cbn. rewrite sends_nil. cbn in Hf, Hw. destruct (os_abs w). cbn in *. by subst.
  - destruct (init_starts w o c pid ((sl_pid <$> rounds) ++ more) Hc) as (w1 & w2 & R1 & R2 & E2 & Hc2); [by rewrite Hf..|].
    destruct (init_waits w2 pid orphans st (concat (life_waits <$> rounds))) as (w3 & R3 & E3); [done| |].
    { rewrite E2. cbn [waits set_forks sends set_objs]. rewrite Hw. cbn. by rewrite <- app_assoc. }
    rewrite E2 in E3. cbn in Hp.
    destruct (IH w3 (say starting c)) as (w4 & R4 & E4); [|by rewrite E3|by rewrite E3|].
    { rewrite E3. exact (chan_sends _ _ _ _ _ Hc). }
    exists w4. split.
    + rewrite <- R4. apply on_round. eapply returns_bind; [exact R1|]. eapply returns_bind; [exact R2|].
      rewrite (proj2 (Z.ltb_ge pid 0)), (proj2 (Z.eqb_neq pid 0)) by lia. eapply returns_bind; [exact R3|apply returns_ret].
    + rewrite E4, E3. unfold lived. cbn [length]. rewrite (replicate_S (length rounds)). cbn [concat].
      by rewrite <- (sends_app o starting (concat (replicate (length rounds) starting))).
Qed.

(** The last round: there is no process for another shell. *)
Lemma init_no_fork w o c : chan_of (os_abs w) 1 = Some (o, c) → (os_abs w).(forks) = [] →
  ∃ w', ends w init_loop w' 1 ∧ os_abs w' = sends o (starting ++ fork_failed) (os_abs w).
Proof.
  intros Hc Hf. destruct (init_starts w o c (-1) [] Hc) as (w1 & w2 & R1 & R2 & E2 & Hc2); [by rewrite Hf..|].
  destruct (init_prints w2 (line "init: fork failed") o (say starting c)) as (w3 & R3 & E3); [by apply (bool_decide_unpack _); vm_compute..|exact Hc2|].
  fold fork_failed in E3. exists w3. split.
  - unfold init_loop. apply ends_loop. eapply ends_bind; [exact R1|]. eapply ends_bind; [exact R2|]. eapply ends_bind; [exact R3|apply ends_exit].
  - rewrite E3, E2, <- sends_app. destruct (os_abs w). cbn in Hf |- *. by subst.
Qed.

Definition exec_sh : sysE Z := Exec (bytes_of "sh") [bytes_of "sh"].
Definition exec_failed : list Z := bytes_of (line "init: exec sh failed").

(** A round, in the child. *)
Lemma init_child w o c more : chan_of (os_abs w) 1 = Some (o, c) → (os_abs w).(forks) = 0 :: more →
  ∃ w' r, ends w init_loop w' 1 ∧
    os_abs w' = sends o exec_failed (did exec_sh r (set_forks (λ _, more) (sends o starting (os_abs w)))).
Proof.
  intros Hc Hf. destruct (init_starts w o c 0 more Hc) as (w1 & w2 & R1 & R2 & E2 & Hc2); [by rewrite Hf..|].
  pose proof (os_meets _ exec_sh w2) as E3. cbn in E3. set (w3 := (os_call _ _ w2).1) in E3. set (r := (os_call _ _ w2).2) in E3.
  assert (R3 : returns w2 (call exec_sh) w3 r) by apply returns_call.
  destruct (init_prints w3 (line "init: exec sh failed") o (say starting c)) as (w4 & R4 & E4); [by apply (bool_decide_unpack _); vm_compute..|by rewrite E3|].
  exists w4, r. split; [|by rewrite E4, E3, E2].
  unfold init_loop. apply ends_loop. eapply ends_bind; [exact R1|]. eapply ends_bind; [exact R2|]. cbn [Z.ltb Z.compare Z.eqb].
  eapply ends_bind; [exact R3|]. eapply ends_bind; [exact R4|apply ends_exit].
Qed.

(** C33. init opens the console on descriptors 0, 1 and 2, making its name
    where there is none, and starts a shell; it starts another one each time
    the shell exits, and not when an orphan does, for as long as there are
    processes for it.  Then it says that fork failed and ends with status 1,
    having waited for every process it was given, and having called exec
    nowhere itself.  Where a fork returns 0, that process, with the console on
    its three descriptors, calls exec of sh, and if that returns it says that
    exec failed and ends with status 1. *)
Theorem init_respawns w rounds more o c : (os_abs w).(fds) = ∅ → console_ready (os_abs w) o → (os_abs w).(objs) !! o = Some c →
  Forall life_ok rounds → (os_abs w).(forks) = (sl_pid <$> rounds) ++ more → (os_abs w).(waits) = concat (life_waits <$> rounds) →
  let ready := (os_abs w).(acts) ++ makes_console (os_abs w) in
  let started := concat (replicate (S (length rounds)) starting) in
  (more = [] → ∃ w', ends w init_main w' 1 ∧ (os_abs w').(fds) = {[2 := o; 1 := o; 0 := o]} ∧
    (os_abs w').(forks) = [] ∧ (os_abs w').(waits) = [] ∧ (os_abs w').(acts) = ready ∧
    (os_abs w').(objs) !! o = Some (say (started ++ fork_failed) c)) ∧
  (∀ forks', more = 0 :: forks' → ∃ w' r, ends w init_main w' 1 ∧ (os_abs w').(fds) = {[2 := o; 1 := o; 0 := o]} ∧
    (os_abs w').(forks) = forks' ∧ (os_abs w').(waits) = [] ∧
    (os_abs w').(acts) = ready ++ [act (Exec (bytes_of "sh") [bytes_of "sh"]) r] ∧
    (os_abs w').(objs) !! o = Some (say (started ++ exec_failed) c)).
Proof.
  intros Hfd Hc Ho Hr Hf Hw ready started. destruct (init_setup w o Hfd Hc) as (w1 & He & Hf1 & Ho1 & Hk1 & Hw1 & Ha1).
  assert (Hc1 : chan_of (os_abs w1) 1 = Some (o, c)).
  { unfold chan_of. rewrite Hf1, Ho1. change ({[2 := o; 1 := o; 0 := o]} !! 1) with (Some o). cbn [mbind option_bind]. by rewrite Ho. }
  destruct (init_lives w1 rounds more o c) as (w2 & R2 & E2); [done|done|congruence|congruence|].
  assert (Hc2 : chan_of (os_abs w2) 1 = Some (o, say (concat (replicate (length rounds) starting)) c)).
  { rewrite E2. exact (chan_sends _ _ _ _ _ Hc1). }
  assert (Hs : ∀ m, say m (say starting (say (concat (replicate (length rounds) starting)) c)) = say (started ++ m) c).
  { intros m. unfold say, started. cbn [c_in c_out c_whole c_stat]. rewrite replicate_S_end, concat_app. cbn [concat].
    by rewrite app_nil_r, <- !app_assoc. }
  split.
  - intros ->. destruct (init_no_fork w2 o _ Hc2) as (w3 & R3 & E3); [by rewrite E2|]. exists w3.
    split; [apply He; unfold ends; rewrite R2; exact R3|]. rewrite E3, <- sends_app, E2. do 4 (split; [done|]).
    cbn. by rewrite !lookup_alter_eq, Ho1, Ho, <- Hs.
  - intros forks' ->. destruct (init_child w2 o _ forks' Hc2) as (w3 & r & R3 & E3); [by rewrite E2|]. exists w3, r.
    split; [apply He; unfold ends; rewrite R2; exact R3|]. rewrite E3, E2. do 3 (split; [done|]). split; [cbn; by rewrite Ha1|].
    cbn. by rewrite !lookup_alter_eq, Ho1, Ho, <- Hs.
Qed.

(** *** echo, rm, mkdir *)

(** The words of a line, with spaces between them. *)
Fixpoint words_line (l : list (list Z)) : list Z :=
  match l with
  | [] => []
  | [a] => a ++ [10]
  | a :: l => a ++ [32] ++ words_line l
  end.

Lemma echo_writes w l o c : chan_of (os_abs w) 1 = Some (o, c) →
  ∃ w', returns w (echo_loop l) w' () ∧ os_abs w' = sends o (words_line l) (os_abs w).
Proof.
  revert w c. induction l as [|a l IH]; intros w c Hc.
  - exists w. split; [apply returns_ret|by rewrite sends_nil].
  - cbn [echo_loop]. destruct (returns_write w 1 a o c Hc) as (w1 & R1 & E1).
    assert (Hc1 : chan_of (os_abs w1) 1 = Some (o, say a c)) by (rewrite E1; by apply chan_sends).
    set (sep := if negb (length l =? 0)%nat then [32] else [10]).
    destruct (returns_write w1 1 sep o _ Hc1) as (w2 & R2 & E2).
    destruct (IH w2 (say sep (say a c))) as (w3 & R3 & E3); [rewrite E2; by apply chan_sends|].
    exists w3. split.
    + eapply returns_bind; [exact R1|]. eapply returns_bind; [|exact R3]. unfold sep in R2. destruct (negb _); exact R2.
    + rewrite E3, E2, E1, !sends_app. f_equal. unfold sep. destruct l as [|b l]; cbn; by rewrite <- ?app_assoc, ?app_nil_r.
Qed.

(** echo prints its arguments on one line. *)
Lemma echo_prints w name l o c : chan_of (os_abs w) 1 = Some (o, c) →
  ∃ w', ends w (echo_main (name :: l)) w' 0 ∧ os_abs w' = sends o (words_line l) (os_abs w).
Proof.
  intros Hc. destruct (echo_writes w l o c Hc) as (w' & R & E). exists w'. split; [|done]. eapply ends_bind; [exact R|apply ends_exit].
Qed.

(** The calls of rm and mkdir: [e] is only recorded. *)
Definition recorded (e : list Z → sysE Z) : Prop := ∀ x a r a', sys_spec (e x) a r a' → a' = did (e x) r a.
Definition did_all (e : list Z → sysE Z) (l : list (list Z)) (rs : list Z) (a : os) : os :=
  foldl (λ a x, did (e x.1) x.2 a) a (zip l rs).

Definition attempt (e : list Z → sysE Z) (msg : String.string) (x : list Z) : prog bool :=
  r ← call (e x); if r <? 0 then fprintf 2 msg [Vs x] ;; mret false else mret true.

(** Either every call succeeds, or the first that fails is the last, and is
    reported on descriptor 2, which stands for [o]. *)
Definition attempted (e : list Z → sysE Z) (msg : String.string) (o : nat) (l : list (list Z)) (a a' : os) : Prop :=
  ∃ rs, Forall (λ r, 0 ≤ r) rs ∧
    (length rs = length l ∧ a' = did_all e l rs a ∨
     ∃ pre x rest r, l = pre ++ x :: rest ∧ length rs = length pre ∧ r < 0 ∧
       a' = sends o (fprintf_bytes msg [Vs x]) (did (e x) r (did_all e pre rs a))).

Lemma attempts_done e msg w l o c : recorded e → chan_of (os_abs w) 2 = Some (o, c) →
  ∃ w', returns w (each_while l (attempt e msg)) w' () ∧ attempted e msg o l (os_abs w) (os_abs w').
Proof.
  intros He. revert w. induction l as [|x l IH]; intros w Hc.
  - exists w. split; [apply returns_ret|]. exists []. split; [done|]. by left.
  - pose proof (He x _ _ _ (os_meets _ (e x) w)) as E1. set (w1 := (os_call _ (e x) w).1) in E1. set (r := (os_call _ (e x) w).2) in E1.
    assert (R1 : returns w (call (e x)) w1 r) by apply returns_call. assert (Hc1 : chan_of (os_abs w1) 2 = Some (o, c)) by (by rewrite E1).
    cbn [each_while]. destruct (Z.ltb_spec r 0) as [Hr|Hr].
    + destruct (returns_putcs w1 2 (fprintf_bytes msg [Vs x]) o c Hc1) as (w2 & R2 & E2). exists w2. split; [|exists []; split; [done|right]].
      * eapply (returns_bind w w2 w2 _ false); [|apply returns_ret]. eapply returns_bind; [exact R1|]. rewrite (proj2 (Z.ltb_lt r 0)) by done.
        eapply returns_bind; [exact R2|apply returns_ret].
      * exists [], x, l, r. split; [done|]. split; [done|]. split; [done|]. by rewrite E2, E1.
    + destruct (IH w1 Hc1) as (w2 & R2 & rs & Hrs & Hcase). exists w2. split; [|exists (r :: rs); split; [by constructor|]].
      * eapply (returns_bind w w1 w2 _ true); [|exact R2]. eapply returns_bind; [exact R1|]. rewrite (proj2 (Z.ltb_ge r 0)) by done. apply returns_ret.
      * destruct Hcase as [[Hn E2]|(pre & y & rest & r' & -> & Hn & Hr' & E2)].
        -- left. cbn. split; [lia|]. by rewrite E2, E1.
        -- right. exists (x :: pre), y, rest, r'. split; [done|]. cbn. split; [lia|]. split; [done|]. by rewrite E2, E1.
Qed.

(** rm and mkdir make their call for each argument in turn, up to the first
    that fails. *)
Lemma rm_removes w name l o c : l ≠ [] → chan_of (os_abs w) 2 = Some (o, c) →
  ∃ w', ends w (rm_main (name :: l)) w' 0 ∧ attempted Unlink (line "rm: %s failed to delete") o l (os_abs w) (os_abs w').
Proof.
  intros Hl Hc. destruct (attempts_done Unlink (line "rm: %s failed to delete") w l o c) as (w' & R & Ha); [by intros ? ? ? ? ?|done|].
  exists w'. split; [|done]. unfold rm_main. rewrite (proj2 (Z.ltb_ge _ _)) by (destruct l; [done|unfold argc; cbn; lia]).
  eapply ends_bind; [exact R|apply ends_exit].
Qed.
Lemma mkdir_makes w name l o c : l ≠ [] → chan_of (os_abs w) 2 = Some (o, c) →
  ∃ w', ends w (mkdir_main (name :: l)) w' 0 ∧ attempted Mkdir (line "mkdir: %s failed to create") o l (os_abs w) (os_abs w').
Proof.
  intros Hl Hc. destruct (attempts_done Mkdir (line "mkdir: %s failed to create") w l o c) as (w' & R & Ha); [by intros ? ? ? ? ?|done|].
  exists w'. split; [|done]. unfold mkdir_main. rewrite (proj2 (Z.ltb_ge _ _)) by (destruct l; [done|unfold argc; cbn; lia]).
  eapply ends_bind; [exact R|apply ends_exit].
Qed.

(** *** forktest *)

Lemma fork_all w pids k n : Forall (λ pid, 0 < pid) pids → (length pids < k)%nat → (os_abs w).(forks) = pids →
  ∃ w', returns w (fork_loop k n) w' (n + Z.of_nat (length pids)) ∧ os_abs w' = set_forks (λ _, []) (os_abs w).
Proof.
  intros Hp. revert w k n. induction Hp as [|pid pids Hpid _ IH]; intros w [|k] n Hk Hf; cbn [length] in Hk; try lia.
  - destruct (returns_fork w) as (w1 & R1 & E1). rewrite Hf in R1. exists w1. split; [|rewrite E1; unfold set_forks; by rewrite Hf].
    cbn [fork_loop]. eapply returns_bind; [exact R1|]. cbn [length head default Z.of_nat]. rewrite Z.add_0_r. apply returns_ret.
  - destruct (returns_fork_next w pid pids Hf) as (w1 & R1 & E1).
    destruct (IH w1 k (n + 1)) as (w2 & R2 & E2); [lia|by rewrite E1|]. exists w2. split; [|by rewrite E2, E1].
    cbn [fork_loop]. eapply returns_bind; [exact R1|]. rewrite (proj2 (Z.ltb_ge pid 0)), (proj2 (Z.eqb_neq pid 0)) by lia.
    cbn [length]. replace (n + Z.of_nat (S (length pids))) with (n + 1 + Z.of_nat (length pids)) by lia. exact R2.
Qed.

Lemma wait_all w l rest : Forall (λ x : Z * Z, 0 ≤ x.1) l → (os_abs w).(waits) = l ++ rest →
  ∃ w', returns w (wait_loop (length l)) w' () ∧ os_abs w' = set_waits (λ _, rest) (os_abs w).
Proof.
  intros Hl. revert w. induction Hl as [|[pid st] l Hx _ IH]; intros w Hw.
  - exists w. split; [apply returns_ret|]. cbn in Hw. rewrite <- Hw. by destruct (os_abs w).
  - destruct (returns_wait_next w _ _ Hw) as (w1 & R1 & E1).
    destruct (IH w1) as (w2 & R2 & E2); [by rewrite E1|]. exists w2. split; [|by rewrite E2, E1].
    cbn [length wait_loop]. eapply returns_bind; [exact R1|]. cbn in Hx |- *. by rewrite (proj2 (Z.ltb_ge pid 0)) by lia.
Qed.

(** On a system with room for fewer than 1000 processes, each of which can be
    waited for once, forktest succeeds. *)
Lemma forktest_ok w pids o c : chan_of (os_abs w) 1 = Some (o, c) → Forall (λ pid, 0 < pid) pids → (length pids < 1000)%nat →
  (os_abs w).(forks) = pids → length (os_abs w).(waits) = length pids → Forall (λ x, 0 ≤ x.1) (os_abs w).(waits) →
  ∃ w', ends w forktest_main w' 0 ∧ (os_abs w').(forks) = [] ∧ (os_abs w').(waits) = [] ∧
    (os_abs w').(objs) = (sends o (bytes_of (line "fork test") ++ bytes_of (line "fork test OK")) (os_abs w)).(objs).
Proof.
  intros Hc Hp Hn Hf Hlen Hw. destruct (returns_write w 1 (bytes_of (line "fork test")) o c Hc) as (w1 & R1 & E1).
  destruct (fork_all w1 pids 1000 0) as (w2 & R2 & E2); [done|done|by rewrite E1|]. rewrite E1 in E2.
  destruct (wait_all w2 (os_abs w).(waits) []) as (w3 & R3 & E3); [done|rewrite E2; by rewrite app_nil_r|]. rewrite E2 in E3.
  destruct (returns_wait w3) as (w4 & R4 & E4). rewrite E3 in R4, E4.
  destruct (returns_write w4 1 (bytes_of (line "fork test OK")) o (say (bytes_of (line "fork test")) c)) as (w5 & R5 & E5).
  { rewrite E4. exact (chan_sends _ _ _ _ _ Hc). }
  exists w5. split; [|split; [by rewrite E5, E4|split; [by rewrite E5, E4|]]].
  - unfold forktest_main. eapply (ends_bind w w5 w5 _ ()); [|apply ends_exit]. unfold forktest, print.
    eapply (returns_bind w w1 w5 _ ()); [eapply returns_bind; [exact R1|apply returns_ret]|]. eapply returns_bind; [exact R2|].
    rewrite (proj2 (Z.eqb_neq _ 1000)) by lia. rewrite Z.add_0_l, Nat2Z.id, <- Hlen.
    eapply returns_bind; [exact R3|]. eapply returns_bind; [exact R4|]. cbn -[bytes_of line]. eapply returns_bind; [exact R5|apply returns_ret].
  - rewrite E5, E4. change (objs (sends o (bytes_of (line "fork test OK")) (sends o (bytes_of (line "fork test")) (os_abs w))) =
      objs (sends o (bytes_of (line "fork test") ++ bytes_of (line "fork test OK")) (os_abs w))). by rewrite sends_app.
Qed.

(** *** forphan and dorphan *)

Lemma sit_step w : let w1 := (os_call _ (Pause 1000) w).1 in eq_itree eq (on w sit_around) (Tau (Tau (on w1 sit_around))).
Proof.
  intros w1. unfold sit_around. name_body body. remember (on w1 (loop body ())) as r eqn:Er.
  unfold loop, on. rewrite unfold_iter, interp_state_bind.
  unfold body at 1. unfold mbind, prog_bind. rewrite interp_state_bind. unfold call. rewrite interp_state_trigger_eqit.
  cbn. rewrite !bind_bind, bind_ret_l, !bind_tau, !bind_ret_l. unfold mret, prog_ret. rewrite interp_state_ret, bind_ret_l. cbn.
  rewrite interp_state_tau, Er. reflexivity.
Qed.

(** Once the orphan is made, they never end. *)
Lemma sit_spins w : eutt eq (on w sit_around) ITree.spin.
Proof.
  revert w. einit. ecofix CIH. intros w. rewrite (sit_step w). rewrite (itree_eta ITree.spin). cbn. etau.
  rewrite (itree_eta ITree.spin). cbn. etau.
Qed.

(** *** ls *)

(** An entry of a directory: an inode number and the bytes of a name. *)
Definition entry_bytes (e : Z * list Z) : list Z := to_le 2 e.1 ++ e.2.
Definition entry_wf (e : Z * list Z) : Prop := 0 ≤ e.1 < 65536 ∧ length e.2 = 14%nat ∧ 47 ∉ e.2.
Definition entry_path (path : list Z) (e : Z * list Z) : list Z := path ++ [47] ++ cstr e.2.

(** A name, with blanks up to 14 characters. *)
Definition pad (n : list Z) : list Z := n ++ replicate (14 - length n) 32.

Definition ls_line (name : list Z) (st : stat) : list Z :=
  fprintf_bytes (line "%s %d %d %d") [Vs (pad name); Vint st.(st_type); Vint st.(st_ino); Vint (s32 st.(st_size))].

(** What ls prints for an entry. *)
Definition ls_entry (a : os) (path : list Z) (e : Z * list Z) : list Z :=
  if e.1 =? 0 then [] else
  match stat_of a (entry_path path e) with
  | Some st => ls_line (cstr e.2) st
  | None => fprintf_bytes (line "ls: cannot stat %s") [Vs (entry_path path e)]
  end.

Lemma name_start_slash (d n : list Z) j : let path := d ++ [47] ++ n in
  47 ∉ n → (length d < j ≤ S (length path))%nat → name_start path j = S (length d).
Proof.
  intros path Hn. unfold path. induction j as [|j IH]; intros Hj; [lia|]. cbn [name_start].
  destruct (decide (j = length d)) as [->|Hne].
  - rewrite lookup_app_r, Nat.sub_diag by done. done.
  - rewrite lookup_app_r by lia. destruct (j - length d)%nat as [|i] eqn:Ei; [lia|]. cbn [app lookup list_lookup].
    rewrite !length_app in *. cbn [length] in *. rewrite (proj2 (Z.eqb_neq _ 47)); [apply IH; lia|].
    destruct (n !! i) as [x|] eqn:E; [|done]. cbn. intros ->. apply Hn. by eapply list_elem_of_lookup_2.
Qed.

Lemma fmtname_last d n : 47 ∉ n → (length n ≤ 14)%nat → fmtname (d ++ [47] ++ n) = pad n.
Proof.
  intros Hn Hl. unfold fmtname. rewrite name_start_slash by (rewrite ?length_app; cbn; lia || done).
  replace (drop (S (length d)) (d ++ [47] ++ n)) with n.
  2: { rewrite (app_assoc d). rewrite drop_app_length'; [done|]. rewrite length_app. cbn. lia. }
  unfold pad, DIRSIZ. destruct (Z.leb_spec 14 (Z.of_nat (length n))); [|done].
  replace (14 - length n)%nat with 0%nat by lia. by rewrite app_nil_r.
Qed.

Lemma cstr_sub l : (length (cstr l) ≤ length l)%nat ∧ ∀ x, x ∈ cstr l → x ∈ l.
Proof.
  induction l as [|b l [IH1 IH2]]; [done|]. cbn. destruct (b =? 0); cbn; [split; [lia|by intros x ?%elem_of_nil]|].
  split; [lia|]. intros x [->|Hx]%elem_of_cons; [by left|right; by apply IH2].
Qed.

Lemma entry_name path e : entry_wf e → fmtname (entry_path path e) = pad (cstr e.2).
Proof.
  intros (_ & Hl & Hs). destruct (cstr_sub e.2) as [H1 H2]. apply fmtname_last; [|lia]. intros H. by apply Hs, H2.
Qed.

Lemma entry_inum e : entry_wf e → of_le (take 2 (entry_bytes e)) = e.1.
Proof.
  intros [Hi _]. unfold entry_bytes. rewrite take_app_length' by (by rewrite length_to_le). rewrite of_le_to_le. apply Z.mod_small. cbn. lia.
Qed.

Lemma ls_prints_entry w path e o c : entry_wf e → is_Some (lowest_fd (os_abs w).(fds)) → devs_ok (os_abs w) →
  chan_of (os_abs w) 1 = Some (o, c) → e.1 ≠ 0 →
  ∃ w', returns w ('(r, st) ← stat_call (entry_path path e);
      (if r <? 0 then printf (line "ls: cannot stat %s") [Vs (entry_path path e)] else ls_print (entry_path path e) st) ;;
      mret (inl () : () + ())) w' (inl ()) ∧ os_abs w' = sends o (ls_entry (os_abs w) path e) (os_abs w).
Proof.
  intros He Hl Hd Hc Hi. unfold ls_entry. rewrite (proj2 (Z.eqb_neq _ _) Hi).
  destruct (returns_stat w (entry_path path e) Hl Hd) as (w1 & R1 & E1). rewrite <- E1 in Hc.
  destruct (stat_of (os_abs w) (entry_path path e)) as [st|]; [|destruct R1 as [st R1]].
  - destruct (returns_printf w1 (line "%s %d %d %d") [Vs (fmtname (entry_path path e)); Vint st.(st_type); Vint st.(st_ino); Vint (s32 st.(st_size))] o c Hc)
      as (w2 & R2 & E2). exists w2. rewrite (entry_name path e He) in E2. split; [|by rewrite E2, E1]. eapply returns_bind; [exact R1|]. cbn [Z.ltb Z.compare].
    eapply returns_bind; [exact R2|apply returns_ret].
  - destruct (returns_printf w1 (line "ls: cannot stat %s") [Vs (entry_path path e)] o c Hc) as (w2 & R2 & E2). exists w2. split; [|by rewrite E2, E1].
    eapply returns_bind; [exact R1|]. cbn [Z.ltb Z.compare]. eapply returns_bind; [exact R2|apply returns_ret].
Qed.

Lemma ls_entry_moved a path f o : (∀ c, (f c).(c_stat) = c.(c_stat) ∧ (f c).(c_whole) = c.(c_whole)) →
  ∀ e, ls_entry (set_objs (alter f o) a) path e = ls_entry a path e.
Proof. intros Hf e. unfold ls_entry. by rewrite (proj1 (objs_moved a f o Hf)). Qed.

Lemma ls_reads w path fd es o c o1 c1 : Forall entry_wf es → is_Some (lowest_fd (os_abs w).(fds)) → devs_ok (os_abs w) →
  chan_of (os_abs w) fd = Some (o, c) → c.(c_whole) = true → c.(c_in) = concat (entry_bytes <$> es) → chan_of (os_abs w) 1 = Some (o1, c1) →
  ∃ w', returns w (ls_dir fd path) w' () ∧
    os_abs w' = sends o1 (concat (ls_entry (os_abs w) path <$> es)) (takes o (length c.(c_in)) (os_abs w)).
Proof.
  intros He. revert w c c1. unfold ls_dir. name_body body. induction He as [|e es He _ IH]; intros w c c1 Hl Hd Hc Hwh Hin H1;
    destruct (returns_read w fd SIZEOF_DE o c Hc) as (w1 & k & (_ & _ & _ & Hk) & R1 & E1); specialize (Hk Hwh); rewrite Hin in *.
  - cbn in Hk. subst k. exists w1. split; [|cbn; by rewrite sends_nil]. apply returns_last. unfold body.
    eapply returns_bind; [exact R1|apply returns_ret].
  - assert (Hlen : length (entry_bytes e) = 16%nat) by (unfold entry_bytes; rewrite length_app, length_to_le, (proj1 (proj2 He)); lia).
    cbn [fmap list_fmap concat] in *. rewrite length_app, Hlen in Hk. assert (k = 16%nat) as -> by (unfold SIZEOF_DE in Hk; lia).
    rewrite take_app_length' in R1 by done.
    pose proof (objs_moved (os_abs w) (eat 16) o (λ c, conj eq_refl eq_refl)) as [_ Heat].
    assert (Hstep : ∃ w2, returns w (body ()) w2 (inl ()) ∧ os_abs w2 = sends o1 (ls_entry (os_abs w) path e) (takes o 16 (os_abs w))).
    { destruct (Z.eq_dec e.1 0) as [Hz|Hz].
      - exists w1. unfold ls_entry. rewrite Hz, sends_nil. split; [|done]. unfold body. eapply returns_bind; [exact R1|]. cbn [fst snd].
        rewrite (entry_inum e He), Hz. apply returns_ret.
      - destruct (ls_prints_entry w1 path e o1 (if decide (o1 = o) then eat 16 c1 else c1)) as (w2 & R2 & E2); try done.
        { by rewrite E1. } { rewrite E1. by apply Heat. } { rewrite E1. unfold takes. by rewrite chan_alter, H1. }
        exists w2. split.
        + unfold body. eapply returns_bind; [exact R1|]. cbn [fst snd]. rewrite (entry_inum e He), (proj2 (Z.eqb_neq _ _) Hz).
          replace (cstr (drop 2 (entry_bytes e))) with (cstr e.2); [exact R2|]. unfold entry_bytes. by rewrite drop_app_length' by (by rewrite length_to_le).
        + rewrite E2, E1. f_equal. by apply ls_entry_moved. }
    destruct Hstep as (w2 & R2 & E2).
    destruct (chan_moved (os_abs w) fd 1 o c o1 c1 16 (ls_entry (os_abs w) path e) Hc H1) as (c2 & c3 & Hc2 & Hin2 & H3).
    rewrite <- E2 in Hc2, H3.
    assert (Hwh2 : c2.(c_whole) = true).
    { rewrite E2 in Hc2. unfold sends, takes in Hc2. rewrite !chan_alter, Hc in Hc2. cbn in Hc2. injection Hc2 as <-. by repeat case_decide. }
    assert (Hd2 : devs_ok (os_abs w2)) by (rewrite E2; apply objs_moved; [done|by apply Heat]).
    rewrite Hin, drop_app_length' in Hin2 by done. destruct (IH w2 c2 c3) as (w3 & R3 & E3); try done; [by rewrite E2|].
    exists w3. split; [by eapply returns_round|]. rewrite E3, E2, Hin2. rewrite <- sends_takes, takes_add, sends_app, length_app, Hlen.
    do 3 f_equal. apply list_fmap_ext. intros i e' _. unfold sends, takes. by rewrite !ls_entry_moved.
Qed.

(** There is room for two more descriptors. *)
Definition two_free (m : gmap Z nat) : Prop := ∃ fd, lowest_fd m = Some fd ∧ ∀ o, is_Some (lowest_fd (<[fd := o]> m)).

(** C34. ls of a directory prints a line for each entry that is in use, in
    order: the name, padded to 14 characters, and the type, the inode number
    and the size that stat reports of it, or that stat fails. *)
Theorem ls_lists w name path es st o1 c1 :
  (os_abs w).(names) !! (path, O_RDONLY) = Some (Tfile (concat (entry_bytes <$> es)) st) → st.(st_type) = T_DIR →
  Forall entry_wf es → Z.of_nat (length path) ≤ 496 → devs_ok (os_abs w) → two_free (os_abs w).(fds) → chan_of (os_abs w) 1 = Some (o1, c1) →
  ∃ w', ends w (ls_main [name; path]) w' 0 ∧ os_abs w' = sends o1 (concat (ls_entry (os_abs w) path <$> es)) (os_abs w).
Proof.
  intros Hn Hst He Hp Hd (fd & Hl & Hl2) H1.
  destruct (opened_file w path _ st fd o1 c1 Hn Hl H1) as (wa & o & Ra & Ho & Ea & Hc & H1' & Hback).
  destruct (objs_opened (os_abs w) fd o (mk_chan (concat (entry_bytes <$> es)) [] true st) Ho Hd) as [Hsame Hd'].
  destruct (returns_fstat wa fd o _ Hc) as (wb & Rb & Eb). rewrite <- Eb in Hc, H1', Hback. rewrite Ea in Eb. rewrite <- Eb in Hsame, Hd'.
  assert (Hlb : is_Some (lowest_fd (os_abs wb).(fds))) by (rewrite Eb; apply Hl2).
  destruct (ls_reads wb path fd es o _ o1 c1 He Hlb Hd' Hc eq_refl eq_refl H1') as (wc & Rc & Ec).
  destruct (Hback wc _ _ Ec) as (wd & Rd & Ed). exists wd. split.
  - unfold ls_main. cbn [argc args tail length each]. eapply (ends_bind w wd wd _ ()); [|apply ends_exit].
    eapply (returns_bind w wd wd _ ()); [|apply returns_ret]. unfold ls.
    eapply returns_bind; [exact Ra|]. rewrite (proj2 (Z.ltb_ge fd 0)) by (by eapply lowest_fd_spec).
    eapply returns_bind; [exact Rb|]. cbn [fst snd c_stat Z.ltb Z.compare]. rewrite Hst. cbn [Z.eqb T_DIR T_DEVICE T_FILE orb Pos.eqb].
    rewrite (proj2 (Z.ltb_ge 512 _)) by (unfold DIRSIZ; lia). eapply returns_bind; [exact Rc|].
    eapply returns_bind; [exact Rd|apply returns_ret].
  - rewrite Ed. do 2 f_equal. apply list_fmap_ext. intros i e _. unfold ls_entry. by rewrite Hsame.
Qed.
End specs.

(** ** A system with two files *)

Definition no_stat : stat := mk_stat 0 0 0 0 0.
Definition tty (input : list Z) : chan := mk_chan input [] false no_stat.
Definition demo_os (input : list Z) : os :=
  mk_os {[0 := 0%nat; 1 := 0%nat; 2 := 0%nat]} {[0%nat := tty input]}
    {[([97], O_RDONLY) := Tfile [104; 105] no_stat; ([98], O_RDONLY) := Tfile [10] no_stat]} ∅ [] [] [].

(** Both files, and then one that is not there. *)
Lemma cat_copies_witness : let w := mk_sim (demo_os [120; 121]) [] in
  (∃ w', ends w (cat_main [[99]; [97]; [98]]) w' 0 ∧ w'.(sim_os) = sends 0 [104; 105; 10] w.(sim_os)) ∧
  (∃ w', ends w (cat_main [[99]; [97]; [98]; [122]]) w' 1) ∧
  ∃ w', ends w (cat_main [[99]]) w' 0 ∧ w'.(sim_os) = sends 0 [120; 121] (takes 0 2 w.(sim_os)).
Proof.
  intros w. destruct (cat_copies w [99] [([97], [104; 105]); ([98], [10])] 0 (tty [120; 121])) as (Ha & Hb & Hc).
  - exact eq_refl.
  - repeat constructor; by exists no_stat.
  - by eexists.
  - split; [exact (Ha ltac:(done))|]. split.
    + destruct (Hc [122] [] 0%nat (tty [120; 121]) eq_refl eq_refl) as (w' & R & _). exists w'. exact R.
    + exact (Hb 0%nat (tty [120; 121]) eq_refl).
Defined.

(** First boot: no console yet, two shells, an orphan in between. *)
Lemma init_respawns_witness :
  let w := λ forks, mk_sim (mk_os ∅ {[0%nat := tty []]} ∅ {[1 := 0%nat]} forks [(4, 0); (3, 0); (5, 0)] []) [] in
  (∃ w', ends (w [3; 5]) init_main w' 1 ∧ w'.(sim_os).(waits) = [] ∧
    w'.(sim_os).(objs) !! 0%nat = Some (say (starting ++ starting ++ starting ++ fork_failed) (tty []))) ∧
  ∃ w' r, ends (w [3; 5; 0]) init_main w' 1 ∧ last w'.(sim_os).(acts) = Some (act (Exec [115; 104] [[115; 104]]) r).
Proof.
  intros w.
  assert (Hl : Forall life_ok [mk_life 3 [(4, 0)] 0; mk_life 5 [] 0]).
  { constructor; [|constructor; [|constructor]]; (split; [cbn; lia|]); repeat constructor; cbn; lia. }
  assert (Hc : ∀ forks, console_ready (os_abs (w forks)) 0) by (intros forks; right; split; exact eq_refl). split.
  - destruct (init_respawns (w [3; 5]) [mk_life 3 [(4, 0)] 0; mk_life 5 [] 0] [] 0 (tty [])) as [H _]; try exact eq_refl; [apply Hc|exact Hl|].
    destruct (H eq_refl) as (w' & R & _ & _ & Hw & _ & Ho). exists w'. split; [exact R|]. split; [exact Hw|exact Ho].
  - destruct (init_respawns (w [3; 5; 0]) [mk_life 3 [(4, 0)] 0; mk_life 5 [] 0] [0] 0 (tty [])) as [_ H]; try exact eq_refl; [apply Hc|exact Hl|].
    destruct (H [] eq_refl) as (w' & r & R & _ & _ & _ & Ha & _). exists w', r. split; [exact R|]. change (sim_os w') with (os_abs w').
    rewrite Ha. apply last_snoc.
Defined.

(** A root directory with a free entry, a file "a" and a file that is gone. *)
Definition ls_names : gmap (list Z * Z) target :=
  let name := λ c : Z, c :: replicate 13 0 in
  {[([46], O_RDONLY) := Tfile (concat (entry_bytes <$> [(1, name 97); (0, name 98); (3, name 99)])) (mk_stat 1 1 T_DIR 1 48);
    ([46; 47; 97], O_RDONLY) := Tfile [104; 105] (mk_stat 1 1 T_FILE 1 2)]}.

Lemma ls_lists_witness :
  let w := mk_sim (mk_os {[0 := 0%nat; 1 := 0%nat; 2 := 0%nat]} {[0%nat := tty []]} ls_names ∅ [] [] []) [] in
  ∃ w', ends w (ls_main [[108; 115]; [46]]) w' 0 ∧
    w'.(sim_os) = sends 0 (bytes_of (line "a              2 1 2") ++ bytes_of (line "ls: cannot stat ./c")) w.(sim_os).
Proof.
  intros w. set (name := λ c : Z, c :: replicate 13 0).
  destruct (ls_lists w [108; 115] [46] [(1, name 97); (0, name 98); (3, name 99)] (mk_stat 1 1 T_DIR 1 48) 0 (tty [])) as (w' & R & E).
  - by vm_compute.
  - exact eq_refl.
  - repeat constructor; cbn; try lia; apply (bool_decide_unpack _); by vm_compute.
  - cbn. lia.
  - intros key o Ho. exists (tty []). revert Ho. unfold w, ls_names. cbn [os_abs sim_spec sim_os names]. 
    intros Ho. exfalso. apply lookup_insert_Some in Ho as [[_ ?]|[_ Ho]]; [done|]. by apply lookup_singleton_Some in Ho as [_ ?].
  - exists 3. split; [by vm_compute|]. intros o. exists 4. by vm_compute.
  - exact eq_refl.
  - exists w'. split; [exact R|]. change (sim_os w') with (os_abs w'). rewrite E. by vm_compute.
Defined.
