(* ===== verification/Filters.v ===== *)
(** Programs that read a stream in pieces: user/grep.c, without its matcher,
    and user/wc.c.  How the kernel cuts the stream into reads does not matter. *)

From S2P Require Import Prelude Kstate Printf Ulib UserSys UserProgs Grep.
Local Open Scope Z_scope.

(** ** grep *)
Definition nl : Z := 10.

(** sizeof(buf) *)
Definition BUFSZ : nat := 1024.

(** [strchr(p, '\n')] on a NUL-terminated string: the text before the newline
    and the text after it. *)
Fixpoint split_nl (p : list Z) : option (list Z * list Z) :=
  match p with
  | [] => None
  | c :: p =>
      if c =? 0 then None
      else if c =? nl then Some ([], p)
      else '(l, r) ← split_nl p; Some (c :: l, r)
  end.

(** The inner loop; the result is the bytes kept from [p] on. *)
Fixpoint grep_lines (n : nat) (pattern p : list Z) : prog (list Z) :=
  match n, split_nl p with
  | S n, Some (line, p) =>
      (if match_ pattern line then call (Write 1 (line ++ [nl])) ;; mret () else mret ()) ;;
      grep_lines n pattern p
  | _, _ => mret p
  end.

(** [kept] is buf[0..m). *)
Definition grep (pattern : list Z) (fd : Z) : prog unit :=
  loop (λ kept : list Z,
    '(n, got) ← call (Read fd (Z.of_nat BUFSZ - Z.of_nat (length kept) - 1));
    if 0 <? n then
      let buf := kept ++ got in
      kept ← grep_lines (length buf) pattern buf;
      mret (inl kept)
    else mret (inr ())) [].

Definition grep_main (argv : list (list Z)) : prog unit :=
  if argc argv <=? 1 then
    fprintf 2 (line "usage: grep pattern [file ...]") [] ;;
    exit 1
  else
  let pattern := argv !!! 1%nat in
  if argc argv <=? 2 then grep pattern 0 ;; exit 0 else
  each (drop 2 argv) (with_file
    (λ file, printf (line "grep: cannot open %s") [Vs file] ;; exit 1)
    (λ fd _, grep pattern fd)) ;;
  exit 0.

(** The reference: go through the input once, [line] being the current line
    so far. *)
Fixpoint matching_lines (pattern line input : list Z) : list Z * list Z :=
  match input with
  | [] => ([], line)
  | c :: input =>
      if c =? nl then
        let '(out, r) := matching_lines pattern [] input in
        ((if match_ pattern line then line ++ [nl] else []) ++ out, r)
      else matching_lines pattern (line ++ [c]) input
  end.

Lemma matching_app pat l a b : matching_lines pat l (a ++ b) =
  let '(o1, r1) := matching_lines pat l a in
  let '(o2, r2) := matching_lines pat r1 b in (o1 ++ o2, r2).
Proof.
  revert l. induction a as [|c a IH]; intros l; cbn; [by destruct (matching_lines pat l b)|].
  case_match; [|apply IH]. rewrite IH. destruct (matching_lines pat [] a) as [o1 r1].
  destruct (matching_lines pat r1 b). by rewrite app_assoc.
Qed.

Lemma matching_no_nl pat l a : nl ∉ a → matching_lines pat l a = ([], l ++ a).
Proof.
  revert l. induction a as [|c a IH]; intros l; cbn; [by rewrite app_nil_r|].
  intros [Hc Ha]%not_elem_of_cons. rewrite (proj2 (Z.eqb_neq c nl)) by done.
  rewrite IH by done. by rewrite <-app_assoc.
Qed.

(** What is kept has no newline, and is the end of what was read. *)
Lemma matching_kept pat l a : nl ∉ l →
  (nl ∉ (matching_lines pat l a).2) ∧ (∃ pre, l ++ a = pre ++ (matching_lines pat l a).2).
Proof.
  revert l. induction a as [|c a IH]; intros l Hl; cbn.
  - split; [done|]. exists []. by rewrite app_nil_r.
  - destruct (c =? nl) eqn:E; bool_hyps.
    + destruct (IH []) as [H1 [pre H2]]; [set_solver|]. destruct (matching_lines pat [] a) as [o r].
      split; [done|]. exists (l ++ [c] ++ pre). rewrite <-!app_assoc. by f_equal; cbn; f_equal.
    + destruct (IH (l ++ [c])) as [H1 [pre H2]]; [set_solver|]. split; [done|].
      exists pre. by rewrite <-H2, <-app_assoc.
Qed.

Lemma split_nl_app l r : 0 ∉ l → nl ∉ l → split_nl (l ++ nl :: r) = Some (l, r).
Proof.
  induction l as [|c l IH]; [done|]. intros [H0 H0']%not_elem_of_cons [Hn Hn']%not_elem_of_cons. cbn.
  rewrite (proj2 (Z.eqb_neq c 0)), (proj2 (Z.eqb_neq c nl)) by done. by rewrite IH.
Qed.

Lemma split_nl_none l : nl ∉ l → split_nl l = None.
Proof.
  induction l as [|c l IH]; [done|]. intros [Hn Hn']%not_elem_of_cons. cbn.
  case_match; [done|]. rewrite (proj2 (Z.eqb_neq c nl)) by done. by rewrite IH.
Qed.

Lemma first_nl (a : list Z) : nl ∉ a ∨ ∃ l r, a = l ++ nl :: r ∧ nl ∉ l.
Proof.
  induction a as [|c a [IH|(l & r & -> & Hl)]]; [left; set_solver| |];
    destruct (decide (c = nl)) as [->|Hc].
  - right. exists [], a. split; [done|set_solver].
  - left. set_solver.
  - right. exists [], (l ++ nl :: r). split; [done|set_solver].
  - right. exists (c :: l), r. split; [done|set_solver].
Qed.

(** The room in the buffer never runs out while lines are short. *)
Definition short_lines (input : list Z) : Prop :=
  ∀ a l b, input = a ++ l ++ b → nl ∉ l → (length l < BUFSZ - 1)%nat.

Section grep.
Context {W : Type} `{HO : Os W, HS : !OsSpec W}.

Lemma grep_lines_done n pat p w o c : 0 ∉ p → (length p ≤ n)%nat → chan_of (os_abs w) 1 = Some (o, c) →
  let '(out, r) := matching_lines pat [] p in
  ∃ w', returns w (grep_lines n pat p) w' r ∧ os_abs w' = sends o out (os_abs w).
Proof.
  revert p w c. induction n as [|n IH]; intros p w c H0 Hn Hc; destruct (first_nl p) as [Hp|(l & r & -> & Hl)].
  - rewrite matching_no_nl by done. exists w. split; [apply returns_ret|by rewrite sends_nil].
  - rewrite length_app in Hn. cbn in Hn. lia.
  - rewrite matching_no_nl by done. exists w. cbn [grep_lines]. rewrite split_nl_none by done. split; [apply returns_ret|by rewrite sends_nil].
  - rewrite matching_app, (matching_no_nl _ _ l) by done. cbn [matching_lines app]. rewrite Z.eqb_refl.
    rewrite length_app in Hn. cbn in Hn. cbn [grep_lines]. rewrite split_nl_app by set_solver.
    set (mine := if match_ pat l then l ++ [nl] else []).
    assert (∃ w1, returns w (if match_ pat l then call (Write 1 (l ++ [nl])) ;; mret () else mret ()) w1 () ∧ os_abs w1 = sends o mine (os_abs w))
      as (w1 & R1 & E1).
    { unfold mine. destruct (match_ pat l); [|exists w; split; [apply returns_ret|by rewrite sends_nil]].
      destruct (returns_write w 1 (l ++ [nl]) o c Hc) as (w1 & R1 & E1). exists w1. split; [|done]. eapply returns_bind; [exact R1|apply returns_ret]. }
    specialize (IH r w1 (say mine c)). destruct (matching_lines pat [] r) as [out r'].
    destruct IH as (w2 & R2 & E2); [set_solver|lia|rewrite E1; by apply chan_sends|].
    exists w2. split; [by eapply returns_bind|]. rewrite E2, E1, sends_app. done.
Qed.

Lemma grep_loop pat fd w pre kept o c o1 c1 : chan_of (os_abs w) fd = Some (o, c) → chan_of (os_abs w) 1 = Some (o1, c1) →
  0 ∉ kept ++ c.(c_in) → nl ∉ kept → short_lines (pre ++ kept ++ c.(c_in)) →
  ∃ w', returns w (loop (λ kept, '(n, got) ← call (Read fd (Z.of_nat BUFSZ - Z.of_nat (length kept) - 1));
      if 0 <? n then kept ← grep_lines (length (kept ++ got)) pat (kept ++ got); mret (inl kept) else mret (inr ())) kept) w' () ∧
    os_abs w' = sends o1 (matching_lines pat kept c.(c_in)).1 (takes o (length c.(c_in)) (os_abs w)).
Proof.
  name_body body. remember (length c.(c_in)) as n eqn:En. revert w c c1 pre kept En.
  induction n as [n IH] using lt_wf_ind. intros w c c1 pre kept -> Hc H1 H0 Hk Hs.
  pose proof (Hs pre kept c.(c_in) eq_refl Hk) as Hroom.
  destruct (returns_read w fd (Z.of_nat BUFSZ - Z.of_nat (length kept) - 1) o c Hc) as (w1 & k & (_ & Hkl & Hk0 & _) & R1 & E1).
  destruct (decide (k = 0%nat)) as [->|Hne].
  - rewrite (Hk0 eq_refl) in * by lia. exists w1. split; [|cbn; by rewrite sends_nil].
    apply returns_last. unfold body. eapply returns_bind; [exact R1|apply returns_ret].
  - pose proof (take_drop k c.(c_in)) as Hin. set (got := take k c.(c_in)) in *. set (rest := drop k c.(c_in)) in *.
    assert (Hlg : length got = k) by (unfold got; rewrite length_take; lia).
    rewrite <- Hin, app_assoc in H0. apply not_elem_of_app in H0 as [H0 H0'].
    assert (H1' : ∃ c1', chan_of (os_abs w1) 1 = Some (o1, c1')) by (rewrite E1; unfold takes; rewrite chan_alter, H1; by eexists).
    destruct H1' as [c1' H1']. pose proof (grep_lines_done (length (kept ++ got)) pat (kept ++ got) w1 o1 c1' H0 (le_n _) H1') as Hg.
    assert (Heq : matching_lines pat [] (kept ++ got) = matching_lines pat kept got).
    { rewrite matching_app, (matching_no_nl _ _ kept) by done. cbn [app]. by destruct (matching_lines pat kept got). }
    rewrite Heq in Hg.
    destruct (matching_kept pat kept got Hk) as [Hk' [pre' Hpre']].
    destruct (matching_lines pat kept got) as [out r] eqn:Em. cbn in Hk', Hpre'. destruct Hg as (w2 & R2 & E2).
    destruct (chan_moved (os_abs w) fd 1 o c o1 c1 k out Hc H1) as (c2 & c3 & Hc2 & Hin2 & H3). rewrite <- E1, <- E2 in Hc2, H3. fold rest in Hin2.
    destruct (IH (length c2.(c_in))) with (w := w2) (c := c2) (c1 := c3) (pre := pre ++ pre') (kept := r) as (w3 & R3 & E3); try done; rewrite ?Hin2.
    + unfold rest. rewrite length_drop. lia.
    + rewrite Hpre' in H0. apply not_elem_of_app in H0 as [_ H0]. by apply not_elem_of_app.
    + rewrite <- Hin in Hs. rewrite (app_assoc kept), Hpre' in Hs. by rewrite <- !app_assoc in Hs |- *.
    + exists w3. split.
      * eapply returns_round; [|exact R3]. unfold body. eapply returns_bind; [exact R1|]. cbn [fst snd].
        rewrite (proj2 (Z.ltb_lt 0 _)) by lia. eapply returns_bind; [exact R2|apply returns_ret].
      * rewrite E3, E2, E1, <- sends_takes, takes_add, sends_app, Hin2. rewrite <- Hin, (matching_app pat kept got rest), Em.
        rewrite length_app, Hlg. by destruct (matching_lines pat r rest).
Qed.

(** The input grep can filter: text, in lines that fit its buffer. *)
Definition text_ok (input : list Z) : Prop := (0 ∉ input) ∧ short_lines input.

Lemma grep_consumes pat : consumes (λ fd _, grep pat fd) text_ok (λ _ input, (matching_lines pat [] input).1).
Proof.
  intros w fd name o c o1 c1 Hc H1 [H0 Hs]. apply (grep_loop pat fd w [] [] o c o1 c1); try done. set_solver.
Qed.

(** C36. grep prints on descriptor 1 exactly the complete lines of the files it
    is given that match the pattern, in order, however the reads cut them, and
    ends with status 0; with a pattern alone it does so for descriptor 0.  The
    files must have no NUL bytes and their lines must be shorter than its
    buffer.  At a file it cannot open it has
    printed the lines of the files before it, says so and ends with status 1. *)
Theorem grep_prints w name pat l o1 c1 : chan_of (os_abs w) 1 = Some (o1, c1) → there (os_abs w) l → Forall (λ x, text_ok x.2) l →
  is_Some (lowest_fd (os_abs w).(fds)) → let out := concat ((λ x, (matching_lines pat [] x.2).1) <$> l) in
  (l ≠ [] → ∃ w', ends w (grep_main (name :: pat :: l.*1)) w' 0 ∧ os_abs w' = sends o1 out (os_abs w)) ∧
  (∀ o0 c0, chan_of (os_abs w) 0 = Some (o0, c0) → text_ok c0.(c_in) → ∃ w', ends w (grep_main [name; pat]) w' 0 ∧
    os_abs w' = sends o1 (matching_lines pat [] c0.(c_in)).1 (takes o0 (length c0.(c_in)) (os_abs w))) ∧
  (∀ f rest, (os_abs w).(names) !! (f, O_RDONLY) = None → ∃ w', ends w (grep_main (name :: pat :: l.*1 ++ f :: rest)) w' 1 ∧
    os_abs w' = sends o1 (out ++ fprintf_bytes (line "grep: cannot open %s") [Vs f]) (os_abs w)).
Proof.
  intros H1 Hl HP Hfd out. pose proof (grep_consumes pat) as Hg. set (err := λ file, printf (line "grep: cannot open %s") [Vs file] ;; (exit 1 : prog ())).
  split_and!.
  - intros Hne. destruct (returns_files w err _ _ _ _ _ _ Hg HP Hl Hfd H1) as (w' & R & E). exists w'. split; [|exact E].
    unfold grep_main. rewrite !(proj2 (Z.leb_gt _ _)) by (destruct l; [done|unfold argc; cbn; lia]). eapply ends_bind; [exact R|apply ends_exit].
  - intros o0 c0 H0 Ht. destruct (Hg w 0 name o0 c0 o1 c1 H0 H1 Ht) as (w' & R & E). exists w'. split; [|done].
    eapply ends_bind; [exact R|apply ends_exit].
  - intros f rest Hf. destruct (ends_files w err _ _ _ l f rest o1 c1 1
      (λ a, a = sends o1 (out ++ fprintf_bytes (line "grep: cannot open %s") [Vs f]) (os_abs w)) Hg HP Hl Hfd Hf H1) as (w' & R & E).
    + intros w1 E1. rewrite <- sends_app. change (file_outs _ l) with out in E1. rewrite <- E1. eapply ends_message. rewrite E1. by apply chan_sends.
    + exists w'. split; [|done]. unfold grep_main. rewrite !(proj2 (Z.leb_gt _ _)) by (unfold argc; cbn; rewrite length_app; cbn; lia). by apply ends_now.
Qed.
End grep.

(** Pattern [b], a file "ab\nc\nb\nb": its second line does not match, and its
    last is not complete.  The console, read two bytes at a time, gives one
    line. *)
Lemma grep_prints_witness :
  let input := [97; 98; 10; 99; 10; 98; 10; 98] in
  let w := mk_sim (mk_os {[0 := 0%nat; 1 := 0%nat]} {[0%nat := tty [98; 98; 98; 10]]} {[([102], O_RDONLY) := Tfile input no_stat]} ∅ [] [] [])
    (replicate 9 1%nat) in
  (∃ w', ends w (grep_main [[103]; [98]; [102]]) w' 0 ∧ w'.(sim_os) = sends 0 [97; 98; 10; 98; 10] w.(sim_os)) ∧
  ∃ w', ends w (grep_main [[103]; [98]]) w' 0 ∧ w'.(sim_os) = sends 0 [98; 98; 98; 10] (takes 0 4 w.(sim_os)).
Proof.
  intros input w.
  assert (Hok : ∀ i, i = input ∨ i = [98; 98; 98; 10] → text_ok i).
  { intros i Hi. split; [destruct Hi as [-> | ->]; apply (bool_decide_unpack _); by vm_compute|].
    intros a l b Hin _. apply (f_equal length) in Hin. rewrite !length_app in Hin. destruct Hi as [-> | ->]; cbn in Hin; unfold BUFSZ; lia. }
  destruct (grep_prints w [103] [98] [([102], input)] 0 (tty [98; 98; 98; 10])) as (Ha & Hb & _).
  - exact eq_refl.
  - repeat constructor. by exists no_stat.
  - constructor; [apply (Hok input); by left|constructor].
  - by eexists.
  - split; [exact (Ha ltac:(done))|]. exact (Hb 0%nat (tty [98; 98; 98; 10]) eq_refl (Hok _ (or_intror eq_refl))).
Defined.

(** ** wc *)

(** The state of the loop: lines, words, characters, inside a word. *)
Record counts : Type := mk_counts { wc_l : Z; wc_w : Z; wc_c : Z; inword : bool }.

Definition wc_white : list Z := [32; 13; 9; 10; 11].

Definition wc_char (t : counts) (ch : Z) : counts :=
  let c := s32 (t.(wc_c) + 1) in
  let l := if ch =? nl then s32 (t.(wc_l) + 1) else t.(wc_l) in
  if existsb (Z.eqb ch) wc_white then mk_counts l t.(wc_w) c false
  else if negb t.(inword) then mk_counts l (s32 (t.(wc_w) + 1)) c true
  else mk_counts l t.(wc_w) c t.(inword).

Definition wc (fd : Z) (name : list Z) : prog unit :=
  '(n, t) ← loop (λ t : counts,
    '(n, buf) ← call (Read fd 512);
    if 0 <? n then mret (inl (foldl wc_char t buf)) else mret (inr (n, t))) (mk_counts 0 0 0 false);
  if n <? 0 then
    printf (line "wc: read error") [] ;;
    exit 1
  else printf (line "%d %d %d %s") [Vint t.(wc_l); Vint t.(wc_w); Vint t.(wc_c); Vs name].

Definition wc_main (argv : list (list Z)) : prog unit :=
  if argc argv <=? 1 then wc 0 [] ;; exit 0 else
  each (args argv) (with_file
    (λ file, printf (line "wc: cannot open %s") [Vs file] ;; exit 1)
    wc) ;;
  exit 0.

(** The words of a text: its maximal runs without white space. *)
Fixpoint words (w text : list Z) : list (list Z) :=
  match text with
  | [] => if (length w =? 0)%nat then [] else [w]
  | ch :: text =>
      if existsb (Z.eqb ch) wc_white then (if (length w =? 0)%nat then [] else [w]) ++ words [] text
      else words (w ++ [ch]) text
  end.

Lemma wc_fold t w text :
  t.(inword) = negb (length w =? 0)%nat →
  0 ≤ t.(wc_l) → 0 ≤ t.(wc_w) → 0 ≤ t.(wc_c) →
  t.(wc_l) ≤ t.(wc_c) → t.(wc_w) ≤ t.(wc_c) → t.(wc_c) + Z.of_nat (length text) < 2 ^ 31 →
  let t' := foldl wc_char t text in
  t'.(wc_l) = t.(wc_l) + Z.of_nat (length (filter (λ ch, ch = nl) text)) ∧
  t'.(wc_w) + (if t.(inword) then 1 else 0) = t.(wc_w) + Z.of_nat (length (words w text)) ∧
  t'.(wc_c) = t.(wc_c) + Z.of_nat (length text).
Proof.
  assert (∀ x, 0 ≤ x < 2 ^ 31 - 1 → s32 (x + 1) = x + 1) as Hs32.
  { intros x Hx. unfold s32. rewrite Z.mod_small by lia. lia. }
  revert t w. induction text as [|ch text IH]; intros t w Hin H1 H2 H3 H4 H5 Hb; cbn [foldl words length].
  - rewrite Hin. destruct (length w =? 0)%nat; cbn; lia.
  - cbn [length] in Hb.
    assert (let l := t.(wc_l) + Z.of_nat (length (filter (λ ch, ch = nl) [ch])) in
      wc_char t ch = if existsb (Z.eqb ch) wc_white then mk_counts l t.(wc_w) (t.(wc_c) + 1) false
        else mk_counts l (t.(wc_w) + if t.(inword) then 0 else 1) (t.(wc_c) + 1) true) as Hstep.
    { unfold wc_char. rewrite filter_cons, filter_nil, (Hs32 t.(wc_c)) by lia.
      destruct (decide (ch = nl)) as [->|Hn]; cbn [length].
      - rewrite Z.eqb_refl, Hs32 by lia. done.
      - rewrite (proj2 (Z.eqb_neq ch nl) Hn), Z.add_0_r. destruct (existsb _ _); [done|].
        destruct t.(inword); cbn; [by rewrite Z.add_0_r|by rewrite Hs32 by lia]. }
    assert (length (filter (λ ch, ch = nl) (ch :: text)) =
      length (filter (λ ch, ch = nl) [ch]) + length (filter (λ ch, ch = nl) text))%nat as ->
      by (rewrite <-length_app, <-filter_app; done).
    assert (length (filter (λ ch, ch = nl) [ch]) ≤ 1)%nat as Hle by (rewrite filter_cons; case_decide; cbn; lia).
    cbn zeta in Hstep. rewrite Hstep. generalize dependent (length (filter (λ ch, ch = nl) [ch])).
    intros d _ Hd. destruct (existsb _ _).
    + destruct (IH (mk_counts (t.(wc_l) + Z.of_nat d) t.(wc_w) (t.(wc_c) + 1) false) []) as (-> & Hw & ->); cbn in *; try lia; try done.
      split; [lia|]. split; [|lia]. rewrite length_app, Hin.
      destruct (length w =? 0)%nat; cbn; lia.
    + destruct (IH (mk_counts (t.(wc_l) + Z.of_nat d) (t.(wc_w) + if t.(inword) then 0 else 1) (t.(wc_c) + 1) true) (w ++ [ch]))
        as (-> & Hw & ->); cbn in *; try (destruct t.(inword); lia).
      rewrite length_app, Nat.add_1_r. done.
Qed.

(** What wc prints of a text: the newlines, the maximal runs without white
    space and the bytes. *)
Definition wc_report (name text : list Z) : list Z :=
  fprintf_bytes (line "%d %d %d %s") [Vint (Z.of_nat (length (filter (λ ch, ch = nl) text)));
    Vint (Z.of_nat (length (words [] text))); Vint (Z.of_nat (length text)); Vs name].

#[local] Opaque fprintf_bytes.

Section wc.
Context {W : Type} `{HO : Os W, HS : !OsSpec W}.

Lemma wc_loop w fd t o c : chan_of (os_abs w) fd = Some (o, c) →
  ∃ w', returns w (loop (λ t, '(n, buf) ← call (Read fd 512);
      if 0 <? n then mret (inl (foldl wc_char t buf)) else mret (inr (n, t))) t) w' (0, foldl wc_char t c.(c_in)) ∧
    os_abs w' = takes o (length c.(c_in)) (os_abs w).
Proof.
  name_body body. remember (length c.(c_in)) as n eqn:En. revert w c t En. induction n as [n IH] using lt_wf_ind. intros w c t -> Hc.
  destruct (returns_read w fd 512 o c Hc) as (w1 & k & (_ & Hkl & Hk0 & _) & R1 & E1). destruct (decide (k = 0%nat)) as [->|Hne].
  - rewrite (Hk0 eq_refl) in * by lia. exists w1. split; [|exact E1]. apply returns_last. eapply returns_bind; [exact R1|apply returns_ret].
  - assert (Hc1 : chan_of (os_abs w1) fd = Some (o, eat k c)) by (rewrite E1; unfold takes; rewrite chan_alter, Hc; cbn; by rewrite decide_True).
    destruct (IH (length (eat k c).(c_in))) with (w := w1) (c := eat k c) (t := foldl wc_char t (take k c.(c_in))) as (w2 & R2 & E2); try done.
    { cbn. rewrite length_drop. lia. }
    exists w2. cbn [c_in eat] in *. rewrite <- foldl_app, take_drop in R2. split.
    + eapply returns_round; [|exact R2]. eapply returns_bind; [exact R1|]. cbn [fst snd]. rewrite (proj2 (Z.ltb_lt 0 _)) by lia. apply returns_ret.
    + rewrite E2, E1, takes_add, length_drop. f_equal. lia.
Qed.

Lemma wc_consumes : consumes wc (λ text, Z.of_nat (length text) < 2 ^ 31) wc_report.
Proof.
  intros w fd name o c o1 c1 Hc H1 Hlen. destruct (wc_loop w fd (mk_counts 0 0 0 false) o c Hc) as (w1 & R1 & E1).
  destruct (wc_fold (mk_counts 0 0 0 false) [] c.(c_in)) as (Hl & Hw & Hch); cbn [wc_l wc_w wc_c inword] in *; try lia; [done|].
  set (t := foldl wc_char _ c.(c_in)) in *. rewrite Z.add_0_r in Hw.
  assert (∃ c1', chan_of (os_abs w1) 1 = Some (o1, c1')) as [c1' H1'] by (rewrite E1; unfold takes; rewrite chan_alter, H1; by eexists).
  destruct (returns_printf w1 (line "%d %d %d %s") [Vint t.(wc_l); Vint t.(wc_w); Vint t.(wc_c); Vs name] o1 c1' H1') as (w2 & R2 & E2).
  exists w2. split; [by eapply returns_bind; [exact R1|]|]. rewrite E2, E1. unfold wc_report. by rewrite Hl, Hw, Hch, !Z.add_0_l.
Qed.

(** wc prints the counts of each file it is given, however the reads cut it,
    for files whose length an int can hold. *)
Lemma wc_prints w name l o1 c1 : chan_of (os_abs w) 1 = Some (o1, c1) → there (os_abs w) l → l ≠ [] →
  Forall (λ x, Z.of_nat (length x.2) < 2 ^ 31) l → is_Some (lowest_fd (os_abs w).(fds)) →
  ∃ w', ends w (wc_main (name :: l.*1)) w' 0 ∧ os_abs w' = sends o1 (concat ((λ x, wc_report x.1 x.2) <$> l)) (os_abs w).
Proof.
  intros H1 Hl Hne HP Hfd. set (err := λ file, printf (line "wc: cannot open %s") [Vs file] ;; (exit 1 : prog ())).
  destruct (returns_files w err _ _ _ _ _ _ wc_consumes HP Hl Hfd H1) as (w' & R & E). exists w'. split; [|exact E].
  unfold wc_main. rewrite (proj2 (Z.leb_gt _ _)) by (destruct l; [done|unfold argc; cbn; lia]). eapply ends_bind; [exact R|apply ends_exit].
Qed.
End wc.
