(* ===== verification/ShMain.v ===== *)
(** user/sh.c: the loop that reads command lines and runs them, as a program
    over system calls. *)

From S2P Require Import Prelude Kstate Printf Ulib Sh ShSpec ShRun UserSys UserProgs.
From ITree Require Import Eq.Eqit.
Local Open Scope Z_scope.

(** ** Running a command

    The system calls of [ShRun.runcmd], a message being written one character
    at a time. *)
Fixpoint calls_of (p : ShRun.prog) : prog unit :=
  match p with
  | Pexit n => exit n
  | Ppipe k => '(r, (p0, p1)) ← call Pipe; calls_of (k r p0 p1)
  | Pcall c k =>
      match c with
      | Sfork => r ← call Fork; calls_of (k r)
      | Swait => '(r, _) ← call Wait; calls_of (k r)
      | Sclose fd => r ← call (Close fd); calls_of (k r)
      | Sdup fd => r ← call (Dup fd); calls_of (k r)
      | Sopen file mode => r ← call (Open file mode); calls_of (k r)
      | Sexec path argv => r ← call (Exec path argv); calls_of (k r)
      | Swrite fd bs => putcs fd bs ;; calls_of (k (Z.of_nat (length bs)))
      end
  end.

(** [runcmd(parsecmd(cmd))]; parsecmd always has fuel (Sh). *)
Definition run_line (cmd : list Z) : prog unit :=
  match parsecmd cmd with
  | Sh.Ret (c, buf) => calls_of (runcmd (cmd_map (λ a, c_string buf a.1) c))
  | Sh.Exit said msg => putcs 2 said ;; calls_of (sh_panic msg)
  | NoFuel => exit 1
  end.

(** ** The loop *)

(** The status and the bytes stored before the NUL. *)
Definition getcmd (nbuf : Z) : prog (Z * list Z) :=
  call (Write 2 (bytes_of "$ ")) ;;
  buf ← gets nbuf;
  if default 0 (head buf) =? 0 then mret (-1, buf) else mret (0, buf).

(** [while ( *cmd == ' ' || *cmd == '\t') cmd++] *)
Fixpoint skip_blanks (cmd : list Z) : list Z :=
  match cmd with
  | c :: rest => if (c =? 32) || (c =? 9) then skip_blanks rest else cmd
  | [] => []
  end.

Definition at_ (cmd : list Z) (i : nat) : Z := default 0 (cmd !! i).
Definition is_cd (cmd : list Z) : bool := (at_ cmd 0 =? 99) && (at_ cmd 1 =? 100) && (at_ cmd 2 =? 32).

(** The directory of a cd: its last character is chopped. *)
Definition cd_dir (cmd : list Z) : list Z := drop 3 (take (length cmd - 1) cmd).

Definition fork1 : prog Z :=
  pid ← call Fork;
  if pid =? -1 then calls_of (sh_panic "fork") ;; mret pid else mret pid.

(** The body of the loop, after getcmd. *)
Definition sh_cmd (buf : list Z) : prog unit :=
  let cmd := skip_blanks buf in
  if at_ cmd 0 =? 10 then mret ()
  else if is_cd cmd then
    r ← call (Chdir (cd_dir cmd));
    if r <? 0 then fprintf 2 (line "cannot cd %s") [Vs (cd_dir cmd)] else mret ()
  else
    pid ← fork1;
    (if pid =? 0 then run_line cmd else mret ()) ;;
    call Wait ;;
    mret ().

Definition sh_loop : prog unit :=
  loop (λ _ : unit,
    '(r, buf) ← getcmd 100;
    if 0 <=? r then sh_cmd (cstr buf) ;; mret (inl ()) else mret (inr ())) ().

Definition sh_main : prog unit :=
  loop (λ _ : unit,
    fd ← call (Open (bytes_of "console") O_RDWR);
    if 0 <=? fd then
      if 3 <=? fd then call (Close fd) ;; mret (inr ()) else mret (inl ())
    else mret (inr ())) () ;;
  sh_loop ;;
  exit 0.

(** ** What the loop does *)

Section sh.
Context {W : Type} `{HO : Os W, HS : !OsSpec W}.

(** A line that fits the buffer. *)
Definition line_ok (l : list Z) : Prop :=
  ∃ b, l = b ++ [10] ∧ Forall (λ c, c ≠ 0 ∧ c ≠ 10 ∧ c ≠ 13) b ∧ (length b ≤ 98)%nat.

Lemma returns_char w ch rest o c : chan_of (os_abs w) 0 = Some (o, c) → c.(c_in) = ch :: rest →
  ∃ w', returns w (call (Read 0 1)) w' (1, [ch]) ∧ os_abs w' = takes o 1 (os_abs w).
Proof.
  intros Hc Hin. destruct (returns_read w 0 1 o c Hc) as (w' & k & (Hk & _ & H0 & _) & R & E).
  assert (k = 1%nat) as ->; [|rewrite Hin in R; by exists w']. destruct (decide (k = 0%nat)) as [->|]; [|lia].
  rewrite H0 in Hin; [done|done|lia].
Qed.

Lemma gets_line w k b rest o c : chan_of (os_abs w) 0 = Some (o, c) → c.(c_in) = b ++ 10 :: rest →
  Forall (λ c, c ≠ 0 ∧ c ≠ 10 ∧ c ≠ 13) b → (length b < k)%nat →
  ∃ w', returns w (gets_loop k) w' (b ++ [10]) ∧ os_abs w' = takes o (length (b ++ [10])) (os_abs w).
Proof.
  intros Hc Hin Hb. revert w c k Hc Hin. induction Hb as [|ch b (_ & H10 & H13) _ IH]; intros w c [|k] Hc Hin Hk; cbn [length] in Hk; try lia.
  - destruct (returns_char w 10 rest o c Hc Hin) as (w1 & R1 & E1). exists w1. split; [|done].
    cbn [gets_loop]. eapply returns_bind; [exact R1|apply returns_ret].
  - destruct (returns_char w ch (b ++ 10 :: rest) o c Hc Hin) as (w1 & R1 & E1).
    destruct (IH w1 (eat 1 c) k) as (w2 & R2 & E2); [rewrite E1; by apply chan_takes|cbn; by rewrite Hin|lia|].
    exists w2. split.
    + cbn [gets_loop]. eapply returns_bind; [exact R1|]. cbn [Z.ltb Z.compare Pos.compare Pos.compare_cont head default from_option id].
      rewrite (proj2 (Z.eqb_neq ch 10)), (proj2 (Z.eqb_neq ch 13)) by done. cbn [orb].
      eapply returns_bind; [exact R2|apply returns_ret].
    + rewrite E2, E1, takes_add. done.
Qed.

Lemma gets_eof w k o c : chan_of (os_abs w) 0 = Some (o, c) → c.(c_in) = [] →
  ∃ w', returns w (gets_loop k) w' [] ∧ os_abs w' = os_abs w.
Proof.
  intros Hc Hin. destruct k as [|k]; [exists w; split; [apply returns_ret|done]|].
  destruct (returns_read w 0 1 o c Hc) as (w' & k' & (_ & Hk & _) & R & E). rewrite Hin in Hk, R. cbn in Hk.
  assert (k' = 0%nat) as -> by lia. exists w'. rewrite takes_0 in E. split; [|done]. cbn [gets_loop]. eapply returns_bind; [exact R|apply returns_ret].
Qed.

Definition prompt : list Z := bytes_of "$ ".

(** A line has been prompted for and read. *)
Definition read_line (o0 o2 : nat) (l : list Z) (a : os) : os := takes o0 (length l) (sends o2 prompt a).

Lemma getcmd_line w l rest o0 c0 o2 c2 : line_ok l → chan_of (os_abs w) 0 = Some (o0, c0) → chan_of (os_abs w) 2 = Some (o2, c2) →
  c0.(c_in) = l ++ rest → ∃ w', returns w (getcmd 100) w' (0, l) ∧ os_abs w' = read_line o0 o2 l (os_abs w).
Proof.
  intros (b & -> & Hb & Hl) H0 H2 Hin. destruct (returns_write w 2 prompt o2 c2 H2) as (w1 & R1 & E1).
  destruct (chan_moved (os_abs w) 0 2 o0 c0 o2 c2 0 prompt H0 H2) as (c0' & c2' & H0' & Hin' & _). rewrite takes_0, <- E1 in H0'.
  destruct (gets_line w1 99 b rest o0 c0') as (w2 & R2 & E2); try done; [by rewrite Hin', drop_0, Hin, <- app_assoc|lia|].
  exists w2. split; [|by rewrite E2, E1]. unfold getcmd. eapply returns_bind; [exact R1|]. eapply returns_bind; [exact R2|].
  replace (default 0 (head (b ++ [10])) =? 0) with false; [apply returns_ret|]. destruct Hb as [|x b [Hx _] _]; [done|]. symmetry. by apply Z.eqb_neq.
Qed.

Lemma getcmd_eof w o0 c0 o2 c2 : chan_of (os_abs w) 0 = Some (o0, c0) → chan_of (os_abs w) 2 = Some (o2, c2) → c0.(c_in) = [] →
  ∃ w', returns w (getcmd 100) w' (-1, []) ∧ os_abs w' = sends o2 prompt (os_abs w).
Proof.
  intros H0 H2 Hin. destruct (returns_write w 2 prompt o2 c2 H2) as (w1 & R1 & E1).
  destruct (chan_moved (os_abs w) 0 2 o0 c0 o2 c2 0 prompt H0 H2) as (c0' & c2' & H0' & Hin' & _). rewrite takes_0, <- E1 in H0'.
  destruct (gets_eof w1 99 o0 c0') as (w2 & R2 & E2); [done|by rewrite Hin', Hin|]. exists w2. split; [|by rewrite E2].
  unfold getcmd. eapply returns_bind; [exact R1|]. eapply returns_bind; [exact R2|apply returns_ret].
Qed.

(** What a line asks for: nothing, another directory, or a command that a
    child runs. *)
Inductive request : Type := Nothing | Directory (dir : list Z) | Command (text : list Z).

Definition blanks (b : list Z) : Prop := Forall (λ c, c = 32 ∨ c = 9) b.

Inductive asks : list Z → request → Prop :=
| asks_nothing b : blanks b → asks (b ++ [10]) Nothing
| asks_directory b dir : blanks b → asks (b ++ bytes_of "cd " ++ dir ++ [10]) (Directory dir)
| asks_command b c text : blanks b → ¬ blanks [c] → c ≠ 10 → ¬ bytes_of "cd " `prefix_of` c :: text →
    asks (b ++ c :: text) (Command (c :: text)).

Lemma skip_blanks_app b c l : blanks b → ¬ blanks [c] → skip_blanks (b ++ c :: l) = c :: l.
Proof.
  intros Hb Hc. assert (c ≠ 32 ∧ c ≠ 9) as [H32 H9] by (split; intros ->; apply Hc; repeat constructor).
  induction Hb as [|x b Hx _ IH]; cbn.
  - by rewrite (proj2 (Z.eqb_neq c 32)), (proj2 (Z.eqb_neq c 9)).
  - replace ((x =? 32) || (x =? 9)) with true; [done|]. by destruct Hx as [-> | ->].
Qed.
Lemma not_blank c : c ≠ 32 → c ≠ 9 → ¬ blanks [c].
Proof. intros H32 H9 Hb. inversion Hb. lia. Qed.

Lemma is_cd_prefix l : is_cd l = true → bytes_of "cd " `prefix_of` l.
Proof.
  unfold is_cd, at_. destruct l as [|c0 [|c1 [|c2 l]]]; cbn; rewrite ?andb_false_r; try done.
  rewrite !andb_true_iff, !Z.eqb_eq. intros [[-> ->] ->]. by exists l.
Qed.
Lemma cd_dir_line dir : cd_dir (bytes_of "cd " ++ dir ++ [10]) = dir.
Proof.
  unfold cd_dir. rewrite !app_assoc, length_app. cbn [length]. rewrite Nat.add_sub, take_app_length.
  exact (drop_app_length (bytes_of "cd ") dir).
Qed.

Lemma cannot_cd dir : fprintf_bytes (line "cannot cd %s") [Vs dir] = bytes_of "cannot cd " ++ dir ++ [10].
Proof. exact eq_refl. Qed.

(** What the shell makes of a line. *)
Lemma asks_cmd l q : asks l q →
  match q with
  | Nothing => at_ (skip_blanks l) 0 = 10
  | Directory dir => at_ (skip_blanks l) 0 ≠ 10 ∧ is_cd (skip_blanks l) = true ∧ cd_dir (skip_blanks l) = dir
  | Command text => skip_blanks l = text ∧ at_ text 0 ≠ 10 ∧ is_cd text = false
  end.
Proof.
  intros [b Hb|b dir Hb|b c text Hb Hc H10 Hp].
  - rewrite (skip_blanks_app b 10 [] Hb) by (by apply not_blank). done.
  - change (bytes_of "cd " ++ dir ++ [10]) with (99 :: [100; 32] ++ dir ++ [10]).
    rewrite (skip_blanks_app b 99 _ Hb) by (by apply not_blank). split; [done|]. split; [done|]. apply cd_dir_line.
  - rewrite (skip_blanks_app b c text Hb Hc). split; [done|]. split; [done|]. apply not_true_iff_false. by intros ?%is_cd_prefix.
Qed.

(** What the shell itself does for a request: nothing, a chdir, or a fork and
    a wait. *)
Inductive request_effect (o2 : nat) (a : os) : request → os → Prop :=
| eff_nothing : request_effect o2 a Nothing a
| eff_cd dir r : 0 ≤ r → request_effect o2 a (Directory dir) (did (Chdir dir) r a)
| eff_no_cd dir r : r < 0 → request_effect o2 a (Directory dir)
    (sends o2 (bytes_of "cannot cd " ++ dir ++ [10]) (did (Chdir dir) r a))
| eff_run text pid l : a.(forks) = pid :: l → 0 < pid →
    request_effect o2 a (Command text) (set_waits tail (set_forks (λ _, l) a)).

Inductive lines_effect (o0 o2 : nat) : list (list Z) → list request → os → os → Prop :=
| eff_nil a : lines_effect o0 o2 [] [] a a
| eff_cons l ls q qs a a1 a2 : request_effect o2 (read_line o0 o2 l a) q a1 → lines_effect o0 o2 ls qs a1 a2 →
    lines_effect o0 o2 (l :: ls) (q :: qs) a a2.

(** A child runs the line. *)
Definition runs (q : request) : bool := match q with Command _ => true | _ => false end.

Lemma sh_cmd_effect w l q o2 c2 pids : asks l q → chan_of (os_abs w) 2 = Some (o2, c2) →
  (if runs q then ∃ pid, 0 < pid ∧ (os_abs w).(forks) = pid :: pids else (os_abs w).(forks) = pids) →
  ∃ w', returns w (sh_cmd l) w' () ∧ request_effect o2 (os_abs w) q (os_abs w') ∧ (os_abs w').(forks) = pids ∧
    (∃ f, (os_abs w').(objs) = alter (say f) o2 (os_abs w).(objs)) ∧ (os_abs w').(fds) = (os_abs w).(fds).
Proof.
  intros Hq%asks_cmd H2 Hf. unfold sh_cmd.
  assert (Hnil : ∃ f, (os_abs w).(objs) = alter (say f) o2 (os_abs w).(objs)).
  { exists []. pose proof (sends_nil o2 (os_abs w)) as E. apply (f_equal objs) in E. by rewrite <- E at 1. }
  destruct q as [|dir|text]; cbn [runs] in Hf.
  - exists w. rewrite Hq. split; [apply returns_ret|]. split; [by constructor|done].
  - destruct Hq as (H10 & Hcd & Hdir). rewrite (proj2 (Z.eqb_neq _ _) H10), Hcd, Hdir.
    pose proof (os_meets _ (Chdir dir) w) as E1. cbn in E1. set (w1 := (os_call _ _ w).1) in E1. set (r := (os_call _ _ w).2) in E1.
    assert (R1 : returns w (call (Chdir dir)) w1 r) by apply returns_call.
    destruct (Z.ltb_spec r 0) as [Hr|Hr].
    + destruct (returns_putcs w1 2 (fprintf_bytes (line "cannot cd %s") [Vs dir]) o2 c2) as (w2 & R2 & E2); [by rewrite E1|].
      exists w2. rewrite E2, E1, cannot_cd. split; [|split; [by constructor|split; [done|split; [by eexists|done]]]].
      eapply returns_bind; [exact R1|]. rewrite (proj2 (Z.ltb_lt r 0)) by done. exact R2.
    + exists w1. rewrite E1. split; [|split; [by constructor|split; [done|split; [done|done]]]].
      eapply returns_bind; [exact R1|]. rewrite (proj2 (Z.ltb_ge r 0)) by done. apply returns_ret.
  - destruct Hq as (-> & H10 & Hcd). rewrite (proj2 (Z.eqb_neq _ _) H10), Hcd.
    destruct Hf as (pid & Hp & Hf). destruct (returns_fork_next w pid pids Hf) as (w1 & R1 & E1).
    destruct (returns_wait w1) as (w2 & R2 & E2). exists w2. rewrite E2, E1. split; [|split; [by eapply eff_run|done]].
    eapply (returns_bind w w1 w2 _ pid).
    { eapply returns_bind; [exact R1|]. rewrite (proj2 (Z.eqb_neq pid (-1))) by lia. apply returns_ret. }
    rewrite (proj2 (Z.eqb_neq pid 0)) by lia. eapply returns_bind; [apply returns_ret|]. eapply returns_bind; [exact R2|apply returns_ret].
Qed.

Lemma cstr_line l : line_ok l → cstr l = l.
Proof.
  intros (b & -> & Hb & _). induction Hb as [|c b [Hc _] _ IH]; [done|]. cbn. rewrite (proj2 (Z.eqb_neq c 0)) by done. by rewrite IH.
Qed.

(** Descriptors 0 and 2, with the rest of the input. *)
Definition std_in (a : os) (o0 o2 : nat) (input : list Z) : Prop :=
  (∃ c0, chan_of a 0 = Some (o0, c0) ∧ c0.(c_in) = input) ∧ ∃ c2, chan_of a 2 = Some (o2, c2).

Lemma std_in_moved a a' o0 o2 k f input : std_in a o0 o2 input → a'.(fds) = a.(fds) → a'.(objs) = (sends o2 f (takes o0 k a)).(objs) →
  std_in a' o0 o2 (drop k input).
Proof.
  intros [(c0 & H0 & Hin) [c2 H2]] Hf Ho. destruct (chan_moved a 0 2 o0 c0 o2 c2 k f H0 H2) as (c0' & c2' & H0' & Hin' & H2').
  assert (He : ∀ fd, chan_of a' fd = chan_of (sends o2 f (takes o0 k a)) fd) by (intros fd; unfold chan_of; by rewrite Hf, Ho).
  split; [exists c0'|exists c2']; rewrite He; [split; [done|by rewrite Hin', Hin]|done].
Qed.

Definition commands (qs : list request) : nat := length (filter (λ q, runs q = true) qs).

Lemma sh_round w l q rest pids o0 o2 : line_ok l → asks l q → std_in (os_abs w) o0 o2 (l ++ rest) →
  (if runs q then ∃ pid, 0 < pid ∧ (os_abs w).(forks) = pid :: pids else (os_abs w).(forks) = pids) →
  ∃ w', eutt eq (on w sh_loop) (on w' sh_loop) ∧ request_effect o2 (read_line o0 o2 l (os_abs w)) q (os_abs w') ∧
    std_in (os_abs w') o0 o2 rest ∧ (os_abs w').(forks) = pids.
Proof.
  intros Hl Hq Hin Hf. pose proof Hin as [(c0 & H0 & Hc0) [c2 H2]].
  destruct (getcmd_line w l rest o0 c0 o2 c2 Hl H0 H2 Hc0) as (w1 & R1 & E1).
  pose proof (std_in_moved (os_abs w) (os_abs w1) o0 o2 (length l) prompt _ Hin) as Hin1. rewrite drop_app_length in Hin1.
  destruct Hin1 as [H01 [c2' H21]]; [by rewrite E1|rewrite E1; unfold read_line; by rewrite <- sends_takes|].
  destruct (sh_cmd_effect w1 l q o2 c2' pids Hq H21) as (w2 & R2 & Heff & Hf2 & [f Ho2] & Hfd2); [by rewrite E1|].
  exists w2. split; [|split; [by rewrite <- E1|split; [|done]]].
  - unfold sh_loop. apply on_round. eapply returns_bind; [exact R1|]. cbn [Z.leb Z.compare]. rewrite (cstr_line l Hl).
    eapply returns_bind; [exact R2|apply returns_ret].
  - rewrite <- (drop_0 rest). apply (std_in_moved (os_abs w1) (os_abs w2) o0 o2 0 f rest); [|done|by rewrite takes_0].
    split; [done|by eexists].
Qed.

Lemma sh_lines ls qs w rest pids more o0 o2 : Forall2 asks ls qs → Forall line_ok ls → std_in (os_abs w) o0 o2 (concat ls ++ rest) →
  (os_abs w).(forks) = pids ++ more → Forall (λ pid, 0 < pid) pids → length pids = commands qs →
  ∃ w', eutt eq (on w sh_loop) (on w' sh_loop) ∧ lines_effect o0 o2 ls qs (os_abs w) (os_abs w') ∧
    std_in (os_abs w') o0 o2 rest ∧ (os_abs w').(forks) = more.
Proof.
  intros Hqs. revert w pids. induction Hqs as [|l q ls qs Hq _ IH]; intros w pids Hls Hin Hf Hp Hn.
  - exists w. destruct pids; [|done]. split; [reflexivity|]. split; [constructor|done].
  - cbn [concat] in Hin. rewrite <- app_assoc in Hin. unfold commands in Hn. rewrite filter_cons in Hn. inversion_clear Hls as [|? ? Hl Hls'].
    assert (∃ pids', (if runs q then ∃ pid, 0 < pid ∧ (os_abs w).(forks) = pid :: pids' ++ more else (os_abs w).(forks) = pids' ++ more) ∧
      Forall (λ pid, 0 < pid) pids' ∧ length pids' = commands qs) as (pids' & Hf' & Hp' & Hn').
    { destruct (runs q) eqn:Hr; cbn in Hn; [|by exists pids]. destruct pids as [|pid pids]; [done|]. inversion_clear Hp. exists pids.
      split; [by exists pid|]. split; [done|by injection Hn]. }
    destruct (sh_round w l q (concat ls ++ rest) (pids' ++ more) o0 o2 Hl Hq Hin Hf') as (w1 & He1 & Heff & Hin1 & Hf1).
    destruct (IH w1 pids' Hls' Hin1 Hf1 Hp' Hn') as (w2 & He2 & Heffs & Hin2 & Hf2).
    exists w2. split; [by rewrite He1|]. split; [by econstructor|done].
Qed.

(** The line of a command as it is written by [render]. *)
Definition typed (c : cmd (list Z)) : list Z := render c ++ [10].

Lemma run_typed c : cmd_ok c → toks 0 c ≠ [] → run_line (skip_blanks (typed c)) = calls_of (runcmd c).
Proof.
  intros Hc Hne. pose proof (toks_ok c 0 Hc) as Hok.
  assert (Hsk : skip_blanks (typed c) = body [10] (toks 0 c)).
  { unfold typed, render. destruct (toks 0 c) as [|t ts]; [done|]. inversion_clear Hok as [|? ? Ht _].
    destruct (text_first t Ht) as (ch & r & E & _ & Hw). cbn. rewrite <- app_assoc, E. cbn.
    replace ((ch =? 32) || (ch =? 9)) with false; [done|]. symmetry. apply orb_false_iff.
    split; apply Z.eqb_neq; intros ->; by vm_compute in Hw. }
  assert (H0 : 0 ∉ body [10] (toks 0 c)).
  { intros Hin. apply (spaced_no_nul (toks 0 c) Hok). destruct (toks 0 c) as [|t ts]; [by apply elem_of_nil in Hin|].
    cbn in Hin |- *. rewrite app_assoc in Hin. apply elem_of_app in Hin as [Hin|Hin]; [by right|]. by apply list_elem_of_singleton in Hin. }
  rewrite Hsk. unfold run_line. destruct (parsecmd_toks (body [10] (toks 0 c)) c Hc H0) as (c' & buf & -> & ->); [|done].
  split; [lia|]. split; [done|]. exists [], [10]. split; [constructor|]. split; [by repeat constructor|done].
Qed.

(** The three descriptors are open, and the console is a device. *)
Definition sh_ready (a : os) : Prop :=
  lowest_fd a.(fds) = Some 3 ∧ ∃ o c, a.(names) !! console_name = Some (Tdev o) ∧ a.(objs) !! o = Some c ∧ c.(c_whole) = false.

Lemma sh_opens w : sh_ready (os_abs w) →
  ∃ w', (∀ w2 n, ends w' (sh_loop ;; (exit 0 : prog unit)) w2 n → ends w sh_main w2 n) ∧ os_abs w' = os_abs w.
Proof.
  intros (Hl & o & c & Hn & Ho & Hc). destruct (lowest_fd_spec _ _ Hl) as [Hfd _].
  destruct (returns_open_dev w _ _ o 3 Hn Hl) as (w1 & R1 & E1).
  destruct (returns_close w1 3 o) as (w2 & R2 & E2); [rewrite E1; cbn; apply lookup_insert_eq|].
  exists w2. split.
  - intros w3 n He. eapply (ends_bind w w2 w3 _ ()); [|exact He]. apply returns_last. eapply returns_bind; [exact R1|].
    cbn [Z.leb Z.compare Pos.compare Pos.compare_cont]. eapply returns_bind; [exact R2|apply returns_ret].
  - rewrite E2, E1. unfold last_close. cbn. rewrite Ho, Hc. unfold set_fds. cbn. rewrite delete_insert_id by done. by destruct (os_abs w).
Qed.

(** C32. The shell prompts for, reads and serves one line after the other.
    For a line that is [cd ] and a directory, after blanks, it changes to
    exactly that directory itself, and names it in a message where it cannot; a
    blank line it ignores; for any other it forks and waits.  Given a child
    for every command, it ends with status 0 at the end of the input.  Where a
    fork returns 0, for a line with a command that can be typed, the process
    makes the system calls of that command, with the lines before it served,
    and ends as they do. *)
Theorem sh_serves w ls qs pids more o0 o2 rest : sh_ready (os_abs w) → Forall2 asks ls qs → Forall line_ok ls →
  std_in (os_abs w) o0 o2 (concat ls ++ rest) →
  (os_abs w).(forks) = pids ++ more → Forall (λ pid, 0 < pid) pids → length pids = commands qs →
  (rest = [] → ∃ w' a', ends w sh_main w' 0 ∧ lines_effect o0 o2 ls qs (os_abs w) a' ∧ os_abs w' = sends o2 prompt a') ∧
  (∀ c input text forks', rest = typed c ++ input → more = 0 :: forks' → cmd_ok c → line_ok (typed c) → asks (typed c) (Command text) →
    ∃ w' a', lines_effect o0 o2 ls qs (os_abs w) a' ∧ os_abs w' = set_forks (λ _, forks') (read_line o0 o2 (typed c) a') ∧
      ∀ w2 n, ends w' (calls_of (runcmd c)) w2 n → ends w sh_main w2 n).
Proof.
  intros Hr Hqs Hls Hin Hf Hp Hn. destruct (sh_opens w Hr) as (w0 & Hopen & E0). rewrite <- E0 in *.
  destruct (sh_lines ls qs w0 rest pids more o0 o2 Hqs Hls Hin Hf Hp Hn) as (w1 & He & Heff & [(c0 & H0 & Hc0) [c2 H2]] & Hf1). split.
  - intros ->. destruct (getcmd_eof w1 o0 c0 o2 c2 H0 H2 Hc0) as (w2 & R2 & E2). exists w2, (os_abs w1). split; [|done].
    apply Hopen. eapply (ends_bind w0 w2 w2 _ ()); [|apply ends_exit]. unfold returns. rewrite He.
    apply returns_last. eapply returns_bind; [exact R2|apply returns_ret].
  - intros c input text forks' -> -> Hc Hl Hq. destruct (getcmd_line w1 (typed c) input o0 c0 o2 c2 Hl H0 H2 Hc0) as (w2 & R2 & E2).
    destruct (returns_fork_next w2 0 forks') as (w3 & R3 & E3); [by rewrite E2|]. exists w3, (os_abs w1).
    split; [done|]. split; [by rewrite E3, E2|]. intros w4 n Hend. apply Hopen. apply ends_now. unfold ends. rewrite He.
    apply ends_loop. eapply ends_bind; [exact R2|]. cbn [Z.leb Z.compare]. rewrite (cstr_line _ Hl). apply ends_now. unfold sh_cmd.
    apply asks_cmd in Hq as (Hsk & H10 & Hcd). rewrite Hsk, (proj2 (Z.eqb_neq _ _) H10), Hcd.
    eapply (ends_bind w2 w3 w4 _ 0); [eapply returns_bind; [exact R3|apply returns_ret]|]. cbn [Z.eqb]. apply ends_now.
    rewrite <- Hsk in H10 |- *. rewrite run_typed; [done|done|]. intros Ht. unfold typed, render in H10. rewrite Ht in H10. done.
Qed.
End sh.

(** [cd d] and [x]; then [a > f] in a child. *)
Definition sh_world (input : list Z) (forks : list Z) : sim :=
  mk_sim (mk_os {[0 := 0%nat; 1 := 0%nat; 2 := 0%nat]} {[0%nat := tty input]} {[console_name := Tdev 0]} ∅ forks [] []) [].

Lemma sh_serves_witness :
  let lines := [bytes_of (line " cd d"); bytes_of (line "x")] in
  let c := REDIR (EXEC [[97]]) [102] 0x601 1 in
  (∃ w' r, ends (sh_world (concat lines) [7]) sh_main w' 0 ∧ w'.(sim_os).(acts) = [act (Chdir [100]) r]) ∧
  ∃ w', ∀ w2 n, ends w' (calls_of (runcmd c)) w2 n → ends (sh_world (concat lines ++ typed c) [7; 0]) sh_main w2 n.
Proof.
  intros lines c. set (qs := [Directory [100]; Command [120; 10]]).
  assert (Hr : ∀ input forks, sh_ready (os_abs (sh_world input forks))).
  { intros input forks. split; [by vm_compute|]. exists 0%nat, (tty input). split; [by vm_compute|]. by split; vm_compute. }
  assert (Hi : ∀ input forks, std_in (os_abs (sh_world input forks)) 0 0 input).
  { intros input forks. split; exists (tty input); [split|]; exact eq_refl. }
  assert (Hq : Forall2 asks lines qs).
  { constructor; [|constructor; [|constructor]].
    - apply (asks_directory [32] [100]). apply (bool_decide_unpack _). by vm_compute.
    - apply (asks_command [] 120 [10]); apply (bool_decide_unpack _); by vm_compute. }
  assert (Hl : Forall line_ok lines).
  { constructor; [|constructor; [|constructor]].
    - exists (bytes_of " cd d"). split; [exact eq_refl|]. split; [|vm_compute; lia]. apply (bool_decide_unpack _). by vm_compute.
    - exists (bytes_of "x"). split; [exact eq_refl|]. split; [|vm_compute; lia]. apply (bool_decide_unpack _). by vm_compute. }
  assert (Hp : Forall (λ pid, 0 < pid) [7]) by (repeat constructor). split.
  - destruct (sh_serves (sh_world (concat lines) [7]) lines qs [7] [] 0 0 []) as [H _];
      [apply Hr|exact Hq|exact Hl|rewrite app_nil_r; apply Hi|exact eq_refl|exact Hp|by vm_compute|].
    destruct (H eq_refl) as (w' & a' & He & Ha & Ew). change (os_abs w') with (sim_os w') in Ew.
    inversion Ha as [|? ? ? ? ? a1 ? Hcd Hx]; subst. inversion Hx as [|? ? ? ? ? a2 ? Hrun Hend]; subst. inversion Hend; subst.
    inversion Hrun; subst. inversion Hcd; subst; exists w', r; (split; [exact He|rewrite Ew; exact eq_refl]).
  - destruct (sh_serves (sh_world (concat lines ++ typed c) [7; 0]) lines qs [7] [0] 0 0 (typed c)) as [_ H];
      [apply Hr|exact Hq|exact Hl|apply Hi|exact eq_refl|exact Hp|by vm_compute|].
    destruct (H c [] (drop 1 (typed c)) []) as (w' & _ & _ & _ & He); [by rewrite app_nil_r|exact eq_refl| | | |exists w'; exact He].
    + apply (bool_decide_unpack _). by vm_compute.
    + exists (render c). split; [exact eq_refl|]. split; [apply (bool_decide_unpack _); by vm_compute|vm_compute; lia].
    + apply (asks_command [32] 97 (drop 2 (typed c))); apply (bool_decide_unpack _); by vm_compute.
Defined.
