(* ===== verification/Stress.v ===== *)
(** The stress programs of src/user: grind.c, logstress.c and stressfs.c, and
    what their parents do. *)

From S2P Require Import Prelude Kstate Printf Ulib UserSys UserProgs.
Local Open Scope Z_scope.

(** ** grind: random numbers *)

(** [*ctx] is an unsigned long, [x], [hi] and [lo] are longs; the new [*ctx]
    is the result. *)
Definition do_rand (ctx : Z) : Z :=
  let x := ctx mod 0x7ffffffe + 1 in
  let hi := Z.quot x 127773 in
  let lo := Z.rem x 127773 in
  let x := 16807 * lo - 2836 * hi in
  let x := if x <? 0 then x + 0x7fffffff else x in
  x - 1.

(** ** grind: random system calls *)

(** The variables of [go] that change, and [rand_next]. *)
Record grind_vars : Type := mk_gv { gv_fd : Z; gv_rand : Z; gv_iters : Z; gv_buf : list Z }.
Definition set_gv_fd (fd : Z) (g : grind_vars) : grind_vars := mk_gv fd g.(gv_rand) g.(gv_iters) g.(gv_buf).

Definition say_exit {R} (fd : Z) (msg : String.string) (status : Z) : prog R := fprintf fd (line msg) [] ;; exit status.

(** [pid = fork()], the child running [child] and then exit(0). *)
Definition fork_child (child : prog unit) : prog Z :=
  pid ← call Fork;
  if pid =? 0 then child ;; exit 0
  else if pid <? 0 then say_exit 1 "grind: fork failed" 1
  else mret pid.

Definition O_NEW : Z := Z.lor O_CREATE O_RDWR.
Definition open_close (path : String.string) : prog unit :=
  fd ← call (Open (bytes_of path) O_NEW);
  call (Close fd) ;;
  mret ().

Definition quote : String.string := String (Ascii.ascii_of_nat 34) EmptyString.

(** [echo hi | cat], through two pipes. *)
Definition grind_pipeline : prog unit :=
  '(r, (aa0, aa1)) ← call Pipe;
  if r <? 0 then say_exit 2 "grind: pipe failed" 1 else
  '(r, (bb0, bb1)) ← call Pipe;
  if r <? 0 then say_exit 2 "grind: pipe failed" 1 else
  pid1 ← call Fork;
  if pid1 =? 0 then
    call (Close bb0) ;; call (Close bb1) ;; call (Close aa0) ;; call (Close 1) ;;
    r ← call (Dup aa1);
    if negb (r =? 1) then say_exit 2 "grind: dup failed" 1 else
    call (Close aa1) ;;
    call (Exec (bytes_of "grindir/../echo") [bytes_of "echo"; bytes_of "hi"]) ;;
    say_exit 2 "grind: echo: not found" 2
  else if pid1 <? 0 then say_exit 2 "grind: fork failed" 3 else
  pid2 ← call Fork;
  if pid2 =? 0 then
    call (Close aa1) ;; call (Close bb0) ;; call (Close 0) ;;
    r ← call (Dup aa0);
    if negb (r =? 0) then say_exit 2 "grind: dup failed" 4 else
    call (Close aa0) ;; call (Close 1) ;;
    r ← call (Dup bb1);
    if negb (r =? 1) then say_exit 2 "grind: dup failed" 5 else
    call (Close bb1) ;;
    call (Exec (bytes_of "/cat") [bytes_of "cat"]) ;;
    say_exit 2 "grind: cat: not found" 6
  else if pid2 <? 0 then say_exit 2 "grind: fork failed" 7 else
  call (Close aa0) ;; call (Close aa1) ;; call (Close bb1) ;;
  '(_, b0) ← call (Read bb0 1);
  '(_, b1) ← call (Read bb0 1);
  '(_, b2) ← call (Read bb0 1);
  let byte b := default 0 (head b) in
  let buf := cstr [byte b0; byte b1; byte b2; 0] in
  call (Close bb0) ;;
  '(_, st1) ← call Wait;
  '(_, st2) ← call Wait;
  if negb (st1 =? 0) || negb (st2 =? 0) || negb (bool_decide (buf = bytes_of (line "hi"))) then
    printf (line (String.append "grind: exec pipeline failed %d %d " (String.append quote (String.append "%s" quote)))) [Vint st1; Vint st2; Vs buf] ;;
    exit 1
  else mret ().

(** Checks that there are free inodes, descriptors and blocks. *)
Definition grind_create : prog unit :=
  call (Unlink (bytes_of "c")) ;;
  fd1 ← call (Open (bytes_of "c") O_NEW);
  if fd1 <? 0 then say_exit 1 "grind: create c failed" 1 else
  r ← call (Write fd1 (bytes_of "x"));
  if negb (r =? 1) then say_exit 1 "grind: write c failed" 1 else
  '(r, st) ← call (Fstat fd1);
  if negb (r =? 0) then say_exit 1 "grind: fstat failed" 1 else
  if negb (st.(st_size) =? 1) then
    printf (line "grind: fstat reports wrong size %d") [Vint (s32 st.(st_size))] ;;
    exit 1
  else if 200 <? st.(st_ino) then
    printf (line "grind: fstat reports crazy i-number %d") [Vint st.(st_ino)] ;;
    exit 1
  else
  call (Close fd1) ;;
  call (Unlink (bytes_of "c")) ;;
  mret ().

(** One round of [go]'s loop, for [what]; the new value of [fd], or of the
    static buffer. *)
Definition grind_round (break0 what : Z) (g : grind_vars) : prog grind_vars :=
  let unlink p := call (Unlink (bytes_of p)) in
  let mkdir p := call (Mkdir (bytes_of p)) in
  let chdir p := call (Chdir (bytes_of p)) in
  match what with
  | 1 => open_close "grindir/../a" ;; mret g
  | 2 => open_close "grindir/../grindir/../b" ;; mret g
  | 3 => unlink "grindir/../a" ;; mret g
  | 4 =>
      r ← chdir "grindir";
      if negb (r =? 0) then say_exit 1 "grind: chdir grindir failed" 1 else
      unlink "../b" ;; chdir "/" ;; mret g
  | 5 => call (Close g.(gv_fd)) ;; fd ← call (Open (bytes_of "/grindir/../a") O_NEW); mret (set_gv_fd fd g)
  | 6 => call (Close g.(gv_fd)) ;; fd ← call (Open (bytes_of "/./grindir/./../b") O_NEW); mret (set_gv_fd fd g)
  | 7 => call (Write g.(gv_fd) g.(gv_buf)) ;; mret g
  | 8 => '(_, b) ← call (Read g.(gv_fd) 999); mret (mk_gv g.(gv_fd) g.(gv_rand) g.(gv_iters) (b ++ drop (length b) g.(gv_buf)))
  | 9 => mkdir "grindir/../a" ;; open_close "a/../a/./a" ;; unlink "a/a" ;; mret g
  | 10 => mkdir "/../b" ;; open_close "grindir/../b/b" ;; unlink "b/b" ;; mret g
  | 11 => unlink "b" ;; call (Link (bytes_of "../grindir/./../a") (bytes_of "../b")) ;; mret g
  | 12 => unlink "../grindir/../a" ;; call (Link (bytes_of ".././b") (bytes_of "/grindir/../a")) ;; mret g
  | 13 => fork_child (mret ()) ;; call Wait ;; mret g
  | 14 => fork_child (call Fork ;; call Fork ;; mret ()) ;; call Wait ;; mret g
  | 15 => sbrk 6011 ;; mret g
  | 16 =>
      b ← sbrk 0;
      if break0 <? b then b ← sbrk 0; sbrk (s32 (- (b - break0))) ;; mret g else mret g
  | 17 =>
      pid ← fork_child (open_close "a");
      r ← chdir "../grindir/..";
      if negb (r =? 0) then say_exit 1 "grind: chdir failed" 1 else
      call (Kill pid) ;; call Wait ;; mret g
  | 18 => fork_child (me ← call Getpid; call (Kill me) ;; mret ()) ;; call Wait ;; mret g
  | 19 =>
      '(r, (f0, f1)) ← call Pipe;
      if r <? 0 then say_exit 1 "grind: pipe failed" 1 else
      fork_child (
        call Fork ;; call Fork ;;
        r ← call (Write f1 (bytes_of "x"));
        (if negb (r =? 1) then printf (line "grind: pipe write failed") [] else mret ()) ;;
        '(r, _) ← call (Read f0 1);
        if negb (r =? 1) then printf (line "grind: pipe read failed") [] else mret ()) ;;
      call (Close f0) ;; call (Close f1) ;; call Wait ;; mret g
  | 20 =>
      fork_child (unlink "a" ;; mkdir "a" ;; chdir "a" ;; unlink "../a" ;; call (Open (bytes_of "x") O_NEW) ;; unlink "x" ;; mret ()) ;;
      call Wait ;; mret g
  | 21 => grind_create ;; mret g
  | 22 => grind_pipeline ;; mret g
  | _ => mret g
  end.

Definition go (which_child rand_next : Z) : prog unit :=
  break0 ← sbrk 0;
  call (Mkdir (bytes_of "grindir")) ;;
  r ← call (Chdir (bytes_of "grindir"));
  if negb (r =? 0) then say_exit 1 "grind: chdir grindir failed" 1 else
  call (Chdir (bytes_of "/")) ;;
  loop (λ g,
    let iters := u64 (g.(gv_iters) + 1) in
    (if iters mod 500 =? 0 then
       call (Write 1 (if negb (which_child =? 0) then bytes_of "B" else bytes_of "A")) ;; mret ()
     else mret ()) ;;
    let rand := do_rand g.(gv_rand) in
    g ← grind_round break0 (Z.rem rand 23) (mk_gv g.(gv_fd) rand iters g.(gv_buf));
    mret (inl g)) (mk_gv (-1) rand_next 0 (replicate 999 0)).

Definition grind_iter (rand_next : Z) : prog unit :=
  call (Unlink (bytes_of "a")) ;;
  call (Unlink (bytes_of "b")) ;;
  pid1 ← call Fork;
  if pid1 <? 0 then say_exit 1 "grind: fork failed" 1 else
  if pid1 =? 0 then go 0 (Z.lxor rand_next 31) ;; exit 0 else
  pid2 ← call Fork;
  if pid2 <? 0 then say_exit 1 "grind: fork failed" 1 else
  if pid2 =? 0 then go 1 (Z.lxor rand_next 7177) ;; exit 0 else
  '(p, st) ← call Wait;
  let st1 := if p <? 0 then -1 else st in
  (if negb (st1 =? 0) then call (Kill pid1) ;; call (Kill pid2) ;; mret () else mret ()) ;;
  call Wait ;;
  exit 0.

Definition grind_main : prog unit :=
  loop (λ rand_next : Z,
    pid ← call Fork;
    (if pid =? 0 then grind_iter rand_next ;; exit 0 else mret ()) ;;
    (if 0 <? pid then call Wait ;; mret () else mret ()) ;;
    call (Pause 20) ;;
    mret (inl (u64 (rand_next + 1)))) 1.

(** ** logstress *)

(** [buf] has 500 bytes; memset and write go [SZ] bytes from its start. *)
Definition SZ : Z := 2000.

Fixpoint logstress_writes (n : nat) (fd i : Z) : prog unit :=
  match n with
  | O => mret ()
  | S n =>
      r ← call (Write fd (replicate (Z.to_nat SZ) (u8 (48 + i))));
      if negb (r =? SZ) then
        printf (line "write failed %d") [Vint r] ;;
        exit 1
      else logstress_writes n fd i
  end.

Fixpoint logstress_forks (name : list Z) (files : list (list Z)) (i : Z) : prog unit :=
  match files with
  | [] => mret ()
  | file :: files =>
      pid1 ← call Fork;
      if pid1 <? 0 then printf (line "%s: fork failed") [Vs name] ;; exit 1 else
      if pid1 =? 0 then
        fd ← call (Open file O_NEW);
        if fd <? 0 then printf (line "%s: create %s failed") [Vs name; Vs file] ;; exit 1 else
        logstress_writes 250 fd i ;;
        exit 0
      else logstress_forks name files (i + 1)
  end.

(** [xstatus] keeps its value when wait fails. *)
Fixpoint logstress_waits (n : nat) (xstatus : Z) : prog unit :=
  match n with
  | O => mret ()
  | S n =>
      '(pid, st) ← call Wait;
      let xstatus := if pid <? 0 then xstatus else st in
      if negb (xstatus =? 0) then exit xstatus else logstress_waits n xstatus
  end.

(** [xstatus] starts with what the stack holds. *)
Definition logstress_main (xstatus : Z) (argv : list (list Z)) : prog unit :=
  start (
    logstress_forks (argv !!! 0%nat) (args argv) 1 ;;
    logstress_waits (length (args argv)) xstatus).

(** ** stressfs *)

(** [for(i = 0; i < 4; i++) if(fork() > 0) break], with [n] rounds left. *)
Fixpoint stressfs_fork (n : nat) (i : Z) : prog Z :=
  match n with
  | O => mret i
  | S n => pid ← call Fork; if 0 <? pid then mret i else stressfs_fork n (i + 1)
  end.

Definition stressfs_main : prog unit :=
  printf (line "stressfs starting") [] ;;
  let data := replicate 512 97 in
  i ← stressfs_fork 4 0;
  printf (line "write %d") [Vint i] ;;
  let path := bytes_of "stressfs" ++ [u8 (48 + i)] in
  fd ← call (Open path O_NEW);
  each (seq 0 20) (λ _, call (Write fd data) ;; mret ()) ;;
  call (Close fd) ;;
  printf (line "read") [] ;;
  fd ← call (Open path O_RDONLY);
  each (seq 0 20) (λ _, call (Read fd 512) ;; mret ()) ;;
  call (Close fd) ;;
  call Wait ;;
  exit 0.

(** ** What they do *)

(** C37. do_rand is the generator its comment names: on states between 1 and
    2^31 - 2, kept one less, it multiplies by 7^5 modulo 2^31 - 1, without
    leaving 31 bits, and its result is again such a state. *)
Theorem do_rand_minimal ctx : 0 ≤ ctx < 2 ^ 64 →
  let x := ctx mod (2 ^ 31 - 2) + 1 in
  do_rand ctx + 1 = (7 ^ 5 * x) mod (2 ^ 31 - 1) ∧ 0 ≤ do_rand ctx ≤ 2 ^ 31 - 3 ∧
  - 2 ^ 31 ≤ 16807 * Z.rem x 127773 - 2836 * Z.quot x 127773 < 2 ^ 31.
Proof.
  intros Hctx x. unfold do_rand. change (2 ^ 31 - 2) with 2147483646 in x. change (ctx mod 0x7ffffffe + 1) with x.
  assert (Hx : 1 ≤ x ≤ 2147483646) by (unfold x; pose proof (Z.mod_pos_bound ctx 2147483646); lia). clearbody x.
  rewrite Z.quot_div_nonneg, Z.rem_mod_nonneg by lia.
  set (hi := x / 127773). set (lo := x mod 127773).
  assert (Hd : x = 127773 * hi + lo) by (apply Z.div_mod; lia).
  assert (Hlo : 0 ≤ lo < 127773) by (apply Z.mod_pos_bound; lia).
  assert (Hhi : 0 ≤ hi < 16808) by (split; [apply Z.div_pos; lia|apply Z.div_lt_upper_bound; lia]).
  change (7 ^ 5) with 16807. change (2 ^ 31 - 1) with 2147483647. change (2 ^ 31 - 3) with 2147483645.
  set (y := 16807 * lo - 2836 * hi). assert (He : 16807 * x = y + hi * 2147483647) by lia.
  assert (Hy : -47667488 ≤ y < 2147483647) by lia.
  assert (Hnz : y ≠ 0).
  { intros Hy0. assert (Hdiv : (2147483647 | x)).
    { apply (Z.gauss 2147483647 16807); [exists hi; lia|by vm_compute]. }
    apply Z.divide_pos_le in Hdiv; lia. }
  rewrite He, Z.mod_add by lia. destruct (Z.ltb_spec y 0) as [Hneg|Hpos].
  - rewrite <- (Z.mod_add y 1), Z.mod_small by lia. split_and!; lia.
  - rewrite Z.mod_small by lia. split_and!; lia.
Qed.

Lemma do_rand_minimal_witness : do_rand 1 + 1 = (7 ^ 5 * 2) mod (2 ^ 31 - 1).
Proof. refine (proj1 (do_rand_minimal 1 _)). lia. Defined.

(** *** stressfs *)

Section stressfs.
Context {W : Type} `{HO : Os W}.

Lemma putcs_returns w fd bs : ∃ w', returns w (putcs fd bs) w' ().
Proof.
  revert w. induction bs as [|b bs IH]; intros w; [exists w; apply returns_ret|].
  destruct (IH (os_call _ (Write fd [b]) w).1) as [w' R]. exists w'. eapply returns_bind; [apply returns_call|exact R].
Qed.
Lemma each_returns {A} w (l : list A) f : (∀ w x, ∃ w', returns w (f x) w' ()) → ∃ w', returns w (each l f) w' ().
Proof.
  intros Hf. revert w. induction l as [|x l IH]; intros w; [exists w; apply returns_ret|].
  destruct (Hf w x) as [w1 R1], (IH w1) as [w2 R2]. exists w2. by eapply returns_bind.
Qed.
Lemma call_returns {T} w (e : sysE T) : ∃ w', returns w (call e ;; mret ()) w' ().
Proof. eexists. eapply returns_bind; [apply returns_call|apply returns_ret]. Qed.
Lemma stressfs_forks w n i : ∃ w' j, returns w (stressfs_fork n i) w' j ∧ i ≤ j ≤ i + Z.of_nat n.
Proof.
  revert w i. induction n as [|n IH]; intros w i; [exists w, i; split; [apply returns_ret|lia]|].
  cbn [stressfs_fork]. pose proof (returns_call w Fork) as R1. destruct (0 <? (os_call _ Fork w).2) eqn:Hp.
  - eexists _, i. split; [|lia]. eapply returns_bind; [exact R1|]. rewrite Hp. apply returns_ret.
  - destruct (IH (os_call _ Fork w).1 (i + 1)) as (w' & j & R & Hj). exists w', j. split; [|lia].
    eapply returns_bind; [exact R1|]. by rewrite Hp.
Qed.

(** On any system, whatever its calls return, stressfs ends with status 0. *)
Lemma stressfs_ends w : ∃ w', ends w stressfs_main w' 0.
Proof.
  unfold stressfs_main, printf, fprintf. destruct (putcs_returns w 1 (fprintf_bytes (line "stressfs starting") [])) as [w1 R1].
  destruct (stressfs_forks w1 4 0) as (w2 & i & R2 & _). destruct (putcs_returns w2 1 (fprintf_bytes (line "write %d") [Vint i])) as [w3 R3].
  set (path := bytes_of "stressfs" ++ [u8 (48 + i)]). pose proof (returns_call w3 (Open path O_NEW)) as R4. destruct (os_call _ _ w3) as [w4 fd].
  destruct (each_returns w4 (seq 0 20) (λ _, call (Write fd (replicate 512 97)) ;; mret ())) as [w5 R5]; [intros; apply call_returns|].
  pose proof (returns_call w5 (Close fd)) as R6. destruct (os_call _ _ w5) as [w6 r6].
  destruct (putcs_returns w6 1 (fprintf_bytes (line "read") [])) as [w7 R7].
  pose proof (returns_call w7 (Open path O_RDONLY)) as R8. destruct (os_call _ _ w7) as [w8 fd'].
  destruct (each_returns w8 (seq 0 20) (λ _, call (Read fd' 512) ;; mret ())) as [w9 R9]; [intros; apply call_returns|].
  exists ((os_call _ Wait (os_call _ (Close fd') w9).1).1).
  eapply ends_bind; [exact R1|]. eapply ends_bind; [exact R2|]. eapply ends_bind; [exact R3|]. eapply ends_bind; [exact R4|].
  eapply ends_bind; [exact R5|]. eapply ends_bind; [exact R6|]. eapply ends_bind; [exact R7|]. eapply ends_bind; [exact R8|].
  eapply ends_bind; [exact R9|]. eapply ends_bind; [apply returns_call|]. eapply ends_bind; [apply returns_call|apply ends_exit].
Qed.
End stressfs.

(** *** The parents of logstress and grind *)

Section parents.
Context {W : Type} `{HO : Os W, HS : !OsSpec W}.

Lemma logstress_forked w name files pids more i : Forall (λ pid, 0 < pid) pids → length pids = length files →
  (os_abs w).(forks) = pids ++ more → ∃ w', returns w (logstress_forks name files i) w' () ∧ os_abs w' = set_forks (λ _, more) (os_abs w).
Proof.
  intros Hp. revert w files i. induction Hp as [|pid pids Hpid _ IH]; intros w [|f files] i Hn Hf; try done; cbn [logstress_forks].
  - exists w. split; [apply returns_ret|]. cbn in Hf. rewrite <- Hf. by destruct (os_abs w).
  - destruct (returns_fork_next w pid (pids ++ more) Hf) as (w1 & R1 & E1).
    destruct (IH w1 files (i + 1)) as (w2 & R2 & E2); [by injection Hn|by rewrite E1|]. exists w2. split; [|by rewrite E2, E1].
    eapply returns_bind; [exact R1|]. by rewrite (proj2 (Z.ltb_ge pid 0)), (proj2 (Z.eqb_neq pid 0)) by lia.
Qed.

(** The first status that is not 0. *)
Definition first_bad (l : list (Z * Z)) : option Z := head (filter (λ st, st ≠ 0) l.*2).

Lemma logstress_waited w l rest xstatus : Forall (λ x : Z * Z, 0 ≤ x.1) l → (os_abs w).(waits) = l ++ rest →
  ∃ w', match first_bad l with
    | Some st => ends w (logstress_waits (length l) xstatus) w' st
    | None => returns w (logstress_waits (length l) xstatus) w' ()
    end.
Proof.
  intros Hl. revert w xstatus. induction Hl as [|[pid st] l Hpid _ IH]; intros w xstatus Hw; cbn [length logstress_waits]; [exists w; apply returns_ret|].
  destruct (returns_wait_next w _ _ Hw) as (w1 & R1 & E1). cbn in Hpid. unfold first_bad. cbn [fmap list_fmap snd]. rewrite filter_cons.
  destruct (decide (st = 0)) as [->|Hst].
  - rewrite decide_False by tauto. destruct (IH w1 0) as [w2 R2]; [by rewrite E1|]. exists w2. unfold first_bad in R2.
    destruct (head _) as [st|]; [eapply ends_bind|eapply returns_bind]; try exact R1; cbn; by rewrite (proj2 (Z.ltb_ge pid 0)).
  - rewrite decide_True by done. cbn [head]. exists w1. eapply ends_bind; [exact R1|]. cbn. rewrite (proj2 (Z.ltb_ge pid 0)) by done.
    rewrite (proj2 (Z.eqb_neq st 0)) by done. apply ends_exit.
Qed.

(** logstress ends with the first status of its children that is not 0, or
    with 0. *)
Lemma logstress_status w name files pids xstatus : Forall (λ pid, 0 < pid) pids → (os_abs w).(forks) = pids → length pids = length files →
  length (os_abs w).(waits) = length files → Forall (λ x, 0 ≤ x.1) (os_abs w).(waits) →
  ∃ w', ends w (logstress_main xstatus (name :: files)) w' (default 0 (first_bad (os_abs w).(waits))).
Proof.
  intros Hp Hf Hn Hl Hw. destruct (logstress_forked w name files pids [] 1) as (w1 & R1 & E1); [done|done|by rewrite app_nil_r|].
  destruct (logstress_waited w1 (os_abs w).(waits) [] xstatus) as [w2 R2]; [done|by rewrite E1, app_nil_r|]. exists w2. rewrite Hl in R2.
  unfold logstress_main, start. cbn [args tail]. destruct (first_bad _) as [st|]; cbn [default from_option id].
  - apply ends_now. eapply ends_bind; [exact R1|exact R2].
  - eapply (ends_bind w w2 w2 _ ()); [|apply ends_exit]. eapply returns_bind; [exact R1|exact R2].
Qed.

(** A round of grind ends with status 0; if a child failed, it kills both. *)
Lemma grind_iter_parent w rand p1 p2 p st l : 0 < p1 → 0 < p2 → 0 ≤ p → (os_abs w).(forks) = [p1; p2] → (os_abs w).(waits) = (p, st) :: l →
  ∃ w' ra rb r1 r2, ends w (grind_iter rand) w' 0 ∧
    (os_abs w').(acts) = (os_abs w).(acts) ++ [act (Unlink (bytes_of "a")) ra; act (Unlink (bytes_of "b")) rb] ++
      if st =? 0 then [] else [act (Kill p1) r1; act (Kill p2) r2].
Proof.
  intros H1 H2 Hp Hf Hw. unfold grind_iter.
  pose proof (returns_call w (Unlink (bytes_of "a"))) as R1. pose proof (os_meets _ (Unlink (bytes_of "a")) w) as E1. cbn in E1.
  destruct (os_call _ _ w) as [w1 ra]. cbn [fst snd] in R1, E1.
  pose proof (returns_call w1 (Unlink (bytes_of "b"))) as R2. pose proof (os_meets _ (Unlink (bytes_of "b")) w1) as E2. cbn in E2.
  destruct (os_call _ _ w1) as [w2 rb]. cbn [fst snd] in R2, E2. rewrite E1 in E2.
  destruct (returns_fork_next w2 p1 [p2]) as (w3 & R3 & E3); [by rewrite E2|]. rewrite E2 in E3.
  destruct (returns_fork_next w3 p2 []) as (w4 & R4 & E4); [by rewrite E3|]. rewrite E3 in E4.
  destruct (returns_wait_next w4 (p, st) l) as (w5 & R5 & E5); [by rewrite E4|]. rewrite E4 in E5.
  assert (∃ w6 r1 r2, returns w5 (if negb (st =? 0) then call (Kill p1) ;; call (Kill p2) ;; mret () else mret ()) w6 () ∧
    (os_abs w6).(acts) = (os_abs w5).(acts) ++ if st =? 0 then [] else [act (Kill p1) r1; act (Kill p2) r2]) as (w6 & r1 & r2 & R6 & E6).
  { destruct (st =? 0); cbn [negb]; [exists w5, 0, 0; split; [apply returns_ret|by rewrite app_nil_r]|].
    pose proof (os_meets _ (Kill p1) w5) as K1. cbn in K1. pose proof (os_meets _ (Kill p2) (os_call _ (Kill p1) w5).1) as K2. cbn in K2.
    eexists _, _, _. split; [eapply returns_bind; [apply returns_call|]; eapply returns_bind; [apply returns_call|apply returns_ret]|].
    rewrite K2, K1. cbn. by rewrite <- app_assoc. }
  pose proof (os_meets _ Wait w6) as [_ E7]. exists (os_call _ Wait w6).1, ra, rb, r1, r2. split.
  - eapply ends_bind; [exact R1|]. eapply ends_bind; [exact R2|]. eapply ends_bind; [exact R3|].
    rewrite (proj2 (Z.ltb_ge p1 0)), (proj2 (Z.eqb_neq p1 0)) by lia. eapply ends_bind; [exact R4|].
    rewrite (proj2 (Z.ltb_ge p2 0)), (proj2 (Z.eqb_neq p2 0)) by lia. eapply ends_bind; [exact R5|]. cbn beta iota.
    rewrite (proj2 (Z.ltb_ge p 0)) by lia. eapply ends_bind; [exact R6|]. eapply ends_bind; [apply returns_call|apply ends_exit].
  - rewrite E7. cbn [acts set_waits]. rewrite E6, E5. cbn. by rewrite <- !app_assoc.
Qed.
End parents.
