(* ===== verification/Umalloc.v ===== *)
(** user/umalloc.c: the allocator of the user library, a circular list of free
    blocks in address order.

    Addresses count headers (16 bytes), so that pointer arithmetic on Header
    is addition.  sbrk is a parameter; it is given the current break in bytes
    and returns the new one, or [None] for SBRK_ERROR. *)

From S2P Require Import Prelude.
Local Open Scope Z_scope.

Record header : Type := mk_header { ptr : Z; size : Z }.

Record heap : Type := mk_heap { hdr : Z → header; freep : option Z; brk : Z }.

Definition upd {A} (i : Z) (x : A) (f : Z → A) : Z → A := λ j, if j =? i then x else f j.
Definition set_ptr (i p : Z) (h : Z → header) : Z → header := upd i (mk_header p (h i).(size)) h.
Definition set_size (i n : Z) (h : Z → header) : Z → header := upd i (mk_header (h i).(ptr) n) h.

Definition HSIZE : Z := 16.

Section umalloc.
(** The address of the static header [base], and sbrk. *)
Variable base : Z.
Variable sbrk : Z → Z → option Z.

(** The search of free for the block before [bp]. *)
Fixpoint free_find (n : nat) (h : Z → header) (bp p : Z) : option Z :=
  match n with
  | O => None
  | S n =>
      let next := (h p).(ptr) in
      if (p <? bp) && (bp <? next) then Some p
      else if (next <=? p) && ((p <? bp) || (bp <? next)) then Some p
      else free_find n h bp next
  end.

(** The end of free: joining [bp] with the block after it. *)
Definition join_next (h : Z → header) (bp next : Z) : Z → header :=
  if bp + (h bp).(size) =? next then
    let h := set_size bp (u32 ((h bp).(size) + (h next).(size))) h in
    set_ptr bp (h next).(ptr) h
  else set_ptr bp next h.

(** And with the block before it, or linking it after that block. *)
Definition free_link (h : Z → header) (bp p : Z) : Z → header :=
  let h := join_next h bp (h p).(ptr) in
  if p + (h p).(size) =? bp then
    let h := set_size p (u32 ((h p).(size) + (h bp).(size))) h in
    set_ptr p (h bp).(ptr) h
  else set_ptr p bp h.

(** [None] when the search does not end. *)
Definition free (n : nat) (ap : Z) (s : heap) : option heap :=
  let bp := ap - 1 in
  start ← s.(freep);
  p ← free_find n s.(hdr) bp start;
  Some (mk_heap (free_link s.(hdr) bp p) (Some p) s.(brk)).

(** The result is null when sbrk fails. *)
Definition morecore (n : nat) (nu : Z) (s : heap) : option (option Z * heap) :=
  let nu := if nu <? 4096 then 4096 else nu in
  match sbrk s.(brk) (s32 (nu * HSIZE)) with
  | None => Some (None, s)
  | Some brk' =>
      let hp := s.(brk) / HSIZE in
      s ← free n (hp + 1) (mk_heap (set_size hp nu s.(hdr)) s.(freep) brk');
      Some (s.(freep), s)
  end.

(** A block that fits: unlinked, or cut at its end. *)
Definition take_block (nunits prevp p : Z) (s : heap) : Z * heap :=
  if (s.(hdr) p).(size) =? nunits then
    (p + 1, mk_heap (set_ptr prevp (s.(hdr) p).(ptr) s.(hdr)) (Some prevp) s.(brk))
  else
    let h := set_size p ((s.(hdr) p).(size) - nunits) s.(hdr) in
    let p := p + (h p).(size) in
    (p + 1, mk_heap (set_size p nunits h) (Some prevp) s.(brk)).

Fixpoint malloc_loop (n m : nat) (nunits prevp p : Z) (s : heap) : option (option Z * heap) :=
  match n with
  | O => None
  | S n =>
      if nunits <=? (s.(hdr) p).(size) then
        let '(r, s) := take_block nunits prevp p s in Some (Some r, s)
      else if bool_decide (s.(freep) = Some p) then
        '(r, s) ← morecore m nunits s;
        match r with
        | None => Some (None, s)
        | Some p => malloc_loop n m nunits p (s.(hdr) p).(ptr) s
        end
      else malloc_loop n m nunits p (s.(hdr) p).(ptr) s
  end.

(** The first call makes the list of [base] alone. *)
Definition init_list (s : heap) : heap :=
  match s.(freep) with
  | Some _ => s
  | None => mk_heap (upd base (mk_header base 0) s.(hdr)) (Some base) s.(brk)
  end.

(** The size of a block of [nbytes], its header included. *)
Definition units (nbytes : Z) : Z := u32 ((nbytes + HSIZE - 1) / HSIZE + 1).

(** [n] bounds the steps of the loop, [m] those of the search in free. *)
Definition malloc (n m : nat) (nbytes : Z) (s : heap) : option (option Z * heap) :=
  let s := init_list s in
  prevp ← s.(freep);
  malloc_loop n m (units nbytes) prevp (s.(hdr) prevp).(ptr) s.

(** ** The free list *)

(** Each block of [r] points to the next, the last one to [y]. *)
Fixpoint path (h : Z → header) (r : list Z) (y : Z) : Prop :=
  match r with [] => True | x :: r => (h x).(ptr) = hd y r ∧ path h r y end.

(** The blocks of [r] lie between [lo] and [hi] in address order, and no two
    of them touch. *)
Fixpoint lay (h : Z → header) (lo : Z) (r : list Z) (hi : Z) : Prop :=
  match r with
  | [] => lo ≤ hi
  | x :: r => lo < x ∧ 0 ≤ (h x).(size) ∧ lay h (x + (h x).(size)) r hi
  end.

Lemma path_app h a b y : path h (a ++ b) y ↔ path h a (hd y b) ∧ path h b y.
Proof. induction a as [|x a IH]; cbn; [tauto|]. rewrite IH. destruct a; cbn; tauto. Qed.

Lemma lay_app h lo a x b hi : lay h lo (a ++ x :: b) hi ↔
  lay h lo a (x - 1) ∧ 0 ≤ (h x).(size) ∧ lay h (x + (h x).(size)) b hi.
Proof.
  revert lo. induction a as [|z a IH]; intros lo; cbn.
  - split; intros (? & ? & ?); (split; [lia|done]).
  - rewrite IH. tauto.
Qed.

Lemma lay_le h lo r hi : lay h lo r hi → lo ≤ hi.
Proof. revert lo. induction r as [|z r IH]; intros lo; cbn; [done|]. intros (? & ? & H). specialize (IH _ H). lia. Qed.

Lemma lay_bounds h lo r hi x : lay h lo r hi → x ∈ r → lo < x ∧ 0 ≤ (h x).(size) ∧ x + (h x).(size) ≤ hi.
Proof.
  revert lo. induction r as [|z r IH]; intros lo; [by intros _ ?%not_elem_of_nil|].
  cbn. intros (H1 & H2 & H3) [->|Hx]%elem_of_cons; [pose proof (lay_le _ _ _ _ H3); lia|].
  specialize (IH _ H3 Hx). lia.
Qed.

Lemma lay_lo h lo lo' r hi : lay h lo r hi → lo' ≤ lo → lay h lo' r hi.
Proof. destruct r; cbn; [lia|]. intros (? & ? & ?) ?. split; [lia|done]. Qed.

Lemma lay_hi h lo r hi hi' : lay h lo r hi → hi ≤ hi' → lay h lo r hi'.
Proof. revert lo. induction r as [|x r IH]; intros lo; cbn; [lia|]. intros (? & ? & ?) ?. eauto. Qed.

Lemma path_ext h h' r y : (∀ x, x ∈ r → (h' x).(ptr) = (h x).(ptr)) → path h r y → path h' r y.
Proof.
  induction r as [|x r IH]; cbn; [done|]. intros He [H1 H2]. split; [rewrite He; [done|set_solver]|].
  apply IH; [|done]. intros z Hz. apply He. set_solver.
Qed.

Lemma lay_ext h h' lo r hi : (∀ x, x ∈ r → (h' x).(size) = (h x).(size)) → lay h lo r hi → lay h' lo r hi.
Proof.
  revert lo. induction r as [|x r IH]; intros lo; cbn; [done|]. intros He (H1 & H2 & H3).
  rewrite He by set_solver. split; [done|]. split; [done|]. apply IH; [|done]. intros z Hz. apply He. set_solver.
Qed.

(** ** The search of free *)

(** Going up from a block below [bp]. *)
Lemma find_up h bp x r hi n : path h (x :: r) base → lay h (base - 1) (x :: r) hi →
  base < bp → x < bp → bp ∉ r → (length r < n)%nat →
  ∃ a q b, x :: r = a ++ q :: b ∧ free_find n h bp x = Some q ∧ q < bp ∧ Forall (λ z, bp < z) b.
Proof.
  intros Hp Hl Hb. revert x n Hp Hl. induction r as [|z r IH]; intros x n [Hx Hp] Hl Hxb Hn Hlen;
    (destruct n as [|n]; [cbn in Hlen; lia|]); cbn [free_find hd] in *; rewrite Hx.
  - exists [], x, []. split; [done|]. split; [|by split]. destruct (_ && _); [done|].
    cbn in Hl. rewrite (proj2 (Z.leb_le base x)), (proj2 (Z.ltb_lt x bp)) by lia. done.
  - apply not_elem_of_cons in Hn as [Hz Hn]. destruct Hl as (Hl1 & Hl2 & Hl3).
    assert (x < z) as Hxz by (destruct Hl3; lia).
    rewrite (proj2 (Z.ltb_lt x bp)) by done. cbn [andb]. destruct (Z.ltb_spec bp z).
    + exists [], x, (z :: r). split; [done|]. split; [done|]. split; [done|].
      apply Forall_forall. intros y [->|Hy]%elem_of_cons; [done|]. destruct Hl3 as (_ & ? & Hl3).
      pose proof (lay_bounds _ _ _ _ _ Hl3 Hy). lia.
    + rewrite (proj2 (Z.leb_gt z x)) by done. cbn [andb].
      destruct (IH z n) as (a & q & b & Heq & Hf & Hq & Hb'); [done| |lia|done|cbn in Hlen; lia|].
      { eapply lay_lo; [exact Hl3|]. lia. }
      exists (x :: a), q, b. cbn. by rewrite Heq.
Qed.

(** From a block above [bp] the search comes round to [base]. *)
Lemma find_wrap h bp x r hi n : path h (x :: r) base → lay h (base - 1) (x :: r) hi →
  base < bp → bp < x → free_find (S (length r) + n) h bp x = free_find n h bp base.
Proof.
  intros Hp Hl Hb. revert x Hp Hl. induction r as [|z r IH]; intros x [Hx Hp] Hl Hxb;
    cbn [length Nat.add free_find hd] in *; rewrite Hx.
  - rewrite (proj2 (Z.ltb_ge x bp)), (proj2 (Z.ltb_ge bp base)) by lia. cbn. by rewrite andb_false_r.
  - destruct Hl as (Hl1 & Hl2 & Hl3). assert (x < z) as Hxz by (destruct Hl3; lia).
    rewrite (proj2 (Z.ltb_ge x bp)), (proj2 (Z.leb_gt z x)) by lia. cbn [andb].
    apply IH; [done| |lia]. eapply lay_lo; [exact Hl3|]. lia.
Qed.

(** The block before [bp], from any block of the list. *)
Lemma find_any h bp l p hi n : path h (base :: l) base → lay h (base - 1) (base :: l) hi →
  base < bp → bp ∉ l → p ∈ base :: l → (2 * length l + 2 < n)%nat →
  ∃ a q b, base :: l = a ++ q :: b ∧ free_find n h bp p = Some q ∧ q < bp ∧ Forall (λ z, bp < z) b.
Proof.
  intros Hp Hl Hb Hn Hin Hlen. pose proof (lay_bounds _ _ _ _ _ Hl Hin) as (Hlo & _).
  assert (bp ∉ base :: l) as Hnr by (apply not_elem_of_cons; split; [lia|done]).
  destruct (list_elem_of_split _ _ Hin) as (a & b & Hab).
  assert (length a + S (length b) = S (length l))%nat as Hlen'
    by (change (S (length l)) with (length (base :: l)); rewrite Hab, length_app; done).
  assert (path h (p :: b) base ∧ lay h (base - 1) (p :: b) hi) as [Hpb Hlb].
  { rewrite Hab in Hp, Hl. apply path_app in Hp as [_ Hp]. split; [done|].
    apply lay_app in Hl as (_ & H0 & Hl2). by split. }
  rewrite Hab in Hnr. apply not_elem_of_app in Hnr as [_ [Hpb' Hnb]%not_elem_of_cons].
  destruct (Z.lt_trichotomy p bp) as [Hlt|[->|Hgt]]; [|done|].
  - destruct (find_up h bp p b hi n) as (a' & q & b' & Heq & Hf & Hq & Hb'); [done..|lia|].
    exists (a ++ a'), q, b'. by rewrite Hab, Heq, <-app_assoc.
  - replace n with (S (length b) + (n - S (length b)))%nat by lia. rewrite (find_wrap _ _ _ _ hi) by done.
    apply find_up with hi; try done. lia.
Qed.

(** ** Linking a block *)

(** The addresses that blocks of [l] cover. *)
Definition cell (h : Z → header) (l : list Z) (x : Z) : Prop :=
  ∃ z, z ∈ l ∧ z ≤ x < z + (h z).(size).

Lemma cell_cons h z l x : cell h (z :: l) x ↔ z ≤ x < z + (h z).(size) ∨ cell h l x.
Proof.
  unfold cell. split.
  - intros (y & [->|Hy]%elem_of_cons & Hx); [by left|right; eauto].
  - intros [Hx|(y & Hy & Hx)]; [exists z|exists y]; (split; [set_solver|done]).
Qed.

Lemma cell_app h a b x : cell h (a ++ b) x ↔ cell h a x ∨ cell h b x.
Proof. unfold cell. setoid_rewrite elem_of_app. naive_solver. Qed.

Lemma cell_ext h h' l x : (∀ z, z ∈ l → (h' z).(size) = (h z).(size)) → cell h' l x ↔ cell h l x.
Proof. intros He. unfold cell. split; intros (z & Hz & Hx); exists z; rewrite He in * by done; done. Qed.

Lemma upd_eq {A} i (x : A) f : upd i x f i = x.
Proof. unfold upd. by rewrite Z.eqb_refl. Qed.
Lemma upd_ne {A} i j (x : A) f : j ≠ i → upd i x f j = f j.
Proof. intros H. unfold upd. by rewrite (proj2 (Z.eqb_neq j i)). Qed.

Lemma set_size_eq i n h : (set_size i n h i).(size) = n.
Proof. unfold set_size. by rewrite upd_eq. Qed.

Hypothesis base_nonneg : 0 ≤ base.

Lemma join_next_ok h bp b hi : base < bp → 1 ≤ (h bp).(size) → bp + (h bp).(size) ≤ hi →
  hi < 2 ^ 32 → (∀ z, z ∈ b → bp + (h bp).(size) ≤ z) →
  path h b base → (∀ z b', b = z :: b' → 0 ≤ (h z).(size) ∧ lay h (z + (h z).(size)) b' hi) →
  let h1 := join_next h bp (hd base b) in
  ∃ b1, (∀ z, z ∈ b1 → z ∈ b) ∧ (length b1 ≤ length b)%nat ∧ (h1 bp).(ptr) = hd base b1 ∧
    (h bp).(size) ≤ (h1 bp).(size) ∧ path h b1 base ∧ lay h (bp + (h1 bp).(size)) b1 hi ∧
    (∀ x, cell h1 [bp] x ∨ cell h b1 x ↔ cell h [bp] x ∨ cell h b x).
Proof.
  intros Hb Hk Hhi Hmax Hz Hp Hl h1. unfold h1, join_next. clear h1.
  assert (∀ h x, cell h [bp] x ↔ bp ≤ x < bp + (h bp).(size)) as Hc1.
  { intros h' x. rewrite cell_cons. unfold cell. set_solver. }
  destruct b as [|z b]; cbn [hd].
  - rewrite (proj2 (Z.eqb_neq _ _)) by lia. exists []. unfold set_ptr. setoid_rewrite Hc1. rewrite upd_eq.
    cbn [ptr size path lay hd]. split; [done|]. split; [done|]. split; [done|]. split; [lia|]. split; [done|].
    split; [lia|]. done.
  - destruct (Hl z b eq_refl) as [Hs Hlb]. destruct Hp as [Hpz Hp].
    pose proof (Hz z ltac:(set_solver)) as Hzb. pose proof (lay_le _ _ _ _ Hlb) as Hzhi.
    destruct (Z.eqb_spec (bp + (h bp).(size)) z) as [He|He].
    + assert (z ≠ bp) as Hne by lia. exists b. unfold set_ptr, set_size. setoid_rewrite Hc1.
      rewrite !upd_eq, (upd_ne _ z) by done. cbn [ptr size]. unfold u32.
      rewrite Z.mod_small by lia. setoid_rewrite cell_cons.
      split; [set_solver|]. split; [cbn; lia|]. split; [done|]. split; [lia|]. split; [done|].
      split; [by rewrite Z.add_assoc, He|]. intros x. intuition lia.
    + exists (z :: b). unfold set_ptr. setoid_rewrite Hc1. rewrite upd_eq. cbn [ptr size hd].
      split; [done|]. split; [done|]. split; [done|]. split; [lia|]. split; [by split|].
      split; [|done]. split; [lia|]. by split.
Qed.

Lemma join_next_other h bp next x : x ≠ bp → join_next h bp next x = h x.
Proof. intros Hx. unfold join_next, set_ptr, set_size. case_match; by rewrite !upd_ne. Qed.

(** A list put together from its unchanged lower part, [q] and what is above. *)
Lemma reassemble h h2 a q m hi : path h a q → lay h (base - 1) a (q - 1) → (∀ z, z ∈ a → h2 z = h z) →
  (h2 q).(ptr) = hd base m → path h2 m base → 0 ≤ (h2 q).(size) → lay h2 (q + (h2 q).(size)) m hi →
  path h2 (a ++ q :: m) base ∧ lay h2 (base - 1) (a ++ q :: m) hi.
Proof.
  intros Hpa Hla Ha Hq Hpm Hs Hlm. rewrite path_app, lay_app. cbn [hd path]. split.
  - split; [|done]. eapply path_ext; [|exact Hpa]. intros z Hz. by rewrite Ha.
  - split; [|done]. eapply lay_ext; [|exact Hla]. intros z Hz. by rewrite Ha.
Qed.

Lemma cell_one h z x : cell h [z] x ↔ z ≤ x < z + (h z).(size).
Proof. rewrite cell_cons. unfold cell. set_solver. Qed.

Lemma cell_same h h' l x : (∀ z, z ∈ l → h' z = h z) → cell h' l x ↔ cell h l x.
Proof. intros H. apply cell_ext. intros z Hz. by rewrite H. Qed.

(** Linking [bp] between the block [q] and the blocks [b] above it. *)
Lemma free_link_ok h a q b bp hi :
  path h (a ++ q :: b) base → lay h (base - 1) (a ++ q :: b) hi →
  base < bp → 1 ≤ (h bp).(size) → bp + (h bp).(size) ≤ hi → hi < 2 ^ 32 →
  q + (h q).(size) ≤ bp → (∀ z, z ∈ b → bp + (h bp).(size) ≤ z) →
  let h' := free_link h bp q in
  ∃ m, path h' (a ++ q :: m) base ∧ lay h' (base - 1) (a ++ q :: m) hi ∧
    (length m ≤ S (length b))%nat ∧ (∀ z, z ∈ m → z = bp ∨ z ∈ b) ∧
    (q + (h q).(size) ≠ bp → (h' q).(size) = (h q).(size)) ∧
    (q ≠ bp) ∧ (∀ z, z ≠ q → z ≠ bp → h' z = h z) ∧ (h q).(size) ≤ (h' q).(size) ∧
    (bp ∈ m → 1 ≤ (h' bp).(size)) ∧
    (∀ x, cell h' (a ++ q :: m) x ↔ cell h (a ++ q :: b) x ∨ bp ≤ x < bp + (h bp).(size)).
Proof.
  intros Hp Hl Hb Hk Hhi Hmax Hq Hz h'.
  apply path_app in Hp as [Hpa [Hpq Hpb]]. cbn [hd] in Hpa.
  apply lay_app in Hl as (Hla & Hsq & Hlb).
  assert (base - 1 < q) as Hbq by (apply lay_le in Hla; lia).
  destruct (decide (q = bp)) as [->|Hqb]; [lia|].
  destruct (join_next_ok h bp b hi) as (b1 & Hsub & Hlen & Hptr & Hk1 & Hpb1 & Hlb1 & Hcells); try done.
  { intros z b' ->. destruct Hlb as (_ & ? & ?). done. }
  unfold h', free_link. clear h'. rewrite Hpq.
  set (h1 := join_next h bp (hd base b)) in *. set (k1 := (h1 bp).(size)) in *.
  assert (∀ z, z ≠ bp → h1 z = h z) as Hh1 by (intros; by apply join_next_other).
  rewrite (Hh1 q Hqb).
  (* blocks of [a] and [b1] are neither [q] nor [bp] *)
  assert (∀ z, z ∈ a ∨ z ∈ b1 → z ≠ q ∧ z ≠ bp) as Hother.
  { intros z [Ha|Hb1]; [pose proof (lay_bounds _ _ _ _ _ Hla Ha)|specialize (Hz z (Hsub z Hb1))]; lia. }
  destruct (Z.eqb_spec (q + (h q).(size)) bp) as [He|He].
  - set (h2 := set_ptr q _ _).
    assert (h2 q = mk_header (h1 bp).(ptr) (u32 ((h q).(size) + k1))) as H2q.
    { unfold h2, set_ptr, set_size. rewrite !upd_eq, upd_ne by done. done. }
    assert (∀ z, z ≠ q → h2 z = h1 z) as H2 by (intros z Hzq; unfold h2, set_ptr, set_size; by rewrite !upd_ne).
    pose proof (lay_le _ _ _ _ Hlb1) as Hle. unfold u32 in H2q. rewrite Z.mod_small in H2q by lia.
    assert (∀ z, z ∈ a ∨ z ∈ b1 → h2 z = h z) as H2o
      by (intros z Hz'; destruct (Hother z Hz'); by rewrite H2, Hh1).
    exists b1. destruct (reassemble h h2 a q b1 hi) as [H3 H4]; rewrite ?H2q; cbn [ptr size]; auto; [|lia| |].
    { eapply path_ext; [|exact Hpb1]. intros z Hz'. by rewrite H2o by auto. }
    { eapply lay_ext; [|]. { intros z Hz'. rewrite H2o by auto. reflexivity. }
      by replace (q + ((h q).(size) + k1)) with (bp + k1) by lia. }
    split; [exact H3|]. split; [exact H4|]. split; [lia|]. split; [auto|]. split; [done|].
    split; [done|]. split; [intros z Hzq Hzb; by rewrite H2, Hh1|]. split; [cbn; lia|].
    split; [intros Hin; destruct (Hother bp (or_intror Hin)); done|].
    intros x. rewrite !cell_app, !cell_cons, H2q, !(cell_same h h2) by auto. cbn [size].
    specialize (Hcells x). rewrite !cell_one in Hcells. fold k1 in Hcells.
    assert (q ≤ x < q + ((h q).(size) + k1) ↔ q ≤ x < q + (h q).(size) ∨ bp ≤ x < bp + k1) as -> by lia.
    tauto.
  - set (h2 := set_ptr q bp h1).
    assert (h2 q = mk_header bp (h q).(size)) as H2q by (unfold h2, set_ptr; by rewrite upd_eq, Hh1).
    assert (∀ z, z ≠ q → h2 z = h1 z) as H2 by (intros z Hzq; unfold h2, set_ptr; by rewrite !upd_ne).
    assert (∀ z, z ∈ a ∨ z ∈ b1 → h2 z = h z) as H2o
      by (intros z Hz'; destruct (Hother z Hz'); by rewrite H2, Hh1).
    exists (bp :: b1). destruct (reassemble h h2 a q (bp :: b1) hi) as [H3 H4];
      rewrite ?H2q; cbn [ptr size hd]; auto.
    { split; [by rewrite H2|]. eapply path_ext; [|exact Hpb1]. intros z Hz'. by rewrite H2o by auto. }
    { split; [lia|]. rewrite (H2 bp) by done. fold k1. split; [lia|].
      eapply lay_ext; [|exact Hlb1]. intros z Hz'. by rewrite H2o by auto. }
    split; [exact H3|]. split; [exact H4|]. split; [cbn; lia|].
    split; [intros z [->|Hz']%elem_of_cons; auto|]. split; [done|].
    split; [done|]. split; [intros z Hzq Hzb; by rewrite H2, Hh1|]. split; [cbn; lia|].
    split; [intros _; rewrite H2 by done; fold k1; lia|].
    intros x. rewrite !cell_app, !cell_cons, H2q, (H2 bp), !(cell_same h h2) by auto. cbn [size].
    specialize (Hcells x). rewrite !cell_one in Hcells. fold k1 in Hcells |- *. tauto.
Qed.

(** ** The heap invariant

    The free list is [base], of size 0, and the blocks [l] above it in address
    order, below the break; [freep] is somewhere in it.  The break stays
    below 2^36, so that sizes fit their 32 bits. *)
Record heap_ok (s : heap) (l : list Z) : Prop := {
  ho_path : path s.(hdr) (base :: l) base;
  ho_lay : lay s.(hdr) (base - 1) (base :: l) (s.(brk) / HSIZE);
  ho_base : (s.(hdr) base).(size) = 0;
  ho_above : base < s.(brk) / HSIZE;
  ho_size : Forall (λ z, 1 ≤ (s.(hdr) z).(size)) l;
  ho_freep : ∃ p, s.(freep) = Some p ∧ p ∈ base :: l;
  ho_brk : s.(brk) mod HSIZE = 0;
  ho_max : s.(brk) < 2 ^ 36 }.

Lemma heap_max s l : heap_ok s l → s.(brk) / HSIZE < 2 ^ 32.
Proof. intros []. apply Z.div_lt_upper_bound; unfold HSIZE; lia. Qed.

Lemma head_cell s l z : heap_ok s l → z ∈ l → cell s.(hdr) l z.
Proof.
  intros Hok Hz. pose proof (proj1 (Forall_forall _ _) (ho_size _ _ Hok) z Hz). cbn in *.
  exists z. by split; [|lia].
Qed.

Lemma base_lt h l hi z : lay h (base - 1) (base :: l) hi → z ∈ l → base + (h base).(size) < z.
Proof. intros (_ & _ & Hl) Hz. by apply (lay_bounds _ _ _ _ _ Hl Hz). Qed.

(** A block apart from the free cells is below or above each free block. *)
Lemma apart h l bp k z : z ∈ l → 1 ≤ (h z).(size) → 1 ≤ k →
  (∀ x, bp ≤ x < bp + k → ¬ cell h l x) → z + (h z).(size) ≤ bp ∨ bp + k ≤ z.
Proof.
  intros Hz Hs Hk Hd. destruct (decide (z + (h z).(size) ≤ bp ∨ bp + k ≤ z)) as [|Hn]; [done|].
  destruct (Hd (bp `max` z)); [lia|]. exists z. split; [done|lia].
Qed.

(** free ends, and adds the block to the free cells. *)
Lemma free_ok n bp s l : heap_ok s l → base < bp → 1 ≤ (s.(hdr) bp).(size) →
  bp + (s.(hdr) bp).(size) ≤ s.(brk) / HSIZE →
  (∀ x, bp ≤ x < bp + (s.(hdr) bp).(size) → ¬ cell s.(hdr) l x) → (2 * length l + 2 < n)%nat →
  ∃ s' l', free n (bp + 1) s = Some s' ∧ heap_ok s' l' ∧ s'.(brk) = s.(brk) ∧
    (length l' ≤ S (length l))%nat ∧ (∀ z, z ∉ base :: l → z ≠ bp → s'.(hdr) z = s.(hdr) z) ∧
    ∀ x, cell s'.(hdr) l' x ↔ cell s.(hdr) l x ∨ bp ≤ x < bp + (s.(hdr) bp).(size).
Proof.
  intros Hok Hb Hk Hhi Hd Hn. pose proof (heap_max _ _ Hok) as Hmax.
  destruct Hok as [Hp Hl H0 Hab Hs (p & Hfp & Hpin) Hbrk Hbmax].
  assert (∀ z, z ∈ l → z + (s.(hdr) z).(size) ≤ bp ∨ bp + (s.(hdr) bp).(size) ≤ z) as Hapart.
  { intros z Hz. by apply (apart _ l); [|apply (proj1 (Forall_forall _ _) Hs)|..]. }
  assert (bp ∉ l) as Hbl by (intros Hin; destruct (Hapart bp Hin); lia).
  destruct (find_any s.(hdr) bp l p _ n Hp Hl Hb Hbl Hpin Hn) as (a & q & b & Hr & Hf & Hqb & Hbb).
  assert (∀ z, z ∈ a ++ q :: b → z ≠ base → z ∈ l) as Hin by (rewrite <-Hr; set_solver).
  pose proof Hp as Hp'. pose proof Hl as Hl'. rewrite Hr in Hp', Hl'.
  destruct (free_link_ok s.(hdr) a q b bp _ Hp' Hl' Hb Hk Hhi Hmax)
    as (m & Gp & Gl & Glen & Gm & Gsame & _ & Go & Gq & Gbp & Gc).
  { destruct (decide (q = base)) as [->|Hqne]; [lia|].
    destruct (Hapart q); [apply Hin; [set_solver|done]|done|lia]. }
  { intros z Hz. pose proof (proj1 (Forall_forall _ _) Hbb z Hz). cbn in *.
    destruct (Hapart z) as [Hz'|Hz']; [apply Hin; [set_solver|lia]| |done].
    pose proof (lay_bounds _ _ _ _ z Hl' ltac:(set_solver)). lia. }
  set (h' := free_link s.(hdr) bp q) in *.
  assert (∃ l', a ++ q :: m = base :: l') as [l' Hr'] by (destruct a; injection Hr as <- ?; eauto).
  rewrite Hr' in Gp, Gl, Gc. rewrite <-Hr in Gc.
  assert ((h' base).(size) = 0) as G0.
  { destruct (decide (base = q)) as [<-|Hne]; [|rewrite Go by lia; done]. rewrite Gsame; lia. }
  exists (mk_heap h' (Some q) s.(brk)), l'. split; [|split; [split|]]; cbn [hdr freep brk]; try done.
  - unfold free. rewrite Hfp. cbn. replace (bp + 1 - 1) with bp by lia. by rewrite Hf.
  - apply Forall_forall. intros z Hz. pose proof (base_lt _ _ _ _ Gl Hz) as Hzb.
    assert (z ∈ a ++ q :: m) as Hzr by (rewrite Hr'; set_solver).
    destruct (decide (z = q)) as [->|Hzq].
    { assert (q ∈ l) as Hql by (apply Hin; [set_solver|lia]). pose proof (proj1 (Forall_forall _ _) Hs q Hql). cbn in *. lia. }
    destruct (decide (z = bp)) as [->|Hzbp].
    { apply Gbp. apply elem_of_app in Hzr as [Hza|Hzm]; [|set_solver].
      destruct Hbl. apply Hin; [set_solver|lia]. }
    rewrite Go by done. apply (proj1 (Forall_forall _ _) Hs). apply Hin; [|lia].
    apply elem_of_app in Hzr as [?|[?|Hzm]%elem_of_cons]; [set_solver|done|].
    destruct (Gm z Hzm); [done|set_solver].
  - exists q. split; [done|]. rewrite <-Hr'. set_solver.
  - split; [done|]. split; [|split].
    + apply (f_equal length) in Hr, Hr'. rewrite length_app in Hr, Hr'. cbn in Hr, Hr'. lia.
    + intros z Hz Hzb. apply Go; [|done]. intros ->. apply Hz. rewrite Hr. set_solver.
    + intros x. specialize (Gc x). rewrite !cell_cons, G0, H0 in Gc. intuition lia.
Qed.

(** ** Getting more memory *)
Hypothesis sbrk_grows : ∀ b n b', 0 ≤ n → sbrk b n = Some b' → b' = b + n ∧ b' < 2 ^ 36.

(** No two free blocks touch. *)
Lemma lay_gap h lo r hi z z' : lay h lo r hi → z ∈ r → z' ∈ r →
  z = z' ∨ z + (h z).(size) < z' ∨ z' + (h z').(size) < z.
Proof.
  revert lo. induction r as [|y r IH]; intros lo; [by intros _ ?%not_elem_of_nil|].
  intros (H1 & H2 & H3) [->|Hz]%elem_of_cons [->|Hz']%elem_of_cons; [by left| | |by eapply IH].
  - right; left. by apply (lay_bounds _ _ _ _ _ H3 Hz').
  - right; right. by apply (lay_bounds _ _ _ _ _ H3 Hz).
Qed.

(** So a run of free cells is in one block. *)
Lemma run_in_block h lo l hi x k : lay h lo l hi → 1 ≤ k → (∀ y, x ≤ y < x + k → cell h l y) →
  ∃ z, z ∈ l ∧ k ≤ (h z).(size).
Proof.
  intros Hl Hk Hrun. destruct (Hrun x) as (z & Hz & Hx); [lia|]. exists z. split; [done|].
  destruct (decide (x + k ≤ z + (h z).(size))); [lia|].
  destruct (Hrun (z + (h z).(size))) as (z' & Hz' & Hx'); [lia|].
  destruct (lay_gap _ _ _ _ _ _ Hl Hz Hz') as [->|[?|?]]; lia.
Qed.

(** The heap with a header written above its blocks and the break raised. *)
Lemma heap_ok_grow s l n b' : heap_ok s l → s.(brk) ≤ b' → b' mod HSIZE = 0 → b' < 2 ^ 36 →
  heap_ok (mk_heap (set_size (s.(brk) / HSIZE) n s.(hdr)) s.(freep) b') l.
Proof.
  intros Hok Hb Hmod Hmax. destruct Hok as [Hp Hl H0 Hab Hs Hfp Hbrk Hbmax].
  set (hp := s.(brk) / HSIZE) in *. set (h := set_size hp n s.(hdr)).
  assert (∀ z, z ∈ base :: l → h z = s.(hdr) z) as Hh.
  { intros z Hz. unfold h, set_size. apply upd_ne. destruct (decide (z = base)) as [->|Hzb]; [lia|].
    assert (z ∈ l) as Hzl by set_solver. pose proof (proj1 (Forall_forall _ _) Hs z Hzl).
    pose proof (lay_bounds _ _ _ _ _ Hl Hz). cbn in *. lia. }
  assert (hp ≤ b' / HSIZE) as Hle by (apply Z.div_le_mono; unfold HSIZE; lia).
  split; cbn [hdr freep brk]; try done.
  - eapply path_ext; [|exact Hp]. intros z Hz. by rewrite Hh.
  - eapply lay_hi; [|exact Hle]. eapply lay_ext; [|exact Hl]. intros z Hz. by rewrite Hh.
  - by rewrite Hh by set_solver.
  - lia.
  - eapply Forall_impl; [|]. { apply Forall_and; split; [exact Hs|]. apply Forall_forall. intros z Hz. exact Hz. }
    cbn. intros z [Hz1 Hz2]. by rewrite Hh by set_solver.
Qed.

(** The cells below the break that sbrk has added. *)
Definition grown (s s' : heap) (x : Z) : Prop := s.(brk) / HSIZE ≤ x < s'.(brk) / HSIZE.

(** The headers outside the cells [F] are left alone. *)
Definition kept (F : Z → Prop) (s s' : heap) : Prop := ∀ z, ¬ F z → z ≠ base → s'.(hdr) z = s.(hdr) z.

(** What morecore asks sbrk for. *)
Definition asked (nu : Z) : Z := Z.max 4096 nu * HSIZE.

(** morecore returns null and changes nothing, or adds what it got from sbrk
    to the free cells, with room for the request in one block. *)
Lemma morecore_ok n nu s l : heap_ok s l → 1 ≤ nu → nu * HSIZE < 2 ^ 31 → (2 * length l + 2 < n)%nat →
  morecore n nu s = Some (None, s) ∧ sbrk s.(brk) (asked nu) = None ∨
  ∃ p s' l', morecore n nu s = Some (Some p, s') ∧ s'.(freep) = Some p ∧ heap_ok s' l' ∧
    (length l' ≤ S (length l))%nat ∧ (∃ z, z ∈ l' ∧ nu ≤ (s'.(hdr) z).(size)) ∧
    s'.(brk) = s.(brk) + asked nu ∧ kept (λ x, cell s.(hdr) l x ∨ grown s s' x) s s' ∧
    ∀ x, cell s'.(hdr) l' x ↔ cell s.(hdr) l x ∨ grown s s' x.
Proof.
  intros Hok Hnu Hmax Hn. unfold asked, morecore, HSIZE in *.
  assert (Z.max 4096 nu = if nu <? 4096 then 4096 else nu) as -> by (destruct (Z.ltb_spec nu 4096); lia).
  set (nu' := if nu <? 4096 then 4096 else nu).
  assert (nu ≤ nu' ∧ nu' * 16 < 2 ^ 31) as [Hnu' Hmax'] by (unfold nu'; destruct (Z.ltb_spec nu 4096); lia).
  rewrite (s32_small (nu' * 16)) by lia.
  destruct (sbrk s.(brk) (nu' * 16)) as [b'|] eqn:Hsb; [|by left]. right.
  assert (0 ≤ nu' * 16) as Hpos by lia. destruct (sbrk_grows _ _ _ Hpos Hsb) as [-> Hb'].
  pose proof (ho_brk _ _ Hok) as Hmod. unfold HSIZE in Hmod.
  assert ((s.(brk) + nu' * 16) / 16 = s.(brk) / 16 + nu') as Hdiv by (by rewrite Z.div_add).
  assert (heap_ok (mk_heap (set_size (s.(brk) / 16) nu' s.(hdr)) s.(freep) (s.(brk) + nu' * 16)) l) as Hok'.
  { apply heap_ok_grow; unfold HSIZE; [done|lia| |done]. by rewrite Z_mod_plus_full. }
  pose proof (ho_above _ _ Hok) as Hab. unfold HSIZE in Hab.
  assert (∀ x, cell (set_size (s.(brk) / 16) nu' s.(hdr)) l x ↔ cell s.(hdr) l x) as Hsame.
  { intros x. apply cell_ext. intros z Hz. unfold set_size. rewrite upd_ne; [done|]. intros ->.
    pose proof (lay_bounds _ _ _ _ _ (ho_lay _ _ Hok) (proj2 (elem_of_cons _ _ _) (or_intror Hz))).
    pose proof (proj1 (Forall_forall _ _) (ho_size _ _ Hok) _ Hz). unfold HSIZE in *. cbn in *. lia. }
  destruct (free_ok n (s.(brk) / 16) _ l Hok') as (s' & l' & Hf & Hok2 & Hbrk & Hlen & Hkept & Hc).
  - done.
  - cbn. unfold set_size. rewrite upd_eq. cbn. lia.
  - cbn. unfold set_size, HSIZE. rewrite upd_eq. cbn. lia.
  - cbn. intros x Hx (z & Hz & Hzx)%Hsame.
    pose proof (lay_bounds _ _ _ _ _ (ho_lay _ _ Hok) (proj2 (elem_of_cons _ _ _) (or_intror Hz))).
    unfold HSIZE in *. lia.
  - done.
  - cbn [hdr brk] in *. unfold set_size in Hc. rewrite upd_eq in Hc. cbn [size] in Hc. fold (set_size (s.(brk) / 16) nu' s.(hdr)) in Hc.
    destruct (ho_freep _ _ Hok2) as (p & Hfp & _). exists p, s', l'. rewrite Hf. cbn. rewrite Hfp.
    split; [done|]. split; [done|]. split; [done|]. split; [done|]. split.
    + pose proof (ho_lay _ _ Hok2) as (_ & _ & Hlay).
      destruct (run_in_block _ _ _ _ (s.(brk) / 16) nu' Hlay) as (z & Hz & Hsz); [lia| |].
      * intros y Hy. apply Hc. by right.
      * exists z. split; [done|lia].
    + split; [by rewrite Hbrk|]. split; [|intros x; rewrite Hc, Hsame; unfold grown, HSIZE; by rewrite Hbrk, Hdiv].
      intros z Hz Hzb. assert (z ≠ s.(brk) / 16) as Hne.
      { intros ->. apply Hz. right. unfold grown, HSIZE. rewrite Hbrk, Hdiv. lia. }
      rewrite Hkept; [unfold set_size; by apply upd_ne| |done].
      apply not_elem_of_cons. split; [done|]. intros Hzl. apply Hz. left. by apply head_cell.
Qed.

(** ** Taking a block *)

Lemma lay_shrink h h' lo r hi : (∀ z, z ∈ r → 0 ≤ (h' z).(size) ≤ (h z).(size)) →
  lay h lo r hi → lay h' lo r hi.
Proof.
  revert lo. induction r as [|x r IH]; intros lo; cbn; [done|]. intros He (H1 & H2 & H3).
  pose proof (He x ltac:(set_solver)). split; [done|]. split; [lia|].
  eapply lay_lo; [apply IH; [|exact H3]|lia]. intros z Hz. apply He. set_solver.
Qed.

(** A free block's cells are no other free block's. *)
Lemma cell_block h lo l hi p x z : lay h lo l hi → p ∈ l → z ∈ l →
  p ≤ x < p + (h p).(size) → z ≤ x < z + (h z).(size) → z = p.
Proof. intros Hl Hp Hz H1 H2. destruct (lay_gap _ _ _ _ _ _ Hl Hp Hz) as [->|[?|?]]; [done|lia..]. Qed.

(** What malloc promises of the block at [bp] it takes from the cells [F]. *)
Definition taken (F : Z → Prop) (s s' : heap) (l' : list Z) (bp nunits : Z) : Prop :=
  kept F s s' ∧ heap_ok s' l' ∧ (s'.(hdr) bp).(size) = nunits ∧ base < bp ∧
  (∀ x, bp ≤ x < bp + nunits → F x) ∧
  ∀ x, cell s'.(hdr) l' x ↔ F x ∧ ¬ bp ≤ x < bp + nunits.

(** The whole block. *)
Lemma take_whole s l pv p : heap_ok s l → pv ∈ base :: l → (s.(hdr) pv).(ptr) = p → p ∈ l →
  let s' := mk_heap (set_ptr pv (s.(hdr) p).(ptr) s.(hdr)) (Some pv) s.(brk) in
  ∃ l', (length l' ≤ length l)%nat ∧ taken (cell s.(hdr) l) s s' l' p (s.(hdr) p).(size).
Proof.
  intros Hok Hpv Hpp Hpl s'. pose proof (base_lt _ _ _ _ (ho_lay _ _ Hok) Hpl) as Hbp.
  destruct Hok as [Hp Hl H0 Hab Hs Hfp Hbrk Hbmax]. rewrite H0 in Hbp.
  destruct (list_elem_of_split _ _ Hpv) as (a & b & Hr).
  pose proof Hp as Hp'. pose proof Hl as Hl'. rewrite Hr in Hp', Hl'.
  apply path_app in Hp' as [Hpa [Hpq Hpb]]. apply lay_app in Hl' as (Hla & Hsq & Hlb).
  cbn [hd] in Hpa. rewrite Hpp in Hpq. destruct b as [|p' b]; cbn [hd] in Hpq; [lia|]. subst p'.
  destruct Hpb as [Hpp' Hpb]. destruct Hlb as (Hlb1 & Hlb2 & Hlb3).
  set (h' := set_ptr pv (s.(hdr) p).(ptr) s.(hdr)) in *.
  assert (∀ z, (h' z).(size) = (s.(hdr) z).(size)) as Hsz.
  { intros z. unfold h', set_ptr, upd. case_match eqn:E; [|done]. bool_hyps. by subst. }
  assert (∀ z, z ≠ pv → h' z = s.(hdr) z) as Ho by (intros; by apply upd_ne).
  destruct (reassemble s.(hdr) h' a pv b (s.(brk) / HSIZE)) as [G1 G2]; rewrite ?Hsz; try done.
  - intros z Hz. apply Ho. pose proof (lay_bounds _ _ _ _ _ Hla Hz). lia.
  - unfold h', set_ptr. rewrite upd_eq. exact Hpp'.
  - eapply path_ext; [|exact Hpb]. intros z Hz. rewrite Ho; [done|].
    pose proof (lay_bounds _ _ _ _ _ Hlb3 Hz). lia.
  - eapply lay_lo; [eapply lay_ext; [|exact Hlb3]|lia]. by intros.
  - assert (∃ l', a ++ pv :: b = base :: l') as [l' Hr'] by (destruct a; injection Hr as <- ?; eauto).
    assert (∀ z, z ∈ base :: l' ↔ z ∈ base :: l ∧ z ≠ p) as Hin.
    { intros z. rewrite Hr, <-Hr'. split; [|set_solver].
      intros Hz. split; [set_solver|]. intros ->. apply elem_of_app in Hz as [Hz|[Hz|Hz]%elem_of_cons].
      - pose proof (lay_bounds _ _ _ _ _ Hla Hz). lia.
      - subst. lia.
      - pose proof (lay_bounds _ _ _ _ _ Hlb3 Hz). lia. }
    rewrite Hr' in G1, G2. exists l'.
    assert (∀ z, z ∈ l' ↔ z ∈ l ∧ z ≠ p) as Hin'.
    { intros z. specialize (Hin z). pose proof (base_lt _ _ _ z G2) as B1.
      pose proof (base_lt _ _ _ z Hl) as B2. rewrite Hsz in B1. rewrite !elem_of_cons in Hin.
      split; [intros Hz; specialize (B1 Hz)|intros [Hz Hne]; specialize (B2 Hz)]; naive_solver lia. }
    split; [apply (f_equal length) in Hr, Hr'; rewrite length_app in Hr, Hr'; cbn in Hr, Hr'; lia|].
    split; [|split; [|split; [apply Hsz|split; [lia|split]]]].
    + intros z Hz Hzb. apply Ho. intros ->. apply Hz. exists pv.
      assert (pv ∈ l) as Hpvl by set_solver. pose proof (proj1 (Forall_forall _ _) Hs pv Hpvl). cbn in *. by split; [|lia].
    + split; cbn [hdr freep brk]; rewrite ?Hsz; try done.
      * apply Forall_forall. intros z [Hz _]%Hin'. rewrite Hsz. by apply (proj1 (Forall_forall _ _) Hs).
      * exists pv. split; [done|]. rewrite <-Hr'. set_solver.
    + intros x Hx. exists p. done.
    + intros x. change s'.(hdr) with h'. unfold cell. setoid_rewrite Hsz. setoid_rewrite Hin'. destruct Hl as (_ & _ & Hl). split.
      * intros (z & [Hz Hne] & Hx). split; [by exists z|]. intros Hx'. by destruct (cell_block _ _ _ _ p x z Hl).
      * intros [(z & Hz & Hx) Hn]. exists z. split; [|done]. split; [done|]. by intros ->.
Qed.

(** The end of a larger block. *)
Lemma take_end s l pv p nunits : heap_ok s l → pv ∈ base :: l → p ∈ l → 1 ≤ nunits < (s.(hdr) p).(size) →
  let bp := p + ((s.(hdr) p).(size) - nunits) in
  let h := set_size bp nunits (set_size p ((s.(hdr) p).(size) - nunits) s.(hdr)) in
  taken (cell s.(hdr) l) s (mk_heap h (Some pv) s.(brk)) l bp nunits.
Proof.
  intros Hok Hpv Hpl Hn bp h. pose proof (base_lt _ _ _ _ (ho_lay _ _ Hok) Hpl) as Hbp.
  destruct Hok as [Hp Hl H0 Hab Hs Hfp Hbrk Hbmax]. rewrite H0 in Hbp.
  assert (bp ∉ base :: l) as Hbpl.
  { intros Hin. destruct (lay_gap _ _ _ _ bp p Hl Hin ltac:(set_solver)) as [?|[?|?]]; [lia| |lia].
    pose proof (lay_bounds _ _ _ _ _ Hl Hin). lia. }
  assert (∀ z, (h z).(ptr) = (s.(hdr) z).(ptr)) as Hptr.
  { intros z. unfold h, set_size, upd. rewrite (proj2 (Z.eqb_neq bp p)) by lia.
    destruct (Z.eqb_spec z bp) as [->|]; [done|]. by destruct (Z.eqb_spec z p) as [->|]. }
  assert ((h p).(size) = (s.(hdr) p).(size) - nunits) as Hhp.
  { unfold h, set_size. rewrite upd_ne by lia. by rewrite upd_eq. }
  assert (∀ z, z ≠ p → z ≠ bp → h z = s.(hdr) z) as Ho by (intros; unfold h, set_size; by rewrite !upd_ne).
  assert (∀ z, z ∈ base :: l → z ≠ p → (h z).(size) = (s.(hdr) z).(size)) as Hsz.
  { intros z Hz Hne. rewrite Ho; [done..|]. by intros ->. }
  split; [|split; [|split; [|split; [lia|split]]]].
  - intros z Hz Hzb. apply Ho; intros ->; apply Hz; exists p; (split; [done|lia]).
  - split; cbn [hdr freep brk]; try done.
    + eapply path_ext; [|exact Hp]. intros; apply Hptr.
    + eapply lay_shrink; [|exact Hl]. intros z Hz. pose proof (lay_bounds _ _ _ _ _ Hl Hz).
      destruct (decide (z = p)) as [->|]; [lia|]. rewrite Hsz by done. lia.
    + rewrite Hsz; [done|set_solver|lia].
    + apply Forall_forall. intros z Hz. destruct (decide (z = p)) as [->|]; [lia|].
      rewrite Hsz by set_solver. by apply (proj1 (Forall_forall _ _) Hs).
    + eauto.
  - cbn. unfold h, set_size. by rewrite upd_eq.
  - intros x Hx. exists p. split; [done|lia].
  - intros x. cbn [hdr]. destruct Hl as (_ & _ & Hl). split.
    + intros (z & Hz & Hx). destruct (decide (z = p)) as [->|Hne].
      * rewrite Hhp in Hx. split; [exists p; split; [done|lia]|lia].
      * rewrite Hsz in Hx by set_solver. split; [by exists z|]. intros Hx'.
        apply Hne, (cell_block _ _ _ _ p x z Hl); [done..|lia|done].
    + intros [(z & Hz & Hx) Hnx]. exists z. split; [done|]. destruct (decide (z = p)) as [->|Hne]; [lia|].
      by rewrite Hsz by set_solver.
Qed.

Lemma take_block_ok s l pv p nunits : heap_ok s l → pv ∈ base :: l → (s.(hdr) pv).(ptr) = p →
  p ∈ base :: l → 1 ≤ nunits ≤ (s.(hdr) p).(size) →
  let '(r, s') := take_block nunits pv p s in
  s'.(brk) = s.(brk) ∧ ∃ l', (length l' ≤ length l)%nat ∧ taken (cell s.(hdr) l) s s' l' (r - 1) nunits.
Proof.
  intros Hok Hpv Hpp Hpin Hn. unfold take_block.
  assert (p ∈ l) as Hpl.
  { apply elem_of_cons in Hpin as [->|?]; [|done]. rewrite (ho_base _ _ Hok) in Hn. lia. }
  destruct (Z.eqb_spec (s.(hdr) p).(size) nunits) as [He|He]; (split; [done|]).
  - replace (p + 1 - 1) with p by lia. rewrite <-He. by apply take_whole.
  - exists l. split; [done|]. rewrite !set_size_eq, Z.add_simpl_r. by apply take_end; [..|lia].
Qed.

(** ** The loop of malloc *)

(** The blocks [vs] after [prev], up to [freep]: one of them fits and is
    taken, or all are too small and the loop turns to morecore. *)
Lemma walk n m nunits s f vs prev : s.(freep) = Some f → path s.(hdr) (prev :: vs) f → f ∉ vs →
  let result := malloc_loop (S (length vs) + n) m nunits prev (s.(hdr) prev).(ptr) s in
  (∃ pv p, pv ∈ prev :: vs ∧ (s.(hdr) pv).(ptr) = p ∧ p ∈ vs ++ [f] ∧ nunits ≤ (s.(hdr) p).(size) ∧
     result = let '(r, s) := take_block nunits pv p s in Some (Some r, s)) ∨
  (∀ z, z ∈ vs ++ [f] → (s.(hdr) z).(size) < nunits) ∧
  result = ('(r, s) ← morecore m nunits s;
            match r with
            | None => Some (None, s)
            | Some p => malloc_loop n m nunits p (s.(hdr) p).(ptr) s
            end).
Proof.
  intros Hf. revert prev. induction vs as [|z vs IH]; intros prev [Hp Hpath] Hn; cbn [length Nat.add malloc_loop hd] in *; rewrite Hp.
  - destruct (Z.leb_spec nunits (s.(hdr) f).(size)).
    + left. exists prev, f. split; [set_solver|]. split; [done|]. split; [set_solver|]. done.
    + right. split; [set_solver by lia|]. by rewrite bool_decide_true.
  - apply not_elem_of_cons in Hn as [Hfz Hn]. destruct (Z.leb_spec nunits (s.(hdr) z).(size)).
    + left. exists prev, z. split; [set_solver|]. split; [done|]. split; [set_solver|]. done.
    + rewrite bool_decide_false by (rewrite Hf; congruence).
      destruct (IH z Hpath Hn) as [(pv & p & H1 & H2 & H3 & H4 & ->)|[H1 ->]].
      * left. exists pv, p. split; [set_solver|]. split; [done|]. split; [set_solver|]. done.
      * right. split; [|done]. intros y [->|Hy]%elem_of_cons; [done|by apply H1].
Qed.

(** The walk once round the list, starting after [freep]. *)
Lemma walk_round s l f : heap_ok s l → s.(freep) = Some f →
  ∃ vs, path s.(hdr) (f :: vs) f ∧ (f ∉ vs) ∧ length vs = length l ∧ ∀ z, z ∈ base :: l ↔ z ∈ vs ++ [f].
Proof.
  intros Hok Hf. destruct Hok as [Hp Hl _ _ _ (f' & Hf' & Hin) _ _]. rewrite Hf in Hf'. injection Hf' as <-.
  destruct (list_elem_of_split _ _ Hin) as (a & b & Hr). exists (b ++ a). rewrite Hr in Hp, Hl.
  apply path_app in Hp as [Hpa [Hpf Hpb]]. apply lay_app in Hl as (Hla & Hsf & Hlb).
  assert (hd f a = base) as Hhd by (destruct a; cbn; by injection Hr as <- ?). cbn [hd] in Hpa.
  split; [|split; [|split]].
  - rewrite app_comm_cons. apply path_app. rewrite Hhd. by split; [split|].
  - rewrite not_elem_of_app. split; intros Hz.
    + pose proof (lay_bounds _ _ _ _ _ Hlb Hz). lia.
    + pose proof (lay_bounds _ _ _ _ _ Hla Hz). lia.
  - apply (f_equal length) in Hr. rewrite length_app in Hr |- *. cbn in Hr. lia.
  - intros z. rewrite Hr. set_solver.
Qed.

Lemma taken_ext (F F' : Z → Prop) s0 s s' l' bp k : (∀ x, F x ↔ F' x) → kept F' s0 s →
  taken F s s' l' bp k → taken F' s0 s' l' bp k.
Proof.
  intros He H0 (H1 & H2 & H3 & H4 & H5 & H6). split; [|split; [done|split; [done|split; [done|split]]]].
  - intros z Hz Hzb. rewrite <-H0 by done. apply H1; [|done]. by rewrite He.
  - intros x Hx. by apply He, H5.
  - intros x. by rewrite H6, He.
Qed.

Lemma units_ok nbytes : 0 ≤ nbytes < 2 ^ 31 - 31 →
  nbytes ≤ (units nbytes - 1) * HSIZE ∧ 1 ≤ units nbytes ∧ units nbytes * HSIZE < 2 ^ 31.
Proof.
  intros Hn. unfold units, HSIZE. pose proof (Z.div_mod (nbytes + 16 - 1) 16 ltac:(lia)).
  pose proof (Z.mod_pos_bound (nbytes + 16 - 1) 16 ltac:(lia)). rewrite u32_small by lia. lia.
Qed.

(** One round of the loop from [freep]. *)
Lemma round_ok n m nunits s l f : heap_ok s l → s.(freep) = Some f → 1 ≤ nunits → (length l < n)%nat →
  (∃ r s' l', malloc_loop n m nunits f (s.(hdr) f).(ptr) s = Some (Some r, s') ∧ s'.(brk) = s.(brk) ∧
     taken (cell s.(hdr) l) s s' l' (r - 1) nunits) ∨
  (∀ z, z ∈ l → (s.(hdr) z).(size) < nunits) ∧
  malloc_loop n m nunits f (s.(hdr) f).(ptr) s =
    ('(r, s) ← morecore m nunits s;
     match r with
     | None => Some (None, s)
     | Some p => malloc_loop (n - S (length l)) m nunits p (s.(hdr) p).(ptr) s
     end).
Proof.
  intros Hok Hf Hn Hlen. destruct (walk_round s l f Hok Hf) as (vs & Hp & Hnf & Hvs & Hin).
  pose proof (walk (n - S (length l)) m nunits s f vs f Hf Hp Hnf) as W. cbn zeta in W.
  replace (S (length vs) + (n - S (length l)))%nat with n in W by lia.
  destruct W as [(pv & p & H1 & H2 & H3 & H4 & ->)|[H1 ->]].
  - left. pose proof (take_block_ok s l pv p nunits Hok) as Ht. destruct (take_block nunits pv p s) as [r s'].
    destruct Ht as (Hb & l' & _ & Ht); [apply Hin; set_solver|done|by apply Hin|done|].
    exists r, s', l'. done.
  - right. split; [|done]. intros z Hz. apply H1, Hin. set_solver.
Qed.

(** C27. malloc of less than 2^31 - 31 bytes always returns, within twice the
    length of the free list.  Null means that no free block was large enough
    and that sbrk, asked for at least the request, failed; the heap is as it
    was.  Otherwise the block returned has room for the request, was free or
    has just been got from sbrk, and is no longer free; all other free cells
    stay free, and the headers of the blocks in use are untouched.  The break
    moves only if no free block was large enough. *)
Theorem malloc_refines n m nbytes s l :
  let s0 := init_list s in
  heap_ok s0 l → 0 ≤ nbytes < 2 ^ 31 - 31 → (2 * length l + 3 < n)%nat → (2 * length l + 2 < m)%nat →
  let full := ∀ z, z ∈ l → (s0.(hdr) z).(size) < units nbytes in
  ∃ r s', malloc n m nbytes s = Some (r, s') ∧
    match r with
    | None => s' = s0 ∧ full ∧ sbrk s0.(brk) (asked (units nbytes)) = None
    | Some ap => nbytes ≤ (units nbytes - 1) * HSIZE ∧
        (s'.(brk) = s0.(brk) ∨ full ∧ s'.(brk) = s0.(brk) + asked (units nbytes)) ∧
        ∃ l', taken (λ x, cell s0.(hdr) l x ∨ grown s0 s' x) s0 s' l' (ap - 1) (units nbytes)
    end.
Proof.
  intros s0 Hok Hnb Hn Hm full. destruct (units_ok nbytes Hnb) as (Hu1 & Hu2 & Hu3).
  destruct (ho_freep _ _ Hok) as (f & Hf & _). unfold malloc. fold s0. rewrite Hf. cbn [mbind option_bind].
  destruct (round_ok n m (units nbytes) s0 l f Hok Hf Hu2) as [(r & s' & l' & -> & Hb & Ht)|[Hsmall ->]]; [lia| |].
  { exists (Some r), s'. split; [done|]. split; [done|]. split; [by left|]. exists l'. eapply taken_ext; [|by intros z|exact Ht].
    intros x. unfold grown. rewrite Hb. intuition lia. }
  destruct (morecore_ok m (units nbytes) s0 l Hok Hu2 Hu3 Hm)
    as [[-> Hno]|(p & s1 & l1 & -> & Hf1 & Hok1 & Hlen & (z & Hz & Hzs) & Hb1 & Hk1 & Hc1)]; [by exists None, s0|].
  cbn [mbind option_bind].
  destruct (round_ok (n - S (length l)) m (units nbytes) s1 l1 p Hok1 Hf1 Hu2)
    as [(r & s' & l' & -> & Hb & Ht)|[Hsmall1 _]]; [lia| |specialize (Hsmall1 z Hz); lia].
  exists (Some r), s'. split; [done|]. split; [done|]. split; [right; by rewrite Hb|]. exists l'.
  eapply taken_ext; [|intros y Hy Hyb; apply Hk1; [|done]|exact Ht].
  - intros x. rewrite Hc1. unfold grown. by rewrite Hb.
  - unfold grown in *. by rewrite <-Hb.
Qed.

(** C28. free ends on any block in use, and makes exactly its cells free
    again: neighbours are joined so that no two free blocks touch, and the
    headers of the other blocks in use are untouched. *)
Theorem free_refines n bp s l :
  let k := (s.(hdr) bp).(size) in
  heap_ok s l → base < bp → 1 ≤ k → bp + k ≤ s.(brk) / HSIZE →
  (∀ x, bp ≤ x < bp + k → ¬ cell s.(hdr) l x) → (2 * length l + 2 < n)%nat →
  ∃ s' l', free n (bp + 1) s = Some s' ∧ heap_ok s' l' ∧
    kept (λ x, cell s.(hdr) l x ∨ x = bp) s s' ∧
    ∀ x, cell s'.(hdr) l' x ↔ cell s.(hdr) l x ∨ bp ≤ x < bp + k.
Proof.
  intros k Hok Hb Hk Hhi Hd Hn.
  destruct (free_ok n bp s l Hok Hb Hk Hhi Hd Hn) as (s' & l' & Hf & Hok' & _ & _ & Hkept & Hc).
  exists s', l'. split; [done|]. split; [done|]. split; [|done]. intros z Hz Hzb. apply Hkept; [|tauto].
  apply not_elem_of_cons. split; [done|]. intros Hzl. apply Hz. left. by apply head_cell.
Qed.
End umalloc.

(** A heap whose sbrk grants everything below 2^36, with nothing allocated. *)
Definition demo_sbrk (b n : Z) : option Z := if b + n <? 2 ^ 36 then Some (b + n) else None.
Definition demo_heap : heap := mk_heap (λ _, mk_header 0 0) None (1000 * HSIZE).

Lemma demo_grows b n b' : 0 ≤ n → demo_sbrk b n = Some b' → b' = b + n ∧ b' < 2 ^ 36.
Proof. unfold demo_sbrk. intros _. case_match eqn:E; bool_hyps; intros [= <-]. done. Qed.

(** The first call of malloc. *)
Lemma malloc_refines_witness :
  ∃ s' l', malloc 100 demo_sbrk 9 9 100 demo_heap = Some (Some 5089, s') ∧
    taken 100 (λ x, grown (init_list 100 demo_heap) s' x) (init_list 100 demo_heap) s' l' 5088 8.
Proof.
  destruct (malloc_refines 100 demo_sbrk ltac:(lia) demo_grows 9 9 100 demo_heap []) as (r & s' & Hm & Hr).
  - split; cbn; unfold HSIZE; try done; try lia; try constructor. exists 100. split; [done|set_solver].
  - lia.
  - cbn. lia.
  - cbn. lia.
  - assert (r = Some 5089) as ->.
    { assert ((λ p : option Z * heap, p.1) <$> malloc 100 demo_sbrk 9 9 100 demo_heap = Some (Some 5089)) as H
        by (by vm_compute). rewrite Hm in H. by injection H. }
    destruct Hr as (_ & _ & l' & Ht). exists s', l'. split; [done|].
    destruct Ht as (H1 & H2 & H3 & H4 & H5 & H6). split; [|split; [done|split; [done|split; [done|split]]]].
    + intros z Hz. apply H1. intros [(y & Hy & _)|Hg]; [by apply not_elem_of_nil in Hy|done].
    + intros x Hx. by destruct (H5 x Hx) as [(y & Hy & _)|Hg]; [apply not_elem_of_nil in Hy|].
    + intros x. rewrite H6. split; intros [Hg Hn]; (split; [|done]); [|by right].
      by destruct Hg as [(y & Hy & _)|Hg]; [apply not_elem_of_nil in Hy|].
Defined.

(** Freeing that block again. *)
Definition demo_used : heap :=
  mk_heap (upd 5088 (mk_header 0 8) (upd 1000 (mk_header 100 4088) (upd 100 (mk_header 1000 0) (λ _, mk_header 0 0))))
    (Some 100) (5096 * HSIZE).

Lemma free_refines_witness : ∃ s' l', free 9 5089 demo_used = Some s' ∧ heap_ok 100 s' l' ∧
  (∀ x, cell s'.(hdr) l' x ↔ cell demo_used.(hdr) [1000] x ∨ 5088 ≤ x < 5096) ∧ (s'.(hdr) 1000).(size) = 4096.
Proof.
  destruct (free_refines 100 demo_sbrk ltac:(lia) 9 5088 demo_used [1000]) as (s' & l' & Hf & Hok & _ & Hc).
  - split; cbn; unfold HSIZE; try done; try lia.
    + by repeat constructor.
    + exists 100. split; [done|set_solver].
  - lia.
  - by vm_compute.
  - by vm_compute.
  - intros x Hx (z & Hz & Hzx). apply elem_of_cons in Hz as [->|Hz]; [|by apply not_elem_of_nil in Hz].
    cbn in Hx, Hzx. lia.
  - cbn. lia.
  - exists s', l'. split; [exact Hf|]. split; [done|]. split; [exact Hc|].
    assert ((λ s, (s.(hdr) 1000).(size)) <$> free 9 5089 demo_used = Some 4096) as H by (by vm_compute).
    change (5088 + 1) with 5089 in Hf. rewrite Hf in H. by injection H.
Defined.

(** morecore passes the byte count to sbrk as an int: for a request of
    2^32 - 16 bytes it asks for 0 bytes, and malloc returns a block of memory
    that the process does not have. *)
Lemma malloc_unbacked :
  let r := malloc 100 demo_sbrk 9 9 (2 ^ 32 - 16) demo_heap in
  (λ p : option Z * heap, (p.1, p.2.(brk))) <$> r = Some (Some 1001, demo_heap.(brk)) ∧
  (λ p : option Z * heap, (p.2.(hdr) 1000).(size)) <$> r = Some (2 ^ 28).
Proof. split; by vm_compute. Qed.
